(* ===== verification/_CoqProject ===== *)
-Q . S2P
Prelude.v
PyList.v
PyStr.v
PyDecimal.v
DecimalFacts.v
DecimalContext.v
PyParse.v
PyTime.v
IsoTime.v
PyFloat.v
FloatFacts.v
PyFormat.v
PyValue.v
Adapters.v
Discovery.v
Sha256.v
Candles.v
Serialization.v
HtfModels.v
SupportZones.v
StructureEvents.v
HtfEngine.v
ReclaimModels.v
ReclaimEngine.v
LBank.v
LBankAdapter.v
Benchmarks.v
MarketParsing.v
HttpClient.v
BenchmarkAdapters.v
BybitKline.v
Repository.v
CandleRepository.v
StructureRepository.v
Consensus.v
Workflow.v
Planning.v
Signals.v
Backtest.v
Runtime.v
SourceCache.v
ReclaimSource.v
DiscoveryAdapters.v
ReclaimRepository.v
Confirmation.v
Orchestration.v
RuntimeStore.v
SharedStore.v
Supervision.v
SignalProviders.v
SignalStore.v
Worker.v
Watchlist.v
WorkerLoop.v
Schema.v
Columns.v
StructureColumns.v
CandleColumns.v
ConfirmationColumns.v
Notifications.v
Overview.v
Ops.v
Api.v
