(* ===== verification/Prelude.v ===== *)
(** * Dumpectorist: verification library

    Dumpectorist (src/app, Python) watches perpetual-futures markets for short setups.
    A worker polls market data adapters; candles are checked, stored and turned into
    higher-timeframe structure (support zones and what happened to them) and into reclaim
    attempts; a request that gathers this evidence is passed through eleven gates and
    either becomes a SHORT_READY signal with a plan and a life cycle, or a report that
    says which gate stopped it.  A backtest replays plans over historical bars.

    This library is a model of that program in Gallina, translated function by function,
    and the theorems that it does what it is for.

    ** How to read it

    A frozen dataclass is a [Record] in a [Module] of its name; its [__post_init__] is the
    function [new], which returns the normalised record or the first exception, in the
    order of the code.  An [Enum] is an [Inductive] with a [value] function.  Code that
    can raise returns [res A] (this file): [Ok] or [Err], with the exception's class and
    text, sequenced by [x <- m; k] in the order of evaluation.  Code that changes an
    object returns the object after the call beside its result, so that what an exception
    leaves behind can be seen.  A loop is a recursion on the list it runs over, its local
    variables passed along.  Only the loops of the worker may run for ever and take fuel
    ([WorkerLoop]: one more than the number of rounds is enough), and the reading of a file
    ([Ops]: [reads]).  The Python layer has bounded loops,
    each with a bound it cannot reach: the digits of a number ([ndigits], at most log2 of
    it), the zeros stripped from a quotient ([strip_zeros], which has at most 30 digits),
    the 17 digits of a float's [repr] ([repr_search]) and the blocks of a digest
    ([compress_all], the number of words).
    Names are those of the source; a long function is cut at its branches, and the file
    that holds it says how.

    What is outside the package is a parameter.  Four classes state what the code relies
    on, each with an instance: [Ddl] (a database executes every statement that makes sense
    for its schema; [schema_ddl]), [ColumnTypes] (a column keeps a value that fits its type, and
    rounds a number to its scale; [sql_columns]), [Table] (rows found by key, a written row read back as the
    column types store it, queries that see every row once; [gmap_table]), and [FromIso]
    ([datetime.fromisoformat] reads what [isoformat] writes; [extended_iso]).  Records of
    functions carry what a call meets: [Net] and [Source] (responses, clocks,
    [perf_counter]), [Env] (clock, adapter and store of a run), [World] and [Round] (what a cycle of
    the supervisor meets), [FileSystem], [Client] and [Probe] (what the operations read and
    ask).  Functions stand for what a library may refuse: [create_async_engine] (an
    engine for the URL of the settings), [refusal] (the first statement, flush or commit of
    a transaction the database refuses) and the routes FastAPI registers itself.  The
    witnesses instantiate them.

    ** The files

    The Python layer:
    - [Prelude]: exceptions, results, the tactics [guards], [res_inv] and [res_ok], and
      lemmas on lists and options.  [PyList]: [sorted], [min], [max], first and last
      matches, proved against the class [PyOrd] of key orders and its laws [PyOrdLaws].
      [PyStr]: [strip], [upper], [lower] and the printing of integers.
    - [PyDecimal], [DecimalFacts]: [decimal.Decimal] at 28 digits, half-even, as an exact
      rational rounded once, and the lemmas that rounding does not cross a number of at
      most 28 digits.  [DecimalContext]: the limits of the exponent, when an operation on
      numbers of moderate size meets none of them, and what it raises otherwise.
      [PyFloat], [FloatFacts]: IEEE binary64 in the same manner.
      [PyTime]: aware datetimes in microseconds, [timedelta].  [PyParse], [IsoTime]: the
      texts of numbers and of times, read and printed.  [PyFormat]: the format [%g].  [PyValue]: decoded JSON, with
      [str], [repr], [int] and [Decimal] of it.  [Sha256]: [hashlib.sha256].

    Sources of data:
    - [HttpClient]: http_client.py.  [Adapters]: adapters/models.py, parsers.py.  [MarketParsing]: benchmark_utils.py.
      [LBankAdapter]: lbank_parser.py, lbank.py.  [BenchmarkAdapters]: benchmark_base.py,
      mexc_futures.py, gate_public.py, bybit_futures.py, binance_futures.py.
      [BybitKline]: bybit_kline.py.  [Discovery]: discovery_models.py.  [SourceCache]:
      source_cache.py.  [DiscoveryAdapters]: discovery_base.py, dex_screener.py,
      coingecko.py.

    The engines:
    - [Candles], [Serialization]: candles/models.py, health.py, serialization.py.
    - [HtfModels], [SupportZones], [StructureEvents], [HtfEngine]: structure/htf_models.py,
      support_zones.py, structure_events.py and htf_engine.py.
    - [ReclaimModels], [ReclaimEngine], [ReclaimSource]: setups/reclaim_models.py,
      reclaim_engine.py and the choice of its inputs in runtime_analysis.py.
    - [LBank], [Benchmarks], [Consensus]: adapters/lbank_models.py, benchmark_models.py and
      benchmark_health.py, execution/lbank_validator.py, symbol_mapping.py, consensus.py.
    - [Workflow]: core/numbers.py, structure/models.py and analyzer.py, setups/models.py
      and classifier.py, flow/.  [Planning]: planning/, lifecycle/, strategy/review.py.
    - [Signals]: signals/models.py, service.py.  [Backtest]: backtest/.  [Watchlist]:
      watchlist/, and [input_from_watchlist] of structure/analyzer.py.

    Storage:
    - [Repository]: the class [Table] and the upsert the repositories share.
      [CandleRepository]: candles/repository.py.  [StructureRepository]:
      structure/htf_repository.py.  [ReclaimRepository]: setups/reclaim_repository.py and
      the persisting functions of runtime_analysis.py.  Their records are the mapped
      columns of db/models.py and db/reclaim_records.py.
    - [Schema]: the tables those two files declare, and src/migrations that builds them.
    - [RuntimeStore]: runtime/store.py, db/repository.py, setups/runtime_m15.py,
      runtime_records.py, atomic_runtime_store.py.  [SignalStore]: signals/store.py,
      pipeline.py.  [SignalProviders]: signals/htf_provider.py, reclaim_provider.py.
    - [Columns]: what a column of db/models.py keeps of a value.  [StructureColumns],
      [CandleColumns]: the rows of structure/htf_repository.py and candles/repository.py in
      the tables of [Schema].
    - [Confirmation], [ConfirmationColumns]: no code of their own; the composition of the
      repositories with the two paths to a reclaim attempt, over rows the tables keep, and
      in the tables of [Schema], which keep them when the market's numbers fit.

    The worker:
    - [Runtime]: runtime/models.py, and of scheduler.py the claim of [run_due] and the run
      of one job.  [Orchestration]: the tasks that [run_due] gathers, as actions of an
      event loop with cancellations.  [SharedStore]: those tasks on one database.
      [Supervision]: runtime/supervisor.py, telemetry.py,
      retention.py.  [Worker]: core/config.py, runtime/factory.py, job_registry.py,
      worker.py.  [WorkerLoop]: the loops of the supervisor and of the orchestrator.

    What is read from outside:
    - [Overview]: overview/.  [Notifications]: notifications/.  [Ops]: ops/.  [Api]:
      core/enums.py, api/, overview/runtime.py, main.py.

    ** How the parts interact

    [Worker] builds the adapters and jobs the settings ask for, the orchestrator of
    [Runtime] and the supervisor of [Supervision].  A job loads a payload from an adapter
    and hands it to [RuntimeStore]; a structure payload is read back by [Serialization],
    its candles upserted by [CandleRepository], analysed by [HtfEngine] (which calls
    [SupportZones] and [StructureEvents]) and upserted by [StructureRepository]; the
    attempt of [ReclaimEngine] is derived by [ReclaimSource], or by [ReclaimRepository]
    from the tables when a 15M payload confirms a stored break.  [SignalProviders] read the
    tables into a request.  [Signals] calls [Workflow], [LBank], [Consensus] and
    [Planning] in order and assembles the report, which [SignalStore] records; it only
    reads discovery records.  [Backtest] takes a plan of [Planning], and [Notifications]
    prints it.  [Orchestration] runs [Runtime]'s jobs at once and is proved to be a trace of
    [Runtime]'s claims and releases; [WorkerLoop] repeats [Supervision]'s cycle over it for
    the worker [Worker] builds.  [Overview] and [Ops] read the records of [RuntimeStore];
    [Api] serves both.

    ** What the theorems show

    - The data types: a constructor accepts a value exactly when its documented
      invariants hold, and the values the program builds satisfy them
      ([candle_constructor_sound], [batch_constructor_complete]).
    - The sources: what an adapter reports as OK satisfies every invariant, and no body of a
      response makes it look down but one with a book whose numbers the decimal context
      cannot compute with ([lbank_load_classified]); an OK candle payload is read
      back as the batch that was fetched, closed and fresh ([kline_payload_is_read_back],
      [payload_roundtrip]); the network is asked exactly when the cache has no answer and
      the budget has room ([network_is_budgeted], on [cache_get_exact] and
      [budget_window_exact]).
    - The engines: zones are made of separated local lows, partitioned into clusters,
      without look-ahead ([pivots_are_separated_local_lows], [clusters_partition_pivots],
      [derive_support_zones_sound]), and the default rules never raise
      ([derive_support_zones_total]).  The event loop refines a step relation, the life
      cycle of a zone ([events_refine_life_cycle]), does not repaint, and the evidence
      means what its status says ([evidence_status_meaning],
      [analysis_evidence_correct]).  A reclaim attempt means what its outcome says and a
      successful reclaim is final; the structure engine gives the reclaim engine inputs it
      accepts ([structure_feeds_reclaim]).
    - Storage, in the declared columns: an upsert of candles of at most eighteen decimals is
      exact and idempotent ([upsert_batch_exact]; [fine_volume_is_rewritten] shows what
      happens to others, [upsert_rows_exact] is the lemma of every repository), a
      confirmation from the tables resumes the analysis that wrote them
      ([confirmation_resumes_structure]), and what the engine finds fits and comes back
      equal ([analysis_survives_columns]).  Every run leaves its records, unless the
      database refuses them or an analysis raises, which its outcome then says
      ([every_run_is_recorded]), and so does every report ([assembly_is_recorded]); a
      request derived from the tables is linked to the break it rests on
      ([derived_setup_is_linked]).
    - Execution safety: what must hold when execution is confirmed
      ([consensus_allows_safely]), exact health and freshness classifications to the
      microsecond in spite of float and decimal arithmetic.
    - The decision: SHORT_READY exactly when the nine conditions of the gates hold, and
      otherwise the status of the first that fails ([short_ready_iff],
      [report_gates_exact]); when there is a report, and what leaves the
      assembly otherwise ([assemble_signal_total]; [entry_escapes] is a case).
    - Plans, life cycles as a step relation with its invariants, backtests against a
      declarative reference ([run_backtest_exact]), consistent metrics.
    - The worker: accepted settings, whose database URL gives an engine, give a worker whose
      jobs cannot be wedged ([accepted_settings_start]; [undated_interval_wedges_jobs] shows what the bounds of
      the settings keep out).  The scheduler is a transition system whose events interleave
      freely: a job never overlaps itself and is spaced by its interval
      ([claims_are_spaced]), every run ends with an outcome that has its cause
      ([run_job_total]), and a success was stored ([success_is_stored]).  The supervisor's
      metrics and alerts are those of the whole history ([run_cycle_exact]).
    - Concurrency: every execution of the tasks, in any order and with any cancellations,
      is a trace of the scheduler in which a name is in flight exactly while a task holds
      it, and a task ends as if it were alone ([executions_refine_trace]); a call
      terminates and returns the outcomes in order ([run_due_terminates]) and equals the
      sequential one ([run_due_sequential]); the one way to lose a name is to be cancelled
      before the first step ([cancelled_before_start_wedges]).  On one database every run
      that ended leaves its one record and no other ([concurrent_runs_are_recorded]).  The worker of accepted
      settings runs until it is stopped and stops then ([worker_runs_until_stopped]), and
      runs every job in the first round at or after its time ([job_runs_when_due]).
    - What is read from outside: the migrations build the declared tables from any revision
      ([migrations_build_the_models]); the summary of the stored records is exact
      ([overview_summary_exact]) and agrees with the count of the objects
      ([overviews_agree]); the prices of a message read back as those of the plan to six
      digits ([plan_message_reads_back]); manifests are exact and written atomically
      ([backup_manifest_exact], [manifest_write_atomic]); health reports are exact and never
      raise ([health_exact]); audit records stay ([audit_trail_kept]); the API only reads,
      and its own routes are three ([api_reads_only]).

    ** What is not modelled

    The sign of zero; characters past ASCII.  The exponent limits of the decimal context
    are modelled in the adapters, the consensus and the signals; on the path of the candles
    ([SupportZones], [StructureEvents], [ReclaimEngine], the comparisons of the
    repositories) arithmetic has 28 digits but no limit of the exponent, so that the
    exceptions it would raise for numbers past 10^999999 are missing there, as is the
    exception of a text with an exponent past 10^18.  Datetimes outside the years 1..9999,
    for which Python raises, are modelled where a time comes from a setting or a document
    (the expiry of a life cycle, the close of a candle) and the range of
    [timedelta(seconds=x)] everywhere; other sums of times are unbounded integers; object
    identity (the modelled records are frozen, and mutable objects are owned by one
    caller); the interleaving of two transactions, and cancellation inside a transaction
    (the store of a run answers at once); the sinks of the log.  A task that runs without
    waiting at an await is the special case in which its steps follow each other.  The SQL
    of a query is outside: a query is its filter, order and limit over the rows of a
    [Table], and the groups of the overview's query are the hypothesis [grouped].  httpx,
    pydantic's dumps, FastAPI, Alembic and the engine of SQLAlchemy (db/base.py,
    db/session.py) are outside; a file system obeys every step it is given.  A database
    that refuses is modelled for the run of a job ([every_run_is_recorded]); [SharedStore]
    and [SignalStore] are about one that refuses nothing.  The rows of reclaim attempts and
    domain records are not compared with the widths of their columns as those of candles,
    zones and events are: a domain record takes its symbol from a payload of any length,
    and a database that refuses it is a case of [refusal]. *)

From Stdlib Require Export ZArith Lia Bool.
From stdpp Require Export base option list strings gmap.

#[global] Open Scope Z_scope.

(** ** Exceptions and results

    Python's exceptions are values: the class name and the text of [str(error)].
    Fallible code returns [res A]; the stdpp monad notations ([x ← m; k], [m ;; k])
    sequence it, the first exception winning as in Python. *)

Record exn : Type := Exn { exn_type : string; exn_detail : string }.

#[export] Instance exn_eq_dec : EqDecision exn.
Proof. solve_decision. Defined.

Inductive res (A : Type) : Type :=
| Ok (a : A)
| Err (e : exn).
Arguments Ok {A} a.
Arguments Err {A} e.

#[export] Instance res_ret : MRet res := @Ok.
#[export] Instance res_bind : MBind res :=
  fun A B f m => match m with Ok a => f a | Err e => Err e end.
#[export] Instance res_fmap : FMap res :=
  fun A B f m => match m with Ok a => Ok (f a) | Err e => Err e end.

Definition ValueError (msg : string) : exn := Exn "ValueError" msg.
Definition TypeError (msg : string) : exn := Exn "TypeError" msg.
Definition KeyError (msg : string) : exn := Exn "KeyError" msg.

(** [if b: raise ValueError(msg)] *)
Definition raise_if (b : bool) (msg : string) : res unit :=
  if b then Err (ValueError msg) else Ok tt.

Definition is_ok {A} (r : res A) : bool :=
  match r with Ok _ => true | Err _ => false end.

(** [try: r except Exception as error: handler(error)] *)
Definition try_except {A} (r : res A) (handler : exn -> A) : A :=
  match r with Ok a => a | Err e => handler e end.

Section res_lemmas.
Context {A B : Type}.

Lemma bind_Ok (m : res A) (f : A -> res B) (b : B) :
  (m ≫= f) = Ok b <-> exists a, m = Ok a /\ f a = Ok b.
Proof.
  split; [|by intros (a & -> & ?)]. destruct m as [a|e]; [|done]. by exists a.
Qed.

Lemma bind_Err (m : res A) (f : A -> res B) (e : exn) :
  (m ≫= f) = Err e <-> m = Err e \/ exists a, m = Ok a /\ f a = Err e.
Proof.
  split.
  - destruct m as [a|e']; simpl; intros H; [right; by exists a|left; congruence].
  - by intros [-> | (a & -> & ?)].
Qed.

Lemma fmap_Ok (m : res A) (f : A -> B) (b : B) :
  f <$> m = Ok b <-> exists a, m = Ok a /\ b = f a.
Proof.
  split; [|by intros (a & -> & ->)]. destruct m as [a|e]; [|done].
  intros [= <-]. by exists a.
Qed.
End res_lemmas.

Lemma raise_if_Ok b msg u : raise_if b msg = Ok u <-> b = false.
Proof. destruct b, u; naive_solver. Qed.

Lemma raise_if_Err b msg e : raise_if b msg = Err e <-> b = true /\ e = ValueError msg.
Proof. destruct b; naive_solver. Qed.

(** [mapM] over [res] succeeds exactly when every element does. *)
Lemma mapM_Ok {A B} (f : A -> res B) (l : list A) (k : list B) :
  mapM f l = Ok k <-> Forall2 (fun x y => f x = Ok y) l k.
Proof.
  revert k; induction l as [|x l IH]; intros k; simpl.
  - split; [intros [= <-]; constructor | by inversion 1].
  - rewrite bind_Ok. setoid_rewrite bind_Ok. split.
    + intros (y & Hy & k' & Hk & [= <-]). constructor; [done|by apply IH].
    + inversion 1; subst. eexists; split; [done|]. eexists; split; [by apply IH|done].
Qed.

Lemma mapM_elem {A B} (f : A -> res B) (l : list A) (k : list B) y :
  mapM f l = Ok k -> y ∈ k -> exists x, x ∈ l /\ f x = Ok y.
Proof.
  intros Hm%mapM_Ok Hy. induction Hm as [|x z l k Hx _ IH]; [set_solver|].
  apply elem_of_cons in Hy as [->|Hy]; [exists x; set_solver|].
  destruct (IH Hy) as (w & ? & ?). exists w. set_solver.
Qed.

(** [res_inv] turns every hypothesis that says a monadic chain succeeded into the
    success of its links. *)
Ltac res_inv1 :=
  match goal with
  | H : mbind _ _ = Ok _ |- _ =>
      let x := fresh "v" in let Hx := fresh "H" in
      apply bind_Ok in H as (x & Hx & H); cbn beta in H
  | H : fmap _ _ = Ok _ |- _ =>
      let x := fresh "v" in let Hx := fresh "H" in apply fmap_Ok in H as (x & Hx & H)
  | H : raise_if _ _ = Ok _ |- _ => apply raise_if_Ok in H
  | H : Ok _ = Ok _ |- _ => injection H as H
  | H : Err _ = Ok _ |- _ => discriminate H
  | H : Ok _ = Err _ |- _ => discriminate H
  | H : None = Some _ |- _ => discriminate H
  | H : Some _ = None |- _ => discriminate H
  | H : mret _ = Ok _ |- _ => unfold mret, res_ret in H; injection H as H
  | x : unit |- _ => destruct x
  end.
Ltac res_inv := repeat res_inv1.

(** A guard that does not fire, and the converse tactic: [res_ok tac] runs a chain of
    guards, [tac] showing that each is false. *)
Lemma guard_pass {A} b msg (k : unit -> res A) : b = false -> (raise_if b msg ≫= k) = k tt.
Proof. by intros ->. Qed.

Lemma guard_false (P : Prop) `{Decision P} : negb (bool_decide P) = false <-> P.
Proof. rewrite negb_false_iff. apply bool_decide_eq_true. Qed.

Lemma guard_true (P : Prop) `{Decision P} : negb (bool_decide P) = true <-> ~ P.
Proof. rewrite negb_true_iff. apply bool_decide_eq_false. Qed.

Lemma Ok_bind {A B} (a : A) (f : A -> res B) : (Ok a ≫= f) = f a.
Proof. done. Qed.

(** For values that [injection] would unfold. *)
Lemma Ok_inj {A} (a b : A) : Ok a = Ok b -> a = b.
Proof. by intros [= ->]. Qed.

(** [bind_ok]: run the steps whose result is known.  (By rewriting: reducing a long
    chain leaves the kernel comparing the whole chain with its reduct.) *)
Ltac bind_ok := rewrite ?Ok_bind; cbv beta.

Ltac res_ok tac :=
  repeat first
    [ rewrite guard_pass; [cbv beta | solve [tac]]
    | progress bind_ok ].

(** [guards]: the guards that did not fire, as facts. *)
Ltac guard1 :=
  match goal with
  | H : negb (bool_decide _) = false |- _ => apply guard_false in H
  | H : bool_decide _ = true |- _ => apply bool_decide_eq_true in H
  | H : bool_decide _ = false |- _ => apply bool_decide_eq_false in H
  | H : negb _ = false |- _ => apply negb_false_iff in H
  | H : negb _ = true |- _ => apply negb_true_iff in H
  | H : _ || _ = false |- _ => apply orb_false_iff in H as [? ?]
  | H : _ && _ = true |- _ => apply andb_true_iff in H as [? ?]
  | H : (_ =? _) = true |- _ => apply Z.eqb_eq in H
  | H : (_ =? _) = false |- _ => apply Z.eqb_neq in H
  | H : (_ <? _) = true |- _ => apply Z.ltb_lt in H
  | H : (_ <? _) = false |- _ => apply Z.ltb_ge in H
  | H : (_ <=? _) = true |- _ => apply Z.leb_le in H
  | H : (_ <=? _) = false |- _ => apply Z.leb_gt in H
  end.
Ltac guards := res_inv; repeat guard1.

(** Boolean goals and hypotheses to propositions. *)
Ltac bool_prop :=
  rewrite ?orb_true_iff, ?orb_false_iff, ?andb_true_iff, ?andb_false_iff,
    ?negb_true_iff, ?negb_false_iff, ?Z.ltb_lt, ?Z.ltb_ge, ?Z.leb_le, ?Z.leb_gt,
    ?Z.eqb_eq, ?Z.eqb_neq in *.

(** Case analysis on the innermost [if]/[match] of the goal. *)
Ltac split_match :=
  match goal with
  | |- context [match ?x with _ => _ end] => destruct x eqn:?
  end.
Ltac split_match_in H :=
  match type of H with
  | context [match ?x with _ => _ end] => destruct x eqn:?
  end.
