(* ===== verification/PyList.v ===== *)
(** * Python sequences: ordering, [sorted], [min], [max], searches

    Python's [sorted], [list.sort], [min] and [max] only use the key's order, and
    keep the first of equal elements.  The order of a key type is the class
    [PyOrd]; its laws are [PyOrdLaws], and every lemma below is proved against
    that interface, so a component only has to supply the instance of its key. *)

From Stdlib Require Import Sorted Permutation.
From stdpp Require Import list strings sorting.
From S2P Require Import Prelude.

(** ** Orders of keys *)

Class PyOrd (A : Type) : Type := py_cmp : A -> A -> comparison.

Definition py_lt `{PyOrd A} (x y : A) : bool :=
  match py_cmp x y with Lt => true | _ => false end.
Definition py_le `{PyOrd A} (x y : A) : bool :=
  match py_cmp x y with Gt => false | _ => true end.

Class PyOrdLaws (A : Type) `{PyOrd A} : Prop := {
  py_cmp_opp : forall x y : A, py_cmp y x = CompOpp (py_cmp x y);
  py_le_trans : forall x y z : A, py_le x y = true -> py_le y z = true -> py_le x z = true
}.

Section order_facts.
Context `{PyOrdLaws A}.
Implicit Types x y z : A.

Lemma py_cmp_refl x : py_cmp x x = Eq.
Proof. pose proof (py_cmp_opp x x) as E. by destruct (py_cmp x x). Qed.

Lemma py_le_refl x : py_le x x = true.
Proof. unfold py_le. by rewrite py_cmp_refl. Qed.

Lemma py_lt_not_le x y : py_lt x y = negb (py_le y x).
Proof. unfold py_lt, py_le. rewrite (py_cmp_opp x y). by destruct (py_cmp x y). Qed.

Lemma py_le_not_lt x y : py_le x y = negb (py_lt y x).
Proof. unfold py_lt, py_le. rewrite (py_cmp_opp x y). by destruct (py_cmp x y). Qed.

Lemma py_le_total x y : py_le x y = true \/ py_le y x = true.
Proof. unfold py_le. rewrite (py_cmp_opp x y). destruct (py_cmp x y); auto. Qed.

Lemma py_lt_le x y : py_lt x y = true -> py_le x y = true.
Proof. unfold py_lt, py_le. by destruct (py_cmp x y). Qed.

Lemma py_cmp_Eq_le x y : py_cmp x y = Eq <-> py_le x y = true /\ py_le y x = true.
Proof.
  unfold py_le. rewrite (py_cmp_opp x y). destruct (py_cmp x y); naive_solver.
Qed.

Lemma py_lt_le_trans x y z : py_lt x y = true -> py_le y z = true -> py_lt x z = true.
Proof.
  rewrite !py_lt_not_le, !negb_true_iff. intros Hxy Hyz.
  destruct (py_le z x) eqn:E; [|done].
  by rewrite (py_le_trans y z x Hyz E) in Hxy.
Qed.

Lemma py_le_lt_trans x y z : py_le x y = true -> py_lt y z = true -> py_lt x z = true.
Proof.
  rewrite !py_lt_not_le, !negb_true_iff. intros Hxy Hyz.
  destruct (py_le z x) eqn:E; [|done].
  by rewrite (py_le_trans z x y E Hxy) in Hyz.
Qed.

Lemma py_cmp_Eq_trans_l x y z : py_cmp x y = Eq -> py_le y z = py_le x z.
Proof.
  intros [Hxy Hyx]%py_cmp_Eq_le. apply eq_bool_prop_intro; split; intros E%Is_true_true;
    apply Is_true_true; eauto using py_le_trans.
Qed.

Lemma py_cmp_Eq_trans_r x y z : py_cmp x y = Eq -> py_le z y = py_le z x.
Proof.
  intros [Hxy Hyx]%py_cmp_Eq_le. apply eq_bool_prop_intro; split; intros E%Is_true_true;
    apply Is_true_true; eauto using py_le_trans.
Qed.
End order_facts.

(** Integers, and tuples compared lexicographically. *)

#[export] Instance py_ord_Z : PyOrd Z := Z.compare.
#[export] Instance py_ord_Z_laws : PyOrdLaws Z.
Proof.
  split.
  - intros x y. apply Z.compare_antisym.
  - intros x y z. unfold py_le, py_cmp, py_ord_Z.
    destruct (Z.compare_spec x y), (Z.compare_spec y z), (Z.compare_spec x z);
      intros; try done; lia.
Qed.

#[export] Instance py_ord_prod `{PyOrd A, PyOrd B} : PyOrd (A * B) :=
  fun p q => match py_cmp p.1 q.1 with Eq => py_cmp p.2 q.2 | c => c end.

Lemma py_le_fst `{PyOrd A, PyOrd B} (p q : A * B) : py_le p q = true -> py_le p.1 q.1 = true.
Proof. unfold py_le, py_cmp at 1, py_ord_prod. by destruct (py_cmp p.1 q.1). Qed.

#[export] Instance py_ord_prod_laws `{PyOrdLaws A, PyOrdLaws B} : PyOrdLaws (A * B).
Proof.
  split.
  - intros [x1 x2] [y1 y2]. unfold py_cmp, py_ord_prod; simpl.
    rewrite (py_cmp_opp x1 y1), (py_cmp_opp x2 y2). by destruct (py_cmp x1 y1).
  - intros [x1 x2] [y1 y2] [z1 z2]. unfold py_le at 1 2 3.
    unfold py_cmp, py_ord_prod; simpl.
    destruct (py_cmp x1 y1) eqn:E1, (py_cmp y1 z1) eqn:E2; intros Hx Hy; try done.
    + assert (py_cmp x1 z1 = Eq) as ->.
      { apply py_cmp_Eq_le in E1 as [??], E2 as [??].
        apply py_cmp_Eq_le; eauto using py_le_trans. }
      apply (py_le_trans x2 y2 z2); unfold py_le; done.
    + assert (py_lt x1 z1 = true) as Hlt.
      { apply (py_le_lt_trans x1 y1 z1); unfold py_le, py_lt; [by rewrite E1|by rewrite E2]. }
      unfold py_lt in Hlt. by destruct (py_cmp x1 z1).
    + assert (py_lt x1 z1 = true) as Hlt.
      { apply (py_lt_le_trans x1 y1 z1); unfold py_le, py_lt; [by rewrite E1|by rewrite E2]. }
      unfold py_lt in Hlt. by destruct (py_cmp x1 z1).
    + assert (py_lt x1 z1 = true) as Hlt.
      { apply (py_lt_le_trans x1 y1 z1); unfold py_le, py_lt; [by rewrite E1|by rewrite E2]. }
      unfold py_lt in Hlt. by destruct (py_cmp x1 z1).
Qed.

(** Strings are compared by code point. *)

Fixpoint str_cmp (s t : string) : comparison :=
  match s, t with
  | EmptyString, EmptyString => Eq
  | EmptyString, String _ _ => Lt
  | String _ _, EmptyString => Gt
  | String a s, String b t =>
      match Z.of_N (Ascii.N_of_ascii a) ?= Z.of_N (Ascii.N_of_ascii b) with
      | Eq => str_cmp s t
      | c => c
      end
  end.
#[export] Instance py_ord_string : PyOrd string := str_cmp.

Lemma str_cmp_opp s t : str_cmp t s = CompOpp (str_cmp s t).
Proof.
  revert t; induction s as [|a s IH]; intros [|b t]; simpl; try done.
  rewrite Z.compare_antisym. destruct (_ ?= _); simpl; auto.
Qed.

Lemma str_cmp_le_trans s t u :
  str_cmp s t <> Gt -> str_cmp t u <> Gt -> str_cmp s u <> Gt.
Proof.
  revert t u; induction s as [|a s IH]; intros [|b t] [|c u]; simpl; try done.
  destruct (Z.compare_spec (Z.of_N (Ascii.N_of_ascii a)) (Z.of_N (Ascii.N_of_ascii b))),
    (Z.compare_spec (Z.of_N (Ascii.N_of_ascii b)) (Z.of_N (Ascii.N_of_ascii c))),
    (Z.compare_spec (Z.of_N (Ascii.N_of_ascii a)) (Z.of_N (Ascii.N_of_ascii c)));
    try done; try lia; eauto.
Qed.

Lemma str_cmp_Eq s t : str_cmp s t = Eq -> s = t.
Proof.
  revert t; induction s as [|a s IH]; intros [|b t]; simpl; try done.
  destruct (Z.compare_spec (Z.of_N (Ascii.N_of_ascii a)) (Z.of_N (Ascii.N_of_ascii b))) as [E| |]; try done.
  intros Hst. apply IH in Hst as ->. f_equal. apply N2Z.inj in E.
  by rewrite <- (Ascii.ascii_N_embedding a), E, Ascii.ascii_N_embedding.
Qed.

#[export] Instance py_ord_string_laws : PyOrdLaws string.
Proof.
  split; [apply str_cmp_opp|].
  intros x y z. unfold py_le, py_cmp, py_ord_string.
  pose proof (str_cmp_le_trans x y z).
  destruct (str_cmp x y), (str_cmp y z), (str_cmp x z); naive_solver.
Qed.

(** ** [min], [max], [sorted] *)

Section by_key.
Context `{PyOrd K} {A : Type} (key : A -> K).

(** [max(x :: l, key=key)]: the first element with the greatest key. *)
Definition py_max_by (x : A) (l : list A) : A :=
  fold_left (fun best y => if py_lt (key best) (key y) then y else best) l x.

(** [min(x :: l, key=key)]: the first element with the least key. *)
Definition py_min_by (x : A) (l : list A) : A :=
  fold_left (fun best y => if py_lt (key y) (key best) then y else best) l x.

(** [sorted(l, key=key)] is stable: [x] goes before the first element whose key
    is not smaller. *)
Fixpoint py_insert (x : A) (l : list A) : list A :=
  match l with
  | [] => [x]
  | y :: l' => if py_le (key x) (key y) then x :: l else y :: py_insert x l'
  end.
Definition py_sorted (l : list A) : list A := fold_right py_insert [] l.

(** [sorted(l, key=key, reverse=True)] keeps the order of equal elements too. *)
Fixpoint py_insert_rev (x : A) (l : list A) : list A :=
  match l with
  | [] => [x]
  | y :: l' => if py_le (key y) (key x) then x :: l else y :: py_insert_rev x l'
  end.
Definition py_sorted_rev (l : list A) : list A := fold_right py_insert_rev [] l.
End by_key.

Section by_key_facts.
Context `{PyOrdLaws K} {A : Type} (key : A -> K).
Implicit Types (x y : A) (l : list A).

Definition key_le x y : Prop := py_le (key x) (key y) = true.
Definition key_ge x y : Prop := py_le (key y) (key x) = true.

Lemma py_insert_perm x l : py_insert key x l ≡ₚ x :: l.
Proof.
  induction l as [|y l IH]; simpl; [done|]. destruct (py_le _ _); [done|].
  rewrite IH. apply Permutation_swap.
Qed.

Lemma py_sorted_perm l : py_sorted key l ≡ₚ l.
Proof. induction l as [|x l IH]; simpl; [done|]. by rewrite py_insert_perm, IH. Qed.

Lemma py_insert_rev_perm x l : py_insert_rev key x l ≡ₚ x :: l.
Proof.
  induction l as [|y l IH]; simpl; [done|]. destruct (py_le _ _); [done|].
  rewrite IH. apply Permutation_swap.
Qed.

Lemma py_sorted_rev_perm l : py_sorted_rev key l ≡ₚ l.
Proof. induction l as [|x l IH]; simpl; [done|]. by rewrite py_insert_rev_perm, IH. Qed.

Lemma py_insert_sorted x l :
  StronglySorted key_le l -> StronglySorted key_le (py_insert key x l).
Proof.
  induction l as [|y l IH]; intros Hs; simpl; [by repeat constructor|].
  inversion Hs as [|?? Hs' Hall]; subst.
  destruct (py_le (key x) (key y)) eqn:E.
  - constructor; [done|]. constructor; [done|]. eapply Forall_impl; [done|].
    intros z Hz; unfold key_le in *; by eapply py_le_trans.
  - constructor; [by apply IH|]. rewrite py_insert_perm. constructor; [|done].
    unfold key_le. destruct (py_le_total (key x) (key y)); congruence.
Qed.

Lemma py_sorted_sorted l : StronglySorted key_le (py_sorted key l).
Proof. induction l; simpl; [constructor|by apply py_insert_sorted]. Qed.

Lemma py_insert_rev_sorted x l :
  StronglySorted key_ge l -> StronglySorted key_ge (py_insert_rev key x l).
Proof.
  induction l as [|y l IH]; intros Hs; simpl; [by repeat constructor|].
  inversion Hs as [|?? Hs' Hall]; subst.
  destruct (py_le (key y) (key x)) eqn:E.
  - constructor; [done|]. constructor; [done|]. eapply Forall_impl; [done|].
    intros z Hz; unfold key_ge in *; by eapply py_le_trans.
  - constructor; [by apply IH|]. rewrite py_insert_rev_perm. constructor; [|done].
    unfold key_ge. destruct (py_le_total (key x) (key y)); congruence.
Qed.

Lemma py_sorted_rev_sorted l : StronglySorted key_ge (py_sorted_rev key l).
Proof. induction l; simpl; [constructor|by apply py_insert_rev_sorted]. Qed.

(** Sorting a permutation of a list whose keys strictly decrease gives that list. *)
Lemma py_sorted_rev_unique l k :
  l ≡ₚ k -> StronglySorted (fun x y => py_lt (key y) (key x) = true) k -> py_sorted_rev key l = k.
Proof.
  intros Hp Hk.
  assert (forall x y, x ∈ k -> y ∈ k -> py_cmp (key x) (key y) = Eq -> x = y) as Hinj.
  { clear Hp. induction Hk as [|z k Hk IH Hall]; [set_solver|]. rewrite Forall_forall in Hall.
    intros x y Hx Hy Heq. apply py_cmp_Eq_le in Heq as [H1 H2].
    apply elem_of_cons in Hx as [->|Hx], Hy as [->|Hy]; [done|..].
    - specialize (Hall y Hy). rewrite py_lt_not_le, H1 in Hall. done.
    - specialize (Hall x Hx). rewrite py_lt_not_le, H2 in Hall. done.
    - apply IH; try done. by apply py_cmp_Eq_le. }
  apply (StronglySorted_unique_strong key_ge).
  - intros x y Hx Hy H1 H2. rewrite py_sorted_rev_perm, Hp in Hx. apply Hinj; [done..|].
    by apply py_cmp_Eq_le.
  - apply py_sorted_rev_sorted.
  - clear Hp Hinj. induction Hk as [|z k Hk IH Hall]; constructor; [done|].
    eapply Forall_impl; [exact Hall|]. intros x Hx. by apply py_lt_le.
  - by rewrite py_sorted_rev_perm.
Qed.

(** A list that is already in order is left alone. *)
Lemma py_sorted_id l : StronglySorted key_le l -> py_sorted key l = l.
Proof.
  induction l as [|x l IH]; intros Hs; simpl; [done|].
  inversion Hs as [|?? Hs' Hall]; subst. rewrite IH by done.
  destruct l as [|y l]; simpl; [done|].
  apply Forall_cons in Hall as [-> _]. done.
Qed.

Lemma py_max_by_in x l : py_max_by key x l ∈ x :: l.
Proof.
  unfold py_max_by. revert x; induction l as [|y l IH]; intros x; simpl; [set_solver|].
  destruct (py_lt _ _); [specialize (IH y)|specialize (IH x)]; set_solver.
Qed.

Lemma py_max_by_ge x l y : y ∈ x :: l -> key_le y (py_max_by key x l).
Proof.
  unfold py_max_by, key_le. revert x y; induction l as [|z l IH]; intros x y; simpl.
  { intros ->%list_elem_of_singleton. apply py_le_refl. }
  intros Hy. rewrite !elem_of_cons in Hy.
  destruct (py_lt (key x) (key z)) eqn:E.
  - destruct Hy as [->|Hy]; [|apply IH; set_solver].
    apply (py_le_trans _ (key z)); [by apply py_lt_le|apply IH; set_solver].
  - destruct Hy as [->|[->|Hy]]; [apply IH; set_solver| |apply IH; set_solver].
    rewrite py_lt_not_le, negb_false_iff in E.
    apply (py_le_trans _ (key x)); [done|apply IH; set_solver].
Qed.

Lemma py_min_by_in x l : py_min_by key x l ∈ x :: l.
Proof.
  unfold py_min_by. revert x; induction l as [|y l IH]; intros x; simpl; [set_solver|].
  destruct (py_lt _ _); [specialize (IH y)|specialize (IH x)]; set_solver.
Qed.

Lemma py_min_by_le x l y : y ∈ x :: l -> key_le (py_min_by key x l) y.
Proof.
  unfold py_min_by, key_le. revert x y; induction l as [|z l IH]; intros x y; simpl.
  { intros ->%list_elem_of_singleton. apply py_le_refl. }
  intros Hy. rewrite !elem_of_cons in Hy.
  destruct (py_lt (key z) (key x)) eqn:E.
  - destruct Hy as [->|Hy]; [|apply IH; set_solver].
    apply (py_le_trans _ (key z)); [apply IH; set_solver|by apply py_lt_le].
  - destruct Hy as [->|[->|Hy]]; [apply IH; set_solver| |apply IH; set_solver].
    rewrite py_lt_not_le, negb_false_iff in E.
    apply (py_le_trans _ (key x)); [apply IH; set_solver|done].
Qed.
End by_key_facts.

(** [min(a, b)] and [max(a, b)] of two values return [a] on a tie. *)
Definition py_min2 `{PyOrd A} (a b : A) : A := if py_lt b a then b else a.
Definition py_max2 `{PyOrd A} (a b : A) : A := if py_lt a b then b else a.

(** [min(l)], [max(l)] of a list raise on an empty one. *)
Definition empty_arg (f : string) : exn :=
  ValueError (f +:+ "() iterable argument is empty").
Definition py_min `{PyOrd A} (l : list A) : res A :=
  match l with [] => Err (empty_arg "min") | x :: l' => Ok (py_min_by (fun y => y) x l') end.
Definition py_max `{PyOrd A} (l : list A) : res A :=
  match l with [] => Err (empty_arg "max") | x :: l' => Ok (py_max_by (fun y => y) x l') end.

(** [l[i]] for a non-negative index. *)
Definition py_index {A} (l : list A) (i : nat) : res A :=
  match l !! i with
  | Some x => Ok x
  | None => Err (Exn "IndexError" "tuple index out of range")
  end.

Lemma py_index_Ok {A} (l : list A) i x : py_index l i = Ok x <-> l !! i = Some x.
Proof. unfold py_index. destruct (l !! i); naive_solver. Qed.

Section min_max_facts.
Context `{PyOrdLaws A}.
Implicit Types a b x : A.

Lemma py_le_min2 x a b : py_le x (py_min2 a b) = py_le x a && py_le x b.
Proof.
  unfold py_min2. destruct (py_lt b a) eqn:E.
  - destruct (py_le x b) eqn:Eb; [|by rewrite andb_false_r].
    by rewrite (py_le_trans x b a Eb (py_lt_le b a E)).
  - rewrite py_lt_not_le, negb_false_iff in E.
    destruct (py_le x a) eqn:Ea; [|done]. by rewrite (py_le_trans x a b Ea E).
Qed.

Lemma py_max2_le x a b : py_le (py_max2 a b) x = py_le a x && py_le b x.
Proof.
  unfold py_max2. destruct (py_lt a b) eqn:E.
  - destruct (py_le b x) eqn:Eb; [|by rewrite andb_false_r].
    by rewrite (py_le_trans a b x (py_lt_le a b E) Eb).
  - rewrite py_lt_not_le, negb_false_iff in E.
    destruct (py_le a x) eqn:Ea; [|done]. by rewrite (py_le_trans b a x E Ea).
Qed.

Lemma py_min2_or a b : py_min2 a b = a \/ py_min2 a b = b.
Proof. unfold py_min2. destruct (py_lt b a); auto. Qed.

Lemma py_max2_or a b : py_max2 a b = a \/ py_max2 a b = b.
Proof. unfold py_max2. destruct (py_lt a b); auto. Qed.

Lemma py_min2_le a b : py_le (py_min2 a b) a = true /\ py_le (py_min2 a b) b = true.
Proof.
  pose proof (py_le_min2 (py_min2 a b) a b) as E. rewrite py_le_refl in E.
  symmetry in E. by apply andb_true_iff in E.
Qed.

Lemma py_le_max2 a b : py_le a (py_max2 a b) = true /\ py_le b (py_max2 a b) = true.
Proof.
  pose proof (py_max2_le (py_max2 a b) a b) as E. rewrite py_le_refl in E.
  symmetry in E. by apply andb_true_iff in E.
Qed.

Lemma py_min_Ok l m :
  py_min l = Ok m -> m ∈ l /\ forall x, x ∈ l -> py_le m x = true.
Proof.
  destruct l as [|y l]; [done|]. intros [= <-].
  split; [apply (py_min_by_in (fun z => z))|apply (py_min_by_le (fun z => z))].
Qed.

Lemma py_max_Ok l m :
  py_max l = Ok m -> m ∈ l /\ forall x, x ∈ l -> py_le x m = true.
Proof.
  destruct l as [|y l]; [done|]. intros [= <-].
  split; [apply (py_max_by_in (fun z => z))|apply (py_max_by_ge (fun z => z))].
Qed.

Lemma py_min_ok l : l <> [] -> exists m, py_min l = Ok m.
Proof. destruct l; [done|]. by eexists. Qed.

Lemma py_max_ok l : l <> [] -> exists m, py_max l = Ok m.
Proof. destruct l; [done|]. by eexists. Qed.

Lemma py_min2_lt_false x a b :
  py_lt (py_min2 a b) x = false <-> py_le x a = true /\ py_le x b = true.
Proof. by rewrite py_lt_not_le, py_le_min2, negb_false_iff, andb_true_iff. Qed.

Lemma py_lt_max2_false x a b :
  py_lt x (py_max2 a b) = false <-> py_le a x = true /\ py_le b x = true.
Proof. by rewrite py_lt_not_le, py_max2_le, negb_false_iff, andb_true_iff. Qed.
End min_max_facts.

(** ** Searches *)

(** [next((i for i, x in enumerate(l) if p(x)), None)] *)
Fixpoint index_where {A} (p : A -> bool) (l : list A) : option nat :=
  match l with
  | [] => None
  | x :: l' => if p x then Some O else S <$> index_where p l'
  end.

(** [next((x for x in l if p(x)), None)] *)
Fixpoint first_where {A} (p : A -> bool) (l : list A) : option A :=
  match l with
  | [] => None
  | x :: l' => if p x then Some x else first_where p l'
  end.

Lemma index_where_Some {A} (p : A -> bool) l i :
  index_where p l = Some i <->
  exists x, l !! i = Some x /\ p x = true /\
    forall j y, (j < i)%nat -> l !! j = Some y -> p y = false.
Proof.
  revert i; induction l as [|x l IH]; intros i; simpl; [naive_solver|].
  destruct (p x) eqn:Ep.
  - split.
    + intros [= <-]. exists x. split_and!; [done|done|intros; lia].
    + intros (y & Hy & Hpy & Hmin). destruct i as [|i]; [done|].
      specialize (Hmin O x ltac:(lia) eq_refl). congruence.
  - rewrite fmap_Some. split.
    + intros (k & Hk & ->). apply IH in Hk as (y & Hy & Hpy & Hmin).
      exists y. split_and!; [done|done|]. intros [|j] z Hj Hz; simpl in Hz;
        [by injection Hz as <-|by apply (Hmin j); [lia|]].
    + intros (y & Hy & Hpy & Hmin). destruct i as [|i]; [simpl in Hy; congruence|].
      exists i. split; [|done]. apply IH. exists y. split_and!; [done|done|].
      intros j z Hj Hz. apply (Hmin (S j)); [lia|done].
Qed.

Lemma index_where_None {A} (p : A -> bool) l :
  index_where p l = None <-> Forall (fun x => p x = false) l.
Proof.
  induction l as [|x l IH]; simpl; [done|]. rewrite Forall_cons.
  destruct (p x); [naive_solver|]. rewrite fmap_None. naive_solver.
Qed.

Lemma first_where_Some {A} (p : A -> bool) l x :
  first_where p l = Some x -> x ∈ l /\ p x = true.
Proof.
  induction l as [|y l IH]; simpl; [done|]. destruct (p y) eqn:E.
  - intros [= ->]. set_solver.
  - intros Hx%IH. set_solver.
Qed.

Lemma first_where_None {A} (p : A -> bool) l :
  first_where p l = None <-> Forall (fun x => p x = false) l.
Proof. induction l; simpl; [done|]. rewrite Forall_cons. split_match; naive_solver. Qed.

(** [sum(p(x) for x in l)] *)
Definition count_where {A} (p : A -> bool) (l : list A) : Z :=
  Z.of_nat (length (List.filter p l)).

Lemma count_where_nonneg {A} (p : A -> bool) l : 0 <= count_where p l.
Proof. unfold count_where. lia. Qed.

Lemma count_where_mono {A} (p q : A -> bool) l :
  Forall (fun x => p x = true -> q x = true) l -> count_where p l <= count_where q l.
Proof.
  unfold count_where. induction 1 as [|x l Hx _ IH]; simpl; [lia|].
  destruct (p x) eqn:Ep; [rewrite Hx by done; simpl; lia|].
  destruct (q x); simpl; lia.
Qed.

Lemma count_where_le_length {A} (p : A -> bool) l :
  count_where p l <= Z.of_nat (length l).
Proof. unfold count_where. induction l; simpl; [lia|]. destruct (p _); simpl; lia. Qed.

Lemma count_where_cons {A} (p : A -> bool) x l : count_where p (x :: l) = (if p x then 1 else 0) + count_where p l.
Proof. unfold count_where. simpl. destruct (p x); simpl; lia. Qed.

Lemma count_where_snoc {A} (p : A -> bool) l x : count_where p (l ++ [x]) = count_where p l + (if p x then 1 else 0).
Proof. unfold count_where. rewrite List.filter_app, length_app. simpl. destruct (p x); simpl; lia. Qed.

Lemma count_where_perm {A} (p : A -> bool) l k : l ≡ₚ k -> count_where p l = count_where p k.
Proof.
  unfold count_where. induction 1 as [|x l k _ IH|x y l|l k j _ IH1 _ IH2]; [done| |simpl; destruct (p x), (p y); simpl; lia|lia].
  simpl. destruct (p x); simpl; lia.
Qed.

Lemma count_where_all {A} (p : A -> bool) l : Forall (fun x => p x = true) l -> count_where p l = Z.of_nat (length l).
Proof. unfold count_where. induction 1 as [|x l Hx _ IH]; [done|]. simpl. rewrite Hx. simpl. lia. Qed.

Lemma count_where_none {A} (p : A -> bool) l : Forall (fun x => p x = false) l -> count_where p l = 0.
Proof. unfold count_where. induction 1 as [|x l Hx _ IH]; [done|]. simpl. by rewrite Hx. Qed.

Lemma count_where_ext {A} (p q : A -> bool) l : (forall x, p x = q x) -> count_where p l = count_where q l.
Proof. intros H. unfold count_where. do 2 f_equal. induction l as [|x l IH]; [done|]. simpl. by rewrite H, IH. Qed.

(** [l[i:j]] for non-negative bounds. *)
Definition py_slice {A} (i j : nat) (l : list A) : list A := take (j - i) (drop i l).

Lemma py_slice_lookup {A} (i j k : nat) (l : list A) :
  py_slice i j l !! k = if decide (k < j - i)%nat then l !! (i + k)%nat else None.
Proof.
  unfold py_slice. destruct (decide (k < j - i)%nat).
  - by rewrite lookup_take_lt, lookup_drop by done.
  - by rewrite lookup_take_ge by lia.
Qed.

Lemma elem_of_py_slice {A} (i j : nat) (l : list A) x :
  x ∈ py_slice i j l <-> exists k, (i <= k < j)%nat /\ l !! k = Some x.
Proof.
  rewrite list_elem_of_lookup. split.
  - intros [k Hk]. rewrite py_slice_lookup in Hk. destruct (decide _); [|done].
    exists (i + k)%nat. split; [lia|done].
  - intros (k & Hk & Hx). exists (k - i)%nat. rewrite py_slice_lookup.
    destruct (decide _); [|lia]. by replace (i + (k - i))%nat with k by lia.
Qed.

Lemma py_slice_nonempty {A} (i j : nat) (l : list A) :
  (i < j)%nat -> (i < length l)%nat -> py_slice i j l <> [].
Proof.
  intros Hij Hl E. destruct (lookup_lt_is_Some_2 l i Hl) as [x Hx].
  assert (x ∈ py_slice i j l) as Hin by (apply elem_of_py_slice; exists i; split; [lia|done]).
  rewrite E in Hin. by apply elem_of_nil in Hin.
Qed.

Lemma py_slice_length {A} (i j : nat) (l : list A) :
  (j <= length l)%nat -> length (py_slice i j l) = (j - i)%nat.
Proof. intros. unfold py_slice. rewrite length_take, length_drop. lia. Qed.

(** ** [filter] *)

Lemma filter_keep {A} (P : A -> Prop) `{forall x, Decision (P x)} (l : list A) :
  Forall P l -> filter P l = l.
Proof. induction 1 as [|x l Hx _ IH]; [done|]. rewrite filter_cons, decide_True, IH by done. done. Qed.

Lemma filter_drop {A} (P : A -> Prop) `{forall x, Decision (P x)} (l : list A) :
  Forall (fun x => ~ P x) l -> filter P l = [].
Proof. induction 1 as [|x l Hx _ IH]; [done|]. by rewrite filter_cons, decide_False. Qed.

Lemma count_where_fmap {A B} (f : A -> B) (p : B -> bool) l :
  count_where p (f <$> l) = count_where (fun x => p (f x)) l.
Proof.
  unfold count_where. induction l as [|x l IH]; [done|]. rewrite fmap_cons. cbn [List.filter].
  destruct (p (f x)); cbn [length]; lia.
Qed.

Lemma StronglySorted_reverse {A} (R : A -> A -> Prop) l :
  StronglySorted R l -> StronglySorted (fun x y => R y x) (reverse l).
Proof.
  induction 1 as [|x l _ IH Hall]; [constructor|]. rewrite reverse_cons. apply StronglySorted_app. split_and!.
  - intros y z Hy Hz. apply list_elem_of_singleton in Hz as ->. rewrite Forall_forall in Hall.
    apply Hall. by rewrite elem_of_reverse in Hy.
  - done.
  - repeat constructor.
Qed.

(** The last [n] elements. *)
Lemma reverse_take_reverse {A} n (l : list A) : reverse (take n (reverse l)) = drop (length l - n) l.
Proof.
  destruct (decide (n <= length l)%nat).
  - rewrite <- (take_drop (length l - n) l) at 1.
    rewrite reverse_app, take_app_length', reverse_involutive; [done|].
    rewrite length_reverse, length_drop. lia.
  - rewrite take_ge by (rewrite length_reverse; lia). rewrite reverse_involutive.
    by replace (length l - n)%nat with O by lia.
Qed.

(** A partner for every element. *)
Lemma Forall2_choose {A B} (P : A -> B -> Prop) l :
  (forall x, x ∈ l -> exists y, P x y) -> exists k, Forall2 P l k.
Proof.
  induction l as [|x l IH]; intros H; [by exists []|].
  destruct (H x ltac:(set_solver)) as [y Hy]. destruct IH as [k Hk]; [intros z Hz; apply H; set_solver|].
  exists (y :: k). by constructor.
Qed.
