(* ===== verification/PyStr.v ===== *)
(** * Python strings

    A [str] is a [string] whose characters stand for the code points below 128
    (symbols, identifiers, enum values and reason codes are all ASCII); [strip],
    [upper], [lower] and [casefold] are Python's on those code points.  Integers
    are printed in decimal and, for digests, in lower-case hexadecimal. *)

From Stdlib Require Import Ascii String.
From stdpp Require Import list strings.
From S2P Require Import Prelude.

Notation chars := list_ascii_of_string.
Notation of_chars := string_of_list_ascii.

Definition code (a : ascii) : Z := Z.of_N (N_of_ascii a).
Definition chr (z : Z) : ascii := ascii_of_N (Z.to_N z).

Definition is_space (a : ascii) : bool :=
  let c := code a in
  ((9 <=? c) && (c <=? 13)) || ((28 <=? c) && (c <=? 32)).

Fixpoint drop_spaces (l : list ascii) : list ascii :=
  match l with
  | [] => []
  | a :: l' => if is_space a then drop_spaces l' else l
  end.

(** [s.strip()] *)
Definition str_strip (s : string) : string :=
  of_chars (reverse (drop_spaces (reverse (drop_spaces (chars s))))).

Definition upper_char (a : ascii) : ascii :=
  let c := code a in if (97 <=? c) && (c <=? 122) then chr (c - 32) else a.
Definition lower_char (a : ascii) : ascii :=
  let c := code a in if (65 <=? c) && (c <=? 90) then chr (c + 32) else a.

(** [s.upper()], [s.lower()]; [casefold] is [lower] on ASCII. *)
Definition str_upper (s : string) : string := of_chars (map upper_char (chars s)).
Definition str_lower (s : string) : string := of_chars (map lower_char (chars s)).
Definition str_casefold : string -> string := str_lower.

(** [not s] *)
Definition str_empty (s : string) : bool :=
  match s with EmptyString => true | _ => false end.

(** [sep.join(l)] *)
Fixpoint str_join (sep : string) (l : list string) : string :=
  match l with
  | [] => EmptyString
  | [s] => s
  | s :: l' => s +:+ sep +:+ str_join sep l'
  end.

(** [s[:n]] *)
Definition str_take (n : nat) (s : string) : string := of_chars (take n (chars s)).

(** [s.startswith(p)], [s.endswith(p)] *)
Definition str_startswith (p s : string) : bool :=
  bool_decide (take (length (chars p)) (chars s) = chars p).
Definition str_endswith (p s : string) : bool :=
  bool_decide (take (length (chars p)) (reverse (chars s)) = reverse (chars p)).

(** [p in s] *)
Fixpoint chars_contain (p l : list ascii) : bool :=
  bool_decide (take (length p) l = p) || match l with [] => false | _ :: l' => chars_contain p l' end.
Definition str_contains (p s : string) : bool := chars_contain (chars p) (chars s).

(** [s.rstrip(c)] of one character. *)
Fixpoint drop_chars (c : ascii) (l : list ascii) : list ascii :=
  match l with
  | a :: l' => if Ascii.eqb a c then drop_chars c l' else l
  | [] => []
  end.
Definition str_rstrip_char (c : ascii) (s : string) : string :=
  of_chars (reverse (drop_chars c (reverse (chars s)))).

(** ** Decimal and hexadecimal digits *)

(** The digit for 0..15. *)
Definition digit_char (d : Z) : ascii :=
  if d <? 10 then chr (48 + d) else chr (87 + d).

(** The [n] low digits of [z] in base [b], most significant first. *)
Fixpoint digits_n (b : Z) (n : nat) (z : Z) (acc : list ascii) : list ascii :=
  match n with
  | O => acc
  | S n' => digits_n b n' (z / b) (digit_char (z mod b) :: acc)
  end.

(** The number of decimal digits of [z > 0]; [1] for zero, as [len(str(z))]. *)
Fixpoint ndigits_aux (fuel : nat) (z : Z) : nat :=
  match fuel with
  | O => 1
  | S f => if z <? 10 then 1 else S (ndigits_aux f (z / 10))
  end.
Definition ndigits (z : Z) : nat := ndigits_aux (Z.to_nat (Z.log2 z)) z.

(** [str(z)] for a natural number and for an integer. *)
Definition nat_str (z : Z) : string := of_chars (digits_n 10 (ndigits z) z []).
Definition int_str (z : Z) : string :=
  if z <? 0 then "-" +:+ nat_str (- z) else nat_str z.

(** [f"{z:0n}"] for [0 <= z]. *)
Definition pad_str (n : nat) (z : Z) : string := of_chars (digits_n 10 n z []).

(** ** Facts *)

Lemma chars_of_chars l : chars (of_chars l) = l.
Proof. apply list_ascii_of_string_of_list_ascii. Qed.

Lemma of_chars_chars s : of_chars (chars s) = s.
Proof. apply string_of_list_ascii_of_string. Qed.

Lemma chars_app s t : chars (s +:+ t) = chars s ++ chars t.
Proof. induction s as [|a s IH]; simpl; [done|]. by rewrite <- IH. Qed.

Lemma length_digits_n b n z acc : length (digits_n b n z acc) = (n + length acc)%nat.
Proof.
  revert z acc; induction n as [|n IH]; intros z acc; simpl; [done|].
  rewrite IH. simpl. lia.
Qed.

Lemma code_range a : 0 <= code a < 256.
Proof. unfold code. pose proof (N_ascii_bounded a). lia. Qed.

Lemma code_chr z : 0 <= z < 256 -> code (chr z) = z.
Proof. intros Hz. unfold code, chr. rewrite N_ascii_embedding; lia. Qed.

(** Facts about all 256 characters are decided by enumeration. *)
Definition all_ascii (P : ascii -> bool) : bool :=
  forallb (fun n => P (ascii_of_nat n)) (seq 0 256).

Lemma all_ascii_spec P : all_ascii P = true -> forall a, P a = true.
Proof.
  unfold all_ascii. rewrite forallb_forall. intros HP a.
  rewrite <- (ascii_nat_embedding a). apply HP. apply in_seq.
  pose proof (nat_ascii_bounded a). lia.
Qed.

Lemma upper_char_space a : is_space (upper_char a) = is_space a.
Proof.
  apply eqb_prop. revert a.
  exact (all_ascii_spec (fun a => eqb (is_space (upper_char a)) (is_space a)) eq_refl).
Qed.

Lemma lower_char_space a : is_space (lower_char a) = is_space a.
Proof.
  apply eqb_prop. revert a.
  exact (all_ascii_spec (fun a => eqb (is_space (lower_char a)) (is_space a)) eq_refl).
Qed.

Lemma upper_char_idemp a : upper_char (upper_char a) = upper_char a.
Proof.
  apply Ascii.eqb_eq. revert a.
  exact (all_ascii_spec (fun a => Ascii.eqb (upper_char (upper_char a)) (upper_char a)) eq_refl).
Qed.

Lemma lower_char_idemp a : lower_char (lower_char a) = lower_char a.
Proof.
  apply Ascii.eqb_eq. revert a.
  exact (all_ascii_spec (fun a => Ascii.eqb (lower_char (lower_char a)) (lower_char a)) eq_refl).
Qed.

Lemma map_of_chars f s : chars (of_chars (map f (chars s))) = map f (chars s).
Proof. apply chars_of_chars. Qed.

Lemma str_upper_idemp s : str_upper (str_upper s) = str_upper s.
Proof.
  unfold str_upper. rewrite map_of_chars, map_map. f_equal.
  apply map_ext. apply upper_char_idemp.
Qed.

Lemma str_lower_idemp s : str_lower (str_lower s) = str_lower s.
Proof.
  unfold str_lower. rewrite map_of_chars, map_map. f_equal.
  apply map_ext. apply lower_char_idemp.
Qed.

(** A list is stripped when neither end is a space. *)
Definition head_ok (l : list ascii) : Prop :=
  match l with [] => True | a :: _ => is_space a = false end.
Definition stripped (s : string) : Prop :=
  head_ok (chars s) /\ head_ok (reverse (chars s)).

Lemma drop_spaces_head l : head_ok (drop_spaces l).
Proof. induction l as [|a l IH]; simpl; [done|]. by destruct (is_space a) eqn:E. Qed.

Lemma drop_spaces_id l : head_ok l -> drop_spaces l = l.
Proof. destruct l as [|a l]; simpl; [done|]. by intros ->. Qed.

Lemma drop_spaces_suffix l : exists k, l = k ++ drop_spaces l.
Proof.
  induction l as [|a l [k IH]]; [by exists []|]. simpl. destruct (is_space a).
  - exists (a :: k). simpl. by rewrite <- IH.
  - by exists [].
Qed.

Lemma head_ok_prefix l k : head_ok (l ++ k) -> l <> [] -> head_ok l.
Proof. by destruct l. Qed.

Lemma str_strip_stripped s : stripped (str_strip s).
Proof.
  unfold stripped, str_strip. rewrite chars_of_chars, reverse_involutive.
  split; [|apply drop_spaces_head].
  destruct (drop_spaces_suffix (reverse (drop_spaces (chars s)))) as [k Hk].
  pose proof (drop_spaces_head (chars s)) as Hh.
  rewrite <- (reverse_involutive (drop_spaces (chars s))), Hk, reverse_app in Hh.
  destruct (reverse (drop_spaces (reverse (drop_spaces (chars s))))) eqn:E; [done|].
  by eapply head_ok_prefix.
Qed.

Lemma str_strip_id s : stripped s -> str_strip s = s.
Proof.
  intros [H1 H2]. unfold str_strip.
  by rewrite (drop_spaces_id (chars s)), drop_spaces_id, reverse_involutive, of_chars_chars.
Qed.

Lemma str_strip_idemp s : str_strip (str_strip s) = str_strip s.
Proof. apply str_strip_id, str_strip_stripped. Qed.

Lemma head_ok_map f l : (forall a, is_space (f a) = is_space a) -> head_ok l -> head_ok (map f l).
Proof. intros Hf. destruct l; simpl; [done|]. by rewrite Hf. Qed.

Lemma stripped_upper s : stripped s -> stripped (str_upper s).
Proof.
  intros [H1 H2]. unfold stripped, str_upper. rewrite map_of_chars, <- fmap_reverse.
  split; apply head_ok_map; auto using upper_char_space.
Qed.

Lemma stripped_lower s : stripped s -> stripped (str_lower s).
Proof.
  intros [H1 H2]. unfold stripped, str_lower. rewrite map_of_chars, <- fmap_reverse.
  split; apply head_ok_map; auto using lower_char_space.
Qed.

(** [value.strip().upper()] and [value.strip().lower()] are normal forms. *)
Definition norm_upper (s : string) : string := str_upper (str_strip s).
Definition norm_lower (s : string) : string := str_lower (str_strip s).

Lemma norm_upper_idemp s : norm_upper (norm_upper s) = norm_upper s.
Proof.
  unfold norm_upper. rewrite (str_strip_id (str_upper _)); [apply str_upper_idemp|].
  apply stripped_upper, str_strip_stripped.
Qed.

Lemma norm_lower_idemp s : norm_lower (norm_lower s) = norm_lower s.
Proof.
  unfold norm_lower. rewrite (str_strip_id (str_lower _)); [apply str_lower_idemp|].
  apply stripped_lower, str_strip_stripped.
Qed.

Lemma str_empty_false s : str_empty s = false <-> s <> EmptyString.
Proof. destruct s; naive_solver. Qed.

#[export] Hint Rewrite str_strip_idemp norm_upper_idemp norm_lower_idemp : pystr.
