(* ===== verification/PyDecimal.v ===== *)
(** * Python's [decimal.Decimal]

    A finite [Decimal] is a signed integer coefficient and an exponent, worth
    [dm * 10 ^ de]; representations of one number with different exponents are
    kept apart, as Python's [str] does.  Arithmetic is that of the default
    context: 28 significant digits, [ROUND_HALF_EVEN]; the result of every
    operation is the exact result rounded once.  Comparisons are exact.
    Non-finite values ([Infinity], [NaN]) are the other cases of [pydec]; the
    constructors of the program reject them.

    [dadd], [dsub], [dmul], [dabs] and [ddiv] know no limits of the exponent; [ctx_add],
    [ctx_sub], [ctx_mul], [ctx_abs] and [ctx_div] have those of the context, with
    [Overflow] and the loss of digits below them, and agree with the former on numbers of
    moderate size ([DecimalFacts]).

    Not modelled: the sign of zero (no comparison sees it). *)

From Stdlib Require Import QArith Qpower Lqa Lia.
From stdpp Require Import list strings.
From S2P Require Import Prelude PyList PyStr.

Open Scope Z_scope.

Record dec : Type := Dec { dm : Z; de : Z }.

#[export] Instance dec_eq_dec : EqDecision dec.
Proof. solve_decision. Defined.

(** A value of Python type [Decimal], before validation. *)
Inductive pydec : Type :=
| Finite (d : dec)
| Infinity (neg : bool)
| NaN.

Definition InvalidOperation : exn :=
  Exn "InvalidOperation" "[<class 'decimal.InvalidOperation'>]".
Definition DivisionByZero : exn :=
  Exn "DivisionByZero" "[<class 'decimal.DivisionByZero'>]".
Definition Overflow : exn := Exn "Overflow" "[<class 'decimal.Overflow'>]".

Definition d0 : dec := Dec 0 0.
Definition d1 : dec := Dec 1 0.
Definition dint (z : Z) : dec := Dec z 0.

(** The opposite number, unrounded. *)
Definition dopp (c : dec) : dec := Dec (- dm c) (de c).

(** ** Rounding *)

(** [n / d] to the nearest integer, ties to the even one. *)
Definition rne_div (n d : Z) : Z :=
  let q := n / d in
  match 2 * (n mod d) ?= d with
  | Lt => q
  | Gt => q + 1
  | Eq => if Z.even q then q else q + 1
  end.

(** [n / d * 10 ^ e] rounded to 28 significant digits. *)
Definition dround (n d e : Z) : dec :=
  let k := Z.max 0 (Z.of_nat (ndigits (Z.abs n / d)) - 28) in
  let q := rne_div n (d * 10 ^ k) in
  if Z.abs q =? 10 ^ 28 then Dec (q / 10) (e + k + 1) else Dec q (e + k).

(** Rounding of an exact result. *)
Definition dfix (m e : Z) : dec := dround m 1 e.

(** ** Arithmetic *)

(** The coefficient of [a] at an exponent not above its own. *)
Definition scale_to (e : Z) (a : dec) : Z := dm a * 10 ^ (de a - e).

Definition dadd (a b : dec) : dec :=
  let e := Z.min (de a) (de b) in dfix (scale_to e a + scale_to e b) e.
Definition dneg (a : dec) : dec := dfix (- dm a) (de a).
Definition dsub (a b : dec) : dec :=
  let e := Z.min (de a) (de b) in dfix (scale_to e a - scale_to e b) e.
Definition dmul (a b : dec) : dec := dfix (dm a * dm b) (de a + de b).
Definition dabs (a : dec) : dec := dfix (Z.abs (dm a)) (de a).

(** Remove trailing zeros while the exponent is below [ideal]. *)
Fixpoint strip_zeros (fuel : nat) (m e ideal : Z) : Z * Z :=
  match fuel with
  | O => (m, e)
  | S f => if (e <? ideal) && (m mod 10 =? 0) then strip_zeros f (m / 10) (e + 1) ideal
           else (m, e)
  end.

(** The quotient before rounding: [n / d * 10 ^ e], exact or of more than 28 digits. *)
Definition quotient (a b : dec) : res (Z * Z * Z) :=
  if dm b =? 0 then Err (if dm a =? 0 then InvalidOperation else DivisionByZero)
  else if dm a =? 0 then Ok (0, 1, de a - de b)
  else
    let shift := Z.of_nat (ndigits (Z.abs (dm b))) - Z.of_nat (ndigits (Z.abs (dm a))) + 29 in
    let n := Z.sgn (dm b) * dm a * 10 ^ Z.max 0 shift in
    let d := Z.abs (dm b) * 10 ^ Z.max 0 (- shift) in
    let e := de a - de b - shift in
    if n mod d =? 0 then
      let '(m, e') := strip_zeros 30 (n / d) e (de a - de b) in Ok (m, 1, e')
    else Ok (n, d, e).

Definition ddiv (a b : dec) : res dec :=
  match quotient a b with Ok (n, d, e) => Ok (dround n d e) | Err x => Err x end.

(** [a.quantize(Decimal((0, (1,), e)))] *)
Definition dquantize (a : dec) (e : Z) : res dec :=
  let m := if e <=? de a then dm a * 10 ^ (de a - e)
           else rne_div (dm a) (10 ^ (e - de a)) in
  if Z.abs m <? 10 ^ 28 then Ok (Dec m e) else Err InvalidOperation.

(** [sum(l, Decimal("0"))] *)
Definition dsum (l : list dec) : dec := fold_left dadd l d0.

(** ** Arithmetic within the limits of the context

    The operations above round to 28 digits and know no limit of the exponent.  Those of
    the context also end a result past [9.99..E+999999] with [Overflow], and round one
    below [1E-999999] at the exponent [Etiny]: it loses digits, down to zero, silently. *)

Definition Emax : Z := 999999.
Definition Etiny : Z := -1000026.

Definition ctx_round (n d e : Z) : res dec :=
  let digits := Z.of_nat (ndigits (Z.abs n / d)) in
  if n =? 0 then Ok (Dec 0 (Z.min (Z.max e Etiny) Emax))
  else if Emax <? digits + e - 1 then Err Overflow
  else
    let k := Z.max (Z.max 0 (digits - 28)) (Etiny - e) in
    let q := rne_div n (d * 10 ^ k) in
    let r := if Z.abs q =? 10 ^ 28 then Dec (q / 10) (e + k + 1) else Dec q (e + k) in
    if Emax <? Z.of_nat (ndigits (Z.abs (dm r))) + de r - 1 then Err Overflow else Ok r.

Definition ctx_add (a b : dec) : res dec :=
  let e := Z.min (de a) (de b) in ctx_round (scale_to e a + scale_to e b) 1 e.
Definition ctx_sub (a b : dec) : res dec :=
  let e := Z.min (de a) (de b) in ctx_round (scale_to e a - scale_to e b) 1 e.
Definition ctx_mul (a b : dec) : res dec := ctx_round (dm a * dm b) 1 (de a + de b).
Definition ctx_abs (a : dec) : res dec := ctx_round (Z.abs (dm a)) 1 (de a).
Definition ctx_div (a b : dec) : res dec :=
  '(n, d, e) ← quotient a b; ctx_round n d e.

Fixpoint ctx_sum_from (acc : dec) (l : list dec) : res dec :=
  match l with
  | [] => mret acc
  | a :: l' => acc ← ctx_add acc a; ctx_sum_from acc l'
  end.
(** [sum(l, start=Decimal("0"))] *)
Definition ctx_sum (l : list dec) : res dec := ctx_sum_from d0 l.

Example ctx_examples :
  ctx_add (Dec 8 999999) (Dec 9 999999) = Err Overflow /\
  ctx_add (Dec 1 2) (Dec 1 (-1)) = Ok (Dec 1001 (-1)) /\
  ctx_mul (Dec 4 (-500014)) (Dec 1 (-500013)) = Ok (Dec 0 Etiny) /\
  ctx_mul (Dec 16 (-500014)) (Dec 1 (-500013)) = Ok (Dec 2 Etiny) /\
  ctx_div d1 (dint 3) = Ok (Dec 3333333333333333333333333333 (-28)) /\
  ctx_div (dint 6) (dint 3) = Ok (dint 2) /\ ctx_div d0 d0 = Err InvalidOperation.
Proof. vm_compute. repeat split. Qed.

(** ** Comparison *)

Definition dcmp (a b : dec) : comparison :=
  let e := Z.min (de a) (de b) in scale_to e a ?= scale_to e b.
#[export] Instance py_ord_dec : PyOrd dec := dcmp.

Definition deqb (a b : dec) : bool := match dcmp a b with Eq => true | _ => false end.

Declare Scope dec_scope.
Delimit Scope dec_scope with dec.
Notation "a <? b" := (py_lt a b) : dec_scope.
Notation "a <=? b" := (py_le a b) : dec_scope.
Notation "a >? b" := (py_lt b a) (only parsing) : dec_scope.
Notation "a >=? b" := (py_le b a) (only parsing) : dec_scope.
Notation "a =? b" := (deqb a b) : dec_scope.

(** [str(d)]: plain notation when the exponent is not positive and the adjusted
    exponent is at least -6, scientific otherwise. *)
Definition dec_str (a : dec) : string :=
  let ds := digits_n 10 (ndigits (Z.abs (dm a))) (Z.abs (dm a)) [] in
  let sign := if dm a <? 0 then "-" else EmptyString in
  let left := de a + Z.of_nat (length ds) in
  if (de a <=? 0) && (-6 <? left) then
    if de a =? 0 then sign +:+ of_chars ds
    else if left <=? 0 then
      sign +:+ "0." +:+ of_chars (repeat (chr 48) (Z.to_nat (- left)) ++ ds)
    else
      sign +:+ of_chars (take (Z.to_nat left) ds) +:+ "." +:+ of_chars (drop (Z.to_nat left) ds)
  else
    let adj := left - 1 in
    let frac := match ds with
                | d :: (_ :: _) as ds' => of_chars [d] +:+ "." +:+ of_chars (drop 1 ds)
                | _ => of_chars ds
                end in
    sign +:+ frac +:+ "E" +:+ (if adj <? 0 then EmptyString else "+") +:+ int_str adj.
