(* ===== verification/DecimalFacts.v ===== *)
(** * Facts about decimal arithmetic

    The value of a decimal is the rational [dval].  Every operation of
    [PyDecimal] rounds one exact rational by [dround]; the section [rounding]
    shows that rounding never crosses a number of at most 28 digits, from which
    the sign, bound and exactness lemmas of each operation follow. *)

From Stdlib Require Import QArith Qpower Qabs Lqa Lia.
From stdpp Require Import list strings.
From S2P Require Import Prelude PyList PyStr PyDecimal.

Open Scope Z_scope.

(** ** Powers of ten as rationals *)

Definition pw (e : Z) : Q := Qpower (10#1) e.
Definition dval (a : dec) : Q := (inject_Z (dm a) * pw (de a))%Q.

Lemma pw_pos e : (0 < pw e)%Q.
Proof. unfold pw. by apply Qpower_0_lt. Qed.

Lemma pw_plus a b : (pw (a + b) == pw a * pw b)%Q.
Proof. unfold pw. by apply Qpower_plus. Qed.

Lemma pw_nonneg k : 0 <= k -> (pw k == inject_Z (10 ^ k))%Q.
Proof. intros Hk. unfold pw. by rewrite Zpower_Qpower. Qed.

Lemma pw_split e k : k <= e -> (pw e == inject_Z (10 ^ (e - k)) * pw k)%Q.
Proof. intros Hk. rewrite <- pw_nonneg, <- pw_plus by lia. by replace (e - k + k) with e by lia. Qed.

Lemma Qdiv_le_mult (a b c : Q) : (0 < b -> a / b <= c -> a <= c * b)%Q.
Proof.
  intros Hb H. apply (Qmult_le_compat_r _ _ b) in H; [|lra].
  unfold Qdiv in H. rewrite <- Qmult_assoc, (Qmult_comm (/ b)), Qmult_inv_r, Qmult_1_r in H; lra.
Qed.

Lemma pow10_pos k : 0 <= k -> 0 < 10 ^ k.
Proof. intros. apply Z.pow_pos_nonneg; lia. Qed.

(** ** Comparison is the order of the values *)

Lemma scale_to_val e a : e <= de a -> (inject_Z (scale_to e a) * pw e == dval a)%Q.
Proof.
  intros He. unfold scale_to, dval. rewrite inject_Z_mult, (pw_split (de a) e He). ring.
Qed.

Lemma dcmp_val a b : dcmp a b = (dval a ?= dval b)%Q.
Proof.
  unfold dcmp. set (e := Z.min (de a) (de b)).
  rewrite <- (scale_to_val e a), <- (scale_to_val e b) by (unfold e; lia).
  generalize (scale_to e a), (scale_to e b). intros x y.
  pose proof (pw_pos e) as Hp.
  destruct (Z.compare_spec x y) as [->|Hxy|Hxy]; symmetry.
  - by apply Qeq_alt.
  - apply Qlt_alt. apply Qmult_lt_compat_r; [done|]. by rewrite <- Zlt_Qlt.
  - apply Qgt_alt. apply Qmult_lt_compat_r; [done|]. by rewrite <- Zlt_Qlt.
Qed.

#[export] Instance py_ord_dec_laws : PyOrdLaws dec.
Proof.
  split.
  - intros x y. unfold py_cmp, py_ord_dec. rewrite !dcmp_val. symmetry. apply Qcompare_antisym.
  - intros x y z. unfold py_le, py_cmp, py_ord_dec. rewrite !dcmp_val.
    destruct (Qcompare_spec (dval x) (dval y)), (Qcompare_spec (dval y) (dval z)),
      (Qcompare_spec (dval x) (dval z)); intros; try done; lra.
Qed.

Lemma dle_val a b : (a <=? b)%dec = true <-> (dval a <= dval b)%Q.
Proof.
  unfold py_le, py_cmp, py_ord_dec. rewrite dcmp_val.
  destruct (Qcompare_spec (dval a) (dval b)); split; intros; try done; lra.
Qed.

Lemma dlt_val a b : (a <? b)%dec = true <-> (dval a < dval b)%Q.
Proof.
  unfold py_lt, py_cmp, py_ord_dec. rewrite dcmp_val.
  destruct (Qcompare_spec (dval a) (dval b)); split; intros; try done; lra.
Qed.

Lemma dle_false a b : (a <=? b)%dec = false <-> (dval b < dval a)%Q.
Proof. rewrite <- not_true_iff_false, dle_val. split; intros; lra. Qed.

Lemma dlt_false a b : (a <? b)%dec = false <-> (dval b <= dval a)%Q.
Proof. rewrite <- not_true_iff_false, dlt_val. split; intros; lra. Qed.

Lemma deqb_val a b : (a =? b)%dec = true <-> (dval a == dval b)%Q.
Proof.
  unfold deqb. rewrite dcmp_val.
  destruct (Qcompare_spec (dval a) (dval b)); split; intros; try done; lra.
Qed.

(** Decimals of the same value are the same to every comparison. *)
#[export] Instance dec_equiv : Equiv dec := fun a b => (dval a == dval b)%Q.
#[export] Instance dec_equivalence : Equivalence (≡@{dec}).
Proof.
  unfold equiv, dec_equiv.
  split; [intros ?; reflexivity|intros ? ? ->; reflexivity|intros ? ? ? -> ->; reflexivity].
Qed.
#[export] Instance dcmp_proper : Proper ((≡) ==> (≡) ==> (=)) dcmp.
Proof. intros a a' Ha b b' Hb. rewrite !dcmp_val. by apply Qcompare_comp. Qed.
#[export] Instance dle_proper : Proper ((≡@{dec}) ==> (≡) ==> (=)) py_le.
Proof. intros a a' Ha b b' Hb. unfold py_le, py_cmp, py_ord_dec. by rewrite Ha, Hb. Qed.
#[export] Instance dlt_proper : Proper ((≡@{dec}) ==> (≡) ==> (=)) py_lt.
Proof. intros a a' Ha b b' Hb. unfold py_lt, py_cmp, py_ord_dec. by rewrite Ha, Hb. Qed.
Lemma deqb_equiv (a b : dec) : (a =? b)%dec = true <-> a ≡ b.
Proof. apply deqb_val. Qed.

Lemma dval_int z : (dval (dint z) == inject_Z z)%Q.
Proof. unfold dval, dint. simpl. ring. Qed.

Lemma dval_sign a : ((0 <= dval a)%Q <-> 0 <= dm a) /\ ((0 < dval a)%Q <-> 0 < dm a).
Proof.
  unfold dval. pose proof (pw_pos (de a)).
  rewrite (Zle_Qle 0 (dm a)), (Zlt_Qlt 0 (dm a)). change (inject_Z 0) with 0%Q.
  split; split; intros Hx; nra.
Qed.

(** [dec_order] moves decimal comparisons to the rationals and calls [lra]. *)
Ltac dec_to_Q :=
  rewrite ?dle_val, ?dlt_val, ?dle_false, ?dlt_false, ?deqb_val in *.
Ltac dec_order := intros; dec_to_Q; try lra.

(** ** Digits *)

Lemma ndigits_aux_pos fuel z : (1 <= ndigits_aux fuel z)%nat.
Proof. destruct fuel; simpl; [lia|]. destruct (_ <? _); lia. Qed.

Lemma ndigits_aux_spec fuel z :
  0 < z -> z < 2 ^ (Z.of_nat fuel + 1) ->
  10 ^ (Z.of_nat (ndigits_aux fuel z) - 1) <= z < 10 ^ Z.of_nat (ndigits_aux fuel z).
Proof.
  revert z; induction fuel as [|f IH]; intros z Hz Hf.
  - simpl in *. lia.
  - cbn [ndigits_aux]. destruct (Z.ltb_spec z 10) as [Hlt|Hge]; [simpl; lia|].
    assert (0 < z / 10) by (apply Z.div_str_pos; lia).
    assert (z / 10 < 2 ^ (Z.of_nat f + 1)) as Hf'.
    { apply Z.div_lt_upper_bound; [lia|]. rewrite Nat2Z.inj_succ in Hf.
      replace (Z.succ (Z.of_nat f) + 1) with (1 + (Z.of_nat f + 1)) in Hf by lia.
      rewrite Z.pow_add_r in Hf by lia. lia. }
    specialize (IH (z / 10) ltac:(done) Hf') as [IH1 IH2].
    set (n := ndigits_aux f (z / 10)) in *. rewrite Nat2Z.inj_succ.
    pose proof (ndigits_aux_pos f (z / 10)) as Hn. fold n in Hn.
    pose proof (Z.div_mod z 10 ltac:(lia)). pose proof (Z.mod_pos_bound z 10 ltac:(lia)).
    replace (Z.succ (Z.of_nat n) - 1) with (1 + (Z.of_nat n - 1)) by lia.
    replace (Z.succ (Z.of_nat n)) with (1 + Z.of_nat n) by lia.
    rewrite !(Z.pow_add_r 10 1) by lia. lia.
Qed.

Lemma ndigits_spec z :
  0 < z -> 10 ^ (Z.of_nat (ndigits z) - 1) <= z < 10 ^ Z.of_nat (ndigits z).
Proof.
  intros Hz. apply ndigits_aux_spec; [done|].
  rewrite Z2Nat.id by apply Z.log2_nonneg. rewrite Z.add_1_r. by apply Z.log2_spec.
Qed.

Lemma ndigits_pos z : (1 <= ndigits z)%nat.
Proof. apply ndigits_aux_pos. Qed.

Lemma ndigits_le z k : 0 <= z < 10 ^ k -> 1 <= k -> Z.of_nat (ndigits z) <= k.
Proof.
  intros [Hz Hk] H1. destruct (Z.eq_dec z 0) as [->|]; [change (ndigits 0) with 1%nat; lia|].
  destruct (ndigits_spec z ltac:(lia)) as [Hl _].
  assert (10 ^ (Z.of_nat (ndigits z) - 1) < 10 ^ k) as Hp by lia.
  apply Z.pow_lt_mono_r_iff in Hp; lia.
Qed.

Lemma ndigits_ge z k : 10 ^ k <= z -> 0 <= k -> k + 1 <= Z.of_nat (ndigits z).
Proof.
  intros Hk H0. pose proof (pow10_pos k H0).
  destruct (ndigits_spec z ltac:(lia)) as [_ Hu].
  assert (10 ^ k < 10 ^ Z.of_nat (ndigits z)) as Hp by lia.
  apply Z.pow_lt_mono_r_iff in Hp; lia.
Qed.

(** ** Rounding to the nearest integer *)

Lemma rne_div_le n d c : 0 < d -> n <= c * d -> rne_div n d <= c.
Proof.
  intros Hd Hn. unfold rne_div.
  pose proof (Z.div_mod n d ltac:(lia)). pose proof (Z.mod_pos_bound n d Hd).
  assert (n / d <= c) by (apply Z.div_le_upper_bound; lia).
  destruct (Z.compare_spec (2 * (n mod d)) d); [destruct (Z.even _); [lia|]|lia|]; nia.
Qed.

Lemma rne_div_ge n d c : 0 < d -> c * d <= n -> c <= rne_div n d.
Proof.
  intros Hd Hn. unfold rne_div.
  assert (c <= n / d) by (apply Z.div_le_lower_bound; lia).
  destruct (2 * (n mod d) ?= d); [destruct (Z.even _)| |]; lia.
Qed.

Lemma rne_div_exact m d : 0 < d -> rne_div (m * d) d = m.
Proof.
  intros Hd. apply Z.le_antisymm; [apply rne_div_le|apply rne_div_ge]; lia.
Qed.

(** The error is at most one half. *)
Lemma rne_div_half n d : 0 < d -> Z.abs (2 * (d * rne_div n d - n)) <= d.
Proof.
  intros Hd. unfold rne_div.
  pose proof (Z.div_mod n d ltac:(lia)). pose proof (Z.mod_pos_bound n d Hd).
  destruct (Z.compare_spec (2 * (n mod d)) d); [destruct (Z.even _)| |]; nia.
Qed.

(** ** Rounding to 28 digits *)

(** A decimal that fits the context's precision. *)
Definition dfits (c : dec) : Prop := Z.abs (dm c) < 10 ^ 28.

Section rounding.
Context (n d e : Z).
(* [1 / d] is exact, or the quotient already has more than 28 digits *)
Context (Hd : d = 1 \/ (0 < d /\ 10 ^ 28 <= Z.abs n / d)).

Let k := Z.max 0 (Z.of_nat (ndigits (Z.abs n / d)) - 28).
Let x : Q := (inject_Z n / inject_Z d * pw e)%Q.

Lemma dround_d_pos : 0 < d.
Proof. lia. Qed.

Lemma dround_val : (dval (dround n d e) == inject_Z (rne_div n (d * 10 ^ k)) * pw (e + k))%Q.
Proof.
  unfold dround. fold k. set (q := rne_div n (d * 10 ^ k)).
  destruct (Z.eqb_spec (Z.abs q) (10 ^ 28)) as [Hq|]; [|done].
  unfold dval; simpl dm; simpl de.
  rewrite (pw_plus (e + k) 1). change (pw 1) with (10#1)%Q.
  assert (inject_Z q == inject_Z (q / 10) * (10#1))%Q as ->.
  { change (10#1)%Q with (inject_Z 10). rewrite <- inject_Z_mult. apply inject_Z_injective.
    assert (q = 10 ^ 28 \/ q = - 10 ^ 28) as [-> | ->] by lia; reflexivity. }
  ring.
Qed.

Lemma dround_scale :
  (x == inject_Z n / inject_Z (d * 10 ^ k) * pw (e + k))%Q.
Proof.
  unfold x. pose proof dround_d_pos. assert (0 <= k) as Hk by (unfold k; lia).
  rewrite pw_plus, (pw_nonneg k), inject_Z_mult by done.
  pose proof (pow10_pos k Hk). field.
  split; intros Hz%(proj1 (inject_Z_injective _ 0)); lia.
Qed.

(** With [k] digits cut off, the coefficient has 28 digits. *)
Lemma dround_big : 0 < k -> 10 ^ 27 * (d * 10 ^ k) <= Z.abs n < 10 ^ 28 * (d * 10 ^ k).
Proof.
  intros Hk. pose proof dround_d_pos as Hd0.
  set (z := Z.abs n / d) in *.
  assert (0 < z) as Hz.
  { destruct (Z.eq_dec z 0) as [E|]; [|pose proof (Z.div_pos (Z.abs n) d ltac:(lia) Hd0); lia].
    exfalso. unfold k in Hk. fold z in Hk. rewrite E in Hk. vm_compute in Hk. discriminate Hk. }
  destruct (ndigits_spec z Hz) as [Hl Hu].
  assert (Z.of_nat (ndigits z) = k + 28) as E by (unfold k in *; fold z in Hk |- *; lia).
  rewrite E in Hl, Hu.
  replace (k + 28 - 1) with (27 + k) in Hl by lia.
  replace (k + 28) with (28 + k) in Hu by lia.
  rewrite Z.pow_add_r in Hl, Hu by lia.
  pose proof (Z.div_mod (Z.abs n) d ltac:(lia)) as Hdm. fold z in Hdm.
  pose proof (Z.mod_pos_bound (Z.abs n) d Hd0). nia.
Qed.

Lemma dround_k0 : k = 0 -> d = 1 /\ rne_div n (d * 10 ^ k) = n.
Proof.
  intros Hk. destruct Hd as [->|[Hd0 Hbig]].
  - split; [done|]. rewrite Hk. change (1 * 10 ^ 0) with 1.
    rewrite <- (Z.mul_1_r n) at 1. by apply rne_div_exact.
  - exfalso. pose proof (ndigits_ge (Z.abs n / d) 28 Hbig ltac:(lia)). unfold k in Hk. lia.
Qed.

Lemma dround_fits : dfits (dround n d e).
Proof.
  unfold dround, dfits. fold k. set (q := rne_div n (d * 10 ^ k)).
  assert (Z.abs q <= 10 ^ 28) as Hq.
  { assert (0 <= k) as Hk by (unfold k; lia).
    destruct (Z.eq_dec k 0) as [E|].
    - destruct (dround_k0 E) as [-> Hr]. fold q in Hr. rewrite Hr.
      pose proof (ndigits_spec (Z.abs n)) as Hn. unfold k in E. rewrite Z.div_1_r in E.
      destruct (Z.eq_dec n 0) as [->|]; [lia|]. specialize (Hn ltac:(lia)) as [_ Hn].
      pose proof (Z.pow_le_mono_r 10 (Z.of_nat (ndigits (Z.abs n))) 28). lia.
    - pose proof (dround_big ltac:(lia)) as [_ Hu]. pose proof dround_d_pos.
      pose proof (pow10_pos k Hk).
      assert (- 10 ^ 28 <= q) by (apply rne_div_ge; nia).
      assert (q <= 10 ^ 28) by (apply rne_div_le; nia). lia. }
  destruct (Z.eqb_spec (Z.abs q) (10 ^ 28)) as [E|E]; simpl; [|lia].
  assert (q = 10 ^ 28 \/ q = - 10 ^ 28) as [-> | ->] by lia; vm_compute; reflexivity.
Qed.

(** Rounding does not cross a number that fits. *)
Lemma dround_le c : dfits c -> (x <= dval c)%Q -> (dval (dround n d e) <= dval c)%Q.
Proof.
  intros Hc Hx. rewrite dround_val. rewrite dround_scale in Hx.
  pose proof dround_d_pos as Hd0. assert (0 <= k) as Hk by (unfold k; lia).
  pose proof (pow10_pos k Hk) as Hpk. set (D := d * 10 ^ k) in *.
  assert (0 < D) as HD by (unfold D; nia). assert (0 < inject_Z D)%Q as HDq.
  { change 0%Q with (inject_Z 0). by rewrite <- Zlt_Qlt. }
  pose proof (pw_pos (e + k)) as Hpw.
  assert (forall C : Z, (dval c == inject_Z C * pw (e + k))%Q ->
            (inject_Z (rne_div n D) * pw (e + k) <= dval c)%Q) as Hint.
  { intros C HC. rewrite HC in Hx |- *. apply Qmult_le_compat_r; [|lra].
    rewrite <- Zle_Qle. apply rne_div_le; [done|].
    apply Qmult_lt_0_le_reg_r in Hx; [|done].
    rewrite Zle_Qle, inject_Z_mult. by apply Qdiv_le_mult. }
  destruct (Z.le_gt_cases (e + k) (de c)) as [Hec|Hec].
  { apply (Hint (scale_to (e + k) c)). symmetry. by apply scale_to_val. }
  destruct (Z.eq_dec k 0) as [Ek|].
  { destruct (dround_k0 Ek) as [Ed Er]. fold D in Er. rewrite Er.
    assert (D = 1) as -> by (unfold D; rewrite Ed, Ek; reflexivity).
    change (inject_Z 1) with 1%Q in Hx.
    unfold Qdiv in Hx. change (/ 1)%Q with 1%Q in Hx. rewrite Qmult_1_r in Hx. exact Hx. }
  destruct (dround_big ltac:(lia)) as [Hbig _]. fold D in Hbig.
  (* |c| < 10 ^ 27 * 10 ^ (e + k) *)
  assert (inject_Z (- 10 ^ 27) * pw (e + k) <= dval c /\
          dval c < inject_Z (10 ^ 27) * pw (e + k))%Q as [Hcl Hcu].
  { rewrite (pw_split (e + k) (de c)) by lia. unfold dval, dfits in *.
    pose proof (pw_pos (de c)) as Hpc.
    assert (10 <= 10 ^ (e + k - de c)) as H10.
    { change 10 with (10 ^ 1) at 1. apply Z.pow_le_mono_r; lia. }
    rewrite !Qmult_assoc, <- !inject_Z_mult. split.
    - apply Qmult_le_compat_r; [|lra]. rewrite <- Zle_Qle. nia.
    - apply Qmult_lt_compat_r; [done|]. rewrite <- Zlt_Qlt. nia. }
  destruct (Z.le_gt_cases 0 n) as [Hn|Hn].
  - exfalso. assert (inject_Z (10 ^ 27) * pw (e + k) <= inject_Z n / inject_Z D * pw (e + k))%Q.
    { apply Qmult_le_compat_r; [|lra]. apply Qle_shift_div_l; [done|].
      rewrite <- inject_Z_mult, <- Zle_Qle. lia. }
    lra.
  - eapply Qle_trans; [|exact Hcl]. apply Qmult_le_compat_r; [|lra].
    rewrite <- Zle_Qle. apply rne_div_le; [done|]. nia.
Qed.
End rounding.

Lemma rne_div_opp n d : 0 < d -> rne_div (- n) d = - rne_div n d.
Proof.
  intros Hd. unfold rne_div.
  pose proof (Z.div_mod n d ltac:(lia)). pose proof (Z.mod_pos_bound n d Hd).
  destruct (Z.eq_dec (n mod d) 0) as [E|E].
  - rewrite Z.mod_opp_l_z, Z.div_opp_l_z, E by lia.
    change (2 * 0) with 0. destruct (Z.compare_spec 0 d); lia.
  - rewrite Z.mod_opp_l_nz, Z.div_opp_l_nz by lia.
    destruct (Z.compare_spec (2 * (n mod d)) d), (Z.compare_spec (2 * (d - n mod d)) d); try lia.
    replace (- (n / d) - 1) with (- (n / d + 1)) by lia.
    rewrite Z.even_opp, Z.add_1_r, Z.even_succ, <- Z.negb_even.
    destruct (Z.even (n / d)); simpl; lia.
Qed.

Definition dround_ok (n d : Z) : Prop := d = 1 \/ (0 < d /\ 10 ^ 28 <= Z.abs n / d).

Lemma dround_opp n d e :
  dround_ok n d -> (dval (dround (- n) d e) == - dval (dround n d e))%Q.
Proof.
  intros Hd. rewrite !dround_val. rewrite Z.abs_opp.
  set (k := Z.max 0 _). rewrite rne_div_opp, inject_Z_opp; [ring|].
  apply Z.mul_pos_pos; [destruct Hd; lia|]. apply pow10_pos. lia.
Qed.


Lemma dopp_val c : (dval (dopp c) == - dval c)%Q.
Proof. unfold dval, dopp; simpl. rewrite inject_Z_opp. ring. Qed.
Lemma dopp_fits c : dfits c -> dfits (dopp c).
Proof. unfold dfits, dopp; simpl. lia. Qed.

Lemma dround_ge n d e c :
  dround_ok n d -> dfits c -> (dval c <= inject_Z n / inject_Z d * pw e)%Q ->
  (dval c <= dval (dround n d e))%Q.
Proof.
  intros Hd Hc Hx.
  assert (dval (dround (- n) d e) <= dval (dopp c))%Q as H.
  { apply dround_le; [|by apply dopp_fits|].
    - destruct Hd; [by left|right]. by rewrite Z.abs_opp.
    - rewrite dopp_val, inject_Z_opp. unfold Qdiv in *. lra. }
  rewrite dround_opp, dopp_val in H by done. lra.
Qed.

(** ** Operations *)

(** [rounded x r]: [r] is [x] rounded; it fits, and it is on the same side as [x]
    of every number that fits. *)
Definition rounded (x : Q) (r : dec) : Prop :=
  dfits r /\ forall c, dfits c ->
    ((x <= dval c -> dval r <= dval c) /\ (dval c <= x -> dval c <= dval r))%Q.

#[export] Instance rounded_proper : Proper (Qeq ==> eq ==> iff) rounded.
Proof. intros x y Hxy r ? <-. unfold rounded. by setoid_rewrite Hxy. Qed.

Lemma dround_rounded n d e :
  dround_ok n d -> rounded (inject_Z n / inject_Z d * pw e)%Q (dround n d e).
Proof.
  intros Hd. split; [by apply dround_fits|]. intros c Hc. split; intros Hx.
  - by apply dround_le.
  - by apply dround_ge.
Qed.

Lemma dfix_rounded m e : rounded (inject_Z m * pw e)%Q (dfix m e).
Proof.
  unfold dfix. pose proof (dround_rounded m 1 e (or_introl eq_refl)) as H.
  change (inject_Z 1) with 1%Q in H.
  assert (inject_Z m / 1 * pw e == inject_Z m * pw e)%Q as E by field. by rewrite E in H.
Qed.

Lemma dfix_zero e : dfix 0 e = Dec 0 e.
Proof.
  unfold dfix, dround. change (Z.abs 0 / 1) with 0. change (ndigits 0) with 1%nat.
  cbn. by rewrite Z.add_0_r.
Qed.

Lemma dadd_rounded a b : rounded (dval a + dval b)%Q (dadd a b).
Proof.
  unfold dadd. set (e := Z.min _ _).
  rewrite <- (scale_to_val e a), <- (scale_to_val e b) by (unfold e; lia).
  rewrite <- Qmult_plus_distr_l, <- inject_Z_plus. apply dfix_rounded.
Qed.

Lemma dsub_rounded a b : rounded (dval a - dval b)%Q (dsub a b).
Proof.
  unfold dsub. set (e := Z.min _ _).
  rewrite <- (scale_to_val e a), <- (scale_to_val e b) by (unfold e; lia).
  set (x := scale_to e a). set (y := scale_to e b).
  assert (inject_Z x * pw e - inject_Z y * pw e == inject_Z (x - y) * pw e)%Q as ->.
  { replace (x - y) with (x + - y) by lia. rewrite inject_Z_plus, inject_Z_opp. ring. }
  apply dfix_rounded.
Qed.

Lemma dmul_rounded a b : rounded (dval a * dval b)%Q (dmul a b).
Proof.
  unfold dmul, dval.
  assert (inject_Z (dm a) * pw (de a) * (inject_Z (dm b) * pw (de b)) ==
          inject_Z (dm a * dm b) * pw (de a + de b))%Q as ->.
  { rewrite inject_Z_mult, pw_plus. ring. }
  apply dfix_rounded.
Qed.

Lemma dabs_rounded a : rounded (Qabs (dval a)) (dabs a).
Proof.
  unfold dabs, dval.
  assert (Qabs (inject_Z (dm a) * pw (de a)) == inject_Z (Z.abs (dm a)) * pw (de a))%Q as ->.
  { rewrite Qabs_Qmult, (Qabs_pos (pw (de a))).
    - reflexivity.
    - pose proof (pw_pos (de a)). lra. }
  apply dfix_rounded.
Qed.

Lemma dneg_rounded a : rounded (- dval a)%Q (dneg a).
Proof. unfold dneg. rewrite <- dopp_val. apply dfix_rounded. Qed.

(** ** Division *)

Lemma strip_zeros_val fuel m e ideal :
  let '(m', e') := strip_zeros fuel m e ideal in
  (inject_Z m' * pw e' == inject_Z m * pw e)%Q.
Proof.
  revert m e; induction fuel as [|f IH]; intros m e; simpl; [reflexivity|].
  destruct (_ && _) eqn:E; [|reflexivity]. bool_prop. destruct E as [_ Hm].
  specialize (IH (m / 10) (e + 1)). destruct (strip_zeros _ _ _ _) as [m' e'].
  rewrite IH, pw_plus. change (pw 1) with (inject_Z 10).
  assert (inject_Z m == inject_Z (m / 10) * inject_Z 10)%Q as ->; [|ring].
  rewrite <- inject_Z_mult. apply inject_Z_injective.
  pose proof (Z.div_mod m 10 ltac:(lia)). lia.
Qed.

Lemma inject_Z_nz z : z <> 0 -> ~ (inject_Z z == 0)%Q.
Proof. intros Hz H%(proj1 (inject_Z_injective z 0)). lia. Qed.

(** The exact quotient is [n / d * 10 ^ e] for the scaled operands. *)
Lemma ddiv_scaled a b shift :
  dm b <> 0 ->
  (inject_Z (Z.sgn (dm b) * dm a * 10 ^ Z.max 0 shift) /
     inject_Z (Z.abs (dm b) * 10 ^ Z.max 0 (- shift)) * pw (de a - de b - shift)
   == dval a / dval b)%Q.
Proof.
  intros Hb. unfold dval. rewrite !inject_Z_mult, <- !pw_nonneg by lia.
  assert (inject_Z (Z.sgn (dm b)) / inject_Z (Z.abs (dm b)) == / inject_Z (dm b))%Q as E.
  { destruct (Z.lt_total 0 (dm b)) as [H|[H|H]]; [|lia|].
    - rewrite Z.sgn_pos, Z.abs_eq by lia. change (inject_Z 1) with 1%Q.
      field. apply inject_Z_nz; lia.
    - rewrite Z.sgn_neg, Z.abs_neq, inject_Z_opp by lia. change (inject_Z (-1)) with (-1)%Q.
      field. apply inject_Z_nz; lia. }
  assert (pw (Z.max 0 shift) / pw (Z.max 0 (- shift)) == pw shift)%Q as E2.
  { assert (pw (Z.max 0 shift) == pw shift * pw (Z.max 0 (- shift)))%Q as ->.
    { rewrite <- pw_plus. by replace (shift + _) with (Z.max 0 shift) by lia. }
    field. pose proof (pw_pos (Z.max 0 (- shift))). lra. }
  assert (pw (de a) == pw (de a - de b - shift) * pw shift * pw (de b))%Q as E3.
  { rewrite <- !pw_plus. by replace (de a - de b - shift + shift + de b) with (de a) by lia. }
  rewrite E3. pose proof (pw_pos (de b)). pose proof (pw_pos (Z.max 0 (- shift))).
  assert (~ (inject_Z (Z.abs (dm b)) == 0)%Q) by (apply inject_Z_nz; lia).
  assert (~ (inject_Z (dm b) == 0)%Q) by (apply inject_Z_nz; lia).
  transitivity (inject_Z (Z.sgn (dm b)) / inject_Z (Z.abs (dm b)) * inject_Z (dm a) *
    (pw (Z.max 0 shift) / pw (Z.max 0 (- shift))) * pw (de a - de b - shift))%Q.
  { field. split; lra. }
  rewrite E, E2. field. split; lra.
Qed.

(** The scaled quotient has 29 or 30 digits. *)
Lemma ddiv_big a b :
  dm a <> 0 -> dm b <> 0 ->
  let shift := Z.of_nat (ndigits (Z.abs (dm b))) - Z.of_nat (ndigits (Z.abs (dm a))) + 29 in
  10 ^ 28 <= Z.abs (Z.sgn (dm b) * dm a * 10 ^ Z.max 0 shift) /
             (Z.abs (dm b) * 10 ^ Z.max 0 (- shift)).
Proof.
  intros Ha Hb shift.
  destruct (ndigits_spec (Z.abs (dm a)) ltac:(lia)) as [Ha1 _].
  destruct (ndigits_spec (Z.abs (dm b)) ltac:(lia)) as [_ Hb2].
  pose proof (ndigits_pos (Z.abs (dm a))) as Hna.
  set (na := Z.of_nat (ndigits (Z.abs (dm a)))) in *.
  set (nb := Z.of_nat (ndigits (Z.abs (dm b)))) in *.
  pose proof (pow10_pos (Z.max 0 shift) ltac:(lia)) as Hp1.
  pose proof (pow10_pos (Z.max 0 (- shift)) ltac:(lia)) as Hp2.
  assert (Z.abs (Z.sgn (dm b) * dm a * 10 ^ Z.max 0 shift) =
          Z.abs (dm a) * 10 ^ Z.max 0 shift) as ->.
  { rewrite !Z.abs_mul, (Z.abs_eq (10 ^ _)) by lia.
    assert (Z.abs (Z.sgn (dm b)) = 1) as -> by lia. lia. }
  apply Z.div_le_lower_bound; [nia|].
  transitivity (10 ^ (na - 1) * 10 ^ Z.max 0 shift); [|apply Z.mul_le_mono_nonneg_r; lia].
  transitivity (10 ^ nb * 10 ^ Z.max 0 (- shift) * 10 ^ 28).
  { apply Z.mul_le_mono_nonneg_r; [lia|]. apply Z.mul_le_mono_nonneg_r; lia. }
  rewrite <- !Z.pow_add_r by lia. apply Z.pow_le_mono_r; [lia|]. unfold shift in *. lia.
Qed.

(** What the quotient is worth, and that [dround] rounds it correctly. *)
Lemma quotient_spec a b n d e :
  quotient a b = Ok (n, d, e) ->
  dround_ok n d /\ (inject_Z n / inject_Z d * pw e == dval a / dval b)%Q.
Proof.
  unfold quotient. destruct (Z.eqb_spec (dm b) 0) as [|Hb]; [done|].
  destruct (Z.eqb_spec (dm a) 0) as [Ha|Ha].
  - intros [= <- <- <-]. split; [by left|].
    unfold dval. rewrite Ha. pose proof (pw_pos (de b)). change (inject_Z 1) with 1%Q. field.
    split; [lra|by apply inject_Z_nz].
  - set (shift := _ - _ + 29). rewrite <- (ddiv_scaled a b shift Hb).
    pose proof (ddiv_big a b Ha Hb) as Hbig. cbv zeta in Hbig. fold shift in Hbig.
    set (n' := Z.sgn (dm b) * dm a * _) in *. set (d' := Z.abs (dm b) * _) in *.
    set (e' := de a - de b - shift).
    assert (0 < d') as Hd.
    { unfold d'. pose proof (pow10_pos (Z.max 0 (- shift)) ltac:(lia)). nia. }
    destruct (Z.eqb_spec (n' mod d') 0) as [Hr|Hr].
    + pose proof (strip_zeros_val 30 (n' / d') e' (de a - de b)) as Hs.
      destruct (strip_zeros _ _ _ _) as [m' e'']. intros [= <- <- <-]. split; [by left|].
      change (inject_Z 1) with 1%Q. transitivity (inject_Z m' * pw e'')%Q; [field|].
      rewrite Hs. apply Qmult_comp; [|reflexivity].
      pose proof (Z.div_mod n' d' ltac:(lia)) as Hdm. rewrite Hr, Z.add_0_r in Hdm.
      rewrite Hdm at 2. rewrite inject_Z_mult. field. apply inject_Z_nz; lia.
    + intros [= <- <- <-]. split; [by right|reflexivity].
Qed.

Lemma quotient_ok a b : dm b <> 0 -> exists n d e, quotient a b = Ok (n, d, e).
Proof.
  intros Hb. unfold quotient. destruct (Z.eqb_spec (dm b) 0); [done|].
  repeat (case_match; try by eauto).
Qed.

Lemma ddiv_rounded a b q : ddiv a b = Ok q -> rounded (dval a / dval b)%Q q.
Proof.
  unfold ddiv. destruct (quotient a b) as [[[n d] e]|] eqn:E; [|done]. intros [= <-].
  apply quotient_spec in E as [Hd <-]. by apply dround_rounded.
Qed.

Lemma ddiv_ok a b : dm b <> 0 -> exists q, ddiv a b = Ok q.
Proof. intros Hb. unfold ddiv. destruct (quotient_ok a b Hb) as (n & d & e & ->). by eexists. Qed.

Lemma ddiv_pos_ok a b : (0 < dval b)%Q -> exists q, ddiv a b = Ok q.
Proof. intros Hb. apply ddiv_ok. apply dval_sign in Hb. lia. Qed.

(** ** Consequences of [rounded] *)

Lemma d0_fits : dfits d0.
Proof. by vm_compute. Qed.
Lemma d0_val : (dval d0 == 0)%Q.
Proof. reflexivity. Qed.

Lemma rounded_nonneg x r : rounded x r -> (0 <= x)%Q -> (0 <= dval r)%Q.
Proof. intros [_ H] Hx. destruct (H d0 d0_fits) as [_ H0]. rewrite d0_val in H0. auto. Qed.

Lemma rounded_nonpos x r : rounded x r -> (x <= 0)%Q -> (dval r <= 0)%Q.
Proof. intros [_ H] Hx. destruct (H d0 d0_fits) as [H0 _]. rewrite d0_val in H0. auto. Qed.

Lemma rounded_le x r c : rounded x r -> dfits c -> (x <= dval c -> dval r <= dval c)%Q.
Proof. intros [_ H] Hc. apply (H c Hc). Qed.

Lemma rounded_ge x r c : rounded x r -> dfits c -> (dval c <= x -> dval c <= dval r)%Q.
Proof. intros [_ H] Hc. apply (H c Hc). Qed.

(** A result that fits is exact. *)
Lemma rounded_exact x r c : rounded x r -> dfits c -> (x == dval c)%Q -> (dval r == dval c)%Q.
Proof.
  intros [_ H] Hc Hx. destruct (H c Hc) as [Hl Hg].
  apply Qle_antisym; [apply Hl|apply Hg]; lra.
Qed.

Lemma dquantize_fits a e q : dquantize a e = Ok q -> dfits q.
Proof. unfold dquantize, dfits. destruct (Z.ltb_spec (Z.abs (if e <=? de a then dm a * 10 ^ (de a - e) else rne_div (dm a) (10 ^ (e - de a)))) (10 ^ 28)); [|done]. by intros [= <-]. Qed.

(** Quantising does not cross a multiple of the quantum. *)
Lemma dquantize_rounded a e q c :
  dquantize a e = Ok q -> e <= de c ->
  ((dval a <= dval c -> dval q <= dval c) /\ (dval c <= dval a -> dval c <= dval q))%Q.
Proof.
  unfold dquantize. destruct (_ <? _); [|done]. intros [= <-] Hc.
  rewrite <- (scale_to_val e c Hc). set (C := scale_to e c).
  pose proof (pw_pos e) as Hp. unfold dval at 2 4; simpl.
  destruct (Z.leb_spec e (de a)) as [He|He].
  - assert (dval a == inject_Z (dm a * 10 ^ (de a - e)) * pw e)%Q as ->; [|done].
    symmetry. by apply (scale_to_val e a).
  - unfold dval. rewrite (pw_split e (de a)) by lia. set (D := 10 ^ (e - de a)).
    assert (0 < D) as HD by (apply pow10_pos; lia). pose proof (pw_pos (de a)) as Hpa.
    rewrite !Qmult_assoc, <- !inject_Z_mult.
    split; intros Hx; apply Qmult_lt_0_le_reg_r in Hx; [|done| |done]; rewrite <- Zle_Qle in Hx;
      (apply Qmult_le_compat_r; [|lra]); rewrite <- Zle_Qle.
    + apply Z.mul_le_mono_nonneg_r; [lia|]. by apply rne_div_le.
    + apply Z.mul_le_mono_nonneg_r; [lia|]. by apply rne_div_ge.
Qed.

#[export] Hint Resolve dadd_rounded dsub_rounded dmul_rounded dabs_rounded ddiv_rounded
  d0_fits rounded_nonneg : decimal.

(** A positive number rounds to a positive one: the exponent has no lower bound. *)
Lemma rounded_pos x r : rounded x r -> (0 < x)%Q -> (0 < dval r)%Q.
Proof.
  intros [_ H] Hx. destruct x as [n d]. set (k := Z.pos d).
  assert (dval (Dec 1 (- k)) <= n # d)%Q as Hle.
  { unfold dval. simpl (dm _). simpl (de _).
    assert (pw (- k) * inject_Z (10 ^ k) == 1)%Q as Hinv.
    { rewrite <- pw_nonneg, <- pw_plus by (unfold k; lia). by replace (- k + k) with 0 by lia. }
    assert (k <= 10 ^ k) as Hk by (apply Z.lt_le_incl, Z.pow_gt_lin_r; unfold k; lia).
    pose proof (pw_pos (- k)) as Hp. rewrite Zle_Qle in Hk.
    assert (1 <= n) as Hn by (unfold Qlt in Hx; simpl in Hx; lia). rewrite Zle_Qle in Hn.
    change (inject_Z 1) with 1%Q in *.
    assert (n # d == inject_Z n * / inject_Z k)%Q as -> by (unfold k; by rewrite (Qmake_Qdiv n d)).
    assert (0 < inject_Z k)%Q as Hkp by done.
    assert (pw (- k) <= / inject_Z k)%Q.
    { apply (Qmult_le_r _ _ (inject_Z k) Hkp). rewrite (Qmult_comm (/ _)), Qmult_inv_r by lra. nra. }
    assert (0 < / inject_Z k)%Q by (by apply Qinv_lt_0_compat). nra. }
  assert (dfits (Dec 1 (- k))) as Hf by (by unfold dfits; simpl).
  destruct (H _ Hf) as [_ Hg]. specialize (Hg Hle).
  eapply Qlt_le_trans; [|exact Hg]. apply dval_sign. simpl. lia.
Qed.

Lemma dquantize_ok a e :
  (Qabs (dval a) < inject_Z (10 ^ 28 - 1) * pw e)%Q -> exists q, dquantize a e = Ok q.
Proof.
  intros Ha. unfold dquantize. cbv zeta.
  set (m := if e <=? de a then dm a * 10 ^ (de a - e) else rne_div (dm a) (10 ^ (e - de a))).
  enough (Z.abs m < 10 ^ 28) as Hm by (apply Z.ltb_lt in Hm as ->; by eexists).
  apply Qabs_Qlt_condition in Ha as [H1 H2]. unfold dval in H1, H2. pose proof (pw_pos e) as Hp.
  unfold m. destruct (Z.leb_spec e (de a)) as [He|He].
  - rewrite (pw_split (de a) e), Qmult_assoc, <- inject_Z_mult in H1, H2 by done.
    rewrite Qmult_lt_r in H2 by done. rewrite <- Zlt_Qlt in H2.
    assert (- inject_Z (10^28 - 1) < inject_Z (dm a * 10 ^ (de a - e)))%Q as H1'.
    { apply (Qmult_lt_r _ _ (pw e) Hp). lra. }
    rewrite <- inject_Z_opp, <- Zlt_Qlt in H1'. lia.
  - rewrite (pw_split e (de a)) in H1, H2 by lia. pose proof (pw_pos (de a)) as Hpa.
    set (D := 10 ^ (e - de a)) in *. assert (0 < D) as HD by (apply pow10_pos; lia).
    assert (inject_Z (dm a) < inject_Z (10 ^ 28 - 1) * inject_Z D)%Q as H2'.
    { apply (Qmult_lt_r _ _ (pw (de a)) Hpa). lra. }
    assert (- (inject_Z (10 ^ 28 - 1) * inject_Z D) < inject_Z (dm a))%Q as H1'.
    { apply (Qmult_lt_r _ _ (pw (de a)) Hpa). lra. }
    rewrite <- inject_Z_mult in H1', H2'. rewrite <- inject_Z_opp in H1'.
    rewrite <- Zlt_Qlt in H1', H2'.
    assert (rne_div (dm a) D <= 10 ^ 28 - 1) by (apply rne_div_le; lia).
    assert (- (10 ^ 28 - 1) <= rne_div (dm a) D) by (apply rne_div_ge; lia). lia.
Qed.
