(* ===== verification/DecimalContext.v ===== *)
(** * Facts about the arithmetic of the context

    The operations of [PyDecimal] with the limits of the exponent: they fail only with the
    decimal exceptions, and on results between [1E-999999] and [1E+999999] they are the
    operations without limits.  [moderate] numbers, far within those limits, are those whose
    sums, differences, products and quotients stay there. *)

From Stdlib Require Import QArith Qpower Qabs Lqa Lia.
From stdpp Require Import list strings.
From S2P Require Import Prelude PyList PyStr PyDecimal DecimalFacts.

Open Scope Z_scope.

(** ** Powers of ten in order *)

Lemma pw_le a b : a <= b -> (pw a <= pw b)%Q.
Proof.
  intros H. rewrite (pw_split b a H). pose proof (pw_pos a) as Hp. pose proof (pow10_pos (b - a) ltac:(lia)) as Hz.
  assert (1 <= inject_Z (10 ^ (b - a)))%Q by (change 1%Q with (inject_Z 1); rewrite <- Zle_Qle; lia). nra.
Qed.

Lemma pw_lt_inv a b : (pw a < pw b)%Q -> a < b.
Proof. intros H. destruct (Z.lt_ge_cases a b) as [|Hge]; [done|]. apply pw_le in Hge. lra. Qed.

Lemma pw_lt a b : a < b -> (pw a < pw b)%Q.
Proof.
  intros H. eapply Qlt_le_trans; [|apply (pw_le (a + 1)); lia]. rewrite pw_plus.
  pose proof (pw_pos a). change (pw 1) with 10%Q. lra.
Qed.

Lemma pw_le_inv a b : (pw a <= pw b)%Q -> a <= b.
Proof. intros H. destruct (Z.le_gt_cases a b) as [|Hgt]; [done|]. apply pw_lt in Hgt. lra. Qed.

Lemma ndigits_pw z :
  0 < z -> (pw (Z.of_nat (ndigits z) - 1) <= inject_Z z < pw (Z.of_nat (ndigits z)))%Q.
Proof.
  intros Hz. destruct (ndigits_spec z Hz) as [Hl Hu]. pose proof (ndigits_pos z).
  rewrite !pw_nonneg by lia. split; [by rewrite <- Zle_Qle|by rewrite <- Zlt_Qlt].
Qed.

Lemma dval_pw d : dm d <> 0 ->
  (pw (Z.of_nat (ndigits (Z.abs (dm d))) + de d - 1) <= Qabs (dval d) < pw (Z.of_nat (ndigits (Z.abs (dm d))) + de d))%Q.
Proof.
  intros Hd. destruct (ndigits_pw (Z.abs (dm d)) ltac:(lia)) as [Hl Hu]. set (k := Z.of_nat _) in *.
  assert (Qabs (dval d) == inject_Z (Z.abs (dm d)) * pw (de d))%Q as ->.
  { unfold dval. rewrite Qabs_Qmult, (Qabs_pos (pw (de d))) by (apply Qlt_le_weak, pw_pos). reflexivity. }
  replace (k + de d - 1) with (k - 1 + de d) by lia. rewrite !pw_plus. pose proof (pw_pos (de d)). split; nra.
Qed.

(** ** Results within the limits *)

Definition normal (x : Q) : Prop := (pw (-999999) <= Qabs x <= pw 999999)%Q.

#[export] Instance normal_proper : Proper (Qeq ==> iff) normal.
Proof. intros x y Hxy. unfold normal. by rewrite Hxy. Qed.

Lemma ctx_round_zero d e : exists r, ctx_round 0 d e = Ok r /\ (dval r == 0)%Q.
Proof. unfold ctx_round. cbn [Z.eqb]. eexists; split; [reflexivity|]. unfold dval; simpl. ring. Qed.

(** The exact result against its digits: [dround_ok] quotients have an integral part. *)
Lemma exact_pw n d e :
  dround_ok n d -> n <> 0 ->
  let k := Z.of_nat (ndigits (Z.abs n / d)) in
  (pw (k - 1 + e) <= Qabs (inject_Z n / inject_Z d * pw e) < pw (k + e))%Q.
Proof.
  intros Hd Hn k. assert (0 < d) as Hd0 by (destruct Hd; lia).
  assert (0 < Z.abs n / d) as Hq by (destruct Hd as [->|[_ H]]; [rewrite Z.div_1_r; lia|lia]).
  destruct (ndigits_spec _ Hq) as [Hl Hu]. fold k in Hl, Hu. pose proof (ndigits_pos (Z.abs n / d)).
  pose proof (Z.div_mod (Z.abs n) d ltac:(lia)). pose proof (Z.mod_pos_bound (Z.abs n) d Hd0).
  assert (0 < inject_Z d)%Q as HdQ by (change 0%Q with (inject_Z 0); by rewrite <- Zlt_Qlt).
  assert (Qabs (inject_Z n / inject_Z d * pw e) == inject_Z (Z.abs n) / inject_Z d * pw e)%Q as ->.
  { rewrite Qabs_Qmult, (Qabs_pos (pw e)) by (apply Qlt_le_weak, pw_pos). unfold Qdiv.
    rewrite Qabs_Qmult, (Qabs_pos (/ inject_Z d)) by (apply Qlt_le_weak; by apply Qinv_lt_0_compat). reflexivity. }
  rewrite !(pw_plus _ e), (pw_nonneg (k - 1)), (pw_nonneg k) by lia. pose proof (pw_pos e) as Hp. split.
  - apply Qmult_le_compat_r; [|lra]. apply Qle_shift_div_l; [done|]. rewrite <- inject_Z_mult, <- Zle_Qle. nia.
  - apply Qmult_lt_compat_r; [done|]. apply Qlt_shift_div_r; [done|]. rewrite <- inject_Z_mult, <- Zlt_Qlt. nia.
Qed.

Lemma dec_pow_fits e : dfits (Dec 1 e).
Proof. by unfold dfits. Qed.
Lemma dval_pow e : (dval (Dec 1 e) == pw e)%Q.
Proof. unfold dval; simpl. change (inject_Z 1) with 1%Q. ring. Qed.

(** Rounding keeps a result between two powers of ten there. *)
Lemma rounded_between x r lo hi :
  rounded x r -> (pw lo <= Qabs x <= pw hi)%Q -> (pw lo <= Qabs (dval r) <= pw hi)%Q.
Proof.
  intros Hr [Hl Hh]. pose proof (pw_pos lo) as Hp. pose proof (dec_pow_fits lo) as Fl. pose proof (dec_pow_fits hi) as Fh.
  destruct (Qlt_le_dec x 0) as [Hx|Hx].
  - rewrite Qabs_neg in Hl, Hh by lra.
    assert (dval r <= - pw lo)%Q as H1.
    { rewrite <- dval_pow, <- dopp_val. apply (rounded_le x); [done|by apply dopp_fits|]. rewrite dopp_val, dval_pow. lra. }
    assert (- pw hi <= dval r)%Q as H2.
    { rewrite <- dval_pow, <- dopp_val. apply (rounded_ge x); [done|by apply dopp_fits|]. rewrite dopp_val, dval_pow. lra. }
    rewrite Qabs_neg by lra. lra.
  - rewrite Qabs_pos in Hl, Hh by lra.
    assert (pw lo <= dval r)%Q as H1 by (rewrite <- dval_pow; apply (rounded_ge x); [done..|]; rewrite dval_pow; lra).
    assert (dval r <= pw hi)%Q as H2 by (rewrite <- dval_pow; apply (rounded_le x); [done..|]; rewrite dval_pow; lra).
    rewrite Qabs_pos by lra. lra.
Qed.

Lemma ctx_round_normal n d e :
  dround_ok n d -> normal (inject_Z n / inject_Z d * pw e) -> ctx_round n d e = Ok (dround n d e).
Proof.
  intros Hd Hx. assert (n <> 0) as Hn.
  { intros ->. destruct Hx as [Hx _]. pose proof (pw_pos (-999999)).
    assert (inject_Z 0 / inject_Z d * pw e == 0)%Q as E by (unfold Qdiv; change (inject_Z 0) with 0%Q; ring).
    rewrite E in Hx. change (Qabs 0) with 0%Q in Hx. lra. }
  pose proof (exact_pw n d e Hd Hn) as [Hl Hu]. pose proof (dround_rounded n d e Hd) as Hr.
  pose proof (rounded_between _ _ _ _ Hr Hx) as [Rl Ru]. destruct Hx as [Xl Xu].
  unfold ctx_round. rewrite (proj2 (Z.eqb_neq n 0) Hn). cbv zeta.
  set (k := Z.of_nat (ndigits (Z.abs n / d))) in *.
  assert (k - 1 + e <= 999999) as H1 by (apply pw_le_inv; lra).
  assert (-999999 < k + e) as H2 by (apply pw_lt_inv; lra).
  rewrite (proj2 (Z.ltb_ge _ _)) by (unfold Emax; lia).
  replace (Z.max (Z.max 0 (k - 28)) (Etiny - e)) with (Z.max 0 (k - 28)) by (unfold Etiny; lia).
  change (if Z.abs (rne_div n (d * 10 ^ Z.max 0 (k - 28))) =? 10 ^ 28 then _ else _) with (dround n d e).
  set (r := dround n d e) in *. rewrite (proj2 (Z.ltb_ge _ _)); [done|].
  assert (dm r <> 0) as Hm.
  { intros E. assert (dval r == 0)%Q as Hz by (unfold dval; rewrite E; change (inject_Z 0) with 0%Q; ring).
    rewrite Hz in Rl. pose proof (pw_pos (-999999)). change (Qabs 0) with 0%Q in Rl. lra. }
  destruct (dval_pw r Hm) as [Hr1 _]. unfold Emax. apply pw_le_inv. lra.
Qed.

(** The operations: what they do on a normal result, and on an exact zero. *)

Lemma sum_exact a b : let e := Z.min (de a) (de b) in
  (inject_Z (scale_to e a + scale_to e b) / inject_Z 1 * pw e == dval a + dval b)%Q.
Proof.
  intros e. rewrite <- (scale_to_val e a), <- (scale_to_val e b) by (unfold e; lia).
  rewrite inject_Z_plus. change (inject_Z 1) with 1%Q. field.
Qed.
Lemma difference_exact a b : let e := Z.min (de a) (de b) in
  (inject_Z (scale_to e a - scale_to e b) / inject_Z 1 * pw e == dval a - dval b)%Q.
Proof.
  intros e. rewrite <- (scale_to_val e a), <- (scale_to_val e b) by (unfold e; lia).
  unfold Z.sub. rewrite inject_Z_plus, inject_Z_opp. change (inject_Z 1) with 1%Q. field.
Qed.
Lemma product_exact a b :
  (inject_Z (dm a * dm b) / inject_Z 1 * pw (de a + de b) == dval a * dval b)%Q.
Proof. unfold dval. rewrite inject_Z_mult, pw_plus. change (inject_Z 1) with 1%Q. field. Qed.

Lemma ctx_add_normal a b : normal (dval a + dval b) -> ctx_add a b = Ok (dadd a b).
Proof. intros H. apply ctx_round_normal; [by left|]. by rewrite sum_exact. Qed.
Lemma ctx_sub_normal a b : normal (dval a - dval b) -> ctx_sub a b = Ok (dsub a b).
Proof. intros H. apply ctx_round_normal; [by left|]. by rewrite difference_exact. Qed.
Lemma ctx_mul_normal a b : normal (dval a * dval b) -> ctx_mul a b = Ok (dmul a b).
Proof. intros H. apply ctx_round_normal; [by left|]. by rewrite product_exact. Qed.

Lemma abs_exact a : (inject_Z (Z.abs (dm a)) / inject_Z 1 * pw (de a) == Qabs (dval a))%Q.
Proof.
  unfold dval. rewrite Qabs_Qmult, (Qabs_pos (pw (de a))) by (apply Qlt_le_weak, pw_pos).
  change (Qabs (inject_Z (dm a))) with (inject_Z (Z.abs (dm a))). change (inject_Z 1) with 1%Q. field.
Qed.
Lemma ctx_abs_normal a : normal (dval a) -> ctx_abs a = Ok (dabs a).
Proof.
  intros H. apply ctx_round_normal; [by left|]. rewrite abs_exact. unfold normal in *.
  by rewrite (Qabs_pos (Qabs _)) by apply Qabs_nonneg.
Qed.

Lemma ctx_div_normal a b : dm b <> 0 -> normal (dval a / dval b) -> ctx_div a b = ddiv a b.
Proof.
  intros Hb H. unfold ctx_div, ddiv. destruct (quotient_ok a b Hb) as (n & d & e & Hq). rewrite Hq.
  apply quotient_spec in Hq as [Hd Hv]. cbn [mbind res_bind]. apply ctx_round_normal; [done|]. by rewrite Hv.
Qed.

Lemma exact_zero n d e : 0 < d -> (inject_Z n / inject_Z d * pw e == 0)%Q -> n = 0.
Proof.
  intros Hd H. destruct (Z.eq_dec n 0) as [|Hn]; [done|exfalso].
  pose proof (pw_pos e). pose proof (inject_Z_nz n Hn). pose proof (inject_Z_nz d ltac:(lia)).
  apply Qmult_integral in H as [H|H]; [|lra]. unfold Qdiv in H. apply Qmult_integral in H as [H|H]; [done|].
  assert (inject_Z d * / inject_Z d == 1)%Q as E by (by apply Qmult_inv_r). rewrite H in E. lra.
Qed.

Lemma ctx_round_exact_zero n d e :
  0 < d -> (inject_Z n / inject_Z d * pw e == 0)%Q -> exists r, ctx_round n d e = Ok r /\ (dval r == 0)%Q.
Proof. intros Hd H. rewrite (exact_zero _ _ _ Hd H). apply ctx_round_zero. Qed.

(** ** The exceptions *)

(** What arithmetic can raise. *)
Definition arithmetic (e : exn) : Prop := e ∈ [Overflow; InvalidOperation; DivisionByZero].

Lemma ctx_round_Err n d e x : ctx_round n d e = Err x -> x = Overflow.
Proof. unfold ctx_round. repeat case_match; congruence. Qed.

Lemma quotient_Err a b x : quotient a b = Err x -> x = InvalidOperation \/ x = DivisionByZero.
Proof. unfold quotient. repeat case_match; intros; simplify_eq; auto. Qed.

Lemma ctx_add_Err a b x : ctx_add a b = Err x -> arithmetic x.
Proof. intros H. apply ctx_round_Err in H as ->. unfold arithmetic. set_solver. Qed.
Lemma ctx_sub_Err a b x : ctx_sub a b = Err x -> arithmetic x.
Proof. intros H. apply ctx_round_Err in H as ->. unfold arithmetic. set_solver. Qed.
Lemma ctx_mul_Err a b x : ctx_mul a b = Err x -> arithmetic x.
Proof. intros H. apply ctx_round_Err in H as ->. unfold arithmetic. set_solver. Qed.
Lemma ctx_abs_Err a x : ctx_abs a = Err x -> arithmetic x.
Proof. intros H. apply ctx_round_Err in H as ->. unfold arithmetic. set_solver. Qed.
Lemma ctx_div_Err a b x : ctx_div a b = Err x -> arithmetic x.
Proof.
  unfold ctx_div, arithmetic. intros [H|([[n d] e] & _ & H)]%bind_Err.
  - apply quotient_Err in H as [-> | ->]; set_solver.
  - apply ctx_round_Err in H as ->. set_solver.
Qed.
Lemma ctx_sum_Err l acc x : ctx_sum_from acc l = Err x -> arithmetic x.
Proof.
  revert acc; induction l as [|a l IH]; intros acc; [done|]. simpl.
  intros [H|(r & _ & H)]%bind_Err; [by apply ctx_add_Err in H|by eapply IH].
Qed.

(** ** Numbers of moderate size *)

Definition moderate (d : dec) : bool :=
  (-100000 <=? de d) && (Z.of_nat (ndigits (Z.abs (dm d))) + de d <=? 100000).

(** A positive number between two powers of ten. *)
Definition size (lo hi : Z) (d : dec) : Prop := (pw lo <= dval d <= pw hi)%Q.

Lemma size_pos lo hi d : size lo hi d -> (0 < dval d)%Q.
Proof. intros [H _]. pose proof (pw_pos lo). lra. Qed.

Lemma size_nz lo hi d : size lo hi d -> dm d <> 0.
Proof. intros H%size_pos. apply dval_sign in H. lia. Qed.

Lemma size_weaken lo hi lo' hi' d : lo' <= lo -> hi <= hi' -> size lo hi d -> size lo' hi' d.
Proof. intros Hl Hh [H1 H2]. apply pw_le in Hl, Hh. split; lra. Qed.

Lemma moderate_size d : moderate d = true -> (0 < dval d)%Q -> size (-100000) 100000 d.
Proof.
  unfold moderate. intros [H1 H2]%andb_true_iff Hd. apply dval_sign in Hd as Hm.
  destruct (dval_pw d ltac:(lia)) as [Hl Hu]. rewrite Qabs_pos in Hl, Hu by lra.
  pose proof (ndigits_pos (Z.abs (dm d))). split.
  - eapply Qle_trans; [|exact Hl]. apply pw_le. lia.
  - apply Qlt_le_weak. eapply Qlt_le_trans; [exact Hu|]. apply pw_le. lia.
Qed.

Lemma size_int lo hi z : 0 <= lo -> 0 <= hi -> 10 ^ lo <= z <= 10 ^ hi -> size lo hi (dint z).
Proof.
  intros Hl Hh [H1 H2]. unfold size. rewrite dval_int, !pw_nonneg by done. split; by rewrite <- Zle_Qle.
Qed.

Lemma rounded_size x r lo hi : rounded x r -> (pw lo <= x <= pw hi)%Q -> size lo hi r.
Proof.
  intros Hr [Hl Hh]. split; rewrite <- dval_pow.
  - apply (rounded_ge x); [done..|]. by rewrite dval_pow.
  - apply (rounded_le x); [done..|]. by rewrite dval_pow.
Qed.

Lemma pos_normal x lo hi : -999999 <= lo -> hi <= 999999 -> (pw lo <= x <= pw hi)%Q -> normal x.
Proof.
  intros Hl%pw_le Hh%pw_le [H1 H2]. pose proof (pw_pos (-999999)). split; rewrite Qabs_pos; lra.
Qed.

Lemma add_size lo hi a b :
  -999999 <= lo -> hi <= 999998 -> size lo hi a -> size lo hi b ->
  exists r, ctx_add a b = Ok r /\ size lo (hi + 1) r.
Proof.
  intros Hl Hh [A1 A2] [B1 B2]. assert (pw lo <= dval a + dval b <= pw (hi + 1))%Q as Hx.
  { rewrite pw_plus. change (pw 1) with 10%Q. pose proof (pw_pos lo). split; lra. }
  exists (dadd a b). split; [apply ctx_add_normal; by apply (pos_normal _ lo (hi + 1)); try lia|].
  by eapply rounded_size; [apply dadd_rounded|].
Qed.

Lemma mul_size la ha lb hb a b :
  -999999 <= la + lb -> ha + hb <= 999999 -> size la ha a -> size lb hb b ->
  exists r, ctx_mul a b = Ok r /\ size (la + lb) (ha + hb) r.
Proof.
  intros Hl Hh [A1 A2] [B1 B2]. assert (pw (la + lb) <= dval a * dval b <= pw (ha + hb))%Q as Hx.
  { rewrite !pw_plus. pose proof (pw_pos la). pose proof (pw_pos lb). split.
    - apply Qmult_le_compat_nonneg; split; lra.
    - apply Qmult_le_compat_nonneg; split; lra. }
  exists (dmul a b). split; [apply ctx_mul_normal; by eapply pos_normal|].
  by eapply rounded_size; [apply dmul_rounded|].
Qed.

Lemma pw_opp e : (pw (- e) == / pw e)%Q.
Proof. unfold pw. apply Qpower_opp. Qed.

Lemma quotient_between la ha lb hb a b :
  size la ha a -> size lb hb b -> (pw (la - hb) <= dval a / dval b <= pw (ha - lb))%Q.
Proof.
  intros [A1 A2] [B1 B2]. pose proof (pw_pos la). pose proof (pw_pos lb). pose proof (pw_pos hb).
  unfold Z.sub. rewrite !pw_plus, !pw_opp. split.
  - apply Qle_shift_div_l; [lra|]. apply (Qmult_le_r _ _ (pw hb)); [done|].
    assert (pw la * / pw hb * dval b * pw hb == pw la * dval b)%Q as -> by (field; lra).
    apply Qmult_le_compat_nonneg; split; lra.
  - apply Qle_shift_div_r; [lra|]. apply (Qmult_le_r _ _ (pw lb)); [done|].
    assert (pw ha * / pw lb * dval b * pw lb == pw ha * dval b)%Q as -> by (field; lra).
    apply Qmult_le_compat_nonneg; split; lra.
Qed.

Lemma div_size la ha lb hb a b :
  -999999 <= la - hb -> ha - lb <= 999999 -> size la ha a -> size lb hb b ->
  exists r, ctx_div a b = Ok r /\ size (la - hb) (ha - lb) r.
Proof.
  intros Hl Hh Sa Sb. pose proof (quotient_between _ _ _ _ _ _ Sa Sb) as Hx. pose proof (size_nz _ _ _ Sb) as Hb.
  destruct (ddiv_ok a b Hb) as [r Hr]. exists r.
  split; [rewrite ctx_div_normal; [done|done|by eapply pos_normal]|].
  by eapply rounded_size; [apply ddiv_rounded|].
Qed.

Lemma div_fits la ha lb hb a b r :
  -999999 <= la - hb -> ha - lb <= 999999 -> size la ha a -> size lb hb b -> ctx_div a b = Ok r -> dfits r.
Proof.
  intros Hl Hh Sa Sb. pose proof (quotient_between _ _ _ _ _ _ Sa Sb) as Hx.
  rewrite ctx_div_normal; [|by eapply size_nz|by eapply pos_normal]. intros H. by apply ddiv_rounded in H as [? _].
Qed.

(** The difference of distinct numbers is at least a unit of their last places. *)
Lemma difference_unit lo a b :
  lo <= de a -> lo <= de b -> (dval b < dval a)%Q -> (pw lo <= dval a - dval b)%Q.
Proof.
  intros Ha Hb. rewrite <- (scale_to_val lo a Ha), <- (scale_to_val lo b Hb). pose proof (pw_pos lo) as Hp.
  intros H. rewrite Qmult_lt_r in H by exact Hp. rewrite <- Zlt_Qlt in H.
  assert (1 <= inject_Z (scale_to lo a) - inject_Z (scale_to lo b))%Q as H1.
  { unfold Qminus. rewrite <- inject_Z_opp, <- inject_Z_plus. change 1%Q with (inject_Z 1). rewrite <- Zle_Qle. lia. }
  nra.
Qed.

Lemma sub_size lo hi a b :
  -999999 <= lo -> hi <= 999999 -> lo <= de a -> lo <= de b ->
  (0 <= dval b < dval a)%Q -> (dval a <= pw hi)%Q -> exists r, ctx_sub a b = Ok r /\ size lo hi r.
Proof.
  intros Hl Hh Ha Hb [H0 Hlt] Hu. pose proof (difference_unit lo a b Ha Hb Hlt) as Hd.
  assert (pw lo <= dval a - dval b <= pw hi)%Q as Hx by (split; lra).
  exists (dsub a b). split; [apply ctx_sub_normal; by eapply pos_normal|].
  by eapply rounded_size; [apply dsub_rounded|].
Qed.

(** A sum of positive numbers, zero to begin with: [i] counts those already summed. *)
Lemma ctx_sum_size lo hi l acc i :
  -999999 <= lo -> hi <= 999970 -> 0 <= i -> i + Z.of_nat (length l) < 10 ^ 28 ->
  Forall (size lo hi) l -> (dval acc == 0 \/ pw lo <= dval acc <= inject_Z i * pw hi)%Q ->
  exists r, ctx_sum_from acc l = Ok r /\ (0 <= dval r)%Q.
Proof.
  intros Hlo Hhi. revert acc i. induction l as [|a l IH]; intros acc i Hi Hlen Hl Hacc; simpl.
  { exists acc. split; [done|]. pose proof (pw_pos lo). destruct Hacc as [-> |]; lra. }
  apply Forall_cons in Hl as [[A1 A2] Hl]. simpl in Hlen. pose proof (pw_pos lo). pose proof (pw_pos hi).
  assert (0 <= inject_Z i)%Q as Hi' by (change 0%Q with (inject_Z 0); by rewrite <- Zle_Qle).
  assert (pw lo <= dval acc + dval a <= inject_Z (i + 1) * pw hi)%Q as Hx.
  { rewrite inject_Z_plus. change (inject_Z 1) with 1%Q. destruct Hacc as [E|[H1 H2]]; [rewrite E|]; split; nra. }
  assert (inject_Z (i + 1) * pw hi <= pw 999999)%Q as Hb.
  { apply Qle_trans with (pw 28 * pw hi)%Q.
    - apply Qmult_le_compat_r; [|lra]. rewrite pw_nonneg by done. rewrite <- Zle_Qle. lia.
    - rewrite <- pw_plus. apply pw_le. lia. }
  rewrite ctx_add_normal by (apply (pos_normal _ lo 999999); [done|done|split; lra]). cbn [mbind res_bind].
  apply (IH _ (i + 1)); [lia|lia|done|right].
  assert (dval (Dec (i + 1) hi) == inject_Z (i + 1) * pw hi)%Q as Ed by reflexivity.
  split; rewrite <- ?Ed, <- ?(dval_pow lo).
  - eapply rounded_ge; [apply dadd_rounded|done|]. rewrite dval_pow. lra.
  - eapply rounded_le; [apply dadd_rounded|unfold dfits; simpl; lia|]. rewrite Ed. lra.
Qed.

(** A number of at most 28 digits has no place far below its value. *)
Lemma size_exponent lo hi d : dfits d -> size lo hi d -> lo - 28 <= de d.
Proof.
  intros Hf Hs. pose proof (size_pos _ _ _ Hs) as Hp. apply dval_sign in Hp as Hm. destruct Hs as [Hl _].
  destruct (dval_pw d ltac:(lia)) as [_ Hu]. rewrite Qabs_pos in Hu by lra.
  unfold dfits in Hf. pose proof (ndigits_le (Z.abs (dm d)) 28 ltac:(lia) ltac:(lia)).
  assert (lo < Z.of_nat (ndigits (Z.abs (dm d))) + de d) by (apply pw_lt_inv; lra). lia.
Qed.

(** The relative distance of two positive numbers of bounded size, times a factor: the four
    operations of a deviation succeed. *)
Lemma gap_ok lo hi a b k :
  -300000 <= lo -> hi <= 300000 -> lo <= de a -> lo <= de b -> size lo hi a -> size lo hi b -> size 0 9 k ->
  exists difference gap ratio r, ctx_sub a b = Ok difference /\ ctx_abs difference = Ok gap /\
    ctx_div gap b = Ok ratio /\ ctx_mul ratio k = Ok r.
Proof.
  intros Hlo Hhi Ha Hb Sa Sb Sk. destruct (Qeq_dec (dval a) (dval b)) as [E|Hne].
  - destruct (ctx_round_exact_zero (scale_to (Z.min (de a) (de b)) a - scale_to (Z.min (de a) (de b)) b) 1
      (Z.min (de a) (de b))) as (z & Hz & Vz); [done|rewrite difference_exact, E; ring|].
    assert (forall d, (dval d == 0)%Q -> dm d = 0) as Hzero.
    { intros d Hd. apply (exact_zero (dm d) 1 (de d)); [done|]. rewrite <- Hd. unfold dval.
      change (inject_Z 1) with 1%Q. field. }
    apply Hzero in Vz. assert (forall e, exists r, ctx_round 0 1 e = Ok r /\ dm r = 0) as Hr by (intros e; by eexists).
    destruct (Hr (de z)) as (g & Hg & Vg). destruct (Hr (de g - de b)) as (q & Hq & Vq).
    destruct (Hr (de q + de k)) as (r & Hm & _). exists z, g, q, r. split_and!.
    + exact Hz.
    + unfold ctx_abs. rewrite Vz. exact Hg.
    + unfold ctx_div, quotient. rewrite (proj2 (Z.eqb_neq (dm b) 0)) by (by eapply size_nz). rewrite Vg. exact Hq.
    + unfold ctx_mul. rewrite Vq. exact Hm.
  - pose proof (size_pos _ _ _ Sa). pose proof (size_pos _ _ _ Sb). pose proof Sa as [_ A2]. pose proof Sb as [_ B2].
    assert (pw lo <= Qabs (dval a - dval b) <= pw hi)%Q as Hx.
    { destruct (Qlt_le_dec (dval a) (dval b)) as [Hlt|Hge].
      - pose proof (difference_unit lo b a Hb Ha Hlt). rewrite Qabs_neg by lra. split; lra.
      - assert (dval b < dval a)%Q as Hlt by (destruct (Qle_lt_or_eq _ _ Hge) as [|E]; [done|by destruct Hne]).
        pose proof (difference_unit lo a b Ha Hb Hlt). rewrite Qabs_pos by lra. split; lra. }
    pose proof (rounded_between _ _ _ _ (dsub_rounded a b) Hx) as Hd.
    pose proof (pw_le (-999999) lo ltac:(lia)). pose proof (pw_le hi 999999 ltac:(lia)).
    assert (size lo hi (dabs (dsub a b))) as Sg by (eapply rounded_size; [apply dabs_rounded|exact Hd]).
    destruct (div_size lo hi lo hi _ b ltac:(lia) ltac:(lia) Sg Sb) as (q & Hq & Sq).
    destruct (mul_size (lo - hi) (hi - lo) 0 9 q k ltac:(lia) ltac:(lia) Sq Sk) as (r & Hr & _).
    exists (dsub a b), (dabs (dsub a b)), q, r. split_and!; [apply ctx_sub_normal|apply ctx_abs_normal|exact Hq|exact Hr];
      split; lra.
Qed.
