(* ===== verification/PyParse.v ===== *)
(** * Reading numbers: [Decimal(s)]

    The grammar of [decimal.Decimal] on a string: surrounding white space and
    underscores are ignored; then a sign, digits with at most one point and at least one
    digit, an exponent; or an infinity or a NaN.  Reading what [str] printed gives the
    decimal back, exponent included ([decimal_of_dec_str]).

    Not modelled: the bounds of the exponent (about 10^18) and the payload of a NaN. *)

From Stdlib Require Import Ascii.
From stdpp Require Import list strings.
From S2P Require Import Prelude PyList PyStr PyDecimal DecimalFacts.
Open Scope Z_scope.

Definition is_digit (a : ascii) : bool := (48 <=? code a) && (code a <=? 57).

(** The leading digits and the rest. *)
Fixpoint span_digits (l : list ascii) : list ascii * list ascii :=
  match l with
  | a :: l' => if is_digit a then let '(ds, rest) := span_digits l' in (a :: ds, rest) else ([], l)
  | [] => ([], [])
  end.

(** [int(ds)] of decimal digits. *)
Definition digits_val (ds : list ascii) : Z :=
  fold_left (fun acc a => acc * 10 + (code a - 48)) ds 0.

(** An optional sign: whether it is a minus, and the rest. *)
Definition span_sign (l : list ascii) : bool * list ascii :=
  match l with
  | a :: l' => if code a =? 45 then (true, l') else if code a =? 43 then (false, l') else (false, l)
  | [] => (false, [])
  end.

(** [e[sign]digits] or nothing: the exponent. *)
Definition parse_exponent (l : list ascii) : option Z :=
  match l with
  | [] => Some 0
  | a :: l' =>
      if code (lower_char a) =? 101 then
        let '(neg, l') := span_sign l' in
        match span_digits l' with
        | (d :: ds, []) => Some (if neg then - digits_val (d :: ds) else digits_val (d :: ds))
        | _ => None
        end
      else None
  end.

(** An unsigned number: coefficient and exponent. *)
Definition parse_number (l : list ascii) : option (Z * Z) :=
  let '(ip, l) := span_digits l in
  let '(fp, l) := match l with
                  | a :: l' => if code a =? 46 then span_digits l' else ([], l)
                  | [] => ([], [])
                  end in
  match ip ++ fp with
  | [] => None
  | ds => (fun e => (digits_val ds, e - Z.of_nat (length fp))) <$> parse_exponent l
  end.

Definition ConversionSyntax : exn :=
  Exn "InvalidOperation" "[<class 'decimal.ConversionSyntax'>]".

(** [nan], [snan] and digits. *)
Definition is_nan_word (word : list ascii) : bool :=
  let digits_after (p : string) :=
    bool_decide (take (String.length p) word = chars p) &&
    forallb is_digit (drop (String.length p) word) in
  digits_after "nan" || digits_after "snan".

(** [Decimal(s)] *)
Definition decimal_of_str (s : string) : res pydec :=
  let l := List.filter (fun a => negb (code a =? 95)) (chars (str_strip s)) in
  let '(neg, l) := span_sign l in
  let word := map lower_char l in
  if bool_decide (word = chars "inf") || bool_decide (word = chars "infinity") then Ok (Infinity neg)
  else if is_nan_word word then Ok NaN
  else match parse_number l with
       | Some (m, e) => Ok (Finite (Dec (if neg then - m else m) e))
       | None => Err ConversionSyntax
       end.

(** ** Facts: digits *)

Lemma digit_char_code d : 0 <= d < 10 -> code (digit_char d) = 48 + d.
Proof. intros Hd. unfold digit_char. rewrite (proj2 (Z.ltb_lt d 10)) by lia. apply code_chr. lia. Qed.

Lemma digit_char_is_digit d : 0 <= d < 10 -> is_digit (digit_char d) = true.
Proof. intros Hd. unfold is_digit. rewrite digit_char_code by done. apply andb_true_iff; lia. Qed.

Lemma digits_n_app b n z acc : digits_n b n z acc = digits_n b n z [] ++ acc.
Proof.
  revert z acc; induction n as [|n IH]; intros z acc; [done|]. simpl.
  rewrite IH, (IH (z / b) [_]). by rewrite <- app_assoc.
Qed.

Lemma digits_n_digits n z : Forall (fun a => is_digit a = true) (digits_n 10 n z []).
Proof.
  revert z; induction n as [|n IH]; intros z; [constructor|]. simpl. rewrite digits_n_app.
  apply Forall_app. split; [apply IH|]. constructor; [|constructor].
  apply digit_char_is_digit. apply Z.mod_pos_bound. lia.
Qed.

Lemma digits_val_snoc ds a : digits_val (ds ++ [a]) = digits_val ds * 10 + (code a - 48).
Proof. unfold digits_val. by rewrite fold_left_app. Qed.

Lemma digits_val_app ds ds' : digits_val (ds ++ ds') = digits_val ds * 10 ^ Z.of_nat (length ds') + digits_val ds'.
Proof.
  induction ds' as [|a ds' IH] using rev_ind.
  - rewrite app_nil_r. simpl. change (digits_val []) with 0. lia.
  - rewrite app_assoc, !digits_val_snoc, IH, length_app. simpl (length [a]).
    rewrite Nat2Z.inj_add, Z.pow_add_r by lia. lia.
Qed.

Lemma digits_val_n n z : 0 <= z < 10 ^ Z.of_nat n -> digits_val (digits_n 10 n z []) = z.
Proof.
  revert z; induction n as [|n IH]; intros z Hz; simpl.
  - change (10 ^ Z.of_nat 0) with 1 in Hz. change (digits_val []) with 0. lia.
  - rewrite digits_n_app, digits_val_snoc, digit_char_code by (apply Z.mod_pos_bound; lia).
    rewrite Nat2Z.inj_succ, Z.pow_succ_r in Hz by lia. rewrite IH.
    + pose proof (Z.div_mod z 10 ltac:(lia)). lia.
    + split; [apply Z.div_pos; lia|]. apply Z.div_lt_upper_bound; lia.
Qed.

Lemma ndigits_bound z : 0 <= z -> z < 10 ^ Z.of_nat (ndigits z).
Proof.
  intros Hz. destruct (Z.eq_dec z 0) as [->|]; [done|]. apply ndigits_spec. lia.
Qed.

Lemma digits_val_str z : 0 <= z -> digits_val (digits_n 10 (ndigits z) z []) = z.
Proof. intros Hz. apply digits_val_n. split; [done|]. by apply ndigits_bound. Qed.

Lemma digits_val_zeros n : digits_val (repeat (chr 48) n) = 0.
Proof.
  induction n as [|n IH]; [done|]. change (repeat (chr 48) (S n)) with ([chr 48] ++ repeat (chr 48) n).
  rewrite digits_val_app, IH. change (digits_val [chr 48]) with 0. lia.
Qed.

(** What follows digits. *)
Definition no_digit_head (l : list ascii) : Prop := match l with a :: _ => is_digit a = false | [] => True end.

Lemma span_digits_app ds l :
  Forall (fun a => is_digit a = true) ds -> no_digit_head l -> span_digits (ds ++ l) = (ds, l).
Proof.
  intros Hd Hl. induction Hd as [|a ds Ha _ IH].
  - destruct l as [|b l]; [done|]. simpl in *. by rewrite Hl.
  - simpl. by rewrite Ha, IH.
Qed.

Lemma span_digits_all ds : Forall (fun a => is_digit a = true) ds -> span_digits ds = (ds, []).
Proof. intros H. rewrite <- (app_nil_r ds) at 1. by apply span_digits_app. Qed.

(** ** Facts: what [str] prints is read back *)

(** Neither white space nor an underscore. *)
Definition clean (a : ascii) : bool := negb (is_space a) && negb (code a =? 95).

Lemma digit_clean a : is_digit a = true -> clean a = true.
Proof.
  unfold is_digit, clean, is_space. intros H. guards.
  rewrite (proj2 (andb_false_iff (9 <=? code a) (code a <=? 13)) ltac:(right; lia)).
  rewrite (proj2 (andb_false_iff (28 <=? code a) (code a <=? 32)) ltac:(right; lia)).
  by rewrite (proj2 (Z.eqb_neq (code a) 95) ltac:(lia)).
Qed.

Lemma drop_spaces_clean l : Forall (fun a => clean a = true) l -> drop_spaces l = l.
Proof. intros H. destruct H as [|a l Ha _]; [done|]. simpl. apply andb_true_iff in Ha as [Ha _]. apply negb_true_iff in Ha. by rewrite Ha. Qed.

Lemma clean_chars s :
  Forall (fun a => clean a = true) (chars s) ->
  List.filter (fun a => negb (code a =? 95)) (chars (str_strip s)) = chars s.
Proof.
  intros H. unfold str_strip. rewrite chars_of_chars, (drop_spaces_clean (chars s)) by done.
  rewrite drop_spaces_clean by (by apply Forall_reverse). rewrite reverse_involutive.
  induction H as [|a l Ha _ IH]; [done|]. apply andb_true_iff in Ha as [_ Ha]. simpl.
  by rewrite Ha, IH.
Qed.

Lemma digit_lower a : is_digit a = true -> lower_char a = a.
Proof.
  unfold is_digit, lower_char. intros H. guards.
  destruct (_ && _) eqn:E; [guards; lia|done].
Qed.

(** A text that starts with a digit is not a word. *)
Lemma decimal_of_clean s neg l a l' m e :
  Forall (fun a => clean a = true) (chars s) -> span_sign (chars s) = (neg, l) ->
  l = a :: l' -> is_digit a = true -> parse_number l = Some (m, e) ->
  decimal_of_str s = Ok (Finite (Dec (if neg then - m else m) e)).
Proof.
  intros Hc Hs -> Ha Hp. unfold decimal_of_str. rewrite clean_chars, Hs, Hp by done.
  assert (48 <= code a <= 57) as Hr by (unfold is_digit in Ha; guards; lia).
  assert (forall b k, code b > 57 -> map lower_char (a :: l') <> b :: k) as Hw.
  { intros b k Hb. simpl. rewrite digit_lower by done. intros [= -> _]. lia. }
  rewrite !bool_decide_eq_false_2 by (apply Hw; vm_compute; reflexivity). cbn [orb].
  assert (is_nan_word (map lower_char (a :: l')) = false) as ->; [|done].
  unfold is_nan_word. simpl map. rewrite digit_lower by done.
  rewrite !bool_decide_eq_false_2; [done|..]; simpl; intros [= -> _]; destruct Hr as [_ Hr]; exact (Hr eq_refl).
Qed.

Lemma parse_exponent_digits neg ds :
  ds <> [] -> Forall (fun a => is_digit a = true) ds ->
  parse_exponent (chr 69 :: (if neg : bool then chr 45 else chr 43) :: ds) =
  Some (if neg then - digits_val ds else digits_val ds).
Proof.
  intros Hne Hd. unfold parse_exponent. change (code (lower_char (chr 69)) =? 101) with true. cbv iota.
  assert (span_sign ((if neg then chr 45 else chr 43) :: ds) = (neg, ds)) as -> by (by destruct neg).
  rewrite span_digits_all by done. by destruct ds.
Qed.

Lemma parse_number_int ds rest e :
  ds <> [] -> Forall (fun a => is_digit a = true) ds -> no_digit_head rest ->
  (match rest with a :: _ => code a <> 46 | [] => True end) ->
  parse_exponent rest = Some e -> parse_number (ds ++ rest) = Some (digits_val ds, e).
Proof.
  intros Hne Hd Hh Hp He. unfold parse_number. rewrite span_digits_app by done.
  assert (match rest with
          | a :: l' => if code a =? 46 then span_digits l' else ([], rest)
          | [] => ([], []) end = ([], rest)) as ->.
  { destruct rest as [|a r]; [done|]. by rewrite (proj2 (Z.eqb_neq _ _) Hp). }
  rewrite app_nil_r, He. destruct ds; [done|]. simpl. do 2 f_equal. lia.
Qed.

Lemma parse_number_point ip fp rest e :
  ip <> [] -> Forall (fun a => is_digit a = true) ip -> Forall (fun a => is_digit a = true) fp ->
  no_digit_head rest -> parse_exponent rest = Some e ->
  parse_number (ip ++ chr 46 :: fp ++ rest) =
  Some (digits_val (ip ++ fp), e - Z.of_nat (length fp)).
Proof.
  intros Hne Hi Hf Hh He. unfold parse_number. rewrite span_digits_app by done.
  change (code (chr 46) =? 46) with true. cbv iota. rewrite span_digits_app, He by done.
  destruct ip; [done|]. done.
Qed.

(** The unsigned part of [dec_str]. *)
Definition dec_body (a : dec) : list ascii :=
  let ds := digits_n 10 (ndigits (Z.abs (dm a))) (Z.abs (dm a)) [] in
  let left := de a + Z.of_nat (length ds) in
  if (de a <=? 0) && (-6 <? left) then
    if de a =? 0 then ds
    else if left <=? 0 then [chr 48] ++ chr 46 :: (repeat (chr 48) (Z.to_nat (- left)) ++ ds) ++ []
    else take (Z.to_nat left) ds ++ chr 46 :: drop (Z.to_nat left) ds ++ []
  else
    let adj := left - 1 in
    let expo := chr 69 :: (if adj <? 0 then chr 45 else chr 43) ::
                digits_n 10 (ndigits (Z.abs adj)) (Z.abs adj) [] in
    match ds with
    | d :: (_ :: _) as ds' => [d] ++ chr 46 :: drop 1 ds ++ expo
    | _ => ds ++ expo
    end.

Lemma dec_str_body a :
  chars (dec_str a) = (if dm a <? 0 then [chr 45] else []) ++ dec_body a.
Proof.
  unfold dec_str, dec_body. set (ds := digits_n _ _ _ _).
  assert (forall l, chars (of_chars l) = l) as Hc by apply chars_of_chars.
  destruct (_ && _).
  - destruct (de a =? 0); [|destruct (_ <=? 0)]; destruct (dm a <? 0);
      rewrite ?chars_app, ?Hc, ?app_nil_r; done.
  - assert (forall z, chars (if z <? 0 then EmptyString else "+") ++ chars (int_str z) =
      (if z <? 0 then chr 45 else chr 43) :: digits_n 10 (ndigits (Z.abs z)) (Z.abs z) []) as Hi.
    { intros z. unfold int_str, nat_str. destruct (Z.ltb_spec z 0).
      - rewrite chars_app, Hc, Z.abs_neq by lia. done.
      - rewrite Hc, Z.abs_eq by lia. done. }
    rewrite !chars_app, Hi.
    destruct ds as [|d [|d' ds']]; destruct (dm a <? 0); rewrite ?chars_app, ?Hc; done.
Qed.

Lemma parse_expo adj :
  parse_exponent (chr 69 :: (if adj <? 0 then chr 45 else chr 43) ::
                  digits_n 10 (ndigits (Z.abs adj)) (Z.abs adj) []) = Some adj.
Proof.
  rewrite parse_exponent_digits.
  - rewrite digits_val_str by lia. f_equal. destruct (Z.ltb_spec adj 0); lia.
  - intros H. apply (f_equal length) in H. rewrite length_digits_n in H.
    pose proof (ndigits_pos (Z.abs adj)). simpl in H. lia.
  - apply digits_n_digits.
Qed.

Lemma zeros_digits n : Forall (fun a => is_digit a = true) (repeat (chr 48) n).
Proof. induction n; simpl; by constructor. Qed.

Lemma parse_dec_body a :
  parse_number (dec_body a) = Some (Z.abs (dm a), de a) /\
  (exists d l, dec_body a = d :: l /\ is_digit d = true) /\
  Forall (fun a => clean a = true) (dec_body a).
Proof.
  unfold dec_body. pose proof (digits_n_digits (ndigits (Z.abs (dm a))) (Z.abs (dm a))) as Hd.
  pose proof (digits_val_str (Z.abs (dm a)) ltac:(lia)) as Hv.
  pose proof (length_digits_n 10 (ndigits (Z.abs (dm a))) (Z.abs (dm a)) []) as Hl.
  pose proof (ndigits_pos (Z.abs (dm a))) as Hp. simpl in Hl. rewrite Nat.add_0_r in Hl.
  set (ds := digits_n _ _ _ _) in *. rewrite <- Hl in Hp. clearbody ds.
  assert (ds <> []) as Hne by (by destruct ds; [simpl in Hp; lia|]).
  assert (forall l, Forall (fun a => is_digit a = true) l -> Forall (fun a => clean a = true) l) as Hclean
    by (intros l Hl'; eapply Forall_impl; [exact Hl'|exact digit_clean]).
  assert (exists d l, ds = d :: l /\ is_digit d = true) as (d & l & Eds & Hd1)
    by (destruct ds as [|d l]; [done|]; apply Forall_cons in Hd as [? _]; eauto).
  destruct (_ && _) eqn:E.
  - guards. destruct (Z.eqb_spec (de a) 0) as [E0|E0]; [|destruct (Z.leb_spec (de a + Z.of_nat (length ds)) 0) as [El|El]].
    + split_and!; [|eauto|by apply Hclean]. rewrite <- (app_nil_r ds). rewrite (parse_number_int ds [] 0) by done.
      by rewrite Hv, E0.
    + split_and!.
      * rewrite (parse_number_point [chr 48] _ [] 0); try done; [|by repeat constructor|].
        2:{ apply Forall_app. split; [apply zeros_digits|done]. }
        rewrite !digits_val_app, digits_val_zeros, Hv, length_app, repeat_length.
        change (digits_val [chr 48]) with 0. f_equal. f_equal; lia.
      * eexists _, _. split; [reflexivity|done].
      * rewrite app_nil_r. constructor; [done|]. constructor; [done|].
        apply Forall_app. split; apply Hclean; [apply zeros_digits|done].
    + assert (Z.to_nat (de a + Z.of_nat (length ds)) <= length ds)%nat as Hle by lia.
      set (k := Z.to_nat _) in *. assert (1 <= k)%nat as Hk by (unfold k; lia).
      split_and!.
      * rewrite (parse_number_point (take k ds) (drop k ds) [] 0); try done.
        -- rewrite take_drop, Hv, length_drop. f_equal. f_equal. unfold k in *. lia.
        -- rewrite Eds. destruct k; [lia|done].
        -- by apply Forall_take.
        -- by apply Forall_drop.
      * rewrite Eds. destruct k; [lia|]. simpl. eauto.
      * rewrite app_nil_r. apply Forall_app. split; [apply Hclean; by apply Forall_take|].
        constructor; [done|]. apply Hclean. by apply Forall_drop.
  - set (adj := de a + Z.of_nat (length ds) - 1). pose proof (parse_expo adj) as Hx.
    set (expo := chr 69 :: _) in *.
    assert (Forall (fun a => clean a = true) expo) as Hce.
    { unfold expo. constructor; [done|]. constructor; [by destruct (adj <? 0)|]. apply Hclean, digits_n_digits. }
    assert (no_digit_head expo /\ match expo with a :: _ => code a <> 46 | [] => True end) as [Hh Hdot].
    { split; [done|]. vm_compute. discriminate. }
    clearbody expo.
    subst ds. apply Forall_cons in Hd as [_ Hd]. destruct l as [|d2 l].
    + split_and!; [|simpl; eauto|constructor; [by apply digit_clean|done]].
      rewrite (parse_number_int [d] expo adj) by (done || by repeat constructor).
      rewrite Hv. f_equal. f_equal. unfold adj. simpl. lia.
    + split_and!.
      * rewrite (parse_number_point [d] (drop 1 (d :: d2 :: l)) expo adj); try done; [|by repeat constructor].
        change ([d] ++ drop 1 (d :: d2 :: l)) with (d :: d2 :: l). rewrite Hv. f_equal. f_equal.
        unfold adj. simpl. lia.
      * simpl. eauto.
      * constructor; [by apply digit_clean|]. constructor; [done|]. apply Forall_app. split; [|done].
        by apply Hclean.
Qed.

(** [Decimal(str(d)) == d], with the same exponent. *)
Lemma decimal_of_dec_str a : decimal_of_str (dec_str a) = Ok (Finite a).
Proof.
  destruct (parse_dec_body a) as (Hp & (d & l & Eb & Hd) & Hc). pose proof (dec_str_body a) as Hs.
  assert (48 <= code d <= 57) as Hr by (unfold is_digit in Hd; guards; lia).
  rewrite (decimal_of_clean _ (dm a <? 0) (dec_body a) d l (Z.abs (dm a)) (de a)); try done.
  - destruct a as [m e]. simpl. do 3 f_equal. destruct (Z.ltb_spec m 0); lia.
  - rewrite Hs. apply Forall_app. split; [|done]. destruct (dm a <? 0); by repeat constructor.
  - rewrite Hs, Eb. destruct (dm a <? 0); simpl; [done|].
    rewrite !(proj2 (Z.eqb_neq _ _)) by lia. done.
Qed.

Example decimal_of_str_examples :
  decimal_of_str " -1_2.50 " = Ok (Finite (Dec (-1250) (-2))) /\
  decimal_of_str "1e-7" = Ok (Finite (Dec 1 (-7))) /\
  decimal_of_str ".5E+3" = Ok (Finite (Dec 5 2)) /\
  decimal_of_str "-Infinity" = Ok (Infinity true) /\
  decimal_of_str "NaN12" = Ok NaN /\
  decimal_of_str "1.2.3" = Err ConversionSyntax /\
  decimal_of_str EmptyString = Err ConversionSyntax.
Proof. repeat split. Qed.
