(* ===== verification/PyTime.v ===== *)
(** * Python's [datetime] and [timedelta]

    An aware datetime is an instant (microseconds since 1970-01-01T00:00Z) with the
    UTC offset it is displayed in; comparison, subtraction and equality only see
    the instant.  A naive one is a wall-clock reading.  A [timedelta] is a number
    of microseconds.  Instants are unbounded integers; the year range 1..9999 is
    that of [date_add] of [PyFloat], and not modelled elsewhere. *)

From stdpp Require Import list strings.
From S2P Require Import Prelude PyList PyStr.

Record aware : Type := Aware { utc : Z; off : Z }.

Inductive datetime : Type :=
| AwareDT (a : aware)
| NaiveDT (wall : Z).

#[export] Instance aware_eq_dec : EqDecision aware.
Proof. solve_decision. Defined.

#[export] Instance AwareDT_inj : Inj (=) (=) AwareDT.
Proof. by intros ?? [= ->]. Qed.

Definition us_per_second : Z := 1000000.
Definition minutes (n : Z) : Z := n * 60 * us_per_second.
Definition hours (n : Z) : Z := n * 3600 * us_per_second.
Definition days (n : Z) : Z := n * 86400 * us_per_second.

(** [if value.tzinfo is None or value.utcoffset() is None: raise ValueError(msg)] *)
Definition require_aware (value : datetime) (msg : string) : res aware :=
  match value with
  | AwareDT a => Ok a
  | NaiveDT _ => Err (ValueError msg)
  end.

(** Comparison of aware datetimes. *)
#[export] Instance py_ord_aware : PyOrd aware := fun a b => utc a ?= utc b.
#[export] Instance py_ord_aware_laws : PyOrdLaws aware.
Proof.
  split.
  - intros x y. apply Z.compare_antisym.
  - intros x y z. apply (py_le_trans (A := Z) (utc x) (utc y) (utc z)).
Qed.

Definition aware_eqb (a b : aware) : bool := utc a =? utc b.

(** Two datetimes are the same to Python when their instants are. *)
#[export] Instance aware_equiv : Equiv aware := fun a b => utc a = utc b.
#[export] Instance aware_equivalence : Equivalence (≡@{aware}).
Proof.
  unfold equiv, aware_equiv.
  split; [intros ?; done | intros ? ?; done | intros ? ? ?; congruence].
Qed.
#[export] Instance py_cmp_aware_proper :
  Proper ((≡) ==> (≡) ==> (=)) (@py_cmp aware _).
Proof. intros a a' Ha b b' Hb. unfold py_cmp, py_ord_aware. by rewrite Ha, Hb. Qed.

Lemma aware_le_utc a b : py_le a b = true <-> utc a <= utc b.
Proof. unfold py_le, py_cmp, py_ord_aware. destruct (Z.compare_spec (utc a) (utc b)); split; try done; lia. Qed.
Lemma aware_lt_utc a b : py_lt a b = true <-> utc a < utc b.
Proof. unfold py_lt, py_cmp, py_ord_aware. destruct (Z.compare_spec (utc a) (utc b)); split; try done; lia. Qed.
Lemma aware_le_false a b : py_le a b = false <-> utc b < utc a.
Proof. rewrite <- not_true_iff_false, aware_le_utc. lia. Qed.
Lemma aware_lt_false a b : py_lt a b = false <-> utc b <= utc a.
Proof. rewrite <- not_true_iff_false, aware_lt_utc. lia. Qed.
Lemma aware_eqb_utc a b : aware_eqb a b = true <-> utc a = utc b.
Proof. apply Z.eqb_eq. Qed.

Ltac time_to_Z :=
  rewrite ?aware_le_utc, ?aware_lt_utc, ?aware_le_false, ?aware_lt_false,
    ?aware_eqb_utc in *.

(** [a + delta], [a - b] *)
Definition time_add (a : aware) (delta : Z) : aware := Aware (utc a + delta) (off a).
Definition time_sub (a b : aware) : Z := utc a - utc b.

(** [value.replace(tzinfo=utc)] if naive, [value.astimezone(utc)] if aware. *)
Definition aware_utc (value : datetime) : aware :=
  match value with
  | AwareDT a => Aware (utc a) 0
  | NaiveDT wall => Aware wall 0
  end.

(** ** [isoformat] *)

(** Year, month and day of a number of days since 1970-01-01 (proleptic
    Gregorian calendar). *)
Definition civil_from_days (z0 : Z) : Z * Z * Z :=
  let z := z0 + 719468 in
  let era := z / 146097 in
  let doe := z mod 146097 in
  let yoe := (doe - doe / 1460 + doe / 36524 - doe / 146096) / 365 in
  let doy := doe - (365 * yoe + yoe / 4 - yoe / 100) in
  let mp := (5 * doy + 2) / 153 in
  let d := doy - (153 * mp + 2) / 5 + 1 in
  let m := if mp <? 10 then mp + 3 else mp - 9 in
  (yoe + era * 400 + (if m <=? 2 then 1 else 0), m, d).

(** [HH:MM[:SS[.ffffff]]] of a UTC offset, with its sign. *)
Definition offset_str (o : Z) : string :=
  let sign := if o <? 0 then "-" else "+" in
  let s := Z.abs o / us_per_second in
  let us := Z.abs o mod us_per_second in
  sign +:+ pad_str 2 (s / 3600) +:+ ":" +:+ pad_str 2 (s / 60 mod 60) +:+
    (if (s mod 60 =? 0) && (us =? 0) then EmptyString
     else ":" +:+ pad_str 2 (s mod 60) +:+
          (if us =? 0 then EmptyString else "." +:+ pad_str 6 us)).

Definition isoformat (a : aware) : string :=
  let wall := utc a + off a in
  let s := wall / us_per_second in
  let us := wall mod us_per_second in
  let '(y, m, d) := civil_from_days (s / 86400) in
  let t := s mod 86400 in
  pad_str 4 y +:+ "-" +:+ pad_str 2 m +:+ "-" +:+ pad_str 2 d +:+ "T" +:+
    pad_str 2 (t / 3600) +:+ ":" +:+ pad_str 2 (t / 60 mod 60) +:+ ":" +:+
    pad_str 2 (t mod 60) +:+
    (if us =? 0 then EmptyString else "." +:+ pad_str 6 us) +:+ offset_str (off a).
