(* ===== verification/IsoTime.v ===== *)
(** * Reading times: [datetime.fromisoformat]

    [FromIso] states what the program relies on: [fromisoformat] inverts [isoformat] on
    the datetimes Python can represent.  [extended_iso] is an implementation of it for the
    extended format [YYYY-MM-DD?HH:MM[:SS[.ffffff]][offset]]; Python's reads more (the
    basic format and week dates), which no theorem needs.  Its correctness is that of
    [civil_from_days]. *)

From Stdlib Require Import Ascii String.
From stdpp Require Import list strings.
From S2P Require Import Prelude PyList PyStr PyDecimal DecimalFacts PyParse PyTime.
Open Scope Z_scope.

(** ** The calendar *)

(** The inverse of [civil_from_days]. *)
Definition days_from_civil (y m d : Z) : Z :=
  let y := if m <=? 2 then y - 1 else y in
  let mp := (m + 9) mod 12 in
  let doy := (153 * mp + 2) / 5 + d - 1 in
  let yoe := y mod 400 in
  y / 400 * 146097 + (yoe * 365 + yoe / 4 - yoe / 100 + doy) - 719468.

(** The year of a day of the era, counted from March, and the day of that year. *)
Definition era_year (doe : Z) : Z := (doe - doe / 1460 + doe / 36524 - doe / 146096) / 365.
Definition year_day (doe : Z) : Z :=
  let yoe := era_year doe in doe - (365 * yoe + yoe / 4 - yoe / 100).

Lemma era_year_ok doe : 0 <= doe < 146097 -> 0 <= era_year doe < 400 /\ 0 <= year_day doe < 366.
Proof.
  intros H. unfold year_day, era_year. split; [Z.to_euclidean_division_equations; lia|].
  split; [Z.to_euclidean_division_equations; lia|].
  apply Z.le_lt_trans with 365; [Z.to_euclidean_division_equations; lia|lia].
Qed.

(** The month and the day of a day of the year. *)
Definition month_day (doy : Z) : Z * Z :=
  let mp := (5 * doy + 2) / 153 in
  (if mp <? 10 then mp + 3 else mp - 9, doy - (153 * mp + 2) / 5 + 1).

Lemma month_day_ok doy : 0 <= doy < 366 ->
  let '(m, d) := month_day doy in
  1 <= m <= 12 /\ 1 <= d <= 31 /\ (153 * ((m + 9) mod 12) + 2) / 5 + d - 1 = doy.
Proof.
  intros H.
  assert (forallb (fun n => let '(m, d) := month_day (Z.of_nat n) in
    (1 <=? m) && (m <=? 12) && (1 <=? d) && (d <=? 31) &&
    ((153 * ((m + 9) mod 12) + 2) / 5 + d - 1 =? Z.of_nat n)) (seq 0 366) = true) as Hall by done.
  rewrite forallb_forall in Hall. specialize (Hall (Z.to_nat doy)).
  rewrite Z2Nat.id in Hall by lia. destruct (month_day doy) as [m d].
  assert (In (Z.to_nat doy) (seq 0 366)) as Hin by (apply in_seq; lia).
  specialize (Hall Hin). guards. lia.
Qed.

Lemma civil_roundtrip z y m d :
  civil_from_days z = (y, m, d) -> days_from_civil y m d = z /\ 1 <= m <= 12 /\ 1 <= d <= 31.
Proof.
  set (doe := (z + 719468) mod 146097). set (era := (z + 719468) / 146097).
  assert (civil_from_days z = (let '(m, d) := month_day (year_day doe) in
    (era_year doe + era * 400 + (if m <=? 2 then 1 else 0), m, d))) as -> by done.
  assert (0 <= doe < 146097) as Hdoe by (apply Z.mod_pos_bound; lia).
  pose proof (Z.div_mod (z + 719468) 146097 ltac:(lia)) as Hdm. fold doe era in Hdm.
  destruct (era_year_ok doe Hdoe) as [Hy Hd]. pose proof (month_day_ok _ Hd) as Hmd.
  destruct (month_day (year_day doe)) as [mm dd]. intros [= <- <- <-].
  destruct Hmd as (Hm & Hdd & Edoy). split; [|lia]. unfold days_from_civil.
  set (yoe := era_year doe) in *.
  assert ((if mm <=? 2 then yoe + era * 400 + (if mm <=? 2 then 1 else 0) - 1
           else yoe + era * 400 + (if mm <=? 2 then 1 else 0)) = yoe + era * 400) as ->
    by (destruct (mm <=? 2); lia).
  rewrite Z.div_add, Z.mod_add, (Z.div_small yoe), (Z.mod_small yoe) by lia.
  assert (year_day doe = doe - (365 * yoe + yoe / 4 - yoe / 100)) as Ey by done. lia.
Qed.

(** ** The interface *)

(** What Python can represent: years 1 to 9999, offsets of less than a day. *)
Definition representable (a : aware) : Prop :=
  let '(y, _, _) := civil_from_days ((utc a + off a) / us_per_second / 86400) in
  1 <= y <= 9999 /\ Z.abs (off a) < 86400 * us_per_second.

Class FromIso : Type := {
  fromisoformat : string -> res datetime;
  fromisoformat_isoformat a : representable a -> fromisoformat (isoformat a) = Ok (AwareDT a) }.

(** The days of the years 1 to 9999. *)
Lemma civil_year_range z y m d : civil_from_days z = (y, m, d) -> 1 <= y <= 9999 <-> -719162 <= z <= 2932896.
Proof.
  set (doe := (z + 719468) mod 146097). set (era := (z + 719468) / 146097).
  assert (civil_from_days z = (let '(m, d) := month_day (year_day doe) in
    (era_year doe + era * 400 + (if m <=? 2 then 1 else 0), m, d))) as -> by done.
  assert (0 <= doe < 146097) as Hdoe by (apply Z.mod_pos_bound; lia).
  pose proof (Z.div_mod (z + 719468) 146097 ltac:(lia)) as Hdm. fold doe era in Hdm.
  destruct (era_year_ok doe Hdoe) as [Hy Hd].
  assert (year_day doe = doe - (365 * era_year doe + era_year doe / 4 - era_year doe / 100)) as Ed by done.
  destruct (month_day (year_day doe)) as [mm dd] eqn:Em. intros [= <- <- <-].
  assert (mm <= 2 <-> 306 <= year_day doe) as Hm.
  { unfold month_day in Em. injection Em as <- _.
    destruct (Z.ltb_spec ((5 * year_day doe + 2) / 153) 10) as [Hlt|Hge].
    - split; [|intros Hdd; apply Z.lt_nge in Hlt; destruct Hlt; apply Z.div_le_lower_bound; lia].
      assert (0 <= (5 * year_day doe + 2) / 153) by (apply Z.div_pos; lia). lia.
    - assert ((5 * year_day doe + 2) / 153 < 12) by (apply Z.div_lt_upper_bound; lia). split; [|lia]. intros _.
      apply Z.lt_succ_r, Z.nle_gt. intros Hle. apply Z.le_ngt in Hge. apply Hge.
      apply Z.div_lt_upper_bound; lia. }
  set (yoe := era_year doe) in *. set (doy := year_day doe) in *. clearbody yoe doy doe era.
  destruct (Z.leb_spec mm 2); Z.to_euclidean_division_equations; lia.
Qed.

(** Times in UTC are representable in an interval. *)
Lemma representable_utc a : off a = 0 ->
  representable a <-> -719162 * 86400 * us_per_second <= utc a < 2932897 * 86400 * us_per_second.
Proof.
  intros Ho. unfold representable. rewrite Ho, Z.add_0_r.
  destruct (civil_from_days (utc a / us_per_second / 86400)) as [[y m] d] eqn:E.
  rewrite (civil_year_range _ _ _ _ E), Z.div_div by done.
  pose proof (Z.div_mod (utc a) (us_per_second * 86400) ltac:(done)).
  pose proof (Z.mod_pos_bound (utc a) (us_per_second * 86400) ltac:(done)).
  unfold us_per_second in *. lia.
Qed.

(** ** An implementation *)

(** The number that [n] digits write, and the rest. *)
Definition eat_number (n : nat) (l : list ascii) : option (Z * list ascii) :=
  let ds := take n l in
  if bool_decide (length ds = n) && forallb is_digit ds then Some (digits_val ds, drop n l) else None.
Definition eat_char (c : Z) (l : list ascii) : option (list ascii) :=
  match l with a :: l' => if code a =? c then Some l' else None | [] => None end.

(** [HH:MM[:SS[.ffffff]]], in microseconds. *)
Definition eat_clock (l : list ascii) : option (Z * list ascii) :=
  '(h, l) ← eat_number 2 l; l ← eat_char 58 l; '(m, l) ← eat_number 2 l;
  '(s, us, l) ← match eat_char 58 l with
                | None => Some (0, 0, l)
                | Some l =>
                    '(s, l) ← eat_number 2 l;
                    match eat_char 46 l with
                    | None => Some (s, 0, l)
                    | Some l => '(us, l) ← eat_number 6 l; Some (s, us, l)
                    end
                end;
  if (h <? 24) && (m <? 60) && (s <? 60)
  then Some (((h * 60 + m) * 60 + s) * us_per_second + us, l) else None.

Definition eat_offset (wall : Z) (l : list ascii) : option datetime :=
  match l with
  | [] => Some (NaiveDT wall)
  | a :: l' =>
      if bool_decide (l = ["Z"%char]) then Some (AwareDT (Aware wall 0))
      else if (code a =? 43) || (code a =? 45) then
        match eat_clock l' with
        | Some (o, []) => let o := if code a =? 45 then - o else o in Some (AwareDT (Aware (wall - o) o))
        | _ => None
        end
      else None
  end.

Definition eat_iso (l : list ascii) : option datetime :=
  '(y, l) ← eat_number 4 l; l ← eat_char 45 l; '(m, l) ← eat_number 2 l; l ← eat_char 45 l;
  '(d, l) ← eat_number 2 l;
  let day := days_from_civil y m d in
  if (1 <=? y) && bool_decide (civil_from_days day = (y, m, d)) then
    match l with
    | [] => Some (NaiveDT (day * 86400 * us_per_second))
    | _ :: l => '(t, l) ← eat_clock l; eat_offset (day * 86400 * us_per_second + t) l
    end
  else None.

Definition extended_fromisoformat (s : string) : res datetime :=
  match eat_iso (chars s) with
  | Some d => Ok d
  | None => Err (ValueError ("Invalid isoformat string: '" +:+ s +:+ "'"))
  end.

Lemma eat_number_pad n z l : 0 <= z < 10 ^ Z.of_nat n ->
  eat_number n (digits_n 10 n z [] ++ l) = Some (z, l).
Proof.
  intros Hz. unfold eat_number. pose proof (length_digits_n 10 n z []) as Hl. simpl in Hl.
  rewrite Nat.add_0_r in Hl. rewrite take_app_le, take_ge by lia.
  rewrite bool_decide_eq_true_2 by done.
  rewrite (proj2 (forallb_forall _ _)).
  - rewrite digits_val_n, drop_app_le, drop_ge by lia. done.
  - intros a Ha. pose proof (digits_n_digits n z) as Hd. rewrite Forall_forall in Hd.
    apply Hd. by apply list_elem_of_In.
Qed.

(** The text of a clock reading, the fields dropped as [isoformat] drops them. *)
Definition clock_text (h m : Z) (rest : option (Z * Z)) : list ascii :=
  digits_n 10 2 h [] ++ chr 58 :: digits_n 10 2 m [] ++
  match rest with
  | None => []
  | Some (s, us) => chr 58 :: digits_n 10 2 s [] ++ if us =? 0 then [] else chr 46 :: digits_n 10 6 us []
  end.

(** What follows a clock is not a separator of it. *)
Definition clock_end (l : list ascii) : Prop :=
  eat_char 58 l = None /\ eat_char 46 l = None.

Lemma eat_clock_text h m rest l :
  0 <= h < 24 -> 0 <= m < 60 -> clock_end l ->
  match rest with Some (s, us) => 0 <= s < 60 /\ 0 <= us < us_per_second | None => True end ->
  eat_clock (clock_text h m rest ++ l) =
  Some ((let '(s, us) := default (0, 0) rest in ((h * 60 + m) * 60 + s) * us_per_second + us), l).
Proof.
  intros Hh Hm [Hl1 Hl2] Hr. unfold eat_clock, clock_text. rewrite <- !app_assoc.
  rewrite eat_number_pad by (change (10 ^ Z.of_nat 2) with 100; lia). cbn [mbind option_bind app].
  change (eat_char 58 (chr 58 :: ?k)) with (Some k). cbn [mbind option_bind].
  rewrite <- app_assoc, eat_number_pad by (change (10 ^ Z.of_nat 2) with 100; lia). cbn [mbind option_bind].
  destruct rest as [[s us]|]; cbn [app default from_option id].
  - change (eat_char 58 (chr 58 :: ?k)) with (Some k). destruct Hr as [Hs Hus].
    cbn [mbind option_bind]. rewrite <- app_assoc.
    rewrite eat_number_pad by (change (10 ^ Z.of_nat 2) with 100; lia). cbn [mbind option_bind].
    destruct (Z.eqb_spec us 0) as [->|Hne]; cbn [app].
    + rewrite Hl2. cbn [mbind option_bind]. rewrite !(proj2 (Z.ltb_lt _ _)) by lia. done.
    + change (eat_char 46 (chr 46 :: ?k)) with (Some k).
      cbn [mbind option_bind]. rewrite eat_number_pad by (unfold us_per_second in Hus; lia). cbn [mbind option_bind].
      rewrite !(proj2 (Z.ltb_lt _ _)) by lia. done.
  - rewrite Hl1. cbn [mbind option_bind]. rewrite !(proj2 (Z.ltb_lt _ _)) by lia. done.
Qed.

Lemma offset_text o : Z.abs o < 86400 * us_per_second ->
  exists h m rest, chars (offset_str o) = (if o <? 0 then chr 45 else chr 43) :: clock_text h m rest /\
    0 <= h < 24 /\ 0 <= m < 60 /\
    match rest with Some (s, us) => 0 <= s < 60 /\ 0 <= us < us_per_second | None => True end /\
    Z.abs o = (let '(s, us) := default (0, 0) rest in ((h * 60 + m) * 60 + s) * us_per_second + us).
Proof.
  intros Ho. unfold offset_str. set (s := Z.abs o / us_per_second). set (us := Z.abs o mod us_per_second).
  assert (0 <= s < 86400) as Hs
    by (split; [apply Z.div_pos; unfold us_per_second in *; lia|apply Z.div_lt_upper_bound; unfold us_per_second in *; lia]).
  assert (0 <= us < us_per_second) as Hus by (apply Z.mod_pos_bound; done).
  assert (Z.abs o = s * us_per_second + us) as Ha
    by (unfold s, us; pose proof (Z.div_mod (Z.abs o) us_per_second ltac:(done)); lia).
  assert (0 <= s / 3600 < 24) as Hh by (split; [apply Z.div_pos; lia|apply Z.div_lt_upper_bound; lia]).
  assert (0 <= s / 60 mod 60 < 60) as Hm by (apply Z.mod_pos_bound; lia).
  assert (0 <= s mod 60 < 60) as Hsec by (apply Z.mod_pos_bound; lia).
  assert (s = (s / 3600 * 60 + s / 60 mod 60) * 60 + s mod 60) as Es.
  { change 3600 with (60 * 60). rewrite <- (Z.div_div s 60 60) by lia. pose proof (Z.div_mod s 60 ltac:(lia)).
    pose proof (Z.div_mod (s / 60) 60 ltac:(lia)). lia. }
  clearbody s us.
  exists (s / 3600), (s / 60 mod 60),
    (if (s mod 60 =? 0) && (us =? 0) then None else Some (s mod 60, us)).
  split_and!; try lia.
  - unfold clock_text. destruct (_ && _) eqn:E.
    + rewrite !chars_app. unfold pad_str. rewrite !chars_of_chars. by destruct (o <? 0).
    + rewrite !chars_app. unfold pad_str. rewrite !chars_of_chars.
      destruct (us =? 0); rewrite ?chars_app, ?chars_of_chars; by destruct (o <? 0).
  - by destruct (_ && _).
  - destruct (_ && _) eqn:E; [|cbn [default from_option id]; lia]. guards. cbn [default from_option id]. lia.
Qed.

Lemma eat_iso_isoformat a : representable a -> eat_iso (chars (isoformat a)) = Some (AwareDT a).
Proof.
  unfold representable, isoformat. set (wall := utc a + off a).
  set (s := wall / us_per_second). set (us := wall mod us_per_second). set (t := s mod 86400).
  destruct (civil_from_days (s / 86400)) as [[y m] d] eqn:Ec. intros [Hy Ho].
  destruct (civil_roundtrip _ _ _ _ Ec) as (Hday & Hm & Hd).
  assert (0 <= us < us_per_second) as Hus by (apply Z.mod_pos_bound; done).
  assert (0 <= t < 86400) as Ht by (apply Z.mod_pos_bound; lia).
  assert (wall = (s / 86400 * 86400 + t) * us_per_second + us) as Hw.
  { pose proof (Z.div_mod wall us_per_second ltac:(done)). pose proof (Z.div_mod s 86400 ltac:(lia)).
    unfold t, us, s in *. lia. }
  destruct (offset_text (off a) Ho) as (oh & om & orest & Eo & Hoh & Hom & Hor & Habs).
  assert (0 <= t / 3600 < 24) as Hh by (split; [apply Z.div_pos; lia|apply Z.div_lt_upper_bound; lia]).
  assert (0 <= t / 60 mod 60 < 60) as Hmi by (apply Z.mod_pos_bound; lia).
  assert (0 <= t mod 60 < 60) as Hs by (apply Z.mod_pos_bound; lia).
  assert (t = (t / 3600 * 60 + t / 60 mod 60) * 60 + t mod 60) as Es.
  { change 3600 with (60 * 60). rewrite <- (Z.div_div t 60 60) by lia. pose proof (Z.div_mod t 60 ltac:(lia)).
    pose proof (Z.div_mod (t / 60) 60 ltac:(lia)). lia. }
  set (offset := chars (offset_str (off a))) in *.
  assert (clock_end offset) as Hend by (rewrite Eo; by destruct (off a <? 0)).
  assert (forall z n l, chars (pad_str n z +:+ l) = digits_n 10 n z [] ++ chars l) as Hpad
    by (intros; rewrite chars_app; unfold pad_str; by rewrite chars_of_chars).
  rewrite !Hpad. unfold eat_iso.
  rewrite eat_number_pad by (change (10 ^ Z.of_nat 4) with 10000; lia). cbn [mbind option_bind].
  rewrite chars_app. cbn [list_ascii_of_string app].
  change (eat_char 45 ("-"%char :: ?k)) with (Some k). cbn [mbind option_bind].
  rewrite !Hpad, eat_number_pad by (change (10 ^ Z.of_nat 2) with 100; lia). cbn [mbind option_bind].
  rewrite chars_app. cbn [list_ascii_of_string app].
  change (eat_char 45 ("-"%char :: ?k)) with (Some k). cbn [mbind option_bind].
  rewrite !Hpad, eat_number_pad by (change (10 ^ Z.of_nat 2) with 100; lia). cbn [mbind option_bind].
  rewrite Hday, Ec, bool_decide_eq_true_2, (proj2 (Z.leb_le 1 y)) by (done || lia). cbn [andb].
  rewrite chars_app. cbn [list_ascii_of_string app].
  assert (chars (pad_str 2 (t / 3600) +:+ ":" +:+ pad_str 2 (t / 60 mod 60) +:+ ":" +:+ pad_str 2 (t mod 60) +:+
    (if us =? 0 then EmptyString else "." +:+ pad_str 6 us) +:+ offset_str (off a)) =
    clock_text (t / 3600) (t / 60 mod 60) (Some (t mod 60, us)) ++ offset) as ->.
  { unfold clock_text. rewrite Hpad, chars_app, Hpad, chars_app, Hpad, chars_app.
    unfold offset. rewrite <- !app_assoc. cbn [list_ascii_of_string app]. rewrite <- !app_assoc. do 2 f_equal.
    f_equal. cbn [app]. rewrite <- app_assoc. do 3 f_equal.
    destruct (us =? 0); [done|]. rewrite chars_app. unfold pad_str. by rewrite chars_of_chars. }
  rewrite eat_clock_text by done. cbn [mbind option_bind default from_option id].
  rewrite Eo. unfold eat_offset.
  assert ((if off a <? 0 then chr 45 else chr 43) :: clock_text oh om orest <> ["Z"%char]) as HZ
    by (by destruct (off a <? 0)).
  rewrite bool_decide_eq_false_2 by done.
  assert (forall c, c = chr 45 \/ c = chr 43 -> (code c =? 43) || (code c =? 45) = true) as Hsign
    by (intros c [-> | ->]; done).
  rewrite Hsign by (destruct (off a <? 0); auto).
  pose proof (eat_clock_text oh om orest [] Hoh Hom ltac:(done) Hor) as Hclock.
  rewrite app_nil_r in Hclock. rewrite Hclock, <- Habs.
  destruct a as [u o]. cbn [off utc] in *. do 2 f_equal.
  rewrite <- Es. destruct (Z.ltb_spec o 0);
    [change (code (chr 45) =? 45) with true|change (code (chr 43) =? 45) with false];
    cbv iota; f_equal; unfold wall in *; lia.
Qed.

Lemma extended_iso_law a : representable a -> extended_fromisoformat (isoformat a) = Ok (AwareDT a).
Proof. intros Ha. unfold extended_fromisoformat. by rewrite eat_iso_isoformat. Qed.

#[export] Instance extended_iso : FromIso :=
  {| fromisoformat := extended_fromisoformat; fromisoformat_isoformat := extended_iso_law |}.

Example fromisoformat_examples :
  fromisoformat "2024-02-29T12:30:00.000001+05:30" = Ok (AwareDT (Aware 1709190000000001 (minutes 330))) /\
  fromisoformat "1970-01-02 00:00:00" = Ok (NaiveDT (days 1)) /\
  is_ok (fromisoformat "2023-02-29T00:00:00Z") = false.
Proof. vm_compute. repeat split. Qed.
