(* ===== verification/PyFloat.v ===== *)
(** * Python's [float]

    IEEE 754 binary64.  A finite float is worth [m * 2 ^ e]; [fround] rounds an
    exact quotient to the nearest representable number (53-bit mantissa, least
    exponent -1074, ties to even), to an infinity past the largest one, and every
    operation is its exact result rounded once.  Also here: integer true division,
    [timedelta.total_seconds], [timedelta(seconds=x)], the two-decimal format and
    [Decimal(str(x))].

    Not modelled: the sign of zero. *)

From Stdlib Require Import QArith Qpower Lqa Lia.
From stdpp Require Import list strings.
From S2P Require Import Prelude PyList PyStr PyDecimal DecimalFacts PyTime.

Open Scope Z_scope.

Inductive float : Type :=
| Fl (m e : Z)
| FInf (neg : bool)
| FNaN.

#[export] Instance float_eq_dec : EqDecision float.
Proof. solve_decision. Defined.

(** The exponent of the last place of [n / d] for a 53-bit mantissa. *)
Definition fexponent (n d : Z) : Z :=
  let k := Z.log2 (Z.abs n) - Z.log2 d - 53 in
  let k := if Z.abs n * 2 ^ Z.max 0 (- k) / (d * 2 ^ Z.max 0 k) <? 2 ^ 53 then k else k + 1 in
  Z.max (-1074) k.

(** [n / d] rounded, [0 < d]. *)
Definition fround (n d : Z) : float :=
  if n =? 0 then Fl 0 0
  else
    let k := fexponent n d in
    let q := rne_div (n * 2 ^ Z.max 0 (- k)) (d * 2 ^ Z.max 0 k) in
    if 2 ^ 1024 <=? Z.abs q * 2 ^ Z.max 0 k / 2 ^ Z.max 0 (- k) then FInf (n <? 0)
    else Fl q k.

(** A finite float as a quotient with a positive denominator. *)
Definition fratio (m e : Z) : Z * Z := (m * 2 ^ Z.max 0 e, 2 ^ Z.max 0 (- e)).
Definition float_ratio (x : float) : Z * Z :=
  match x with Fl m e => fratio m e | _ => (0, 1) end.

Definition is_finite_float (x : float) : bool :=
  match x with Fl _ _ => true | _ => false end.

Definition fopp (x : float) : float :=
  match x with Fl m e => Fl (- m) e | FInf s => FInf (negb s) | FNaN => FNaN end.

Definition fadd (x y : float) : float :=
  match x, y with
  | FNaN, _ | _, FNaN => FNaN
  | FInf s, FInf t => if Bool.eqb s t then FInf s else FNaN
  | FInf s, _ | _, FInf s => FInf s
  | Fl m e, Fl m' e' =>
      let '(n, d) := fratio m e in let '(n', d') := fratio m' e' in
      fround (n * d' + n' * d) (d * d')
  end.

Definition fsub (x y : float) : float := fadd x (fopp y).

Definition fneg (x : float) : bool :=
  match x with Fl m _ => m <? 0 | FInf s => s | FNaN => false end.
Definition fis_zero (x : float) : bool := match x with Fl 0 _ => true | _ => false end.

Definition fmul (x y : float) : float :=
  match x, y with
  | FNaN, _ | _, FNaN => FNaN
  | FInf _, _ | _, FInf _ =>
      if fis_zero x || fis_zero y then FNaN else FInf (xorb (fneg x) (fneg y))
  | Fl m e, Fl m' e' =>
      let '(n, d) := fratio m e in let '(n', d') := fratio m' e' in
      fround (n * n') (d * d')
  end.

(** [x / y]; Python raises on a zero divisor. *)
Definition fdiv (x y : float) : res float :=
  if fis_zero y then Err (Exn "ZeroDivisionError" "float division by zero")
  else Ok
    match x, y with
    | FNaN, _ | _, FNaN => FNaN
    | FInf _, FInf _ => FNaN
    | FInf _, _ => FInf (xorb (fneg x) (fneg y))
    | _, FInf _ => Fl 0 0
    | Fl m e, Fl m' e' =>
        let '(n, d) := fratio m e in let '(n', d') := fratio m' e' in
        fround (Z.sgn n' * n * d') (d * Z.abs n')
    end.

(** [float(z)]; the program converts no integer near the overflow bound. *)
Definition float_of_Z (z : Z) : float := fround z 1.

(** [a / b] of integers, [b <> 0]: the exact quotient rounded once. *)
Definition int_truediv (a b : Z) : float := fround (Z.sgn b * a) (Z.abs b).

(** The literal [m * 10 ^ e]. *)
Definition float_lit (m e : Z) : float :=
  fround (m * 10 ^ Z.max 0 e) (10 ^ Z.max 0 (- e)).

(** ** Comparison: [None] when an operand is NaN *)

Definition fcmp (x y : float) : option comparison :=
  match x, y with
  | FNaN, _ | _, FNaN => None
  | FInf s, FInf t => Some (if Bool.eqb s t then Eq else if s then Lt else Gt)
  | FInf s, Fl _ _ => Some (if s then Lt else Gt)
  | Fl _ _, FInf s => Some (if s then Gt else Lt)
  | Fl m e, Fl m' e' =>
      let k := Z.min e e' in Some (m * 2 ^ (e - k) ?= m' * 2 ^ (e' - k))
  end.
Definition fltb (x y : float) : bool := match fcmp x y with Some Lt => true | _ => false end.
Definition fleb (x y : float) : bool :=
  match fcmp x y with Some Lt | Some Eq => true | _ => false end.
Definition feqb (x y : float) : bool := match fcmp x y with Some Eq => true | _ => false end.

Declare Scope float_scope.
Delimit Scope float_scope with flt.
Notation "a <? b" := (fltb a b) : float_scope.
Notation "a <=? b" := (fleb a b) : float_scope.
Notation "a >? b" := (fltb b a) (only parsing) : float_scope.
Notation "a >=? b" := (fleb b a) (only parsing) : float_scope.

Definition fzero : float := Fl 0 0.
Definition fone : float := Fl 1 0.

(** [min(a, b)], [max(a, b)], [abs(a)] *)
Definition fmin2 (a b : float) : float := if (b <? a)%flt then b else a.
Definition fmax2 (a b : float) : float := if (a <? b)%flt then b else a.
Definition fabs (x : float) : float :=
  match x with Fl m e => Fl (Z.abs m) e | FInf _ => FInf false | FNaN => FNaN end.

(** ** Times *)

(** [delta.total_seconds()] *)
Definition total_seconds (delta : Z) : float := int_truediv delta us_per_second.

(** A [timedelta] of so many microseconds: its days must have a magnitude of at most
    999999999. *)
Definition delta_of_us (us : Z) : res Z :=
  let days := us / (86400 * us_per_second) in
  if (days <? - 2 ^ 31) || (2 ^ 31 <=? days)
  then Err (Exn "OverflowError" "Python int too large to convert to C int")
  else if 999999999 <? Z.abs days
  then Err (Exn "OverflowError"
         ("days=" +:+ int_str days +:+ "; must have magnitude <= 999999999"))
  else Ok us.

(** [a + delta] within the calendar: the wall clock must stay in the years 1..9999. *)
Definition in_calendar (a : aware) : bool :=
  (days (-719162) <=? utc a + off a) && (utc a + off a <? days 2932897).
Definition date_add (a : aware) (delta : Z) : res aware :=
  if in_calendar (time_add a delta) then Ok (time_add a delta)
  else Err (Exn "OverflowError" "date value out of range").

(** [timedelta(seconds=x)]: the whole seconds exactly, the fraction times 10^6
    rounded as a float product, the sum rounded to microseconds half to even. *)
Definition timedelta_seconds (x : float) : res Z :=
  match x with
  | Fl m e =>
      let '(n, d) := fratio m e in
      let whole := Z.quot n d in
      let frac := fsub x (float_of_Z whole) in
      let '(fn, fd) := float_ratio (fmul frac (float_of_Z us_per_second)) in
      delta_of_us (rne_div (whole * us_per_second * fd + fn) fd)
  | FNaN => Err (ValueError "cannot convert float NaN to integer")
  | FInf _ => Err (Exn "OverflowError" "cannot convert float infinity to integer")
  end.

(** [datetime.fromtimestamp(x, tz=timezone.utc)]: the seconds exactly, the fraction
    times 10^6 rounded as a float product and then to microseconds half to even.  The C
    library's range, [gmtime]'s and Python's years end it. *)
Definition fromtimestamp_utc (x : float) : res datetime :=
  let overflow := Exn "OverflowError" "timestamp out of range for platform time_t" in
  match x with
  | FNaN => Err (ValueError "Invalid value NaN (not a number)")
  | FInf _ => Err overflow
  | Fl m e =>
      let '(n, d) := fratio m e in
      let whole := Z.quot n d in
      let '(fn, fd) := float_ratio (fmul (fsub x (float_of_Z whole)) (float_of_Z us_per_second)) in
      let us := whole * us_per_second + rne_div fn fd in
      let secs := us / us_per_second in
      let '(year, _, _) := civil_from_days (secs / 86400) in
      if (secs <? - 2 ^ 63) || (2 ^ 63 <=? secs) then Err overflow
      else if (year - 1900 <? - 2 ^ 31) || (2 ^ 31 <=? year - 1900)
      then Err (Exn "OSError" "[Errno 75] Value too large for defined data type")
      else if (year <? 1) || (9999 <? year)
      then Err (ValueError ("year " +:+ int_str year +:+ " is out of range"))
      else Ok (AwareDT (Aware us 0))
  end.

(** [round(x)] *)
Definition py_round (x : float) : res Z :=
  match x with
  | FNaN => Err (ValueError "cannot convert float NaN to integer")
  | FInf _ => Err (Exn "OverflowError" "cannot convert float infinity to integer")
  | Fl m e => let '(n, d) := fratio m e in Ok (rne_div n d)
  end.

(** ** Printing *)

(** [f"{x:.2f}"] *)
Definition float_fmt2 (x : float) : string :=
  match x with
  | FNaN => "nan"
  | FInf s => if s then "-inf" else "inf"
  | Fl m e =>
      let '(n, d) := fratio m e in
      let c := rne_div (Z.abs n * 100) d in
      (if n <? 0 then "-" else EmptyString) +:+ nat_str (c / 100) +:+ "." +:+ pad_str 2 (c mod 100)
  end.

(** [k] with [10 ^ (k - 1) <= n / d < 10 ^ k], for [0 < n], [0 < d]. *)
Definition decimal_point (n d : Z) : Z :=
  if d <=? n then Z.of_nat (ndigits (n / d))
  else
    let j := Z.of_nat (ndigits (d / n)) in
    if d <=? n * 10 ^ (j - 1) then 2 - j else 1 - j.

(** The closest number of [n] digits (from the two neighbours) that reads back as
    the positive float [x], worth [num / den]. *)
Definition repr_digits (x : float) (num den k n : Z) : option (Z * Z) :=
  let e := k - n in
  let num' := num * 10 ^ Z.max 0 (- e) in
  let den' := den * 10 ^ Z.max 0 e in
  let lo := num' / den' in
  let near := rne_div num' den' in
  let far := if near =? lo then lo + 1 else lo in
  if feqb (float_lit near e) x then Some (if near =? 10 ^ n then (1, k) else (near, e))
  else if feqb (float_lit far e) x then Some (far, e)
  else None.

(** Python's [repr]: the fewest digits, at most 17, that read back as [x]. *)
Fixpoint repr_search (fuel : nat) (x : float) (num den k n : Z) : Z * Z :=
  match fuel with
  | O => (rne_div (num * 10 ^ Z.max 0 (n - k)) (den * 10 ^ Z.max 0 (k - n)), k - n)
  | S f => match repr_digits x num den k n with
           | Some r => r
           | None => repr_search f x num den k (n + 1)
           end
  end.

(** [Decimal(str(x))] *)
Definition decimal_of_float (x : float) : pydec :=
  match x with
  | FNaN => NaN
  | FInf s => Infinity s
  | Fl m e =>
      if m =? 0 then Finite (Dec 0 (-1))
      else
        let '(num, den) := fratio (Z.abs m) e in
        let '(c, ce) := repr_search 16 (Fl (Z.abs m) e) num den (decimal_point num den) 1 in
        let point := Z.of_nat (ndigits c) + ce in
        (* repr writes a fraction, at least ".0", unless it uses an exponent *)
        let r := if (-4 <? point) && (point <=? 16) && (0 <=? ce)
                 then Dec (c * 10 ^ (ce + 1)) (-1) else Dec c ce in
        Finite (if m <? 0 then dopp r else r)
  end.
