(* ===== verification/FloatFacts.v ===== *)
(** * Facts about floats

    [fval] is the rational a finite float is worth.  Comparison is comparison of
    values, rounding does not cross a representable number ([fround_le], [fround_ge]),
    which is what the thresholds of the program rely on, and it is monotone
    ([fround_mono]). *)

From Stdlib Require Import QArith Qpower Lqa Lia.
From stdpp Require Import list strings.
From S2P Require Import Prelude PyList PyDecimal DecimalFacts PyTime PyFloat.

Open Scope Z_scope.

Definition p2 (e : Z) : Q := Qpower (2#1) e.
#[global] Arguments p2 : simpl never.
Definition fval (x : float) : Q :=
  match x with Fl m e => inject_Z m * p2 e | _ => 0 end.

Lemma p2_pos e : (0 < p2 e)%Q.
Proof. apply Qpower_0_lt. reflexivity. Qed.

Lemma p2_plus a b : (p2 (a + b) == p2 a * p2 b)%Q.
Proof. apply Qpower_plus. discriminate. Qed.

Lemma p2_nonneg k : 0 <= k -> (p2 k == inject_Z (2 ^ k))%Q.
Proof. intros Hk. unfold p2. rewrite Zpower_Qpower by done. reflexivity. Qed.

Lemma p2_split e k : k <= e -> (p2 e == inject_Z (2 ^ (e - k)) * p2 k)%Q.
Proof.
  intros Hk. rewrite <- p2_nonneg, <- p2_plus by lia. by replace (e - k + k) with e by lia.
Qed.

Lemma pow2_pos k : 0 <= k -> 0 < 2 ^ k.
Proof. intros; apply Z.pow_pos_nonneg; lia. Qed.

(** [2 ^ max 0 (- k)] over [2 ^ max 0 k] is [2 ^ (- k)]. *)
Lemma p2_ratio k :
  (inject_Z (2 ^ Z.max 0 k) == p2 k * inject_Z (2 ^ Z.max 0 (- k)))%Q.
Proof.
  rewrite <- !p2_nonneg by lia. rewrite <- p2_plus. by replace (k + Z.max 0 (- k)) with (Z.max 0 k) by lia.
Qed.

Lemma injZ_pos z : 0 < z -> (0 < inject_Z z)%Q.
Proof. rewrite Zlt_Qlt. done. Qed.

(** ** Comparison *)

Lemma fcmp_val m e m' e' : fcmp (Fl m e) (Fl m' e') = Some (fval (Fl m e) ?= fval (Fl m' e'))%Q.
Proof.
  simpl. f_equal. set (k := Z.min e e').
  rewrite (p2_split e k), (p2_split e' k) by lia. pose proof (p2_pos k) as Hp.
  rewrite !Qmult_assoc, <- !inject_Z_mult.
  set (a := m * 2 ^ (e - k)). set (b := m' * 2 ^ (e' - k)).
  destruct (Z.compare_spec a b) as [E|E|E]; symmetry.
  - rewrite E. apply Qeq_alt. reflexivity.
  - apply Qlt_alt. rewrite Zlt_Qlt in E. by apply Qmult_lt_r.
  - apply Qgt_alt. rewrite Zlt_Qlt in E. by apply Qmult_lt_r.
Qed.

(** A number the format can hold, away from the overflow bound. *)
Definition ffits (x : float) : Prop :=
  match x with Fl m e => Z.abs m < 2 ^ 53 /\ -1074 <= e <= 971 | _ => False end.

Lemma ffits_bound m e : ffits (Fl m e) -> (Qabs.Qabs (fval (Fl m e)) < p2 1024)%Q.
Proof.
  intros [Hm He]. cbn [fval]. pose proof (p2_pos e) as Hp.
  replace 1024 with (53 + 971) by lia. rewrite p2_plus, (p2_nonneg 53) by lia.
  rewrite Qabs.Qabs_Qmult, (Qabs.Qabs_pos (p2 e)) by lra.
  assert (Qabs.Qabs (inject_Z m) < inject_Z (2 ^ 53))%Q as Hlt.
  { rewrite Zlt_Qlt in Hm. destruct (Z.abs_spec m) as [[? E]|[? E]]; rewrite E in Hm.
    - rewrite Qabs.Qabs_pos; [done|]. by rewrite Zle_Qle in *.
    - rewrite Qabs.Qabs_neg; [by rewrite inject_Z_opp in Hm|].
      assert (m <= 0) as H0 by lia. by rewrite Zle_Qle in H0. }
  assert (p2 e <= p2 971)%Q.
  { rewrite (p2_split 971 e) by lia. assert (1 <= 2 ^ (971 - e)) as H1.
    { pose proof (pow2_pos (971 - e) ltac:(lia)). lia. }
    rewrite Zle_Qle in H1. change (inject_Z 1) with 1%Q in H1. nra. }
  pose proof (Qabs.Qabs_nonneg (inject_Z m)). pose proof (injZ_pos (2^53) eq_refl).
  apply (Qlt_le_trans _ (inject_Z (2^53) * p2 e)); nra.
Qed.

(** ** Rounding *)

Section fround.
Context (n d : Z) (Hd : 0 < d).
Let k := fexponent n d.
Let N := n * 2 ^ Z.max 0 (- k).
Let D := d * 2 ^ Z.max 0 k.
Let q := rne_div N D.

Lemma fround_D_pos : 0 < D.
Proof. unfold D. pose proof (pow2_pos (Z.max 0 k) ltac:(lia)). nia. Qed.

Lemma fround_N_val : (inject_Z N * p2 k * inject_Z d == inject_Z n * inject_Z D)%Q.
Proof. unfold N, D. rewrite !inject_Z_mult, (p2_ratio k). ring. Qed.

(** When the exponent is not clamped the mantissa has 53 bits. *)
Lemma fround_big : n <> 0 -> -1074 < k -> 2 ^ 52 * D <= Z.abs N.
Proof.
  intros Hn Hk. unfold k, fexponent in Hk.
  set (k0 := Z.log2 (Z.abs n) - Z.log2 d - 53) in *.
  assert (2 ^ 52 * (d * 2 ^ Z.max 0 k0) <= Z.abs n * 2 ^ Z.max 0 (- k0)) as H0.
  { assert (2 ^ Z.log2 (Z.abs n) <= Z.abs n) as Ha by (apply Z.log2_spec; lia).
    assert (d < 2 ^ (Z.log2 d + 1)) as Hb by (apply Z.log2_spec; lia).
    pose proof (Z.log2_nonneg d). pose proof (Z.log2_nonneg (Z.abs n)).
    pose proof (pow2_pos (Z.max 0 k0) ltac:(lia)).
    pose proof (pow2_pos (Z.max 0 (- k0)) ltac:(lia)).
    trans (2 ^ 52 * (2 ^ (Z.log2 d + 1) * 2 ^ Z.max 0 k0)).
    { apply Z.mul_le_mono_nonneg_l; [done|]. apply Z.mul_le_mono_nonneg_r; lia. }
    trans (2 ^ Z.log2 (Z.abs n) * 2 ^ Z.max 0 (- k0)); [|apply Z.mul_le_mono_nonneg_r; lia].
    rewrite <- !Z.pow_add_r by lia. apply Z.pow_le_mono_r; lia. }
  unfold N, D, k, fexponent. fold k0. rewrite Z.abs_mul, (Z.abs_eq (2 ^ _)) by (apply Z.pow_nonneg; lia).
  revert Hk. destruct (_ <? _) eqn:E; intros Hk.
  - by replace (Z.max (-1074) k0) with k0 by lia.
  - replace (Z.max (-1074) (k0 + 1)) with (k0 + 1) in * by lia. apply Z.ltb_ge in E.
    pose proof (pow2_pos (Z.max 0 k0) ltac:(lia)).
    assert (2 ^ 53 * (d * 2 ^ Z.max 0 k0) <= Z.abs n * 2 ^ Z.max 0 (- k0)) as H1.
    { etrans; [apply Z.mul_le_mono_nonneg_r; [nia|exact E]|].
      rewrite Z.mul_comm. apply Z.mul_div_le. nia. }
    destruct (Z.le_gt_cases 0 k0).
    + rewrite (Z.max_r 0 (k0 + 1)), (Z.max_l 0 (- (k0 + 1))) by lia.
      rewrite (Z.max_r 0 k0), (Z.max_l 0 (- k0)) in H1 by lia.
      rewrite Z.pow_add_r by lia. change (2 ^ 53) with (2 * 2 ^ 52) in H1. lia.
    + rewrite (Z.max_l 0 (k0 + 1)), (Z.max_r 0 (- (k0 + 1))) by lia.
      rewrite (Z.max_l 0 k0), (Z.max_r 0 (- k0)) in H1 by lia.
      replace (- k0) with (1 + - (k0 + 1)) in H1 by lia.
      rewrite Z.pow_add_r in H1 by lia. change (2 ^ 53) with (2 * 2 ^ 52) in H1. lia.
Qed.

Lemma fexponent_ge : -1074 <= k.
Proof. unfold k, fexponent. lia. Qed.

(** The value of [q * 2 ^ k] against a representable number above [n / d]. *)
Lemma fround_q_le c : n <> 0 -> ffits c ->
  (inject_Z n <= fval c * inject_Z d)%Q -> (inject_Z q * p2 k <= fval c)%Q.
Proof.
  intros Hn Hc Hle. destruct c as [cm ce| |]; [|done..]. destruct Hc as [Hcm Hce].
  cbn [fval] in *. pose proof fround_D_pos as HD. pose proof fround_N_val as HN.
  pose proof (p2_pos k) as Hk. pose proof (injZ_pos d Hd) as Hd'.
  pose proof (injZ_pos D HD) as HD'.
  destruct (Z.le_gt_cases k ce) as [Hke|Hke].
  - rewrite (p2_split ce k) in Hle |- * by done.
    enough (q <= cm * 2 ^ (ce - k)) as Hq.
    { rewrite Zle_Qle, inject_Z_mult in Hq. nra. }
    apply rne_div_le; [done|]. rewrite Zle_Qle, !inject_Z_mult.
    set (C := inject_Z (2 ^ (ce - k))) in *.
    assert (inject_Z N * p2 k * inject_Z d <= inject_Z cm * C * inject_Z D * (p2 k * inject_Z d))%Q.
    { rewrite HN. assert (inject_Z cm * C * inject_Z D * (p2 k * inject_Z d) ==
        inject_Z cm * (C * p2 k) * inject_Z d * inject_Z D)%Q as -> by ring.
      apply Qmult_le_compat_r; lra. }
    apply (Qmult_le_r _ _ (p2 k * inject_Z d)); [nra|]. by rewrite Qmult_assoc.
  - (* |c| < 2^(52+k) <= |n/d| *)
    pose proof (fround_big Hn ltac:(lia)) as Hbig.
    assert (Qabs.Qabs (inject_Z cm * p2 ce) < inject_Z (2 ^ 52) * p2 k)%Q as Hsmall.
    { pose proof (ffits_bound cm ce (conj Hcm Hce)) as _.
      pose proof (p2_pos ce) as Hpe.
      rewrite Qabs.Qabs_Qmult, (Qabs.Qabs_pos (p2 ce)) by lra.
      assert (Qabs.Qabs (inject_Z cm) < inject_Z (2 ^ 53))%Q.
      { apply Qabs.Qabs_Qlt_condition. rewrite <- inject_Z_opp, <- !Zlt_Qlt. lia. }
      rewrite (p2_split k (ce + 1)) by lia.
      assert (p2 (ce + 1) == 2 * p2 ce)%Q as Es.
      { rewrite p2_plus. change (p2 1) with 2%Q. ring. }
      pose proof (pow2_pos (k - (ce + 1)) ltac:(lia)) as H1.
      assert (1 <= 2 ^ (k - (ce + 1))) as H2 by lia. rewrite Zle_Qle in H2.
      change (inject_Z 1) with 1%Q in H2. rewrite Es.
      change (inject_Z (2^53)) with (2 * inject_Z (2^52))%Q in *.
      pose proof (injZ_pos (2^52) eq_refl) as HA.
      set (A := inject_Z (2^52)) in *. set (X := inject_Z (2 ^ (k - (ce + 1)))) in *.
      apply (Qlt_le_trans _ (2 * A * p2 ce)); [by apply Qmult_lt_r|].
      assert (0 < A * p2 ce)%Q by nra. nra. }
    apply Qabs.Qabs_Qlt_condition in Hsmall as [Hs1 Hs2].
    destruct (Z.le_gt_cases 0 N) as [HN0|HN0].
    + exfalso. rewrite Z.abs_eq in Hbig by done. rewrite Zle_Qle, inject_Z_mult in Hbig.
      assert (inject_Z (2^52) * p2 k * (inject_Z D * inject_Z d) <= inject_Z n * inject_Z D)%Q.
      { rewrite <- HN. assert (0 < p2 k * inject_Z d)%Q by nra.
        apply (Qle_trans _ (inject_Z (2^52) * inject_Z D * (p2 k * inject_Z d))); [lra|].
        apply (Qle_trans _ (inject_Z N * (p2 k * inject_Z d))); [|lra].
        apply Qmult_le_compat_r; lra. }
      assert (inject_Z n * inject_Z D <= inject_Z cm * p2 ce * (inject_Z D * inject_Z d))%Q.
      { apply (Qle_trans _ (inject_Z cm * p2 ce * inject_Z d * inject_Z D)); [|lra].
        apply Qmult_le_compat_r; lra. }
      assert (0 < inject_Z D * inject_Z d)%Q by nra.
      assert (inject_Z (2^52) * p2 k <= inject_Z cm * p2 ce)%Q.
      { apply (Qmult_le_r _ _ (inject_Z D * inject_Z d)); [done|lra]. }
      lra.
    + assert (q <= - 2 ^ 52) as Hq.
      { apply rne_div_le; [done|]. lia. }
      rewrite Zle_Qle, inject_Z_opp in Hq. nra.
Qed.
End fround.

Lemma rne_div_sym n d : 0 < d -> rne_div (- n) d = - rne_div n d.
Proof. apply rne_div_opp. Qed.

(** A rounded quotient is at most every representable number it does not exceed. *)
Lemma fround_le n d c :
  0 < d -> ffits c -> (inject_Z n <= fval c * inject_Z d)%Q -> (fround n d <=? c)%flt = true.
Proof.
  intros Hd Hc Hle. unfold fround. destruct c as [cm ce| |]; [|done..].
  destruct (Z.eqb_spec n 0) as [->|Hn].
  - unfold fleb. rewrite fcmp_val. simpl (fval (Fl 0 0)).
    destruct (Qcompare_spec (inject_Z 0 * p2 0) (fval (Fl cm ce))); try done.
    pose proof (injZ_pos d Hd). change (inject_Z 0) with 0%Q in *. nra.
  - pose proof (fround_q_le n d Hd _ Hn Hc Hle) as Hq. cbv zeta in *.
    set (k := fexponent n d) in *.
    set (q := rne_div (n * 2 ^ Z.max 0 (- k)) (d * 2 ^ Z.max 0 k)) in *.
    destruct (Z.leb_spec (2 ^ 1024) (Z.abs q * 2 ^ Z.max 0 k / 2 ^ Z.max 0 (- k))) as [Hov|_].
    + destruct (Z.ltb_spec n 0); [done|]. exfalso.
      assert (0 <= q) as Hq0.
      { apply rne_div_ge; [apply fround_D_pos; done|]. pose proof (pow2_pos (Z.max 0 (- k)) ltac:(lia)). nia. }
      rewrite Z.abs_eq in Hov by done.
      pose proof (pow2_pos (Z.max 0 (- k)) ltac:(lia)) as Hp.
      assert (2 ^ 1024 * 2 ^ Z.max 0 (- k) <= q * 2 ^ Z.max 0 k) as Hov'.
      { etrans; [apply Z.mul_le_mono_nonneg_r; [lia|exact Hov]|].
        rewrite Z.mul_comm. apply Z.mul_div_le. lia. }
      rewrite Zle_Qle, !inject_Z_mult, (p2_ratio k), <- (p2_nonneg 1024) in Hov' by lia.
      apply injZ_pos in Hp.
      assert (p2 1024 <= inject_Z q * p2 k)%Q.
      { apply (Qmult_le_r _ _ _ Hp). lra. }
      pose proof (ffits_bound cm ce Hc) as Hb. apply Qabs.Qabs_Qlt_condition in Hb. lra.
    + unfold fleb. rewrite fcmp_val. simpl (fval (Fl q k)).
      destruct (Qcompare_spec (inject_Z q * p2 k) (fval (Fl cm ce))); try done. lra.
Qed.

Lemma fopp_fopp x : fopp (fopp x) = x.
Proof. destruct x as [m e|s|]; simpl; [by rewrite Z.opp_involutive|by rewrite negb_involutive|done]. Qed.

Lemma fleb_opp x y : (fopp x <=? fopp y)%flt = (y <=? x)%flt.
Proof.
  destruct x as [m e|s|], y as [m' e'|s'|]; try done; try (by destruct s); try (by destruct s');
    try (by destruct s, s').
  unfold fleb. cbn [fopp]. rewrite !fcmp_val. cbn [fval]. rewrite !inject_Z_opp.
  destruct (Qcompare_spec (- inject_Z m * p2 e) (- inject_Z m' * p2 e')),
    (Qcompare_spec (inject_Z m' * p2 e') (inject_Z m * p2 e)); try done; lra.
Qed.

Lemma fround_opp n d : 0 < d -> fround (- n) d = fopp (fround n d).
Proof.
  intros Hd. unfold fround. destruct (Z.eqb_spec n 0) as [->|Hn]; [done|].
  destruct (Z.eqb_spec (- n) 0); [lia|].
  assert (fexponent (- n) d = fexponent n d) as -> by (unfold fexponent; by rewrite Z.abs_opp).
  rewrite Z.mul_opp_l, rne_div_opp, Z.abs_opp by (pose proof (pow2_pos (Z.max 0 (fexponent n d)) ltac:(lia)); nia).
  destruct (_ <=? _); [|done]. simpl. f_equal.
  destruct (Z.ltb_spec (- n) 0), (Z.ltb_spec n 0); try done; lia.
Qed.

Lemma fval_opp x : (fval (fopp x) == - fval x)%Q.
Proof. destruct x; simpl; [|reflexivity..]. rewrite inject_Z_opp. ring. Qed.

Lemma ffits_opp x : ffits x -> ffits (fopp x).
Proof. destruct x; simpl; [|done..]. by rewrite Z.abs_opp. Qed.

Lemma fround_ge n d c :
  0 < d -> ffits c -> (fval c * inject_Z d <= inject_Z n)%Q -> (c <=? fround n d)%flt = true.
Proof.
  intros Hd Hc Hle. rewrite <- fleb_opp, <- fround_opp by done.
  apply fround_le; [done|by apply ffits_opp|]. rewrite fval_opp, inject_Z_opp. lra.
Qed.

Lemma fround_not_nan n d : fround n d <> FNaN.
Proof. unfold fround. destruct (n =? 0); [done|]. cbv zeta. by destruct (_ <=? _). Qed.

Lemma fltb_not_fleb x y : x <> FNaN -> y <> FNaN -> fltb x y = negb (fleb y x).
Proof.
  intros Hx Hy. destruct x as [m e|s|], y as [m' e'|s'|]; try done; try (by destruct s);
    try (by destruct s'); try (by destruct s, s').
  unfold fltb, fleb. rewrite !fcmp_val.
  rewrite <- (Qcompare_antisym (fval (Fl m e)) (fval (Fl m' e'))).
  by destruct (fval (Fl m e) ?= fval (Fl m' e'))%Q.
Qed.

Lemma fle_lt_val x y z :
  is_finite_float y = true -> is_finite_float z = true ->
  (x <=? y)%flt = true -> (fval y < fval z)%Q -> (x <? z)%flt = true.
Proof.
  intros Hy Hz Hle Hlt. destruct y as [m e| |]; [|done..]. destruct z as [m' e'| |]; [|done..].
  destruct x as [m0 e0|s|]; [|by destruct s|done].
  unfold fleb, fltb in *. rewrite fcmp_val in *. cbn [fval] in *.
  destruct (Qcompare_spec (inject_Z m0 * p2 e0) (inject_Z m * p2 e)); try done;
    destruct (Qcompare_spec (inject_Z m0 * p2 e0) (inject_Z m' * p2 e')); try done; lra.
Qed.

Lemma ffits_finite x : ffits x -> is_finite_float x = true.
Proof. by destruct x. Qed.

Lemma ffits_not_nan x : ffits x -> x <> FNaN.
Proof. by destruct x. Qed.

(** ** Operations as rounded quotients *)

Lemma fratio_val m e :
  0 < snd (fratio m e) /\ (inject_Z (fst (fratio m e)) == fval (Fl m e) * inject_Z (snd (fratio m e)))%Q.
Proof.
  unfold fratio. cbn [fst snd fval]. split; [apply pow2_pos; lia|].
  rewrite inject_Z_mult, p2_ratio. ring.
Qed.

Lemma fsub_round m e m' e' :
  exists n d, 0 < d /\ fsub (Fl m e) (Fl m' e') = fround n d /\
    (inject_Z n == (fval (Fl m e) - fval (Fl m' e')) * inject_Z d)%Q.
Proof.
  unfold fsub, fopp, fadd.
  destruct (fratio_val m e) as [Hd Hn], (fratio_val (- m') e') as [Hd' Hn'].
  destruct (fratio m e) as [n d], (fratio (- m') e') as [n' d']. cbn [fst snd] in *.
  exists (n * d' + n' * d), (d * d'). split; [nia|]. split; [done|].
  rewrite inject_Z_plus, !inject_Z_mult, Hn, Hn'. cbn [fval]. rewrite inject_Z_opp. ring.
Qed.

Lemma fmul_round m e m' e' :
  exists n d, 0 < d /\ fmul (Fl m e) (Fl m' e') = fround n d /\
    (inject_Z n == (fval (Fl m e) * fval (Fl m' e')) * inject_Z d)%Q.
Proof.
  unfold fmul. destruct (fratio_val m e) as [Hd Hn], (fratio_val m' e') as [Hd' Hn'].
  destruct (fratio m e) as [n d], (fratio m' e') as [n' d']. cbn [fst snd] in *.
  exists (n * n'), (d * d'). split; [nia|]. split; [done|].
  rewrite !inject_Z_mult, Hn, Hn'. ring.
Qed.

(** ** Rounding is monotone *)

Lemma rne_div_mono n d n' d' :
  0 < d -> 0 < d' -> n * d' <= n' * d -> rne_div n d <= rne_div n' d'.
Proof.
  intros Hd Hd' Hle. unfold rne_div.
  pose proof (Z.div_mod n d ltac:(lia)) as E. pose proof (Z.mod_pos_bound n d Hd) as B.
  pose proof (Z.div_mod n' d' ltac:(lia)) as E'. pose proof (Z.mod_pos_bound n' d' Hd') as B'.
  set (q := n / d) in *. set (r := n mod d) in *. set (q' := n' / d') in *. set (r' := n' mod d') in *.
  assert (q <= q') as Hq.
  { enough (q < q' + 1) by lia. apply (Z.mul_lt_mono_pos_r (d * d')); [nia|]. nia. }
  destruct (Z.eq_dec q q') as [Eq|Hne].
  - rewrite <- Eq in *. assert (r * d' <= r' * d) as Hr by nia.
    destruct (Z.compare_spec (2 * r) d), (Z.compare_spec (2 * r') d'), (Z.even q); try lia; nia.
  - destruct (2 * r ?= d), (2 * r' ?= d'), (Z.even q), (Z.even q'); lia.
Qed.


Lemma p2_le a b : a <= b -> (p2 a <= p2 b)%Q.
Proof.
  intros H. rewrite (p2_split b a H). pose proof (pow2_pos (b - a) ltac:(lia)) as H1.
  assert (1 <= 2 ^ (b - a)) as H2 by lia. rewrite Zle_Qle in H2. pose proof (p2_pos a).
  change (inject_Z 1) with 1%Q in H2. nra.
Qed.

(** The exponent is large enough for 53 bits. *)
Lemma fround_small n d : 0 < d -> n <> 0 ->
  (inject_Z (Z.abs n) < inject_Z (2 ^ 53) * p2 (fexponent n d) * inject_Z d)%Q.
Proof.
  intros Hd Hn. set (k0 := Z.log2 (Z.abs n) - Z.log2 d - 53).
  assert (exists k1, k1 <= fexponent n d /\
    (inject_Z (Z.abs n) < inject_Z (2 ^ 53) * p2 k1 * inject_Z d)%Q) as (k1 & Hk1 & H).
  2:{ eapply Qlt_le_trans; [exact H|]. apply Qmult_le_compat_r; [|apply Qlt_le_weak, injZ_pos; lia].
      apply Qmult_le_l; [done|by apply p2_le]. }
  unfold fexponent. fold k0. destruct (Z.ltb_spec (Z.abs n * 2 ^ Z.max 0 (- k0) / (d * 2 ^ Z.max 0 k0)) (2 ^ 53)) as [E|_].
  - exists k0. split; [lia|]. pose proof (pow2_pos (Z.max 0 k0) ltac:(lia)) as Hp.
    pose proof (pow2_pos (Z.max 0 (- k0)) ltac:(lia)) as Hm.
    assert (Z.abs n * 2 ^ Z.max 0 (- k0) < 2 ^ 53 * (d * 2 ^ Z.max 0 k0)) as H.
    { apply Z.div_lt_upper_bound in E || idtac.
      pose proof (Z.div_mod (Z.abs n * 2 ^ Z.max 0 (- k0)) (d * 2 ^ Z.max 0 k0) ltac:(nia)).
      pose proof (Z.mod_pos_bound (Z.abs n * 2 ^ Z.max 0 (- k0)) (d * 2 ^ Z.max 0 k0) ltac:(nia)). nia. }
    rewrite Zlt_Qlt, !inject_Z_mult, (p2_ratio k0) in H.
    apply injZ_pos in Hm. apply (Qmult_lt_r _ _ _ Hm). lra.
  - exists (k0 + 1). split; [lia|].
    assert (Z.abs n < 2 ^ (Z.log2 (Z.abs n) + 1)) as Ha by (apply Z.log2_spec; lia).
    assert (2 ^ Z.log2 d <= d) as Hb by (apply Z.log2_spec; lia).
    pose proof (Z.log2_nonneg d). pose proof (Z.log2_nonneg (Z.abs n)).
    rewrite Zlt_Qlt, <- p2_nonneg in Ha by lia. rewrite Zle_Qle, <- p2_nonneg in Hb by lia.
    eapply Qlt_le_trans; [exact Ha|]. rewrite <- (p2_nonneg 53), <- p2_plus by lia.
    replace (Z.log2 (Z.abs n) + 1) with (53 + (k0 + 1) + Z.log2 d) by (unfold k0; lia).
    rewrite p2_plus. apply Qmult_le_l; [apply p2_pos|done].
Qed.

Lemma fround_large n d : 0 < d -> n <> 0 -> -1074 < fexponent n d ->
  (inject_Z (2 ^ 52) * p2 (fexponent n d) * inject_Z d <= inject_Z (Z.abs n))%Q.
Proof.
  intros Hd Hn Hk. pose proof (fround_big n d Hd Hn Hk) as H.
  set (k := fexponent n d) in *. pose proof (pow2_pos (Z.max 0 (- k)) ltac:(lia)) as Hm.
  rewrite Z.abs_mul, (Z.abs_eq (2 ^ _)) in H by lia.
  rewrite Zle_Qle, !inject_Z_mult, (p2_ratio k) in H.
  apply injZ_pos in Hm. apply (Qmult_le_r _ _ _ Hm). lra.
Qed.

(** The mantissa that [fround] computes, before the overflow test. *)
Definition fmantissa (n d : Z) : Z :=
  rne_div (n * 2 ^ Z.max 0 (- fexponent n d)) (d * 2 ^ Z.max 0 (fexponent n d)).

Lemma fmantissa_opp n d : 0 < d -> fmantissa (- n) d = - fmantissa n d.
Proof.
  intros Hd. unfold fmantissa. assert (fexponent (- n) d = fexponent n d) as ->
    by (unfold fexponent; by rewrite Z.abs_opp).
  rewrite Z.mul_opp_l. apply rne_div_opp. apply fround_D_pos. lia.
Qed.

Lemma fmantissa_le n d : 0 < d -> n <> 0 -> fmantissa n d <= 2 ^ 53.
Proof.
  intros Hd Hn. apply rne_div_le; [by apply fround_D_pos|].
  pose proof (fround_small n d Hd Hn) as H. set (k := fexponent n d) in *.
  pose proof (pow2_pos (Z.max 0 (- k)) ltac:(lia)) as Hm. pose proof (injZ_pos _ Hm) as Hm'.
  rewrite Zle_Qle, !inject_Z_mult, (p2_ratio k).
  assert (inject_Z n <= inject_Z (Z.abs n))%Q by (rewrite <- Zle_Qle; lia). nra.
Qed.

Lemma fmantissa_ge n d : 0 < d -> 0 < n -> -1074 < fexponent n d -> 2 ^ 52 <= fmantissa n d.
Proof.
  intros Hd Hn Hk. apply rne_div_ge; [by apply fround_D_pos|].
  pose proof (fround_big n d Hd ltac:(lia) Hk) as H. rewrite Z.abs_eq in H; [done|].
  pose proof (pow2_pos (Z.max 0 (- fexponent n d)) ltac:(lia)). nia.
Qed.

(** A larger quotient with a larger exponent. *)
Lemma fmantissa_mono_lt n d n' d' :
  0 < d -> 0 < d' -> n <> 0 -> n' <> 0 -> n * d' <= n' * d -> fexponent n d < fexponent n' d' ->
  (inject_Z (fmantissa n d) * p2 (fexponent n d) <= inject_Z (fmantissa n' d') * p2 (fexponent n' d'))%Q.
Proof.
  intros Hd Hd' Hn Hn' Hle Hk. pose proof (fexponent_ge n d).
  pose proof (p2_le (fexponent n d + 1) (fexponent n' d') ltac:(lia)) as H2.
  rewrite p2_plus in H2. change (p2 1) with 2%Q in H2.
  pose proof (p2_pos (fexponent n d)) as Hp. pose proof (p2_pos (fexponent n' d')) as Hp'.
  destruct (Z.lt_trichotomy n' 0) as [Hneg|[|Hpos]]; [|done|].
  - exfalso. pose proof (fround_small n d Hd Hn) as Hs.
    pose proof (fround_large n' d' Hd' Hn' ltac:(lia)) as Hl.
    rewrite Z.abs_neq, inject_Z_opp in Hl by lia.
    assert (- inject_Z n <= inject_Z (Z.abs n))%Q as Ha by (rewrite <- inject_Z_opp, <- Zle_Qle; lia).
    rewrite Zle_Qle, !inject_Z_mult in Hle. apply injZ_pos in Hd, Hd'.
    change (inject_Z (2 ^ 53)) with (2 * inject_Z (2 ^ 52))%Q in Hs.
    set (A := inject_Z (2 ^ 52)) in *. assert (0 < A)%Q by (by apply injZ_pos).
    set (a := inject_Z n) in *. set (a' := inject_Z n') in *.
    set (b := inject_Z d) in *. set (b' := inject_Z d') in *.
    set (p := p2 (fexponent n d)) in *. set (p' := p2 (fexponent n' d')) in *.
    assert (- a < 2 * A * p * b)%Q as H1 by lra.
    assert (A * (p * 2) * b' <= - a')%Q as H3.
    { eapply Qle_trans; [|exact Hl]. apply Qmult_le_compat_r; [|lra]. apply Qmult_le_l; lra. }
    assert (- a * b' < 2 * A * p * b * b')%Q by (by apply Qmult_lt_r).
    assert (A * (p * 2) * b' * b <= - a' * b)%Q by (apply Qmult_le_compat_r; lra). lra.
  - pose proof (fmantissa_le n d Hd Hn) as H1. pose proof (fmantissa_ge n' d' Hd' Hpos ltac:(lia)) as H3.
    rewrite Zle_Qle in H1, H3. change (inject_Z (2 ^ 53)) with (2 * inject_Z (2 ^ 52))%Q in H1.
    assert (0 < inject_Z (2 ^ 52))%Q by (by apply injZ_pos).
    set (A := inject_Z (2 ^ 52)) in *. set (p := p2 (fexponent n d)) in *. set (p' := p2 (fexponent n' d')) in *.
    apply (Qle_trans _ (2 * A * p)); [apply Qmult_le_compat_r; lra|].
    apply (Qle_trans _ (A * p')); [|apply Qmult_le_compat_r; lra].
    apply (Qle_trans _ (A * (p * 2))); [lra|]. apply Qmult_le_l; lra.
Qed.

Lemma fmantissa_mono n d n' d' :
  0 < d -> 0 < d' -> n <> 0 -> n' <> 0 -> n * d' <= n' * d ->
  (inject_Z (fmantissa n d) * p2 (fexponent n d) <= inject_Z (fmantissa n' d') * p2 (fexponent n' d'))%Q.
Proof.
  intros Hd Hd' Hn Hn' Hle.
  destruct (Z.lt_trichotomy (fexponent n d) (fexponent n' d')) as [Hk|[Hk|Hk]].
  - by apply fmantissa_mono_lt.
  - rewrite <- Hk. apply Qmult_le_compat_r; [|apply Qlt_le_weak, p2_pos]. rewrite <- Zle_Qle.
    unfold fmantissa. rewrite <- Hk. set (k := fexponent n d).
    pose proof (pow2_pos (Z.max 0 (- k)) ltac:(lia)). pose proof (pow2_pos (Z.max 0 k) ltac:(lia)).
    apply rne_div_mono; nia.
  - assert (forall m c, fexponent (- m) c = fexponent m c) as Hopp
      by (intros; unfold fexponent; by rewrite Z.abs_opp).
    pose proof (fmantissa_mono_lt (- n') d' (- n) d Hd' Hd ltac:(lia) ltac:(lia) ltac:(nia)) as H.
    rewrite !Hopp, !fmantissa_opp, !inject_Z_opp in H by done. specialize (H Hk). lra.
Qed.

Lemma foverflow_iff q k :
  2 ^ 1024 <= Z.abs q * 2 ^ Z.max 0 k / 2 ^ Z.max 0 (- k) <->
  (p2 1024 <= inject_Z (Z.abs q) * p2 k)%Q.
Proof.
  pose proof (pow2_pos (Z.max 0 (- k)) ltac:(lia)) as Hm. pose proof (injZ_pos _ Hm) as Hm'.
  trans (2 ^ 1024 * 2 ^ Z.max 0 (- k) <= Z.abs q * 2 ^ Z.max 0 k).
  - split; intros H.
    + etrans; [apply Z.mul_le_mono_nonneg_r; [lia|exact H]|]. rewrite Z.mul_comm. by apply Z.mul_div_le.
    + apply Z.div_le_lower_bound; lia.
  - rewrite Zle_Qle, !inject_Z_mult, (p2_ratio k), <- (p2_nonneg 1024), Qmult_assoc by lia.
    by rewrite Qmult_le_r.
Qed.

Lemma fmantissa_sign n d : 0 < d -> (0 <= n -> 0 <= fmantissa n d) /\ (n <= 0 -> fmantissa n d <= 0).
Proof.
  intros Hd. pose proof (fround_D_pos n d Hd) as HD.
  pose proof (pow2_pos (Z.max 0 (- fexponent n d)) ltac:(lia)).
  split; intros Hn; [apply rne_div_ge|apply rne_div_le]; try done; nia.
Qed.

(** Rounding is monotone, overflow included. *)
Lemma fround_mono n d n' d' :
  0 < d -> 0 < d' -> n * d' <= n' * d -> (fround n d <=? fround n' d')%flt = true.
Proof.
  intros Hd Hd' Hle. assert (ffits (Fl 0 0)) as H0 by (simpl; lia).
  destruct (Z.eq_dec n 0) as [->|Hn].
  { apply fround_ge; [done|done|]. change (fval (Fl 0 0)) with 0%Q.
    assert (0 <= n') as H by (rewrite Z.mul_0_l in Hle; destruct (Z.lt_ge_cases n' 0) as [Hc|]; [pose proof (Z.mul_neg_pos _ _ Hc Hd); lia|done]). rewrite Zle_Qle in H. change (inject_Z 0) with 0%Q in H. rewrite Qmult_0_l. exact H. }
  destruct (Z.eq_dec n' 0) as [->|Hn'].
  { apply fround_le; [done|done|]. change (fval (Fl 0 0)) with 0%Q.
    assert (n <= 0) as H by (rewrite Z.mul_0_l in Hle; destruct (Z.lt_ge_cases 0 n) as [Hc|]; [pose proof (Z.mul_pos_pos _ _ Hc Hd'); lia|done]). rewrite Zle_Qle in H. change (inject_Z 0) with 0%Q in H. rewrite Qmult_0_l. exact H. }
  pose proof (fmantissa_mono n d n' d' Hd Hd' Hn Hn' Hle) as H.
  destruct (fmantissa_sign n d Hd) as [P1 P2], (fmantissa_sign n' d' Hd') as [P3 P4].
  assert (forall a b, a <> 0 -> fround a b =
    if (2 ^ 1024 <=? Z.abs (fmantissa a b) * 2 ^ Z.max 0 (fexponent a b) / 2 ^ Z.max 0 (- fexponent a b))
    then FInf (a <? 0) else Fl (fmantissa a b) (fexponent a b)) as Hf.
  { intros a b Ha. unfold fround, fmantissa. by destruct (Z.eqb_spec a 0). }
  rewrite !Hf by done. clear Hf.
  set (q := fmantissa n d) in *. set (k := fexponent n d) in *.
  set (q' := fmantissa n' d') in *. set (k' := fexponent n' d') in *.
  pose proof (p2_pos k) as Hp. pose proof (p2_pos k') as Hp'. pose proof (p2_pos 1024) as Hb.
  repeat match goal with |- context [2 ^ 1024 <=? ?e] => let E := fresh "E" in
    destruct (Z.leb_spec (2 ^ 1024) e) as [E|E];
    [rewrite foverflow_iff in E|apply Z.lt_nge in E; rewrite foverflow_iff in E; apply Qnot_le_lt in E] end.
  - destruct (Z.ltb_spec n 0), (Z.ltb_spec n' 0); try done. nia.
  - destruct (Z.ltb_spec n 0) as [Hs|Hs]; [done|]. exfalso. rewrite Z.abs_eq in E by (apply P1; lia).
    assert (inject_Z q' <= inject_Z (Z.abs q'))%Q by (rewrite <- Zle_Qle; lia). nra.
  - destruct (Z.ltb_spec n' 0) as [Hs|Hs]; [|done]. exfalso.
    rewrite Z.abs_neq, inject_Z_opp in E0 by (apply P4; lia).
    assert (- inject_Z q <= inject_Z (Z.abs q))%Q by (rewrite <- inject_Z_opp, <- Zle_Qle; lia). nra.
  - unfold fleb. rewrite fcmp_val. cbn [fval].
    destruct (Qcompare_spec (inject_Z q * p2 k) (inject_Z q' * p2 k')); try done. lra.
Qed.

(** ** Order and subtraction *)

Lemma fleb_val m e m' e' : (Fl m e <=? Fl m' e')%flt = true <-> (fval (Fl m e) <= fval (Fl m' e'))%Q.
Proof.
  unfold fleb. rewrite fcmp_val. destruct (Qcompare_spec (fval (Fl m e)) (fval (Fl m' e')));
    split; intros; try done; try lra.
Qed.

Lemma fleb_val_false m e m' e' :
  (Fl m e <=? Fl m' e')%flt = false <-> (fval (Fl m' e') < fval (Fl m e))%Q.
Proof.
  rewrite <- not_true_iff_false, fleb_val. split; intros; [|lra]. by apply Qnot_le_lt.
Qed.

Lemma fleb_trans x y z : (x <=? y)%flt = true -> (y <=? z)%flt = true -> (x <=? z)%flt = true.
Proof.
  destruct x as [m e|[]|], y as [m' e'|[]|], z as [m'' e''|[]|]; try done.
  rewrite !fleb_val. intros. lra.
Qed.

Lemma fleb_refl m e : (Fl m e <=? Fl m e)%flt = true.
Proof. rewrite fleb_val. lra. Qed.

(** Subtracting the same finite number keeps the order, rounding included. *)
Lemma fsub_mono x y m e :
  is_finite_float x = true -> is_finite_float y = true -> (x <=? y)%flt = true ->
  (fsub x (Fl m e) <=? fsub y (Fl m e))%flt = true.
Proof.
  destruct x as [mx ex| |], y as [my ey| |]; try done. rewrite fleb_val. intros _ _ H.
  destruct (fsub_round mx ex m e) as (n & d & Hd & -> & Hn).
  destruct (fsub_round my ey m e) as (n' & d' & Hd' & -> & Hn').
  apply fround_mono; [done..|]. rewrite Zle_Qle, !inject_Z_mult, Hn, Hn'.
  apply injZ_pos in Hd, Hd'.
  set (a := fval (Fl mx ex)) in *. set (b := fval (Fl my ey)) in *. set (c := fval (Fl m e)) in *.
  apply (Qle_trans _ ((b - c) * (inject_Z d * inject_Z d'))); [|lra].
  apply (Qle_trans _ ((a - c) * (inject_Z d * inject_Z d'))); [lra|].
  apply Qmult_le_compat_r; [lra|]. apply Qlt_le_weak. nra.
Qed.

(** ** Seconds against whole-second thresholds

    An age of [delta] microseconds, turned into a float number of seconds, falls on
    the same side of an integer threshold as [delta] itself. *)

Section seconds.
Context (delta c : Z) (X : float).
Context (HX : ffits X) (Hval : (fval X == inject_Z c)%Q) (Hc : Z.abs c < 2 ^ 32).

Lemma total_seconds_round : total_seconds delta = fround delta us_per_second.
Proof. unfold total_seconds, int_truediv. by rewrite Z.mul_1_l. Qed.

Lemma total_seconds_le : c * us_per_second <= delta -> (X <=? total_seconds delta)%flt = true.
Proof.
  intros Hd. rewrite total_seconds_round. apply fround_ge; [done..|].
  rewrite Hval, <- inject_Z_mult, <- Zle_Qle. done.
Qed.

Lemma total_seconds_ge : delta <= c * us_per_second -> (total_seconds delta <=? X)%flt = true.
Proof.
  intros Hd. rewrite total_seconds_round. apply fround_le; [done..|].
  rewrite Hval, <- inject_Z_mult, <- Zle_Qle. done.
Qed.

Lemma neighbour_fits s : Z.abs s = 1 -> ffits (Fl (c * 2 ^ 20 + s) (-20)).
Proof. intros Hs. simpl. lia. Qed.

Lemma neighbour_val s : (fval (Fl (c * 2 ^ 20 + s) (-20)) * inject_Z (2 ^ 20) == inject_Z (c * 2 ^ 20 + s))%Q.
Proof.
  cbn [fval]. rewrite <- p2_nonneg by lia. rewrite <- Qmult_assoc, <- p2_plus.
  change (p2 (-20 + 20)) with 1%Q. ring.
Qed.

Lemma total_seconds_lt_iff : (total_seconds delta <? X)%flt = (delta <? c * us_per_second).
Proof.
  assert (total_seconds delta <> FNaN) as Hn by (rewrite total_seconds_round; apply fround_not_nan).
  destruct (Z.ltb_spec delta (c * us_per_second)) as [H|H].
  - pose proof (neighbour_val (-1)) as Hv. rewrite inject_Z_plus, inject_Z_mult in Hv.
    apply (fle_lt_val _ (Fl (c * 2 ^ 20 + -1) (-20))); [done|by apply ffits_finite| |].
    + rewrite total_seconds_round. apply fround_le; [done|by apply neighbour_fits|].
      assert (delta * 2 ^ 20 <= (c * 2 ^ 20 + -1) * us_per_second) as Hz by (unfold us_per_second in *; lia).
      rewrite Zle_Qle, !inject_Z_mult, <- neighbour_val in Hz.
      apply (Qmult_le_r _ _ (inject_Z (2^20))); [done|]. lra.
    + rewrite Hval. apply (Qmult_lt_r _ _ (inject_Z (2^20))); [done|].
      rewrite Hv. change (inject_Z (-1)) with (-1)%Q. lra.
  - rewrite fltb_not_fleb by (done || by apply ffits_not_nan). by rewrite total_seconds_le.
Qed.

Lemma total_seconds_gt_iff : (total_seconds delta >? X)%flt = (c * us_per_second <? delta).
Proof.
  assert (total_seconds delta <> FNaN) as Hn by (rewrite total_seconds_round; apply fround_not_nan).
  destruct (Z.ltb_spec (c * us_per_second) delta) as [H|H].
  - rewrite fltb_not_fleb by (done || by apply ffits_not_nan).
    apply negb_true_iff, not_true_iff_false. intros Hle.
    assert ((Fl (c * 2 ^ 20 + 1) (-20)) <=? total_seconds delta = true)%flt as Hge.
    { rewrite total_seconds_round. apply fround_ge; [done|by apply neighbour_fits|].
      assert ((c * 2 ^ 20 + 1) * us_per_second <= delta * 2 ^ 20) as Hz by (unfold us_per_second in *; lia).
      rewrite Zle_Qle, !inject_Z_mult, <- neighbour_val in Hz.
      apply (Qmult_le_r _ _ (inject_Z (2^20))); [done|]. lra. }
    pose proof (neighbour_val 1) as Hv. rewrite inject_Z_plus, inject_Z_mult in Hv.
    assert (total_seconds delta <? Fl (c * 2 ^ 20 + 1) (-20) = true)%flt as Hlt.
    { apply (fle_lt_val _ X); [by apply ffits_finite|done|done|].
      rewrite Hval. apply (Qmult_lt_r _ _ (inject_Z (2^20))); [done|].
      rewrite Hv. change (inject_Z 1) with 1%Q. lra. }
    rewrite fltb_not_fleb in Hlt by done. by rewrite Hge in Hlt.
  - rewrite fltb_not_fleb by (done || by apply ffits_not_nan). by rewrite total_seconds_ge.
Qed.
End seconds.

(** ** Milliseconds *)

(** A quotient between zero and a power of two is rounded to a finite number between them. *)
Lemma fround_bounded n d k :
  0 < d -> 0 <= k <= 100 -> 0 <= n -> n <= 2 ^ k * d ->
  exists m e, fround n d = Fl m e /\ (0 <= fval (Fl m e) <= inject_Z (2 ^ k))%Q.
Proof.
  intros Hd Hk Hn Hle.
  assert (fval (Fl 1 k) == inject_Z (2 ^ k))%Q as Hv by (unfold fval; rewrite (p2_nonneg k) by lia; ring).
  assert ((fzero <=? fround n d)%flt = true) as H0.
  { apply fround_ge; [done|by unfold ffits, fzero; lia|]. unfold fzero, fval. rewrite Zle_Qle in Hn.
    change (inject_Z 0) with 0%Q in *. lra. }
  assert ((fround n d <=? Fl 1 k)%flt = true) as H1.
  { apply fround_le; [done|unfold ffits; lia|]. by rewrite Hv, <- inject_Z_mult, <- Zle_Qle. }
  destruct (fround n d) as [m e|[|]|] eqn:E; [|by (vm_compute in H0; discriminate)|discriminate H1|by vm_compute in H0].
  exists m, e. split; [done|]. unfold fzero in H0. rewrite fleb_val in H0, H1. rewrite <- Hv. split; [|exact H1].
  eapply Qle_trans; [|exact H0]. unfold fval. change (inject_Z 0) with 0%Q. lra.
Qed.

Lemma milliseconds_total delta : 0 <= delta <= 2 ^ 60 ->
  exists ms, py_round (fmul (total_seconds delta) (float_of_Z 1000)) = Ok ms.
Proof.
  intros Hd. rewrite total_seconds_round.
  destruct (fround_bounded delta us_per_second 60) as (m & e & -> & Hb); [done|lia|lia|unfold us_per_second; lia|].
  destruct (float_of_Z 1000) as [m' e'| |] eqn:E; [|vm_compute in E; discriminate..].
  assert (fval (Fl m' e') == 1000)%Q as Hv.
  { rewrite <- E. unfold float_of_Z. vm_compute. done. }
  destruct (fmul_round m e m' e') as (n & d & Hdd & -> & Hn).
  rewrite Hv in Hn.
  destruct (fround_bounded n d 80) as (q & k & -> & _); [done|lia|..].
  - rewrite Zle_Qle, Hn. change (inject_Z 0) with 0%Q. apply injZ_pos in Hdd. nra.
  - rewrite Zle_Qle, Hn, inject_Z_mult. apply injZ_pos in Hdd. destruct Hb as [_ Hb].
    apply Qmult_le_compat_r; [|lra]. change (inject_Z (2 ^ 60)) with (1152921504606846976#1)%Q in Hb. change (inject_Z (2^80)) with (1208925819614629174706176#1)%Q. lra.
  - unfold py_round. destruct (fratio q k). by eexists.
Qed.

(** ** Delays of at most a day *)

(** A quotient bounded by a power of two is rounded to a finite number with that bound. *)
Lemma fround_within n d k :
  0 < d -> 0 <= k <= 100 -> - (2 ^ k * d) <= n <= 2 ^ k * d ->
  exists m e, fround n d = Fl m e /\ (- inject_Z (2 ^ k) <= fval (Fl m e) <= inject_Z (2 ^ k))%Q.
Proof.
  intros Hd Hk Hn. destruct (Z.le_gt_cases 0 n) as [H0|H0].
  - destruct (fround_bounded n d k) as (m & e & E & Hb); [done|done|done|lia|].
    exists m, e. split; [done|]. lra.
  - destruct (fround_bounded (- n) d k) as (m & e & E & Hb); [done|done|lia|lia|].
    exists (- m), e. replace n with (- - n) by lia. rewrite fround_opp, E by done. split; [done|].
    change (Fl (- m) e) with (fopp (Fl m e)). rewrite fval_opp. lra.
Qed.

Lemma fratio_le m e k : 0 <= k -> (- inject_Z (2 ^ k) <= fval (Fl m e) <= inject_Z (2 ^ k))%Q ->
  - (2 ^ k * snd (fratio m e)) <= fst (fratio m e) <= 2 ^ k * snd (fratio m e).
Proof.
  intros Hk [Hlo Hhi]. destruct (fratio_val m e) as [Hd Hn]. apply injZ_pos in Hd.
  rewrite <- Z.mul_opp_l. split; rewrite Zle_Qle, inject_Z_mult, Hn; [rewrite inject_Z_opp|];
    apply Qmult_le_compat_r; lra.
Qed.

(** [timedelta(seconds=x)] does not raise. *)
Lemma timedelta_of_a_day x :
  (fzero <=? x)%flt = true -> (x <=? Fl 86400 0)%flt = true -> is_ok (timedelta_seconds x) = true.
Proof.
  intros H0 H1. destruct x as [m e|[|]|]; [|by vm_compute in H0|by vm_compute in H1|by vm_compute in H0].
  unfold fzero in H0. apply fleb_val in H0, H1. unfold timedelta_seconds.
  destruct (fratio_val m e) as [Hd Hn]. destruct (fratio m e) as [n d]. cbn [fst snd] in *.
  assert (0 <= n <= 86400 * d) as Hnd.
  { pose proof (injZ_pos _ Hd) as Hd'. rewrite !Zle_Qle, inject_Z_mult, Hn. change (fval (Fl 0 0)) with (0 * p2 0)%Q in H0.
    change (fval (Fl 86400 0)) with (inject_Z 86400 * 1)%Q in H1. change (inject_Z 0) with 0%Q.
    split; [nra|]. apply Qmult_le_compat_r; lra. }
  assert (0 <= Z.quot n d <= 86400) as Hw.
  { rewrite Z.quot_div_nonneg by lia. split; [apply Z.div_pos; lia|]. apply Z.div_le_upper_bound; lia. }
  set (whole := Z.quot n d) in *. cbv zeta. unfold float_of_Z at 1.
  destruct (fround_within whole 1 17) as (mw & ew & -> & Hbw); [done|lia|lia|].
  destruct (fsub_round m e mw ew) as (n1 & d1 & Hd1 & -> & Hn1).
  destruct (fround_within n1 d1 18) as (mf & ef & -> & Hbf); [done|lia|..].
  { pose proof (injZ_pos _ Hd1). rewrite <- Z.mul_opp_l. rewrite !Zle_Qle, !inject_Z_mult, inject_Z_opp, Hn1.
    change (fval (Fl 86400 0)) with (inject_Z 86400 * 1)%Q in H1. change (fval (Fl 0 0)) with (0 * p2 0)%Q in H0.
    change (inject_Z (2 ^ 17)) with (131072#1)%Q in Hbw. change (inject_Z (2 ^ 18)) with (262144#1)%Q.
    change (inject_Z 86400) with (86400#1)%Q in H1.
    split; apply Qmult_le_compat_r; lra. }
  destruct (float_of_Z us_per_second) as [mu eu| |] eqn:Eu; [|vm_compute in Eu; discriminate..].
  assert (fval (Fl mu eu) == 1000000)%Q as Hv by (rewrite <- Eu; vm_compute; done).
  destruct (fmul_round mf ef mu eu) as (n2 & d2 & Hd2 & -> & Hn2). rewrite Hv in Hn2.
  destruct (fround_within n2 d2 38) as (mp & ep & -> & Hbp); [done|lia|..].
  { pose proof (injZ_pos _ Hd2). rewrite <- Z.mul_opp_l. rewrite !Zle_Qle, !inject_Z_mult, inject_Z_opp, Hn2.
    change (inject_Z (2 ^ 18)) with (262144#1)%Q in Hbf. change (inject_Z (2 ^ 38)) with (274877906944#1)%Q.
    split; apply Qmult_le_compat_r; lra. }
  cbn [float_ratio]. pose proof (fratio_le mp ep 38 ltac:(lia) Hbp) as Hf.
  destruct (fratio_val mp ep) as [Hfd _]. destruct (fratio mp ep) as [fn fd]. cbn [fst snd] in *.
  assert (rne_div (whole * us_per_second * fd + fn) fd <= 2 ^ 39) as Hhi.
  { change (2 ^ 39) with (rne_div (2 ^ 39) 1) at 1. apply rne_div_mono; unfold us_per_second; nia. }
  assert (- 2 ^ 39 <= rne_div (whole * us_per_second * fd + fn) fd) as Hlo.
  { change (- 2 ^ 39) with (rne_div (- 2 ^ 39) 1) at 1. apply rne_div_mono; unfold us_per_second; nia. }
  unfold delta_of_us. set (us := rne_div _ _) in *. cbv zeta.
  assert (-10 <= us / (86400 * us_per_second) <= 10) as Hdays.
  { unfold us_per_second. split; [apply Z.div_le_lower_bound|apply Z.div_le_upper_bound]; lia. }
  rewrite (proj2 (Z.ltb_ge _ _)) by lia. rewrite (proj2 (Z.leb_gt _ _)) by lia. cbn [orb].
  by rewrite (proj2 (Z.ltb_ge _ _)) by lia.
Qed.

(** ** Sums of times *)

Lemma delta_of_us_Ok us v : delta_of_us us = Ok v -> v = us.
Proof. unfold delta_of_us. repeat case_match; congruence. Qed.
Lemma date_add_Ok a delta b : date_add a delta = Ok b -> b = time_add a delta /\ in_calendar b = true.
Proof. unfold date_add. destruct (in_calendar _) eqn:E; [|done]. by intros [= <-]. Qed.
