(* ===== verification/PyFormat.v ===== *)
(** * [f"{x:g}"]

    A float at six significant digits: the exact value is rounded once, half to even,
    written with an exponent below 1e-4 and from 1e6 on, and trailing zeros are dropped.
    The text of a finite float reads back as a decimal within five parts in a million of
    it, and greater floats never read back as smaller decimals ([format_g_reads_back],
    [format_g_mono]). *)

From Stdlib Require Import Ascii QArith Qabs Lqa.
From stdpp Require Import list strings.
From S2P Require Import Prelude PyList PyStr PyDecimal DecimalFacts DecimalContext PyParse PyTime PyFloat FloatFacts.
Open Scope Z_scope.

(** The six digits of [n / d] as an integer, and the exponent of the last of them. *)
Definition sig6 (n d : Z) : Z * Z :=
  let k := decimal_point n d in
  let c := rne_div (n * 10 ^ Z.max 0 (6 - k)) (d * 10 ^ Z.max 0 (k - 6)) in
  if c =? 10 ^ 6 then (10 ^ 5, k - 5) else (c, k - 6).

Definition rstrip_zeros (ds : list ascii) : list ascii := reverse (drop_chars (chr 48) (reverse ds)).

(** A fraction, without its point when nothing is left of it. *)
Definition fraction (ds : list ascii) : list ascii :=
  match rstrip_zeros ds with [] => [] | fp => chr 46 :: fp end.

(** [c * 10 ^ e], [c] of six digits. *)
Definition g_digits (c e : Z) : list ascii :=
  let x := e + 5 in
  if (-4 <=? x) && (x <? 6) then
    let f := Z.to_nat (- e) in
    chars (nat_str (c / 10 ^ (- e))) ++ fraction (digits_n 10 f (c mod 10 ^ (- e)) [])
  else
    chars (nat_str (c / 10 ^ 5)) ++ fraction (digits_n 10 5 (c mod 10 ^ 5) []) ++
    chr 101 :: (if x <? 0 then chr 45 else chr 43) :: digits_n 10 (2 `max` ndigits (Z.abs x)) (Z.abs x) [].

Definition format_g (x : float) : string :=
  match x with
  | FNaN => "nan"
  | FInf s => if s then "-inf" else "inf"
  | Fl m e =>
      if m =? 0 then "0"
      else
        let '(n, d) := fratio (Z.abs m) e in
        let '(c, ce) := sig6 n d in
        (if m <? 0 then "-" else EmptyString) +:+ of_chars (g_digits c ce)
  end.

Example format_g_examples :
  format_g (Fl 10 0) = "10" /\ format_g (Fl 25 (-3)) = "3.125" /\ format_g (float_lit 1 (-5)) = "1e-05" /\
  format_g (float_lit 1234567 0) = "1.23457e+06" /\ format_g (float_lit 9999995 (-1)) = "1e+06" /\
  format_g (float_lit (-25) (-4)) = "-0.0025" /\ format_g (float_lit 100000 0) = "100000" /\
  format_g (Fl 0 0) = "0".
Proof. vm_compute. repeat split. Qed.

(** ** Facts: the six digits *)

Lemma decimal_point_spec n d : 0 < n -> 0 < d ->
  (pw (decimal_point n d - 1) * inject_Z d <= inject_Z n < pw (decimal_point n d) * inject_Z d)%Q.
Proof.
  intros Hn Hd. unfold decimal_point.
  assert (forall k a b : Z, 0 <= k -> a * 10 ^ k <= b <-> (pw k * inject_Z a <= inject_Z b)%Q) as Hle.
  { intros k a b Hk. rewrite pw_nonneg, <- inject_Z_mult, <- Zle_Qle by done. lia. }
  assert (forall k a b : Z, 0 <= k -> b < a * 10 ^ k <-> (inject_Z b < pw k * inject_Z a)%Q) as Hlt.
  { intros k a b Hk. rewrite pw_nonneg, <- inject_Z_mult, <- Zlt_Qlt by done. lia. }
  assert (forall k : Z, (pw (- k) * pw k == 1)%Q) as Hinv.
  { intros k. rewrite <- pw_plus. by replace (- k + k) with 0 by lia. }
  destruct (Z.leb_spec d n) as [H|H].
  - assert (0 < n / d) as Hq by (by apply Z.div_str_pos).
    destruct (ndigits_spec _ Hq) as [Hl Hu]. pose proof (ndigits_pos (n / d)) as Hp.
    set (k := ndigits (n / d)) in *. pose proof (Z.div_mod n d ltac:(lia)). pose proof (Z.mod_pos_bound n d Hd).
    split; [apply Hle; [lia|]; nia|apply Hlt; [lia|]; nia].
  - assert (0 < d / n) as Hq by (apply Z.div_str_pos; lia).
    destruct (ndigits_spec _ Hq) as [Hl Hu]. pose proof (ndigits_pos (d / n)) as Hp.
    set (j := Z.of_nat (ndigits (d / n))) in *. pose proof (Z.div_mod d n ltac:(lia)) as Ha. pose proof (Z.mod_pos_bound d n Hn) as Hb.
    assert (n * 10 ^ (j - 1) <= d) as H1 by nia. assert (d < n * 10 ^ j) as H2 by nia.
    apply Hle in H1; [|lia]. apply Hlt in H2; [|lia].
    assert (pw (1 - j) == pw (- (j - 1)))%Q as E1 by (by replace (1 - j) with (- (j - 1)) by lia).
    pose proof (pw_pos (1 - j)) as P1. pose proof (pw_pos (- j)) as P0.
    destruct (Z.leb_spec d (n * 10 ^ (j - 1))) as [H3|H3].
    + replace (2 - j - 1) with (1 - j) by lia. replace (2 - j) with (1 + (1 - j)) by lia. rewrite pw_plus.
      change (pw 1) with (10#1)%Q.
      rewrite Zle_Qle in H3. rewrite inject_Z_mult, <- pw_nonneg in H3 by lia.
      assert (inject_Z n == pw (1 - j) * inject_Z d)%Q as ->.
      { assert (inject_Z d == inject_Z n * pw (j - 1))%Q as -> by lra. rewrite E1.
        transitivity (inject_Z n * (pw (- (j - 1)) * pw (j - 1)))%Q; [rewrite Hinv; ring|ring]. }
      assert (0 < pw (1 - j) * inject_Z d)%Q as Hpos by (apply Qmult_lt_0_compat; [done|by apply injZ_pos]). lra.
    + replace (1 - j - 1) with (- j) by lia.
      rewrite Zlt_Qlt in H3. rewrite inject_Z_mult, <- pw_nonneg in H3 by lia. split.
      * assert (pw (- j) * inject_Z d <= pw (- j) * (pw j * inject_Z n))%Q as Hc by (apply Qmult_le_l; [done|lra]).
        rewrite Qmult_assoc, Hinv in Hc. lra.
      * assert (pw (1 - j) * (inject_Z n * pw (j - 1)) < pw (1 - j) * inject_Z d)%Q as Hc by (apply Qmult_lt_l; done).
        rewrite E1 in Hc at 1.
        assert (pw (- (j - 1)) * (inject_Z n * pw (j - 1)) == inject_Z n * (pw (- (j - 1)) * pw (j - 1)))%Q as Eb by ring.
        rewrite Eb, Hinv in Hc. lra.
Qed.

Lemma half_unit D c N : Z.abs (2 * (D * c - N)) <= D ->
  (Qabs (inject_Z D * inject_Z c - inject_Z N) <= inject_Z D * (1#2))%Q.
Proof.
  intros [Ha Hb]%Z.abs_le. assert (- D + 2 * N <= 2 * D * c /\ 2 * D * c <= D + 2 * N) as [Ha' Hb'] by lia.
  rewrite Zle_Qle, inject_Z_plus, !inject_Z_mult in Ha', Hb'. rewrite inject_Z_opp in Ha'.
  change (inject_Z 2) with (2#1)%Q in Ha', Hb'. apply Qabs_Qle_condition. split; lra.
Qed.

Section sig6.
Context (n d : Z) (Hn : 0 < n) (Hd : 0 < d).
Let k := decimal_point n d.
Let N := n * 10 ^ Z.max 0 (6 - k).
Let D := d * 10 ^ Z.max 0 (k - 6).

Lemma sig6_D_pos : 0 < D.
Proof. unfold D. pose proof (pow10_pos (Z.max 0 (k - 6)) ltac:(lia)). nia. Qed.

(** [N / D] is [n / d] in units of the sixth digit. *)
Lemma sig6_scaled : (inject_Z N * pw (k - 6) * inject_Z d == inject_Z n * inject_Z D)%Q.
Proof.
  unfold N, D. rewrite !inject_Z_mult, <- !pw_nonneg by lia.
  assert (pw (Z.max 0 (6 - k)) * pw (k - 6) == pw (Z.max 0 (k - 6)))%Q as E.
  { rewrite <- pw_plus. by replace (Z.max 0 (6 - k) + (k - 6)) with (Z.max 0 (k - 6)) by lia. }
  rewrite <- E. ring.
Qed.

Lemma sig6_range : 10 ^ 5 * D <= N < 10 ^ 6 * D.
Proof.
  destruct (decimal_point_spec n d Hn Hd) as [Hl Hu]. fold k in Hl, Hu.
  pose proof sig6_scaled as Hs. pose proof (injZ_pos D sig6_D_pos) as HD. pose proof (injZ_pos d Hd) as Hd'.
  pose proof (pw_pos (k - 6)) as Hp.
  assert (pw (k - 1) == inject_Z (10 ^ 5) * pw (k - 6))%Q as E1.
  { rewrite <- pw_nonneg, <- pw_plus by lia. by replace (5 + (k - 6)) with (k - 1) by lia. }
  assert (pw k == inject_Z (10 ^ 6) * pw (k - 6))%Q as E2.
  { rewrite <- pw_nonneg, <- pw_plus by lia. by replace (6 + (k - 6)) with k by lia. }
  rewrite E1 in Hl. rewrite E2 in Hu.
  assert (0 < pw (k - 6) * inject_Z d)%Q as Hpd by (by apply Qmult_lt_0_compat).
  split.
  - rewrite Zle_Qle, inject_Z_mult. apply (Qmult_le_r _ _ (pw (k - 6) * inject_Z d)); [done|].
    assert (inject_Z N * (pw (k - 6) * inject_Z d) == inject_Z n * inject_Z D)%Q as -> by (rewrite <- Hs; ring).
    assert (inject_Z (10 ^ 5) * pw (k - 6) * inject_Z d * inject_Z D <= inject_Z n * inject_Z D)%Q as H
      by (by apply Qmult_le_r). lra.
  - rewrite Zlt_Qlt, inject_Z_mult. apply (Qmult_lt_r _ _ (pw (k - 6) * inject_Z d)); [done|].
    assert (inject_Z N * (pw (k - 6) * inject_Z d) == inject_Z n * inject_Z D)%Q as -> by (rewrite <- Hs; ring).
    assert (inject_Z n * inject_Z D < inject_Z (10 ^ 6) * pw (k - 6) * inject_Z d * inject_Z D)%Q as H
      by (by apply Qmult_lt_r). lra.
Qed.

Definition sig6_value : Q := (inject_Z (rne_div N D) * pw (k - 6))%Q.

Lemma sig6_spec :
  let '(c, e) := sig6 n d in
  10 ^ 5 <= c < 10 ^ 6 /\ (inject_Z c * pw e == sig6_value)%Q /\ (pw (k - 1) <= sig6_value <= pw k)%Q.
Proof.
  pose proof sig6_D_pos as HD. destruct sig6_range as [H1 H2].
  assert (10 ^ 5 <= rne_div N D <= 10 ^ 6) as [Hc1 Hc2]
    by (split; [apply rne_div_ge|apply rne_div_le]; (done || lia)).
  assert (pw (k - 1) <= sig6_value <= pw k)%Q as Hv.
  { unfold sig6_value. pose proof (pw_pos (k - 6)) as Hp.
    assert (pw (k - 1) == inject_Z (10 ^ 5) * pw (k - 6))%Q as ->.
    { rewrite <- pw_nonneg, <- pw_plus by lia. by replace (5 + (k - 6)) with (k - 1) by lia. }
    assert (pw k == inject_Z (10 ^ 6) * pw (k - 6))%Q as ->.
    { rewrite <- (pw_nonneg 6), <- pw_plus by lia. by replace (6 + (k - 6)) with k by lia. }
    split; (apply Qmult_le_r; [done|]); by rewrite <- Zle_Qle. }
  unfold sig6. fold k. fold N. fold D. destruct (Z.eqb_spec (rne_div N D) (10 ^ 6)) as [E|Hne].
  - split_and!; [lia|lia| |apply Hv|apply Hv]. unfold sig6_value. rewrite E. replace (k - 5) with (1 + (k - 6)) by lia.
    rewrite pw_plus. change (pw 1) with (10#1)%Q. change (inject_Z (10 ^ 6)) with (1000000#1)%Q.
    change (inject_Z (10 ^ 5)) with (100000#1)%Q. ring.
  - split_and!; [lia|lia|done|apply Hv|apply Hv].
Qed.

(** The rounding error: half a unit of the sixth digit. *)
Lemma sig6_close : (Qabs (sig6_value * inject_Z d - inject_Z n) <= inject_Z n * (5 # 1000000))%Q.
Proof.
  pose proof sig6_D_pos as HD. pose proof (rne_div_half N D HD) as Hh. pose proof (injZ_pos D HD) as HD'.
  destruct (decimal_point_spec n d Hn Hd) as [Hl _]. fold k in Hl. pose proof sig6_scaled as Hs.
  pose proof (pw_pos (k - 6)) as Hp. pose proof (injZ_pos d Hd) as Hd'.
  assert (pw (k - 1) == (100000#1) * pw (k - 6))%Q as E1.
  { change (100000#1)%Q with (inject_Z (10 ^ 5)). rewrite <- pw_nonneg, <- pw_plus by lia.
    by replace (5 + (k - 6)) with (k - 1) by lia. }
  rewrite E1 in Hl. set (c := rne_div N D) in *. unfold sig6_value. fold c.
  pose proof (half_unit D c N Hh) as Hb.
  apply Qabs_Qle_condition in Hb as [Hb1 Hb2]. apply Qabs_Qle_condition.
  set (p := pw (k - 6)) in *. set (qd := inject_Z d) in *. set (qn := inject_Z n) in *.
  set (qD := inject_Z D) in *. set (qN := inject_Z N) in *. set (qc := inject_Z c) in *.
  assert (0 < p * qd)%Q as Hpd by (by apply Qmult_lt_0_compat).
  assert ((qc * p * qd - qn) * qD == (qD * qc - qN) * (p * qd))%Q as Ed.
  { transitivity (qc * p * qd * qD - qn * qD)%Q; [ring|]. rewrite <- Hs. ring. }
  assert (p * qd <= qn * (1#100000))%Q as Hu by lra.
  assert (p * qd * (1#2) <= qn * (5#1000000))%Q as Hu2 by lra.
  assert ((qD * qc - qN) * (p * qd) <= qD * (1#2) * (p * qd))%Q as Hx by (by apply Qmult_le_r).
  assert (- (qD * (1#2)) * (p * qd) <= (qD * qc - qN) * (p * qd))%Q as Hy by (by apply Qmult_le_r).
  rewrite <- Ed in Hx, Hy. split.
  - apply (Qmult_le_r _ _ qD); [done|].
    assert (- (p * qd * (1#2)) * qD <= (qc * p * qd - qn) * qD)%Q as Hz by lra.
    eapply Qle_trans; [|exact Hz]. apply Qmult_le_r; [done|lra].
  - apply (Qmult_le_r _ _ qD); [done|].
    assert ((qc * p * qd - qn) * qD <= p * qd * (1#2) * qD)%Q as Hz by lra.
    eapply Qle_trans; [exact Hz|]. apply Qmult_le_r; [done|lra].
Qed.
End sig6.

Lemma sig6_mono n d n' d' : 0 < n -> 0 < d -> 0 < n' -> 0 < d' ->
  (inject_Z n * inject_Z d' <= inject_Z n' * inject_Z d)%Q -> (sig6_value n d <= sig6_value n' d')%Q.
Proof.
  intros Hn Hd Hn' Hd' Hle.
  destruct (decimal_point_spec n d Hn Hd) as [Hl Hu], (decimal_point_spec n' d' Hn' Hd') as [Hl' Hu'].
  pose proof (sig6_spec n d Hn Hd) as H1. pose proof (sig6_spec n' d' Hn' Hd') as H2.
  destruct (sig6 n d) as [c e], (sig6 n' d') as [c' e']. destruct H1 as (_ & _ & _ & H1), H2 as (_ & _ & H2 & _).
  set (k := decimal_point n d) in *. set (k' := decimal_point n' d') in *.
  pose proof (injZ_pos d Hd) as Qd. pose proof (injZ_pos d' Hd') as Qd'.
  assert (k <= k') as Hk.
  { destruct (Z.le_gt_cases k k') as [|Hgt]; [done|exfalso].
    pose proof (pw_le k' (k - 1) ltac:(lia)) as Hp.
    assert (pw (k - 1) * inject_Z d * inject_Z d' <= inject_Z n * inject_Z d')%Q by (by apply Qmult_le_r).
    assert (inject_Z n' * inject_Z d < pw k' * inject_Z d' * inject_Z d)%Q by (by apply Qmult_lt_r).
    assert (pw k' * (inject_Z d * inject_Z d') <= pw (k - 1) * (inject_Z d * inject_Z d'))%Q
      by (apply Qmult_le_r; [by apply Qmult_lt_0_compat|done]). lra. }
  destruct (Z.eq_dec k k') as [E|Hne].
  - unfold sig6_value. fold k. fold k'. rewrite <- E. apply Qmult_le_r; [apply pw_pos|]. rewrite <- Zle_Qle.
    rewrite <- !inject_Z_mult, <- Zle_Qle in Hle. pose proof (pow10_pos (Z.max 0 (6 - k)) ltac:(lia)).
    pose proof (pow10_pos (Z.max 0 (k - 6)) ltac:(lia)).
    apply rne_div_mono; [nia|nia|].
    transitivity (n * d' * (10 ^ Z.max 0 (6 - k) * 10 ^ Z.max 0 (k - 6))); [lia|].
    transitivity (n' * d * (10 ^ Z.max 0 (6 - k) * 10 ^ Z.max 0 (k - 6))); [|lia]. apply Z.mul_le_mono_nonneg_r; [nia|lia].
  - pose proof (pw_le k (k' - 1) ltac:(lia)) as Hp. eapply Qle_trans; [exact H1|]. by eapply Qle_trans.
Qed.

(** ** Facts: the text *)

Lemma drop_chars_repeat a l : exists j, l = repeat a j ++ drop_chars a l.
Proof.
  induction l as [|b l [j IH]]; [by exists 0%nat|]. simpl. destruct (Ascii.eqb_spec b a) as [->|].
  - exists (S j). simpl. by rewrite <- IH.
  - by exists 0%nat.
Qed.

Lemma reverse_repeat {A} (a : A) j : reverse (repeat a j) = repeat a j.
Proof.
  induction j as [|j IH]; [done|]. simpl. rewrite reverse_cons, IH. clear IH. induction j as [|j IH]; [done|].
  simpl. by rewrite IH.
Qed.

Lemma rstrip_zeros_app ds : exists j, ds = rstrip_zeros ds ++ repeat (chr 48) j.
Proof.
  destruct (drop_chars_repeat (chr 48) (reverse ds)) as [j Hj]. exists j. unfold rstrip_zeros.
  rewrite <- (reverse_repeat (chr 48) j), <- reverse_app, <- Hj. by rewrite reverse_involutive.
Qed.

Lemma digits_nonempty z : digits_n 10 (ndigits z) z [] <> [].
Proof.
  intros H. apply (f_equal length) in H. rewrite length_digits_n in H. pose proof (ndigits_pos z). simpl in H. lia.
Qed.

Lemma chars_nat_str z : chars (nat_str z) = digits_n 10 (ndigits z) z [].
Proof. apply chars_of_chars. Qed.

(** A number with a stripped fraction is worth the number with the whole fraction. *)
Lemma parse_fraction ip ds rest e :
  ip <> [] -> Forall (fun a => is_digit a = true) ip -> Forall (fun a => is_digit a = true) ds ->
  no_digit_head rest -> (match rest with a :: _ => code a <> 46 | [] => True end) ->
  parse_exponent rest = Some e ->
  exists m x, parse_number (ip ++ fraction ds ++ rest) = Some (m, x) /\
    (inject_Z m * pw x == inject_Z (digits_val (ip ++ ds)) * pw (e - Z.of_nat (length ds)))%Q.
Proof.
  intros Hne Hi Hd Hh Hp He. destruct (rstrip_zeros_app ds) as [j Hj]. unfold fraction.
  set (fp := rstrip_zeros ds) in *. clearbody fp. subst ds. apply Forall_app in Hd as [Hf _].
  assert (inject_Z (digits_val (ip ++ fp)) * pw (e - Z.of_nat (length fp)) ==
    inject_Z (digits_val (ip ++ fp ++ repeat (chr 48) j)) * pw (e - Z.of_nat (length (fp ++ repeat (chr 48) j))))%Q as Hv.
  { rewrite (app_assoc ip), (digits_val_app (ip ++ fp)), digits_val_zeros, length_app, repeat_length, Z.add_0_r, inject_Z_mult.
    rewrite <- pw_nonneg by lia. rewrite <- Qmult_assoc, <- pw_plus.
    by replace (Z.of_nat j + (e - Z.of_nat (length fp + j))) with (e - Z.of_nat (length fp)) by lia. }
  destruct fp as [|a fp].
  - exists (digits_val ip), e. split; [by apply parse_number_int|]. rewrite <- Hv, app_nil_r, Z.sub_0_r. reflexivity.
  - exists (digits_val (ip ++ a :: fp)), (e - Z.of_nat (length (a :: fp))). split; [|exact Hv].
    cbn [app]. by apply (parse_number_point ip (a :: fp)).
Qed.

Lemma parse_small_e x :
  parse_exponent (chr 101 :: (if x <? 0 then chr 45 else chr 43) :: digits_n 10 (2 `max` ndigits (Z.abs x)) (Z.abs x) []) = Some x.
Proof.
  assert (digits_val (digits_n 10 (2 `max` ndigits (Z.abs x)) (Z.abs x) []) = Z.abs x) as Hv.
  { apply digits_val_n. split; [lia|]. eapply Z.lt_le_trans; [apply ndigits_bound; lia|].
    apply Z.pow_le_mono_r; lia. }
  unfold parse_exponent. change (code (lower_char (chr 101)) =? 101) with true. cbv iota.
  set (ds := digits_n _ _ _ _) in *.
  assert (span_sign ((if x <? 0 then chr 45 else chr 43) :: ds) = (x <? 0, ds)) as -> by (by destruct (x <? 0)).
  rewrite span_digits_all by apply digits_n_digits.
  assert (ds <> []) as Hne.
  { intros E. apply (f_equal length) in E. unfold ds in E. rewrite length_digits_n in E. simpl in E. lia. }
  clearbody ds. destruct ds as [|a ds]; [done|]. rewrite Hv. f_equal. destruct (Z.ltb_spec x 0); lia.
Qed.

Lemma fraction_clean ds : Forall (fun a => is_digit a = true) ds -> Forall (fun a => clean a = true) (fraction ds).
Proof.
  intros Hd. destruct (rstrip_zeros_app ds) as [j Hj]. unfold fraction.
  destruct (rstrip_zeros ds) as [|a fp]; [constructor|]. constructor; [done|].
  rewrite Hj in Hd. apply Forall_app in Hd as [Hd _]. eapply Forall_impl; [exact Hd|exact digit_clean].
Qed.

Lemma split_digits c f : 0 <= c -> 
  digits_val (digits_n 10 (ndigits (c / 10 ^ Z.of_nat f)) (c / 10 ^ Z.of_nat f) [] ++
              digits_n 10 f (c mod 10 ^ Z.of_nat f) []) = c.
Proof.
  intros Hc. pose proof (pow10_pos (Z.of_nat f) ltac:(lia)) as Hp.
  rewrite digits_val_app, length_digits_n, digits_val_str, digits_val_n.
  - simpl length. rewrite Nat.add_0_r. pose proof (Z.div_mod c (10 ^ Z.of_nat f) ltac:(lia)). lia.
  - by apply Z.mod_pos_bound.
  - by apply Z.div_pos.
Qed.

Lemma parse_g_digits c e : 0 <= c ->
  (exists m x, parse_number (g_digits c e) = Some (m, x) /\ (inject_Z m * pw x == inject_Z c * pw e)%Q) /\
  (exists d l, g_digits c e = d :: l /\ is_digit d = true) /\ Forall (fun a => clean a = true) (g_digits c e).
Proof.
  intros Hc. unfold g_digits. cbv zeta. rewrite !chars_nat_str.
  assert (forall z rest, exists d l, digits_n 10 (ndigits z) z [] ++ rest = d :: l /\ is_digit d = true) as Hhead.
  { intros z rest. pose proof (digits_nonempty z) as Hne. pose proof (digits_n_digits (ndigits z) z) as Hd.
    destruct (digits_n 10 (ndigits z) z []) as [|d l]; [done|]. apply Forall_cons in Hd as [? _]. simpl. eauto. }
  assert (forall n z, Forall (fun a => clean a = true) (digits_n 10 n z [])) as Hcl.
  { intros n z. eapply Forall_impl; [apply digits_n_digits|exact digit_clean]. }
  destruct (_ && _) eqn:E; split_and!; try apply Hhead.
  - guards. assert (exists f, - e = Z.of_nat f) as [f Hf] by (exists (Z.to_nat (- e)); lia). rewrite Hf, Nat2Z.id.
    destruct (parse_fraction (digits_n 10 (ndigits (c / 10 ^ Z.of_nat f)) (c / 10 ^ Z.of_nat f) [])
      (digits_n 10 f (c mod 10 ^ Z.of_nat f) []) [] 0) as (m & x & Hp & Hv);
      try done; try apply digits_nonempty; try apply digits_n_digits.
    rewrite app_nil_r in Hp. exists m, x. split; [done|]. rewrite Hv, split_digits, length_digits_n by done.
    simpl length. replace (0 - Z.of_nat (f + 0)) with e by lia. reflexivity.
  - apply Forall_app. split; [apply Hcl|apply fraction_clean, digits_n_digits].
  - pose proof (parse_small_e (e + 5)) as Hx. set (rest := chr 101 :: _) in *.
    assert (no_digit_head rest /\ match rest with a :: _ => code a <> 46 | [] => True end) as [Hh Hdot]
      by (split; [done|vm_compute; discriminate]). clearbody rest.
    destruct (parse_fraction (digits_n 10 (ndigits (c / 10 ^ Z.of_nat 5)) (c / 10 ^ Z.of_nat 5) [])
      (digits_n 10 5 (c mod 10 ^ Z.of_nat 5) []) rest (e + 5)) as (m & x & Hp & Hv);
      try done; try apply digits_nonempty; try apply digits_n_digits.
    exists m, x. split; [exact Hp|]. rewrite Hv, split_digits, length_digits_n by done. simpl length.
    replace (e + 5 - Z.of_nat (5 + 0)) with e by lia. reflexivity.
  - apply Forall_app. split; [apply Hcl|]. apply Forall_app. split; [apply fraction_clean, digits_n_digits|].
    constructor; [done|]. constructor; [by destruct (e + 5 <? 0)|apply Hcl].
Qed.

(** What the text of a float is worth. *)
Definition g_value (x : float) : Q :=
  match x with
  | Fl m e =>
      if m =? 0 then 0
      else let v := sig6_value (fratio (Z.abs m) e).1 (fratio (Z.abs m) e).2 in if m <? 0 then (- v)%Q else v
  | _ => 0
  end.

Lemma fratio_abs_pos m e : m <> 0 -> 0 < (fratio (Z.abs m) e).1 /\ 0 < (fratio (Z.abs m) e).2.
Proof.
  intros Hm. unfold fratio. cbn [fst snd]. pose proof (pow2_pos (Z.max 0 e) ltac:(lia)).
  pose proof (pow2_pos (Z.max 0 (- e)) ltac:(lia)). split; nia.
Qed.

(** The text of a finite float reads back as a decimal of its six digits, which is within
    five parts in a million of the float. *)
Lemma format_g_reads_back m e :
  (exists a, decimal_of_str (format_g (Fl m e)) = Ok (Finite a) /\ (dval a == g_value (Fl m e))%Q) /\
  (Qabs (g_value (Fl m e) - fval (Fl m e)) <= Qabs (fval (Fl m e)) * (5#1000000))%Q.
Proof.
  unfold format_g, g_value. destruct (Z.eqb_spec m 0) as [->|Hm].
  { split; [exists (Dec 0 0); split; [reflexivity|reflexivity]|]. cbn [fval].
    assert (inject_Z 0 * p2 e == 0)%Q as -> by (change (inject_Z 0) with 0%Q; ring). vm_compute. discriminate. }
  destruct (fratio_abs_pos m e Hm) as [Hn Hd]. destruct (fratio_val (Z.abs m) e) as [_ Hv].
  destruct (fratio (Z.abs m) e) as [n d]. cbn [fst snd] in *. pose proof (injZ_pos d Hd) as Hd'. split.
  - pose proof (sig6_spec n d Hn Hd) as Hs. destruct (sig6 n d) as [c ce]. destruct Hs as (Hc & Hval & _).
    destruct (parse_g_digits c ce ltac:(lia)) as ((mm & x & Hp & Hx) & (a & l & Ea & Ha) & Hcl).
    exists (Dec (if m <? 0 then - mm else mm) x). split.
    + assert (48 <= code a <= 57) as Hr by (unfold is_digit in Ha; guards; lia).
      apply (decimal_of_clean _ (m <? 0) (g_digits c ce) a l); try done;
        rewrite chars_app, chars_of_chars.
      * apply Forall_app. split; [|done]. destruct (m <? 0); by repeat constructor.
      * rewrite Ea. destruct (m <? 0); simpl; [done|]. rewrite !(proj2 (Z.eqb_neq _ _)) by lia. done.
    + unfold dval. cbn [dm de]. destruct (m <? 0); [rewrite inject_Z_opp|]; rewrite <- Hval, <- Hx; ring.
  - pose proof (sig6_close n d Hn Hd) as Hc. set (v := sig6_value n d) in *.
    assert (fval (Fl m e) == (if m <? 0 then - (1) else 1) * fval (Fl (Z.abs m) e))%Q as Hf.
    { unfold fval. destruct (Z.ltb_spec m 0); [rewrite Z.abs_neq, inject_Z_opp by lia|rewrite Z.abs_eq by lia]; ring. }
    set (w := fval (Fl (Z.abs m) e)) in *.
    assert (0 < w)%Q as Hw.
    { apply (Qmult_lt_r _ _ (inject_Z d)); [done|]. rewrite <- Hv. pose proof (injZ_pos n Hn). lra. }
    assert (Qabs (v - w) <= w * (5#1000000))%Q as Hb.
    { apply Qabs_Qle_condition in Hc as [H1 H2]. rewrite Hv in H1, H2. apply Qabs_Qle_condition.
      split; apply (Qmult_le_r _ _ (inject_Z d)); (done || lra). }
    rewrite Hf. destruct (m <? 0).
    + assert (- v - - (1) * w == - (v - w))%Q as -> by ring. rewrite Qabs_opp.
      assert (- (1) * w == - w)%Q as -> by ring. rewrite Qabs_opp, (Qabs_pos w) by lra. exact Hb.
    + assert (v - 1 * w == v - w)%Q as -> by ring. assert (1 * w == w)%Q as -> by ring.
      rewrite (Qabs_pos w) by lra. exact Hb.
Qed.

(** Positive floats keep their order. *)
Lemma format_g_mono m e m' e' : 0 < m -> (fval (Fl m e) <= fval (Fl m' e'))%Q -> (g_value (Fl m e) <= g_value (Fl m' e'))%Q.
Proof.
  intros Hm Hle.
  assert (0 < m') as Hm'.
  { assert (0 < fval (Fl m e))%Q as H by (unfold fval; apply Qmult_lt_0_compat; [by apply injZ_pos|apply p2_pos]).
    destruct (Z.le_gt_cases m' 0) as [Hn|]; [|done]. exfalso. unfold fval in Hle at 2.
    assert (inject_Z m' * p2 e' <= 0 * p2 e')%Q by (apply Qmult_le_r; [apply p2_pos|change 0%Q with (inject_Z 0); by rewrite <- Zle_Qle]). lra. }
  destruct (fratio_abs_pos m e ltac:(lia)) as [Hn Hd], (fratio_abs_pos m' e' ltac:(lia)) as [Hn' Hd'].
  destruct (fratio_val (Z.abs m) e) as [_ Hv], (fratio_val (Z.abs m') e') as [_ Hv']. unfold g_value.
  rewrite (proj2 (Z.eqb_neq m 0)), (proj2 (Z.ltb_ge m 0)), (proj2 (Z.eqb_neq m' 0)), (proj2 (Z.ltb_ge m' 0)) by lia.
  rewrite (Z.abs_eq m), (Z.abs_eq m') in * by lia. apply sig6_mono; try done.
  destruct (fratio m e) as [n d], (fratio m' e') as [n' d']. cbn [fst snd] in *.
  rewrite Hv, Hv'. pose proof (injZ_pos d Hd). pose proof (injZ_pos d' Hd').
  assert (fval (Fl m e) * inject_Z d * inject_Z d' == fval (Fl m e) * (inject_Z d * inject_Z d'))%Q as -> by ring.
  assert (fval (Fl m' e') * inject_Z d' * inject_Z d == fval (Fl m' e') * (inject_Z d * inject_Z d'))%Q as -> by ring.
  apply Qmult_le_r; [by apply Qmult_lt_0_compat|done].
Qed.
