(* ===== verification/PyValue.v ===== *)
(** * Values of type [Any]: decoded JSON and payloads

    [pyval] is a Python value as [json.loads] gives it, together with the decimals that
    payloads of the program carry.  A dict is the list of its items in insertion order,
    its keys distinct; JSON has no tuples, and the program writes none.  Here are
    [d.get(k)], [str(v)] with the [repr] that the text of a container needs, [int(v)],
    [float(v)] and [Decimal(str(v))].

    Not modelled: the sign of a floating zero, and the limit of 4300 digits of [int] and
    [str]. *)

From Stdlib Require Import Ascii.
From stdpp Require Import list strings.
From S2P Require Import Prelude PyList PyStr PyDecimal DecimalFacts PyParse PyTime PyFloat.
Open Scope Z_scope.

Inductive pyval : Type :=
| VNone
| VBool (b : bool)
| VInt (z : Z)
| VFloat (x : float)
| VDecimal (d : pydec)
| VStr (s : string)
| VList (l : list pyval)
| VDict (d : list (string * pyval)).

(** A [dict[str, Any]]. *)
Notation pydict := (list (string * pyval)).

(** [d.get(key, default)], [d.get(key)], [key in d] *)
Fixpoint dict_get_default (d : pydict) (key : string) (default : pyval) : pyval :=
  match d with
  | [] => default
  | (k, v) :: d' => if bool_decide (k = key) then v else dict_get_default d' key default
  end.
Definition dict_get (d : pydict) (key : string) : pyval := dict_get_default d key VNone.
Definition dict_has (d : pydict) (key : string) : bool := existsb (fun kv => bool_decide (kv.1 = key)) d.

(** [d[key] = v] *)
Fixpoint dict_set (d : pydict) (key : string) (v : pyval) : pydict :=
  match d with
  | [] => [(key, v)]
  | (k, w) :: d' => if bool_decide (k = key) then (k, v) :: d' else (k, w) :: dict_set d' key v
  end.

(** [isinstance] *)
Definition is_dict (v : pyval) : bool := match v with VDict _ => true | _ => false end.
Definition is_list (v : pyval) : bool := match v with VList _ => true | _ => false end.
Definition is_str (v : pyval) : bool := match v with VStr _ => true | _ => false end.
Definition is_bool (v : pyval) : bool := match v with VBool _ => true | _ => false end.
Definition is_int (v : pyval) : bool := match v with VInt _ | VBool _ => true | _ => false end.

(** [bool(v)] *)
Definition truthy (v : pyval) : bool :=
  match v with
  | VNone => false
  | VBool b => b
  | VInt z => negb (z =? 0)
  | VFloat x => negb (fis_zero x)
  | VDecimal (Finite d) => negb (dm d =? 0)
  | VDecimal _ => true
  | VStr s => negb (str_empty s)
  | VList l => match l with [] => false | _ => true end
  | VDict d => match d with [] => false | _ => true end
  end.

(** [v in (None, "")] *)
Definition none_or_empty (v : pyval) : bool :=
  match v with VNone => true | VStr s => str_empty s | _ => false end.

(** ** [str] *)

Definition pydec_str (d : pydec) : string :=
  match d with
  | Finite a => dec_str a
  | Infinity neg => if neg then "-Infinity" else "Infinity"
  | NaN => "NaN"
  end.

(** [repr(x)]: the fewest digits that read back, in plain notation while the decimal
    point is near, otherwise with an exponent of two digits at least. *)
Definition float_str (x : float) : string :=
  match x with
  | FNaN => "nan"
  | FInf neg => if neg then "-inf" else "inf"
  | Fl m e =>
      if m =? 0 then "0.0"
      else
        let '(num, den) := fratio (Z.abs m) e in
        let '(c, ce) := repr_search 16 (Fl (Z.abs m) e) num den (decimal_point num den) 1 in
        let point := Z.of_nat (ndigits c) + ce in
        (if m <? 0 then "-" else EmptyString) +:+
        (if (-4 <? point) && (point <=? 16) then
           if 0 <=? ce then nat_str (c * 10 ^ ce) +:+ ".0" else dec_str (Dec c ce)
         else
           let ds := digits_n 10 (ndigits c) c [] in
           of_chars (take 1 ds) +:+
           (if bool_decide (drop 1 ds = []) then EmptyString else "." +:+ of_chars (drop 1 ds)) +:+
           "e" +:+ (if point - 1 <? 0 then "-" else "+") +:+
           pad_str (Nat.max 2 (ndigits (Z.abs (point - 1)))) (Z.abs (point - 1)))
  end.

(** [repr] of a string: single quotes unless they alone occur in it, the back-slash, the
    quote and what is not printable escaped. *)
Definition char_repr (quote : Z) (a : ascii) : string :=
  let c := code a in
  if (c =? quote) || (c =? 92) then of_chars [chr 92; a]
  else if c =? 10 then of_chars [chr 92; "n"%char]
  else if c =? 13 then of_chars [chr 92; "r"%char]
  else if c =? 9 then of_chars [chr 92; "t"%char]
  else if (c <? 32) || (c =? 127) then of_chars ([chr 92; "x"%char] ++ digits_n 16 2 c [])
  else of_chars [a].
Definition str_repr (s : string) : string :=
  let has c := existsb (fun a => code a =? c) (chars s) in
  let quote := if has 39 && negb (has 34) then 34 else 39 in
  of_chars [chr quote] +:+ str_join EmptyString (char_repr quote <$> chars s) +:+ of_chars [chr quote].

Definition bool_str (b : bool) : string := if b then "True" else "False".

(** [repr(v)] *)
Fixpoint pv_repr (v : pyval) : string :=
  match v with
  | VNone => "None"
  | VBool b => bool_str b
  | VInt z => int_str z
  | VFloat x => float_str x
  | VDecimal d => "Decimal('" +:+ pydec_str d +:+ "')"
  | VStr s => str_repr s
  | VList l => "[" +:+ str_join ", " (map pv_repr l) +:+ "]"
  | VDict d => "{" +:+ str_join ", " (map (fun kv => str_repr kv.1 +:+ ": " +:+ pv_repr kv.2) d) +:+ "}"
  end.

(** [str(v)] *)
Definition pv_str (v : pyval) : string :=
  match v with VStr s => s | VDecimal d => pydec_str d | _ => pv_repr v end.

(** [type(v).__name__] *)
Definition type_name (v : pyval) : string :=
  match v with
  | VNone => "NoneType" | VBool _ => "bool" | VInt _ => "int" | VFloat _ => "float"
  | VDecimal _ => "Decimal" | VStr _ => "str" | VList _ => "list" | VDict _ => "dict"
  end.

(** ** Numbers *)

(** [Decimal(str(v))] *)
Definition decimal_of_pyval (v : pyval) : res pydec := decimal_of_str (pv_str v).

(** Single underscores between digits are skipped. *)
Fixpoint strip_underscores (after_digit : bool) (l : list ascii) : option (list ascii) :=
  match l with
  | [] => Some []
  | a :: l' =>
      if code a =? 95 then
        match l' with
        | b :: _ => if after_digit && is_digit b then strip_underscores false l' else None
        | [] => None
        end
      else (cons a) <$> strip_underscores (is_digit a) l'
  end.

(** [int(s)] *)
Definition int_of_str (s : string) : res Z :=
  let invalid := Err (ValueError ("invalid literal for int() with base 10: " +:+ str_repr s)) in
  let '(neg, l) := span_sign (chars (str_strip s)) in
  match strip_underscores false l with
  | None => invalid
  | Some l =>
      match span_digits l with
      | (d :: ds, []) => Ok (if neg then - digits_val (d :: ds) else digits_val (d :: ds))
      | _ => invalid
      end
  end.

(** [int(v)] *)
Definition int_of_pyval (v : pyval) : res Z :=
  match v with
  | VBool b => Ok (if b then 1 else 0)
  | VInt z => Ok z
  | VFloat (Fl m e) => let '(n, d) := fratio m e in Ok (Z.quot n d)
  | VFloat FNaN => Err (ValueError "cannot convert float NaN to integer")
  | VFloat (FInf _) => Err (Exn "OverflowError" "cannot convert float infinity to integer")
  | VDecimal (Finite d) => Ok (Z.quot (dm d * 10 ^ Z.max 0 (de d)) (10 ^ Z.max 0 (- de d)))
  | VDecimal NaN => Err (ValueError "cannot convert NaN to integer")
  | VDecimal (Infinity _) => Err (Exn "OverflowError" "cannot convert Infinity to integer")
  | VStr s => int_of_str s
  | VNone | VList _ | VDict _ =>
      Err (TypeError ("int() argument must be a string, a bytes-like object or a real number, not '"
                      +:+ type_name v +:+ "'"))
  end.

(** [float(s)] *)
Definition float_of_str (s : string) : res float :=
  let invalid := Err (ValueError ("could not convert string to float: " +:+ str_repr s)) in
  match strip_underscores false (chars (str_strip s)) with
  | None => invalid
  | Some l =>
      let '(neg, l) := span_sign l in
      let word := map lower_char l in
      if bool_decide (word = chars "inf") || bool_decide (word = chars "infinity") then Ok (FInf neg)
      else if bool_decide (word = chars "nan") then Ok FNaN
      else match parse_number l with
           | Some (m, e) => Ok (float_lit (if neg then - m else m) e)
           | None => invalid
           end
  end.

(** [float(v)] *)
Definition float_of_pyval (v : pyval) : res float :=
  match v with
  | VBool b => Ok (if b then fone else fzero)
  | VInt z =>
      match float_of_Z z with
      | FInf _ => Err (Exn "OverflowError" "int too large to convert to float")
      | x => Ok x
      end
  | VFloat x => Ok x
  | VDecimal (Finite d) => Ok (float_lit (dm d) (de d))
  | VDecimal (Infinity neg) => Ok (FInf neg)
  | VDecimal NaN => Ok FNaN
  | VStr s => float_of_str s
  | VNone | VList _ | VDict _ =>
      Err (TypeError ("float() argument must be a string or a real number, not '"
                      +:+ type_name v +:+ "'"))
  end.

(** ** Enumerations *)

(** [Cls(s)]: the member with that value. *)
Definition enum_of {A} (cls : string) (members : list A) (value : A -> string) (s : string) : res A :=
  match first_where (fun a => bool_decide (value a = s)) members with
  | Some a => Ok a
  | None => Err (ValueError (str_repr s +:+ " is not a valid " +:+ cls))
  end.

(** ** Facts *)

Lemma enum_of_value {A} cls members (value : A -> string) a :
  Inj (=) (=) value -> a ∈ members -> enum_of cls members value (value a) = Ok a.
Proof.
  intros Hinj Ha. unfold enum_of. destruct (first_where _ _) as [b|] eqn:E.
  - apply first_where_Some in E as [_ E]. apply bool_decide_eq_true in E. by apply Hinj in E as ->.
  - rewrite first_where_None, Forall_forall in E. specialize (E a Ha). simpl in E.
    by rewrite bool_decide_eq_true_2 in E.
Qed.

Lemma enum_of_Ok {A} cls members (value : A -> string) s a :
  enum_of cls members value s = Ok a -> a ∈ members /\ value a = s.
Proof.
  unfold enum_of. destruct (first_where _ _) as [b|] eqn:E; [|done]. intros [= <-].
  apply first_where_Some in E as [? E]. by apply bool_decide_eq_true in E.
Qed.

Lemma dict_get_cons d k v key :
  dict_get ((k, v) :: d) key = if bool_decide (k = key) then v else dict_get d key.
Proof. done. Qed.

(** What [dict_set] leaves in the other keys. *)
Lemma dict_get_default_set d k v key default :
  dict_get_default (dict_set d k v) key default =
  if bool_decide (k = key) then v else dict_get_default d key default.
Proof.
  induction d as [|[k' w] d IH]; [done|]. simpl.
  destruct (decide (k' = k)) as [->|Hk].
  - rewrite (bool_decide_eq_true_2 (k = k)) by done. simpl. by case_bool_decide.
  - rewrite (bool_decide_eq_false_2 (k' = k)) by done. simpl. rewrite IH.
    repeat case_bool_decide; congruence.
Qed.

Lemma dict_get_set d k v key :
  dict_get (dict_set d k v) key = if bool_decide (k = key) then v else dict_get d key.
Proof. apply dict_get_default_set. Qed.

(** Reading back what [str] printed. *)
Lemma decimal_of_pyval_dec_str a : decimal_of_pyval (VStr (dec_str a)) = Ok (Finite a).
Proof. apply decimal_of_dec_str. Qed.

Lemma decimal_of_int z : decimal_of_pyval (VInt z) = Ok (Finite (dint z)).
Proof.
  assert (int_str z = dec_str (dint z)) as E.
  { unfold int_str, nat_str, dec_str, dint. cbn [dm de].
    pose proof (ndigits_pos (Z.abs z)).
    rewrite (proj2 (andb_true_iff _ _)).
    2:{ split; [done|]. apply Z.ltb_lt. rewrite length_digits_n. simpl. lia. }
    change (0 =? 0) with true. cbv iota. destruct (Z.ltb_spec z 0).
    - by rewrite Z.abs_neq by lia.
    - by rewrite Z.abs_eq by lia. }
  unfold decimal_of_pyval. cbn [pv_str pv_repr]. rewrite E. apply decimal_of_dec_str.
Qed.

(** A number's text without underscores gives the nearest float to the decimal it writes. *)
Lemma no_underscores after l :
  Forall (fun a => code a <> 95) l ->
  strip_underscores after l = Some l /\ List.filter (fun a => negb (code a =? 95)) l = l.
Proof.
  intros H. revert after. induction H as [|a l Ha H IH]; intros after; [done|]. simpl.
  rewrite (proj2 (Z.eqb_neq _ _) Ha). destruct (IH (is_digit a)) as [-> E].
  simpl. by rewrite E.
Qed.

Lemma float_of_decimal_text s d :
  Forall (fun a => code a <> 95) (chars (str_strip s)) -> decimal_of_str s = Ok (Finite d) ->
  float_of_pyval (VStr s) = Ok (float_lit (dm d) (de d)).
Proof.
  intros H. unfold decimal_of_str. cbn [float_of_pyval]. unfold float_of_str.
  destruct (no_underscores false _ H) as [-> ->]. destruct (span_sign _) as [neg l].
  cbv beta iota zeta. case_match; [done|].
  destruct (is_nan_word _) eqn:Hn; [done|].
  rewrite (bool_decide_eq_false_2 (_ = chars "nan")).
  - destruct (parse_number l) as [[m e]|]; [|done]. by intros [= <-].
  - intros E. by rewrite E in Hn.
Qed.

Example float_of_examples :
  float_of_pyval (VStr " 7.5 ") = Ok (float_lit 75 (-1)) /\ float_of_pyval (VStr "-Infinity") = Ok (FInf true) /\
  float_of_pyval (VStr "1_0e2") = Ok (float_lit 1000 0) /\ is_ok (float_of_pyval (VStr "1_.5")) = false /\
  is_ok (float_of_pyval (VInt (10 ^ 400))) = false /\ float_of_pyval (VStr "1e400") = Ok (FInf false).
Proof. vm_compute. repeat split. Qed.

Example pv_str_examples :
  pv_str (VFloat (float_lit 1 (-1))) = "0.1" /\ pv_str (VFloat (float_lit 12345 2)) = "1234500.0" /\
  pv_str (VFloat (float_lit 1 22)) = "1e+22" /\ pv_str (VFloat (float_lit 15 (-8))) = "1.5e-07" /\
  pv_str (VFloat (float_lit (-5) (-5))) = "-5e-05" /\ pv_str (VFloat (float_lit 1 (-4))) = "0.0001" /\
  pv_str (VList [VStr "it's"; VNone; VDict [("k", VBool true)]]) = "[" +:+ of_chars [chr 34] +:+ "it's" +:+
     of_chars [chr 34] +:+ ", None, {'k': True}]" /\
  int_of_pyval (VStr " -1_000 ") = Ok (-1000) /\ int_of_pyval (VFloat (float_lit (-25) (-1))) = Ok (-2) /\
  is_ok (int_of_pyval (VStr "1__0")) = false /\ is_ok (int_of_pyval (VStr "1.5")) = false.
Proof. vm_compute. repeat split. Qed.
