(* ===== verification/Adapters.v ===== *)
(** * Adapters: [adapters/models.py] and [adapters/parsers.py]

    The payload and health records every adapter returns, the errors of reading JSON, and
    what the adapters share: an adapter never raises from [load], it classifies the
    exception. *)

From Stdlib Require Import Ascii.
From stdpp Require Import list strings.
From S2P Require Import Prelude PyList PyStr PyDecimal PyTime PyFloat PyValue.
Open Scope Z_scope.

(** ** [adapters/models.py] *)

Module AdapterState.
Inductive t : Type := OK | DEGRADED | DOWN.
#[global] Instance eq_dec : EqDecision t.
Proof. solve_decision. Defined.
Definition value (s : t) : string :=
  match s with OK => "OK" | DEGRADED => "DEGRADED" | DOWN => "DOWN" end.
End AdapterState.

Module AdapterHealth.
Record t : Type := Mk {
  name : string;
  state : AdapterState.t;
  latency_ms : option Z;
  message : string }.
Definition is_usable (h : t) : bool := bool_decide (state h = AdapterState.OK).
End AdapterHealth.

Module AdapterPayload.
Record t : Type := Mk {
  name : string;
  data : pydict;
  health : AdapterHealth.t }.
End AdapterPayload.

(** ** [adapters/parsers.py] *)

(** [class ParserError(ValueError)] *)
Definition ParserError (msg : string) : exn := Exn "ParserError" msg.

(** [if b: raise ParserError(msg)] *)
Definition parse_if (b : bool) (msg : string) : res unit := if b then Err (ParserError msg) else Ok tt.

(** [isinstance(error, ValueError)]: the class itself, the program's subclass, and those
    of the standard library that reading a response can raise. *)
Definition is_ValueError (error : exn) : bool :=
  bool_decide (exn_type error ∈ ["ValueError"; "ParserError"; "JSONDecodeError";
                                 "UnicodeDecodeError"; "UnicodeEncodeError"]).

Definition require_mapping (payload : pyval) : res pydict :=
  match payload with VDict d => mret d | _ => Err (ParserError "payload must be an object") end.

Definition require_fields (payload : pydict) (fields : list string) : res unit :=
  match List.filter (fun field => negb (dict_has payload field)) fields with
  | [] => mret tt
  | missing => Err (ParserError ("missing fields: " +:+ str_join ", " missing))
  end.

(** ** What adapters share *)

(** A GET request: its address and its parameters. *)
Record Request : Type := MkRequest { req_url : string; req_params : pydict }.

(** What an adapter meets outside: the decoded body of a response or the exception of the
    client; the bodies of concurrent requests in the order of the requests, or the first
    exception ([asyncio.gather]); its clock; and two readings of [perf_counter]. *)
Record Net : Type := MkNet {
  get_json_value : Request -> res pyval;
  gather : list Request -> res (list pyval);
  net_clock : res datetime;
  started : float;
  finished : float }.

(** [round((perf_counter() - started) * 1000)] *)
Definition elapsed_ms (net : Net) : res Z :=
  py_round (fmul (fsub (finished net) (started net)) (float_of_Z 1000)).

(** [a, b, c = await gather(..)] *)
Definition unpack3 (l : list pyval) : res (pyval * pyval * pyval) :=
  match l with
  | [a; b; c] => mret (a, b, c)
  | _ => Err (ValueError (if (length l <? 3)%nat then "not enough values to unpack (expected 3, got " +:+
                            int_str (Z.of_nat (length l)) +:+ ")"
                          else "too many values to unpack (expected 3)"))
  end.

(** [clock()] and its check. *)
Definition checked_clock (net : Net) : res aware :=
  value ← net_clock net;
  require_aware value "clock must return a timezone-aware datetime".

(** [base_url.rstrip("/")], which must be HTTPS. *)
Definition https_base (base_url : string) : res string :=
  let normalized_url := str_rstrip_char "/" base_url in
  raise_if (negb (str_startswith "https://" normalized_url)) "base_url must use HTTPS" ;;
  mret normalized_url.

(** [v == s], [v == z] of a text and of an integer. *)
Definition is_text (v : pyval) (s : string) : bool :=
  match v with VStr t => bool_decide (t = s) | _ => false end.
Definition is_number (v : pyval) (z : Z) : bool :=
  match v with
  | VInt n => n =? z
  | VBool b => (if b then 1 else 0) =? z
  | VFloat x => feqb x (float_of_Z z)
  | VDecimal (Finite d) => (d =? dint z)%dec
  | _ => false
  end.

(** [str(value) if value is not None else None] *)
Definition opt_dec_str (value : option dec) : pyval :=
  match value with None => VNone | Some d => VStr (dec_str d) end.

(** The state [load] gives to an exception. *)
Definition failure_state (error : exn) : AdapterState.t :=
  if is_ValueError error then AdapterState.DEGRADED else AdapterState.DOWN.

(** ** Facts *)

Lemma parse_if_Ok b msg u : parse_if b msg = Ok u <-> b = false.
Proof. destruct b, u; naive_solver. Qed.

(** Links of a chain of reads that succeeded, and the guards that did not fire. *)
Ltac parse_inv :=
  repeat first [ res_inv1
    | match goal with H : parse_if _ _ = Ok _ |- _ => apply parse_if_Ok in H end ].

Lemma require_fields_Ok payload fields :
  require_fields payload fields = Ok tt <-> Forall (fun f => dict_has payload f = true) fields.
Proof.
  unfold require_fields. induction fields as [|f fields IH]; simpl; [done|].
  rewrite Forall_cons. destruct (dict_has payload f); simpl; [|naive_solver]. rewrite IH. naive_solver.
Qed.

(** ** Reading that fails only with a [ValueError] *)

(** [load] reports such a failure as degraded data, any other as an adapter that is down. *)
Definition safe {A} (r : res A) : Prop := forall e, r = Err e -> is_ValueError e = true.

Lemma safe_Ok {A} (a : A) : safe (Ok a).
Proof. intros e [=]. Qed.

Lemma safe_ret {A} (a : A) : safe (mret a).
Proof. apply safe_Ok. Qed.

Lemma safe_bind {A B} (r : res A) (f : A -> res B) :
  safe r -> (forall a, r = Ok a -> safe (f a)) -> safe (r ≫= f).
Proof. intros Hr Hf e He. apply bind_Err in He as [He|(a & Ha & He)]; [by apply Hr|by apply (Hf a)]. Qed.

Lemma safe_fmap {A B} (r : res A) (f : A -> B) : safe r -> safe (f <$> r).
Proof. intros Hr e. destruct r; simpl; [done|]. intros [= <-]. by apply Hr. Qed.

Lemma safe_mapM {A B} (f : A -> res B) l : (forall a, safe (f a)) -> safe (mapM f l).
Proof.
  intros Hf. induction l as [|a l IH]; [by intros e|]. simpl.
  apply safe_bind; [done|]. intros b _. apply safe_bind; [done|]. intros k _. apply safe_ret.
Qed.

Lemma safe_ParserError {A} msg : safe (@Err A (ParserError msg)).
Proof. by intros e [= <-]. Qed.

Lemma safe_ValueError {A} msg : safe (@Err A (ValueError msg)).
Proof. by intros e [= <-]. Qed.
Lemma safe_parse_if b msg : safe (parse_if b msg).
Proof. destruct b; [apply safe_ParserError|apply safe_Ok]. Qed.

Lemma safe_raise_if b msg : safe (raise_if b msg).
Proof. destruct b; [apply safe_ValueError|apply safe_Ok]. Qed.

Create HintDb safe.
#[export] Hint Resolve safe_Ok safe_ret safe_fmap safe_mapM safe_ParserError safe_ValueError
  safe_parse_if safe_raise_if : safe.

(** Follow a chain of reads; what is not settled by the hints is left. *)
Ltac safe_chain :=
  repeat first
    [ progress eauto with safe
    | apply safe_bind; [|intros ? ?]
    | progress intros
    | match goal with
      | |- safe (match ?x with _ => _ end) => destruct x eqn:?
      | |- context [let '(_, _) := ?x in _] => destruct x
      end ].

Lemma safe_require_aware value msg : safe (require_aware value msg).
Proof. unfold require_aware. safe_chain. Qed.
#[export] Hint Resolve safe_require_aware : safe.
