(* ===== verification/Discovery.v ===== *)
(** * Discovery records: [adapters/discovery_models.py]

    Market-discovery evidence: context for a signal, never an input of a decision.
    Its metadata carries decoded JSON values. *)

From stdpp Require Import list strings gmap.
From S2P Require Import Prelude PyList PyStr PyDecimal DecimalFacts PyTime PyFloat PyValue.
Open Scope Z_scope.

Module DiscoverySource.
Inductive t : Type := DEX_SCREENER | COINGECKO.
#[global] Instance eq_dec : EqDecision t.
Proof. solve_decision. Defined.
Definition value (s : t) : string :=
  match s with DEX_SCREENER => "DEX_SCREENER" | COINGECKO => "COINGECKO" end.
End DiscoverySource.

(** [value is not None and value < 0] of a decimal: NaN is not comparable. *)
Definition non_negative_check (value : option pydec) (name : string) : res unit :=
  match value with
  | None => mret tt
  | Some NaN => Err InvalidOperation
  | Some (Infinity neg) => raise_if neg (name +:+ " must be non-negative")
  | Some (Finite d) => raise_if (d <? d0)%dec (name +:+ " must be non-negative")
  end.

(** [DiscoveryRole] has one member, so that the role tests of the two constructors
    cannot fail. *)
Module DiscoveryRecord.
Record t : Type := Mk {
  source : DiscoverySource.t;
  external_id : string;
  symbol : option string;
  name : option string;
  chain_id : option string;
  token_address : option string;
  category : option string;
  price_usd : option pydec;
  liquidity_usd : option pydec;
  volume_24h_usd : option pydec;
  market_cap_usd : option pydec;
  price_change_24h_pct : option pydec;
  boost_active : option Z;
  pair_created_at : option datetime;
  url : option string;
  metadata : list (string * pyval) }.

Definition post_init (r : t) : res t :=
  raise_if (str_empty (str_strip (external_id r))) "external_id is required" ;;
  non_negative_check (price_usd r) "price_usd" ;;
  non_negative_check (liquidity_usd r) "liquidity_usd" ;;
  non_negative_check (volume_24h_usd r) "volume_24h_usd" ;;
  non_negative_check (market_cap_usd r) "market_cap_usd" ;;
  raise_if (match boost_active r with Some n => n <? 0 | None => false end)
    "boost_active must be non-negative" ;;
  (match pair_created_at r with
   | Some dt => require_aware dt "pair_created_at must be timezone-aware" ;; mret tt
   | None => mret tt
   end) ;;
  mret r.
End DiscoveryRecord.

Module DiscoveryBatch.
Record t : Type := Mk {
  source : DiscoverySource.t;
  query : string;
  fetched_at : aware;
  records : list DiscoveryRecord.t;
  cache_hit : bool }.

Definition new (source : DiscoverySource.t) (query : string) (fetched_at : datetime)
    (records : list DiscoveryRecord.t) (cache_hit : bool) : res t :=
  raise_if (str_empty (str_strip query)) "query is required" ;;
  fetched_at ← require_aware fetched_at "fetched_at must be timezone-aware";
  raise_if (existsb (fun r => negb (bool_decide (DiscoveryRecord.source r = source))) records)
    "all records must match batch source" ;;
  mret (Mk source query fetched_at records cache_hit).
End DiscoveryBatch.
