(* ===== verification/Sha256.v ===== *)
(** * [hashlib.sha256]

    The digest behind the deterministic zone, event and attempt identifiers.  The
    round constants and the initial state are computed from their definition: the
    fractional bits of the cube and square roots of the first primes. *)

From Stdlib Require Import Ascii.
From stdpp Require Import list strings.
From S2P Require Import Prelude PyStr.

Definition word_mask : Z := 2 ^ 32 - 1.
Definition wadd (a b : Z) : Z := Z.land (a + b) word_mask.
Definition rotr (n x : Z) : Z :=
  Z.lor (Z.shiftr x n) (Z.land (Z.shiftl x (32 - n)) word_mask).

Definition primes : list Z :=
  filter (fun p => Is_true (forallb (fun q => negb (p mod q =? 0)) (seqZ 2 (p - 2)))) (seqZ 2 310).

(** The integer cube root, by bisection on the bits. *)
Fixpoint cbrt_bits (n : nat) (r x : Z) : Z :=
  match n with
  | O => r
  | S n' =>
      let r' := r + 2 ^ Z.of_nat n' in
      cbrt_bits n' (if r' * r' * r' <=? x then r' else r) x
  end.

Definition round_constants : list Z :=
  Eval vm_compute in map (fun p => Z.land (cbrt_bits 36 0 (p * 2 ^ 96)) word_mask) primes.
Definition initial_state : list Z :=
  Eval vm_compute in map (fun p => Z.land (Z.sqrt (p * 2 ^ 64)) word_mask) (take 8 primes).

(** Big-endian words of a byte sequence. *)
Fixpoint be_words (l : list Z) : list Z :=
  match l with
  | a :: b :: c :: d :: l' => (((a * 256 + b) * 256 + c) * 256 + d) :: be_words l'
  | _ => []
  end.

Fixpoint be_bytes (n : nat) (z : Z) (acc : list Z) : list Z :=
  match n with O => acc | S n' => be_bytes n' (z / 256) (z mod 256 :: acc) end.

Definition pad_message (m : list Z) : list Z :=
  let len := Z.of_nat (length m) in
  m ++ [128] ++ repeat 0 (Z.to_nat ((55 - len) mod 64)) ++ be_bytes 8 (8 * len) [].

(** The message schedule, most recent word first. *)
Fixpoint extend_schedule (n : nat) (w : list Z) : list Z :=
  match n with
  | O => w
  | S n' =>
      let at_ i := nth i w 0 in
      let s0 := Z.lxor (Z.lxor (rotr 7 (at_ 14%nat)) (rotr 18 (at_ 14%nat))) (Z.shiftr (at_ 14%nat) 3) in
      let s1 := Z.lxor (Z.lxor (rotr 17 (at_ 1%nat)) (rotr 19 (at_ 1%nat))) (Z.shiftr (at_ 1%nat) 10) in
      extend_schedule n' (wadd (wadd s1 (at_ 6%nat)) (wadd s0 (at_ 15%nat)) :: w)
  end.

Record working : Type := Working { wa : Z; wb : Z; wc : Z; wd : Z; we : Z; wf : Z; wg : Z; wh : Z }.

Definition compress_step (s : working) (kw : Z * Z) : working :=
  let big1 := Z.lxor (Z.lxor (rotr 6 (we s)) (rotr 11 (we s))) (rotr 25 (we s)) in
  let choice := Z.lxor (Z.land (we s) (wf s)) (Z.land (Z.lxor (we s) word_mask) (wg s)) in
  let big0 := Z.lxor (Z.lxor (rotr 2 (wa s)) (rotr 13 (wa s))) (rotr 22 (wa s)) in
  let majority := Z.lxor (Z.lxor (Z.land (wa s) (wb s)) (Z.land (wa s) (wc s)))
                         (Z.land (wb s) (wc s)) in
  let t1 := wadd (wadd (wh s) big1) (wadd choice (wadd kw.1 kw.2)) in
  Working (wadd t1 (wadd big0 majority)) (wa s) (wb s) (wc s)
          (wadd (wd s) t1) (we s) (wf s) (wg s).

Definition compress_block (s : working) (block : list Z) : working :=
  let w := reverse (extend_schedule 48 (reverse block)) in
  let r := fold_left compress_step (combine round_constants w) s in
  Working (wadd (wa s) (wa r)) (wadd (wb s) (wb r)) (wadd (wc s) (wc r)) (wadd (wd s) (wd r))
          (wadd (we s) (we r)) (wadd (wf s) (wf r)) (wadd (wg s) (wg r)) (wadd (wh s) (wh r)).

Fixpoint compress_all (fuel : nat) (s : working) (words : list Z) : working :=
  match fuel with
  | O => s
  | S f => match words with
           | [] => s
           | _ => compress_all f (compress_block s (take 16 words)) (drop 16 words)
           end
  end.

Definition state_of (l : list Z) : working :=
  let at_ i := nth i l 0 in
  Working (at_ 0%nat) (at_ 1%nat) (at_ 2%nat) (at_ 3%nat)
          (at_ 4%nat) (at_ 5%nat) (at_ 6%nat) (at_ 7%nat).

(** [sha256(raw.encode('utf-8')).hexdigest()] *)
Definition hexdigest (raw : string) : string :=
  let words := be_words (pad_message (map code (chars raw))) in
  let s := compress_all (length words) (state_of initial_state) words in
  of_chars (digits_n 16 8 (wa s) [] ++ digits_n 16 8 (wb s) [] ++ digits_n 16 8 (wc s) [] ++
            digits_n 16 8 (wd s) [] ++ digits_n 16 8 (we s) [] ++ digits_n 16 8 (wf s) [] ++
            digits_n 16 8 (wg s) [] ++ digits_n 16 8 (wh s) []).

Example hexdigest_abc :
  hexdigest "abc" = "ba7816bf8f01cfea414140de5dae2223b00361a396177a9cb410ff61f20015ad".
Proof. vm_compute. reflexivity. Qed.


Lemma hexdigest_length raw : length (chars (hexdigest raw)) = 64%nat.
Proof. unfold hexdigest. by rewrite chars_of_chars, !length_app, !length_digits_n. Qed.

(** [f"{prefix}{sha256("|".join(parts)).hexdigest()[:24]}"] *)
Definition hash_id (prefix : string) (parts : list string) : string :=
  prefix +:+ str_take 24 (hexdigest (str_join "|" parts)).


Lemma hash_id_length prefix parts :
  length (chars (hash_id prefix parts)) = (length (chars prefix) + 24)%nat.
Proof.
  unfold hash_id, str_take. rewrite chars_app, chars_of_chars, length_app, length_take,
    hexdigest_length. lia.
Qed.

(** Identifiers have no surrounding blanks and are not empty. *)
Definition no_space (a : ascii) : Prop := is_space a = false.

Lemma digit_char_no_space d : 0 <= d < 16 -> no_space (digit_char d).
Proof.
  intros Hd. assert (forallb (fun z => negb (is_space (digit_char (Z.of_nat z)))) (seq 0 16) = true)
    as H by (vm_compute; reflexivity).
  rewrite forallb_forall in H. specialize (H (Z.to_nat d)).
  rewrite Z2Nat.id in H by lia. apply negb_true_iff, H, in_seq. lia.
Qed.

Lemma digits_n_no_space n z acc :
  Forall no_space acc -> Forall no_space (digits_n 16 n z acc).
Proof.
  revert z acc; induction n as [|n IH]; intros z acc Hacc; simpl; [done|].
  apply IH. constructor; [|done]. apply digit_char_no_space. apply Z.mod_pos_bound. lia.
Qed.

Lemma hexdigest_no_space raw : Forall no_space (chars (hexdigest raw)).
Proof.
  unfold hexdigest. rewrite chars_of_chars, !Forall_app. split_and!; try apply digits_n_no_space; constructor.
Qed.

Lemma head_ok_no_space l : Forall no_space l -> head_ok l.
Proof. destruct 1; done. Qed.

Lemma hash_id_strip prefix parts :
  stripped prefix -> prefix <> EmptyString -> str_strip (hash_id prefix parts) = hash_id prefix parts.
Proof.
  intros [Hp _] Hne. apply str_strip_id. unfold stripped, hash_id, str_take.
  rewrite chars_app, chars_of_chars, reverse_app. split.
  - destruct (chars prefix) eqn:E; [|done]. destruct prefix; [done|discriminate].
  - pose proof (hexdigest_no_space (str_join "|" parts)) as Hns.
    pose proof (hexdigest_length (str_join "|" parts)) as Hlen.
    set (h := chars (hexdigest (str_join "|" parts))) in *.
    assert (Forall no_space (reverse (take 24 h))) as Hr.
    { rewrite Forall_reverse. by apply Forall_take. }
    destruct (reverse (take 24 h)) as [|a l] eqn:E.
    { apply (f_equal length) in E. rewrite length_reverse, length_take in E. simpl in E. lia. }
    simpl. by apply Forall_cons in Hr as [? _].
Qed.

Lemma hash_id_nonempty prefix parts : str_empty (hash_id prefix parts) = false.
Proof.
  pose proof (hash_id_length prefix parts) as H. destruct (hash_id prefix parts); [|done].
  simpl in H. lia.
Qed.

(* digests are only evaluated on request *)
#[global] Opaque hexdigest.
