(* ===== verification/Candles.v ===== *)
(** * Candles: [candles/models.py] and [candles/health.py]

    The OHLCV candle and the candle batch with the checks of their
    [__post_init__] methods, and the freshness classification of a batch.  A
    dataclass is a record; its constructor [new_X] takes what the caller passes
    and returns the normalised record or the [ValueError] of the first check that
    fails. *)

From stdpp Require Import list strings gmap sorting.
From Stdlib Require Import QArith Lqa.
From S2P Require Import Prelude PyList PyStr PyDecimal DecimalFacts PyTime PyFloat FloatFacts.
Open Scope Z_scope.

Module CandleSource.
Inductive t : Type := BYBIT.
Definition value (s : t) : string := match s with BYBIT => "BYBIT" end.
#[global] Instance eq_dec : EqDecision t.
Proof. solve_decision. Defined.
Definition members : list t := [BYBIT].
End CandleSource.

Module CandleRole.
Inductive t : Type := STRUCTURE_DATA.
Definition value (r : t) : string := match r with STRUCTURE_DATA => "STRUCTURE_DATA" end.
#[global] Instance eq_dec : EqDecision t.
Proof. solve_decision. Defined.
Definition members : list t := [STRUCTURE_DATA].
End CandleRole.

Module CandleInterval.
Inductive t : Type := M5 | M15 | H4 | D1.
Definition value (i : t) : string :=
  match i with M5 => "5" | M15 => "15" | H4 => "240" | D1 => "D" end.
Definition duration (i : t) : Z :=
  match i with
  | M5 => minutes 5
  | M15 => minutes 15
  | H4 => hours 4
  | D1 => days 1
  end.
Definition label (i : t) : string :=
  match i with M5 => "5m" | M15 => "15m" | H4 => "4h" | D1 => "1d" end.
#[global] Instance eq_dec : EqDecision t.
Proof. solve_decision. Defined.
Definition members : list t := [M5; M15; H4; D1].
End CandleInterval.

(** ** Field checks *)

Definition _decimal (value : pydec) (name : string) (positive : bool) : res dec :=
  match value with
  | Finite v =>
      raise_if (positive && (v <=? d0)%dec) (name +:+ " must be positive") ;;
      raise_if (negb positive && (v <? d0)%dec) (name +:+ " must be non-negative") ;;
      mret v
  | _ => Err (ValueError (name +:+ " must be finite"))
  end.

Definition _aware (value : datetime) (name : string) : res aware :=
  require_aware value (name +:+ " must be timezone-aware").

Definition candle_categories : list string := ["spot"; "linear"; "inverse"].

(** ** [OhlcvCandle] *)

Record OhlcvCandle : Type := MkCandle {
  source : CandleSource.t;
  role : CandleRole.t;
  category : string;
  symbol : string;
  interval : CandleInterval.t;
  open_time : aware;
  close_time : aware;
  open_price : dec;
  high_price : dec;
  low_price : dec;
  close_price : dec;
  volume : dec;
  turnover : dec }.

#[export] Instance candle_eq_dec : EqDecision OhlcvCandle.
Proof. solve_decision. Defined.

(** [OhlcvCandle(...)]: the constructor with [__post_init__]. *)
Definition new_OhlcvCandle (src : CandleSource.t) (rl : CandleRole.t)
    (raw_category raw_symbol : string) (itv : CandleInterval.t)
    (raw_open_time raw_close_time : datetime)
    (raw_open raw_high raw_low raw_close raw_volume raw_turnover : pydec) : res OhlcvCandle :=
  raise_if (negb (bool_decide (rl = CandleRole.STRUCTURE_DATA)))
    "candle role must remain STRUCTURE_DATA" ;;
  let category := norm_lower raw_category in
  raise_if (negb (bool_decide (category ∈ candle_categories))) "unsupported candle category" ;;
  let symbol := norm_upper raw_symbol in
  raise_if (str_empty symbol) "symbol is required" ;;
  open_time ← _aware raw_open_time "open_time";
  close_time ← _aware raw_close_time "close_time";
  raise_if (negb (time_sub close_time open_time =? CandleInterval.duration itv))
    "close_time must match interval duration" ;;
  open_price ← _decimal raw_open "open_price" true;
  high_price ← _decimal raw_high "high_price" true;
  low_price ← _decimal raw_low "low_price" true;
  close_price ← _decimal raw_close "close_price" true;
  volume ← _decimal raw_volume "volume" false;
  turnover ← _decimal raw_turnover "turnover" false;
  raise_if (low_price >? py_min2 open_price close_price)%dec
    "low_price is inconsistent with open and close" ;;
  raise_if (high_price <? py_max2 open_price close_price)%dec
    "high_price is inconsistent with open and close" ;;
  raise_if (low_price >? high_price)%dec "candle range is inconsistent" ;;
  mret (MkCandle src rl category symbol itv open_time close_time
          open_price high_price low_price close_price volume turnover).

(** Rebuilding a candle from the fields of one, as the repository does. *)
Definition remake_candle (c : OhlcvCandle) : res OhlcvCandle :=
  new_OhlcvCandle (source c) (role c) (category c) (symbol c) (interval c)
    (AwareDT (open_time c)) (AwareDT (close_time c))
    (Finite (open_price c)) (Finite (high_price c)) (Finite (low_price c))
    (Finite (close_price c)) (Finite (volume c)) (Finite (turnover c)).

(** ** [CandleBatch] *)

Module Batch.
Record t : Type := MkBatch {
  source : CandleSource.t;
  role : CandleRole.t;
  category : string;
  symbol : string;
  interval : CandleInterval.t;
  fetched_at : aware;
  candles : list OhlcvCandle }.

(** One pass of the loop of [__post_init__]. *)
Definition check_candle (src : CandleSource.t) (rl : CandleRole.t) (cat sym : string)
    (itv : CandleInterval.t) (fetched : aware) (seen : gset Z)
    (previous_open : option aware) (candle : OhlcvCandle) : res unit :=
  raise_if (negb (bool_decide (Candles.source candle = src))) "candle source mismatch" ;;
  raise_if (negb (bool_decide (Candles.role candle = rl))) "candle role mismatch" ;;
  raise_if (negb (bool_decide (Candles.category candle = cat))) "candle category mismatch" ;;
  raise_if (negb (bool_decide (Candles.symbol candle = sym))) "candle symbol mismatch" ;;
  raise_if (negb (bool_decide (Candles.interval candle = itv))) "candle interval mismatch" ;;
  raise_if (py_lt fetched (close_time candle)) "batch must contain only closed candles" ;;
  raise_if (bool_decide (utc (open_time candle) ∈ seen)) "duplicate candle open_time" ;;
  raise_if (match previous_open with
            | None => false
            | Some previous => py_le (open_time candle) previous
            end) "candles must be strictly chronological".

Fixpoint check_candles (src : CandleSource.t) (rl : CandleRole.t) (cat sym : string)
    (itv : CandleInterval.t) (fetched : aware) (seen : gset Z)
    (previous_open : option aware) (l : list OhlcvCandle) : res unit :=
  match l with
  | [] => mret tt
  | candle :: l' =>
      check_candle src rl cat sym itv fetched seen previous_open candle ;;
      check_candles src rl cat sym itv fetched ({[utc (open_time candle)]} ∪ seen)
        (Some (open_time candle)) l'
  end.

Definition new_CandleBatch (src : CandleSource.t) (rl : CandleRole.t)
    (raw_category raw_symbol : string) (itv : CandleInterval.t) (raw_fetched_at : datetime)
    (cs : list OhlcvCandle) : res t :=
  raise_if (negb (bool_decide (rl = CandleRole.STRUCTURE_DATA)))
    "candle batch role must remain STRUCTURE_DATA" ;;
  fetched ← _aware raw_fetched_at "fetched_at";
  let cat := norm_lower raw_category in
  let sym := norm_upper raw_symbol in
  raise_if (negb (bool_decide (cat ∈ candle_categories))) "unsupported candle category" ;;
  raise_if (str_empty sym) "symbol is required" ;;
  check_candles src rl cat sym itv fetched ∅ None cs ;;
  mret (MkBatch src rl cat sym itv fetched cs).

(** [self.candles[-1] if self.candles else None] *)
Definition latest (b : t) : option OhlcvCandle := last (candles b).
End Batch.

(** ** Freshness: [candles/health.py] *)

Module CandleFreshnessState.
Inductive t : Type := OK | EMPTY | STALE | FUTURE.
#[global] Instance eq_dec : EqDecision t.
Proof. solve_decision. Defined.
End CandleFreshnessState.

Record CandleFreshnessRules : Type := MkFreshnessRules {
  max_age_intervals : float;
  future_tolerance_seconds : float }.

Definition new_CandleFreshnessRules (maxi tol : float) : res CandleFreshnessRules :=
  raise_if (maxi <=? fzero)%flt "max_age_intervals must be positive" ;;
  raise_if (tol <? fzero)%flt "future_tolerance_seconds must be non-negative" ;;
  mret (MkFreshnessRules maxi tol).

(** [CandleFreshnessRules()] *)
Definition default_freshness_rules : CandleFreshnessRules :=
  MkFreshnessRules (float_lit 20 (-1)) (float_lit 10 (-1)).

Record CandleFreshnessReport : Type := MkFreshnessReport {
  state : CandleFreshnessState.t;
  age_seconds : option float;
  reasons : list string }.

Definition is_usable (r : CandleFreshnessReport) : bool :=
  bool_decide (state r = CandleFreshnessState.OK).

Definition evaluate_candle_freshness (batch : Batch.t) (now : datetime)
    (rules : option CandleFreshnessRules) : res CandleFreshnessReport :=
  now ← require_aware now "now must be timezone-aware";
  let active_rules := default default_freshness_rules rules in
  match Batch.latest batch with
  | None => mret (MkFreshnessReport CandleFreshnessState.EMPTY None ["NO_CLOSED_CANDLES"])
  | Some latest =>
      let age := total_seconds (time_sub now (close_time latest)) in
      if (age <? fopp (future_tolerance_seconds active_rules))%flt then
        mret (MkFreshnessReport CandleFreshnessState.FUTURE (Some age)
                ["LATEST_CANDLE_FROM_FUTURE"])
      else
        let maximum_age :=
          fmul (total_seconds (CandleInterval.duration (Batch.interval batch)))
               (max_age_intervals active_rules) in
        if (age >? maximum_age)%flt then
          mret (MkFreshnessReport CandleFreshnessState.STALE (Some age) ["LATEST_CANDLE_STALE"])
        else mret (MkFreshnessReport CandleFreshnessState.OK (Some age) [])
  end.

(** ** Facts *)

Lemma _decimal_Ok value name positive v :
  _decimal value name positive = Ok v <->
  value = Finite v /\ (if positive then (d0 <? v)%dec = true else (d0 <=? v)%dec = true).
Proof.
  destruct value as [w| |]; simpl; [|naive_solver..].
  split.
  - intros H. res_inv. subst w. split; [done|]. destruct positive; simpl in *; dec_order.
  - intros [[= ->] Hv]. destruct positive; simpl; res_ok ltac:(dec_order); done.
Qed.

Lemma _aware_Ok value name a : _aware value name = Ok a <-> value = AwareDT a.
Proof. unfold _aware, require_aware. destruct value; naive_solver. Qed.

Lemma candle_categories_lower cat : cat ∈ candle_categories -> norm_lower cat = cat.
Proof. unfold candle_categories. rewrite !elem_of_cons. intros [->|[->|[->|H]]]; [done..|set_solver]. Qed.

(** What [__post_init__] promises of every candle. *)
Record candle_wf (c : OhlcvCandle) : Prop := {
  wf_category : category c ∈ candle_categories;
  wf_symbol : norm_upper (symbol c) = symbol c /\ str_empty (symbol c) = false;
  wf_duration : utc (close_time c) - utc (open_time c) = CandleInterval.duration (interval c);
  wf_positive : (d0 <? open_price c)%dec = true /\ (d0 <? high_price c)%dec = true /\
                (d0 <? low_price c)%dec = true /\ (d0 <? close_price c)%dec = true;
  wf_volume : (d0 <=? volume c)%dec = true /\ (d0 <=? turnover c)%dec = true;
  wf_low : (low_price c <=? open_price c)%dec = true /\
           (low_price c <=? close_price c)%dec = true;
  wf_high : (open_price c <=? high_price c)%dec = true /\
            (close_price c <=? high_price c)%dec = true }.

Lemma new_OhlcvCandle_wf src rl cat sym itv ot ct o h l c v t r :
  new_OhlcvCandle src rl cat sym itv ot ct o h l c v t = Ok r -> candle_wf r.
Proof.
  intros H. unfold new_OhlcvCandle in H. guards.
  repeat match goal with
  | H : _decimal _ _ _ = Ok _ |- _ => apply _decimal_Ok in H as [? ?]
  | H : py_lt (py_min2 _ _) _ = false |- _ => apply py_min2_lt_false in H
  | H : py_lt _ (py_max2 _ _) = false |- _ => apply py_lt_max2_false in H
  end.
  subst r. constructor; simpl in *; auto.
  split; [apply norm_upper_idemp|done].
Qed.

Lemma candle_wf_remake c : candle_wf c -> remake_candle c = Ok c.
Proof.
  intros [Hcat [Hs1 Hs2] Hd (?&?&?&?) [? ?] [? ?] [? ?]].
  unfold remake_candle, new_OhlcvCandle.
  rewrite candle_categories_lower, Hs1 by done.
  destruct (role c) eqn:Hr.
  assert (forall v n, (d0 <? v)%dec = true -> _decimal (Finite v) n true = Ok v) as Hp
    by (intros; by apply _decimal_Ok).
  assert (forall v n, (d0 <=? v)%dec = true -> _decimal (Finite v) n false = Ok v) as Hn
    by (intros; by apply _decimal_Ok).
  rewrite !Hp, !Hn by done. unfold time_sub, _aware, require_aware.
  res_ok ltac:(first [ done | by apply guard_false | by apply negb_false_iff, Z.eqb_eq
    | by apply py_min2_lt_false | by apply py_lt_max2_false
    | dec_order ]).
  destruct c; simpl in *; by subst.
Qed.

(** *** Batches *)

Definition opens_before (a b : OhlcvCandle) : Prop := utc (open_time a) < utc (open_time b).

Definition candle_matches (src : CandleSource.t) (rl : CandleRole.t) (cat sym : string)
    (itv : CandleInterval.t) (fetched : aware) (c : OhlcvCandle) : Prop :=
  source c = src /\ role c = rl /\ category c = cat /\ symbol c = sym /\
  interval c = itv /\ utc (close_time c) <= utc fetched.

Section check_candles.
Context (src : CandleSource.t) (rl : CandleRole.t) (cat sym : string)
  (itv : CandleInterval.t) (fetched : aware).

(** What the loop carries: nothing seen is later than [previous_open]. *)
Definition seen_bounded (seen : gset Z) (previous : option aware) : Prop :=
  match previous with
  | None => seen = ∅
  | Some p => forall x, x ∈ seen -> x <= utc p
  end.

Definition after (previous : option aware) (c : OhlcvCandle) : Prop :=
  match previous with None => True | Some p => utc p < utc (open_time c) end.

Lemma check_candle_Ok seen previous c :
  seen_bounded seen previous ->
  Batch.check_candle src rl cat sym itv fetched seen previous c = Ok tt <->
  candle_matches src rl cat sym itv fetched c /\ after previous c.
Proof.
  intros Hs. unfold Batch.check_candle, candle_matches. split.
  - intros H. res_inv. rewrite guard_false in *. time_to_Z. split; [done|].
    destruct previous as [p|]; simpl; [|done]. by time_to_Z.
  - intros [(?&?&?&?&?&?) Ha].
    assert (utc (open_time c) ∉ seen) as Hn.
    { destruct previous as [p|]; simpl in *; [|set_solver].
      intros Hin%Hs. lia. }
    res_ok ltac:(first [by apply guard_false | by apply bool_decide_eq_false
      | by time_to_Z]).
    apply raise_if_Ok. destruct previous; [|done]. by time_to_Z.
Qed.

Lemma check_candles_Ok seen previous l :
  seen_bounded seen previous ->
  Batch.check_candles src rl cat sym itv fetched seen previous l = Ok tt <->
  Forall (candle_matches src rl cat sym itv fetched) l /\
  Forall (after previous) l /\ StronglySorted opens_before l.
Proof.
  revert seen previous; induction l as [|c l IH]; intros seen previous Hs; simpl.
  { split; [repeat constructor|done]. }
  rewrite bind_Ok, !Forall_cons, StronglySorted_cons.
  assert (after previous c -> seen_bounded ({[utc (open_time c)]} ∪ seen) (Some (open_time c)))
    as Hs'.
  { intros Ha x Hx%elem_of_union. destruct previous as [p|]; simpl in *.
    - destruct Hx as [->%elem_of_singleton|Hx%Hs]; lia.
    - subst seen. set_solver. }
  split.
  - intros ([] & Hc%check_candle_Ok & Hl); [|done]. destruct Hc as [Hm Ha].
    apply IH in Hl as (Hm' & Ha' & Hss); [|by apply Hs'].
    split_and!; try done. destruct previous as [p|]; simpl in *; [|by apply Forall_true].
    eapply Forall_impl; [apply Ha'|]. simpl; lia.
  - intros ([Hm Hm'] & [Ha _] & Ha' & Hss).
    exists tt. split; [by apply check_candle_Ok|]. apply IH; [by apply Hs'|done].
Qed.
End check_candles.

Record batch_wf (b : Batch.t) : Prop := {
  bwf_category : Batch.category b ∈ candle_categories;
  bwf_symbol : norm_upper (Batch.symbol b) = Batch.symbol b /\
               str_empty (Batch.symbol b) = false;
  bwf_candles : Forall (candle_matches (Batch.source b) (Batch.role b) (Batch.category b)
                   (Batch.symbol b) (Batch.interval b) (Batch.fetched_at b)) (Batch.candles b);
  bwf_sorted : StronglySorted opens_before (Batch.candles b) }.

Lemma new_CandleBatch_Ok src rl cat sym itv f cs b :
  Batch.new_CandleBatch src rl cat sym itv f cs = Ok b <->
  exists fa, f = AwareDT fa /\
    b = Batch.MkBatch src rl (norm_lower cat) (norm_upper sym) itv fa cs /\ batch_wf b.
Proof.
  unfold Batch.new_CandleBatch. split.
  - intros H. guards. subst b.
    select (_aware _ _ = Ok _) (fun H => apply _aware_Ok in H; subst f).
    select (Batch.check_candles _ _ _ _ _ _ _ _ _ = _)
      (fun H => apply check_candles_Ok in H as (? & _ & ?); [|done]).
    eexists; split_and!; [done..|].
    constructor; simpl; try done. split; [apply norm_upper_idemp|done].
  - intros (fa & -> & -> & [Hc [_ Hs] Hm Hss]); simpl in *. destruct rl.
    res_ok ltac:(first [done | by apply guard_false]). unfold _aware, require_aware.
    res_ok ltac:(first [done | by apply guard_false]).
    assert (Batch.check_candles src CandleRole.STRUCTURE_DATA (norm_lower cat) (norm_upper sym)
              itv fa ∅ None cs = Ok tt) as ->; [|done].
    apply check_candles_Ok; [done|]. split_and!; [done| |done]. by apply Forall_true.
Qed.

Lemma batch_wf_bounds b c : batch_wf b -> c ∈ Batch.candles b ->
  utc (close_time c) <= utc (Batch.fetched_at b).
Proof.
  intros [_ _ Hm _] Hc. rewrite Forall_forall in Hm. by apply Hm in Hc as (_&_&_&_&_&?).
Qed.

(** *** Freshness *)

Lemma tolerance_threshold :
  ffits (fopp (future_tolerance_seconds default_freshness_rules)) /\
  (fval (fopp (future_tolerance_seconds default_freshness_rules)) == inject_Z (-1))%Q.
Proof. split; vm_compute; done. Qed.

Lemma maximum_age_threshold itv :
  let X := fmul (total_seconds (CandleInterval.duration itv))
             (max_age_intervals default_freshness_rules) in
  ffits X /\ (fval X == inject_Z (2 * (CandleInterval.duration itv / us_per_second)))%Q.
Proof. destruct itv; split; vm_compute; done. Qed.

(** The state the default rules give to an age in microseconds. *)
Definition freshness_of (itv : CandleInterval.t) (age : Z) : CandleFreshnessState.t :=
  if age <? - us_per_second then CandleFreshnessState.FUTURE
  else if 2 * CandleInterval.duration itv <? age then CandleFreshnessState.STALE
  else CandleFreshnessState.OK.

Lemma freshness_default batch now :
  state <$> evaluate_candle_freshness batch (AwareDT now) None =
  Ok (match Batch.latest batch with
      | None => CandleFreshnessState.EMPTY
      | Some c => freshness_of (Batch.interval batch) (time_sub now (close_time c))
      end).
Proof.
  unfold evaluate_candle_freshness, require_aware.
  cbn [mbind res_bind].
  destruct (Batch.latest batch) as [c|]; [|done].
  change (default default_freshness_rules None) with default_freshness_rules.
  destruct tolerance_threshold as [Hf1 Hv1].
  destruct (maximum_age_threshold (Batch.interval batch)) as [Hf2 Hv2].
  set (age := time_sub now (close_time c)). unfold freshness_of.
  rewrite (total_seconds_lt_iff age (-1) _ Hf1 Hv1) by done.
  rewrite (total_seconds_gt_iff age _ _ Hf2 Hv2) by (by destruct (Batch.interval batch)).
  change (-1 * us_per_second) with (- us_per_second).
  replace (2 * (CandleInterval.duration (Batch.interval batch) / us_per_second) * us_per_second)
    with (2 * CandleInterval.duration (Batch.interval batch)) by (by destruct (Batch.interval batch)).
  destruct (age <? - us_per_second); [done|]. by destruct (_ <? age).
Qed.

(** ** Properties *)

(** A candle the constructor accepts satisfies every documented invariant
    (known category, normalised non-empty symbol, exact interval duration, positive
    prices, non-negative volume and turnover, low at most and high at least both open
    and close), and building it again from its own fields, as the repository does when
    it reads a row, gives the same candle and never raises. *)
Theorem candle_constructor_sound src rl cat sym itv ot ct o h l c v t r :
  new_OhlcvCandle src rl cat sym itv ot ct o h l c v t = Ok r ->
  candle_wf r /\ remake_candle r = Ok r.
Proof.
  intros H. pose proof (new_OhlcvCandle_wf _ _ _ _ _ _ _ _ _ _ _ _ _ _ H) as Hwf.
  split; [done|by apply candle_wf_remake].
Qed.

Definition sample_candle : OhlcvCandle :=
  MkCandle CandleSource.BYBIT CandleRole.STRUCTURE_DATA "linear" "BTCUSDT" CandleInterval.M5
    (Aware 0 0) (Aware (minutes 5) 0) (dint 10) (dint 12) (dint 9) (dint 11) (dint 100) (dint 1000).

Lemma candle_constructor_sound_witness :
  candle_wf sample_candle /\ remake_candle sample_candle = Ok sample_candle.
Proof.
  apply (candle_constructor_sound CandleSource.BYBIT CandleRole.STRUCTURE_DATA " Linear" "btcusdt "
    CandleInterval.M5 (AwareDT (Aware 0 0)) (AwareDT (Aware (minutes 5) 0))
    (Finite (dint 10)) (Finite (dint 12)) (Finite (dint 9)) (Finite (dint 11))
    (Finite (dint 100)) (Finite (dint 1000))).
  vm_compute. reflexivity.
Defined.

(** A batch is accepted exactly when its category and symbol are valid, every
    candle carries the batch's source, role, category, symbol and interval and is
    closed by [fetched_at], and the open times strictly increase; the accepted record
    is the normalised input. *)
Theorem batch_constructor_complete src rl cat sym itv f cs b :
  Batch.new_CandleBatch src rl cat sym itv f cs = Ok b <->
  exists fa, f = AwareDT fa /\
    b = Batch.MkBatch src rl (norm_lower cat) (norm_upper sym) itv fa cs /\ batch_wf b.
Proof. apply new_CandleBatch_Ok. Qed.

(** Under the default rules the freshness state is exact to the microsecond in
    spite of the float arithmetic: no candle is EMPTY, a latest close more than one
    second ahead is FUTURE, one more than two intervals old is STALE, anything else is
    OK; and a validated batch looked at no earlier than its fetch is never FUTURE. *)
Theorem freshness_exact batch now :
  state <$> evaluate_candle_freshness batch (AwareDT now) None =
    Ok (match Batch.latest batch with
        | None => CandleFreshnessState.EMPTY
        | Some c => freshness_of (Batch.interval batch) (time_sub now (close_time c))
        end) /\
  (batch_wf batch -> utc (Batch.fetched_at batch) <= utc now ->
   state <$> evaluate_candle_freshness batch (AwareDT now) None <>
     Ok CandleFreshnessState.FUTURE).
Proof.
  split; [apply freshness_default|]. intros Hwf Hnow. rewrite freshness_default.
  unfold Batch.latest. destruct (last (Batch.candles batch)) as [c|] eqn:Hl; [|done].
  apply last_Some_elem_of in Hl. pose proof (batch_wf_bounds batch c Hwf Hl).
  unfold freshness_of, time_sub, us_per_second.
  destruct (_ <? _) eqn:E; [guards; lia|].
  clear E. split_match; discriminate.
Qed.

Definition sample_batch : Batch.t :=
  Batch.MkBatch CandleSource.BYBIT CandleRole.STRUCTURE_DATA "linear" "BTCUSDT" CandleInterval.M5
    (Aware (minutes 5) 0) [sample_candle].

Lemma freshness_exact_witness :
  state <$> evaluate_candle_freshness sample_batch (AwareDT (Aware (minutes 5) 0)) None <>
    Ok CandleFreshnessState.FUTURE.
Proof.
  apply (proj2 (freshness_exact sample_batch (Aware (minutes 5) 0))).
  - assert (exists fa, AwareDT (Aware (minutes 5) 0) = AwareDT fa /\ sample_batch =
      Batch.MkBatch CandleSource.BYBIT CandleRole.STRUCTURE_DATA (norm_lower "linear")
        (norm_upper "BTCUSDT") CandleInterval.M5 fa [sample_candle] /\ batch_wf sample_batch)
      as (fa & _ & _ & Hwf); [|exact Hwf].
    apply new_CandleBatch_Ok. vm_compute. reflexivity.
  - vm_compute. discriminate.
Defined.
