(* ===== verification/Serialization.v ===== *)
(** * Candle batches as payload data: [candles/serialization.py]

    What the kline adapter puts in its payload and what the runtime store reads back. *)

From stdpp Require Import list strings gmap sorting.
From S2P Require Import Prelude PyList PyStr PyDecimal DecimalFacts PyParse PyTime IsoTime PyFloat PyValue Candles.
Open Scope Z_scope.

(** [CandleSource(text)], [CandleRole(text)], [CandleInterval(text)] *)
Definition CandleSource_of (s : string) : res CandleSource.t :=
  enum_of "CandleSource" CandleSource.members CandleSource.value s.
Definition CandleRole_of (s : string) : res CandleRole.t :=
  enum_of "CandleRole" CandleRole.members CandleRole.value s.
Definition CandleInterval_of (s : string) : res CandleInterval.t :=
  enum_of "CandleInterval" CandleInterval.members CandleInterval.value s.

(** ** Writing *)

Definition candle_to_dict (candle : OhlcvCandle) : pydict :=
  [("source", VStr (CandleSource.value (source candle)));
   ("role", VStr (CandleRole.value (role candle)));
   ("category", VStr (category candle));
   ("symbol", VStr (symbol candle));
   ("interval", VStr (CandleInterval.value (interval candle)));
   ("open_time", VStr (isoformat (open_time candle)));
   ("close_time", VStr (isoformat (close_time candle)));
   ("open_price", VStr (dec_str (open_price candle)));
   ("high_price", VStr (dec_str (high_price candle)));
   ("low_price", VStr (dec_str (low_price candle)));
   ("close_price", VStr (dec_str (close_price candle)));
   ("volume", VStr (dec_str (volume candle)));
   ("turnover", VStr (dec_str (turnover candle)))].

Definition batch_to_payload_data (batch : Batch.t) : pydict :=
  [("source", VStr (CandleSource.value (Batch.source batch)));
   ("role", VStr (CandleRole.value (Batch.role batch)));
   ("category", VStr (Batch.category batch));
   ("symbol", VStr (Batch.symbol batch));
   ("interval", VStr (CandleInterval.value (Batch.interval batch)));
   ("fetched_at", VStr (isoformat (Batch.fetched_at batch)));
   ("candles", VList ((fun c => VDict (candle_to_dict c)) <$> Batch.candles batch))].

(** ** Reading *)

Section reading.
Context `{FromIso}.

(** [str(raw.get(key))], [str(data.get(key, ""))] *)
Definition get_str (d : pydict) (key : string) : string := pv_str (dict_get d key).
Definition get_str_or_empty (d : pydict) (key : string) : string :=
  pv_str (dict_get_default d key (VStr EmptyString)).

(** One turn of the loop over the candles. *)
Definition candle_from_raw (raw : pyval) : res OhlcvCandle :=
  match raw with
  | VDict raw =>
      source ← CandleSource_of (get_str raw "source");
      role ← CandleRole_of (get_str raw "role");
      interval ← CandleInterval_of (get_str raw "interval");
      open_time ← fromisoformat (get_str raw "open_time");
      close_time ← fromisoformat (get_str raw "close_time");
      open_price ← decimal_of_str (get_str raw "open_price");
      high_price ← decimal_of_str (get_str raw "high_price");
      low_price ← decimal_of_str (get_str raw "low_price");
      close_price ← decimal_of_str (get_str raw "close_price");
      volume ← decimal_of_str (get_str raw "volume");
      turnover ← decimal_of_str (get_str raw "turnover");
      new_OhlcvCandle source role (get_str_or_empty raw "category") (get_str_or_empty raw "symbol")
        interval open_time close_time open_price high_price low_price close_price volume turnover
  | _ => Err (ValueError "candle item must be an object")
  end.

Definition batch_from_payload_data (data : pydict) : res Batch.t :=
  match dict_get data "candles" with
  | VList raw_candles =>
      source ← CandleSource_of (get_str data "source");
      role ← CandleRole_of (get_str data "role");
      let category := get_str_or_empty data "category" in
      let symbol := get_str_or_empty data "symbol" in
      interval ← CandleInterval_of (get_str data "interval");
      fetched_at ← fromisoformat (get_str data "fetched_at");
      candles ← mapM candle_from_raw raw_candles;
      Batch.new_CandleBatch source role category symbol interval fetched_at candles
  | _ => Err (ValueError "candles must be a list")
  end.

(** ** Facts *)

Lemma CandleSource_of_value s : CandleSource_of (CandleSource.value s) = Ok s.
Proof. by destruct s. Qed.
Lemma CandleRole_of_value r : CandleRole_of (CandleRole.value r) = Ok r.
Proof. by destruct r. Qed.
Lemma CandleInterval_of_value i : CandleInterval_of (CandleInterval.value i) = Ok i.
Proof. by destruct i. Qed.

(** The times of a batch that Python can represent. *)
Definition candle_times_ok (c : OhlcvCandle) : Prop := representable (open_time c) /\ representable (close_time c).
Definition batch_times_ok (b : Batch.t) : Prop :=
  representable (Batch.fetched_at b) /\ Forall candle_times_ok (Batch.candles b).

Lemma candle_from_to c : candle_wf c -> candle_times_ok c -> candle_from_raw (VDict (candle_to_dict c)) = Ok c.
Proof.
  intros Hwf [Ho Hc]. transitivity (remake_candle c); [|by apply candle_wf_remake].
  unfold candle_from_raw, get_str, get_str_or_empty, remake_candle, candle_to_dict.
  unfold dict_get. simpl dict_get_default. cbn [pv_str].
  by rewrite CandleSource_of_value, CandleRole_of_value, CandleInterval_of_value, !fromisoformat_isoformat,
    !decimal_of_dec_str.
Qed.

Lemma batch_from_to b :
  batch_wf b -> Forall candle_wf (Batch.candles b) -> batch_times_ok b ->
  batch_from_payload_data (batch_to_payload_data b) = Ok b.
Proof.
  intros Hb Hc [Hf Ht]. unfold batch_from_payload_data, batch_to_payload_data, get_str, get_str_or_empty, dict_get.
  simpl dict_get_default. cbn [pv_str].
  rewrite CandleSource_of_value, CandleRole_of_value, CandleInterval_of_value, fromisoformat_isoformat by done.
  bind_ok.
  assert (mapM candle_from_raw ((fun c => VDict (candle_to_dict c)) <$> Batch.candles b) = Ok (Batch.candles b)) as ->.
  { apply mapM_Ok, Forall2_fmap_l, Forall_Forall2_diag, Forall_forall. intros c Hin.
    rewrite Forall_forall in Hc, Ht. apply candle_from_to; auto. }
  bind_ok. apply new_CandleBatch_Ok. eexists. split; [done|]. split; [|done].
  destruct Hb as [Hcat [Hs _] _ _]. rewrite candle_categories_lower, Hs by done. by destruct b.
Qed.

(** Other keys of the payload do not matter. *)
Lemma batch_from_dict_set data k v :
  k ∉ ["source"; "role"; "category"; "symbol"; "interval"; "fetched_at"; "candles"] ->
  batch_from_payload_data (dict_set data k v) = batch_from_payload_data data.
Proof.
  rewrite !not_elem_of_cons. intros (? & ? & ? & ? & ? & ? & ? & _).
  unfold batch_from_payload_data, get_str, get_str_or_empty, dict_get.
  by rewrite !dict_get_default_set, !bool_decide_eq_false_2 by done.
Qed.

Lemma batch_from_sound data b :
  batch_from_payload_data data = Ok b -> batch_wf b /\ Forall candle_wf (Batch.candles b).
Proof.
  unfold batch_from_payload_data. destruct (dict_get data "candles"); try done. intros H0. res_inv.
  apply new_CandleBatch_Ok in H0 as (fa & _ & -> & Hwf). split; [done|]. simpl.
  select (mapM _ _ = Ok _) (fun H => apply mapM_Ok in H; rename H into Hm).
  clear Hwf. induction Hm as [|raw c raws cs Hraw _ IH]; constructor; [|done].
  destruct raw; try done. unfold candle_from_raw in Hraw. res_inv. by eapply new_OhlcvCandle_wf.
Qed.
End reading.

(** ** Properties *)

(** C25: whatever payload data is accepted, the batch read from it and all its candles
    satisfy the invariants of their constructors; and a validated batch written as payload
    data is read back as exactly the same batch: every enumeration, time with its offset
    and decimal with its exponent survives. *)
Theorem payload_roundtrip `{FromIso} b :
  (forall data, batch_from_payload_data data = Ok b ->
     batch_wf b /\ Forall candle_wf (Batch.candles b)) /\
  (batch_wf b -> Forall candle_wf (Batch.candles b) -> batch_times_ok b ->
     batch_from_payload_data (batch_to_payload_data b) = Ok b).
Proof. split; [intros data; apply batch_from_sound|apply batch_from_to]. Qed.

Lemma payload_roundtrip_witness :
  batch_from_payload_data (batch_to_payload_data sample_batch) = Ok sample_batch.
Proof.
  assert (batch_wf sample_batch /\ Forall candle_wf (Batch.candles sample_batch)) as [Hb Hc].
  { apply (proj1 (payload_roundtrip sample_batch) (batch_to_payload_data sample_batch)).
    vm_compute. reflexivity. }
  apply (proj2 (payload_roundtrip sample_batch)); [exact Hb|exact Hc|].
  split; [|constructor; [split|constructor]]; vm_compute; (split; [split; discriminate|reflexivity]).
Defined.
