(* ===== verification/HtfModels.v ===== *)
(** * Higher-timeframe structure models: [structure/htf_models.py]

    Support zones, structure events, the evidence of a timeframe and the analysis
    that holds them, each with the checks of its [__post_init__]. *)

From stdpp Require Import list strings gmap sorting.
From Stdlib Require Import QArith Lqa.
From S2P Require Import Prelude PyList PyStr PyDecimal DecimalFacts PyTime Candles.
Open Scope Z_scope.

Module SupportZoneState.
Inductive t : Type := ACTIVE | BROKEN | RECLAIMED | EXPIRED.
#[global] Instance eq_dec : EqDecision t.
Proof. solve_decision. Defined.
Definition value (s : t) : string :=
  match s with
  | ACTIVE => "ACTIVE" | BROKEN => "BROKEN" | RECLAIMED => "RECLAIMED" | EXPIRED => "EXPIRED"
  end.
Definition members : list t := [ACTIVE; BROKEN; RECLAIMED; EXPIRED].
End SupportZoneState.

Module StructureEventState.
Inductive t : Type := PENDING_BREAK | CONFIRMED_BREAK | FAKE_BREAK | RECLAIMED | INVALIDATED.
#[global] Instance eq_dec : EqDecision t.
Proof. solve_decision. Defined.
Definition value (s : t) : string :=
  match s with
  | PENDING_BREAK => "PENDING_BREAK" | CONFIRMED_BREAK => "CONFIRMED_BREAK"
  | FAKE_BREAK => "FAKE_BREAK" | RECLAIMED => "RECLAIMED" | INVALIDATED => "INVALIDATED"
  end.
Definition members : list t := [PENDING_BREAK; CONFIRMED_BREAK; FAKE_BREAK; RECLAIMED; INVALIDATED].
End StructureEventState.

Module TimeframeStructureStatus.
Inductive t : Type := INTACT | WATCH | DAMAGED | RECLAIMED | INVALIDATED | INSUFFICIENT.
#[global] Instance eq_dec : EqDecision t.
Proof. solve_decision. Defined.
Definition value (s : t) : string :=
  match s with
  | INTACT => "INTACT" | WATCH => "WATCH" | DAMAGED => "DAMAGED" | RECLAIMED => "RECLAIMED"
  | INVALIDATED => "INVALIDATED" | INSUFFICIENT => "INSUFFICIENT"
  end.
End TimeframeStructureStatus.

Definition _aware (value : datetime) (name : string) : res aware :=
  require_aware value (name +:+ " must be timezone-aware").

Definition _decimal (value : pydec) (name : string) (minimum maximum : option dec) : res dec :=
  match value with
  | Finite v =>
      raise_if (match minimum with Some m => (v <? m)%dec | None => false end)
        (name +:+ " must be at least " +:+ default EmptyString (dec_str <$> minimum)) ;;
      raise_if (match maximum with Some m => (v >? m)%dec | None => false end)
        (name +:+ " must be at most " +:+ default EmptyString (dec_str <$> maximum)) ;;
      mret v
  | _ => Err (ValueError (name +:+ " must be finite"))
  end.

(** [Decimal("0.000000000000000001")] *)
Definition minimum_price : dec := Dec 1 (-18).

Definition is_htf (i : CandleInterval.t) : bool :=
  bool_decide (i = CandleInterval.D1) || bool_decide (i = CandleInterval.H4).

Definition _htf_interval (i : CandleInterval.t) : res CandleInterval.t :=
  raise_if (negb (is_htf i)) "higher-timeframe evidence requires Daily or 4H" ;; mret i.

(** [tuple(sorted(set(evidence)))], as instants. *)
Definition sorted_set (l : list Z) : list Z := py_sorted (fun x => x) (elements (list_to_set l : gset Z)).

(** ** [SupportZone] *)

Module SupportZone.
Record t : Type := Mk {
  zone_id : string;
  source : CandleSource.t;
  symbol : string;
  interval : CandleInterval.t;
  low : dec;
  high : dec;
  created_at : aware;
  confirmed_at : aware;
  last_test_at : aware;
  touch_count : Z;
  rejection_count : Z;
  strength_score : dec;
  evidence_open_times : list aware;
  state : SupportZoneState.t;
  reasons : list string }.

#[global] Instance eq_dec : EqDecision t.
Proof. solve_decision. Defined.

Definition new (raw_zone_id : string) (source : CandleSource.t) (raw_symbol : string)
    (raw_interval : CandleInterval.t) (raw_low raw_high : pydec)
    (raw_created_at raw_confirmed_at raw_last_test_at : datetime)
    (touch_count rejection_count : Z) (raw_strength : pydec)
    (raw_evidence : list datetime) (state : SupportZoneState.t) (reasons : list string) : res t :=
  let zone_id := str_strip raw_zone_id in
  let symbol := norm_upper raw_symbol in
  raise_if (str_empty zone_id) "zone_id is required" ;;
  raise_if (str_empty symbol) "symbol is required" ;;
  interval ← _htf_interval raw_interval;
  low ← _decimal raw_low "low" (Some minimum_price) None;
  high ← _decimal raw_high "high" (Some minimum_price) None;
  raise_if (low >=? high)%dec "support-zone low must be below high" ;;
  created_at ← _aware raw_created_at "created_at";
  confirmed_at ← _aware raw_confirmed_at "confirmed_at";
  last_test_at ← _aware raw_last_test_at "last_test_at";
  raise_if (py_lt confirmed_at created_at) "confirmed_at must not precede created_at" ;;
  raise_if (py_lt last_test_at created_at) "last_test_at must not precede created_at" ;;
  raise_if (touch_count <? 2) "support zone requires at least two touches" ;;
  raise_if ((rejection_count <? 0) || (touch_count <? rejection_count))
    "rejection_count must be between zero and touch_count" ;;
  strength_score ← _decimal raw_strength "strength_score" (Some d0) (Some (dint 100));
  evidence ← mapM (fun item => _aware item "evidence_open_time") raw_evidence;
  raise_if (negb (Z.of_nat (length evidence) =? touch_count))
    "touch_count must match evidence_open_times" ;;
  raise_if (negb (bool_decide (sorted_set (utc <$> evidence) = utc <$> evidence)))
    "evidence_open_times must be unique and chronological" ;;
  mret (Mk zone_id source symbol interval low high created_at confirmed_at last_test_at
          touch_count rejection_count strength_score evidence state reasons).

(** The [midpoint] property. *)
Definition midpoint (z : t) : res dec := ddiv (dadd (low z) (high z)) (dint 2).

(** Dataclass equality: decimals by value, datetimes by instant. *)
Definition eqb (a b : t) : bool :=
  bool_decide (zone_id a = zone_id b) && bool_decide (source a = source b) &&
  bool_decide (symbol a = symbol b) && bool_decide (interval a = interval b) &&
  (low a =? low b)%dec && (high a =? high b)%dec &&
  aware_eqb (created_at a) (created_at b) && aware_eqb (confirmed_at a) (confirmed_at b) &&
  aware_eqb (last_test_at a) (last_test_at b) &&
  (touch_count a =? touch_count b) && (rejection_count a =? rejection_count b) &&
  (strength_score a =? strength_score b)%dec &&
  bool_decide (utc <$> evidence_open_times a = utc <$> evidence_open_times b) &&
  bool_decide (state a = state b) && bool_decide (reasons a = reasons b).
End SupportZone.

(** ** [StructureEvent] *)

Module StructureEvent.
Record t : Type := Mk {
  event_id : string;
  zone_id : string;
  source : CandleSource.t;
  symbol : string;
  interval : CandleInterval.t;
  state : StructureEventState.t;
  observed_at : aware;
  candle_open_time : aware;
  close_price : dec;
  zone_low : dec;
  zone_high : dec;
  distance_bps : dec;
  body_fraction : dec;
  volume_ratio : option dec;
  invalidates_event_id : option string;
  reasons : list string }.

#[global] Instance eq_dec : EqDecision t.
Proof. solve_decision. Defined.

Definition new (raw_event_id raw_zone_id : string) (source : CandleSource.t)
    (raw_symbol : string) (raw_interval : CandleInterval.t) (state : StructureEventState.t)
    (raw_observed_at raw_candle_open_time : datetime)
    (raw_close raw_zone_low raw_zone_high raw_distance raw_body : pydec)
    (raw_volume_ratio : option pydec) (invalidates_event_id : option string)
    (reasons : list string) : res t :=
  let event_id := str_strip raw_event_id in
  let zone_id := str_strip raw_zone_id in
  let symbol := norm_upper raw_symbol in
  raise_if (str_empty event_id || str_empty zone_id || str_empty symbol)
    "event_id, zone_id, and symbol are required" ;;
  interval ← _htf_interval raw_interval;
  observed_at ← _aware raw_observed_at "observed_at";
  candle_open_time ← _aware raw_candle_open_time "candle_open_time";
  raise_if (py_le observed_at candle_open_time) "observed_at must follow candle_open_time" ;;
  close_price ← _decimal raw_close "close_price" (Some minimum_price) None;
  zone_low ← _decimal raw_zone_low "zone_low" (Some minimum_price) None;
  zone_high ← _decimal raw_zone_high "zone_high" (Some minimum_price) None;
  raise_if (zone_low >=? zone_high)%dec "zone_low must be below zone_high" ;;
  distance_bps ← _decimal raw_distance "distance_bps" (Some d0) None;
  body_fraction ← _decimal raw_body "body_fraction" (Some d0) (Some d1);
  volume_ratio ← match raw_volume_ratio with
                 | None => mret None
                 | Some v => Some <$> _decimal v "volume_ratio" (Some d0) None
                 end;
  mret (Mk event_id zone_id source symbol interval state observed_at candle_open_time
          close_price zone_low zone_high distance_bps body_fraction volume_ratio
          invalidates_event_id reasons).
End StructureEvent.

(** ** [TimeframeStructureEvidence] *)

Module TimeframeStructureEvidence.
Record t : Type := Mk {
  source : CandleSource.t;
  symbol : string;
  interval : CandleInterval.t;
  status : TimeframeStructureStatus.t;
  observed_at : aware;
  zone_id : option string;
  event_id : option string;
  reasons : list string }.

#[global] Instance eq_dec : EqDecision t.
Proof. solve_decision. Defined.

(** [not self.event_id] *)
Definition missing (s : option string) : bool :=
  match s with None => true | Some s => str_empty s end.

Definition new (source : CandleSource.t) (raw_symbol : string)
    (raw_interval : CandleInterval.t) (status : TimeframeStructureStatus.t)
    (raw_observed_at : datetime) (zone_id event_id : option string)
    (reasons : list string) : res t :=
  let symbol := norm_upper raw_symbol in
  raise_if (str_empty symbol) "symbol is required" ;;
  interval ← _htf_interval raw_interval;
  observed_at ← _aware raw_observed_at "observed_at";
  raise_if (bool_decide (status = TimeframeStructureStatus.DAMAGED) && missing event_id)
    "damaged evidence requires event_id" ;;
  mret (Mk source symbol interval status observed_at zone_id event_id reasons).

Definition damaged (e : t) : bool := bool_decide (status e = TimeframeStructureStatus.DAMAGED).
End TimeframeStructureEvidence.

(** ** [HtfStructureAnalysis] *)

Module HtfStructureAnalysis.
Record t : Type := Mk {
  source : CandleSource.t;
  symbol : string;
  interval : CandleInterval.t;
  observed_at : aware;
  zones : list SupportZone.t;
  primary_zone : option SupportZone.t;
  events : list StructureEvent.t;
  evidence : TimeframeStructureEvidence.t }.

Definition new (source : CandleSource.t) (raw_symbol : string)
    (raw_interval : CandleInterval.t) (raw_observed_at : datetime)
    (zones : list SupportZone.t) (primary_zone : option SupportZone.t)
    (events : list StructureEvent.t) (evidence : TimeframeStructureEvidence.t) : res t :=
  let symbol := norm_upper raw_symbol in
  interval ← _htf_interval raw_interval;
  observed_at ← _aware raw_observed_at "observed_at";
  raise_if (str_empty symbol) "symbol is required" ;;
  raise_if (negb (bool_decide (TimeframeStructureEvidence.symbol evidence = symbol)) ||
            negb (bool_decide (TimeframeStructureEvidence.interval evidence = interval)))
    "evidence must match analysis symbol and interval" ;;
  raise_if (match primary_zone with
            | None => false
            | Some z => negb (existsb (fun z' => SupportZone.eqb z z') zones)
            end) "primary_zone must be included in zones" ;;
  raise_if (existsb (fun z =>
      negb (bool_decide (SupportZone.symbol z = symbol)) ||
      negb (bool_decide (SupportZone.interval z = interval)) ||
      negb (bool_decide (SupportZone.source z = source))) zones)
    "zone does not match analysis" ;;
  raise_if (existsb (fun e =>
      negb (bool_decide (StructureEvent.symbol e = symbol)) ||
      negb (bool_decide (StructureEvent.interval e = interval)) ||
      negb (bool_decide (StructureEvent.source e = source))) events)
    "event does not match analysis" ;;
  mret (Mk source symbol interval observed_at zones primary_zone events evidence).
End HtfStructureAnalysis.

(** ** Facts *)

Lemma htf_decimal_Ok value name minimum maximum v :
  _decimal value name minimum maximum = Ok v <->
  value = Finite v /\
  (forall m, minimum = Some m -> (m <=? v)%dec = true) /\
  (forall m, maximum = Some m -> (v <=? m)%dec = true).
Proof.
  destruct value as [w| |]; simpl; [|naive_solver..]. split.
  - intros H. guards. subst w. split_and!; [done|..]; intros m ->; dec_order.
  - intros ([= ->] & Hmin & Hmax).
    res_ok ltac:(destruct minimum as [m|], maximum as [m'|]; try done;
      first [specialize (Hmin _ eq_refl); solve [dec_order]
            |specialize (Hmax _ eq_refl); solve [dec_order]]). done.
Qed.

Lemma htf_aware_Ok value name a : _aware value name = Ok a <-> value = AwareDT a.
Proof. unfold _aware, require_aware. destruct value; naive_solver. Qed.

Lemma mapM_aware_Ok name l k :
  mapM (fun item => _aware item name) l = Ok k <-> AwareDT <$> k = l.
Proof.
  rewrite mapM_Ok. split.
  - induction 1 as [|x y l k Hx Hl IH]; [done|]. apply htf_aware_Ok in Hx as ->. by rewrite <- IH.
  - intros <-. induction k; simpl; constructor; done.
Qed.

Lemma _htf_interval_Ok i j : _htf_interval i = Ok j <-> j = i /\ is_htf i = true.
Proof.
  unfold _htf_interval. split.
  - intros H. by guards.
  - intros [-> Hi]. by rewrite Hi.
Qed.

Lemma minimum_price_val : (dval minimum_price == 1 # 1000000000000000000)%Q.
Proof. reflexivity. Qed.

(** Sorting the set of a list gives the list back exactly when it strictly
    increases. *)
Lemma sorted_set_id l : sorted_set l = l <-> StronglySorted Z.lt l.
Proof.
  unfold sorted_set. set (s := list_to_set l : gset Z).
  pose proof (py_sorted_perm (fun x : Z => x) (elements s)) as Hp.
  pose proof (py_sorted_sorted (fun x : Z => x) (elements s)) as Hs.
  assert (forall k, StronglySorted (key_le (fun x : Z => x)) k -> NoDup k -> StronglySorted Z.lt k)
    as Hstrict.
  { intros k Hk Hnd. induction Hk as [|x k Hk IH Hall]; constructor.
    - apply IH. by apply NoDup_cons in Hnd as [_ ?].
    - apply NoDup_cons in Hnd as [Hx _]. rewrite Forall_forall in Hall |- *.
      intros y Hy. specialize (Hall y Hy). unfold key_le, py_le, py_cmp, py_ord_Z in Hall.
      assert (x <> y) by (intros ->; done).
      destruct (Z.compare_spec x y); [lia|lia|done]. }
  split.
  - intros E. rewrite E in Hp, Hs. apply Hstrict; [done|]. rewrite Hp. apply NoDup_elements.
  - intros Hl. assert (NoDup l) as Hnd.
    { clear -Hl. induction Hl as [|x l Hl IH Hall]; constructor; [|done].
      intros Hin. rewrite Forall_forall in Hall. specialize (Hall x Hin). lia. }
    assert (AntiSymm eq Z.lt) by (intros x y ??; lia).
    apply (StronglySorted_unique Z.lt).
    + apply Hstrict; [done|]. rewrite Hp. apply NoDup_elements.
    + done.
    + rewrite Hp. apply NoDup_Permutation; [apply NoDup_elements|done|].
      intros x. unfold s. by rewrite elem_of_elements, elem_of_list_to_set.
Qed.

Lemma zone_eqb_refl z : SupportZone.eqb z z = true.
Proof.
  unfold SupportZone.eqb. rewrite !bool_decide_eq_true_2 by done.
  assert (forall d, (d =? d)%dec = true) as Hd by (intros; rewrite deqb_val; reflexivity).
  unfold aware_eqb. by rewrite !Hd, !Z.eqb_refl.
Qed.

(** What [SupportZone.__post_init__] promises. *)
Record zone_wf (z : SupportZone.t) : Prop := {
  zwf_id : str_empty (SupportZone.zone_id z) = false;
  zwf_clean : str_strip (SupportZone.zone_id z) = SupportZone.zone_id z;
  zwf_symbol : norm_upper (SupportZone.symbol z) = SupportZone.symbol z /\
               str_empty (SupportZone.symbol z) = false;
  zwf_interval : is_htf (SupportZone.interval z) = true;
  zwf_low : (minimum_price <=? SupportZone.low z)%dec = true;
  zwf_range : (SupportZone.low z <? SupportZone.high z)%dec = true;
  zwf_times : utc (SupportZone.created_at z) <= utc (SupportZone.confirmed_at z) /\
              utc (SupportZone.created_at z) <= utc (SupportZone.last_test_at z);
  zwf_counts : 2 <= SupportZone.touch_count z /\
               0 <= SupportZone.rejection_count z <= SupportZone.touch_count z;
  zwf_strength : (d0 <=? SupportZone.strength_score z)%dec = true /\
                 (SupportZone.strength_score z <=? dint 100)%dec = true;
  zwf_evidence : Z.of_nat (length (SupportZone.evidence_open_times z)) = SupportZone.touch_count z /\
                 StronglySorted Z.lt (utc <$> SupportZone.evidence_open_times z) }.

Lemma new_SupportZone_Ok zid src sym itv lo hi ca co lt tc rc st ev s rs z :
  SupportZone.new zid src sym itv lo hi ca co lt tc rc st ev s rs = Ok z ->
  zone_wf z /\ SupportZone.source z = src /\ SupportZone.symbol z = norm_upper sym /\
  SupportZone.interval z = itv /\ Finite (SupportZone.low z) = lo /\
  Finite (SupportZone.high z) = hi /\ AwareDT (SupportZone.created_at z) = ca /\
  AwareDT (SupportZone.confirmed_at z) = co /\ AwareDT (SupportZone.last_test_at z) = lt /\
  SupportZone.touch_count z = tc /\ SupportZone.rejection_count z = rc /\
  Finite (SupportZone.strength_score z) = st /\
  AwareDT <$> SupportZone.evidence_open_times z = ev /\ SupportZone.state z = s /\
  SupportZone.zone_id z = str_strip zid.
Proof.
  intros H. unfold SupportZone.new in H. guards.
  repeat match goal with
  | H : _decimal _ _ _ _ = Ok _ |- _ => apply htf_decimal_Ok in H as (? & ? & ?)
  | H : _aware _ _ = Ok _ |- _ => apply htf_aware_Ok in H
  | H : _htf_interval _ = Ok _ |- _ => apply _htf_interval_Ok in H as [? ?]
  | H : sorted_set _ = _ |- _ => apply sorted_set_id in H
  end. time_to_Z. subst.
  select (mapM _ _ = Ok _) (fun H => rename H into Hm).
  split_and!; simpl; try done.
  - constructor; simpl; try split_and!; auto; try solve [dec_order]; try lia;
      [apply str_strip_idemp|apply norm_upper_idemp].
  - by apply mapM_aware_Ok in Hm.
Qed.

(** What [StructureEvent.__post_init__] promises. *)
Record event_wf (e : StructureEvent.t) : Prop := {
  ewf_ids : str_empty (StructureEvent.event_id e) = false /\
            str_empty (StructureEvent.zone_id e) = false;
  ewf_symbol : norm_upper (StructureEvent.symbol e) = StructureEvent.symbol e /\
               str_empty (StructureEvent.symbol e) = false;
  ewf_interval : is_htf (StructureEvent.interval e) = true;
  ewf_time : utc (StructureEvent.candle_open_time e) < utc (StructureEvent.observed_at e);
  ewf_close : (minimum_price <=? StructureEvent.close_price e)%dec = true;
  ewf_zone : (minimum_price <=? StructureEvent.zone_low e)%dec = true /\
             (StructureEvent.zone_low e <? StructureEvent.zone_high e)%dec = true;
  ewf_distance : (d0 <=? StructureEvent.distance_bps e)%dec = true;
  ewf_body : (d0 <=? StructureEvent.body_fraction e)%dec = true /\
             (StructureEvent.body_fraction e <=? d1)%dec = true;
  ewf_volume : forall v, StructureEvent.volume_ratio e = Some v -> (d0 <=? v)%dec = true }.

Lemma new_StructureEvent_Ok eid zid src sym itv st obs op cl zl zh db bf vr inv rs e :
  StructureEvent.new eid zid src sym itv st obs op cl zl zh db bf vr inv rs = Ok e ->
  event_wf e /\ StructureEvent.state e = st /\ StructureEvent.source e = src /\
  StructureEvent.symbol e = norm_upper sym /\ StructureEvent.interval e = itv /\
  StructureEvent.zone_id e = str_strip zid /\ StructureEvent.event_id e = str_strip eid /\
  AwareDT (StructureEvent.observed_at e) = obs /\
  AwareDT (StructureEvent.candle_open_time e) = op /\
  Finite (StructureEvent.close_price e) = cl /\
  StructureEvent.invalidates_event_id e = inv /\ StructureEvent.reasons e = rs.
Proof.
  intros H. unfold StructureEvent.new in H. guards.
  repeat match goal with
  | H : _decimal _ _ _ _ = Ok _ |- _ => apply htf_decimal_Ok in H as (? & ? & ?)
  | H : _aware _ _ = Ok _ |- _ => apply htf_aware_Ok in H
  | H : _htf_interval _ = Ok _ |- _ => apply _htf_interval_Ok in H as [? ?]
  end. time_to_Z. subst.
  split_and!; simpl; try done.
  constructor; simpl; try split_and!; auto; try solve [dec_order]; [apply norm_upper_idemp|].
  intros v' ->. destruct vr as [r|]; [|by res_inv].
  select (match Some r with _ => _ end = _) (fun H => simpl in H). res_inv.
  select (_decimal r _ _ _ = _) (fun H => apply htf_decimal_Ok in H as (_ & Hv & _)).
  select (Some _ = Some _) (fun H => injection H as ->). by apply Hv.
Qed.

(** The converse: a zone with acceptable fields is built. *)
Lemma new_SupportZone_total zid src sym itv lo hi ca co lt tc rc st ev s rs :
  str_empty (str_strip zid) = false -> str_empty (norm_upper sym) = false -> is_htf itv = true ->
  (minimum_price <=? lo)%dec = true -> (lo <? hi)%dec = true ->
  utc ca <= utc co -> utc ca <= utc lt -> 2 <= tc -> 0 <= rc <= tc ->
  (d0 <=? st)%dec = true -> (st <=? dint 100)%dec = true ->
  Z.of_nat (length ev) = tc -> StronglySorted Z.lt (utc <$> ev) ->
  exists z, SupportZone.new zid src sym itv (Finite lo) (Finite hi) (AwareDT ca) (AwareDT co)
    (AwareDT lt) tc rc (Finite st) (AwareDT <$> ev) s rs = Ok z.
Proof.
  intros Hzid Hsym Hitv Hlo Hlh Hco Hlt Htc Hrc Hst0 Hst1 Hlen Hss.
  unfold SupportZone.new. rewrite Hzid, Hsym. cbn [raise_if mbind res_bind].
  rewrite (proj2 (_htf_interval_Ok itv itv)) by done.
  rewrite (proj2 (htf_decimal_Ok (Finite lo) "low" (Some minimum_price) None lo))
    by (split_and!; [done|naive_solver|naive_solver]).
  rewrite (proj2 (htf_decimal_Ok (Finite hi) "high" (Some minimum_price) None hi))
    by (split_and!; [done|intros m [= <-]; dec_order|naive_solver]).
  rewrite (proj2 (htf_decimal_Ok (Finite st) "strength_score" (Some d0) (Some (dint 100)) st))
    by (split_and!; naive_solver).
  rewrite (proj2 (mapM_aware_Ok "evidence_open_time" (AwareDT <$> ev) ev)) by done.
  cbn [_aware require_aware mbind res_bind].
  res_ok ltac:(first [ by time_to_Z | by dec_order
    | apply Z.ltb_ge; lia | apply orb_false_iff; split; apply Z.ltb_ge; lia
    | by apply negb_false_iff, Z.eqb_eq | by apply guard_false, sorted_set_id ]).
  by eexists.
Qed.
