(* ===== verification/SupportZones.v ===== *)
(** * Support zones: [structure/support_zones.py]

    Pivot lows, their clusters by price, and the zones made of the clusters.
    Python's growing lists [pivots] and [clusters] are kept newest first while the
    loops run, so that [pivots[-1]] is the head, and reversed at the end. *)

From stdpp Require Import list strings gmap sorting.
From Stdlib Require Import QArith Qabs Lqa.
From S2P Require Import Prelude PyList PyStr PyDecimal DecimalFacts PyTime Sha256 Candles HtfModels.
Open Scope Z_scope.

Definition BPS : dec := dint 10000.

Record SupportZoneRules : Type := MkZoneRules {
  pivot_left : Z;
  pivot_right : Z;
  minimum_touches : Z;
  minimum_touch_separation : Z;
  cluster_tolerance_bps : dec;
  zone_padding_bps : dec;
  maximum_zone_width_bps : dec;
  minimum_rejection_bps : dec;
  maximum_zones : Z }.

(** [if not value.is_finite() or value < 0: raise] *)
Definition finite_non_negative (value : pydec) (name : string) : res dec :=
  match value with
  | Finite v => raise_if (v <? d0)%dec (name +:+ " must be finite and non-negative") ;; mret v
  | _ => Err (ValueError (name +:+ " must be finite and non-negative"))
  end.

Definition new_SupportZoneRules (pl pr mt ms : Z) (ct zp mw mr : pydec) (mz : Z)
    : res SupportZoneRules :=
  raise_if ((pl <? 1) || (pr <? 1)) "pivot windows must be positive" ;;
  raise_if (mt <? 2) "minimum_touches must be at least two" ;;
  raise_if (ms <? 1) "minimum_touch_separation must be positive" ;;
  ct ← finite_non_negative ct "cluster_tolerance_bps";
  zp ← finite_non_negative zp "zone_padding_bps";
  mw ← finite_non_negative mw "maximum_zone_width_bps";
  mr ← finite_non_negative mr "minimum_rejection_bps";
  raise_if ((mz <? 1) || (50 <? mz)) "maximum_zones must be between 1 and 50" ;;
  mret (MkZoneRules pl pr mt ms ct zp mw mr mz).

(** [SupportZoneRules()] *)
Definition default_zone_rules : SupportZoneRules :=
  MkZoneRules 2 2 2 2 (dint 75) (dint 20) (dint 180) (dint 25) 5.

Record _PivotLow : Type := MkPivot { index : nat; candle : OhlcvCandle }.
Definition price (p : _PivotLow) : dec := low_price (candle p).

(** ** [_validate_candles] *)

Fixpoint validate_rest (first : OhlcvCandle) (previous : option aware)
    (l : list OhlcvCandle) : res unit :=
  match l with
  | [] => mret tt
  | c :: l' =>
      raise_if (negb (bool_decide (source c = source first)) ||
                negb (bool_decide (symbol c = symbol first)) ||
                negb (bool_decide (interval c = interval first)))
        "candles must share source, symbol, and interval" ;;
      raise_if (match previous with Some p => py_le (open_time c) p | None => false end)
        "candles must be strictly chronological" ;;
      validate_rest first (Some (open_time c)) l'
  end.

Definition _validate_candles (candles : list OhlcvCandle) : res unit :=
  match candles with
  | [] => mret tt
  | first :: _ =>
      raise_if (negb (is_htf (interval first))) "support zones require Daily or 4H candles" ;;
      validate_rest first None candles
  end.

(** ** [_find_pivots] *)

(** The test of one index: lowest of both windows, strictly on one side. *)
Definition is_pivot (candles : list OhlcvCandle) (rules : SupportZoneRules) (i : nat)
    (current : OhlcvCandle) : res bool :=
  let left := py_slice (i - Z.to_nat (pivot_left rules)) i candles in
  let right := py_slice (i + 1) (i + 1 + Z.to_nat (pivot_right rules)) candles in
  left_min ← py_min (low_price <$> left);
  right_min ← py_min (low_price <$> right);
  let is_lowest := ((low_price current <=? left_min) && (low_price current <=? right_min))%dec in
  let has_strict_side := ((low_price current <? left_min) || (low_price current <? right_min))%dec in
  mret (is_lowest && has_strict_side).

(** The body of the loop, [pivots] newest first. *)
Definition add_pivot (rules : SupportZoneRules) (i : nat) (current : OhlcvCandle)
    (pivots : list _PivotLow) : list _PivotLow :=
  match pivots with
  | p :: rest =>
      if Z.of_nat i - Z.of_nat (index p) <? minimum_touch_separation rules then
        if (low_price current <? price p)%dec then MkPivot i current :: rest else pivots
      else MkPivot i current :: pivots
  | [] => [MkPivot i current]
  end.

Fixpoint pivot_loop (candles : list OhlcvCandle) (rules : SupportZoneRules) (range : list nat)
    (pivots : list _PivotLow) : res (list _PivotLow) :=
  match range with
  | [] => mret pivots
  | i :: range' =>
      current ← py_index candles i;
      pivot ← is_pivot candles rules i current;
      pivot_loop candles rules range'
        (if (pivot : bool) then add_pivot rules i current pivots else pivots)
  end.

Definition _find_pivots (candles : list OhlcvCandle) (rules : SupportZoneRules)
    : res (list _PivotLow) :=
  let n := Z.of_nat (length candles) in
  let required := pivot_left rules + pivot_right rules + 1 in
  if n <? required then mret []
  else
    let start := Z.to_nat (pivot_left rules) in
    let stop := (length candles - Z.to_nat (pivot_right rules))%nat in
    reverse <$> pivot_loop candles rules (seq start (stop - start)) [].

(** ** [_cluster_pivots] *)

Definition _median_price (cluster : list _PivotLow) : res dec :=
  let prices := py_sorted (fun x : dec => x) (price <$> cluster) in
  let middle := (length prices / 2)%nat in
  if Nat.odd (length prices) then py_index prices middle
  else
    a ← py_index prices (middle - 1);
    b ← py_index prices middle;
    ddiv (dadd a b) (dint 2).

(** [clusters] newest first. *)
Definition add_to_clusters (rules : SupportZoneRules) (pivot : _PivotLow)
    (clusters : list (list _PivotLow)) : res (list (list _PivotLow)) :=
  match clusters with
  | [] => mret [[pivot]]
  | cluster :: rest =>
      reference ← _median_price cluster;
      ratio ← ddiv (dabs (dsub (price pivot) reference)) reference;
      let distance_bps := dmul ratio BPS in
      if (distance_bps <=? cluster_tolerance_bps rules)%dec
      then mret ((cluster ++ [pivot]) :: rest)
      else mret ([pivot] :: clusters)
  end.

Fixpoint cluster_loop (rules : SupportZoneRules) (ordered : list _PivotLow)
    (clusters : list (list _PivotLow)) : res (list (list _PivotLow)) :=
  match ordered with
  | [] => mret clusters
  | pivot :: ordered' =>
      clusters' ← add_to_clusters rules pivot clusters;
      cluster_loop rules ordered' clusters'
  end.

Definition _cluster_pivots (pivots : list _PivotLow) (rules : SupportZoneRules)
    : res (list (list _PivotLow)) :=
  let ordered := py_sorted (fun p => (price p, open_time (candle p))) pivots in
  reverse <$> cluster_loop rules ordered [].

(** ** [_zone_from_cluster] *)

Definition _zone_id (source symbol interval : string) (evidence : list aware) (low high : dec)
    (confirmed_at : aware) : string :=
  hash_id "zone_" ([source; symbol; interval; dec_str low; dec_str high; isoformat confirmed_at]
                   ++ (isoformat <$> evidence)).

Definition is_rejection (rules : SupportZoneRules) (p : _PivotLow) : res bool :=
  ratio ← ddiv (dsub (close_price (candle p)) (price p)) (price p);
  mret (dmul ratio BPS >=? minimum_rejection_bps rules)%dec.

Definition strength_of (touches rejections : Z) (recency : dec) : res dec :=
  dquantize
    (py_min2 (dint 100)
       (dadd (dadd (dadd (dint 25) (dint (touches * 12))) (dint (rejections * 6)))
          (dmul recency (dint 15))))
    (-2).

(** The padded range of the pivots' prices and its width in basis points. *)
Definition zone_bounds (ordered : list _PivotLow) (rules : SupportZoneRules)
    : res (dec * dec * dec) :=
  core_low ← py_min (price <$> ordered);
  core_high ← py_max (price <$> ordered);
  padding ← ddiv (zone_padding_bps rules) BPS;
  let zone_low := dmul core_low (dsub d1 padding) in
  let zone_high := dmul core_high (dadd d1 padding) in
  midpoint ← ddiv (dadd zone_low zone_high) (dint 2);
  width ← ddiv (dsub zone_high zone_low) midpoint;
  mret (zone_low, zone_high, dmul width BPS).

(** The zone of pivots in order of time. *)
Definition make_zone (ordered : list _PivotLow) (candles : list OhlcvCandle)
    (rules : SupportZoneRules) (zone_low zone_high width_bps : dec) : res SupportZone.t :=
  let touches := Z.of_nat (length ordered) in
  rejected ← mapM (is_rejection rules) ordered;
  let rejections := count_where (fun b : bool => b) rejected in
  first ← py_index ordered 0;
  final ← py_index ordered (length ordered - 1);
  recency ← ddiv (dint (Z.of_nat (index final) + 1)) (dint (Z.of_nat (length candles)));
  strength ← strength_of touches rejections recency;
  let evidence := (fun p => open_time (candle p)) <$> ordered in
  confirmation ← py_index candles (index final + Z.to_nat (pivot_right rules));
  let confirmed_at := close_time confirmation in
  let zone_id := _zone_id (CandleSource.value (source (candle first)))
                   (symbol (candle first)) (CandleInterval.value (interval (candle first)))
                   evidence zone_low zone_high confirmed_at in
  width_text ← dquantize width_bps (-2);
  let reasons := ["TOUCHES_" +:+ int_str touches;
                  "REJECTIONS_" +:+ int_str rejections;
                  "WIDTH_BPS_" +:+ dec_str width_text;
                  "PIVOT_RIGHT_" +:+ int_str (pivot_right rules)] in
  SupportZone.new zone_id (source (candle first)) (symbol (candle first))
    (interval (candle first)) (Finite zone_low) (Finite zone_high)
    (AwareDT (close_time (candle first))) (AwareDT confirmed_at)
    (AwareDT (close_time (candle final))) touches rejections (Finite strength)
    (AwareDT <$> evidence) SupportZoneState.ACTIVE reasons.

Definition _zone_from_cluster (cluster : list _PivotLow) (candles : list OhlcvCandle)
    (rules : SupportZoneRules) : res (option SupportZone.t) :=
  if Z.of_nat (length cluster) <? minimum_touches rules then mret None
  else
    let ordered := py_sorted (fun p => open_time (candle p)) cluster in
    bounds ← zone_bounds ordered rules;
    let '(zone_low, zone_high, width_bps) := bounds in
    if (width_bps >? maximum_zone_width_bps rules)%dec then mret None
    else Some <$> make_zone ordered candles rules zone_low zone_high width_bps.

(** ** [derive_support_zones] *)

(** [zones.sort(key=..., reverse=True)] *)
Definition zone_key (z : SupportZone.t) : dec * aware * dec * string :=
  (SupportZone.strength_score z, SupportZone.last_test_at z, SupportZone.high z,
   SupportZone.zone_id z).

Definition derive_support_zones (candles : list OhlcvCandle) (rules : option SupportZoneRules)
    : res (list SupportZone.t) :=
  let active_rules := default default_zone_rules rules in
  _validate_candles candles ;;
  pivots ← _find_pivots candles active_rules;
  clusters ← _cluster_pivots pivots active_rules;
  found ← mapM (fun cluster => _zone_from_cluster cluster candles active_rules) clusters;
  let zones := omap (fun z => z) found in
  mret (take (Z.to_nat (maximum_zones active_rules)) (py_sorted_rev zone_key zones)).

(** ** Facts *)

Record zone_rules_wf (r : SupportZoneRules) : Prop := {
  zr_windows : 1 <= pivot_left r /\ 1 <= pivot_right r;
  zr_touches : 2 <= minimum_touches r;
  zr_separation : 1 <= minimum_touch_separation r;
  zr_bps : (d0 <=? cluster_tolerance_bps r)%dec = true /\ (d0 <=? zone_padding_bps r)%dec = true /\
    (d0 <=? maximum_zone_width_bps r)%dec = true /\ (d0 <=? minimum_rejection_bps r)%dec = true;
  zr_maximum : 1 <= maximum_zones r <= 50 }.

Lemma finite_non_negative_Ok value name v :
  finite_non_negative value name = Ok v <-> value = Finite v /\ (d0 <=? v)%dec = true.
Proof.
  destruct value as [w| |]; simpl; [|naive_solver..]. split.
  - intros H. guards. subst. split; [done|dec_order].
  - intros [[= ->] ?]. res_ok ltac:(dec_order). done.
Qed.

Lemma new_SupportZoneRules_Ok pl pr mt ms ct zp mw mr mz r :
  new_SupportZoneRules pl pr mt ms ct zp mw mr mz = Ok r -> zone_rules_wf r.
Proof.
  intros H. unfold new_SupportZoneRules in H. guards.
  repeat match goal with
  | H : finite_non_negative _ _ = Ok _ |- _ => apply finite_non_negative_Ok in H as [? ?]
  end. subst. by constructor.
Qed.

Lemma default_zone_rules_wf : zone_rules_wf default_zone_rules.
Proof. by constructor. Qed.

(** *** Validation *)

Definition same_market (a b : OhlcvCandle) : Prop :=
  source a = source b /\ symbol a = symbol b /\ interval a = interval b.

Lemma validate_rest_Ok first previous l :
  validate_rest first previous l = Ok tt <->
  Forall (fun c => same_market c first) l /\ Forall (after previous) l /\
  StronglySorted opens_before l.
Proof.
  revert previous; induction l as [|c l IH]; intros previous; simpl.
  { split; [repeat constructor|done]. }
  rewrite !Forall_cons, StronglySorted_cons. split.
  - intros H. guards. select (validate_rest _ _ _ = _) (fun H => apply IH in H as (Hs & Ha & Hss)).
    assert (after previous c) as Hc.
    { destruct previous as [p|]; simpl in *; [|done]. by time_to_Z. }
    split_and!; try done. destruct previous as [p|]; simpl in *; [|by apply Forall_true].
    eapply Forall_impl; [apply Ha|]. simpl; lia.
  - intros ([(?&?&?) Hs] & [Ha _] & Ha' & Hss).
    res_ok ltac:(rewrite !bool_decide_eq_true_2 by done; done || (destruct previous; [by time_to_Z|done])).
    rewrite guard_pass by (destruct previous; simpl in *; [by time_to_Z|done]).
    by apply IH.
Qed.

Definition candles_wf (l : list OhlcvCandle) : Prop :=
  match l with
  | [] => True
  | first :: _ => is_htf (interval first) = true /\
      Forall (fun c => same_market c first) l /\ StronglySorted opens_before l
  end.

Lemma _validate_candles_Ok l : _validate_candles l = Ok tt <-> candles_wf l.
Proof.
  unfold _validate_candles, candles_wf. destruct l as [|c l]; [done|]. split.
  - intros H. guards. select (validate_rest _ _ _ = _) (fun H => apply validate_rest_Ok in H as (?&_&?)).
    done.
  - intros (Hi & Hs & Hss). rewrite guard_pass by (by rewrite Hi).
    apply validate_rest_Ok. split_and!; [done|by apply Forall_true|done].
Qed.

(** *** Pivots *)

Section pivots.
Context (candles : list OhlcvCandle) (rules : SupportZoneRules) (Hr : zone_rules_wf rules).

(** The specification of a pivot low: lowest over both windows, and strictly below
    every candle of one of them. *)
Definition local_low (i : nat) (c : OhlcvCandle) : Prop :=
  candles !! i = Some c /\
  (forall j x, Z.of_nat i - pivot_left rules <= Z.of_nat j <= Z.of_nat i + pivot_right rules ->
     candles !! j = Some x -> (low_price c <=? low_price x)%dec = true) /\
  ((forall j x, Z.of_nat i - pivot_left rules <= Z.of_nat j < Z.of_nat i ->
      candles !! j = Some x -> (low_price c <? low_price x)%dec = true) \/
   (forall j x, Z.of_nat i < Z.of_nat j <= Z.of_nat i + pivot_right rules ->
      candles !! j = Some x -> (low_price c <? low_price x)%dec = true)).

Definition pivot_range (i : nat) : Prop :=
  pivot_left rules <= Z.of_nat i /\ Z.of_nat i + pivot_right rules < Z.of_nat (length candles).

(** A window minimum is compared exactly when every element is. *)
Lemma window_min l m c (cmp : dec -> dec -> bool) :
  (forall a b d, cmp a b = true -> (b <=? d)%dec = true -> cmp a d = true) ->
  py_min (low_price <$> l) = Ok m ->
  cmp (low_price c) m = true <-> forall x, x ∈ l -> cmp (low_price c) (low_price x) = true.
Proof.
  intros Htr Hm. apply py_min_Ok in Hm as [Hin Hle]. split.
  - intros H x Hx. eapply Htr; [exact H|]. apply Hle. by apply list_elem_of_fmap_2.
  - apply list_elem_of_fmap in Hin as (x & -> & Hx). intros H. by apply H.
Qed.

Lemma is_pivot_spec i c :
  candles !! i = Some c -> pivot_range i ->
  exists b, is_pivot candles rules i c = Ok b /\ (b = true <-> local_low i c).
Proof.
  intros Hc [Hl Hri]. destruct Hr as [[Hpl Hpr] _ _ _ _]. unfold is_pivot.
  set (L := py_slice (i - Z.to_nat (pivot_left rules)) i candles).
  set (R := py_slice (i + 1) (i + 1 + Z.to_nat (pivot_right rules)) candles).
  destruct (py_min_ok (low_price <$> L)) as [ml Hml].
  { intros E%fmap_nil_inv. revert E. apply py_slice_nonempty; lia. }
  destruct (py_min_ok (low_price <$> R)) as [mr Hmr].
  { intros E%fmap_nil_inv. revert E. apply py_slice_nonempty; lia. }
  rewrite Hml, Hmr. eexists; split; [reflexivity|].
  rewrite !andb_true_iff, orb_true_iff.
  pose proof (@py_le_trans dec _ _) as Hle. pose proof (@py_lt_le_trans dec _ _) as Hlt.
  rewrite (window_min L ml c py_le Hle Hml), (window_min R mr c py_le Hle Hmr),
    (window_min L ml c py_lt Hlt Hml), (window_min R mr c py_lt Hlt Hmr).
  assert (forall P : dec -> Prop, (forall x, x ∈ L -> P (low_price x)) <->
    forall j x, Z.of_nat i - pivot_left rules <= Z.of_nat j < Z.of_nat i ->
      candles !! j = Some x -> P (low_price x)) as HL.
  { intros P. unfold L. setoid_rewrite elem_of_py_slice. split.
    - intros H j x Hj Hx. apply H. exists j. split; [lia|done].
    - intros H x (k & Hk & Hx). apply (H k); [lia|done]. }
  assert (forall P : dec -> Prop, (forall x, x ∈ R -> P (low_price x)) <->
    forall j x, Z.of_nat i < Z.of_nat j <= Z.of_nat i + pivot_right rules ->
      candles !! j = Some x -> P (low_price x)) as HR.
  { intros P. unfold R. setoid_rewrite elem_of_py_slice. split.
    - intros H j x Hj Hx. apply H. exists j. split; [lia|done].
    - intros H x (k & Hk & Hx). apply (H k); [lia|done]. }
  rewrite (HL (fun x => (low_price c <=? x)%dec = true)), (HR (fun x => (low_price c <=? x)%dec = true)),
    (HL (fun x => (low_price c <? x)%dec = true)), (HR (fun x => (low_price c <? x)%dec = true)).
  unfold local_low. split.
  - intros [[H1 H2] H3]. split_and!; [done| |done].
    intros j x Hj Hx. destruct (Z.lt_total (Z.of_nat j) (Z.of_nat i)) as [?|[?|?]].
    + apply (H1 j); [lia|done].
    + assert (j = i) as -> by lia. replace x with c by congruence. apply py_le_refl.
    + apply (H2 j); [lia|done].
  - intros (_ & H & H3). split; [split|done]; intros j x Hj; apply H; lia.
Qed.

(** The invariant of the loop: local lows, newest first, far enough apart, all
    before [bound]. *)
Definition separated (q p : _PivotLow) : Prop :=
  Z.of_nat (index p) + minimum_touch_separation rules <= Z.of_nat (index q).

Definition pivots_inv (bound : nat) (l : list _PivotLow) : Prop :=
  Forall (fun p => (index p < bound)%nat /\ pivot_range (index p) /\ local_low (index p) (candle p)) l /\
  StronglySorted separated l.

Lemma add_pivot_inv i c l :
  pivot_range i -> local_low i c -> pivots_inv i l -> pivots_inv (S i) (add_pivot rules i c l).
Proof.
  intros Hi Hc [Hall Hss]. unfold add_pivot.
  assert (forall k, Forall (fun p => (index p < i)%nat /\ pivot_range (index p) /\ local_low (index p) (candle p)) k ->
    Forall (fun p => (index p < S i)%nat /\ pivot_range (index p) /\ local_low (index p) (candle p)) k) as Hw.
  { intros k Hk. eapply Forall_impl; [exact Hk|]. intros p (?&?&?). split_and!; try done; lia. }
  destruct l as [|p rest]; [split; [by apply Forall_singleton; simpl; auto|repeat constructor]|].
  apply Forall_cons in Hall as [Hp Hall]. pose proof (StronglySorted_inv Hss) as [Hss' Hpr].
  pose proof (zr_separation _ Hr) as Hsep.
  assert (Forall (separated (MkPivot i c)) rest) as Hsi.
  { eapply Forall_impl; [exact Hpr|]. unfold separated. simpl. intros q Hq. lia. }
  destruct (Z.ltb_spec (Z.of_nat i - Z.of_nat (index p)) (minimum_touch_separation rules)) as [Hlt|Hge].
  - destruct (low_price c <? price p)%dec.
    + split; [constructor; [simpl; split_and!; try done; lia|by apply Hw]|by constructor].
    + split; [apply Hw; by constructor|done].
  - split; [constructor; [simpl; split_and!; try done; lia|apply Hw; by constructor]|].
    constructor; [done|]. constructor; [|done]. unfold separated; simpl; lia.
Qed.

Lemma pivots_inv_weaken i j l : (i <= j)%nat -> pivots_inv i l -> pivots_inv j l.
Proof.
  intros Hij [Hall Hss]. split; [|done]. eapply Forall_impl; [exact Hall|].
  intros p (?&?&?). split_and!; try done; lia.
Qed.

Lemma pivot_loop_inv start n l :
  pivots_inv start l -> (forall i, (start <= i < start + n)%nat -> pivot_range i) ->
  exists l', pivot_loop candles rules (seq start n) l = Ok l' /\ pivots_inv (start + n) l'.
Proof.
  revert start l; induction n as [|n IH]; intros start l Hl Hrange; simpl.
  { exists l. split; [done|]. by rewrite Nat.add_0_r. }
  pose proof (Hrange start ltac:(lia)) as Hs.
  destruct (lookup_lt_is_Some_2 candles start) as [c Hc].
  { destruct Hs. pose proof (zr_windows _ Hr). lia. }
  assert (py_index candles start = Ok c) as -> by (by apply py_index_Ok). cbn [mbind res_bind].
  destruct (is_pivot_spec start c Hc Hs) as (b & -> & Hb). cbn [mbind res_bind].
  replace (start + S n)%nat with (S start + n)%nat by lia.
  apply IH; [|intros; apply Hrange; lia].
  destruct b; [apply add_pivot_inv; tauto|]. by apply (pivots_inv_weaken start); [lia|].
Qed.

Lemma find_pivots_spec :
  exists ps, _find_pivots candles rules = Ok ps /\
    Forall (fun p => pivot_range (index p) /\ local_low (index p) (candle p)) ps /\
    StronglySorted (fun p q => separated q p) ps.
Proof.
  unfold _find_pivots. pose proof (zr_windows _ Hr) as [Hpl Hpr].
  destruct (Z.ltb_spec (Z.of_nat (length candles)) (pivot_left rules + pivot_right rules + 1)).
  { exists []. split_and!; [done|constructor..]. }
  destruct (pivot_loop_inv (Z.to_nat (pivot_left rules))
    (length candles - Z.to_nat (pivot_right rules) - Z.to_nat (pivot_left rules)) [])
    as (l & -> & Hall & Hss).
  { split; constructor. }
  { unfold pivot_range. intros i Hi. lia. }
  exists (reverse l). split; [done|]. split.
  - rewrite Forall_reverse. eapply Forall_impl; [exact Hall|]. naive_solver.
  - clear Hall. induction Hss as [|p l Hss IH Hp]; [constructor|].
    rewrite reverse_cons. apply StronglySorted_app_2; [|done|repeat constructor].
    intros x y Hx ->%list_elem_of_singleton. rewrite elem_of_reverse in Hx.
    rewrite Forall_forall in Hp. by apply Hp.
Qed.
End pivots.

(** *** Clusters *)

Lemma add_to_clusters_concat rules p cs cs' :
  add_to_clusters rules p cs = Ok cs' ->
  concat (reverse cs') = concat (reverse cs) ++ [p] /\
  (Forall (fun c => c <> []) cs -> Forall (fun c => c <> []) cs').
Proof.
  unfold add_to_clusters. destruct cs as [|c rest]; intros H.
  { guards. subst cs'. split; [done|by repeat constructor]. }
  guards. split_match_in H; guards; subst cs'.
  - rewrite !reverse_cons, !concat_app. simpl. rewrite !app_nil_r, app_assoc.
    split; [done|]. intros [? ?]%Forall_cons. constructor; [by destruct c|done].
  - rewrite (reverse_cons _ [p]), concat_app. simpl. split; [done|]. by constructor.
Qed.

Lemma cluster_loop_concat rules ordered cs cs' :
  cluster_loop rules ordered cs = Ok cs' ->
  concat (reverse cs') = concat (reverse cs) ++ ordered /\
  (Forall (fun c => c <> []) cs -> Forall (fun c => c <> []) cs').
Proof.
  revert cs; induction ordered as [|p ordered IH]; intros cs H; simpl in H.
  { guards. subst. by rewrite app_nil_r. }
  guards. select (cluster_loop _ _ _ = _) (fun H => apply IH in H as [-> Hne]).
  select (add_to_clusters _ _ _ = _) (fun H => apply add_to_clusters_concat in H as [-> Hne']).
  split; [by rewrite <- app_assoc|auto].
Qed.

Definition price_time (p : _PivotLow) : dec * aware := (price p, open_time (candle p)).

Lemma cluster_pivots_partition rules ps cs :
  _cluster_pivots ps rules = Ok cs ->
  concat cs = py_sorted price_time ps /\ concat cs ≡ₚ ps /\ Forall (fun c => c <> []) cs.
Proof.
  intros H. unfold _cluster_pivots in H. guards. subst cs.
  select (cluster_loop _ _ _ = _) (fun H => apply cluster_loop_concat in H as [Hc Hne]).
  simpl in Hc. rewrite Hc. split_and!; [done|apply py_sorted_perm|].
  rewrite Forall_reverse. apply Hne. constructor.
Qed.

Lemma positive_lookup l i x : Forall (fun d => (d0 <? d)%dec = true) l -> l !! i = Some x ->
  (0 < dval x)%Q.
Proof. intros Hl Hx. rewrite Forall_lookup in Hl. apply Hl in Hx. rewrite dlt_val in Hx. done. Qed.

Lemma median_ok cluster :
  cluster <> [] -> Forall (fun p => (d0 <? price p)%dec = true) cluster ->
  exists m, _median_price cluster = Ok m /\ (0 < dval m)%Q.
Proof.
  intros Hne Hpos. unfold _median_price. set (l := py_sorted (fun x : dec => x) (price <$> cluster)).
  assert (l ≡ₚ price <$> cluster) as Hp by apply py_sorted_perm.
  assert (Forall (fun d => (d0 <? d)%dec = true) l) as Hl by (by rewrite Hp, Forall_fmap).
  assert (0 < length l)%nat as Hlen.
  { rewrite Hp, length_fmap. destruct cluster; [done|simpl; lia]. }
  pose proof (Nat.div_mod_eq (length l) 2). pose proof (Nat.mod_upper_bound (length l) 2 ltac:(lia)).
  destruct (lookup_lt_is_Some_2 l (length l / 2)) as [b Hb]; [lia|].
  assert (py_index l (length l / 2) = Ok b) as Eb by (by apply py_index_Ok). rewrite Eb.
  pose proof (positive_lookup _ _ _ Hl Hb) as Hbp.
  destruct (Nat.odd (length l)) eqn:Hodd; [by exists b|].
  destruct (lookup_lt_is_Some_2 l (length l / 2 - 1)) as [a Ha]; [lia|].
  assert (py_index l (length l / 2 - 1) = Ok a) as Ea by (by apply py_index_Ok). rewrite Ea.
  pose proof (positive_lookup _ _ _ Hl Ha) as Hap. cbn [mbind res_bind].
  assert (0 < dval (dadd a b))%Q as Hs by (eapply rounded_pos; [apply dadd_rounded|lra]).
  destruct (ddiv_pos_ok (dadd a b) (dint 2)) as [m Hm]; [done|].
  exists m. split; [done|]. eapply rounded_pos; [by apply ddiv_rounded|].
  rewrite dval_int. change (inject_Z 2) with 2%Q. apply Qlt_shift_div_l; lra.
Qed.

Lemma cluster_loop_ok rules ordered cs :
  Forall (fun p => (d0 <? price p)%dec = true) ordered ->
  Forall (fun c => c <> [] /\ Forall (fun p => (d0 <? price p)%dec = true) c) cs ->
  exists cs', cluster_loop rules ordered cs = Ok cs'.
Proof.
  revert cs; induction ordered as [|p ordered IH]; intros cs Ho Hcs; simpl; [by eexists|].
  apply Forall_cons in Ho as [Hp Ho].
  enough (exists cs', add_to_clusters rules p cs = Ok cs' /\
    Forall (fun c => c <> [] /\ Forall (fun p => (d0 <? price p)%dec = true) c) cs')
    as (cs' & -> & Hcs') by (by apply IH).
  unfold add_to_clusters. destruct cs as [|c rest].
  { eexists; split; [done|]. by repeat constructor. }
  apply Forall_cons in Hcs as [[Hne Hc] Hrest].
  destruct (median_ok c Hne Hc) as (m & -> & Hm). cbn [mbind res_bind].
  destruct (ddiv_pos_ok (dabs (dsub (price p) m)) m Hm) as [q ->]. cbn [mbind res_bind].
  destruct (_ <=? _)%dec; eexists; (split; [done|]); repeat constructor; try done.
  - by destruct c.
  - apply Forall_app. by repeat constructor.
Qed.

(** *** Zones *)

Section zones.
Context (candles : list OhlcvCandle) (rules : SupportZoneRules) (Hr : zone_rules_wf rules).
Context (Hcs : candles_wf candles) (Hwf : Forall candle_wf candles).

(** A pivot as [_find_pivots] makes it. *)
Definition good_pivot (p : _PivotLow) : Prop :=
  pivot_range candles rules (index p) /\ local_low candles rules (index p) (candle p).

Lemma candles_sorted : StronglySorted opens_before candles.
Proof. destruct candles; [constructor|]. by destruct Hcs as (_ & _ & ?). Qed.

Lemma candles_same c c' : c ∈ candles -> c' ∈ candles -> same_market c c'.
Proof.
  destruct candles as [|f l]; [by intros ?%elem_of_nil|]. destruct Hcs as (_ & Hs & _).
  rewrite Forall_forall in Hs. intros Hc Hc'. unfold same_market in *.
  apply Hs in Hc as (?&?&?). apply Hs in Hc' as (?&?&?). split_and!; congruence.
Qed.

Lemma open_lookup_lt i j c c' :
  candles !! i = Some c -> candles !! j = Some c' -> (i < j)%nat -> utc (open_time c) < utc (open_time c').
Proof.
  intros Hi Hj Hij.
  rewrite <- (take_drop j candles) in Hi. rewrite lookup_app_l in Hi.
  2:{ apply lookup_lt_Some in Hj. rewrite length_take. lia. }
  pose proof candles_sorted as Hs. rewrite <- (take_drop j candles) in Hs.
  apply StronglySorted_app in Hs as (Hs & _ & _). apply Hs.
  - by eapply list_elem_of_lookup_2.
  - apply (list_elem_of_lookup_2 _ 0). by rewrite lookup_drop, Nat.add_0_r.
Qed.

Lemma close_of c : c ∈ candles ->
  utc (close_time c) = utc (open_time c) + CandleInterval.duration (interval c).
Proof. intros Hc. rewrite Forall_forall in Hwf. pose proof (wf_duration _ (Hwf c Hc)). lia. Qed.

Lemma close_lookup_le i j c c' :
  candles !! i = Some c -> candles !! j = Some c' -> (i <= j)%nat -> utc (close_time c) <= utc (close_time c').
Proof.
  intros Hi Hj Hij. destruct (decide (i = j)) as [->|Hne].
  { rewrite Hi in Hj. by injection Hj as ->. }
  pose proof (open_lookup_lt _ _ _ _ Hi Hj ltac:(lia)).
  pose proof (list_elem_of_lookup_2 _ _ _ Hi) as Hin. pose proof (list_elem_of_lookup_2 _ _ _ Hj) as Hjn.
  rewrite !close_of by done. destruct (candles_same c c' Hin Hjn) as (_ & _ & ->). lia.
Qed.

Lemma good_pivot_lookup p : good_pivot p -> candles !! index p = Some (candle p).
Proof. by intros (_ & ? & _). Qed.

Lemma good_pivot_time p q : good_pivot p -> good_pivot q ->
  (utc (open_time (candle p)) <= utc (open_time (candle q)) <-> (index p <= index q)%nat).
Proof.
  intros Hp%good_pivot_lookup Hq%good_pivot_lookup.
  destruct (lt_eq_lt_dec (index p) (index q)) as [[H|H]|H].
  - pose proof (open_lookup_lt _ _ _ _ Hp Hq H). lia.
  - rewrite H in Hp. rewrite Hp in Hq. injection Hq as ->. lia.
  - pose proof (open_lookup_lt _ _ _ _ Hq Hp H). lia.
Qed.

(** The candle that completes the right window of a pivot. *)
Lemma good_pivot_confirmation p : good_pivot p ->
  exists c, candles !! (index p + Z.to_nat (pivot_right rules))%nat = Some c /\
    utc (open_time (candle p)) < utc (open_time c).
Proof.
  intros Hp. pose proof (good_pivot_lookup p Hp) as Hl. destruct Hp as [[_ Hri] _].
  pose proof (zr_windows _ Hr) as [_ Hpr].
  destruct (lookup_lt_is_Some_2 candles (index p + Z.to_nat (pivot_right rules))) as [c Hc]; [lia|].
  exists c. split; [done|]. eapply open_lookup_lt; [exact Hl|exact Hc|lia].
Qed.

Section cluster.
Context (cluster : list _PivotLow) (Hgood : Forall good_pivot cluster).
Context (Hnd : NoDup (index <$> cluster)).
Let ordered := py_sorted (fun p => open_time (candle p)) cluster.

Lemma ordered_perm : ordered ≡ₚ cluster.
Proof. apply py_sorted_perm. Qed.

Lemma ordered_good : Forall good_pivot ordered.
Proof. by rewrite ordered_perm. Qed.

Lemma ordered_sorted : StronglySorted (fun p q => (index p < index q)%nat) ordered.
Proof.
  pose proof (py_sorted_sorted (fun p => open_time (candle p)) cluster) as Hs.
  pose proof ordered_good as Hg. pose proof Hnd as Hn. rewrite <- ordered_perm in Hn.
  fold ordered in Hs. clear -Hs Hg Hn Hcs Hwf. induction Hs as [|p l Hs IH Hp]; constructor.
  - apply IH; [by apply Forall_cons in Hg as [_ ?]|by apply NoDup_cons in Hn as [_ ?]].
  - apply Forall_cons in Hg as [Hgp Hg]. apply NoDup_cons in Hn as [Hin _].
    rewrite Forall_forall in *. intros q Hq. specialize (Hp q Hq). specialize (Hg q Hq).
    unfold key_le in Hp. rewrite aware_le_utc in Hp. apply good_pivot_time in Hp; [|done..].
    assert (index p <> index q) by (intros E; apply Hin; rewrite E; by apply list_elem_of_fmap_2).
    lia.
Qed.

Lemma ordered_last_max final p :
  ordered !! (length ordered - 1)%nat = Some final -> p ∈ ordered -> (index p <= index final)%nat.
Proof.
  intros Hf (i & Hi)%list_elem_of_lookup. pose proof (lookup_lt_Some _ _ _ Hi) as Hlt.
  destruct (decide (i = length ordered - 1)%nat) as [->|Hne]; [by rewrite Hf in Hi; injection Hi as ->|].
  pose proof ordered_sorted as Hs. rewrite <- (take_drop (length ordered - 1) ordered) in Hs.
  apply StronglySorted_app in Hs as (Hs & _ & _). apply Nat.lt_le_incl, Hs.
  - apply (list_elem_of_lookup_2 _ i). rewrite lookup_take_lt by lia. done.
  - apply (list_elem_of_lookup_2 _ 0). by rewrite lookup_drop, Nat.add_0_r.
Qed.

(** What a zone says of the pivots it was made from. *)
Definition zone_of (z : SupportZone.t) : Prop :=
  zone_wf z /\ SupportZone.state z = SupportZoneState.ACTIVE /\
  minimum_touches rules <= SupportZone.touch_count z /\
  SupportZone.touch_count z = Z.of_nat (length cluster) /\
  SupportZone.evidence_open_times z = (fun p => open_time (candle p)) <$> ordered /\
  (forall p, p ∈ cluster -> exists c,
     candles !! (index p + Z.to_nat (pivot_right rules))%nat = Some c /\
     utc (close_time c) <= utc (SupportZone.confirmed_at z)) /\
  (exists c, c ∈ candles /\ SupportZone.confirmed_at z = close_time c).

Lemma make_zone_sound lo hi w z :
  minimum_touches rules <= Z.of_nat (length cluster) ->
  make_zone ordered candles rules lo hi w = Ok z -> zone_of z.
Proof.
  intros Hmin H. unfold make_zone in H. guards.
  repeat match goal with
  | H : py_index _ _ = Ok _ |- _ => apply py_index_Ok in H
  end.
  apply new_SupportZone_Ok in H as (Hz&_&_&_&_&_&_&Hconf&_&Htc&_&_&Hev&Hst&_).
  injection Hconf as Hconf. apply (inj (fmap AwareDT)) in Hev.
  rewrite ordered_perm in Htc. split_and!; try done; try lia.
  - intros p Hp. rewrite <- ordered_perm in Hp.
    pose proof ordered_good as Hg. rewrite Forall_forall in Hg.
    destruct (good_pivot_confirmation p (Hg p Hp)) as (c & Hc & _). exists c. split; [done|].
    rewrite Hconf. eapply close_lookup_le; [exact Hc|done|].
    apply Nat.add_le_mono_r. by eapply ordered_last_max.
  - eexists. split; [by eapply list_elem_of_lookup_2|done].
Qed.

Lemma zone_from_cluster_sound z :
  _zone_from_cluster cluster candles rules = Ok (Some z) -> zone_of z.
Proof.
  intros H. unfold _zone_from_cluster in H. fold ordered in H.
  split_match_in H; [by guards|]. guards. destruct v as [[lo hi] w].
  split_match_in H; guards.
  select (Some _ = Some _) (fun H => injection H as ->). by eapply make_zone_sound.
Qed.
End cluster.
End zones.

(** Every zone derived is made of a cluster. *)
Lemma derive_zones_made candles rules zs :
  derive_support_zones candles rules = Ok zs ->
  Forall (fun z => exists ordered lo hi w,
    make_zone ordered candles (default default_zone_rules rules) lo hi w = Ok z) zs.
Proof.
  intros H. unfold derive_support_zones in H. guards. subst zs.
  select (mapM _ _ = _) (fun H => apply mapM_Ok in H as Hm).
  apply Forall_take. rewrite py_sorted_rev_perm. apply Forall_forall. intros z Hz.
  apply list_elem_of_omap in Hz as (oz & Hin & ->). apply list_elem_of_lookup in Hin as [i Hi].
  eapply Forall2_lookup_r in Hm as (c & _ & Hz); [|exact Hi].
  unfold _zone_from_cluster in Hz. split_match_in Hz; [by guards|]. guards.
  destruct v as [[lo hi] w] || idtac. repeat split_match_in Hz; guards.
  select (Some _ = Some _) (fun H => injection H as ->). eexists _, _, _, _. eassumption.
Qed.

(** Every zone derived comes out of the constructor. *)
Lemma derive_zones_wf candles rules zs :
  derive_support_zones candles rules = Ok zs -> Forall zone_wf zs.
Proof.
  intros H. eapply Forall_impl; [by apply derive_zones_made|]. intros z (o & lo & hi & w & Hm).
  unfold make_zone in Hm. guards.
  select (SupportZone.new _ _ _ _ _ _ _ _ _ _ _ _ _ _ _ = _) (fun H => by apply new_SupportZone_Ok in H as [? _]).
Qed.

(** *** The default rules never raise *)

(** A candle whose low is a price of at most 28 digits, not below 2E-18. *)
Definition priced (c : OhlcvCandle) : Prop :=
  dfits (low_price c) /\ (Dec 2 (-18) <=? low_price c)%dec = true.

Lemma default_padding : ddiv (zone_padding_bps default_zone_rules) BPS = Ok (Dec 2 (-3)).
Proof. vm_compute. reflexivity. Qed.
Lemma padding_low : dsub d1 (Dec 2 (-3)) = Dec 998 (-3).
Proof. vm_compute. reflexivity. Qed.
Lemma padding_high : dadd d1 (Dec 2 (-3)) = Dec 1002 (-3).
Proof. vm_compute. reflexivity. Qed.

Lemma dec_998_val : (dval (Dec 998 (-3)) == 998 # 1000)%Q.
Proof. reflexivity. Qed.
Lemma dec_1002_val : (dval (Dec 1002 (-3)) == 1002 # 1000)%Q.
Proof. reflexivity. Qed.

(** A padded low is strictly below the price it is made from, rounding included. *)
Lemma shrink_lt c : dfits c -> (0 < dval c)%Q -> (dval (dmul c (Dec 998 (-3))) < dval c)%Q.
Proof.
  intros Hf Hpos. pose proof (dmul_rounded c (Dec 998 (-3))) as Hr. rewrite dec_998_val in Hr.
  destruct c as [m e]. assert (0 < m) as Hm by (by apply (dval_sign (Dec m e))).
  unfold dfits in Hf. simpl in Hf. pose proof (pw_pos e) as Hpe.
  destruct (Z.le_gt_cases 500 m) as [Hbig|Hsmall].
  - apply Qle_lt_trans with (dval (Dec (m - 1) e)).
    + apply (rounded_le _ _ _ Hr); [unfold dfits; simpl; lia|]. unfold dval; simpl.
      assert (998 * m <= 1000 * (m - 1)) as H by lia.
      rewrite Zle_Qle, !inject_Z_mult in H. change (inject_Z 998) with 998%Q in H.
      change (inject_Z 1000) with 1000%Q in H. nra.
    + unfold dval; simpl. apply Qmult_lt_r; [done|]. rewrite <- Zlt_Qlt. lia.
  - assert (pw e == 1000 * pw (e - 3))%Q as E.
    { replace e with (3 + (e - 3)) at 1 by lia. rewrite pw_plus. reflexivity. }
    pose proof (pw_pos (e - 3)) as Hp3.
    apply Qle_lt_trans with (dval (Dec (1000 * m - 1) (e - 3))).
    + apply (rounded_le _ _ _ Hr); [unfold dfits; simpl; lia|]. unfold dval; simpl (dm _); simpl (de _).
      rewrite E. assert (998 * m <= 1000 * m - 1) as H by lia.
      rewrite Zle_Qle in H. set (X := 1000 * m - 1) in *. rewrite inject_Z_mult in H.
      change (inject_Z 998) with 998%Q in H. nra.
    + unfold dval; simpl (dm _); simpl (de _). rewrite E.
      assert (1000 * m - 1 < 1000 * m) as H by lia. rewrite Zlt_Qlt in H.
      set (X := 1000 * m - 1) in *. rewrite inject_Z_mult in H. change (inject_Z 1000) with 1000%Q in H. nra.
Qed.

Lemma grow_ge c : dfits c -> (0 < dval c)%Q -> (dval c <= dval (dmul c (Dec 1002 (-3))))%Q.
Proof.
  intros Hf Hpos. pose proof (dmul_rounded c (Dec 1002 (-3))) as Hr. rewrite dec_1002_val in Hr.
  apply (rounded_ge _ _ _ Hr Hf). lra.
Qed.

Lemma shrink_ge c : (Dec 2 (-18) <=? c)%dec = true ->
  (minimum_price <=? dmul c (Dec 998 (-3)))%dec = true.
Proof.
  intros Hc. rewrite dle_val in *. pose proof (dmul_rounded c (Dec 998 (-3))) as Hr.
  rewrite dec_998_val in Hr. apply (rounded_ge _ _ _ Hr); [by vm_compute|].
  rewrite minimum_price_val. change (dval (Dec 2 (-18))) with (2 # 1000000000000000000)%Q in Hc. lra.
Qed.

Lemma dint_nonneg z : 0 <= z -> (0 <= dval (dint z))%Q.
Proof. intros Hz. rewrite dval_int. rewrite Zle_Qle in Hz. done. Qed.

Lemma dadd_nonneg a b : (0 <= dval a -> 0 <= dval b -> 0 <= dval (dadd a b))%Q.
Proof. intros. eapply rounded_nonneg; [apply dadd_rounded|lra]. Qed.

Lemma dmul_nonneg a b : (0 <= dval a -> 0 <= dval b -> 0 <= dval (dmul a b))%Q.
Proof. intros. eapply rounded_nonneg; [apply dmul_rounded|]. by apply Qmult_le_0_compat. Qed.

Lemma ddiv_nonneg a b q : ddiv a b = Ok q -> (0 <= dval a -> 0 < dval b -> 0 <= dval q)%Q.
Proof.
  intros Hq Ha Hb. eapply rounded_nonneg; [by apply ddiv_rounded|].
  apply Qle_shift_div_l; lra.
Qed.

(** The strength is a percentage whenever it can be computed, and it can. *)
Lemma strength_of_ok touches rejections recency :
  0 <= touches -> 0 <= rejections -> (0 <= dval recency)%Q ->
  exists s, strength_of touches rejections recency = Ok s /\
    (d0 <=? s)%dec = true /\ (s <=? dint 100)%dec = true.
Proof.
  intros Ht Hj Hrec. unfold strength_of.
  set (x := dadd _ _). assert (0 <= dval x)%Q as Hx.
  { unfold x. repeat apply dadd_nonneg; try (apply dint_nonneg; lia).
    apply dmul_nonneg; [done|]. apply dint_nonneg; lia. }
  set (y := py_min2 (dint 100) x).
  assert (dval y <= 100)%Q as Hy1.
  { pose proof (py_min2_le (dint 100) x) as [H _]. rewrite dle_val in H. exact H. }
  assert (0 <= dval y)%Q as Hy0.
  { destruct (py_min2_or (dint 100) x) as [E|E]; unfold y; rewrite E; [done|exact Hx]. }
  destruct (dquantize_ok y (-2)) as [q Hq].
  { apply Qabs_Qlt_condition. change (pw (-2)) with (1 # 100)%Q.
    change (inject_Z (10 ^ 28 - 1)) with (9999999999999999999999999999 # 1)%Q. split; lra. }
  exists q. split; [done|]. rewrite !dle_val.
  destruct (dquantize_rounded y (-2) q d0 Hq ltac:(simpl; lia)) as [_ H0].
  destruct (dquantize_rounded y (-2) q (dint 100) Hq ltac:(simpl; lia)) as [H1 _].
  split; [by apply H0|by apply H1].
Qed.

Lemma mapM_total {A B} (f : A -> res B) l :
  Forall (fun x => exists y, f x = Ok y) l -> exists k, mapM f l = Ok k /\ length k = length l.
Proof.
  induction 1 as [|x l [y Hy] _ (k & Hk & Hlen)]; simpl; [by exists []|].
  rewrite Hy, Hk. exists (y :: k). split; [done|simpl; lia].
Qed.

Section default_rules.
Context (candles : list OhlcvCandle) (Hcs : candles_wf candles).
Context (Hwf : Forall candle_wf candles) (Hpr : Forall priced candles).
Let rules := default_zone_rules.
Let Hr : zone_rules_wf rules := default_zone_rules_wf.

Lemma candle_low_pos c : c ∈ candles -> (0 < dval (low_price c))%Q.
Proof.
  intros Hc. rewrite Forall_forall in Hwf. destruct (wf_positive _ (Hwf c Hc)) as (_&_&H&_).
  by rewrite dlt_val in H.
Qed.

Lemma zone_bounds_total ordered :
  ordered <> [] -> (forall p, p ∈ ordered -> candle p ∈ candles) ->
  exists lo hi w, zone_bounds ordered rules = Ok (lo, hi, w) /\
    (minimum_price <=? lo)%dec = true /\ (lo <? hi)%dec = true /\ (0 <= dval w)%Q.
Proof.
  intros Hne Hin. unfold zone_bounds.
  destruct (py_min_ok (price <$> ordered)) as [lo Hlo]; [by intros ?%fmap_nil_inv|].
  destruct (py_max_ok (price <$> ordered)) as [hi Hhi]; [by intros ?%fmap_nil_inv|].
  rewrite Hlo, Hhi. bind_ok. unfold rules. rewrite default_padding. bind_ok.
  rewrite padding_low, padding_high.
  apply py_min_Ok in Hlo as [Hlo Hmin]. apply py_max_Ok in Hhi as [Hhi _].
  specialize (Hmin hi Hhi). rewrite dle_val in Hmin.
  apply list_elem_of_fmap in Hlo as (pl & -> & Hpl). apply list_elem_of_fmap in Hhi as (ph & -> & Hph).
  pose proof (proj1 (Forall_forall _ _) Hpr) as Hpr'.
  destruct (Hpr' _ (Hin _ Hpl)) as [Hlf Hlm]. destruct (Hpr' _ (Hin _ Hph)) as [Hhf _].
  pose proof (candle_low_pos _ (Hin _ Hpl)) as Hlp. pose proof (candle_low_pos _ (Hin _ Hph)) as Hhp.
  pose proof (shrink_lt _ Hlf Hlp) as Hz1. pose proof (grow_ge _ Hhf Hhp) as Hz2.
  pose proof (shrink_ge _ Hlm) as Hz3. unfold price in *.
  set (zlo := dmul (low_price (candle pl)) (Dec 998 (-3))) in *.
  set (zhi := dmul (low_price (candle ph)) (Dec 1002 (-3))) in *.
  assert (0 < dval zlo)%Q as Hz0.
  { pose proof Hz3 as H. rewrite dle_val, minimum_price_val in H. lra. }
  assert (0 < dval (dadd zlo zhi))%Q as Hsum by (eapply rounded_pos; [apply dadd_rounded|lra]).
  destruct (ddiv_pos_ok (dadd zlo zhi) (dint 2)) as [mid Hmid]; [done|]. rewrite Hmid. bind_ok.
  assert (0 < dval mid)%Q as Hmp.
  { eapply rounded_pos; [by apply ddiv_rounded|]. rewrite dval_int.
    change (inject_Z 2) with 2%Q. apply Qlt_shift_div_l; lra. }
  destruct (ddiv_pos_ok (dsub zhi zlo) mid Hmp) as [width Hwidth]. rewrite Hwidth. bind_ok.
  exists zlo, zhi, (dmul width BPS). split_and!; [done|done|rewrite dlt_val; lra|].
  apply dmul_nonneg; [|done]. eapply ddiv_nonneg; [exact Hwidth| |done].
  eapply rounded_nonneg; [apply dsub_rounded|lra].
Qed.

Lemma is_rejection_total p : candle p ∈ candles -> exists b, is_rejection rules p = Ok b.
Proof.
  intros Hp. unfold is_rejection, price.
  destruct (ddiv_pos_ok (dsub (close_price (candle p)) (low_price (candle p))) (low_price (candle p)))
    as [q ->]; [by apply candle_low_pos|]. by eexists.
Qed.

Lemma width_text_total w : (0 <= dval w)%Q -> (maximum_zone_width_bps rules <? w)%dec = false ->
  exists t, dquantize w (-2) = Ok t.
Proof.
  intros Hw0 Hw. rewrite dlt_false in Hw. apply dquantize_ok, Qabs_Qlt_condition.
  change (pw (-2)) with (1 # 100)%Q.
  change (inject_Z (10 ^ 28 - 1)) with (9999999999999999999999999999 # 1)%Q.
  change (dval (maximum_zone_width_bps rules)) with (180 # 1)%Q in Hw. split; lra.
Qed.

Section cluster.
Context (cluster : list _PivotLow) (Hgood : Forall (good_pivot candles rules) cluster).
Context (Hnd : NoDup (index <$> cluster)) (Htc : 2 <= Z.of_nat (length cluster)).
Let ordered := py_sorted (fun p => open_time (candle p)) cluster.

Lemma ordered_in p : p ∈ ordered -> good_pivot candles rules p /\ candle p ∈ candles.
Proof.
  intros Hp. unfold ordered in Hp. rewrite py_sorted_perm in Hp.
  pose proof (proj1 (Forall_forall _ _) Hgood p Hp) as Hg. split; [done|].
  by eapply list_elem_of_lookup_2, good_pivot_lookup.
Qed.

Lemma ordered_ends : exists first final,
  py_index ordered 0 = Ok first /\ py_index ordered (length ordered - 1) = Ok final /\
  first ∈ ordered /\ final ∈ ordered /\ (index first <= index final)%nat.
Proof.
  assert (length ordered = length cluster) as Hlen by (unfold ordered; by rewrite py_sorted_perm).
  destruct (lookup_lt_is_Some_2 ordered 0) as [first Hfirst]; [lia|].
  destruct (lookup_lt_is_Some_2 ordered (length ordered - 1)) as [final Hfinal]; [lia|].
  pose proof (list_elem_of_lookup_2 _ _ _ Hfirst) as Hfi.
  exists first, final. rewrite !py_index_Ok. split_and!; try done.
  - by eapply list_elem_of_lookup_2.
  - by eapply (ordered_last_max candles rules).
Qed.

Lemma evidence_sorted : StronglySorted Z.lt (utc <$> ((fun p => open_time (candle p)) <$> ordered)).
Proof.
  pose proof (ordered_sorted candles rules Hcs Hwf cluster Hgood Hnd) as Hs. fold ordered in Hs.
  assert (Forall (good_pivot candles rules) ordered) as Hg.
  { apply Forall_forall. intros p Hp. by apply ordered_in. }
  clear -Hs Hg Hcs Hwf. induction Hs as [|p l Hs IH Hp]; simpl; constructor.
  - apply IH. by apply Forall_cons in Hg as [_ ?].
  - apply Forall_cons in Hg as [Hgp Hg]. rewrite !Forall_fmap. rewrite Forall_forall in *.
    intros q Hq. simpl. eapply (open_lookup_lt candles Hcs Hwf); [by eapply good_pivot_lookup| |by apply Hp].
    by eapply good_pivot_lookup, Hg.
Qed.

Lemma make_zone_total lo hi w :
  (minimum_price <=? lo)%dec = true -> (lo <? hi)%dec = true ->
  (0 <= dval w)%Q -> (maximum_zone_width_bps rules <? w)%dec = false ->
  exists z, make_zone ordered candles rules lo hi w = Ok z.
Proof.
  intros Hlo Hlh Hw0 Hw. unfold make_zone.
  assert (length ordered = length cluster) as Hlen by (unfold ordered; by rewrite py_sorted_perm).
  destruct (mapM_total (is_rejection rules) ordered) as (rej & -> & Hrl).
  { apply Forall_forall. intros p Hp. by apply is_rejection_total, ordered_in. }
  destruct ordered_ends as (first & final & -> & -> & Hfi & Hfa & Hle). bind_ok.
  apply ordered_in in Hfi as [Hgfi Hfi]. apply ordered_in in Hfa as [Hgfa Hfa].
  assert (0 < length candles)%nat as Hcl.
  { destruct candles; [by apply elem_of_nil in Hfi|simpl; lia]. }
  assert (0 < dval (dint (Z.of_nat (length candles))))%Q as Hclp.
  { rewrite dval_int, <- (Zlt_Qlt 0). lia. }
  destruct (ddiv_pos_ok (dint (Z.of_nat (index final) + 1)) _ Hclp) as [rec Hrec].
  rewrite Hrec. bind_ok.
  pose proof (count_where_nonneg (fun b : bool => b) rej) as Hc0.
  pose proof (count_where_le_length (fun b : bool => b) rej) as Hc1.
  destruct (strength_of_ok (Z.of_nat (length ordered)) (count_where (fun b : bool => b) rej) rec)
    as (st & -> & Hst0 & Hst1); [lia|lia| |].
  { eapply ddiv_nonneg; [exact Hrec|apply dint_nonneg; lia|done]. }
  bind_ok.
  destruct (good_pivot_confirmation candles rules Hr Hcs Hwf final Hgfa) as (conf & Hconf & _).
  rewrite (proj2 (py_index_Ok _ _ _) Hconf). bind_ok.
  destruct (width_text_total w Hw0 Hw) as [wt ->]. bind_ok.
  pose proof (proj1 (Forall_forall _ _) Hwf _ Hfi) as Hcf.
  pose proof (good_pivot_lookup candles rules first Hgfi) as Hlfi.
  pose proof (good_pivot_lookup candles rules final Hgfa) as Hlfa.
  apply new_SupportZone_total; try done; try lia.
  - unfold _zone_id. rewrite hash_id_strip by (done || by split). apply hash_id_nonempty.
  - destruct (wf_symbol _ Hcf) as [-> ?]. done.
  - destruct candles as [|f l]; [by apply elem_of_nil in Hfi|].
    destruct Hcs as (Hi & Hs & _). rewrite Forall_forall in Hs.
    destruct (Hs _ Hfi) as (_ & _ & ->). done.
  - eapply (close_lookup_le candles Hcs Hwf); [exact Hlfi|exact Hconf|lia].
  - eapply (close_lookup_le candles Hcs Hwf); [exact Hlfi|exact Hlfa|lia].
  - by rewrite length_fmap.
  - apply evidence_sorted.
Qed.

Lemma zone_from_cluster_total : exists oz, _zone_from_cluster cluster candles rules = Ok oz.
Proof.
  unfold _zone_from_cluster. destruct (_ <? _); [by eexists|]. fold ordered.
  assert (length ordered = length cluster) as Hlen by (unfold ordered; by rewrite py_sorted_perm).
  destruct (zone_bounds_total ordered) as (lo & hi & w & -> & Hlo & Hlh & Hw).
  { intros E. rewrite E in Hlen. simpl in Hlen. lia. }
  { intros p Hp. by apply ordered_in. }
  bind_ok. destruct (_ <? w)%dec eqn:E; [by eexists|].
  destruct (make_zone_total lo hi w) as [z ->]; [done..|]. by eexists.
Qed.
End cluster.
End default_rules.

(** *** The whole derivation *)

Lemma separated_nodup rules ps : zone_rules_wf rules ->
  StronglySorted (fun p q => separated rules q p) ps -> NoDup (index <$> ps).
Proof.
  intros Hr. induction 1 as [|p l Hs IH Hp]; simpl; constructor; [|done].
  intros (q & E & Hq)%list_elem_of_fmap. rewrite Forall_forall in Hp.
  specialize (Hp q Hq). unfold separated in Hp. pose proof (zr_separation _ Hr). lia.
Qed.

(** Every cluster holds good pivots with distinct indices. *)
Lemma clusters_good candles rules ps cs :
  Forall (good_pivot candles rules) ps -> NoDup (index <$> ps) ->
  _cluster_pivots ps rules = Ok cs ->
  Forall (fun c => c <> [] /\ Forall (good_pivot candles rules) c /\ NoDup (index <$> c)) cs.
Proof.
  intros Hg Hnd (_ & Hperm & Hne)%cluster_pivots_partition.
  rewrite <- Hperm in Hg. rewrite <- Hperm in Hnd. clear Hperm.
  induction Hne as [|c cs Hc Hne IH]; [constructor|]. simpl in *.
  rewrite Forall_app in Hg. rewrite fmap_app, NoDup_app in Hnd.
  destruct Hnd as (Hnd & _ & Hnd'). constructor; [naive_solver|]. apply IH; naive_solver.
Qed.

Lemma find_pivots_good candles rules ps : zone_rules_wf rules ->
  _find_pivots candles rules = Ok ps ->
  Forall (good_pivot candles rules) ps /\ NoDup (index <$> ps).
Proof.
  intros Hr Hps. destruct (find_pivots_spec candles rules Hr) as (ps' & E & Hg & Hs).
  rewrite Hps in E. injection E as <-. split; [done|by eapply separated_nodup].
Qed.

(** Whatever the candles, valid rules find pivots without raising; every pivot is
    a local low (its low is at most every low of both windows and strictly below all of
    one of them), lies where both windows are complete, and any two pivots are at least
    [minimum_touch_separation] bars apart. *)
Theorem pivots_are_separated_local_lows candles rules :
  zone_rules_wf rules ->
  exists ps, _find_pivots candles rules = Ok ps /\
    Forall (fun p => pivot_range candles rules (index p) /\
                     local_low candles rules (index p) (candle p)) ps /\
    StronglySorted (fun p q => separated rules q p) ps.
Proof. apply find_pivots_spec. Qed.

Definition day (i low close : Z) : OhlcvCandle :=
  MkCandle CandleSource.BYBIT CandleRole.STRUCTURE_DATA "linear" "BTCUSDT" CandleInterval.D1
    (Aware (days i) 0) (Aware (days (i + 1)) 0)
    (dint close) (dint (close + 5)) (dint low) (dint close) (dint 100) (dint 1000).

(** Two dips to 1000 and 1002, a candle apart from their neighbours. *)
Definition two_dips : list OhlcvCandle :=
  [day 0 1050 1060; day 1 1040 1050; day 2 1000 1030; day 3 1040 1050; day 4 1050 1060;
   day 5 1040 1050; day 6 1002 1030; day 7 1040 1050; day 8 1050 1060].

Lemma pivots_are_separated_local_lows_witness :
  zone_rules_wf default_zone_rules /\
  exists ps, _find_pivots two_dips default_zone_rules = Ok ps /\
    Forall (fun p => pivot_range two_dips default_zone_rules (index p) /\
                     local_low two_dips default_zone_rules (index p) (candle p)) ps /\
    StronglySorted (fun p q => separated default_zone_rules q p) ps.
Proof.
  split; [exact default_zone_rules_wf|].
  exact (pivots_are_separated_local_lows two_dips default_zone_rules default_zone_rules_wf).
Defined.

Example two_dips_pivots :
  (fun ps => map index ps) <$> _find_pivots two_dips default_zone_rules = Ok [2%nat; 6%nat].
Proof. vm_compute. reflexivity. Qed.

(** C35: clustering loses and invents nothing: the clusters, in order, are the pivots
    sorted by price and time, cut into non-empty runs; with positive prices it never
    raises. *)
Theorem clusters_partition_pivots ps rules :
  Forall (fun p => (d0 <? price p)%dec = true) ps ->
  exists cs, _cluster_pivots ps rules = Ok cs /\
    concat cs = py_sorted price_time ps /\ concat cs ≡ₚ ps /\ Forall (fun c => c <> []) cs.
Proof.
  intros Hpos. destruct (cluster_loop_ok rules (py_sorted price_time ps) []) as [cs Hcs].
  { by rewrite py_sorted_perm. }
  { constructor. }
  assert (_cluster_pivots ps rules = Ok (reverse cs)) as H.
  { unfold _cluster_pivots. fold price_time. change (fun p => (price p, open_time (candle p))) with price_time.
    by rewrite Hcs. }
  exists (reverse cs). split; [done|by apply cluster_pivots_partition in H].
Qed.

Lemma clusters_partition_pivots_witness :
  let ps := [MkPivot 2 (day 2 1000 1030); MkPivot 6 (day 6 1002 1030)] in
  exists cs, _cluster_pivots ps default_zone_rules = Ok cs /\
    concat cs = py_sorted price_time ps /\ concat cs ≡ₚ ps /\ Forall (fun c => c <> []) cs.
Proof.
  apply (clusters_partition_pivots [MkPivot 2 (day 2 1000 1030); MkPivot 6 (day 6 1002 1030)]
    default_zone_rules).
  repeat constructor.
Defined.

(** C6: every zone returned is well formed (low below high, strength in 0..100, at
    least [minimum_touches] distinct chronological touches), was made from local lows,
    and is confirmed only when the right window of each of its pivots has closed, at the
    close of a candle of the input: no look-ahead.  The zones are in decreasing order
    and at most [maximum_zones]. *)
Theorem derive_support_zones_sound candles rules zs :
  zone_rules_wf rules -> Forall candle_wf candles ->
  derive_support_zones candles (Some rules) = Ok zs ->
  Z.of_nat (length zs) <= maximum_zones rules /\
  StronglySorted (key_ge zone_key) zs /\
  Forall (fun z => exists cluster, Forall (good_pivot candles rules) cluster /\
                                   zone_of candles rules cluster z) zs.
Proof.
  intros Hr Hwf H. unfold derive_support_zones in H. guards. subst zs. simpl in *.
  select (_validate_candles _ = _) (fun H => apply _validate_candles_Ok in H as Hcs).
  select (_find_pivots _ _ = _) (fun H => apply (find_pivots_good _ _ _ Hr) in H as [Hg Hnd]).
  select (_cluster_pivots _ _ = _) (fun H => apply (clusters_good _ _ _ _ Hg Hnd) in H as Hc).
  select (mapM _ _ = _) (fun H => apply mapM_Ok in H as Hm).
  pose proof (zr_maximum _ Hr). split_and!.
  - rewrite length_take. lia.
  - set (l := py_sorted_rev _ _). pose proof (py_sorted_rev_sorted zone_key (omap (fun z : option SupportZone.t => z) v2)) as Hs.
    fold l in Hs. rewrite <- (take_drop (Z.to_nat (maximum_zones rules)) l) in Hs.
    by apply StronglySorted_app in Hs as (_ & ? & _).
  - apply Forall_take. rewrite py_sorted_rev_perm. apply Forall_forall. intros z Hz.
    apply list_elem_of_omap in Hz as (oz & Hin & ->).
    apply list_elem_of_lookup in Hin as [i Hi].
    eapply Forall2_lookup_r in Hm as (c & Hci & Hz); [|exact Hi].
    rewrite Forall_forall in Hc. destruct (Hc c (list_elem_of_lookup_2 _ _ _ Hci)) as (_ & Hgc & Hndc).
    exists c. split; [done|]. by eapply zone_from_cluster_sound.
Qed.

Lemma two_dips_wf : Forall candle_wf two_dips.
Proof.
  repeat constructor; try (vm_compute; reflexivity); try (vm_compute; congruence); simpl; set_solver.
Qed.

Lemma derive_support_zones_sound_witness :
  exists zs, derive_support_zones two_dips (Some default_zone_rules) = Ok zs /\ length zs = 1%nat /\
  Forall (fun z => exists cluster, Forall (good_pivot two_dips default_zone_rules) cluster /\
                                   zone_of two_dips default_zone_rules cluster z) zs.
Proof.
  destruct (derive_support_zones two_dips (Some default_zone_rules)) as [zs|] eqn:E.
  - exists zs. split_and!; [reflexivity| |].
    + apply (f_equal (fun r => match r with Ok l => length l | Err _ => O end)) in E.
      rewrite <- E. vm_compute. reflexivity.
    + apply (derive_support_zones_sound two_dips default_zone_rules zs
        default_zone_rules_wf two_dips_wf E).
  - apply (f_equal is_ok) in E. vm_compute in E. discriminate E.
Defined.

(** With the default rules the derivation never raises on chronological Daily or
    4H candles of one market whose lows are prices of at most 28 digits not below 2E-18:
    no division by zero, no failed quantisation, no zone rejected by its own checks. *)
Theorem derive_support_zones_total candles :
  candles_wf candles -> Forall candle_wf candles -> Forall priced candles ->
  exists zs, derive_support_zones candles None = Ok zs.
Proof.
  intros Hcs Hwf Hpr. unfold derive_support_zones. cbn [default].
  rewrite (proj2 (_validate_candles_Ok candles) Hcs). bind_ok.
  destruct (find_pivots_spec candles _ default_zone_rules_wf) as (ps & Hps & Hg & Hs).
  pose proof (separated_nodup _ _ default_zone_rules_wf Hs) as Hnd.
  change (from_option id default_zone_rules None) with default_zone_rules. rewrite Hps. bind_ok.
  assert (Forall (fun p => (d0 <? price p)%dec = true) ps) as Hpos.
  { eapply Forall_impl; [exact Hg|]. intros p (_ & Hl & _). apply list_elem_of_lookup_2 in Hl.
    apply (proj1 (Forall_forall _ _) Hwf) in Hl. by destruct (wf_positive _ Hl) as (_&_&?&_). }
  destruct (cluster_loop_ok default_zone_rules (py_sorted price_time ps) []) as [cs' Hcs'].
  { by rewrite py_sorted_perm. } { constructor. }
  assert (_cluster_pivots ps default_zone_rules = Ok (reverse cs')) as Hc.
  { unfold _cluster_pivots. change (fun p => (price p, open_time (candle p))) with price_time.
    by rewrite Hcs'. }
  rewrite Hc. bind_ok. apply (clusters_good _ _ _ _ Hg Hnd) in Hc.
  destruct (mapM_total (fun cluster => _zone_from_cluster cluster candles default_zone_rules) (reverse cs'))
    as (zs & -> & _); [|bind_ok; by eexists].
  eapply Forall_impl; [exact Hc|]. intros c (Hne & Hgc & Hndc). cbv beta.
  destruct (Z.ltb_spec (Z.of_nat (length c)) 2).
  - exists None. unfold _zone_from_cluster. rewrite (proj2 (Z.ltb_lt _ _)); [done|simpl; lia].
  - by apply zone_from_cluster_total.
Qed.

Lemma derive_support_zones_total_witness : exists zs, derive_support_zones two_dips None = Ok zs.
Proof.
  apply derive_support_zones_total; [|exact two_dips_wf|].
  - apply _validate_candles_Ok. vm_compute. reflexivity.
  - repeat constructor; vm_compute; reflexivity.
Defined.
