(* ===== verification/StructureEvents.v ===== *)
(** * Structure events: [structure/structure_events.py]

    The events a support zone goes through as candles close: a pending break, a
    confirmed break, its reclaim (a fake break when it is quick), or the
    invalidation of an old zone.  [build_structure_events] is a loop over the
    candles with a [break]; its local variables are the record [progress], and the
    events are produced in order. *)

From stdpp Require Import list strings sorting.
From Stdlib Require Import QArith Qabs Lqa.
From S2P Require Import Prelude PyList PyStr PyDecimal DecimalFacts PyTime Sha256 Candles HtfModels.
Open Scope Z_scope.

Definition BPS : dec := dint 10000.

Record StructureEventRules : Type := MkEventRules {
  minimum_break_distance_bps : dec;
  minimum_break_body_fraction : dec;
  fake_break_max_bars : Z;
  maximum_zone_age_bars : Z;
  volume_lookback : Z }.

Definition new_StructureEventRules (distance body : pydec) (fake age lookback : Z)
    : res StructureEventRules :=
  distance ← match distance with
             | Finite d => raise_if (d <? d0)%dec "minimum_break_distance_bps must be non-negative" ;; mret d
             | _ => Err (ValueError "minimum_break_distance_bps must be non-negative")
             end;
  body ← match body with
         | Finite b =>
             raise_if ((b <? d0) || (b >? d1))%dec
               "minimum_break_body_fraction must be between zero and one" ;; mret b
         | _ => Err (ValueError "minimum_break_body_fraction must be between zero and one")
         end;
  raise_if (fake <? 1) "fake_break_max_bars must be positive" ;;
  raise_if (age <? 1) "maximum_zone_age_bars must be positive" ;;
  raise_if (lookback <? 1) "volume_lookback must be positive" ;;
  mret (MkEventRules distance body fake age lookback).

(** [StructureEventRules()] *)
Definition default_event_rules : StructureEventRules :=
  MkEventRules (dint 10) (Dec 45 (-2)) 3 100 5.

Fixpoint _validate_from (zone : SupportZone.t) (previous : option aware)
    (candles : list OhlcvCandle) : res unit :=
  match candles with
  | [] => mret tt
  | c :: candles' =>
      raise_if (negb (bool_decide (source c = SupportZone.source zone)) ||
                negb (bool_decide (symbol c = SupportZone.symbol zone)) ||
                negb (bool_decide (interval c = SupportZone.interval zone)))
        "candle does not match support zone" ;;
      raise_if (match previous with Some p => py_le (open_time c) p | None => false end)
        "candles must be strictly chronological" ;;
      _validate_from zone (Some (open_time c)) candles'
  end.

Definition _validate_inputs (zone : SupportZone.t) (candles : list OhlcvCandle) : res unit :=
  _validate_from zone None candles.

Definition _body_fraction (c : OhlcvCandle) : res dec :=
  let candle_range := dsub (high_price c) (low_price c) in
  if (candle_range =? d0)%dec then mret d0
  else
    q ← ddiv (dabs (dsub (close_price c) (open_price c))) candle_range;
    dquantize q (-4).

Definition _volume_ratio (candles : list OhlcvCandle) (index : nat) (lookback : Z)
    : res (option dec) :=
  let start := (index - Z.to_nat lookback)%nat in
  let history := py_slice start index candles in
  match history with
  | [] => mret None
  | _ =>
      average ← ddiv (dsum (volume <$> history)) (dint (Z.of_nat (length history)));
      if (average =? d0)%dec then mret None
      else
        current ← py_index candles index;
        q ← ddiv (volume current) average;
        Some <$> dquantize q (-4)
  end.

Definition _event_id (zone_id : string) (c : OhlcvCandle) (state : StructureEventState.t) : string :=
  hash_id "event_" [zone_id; isoformat (open_time c); isoformat (close_time c);
                    StructureEventState.value state].

Definition _event (zone : SupportZone.t) (c : OhlcvCandle) (state : StructureEventState.t)
    (distance_bps body_fraction : dec) (volume_ratio : option dec)
    (invalidates_event_id : option string) (reasons : list string) : res StructureEvent.t :=
  let event_id := _event_id (SupportZone.zone_id zone) c state in
  distance ← dquantize distance_bps (-2);
  StructureEvent.new event_id (SupportZone.zone_id zone) (SupportZone.source zone)
    (SupportZone.symbol zone) (SupportZone.interval zone) state
    (AwareDT (close_time c)) (AwareDT (open_time c)) (Finite (close_price c))
    (Finite (SupportZone.low zone)) (Finite (SupportZone.high zone)) (Finite distance)
    (Finite body_fraction) (Finite <$> volume_ratio) invalidates_event_id reasons.

(** The loop's variables: [confirmed_index] with [confirmed_event_id], and
    [pending_emitted]. *)
Record progress : Type := Progress {
  confirmed : option (nat * string);
  pending_emitted : bool }.

(** What one candle does: the event it appends, the next variables, and whether the
    loop breaks. *)
Record outcome : Type := Outcome {
  emitted : option StructureEvent.t;
  next : progress;
  stop : bool }.

(** The branch taken while no break is confirmed. *)
Definition before_break (zone : SupportZone.t) (rules : StructureEventRules) (index : nat)
    (c : OhlcvCandle) (p : progress) (body_fraction : dec) (volume_ratio : option dec)
    : res outcome :=
  if (close_price c <? SupportZone.low zone)%dec then
    ratio ← ddiv (dsub (SupportZone.low zone) (close_price c)) (SupportZone.low zone);
    let distance_bps := dmul ratio BPS in
    let confirms := ((distance_bps >=? minimum_break_distance_bps rules) &&
                     (body_fraction >=? minimum_break_body_fraction rules))%dec in
    if confirms then
      event ← _event zone c StructureEventState.CONFIRMED_BREAK distance_bps body_fraction
                volume_ratio None
                ["CLOSE_BELOW_SUPPORT_ZONE"; "BREAK_DISTANCE_CONFIRMED"; "BREAK_BODY_CONFIRMED"];
      mret (Outcome (Some event)
              (Progress (Some (index, StructureEvent.event_id event)) (pending_emitted p)) false)
    else if negb (pending_emitted p) then
      event ← _event zone c StructureEventState.PENDING_BREAK distance_bps body_fraction
                volume_ratio None
                ["CLOSE_BELOW_SUPPORT_ZONE"; "BREAK_CONFIRMATION_INCOMPLETE"];
      mret (Outcome (Some event) (Progress (confirmed p) true) false)
    else mret (Outcome None p false)
  else if maximum_zone_age_bars rules <? Z.of_nat index + 1 then
    event ← _event zone c StructureEventState.INVALIDATED d0 body_fraction volume_ratio None
              ["SUPPORT_ZONE_EXPIRED_WITHOUT_BREAK"];
    mret (Outcome (Some event) p true)
  else mret (Outcome None p false).

(** The branch taken once a break is confirmed. *)
Definition after_break (zone : SupportZone.t) (rules : StructureEventRules) (index : nat)
    (c : OhlcvCandle) (p : progress) (confirmed_index : nat) (confirmed_event_id : string)
    (body_fraction : dec) (volume_ratio : option dec) : res outcome :=
  if (close_price c >? SupportZone.high zone)%dec then
    let bars_after_break := Z.of_nat index - Z.of_nat confirmed_index in
    let state := if bars_after_break <=? fake_break_max_bars rules
                 then StructureEventState.FAKE_BREAK else StructureEventState.RECLAIMED in
    ratio ← ddiv (dsub (close_price c) (SupportZone.high zone)) (SupportZone.high zone);
    event ← _event zone c state (dmul ratio BPS) body_fraction volume_ratio
              (Some confirmed_event_id)
              ["CLOSE_ABOVE_SUPPORT_ZONE"; "BARS_AFTER_BREAK_" +:+ int_str bars_after_break];
    mret (Outcome (Some event) p true)
  else mret (Outcome None p false).

Definition step (zone : SupportZone.t) (rules : StructureEventRules) (relevant : list OhlcvCandle)
    (index : nat) (c : OhlcvCandle) (p : progress) : res outcome :=
  body_fraction ← _body_fraction c;
  volume_ratio ← _volume_ratio relevant index (volume_lookback rules);
  match confirmed p with
  | None => before_break zone rules index c p body_fraction volume_ratio
  | Some (ci, cid) => after_break zone rules index c p ci cid body_fraction volume_ratio
  end.

Fixpoint event_loop (zone : SupportZone.t) (rules : StructureEventRules)
    (relevant : list OhlcvCandle) (index : nat) (rest : list OhlcvCandle) (p : progress)
    : res (list StructureEvent.t) :=
  match rest with
  | [] => mret []
  | c :: rest' =>
      o ← step zone rules relevant index c p;
      let events := option_list (emitted o) in
      if stop o then mret events
      else
        more ← event_loop zone rules relevant (S index) rest' (next o);
        mret (events ++ more)
  end.

Definition start : progress := Progress None false.

Definition build_structure_events (zone : SupportZone.t) (candles : list OhlcvCandle)
    (rules : option StructureEventRules) : res (list StructureEvent.t) :=
  let active_rules := default default_event_rules rules in
  _validate_inputs zone candles ;;
  let relevant := List.filter (fun c => py_le (SupportZone.confirmed_at zone) (open_time c)) candles in
  event_loop zone active_rules relevant 0 relevant start.

(** ** [evidence_from_events] *)

Definition status_map (s : StructureEventState.t) : TimeframeStructureStatus.t :=
  match s with
  | StructureEventState.PENDING_BREAK => TimeframeStructureStatus.WATCH
  | StructureEventState.CONFIRMED_BREAK => TimeframeStructureStatus.DAMAGED
  | StructureEventState.FAKE_BREAK => TimeframeStructureStatus.RECLAIMED
  | StructureEventState.RECLAIMED => TimeframeStructureStatus.RECLAIMED
  | StructureEventState.INVALIDATED => TimeframeStructureStatus.INVALIDATED
  end.

Definition evidence_from_events (zone : option SupportZone.t) (events : list StructureEvent.t)
    (source : CandleSource.t) (symbol : string) (interval : CandleInterval.t)
    (observed_at : aware) : res TimeframeStructureEvidence.t :=
  match zone with
  | None =>
      TimeframeStructureEvidence.new source symbol interval TimeframeStructureStatus.INSUFFICIENT
        (AwareDT observed_at) None None ["NO_VALID_SUPPORT_ZONE"]
  | Some zone =>
      match last events with
      | None =>
          TimeframeStructureEvidence.new source symbol interval TimeframeStructureStatus.INTACT
            (AwareDT observed_at) (Some (SupportZone.zone_id zone)) None ["SUPPORT_ZONE_INTACT"]
      | Some latest =>
          TimeframeStructureEvidence.new source symbol interval
            (status_map (StructureEvent.state latest))
            (AwareDT (StructureEvent.observed_at latest)) (Some (SupportZone.zone_id zone))
            (Some (StructureEvent.event_id latest))
            (StructureEvent.reasons latest ++
             ["EVENT_STATE_" +:+ StructureEventState.value (StructureEvent.state latest)])
      end
  end.

(** ** Specification: the life of a zone as a step relation

    [run zone rules i candles ph es ph'] says that, from phase [ph] at bar [i], the
    candles may produce exactly the events [es] and leave the zone in [ph']. *)

Inductive phase : Type :=
| Watching
| Pending
| Broken (index : nat) (event_id : string)
| Closed.

Section spec.
Context (zone : SupportZone.t) (rules : StructureEventRules).

(** The close is far enough below the zone with a large enough body. *)
Definition break_confirmed (c : OhlcvCandle) : Prop :=
  exists ratio body,
    ddiv (dsub (SupportZone.low zone) (close_price c)) (SupportZone.low zone) = Ok ratio /\
    _body_fraction c = Ok body /\
    (minimum_break_distance_bps rules <=? dmul ratio BPS)%dec = true /\
    (minimum_break_body_fraction rules <=? body)%dec = true.

Definition closes_below (c : OhlcvCandle) : Prop := (close_price c <? SupportZone.low zone)%dec = true.
Definition closes_above (c : OhlcvCandle) : Prop := (SupportZone.high zone <? close_price c)%dec = true.
Definition expired (i : nat) : Prop := maximum_zone_age_bars rules < Z.of_nat i + 1.

(** No event at bar [i]. *)
Inductive quiet (i : nat) (c : OhlcvCandle) : phase -> Prop :=
| quiet_watching : ~ closes_below c -> ~ expired i -> quiet i c Watching
| quiet_pending : ~ closes_below c -> ~ expired i -> quiet i c Pending
| quiet_unconfirmed : closes_below c -> ~ break_confirmed c -> quiet i c Pending
| quiet_broken j id : ~ closes_above c -> quiet i c (Broken j id).

(** The event [e] is the one of candle [c], in state [s]. *)
Definition event_at (c : OhlcvCandle) (s : StructureEventState.t) (invalidates : option string)
    (e : StructureEvent.t) : Prop :=
  event_wf e /\ StructureEvent.state e = s /\ StructureEvent.candle_open_time e = open_time c /\
  StructureEvent.observed_at e = close_time c /\
  StructureEvent.close_price e = close_price c /\
  StructureEvent.zone_id e = str_strip (SupportZone.zone_id zone) /\
  StructureEvent.event_id e = _event_id (SupportZone.zone_id zone) c s /\
  StructureEvent.invalidates_event_id e = invalidates.

Inductive fires (i : nat) (c : OhlcvCandle) : phase -> StructureEvent.t -> phase -> Prop :=
| fires_pending e :
    closes_below c -> ~ break_confirmed c ->
    event_at c StructureEventState.PENDING_BREAK None e -> fires i c Watching e Pending
| fires_confirmed ph e :
    ph = Watching \/ ph = Pending -> closes_below c -> break_confirmed c ->
    event_at c StructureEventState.CONFIRMED_BREAK None e ->
    fires i c ph e (Broken i (StructureEvent.event_id e))
| fires_invalidated ph e :
    ph = Watching \/ ph = Pending -> ~ closes_below c -> expired i ->
    event_at c StructureEventState.INVALIDATED None e -> fires i c ph e Closed
| fires_fake j id e :
    closes_above c -> Z.of_nat i - Z.of_nat j <= fake_break_max_bars rules ->
    event_at c StructureEventState.FAKE_BREAK (Some id) e -> fires i c (Broken j id) e Closed
| fires_reclaimed j id e :
    closes_above c -> fake_break_max_bars rules < Z.of_nat i - Z.of_nat j ->
    event_at c StructureEventState.RECLAIMED (Some id) e -> fires i c (Broken j id) e Closed.

Inductive run : nat -> list OhlcvCandle -> phase -> list StructureEvent.t -> phase -> Prop :=
| run_nil i ph : run i [] ph [] ph
| run_quiet i c rest ph es ph' :
    quiet i c ph -> run (S i) rest ph es ph' -> run i (c :: rest) ph es ph'
| run_event i c rest ph e ph1 es ph' :
    fires i c ph e ph1 -> ph1 <> Closed -> run (S i) rest ph1 es ph' ->
    run i (c :: rest) ph (e :: es) ph'
| run_close i c rest ph e : fires i c ph e Closed -> run i (c :: rest) ph [e] Closed.
End spec.

(** ** Facts *)

(** A zone id that survives [strip], as every derived one does. *)
Definition clean_id (zone : SupportZone.t) : Prop :=
  str_strip (SupportZone.zone_id zone) = SupportZone.zone_id zone.

Section refinement.
Context (zone : SupportZone.t) (rules : StructureEventRules).

Lemma _event_Ok c s d b v inv rs e :
  _event zone c s d b v inv rs = Ok e -> event_at zone c s inv e.
Proof.
  intros H. unfold _event in H. guards.
  select (StructureEvent.new _ _ _ _ _ _ _ _ _ _ _ _ _ _ _ _ = _)
    (fun H => apply new_StructureEvent_Ok in H as (Hwf&Hs&_&_&_&Hz&Hid&Ho&Hop&Hcl&Hinv&_)).
  unfold _event_id in Hid. rewrite hash_id_strip in Hid by (done || by split).
  unfold event_at, _event_id. split_and!; congruence.
Qed.

Definition phase_of (p : progress) : phase :=
  match confirmed p with
  | Some (j, id) => Broken j id
  | None => if pending_emitted p then Pending else Watching
  end.

(** One iteration of the loop is a quiet step or fires one event. *)
Definition step_spec (i : nat) (c : OhlcvCandle) (p : progress) (o : outcome) : Prop :=
  match emitted o with
  | None => quiet zone rules i c (phase_of p) /\ next o = p /\ stop o = false
  | Some e => if stop o then fires zone rules i c (phase_of p) e Closed
              else fires zone rules i c (phase_of p) e (phase_of (next o)) /\ phase_of (next o) <> Closed
  end.

Lemma before_break_spec i c p b v o :
  confirmed p = None -> _body_fraction c = Ok b ->
  before_break zone rules i c p b v = Ok o -> step_spec i c p o.
Proof.
  intros Hp Hb H. unfold before_break in H.
  assert (phase_of p = Watching /\ pending_emitted p = false \/
          phase_of p = Pending /\ pending_emitted p = true) as Hph.
  { unfold phase_of. rewrite Hp. destruct (pending_emitted p); auto. }
  assert (phase_of p = Watching \/ phase_of p = Pending) as Hwp by tauto.
  destruct (close_price c <? SupportZone.low zone)%dec eqn:Hc.
  - guards. destruct (_ && _)%dec eqn:Hconf; guards.
    + subst o. unfold step_spec; simpl. split; [|done].
      unfold phase_of at 2; simpl. apply fires_confirmed; [done|done| |by eapply _event_Ok].
      eexists _, _. split_and!; eauto.
    + assert (~ break_confirmed zone rules c) as Hno.
      { intros (r' & b' & Hr & Hb' & H1 & H2).
        assert (r' = v0) as -> by congruence. assert (b' = b) as -> by congruence.
        by rewrite H1, H2 in Hconf. }
      destruct (pending_emitted p) eqn:Hpe; simpl in H; guards; subst o; unfold step_spec; simpl.
      * destruct Hph as [[_ ?]|[-> _]]; [done|]. split_and!; try done. by apply quiet_unconfirmed.
      * destruct Hph as [[Hw _]|[_ ?]]; [|done]. rewrite Hw. unfold phase_of; simpl; rewrite Hp.
        split; [|done]. apply fires_pending; [done|done|by eapply _event_Ok].
  - assert (~ closes_below zone c) as Hno by (unfold closes_below; congruence).
    split_match_in H; guards; subst o; unfold step_spec; simpl.
    + apply fires_invalidated; [done|done|done|by eapply _event_Ok].
    + assert (~ expired rules i) by (unfold expired; lia).
      split_and!; try done. destruct Hwp as [-> | ->]; by constructor.
Qed.

Lemma after_break_spec i c p j id b v o :
  confirmed p = Some (j, id) -> after_break zone rules i c p j id b v = Ok o -> step_spec i c p o.
Proof.
  intros Hp H. unfold after_break in H.
  assert (phase_of p = Broken j id) as Hph by (unfold phase_of; by rewrite Hp).
  split_match_in H; guards; subst o; unfold step_spec; simpl; rewrite Hph.
  - select (_event _ _ _ _ _ _ _ _ = _) (fun H => apply _event_Ok in H).
    destruct (Z.leb_spec (Z.of_nat i - Z.of_nat j) (fake_break_max_bars rules)).
    + by apply fires_fake.
    + by apply fires_reclaimed.
  - split_and!; try done. apply quiet_broken. unfold closes_above. congruence.
Qed.

Lemma step_refines relevant i c p o :
  step zone rules relevant i c p = Ok o -> step_spec i c p o.
Proof.
  intros H. unfold step in H. guards. destruct (confirmed p) as [[j id]|] eqn:Hp.
  - by eapply after_break_spec.
  - by eapply before_break_spec.
Qed.

Lemma event_loop_refines relevant i rest p es :
  event_loop zone rules relevant i rest p = Ok es ->
  exists ph, run zone rules i rest (phase_of p) es ph.
Proof.
  revert i p es; induction rest as [|c rest IH]; intros i p es H; simpl in H.
  { guards. subst. eexists. constructor. }
  guards. select (step _ _ _ _ _ _ = _) (fun H => apply step_refines in H as Hs).
  unfold step_spec in Hs. destruct (emitted v) as [e|] eqn:He; simpl in *.
  - destruct (stop v) eqn:Hst; guards.
    + subst es. eexists. by apply run_close.
    + destruct Hs as [Hf Hne].
      select (event_loop _ _ _ _ _ _ = _) (fun H => apply IH in H as [ph Hr]).
      subst es. eexists. by eapply run_event.
  - destruct Hs as (Hq & Hn & Hst). rewrite Hst in H. guards. rewrite Hn in *.
    select (event_loop _ _ _ _ _ _ = _) (fun H => apply IH in H as [ph Hr]).
    subst es. eexists. by eapply run_quiet.
Qed.
End refinement.

(** *** What a run can look like *)

Section runs.
Context (zone : SupportZone.t) (rules : StructureEventRules).
Notation below := (closes_below zone).
Notation above := (closes_above zone).
Notation st := StructureEvent.state.

Definition not_above (c : OhlcvCandle) : Prop := ~ above c.
Definition not_below (c : OhlcvCandle) : Prop := ~ below c.

(** After the break: nothing while no close is above the zone, then one event. *)
Lemma run_broken i l j id es ph :
  run zone rules i l (Broken j id) es ph ->
  (es = [] /\ Forall not_above l) \/
  (exists e, es = [e] /\ (st e = StructureEventState.FAKE_BREAK \/ st e = StructureEventState.RECLAIMED) /\
     StructureEvent.invalidates_event_id e = Some id /\ Exists above l).
Proof.
  intros H. remember (Broken j id) as b eqn:Hb. revert Hb.
  induction H as [i ph|i c rest ph es ph' Hq Hr IH|i c rest ph e ph1 es ph' Hf Hne Hr IH|i c rest ph e Hf];
    intros ->.
  - left. by split.
  - inversion Hq; subst. destruct (IH eq_refl) as [[-> Hl]|(e & -> & Hs & Hi & Hex)].
    + left. split; [done|]. by constructor.
    + right. exists e. split_and!; try done. by apply Exists_cons_tl.
  - inversion Hf; subst; try done; naive_solver.
  - right. exists e. inversion Hf as [| |? ? Hph|j' id' e' Ha Hle (_&Hs&_&_&_&_&Hi)|j' id' e' Ha Hle (_&Hs&_&_&_&_&Hi)];
      subst; try naive_solver; split_and!; auto; by apply Exists_cons_hd.
Qed.

(** Before the break, in phase [Watching] or [Pending]: the four ways to end. *)
Inductive ends (l : list OhlcvCandle) : list StructureEvent.t -> Prop :=
| ends_quiet : ends l []
| ends_invalid e k c :
    l !! k = Some c -> not_below c ->
    st e = StructureEventState.INVALIDATED -> ends l [e]
| ends_broken e k c :
    l !! k = Some c -> below c -> break_confirmed zone rules c ->
    st e = StructureEventState.CONFIRMED_BREAK ->
    Forall not_above (drop (S k) l) -> ends l [e]
| ends_recovered e e' k c :
    l !! k = Some c -> below c -> break_confirmed zone rules c ->
    st e = StructureEventState.CONFIRMED_BREAK ->
    (st e' = StructureEventState.FAKE_BREAK \/ st e' = StructureEventState.RECLAIMED) ->
    StructureEvent.invalidates_event_id e' = Some (StructureEvent.event_id e) ->
    Exists above (drop (S k) l) -> ends l [e; e'].

Lemma ends_cons c l es : ends l es -> ends (c :: l) es.
Proof.
  destruct 1 as [|e k d|e k d|e e' k d].
  - constructor.
  - by apply (ends_invalid _ _ (S k) d).
  - by apply (ends_broken _ _ (S k) d).
  - by apply (ends_recovered _ _ _ (S k) d).
Qed.

(** A confirmed break at the head. *)
Lemma ends_break i c rest ph e es ph' :
  ph = Watching \/ ph = Pending -> fires zone rules i c ph e (Broken i (StructureEvent.event_id e)) ->
  run zone rules (S i) rest (Broken i (StructureEvent.event_id e)) es ph' ->
  ends (c :: rest) (e :: es).
Proof.
  intros Hph Hf Hr. assert (below c /\ break_confirmed zone rules c /\ st e = StructureEventState.CONFIRMED_BREAK)
    as (Hb & Hc & Hs).
  { destruct Hph as [-> | ->]; inversion Hf as [|? ? _ Hb Hc (_ & Hs & _)| | |]; subst; done. }
  apply run_broken in Hr as [[-> Hl]|(e' & -> & Hs' & Hi & Hex)].
  - by apply (ends_broken _ _ 0%nat c).
  - by apply (ends_recovered _ _ _ 0%nat c).
Qed.

Lemma run_pending i l es ph : run zone rules i l Pending es ph -> ends l es.
Proof.
  intros H. remember Pending as p eqn:Hp. revert Hp.
  induction H as [i ph|i c rest ph es ph' Hq Hr IH|i c rest ph e ph1 es ph' Hf Hne Hr IH|i c rest ph e Hf];
    intros ->.
  - constructor.
  - apply ends_cons. auto.
  - assert (ph1 = Broken i (StructureEvent.event_id e)) as -> by (inversion Hf; subst; done).
    eapply ends_break; eauto.
  - inversion Hf as [| |? ? _ Hb _ (_ & Hs & _)| |]; subst. by apply (ends_invalid _ _ 0%nat c).
Qed.

(** From the start: possibly one pending break first, then one of the four. *)
Lemma run_watching i l es ph :
  run zone rules i l Watching es ph ->
  (es = [] /\ Forall not_below l) \/
  (ends l es /\ es <> []) \/
  (exists e es' k c, es = e :: es' /\ st e = StructureEventState.PENDING_BREAK /\
     l !! k = Some c /\ below c /\ ~ break_confirmed zone rules c /\
     ends (drop (S k) l) es').
Proof.
  intros H. remember Watching as p eqn:Hp. revert Hp.
  induction H as [i ph|i c rest ph es ph' Hq Hr IH|i c rest ph e ph1 es ph' Hf Hne Hr IH|i c rest ph e Hf];
    intros ->.
  - left. by split.
  - inversion Hq; subst. destruct (IH eq_refl) as [[-> Hl]|[[He Hn]|(e & es' & k & d & -> & ?)]].
    + left. split; [done|]. by constructor.
    + right; left. split; [by apply ends_cons|done].
    + right; right. by exists e, es', (S k), d.
  - right. inversion Hf as [e' Hb Hnc (_ & Hs & _)|ph0 e' Hph Hb Hc Hat|ph0 e' Hph Hb Hexp Hat| |]; subst.
    + right. exists e, es, 0%nat, c. split_and!; try done. by eapply run_pending.
    + left. split; [|done]. by eapply ends_break.
    + done.
  - right; left. inversion Hf as [| |? ? _ Hb _ (_ & Hs & _)| |]; subst.
    split; [|done]. by apply (ends_invalid _ _ 0%nat c).
Qed.
End runs.

(** The candles the events are built from. *)
Definition relevant_candles (zone : SupportZone.t) (candles : list OhlcvCandle) : list OhlcvCandle :=
  List.filter (fun c => py_le (SupportZone.confirmed_at zone) (open_time c)) candles.

(** Every event is that of a relevant candle. *)
Lemma run_event_at zone rules i l ph es ph' e :
  run zone rules i l ph es ph' -> e ∈ es ->
  exists c inv, c ∈ l /\ event_at zone c (StructureEvent.state e) inv e.
Proof.
  intros Hrun. assert (forall j c p p', fires zone rules j c p e p' ->
    exists inv, event_at zone c (StructureEvent.state e) inv e) as Hf.
  { intros j c p p' H. destruct H;
      match goal with H : event_at _ _ _ ?v _ |- _ => exists v; destruct H as (?&Hs&?); by rewrite Hs end. }
  induction Hrun as [|i c rest ph es ph' _ _ IH|i c rest ph e1 ph1 es ph' H1 _ _ IH|i c rest ph e1 H1]; intros Hin.
  - by apply elem_of_nil in Hin.
  - destruct (IH Hin) as (c' & inv & Hc & He). exists c', inv. split; [by right|done].
  - apply elem_of_cons in Hin as [->|Hin].
    + destruct (Hf _ _ _ _ H1) as [inv He]. exists c, inv. split; [by left|done].
    + destruct (IH Hin) as (c' & inv & Hc & He). exists c', inv. split; [by right|done].
  - apply list_elem_of_singleton in Hin as ->. destruct (Hf _ _ _ _ H1) as [inv He].
    exists c, inv. split; [by left|done].
Qed.

Lemma build_refines zone candles rules es :
  build_structure_events zone candles (Some rules) = Ok es ->
  exists ph, run zone rules 0 (relevant_candles zone candles) Watching es ph.
Proof.
  intros H. unfold build_structure_events in H. guards. by apply event_loop_refines in H.
Qed.

(** *** Adding candles only adds events *)

Lemma volume_ratio_app l more i lookback :
  (i < length l)%nat -> _volume_ratio (l ++ more) i lookback = _volume_ratio l i lookback.
Proof.
  intros Hi. unfold _volume_ratio, py_slice, py_index.
  assert (take (i - (i - Z.to_nat lookback)) (drop (i - Z.to_nat lookback) (l ++ more)) =
          take (i - (i - Z.to_nat lookback)) (drop (i - Z.to_nat lookback) l)) as ->.
  { rewrite drop_app_le by lia. apply take_app_le. rewrite length_drop. lia. }
  by rewrite lookup_app_l by done.
Qed.

Lemma event_loop_app zone rules relevant more i rest p es es' :
  (i + length rest = length relevant)%nat ->
  event_loop zone rules relevant i rest p = Ok es ->
  event_loop zone rules (relevant ++ more) i (rest ++ more) p = Ok es' ->
  es `prefix_of` es'.
Proof.
  revert i p es es'; induction rest as [|c rest IH]; intros i p es es' Hlen H H'; simpl in *.
  { guards. subst. apply prefix_nil. }
  assert (step zone rules (relevant ++ more) i c p = step zone rules relevant i c p) as E.
  { unfold step. by rewrite volume_ratio_app by lia. }
  rewrite E in H'. guards. rewrite H0 in H1. injection H1 as <-.
  destruct (stop v); guards; [by subst|].
  match goal with
  | Ha : event_loop _ _ _ _ rest _ = Ok ?a, Hb : event_loop _ _ _ _ (rest ++ more) _ = Ok ?b |- _ =>
      pose proof (IH (S i) _ _ _ ltac:(lia) Ha Hb) as Hp end.
  subst. by apply prefix_app.
Qed.

Lemma build_app zone candles more rules es es' :
  build_structure_events zone candles rules = Ok es ->
  build_structure_events zone (candles ++ more) rules = Ok es' ->
  es `prefix_of` es'.
Proof.
  intros H H'. unfold build_structure_events in *. guards. rewrite List.filter_app in H'.
  by eapply event_loop_app; [|exact H|exact H'].
Qed.

Lemma ends_drop zone rules n l es : ends zone rules (drop n l) es -> ends zone rules l es.
Proof.
  revert n; induction l as [|c l IH]; intros n; [by rewrite drop_nil|].
  destruct n as [|n]; [done|]. simpl. intros H%IH. by apply ends_cons.
Qed.

(** The words an event list can spell. *)
Definition legal_words : list (list StructureEventState.t) :=
  let P := StructureEventState.PENDING_BREAK in let C := StructureEventState.CONFIRMED_BREAK in
  let F := StructureEventState.FAKE_BREAK in let R := StructureEventState.RECLAIMED in
  let I := StructureEventState.INVALIDATED in
  [[]; [P]; [C]; [P; C]; [I]; [P; I]; [C; F]; [C; R]; [P; C; F]; [P; C; R]].

Lemma ends_legal zone rules l es : ends zone rules l es ->
  (StructureEvent.state <$> es) ∈ legal_words /\
  (StructureEventState.PENDING_BREAK :: (StructureEvent.state <$> es)) ∈ legal_words.
Proof.
  destruct 1 as [|e k c _ _ Hs|e k c _ _ _ Hs _|e e' k c _ _ _ Hs [Hs'|Hs'] _ _]; simpl;
    rewrite ?Hs, ?Hs'; unfold legal_words; set_solver.
Qed.

Lemma run_legal zone rules i l es ph :
  run zone rules i l Watching es ph -> (StructureEvent.state <$> es) ∈ legal_words.
Proof.
  intros [[-> _]|[[H _]|(e & es' & k & c & -> & Hs & _ & _ & _ & H)]]%run_watching.
  - unfold legal_words. set_solver.
  - by apply ends_legal in H as [? _].
  - simpl. rewrite Hs. by apply ends_legal in H as [_ ?].
Qed.

(** What each status says about the candles since the zone was confirmed. *)
Definition status_meaning (zone : SupportZone.t) (rules : StructureEventRules)
    (relevant : list OhlcvCandle) (s : TimeframeStructureStatus.t) : Prop :=
  let broke k := exists c, relevant !! k = Some c /\ closes_below zone c /\
                           break_confirmed zone rules c in
  match s with
  | TimeframeStructureStatus.INTACT => Forall (not_below zone) relevant
  | TimeframeStructureStatus.WATCH =>
      Exists (fun c => closes_below zone c /\ ~ break_confirmed zone rules c) relevant
  | TimeframeStructureStatus.DAMAGED =>
      exists k, broke k /\ Forall (not_above zone) (drop (S k) relevant)
  | TimeframeStructureStatus.RECLAIMED =>
      exists k, broke k /\ Exists (closes_above zone) (drop (S k) relevant)
  | TimeframeStructureStatus.INVALIDATED => Exists (not_below zone) relevant
  | TimeframeStructureStatus.INSUFFICIENT => False
  end.

Lemma ends_meaning zone rules l es e : ends zone rules l es -> last es = Some e ->
  status_meaning zone rules l (status_map (StructureEvent.state e)).
Proof.
  destruct 1 as [|e1 k c Hc Hb Hs|e1 k c Hc Hb Hbc Hs Hl|e1 e2 k c Hc Hb Hbc Hs Hs' _ Hex];
    simpl; intros H; [done|injection H as <-..].
  - rewrite Hs. simpl. apply Exists_exists. exists c. split; [by eapply list_elem_of_lookup_2|done].
  - rewrite Hs. simpl. exists k. split; [by exists c|done].
  - assert (status_map (StructureEvent.state e2) = TimeframeStructureStatus.RECLAIMED) as ->
      by (destruct Hs' as [-> | ->]; done).
    simpl. exists k. split; [by exists c|done].
Qed.

Lemma run_meaning zone rules i l es ph e :
  run zone rules i l Watching es ph -> last es = Some e ->
  status_meaning zone rules l (status_map (StructureEvent.state e)).
Proof.
  intros [[-> _]|[[H _]|(e1 & es' & k & c & -> & Hs & Hk & Hb & Hnc & H)]]%run_watching Hl; [done| |].
  - by eapply ends_meaning.
  - destruct es' as [|e2 es'].
    + injection Hl as <-. rewrite Hs. simpl. apply Exists_exists. exists c.
      split; [by eapply list_elem_of_lookup_2|done].
    + rewrite last_cons_cons in Hl. eapply ends_meaning; [by eapply ends_drop|done].
Qed.

Lemma new_Evidence_Ok src sym itv s at_ zid eid rs ev :
  TimeframeStructureEvidence.new src sym itv s at_ zid eid rs = Ok ev ->
  TimeframeStructureEvidence.status ev = s /\ TimeframeStructureEvidence.symbol ev = norm_upper sym /\
  TimeframeStructureEvidence.interval ev = itv /\ TimeframeStructureEvidence.zone_id ev = zid /\
  TimeframeStructureEvidence.event_id ev = eid /\ TimeframeStructureEvidence.source ev = src.
Proof.
  intros H. unfold TimeframeStructureEvidence.new in H. guards.
  select (_htf_interval _ = _) (fun H => apply _htf_interval_Ok in H as [? ?]). by subst.
Qed.

(** ** Properties *)

(** C3: the loop refines the step relation [run]: every event list it returns is the
    trace of a run of the zone's life cycle over the candles since confirmation, so each
    event is justified by its candle, carries that candle's times and close, a reclaim
    names the break it invalidates, and the states spell one of ten words:
    PENDING? (CONFIRMED (FAKE | RECLAIMED)? | INVALIDATED)?. *)
Theorem events_refine_life_cycle zone candles rules es :
  build_structure_events zone candles (Some rules) = Ok es ->
  (exists ph, run zone rules 0 (relevant_candles zone candles) Watching es ph) /\
  (StructureEvent.state <$> es) ∈ legal_words.
Proof.
  intros [ph H]%build_refines. split; [by exists ph|by eapply run_legal].
Qed.

(** C36: events do not repaint: the events of a series are a prefix of the events of
    every longer one, identifiers and reasons included. *)
Theorem events_do_not_repaint zone candles more rules es es' :
  build_structure_events zone candles rules = Ok es ->
  build_structure_events zone (candles ++ more) rules = Ok es' ->
  es `prefix_of` es'.
Proof. apply build_app. Qed.

(** The status of the evidence means what it says.  INTACT: no candle since
    confirmation closed below the zone.  WATCH: one did, unconfirmed.  DAMAGED: a
    confirmed close below the zone and no later close above it.  RECLAIMED: a confirmed
    break and a later close above the zone. *)
Theorem evidence_status_meaning zone candles rules es src sym itv at_ ev :
  build_structure_events zone candles (Some rules) = Ok es ->
  evidence_from_events (Some zone) es src sym itv at_ = Ok ev ->
  status_meaning zone rules (relevant_candles zone candles) (TimeframeStructureEvidence.status ev).
Proof.
  intros [ph Hrun]%build_refines H. unfold evidence_from_events in H.
  destruct (last es) as [e|] eqn:Hl; apply new_Evidence_Ok in H as (-> & _).
  - by eapply run_meaning.
  - apply last_None in Hl as ->. apply run_watching in Hrun as [[_ ?]|[[_ ?]|(e & es' & k & c & ? & _)]]; done.
Qed.

Definition sample_zone : SupportZone.t :=
  SupportZone.Mk "zone_a" CandleSource.BYBIT "BTCUSDT" CandleInterval.D1 (dint 998) (dint 1004)
    (Aware (days 3) 0) (Aware (days 9) 0) (Aware (days 7) 0) 2 2 (dint 60)
    [Aware (days 2) 0; Aware (days 6) 0] SupportZoneState.ACTIVE [].

Definition daily (i open close : Z) : OhlcvCandle :=
  MkCandle CandleSource.BYBIT CandleRole.STRUCTURE_DATA "linear" "BTCUSDT" CandleInterval.D1
    (Aware (days i) 0) (Aware (days (i + 1)) 0)
    (dint open) (dint (Z.max open close + 1)) (dint (Z.min open close - 1)) (dint close)
    (dint 100) (dint 1000).

(** A confirmed break on day 10. *)
Definition breaking : list OhlcvCandle := [daily 9 1010 1006; daily 10 1006 980; daily 11 980 985].
(** Its quick reclaim. *)
Definition reclaiming : list OhlcvCandle := [daily 12 985 1010].

Definition events_or_nil (r : res (list StructureEvent.t)) : list StructureEvent.t :=
  match r with Ok es => es | Err _ => [] end.

Lemma events_or_nil_eq r : is_ok r = true -> r = Ok (events_or_nil r).
Proof. by destruct r. Qed.

Lemma events_refine_life_cycle_witness :
  exists es, StructureEvent.state <$> es =
      [StructureEventState.CONFIRMED_BREAK; StructureEventState.FAKE_BREAK] /\
    (StructureEvent.state <$> es) ∈ legal_words.
Proof.
  exists (events_or_nil (build_structure_events sample_zone (breaking ++ reclaiming) (Some default_event_rules))).
  split; [vm_compute; reflexivity|].
  refine (proj2 (events_refine_life_cycle sample_zone (breaking ++ reclaiming) default_event_rules _ _)).
  apply events_or_nil_eq. vm_compute. reflexivity.
Defined.

Lemma events_do_not_repaint_witness :
  events_or_nil (build_structure_events sample_zone breaking None) `prefix_of`
  events_or_nil (build_structure_events sample_zone (breaking ++ reclaiming) None).
Proof.
  apply (events_do_not_repaint sample_zone breaking reclaiming None);
    apply events_or_nil_eq; vm_compute; reflexivity.
Defined.

Definition breaking_events : list StructureEvent.t :=
  events_or_nil (build_structure_events sample_zone breaking (Some default_event_rules)).

Lemma evidence_status_meaning_witness :
  status_meaning sample_zone default_event_rules (relevant_candles sample_zone breaking)
    TimeframeStructureStatus.DAMAGED.
Proof.
  assert (TimeframeStructureEvidence.status <$> evidence_from_events (Some sample_zone)
    breaking_events CandleSource.BYBIT "BTCUSDT" CandleInterval.D1 (Aware (days 12) 0) =
    Ok TimeframeStructureStatus.DAMAGED) as H by (vm_compute; reflexivity).
  apply fmap_Ok in H as (ev & E & Hs). rewrite Hs.
  refine (evidence_status_meaning sample_zone breaking default_event_rules breaking_events
    CandleSource.BYBIT "BTCUSDT" CandleInterval.D1 (Aware (days 12) 0) ev _ E).
  apply events_or_nil_eq. vm_compute. reflexivity.
Defined.
