(* ===== verification/HtfEngine.v ===== *)
(** * Higher-timeframe analysis: [structure/htf_engine.py]

    Derives the zones of a batch, the events of each zone, the primary zone (the one
    with the most recent event, else the strongest) and its evidence. *)

From stdpp Require Import list strings sorting.
From S2P Require Import Prelude PyList PyStr PyDecimal DecimalFacts PyTime Candles HtfModels.
From S2P Require Import SupportZones StructureEvents.
Open Scope Z_scope.

(** The key of [max(event_bearing, key=...)]; the last event exists in every entry. *)
Definition bearing_key (item : SupportZone.t * StructureEvent.t * list StructureEvent.t)
    : aware * dec * string :=
  let '(zone, latest, _) := item in
  (StructureEvent.observed_at latest, SupportZone.strength_score zone, SupportZone.zone_id zone).

(** [[item for item in events_by_zone if item[1]]], with [item[1][-1]]. *)
Definition bearing (item : SupportZone.t * list StructureEvent.t)
    : option (SupportZone.t * StructureEvent.t * list StructureEvent.t) :=
  match last (snd item) with Some e => Some (fst item, e, snd item) | None => None end.

(** The primary zone and its events. *)
Definition choose_primary (events_by_zone : list (SupportZone.t * list StructureEvent.t))
    : option SupportZone.t * list StructureEvent.t :=
  match omap bearing events_by_zone with
  | x :: l => let '(z, _, es) := py_max_by bearing_key x l in (Some z, es)
  | [] => match events_by_zone with
          | (z, _) :: _ => (Some z, [])
          | [] => (None, [])
          end
  end.

Definition event_key (e : StructureEvent.t) : aware * string :=
  (StructureEvent.observed_at e, StructureEvent.event_id e).

Definition zone_events (batch : Batch.t) (rules : option StructureEventRules) (z : SupportZone.t)
    : res (SupportZone.t * list StructureEvent.t) :=
  es ← build_structure_events z (Batch.candles batch) rules;
  mret (z, es).

Definition analyze_higher_timeframe (batch : Batch.t) (support_rules : option SupportZoneRules)
    (event_rules : option StructureEventRules) : res HtfStructureAnalysis.t :=
  raise_if (negb (is_htf (Batch.interval batch)))
    "higher-timeframe analysis requires Daily or 4H candles" ;;
  zones ← derive_support_zones (Batch.candles batch) support_rules;
  events_by_zone ← mapM (zone_events batch event_rules) zones;
  let all_events := concat (events_by_zone.*2) in
  let '(primary_zone, primary_events) := choose_primary events_by_zone in
  let events := py_sorted event_key all_events in
  evidence ← evidence_from_events primary_zone primary_events (Batch.source batch)
               (Batch.symbol batch) (Batch.interval batch) (Batch.fetched_at batch);
  HtfStructureAnalysis.new (Batch.source batch) (Batch.symbol batch) (Batch.interval batch)
    (AwareDT (Batch.fetched_at batch)) zones primary_zone events evidence.

(** ** Facts *)

(** The choice is one of the entries, and no entry has a later last event. *)
Lemma choose_primary_spec l :
  match choose_primary l with
  | (None, es) => l = [] /\ es = []
  | (Some z, []) => (exists es l', l = (z, es) :: l') /\ Forall (fun it => snd it = []) l
  | (Some z, es) => (z, es) ∈ l /\ exists e, last es = Some e /\
      forall z' es' e', (z', es') ∈ l -> last es' = Some e' ->
        utc (StructureEvent.observed_at e') <= utc (StructureEvent.observed_at e)
  end.
Proof.
  unfold choose_primary. destruct (omap bearing l) as [|x k] eqn:E.
  - destruct l as [|[z es] l]; [done|]. split; [by exists es, l|].
    apply Forall_forall. intros [z' es'] Hin. simpl.
    destruct (last es') as [e'|] eqn:Hl; [|by apply last_None].
    assert ((z', e', es') ∈ omap bearing ((z, es) :: l)) as Hx.
    { apply list_elem_of_omap. exists (z', es'). split; [done|]. unfold bearing; simpl. by rewrite Hl. }
    rewrite E in Hx. by apply elem_of_nil in Hx.
  - pose proof (py_max_by_in bearing_key x k) as Hin. pose proof (py_max_by_ge bearing_key x k) as Hge.
    destruct (py_max_by bearing_key x k) as [[z e] es] eqn:Em. rewrite <- E in Hin.
    apply list_elem_of_omap in Hin as ([z0 es0] & Hin & Hb). unfold bearing in Hb; simpl in Hb.
    destruct (last es0) as [e0|] eqn:Hl; [|done]. injection Hb as -> -> ->.
    destruct es as [|e1 es]; [done|]. split; [done|]. exists e. split; [done|].
    intros z' es' e' Hin' Hl'.
    assert ((z', e', es') ∈ x :: k) as Hx.
    { rewrite <- E. apply list_elem_of_omap. exists (z', es'). split; [done|]. unfold bearing; simpl. by rewrite Hl'. }
    specialize (Hge _ Hx). unfold key_le, bearing_key in Hge.
    apply py_le_fst, py_le_fst in Hge. by apply aware_le_utc in Hge.
Qed.

(** What the analysis is made of when it is returned. *)
Lemma analyze_Ok batch srules erules a :
  analyze_higher_timeframe batch (Some srules) (Some erules) = Ok a ->
  exists zones ebz primary es ev,
    derive_support_zones (Batch.candles batch) (Some srules) = Ok zones /\
    mapM (zone_events batch (Some erules)) zones = Ok ebz /\
    choose_primary ebz = (primary, es) /\
    evidence_from_events primary es (Batch.source batch) (Batch.symbol batch)
      (Batch.interval batch) (Batch.fetched_at batch) = Ok ev /\
    HtfStructureAnalysis.zones a = zones /\ HtfStructureAnalysis.primary_zone a = primary /\
    HtfStructureAnalysis.events a = py_sorted event_key (concat (ebz.*2)) /\
    HtfStructureAnalysis.evidence a = ev.
Proof.
  intros H. unfold analyze_higher_timeframe in H. guards.
  select (mapM _ _ = Ok _) (fun H => rename H into Hm).
  match type of Hm with _ = Ok ?l => destruct (choose_primary l) as [primary es] eqn:Hc end.
  guards. unfold HtfStructureAnalysis.new in H. guards. subst a.
  eexists _, _, _, _, _. split_and!; eauto.
Qed.

Lemma zone_events_fst batch rules zones ebz :
  mapM (zone_events batch rules) zones = Ok ebz ->
  ebz.*1 = zones /\ Forall (fun it => build_structure_events (fst it) (Batch.candles batch) rules = Ok (snd it)) ebz.
Proof.
  rewrite mapM_Ok. induction 1 as [|z it zs ebz Hz _ [<- IH]]; [done|].
  unfold zone_events in Hz. guards. subst it. simpl. split; [done|]. by constructor.
Qed.

(** ** Property *)

(** C34: the evidence of an analysis is that of its primary zone.  Without zones the
    status is INSUFFICIENT; otherwise the primary zone is one of the zones, the evidence
    carries its id and means what its status says of that zone's candles; it is INTACT
    only when no zone has any event. *)
Theorem analysis_evidence_correct batch srules erules a :
  analyze_higher_timeframe batch (Some srules) (Some erules) = Ok a ->
  let ev := HtfStructureAnalysis.evidence a in
  match HtfStructureAnalysis.primary_zone a with
  | None => HtfStructureAnalysis.zones a = [] /\
      TimeframeStructureEvidence.status ev = TimeframeStructureStatus.INSUFFICIENT
  | Some z =>
      z ∈ HtfStructureAnalysis.zones a /\
      TimeframeStructureEvidence.zone_id ev = Some (SupportZone.zone_id z) /\
      status_meaning z erules (relevant_candles z (Batch.candles batch))
        (TimeframeStructureEvidence.status ev) /\
      (TimeframeStructureEvidence.status ev = TimeframeStructureStatus.INTACT ->
       HtfStructureAnalysis.events a = [])
  end.
Proof.
  intros (zones & ebz & primary & es & ev & _ & Hm & Hc & Hev & -> & -> & -> & ->)%analyze_Ok.
  cbv zeta. apply zone_events_fst in Hm as [<- Hb]. pose proof (choose_primary_spec ebz) as Hs. rewrite Hc in Hs.
  destruct primary as [z|]; [|destruct Hs as [-> ->]; unfold evidence_from_events in Hev;
    by apply new_Evidence_Ok in Hev as (-> & _)].
  assert ((z, es) ∈ ebz) as Hin.
  { destruct es as [|e es]; [|by destruct Hs]. destruct Hs as [(es' & l' & ->) Hall].
    apply Forall_cons in Hall as [Hes _]. simpl in Hes. subst es'. apply list_elem_of_here. }
  pose proof (proj1 (Forall_forall _ _) Hb _ Hin) as Hbuild. simpl in Hbuild.
  pose proof Hev as Hev'. unfold evidence_from_events in Hev'.
  split_and!.
  - change z with (fst (z, es)). by apply list_elem_of_fmap_2.
  - by destruct (last es); apply new_Evidence_Ok in Hev' as (_&_&_&?&_).
  - apply build_refines in Hbuild as [ph Hrun]. destruct (last es) as [e|] eqn:Hl;
      apply new_Evidence_Ok in Hev' as (-> & _); [by eapply run_meaning|].
    apply last_None in Hl as ->. apply run_watching in Hrun as [[_ ?]|[[_ ?]|(?&?&?&?&?&_)]]; done.
  - intros Hi. destruct es as [|e es].
    + destruct Hs as [_ Hall]. assert (concat (ebz.*2) = []) as ->; [|done].
      clear -Hall. induction Hall as [|it l Hit Hall IH]; [done|]. simpl. rewrite Hit. exact IH.
    + destruct (last (e :: es)) as [e'|] eqn:Hl; [|by apply last_None in Hl].
      apply new_Evidence_Ok in Hev' as (Hst & _). rewrite Hi in Hst.
      by destruct (StructureEvent.state e').
Qed.

Definition daily_batch : Batch.t :=
  Batch.MkBatch CandleSource.BYBIT CandleRole.STRUCTURE_DATA "linear" "BTCUSDT" CandleInterval.D1
    (Aware (days 12) 0) (two_dips ++ breaking).

Lemma analysis_evidence_correct_witness :
  exists a z, analyze_higher_timeframe daily_batch (Some default_zone_rules) (Some default_event_rules) = Ok a /\
    HtfStructureAnalysis.primary_zone a = Some z /\
    status_meaning z default_event_rules (relevant_candles z (Batch.candles daily_batch))
      TimeframeStructureStatus.DAMAGED.
Proof.
  assert ((fun a => (TimeframeStructureEvidence.status (HtfStructureAnalysis.evidence a),
                     bool_decide (is_Some (HtfStructureAnalysis.primary_zone a)))) <$>
    analyze_higher_timeframe daily_batch (Some default_zone_rules) (Some default_event_rules) =
    Ok (TimeframeStructureStatus.DAMAGED, true)) as H by (vm_compute; reflexivity).
  apply fmap_Ok in H as (a & E & H). injection H as Hs Hp.
  destruct (HtfStructureAnalysis.primary_zone a) as [z|] eqn:Hz; [|discriminate Hp].
  exists a, z. split; [exact E|]. split; [exact Hz|]. rewrite Hs.
  pose proof (analysis_evidence_correct daily_batch default_zone_rules default_event_rules a E) as H.
  cbv zeta in H. rewrite Hz in H. apply H.
Defined.
