(* ===== verification/ReclaimModels.v ===== *)
(** * Reclaim models: [setups/reclaim_models.py] *)

From stdpp Require Import list strings.
From Stdlib Require Import QArith Qabs Lqa.
From S2P Require Import Prelude PyList PyStr PyDecimal DecimalFacts PyTime Candles HtfModels.
Open Scope Z_scope.

Module ReclaimOutcome.
Inductive t : Type :=
| NO_ATTEMPT | ATTEMPTING | SUCCESSFUL_RECLAIM | FAILED_RECLAIM
| FAILED_PULLBACK | CONTINUATION | EXPIRED | INVALIDATED.
#[global] Instance eq_dec : EqDecision t.
Proof. solve_decision. Defined.
Definition value (s : t) : string :=
  match s with
  | NO_ATTEMPT => "NO_ATTEMPT" | ATTEMPTING => "ATTEMPTING"
  | SUCCESSFUL_RECLAIM => "SUCCESSFUL_RECLAIM" | FAILED_RECLAIM => "FAILED_RECLAIM"
  | FAILED_PULLBACK => "FAILED_PULLBACK" | CONTINUATION => "CONTINUATION"
  | EXPIRED => "EXPIRED" | INVALIDATED => "INVALIDATED"
  end.
Definition members : list t :=
  [NO_ATTEMPT; ATTEMPTING; SUCCESSFUL_RECLAIM; FAILED_RECLAIM; FAILED_PULLBACK; CONTINUATION; EXPIRED; INVALIDATED].
End ReclaimOutcome.

Module DerivedSetupType.
Inductive t : Type := NONE | BREAKDOWN_SHORT | FAILED_PULLBACK_SHORT | CONTINUATION_SHORT.
#[global] Instance eq_dec : EqDecision t.
Proof. solve_decision. Defined.
Definition value (s : t) : string :=
  match s with
  | NONE => "NONE" | BREAKDOWN_SHORT => "BREAKDOWN_SHORT"
  | FAILED_PULLBACK_SHORT => "FAILED_PULLBACK_SHORT"
  | CONTINUATION_SHORT => "CONTINUATION_SHORT"
  end.
Definition members : list t := [NONE; BREAKDOWN_SHORT; FAILED_PULLBACK_SHORT; CONTINUATION_SHORT].
End DerivedSetupType.

Module SetupReadiness.
Inductive t : Type := WATCH | QUALIFIED | CANCELLED | EXPIRED | INVALIDATED.
#[global] Instance eq_dec : EqDecision t.
Proof. solve_decision. Defined.
Definition value (s : t) : string :=
  match s with
  | WATCH => "WATCH" | QUALIFIED => "QUALIFIED" | CANCELLED => "CANCELLED"
  | EXPIRED => "EXPIRED" | INVALIDATED => "INVALIDATED"
  end.
Definition members : list t := [WATCH; QUALIFIED; CANCELLED; EXPIRED; INVALIDATED].
End SetupReadiness.

(** [_aware] and [_decimal] of this module are those of [structure/htf_models.py],
    word for word. *)
Definition _aware (value : datetime) (name : string) : res aware :=
  require_aware value (name +:+ " must be timezone-aware").

Definition _decimal (value : pydec) (name : string) (minimum maximum : option dec) : res dec :=
  match value with
  | Finite v =>
      raise_if (match minimum with Some m => (v <? m)%dec | None => false end)
        (name +:+ " must be at least " +:+ default EmptyString (dec_str <$> minimum)) ;;
      raise_if (match maximum with Some m => (v >? m)%dec | None => false end)
        (name +:+ " must be at most " +:+ default EmptyString (dec_str <$> maximum)) ;;
      mret v
  | _ => Err (ValueError (name +:+ " must be finite"))
  end.

Lemma _decimal_htf : _decimal = HtfModels._decimal.
Proof. reflexivity. Qed.

Record ReclaimRules : Type := MkReclaimRules {
  successful_h4_closes : Z;
  successful_m15_closes : Z;
  minimum_attempt_penetration_bps : dec;
  maximum_failed_reclaim_penetration_bps : dec;
  maximum_bounce_volume_ratio : dec;
  minimum_rejection_body_fraction : dec;
  minimum_rejection_distance_bps : dec;
  maximum_pullback_bars : Z;
  maximum_setup_age_bars : Z;
  continuation_minimum_bars : Z }.

Definition new_ReclaimRules (h4 m15 : Z) (pen failed bounce body distance : pydec)
    (pullback age continuation : Z) : res ReclaimRules :=
  raise_if (h4 <? 1) "successful_h4_closes must be positive" ;;
  raise_if (m15 <? 1) "successful_m15_closes must be positive" ;;
  pen ← _decimal pen "minimum_attempt_penetration_bps" (Some d0) None;
  failed ← _decimal failed "maximum_failed_reclaim_penetration_bps" (Some d0) None;
  bounce ← _decimal bounce "maximum_bounce_volume_ratio" (Some d0) None;
  body ← _decimal body "minimum_rejection_body_fraction" (Some d0) None;
  distance ← _decimal distance "minimum_rejection_distance_bps" (Some d0) None;
  raise_if (bounce >? dint 10)%dec "maximum_bounce_volume_ratio is unreasonably large" ;;
  raise_if (body >? d1)%dec "minimum_rejection_body_fraction must not exceed one" ;;
  raise_if (pullback <? 1) "maximum_pullback_bars must be positive" ;;
  raise_if (age <? pullback) "maximum_setup_age_bars must cover the pullback window" ;;
  raise_if (continuation <? 2) "continuation_minimum_bars must be at least two" ;;
  mret (MkReclaimRules h4 m15 pen failed bounce body distance pullback age continuation).

(** [ReclaimRules()] *)
Definition default_reclaim_rules : ReclaimRules :=
  MkReclaimRules 1 2 (dint 5) (dint 100) (Dec 85 (-2)) (Dec 25 (-2)) (dint 5) 12 30 3.

(** ** [ReclaimAttempt] *)

Module ReclaimAttempt.
Record t : Type := Mk {
  attempt_id : string;
  break_event_id : string;
  zone_id : string;
  source : CandleSource.t;
  symbol : string;
  structure_interval : CandleInterval.t;
  started_at : aware;
  observed_at : aware;
  outcome : ReclaimOutcome.t;
  setup_type : DerivedSetupType.t;
  readiness : SetupReadiness.t;
  zone_low : dec;
  zone_high : dec;
  maximum_price : dec;
  maximum_penetration_bps : dec;
  duration_bars : Z;
  closes_above_zone : Z;
  bars_above_zone : Z;
  bounce_volume_ratio : option dec;
  rejection_candle_open_time : option aware;
  rejection_low : option dec;
  trigger_candle_open_time : option aware;
  quality_score : dec;
  reasons : list string;
  warnings : list string }.

#[global] Instance eq_dec : EqDecision t.
Proof. solve_decision. Defined.

(** [None if value is None else check(value)] *)
Definition optionally {A B} (value : option A) (check : A -> res B) : res (option B) :=
  match value with None => mret None | Some v => Some <$> check v end.

(** The cross-field rules on outcome, readiness and setup type. *)
Definition check_outcome (outcome : ReclaimOutcome.t) (setup_type : DerivedSetupType.t)
    (readiness : SetupReadiness.t) (rejection_open trigger_open : option aware) : res unit :=
  (if decide (outcome = ReclaimOutcome.SUCCESSFUL_RECLAIM) then
     raise_if (negb (bool_decide (readiness = SetupReadiness.CANCELLED)))
       "successful reclaim must cancel the short setup" ;;
     raise_if (negb (bool_decide (setup_type = DerivedSetupType.NONE)))
       "successful reclaim cannot retain a short setup type"
   else mret tt) ;;
  (if decide (outcome = ReclaimOutcome.FAILED_PULLBACK) then
     raise_if (negb (bool_decide (setup_type = DerivedSetupType.FAILED_PULLBACK_SHORT)))
       "failed pullback must map to FAILED_PULLBACK_SHORT" ;;
     raise_if (negb (bool_decide (readiness = SetupReadiness.QUALIFIED)))
       "failed pullback must be qualified" ;;
     raise_if (bool_decide (rejection_open = None) || bool_decide (trigger_open = None))
       "failed pullback requires rejection and trigger evidence"
   else mret tt) ;;
  raise_if (bool_decide (readiness = SetupReadiness.QUALIFIED) &&
            bool_decide (setup_type = DerivedSetupType.NONE))
    "qualified evidence requires a setup type" ;;
  raise_if (bool_decide (readiness ∈ [SetupReadiness.CANCELLED; SetupReadiness.EXPIRED;
                                      SetupReadiness.INVALIDATED]) &&
            negb (bool_decide (setup_type = DerivedSetupType.NONE)))
    "inactive setup evidence cannot retain a setup type".

Definition new (raw_attempt_id raw_break_event_id raw_zone_id : string) (source : CandleSource.t)
    (raw_symbol : string) (structure_interval : CandleInterval.t)
    (raw_started_at raw_observed_at : datetime) (outcome : ReclaimOutcome.t)
    (setup_type : DerivedSetupType.t) (readiness : SetupReadiness.t)
    (raw_zone_low raw_zone_high raw_maximum_price raw_penetration : pydec)
    (duration_bars closes_above_zone bars_above_zone : Z) (raw_ratio : option pydec)
    (raw_rejection_open : option datetime) (raw_rejection_low : option pydec)
    (raw_trigger_open : option datetime) (raw_quality : pydec)
    (reasons warnings : list string) : res t :=
  let attempt_id := str_strip raw_attempt_id in
  let break_event_id := str_strip raw_break_event_id in
  let zone_id := str_strip raw_zone_id in
  let symbol := norm_upper raw_symbol in
  raise_if (str_empty attempt_id || str_empty break_event_id || str_empty zone_id || str_empty symbol)
    "attempt, break-event, zone, and symbol identifiers are required" ;;
  raise_if (negb (is_htf structure_interval))
    "reclaim attempt requires Daily or 4H structure evidence" ;;
  started_at ← _aware raw_started_at "started_at";
  observed_at ← _aware raw_observed_at "observed_at";
  raise_if (py_lt observed_at started_at) "observed_at must not precede started_at" ;;
  zone_low ← _decimal raw_zone_low "zone_low" (Some minimum_price) None;
  zone_high ← _decimal raw_zone_high "zone_high" (Some minimum_price) None;
  maximum_price ← _decimal raw_maximum_price "maximum_price" (Some minimum_price) None;
  raise_if (zone_low >=? zone_high)%dec "zone_low must be below zone_high" ;;
  penetration ← _decimal raw_penetration "maximum_penetration_bps" (Some d0) None;
  quality ← _decimal raw_quality "quality_score" (Some d0) (Some (dint 100));
  ratio ← optionally raw_ratio (fun v => _decimal v "bounce_volume_ratio" (Some d0) None);
  rejection_low ← optionally raw_rejection_low
                    (fun v => _decimal v "rejection_low" (Some minimum_price) None);
  rejection_open ← optionally raw_rejection_open (fun v => _aware v "rejection_candle_open_time");
  trigger_open ← optionally raw_trigger_open (fun v => _aware v "trigger_candle_open_time");
  raise_if (duration_bars <? 0) "duration_bars must be non-negative" ;;
  raise_if ((closes_above_zone <? 0) || (bars_above_zone <? 0))
    "zone counters must be non-negative" ;;
  raise_if (bars_above_zone <? closes_above_zone)
    "closes_above_zone cannot exceed bars_above_zone" ;;
  raise_if (xorb (bool_decide (rejection_open = None)) (bool_decide (rejection_low = None)))
    "rejection time and low must be provided together" ;;
  raise_if (negb (bool_decide (trigger_open = None)) && bool_decide (rejection_open = None))
    "trigger evidence requires rejection evidence" ;;
  raise_if (match trigger_open, rejection_open with
            | Some t, Some r => py_le t r
            | _, _ => false
            end) "trigger candle must follow the rejection candle" ;;
  check_outcome outcome setup_type readiness rejection_open trigger_open ;;
  mret (Mk attempt_id break_event_id zone_id source symbol structure_interval started_at
          observed_at outcome setup_type readiness zone_low zone_high maximum_price penetration
          duration_bars closes_above_zone bars_above_zone ratio rejection_open rejection_low
          trigger_open quality reasons warnings).
End ReclaimAttempt.

(** ** Facts *)

Record reclaim_rules_wf (r : ReclaimRules) : Prop := {
  rr_closes : 1 <= successful_h4_closes r /\ 1 <= successful_m15_closes r;
  rr_penetration : (d0 <=? minimum_attempt_penetration_bps r)%dec = true /\
                   (d0 <=? maximum_failed_reclaim_penetration_bps r)%dec = true;
  rr_volume : (d0 <=? maximum_bounce_volume_ratio r)%dec = true /\
              (maximum_bounce_volume_ratio r <=? dint 10)%dec = true;
  rr_body : (d0 <=? minimum_rejection_body_fraction r)%dec = true /\
            (minimum_rejection_body_fraction r <=? d1)%dec = true;
  rr_bars : 1 <= maximum_pullback_bars r <= maximum_setup_age_bars r;
  rr_continuation : 2 <= continuation_minimum_bars r }.

Lemma new_ReclaimRules_Ok h4 m15 pen failed bounce body distance pullback age cont r :
  new_ReclaimRules h4 m15 pen failed bounce body distance pullback age cont = Ok r ->
  reclaim_rules_wf r.
Proof.
  intros H. unfold new_ReclaimRules in H. rewrite _decimal_htf in H. guards.
  repeat match goal with
  | H : HtfModels._decimal _ _ _ _ = Ok _ |- _ => apply htf_decimal_Ok in H as (? & ? & ?)
  end. subst. constructor; simpl; split_and?; auto; solve [dec_order|lia].
Qed.

Lemma default_reclaim_rules_wf : reclaim_rules_wf default_reclaim_rules.
Proof. constructor; simpl; split_and?; try done. Qed.

(** What [ReclaimAttempt.__post_init__] promises. *)
Record attempt_wf (a : ReclaimAttempt.t) : Prop := {
  awf_times : utc (ReclaimAttempt.started_at a) <= utc (ReclaimAttempt.observed_at a);
  awf_zone : (ReclaimAttempt.zone_low a <? ReclaimAttempt.zone_high a)%dec = true;
  awf_penetration : (d0 <=? ReclaimAttempt.maximum_penetration_bps a)%dec = true;
  awf_quality : (d0 <=? ReclaimAttempt.quality_score a)%dec = true /\
                (ReclaimAttempt.quality_score a <=? dint 100)%dec = true;
  awf_counters : 0 <= ReclaimAttempt.closes_above_zone a <= ReclaimAttempt.bars_above_zone a /\
                 0 <= ReclaimAttempt.duration_bars a;
  awf_evidence : forall t, ReclaimAttempt.trigger_candle_open_time a = Some t ->
    exists r, ReclaimAttempt.rejection_candle_open_time a = Some r /\ utc r < utc t;
  awf_cancelled : ReclaimAttempt.outcome a = ReclaimOutcome.SUCCESSFUL_RECLAIM ->
    ReclaimAttempt.readiness a = SetupReadiness.CANCELLED;
  awf_qualified : ReclaimAttempt.readiness a = SetupReadiness.QUALIFIED ->
    ReclaimAttempt.setup_type a <> DerivedSetupType.NONE }.

Lemma check_outcome_Ok o s r ro to :
  ReclaimAttempt.check_outcome o s r ro to = Ok tt ->
  (o = ReclaimOutcome.SUCCESSFUL_RECLAIM -> r = SetupReadiness.CANCELLED) /\
  (r = SetupReadiness.QUALIFIED -> s <> DerivedSetupType.NONE).
Proof.
  intros H. unfold ReclaimAttempt.check_outcome in H. guards.
  split.
  - intros ->. rewrite decide_True in * by done. guards. done.
  - intros -> ->. simpl in *. discriminate.
Qed.

Lemma new_ReclaimAttempt_Ok aid bid zid src sym itv sa oa o s r zl zh mp pen db cz bz ratio ro rl to q rs ws a :
  ReclaimAttempt.new aid bid zid src sym itv sa oa o s r zl zh mp pen db cz bz ratio ro rl to q rs ws = Ok a ->
  attempt_wf a /\ ReclaimAttempt.outcome a = o /\ ReclaimAttempt.setup_type a = s /\
  ReclaimAttempt.readiness a = r /\ AwareDT (ReclaimAttempt.started_at a) = sa /\
  AwareDT (ReclaimAttempt.observed_at a) = oa /\
  AwareDT <$> ReclaimAttempt.rejection_candle_open_time a = ro /\
  AwareDT <$> ReclaimAttempt.trigger_candle_open_time a = to /\
  Finite <$> ReclaimAttempt.rejection_low a = rl /\
  ReclaimAttempt.duration_bars a = db /\ ReclaimAttempt.closes_above_zone a = cz.
Proof.
  intros H. unfold ReclaimAttempt.new in H. rewrite _decimal_htf in H. guards.
  assert (forall (v : option datetime) n (x : option aware),
    ReclaimAttempt.optionally v (fun v => _aware v n) = Ok x -> AwareDT <$> x = v) as Hopt.
  { intros [v|] n x Hx; simpl in Hx; guards; [|by subst]. subst.
    by destruct v; simpl in *; guards; subst. }
  assert (forall (v : option pydec) n m (x : option dec),
    ReclaimAttempt.optionally v (fun v => HtfModels._decimal v n m None) = Ok x -> Finite <$> x = v) as Hoptd.
  { intros [v|] n m x Hx; simpl in Hx; guards; [|by subst]. subst.
    select (HtfModels._decimal _ _ _ _ = _) (fun H => apply htf_decimal_Ok in H as (-> & _)). done. }
  repeat match goal with
  | H : HtfModels._decimal _ _ _ _ = Ok _ |- _ => apply htf_decimal_Ok in H as (? & ? & ?)
  | H : _aware _ _ = Ok _ |- _ => apply htf_aware_Ok in H
  | H : ReclaimAttempt.optionally _ (fun v => _aware v _) = Ok _ |- _ => apply Hopt in H
  | H : ReclaimAttempt.optionally _ (fun v => HtfModels._decimal v _ _ None) = Ok _ |- _ => apply Hoptd in H
  | H : ReclaimAttempt.check_outcome _ _ _ _ _ = Ok _ |- _ => apply check_outcome_Ok in H as [? ?]
  end. time_to_Z. subst.
  split_and!; simpl; try done.
  constructor; simpl; try split_and!; auto; try solve [dec_order]; try lia.
  intros t ->. destruct v12 as [x|]; simpl in *; [|done].
  exists x. split; [done|]. by time_to_Z.
Qed.
