(* ===== verification/ReclaimEngine.v ===== *)
(** * The reclaim engine: [setups/reclaim_engine.py]

    What a confirmed break became: retested or not, reclaimed, rejected, triggered,
    expired.  One definition per helper; [analyze_reclaim_attempt] is cut at its
    branches ([no_relevant], [reclaimed], [not_retested], [retested]). *)

From stdpp Require Import list strings sorting.
From Stdlib Require Import QArith Qabs Lqa.
From S2P Require Import Prelude PyList PyStr PyDecimal DecimalFacts PyTime Sha256 Candles HtfModels.
From S2P Require Import ReclaimModels.
Open Scope Z_scope.

Definition BPS : dec := dint 10000.

(** ** [_validate_inputs] *)

Fixpoint validate_stream (zone : SupportZone.t) (previous : option aware)
    (interval_ : option CandleInterval.t) (candles : list OhlcvCandle) : res unit :=
  match candles with
  | [] => mret tt
  | c :: candles' =>
      raise_if (negb (bool_decide (source c = SupportZone.source zone)) ||
                negb (bool_decide (symbol c = SupportZone.symbol zone)))
        "confirmation candle does not match zone source and symbol" ;;
      raise_if (negb (bool_decide (interval c = CandleInterval.H4) ||
                      bool_decide (interval c = CandleInterval.M15)))
        "reclaim confirmation requires 4H or 15m candles" ;;
      raise_if (match interval_ with
                | None => false
                | Some i => negb (bool_decide (interval c = i))
                end) "confirmation candles must share one interval" ;;
      raise_if (match previous with Some p => py_le (open_time c) p | None => false end)
        "confirmation candles must be strictly chronological" ;;
      validate_stream zone (Some (open_time c)) (Some (default (interval c) interval_)) candles'
  end.

Definition _validate_inputs (zone : SupportZone.t) (break_event : StructureEvent.t)
    (break_candle : OhlcvCandle) (candles : list OhlcvCandle) : res unit :=
  raise_if (negb (bool_decide (StructureEvent.state break_event = StructureEventState.CONFIRMED_BREAK)))
    "reclaim analysis requires a confirmed structure break" ;;
  raise_if (negb (bool_decide (StructureEvent.zone_id break_event = SupportZone.zone_id zone)))
    "break event does not belong to support zone" ;;
  raise_if (negb (bool_decide (StructureEvent.source break_event = SupportZone.source zone)) ||
            negb (bool_decide (StructureEvent.symbol break_event = SupportZone.symbol zone)) ||
            negb (bool_decide (StructureEvent.interval break_event = SupportZone.interval zone)))
    "break event does not match support zone" ;;
  raise_if (negb (bool_decide (source break_candle = SupportZone.source zone)) ||
            negb (bool_decide (symbol break_candle = SupportZone.symbol zone)) ||
            negb (bool_decide (interval break_candle = SupportZone.interval zone)) ||
            negb (aware_eqb (open_time break_candle) (StructureEvent.candle_open_time break_event)))
    "break candle does not match confirmed break event" ;;
  raise_if (negb (aware_eqb (close_time break_candle) (StructureEvent.observed_at break_event)))
    "break candle close must match break observation time" ;;
  validate_stream zone None None candles.

(** ** Measurements *)

Definition _penetration_bps (price zone_low : dec) : res dec :=
  if (price <=? zone_low)%dec then mret d0
  else
    ratio ← ddiv (dsub price zone_low) zone_low;
    mret (dmul ratio BPS).

Definition _body_fraction (c : OhlcvCandle) : res dec :=
  let candle_range := dsub (high_price c) (low_price c) in
  if (candle_range =? d0)%dec then mret d0
  else ddiv (dabs (dsub (close_price c) (open_price c))) candle_range.

Definition _volume_ratio (candles : list OhlcvCandle) (breakdown_volume : dec) : res (option dec) :=
  match candles with
  | [] => mret None
  | _ =>
      if (breakdown_volume <=? d0)%dec then mret None
      else
        average ← ddiv (dsum (volume <$> candles)) (dint (Z.of_nat (length candles)));
        Some <$> ddiv average breakdown_volume
  end.

Definition max_high (candles : list OhlcvCandle) : res dec := py_max (high_price <$> candles).
Definition closes_above (zone : SupportZone.t) (candles : list OhlcvCandle) : Z :=
  count_where (fun c => close_price c >? SupportZone.high zone)%dec candles.
Definition bars_above (zone : SupportZone.t) (candles : list OhlcvCandle) : Z :=
  count_where (fun c => high_price c >? SupportZone.high zone)%dec candles.

(** [item[0]], [item[-1]] *)
Definition first_of (candles : list OhlcvCandle) : res OhlcvCandle := py_index candles 0.
Definition last_of (candles : list OhlcvCandle) : res OhlcvCandle :=
  match last candles with
  | Some c => Ok c
  | None => Err (Exn "IndexError" "tuple index out of range")
  end.

(** ** [_result] *)

Definition _attempt_id (break_event_id zone_id : string) (i : CandleInterval.t)
    (started_at : aware) : string :=
  hash_id "attempt_" [break_event_id; zone_id; CandleInterval.value i; isoformat started_at].

Definition _result (zone : SupportZone.t) (break_event : StructureEvent.t)
    (evaluation_interval : CandleInterval.t) (started_at observed_at : aware)
    (outcome : ReclaimOutcome.t) (setup_type : DerivedSetupType.t) (readiness : SetupReadiness.t)
    (maximum_price maximum_penetration_bps : dec) (duration_bars closes_above_zone bars_above_zone : Z)
    (bounce_volume_ratio : option dec) (quality_score : dec) (reasons warnings : list string)
    (rejection_candle_open_time : option aware) (rejection_low : option dec)
    (trigger_candle_open_time : option aware) : res ReclaimAttempt.t :=
  penetration ← dquantize maximum_penetration_bps (-2);
  ratio ← ReclaimAttempt.optionally bounce_volume_ratio (fun r => dquantize r (-4));
  ReclaimAttempt.new
    (_attempt_id (StructureEvent.event_id break_event) (SupportZone.zone_id zone)
       evaluation_interval started_at)
    (StructureEvent.event_id break_event) (SupportZone.zone_id zone) (SupportZone.source zone)
    (SupportZone.symbol zone) (SupportZone.interval zone) (AwareDT started_at)
    (AwareDT observed_at) outcome setup_type readiness (Finite (SupportZone.low zone))
    (Finite (SupportZone.high zone)) (Finite maximum_price) (Finite penetration)
    duration_bars closes_above_zone bars_above_zone (Finite <$> ratio)
    (AwareDT <$> rejection_candle_open_time) (Finite <$> rejection_low)
    (AwareDT <$> trigger_candle_open_time) (Finite quality_score) reasons warnings.

(** ** Searches *)

Definition required_closes (rules : ReclaimRules) (i : CandleInterval.t) : Z :=
  if decide (i = CandleInterval.H4) then successful_h4_closes rules
  else successful_m15_closes rules.

(** The loop of [_successful_reclaim_index]. *)
Fixpoint successful_loop (zone : SupportZone.t) (required : Z) (index : nat) (consecutive : Z)
    (candles : list OhlcvCandle) : option nat :=
  match candles with
  | [] => None
  | c :: candles' =>
      if (close_price c >? SupportZone.high zone)%dec then
        if required <=? consecutive + 1 then Some index
        else successful_loop zone required (S index) (consecutive + 1) candles'
      else successful_loop zone required (S index) 0 candles'
  end.

Definition _successful_reclaim_index (candles : list OhlcvCandle) (zone : SupportZone.t)
    (rules : ReclaimRules) : res (option nat) :=
  first ← first_of candles;
  mret (successful_loop zone (required_closes rules (interval first)) 0 0 candles).

Definition _first_attempt_index (candles : list OhlcvCandle) (zone : SupportZone.t)
    (rules : ReclaimRules) : res (option nat) :=
  fraction ← ddiv (minimum_attempt_penetration_bps rules) BPS;
  let threshold := dmul (SupportZone.low zone) (dadd d1 fraction) in
  mret (index_where (fun c => high_price c >=? threshold)%dec candles).

(** The loop of [_rejection_index]. *)
Fixpoint rejection_loop (zone : SupportZone.t) (rules : ReclaimRules) (index : nat)
    (candles : list OhlcvCandle) : res (option nat) :=
  match candles with
  | [] => mret None
  | c :: candles' =>
      let continue := rejection_loop zone rules (S index) candles' in
      if (high_price c <? SupportZone.low zone)%dec then continue
      else if ((close_price c >=? SupportZone.low zone) || (close_price c >=? open_price c))%dec
      then continue
      else
        body_fraction ← _body_fraction c;
        ratio ← ddiv (dsub (SupportZone.low zone) (close_price c)) (SupportZone.low zone);
        let rejection_distance := dmul ratio BPS in
        penetration ← _penetration_bps (high_price c) (SupportZone.low zone);
        if ((body_fraction >=? minimum_rejection_body_fraction rules) &&
            (rejection_distance >=? minimum_rejection_distance_bps rules) &&
            (penetration <=? maximum_failed_reclaim_penetration_bps rules))%dec
        then mret (Some index) else continue
  end.

Definition _rejection_index (candles : list OhlcvCandle) (zone : SupportZone.t)
    (rules : ReclaimRules) : res (option nat) :=
  rejection_loop zone rules 0 candles.

(** ** [_quality] *)

Definition penetration_component (penetration_bps : dec) (rules : ReclaimRules) : res dec :=
  share ← ddiv penetration_bps (py_max2 (maximum_failed_reclaim_penetration_bps rules) d1);
  let penetration_fraction := py_min2 d1 share in
  dquantize (dmul (dint 25) (dsub d1 penetration_fraction)) (-2).

Definition rejection_component (rejection_body_fraction : dec) : res dec :=
  dquantize (dmul (dint 30) (py_min2 d1 rejection_body_fraction)) (-2).

Definition duration_component (duration_bars : Z) (rules : ReclaimRules) : res dec :=
  share ← ddiv (dint duration_bars) (dint (maximum_pullback_bars rules));
  dquantize (dmul (dint 20) (dsub d1 (py_min2 d1 share))) (-2).

(** The volume component with its warning. *)
Definition volume_component (bounce_volume_ratio : option dec) (rules : ReclaimRules)
    : res (dec * list string) :=
  match bounce_volume_ratio with
  | None => mret (dint 8, ["BOUNCE_VOLUME_RATIO_UNAVAILABLE"])
  | Some ratio =>
      if (ratio <=? maximum_bounce_volume_ratio rules)%dec then
        share ← ddiv ratio (py_max2 (maximum_bounce_volume_ratio rules) (Dec 1 (-4)));
        component ← dquantize (dadd (dint 15) (dmul (dint 10) (dsub d1 share))) (-2);
        mret (component, [])
      else mret (d0, ["BOUNCE_VOLUME_NOT_WEAK"])
  end.

Definition _quality (penetration_bps rejection_body_fraction : dec)
    (bounce_volume_ratio : option dec) (duration_bars : Z) (rules : ReclaimRules)
    (triggered : bool) : res (dec * list string * list string) :=
  penetration ← penetration_component penetration_bps rules;
  rejection ← rejection_component rejection_body_fraction;
  duration ← duration_component duration_bars rules;
  volume ← volume_component bounce_volume_ratio rules;
  let '(volume, warnings) := volume in
  let trigger := if triggered then dint 20 else d0 in
  total ← dquantize
            (py_min2 (dint 100)
               (dadd (dadd (dadd (dadd penetration rejection) duration) volume) trigger)) (-2);
  let reasons := ["QUALITY_PENETRATION_" +:+ dec_str penetration;
                  "QUALITY_REJECTION_" +:+ dec_str rejection;
                  "QUALITY_DURATION_" +:+ dec_str duration;
                  "QUALITY_VOLUME_" +:+ dec_str volume;
                  "QUALITY_TRIGGER_" +:+ dec_str trigger] in
  mret (total, reasons, warnings).

(** ** [_continuation_result] *)

(** Dataclass equality of candles, for [search.index(trigger)]. *)
Definition candle_eqb (a b : OhlcvCandle) : bool :=
  bool_decide (source a = source b) && bool_decide (role a = role b) &&
  bool_decide (category a = category b) && bool_decide (symbol a = symbol b) &&
  bool_decide (interval a = interval b) &&
  aware_eqb (open_time a) (open_time b) && aware_eqb (close_time a) (close_time b) &&
  (open_price a =? open_price b)%dec && (high_price a =? high_price b)%dec &&
  (low_price a =? low_price b)%dec && (close_price a =? close_price b)%dec &&
  (volume a =? volume b)%dec && (turnover a =? turnover b)%dec.

(** [max(range(len(search)), key=lambda index: search[index].high_price)] *)
Definition highest_index (search : list OhlcvCandle) : res nat :=
  match imap (fun i c => (i, high_price c)) search with
  | [] => Err (empty_arg "max")
  | x :: l => mret (fst (py_max_by snd x l))
  end.

Definition continuation_quality (considered : list OhlcvCandle) (ratio : option dec)
    (rules : ReclaimRules) : res dec :=
  let weak := match ratio with
              | Some r => (r <=? maximum_bounce_volume_ratio rules)%dec | None => false end in
  let quality := if weak then dadd (dint 65) (dint 10) else dint 65 in
  let quality := dsub quality (py_min2 (dint (Z.of_nat (length considered))) (dint 10)) in
  dquantize (py_max2 d0 quality) (-2).

(** The bounce and the trigger after it, when there is a continuation. *)
Definition find_continuation (zone : SupportZone.t) (break_event : StructureEvent.t)
    (break_candle : OhlcvCandle) (search : list OhlcvCandle)
    : res (option (OhlcvCandle * OhlcvCandle)) :=
  bounce_index ← highest_index search;
  if (bounce_index =? 0)%nat || (length search - 1 <=? bounce_index)%nat then mret None
  else
    bounce ← py_index search bounce_index;
    if ((high_price bounce >=? SupportZone.low zone) ||
        (high_price bounce <=? StructureEvent.close_price break_event))%dec then mret None
    else
      mret ((fun trigger => (bounce, trigger)) <$>
        first_where (fun c => (close_price c <? low_price break_candle) &&
                              (high_price c <? high_price bounce))%dec
          (drop (bounce_index + 1) search)).

Definition _continuation_result (zone : SupportZone.t) (break_event : StructureEvent.t)
    (break_candle : OhlcvCandle) (candles : list OhlcvCandle) (rules : ReclaimRules)
    : res (option ReclaimAttempt.t) :=
  if Z.of_nat (length candles) <? continuation_minimum_bars rules then mret None
  else
    let search := take (Z.to_nat (maximum_pullback_bars rules)) candles in
    found ← find_continuation zone break_event break_candle search;
    match found with
    | None => mret None
    | Some (bounce, trigger) =>
        let position := default 0%nat (index_where (fun c => candle_eqb c trigger) search) in
        let considered := take (position + 1) search in
        ratio ← _volume_ratio considered (volume break_candle);
        let warnings := match ratio with
          | Some r => if (r >? maximum_bounce_volume_ratio rules)%dec
                      then ["CONTINUATION_BOUNCE_VOLUME_NOT_WEAK"] else []
          | None => []
          end in
        quality ← continuation_quality considered ratio rules;
        first ← first_of search;
        maximum ← max_high considered;
        Some <$> _result zone break_event (interval first) (open_time first) (close_time trigger)
          ReclaimOutcome.CONTINUATION DerivedSetupType.CONTINUATION_SHORT SetupReadiness.QUALIFIED
          maximum d0 (Z.of_nat (length considered)) 0 0 ratio quality
          ["LOWER_HIGH_BELOW_BROKEN_ZONE"; "POST_BOUNCE_LOWER_LOW_CONFIRMED";
           "CONTINUATION_SETUP_SECONDARY"] warnings
          (Some (open_time bounce)) (Some (low_price break_candle)) (Some (open_time trigger))
    end.

(** ** [analyze_reclaim_attempt] *)

Section analyze.
Context (zone : SupportZone.t) (break_event : StructureEvent.t) (break_candle : OhlcvCandle)
  (rules : ReclaimRules).

(** No candle closed after the break. *)
Definition no_relevant : res ReclaimAttempt.t :=
  _result zone break_event CandleInterval.H4 (StructureEvent.observed_at break_event)
    (StructureEvent.observed_at break_event) ReclaimOutcome.NO_ATTEMPT
    DerivedSetupType.BREAKDOWN_SHORT SetupReadiness.WATCH
    (StructureEvent.close_price break_event) d0 0 0 0 None d0
    ["NO_POST_BREAK_CONFIRMATION_CANDLES"] [] None None None.

(** The zone was reclaimed at [successful_index]. *)
Definition reclaimed (relevant : list OhlcvCandle) (evaluation_interval : CandleInterval.t)
    (successful_index : nat) : res ReclaimAttempt.t :=
  let considered := take (successful_index + 1) relevant in
  maximum_price ← max_high considered;
  penetration ← _penetration_bps maximum_price (SupportZone.low zone);
  first ← first_of considered;
  final ← last_of considered;
  ratio ← _volume_ratio considered (volume break_candle);
  _result zone break_event evaluation_interval (open_time first) (close_time final)
    ReclaimOutcome.SUCCESSFUL_RECLAIM DerivedSetupType.NONE SetupReadiness.CANCELLED
    maximum_price penetration (Z.of_nat (length considered)) (closes_above zone considered)
    (bars_above zone considered) ratio d0
    ["SUCCESSFUL_RECLAIM_CONFIRMED";
     "CONFIRMATION_INTERVAL_" +:+ str_upper (CandleInterval.label evaluation_interval);
     "SHORT_SETUP_CANCELLED"] [] None None None.

(** The broken zone was not retested. *)
Definition not_retested (relevant : list OhlcvCandle) (evaluation_interval : CandleInterval.t)
    : res ReclaimAttempt.t :=
  continuation ← _continuation_result zone break_event break_candle relevant rules;
  match continuation with
  | Some attempt => mret attempt
  | None =>
      let expired := maximum_setup_age_bars rules <=? Z.of_nat (length relevant) in
      first ← first_of relevant;
      final ← last_of relevant;
      maximum_price ← max_high relevant;
      ratio ← _volume_ratio relevant (volume break_candle);
      if expired then
        _result zone break_event evaluation_interval (open_time first) (close_time final)
          ReclaimOutcome.EXPIRED DerivedSetupType.NONE SetupReadiness.EXPIRED
          maximum_price d0 (Z.of_nat (length relevant)) 0 0 ratio d0
          ["SETUP_EXPIRED_WITHOUT_RECLAIM_ATTEMPT"] [] None None None
      else
        _result zone break_event evaluation_interval (open_time first) (close_time final)
          ReclaimOutcome.NO_ATTEMPT DerivedSetupType.BREAKDOWN_SHORT SetupReadiness.WATCH
          maximum_price d0 (Z.of_nat (length relevant)) 0 0 ratio d0
          ["BROKEN_ZONE_NOT_RETESTED"] [] None None None
  end.

(** Retested, and no rejection so far. *)
Definition unrejected (attempt_stream limited : list OhlcvCandle)
    (evaluation_interval : CandleInterval.t) (maximum_price penetration : dec)
    (ratio : option dec) : res ReclaimAttempt.t :=
  first ← first_of attempt_stream;
  if maximum_pullback_bars rules <? Z.of_nat (length attempt_stream) then
    final ← last_of limited;
    _result zone break_event evaluation_interval (open_time first) (close_time final)
      ReclaimOutcome.INVALIDATED DerivedSetupType.NONE SetupReadiness.INVALIDATED
      maximum_price penetration (Z.of_nat (length limited)) (closes_above zone limited)
      (bars_above zone limited) ratio d0
      ["PULLBACK_WINDOW_EXCEEDED_WITHOUT_REJECTION"] [] None None None
  else
    final ← last_of attempt_stream;
    maximum_price ← max_high attempt_stream;
    penetration ← _penetration_bps maximum_price (SupportZone.low zone);
    ratio ← _volume_ratio attempt_stream (volume break_candle);
    _result zone break_event evaluation_interval (open_time first) (close_time final)
      ReclaimOutcome.ATTEMPTING DerivedSetupType.BREAKDOWN_SHORT SetupReadiness.WATCH
      maximum_price penetration (Z.of_nat (length attempt_stream))
      (closes_above zone attempt_stream) (bars_above zone attempt_stream) ratio d0
      ["RECLAIM_ATTEMPT_IN_PROGRESS"] [] None None None.

(** Rejected at [rejection_index]: waiting for the trigger, or triggered. *)
Definition rejected (attempt_stream limited considered : list OhlcvCandle)
    (evaluation_interval : CandleInterval.t) (rejection_index : nat)
    (maximum_price penetration : dec) (ratio : option dec) : res ReclaimAttempt.t :=
  rejection ← py_index limited rejection_index;
  let trigger := first_where (fun c => close_price c <? low_price rejection)%dec
                   (drop (rejection_index + 1) attempt_stream) in
  body_fraction ← _body_fraction rejection;
  q ← _quality penetration body_fraction ratio (Z.of_nat rejection_index + 1) rules
        (match trigger with Some _ => true | None => false end);
  let '(quality, quality_reasons, warnings) := q in
  first ← first_of attempt_stream;
  match trigger with
  | None =>
      _result zone break_event evaluation_interval (open_time first) (close_time rejection)
        ReclaimOutcome.FAILED_RECLAIM DerivedSetupType.BREAKDOWN_SHORT SetupReadiness.WATCH
        maximum_price penetration (Z.of_nat rejection_index + 1) (closes_above zone considered)
        (bars_above zone considered) ratio quality
        (["RECLAIM_REJECTED"; "WAITING_FOR_REJECTION_LOW_BREAK"] ++ quality_reasons) warnings
        (Some (open_time rejection)) (Some (low_price rejection)) None
  | Some trigger =>
      _result zone break_event evaluation_interval (open_time first) (close_time trigger)
        ReclaimOutcome.FAILED_PULLBACK DerivedSetupType.FAILED_PULLBACK_SHORT
        SetupReadiness.QUALIFIED
        maximum_price penetration (Z.of_nat rejection_index + 1) (closes_above zone considered)
        (bars_above zone considered) ratio quality
        (["RECLAIM_REJECTED"; "REJECTION_LOW_BROKEN_ON_CLOSED_CANDLE";
          "FAILED_PULLBACK_PRIMARY_SETUP"] ++ quality_reasons) warnings
        (Some (open_time rejection)) (Some (low_price rejection)) (Some (open_time trigger))
  end.

(** Retested at [attempt_index]. *)
Definition retested (relevant : list OhlcvCandle) (evaluation_interval : CandleInterval.t)
    (attempt_index : nat) : res ReclaimAttempt.t :=
  let attempt_stream := drop attempt_index relevant in
  let limited := take (Z.to_nat (maximum_pullback_bars rules)) attempt_stream in
  rejection_index ← _rejection_index limited zone rules;
  let considered := match rejection_index with
                    | None => limited
                    | Some i => take (i + 1) limited
                    end in
  maximum_price ← max_high considered;
  penetration ← _penetration_bps maximum_price (SupportZone.low zone);
  ratio ← _volume_ratio considered (volume break_candle);
  match rejection_index with
  | None => unrejected attempt_stream limited evaluation_interval maximum_price penetration ratio
  | Some i => rejected attempt_stream limited considered evaluation_interval i
                maximum_price penetration ratio
  end.

(** The decision on the relevant candles. *)
Definition analyze_relevant (relevant : list OhlcvCandle) : res ReclaimAttempt.t :=
  match relevant with
  | [] => no_relevant
  | c :: _ =>
      let evaluation_interval := interval c in
      successful_index ← _successful_reclaim_index relevant zone rules;
      match successful_index with
      | Some i => reclaimed relevant evaluation_interval i
      | None =>
          attempt_index ← _first_attempt_index relevant zone rules;
          match attempt_index with
          | None => not_retested relevant evaluation_interval
          | Some i => retested relevant evaluation_interval i
          end
      end
  end.
End analyze.

(** [candle.close_time > break_event.observed_at] *)
Definition relevant_to (break_event : StructureEvent.t) (candles : list OhlcvCandle)
    : list OhlcvCandle :=
  List.filter (fun c => py_lt (StructureEvent.observed_at break_event) (close_time c)) candles.

Definition analyze_reclaim_attempt (zone : SupportZone.t) (break_event : StructureEvent.t)
    (break_candle : OhlcvCandle) (candles : list OhlcvCandle) (rules : option ReclaimRules)
    : res ReclaimAttempt.t :=
  let active_rules := default default_reclaim_rules rules in
  _validate_inputs zone break_event break_candle candles ;;
  analyze_relevant zone break_event break_candle active_rules (relevant_to break_event candles).

(** ** Facts *)

(** The setup type and readiness that go with each outcome. *)
Definition verdict (o : ReclaimOutcome.t) : DerivedSetupType.t * SetupReadiness.t :=
  match o with
  | ReclaimOutcome.NO_ATTEMPT | ReclaimOutcome.ATTEMPTING | ReclaimOutcome.FAILED_RECLAIM =>
      (DerivedSetupType.BREAKDOWN_SHORT, SetupReadiness.WATCH)
  | ReclaimOutcome.SUCCESSFUL_RECLAIM => (DerivedSetupType.NONE, SetupReadiness.CANCELLED)
  | ReclaimOutcome.FAILED_PULLBACK => (DerivedSetupType.FAILED_PULLBACK_SHORT, SetupReadiness.QUALIFIED)
  | ReclaimOutcome.CONTINUATION => (DerivedSetupType.CONTINUATION_SHORT, SetupReadiness.QUALIFIED)
  | ReclaimOutcome.EXPIRED => (DerivedSetupType.NONE, SetupReadiness.EXPIRED)
  | ReclaimOutcome.INVALIDATED => (DerivedSetupType.NONE, SetupReadiness.INVALIDATED)
  end.

Definition consistent (a : ReclaimAttempt.t) : Prop :=
  attempt_wf a /\
  (ReclaimAttempt.setup_type a, ReclaimAttempt.readiness a) = verdict (ReclaimAttempt.outcome a).

(** [built o ro rl to a]: [a] was made by [_result] with these arguments. *)
Definition built (o : ReclaimOutcome.t) (rejection_open : option aware) (rejection_low : option dec)
    (trigger_open : option aware) (a : ReclaimAttempt.t) : Prop :=
  consistent a /\ ReclaimAttempt.outcome a = o /\
  ReclaimAttempt.rejection_candle_open_time a = rejection_open /\
  ReclaimAttempt.rejection_low a = rejection_low /\
  ReclaimAttempt.trigger_candle_open_time a = trigger_open.

#[export] Instance Finite_inj : Inj (=) (=) Finite.
Proof. by intros ?? [= ->]. Qed.

Lemma _result_Ok zone be itv sa oa o s r mp pen db cz bz ratio q rs ws ro rl to a :
  (s, r) = verdict o ->
  _result zone be itv sa oa o s r mp pen db cz bz ratio q rs ws ro rl to = Ok a ->
  built o ro rl to a.
Proof.
  intros Hv H. unfold _result in H. guards.
  select (ReclaimAttempt.new _ _ _ _ _ _ _ _ _ _ _ _ _ _ _ _ _ _ _ _ _ _ _ _ _ = _)
    (fun H => apply new_ReclaimAttempt_Ok in H as (Hwf & Ho & Hs & Hr & _ & _ & Hro & Hto & Hrl & _)).
  apply (inj (fmap AwareDT)) in Hro. apply (inj (fmap AwareDT)) in Hto. apply (inj (fmap Finite)) in Hrl.
  unfold built, consistent. rewrite Ho, Hs, Hr. by rewrite <- Hv.
Qed.

(** [find_built]: the attempt a branch returns. *)
Ltac find_built :=
  match goal with
  | H : _result _ _ _ _ _ _ _ _ _ _ _ _ _ _ _ _ _ _ _ _ = Ok _ |- _ =>
      let Hb := fresh "Hbuilt" in
      pose proof (fun Hv => _result_Ok _ _ _ _ _ _ _ _ _ _ _ _ _ _ _ _ _ _ _ _ _ Hv H) as Hb;
      specialize (Hb eq_refl); clear H
  end.

(** *** Successful reclaims *)

Section successful.
Context (zone : SupportZone.t).

Definition above (c : OhlcvCandle) : bool := (close_price c >? SupportZone.high zone)%dec.

(** [required] closes above the zone in a row, the last one at [k]. *)
Definition window (required : Z) (bs : list bool) (k : nat) : Prop :=
  required <= Z.of_nat k + 1 /\
  forall j, Z.of_nat k + 1 - required <= Z.of_nat j <= Z.of_nat k -> bs !! j = Some true.

Lemma window_skip required bs n k :
  1 <= required -> window required bs k <-> window required (replicate n true ++ false :: bs) (n + 1 + k).
Proof.
  intros Hreq. unfold window.
  assert (forall j, (replicate n true ++ false :: bs) !! (n + 1 + j)%nat = bs !! j) as Hj.
  { intros j. rewrite lookup_app_r by (rewrite length_replicate; lia).
    rewrite length_replicate. by replace (n + 1 + j - n)%nat with (S j) by lia. }
  split.
  - intros [H1 H2]. split; [lia|]. intros j Hlt.
    replace j with (n + 1 + (j - n - 1))%nat by lia. rewrite Hj. apply H2. lia.
  - intros [H1 H2]. destruct (Z.lt_ge_cases (Z.of_nat k + 1) required) as [Hlt|Hge].
    + specialize (H2 n ltac:(lia)). rewrite lookup_app_r in H2 by (rewrite length_replicate; lia).
      rewrite length_replicate, Nat.sub_diag in H2. done.
    + split; [done|]. intros j Hlt. rewrite <- Hj. apply H2. lia.
Qed.

Lemma successful_loop_spec required index n l :
  1 <= required -> Z.of_nat n < required ->
  let bs := replicate n true ++ (above <$> l) in
  match successful_loop zone required index (Z.of_nat n) l with
  | Some i => exists k, i = (index + k)%nat /\ (k < length l)%nat /\ window required bs (n + k) /\
      forall k', (k' < k)%nat -> ~ window required bs (n + k')
  | None => forall k, ~ window required bs (n + k)
  end.
Proof.
  intros Hreq. revert index n; induction l as [|c l IH]; intros index n Hn; cbv zeta;
    cbn [successful_loop length]; [|rewrite fmap_cons].
  { intros k [H1 H2]. rewrite app_nil_r in H2.
    specialize (H2 (n + k)%nat ltac:(lia)). apply lookup_replicate in H2. lia. }
  change (SupportZone.high zone <? close_price c)%dec with (above c).
  destruct (above c).
  - assert (replicate n true ++ true :: (above <$> l) = replicate (n + 1) true ++ (above <$> l)) as E.
    { rewrite replicate_add, <- app_assoc. done. }
    rewrite E. destruct (Z.leb_spec required (Z.of_nat n + 1)) as [Hle|Hgt].
    + exists 0%nat. split_and!; [lia|lia| |intros; lia]. split; [lia|]. intros j Hj.
      rewrite lookup_app_l by (rewrite length_replicate; lia). apply lookup_replicate. split; [done|lia].
    + specialize (IH (S index) (n + 1)%nat ltac:(lia)). cbv zeta in IH.
      replace (Z.of_nat (n + 1)) with (Z.of_nat n + 1) in IH by lia.
      assert (~ window required (replicate (n + 1) true ++ (above <$> l)) (n + 0)) as H0.
      { intros [H _]. lia. }
      destruct (successful_loop _ _ _ _ _) as [i|].
      * destruct IH as (k & -> & Hk & Hw & Hmin). exists (S k). split_and!; [lia|lia| |].
        { by replace (n + S k)%nat with (n + 1 + k)%nat by lia. }
        intros [|k'] Hk'; [done|]. replace (n + S k')%nat with (n + 1 + k')%nat by lia. apply Hmin. lia.
      * intros [|k]; [done|]. replace (n + S k)%nat with (n + 1 + k)%nat by lia. apply IH.
  - specialize (IH (S index) 0%nat ltac:(lia)). cbv zeta in IH. cbn [Z.of_nat replicate app Nat.add] in IH.
    assert (~ window required (replicate n true ++ false :: (above <$> l)) (n + 0)) as H0.
    { intros [_ H]. specialize (H n ltac:(lia)). rewrite lookup_app_r in H by (rewrite length_replicate; lia).
      rewrite length_replicate, Nat.sub_diag in H. done. }
    destruct (successful_loop _ _ _ _ _) as [i|].
    + destruct IH as (k & -> & Hk & Hw & Hmin). exists (S k). split_and!; [lia|lia| |].
      { replace (n + S k)%nat with (n + 1 + k)%nat by lia. by apply window_skip. }
      intros [|k'] Hk'; [done|]. replace (n + S k')%nat with (n + 1 + k')%nat by lia.
      intros Hw'%window_skip; [|done]. apply (Hmin k'); [lia|done].
    + intros [|k]; [done|]. replace (n + S k)%nat with (n + 1 + k)%nat by lia.
      intros Hw'%window_skip; [|done]. by apply (IH k).
Qed.

Lemma successful_loop_app required index n l more i :
  successful_loop zone required index n l = Some i ->
  successful_loop zone required index n (l ++ more) = Some i.
Proof.
  revert index n; induction l as [|c l IH]; intros index n; simpl; [done|].
  destruct (_ <? _)%dec; [destruct (_ <=? _); [done|]|]; apply IH.
Qed.
End successful.

(** *** Rejections and triggers *)

(** A red candle that reached the zone and closed below it. *)
Definition rejects (zone : SupportZone.t) (c : OhlcvCandle) : Prop :=
  (SupportZone.low zone <=? high_price c)%dec = true /\
  (close_price c <? SupportZone.low zone)%dec = true /\
  (close_price c <? open_price c)%dec = true.

Lemma rejection_loop_Some zone rules index l i :
  rejection_loop zone rules index l = Ok (Some i) ->
  exists k c, i = (index + k)%nat /\ l !! k = Some c /\ rejects zone c.
Proof.
  revert index i; induction l as [|c l IH]; intros index i H; simpl in H; [by guards|].
  assert (forall j, rejection_loop zone rules (S index) l = Ok (Some j) ->
    exists k d, j = (index + k)%nat /\ (c :: l) !! k = Some d /\ rejects zone d) as Hrec.
  { intros j (k & d & -> & Hk & Hd)%IH. exists (S k), d. split_and!; [lia|done|done]. }
  destruct (high_price c <? _)%dec eqn:Hh; [by apply Hrec|].
  destruct (_ || _)%dec eqn:Hc; [by apply Hrec|]. apply orb_false_iff in Hc as [Hc1 Hc2].
  guards. split_match_in H; [|by apply Hrec]. guards.
  subst i. exists 0%nat, c. split_and!; [lia|done|]. unfold rejects.
  by rewrite py_le_not_lt, Hh, py_lt_not_le, Hc1, py_lt_not_le, Hc2.
Qed.

Lemma first_where_lookup {A} (p : A -> bool) l x :
  first_where p l = Some x -> exists k, l !! k = Some x /\ p x = true.
Proof.
  intros [Hin Hp]%first_where_Some. apply list_elem_of_lookup in Hin as [k Hk]. by exists k.
Qed.

Section meaning.
Context (zone : SupportZone.t) (break_event : StructureEvent.t) (break_candle : OhlcvCandle)
  (rules : ReclaimRules) (Hrules : reclaim_rules_wf rules).

(** What each outcome says of the candles closed after the break. *)
Definition outcome_meaning (relevant : list OhlcvCandle) (a : ReclaimAttempt.t) : Prop :=
  match ReclaimAttempt.outcome a with
  | ReclaimOutcome.FAILED_PULLBACK =>
      exists i j r t, relevant !! i = Some r /\ relevant !! j = Some t /\ (i < j)%nat /\
        rejects zone r /\ (close_price t <? low_price r)%dec = true /\
        ReclaimAttempt.rejection_candle_open_time a = Some (open_time r) /\
        ReclaimAttempt.rejection_low a = Some (low_price r) /\
        ReclaimAttempt.trigger_candle_open_time a = Some (open_time t)
  | ReclaimOutcome.FAILED_RECLAIM =>
      exists i r, relevant !! i = Some r /\ rejects zone r /\
        (forall j t, (i < j)%nat -> relevant !! j = Some t ->
           (close_price t <? low_price r)%dec = false) /\
        ReclaimAttempt.rejection_candle_open_time a = Some (open_time r)
  | ReclaimOutcome.CONTINUATION =>
      exists i j b t, relevant !! i = Some b /\ relevant !! j = Some t /\ (i < j)%nat /\
        (high_price b <? SupportZone.low zone)%dec = true /\
        (close_price t <? low_price break_candle)%dec = true /\
        (high_price t <? high_price b)%dec = true /\
        ReclaimAttempt.trigger_candle_open_time a = Some (open_time t)
  | ReclaimOutcome.EXPIRED =>
      maximum_setup_age_bars rules <= Z.of_nat (length relevant)
  | _ => True
  end.

Lemma continuation_meaning relevant a :
  _continuation_result zone break_event break_candle relevant rules = Ok (Some a) ->
  consistent a /\ ReclaimAttempt.outcome a = ReclaimOutcome.CONTINUATION /\ outcome_meaning relevant a.
Proof.
  intros H. unfold _continuation_result in H. split_match_in H; [by guards|]. guards.
  destruct v as [[b t]|]; [|by guards]. guards. select (Some _ = Some _) (fun H => injection H as <-).
  find_built. destruct Hbuilt as (Hcons & Ho & _ & _ & Hto). split_and!; [done|done|].
  unfold outcome_meaning. rewrite Ho.
  select (find_continuation _ _ _ _ = _) (fun H => rename H into Hf).
  unfold find_continuation in Hf. guards. split_match_in Hf; [by guards|]. guards.
  split_match_in Hf; [by guards|]. guards.
  apply fmap_Some in Hf as (t' & Hf & [= -> ->]).
  apply first_where_lookup in Hf as (k & Hk & Hp). rewrite lookup_drop in Hk.
  select (py_index _ _ = Ok _) (fun H => apply py_index_Ok in H as Hb).
  apply lookup_take_Some in Hk as [Hk _]. apply lookup_take_Some in Hb as [Hb _].
  guards. eexists _, _, _, _. split_and!; [exact Hb|exact Hk|lia| |done|done|done].
  by rewrite py_lt_not_le, negb_true_iff.
Qed.

Lemma not_retested_meaning relevant itv a :
  not_retested zone break_event break_candle rules relevant itv = Ok a ->
  consistent a /\ ReclaimAttempt.outcome a <> ReclaimOutcome.SUCCESSFUL_RECLAIM /\
  outcome_meaning relevant a.
Proof.
  intros H. unfold not_retested in H. guards. destruct v as [a'|]; guards.
  - subst a'. select (_continuation_result _ _ _ _ _ = _)
      (fun H => apply continuation_meaning in H as (? & Ho & ?)).
    split_and!; [done|by rewrite Ho|done].
  - split_match_in H; find_built; destruct Hbuilt as (? & Ho & _); split_and!; try done;
      try (by rewrite Ho); unfold outcome_meaning; rewrite Ho; [by guards|done].
Qed.

Lemma retested_meaning relevant itv i a :
  retested zone break_event break_candle rules relevant itv i = Ok a ->
  consistent a /\ ReclaimAttempt.outcome a <> ReclaimOutcome.SUCCESSFUL_RECLAIM /\
  outcome_meaning relevant a.
Proof.
  intros H. unfold retested in H. guards. destruct v as [k|].
  - select (_rejection_index _ _ _ = _) (fun H => apply rejection_loop_Some in H as (k' & r & -> & Hk & Hr)).
    simpl in H. unfold rejected in H. guards.
    select (py_index _ k' = Ok _) (fun H => apply py_index_Ok in H as Hk').
    rewrite Hk in Hk'. injection Hk' as <-.
    apply lookup_take_Some in Hk as [Hk _]. rewrite lookup_drop in Hk.
    destruct (first_where _ _) as [t|] eqn:Ht.
    all: repeat match goal with v : _ * _ |- _ => destruct v end; guards; find_built;
      destruct Hbuilt as (? & Ho & Hro & Hrl & Hto); split_and!; [done|by rewrite Ho|];
      unfold outcome_meaning; rewrite Ho.
    + apply first_where_lookup in Ht as (j & Hj & Hp). rewrite !lookup_drop in Hj.
      eexists _, _, _, _. split_and!; [exact Hk|exact Hj|lia|done|exact Hp|done|done|done].
    + eexists _, _. split_and!; [exact Hk|done| |done]. intros j t Hij Hj.
      apply first_where_None in Ht. rewrite Forall_lookup in Ht.
      apply (Ht (j - (i + k') - 1)%nat). rewrite !lookup_drop, <- Hj. f_equal. lia.
  - unfold unrejected in H. guards. split_match_in H; guards; find_built;
      destruct Hbuilt as (? & Ho & _); split_and!; try done; try (by rewrite Ho);
      unfold outcome_meaning; by rewrite Ho.
Qed.

(** The closes of the relevant candles, and how many in a row reclaim the zone. *)
Definition reclaim_window (relevant : list OhlcvCandle) (k : nat) : Prop :=
  match relevant with
  | [] => False
  | c :: _ => window (required_closes rules (interval c)) (above zone <$> relevant) k
  end.

Lemma required_pos i : 1 <= required_closes rules i.
Proof. unfold required_closes. destruct Hrules as [[? ?] _ _ _ _ _]. by destruct (decide _). Qed.

Lemma successful_index_eq c l :
  _successful_reclaim_index (c :: l) zone rules =
  Ok (successful_loop zone (required_closes rules (interval c)) 0 0 (c :: l)).
Proof. done. Qed.

Lemma analyze_relevant_meaning relevant a :
  analyze_relevant zone break_event break_candle rules relevant = Ok a ->
  consistent a /\ outcome_meaning relevant a /\
  (ReclaimAttempt.outcome a = ReclaimOutcome.SUCCESSFUL_RECLAIM <->
   exists k, reclaim_window relevant k).
Proof.
  intros H. unfold analyze_relevant in H. destruct relevant as [|c l].
  { cbv iota in H. unfold no_relevant in H. find_built. destruct Hbuilt as (? & Ho & _). split_and!; [done| |].
    - unfold outcome_meaning. by rewrite Ho.
    - rewrite Ho. split; [done|by intros [k ?]]. }
  pose proof (successful_loop_spec zone (required_closes rules (interval c)) 0 0 (c :: l)
    (required_pos _) ltac:(pose proof (required_pos (interval c)); lia)) as Hs.
  rewrite successful_index_eq, Ok_bind in H. cbv beta in H.
  cbv zeta in Hs. change (Z.of_nat 0) with 0 in Hs.
  cbn [replicate app Nat.add] in Hs. unfold reclaim_window.
  destruct (successful_loop _ _ _ _ _) as [i|].
  - unfold reclaimed in H. guards. find_built. destruct Hbuilt as (? & Ho & _). split_and!; [done| |].
    + unfold outcome_meaning. by rewrite Ho.
    + split; [|done]. intros _. destruct Hs as (k & _ & _ & Hw & _). by exists k.
  - guards. assert (consistent a /\ ReclaimAttempt.outcome a <> ReclaimOutcome.SUCCESSFUL_RECLAIM /\
      outcome_meaning (c :: l) a) as (? & Hne & ?).
    { destruct v as [j|]; [by eapply retested_meaning|by eapply not_retested_meaning]. }
    split_and!; [done|done|]. split; [done|]. intros [k Hk]. by destruct (Hs k).
Qed.
End meaning.

(** *** A successful reclaim is final *)

Lemma reclaimed_app zone be bc l more itv i :
  (i < length l)%nat -> reclaimed zone be bc (l ++ more) itv i = reclaimed zone be bc l itv i.
Proof. intros Hi. unfold reclaimed. by rewrite take_app_le by lia. Qed.

Lemma analyze_relevant_app zone be bc rules l more a :
  reclaim_rules_wf rules ->
  analyze_relevant zone be bc rules l = Ok a ->
  ReclaimAttempt.outcome a = ReclaimOutcome.SUCCESSFUL_RECLAIM ->
  analyze_relevant zone be bc rules (l ++ more) = Ok a.
Proof.
  intros Hr H Ho. pose proof (analyze_relevant_meaning zone be bc rules Hr l a H) as (_ & _ & Hs).
  destruct l as [|c l].
  { apply Hs in Ho as [k []]. }
  apply Hs in Ho as [k Hk]. unfold reclaim_window in Hk.
  pose proof (successful_loop_spec zone (required_closes rules (interval c)) 0 0 (c :: l)
    (required_pos _ Hr _) ltac:(pose proof (required_pos rules Hr (interval c)); lia)) as Hl.
  cbv zeta in Hl. change (Z.of_nat 0) with 0 in Hl. cbn [replicate app Nat.add] in Hl.
  unfold analyze_relevant in *. cbn [app]. rewrite successful_index_eq, Ok_bind in *. cbv beta in *.
  destruct (successful_loop zone _ 0 0 (c :: l)) as [i|] eqn:E; [|by destruct (Hl k)].
  destruct Hl as (k' & -> & Hlt & _).
  change (c :: l ++ more) with ((c :: l) ++ more).
  rewrite (successful_loop_app _ _ _ _ _ _ _ E), reclaimed_app by done. done.
Qed.

(** ** Properties *)

(** C5: whatever attempt the engine returns, its setup type and readiness are those of
    its outcome (qualified exactly for a failed pullback or a continuation, cancelled
    exactly for a successful reclaim), its quality is within 0..100, and the outcome
    means what it says of the candles closed after the break: a failed pullback has a
    rejection candle and a strictly later close below that candle's low, a failed
    reclaim has the rejection and no such close, a continuation has a bounce below the
    zone and a later close below the break candle's low, an expired setup is old enough;
    and the outcome is SUCCESSFUL_RECLAIM exactly when the required number of consecutive
    closes above the zone occurs. *)
Theorem reclaim_attempt_meaning zone be bc candles rules a :
  reclaim_rules_wf rules ->
  analyze_reclaim_attempt zone be bc candles (Some rules) = Ok a ->
  consistent a /\ outcome_meaning zone bc rules (relevant_to be candles) a /\
  (ReclaimAttempt.outcome a = ReclaimOutcome.SUCCESSFUL_RECLAIM <->
   exists k, reclaim_window zone rules (relevant_to be candles) k).
Proof.
  intros Hr H. unfold analyze_reclaim_attempt in H. guards.
  by eapply (analyze_relevant_meaning zone be bc rules Hr).
Qed.

(** C37: a successful reclaim is final: on every longer valid stream of candles the
    engine returns the same attempt, identifier, times and counters included. *)
Theorem successful_reclaim_is_final zone be bc candles more rules a :
  reclaim_rules_wf rules ->
  analyze_reclaim_attempt zone be bc candles (Some rules) = Ok a ->
  ReclaimAttempt.outcome a = ReclaimOutcome.SUCCESSFUL_RECLAIM ->
  _validate_inputs zone be bc (candles ++ more) = Ok tt ->
  analyze_reclaim_attempt zone be bc (candles ++ more) (Some rules) = Ok a.
Proof.
  intros Hr H Ho Hv. unfold analyze_reclaim_attempt in *. rewrite Hv, Ok_bind. guards.
  unfold relevant_to in *. rewrite List.filter_app. by apply analyze_relevant_app.
Qed.

(** *** Concrete streams *)

Definition sample_zone : SupportZone.t :=
  SupportZone.Mk "zone_a" CandleSource.BYBIT "BTCUSDT" CandleInterval.D1 (dint 998) (dint 1004)
    (Aware (days 3) 0) (Aware (days 9) 0) (Aware (days 7) 0) 2 2 (dint 60)
    [Aware (days 2) 0; Aware (days 6) 0] SupportZoneState.ACTIVE [].

Definition sample_break : OhlcvCandle :=
  MkCandle CandleSource.BYBIT CandleRole.STRUCTURE_DATA "linear" "BTCUSDT" CandleInterval.D1
    (Aware (days 10) 0) (Aware (days 11) 0)
    (dint 1006) (dint 1007) (dint 979) (dint 980) (dint 100) (dint 1000).

Definition sample_event : StructureEvent.t :=
  StructureEvent.Mk "event_a" "zone_a" CandleSource.BYBIT "BTCUSDT" CandleInterval.D1
    StructureEventState.CONFIRMED_BREAK (Aware (days 11) 0) (Aware (days 10) 0) (dint 980)
    (dint 998) (dint 1004) (Dec 18036 (-2)) (Dec 9286 (-4)) None None [].

(** The [i]-th 4H candle after the break. *)
Definition h4 (i open high low close vol : Z) : OhlcvCandle :=
  MkCandle CandleSource.BYBIT CandleRole.STRUCTURE_DATA "linear" "BTCUSDT" CandleInterval.H4
    (Aware (days 11 + hours (4 * i)) 0) (Aware (days 11 + hours (4 * i + 4)) 0)
    (dint open) (dint high) (dint low) (dint close) (dint vol) (dint 1000).

(** A retest, its rejection and a close below the rejection's low. *)
Definition pullback : list OhlcvCandle :=
  [h4 0 980 990 978 988 50; h4 1 995 1000 985 986 40; h4 2 986 987 970 975 60].
(** A close above the zone. *)
Definition recovery : list OhlcvCandle :=
  [h4 0 980 990 978 988 50; h4 1 988 1010 986 1008 90].

Definition attempt_of (r : res ReclaimAttempt.t) : option ReclaimAttempt.t :=
  match r with Ok a => Some a | Err _ => None end.

Lemma reclaim_attempt_meaning_witness :
  exists a, analyze_reclaim_attempt sample_zone sample_event sample_break pullback
              (Some default_reclaim_rules) = Ok a /\
    ReclaimAttempt.outcome a = ReclaimOutcome.FAILED_PULLBACK /\
    outcome_meaning sample_zone sample_break default_reclaim_rules (relevant_to sample_event pullback) a.
Proof.
  assert (ReclaimAttempt.outcome <$> analyze_reclaim_attempt sample_zone sample_event sample_break
    pullback (Some default_reclaim_rules) = Ok ReclaimOutcome.FAILED_PULLBACK) as H
    by (vm_compute; reflexivity).
  apply fmap_Ok in H as (a & E & Ho). exists a. split; [exact E|]. split; [symmetry; exact Ho|].
  refine (proj1 (proj2 (reclaim_attempt_meaning sample_zone sample_event sample_break pullback
    default_reclaim_rules a default_reclaim_rules_wf E))).
Defined.

Lemma successful_reclaim_is_final_witness :
  exists a, ReclaimAttempt.outcome a = ReclaimOutcome.SUCCESSFUL_RECLAIM /\
    analyze_reclaim_attempt sample_zone sample_event sample_break
      (recovery ++ [h4 2 1008 1009 960 965 80]) (Some default_reclaim_rules) = Ok a.
Proof.
  assert (ReclaimAttempt.outcome <$> analyze_reclaim_attempt sample_zone sample_event sample_break
    recovery (Some default_reclaim_rules) = Ok ReclaimOutcome.SUCCESSFUL_RECLAIM) as H
    by (vm_compute; reflexivity).
  apply fmap_Ok in H as (a & E & Ho). exists a. split; [symmetry; exact Ho|].
  refine (successful_reclaim_is_final sample_zone sample_event sample_break recovery
    [h4 2 1008 1009 960 965 80] default_reclaim_rules a default_reclaim_rules_wf E (eq_sym Ho) _).
  vm_compute. reflexivity.
Defined.

(** Expiry is not final: thirty quiet candles expire the setup, and the next candle
    brings it back to ATTEMPTING. *)
Definition quiet_stream : list OhlcvCandle := (fun i => h4 (Z.of_nat i) 980 985 978 982 50) <$> seq 0 30.

(** EXPIRED is not absorbing: a stream the engine calls EXPIRED is called ATTEMPTING
    again after one more candle. *)
Theorem expiry_is_not_final :
  ReclaimAttempt.outcome <$> analyze_reclaim_attempt sample_zone sample_event sample_break
    quiet_stream None = Ok ReclaimOutcome.EXPIRED /\
  ReclaimAttempt.outcome <$> analyze_reclaim_attempt sample_zone sample_event sample_break
    (quiet_stream ++ [h4 30 982 1000 980 999 50]) None = Ok ReclaimOutcome.ATTEMPTING.
Proof. split; vm_compute; reflexivity. Qed.
