(* ===== verification/LBank.v ===== *)
(** * LBank execution data: [adapters/lbank_models.py] and [execution/lbank_validator.py]

    The exchange snapshot the program would trade on, with its constructor checks,
    and the validation that decides whether it is executable.  Thresholds of
    [LBankExecutionRules] are finite decimals. *)

From stdpp Require Import list strings.
From Stdlib Require Import QArith Qabs Lqa.
From S2P Require Import Prelude PyList PyStr PyDecimal DecimalFacts DecimalContext PyTime PyFloat FloatFacts.
Open Scope Z_scope.

Definition _finite_decimal (value : pydec) (name : string) : res dec :=
  match value with
  | Finite v => mret v
  | _ => Err (ValueError (name +:+ " must be finite"))
  end.

Definition _positive_decimal (value : pydec) (name : string) : res dec :=
  v ← _finite_decimal value name;
  raise_if (v <=? d0)%dec (name +:+ " must be positive") ;;
  mret v.

Definition _non_negative_decimal (value : pydec) (name : string) : res dec :=
  v ← _finite_decimal value name;
  raise_if (v <? d0)%dec (name +:+ " must be non-negative") ;;
  mret v.

Definition _required_text (value : string) (name : string) : res string :=
  let normalized := str_strip value in
  raise_if (str_empty normalized) (name +:+ " is required") ;;
  mret normalized.

(** [check(value) if value is not None else None] *)
Definition optionally {A B} (value : option A) (check : A -> res B) : res (option B) :=
  match value with None => mret None | Some v => Some <$> check v end.

Module Instrument.
Record t : Type := Mk {
  symbol : string;
  base_currency : string;
  price_currency : string;
  clear_currency : string;
  price_tick : dec;
  volume_tick : dec;
  volume_multiple : dec;
  min_order_volume : option dec;
  min_order_cost : option dec }.

Definition new (raw_symbol raw_base raw_price raw_clear : string)
    (raw_price_tick raw_volume_tick raw_multiple : pydec)
    (raw_min_volume raw_min_cost : option pydec) : res t :=
  symbol ← _required_text raw_symbol "symbol";
  base ← _required_text raw_base "base_currency";
  price ← _required_text raw_price "price_currency";
  clear ← _required_text raw_clear "clear_currency";
  price_tick ← _positive_decimal raw_price_tick "price_tick";
  volume_tick ← _positive_decimal raw_volume_tick "volume_tick";
  multiple ← _positive_decimal raw_multiple "volume_multiple";
  min_volume ← optionally raw_min_volume (fun v => _positive_decimal v "min_order_volume");
  min_cost ← optionally raw_min_cost (fun v => _positive_decimal v "min_order_cost");
  mret (Mk symbol base price clear price_tick volume_tick multiple min_volume min_cost).
End Instrument.

Module Quote.
Record t : Type := Mk {
  symbol : string;
  last_price : dec;
  marked_price : dec;
  funding_rate : option dec;
  volume_24h : option dec;
  turnover_24h : option dec }.

Definition new (raw_symbol : string) (raw_last raw_marked : pydec)
    (raw_funding raw_volume raw_turnover : option pydec) : res t :=
  symbol ← _required_text raw_symbol "symbol";
  last_price ← _positive_decimal raw_last "last_price";
  marked_price ← _positive_decimal raw_marked "marked_price";
  funding ← optionally raw_funding (fun v => _finite_decimal v "funding_rate");
  volume ← optionally raw_volume (fun v => _non_negative_decimal v "volume_24h");
  turnover ← optionally raw_turnover (fun v => _non_negative_decimal v "turnover_24h");
  mret (Mk symbol last_price marked_price funding volume turnover).
End Quote.

Module BookLevel.
Record t : Type := Mk { price : dec; volume : dec; orders : option Z }.

Definition new (raw_price raw_volume : pydec) (orders : option Z) : res t :=
  price ← _positive_decimal raw_price "price";
  volume ← _positive_decimal raw_volume "volume";
  raise_if (match orders with Some n => n <? 0 | None => false end) "orders must be non-negative" ;;
  mret (Mk price volume orders).
End BookLevel.

(** [bids] and [asks] are not empty: [best_bid] and [best_ask] are the heads. *)
Module OrderBook.
Record t : Type := Mk {
  symbol : string;
  best_bid : BookLevel.t;
  more_bids : list BookLevel.t;
  best_ask : BookLevel.t;
  more_asks : list BookLevel.t }.

Definition new (raw_symbol : string) (bids asks : list BookLevel.t) : res t :=
  symbol ← _required_text raw_symbol "symbol";
  match bids, asks with
  | b :: bids', a :: asks' =>
      raise_if (BookLevel.price b >=? BookLevel.price a)%dec
        "order book must not be crossed or locked" ;;
      mret (Mk symbol b bids' a asks')
  | _, _ => Err (ValueError "order book requires bids and asks")
  end.
End OrderBook.

Module Snapshot.
Record t : Type := Mk {
  source : string;
  product_group : string;
  symbol : string;
  received_at : aware;
  latency_ms : Z;
  instrument : Instrument.t;
  quote : Quote.t;
  order_book : OrderBook.t;
  spread : dec;
  spread_bps : dec;
  bid_depth_quote : dec;
  ask_depth_quote : dec }.

Definition new (raw_source raw_group raw_symbol : string) (raw_received_at : datetime)
    (latency_ms : Z) (instrument : Instrument.t) (quote : Quote.t) (book : OrderBook.t)
    (raw_spread raw_spread_bps raw_bid_depth raw_ask_depth : pydec) : res t :=
  source ← _required_text raw_source "source";
  product_group ← _required_text raw_group "product_group";
  symbol ← _required_text raw_symbol "symbol";
  received_at ← require_aware raw_received_at "received_at must be timezone-aware";
  raise_if (latency_ms <? 0) "latency_ms must be non-negative" ;;
  let expected := str_casefold symbol in
  raise_if (negb (bool_decide (str_casefold (Instrument.symbol instrument) = expected)))
    "instrument symbol mismatch" ;;
  raise_if (negb (bool_decide (str_casefold (Quote.symbol quote) = expected)))
    "quote symbol mismatch" ;;
  raise_if (negb (bool_decide (str_casefold (OrderBook.symbol book) = expected)))
    "order_book symbol mismatch" ;;
  expected_spread ← ctx_sub (BookLevel.price (OrderBook.best_ask book))
                            (BookLevel.price (OrderBook.best_bid book));
  spread ← _positive_decimal raw_spread "spread";
  raise_if (negb (spread =? expected_spread)%dec) "spread does not match order book" ;;
  spread_bps ← _positive_decimal raw_spread_bps "spread_bps";
  bid_depth ← _non_negative_decimal raw_bid_depth "bid_depth_quote";
  ask_depth ← _non_negative_decimal raw_ask_depth "ask_depth_quote";
  mret (Mk source product_group symbol received_at latency_ms instrument quote book
          spread spread_bps bid_depth ask_depth).

Definition executable_mid_price (s : t) : res dec :=
  total ← ctx_add (BookLevel.price (OrderBook.best_bid (order_book s)))
                  (BookLevel.price (OrderBook.best_ask (order_book s)));
  ctx_div total (dint 2).
End Snapshot.

(** ** [lbank_validator] *)

Module LBankExecutionStatus.
Inductive t : Type := OK | EXECUTION_PENDING | DATA_DEGRADED.
#[global] Instance eq_dec : EqDecision t.
Proof. solve_decision. Defined.
Definition value (s : t) : string :=
  match s with
  | OK => "OK" | EXECUTION_PENDING => "EXECUTION_PENDING" | DATA_DEGRADED => "DATA_DEGRADED"
  end.
End LBankExecutionStatus.

Record LBankExecutionRules : Type := MkLBankRules {
  max_age_seconds : float;
  max_latency_ms : Z;
  max_spread_bps : dec;
  min_bid_depth_quote : dec;
  min_ask_depth_quote : dec }.

Definition new_LBankExecutionRules (age : float) (latency : Z) (spread bid ask : dec)
    : res LBankExecutionRules :=
  raise_if (age <=? fzero)%flt "max_age_seconds must be positive" ;;
  raise_if (latency <=? 0) "max_latency_ms must be positive" ;;
  raise_if (spread <=? d0)%dec "max_spread_bps must be positive" ;;
  raise_if ((bid <? d0) || (ask <? d0))%dec "depth thresholds must be non-negative" ;;
  mret (MkLBankRules age latency spread bid ask).

(** [LBankExecutionRules()] *)
Definition default_lbank_rules : LBankExecutionRules :=
  MkLBankRules (float_lit 150 (-1)) 2500 (dint 25) (dint 1000) (dint 1000).

Record LBankExecutionValidation : Type := MkValidation {
  vsymbol : string;
  status : LBankExecutionStatus.t;
  age_seconds : float;
  reasons : list string }.

Definition is_executable (v : LBankExecutionValidation) : bool :=
  bool_decide (status v = LBankExecutionStatus.OK).

(** A reason that is listed when its condition holds. *)
Definition reason (b : bool) (r : string) : list string := if b then [r] else [].

(** [-1] as a float. *)
Definition minus_one : float := Fl (-1) 0.

Definition degraded_reasons (s : Snapshot.t) (rules : LBankExecutionRules) (age : float)
    : list string :=
  (if (age <? minus_one)%flt then ["SNAPSHOT_FROM_FUTURE"]
   else reason (age >? max_age_seconds rules)%flt "SNAPSHOT_STALE") ++
  reason (max_latency_ms rules <? Snapshot.latency_ms s) "SOURCE_LATENCY_HIGH" ++
  reason ((Quote.last_price (Snapshot.quote s) <=? d0) ||
          (Quote.marked_price (Snapshot.quote s) <=? d0))%dec "PRICE_INVALID" ++
  reason ((Snapshot.spread s <=? d0) || (Snapshot.spread_bps s <=? d0))%dec "SPREAD_INVALID".

Definition pending_reasons (s : Snapshot.t) (rules : LBankExecutionRules) : list string :=
  reason (negb ((Snapshot.spread s <=? d0) || (Snapshot.spread_bps s <=? d0)) &&
          (Snapshot.spread_bps s >? max_spread_bps rules))%dec "SPREAD_TOO_WIDE" ++
  reason (Snapshot.bid_depth_quote s <? min_bid_depth_quote rules)%dec "BID_DEPTH_INSUFFICIENT" ++
  reason (Snapshot.ask_depth_quote s <? min_ask_depth_quote rules)%dec "ASK_DEPTH_INSUFFICIENT".

Definition validate_lbank_execution (s : Snapshot.t) (now : datetime)
    (rules : option LBankExecutionRules) : res LBankExecutionValidation :=
  let active_rules := default default_lbank_rules rules in
  now ← require_aware now "now must be timezone-aware";
  let age := total_seconds (time_sub now (Snapshot.received_at s)) in
  let degraded := degraded_reasons s active_rules age in
  let pending := pending_reasons s active_rules in
  mret
    match degraded with
    | _ :: _ => MkValidation (Snapshot.symbol s) LBankExecutionStatus.DATA_DEGRADED age
                  (degraded ++ pending)
    | [] =>
        match pending with
        | _ :: _ => MkValidation (Snapshot.symbol s) LBankExecutionStatus.EXECUTION_PENDING age pending
        | [] => MkValidation (Snapshot.symbol s) LBankExecutionStatus.OK age []
        end
    end.

(** ** Facts *)

Lemma _positive_decimal_Ok value name v :
  _positive_decimal value name = Ok v <-> value = Finite v /\ (d0 <? v)%dec = true.
Proof.
  unfold _positive_decimal. destruct value as [w| |]; simpl; [|naive_solver..]. split.
  - intros H. guards. subst. split; [done|dec_order].
  - intros [[= ->] ?]. res_ok ltac:(dec_order). done.
Qed.

Lemma _non_negative_decimal_Ok value name v :
  _non_negative_decimal value name = Ok v <-> value = Finite v /\ (d0 <=? v)%dec = true.
Proof.
  unfold _non_negative_decimal. destruct value as [w| |]; simpl; [|naive_solver..]. split.
  - intros H. guards. subst. split; [done|dec_order].
  - intros [[= ->] ?]. res_ok ltac:(dec_order). done.
Qed.

Lemma _required_text_Ok value name s :
  _required_text value name = Ok s <-> s = str_strip value /\ str_empty (str_strip value) = false.
Proof.
  unfold _required_text. split.
  - intros H. by guards.
  - intros [-> H]. by rewrite H.
Qed.

(** What the constructors promise of every snapshot. *)
Record book_wf (b : OrderBook.t) : Prop := {
  bk_bid : (d0 <? BookLevel.price (OrderBook.best_bid b))%dec = true;
  bk_order : (BookLevel.price (OrderBook.best_bid b) <? BookLevel.price (OrderBook.best_ask b))%dec = true }.
Record quote_wf (q : Quote.t) : Prop := {
  qt_last : (d0 <? Quote.last_price q)%dec = true;
  qt_marked : (d0 <? Quote.marked_price q)%dec = true }.
Record snapshot_wf (s : Snapshot.t) : Prop := {
  sn_latency : 0 <= Snapshot.latency_ms s;
  sn_spread : (d0 <? Snapshot.spread s)%dec = true /\ (d0 <? Snapshot.spread_bps s)%dec = true;
  sn_match : exists expected, ctx_sub (BookLevel.price (OrderBook.best_ask (Snapshot.order_book s)))
                (BookLevel.price (OrderBook.best_bid (Snapshot.order_book s))) = Ok expected /\
             (Snapshot.spread s =? expected)%dec = true;
  sn_depth : (d0 <=? Snapshot.bid_depth_quote s)%dec = true /\
             (d0 <=? Snapshot.ask_depth_quote s)%dec = true }.

Lemma new_BookLevel_Ok p v o l : BookLevel.new p v o = Ok l -> (d0 <? BookLevel.price l)%dec = true.
Proof.
  intros H. unfold BookLevel.new in H. guards. subst.
  by select (_positive_decimal p _ = _) (fun H => apply _positive_decimal_Ok in H as [_ ?]).
Qed.

Lemma new_OrderBook_Ok sym bids asks b :
  OrderBook.new sym bids asks = Ok b ->
  Forall (fun l => (d0 <? BookLevel.price l)%dec = true) bids -> book_wf b.
Proof.
  intros H Hb. unfold OrderBook.new in H. guards.
  destruct bids as [|x bids]; [done|]. destruct asks as [|y asks]; [done|]. guards. subst.
  apply Forall_cons in Hb as [? _]. constructor; simpl; [done|]. dec_order.
Qed.

Lemma new_Quote_Ok sym l m f v t q : Quote.new sym l m f v t = Ok q -> quote_wf q.
Proof.
  intros H. unfold Quote.new in H. guards. subst.
  select (_positive_decimal l _ = _) (fun H => apply _positive_decimal_Ok in H as [_ ?]).
  select (_positive_decimal m _ = _) (fun H => apply _positive_decimal_Ok in H as [_ ?]).
  by constructor.
Qed.

Lemma new_Snapshot_Ok src grp sym r lat i q b sp bps bd ad s :
  Snapshot.new src grp sym r lat i q b sp bps bd ad = Ok s ->
  snapshot_wf s /\ Snapshot.quote s = q /\ Snapshot.order_book s = b /\
  AwareDT (Snapshot.received_at s) = r.
Proof.
  intros H. unfold Snapshot.new in H. guards.
  repeat match goal with
  | H : _positive_decimal _ _ = Ok _ |- _ => apply _positive_decimal_Ok in H as [? ?]
  | H : _non_negative_decimal _ _ = Ok _ |- _ => apply _non_negative_decimal_Ok in H as [? ?]
  end. subst. split_and!; simpl; [|done|done|].
  - constructor; simpl; eauto.
  - destruct r; simpl in *; guards; by subst.
Qed.

(** The best prices of a book, far within the limits of the context. *)
Definition moderate_best (b : OrderBook.t) : bool :=
  moderate (BookLevel.price (OrderBook.best_bid b)) && moderate (BookLevel.price (OrderBook.best_ask b)).

Lemma best_sizes b : book_wf b -> moderate_best b = true ->
  size (-100000) 100000 (BookLevel.price (OrderBook.best_bid b)) /\
  size (-100000) 100000 (BookLevel.price (OrderBook.best_ask b)).
Proof.
  intros [Hb Ho] [Mb Ma]%andb_true_iff. dec_to_Q. rewrite d0_val in Hb. split; apply moderate_size; try done. lra.
Qed.

(** The mid price of a moderate book exists and is positive; of any other, computing it
    may raise an exception of the decimal context. *)
Lemma mid_price_ok s : book_wf (Snapshot.order_book s) -> moderate_best (Snapshot.order_book s) = true ->
  exists m, Snapshot.executable_mid_price s = Ok m /\ dfits m /\ size (-100001) 100001 m.
Proof.
  intros Hw Hm. destruct (best_sizes _ Hw Hm) as [Sb Sa]. unfold Snapshot.executable_mid_price.
  destruct (add_size (-100000) 100000 _ _ ltac:(lia) ltac:(lia) Sb Sa) as (t & -> & St). bind_ok.
  assert (size 0 1 (dint 2)) as S2 by (apply size_int; lia).
  destruct (div_size (-100000) 100001 0 1 t (dint 2) ltac:(lia) ltac:(lia) St S2) as (m & Hd & Sm).
  exists m. split; [exact Hd|]. split; [exact (div_fits (-100000) 100001 0 1 t (dint 2) m ltac:(lia) ltac:(lia) St S2 Hd)|].
  eapply size_weaken; [| |exact Sm]; lia.
Qed.

Lemma mid_price_Err s e : Snapshot.executable_mid_price s = Err e -> arithmetic e.
Proof.
  unfold Snapshot.executable_mid_price. intros [H|(t & _ & H)]%bind_Err; [by apply ctx_add_Err in H|].
  by apply ctx_div_Err in H.
Qed.

Lemma reason_nil b r : reason b r = [] <-> b = false.
Proof. by destruct b. Qed.

Lemma lbank_minus_one_fits : ffits minus_one /\ (fval minus_one == inject_Z (-1))%Q.
Proof. split; vm_compute; done. Qed.

Lemma lbank_age_fits : ffits (max_age_seconds default_lbank_rules) /\
  (fval (max_age_seconds default_lbank_rules) == inject_Z 15)%Q.
Proof. split; vm_compute; done. Qed.

(** ** Property *)

(** The status of a snapshot of a given age under the default rules. *)
Definition expected_status (s : Snapshot.t) (age : Z) : LBankExecutionStatus.t :=
  if (age <? - us_per_second) || (15 * us_per_second <? age) || (2500 <? Snapshot.latency_ms s)
  then LBankExecutionStatus.DATA_DEGRADED
  else if (Snapshot.spread_bps s >? dint 25)%dec || (Snapshot.bid_depth_quote s <? dint 1000)%dec ||
          (Snapshot.ask_depth_quote s <? dint 1000)%dec
  then LBankExecutionStatus.EXECUTION_PENDING
  else LBankExecutionStatus.OK.

Lemma degraded_reasons_wf s age : snapshot_wf s -> quote_wf (Snapshot.quote s) ->
  degraded_reasons s default_lbank_rules (total_seconds age) =
  (if age <? - us_per_second then ["SNAPSHOT_FROM_FUTURE"]
   else reason (15 * us_per_second <? age) "SNAPSHOT_STALE") ++
  reason (2500 <? Snapshot.latency_ms s) "SOURCE_LATENCY_HIGH".
Proof.
  intros [_ [Hs Hb] _ _] [Hl Hm]. unfold degraded_reasons.
  destruct lbank_minus_one_fits as [F1 V1]. destruct lbank_age_fits as [F2 V2].
  rewrite (total_seconds_lt_iff age (-1) _ F1 V1), (total_seconds_gt_iff age 15 _ F2 V2) by done.
  rewrite py_lt_not_le, negb_true_iff in Hs, Hb, Hl, Hm. rewrite Hs, Hb, Hl, Hm.
  simpl. by rewrite !app_nil_r.
Qed.

(** A snapshot built by the constructors is never rejected for an invalid price or
    spread; under the default rules it is DATA_DEGRADED exactly when it is more than one
    second ahead, more than 15 seconds old (to the microsecond) or slower than 2500 ms,
    otherwise EXECUTION_PENDING exactly when the spread is above 25 bps or a side has
    less than 1000 quote of depth, otherwise OK; the reasons are empty exactly when OK. *)
Theorem lbank_validation_exact s now :
  snapshot_wf s -> quote_wf (Snapshot.quote s) ->
  exists v, validate_lbank_execution s (AwareDT now) None = Ok v /\
    status v = expected_status s (time_sub now (Snapshot.received_at s)) /\
    "PRICE_INVALID" ∉ reasons v /\ "SPREAD_INVALID" ∉ reasons v /\
    (reasons v = [] <-> status v = LBankExecutionStatus.OK).
Proof.
  intros Hs Hq. unfold validate_lbank_execution, require_aware. bind_ok. cbv zeta.
  change (default default_lbank_rules None) with default_lbank_rules.
  rewrite degraded_reasons_wf by done. unfold pending_reasons.
  destruct Hs as [_ [Hsp Hb] _ _]. rewrite py_lt_not_le, negb_true_iff in Hsp, Hb. rewrite Hsp, Hb.
  unfold expected_status.
  change (max_spread_bps default_lbank_rules) with (dint 25).
  change (min_bid_depth_quote default_lbank_rules) with (dint 1000).
  change (min_ask_depth_quote default_lbank_rules) with (dint 1000).
  generalize (time_sub now (Snapshot.received_at s)). intros age.
  destruct (age <? - us_per_second), (15 * us_per_second <? age), (2500 <? Snapshot.latency_ms s),
    (dint 25 <? Snapshot.spread_bps s)%dec, (Snapshot.bid_depth_quote s <? dint 1000)%dec,
    (Snapshot.ask_depth_quote s <? dint 1000)%dec; simpl;
    (eexists; split; [reflexivity|]); simpl; (split_and!; [reflexivity|set_solver|set_solver|done]).
Qed.

Definition sample_snapshot : Snapshot.t :=
  Snapshot.Mk "LBANK" "SwapU" "BTCUSDT" (Aware 0 0) 120
    (Instrument.Mk "BTCUSDT" "BTC" "USDT" "USDT" (Dec 1 (-1)) (Dec 1 (-4)) (dint 1) None None)
    (Quote.Mk "BTCUSDT" (dint 1000) (dint 1000) None None None)
    (OrderBook.Mk "BTCUSDT" (BookLevel.Mk (dint 999) (dint 5) None) []
       (BookLevel.Mk (dint 1000) (dint 5) None) [])
    (dint 1) (Dec 1001 (-2)) (dint 4995) (dint 5000).

Lemma lbank_validation_exact_witness :
  exists v, validate_lbank_execution sample_snapshot (AwareDT (Aware (us_per_second * 15) 0)) None = Ok v /\
    status v = LBankExecutionStatus.OK.
Proof.
  destruct (lbank_validation_exact sample_snapshot (Aware (us_per_second * 15) 0)) as (v & Hv & Hs & _).
  - constructor; [vm_compute; done|split; vm_compute; done| |split; vm_compute; done].
    eexists. split; vm_compute; reflexivity.
  - constructor; vm_compute; reflexivity.
  - exists v. split; [exact Hv|]. rewrite Hs. vm_compute. reflexivity.
Defined.
