(* ===== verification/LBankAdapter.v ===== *)
(** * The LBank adapter: [adapters/lbank_parser.py] and [adapters/lbank.py]

    The execution snapshot read from the exchange's three documents: instruments, market
    quotes and the order book of the symbol.  The network is a parameter ([Net]). *)

From stdpp Require Import list strings sorting.
From Stdlib Require Import QArith Lqa.
From S2P Require Import Prelude PyList PyStr PyDecimal DecimalFacts DecimalContext PyTime PyFloat PyValue Adapters LBank.
Open Scope Z_scope.

(** ** [lbank_parser] *)

Definition _items (payload : pyval) (label : string) : res (list pyval) :=
  match payload with
  | VList l => mret l
  | VDict d => match dict_get d "data" with
               | VList l => mret l
               | _ => Err (ParserError (label +:+ " payload must be a list"))
               end
  | _ => Err (ParserError (label +:+ " payload must be a list"))
  end.

Definition _mapping (value : pyval) (label : string) : res pydict :=
  match value with VDict d => mret d | _ => Err (ParserError (label +:+ " item must be an object")) end.

Definition _text (value : pyval) (field : string) : res string :=
  match value with
  | VStr s =>
      parse_if (str_empty (str_strip s)) (field +:+ " must be a non-empty string") ;;
      mret (str_strip s)
  | _ => Err (ParserError (field +:+ " must be a non-empty string"))
  end.

Definition _decimal (value : pyval) (field : string) (positive optional : bool) : res (option dec) :=
  if none_or_empty value && optional then mret None
  else if is_bool value then Err (ParserError (field +:+ " must be numeric"))
  else match decimal_of_pyval value with
       | Err _ => Err (ParserError (field +:+ " must be numeric"))
       | Ok (Finite parsed) =>
           parse_if (positive && (parsed <=? d0)%dec) (field +:+ " must be positive") ;;
           mret (Some parsed)
       | Ok _ => Err (ParserError (field +:+ " must be finite"))
       end.

(** A decimal that is not optional: [_decimal] then never returns [None]. *)
Definition _required (value : pyval) (field : string) (positive : bool) : res dec :=
  v ← _decimal value field positive false;
  match v with
  | Some d => mret d
  | None => Err (Exn "AttributeError" "'NoneType' object has no attribute 'is_finite'")
  end.

Definition instrument_of (raw : pyval) : res Instrument.t :=
  item ← _mapping raw "instrument";
  symbol ← _text (dict_get item "symbol") "symbol";
  base_currency ← _text (dict_get item "baseCurrency") "baseCurrency";
  price_currency ← _text (dict_get item "priceCurrency") "priceCurrency";
  clear_currency ← _text (dict_get item "clearCurrency") "clearCurrency";
  price_tick ← _required (dict_get item "priceTick") "priceTick" true;
  volume_tick ← _required (dict_get item "volumeTick") "volumeTick" true;
  volume_multiple ← _required (dict_get item "volumeMultiple") "volumeMultiple" true;
  min_order_volume ← _decimal (dict_get item "minOrderVolume") "minOrderVolume" true true;
  min_order_cost ← _decimal (dict_get item "minOrderCost") "minOrderCost" true true;
  Instrument.new symbol base_currency price_currency clear_currency (Finite price_tick)
    (Finite volume_tick) (Finite volume_multiple) (Finite <$> min_order_volume) (Finite <$> min_order_cost).

Definition parse_instruments (payload : pyval) : res (list Instrument.t) :=
  items ← _items payload "instrument";
  instruments ← mapM instrument_of items;
  parse_if (bool_decide (items = [])) "instrument payload is empty" ;;
  mret instruments.

Definition quote_of (raw : pyval) : res Quote.t :=
  item ← _mapping raw "marketData";
  symbol ← _text (dict_get item "symbol") "symbol";
  last_price ← _required (dict_get item "lastPrice") "lastPrice" true;
  marked_price ← _required (dict_get item "markedPrice") "markedPrice" true;
  funding_rate ← _decimal (dict_get item "prePositionFeeRate") "prePositionFeeRate" false true;
  volume_24h ← _decimal (dict_get item "volume") "volume" false true;
  turnover_24h ← _decimal (dict_get item "turnover") "turnover" false true;
  Quote.new symbol (Finite last_price) (Finite marked_price) (Finite <$> funding_rate)
    (Finite <$> volume_24h) (Finite <$> turnover_24h).

Definition parse_market_quotes (payload : pyval) : res (list Quote.t) :=
  items ← _items payload "marketData";
  quotes ← mapM quote_of items;
  parse_if (bool_decide (items = [])) "marketData payload is empty" ;;
  mret quotes.

(** [item.get("orders")], an integer when present (a bool is refused). *)
Definition orders_of (orders : pyval) (side : string) : res (option Z) :=
  match orders with
  | VNone => mret None
  | VInt n => parse_if (n <? 0) (side +:+ ".orders must be non-negative") ;; mret (Some n)
  | _ => Err (ParserError (side +:+ ".orders must be an integer"))
  end.

Definition level_of (side : string) (raw : pyval) : res BookLevel.t :=
  item ← _mapping raw side;
  orders ← orders_of (dict_get item "orders") side;
  price ← _required (dict_get item "price") (side +:+ ".price") true;
  volume ← _required (dict_get item "volume") (side +:+ ".volume") true;
  BookLevel.new (Finite price) (Finite volume) orders.

Definition _book_levels (value : pyval) (side : string) : res (list BookLevel.t) :=
  match value with
  | VList ((_ :: _) as rows) =>
      levels ← mapM (level_of side) rows;
      mret (if bool_decide (side = "bids") then py_sorted_rev BookLevel.price levels
            else py_sorted BookLevel.price levels)
  | _ => Err (ParserError (side +:+ " must be a non-empty list"))
  end.

Definition parse_order_book (payload : pyval) (expected_symbol : string) : res OrderBook.t :=
  item ← _mapping payload "marketOrder";
  let item := match dict_get item "data" with VDict d => d | _ => item end in
  symbol ← _text (dict_get item "symbol") "symbol";
  parse_if (negb (bool_decide (str_casefold symbol = str_casefold (str_strip expected_symbol))))
    "order-book symbol does not match requested symbol" ;;
  bids ← _book_levels (dict_get item "bids") "bids";
  asks ← _book_levels (dict_get item "asks") "asks";
  best_bid ← py_index bids 0;
  best_ask ← py_index asks 0;
  parse_if (BookLevel.price best_bid >=? BookLevel.price best_ask)%dec "order book is crossed or locked" ;;
  OrderBook.new symbol bids asks.

Definition find_symbol {A} (symbol_of : A -> string) (items : list A) (symbol : string) : res A :=
  let normalized := str_casefold (str_strip symbol) in
  parse_if (str_empty normalized) "symbol is required" ;;
  match first_where (fun item => bool_decide (str_casefold (symbol_of item) = normalized)) items with
  | Some item => mret item
  | None => Err (ParserError ("symbol not found: " +:+ str_strip symbol))
  end.

(** ** The adapter *)

Module LBankPublicAdapter.
Definition name : string := "lbank-perpetual-public".
Definition default_base_url : string := "https://lbkperp.lbank.com".

Record t : Type := Mk {
  symbol : string;
  product_group : string;
  depth : Z;
  base_url : string }.

Definition new (symbol product_group : string) (depth : Z) (base_url : string) : res t :=
  let normalized_symbol := str_strip symbol in
  let normalized_group := str_strip product_group in
  raise_if (str_empty normalized_symbol) "symbol is required" ;;
  raise_if (str_empty normalized_group) "product_group is required" ;;
  raise_if (depth <? 1) "depth must be positive" ;;
  normalized_url ← https_base base_url;
  mret (Mk normalized_symbol normalized_group depth normalized_url).

Definition _url (self : t) (path : string) : string := base_url self +:+ path.

Definition requests (self : t) : list Request :=
  [MkRequest (_url self "/cfd/openApi/v1/pub/instrument") [("productGroup", VStr (product_group self))];
   MkRequest (_url self "/cfd/openApi/v1/pub/marketData") [("productGroup", VStr (product_group self))];
   MkRequest (_url self "/cfd/openApi/v1/pub/marketOrder")
     [("symbol", VStr (symbol self)); ("depth", VInt (depth self))]].

(** [health]: the exchange's clock answers. *)
Definition check_time (self : t) (net : Net) : res unit :=
  payload ← get_json_value net (MkRequest (_url self "/cfd/openApi/v1/pub/getTime") []);
  match payload with
  | VDict d => parse_if (match dict_get d "success" with VBool false => true | _ => false end)
                 "LBank public endpoint reported failure"
  | _ => Err (ParserError "time payload must be an object")
  end.

Definition health (self : t) (net : Net) : res AdapterHealth.t :=
  latency ← elapsed_ms net;
  mret match check_time self net with
       | Err error => AdapterHealth.Mk name AdapterState.DOWN (Some latency) (exn_type error)
       | Ok _ => AdapterHealth.Mk name AdapterState.OK (Some latency) EmptyString
       end.

(** [sum(level.price * level.volume * multiplier for level in levels)]: the products are
    made one by one as they are added, which only the place of an [Overflow] could show. *)
Definition depth_quote (multiplier : dec) (levels : list BookLevel.t) : res dec :=
  products ← mapM (fun l => value ← ctx_mul (BookLevel.price l) (BookLevel.volume l);
                            ctx_mul value multiplier) levels;
  ctx_sum products.

Definition bids (b : OrderBook.t) : list BookLevel.t := OrderBook.best_bid b :: OrderBook.more_bids b.
Definition asks (b : OrderBook.t) : list BookLevel.t := OrderBook.best_ask b :: OrderBook.more_asks b.

(** The spread, the spread in basis points and the depths of the two sides. *)
Definition book_numbers (order_book : OrderBook.t) (multiplier : dec) : res (dec * dec * dec * dec) :=
  let best_bid := BookLevel.price (OrderBook.best_bid order_book) in
  let best_ask := BookLevel.price (OrderBook.best_ask order_book) in
  spread ← ctx_sub best_ask best_bid;
  total ← ctx_add best_bid best_ask;
  mid_price ← ctx_div total (dint 2);
  ratio ← ctx_div spread mid_price;
  spread_bps ← ctx_mul ratio (dint 10000);
  bid_depth_quote ← depth_quote multiplier (bids order_book);
  ask_depth_quote ← depth_quote multiplier (asks order_book);
  mret (spread, spread_bps, bid_depth_quote, ask_depth_quote).

Definition fetch_snapshot (self : t) (net : Net) : res Snapshot.t :=
  payloads ← gather net (requests self);
  '(instrument_payload, market_payload, book_payload) ← unpack3 payloads;
  instruments ← parse_instruments instrument_payload;
  instrument ← find_symbol Instrument.symbol instruments (symbol self);
  quotes ← parse_market_quotes market_payload;
  quote ← find_symbol Quote.symbol quotes (symbol self);
  order_book ← parse_order_book book_payload (symbol self);
  '(spread, spread_bps, bid_depth_quote, ask_depth_quote) ←
    book_numbers order_book (Instrument.volume_multiple instrument);
  received_at ← checked_clock net;
  latency_ms ← elapsed_ms net;
  Snapshot.new "LBank" (product_group self) (Instrument.symbol instrument) (AwareDT received_at)
    latency_ms instrument quote order_book (Finite spread) (Finite spread_bps)
    (Finite bid_depth_quote) (Finite ask_depth_quote).

Definition load (self : t) (fetched : res Snapshot.t) : AdapterPayload.t :=
  match fetched with
  | Err error =>
      AdapterPayload.Mk name
        [("symbol", VStr (symbol self));
         ("product_group", VStr (product_group self));
         ("status", VStr "DATA_DEGRADED")]
        (AdapterHealth.Mk name (failure_state error) None (exn_type error))
  | Ok s =>
      AdapterPayload.Mk name
        [("source", VStr (Snapshot.source s));
         ("product_group", VStr (Snapshot.product_group s));
         ("symbol", VStr (Snapshot.symbol s));
         ("received_at", VStr (isoformat (Snapshot.received_at s)));
         ("latency_ms", VInt (Snapshot.latency_ms s));
         ("last_price", VStr (dec_str (Quote.last_price (Snapshot.quote s))));
         ("marked_price", VStr (dec_str (Quote.marked_price (Snapshot.quote s))));
         ("best_bid", VStr (dec_str (BookLevel.price (OrderBook.best_bid (Snapshot.order_book s)))));
         ("best_ask", VStr (dec_str (BookLevel.price (OrderBook.best_ask (Snapshot.order_book s)))));
         ("spread", VStr (dec_str (Snapshot.spread s)));
         ("spread_bps", VStr (dec_str (Snapshot.spread_bps s)));
         ("bid_depth_quote", VStr (dec_str (Snapshot.bid_depth_quote s)));
         ("ask_depth_quote", VStr (dec_str (Snapshot.ask_depth_quote s)));
         ("price_tick", VStr (dec_str (Instrument.price_tick (Snapshot.instrument s))));
         ("volume_tick", VStr (dec_str (Instrument.volume_tick (Snapshot.instrument s))));
         ("min_order_volume", opt_dec_str (Instrument.min_order_volume (Snapshot.instrument s)));
         ("status", VStr "OK")]
        (AdapterHealth.Mk name AdapterState.OK (Some (Snapshot.latency_ms s)) EmptyString)
  end.
End LBankPublicAdapter.

(** ** Facts: reading *)

Lemma lbank_decimal_Ok value field positive optional r :
  _decimal value field positive optional = Ok r ->
  match r with
  | None => optional = true
  | Some d => positive = true -> (d0 <? d)%dec = true
  end.
Proof.
  unfold _decimal. destruct (none_or_empty value && optional) eqn:E.
  { intros [= <-]. by apply andb_true_iff in E as [_ ?]. }
  destruct (is_bool value); [done|].
  destruct (decimal_of_pyval value) as [[d| |]|]; try done. intros H. parse_inv. subst r.
  intros ->. simpl in *. dec_order.
Qed.

Lemma _required_Ok value field d : _required value field true = Ok d -> (d0 <? d)%dec = true.
Proof.
  unfold _required. intros H. parse_inv. apply lbank_decimal_Ok in H0. destruct v; [|done].
  injection H as ->. by apply H0.
Qed.

Lemma safe_decimal value field positive optional : safe (_decimal value field positive optional).
Proof. unfold _decimal. safe_chain. Qed.
#[export] Hint Resolve safe_decimal : safe.

Lemma safe_required value field positive : safe (_required value field positive).
Proof.
  unfold _required. apply safe_bind; [eauto with safe|]. intros [d|] H; [eauto with safe|].
  by apply lbank_decimal_Ok in H.
Qed.

Lemma safe_text value field : safe (_text value field).
Proof. unfold _text. safe_chain. Qed.
Lemma safe_mapping value label : safe (_mapping value label).
Proof. unfold _mapping. safe_chain. Qed.
Lemma safe_items value label : safe (_items value label).
Proof. unfold _items. safe_chain. Qed.
#[export] Hint Resolve safe_required safe_text safe_mapping safe_items : safe.

(** The constructors only raise [ValueError]. *)
Lemma safe_finite_decimal value name : safe (_finite_decimal value name).
Proof. unfold _finite_decimal. safe_chain. Qed.
#[export] Hint Resolve safe_finite_decimal : safe.
Lemma safe_positive_decimal value name : safe (_positive_decimal value name).
Proof. unfold _positive_decimal. safe_chain. Qed.
Lemma safe_non_negative_decimal value name : safe (_non_negative_decimal value name).
Proof. unfold _non_negative_decimal. safe_chain. Qed.
Lemma safe_required_text value name : safe (_required_text value name).
Proof. unfold _required_text. safe_chain. Qed.
Lemma safe_optionally {A B} (value : option A) (check : A -> res B) :
  (forall a, safe (check a)) -> safe (optionally value check).
Proof. intros H. unfold optionally. safe_chain. Qed.
#[export] Hint Resolve safe_positive_decimal safe_non_negative_decimal safe_required_text safe_optionally : safe.

Lemma safe_instruments payload : safe (parse_instruments payload).
Proof.
  assert (forall raw, safe (instrument_of raw)) as H
    by (intros raw; unfold instrument_of, Instrument.new; safe_chain).
  unfold parse_instruments. safe_chain.
Qed.

Lemma safe_quotes payload : safe (parse_market_quotes payload).
Proof.
  assert (forall raw, safe (quote_of raw)) as H by (intros raw; unfold quote_of, Quote.new; safe_chain).
  unfold parse_market_quotes. safe_chain.
Qed.

Lemma safe_level side raw : safe (level_of side raw).
Proof. unfold level_of, orders_of, BookLevel.new. safe_chain. Qed.
#[export] Hint Resolve safe_instruments safe_quotes safe_level : safe.

(** ** Facts: the book *)

(** A side: not empty, prices and volumes positive, the best price first. *)
Definition level_ok (l : BookLevel.t) : Prop :=
  (d0 <? BookLevel.price l)%dec = true /\ (d0 <? BookLevel.volume l)%dec = true.
Definition side_ok (bids : bool) (levels : list BookLevel.t) : Prop :=
  levels <> [] /\ Forall level_ok levels /\
  StronglySorted (fun x y => if bids then (BookLevel.price y <=? BookLevel.price x)%dec = true
                             else (BookLevel.price x <=? BookLevel.price y)%dec = true) levels.

Lemma new_book_level_ok p v o l : BookLevel.new p v o = Ok l -> level_ok l.
Proof.
  intros H. unfold BookLevel.new in H. guards. subst.
  repeat match goal with H : _positive_decimal _ _ = Ok _ |- _ => apply _positive_decimal_Ok in H as [_ ?] end.
  by split.
Qed.

Lemma _book_levels_Ok value side levels :
  _book_levels value side = Ok levels -> side_ok (bool_decide (side = "bids")) levels.
Proof.
  unfold _book_levels. destruct value as [| | | | | |[|row rows]|]; try done. intros H. parse_inv.
  apply mapM_Ok in H0. subst levels.
  assert ((if bool_decide (side = "bids") then py_sorted_rev BookLevel.price v
           else py_sorted BookLevel.price v) ≡ₚ v) as Hp
    by (case_bool_decide; [apply py_sorted_rev_perm|apply py_sorted_perm]).
  split_and!.
  - intros E. rewrite E in Hp. apply Permutation_nil in Hp. subst v. inversion H0.
  - rewrite Hp. clear Hp. induction H0 as [|x l ? ? Hx _ IH]; constructor; [|done].
    unfold level_of in Hx. parse_inv. by eapply new_book_level_ok.
  - case_bool_decide; [apply py_sorted_rev_sorted|apply py_sorted_sorted].
Qed.

Lemma safe_book_levels value side : safe (_book_levels value side).
Proof. unfold _book_levels. safe_chain. Qed.
#[export] Hint Resolve safe_book_levels : safe.

Lemma safe_order_book payload sym : safe (parse_order_book payload sym).
Proof.
  unfold parse_order_book, OrderBook.new. safe_chain.
  - match goal with H : _book_levels _ "bids" = Ok ?l |- safe (py_index ?l 0) =>
      apply _book_levels_Ok in H as [Hne _]; destruct l; [done|apply safe_Ok] end.
  - match goal with H : _book_levels _ "asks" = Ok ?l |- safe (py_index ?l 0) =>
      apply _book_levels_Ok in H as [Hne _]; destruct l; [done|apply safe_Ok] end.
Qed.

Lemma safe_find_symbol {A} (symbol_of : A -> string) items sym : safe (find_symbol symbol_of items sym).
Proof. unfold find_symbol. safe_chain. Qed.
#[export] Hint Resolve safe_order_book safe_find_symbol : safe.

(** The snapshot recomputes a spread that is already known to exist. *)
Lemma safe_new_Snapshot src grp sym r lat i q b sp bps bd ad spread :
  ctx_sub (BookLevel.price (OrderBook.best_ask b)) (BookLevel.price (OrderBook.best_bid b)) = Ok spread ->
  safe (Snapshot.new src grp sym r lat i q b sp bps bd ad).
Proof. intros Hs. unfold Snapshot.new. safe_chain. rewrite Hs. apply safe_Ok. Qed.

(** The order book that was read: its sides are sorted and positive. *)
Lemma parse_order_book_Ok payload sym b :
  parse_order_book payload sym = Ok b ->
  book_wf b /\ side_ok true (LBankPublicAdapter.bids b) /\ side_ok false (LBankPublicAdapter.asks b) /\
  str_casefold (OrderBook.symbol b) = str_casefold (str_strip sym).
Proof.
  unfold parse_order_book. intros H. parse_inv.
  match goal with
  | Hb : _book_levels _ "bids" = Ok ?bids, Ha : _book_levels _ "asks" = Ok ?asks |- _ =>
      apply _book_levels_Ok in Hb as Sb; apply _book_levels_Ok in Ha as Sa; clear Hb Ha;
      change (side_ok true bids) in Sb; change (side_ok false asks) in Sa;
      rename bids into lb, asks into la
  end.
  match goal with
  | Ht : _text _ "symbol" = Ok ?s |- _ =>
      assert (str_strip s = s) as Hs
        by (unfold _text in Ht; destruct (dict_get _ "symbol"); try done; parse_inv; subst; apply str_strip_idemp)
  end.
  split; [eapply new_OrderBook_Ok; [exact H|]; destruct Sb as (_ & Sb & _); by eapply Forall_impl; [exact Sb|intros l [? _]]|].
  unfold OrderBook.new, _required_text in H. parse_inv.
  destruct lb as [|x bids]; [done|]. destruct la as [|y asks]; [done|]. parse_inv. subst.
  simpl. rewrite Hs. split_and!; try done. by rewrite guard_false in *.
Qed.

Lemma find_symbol_Ok {A} (symbol_of : A -> string) items sym x :
  find_symbol symbol_of items sym = Ok x ->
  x ∈ items /\ str_casefold (symbol_of x) = str_casefold (str_strip sym).
Proof.
  unfold find_symbol. intros H. parse_inv. destruct (first_where _ _) as [y|] eqn:E; [|done].
  injection H as <-. apply first_where_Some in E as [? E]. by apply bool_decide_eq_true in E.
Qed.

Import LBankPublicAdapter.

Lemma fetch_snapshot_sound self net s : fetch_snapshot self net = Ok s ->
  snapshot_wf s /\ quote_wf (Snapshot.quote s) /\ book_wf (Snapshot.order_book s) /\
  side_ok true (bids (Snapshot.order_book s)) /\ side_ok false (asks (Snapshot.order_book s)) /\
  str_casefold (Quote.symbol (Snapshot.quote s)) = str_casefold (str_strip (symbol self)) /\
  str_casefold (OrderBook.symbol (Snapshot.order_book s)) = str_casefold (str_strip (symbol self)).
Proof.
  unfold fetch_snapshot. intros H. res_inv. destruct v0 as [[p1 p2] p3]. res_inv.
  match goal with v : (dec * dec * dec * dec)%type |- _ => destruct v as [[[sp bps] bd] ad] end. res_inv.
  apply new_Snapshot_Ok in H as (Hwf & -> & -> & _).
  match goal with Hb : parse_order_book _ _ = Ok _ |- _ => apply parse_order_book_Ok in Hb as (? & ? & ? & ?) end.
  match goal with Hq : find_symbol Quote.symbol ?qs _ = Ok ?q, Hp : parse_market_quotes _ = Ok ?qs |- _ =>
    apply find_symbol_Ok in Hq as [Hin Hsym]; unfold parse_market_quotes in Hp; parse_inv; subst qs end.
  match goal with Hm : mapM quote_of _ = Ok _ |- _ =>
    destruct (mapM_elem _ _ _ _ Hm Hin) as (raw & _ & Hraw) end.
  unfold quote_of in Hraw. parse_inv. split_and!; try done. by eapply new_Quote_Ok.
Qed.

Lemma safe_unpack3 l : safe (unpack3 l).
Proof. unfold unpack3. safe_chain. Qed.
#[export] Hint Resolve safe_unpack3 : safe.

(** *** The numbers of a book *)

(** The context's limits are far from the numbers of a book: those that are read, their
    products and their sum. *)
Definition moderate_book (b : OrderBook.t) (multiplier : dec) : bool :=
  moderate multiplier &&
  forallb (fun l => moderate (BookLevel.price l) && moderate (BookLevel.volume l)) (bids b ++ asks b) &&
  (Z.of_nat (length (bids b ++ asks b)) <? 10 ^ 28).

Lemma forallb_true_Forall {A} (f : A -> bool) l : forallb f l = true -> Forall (fun x => f x = true) l.
Proof. intros H. apply Forall_forall. intros x Hx. apply (proj1 (forallb_forall f l) H). by apply list_elem_of_In. Qed.

Lemma depth_quote_ok levels multiplier :
  size (-100000) 100000 multiplier -> Forall level_ok levels ->
  Forall (fun l => moderate (BookLevel.price l) && moderate (BookLevel.volume l) = true) levels ->
  Z.of_nat (length levels) < 10 ^ 28 -> exists d, depth_quote multiplier levels = Ok d.
Proof.
  intros Hm Hok Hmod Hlen. unfold depth_quote.
  assert (exists ps, mapM (fun l => value ← ctx_mul (BookLevel.price l) (BookLevel.volume l); ctx_mul value multiplier)
    levels = Ok ps /\ Forall (size (-300000) 300000) ps /\ length ps = length levels) as (ps & -> & Hps & El).
  { clear Hlen. induction levels as [|l levels IH]; [by exists []|].
    apply Forall_cons in Hok as [[Hp Hv] Hok]. apply Forall_cons in Hmod as [[Mp Mv]%andb_true_iff Hmod].
    destruct IH as (ps & E & Hps & El); [done..|]. simpl.
    dec_to_Q. rewrite d0_val in Hp, Hv. apply moderate_size in Mp, Mv; try done.
    destruct (mul_size (-100000) 100000 (-100000) 100000 (BookLevel.price l) (BookLevel.volume l)) as (v & -> & Sv);
      [lia|lia|exact Mp|exact Mv|]. cbn [mbind res_bind].
    destruct (mul_size (-200000) 200000 (-100000) 100000 v multiplier) as (w & -> & Sw); [lia|lia|exact Sv|exact Hm|].
    cbn [mbind res_bind]. rewrite E. eexists. split; [reflexivity|]. simpl. rewrite El. split; [|done]. by constructor. }
  cbn [mbind res_bind]. unfold ctx_sum.
  destruct (ctx_sum_size (-300000) 300000 ps d0 0) as (r & -> & _); [lia|lia|lia|rewrite El; lia|exact Hps|left; reflexivity|by eexists].
Qed.

Lemma depth_quote_Err levels multiplier e : depth_quote multiplier levels = Err e -> arithmetic e.
Proof.
  unfold depth_quote. intros [H|(ps & _ & H)]%bind_Err; [|by eapply ctx_sum_Err].
  induction levels as [|l levels IH]; [done|]. simpl in H.
  apply bind_Err in H as [[H|(v & _ & H)]%bind_Err|(p & _ & H)]; [by apply ctx_mul_Err in H..|].
  apply bind_Err in H as [H|(k & _ & H)]; [by apply IH|done].
Qed.

Lemma book_numbers_ok b multiplier :
  book_wf b -> side_ok true (bids b) -> side_ok false (asks b) -> (d0 <? multiplier)%dec = true ->
  moderate_book b multiplier = true -> exists numbers, book_numbers b multiplier = Ok numbers.
Proof.
  intros Hw (_ & Hb & _) (_ & Ha & _) Hp [[Mm Mb]%andb_true_iff Hlen]%andb_true_iff.
  dec_to_Q. rewrite d0_val in Hp. pose proof (moderate_size _ Mm Hp) as Sm.
  rewrite forallb_app in Mb. apply andb_true_iff in Mb as [Mb Ma].
  apply Z.ltb_lt in Hlen. rewrite length_app, Nat2Z.inj_add in Hlen.
  assert (moderate_best b = true) as Mbest.
  { simpl in Mb, Ma. unfold moderate_best. by repeat match goal with H : _ && _ = true |- _ => apply andb_true_iff in H as [? ?] end;
      apply andb_true_iff. }
  destruct (best_sizes _ Hw Mbest) as [Sb Sa]. destruct Hw as [Hpos Hlt].
  apply andb_true_iff in Mbest as [Ub Ua]. unfold moderate in Ub, Ua.
  unfold book_numbers. cbv zeta. set (bid := BookLevel.price (OrderBook.best_bid b)) in *.
  set (ask := BookLevel.price (OrderBook.best_ask b)) in *. dec_to_Q. rewrite d0_val in Hpos.
  destruct (sub_size (-100000) 100000 ask bid) as (sp & -> & Ssp); [lia..|lra|exact (proj2 Sa)|]. bind_ok.
  destruct (add_size (-100000) 100000 bid ask) as (t & -> & St); [lia|lia|exact Sb|exact Sa|]. bind_ok.
  destruct (div_size (-100000) 100001 0 1 t (dint 2)) as (mid & -> & Smid); [lia|lia|exact St|apply size_int; lia|]. bind_ok.
  destruct (div_size (-100000) 100000 (-100001) 100001 sp mid) as (ratio & -> & Sr); [lia|lia|exact Ssp|exact Smid|]. bind_ok.
  destruct (mul_size (-200001) 200001 4 4 ratio (dint 10000)) as (bps & -> & _); [lia|lia|exact Sr|apply size_int; lia|]. bind_ok.
  destruct (depth_quote_ok (bids b) multiplier Sm Hb) as [d1 ->]; [by apply forallb_true_Forall|lia|]. bind_ok.
  destruct (depth_quote_ok (asks b) multiplier Sm Ha) as [d2 ->]; [by apply forallb_true_Forall|lia|]. bind_ok. by eexists.
Qed.

Lemma book_numbers_Err b multiplier e : book_numbers b multiplier = Err e -> arithmetic e.
Proof.
  unfold book_numbers. cbv zeta. intros H.
  repeat match goal with H : _ ≫= _ = Err _ |- _ => apply bind_Err in H as [H|(? & _ & H)] end;
    eauto using ctx_sub_Err, ctx_add_Err, ctx_div_Err, ctx_mul_Err, depth_quote_Err. done.
Qed.

(** The book and the instrument that were read from the three bodies. *)
Definition was_read (self : t) (payloads : list pyval) (b : OrderBook.t) (i : Instrument.t) : Prop :=
  exists p1 p2 p3 instruments, payloads = [p1; p2; p3] /\ parse_instruments p1 = Ok instruments /\
    find_symbol Instrument.symbol instruments (symbol self) = Ok i /\ parse_order_book p3 (symbol self) = Ok b.

Lemma instrument_positive payload instruments i :
  parse_instruments payload = Ok instruments -> i ∈ instruments -> (d0 <? Instrument.volume_multiple i)%dec = true.
Proof.
  unfold parse_instruments. intros H Hi. parse_inv. subst.
  match goal with Hm : mapM instrument_of _ = Ok _ |- _ => destruct (mapM_elem _ _ _ _ Hm Hi) as (raw & _ & Hraw) end.
  unfold instrument_of, Instrument.new in Hraw. parse_inv. subst i. simpl.
  by match goal with H : _positive_decimal _ "volume_multiple" = Ok _ |- _ => apply _positive_decimal_Ok in H as [_ ?] end.
Qed.

(** When the three bodies arrive and the clocks can be read, reading fails with a
    [ValueError], or else the numbers of the book that was read are beyond the context. *)
Lemma fetch_snapshot_fails self net payloads now ms e :
  gather net (requests self) = Ok payloads -> net_clock net = Ok now -> elapsed_ms net = Ok ms ->
  fetch_snapshot self net = Err e ->
  is_ValueError e = true \/
  arithmetic e /\ exists b i, was_read self payloads b i /\ moderate_book b (Instrument.volume_multiple i) = false.
Proof.
  intros Hg Hc He. unfold fetch_snapshot, checked_clock. rewrite Hg, Hc, He. bind_ok.
  assert (forall {A B} (r : res A) (f : A -> res B), safe r -> (r ≫= f) = Err e ->
    is_ValueError e = true \/ exists a, r = Ok a /\ f a = Err e) as Hstep.
  { intros A B r f Hs [H|H]%bind_Err; [left; by apply Hs|by right]. }
  intros H. apply Hstep in H as [|([[p1 p2] p3] & Hp & H)]; [by left| |eauto with safe].
  apply Hstep in H as [|(instruments & Hl & H)]; [by left| |eauto with safe].
  apply Hstep in H as [|(instrument & Hi & H)]; [by left| |eauto with safe].
  apply Hstep in H as [|(quotes & _ & H)]; [by left| |eauto with safe].
  apply Hstep in H as [|(quote & _ & H)]; [by left| |eauto with safe].
  apply Hstep in H as [|(book & Hb & H)]; [by left| |eauto with safe].
  pose proof (parse_order_book_Ok _ _ _ Hb) as (Hw & Sb & Sa & _).
  assert (was_read self payloads book instrument) as Hread.
  { exists p1, p2, p3, instruments. split_and!; try done.
    destruct payloads as [|? [|? [|? [|]]]]; try discriminate Hp. by injection Hp as -> -> ->. }
  apply find_symbol_Ok in Hi as [Hin _]. pose proof (instrument_positive _ _ _ Hl Hin) as Hpos.
  apply bind_Err in H as [H|([[[sp bps] bd] ad] & Hn & H)].
  - right. split; [by eapply book_numbers_Err|]. exists book, instrument. split; [done|].
    destruct (moderate_book _ _) eqn:Hm; [|done]. destruct (book_numbers_ok _ _ Hw Sb Sa Hpos Hm). congruence.
  - left. unfold book_numbers in Hn. cbv zeta in Hn. apply bind_Ok in Hn as (spread & Hs & _).
    apply Hstep in H as [|(? & _ & H)]; [done| |destruct now; simpl; eauto with safe].
    eapply safe_new_Snapshot; [exact Hs|exact H].
Qed.

(** ** Property *)

(** C29: a snapshot the LBank adapter fetches satisfies every invariant of its
    constructors: positive prices and volumes, bids and asks sorted from the best level
    with the book not crossed, quote and book of the requested symbol up to case; [load]
    reports OK exactly then.  And when the exchange answers and the clock works, reading
    fails with a [ValueError] or with an exception of decimal arithmetic, and the adapter
    never looks down, only degraded, for malformed data, as long as a book that can be read
    holds numbers of a size the decimal context can compute with (1E-100000 to 1E+100000). *)
Theorem lbank_load_classified self net :
  (forall s, fetch_snapshot self net = Ok s ->
     snapshot_wf s /\ quote_wf (Snapshot.quote s) /\ book_wf (Snapshot.order_book s) /\
     side_ok true (bids (Snapshot.order_book s)) /\ side_ok false (asks (Snapshot.order_book s)) /\
     str_casefold (Quote.symbol (Snapshot.quote s)) = str_casefold (str_strip (symbol self)) /\
     str_casefold (OrderBook.symbol (Snapshot.order_book s)) = str_casefold (str_strip (symbol self))) /\
  (AdapterHealth.state (AdapterPayload.health (load self (fetch_snapshot self net))) = AdapterState.OK <->
     is_ok (fetch_snapshot self net) = true) /\
  (forall payloads now ms,
     gather net (requests self) = Ok payloads -> net_clock net = Ok now -> elapsed_ms net = Ok ms ->
     (forall e, fetch_snapshot self net = Err e -> is_ValueError e = true \/ arithmetic e) /\
     ((forall b i, was_read self payloads b i -> moderate_book b (Instrument.volume_multiple i) = true) ->
      AdapterHealth.state (AdapterPayload.health (load self (fetch_snapshot self net))) <> AdapterState.DOWN)).
Proof.
  split_and!.
  - apply fetch_snapshot_sound.
  - destruct (fetch_snapshot self net) as [s|e]; simpl; [done|].
    unfold failure_state. split; [|done]. by destruct (is_ValueError e).
  - intros payloads now ms Hg Hc He. destruct (fetch_snapshot self net) as [s|e] eqn:E; [done|].
    destruct (fetch_snapshot_fails _ _ _ _ _ _ Hg Hc He E) as [Hv|(Ha & b & i & Hr & Hm)].
    + split; [intros ? [= <-]; by left|]. intros _. simpl. unfold failure_state. by rewrite Hv.
    + split; [intros ? [= <-]; by right|]. intros Hmod. rewrite (Hmod b i Hr) in Hm. discriminate Hm.
Qed.

(** A BTCUSDT book with bids out of order, a price as a JSON number. *)
Definition sample_lbank : t := Mk "BTCUSDT" "SwapU" 20 "https://lbkperp.lbank.com".
Definition sample_level (price : pyval) : pyval := VDict [("price", price); ("volume", VStr "2"); ("orders", VInt 1)].
Definition sample_net : Net :=
  MkNet (fun _ => Ok VNone)
    (fun _ => Ok
      [VDict [("data", VList [VDict [("symbol", VStr "btcusdt"); ("baseCurrency", VStr "BTC");
          ("priceCurrency", VStr "USDT"); ("clearCurrency", VStr "USDT"); ("priceTick", VFloat (float_lit 1 (-1)));
          ("volumeTick", VStr "0.001"); ("volumeMultiple", VInt 1); ("minOrderVolume", VStr EmptyString)]])];
       VList [VDict [("symbol", VStr "BTCUSDT"); ("lastPrice", VStr "100.5"); ("markedPrice", VStr "100.4")]];
       VDict [("symbol", VStr "BTCUSDT");
              ("bids", VList [sample_level (VInt 99); sample_level (VStr "100")]);
              ("asks", VList [sample_level (VStr "1.01E+2")])]])
    (Ok (AwareDT (Aware 0 0))) (float_lit 1 0) (float_lit 125 (-2)).

(** The only book that can be read from these bodies is of moderate size. *)
Lemma sample_read_moderate payloads b i :
  gather sample_net (requests sample_lbank) = Ok payloads -> was_read sample_lbank payloads b i ->
  moderate_book b (Instrument.volume_multiple i) = true.
Proof.
  intros [= <-] (p1 & p2 & p3 & l & E & Hl & Hi & Hb). injection E as <- <- <-.
  assert (parse_order_book (VDict [("symbol", VStr "BTCUSDT");
      ("bids", VList [sample_level (VInt 99); sample_level (VStr "100")]);
      ("asks", VList [sample_level (VStr "1.01E+2")])]) (symbol sample_lbank) =
    Ok (OrderBook.Mk "BTCUSDT" (BookLevel.Mk (dint 100) (dint 2) (Some 1)) [BookLevel.Mk (dint 99) (dint 2) (Some 1)]
          (BookLevel.Mk (dint 101) (dint 2) (Some 1)) [])) as E by (vm_compute; reflexivity).
  rewrite E in Hb. injection Hb as <-.
  vm_compute in Hl. injection Hl as <-. vm_compute in Hi. injection Hi as <-. vm_compute. reflexivity.
Qed.

Lemma lbank_load_classified_witness :
  exists s payloads, fetch_snapshot sample_lbank sample_net = Ok s /\
    BookLevel.price (OrderBook.best_bid (Snapshot.order_book s)) = Dec 100 0 /\
    Snapshot.latency_ms s = 250 /\ snapshot_wf s /\ gather sample_net (requests sample_lbank) = Ok payloads /\
    AdapterHealth.state (AdapterPayload.health (load sample_lbank (fetch_snapshot sample_lbank sample_net)))
      <> AdapterState.DOWN.
Proof.
  eexists _, _. split; [vm_compute; reflexivity|]. split; [reflexivity|]. split; [reflexivity|]. split.
  - apply (proj1 (lbank_load_classified sample_lbank sample_net)). vm_compute. reflexivity.
  - split; [reflexivity|].
    eapply (proj2 (proj2 (lbank_load_classified sample_lbank sample_net))); [reflexivity|reflexivity|vm_compute; reflexivity|].
    intros b i. by apply sample_read_moderate.
Defined.

(** Prices the constructors accept, and whose sum the decimal context cannot hold: the
    exception is no [ValueError], and the adapter looks down. *)
Example huge_book_overflows :
  book_numbers (OrderBook.Mk "BTCUSDT" (BookLevel.Mk (Dec 8 999999) (dint 1) None) []
    (BookLevel.Mk (Dec 9 999999) (dint 1) None) []) (dint 1) = Err Overflow /\
  failure_state Overflow = AdapterState.DOWN.
Proof. split; vm_compute; reflexivity. Qed.
