(* ===== verification/Benchmarks.v ===== *)
(** * Benchmark data: [adapters/benchmark_models.py], [adapters/benchmark_health.py]
    and [execution/symbol_mapping.py] *)

From stdpp Require Import list strings gmap.
From Stdlib Require Import QArith Qabs Lqa.
From S2P Require Import Prelude PyList PyStr PyDecimal DecimalFacts DecimalContext PyTime PyFloat FloatFacts.
Open Scope Z_scope.

Module BenchmarkSource.
Inductive t : Type := MEXC | GATE | BYBIT | BINANCE.
#[global] Instance eq_dec : EqDecision t.
Proof. solve_decision. Defined.
Definition value (s : t) : string :=
  match s with MEXC => "MEXC" | GATE => "GATE" | BYBIT => "BYBIT" | BINANCE => "BINANCE" end.
Definition to_nat (s : t) : nat :=
  match s with MEXC => 0 | GATE => 1 | BYBIT => 2 | BINANCE => 3 end.
Definition of_nat (n : nat) : option t := [MEXC; GATE; BYBIT; BINANCE] !! n.
#[global] Instance countable : Countable t.
Proof. refine (inj_countable to_nat of_nat _). by intros []. Defined.
End BenchmarkSource.

Module BenchmarkRole.
Inductive t : Type := BENCHMARK_ONLY.
#[global] Instance eq_dec : EqDecision t.
Proof. solve_decision. Defined.
End BenchmarkRole.

Definition _finite (value : pydec) (name : string) : res dec :=
  match value with
  | Finite v => mret v
  | _ => Err (ValueError (name +:+ " must be finite"))
  end.

Definition _positive (value : pydec) (name : string) : res dec :=
  v ← _finite value name;
  raise_if (v <=? d0)%dec (name +:+ " must be positive") ;;
  mret v.

Definition _non_negative (value : pydec) (name : string) : res dec :=
  v ← _finite value name;
  raise_if (v <? d0)%dec (name +:+ " must be non-negative") ;;
  mret v.

Definition optionally {A B} (value : option A) (check : A -> res B) : res (option B) :=
  match value with None => mret None | Some v => Some <$> check v end.

Module BenchmarkBookLevel.
Record t : Type := Mk { price : dec; quantity : dec }.
Definition new (raw_price raw_quantity : pydec) : res t :=
  price ← _positive raw_price "book price";
  quantity ← _positive raw_quantity "book quantity";
  mret (Mk price quantity).
End BenchmarkBookLevel.

Module BenchmarkSnapshot.
Record t : Type := Mk {
  source : BenchmarkSource.t;
  role : BenchmarkRole.t;
  symbol : string;
  received_at : aware;
  latency_ms : Z;
  source_timestamp : option aware;
  last_price : dec;
  mark_price : option dec;
  index_price : option dec;
  funding_rate : option dec;
  open_interest : option dec;
  best_bid : dec;
  best_ask : dec;
  spread : dec;
  spread_bps : dec;
  bid_depth_quote : dec;
  ask_depth_quote : dec }.

Definition new (source : BenchmarkSource.t) (role : BenchmarkRole.t) (raw_symbol : string)
    (raw_received_at : datetime) (latency_ms : Z) (raw_source_timestamp : option datetime)
    (raw_last : pydec) (raw_mark raw_index raw_funding raw_interest : option pydec)
    (raw_bid raw_ask raw_spread raw_spread_bps raw_bid_depth raw_ask_depth : pydec) : res t :=
  raise_if (negb (bool_decide (role = BenchmarkRole.BENCHMARK_ONLY)))
    "benchmark role must remain BENCHMARK_ONLY" ;;
  let symbol := str_strip raw_symbol in
  raise_if (str_empty symbol) "symbol is required" ;;
  received_at ← require_aware raw_received_at "received_at must be timezone-aware";
  source_timestamp ← optionally raw_source_timestamp
                       (fun v => require_aware v "source_timestamp must be timezone-aware");
  raise_if (latency_ms <? 0) "latency_ms must be non-negative" ;;
  last_price ← _positive raw_last "last_price";
  mark_price ← optionally raw_mark (fun v => _positive v "mark_price");
  index_price ← optionally raw_index (fun v => _positive v "index_price");
  funding_rate ← optionally raw_funding (fun v => _finite v "funding_rate");
  open_interest ← optionally raw_interest (fun v => _non_negative v "open_interest");
  best_bid ← _positive raw_bid "best_bid";
  best_ask ← _positive raw_ask "best_ask";
  raise_if (best_bid >=? best_ask)%dec "benchmark book must not be crossed or locked" ;;
  spread ← _positive raw_spread "spread";
  expected_spread ← ctx_sub best_ask best_bid;
  raise_if (negb (spread =? expected_spread)%dec) "spread does not match best bid and ask" ;;
  spread_bps ← _positive raw_spread_bps "spread_bps";
  bid_depth ← _non_negative raw_bid_depth "bid_depth_quote";
  ask_depth ← _non_negative raw_ask_depth "ask_depth_quote";
  mret (Mk source role symbol received_at latency_ms source_timestamp last_price mark_price
          index_price funding_rate open_interest best_bid best_ask spread spread_bps
          bid_depth ask_depth).
End BenchmarkSnapshot.

(** ** [benchmark_health] *)

Module BenchmarkHealthState.
Inductive t : Type := OK | DEGRADED | STALE.
#[global] Instance eq_dec : EqDecision t.
Proof. solve_decision. Defined.
Definition value (s : t) : string :=
  match s with
  | OK => "OK" | DEGRADED => "DEGRADED" | STALE => "STALE"
  end.
End BenchmarkHealthState.

Record BenchmarkHealthRules : Type := MkHealthRules {
  max_source_age_seconds : float;
  max_receive_age_seconds : float;
  max_latency_ms : Z }.

Definition new_BenchmarkHealthRules (source_age receive_age : float) (latency : Z)
    : res BenchmarkHealthRules :=
  raise_if (source_age <=? fzero)%flt "max_source_age_seconds must be positive" ;;
  raise_if (receive_age <=? fzero)%flt "max_receive_age_seconds must be positive" ;;
  raise_if (latency <=? 0) "max_latency_ms must be positive" ;;
  mret (MkHealthRules source_age receive_age latency).

(** [BenchmarkHealthRules()] *)
Definition default_health_rules : BenchmarkHealthRules :=
  MkHealthRules (float_lit 200 (-1)) (float_lit 100 (-1)) 2500.

Record BenchmarkHealthReport : Type := MkHealthReport {
  hsource : BenchmarkSource.t;
  hsymbol : string;
  hstate : BenchmarkHealthState.t;
  receive_age_seconds : float;
  source_age_seconds : option float;
  hreasons : list string }.

Definition is_usable (r : BenchmarkHealthReport) : bool :=
  bool_decide (hstate r = BenchmarkHealthState.OK).

Definition minus_one : float := Fl (-1) 0.
Definition reason (b : bool) (r : string) : list string := if b then [r] else [].

Definition stale_reasons (rules : BenchmarkHealthRules) (receive_age : float)
    (source_age : option float) : list string :=
  reason (negb (receive_age <? minus_one)%flt && (receive_age >? max_receive_age_seconds rules)%flt)
    "RECEIVE_TIME_STALE" ++
  reason (match source_age with
          | Some age => negb (age <? minus_one)%flt && (age >? max_source_age_seconds rules)%flt
          | None => false
          end) "SOURCE_TIME_STALE".

Definition degraded_reasons (rules : BenchmarkHealthRules) (receive_age : float)
    (source_age : option float) (latency_ms : Z) : list string :=
  reason (receive_age <? minus_one)%flt "RECEIVE_TIME_FROM_FUTURE" ++
  (match source_age with
   | None => ["SOURCE_TIMESTAMP_MISSING"]
   | Some age => reason (age <? minus_one)%flt "SOURCE_TIME_FROM_FUTURE"
   end) ++
  reason (max_latency_ms rules <? latency_ms) "SOURCE_LATENCY_HIGH".

Definition evaluate_benchmark_health (snapshot : BenchmarkSnapshot.t) (now : datetime)
    (rules : option BenchmarkHealthRules) : res BenchmarkHealthReport :=
  let active_rules := default default_health_rules rules in
  now ← require_aware now "now must be timezone-aware";
  let receive_age := total_seconds (time_sub now (BenchmarkSnapshot.received_at snapshot)) in
  let source_age := (fun ts => total_seconds (time_sub now ts)) <$>
                    BenchmarkSnapshot.source_timestamp snapshot in
  let stale := stale_reasons active_rules receive_age source_age in
  let degraded := degraded_reasons active_rules receive_age source_age
                    (BenchmarkSnapshot.latency_ms snapshot) in
  let state := match stale, degraded with
               | _ :: _, _ => BenchmarkHealthState.STALE
               | [], _ :: _ => BenchmarkHealthState.DEGRADED
               | [], [] => BenchmarkHealthState.OK
               end in
  mret (MkHealthReport (BenchmarkSnapshot.source snapshot) (BenchmarkSnapshot.symbol snapshot)
          state receive_age source_age (stale ++ degraded)).

(** ** [symbol_mapping] *)

Module CrossExchangeSymbolMap.
Record t : Type := Mk {
  canonical_symbol : string;
  lbank_symbol : string;
  benchmark_symbols : gmap BenchmarkSource.t string;
  reliable : bool }.

(** The loop over [benchmark_symbols.items()]; a Python mapping has each key once. *)
Fixpoint normalize (items : list (BenchmarkSource.t * string))
    (normalized : gmap BenchmarkSource.t string) : res (gmap BenchmarkSource.t string) :=
  match items with
  | [] => mret normalized
  | (source, symbol) :: items' =>
      let clean_symbol := str_strip symbol in
      raise_if (str_empty clean_symbol) ("symbol is required for " +:+ BenchmarkSource.value source) ;;
      normalize items' (<[source := clean_symbol]> normalized)
  end.

Definition new (raw_canonical raw_lbank : string) (items : list (BenchmarkSource.t * string))
    (reliable : bool) : res t :=
  let canonical := str_strip raw_canonical in
  let lbank := str_strip raw_lbank in
  raise_if (str_empty canonical) "canonical_symbol is required" ;;
  raise_if (str_empty lbank) "lbank_symbol is required" ;;
  normalized ← normalize items ∅;
  raise_if (bool_decide (normalized = ∅)) "at least one benchmark symbol is required" ;;
  mret (Mk canonical lbank normalized reliable).

Definition expected_symbol (m : t) (source : BenchmarkSource.t) : option string :=
  benchmark_symbols m !! source.
End CrossExchangeSymbolMap.

(** ** Facts *)

Lemma _positive_Ok value name v :
  _positive value name = Ok v <-> value = Finite v /\ (d0 <? v)%dec = true.
Proof.
  unfold _positive. destruct value as [w| |]; simpl; [|naive_solver..]. split.
  - intros H. guards. subst. split; [done|dec_order].
  - intros [[= ->] ?]. res_ok ltac:(dec_order). done.
Qed.

Lemma _non_negative_Ok value name v :
  _non_negative value name = Ok v <-> value = Finite v /\ (d0 <=? v)%dec = true.
Proof.
  unfold _non_negative. destruct value as [w| |]; simpl; [|naive_solver..]. split.
  - intros H. guards. subst. split; [done|dec_order].
  - intros [[= ->] ?]. res_ok ltac:(dec_order). done.
Qed.

Record benchmark_wf (s : BenchmarkSnapshot.t) : Prop := {
  bm_symbol : str_strip (BenchmarkSnapshot.symbol s) = BenchmarkSnapshot.symbol s;
  bm_last : (d0 <? BenchmarkSnapshot.last_price s)%dec = true;
  bm_book : (d0 <? BenchmarkSnapshot.best_bid s)%dec = true /\
            (BenchmarkSnapshot.best_bid s <? BenchmarkSnapshot.best_ask s)%dec = true;
  bm_spread : exists expected, ctx_sub (BenchmarkSnapshot.best_ask s) (BenchmarkSnapshot.best_bid s) = Ok expected /\
              (BenchmarkSnapshot.spread s =? expected)%dec = true;
  bm_latency : 0 <= BenchmarkSnapshot.latency_ms s }.

Lemma new_BenchmarkSnapshot_Ok src rl sym r lat ts l m i f oi b a sp bps bd ad s :
  BenchmarkSnapshot.new src rl sym r lat ts l m i f oi b a sp bps bd ad = Ok s ->
  benchmark_wf s /\ BenchmarkSnapshot.source s = src /\ BenchmarkSnapshot.symbol s = str_strip sym.
Proof.
  intros H. unfold BenchmarkSnapshot.new in H. guards.
  repeat match goal with
  | H : _positive _ _ = Ok _ |- _ => apply _positive_Ok in H as [? ?]
  end. subst. split_and!; [|done|done].
  constructor; simpl; eauto; [apply str_strip_idemp|]. split; [done|]. dec_order.
Qed.

Lemma minus_one_fits : ffits minus_one /\ (fval minus_one == inject_Z (-1))%Q.
Proof. split; vm_compute; done. Qed.
Lemma receive_fits : ffits (max_receive_age_seconds default_health_rules) /\
  (fval (max_receive_age_seconds default_health_rules) == inject_Z 10)%Q.
Proof. split; vm_compute; done. Qed.
Lemma source_fits : ffits (max_source_age_seconds default_health_rules) /\
  (fval (max_source_age_seconds default_health_rules) == inject_Z 20)%Q.
Proof. split; vm_compute; done. Qed.

(** A snapshot is fresh when received within 10 s and stamped within 20 s (one second
    of clock skew allowed) and fast enough. *)
Definition fresh (s : BenchmarkSnapshot.t) (now : aware) : bool :=
  let recent limit since := (- us_per_second <=? time_sub now since) &&
                            (time_sub now since <=? limit * us_per_second) in
  recent 10 (BenchmarkSnapshot.received_at s) &&
  match BenchmarkSnapshot.source_timestamp s with
  | Some ts => recent 20 ts
  | None => false
  end && (BenchmarkSnapshot.latency_ms s <=? 2500).

Lemma reason_cons b r l : reason b r ++ l = if b then r :: l else l.
Proof. by destruct b. Qed.

(** Under the default rules a benchmark snapshot is usable exactly when it is fresh,
    to the microsecond; a usable report has no reasons, an unusable one has some. *)
Theorem benchmark_health_exact s now :
  exists r, evaluate_benchmark_health s (AwareDT now) None = Ok r /\
    is_usable r = fresh s now /\ (hreasons r = [] <-> is_usable r = true) /\
    hsource r = BenchmarkSnapshot.source s.
Proof.
  unfold evaluate_benchmark_health, require_aware. bind_ok. cbv zeta.
  change (default default_health_rules None) with default_health_rules.
  eexists; split; [reflexivity|]. unfold is_usable, fresh, stale_reasons, degraded_reasons.
  destruct minus_one_fits as [F1 V1]. destruct receive_fits as [F2 V2]. destruct source_fits as [F3 V3].
  change (max_latency_ms default_health_rules) with 2500.
  set (R := max_receive_age_seconds default_health_rules) in *.
  set (S := max_source_age_seconds default_health_rules) in *. clearbody R S.
  destruct (BenchmarkSnapshot.source_timestamp s) as [ts|]; simpl fmap; cbv iota beta;
    rewrite ?(total_seconds_lt_iff _ (-1) _ F1 V1), ?(total_seconds_gt_iff _ 10 _ F2 V2),
      ?(total_seconds_gt_iff _ 20 _ F3 V3) by done.
  - generalize (time_sub now ts) as b. generalize (time_sub now (BenchmarkSnapshot.received_at s)) as a.
    intros a b. rewrite !Z.leb_antisym.
    change (-1 * us_per_second) with (- us_per_second).
    destruct (a <? - us_per_second), (10 * us_per_second <? a), (b <? - us_per_second),
      (20 * us_per_second <? b), (2500 <? BenchmarkSnapshot.latency_ms s); simpl; split_and!; done.
  - rewrite andb_false_r. simpl.
    destruct (_ && _); simpl; split_and!; try done; destruct (_ <? _); done.
Qed.
