(* ===== verification/MarketParsing.v ===== *)
(** * Reading market data: [adapters/benchmark_utils.py]

    The readers of decoded JSON the benchmark, kline and discovery adapters share: a
    [ParserError] for what has the wrong shape, a value in range otherwise; order books
    are returned sorted, the best level first. *)

From stdpp Require Import list strings sorting.
From Stdlib Require Import QArith Lqa.
From S2P Require Import Prelude PyList PyStr PyDecimal DecimalFacts DecimalContext PyTime PyFloat PyValue Adapters Benchmarks.
Open Scope Z_scope.

Definition require_object (value : pyval) (label : string) : res pydict :=
  match value with VDict d => mret d | _ => Err (ParserError (label +:+ " must be an object")) end.

Definition require_list (value : pyval) (label : string) : res (list pyval) :=
  match value with VList l => mret l | _ => Err (ParserError (label +:+ " must be a list")) end.

Definition require_text (value : pyval) (field : string) : res string :=
  match value with
  | VStr s =>
      parse_if (str_empty (str_strip s)) (field +:+ " must be a non-empty string") ;;
      mret (str_strip s)
  | _ => Err (ParserError (field +:+ " must be a non-empty string"))
  end.

(** [parse_decimal(value, field=.., positive=.., non_negative=.., optional=..)] *)
Definition parse_decimal (value : pyval) (field : string) (positive non_negative optional : bool) :
    res (option dec) :=
  if none_or_empty value && optional then mret None
  else if is_bool value then Err (ParserError (field +:+ " must be numeric"))
  else match decimal_of_pyval value with
       | Err _ => Err (ParserError (field +:+ " must be numeric"))
       | Ok (Finite parsed) =>
           parse_if (positive && (parsed <=? d0)%dec) (field +:+ " must be positive") ;;
           parse_if (non_negative && (parsed <? d0)%dec) (field +:+ " must be non-negative") ;;
           mret (Some parsed)
       | Ok _ => Err (ParserError (field +:+ " must be finite"))
       end.

(** A value the code takes for present: the reader that gives it returns [None] only when
    it is asked to ([parse_decimal_required]). *)
Definition given {A} (value : option A) : res A :=
  match value with
  | Some a => mret a
  | None => Err (Exn "AttributeError" "'NoneType' object has no attribute")
  end.

Definition required_decimal (value : pyval) (field : string) (positive non_negative : bool) : res dec :=
  v ← parse_decimal value field positive non_negative false; given v.

Definition parse_epoch_ms (value : pyval) (field : string) (optional : bool) : res (option datetime) :=
  if none_or_empty value && optional then mret None
  else if is_bool value then Err (ParserError (field +:+ " must be an integer timestamp"))
  else match int_of_pyval value with
       | Err e =>
           if bool_decide (exn_type e ∈ ["TypeError"; "ValueError"])
           then Err (ParserError (field +:+ " must be an integer timestamp")) else Err e
       | Ok milliseconds =>
           parse_if (milliseconds <=? 0) (field +:+ " must be positive") ;;
           Some <$> match int_truediv milliseconds 1000 with
                    | FInf _ => Err (Exn "OverflowError" "integer division result too large for a float")
                    | seconds => fromtimestamp_utc seconds
                    end
       end.

Definition parse_epoch_seconds (value : pyval) (field : string) (optional : bool) : res (option datetime) :=
  if none_or_empty value && optional then mret None
  else if is_bool value then Err (ParserError (field +:+ " must be a timestamp"))
  else match decimal_of_pyval value with
       | Err _ => Err (ParserError (field +:+ " must be a timestamp"))
       | Ok (Finite seconds) =>
           parse_if (seconds <=? d0)%dec (field +:+ " must be positive") ;;
           Some <$> fromtimestamp_utc (float_lit (dm seconds) (de seconds))
       | Ok _ => Err (ParserError (field +:+ " must be positive"))
       end.

(** ** Order books *)

Definition level_price (l : BenchmarkBookLevel.t) : dec := BenchmarkBookLevel.price l.

(** [levels.sort(key=lambda item: item.price, reverse=side == "bids")] *)
Definition sort_levels (side : string) (levels : list BenchmarkBookLevel.t) : list BenchmarkBookLevel.t :=
  if bool_decide (side = "bids") then py_sorted_rev level_price levels else py_sorted level_price levels.

Definition sequence_level (side : string) (quantity_multiplier : dec) (row : pyval) :
    res BenchmarkBookLevel.t :=
  match row with
  | VList (p :: q :: _) =>
      price ← required_decimal p (side +:+ ".price") true false;
      quantity ← required_decimal q (side +:+ ".quantity") true false;
      scaled ← ctx_mul quantity quantity_multiplier;
      BenchmarkBookLevel.new (Finite price) (Finite scaled)
  | _ => Err (ParserError (side +:+ " level must contain price and quantity"))
  end.

Definition parse_sequence_book (rows : pyval) (side : string) (quantity_multiplier : dec) :
    res (list BenchmarkBookLevel.t) :=
  items ← require_list rows side;
  parse_if (bool_decide (items = [])) (side +:+ " must not be empty") ;;
  levels ← mapM (sequence_level side quantity_multiplier) items;
  mret (sort_levels side levels).

Definition object_level (side price_field quantity_field : string) (quantity_multiplier : dec)
    (absolute_quantity : bool) (row : pyval) : res BenchmarkBookLevel.t :=
  item ← require_object row (side +:+ " level");
  price ← required_decimal (dict_get item price_field) (side +:+ "." +:+ price_field) true false;
  quantity ← required_decimal (dict_get item quantity_field) (side +:+ "." +:+ quantity_field) false false;
  quantity ← (if absolute_quantity then ctx_abs quantity else mret quantity);
  parse_if (quantity <=? d0)%dec (side +:+ "." +:+ quantity_field +:+ " must be positive") ;;
  scaled ← ctx_mul quantity quantity_multiplier;
  BenchmarkBookLevel.new (Finite price) (Finite scaled).

Definition parse_object_book (rows : pyval) (side price_field quantity_field : string)
    (quantity_multiplier : dec) (absolute_quantity : bool) : res (list BenchmarkBookLevel.t) :=
  items ← require_list rows side;
  parse_if (bool_decide (items = [])) (side +:+ " must not be empty") ;;
  levels ← mapM (object_level side price_field quantity_field quantity_multiplier absolute_quantity) items;
  mret (sort_levels side levels).

(** The tuple [calculate_book_metrics] returns. *)
Record BookMetrics : Type := MkBookMetrics {
  m_best_bid : dec;
  m_best_ask : dec;
  m_spread : dec;
  m_spread_bps : dec;
  m_bid_depth_quote : dec;
  m_ask_depth_quote : dec }.

(** [sum(level.price * level.quantity for level in levels)]: the products are made one by
    one as they are added, which only the place of an [Overflow] could show. *)
Definition depth_quote (levels : list BenchmarkBookLevel.t) : res dec :=
  products ← mapM (fun l => ctx_mul (BenchmarkBookLevel.price l) (BenchmarkBookLevel.quantity l)) levels;
  ctx_sum products.

Definition calculate_book_metrics (bids asks : list BenchmarkBookLevel.t) : res BookMetrics :=
  match bids, asks with
  | bid :: _, ask :: _ =>
      let best_bid := BenchmarkBookLevel.price bid in
      let best_ask := BenchmarkBookLevel.price ask in
      parse_if (best_bid >=? best_ask)%dec "order book is crossed or locked" ;;
      spread ← ctx_sub best_ask best_bid;
      total ← ctx_add best_bid best_ask;
      mid_price ← ctx_div total (dint 2);
      ratio ← ctx_div spread mid_price;
      spread_bps ← ctx_mul ratio (dint 10000);
      bid_depth ← depth_quote bids;
      ask_depth ← depth_quote asks;
      mret (MkBookMetrics best_bid best_ask spread spread_bps bid_depth ask_depth)
  | _, _ => Err (ParserError "order book must contain bids and asks")
  end.

(** ** Facts: numbers *)

Lemma parse_decimal_Ok value field positive non_negative optional r :
  parse_decimal value field positive non_negative optional = Ok r ->
  match r with
  | None => optional = true /\ none_or_empty value = true
  | Some d => decimal_of_pyval value = Ok (Finite d) /\
      (positive = true -> (d0 <? d)%dec = true) /\ (non_negative = true -> (d0 <=? d)%dec = true)
  end.
Proof.
  unfold parse_decimal. destruct (none_or_empty value && optional) eqn:E.
  { intros [= <-]. by apply andb_true_iff in E as [? ?]. }
  destruct (is_bool value); [done|].
  destruct (decimal_of_pyval value) as [[d| |]|]; try done. intros H. parse_inv. subst r.
  split_and!; [done|..]; intros ->; simpl in *; dec_order.
Qed.

Lemma required_decimal_Ok value field positive non_negative d :
  required_decimal value field positive non_negative = Ok d ->
  decimal_of_pyval value = Ok (Finite d) /\
  (positive = true -> (d0 <? d)%dec = true) /\ (non_negative = true -> (d0 <=? d)%dec = true).
Proof.
  unfold required_decimal. intros H. parse_inv. apply parse_decimal_Ok in H0. destruct v; [|done].
  simpl in H. by injection H as ->.
Qed.

Lemma parse_decimal_required value field positive non_negative :
  parse_decimal value field positive non_negative false <> Ok None.
Proof. intros H%parse_decimal_Ok. naive_solver. Qed.

(** ** Facts: books *)

Definition level_ok (l : BenchmarkBookLevel.t) : Prop :=
  (d0 <? BenchmarkBookLevel.price l)%dec = true /\ (d0 <? BenchmarkBookLevel.quantity l)%dec = true.

Lemma new_level_ok p q l : BenchmarkBookLevel.new p q = Ok l -> level_ok l.
Proof.
  unfold BenchmarkBookLevel.new, _positive, _finite. intros H. res_inv.
  destruct p; try done; destruct q; try done. res_inv. subst. split; simpl; dec_order.
Qed.

(** A book side: not empty, every level positive, the best price first. *)
Record book_side_ok (bids : bool) (levels : list BenchmarkBookLevel.t) : Prop := {
  bs_nonempty : levels <> [];
  bs_levels : Forall level_ok levels;
  bs_sorted : StronglySorted (fun x y => if bids then (level_price y <=? level_price x)%dec = true
                                         else (level_price x <=? level_price y)%dec = true) levels }.

Lemma sort_levels_perm side levels : sort_levels side levels ≡ₚ levels.
Proof. unfold sort_levels. case_bool_decide; [apply py_sorted_rev_perm|apply py_sorted_perm]. Qed.

Lemma sort_levels_ok side levels :
  levels <> [] -> Forall level_ok levels -> book_side_ok (bool_decide (side = "bids")) (sort_levels side levels).
Proof.
  intros Hne Hl. constructor.
  - intros E. apply Hne. pose proof (sort_levels_perm side levels) as Hp. rewrite E in Hp.
    by apply Permutation_nil in Hp.
  - by rewrite sort_levels_perm.
  - unfold sort_levels. case_bool_decide; [apply py_sorted_rev_sorted|apply py_sorted_sorted].
Qed.

(** Reading rows one by one into positive levels, then sorting. *)
Lemma sorted_rows_ok (f : pyval -> res BenchmarkBookLevel.t) side (items : list pyval) levels :
  (forall row l, f row = Ok l -> level_ok l) -> bool_decide (items = []) = false ->
  mapM f items = Ok levels -> book_side_ok (bool_decide (side = "bids")) (sort_levels side levels).
Proof.
  intros Hf Hne Hm%mapM_Ok. apply bool_decide_eq_false in Hne. apply sort_levels_ok.
  - intros ->. by inversion Hm; subst.
  - clear Hne. induction Hm; constructor; eauto.
Qed.

Lemma parse_sequence_book_ok rows side mult levels :
  parse_sequence_book rows side mult = Ok levels -> book_side_ok (bool_decide (side = "bids")) levels.
Proof.
  unfold parse_sequence_book. intros H. parse_inv. subst levels. eapply sorted_rows_ok; [|done|done].
  intros row l Hr. unfold sequence_level in Hr. destruct row as [| | | | | |[|? [|? ?]]|]; try done.
  parse_inv. by eapply new_level_ok.
Qed.

Lemma parse_object_book_ok rows side pf qf mult absolute levels :
  parse_object_book rows side pf qf mult absolute = Ok levels ->
  book_side_ok (bool_decide (side = "bids")) levels.
Proof.
  unfold parse_object_book. intros H. parse_inv. subst levels. eapply sorted_rows_ok; [|done|done].
  intros row l Hr. unfold object_level in Hr. parse_inv. by eapply new_level_ok.
Qed.

(** No level is better than the first. *)
Lemma best_level_first bids l levels x :
  book_side_ok bids (l :: levels) -> x ∈ l :: levels ->
  if bids then (level_price x <=? level_price l)%dec = true else (level_price l <=? level_price x)%dec = true.
Proof.
  intros [_ _ Hs]%id Hx. apply StronglySorted_inv in Hs as [_ Hs]. rewrite Forall_forall in Hs.
  apply elem_of_cons in Hx as [->|Hx]; [destruct bids; apply py_le_refl|by apply Hs].
Qed.

(** What the snapshot takes over from the two sides. *)
Record metrics_ok (bids asks : list BenchmarkBookLevel.t) (m : BookMetrics) : Prop := {
  mk_bid : m_best_bid m = default d0 (level_price <$> head bids);
  mk_ask : m_best_ask m = default d0 (level_price <$> head asks);
  mk_positive : (d0 <? m_best_bid m)%dec = true;
  mk_crossed : (m_best_bid m <? m_best_ask m)%dec = true;
  mk_spread : ctx_sub (m_best_ask m) (m_best_bid m) = Ok (m_spread m);
  mk_depth : depth_quote bids = Ok (m_bid_depth_quote m) /\ depth_quote asks = Ok (m_ask_depth_quote m);
  mk_best : Forall (fun l => (level_price l <=? m_best_bid m)%dec = true) bids /\
            Forall (fun l => (m_best_ask m <=? level_price l)%dec = true) asks }.

Lemma calculate_book_metrics_ok bids asks m :
  book_side_ok true bids -> book_side_ok false asks -> calculate_book_metrics bids asks = Ok m ->
  metrics_ok bids asks m.
Proof.
  intros Hb Ha. destruct bids as [|bid bids]; [by destruct Hb|]. destruct asks as [|ask asks]; [by destruct Ha|].
  pose proof (bs_levels _ _ Hb) as Hbl.
  assert ((d0 <? level_price bid)%dec = true) as Hp by (by apply Forall_cons in Hbl as [[? _] _]).
  unfold calculate_book_metrics. fold (level_price bid) (level_price ask). intros H. parse_inv. subst m.
  constructor; simpl; try done; [dec_order|]. split; apply Forall_forall; intros x Hx.
  - by apply (best_level_first true bid bids x).
  - by apply (best_level_first false ask asks x).
Qed.
