(* ===== verification/HttpClient.v ===== *)
(** * The HTTP client: [adapters/http_client.py]

    httpx is outside: what a GET with a timeout gives, what [raise_for_status] raises on
    the response, and the decoded body. *)

From stdpp Require Import list strings.
From S2P Require Import Prelude PyList PyStr PyTime PyFloat PyValue Adapters.
Open Scope Z_scope.

Module HttpClient.
Record t : Type := Mk { timeout_seconds : float }.
Definition new (timeout_seconds : float) : res t :=
  raise_if (timeout_seconds <=? fzero)%flt "timeout_seconds must be positive" ;;
  mret (Mk timeout_seconds).
Definition default_timeout : float := Fl 10 0.
End HttpClient.

Record Response : Type := MkResponse { raise_for_status : res unit; json : res pyval }.

Section client.
(** [httpx.AsyncClient(timeout=timeout).get(url, params=params)] *)
Context (get : float -> Request -> res Response).
Context (client : HttpClient.t).

Definition get_json_value (request : Request) : res pyval :=
  response ← get (HttpClient.timeout_seconds client) request;
  raise_for_status response ;;
  json response.

Definition get_json (request : Request) : res pydict :=
  payload ← get_json_value request;
  match payload with
  | VDict d => mret d
  | _ => Err (ValueError "expected object response")
  end.

(** The network of the adapters, on this client: requests that are gathered give their
    bodies in order. *)
Definition client_net (clock : res datetime) (started finished : float) : Net :=
  MkNet get_json_value (mapM get_json_value) clock started finished.

(** A body is an object of a response without an error status, and nothing else. *)
Lemma get_json_Ok request d :
  get_json request = Ok d <->
  exists response, get (HttpClient.timeout_seconds client) request = Ok response /\
    raise_for_status response = Ok tt /\ json response = Ok (VDict d).
Proof.
  unfold get_json, get_json_value. split.
  - intros (v & (r & Hr & Hv)%bind_Ok & Hd)%bind_Ok. apply bind_Ok in Hv as ([] & Hs & Hj). exists r.
    destruct v; try discriminate. apply Ok_inj in Hd as <-. done.
  - intros (r & -> & Hs & Hj). bind_ok. rewrite Hs. bind_ok. by rewrite Hj.
Qed.

(** Every body that is no object is refused by name. *)
Lemma get_json_refuses request v :
  get_json_value request = Ok v -> (forall d, v <> VDict d) ->
  get_json request = Err (ValueError "expected object response").
Proof. intros H Hv. unfold get_json. rewrite H. bind_ok. destruct v; try done. by destruct (Hv d). Qed.
End client.

(** Only a positive timeout makes a client. *)
Lemma new_client_Ok timeout_seconds c :
  HttpClient.new timeout_seconds = Ok c <-> (timeout_seconds <=? fzero)%flt = false /\ c = HttpClient.Mk timeout_seconds.
Proof.
  unfold HttpClient.new. destruct (timeout_seconds <=? fzero)%flt; split; [done|by intros [? _]|by intros <-%Ok_inj|by intros [_ ->]].
Qed.
