(* ===== verification/BenchmarkAdapters.v ===== *)
(** * Benchmark adapters: [adapters/benchmark_base.py] and the four exchanges

    [mexc_futures.py], [gate_public.py], [bybit_futures.py] and [binance_futures.py]: each
    asks its exchange for a few documents, checks that they speak of the contract it was
    built for, and makes a [BenchmarkSnapshot] of them.  [load] and [health] are those of
    the base class, over the result of [fetch_snapshot].  The network is a parameter
    ([Net]). *)

From stdpp Require Import list strings sorting.
From S2P Require Import Prelude PyList PyStr PyDecimal DecimalFacts DecimalContext PyTime PyFloat PyValue Adapters Benchmarks.
From S2P Require Import MarketParsing.
Open Scope Z_scope.

(** ** The base class *)

Module BenchmarkAdapterBase.
Record t : Type := Mk {
  source_name : string;
  name : string;
  symbol : string;
  base_url : string;
  depth : Z }.

Definition new (source_name name symbol base_url : string) (depth : Z) : res t :=
  let normalized_symbol := str_strip symbol in
  raise_if (str_empty normalized_symbol) "symbol is required" ;;
  normalized_url ← https_base base_url;
  mret (Mk source_name name normalized_symbol normalized_url depth).

Definition _url (self : t) (path : string) : string := base_url self +:+ path.

(** [health], given what [fetch_snapshot] did; [net] has the readings of [health]. *)
Definition health (self : t) (net : Net) (fetched : res BenchmarkSnapshot.t) : res AdapterHealth.t :=
  latency ← elapsed_ms net;
  mret match fetched with
       | Err error => AdapterHealth.Mk (name self) AdapterState.DOWN (Some latency) (exn_type error)
       | Ok _ => AdapterHealth.Mk (name self) AdapterState.OK (Some latency) EmptyString
       end.

Definition load (self : t) (fetched : res BenchmarkSnapshot.t) : AdapterPayload.t :=
  match fetched with
  | Err error =>
      AdapterPayload.Mk (name self)
        [("source", VStr (source_name self));
         ("role", VStr "BENCHMARK_ONLY");
         ("symbol", VStr (symbol self));
         ("status", VStr "DATA_DEGRADED")]
        (AdapterHealth.Mk (name self) (failure_state error) None (exn_type error))
  | Ok s =>
      AdapterPayload.Mk (name self)
        [("source", VStr (BenchmarkSource.value (BenchmarkSnapshot.source s)));
         ("role", VStr "BENCHMARK_ONLY");
         ("symbol", VStr (BenchmarkSnapshot.symbol s));
         ("received_at", VStr (isoformat (BenchmarkSnapshot.received_at s)));
         ("source_timestamp", match BenchmarkSnapshot.source_timestamp s with
                              | None => VNone
                              | Some t => VStr (isoformat t)
                              end);
         ("latency_ms", VInt (BenchmarkSnapshot.latency_ms s));
         ("last_price", VStr (dec_str (BenchmarkSnapshot.last_price s)));
         ("mark_price", opt_dec_str (BenchmarkSnapshot.mark_price s));
         ("index_price", opt_dec_str (BenchmarkSnapshot.index_price s));
         ("funding_rate", opt_dec_str (BenchmarkSnapshot.funding_rate s));
         ("open_interest", opt_dec_str (BenchmarkSnapshot.open_interest s));
         ("best_bid", VStr (dec_str (BenchmarkSnapshot.best_bid s)));
         ("best_ask", VStr (dec_str (BenchmarkSnapshot.best_ask s)));
         ("spread", VStr (dec_str (BenchmarkSnapshot.spread s)));
         ("spread_bps", VStr (dec_str (BenchmarkSnapshot.spread_bps s)));
         ("bid_depth_quote", VStr (dec_str (BenchmarkSnapshot.bid_depth_quote s)));
         ("ask_depth_quote", VStr (dec_str (BenchmarkSnapshot.ask_depth_quote s)));
         ("status", VStr "OK")]
        (AdapterHealth.Mk (name self) AdapterState.OK (Some (BenchmarkSnapshot.latency_ms s)) EmptyString)
  end.
End BenchmarkAdapterBase.
Import BenchmarkAdapterBase (_url, symbol, depth).

(** The snapshot all four adapters build: the clock and the latency are read first, then
    the timestamp and the prices, in the order of the arguments. *)
Definition build_snapshot (self : BenchmarkAdapterBase.t) (net : Net) (source : BenchmarkSource.t)
    (source_timestamp : res (option datetime)) (last_price : res dec)
    (mark_price index_price funding_rate open_interest : res (option dec)) (m : BookMetrics) :
    res BenchmarkSnapshot.t :=
  received_at ← checked_clock net;
  latency_ms ← elapsed_ms net;
  source_timestamp ← source_timestamp;
  last_price ← last_price;
  mark_price ← mark_price;
  index_price ← index_price;
  funding_rate ← funding_rate;
  open_interest ← open_interest;
  BenchmarkSnapshot.new source BenchmarkRole.BENCHMARK_ONLY (symbol self) (AwareDT received_at)
    latency_ms source_timestamp (Finite last_price) (Finite <$> mark_price) (Finite <$> index_price)
    (Finite <$> funding_rate) (Finite <$> open_interest) (Finite (m_best_bid m)) (Finite (m_best_ask m))
    (Finite (m_spread m)) (Finite (m_spread_bps m)) (Finite (m_bid_depth_quote m))
    (Finite (m_ask_depth_quote m)).

(** ** MEXC *)

Definition _mexc_data (payload : pyval) (label : string) : res pydict :=
  root ← require_object payload label;
  parse_if (match dict_get root "success" with VBool true => false | _ => true end)
    (label +:+ " reported failure") ;;
  require_object (dict_get root "data") (label +:+ ".data").

Module MexcUsdtPerpetualAdapter.
Definition default_base_url : string := "https://contract.mexc.com".

Definition new (symbol : string) (depth : Z) (base_url : string) : res BenchmarkAdapterBase.t :=
  raise_if ((depth <? 1) || (100 <? depth)) "MEXC depth must be between 1 and 100" ;;
  BenchmarkAdapterBase.new "MEXC" "mexc-usdt-perpetual-benchmark" symbol base_url depth.

Definition requests (self : BenchmarkAdapterBase.t) : list Request :=
  [MkRequest (_url self ("/api/v1/contract/detail/" +:+ symbol self)) [];
   MkRequest (_url self "/api/v1/contract/ticker") [("symbol", VStr (symbol self))];
   MkRequest (_url self ("/api/v1/contract/depth/" +:+ symbol self)) [("limit", VInt (depth self))]].

Definition fetch_snapshot (self : BenchmarkAdapterBase.t) (net : Net) : res BenchmarkSnapshot.t :=
  payloads ← gather net (requests self);
  '(detail_payload, ticker_payload, book_payload) ← unpack3 payloads;
  detail ← _mexc_data detail_payload "detail";
  ticker ← _mexc_data ticker_payload "ticker";
  book ← _mexc_data book_payload "depth";
  detail_symbol ← require_text (dict_get detail "symbol") "detail.symbol";
  ticker_symbol ← require_text (dict_get ticker "symbol") "ticker.symbol";
  parse_if (negb (bool_decide (detail_symbol = symbol self)) || negb (bool_decide (ticker_symbol = symbol self)))
    "MEXC symbol mismatch" ;;
  parse_if (match dict_get detail "quoteCoin" with VNone => false | v => negb (is_text v "USDT") end)
    "MEXC contract is not USDT quoted" ;;
  parse_if (negb (str_endswith "_USDT" (symbol self))) "MEXC symbol must be a USDT perpetual contract" ;;
  contract_size ← required_decimal (dict_get detail "contractSize") "detail.contractSize" true false;
  bids ← parse_sequence_book (dict_get book "bids") "bids" contract_size;
  asks ← parse_sequence_book (dict_get book "asks") "asks" contract_size;
  m ← calculate_book_metrics bids asks;
  let source_timestamp := if truthy (dict_get ticker "timestamp") then dict_get ticker "timestamp"
                          else dict_get book "timestamp" in
  build_snapshot self net BenchmarkSource.MEXC
    (parse_epoch_ms source_timestamp "timestamp" true)
    (required_decimal (dict_get ticker "lastPrice") "ticker.lastPrice" true false)
    (parse_decimal (dict_get ticker "fairPrice") "ticker.fairPrice" true false true)
    (parse_decimal (dict_get ticker "indexPrice") "ticker.indexPrice" true false true)
    (parse_decimal (dict_get ticker "fundingRate") "ticker.fundingRate" false false true)
    (parse_decimal (dict_get ticker "holdVol") "ticker.holdVol" false true true) m.
End MexcUsdtPerpetualAdapter.

(** ** Gate *)

Module GateUsdtFuturesAdapter.
Definition default_base_url : string := "https://api.gateio.ws".

Definition new (symbol : string) (depth : Z) (base_url : string) : res BenchmarkAdapterBase.t :=
  raise_if ((depth <? 1) || (100 <? depth)) "Gate depth must be between 1 and 100" ;;
  BenchmarkAdapterBase.new "GATE" "gate-usdt-futures-benchmark" symbol base_url depth.

Definition requests (self : BenchmarkAdapterBase.t) : list Request :=
  [MkRequest (_url self ("/api/v4/futures/usdt/contracts/" +:+ symbol self)) [];
   MkRequest (_url self "/api/v4/futures/usdt/tickers") [("contract", VStr (symbol self))];
   MkRequest (_url self "/api/v4/futures/usdt/order_book")
     [("contract", VStr (symbol self)); ("limit", VInt (depth self)); ("with_id", VBool true)]].

Definition fetch_snapshot (self : BenchmarkAdapterBase.t) (net : Net) : res BenchmarkSnapshot.t :=
  payloads ← gather net (requests self);
  '(contract_payload, ticker_payload, book_payload) ← unpack3 payloads;
  contract ← require_object contract_payload "contract";
  contract_name ← require_text (dict_get contract "name") "contract.name";
  parse_if (negb (bool_decide (contract_name = symbol self))) "Gate contract symbol mismatch" ;;
  parse_if (negb (str_endswith "_USDT" (symbol self))) "Gate symbol must be a USDT futures contract" ;;
  parse_if (match dict_get contract "in_delisting" with VBool true => true | _ => false end)
    "Gate contract is delisting" ;;
  multiplier ← required_decimal (dict_get contract "quanto_multiplier") "contract.quanto_multiplier" true false;
  tickers ← require_list ticker_payload "tickers";
  parse_if (negb (length tickers =? 1)%nat) "Gate ticker response must contain one contract" ;;
  ticker ← require_object (default VNone (head tickers)) "ticker";
  ticker_symbol ← require_text (dict_get ticker "contract") "ticker.contract";
  parse_if (negb (bool_decide (ticker_symbol = symbol self))) "Gate ticker symbol mismatch" ;;
  book ← require_object book_payload "order_book";
  bids ← parse_object_book (dict_get book "bids") "bids" "p" "s" multiplier true;
  asks ← parse_object_book (dict_get book "asks") "asks" "p" "s" multiplier true;
  m ← calculate_book_metrics bids asks;
  build_snapshot self net BenchmarkSource.GATE
    (parse_epoch_seconds (dict_get book "current") "order_book.current" true)
    (required_decimal (dict_get ticker "last") "ticker.last" true false)
    (parse_decimal (dict_get ticker "mark_price") "ticker.mark_price" true false true)
    (parse_decimal (dict_get ticker "index_price") "ticker.index_price" true false true)
    (parse_decimal (dict_get ticker "funding_rate") "ticker.funding_rate" false false true)
    (parse_decimal (dict_get ticker "total_size") "ticker.total_size" false true true) m.
End GateUsdtFuturesAdapter.

(** ** Bybit *)

Definition _bybit_result (payload : pyval) (label : string) : res pydict :=
  root ← require_object payload label;
  parse_if (negb (is_number (dict_get root "retCode") 0)) (label +:+ " reported failure") ;;
  require_object (dict_get root "result") (label +:+ ".result").

Definition _single_result_item (payload : pyval) (label : string) : res pydict :=
  result ← _bybit_result payload label;
  items ← require_list (dict_get result "list") (label +:+ ".result.list");
  parse_if (negb (length items =? 1)%nat) (label +:+ " must contain one symbol") ;;
  require_object (default VNone (head items)) (label +:+ " item").

Module BybitLinearPerpetualAdapter.
Definition default_base_url : string := "https://api.bybit.com".

Definition new (symbol : string) (depth : Z) (base_url : string) : res BenchmarkAdapterBase.t :=
  raise_if (negb (bool_decide (depth ∈ [1; 25; 50; 100; 200; 500]))) "unsupported Bybit depth" ;;
  BenchmarkAdapterBase.new "BYBIT" "bybit-linear-perpetual-benchmark" symbol base_url depth.

Definition requests (self : BenchmarkAdapterBase.t) : list Request :=
  let linear := [("category", VStr "linear"); ("symbol", VStr (symbol self))] in
  [MkRequest (_url self "/v5/market/instruments-info") linear;
   MkRequest (_url self "/v5/market/tickers") linear;
   MkRequest (_url self "/v5/market/orderbook") (linear ++ [("limit", VInt (depth self))])].

(** One turn of the loop over the instrument and the ticker. *)
Definition check_symbol (self : BenchmarkAdapterBase.t) (item : pydict) (label : string) : res unit :=
  found ← require_text (dict_get item "symbol") (label +:+ ".symbol");
  parse_if (negb (bool_decide (found = symbol self))) ("Bybit " +:+ label +:+ " symbol mismatch").

Definition fetch_snapshot (self : BenchmarkAdapterBase.t) (net : Net) : res BenchmarkSnapshot.t :=
  payloads ← gather net (requests self);
  '(instrument_payload, ticker_payload, book_payload) ← unpack3 payloads;
  instrument ← _single_result_item instrument_payload "instruments";
  ticker ← _single_result_item ticker_payload "tickers";
  book ← _bybit_result book_payload "orderbook";
  check_symbol self instrument "instrument" ;;
  check_symbol self ticker "ticker" ;;
  parse_if (negb (is_text (dict_get instrument "contractType") "LinearPerpetual"))
    "Bybit contract is not linear perpetual" ;;
  parse_if (negb (is_text (dict_get instrument "status") "Trading")) "Bybit contract is not trading" ;;
  parse_if (negb (is_text (dict_get instrument "quoteCoin") "USDT") ||
            negb (is_text (dict_get instrument "settleCoin") "USDT")) "Bybit contract is not USDT-settled" ;;
  book_symbol ← require_text (dict_get book "s") "orderbook.s";
  parse_if (negb (bool_decide (book_symbol = symbol self))) "Bybit order-book symbol mismatch" ;;
  bids ← parse_sequence_book (dict_get book "b") "bids" d1;
  asks ← parse_sequence_book (dict_get book "a") "asks" d1;
  m ← calculate_book_metrics bids asks;
  build_snapshot self net BenchmarkSource.BYBIT
    (parse_epoch_ms (dict_get book "ts") "orderbook.ts" true)
    (required_decimal (dict_get ticker "lastPrice") "ticker.lastPrice" true false)
    (parse_decimal (dict_get ticker "markPrice") "ticker.markPrice" true false true)
    (parse_decimal (dict_get ticker "indexPrice") "ticker.indexPrice" true false true)
    (parse_decimal (dict_get ticker "fundingRate") "ticker.fundingRate" false false true)
    (parse_decimal (dict_get ticker "openInterest") "ticker.openInterest" false true true) m.
End BybitLinearPerpetualAdapter.

(** ** Binance *)

Module BinanceUsdMAdapter.
Definition default_base_url : string := "https://fapi.binance.com".

Definition new (symbol : string) (depth : Z) (base_url : string) : res BenchmarkAdapterBase.t :=
  raise_if (negb (bool_decide (depth ∈ [5; 10; 20; 50; 100; 500; 1000]))) "unsupported Binance depth" ;;
  BenchmarkAdapterBase.new "BINANCE" "binance-usdm-benchmark" symbol base_url depth.

Definition requests (self : BenchmarkAdapterBase.t) : list Request :=
  let of_symbol := [("symbol", VStr (symbol self))] in
  [MkRequest (_url self "/fapi/v1/exchangeInfo") [];
   MkRequest (_url self "/fapi/v2/ticker/price") of_symbol;
   MkRequest (_url self "/fapi/v1/premiumIndex") of_symbol;
   MkRequest (_url self "/fapi/v1/openInterest") of_symbol;
   MkRequest (_url self "/fapi/v1/depth") (of_symbol ++ [("limit", VInt (depth self))])].

(** The loop over the listed symbols: it stops at the adapter's. *)
Fixpoint find_contract (self : BenchmarkAdapterBase.t) (symbols : list pyval) : res unit :=
  match symbols with
  | [] => Err (ParserError ("symbol not found: " +:+ symbol self))
  | raw :: symbols' =>
      item ← require_object raw "exchangeInfo symbol";
      if negb (is_text (dict_get item "symbol") (symbol self)) then find_contract self symbols'
      else
        parse_if (negb (is_text (dict_get item "contractType") "PERPETUAL"))
          "Binance contract is not perpetual" ;;
        parse_if (negb (is_text (dict_get item "quoteAsset") "USDT") ||
                  negb (is_text (dict_get item "marginAsset") "USDT")) "Binance contract is not USDT-margined" ;;
        parse_if (negb (is_text (dict_get item "status") "TRADING")) "Binance contract is not trading"
  end.

Definition _validate_contract (self : BenchmarkAdapterBase.t) (payload : pyval) : res unit :=
  root ← require_object payload "exchangeInfo";
  symbols ← require_list (dict_get root "symbols") "exchangeInfo.symbols";
  find_contract self symbols.

Definition check_symbol (self : BenchmarkAdapterBase.t) (item : pydict) (label : string) : res unit :=
  found ← require_text (dict_get item "symbol") (label +:+ ".symbol");
  parse_if (negb (bool_decide (found = symbol self))) (label +:+ " symbol mismatch").

Definition unpack5 (l : list pyval) : res (pyval * pyval * pyval * pyval * pyval) :=
  match l with
  | [a; b; c; d; e] => mret (a, b, c, d, e)
  | _ => Err (ValueError (if (length l <? 5)%nat then "not enough values to unpack (expected 5, got " +:+
                            int_str (Z.of_nat (length l)) +:+ ")"
                          else "too many values to unpack (expected 5)"))
  end.

Definition fetch_snapshot (self : BenchmarkAdapterBase.t) (net : Net) : res BenchmarkSnapshot.t :=
  payloads ← gather net (requests self);
  '(exchange_info, ticker, premium, open_interest, book) ← unpack5 payloads;
  _validate_contract self exchange_info ;;
  ticker_item ← require_object ticker "ticker";
  premium_item ← require_object premium "premiumIndex";
  interest_item ← require_object open_interest "openInterest";
  book_item ← require_object book "depth";
  check_symbol self ticker_item "ticker" ;;
  check_symbol self premium_item "premiumIndex" ;;
  check_symbol self interest_item "openInterest" ;;
  bids ← parse_sequence_book (dict_get book_item "bids") "bids" d1;
  asks ← parse_sequence_book (dict_get book_item "asks") "asks" d1;
  m ← calculate_book_metrics bids asks;
  build_snapshot self net BenchmarkSource.BINANCE
    (parse_epoch_ms (dict_get premium_item "time") "premiumIndex.time" true)
    (required_decimal (dict_get ticker_item "price") "ticker.price" true false)
    (Some <$> required_decimal (dict_get premium_item "markPrice") "premiumIndex.markPrice" true false)
    (Some <$> required_decimal (dict_get premium_item "indexPrice") "premiumIndex.indexPrice" true false)
    (parse_decimal (dict_get premium_item "lastFundingRate") "premiumIndex.lastFundingRate" false false true)
    (Some <$> required_decimal (dict_get interest_item "openInterest") "openInterest.openInterest" false true) m.
End BinanceUsdMAdapter.

(** ** Facts *)

(** The adapter of a source. *)
Definition fetch_of (source : BenchmarkSource.t) : BenchmarkAdapterBase.t -> Net -> res BenchmarkSnapshot.t :=
  match source with
  | BenchmarkSource.MEXC => MexcUsdtPerpetualAdapter.fetch_snapshot
  | BenchmarkSource.GATE => GateUsdtFuturesAdapter.fetch_snapshot
  | BenchmarkSource.BYBIT => BybitLinearPerpetualAdapter.fetch_snapshot
  | BenchmarkSource.BINANCE => BinanceUsdMAdapter.fetch_snapshot
  end.

(** What a snapshot says of the two sides it was computed from. *)
Record of_book (bids asks : list BenchmarkBookLevel.t) (s : BenchmarkSnapshot.t) : Prop := {
  ob_bids : book_side_ok true bids;
  ob_asks : book_side_ok false asks;
  ob_bid : Forall (fun l => (level_price l <=? BenchmarkSnapshot.best_bid s)%dec = true) bids /\
           exists l, l ∈ bids /\ level_price l = BenchmarkSnapshot.best_bid s;
  ob_ask : Forall (fun l => (BenchmarkSnapshot.best_ask s <=? level_price l)%dec = true) asks /\
           exists l, l ∈ asks /\ level_price l = BenchmarkSnapshot.best_ask s;
  ob_order : (d0 <? BenchmarkSnapshot.best_bid s)%dec = true /\
             (BenchmarkSnapshot.best_bid s <? BenchmarkSnapshot.best_ask s)%dec = true;
  ob_spread : ctx_sub (BenchmarkSnapshot.best_ask s) (BenchmarkSnapshot.best_bid s) = Ok (BenchmarkSnapshot.spread s);
  ob_depth : depth_quote bids = Ok (BenchmarkSnapshot.bid_depth_quote s) /\
             depth_quote asks = Ok (BenchmarkSnapshot.ask_depth_quote s) }.

Lemma snapshot_positive_Ok value name v : _positive value name = Ok v -> value = Finite v.
Proof. unfold _positive, _finite. destruct value; try done. intros H. res_inv. by subst. Qed.
Lemma snapshot_non_negative_Ok value name v : _non_negative value name = Ok v -> value = Finite v.
Proof. unfold _non_negative, _finite. destruct value; try done. intros H. res_inv. by subst. Qed.

Lemma new_snapshot_fields source role sym r lat ts last mark index funding interest bid ask sp bps bd ad s :
  BenchmarkSnapshot.new source role sym r lat ts last mark index funding interest (Finite bid) (Finite ask)
    (Finite sp) bps (Finite bd) (Finite ad) = Ok s ->
  BenchmarkSnapshot.source s = source /\ BenchmarkSnapshot.symbol s = str_strip sym /\
  BenchmarkSnapshot.best_bid s = bid /\ BenchmarkSnapshot.best_ask s = ask /\
  BenchmarkSnapshot.spread s = sp /\ BenchmarkSnapshot.bid_depth_quote s = bd /\
  BenchmarkSnapshot.ask_depth_quote s = ad.
Proof.
  unfold BenchmarkSnapshot.new. intros H. res_inv. subst s. simpl.
  repeat match goal with
  | H : _positive (Finite _) _ = Ok _ |- _ => apply snapshot_positive_Ok in H as [= ->]
  | H : _non_negative (Finite _) _ = Ok _ |- _ => apply snapshot_non_negative_Ok in H as [= ->]
  end. done.
Qed.

(** From the two sides to the snapshot, as every adapter goes. *)
Lemma snapshot_of_book self net source ts last mark index funding interest bids asks m s :
  book_side_ok true bids -> book_side_ok false asks -> calculate_book_metrics bids asks = Ok m ->
  build_snapshot self net source ts last mark index funding interest m = Ok s ->
  BenchmarkSnapshot.source s = source /\ BenchmarkSnapshot.symbol s = str_strip (symbol self) /\ of_book bids asks s.
Proof.
  intros Hb Ha Hm Hs. unfold build_snapshot in Hs. res_inv.
  apply new_snapshot_fields in Hs as (-> & -> & Ebid & Eask & Esp & Ebd & Ead). split_and!; [done..|].
  destruct (calculate_book_metrics_ok bids asks m Hb Ha Hm) as [Hh Hk Hpos Hlt Hsp Hdp [Hbest Hask]].
  constructor; rewrite ?Ebid, ?Eask, ?Esp, ?Ebd, ?Ead; try done.
  - split; [done|]. destruct bids as [|l bids]; [by destruct Hb|]. exists l. split; [set_solver|]. by rewrite Hh.
  - split; [done|]. destruct asks as [|l asks]; [by destruct Ha|]. exists l. split; [set_solver|]. by rewrite Hk.
Qed.

(** The sides an adapter read. *)
Ltac sides_read :=
  repeat match goal with
  | H : parse_sequence_book _ _ _ = Ok _ |- _ => apply parse_sequence_book_ok in H
  | H : parse_object_book _ _ _ _ _ _ = Ok _ |- _ => apply parse_object_book_ok in H
  end.

Lemma fetch_of_sound source self net s :
  fetch_of source self net = Ok s ->
  BenchmarkSnapshot.source s = source /\ BenchmarkSnapshot.symbol s = str_strip (symbol self) /\
  exists bids asks, of_book bids asks s.
Proof.
  intros H.
  enough (exists bids asks m ts last mark index funding interest,
    book_side_ok true bids /\ book_side_ok false asks /\ calculate_book_metrics bids asks = Ok m /\
    build_snapshot self net source ts last mark index funding interest m = Ok s)
    as (bids & asks & m & ts & last & mark & index & funding & interest & Hb & Ha & Hm & Hs).
  { destruct (snapshot_of_book _ _ _ _ _ _ _ _ _ _ _ _ _ Hb Ha Hm Hs) as (? & ? & ?). eauto. }
  destruct source; simpl in H;
    unfold MexcUsdtPerpetualAdapter.fetch_snapshot, GateUsdtFuturesAdapter.fetch_snapshot,
      BybitLinearPerpetualAdapter.fetch_snapshot, BinanceUsdMAdapter.fetch_snapshot in H;
    res_inv; repeat case_match; parse_inv; sides_read; do 9 eexists; split_and!; eassumption.
Qed.
