(* ===== verification/BybitKline.v ===== *)
(** * The kline adapter: [adapters/bybit_kline.py]

    Closed candles of one symbol and interval from the exchange's rows, newest first, to a
    validated batch, oldest first, written as payload data with its freshness. *)

From stdpp Require Import list strings gmap sorting.
From S2P Require Import Prelude PyList PyStr PyDecimal DecimalFacts PyTime IsoTime PyFloat FloatFacts PyValue Adapters.
From S2P Require Import Candles Serialization Benchmarks MarketParsing.
Open Scope Z_scope.

Module BybitKlineAdapter.
Definition default_base_url : string := "https://api.bybit.com".

Record t : Type := Mk {
  symbol : string;
  interval : CandleInterval.t;
  category : string;
  limit : Z;
  base_url : string;
  name : string }.

Definition new (symbol : string) (interval : CandleInterval.t) (category : string) (limit : Z)
    (base_url : string) : res t :=
  let normalized_symbol := norm_upper symbol in
  let normalized_category := norm_lower category in
  raise_if (str_empty normalized_symbol) "symbol is required" ;;
  raise_if (negb (bool_decide (normalized_category ∈ candle_categories))) "unsupported Bybit kline category" ;;
  raise_if ((limit <? 1) || (1000 <? limit)) "limit must be between 1 and 1000" ;;
  normalized_url ← https_base base_url;
  mret (Mk normalized_symbol interval normalized_category limit normalized_url
          ("bybit-kline-" +:+ CandleInterval.label interval)).

Definition _url (self : t) : string := base_url self +:+ "/v5/market/kline".

Definition request (self : t) : Request :=
  MkRequest (_url self)
    [("category", VStr (category self)); ("symbol", VStr (symbol self));
     ("interval", VStr (CandleInterval.value (interval self))); ("limit", VInt (limit self))].

(** [None] for a candle that is not closed. *)
Definition _parse_row (self : t) (fetched_at : aware) (raw : pyval) : res (option OhlcvCandle) :=
  match raw with
  | VList (r0 :: r1 :: r2 :: r3 :: r4 :: r5 :: r6 :: _) =>
      open_time ← parse_epoch_ms r0 "kline.startTime" false;
      match open_time with
      | Some (AwareDT open_time) =>
          close_time ← date_add open_time (CandleInterval.duration (interval self));
          if py_lt fetched_at close_time then mret None
          else
            open_price ← required_decimal r1 "kline.openPrice" true false;
            high_price ← required_decimal r2 "kline.highPrice" true false;
            low_price ← required_decimal r3 "kline.lowPrice" true false;
            close_price ← required_decimal r4 "kline.closePrice" true false;
            volume ← required_decimal r5 "kline.volume" false true;
            turnover ← required_decimal r6 "kline.turnover" false true;
            Some <$> new_OhlcvCandle CandleSource.BYBIT CandleRole.STRUCTURE_DATA (category self) (symbol self)
              (interval self) (AwareDT open_time) (AwareDT close_time) (Finite open_price) (Finite high_price)
              (Finite low_price) (Finite close_price) (Finite volume) (Finite turnover)
      | _ => Err (ParserError "kline.startTime is required")
      end
  | _ => Err (ParserError "kline row must contain seven values")
  end.

(** The checks of the envelope, down to the rows. *)
Definition result_rows (self : t) (payload : pyval) : res pydict :=
  root ← require_object payload "kline";
  parse_if (negb (is_number (dict_get root "retCode") 0)) "Bybit kline endpoint reported failure" ;;
  result ← require_object (dict_get root "result") "kline.result";
  result_symbol ← require_text (dict_get result "symbol") "kline.result.symbol";
  result_category ← require_text (dict_get result "category") "kline.result.category";
  parse_if (negb (bool_decide (str_upper result_symbol = symbol self))) "Bybit kline symbol mismatch" ;;
  parse_if (negb (bool_decide (str_lower result_category = category self))) "Bybit kline category mismatch" ;;
  mret result.

Definition fetch_batch (self : t) (net : Net) : res Batch.t :=
  payload ← get_json_value net (request self);
  result ← result_rows self payload;
  fetched_at ← checked_clock net;
  raw_rows ← require_list (dict_get result "list") "kline.result.list";
  candles ← mapM (_parse_row self fetched_at) raw_rows;
  Batch.new_CandleBatch CandleSource.BYBIT CandleRole.STRUCTURE_DATA (category self) (symbol self)
    (interval self) (AwareDT fetched_at) (py_sorted open_time (omap id candles)).

Definition freshness_value (s : CandleFreshnessState.t) : string :=
  match s with
  | CandleFreshnessState.OK => "OK"
  | CandleFreshnessState.EMPTY => "EMPTY"
  | CandleFreshnessState.STALE => "STALE"
  | CandleFreshnessState.FUTURE => "FUTURE"
  end.

(** [try: batch = fetch_batch(); freshness = evaluate_candle_freshness(..)] *)
Definition fetch_and_check (self : t) (net : Net) : res (Batch.t * CandleFreshnessReport) :=
  batch ← fetch_batch self net;
  freshness ← evaluate_candle_freshness batch (AwareDT (Batch.fetched_at batch)) None;
  mret (batch, freshness).

Definition load (self : t) (net : Net) : res AdapterPayload.t :=
  match fetch_and_check self net with
  | Err error =>
      latency ← elapsed_ms net;
      mret (AdapterPayload.Mk (name self)
        [("source", VStr (CandleSource.value CandleSource.BYBIT));
         ("role", VStr (CandleRole.value CandleRole.STRUCTURE_DATA));
         ("category", VStr (category self));
         ("symbol", VStr (symbol self));
         ("interval", VStr (CandleInterval.value (interval self)));
         ("status", VStr "DATA_DEGRADED");
         ("candles", VList [])]
        (AdapterHealth.Mk (name self) (failure_state error) (Some latency) (exn_type error)))
  | Ok (batch, freshness) =>
      let data := batch_to_payload_data batch in
      let data := dict_set data "status" (VStr (freshness_value (state freshness))) in
      let data := dict_set data "freshness_age_seconds"
                    (match age_seconds freshness with None => VNone | Some x => VFloat x end) in
      let data := dict_set data "freshness_reasons" (VList (VStr <$> reasons freshness)) in
      latency ← elapsed_ms net;
      mret (AdapterPayload.Mk (name self) data
        (AdapterHealth.Mk (name self)
           (if bool_decide (state freshness = CandleFreshnessState.OK) then AdapterState.OK else AdapterState.DEGRADED)
           (Some latency) (str_join "," (reasons freshness))))
  end.
End BybitKlineAdapter.
Import BybitKlineAdapter.

(** ** Facts *)

Lemma fromtimestamp_representable x d :
  fromtimestamp_utc x = Ok d -> exists a, d = AwareDT a /\ off a = 0 /\ representable a.
Proof.
  unfold fromtimestamp_utc, representable. destruct x as [m e| |]; try done.
  destruct (fratio m e) as [n dd]. destruct (float_ratio _) as [fn fd].
  set (us := _ + rne_div fn fd). destruct (civil_from_days _) as [[y mo] da] eqn:E.
  destruct (_ || _); [done|]. destruct (_ || _); [done|]. destruct (_ || _) eqn:Ey; [done|].
  intros [= <-]. exists (Aware us 0). split_and!; [done..|]. cbn [utc off]. rewrite Z.add_0_r, E. guards.
  split; [lia|done].
Qed.

Lemma parse_epoch_ms_Ok value field d :
  parse_epoch_ms value field false = Ok (Some d) -> exists a, d = AwareDT a /\ off a = 0 /\ representable a.
Proof.
  unfold parse_epoch_ms. rewrite andb_false_r. destruct (is_bool value); [done|].
  destruct (int_of_pyval value) as [ms|e]; [|by case_bool_decide]. intros H. parse_inv.
  destruct (int_truediv ms 1000) eqn:E; try done; parse_inv; simplify_eq; by eapply fromtimestamp_representable.
Qed.

(** What a row that was kept says of its candle. *)
Lemma _parse_row_Ok self fetched raw c :
  _parse_row self fetched raw = Ok (Some c) ->
  candle_wf c /\ off (open_time c) = 0 /\ off (close_time c) = 0 /\ representable (open_time c) /\
  utc (close_time c) <= utc fetched.
Proof.
  unfold _parse_row. destruct raw as [| | | | | |[|r0 [|r1 [|r2 [|r3 [|r4 [|r5 [|r6 ?]]]]]]]|]; try done.
  intros H. parse_inv. destruct v as [[ot|]|]; try done.
  apply parse_epoch_ms_Ok in H0 as (a & [= ->] & Hoff & Hrep).
  apply bind_Ok in H as (ct & [-> _]%date_add_Ok & H).
  destruct (py_lt fetched _) eqn:El; [done|]. parse_inv.
  match goal with Hn : new_OhlcvCandle _ _ _ _ _ _ _ _ _ _ _ _ _ = Ok _ |- _ =>
    rename Hn into Hnew end. injection H as ->.
  split; [by eapply new_OhlcvCandle_wf|]. unfold new_OhlcvCandle in Hnew. res_inv. subst. simpl.
  repeat match goal with H : _aware _ _ = Ok _ |- _ => apply _aware_Ok in H as [= <-] end.
  split_and!; [done|done|done|]. time_to_Z. simpl in *. lia.
Qed.

Lemma elem_of_omap_id {A} (l : list (option A)) x : x ∈ omap id l <-> Some x ∈ l.
Proof. rewrite list_elem_of_omap. naive_solver. Qed.

Lemma fetch_batch_Ok self net b :
  fetch_batch self net = Ok b ->
  batch_wf b /\ Forall candle_wf (Batch.candles b) /\
  Forall (fun c => off (open_time c) = 0 /\ off (close_time c) = 0 /\ representable (open_time c) /\
            utc (close_time c) <= utc (Batch.fetched_at b)) (Batch.candles b) /\
  net_clock net = Ok (AwareDT (Batch.fetched_at b)) /\
  Batch.symbol b = norm_upper (symbol self) /\ Batch.category b = norm_lower (category self) /\
  Batch.interval b = interval self.
Proof.
  unfold fetch_batch. intros H. res_inv.
  apply new_CandleBatch_Ok in H as (fa & [= ->] & -> & Hwf). simpl.
  match goal with Hm : mapM _ _ = Ok ?k |- _ =>
    assert (Forall (fun c => candle_wf c /\ off (open_time c) = 0 /\ off (close_time c) = 0 /\
      representable (open_time c) /\ utc (close_time c) <= utc fa) (py_sorted open_time (omap id k))) as Hall end.
  { rewrite py_sorted_perm. apply Forall_forall. intros c Hc%elem_of_omap_id.
    match goal with Hm : mapM _ _ = Ok _ |- _ => destruct (mapM_elem _ _ _ _ Hm Hc) as (raw & _ & Hraw) end.
    by eapply _parse_row_Ok. }
  split_and!; try done.
  - eapply Forall_impl; [exact Hall|naive_solver].
  - eapply Forall_impl; [exact Hall|naive_solver].
  - match goal with Hc : checked_clock _ = Ok _ |- _ => unfold checked_clock in Hc; res_inv end.
    match goal with Hr : require_aware ?d _ = Ok _ |- _ => destruct d; [|done]; by injection Hr as -> end.
Qed.

Lemma representable_between a b c :
  off b = 0 -> off c = 0 -> off a = 0 -> representable a -> representable b ->
  utc a <= utc c <= utc b -> representable c.
Proof. intros Hb Hc Ha. rewrite !representable_utc by done. lia. Qed.

(** A clock that shows UTC, as the default one does, in a year Python knows. *)
Definition utc_clock (net : Net) : Prop :=
  forall now, net_clock net = Ok (AwareDT now) -> off now = 0 /\ representable now.

Lemma fetch_batch_times self net b : utc_clock net -> fetch_batch self net = Ok b -> batch_times_ok b.
Proof.
  intros Hclock Hb%fetch_batch_Ok. destruct Hb as (_ & Hwf & Ht & Hnow & _).
  apply Hclock in Hnow as [Hoff Hrep]. split; [done|]. rewrite Forall_forall in Hwf, Ht. apply Forall_forall.
  intros c Hc. destruct (Ht c Hc) as (Ho & Hcl & Hr & Hle). split; [done|].
  apply (representable_between (open_time c) (Batch.fetched_at b)); try done.
  destruct (Hwf c Hc) as [_ _ Hd _ _ _ _].
  assert (0 < CandleInterval.duration (Candles.interval c)) by (by destruct (Candles.interval c)). lia.
Qed.

Lemma fetch_and_check_Ok self net b f :
  fetch_and_check self net = Ok (b, f) <->
  fetch_batch self net = Ok b /\
  evaluate_candle_freshness b (AwareDT (Batch.fetched_at b)) None = Ok f.
Proof.
  unfold fetch_and_check. split.
  - intros H. res_inv. by simplify_eq.
  - intros [-> H]. bind_ok. rewrite H. done.
Qed.

(** ** Property *)

(** C26: when the kline adapter reports OK, the runtime store reads from its payload
    exactly the batch that was fetched, whatever else the payload carries; that batch is
    validated, of the configured symbol and interval, holds at least one candle, only
    closed ones, oldest first, and the latest closed at most two intervals before the
    fetch. *)
Theorem kline_payload_is_read_back `{FromIso} self net payload :
  load self net = Ok payload -> utc_clock net ->
  AdapterHealth.state (AdapterPayload.health payload) = AdapterState.OK ->
  exists b c, fetch_batch self net = Ok b /\ batch_from_payload_data (AdapterPayload.data payload) = Ok b /\
    batch_wf b /\ Forall candle_wf (Batch.candles b) /\ Batch.interval b = interval self /\
    Batch.symbol b = norm_upper (symbol self) /\ Batch.latest b = Some c /\
    0 <= utc (Batch.fetched_at b) - utc (close_time c) <= 2 * CandleInterval.duration (interval self).
Proof.
  intros Hload Hclock Hok. unfold load in Hload.
  destruct (fetch_and_check self net) as [[b f]|e] eqn:E.
  2:{ res_inv. subst payload. simpl in Hok. unfold failure_state in Hok. by destruct (is_ValueError e). }
  apply fetch_and_check_Ok in E as [Hb Hf]. pose proof (fetch_batch_times _ _ _ Hclock Hb) as Htimes.
  apply fetch_batch_Ok in Hb as Hs. destruct Hs as (Hwf & Hcw & Hcl & _ & Hsym & _ & Hint).
  apply bind_Ok in Hload as (ms & _ & Hload). apply Ok_inj in Hload. subst payload.
  cbn [AdapterPayload.health AdapterHealth.state] in Hok. case_bool_decide as Hst; [|done].
  pose proof (freshness_default b (Batch.fetched_at b)) as Hfr. rewrite Hf in Hfr. simpl in Hfr.
  rewrite Hst in Hfr. destruct (Batch.latest b) as [c|] eqn:El; [|done]. exists b, c.
  split_and!; try done.
  - cbn [AdapterPayload.data]. rewrite !batch_from_dict_set by set_solver. by apply batch_from_to.
  - unfold Batch.latest in El. apply last_Some_elem_of in El. rewrite Forall_forall in Hcl.
    destruct (Hcl c El) as (_ & _ & _ & ?). lia.
  - injection Hfr as Hfr. unfold freshness_of, time_sub in Hfr. rewrite Hint in Hfr.
    destruct (_ <? - us_per_second); [done|]. destruct (_ <? _) eqn:Elt in Hfr; [done|]. guards. lia.
Qed.

(** Two closed candles and the running one, newest first, as the exchange answers. *)
Definition sample_kline : t :=
  Mk "BTCUSDT" CandleInterval.M5 "linear" 200 "https://api.bybit.com" "bybit-kline-5m".
Definition sample_row (ms : string) (close : string) : pyval :=
  VList (VStr <$> [ms; "10"; "12"; "9"; close; "100"; "1000"]).
Definition sample_kline_net : Net :=
  MkNet
    (fun _ => Ok (VDict [("retCode", VInt 0);
       ("result", VDict [("symbol", VStr "BTCUSDT"); ("category", VStr "linear");
          ("list", VList [sample_row "1700000700000" "11"; sample_row "1700000400000" "10.50";
                          sample_row "1700000100000" "9.5"])])]))
    (fun _ => Ok []) (Ok (AwareDT (Aware 1700000750000000 0))) (float_lit 1 0) (float_lit 2 0).

Lemma kline_payload_is_read_back_witness :
  exists payload b c, load sample_kline sample_kline_net = Ok payload /\
    batch_from_payload_data (AdapterPayload.data payload) = Ok b /\ Batch.latest b = Some c /\
    length (Batch.candles b) = 2%nat /\ close_price c = Dec 1050 (-2).
Proof.
  assert (exists p, load sample_kline sample_kline_net = Ok p) as [p Hp] by (eexists; vm_compute; reflexivity).
  exists p. destruct (kline_payload_is_read_back sample_kline sample_kline_net p) as (b & c & Hb & Hr & _ & _ & _ & _ & Hc & _).
  - exact Hp.
  - intros now [= <-]. split; [reflexivity|]. vm_compute. split; [split; discriminate|reflexivity].
  - vm_compute in Hp. injection Hp as <-. reflexivity.
  - exists b, c. split; [exact Hp|]. split; [exact Hr|]. split; [exact Hc|].
    vm_compute in Hb. injection Hb as <-. vm_compute in Hc. injection Hc as <-. split; reflexivity.
Defined.
