(* ===== verification/Repository.v ===== *)
(** * Tables and upserts

    The database is outside the package.  [Table] states what the repositories rely on:
    the rows of a table are found by their key, a written row is read back as [stored]
    gives it (the column types may round it, or drop its UTC offset), other rows stay, and
    a query sees every row once, in an order of the database's choosing.  [gmap_table] is
    an implementation that stores rows as they are.

    The repositories share one way of writing ([upsert_row]): insert the row when its key
    is new, otherwise compare the columns in order and write them all when one differs.
    [upsert_rows_exact] says what a run of upserts does to the table and to the counters,
    and that repeating it changes nothing. *)

From stdpp Require Import list strings gmap.
From S2P Require Import Prelude PyList PyStr PyDecimal DecimalFacts PyTime.
Open Scope Z_scope.

(** ** The interface *)

Class Table (K R : Type) `{EqDecision K} : Type := {
  table : Type;
  stored : R -> R;
  lookup_row : table -> K -> option R;
  write_row : table -> K -> R -> table;
  rows : table -> list (K * R);
  lookup_write t k r k' :
    lookup_row (write_row t k r) k' = if decide (k' = k) then Some (stored r) else lookup_row t k';
  rows_lookup t k r : (k, r) ∈ rows t <-> lookup_row t k = Some r;
  rows_keys t : NoDup ((rows t).*1) }.
Arguments table K R {_ _}.

(** ** An implementation *)

Section gmap_table.
Context {K R : Type} `{Countable K}.

Lemma gmap_lookup_write (m : gmap K R) k r k' :
  <[k := r]> m !! k' = if decide (k' = k) then Some r else m !! k'.
Proof. case_decide as E; [subst; apply lookup_insert_eq|by apply lookup_insert_ne]. Qed.

Lemma gmap_rows_lookup (m : gmap K R) k r : (k, r) ∈ map_to_list m <-> m !! k = Some r.
Proof. apply elem_of_map_to_list. Qed.

#[export] Instance gmap_table : Table K R := {|
  table := gmap K R;
  stored := fun r => r;
  lookup_row m k := m !! k;
  write_row m k r := <[k := r]> m;
  rows := map_to_list;
  lookup_write := gmap_lookup_write;
  rows_lookup := gmap_rows_lookup;
  rows_keys := NoDup_fst_map_to_list |}.
End gmap_table.

(** ** Columns *)

(** What a mapped attribute holds. *)
Inductive column : Type :=
| CNull
| CText (s : string)
| CInt (z : Z)
| CDecimal (d : dec)
| CTime (t : datetime)
| CTexts (l : list string).

Definition opt_column {A} (f : A -> column) (a : option A) : column :=
  match a with None => CNull | Some a => f a end.

(** [current == expected] of attributes: decimals by value, aware times by instant, a
    naive time and an aware one differ. *)
Definition column_eqb (a b : column) : bool :=
  match a, b with
  | CNull, CNull => true
  | CText s, CText t => bool_decide (s = t)
  | CInt y, CInt z => y =? z
  | CDecimal c, CDecimal d => (c =? d)%dec
  | CDecimal c, CInt z | CInt z, CDecimal c => (c =? dint z)%dec
  | CTime (AwareDT x), CTime (AwareDT y) => aware_eqb x y
  | CTime (NaiveDT x), CTime (NaiveDT y) => x =? y
  | CTexts l, CTexts k => bool_decide (l = k)
  | _, _ => false
  end.

Lemma deqb_refl d : (d =? d)%dec = true.
Proof. apply deqb_val. reflexivity. Qed.

Lemma column_eqb_refl a : column_eqb a a = true.
Proof.
  destruct a as [|s|z|d|[x|x]|l]; simpl; try done; try (by apply bool_decide_eq_true_2);
    try apply Z.eqb_refl. apply deqb_refl.
Qed.

(** ** Upserts *)

Inductive Upsert : Type := Inserted | Updated | Unchanged.
#[export] Instance upsert_eq_dec : EqDecision Upsert.
Proof. solve_decision. Defined.

(** How many there were of each. *)
Record Counters : Type := MkCounters { n_inserted : Z; n_updated : Z; n_unchanged : Z }.
Definition no_upserts : Counters := MkCounters 0 0 0.
Definition count_upsert (o : Upsert) (c : Counters) : Counters :=
  match o with
  | Inserted => MkCounters (n_inserted c + 1) (n_updated c) (n_unchanged c)
  | Updated => MkCounters (n_inserted c) (n_updated c + 1) (n_unchanged c)
  | Unchanged => MkCounters (n_inserted c) (n_updated c) (n_unchanged c + 1)
  end.

Section upsert.
Context {K R : Type} `{EqDecision K} `{!Table K R}.
Context (columns : R -> list column) (equal : column -> column -> res bool) (overwrite : R -> R -> R).

(** [any(not equal(getattr(existing, name), value) for name, value in values.items())] *)
Fixpoint any_changed (existing values : list column) : res bool :=
  match existing, values with
  | e :: existing', v :: values' =>
      same ← equal e v;
      if same : bool then any_changed existing' values' else mret true
  | _, _ => mret false
  end.

Definition upsert_row (t : table K R) (k : K) (values : R) : res (table K R * Upsert) :=
  match lookup_row t k with
  | None => mret (write_row t k values, Inserted)
  | Some existing =>
      changed ← any_changed (columns existing) (columns values);
      if changed : bool then mret (write_row t k (overwrite existing values), Updated)
      else mret (t, Unchanged)
  end.

(** The loop over the rows, with its counters. *)
Fixpoint upsert_rows (t : table K R) (c : Counters) (l : list (K * R)) : res (table K R * Counters) :=
  match l with
  | [] => mret (t, c)
  | (k, r) :: l' => '(t, o) ← upsert_row t k r; upsert_rows t (count_upsert o c) l'
  end.

(** ** Facts *)

(** The stored row says the same as the one to be written. *)
Definition same_row (existing values : R) : Prop := any_changed (columns existing) (columns values) = Ok false.

(** What an upsert of a row does, as the state of the table before says. *)
Definition upsert_kind (t : table K R) (k : K) (r : R) (o : Upsert) : Prop :=
  match o with
  | Inserted => lookup_row t k = None
  | Updated => exists old, lookup_row t k = Some old /\ any_changed (columns old) (columns r) = Ok true
  | Unchanged => exists old, lookup_row t k = Some old /\ same_row old r
  end.

(** Rows under distinct keys that are not in the table are inserted as they are. *)
Lemma upsert_rows_fresh t c l :
  NoDup l.*1 -> (forall k, k ∈ l.*1 -> lookup_row t k = None) ->
  exists t', upsert_rows t c l =
      Ok (t', MkCounters (n_inserted c + Z.of_nat (length l)) (n_updated c) (n_unchanged c)) /\
    (forall k r, (k, r) ∈ l -> lookup_row t' k = Some (stored r)) /\
    (forall k, k ∉ l.*1 -> lookup_row t' k = lookup_row t k).
Proof.
  revert t c; induction l as [|[k r] l IH]; intros t c Hnd Hf; simpl in *.
  { exists t. rewrite Z.add_0_r. destruct c. split_and!; [done|set_solver|done]. }
  apply NoDup_cons in Hnd as [Hn Hnd]. unfold upsert_row. rewrite Hf by set_solver. bind_ok. cbn beta iota.
  destruct (IH (write_row t k r) (count_upsert Inserted c) Hnd) as (t' & Hu & Hin & Hout).
  { intros k' Hk'. assert (k' <> k) by (intros ->; by apply Hn). rewrite lookup_write, decide_False by done. apply Hf. set_solver. }
  exists t'. rewrite Hu. split_and!.
  - simpl. do 3 f_equal. lia.
  - intros k' r' [[= -> ->]|Hin']%elem_of_cons; [|by apply Hin].
    by rewrite Hout, lookup_write, decide_True.
  - intros k' Hk'. rewrite Hout, lookup_write, decide_False; set_solver.
Qed.

Context (overwrite_columns : forall old new, columns (overwrite old new) = columns new).
(** The column types lose nothing of these values that the comparison sees. *)
Definition kept (r : R) : Prop := forall r', columns r' = columns r -> same_row (stored r') r'.

Lemma upsert_row_Ok t k r t' o :
  kept r -> upsert_row t k r = Ok (t', o) ->
  upsert_kind t k r o /\ (forall k', k' <> k -> lookup_row t' k' = lookup_row t k') /\
  (exists r', lookup_row t' k = Some r' /\ same_row r' r) /\ upsert_row t' k r = Ok (t', Unchanged).
Proof.
  intros lossless H.
  assert (upsert_kind t k r o /\ (forall k', k' <> k -> lookup_row t' k' = lookup_row t k') /\
    exists r', lookup_row t' k = Some r' /\ same_row r' r) as (Hk & Ho & r' & Hr & Hs).
  { unfold upsert_row in H. destruct (lookup_row t k) as [old|] eqn:El.
    - apply bind_Ok in H as ([|] & Hc & H); apply Ok_inj in H; simplify_eq.
      + split_and!; [by exists old|intros; by rewrite lookup_write, decide_False|].
        exists (stored (overwrite old r)). rewrite lookup_write, decide_True by done. split; [done|].
        unfold same_row. rewrite <- (overwrite_columns old r). apply lossless, overwrite_columns.
      + split_and!; [by exists old|done|by exists old].
    - apply Ok_inj in H; simplify_eq. split_and!; [done|intros; by rewrite lookup_write, decide_False|].
      exists (stored r). rewrite lookup_write, decide_True by done. split; [done|by apply lossless]. }
  split_and!; eauto. unfold upsert_row. rewrite Hr. unfold same_row in Hs. by rewrite Hs.
Qed.

(** The kind of each upsert of a list, from the table before it. *)
Definition upsert_kinds (t : table K R) (l : list (K * R)) (os : list Upsert) : Prop :=
  Forall2 (fun kr o => upsert_kind t kr.1 kr.2 o) l os.

Definition counters_of (os : list Upsert) (c : Counters) : Counters := fold_left (fun c o => count_upsert o c) os c.

Lemma upsert_kind_ext t t' k r o : lookup_row t' k = lookup_row t k -> upsert_kind t' k r o -> upsert_kind t k r o.
Proof. unfold upsert_kind. by intros ->. Qed.

Lemma upsert_row_unchanged t k r old :
  lookup_row t k = Some old -> same_row old r -> upsert_row t k r = Ok (t, Unchanged).
Proof. intros Hl Hs. unfold upsert_row, same_row in *. by rewrite Hl, Hs. Qed.

Lemma upsert_rows_unchanged t c l :
  (forall k r, (k, r) ∈ l -> exists old, lookup_row t k = Some old /\ same_row old r) ->
  upsert_rows t c l = Ok (t, MkCounters (n_inserted c) (n_updated c) (n_unchanged c + Z.of_nat (length l))).
Proof.
  revert c; induction l as [|[k r] l IH]; intros c Hl; simpl.
  { rewrite Z.add_0_r. by destruct c. }
  destruct (Hl k r ltac:(set_solver)) as (old & Ho & Hs). rewrite (upsert_row_unchanged _ _ _ _ Ho Hs). bind_ok.
  rewrite IH by (intros; apply Hl; set_solver). simpl. do 3 f_equal. lia.
Qed.

(** With distinct keys: each row is inserted, updated or left as the table before says;
    afterwards the table says what was written, other keys are untouched, and doing it
    again changes nothing. *)
Lemma upsert_rows_exact t c l t' c' :
  Forall (fun kr => kept kr.2) l -> NoDup l.*1 -> upsert_rows t c l = Ok (t', c') ->
  (exists os, upsert_kinds t l os /\ c' = counters_of os c) /\
  (forall k, k ∉ l.*1 -> lookup_row t' k = lookup_row t k) /\
  (forall k r, (k, r) ∈ l -> exists r', lookup_row t' k = Some r' /\ same_row r' r) /\
  (forall d, upsert_rows t' d l =
    Ok (t', MkCounters (n_inserted d) (n_updated d) (n_unchanged d + Z.of_nat (length l)))).
Proof.
  intros Hkept Hnd H.
  assert ((exists os, upsert_kinds t l os /\ c' = counters_of os c) /\
    (forall k, k ∉ l.*1 -> lookup_row t' k = lookup_row t k) /\
    (forall k r, (k, r) ∈ l -> exists r', lookup_row t' k = Some r' /\ same_row r' r)) as (H1 & H2 & H3).
  { revert t c Hnd H. induction Hkept as [|[k r] l Hr _ IH]; intros t c Hnd H.
    { apply Ok_inj in H. simplify_eq. split_and!; [|done|set_solver]. exists []. split; [constructor|done]. }
    simpl in H. apply bind_Ok in H as ([t1 o] & Hrow & H). cbn beta iota in H.
    apply (upsert_row_Ok _ _ _ _ _ Hr) in Hrow as (Hk & Hother & (r' & Hlr & Hs) & _).
    simpl in Hnd. apply NoDup_cons in Hnd as [Hn Hnd].
    destruct (IH t1 (count_upsert o c) Hnd H) as ((os & Hos & Hc) & Hout & Hin). split_and!.
    - exists (o :: os). split; [|done]. constructor; [done|].
      apply Forall2_same_length_lookup_2; [by eapply Forall2_length|].
      intros i [k' r2] o' Hi Ho'. pose proof (Forall2_lookup_lr _ _ _ _ _ _ Hos Hi Ho') as Hkind.
      eapply upsert_kind_ext; [|exact Hkind]. simpl. apply Hother. intros ->. apply Hn.
      apply list_elem_of_fmap. exists (k, r2). split; [done|]. by eapply list_elem_of_lookup_2.
    - intros k' Hk'. rewrite Hout, Hother; set_solver.
    - intros k' r2 [[= -> ->]|Hin']%elem_of_cons; [|by apply Hin]. exists r'. rewrite Hout; done. }
  split_and!; [done..|]. intros d. by apply upsert_rows_unchanged.
Qed.

Lemma counters_total os c :
  let c' := counters_of os c in
  n_inserted c' + n_updated c' + n_unchanged c' =
  n_inserted c + n_updated c + n_unchanged c + Z.of_nat (length os).
Proof.
  revert c; induction os as [|o os IH]; intros c; cbn zeta in *; simpl; [lia|].
  rewrite IH. destruct o; simpl; lia.
Qed.

(** The insertions are the rows whose key was not there. *)
Lemma counters_inserted t l os c :
  upsert_kinds t l os ->
  n_inserted (counters_of os c) =
  n_inserted c + count_where (fun kr : K * R => bool_decide (lookup_row t kr.1 = None)) l.
Proof.
  intros H. revert c. induction H as [|[k r] o l os Hk _ IH]; intros c; [unfold count_where; simpl; lia|].
  cbn [counters_of fold_left]. fold (counters_of os (count_upsert o c)). rewrite IH.
  unfold count_where. cbn [List.filter fst]. destruct o; simpl in Hk.
  - rewrite bool_decide_eq_true_2 by done. simpl. lia.
  - destruct Hk as (old & -> & _). rewrite bool_decide_eq_false_2 by done. simpl. lia.
  - destruct Hk as (old & -> & _). rewrite bool_decide_eq_false_2 by done. simpl. lia.
Qed.
End upsert.

(** A comparison that does not fail. *)
Lemma any_changed_total equal existing values :
  (forall e v, exists b, equal e v = Ok b) -> exists b, any_changed equal existing values = Ok b.
Proof.
  intros He. revert values; induction existing as [|e existing IH]; intros values; [by exists false|].
  destruct values as [|v values]; [by exists false|]. simpl. destruct (He e v) as [[|] ->]; bind_ok; [apply IH|by exists true].
Qed.

Lemma upsert_rows_total {K R} `{EqDecision K} `{!Table K R} (columns : R -> list column) equal overwrite t c l :
  (forall e v, exists b, equal e v = Ok b) -> exists r, upsert_rows columns equal overwrite t c l = Ok r.
Proof.
  intros He. revert t c; induction l as [|[k r] l IH]; intros t c; [by eexists|]. simpl.
  assert (exists x, upsert_row columns equal overwrite t k r = Ok x) as [[t1 o] ->].
  { unfold upsert_row. destruct (lookup_row t k) as [old|]; [|by eexists].
    destruct (any_changed_total equal (columns old) (columns r) He) as [[|] ->]; bind_ok; by eexists. }
  bind_ok. apply IH.
Qed.
