(* ===== verification/CandleRepository.v ===== *)
(** * The candle repository: [candles/repository.py]

    Candles under the key of their unique constraint: source, symbol, interval and the
    instant they open.  The table is an instance of [Table]. *)

From stdpp Require Import list strings gmap sorting.
From S2P Require Import Prelude PyList PyStr PyDecimal DecimalFacts PyTime PyFloat PyValue Candles Serialization.
From S2P Require Import Repository.
Open Scope Z_scope.

(** ** Rows *)

(** The mapped attributes of [OhlcvCandleRecord] the repository uses. *)
Module OhlcvCandleRecord.
Record t : Type := Mk {
  source : string;
  role : string;
  category : string;
  symbol : string;
  interval : string;
  open_time : datetime;
  close_time : datetime;
  open_price : dec;
  high_price : dec;
  low_price : dec;
  close_price : dec;
  volume : dec;
  turnover : dec }.
End OhlcvCandleRecord.

(** The columns of [uq_ohlcv_source_symbol_interval_open]. *)
Definition CandleKey : Type := string * string * string * Z.

Definition record_key (r : OhlcvCandleRecord.t) : CandleKey :=
  (OhlcvCandleRecord.source r, OhlcvCandleRecord.symbol r, OhlcvCandleRecord.interval r,
   utc (aware_utc (OhlcvCandleRecord.open_time r))).

Record CandleUpsertResult : Type := MkCandleUpsertResult {
  inserted : Z;
  updated : Z;
  unchanged : Z }.
Definition total (r : CandleUpsertResult) : Z := inserted r + updated r + unchanged r.

Definition _aware_utc : datetime -> aware := aware_utc.

Definition _equal_persisted_value (current expected : column) : bool :=
  match current, expected with
  | CTime a, CTime b => aware_eqb (_aware_utc a) (_aware_utc b)
  | _, _ => column_eqb current expected
  end.

(** [_record_values], as the columns of a row in the order of the dictionary. *)
Definition _record_values (r : OhlcvCandleRecord.t) : list column :=
  [CText (OhlcvCandleRecord.role r);
   CText (OhlcvCandleRecord.category r);
   CTime (OhlcvCandleRecord.close_time r);
   CDecimal (OhlcvCandleRecord.open_price r);
   CDecimal (OhlcvCandleRecord.high_price r);
   CDecimal (OhlcvCandleRecord.low_price r);
   CDecimal (OhlcvCandleRecord.close_price r);
   CDecimal (OhlcvCandleRecord.volume r);
   CDecimal (OhlcvCandleRecord.turnover r)].

Definition _record_from_candle (c : OhlcvCandle) : OhlcvCandleRecord.t :=
  OhlcvCandleRecord.Mk (CandleSource.value (source c)) (CandleRole.value (role c)) (category c) (symbol c)
    (CandleInterval.value (interval c)) (AwareDT (open_time c)) (AwareDT (close_time c))
    (open_price c) (high_price c) (low_price c) (close_price c) (volume c) (turnover c).

(** [for name, value in values.items(): setattr(existing, name, value)]: the key columns
    stay. *)
Definition set_values (existing values : OhlcvCandleRecord.t) : OhlcvCandleRecord.t :=
  OhlcvCandleRecord.Mk (OhlcvCandleRecord.source existing) (OhlcvCandleRecord.role values)
    (OhlcvCandleRecord.category values) (OhlcvCandleRecord.symbol existing)
    (OhlcvCandleRecord.interval existing) (OhlcvCandleRecord.open_time existing)
    (OhlcvCandleRecord.close_time values) (OhlcvCandleRecord.open_price values)
    (OhlcvCandleRecord.high_price values) (OhlcvCandleRecord.low_price values)
    (OhlcvCandleRecord.close_price values) (OhlcvCandleRecord.volume values)
    (OhlcvCandleRecord.turnover values).

Definition _candle_from_record (r : OhlcvCandleRecord.t) : res OhlcvCandle :=
  source ← CandleSource_of (OhlcvCandleRecord.source r);
  role ← CandleRole_of (OhlcvCandleRecord.role r);
  interval ← CandleInterval_of (OhlcvCandleRecord.interval r);
  new_OhlcvCandle source role (OhlcvCandleRecord.category r) (OhlcvCandleRecord.symbol r) interval
    (AwareDT (_aware_utc (OhlcvCandleRecord.open_time r)))
    (AwareDT (_aware_utc (OhlcvCandleRecord.close_time r)))
    (Finite (OhlcvCandleRecord.open_price r)) (Finite (OhlcvCandleRecord.high_price r))
    (Finite (OhlcvCandleRecord.low_price r)) (Finite (OhlcvCandleRecord.close_price r))
    (Finite (OhlcvCandleRecord.volume r)) (Finite (OhlcvCandleRecord.turnover r)).

(** ** The repository *)

Section repository.
Context `{!Table CandleKey OhlcvCandleRecord.t}.
Notation candle_table := (table CandleKey OhlcvCandleRecord.t).

Definition candle_row (c : OhlcvCandle) : CandleKey * OhlcvCandleRecord.t :=
  (record_key (_record_from_candle c), _record_from_candle c).

Definition upsert_candle : candle_table -> CandleKey -> OhlcvCandleRecord.t -> res (candle_table * Upsert) :=
  upsert_row _record_values (fun a b => mret (_equal_persisted_value a b)) set_values.

Definition upsert_candles : candle_table -> Counters -> list (CandleKey * OhlcvCandleRecord.t) ->
    res (candle_table * Counters) :=
  upsert_rows _record_values (fun a b => mret (_equal_persisted_value a b)) set_values.

Definition upsert_batch (t : candle_table) (batch : Batch.t) : res (candle_table * CandleUpsertResult) :=
  '(t, c) ← upsert_candles t no_upserts (candle_row <$> Batch.candles batch);
  mret (t, MkCandleUpsertResult (n_inserted c) (n_updated c) (n_unchanged c)).

(** The [where] clause of [list_recent]. *)
Definition in_series (source symbol interval : string) (kr : CandleKey * OhlcvCandleRecord.t) : bool :=
  let '(src, sym, itv, _) := kr.1 in
  bool_decide (src = source) && bool_decide (sym = symbol) && bool_decide (itv = interval).

Definition opened (kr : CandleKey * OhlcvCandleRecord.t) : Z := kr.1.2.

Definition list_recent (t : candle_table) (source : CandleSource.t) (symbol : string)
    (interval : CandleInterval.t) (limit : Z) : res (list OhlcvCandle) :=
  let normalized_symbol := norm_upper symbol in
  raise_if (str_empty normalized_symbol) "symbol is required" ;;
  raise_if ((limit <? 1) || (5000 <? limit)) "limit must be between 1 and 5000" ;;
  let matching := filter (fun kr => in_series (CandleSource.value source) normalized_symbol
                                      (CandleInterval.value interval) kr = true) (rows t) in
  let records := reverse (take (Z.to_nat limit) (py_sorted_rev opened matching)) in
  mapM (fun kr => _candle_from_record kr.2) records.
End repository.

(** ** Facts: rows of the same value *)

(** Columns of one value: texts equal, times one instant, decimals one number. *)
Record record_equiv (r r' : OhlcvCandleRecord.t) : Prop := {
  re_texts : OhlcvCandleRecord.role r = OhlcvCandleRecord.role r' /\
             OhlcvCandleRecord.category r = OhlcvCandleRecord.category r';
  re_key : record_key r = record_key r';
  re_close : utc (aware_utc (OhlcvCandleRecord.close_time r)) = utc (aware_utc (OhlcvCandleRecord.close_time r'));
  re_prices : OhlcvCandleRecord.open_price r ≡ OhlcvCandleRecord.open_price r' /\
              OhlcvCandleRecord.high_price r ≡ OhlcvCandleRecord.high_price r' /\
              OhlcvCandleRecord.low_price r ≡ OhlcvCandleRecord.low_price r' /\
              OhlcvCandleRecord.close_price r ≡ OhlcvCandleRecord.close_price r';
  re_volumes : OhlcvCandleRecord.volume r ≡ OhlcvCandleRecord.volume r' /\
               OhlcvCandleRecord.turnover r ≡ OhlcvCandleRecord.turnover r' }.

#[export] Instance record_equiv_instance : Equiv OhlcvCandleRecord.t := record_equiv.

Lemma equiv_record_refl (r : OhlcvCandleRecord.t) : r ≡ r.
Proof. by constructor. Qed.

(** Candles Python calls equal. *)
#[export] Instance candle_equiv : Equiv OhlcvCandle := fun c c' =>
  _record_from_candle c ≡ _record_from_candle c'.

Lemma same_row_equiv r r' :
  same_row _record_values (fun a b => mret (_equal_persisted_value a b)) r r' ->
  record_key r = record_key r' -> r ≡ r'.
Proof.
  unfold same_row, _record_values. intros H Hk. simpl in H.
  repeat (match type of H with context [if ?b then _ else _] => destruct b eqn:?; [|done] end; simpl in H).
  constructor; try done; rewrite ?bool_decide_eq_true, ?deqb_equiv in *; unfold aware_eqb in *; guards; done.
Qed.

Lemma equiv_same_row r r' :
  r ≡ r' -> same_row _record_values (fun a b => mret (_equal_persisted_value a b)) r r'.
Proof.
  intros [[? ?] _ Hc (Ho & Hh & Hl & Hcl) [Hv Ht]]. unfold same_row, _record_values. simpl.
  rewrite !bool_decide_eq_true_2 by done. apply deqb_equiv in Ho, Hh, Hl, Hcl, Hv, Ht.
  unfold _aware_utc, aware_eqb. rewrite Hc, Z.eqb_refl. simpl. by rewrite Ho, Hh, Hl, Hcl, Hv, Ht.
Qed.

(** A row that equals that of a valid candle is read as an equal candle. *)
Lemma _candle_from_equiv r c :
  candle_wf c -> r ≡ _record_from_candle c ->
  exists c', _candle_from_record r = Ok c' /\ candle_wf c' /\ c' ≡ c.
Proof.
  intros Hwf He. destruct He as [[Hrole Hcat] Hkey Hclose (Ho & Hh & Hl & Hcl) [Hv Ht]].
  unfold record_key in Hkey. simpl in *. injection Hkey as Hsrc Hsym Hint Hopen.
  set (c' := MkCandle (source c) (role c) (OhlcvCandleRecord.category r) (OhlcvCandleRecord.symbol r) (interval c)
    (aware_utc (OhlcvCandleRecord.open_time r)) (aware_utc (OhlcvCandleRecord.close_time r))
    (OhlcvCandleRecord.open_price r) (OhlcvCandleRecord.high_price r) (OhlcvCandleRecord.low_price r)
    (OhlcvCandleRecord.close_price r) (OhlcvCandleRecord.volume r) (OhlcvCandleRecord.turnover r)).
  assert (candle_wf c') as Hwf'.
  { destruct Hwf as [? ? Hd ? ? ? ?]. constructor; simpl; rewrite ?Hcat, ?Hsym, ?Ho, ?Hh, ?Hl, ?Hcl, ?Hv, ?Ht; try done.
    rewrite Hclose, Hopen. apply Hd. }
  exists c'. split_and!; [|done|].
  - unfold _candle_from_record. rewrite Hsrc, Hrole, Hint, CandleSource_of_value, CandleRole_of_value,
      CandleInterval_of_value. exact (candle_wf_remake c' Hwf').
  - constructor; simpl; rewrite ?Hcat, ?Ho, ?Hh, ?Hl, ?Hcl, ?Hv, ?Ht; try done.
    unfold record_key. simpl. congruence.
Qed.

(** ** Facts: the repository *)

Section facts.
Context `{!Table CandleKey OhlcvCandleRecord.t}.
Notation candle_table := (table CandleKey OhlcvCandleRecord.t).
(** The columns of the key lose nothing: they are texts and an instant. *)
Context (keys_kept : forall r : OhlcvCandleRecord.t, record_key (stored r) = record_key r).

(** A candle whose values the columns keep, as the repository compares them. *)
Definition candle_kept (c : OhlcvCandle) : Prop :=
  kept _record_values (fun a b => mret (_equal_persisted_value a b)) (_record_from_candle c).

(** Every row is under the key its columns make. *)
Definition keyed (t : candle_table) : Prop := forall k r, lookup_row t k = Some r -> record_key r = k.

Lemma upsert_candle_keyed t r t' o :
  keyed t -> upsert_candle t (record_key r) r = Ok (t', o) -> keyed t'.
Proof.
  intros Ht H k r' Hk. unfold upsert_candle, upsert_row in H.
  destruct (lookup_row t (record_key r)) as [old|] eqn:El.
  - apply bind_Ok in H as ([|] & _ & H); apply Ok_inj in H; simplify_eq; [|by apply Ht].
    rewrite lookup_write in Hk. case_decide; [|by apply Ht]. subst k. injection Hk as <-.
    rewrite keys_kept. by rewrite <- (Ht _ _ El).
  - apply Ok_inj in H. simplify_eq. rewrite lookup_write in Hk. case_decide; [|by apply Ht]. subst k.
    injection Hk as <-. apply keys_kept.
Qed.

Lemma upsert_candles_keyed t c cs t' c' :
  keyed t -> upsert_candles t c (candle_row <$> cs) = Ok (t', c') -> keyed t'.
Proof.
  revert t c; induction cs as [|x cs IH]; intros t c Ht H; simpl in H.
  - apply Ok_inj in H. by simplify_eq.
  - apply bind_Ok in H as ([t1 o] & Hrow & H). cbn beta iota in H. eapply IH; [|exact H].
    by eapply upsert_candle_keyed.
Qed.

Lemma batch_keys_nodup b : batch_wf b -> NoDup (candle_row <$> Batch.candles b).*1.
Proof.
  intros [_ _ _ Hs]. rewrite <- list_fmap_compose. induction Hs as [|c cs _ IH Hall]; simpl; constructor; [|done].
  intros Hin. apply list_elem_of_fmap in Hin as (c' & Hc' & Hin). rewrite Forall_forall in Hall.
  specialize (Hall c' Hin). unfold opens_before in Hall. simpl in Hc'. unfold record_key in Hc'. simpl in Hc'.
  injection Hc' as _ _ _ He. lia.
Qed.

Lemma upsert_batch_ok t b :
  batch_wf b -> Forall candle_kept (Batch.candles b) -> keyed t ->
  exists t' res, upsert_batch t b = Ok (t', res) /\ keyed t' /\
    inserted res = count_where (fun c => bool_decide (lookup_row t (candle_row c).1 = None)) (Batch.candles b) /\
    total res = Z.of_nat (length (Batch.candles b)) /\
    (forall k, k ∉ (candle_row <$> Batch.candles b).*1 -> lookup_row t' k = lookup_row t k) /\
    (forall c, c ∈ Batch.candles b ->
       exists r, lookup_row t' (candle_row c).1 = Some r /\ r ≡ _record_from_candle c) /\
    upsert_batch t' b = Ok (t', MkCandleUpsertResult 0 0 (Z.of_nat (length (Batch.candles b)))).
Proof.
  intros Hb Hkept Ht. unfold upsert_batch.
  destruct (upsert_rows_total _record_values (fun a b => mret (_equal_persisted_value a b)) set_values t no_upserts
    (candle_row <$> Batch.candles b)) as [[t' c] Hu]; [by eexists|].
  assert (forall old new, _record_values (set_values old new) = _record_values new) as Hcols by done.
  assert (Forall (fun kr => kept _record_values (fun a b => mret (_equal_persisted_value a b)) kr.2)
    (candle_row <$> Batch.candles b)) as Hloss by (by apply Forall_fmap).
  destruct (upsert_rows_exact _ _ _ Hcols _ _ _ _ _ Hloss (batch_keys_nodup b Hb) Hu)
    as ((os & Hos & ->) & Hout & Hin & Hagain).
  assert (keyed t') as Ht' by (by eapply upsert_candles_keyed).
  unfold upsert_candles. rewrite Hu. bind_ok. eexists _, _. split; [done|]. split_and!; [done|..].
  - simpl. rewrite (counters_inserted _ _ t _ _ _ Hos). simpl. by rewrite count_where_fmap.
  - pose proof (counters_total os no_upserts) as Htot. cbn zeta in Htot. unfold total. simpl in *.
    rewrite Htot. apply Forall2_length in Hos. rewrite length_fmap in Hos. lia.
  - done.
  - intros x Hx. destruct (Hin (candle_row x).1 (_record_from_candle x)) as (r & Hr & Hs).
    { apply list_elem_of_fmap. by exists x. }
    exists r. split; [done|]. by apply same_row_equiv, Ht'.
  - rewrite Hagain. bind_ok. by rewrite length_fmap.
Qed.

(** The rows of a batch, latest first. *)
Lemma rows_of_batch t b rs :
  batch_wf b ->
  Forall2 (fun c r => lookup_row t (candle_row c).1 = Some r) (Batch.candles b) rs ->
  (forall k r, lookup_row t k = Some r ->
     in_series (CandleSource.value (Batch.source b)) (Batch.symbol b) (CandleInterval.value (Batch.interval b)) (k, r) = true ->
     k ∈ (candle_row <$> Batch.candles b).*1) ->
  py_sorted_rev opened (filter (fun kr => in_series (CandleSource.value (Batch.source b)) (Batch.symbol b)
    (CandleInterval.value (Batch.interval b)) kr = true) (rows t)) =
  reverse (zip (candle_row <$> Batch.candles b).*1 rs).
Proof.
  intros Hb Hrs Honly. pose proof (batch_keys_nodup b Hb) as Hnd. destruct Hb as [_ [Hsym _] Hm Hss].
  set (keys := (candle_row <$> Batch.candles b).*1) in *.
  assert (length keys = length rs) as Hlen
    by (unfold keys; rewrite !length_fmap; by eapply Forall2_length).
  apply py_sorted_rev_unique.
  - rewrite reverse_Permutation. apply NoDup_Permutation.
    + apply NoDup_filter. apply (NoDup_fmap_1 fst), rows_keys.
    + apply (NoDup_fmap_1 fst). by rewrite fst_zip by lia.
    + intros [k r]. split.
      * intros [Hp Hin]%list_elem_of_filter.
        apply rows_lookup in Hin. specialize (Honly k r Hin Hp). apply list_elem_of_lookup in Honly as [i Hi].
        apply list_elem_of_lookup. exists i. apply lookup_zip_with_Some. exists k.
        unfold keys in Hi. rewrite !list_lookup_fmap in Hi.
        destruct (Batch.candles b !! i) as [c|] eqn:Ec; [|done]. simpl in Hi.
        destruct (Forall2_lookup_l _ _ _ _ _ Hrs Ec) as (r' & Hr' & Hl). exists r'. injection Hi as <-.
        pose proof (eq_trans (eq_sym Hin) Hl) as [= ->].
        split_and!; [done|by unfold keys; rewrite !list_lookup_fmap, Ec|done].
      * intros [i Hi]%list_elem_of_lookup. apply lookup_zip_with_Some in Hi as (k' & r' & [= <- <-] & Hk & Hr).
        unfold keys in Hk. rewrite !list_lookup_fmap in Hk.
        destruct (Batch.candles b !! i) as [c|] eqn:Ec; [|done]. simpl in Hk. injection Hk as <-.
        pose proof (Forall2_lookup_lr _ _ _ _ _ _ Hrs Ec Hr) as Hl. cbn beta in Hl.
        apply list_elem_of_filter. split; [|by apply rows_lookup].
        rewrite Forall_forall in Hm. destruct (Hm c (list_elem_of_lookup_2 _ _ _ Ec)) as (Hs & _ & _ & Hy & Hi & _).
        unfold in_series. simpl. by rewrite Hs, Hy, Hi, !bool_decide_eq_true_2.
  - apply StronglySorted_reverse. clear -Hss Hrs.
    unfold keys. revert rs Hrs. induction Hss as [|c cs _ IH Hall]; intros rs Hrs; [by inversion Hrs; constructor|].
    inversion Hrs as [|? r ? rs' _ Hrs']; subst. simpl. constructor; [by apply IH|].
    apply Forall_forall. intros [k r'] [i Hi]%list_elem_of_lookup.
    apply lookup_zip_with_Some in Hi as (k' & r'' & [= <- <-] & Hk & _). rewrite !list_lookup_fmap in Hk.
    destruct (cs !! i) as [c'|] eqn:Ec; [|done]. injection Hk as <-. rewrite Forall_forall in Hall.
    specialize (Hall c' (list_elem_of_lookup_2 _ _ _ Ec)). unfold opens_before in Hall.
    unfold opened. simpl. unfold py_lt, py_cmp, py_ord_Z. by rewrite (proj2 (Z.compare_lt_iff _ _)).
Qed.

(** Reading the batch back, when the series holds nothing else. *)
Lemma list_recent_batch t b limit :
  batch_wf b -> Forall candle_wf (Batch.candles b) ->
  (forall c, c ∈ Batch.candles b -> exists r, lookup_row t (candle_row c).1 = Some r /\ r ≡ _record_from_candle c) ->
  (forall k r, lookup_row t k = Some r ->
     in_series (CandleSource.value (Batch.source b)) (Batch.symbol b) (CandleInterval.value (Batch.interval b)) (k, r) = true ->
     k ∈ (candle_row <$> Batch.candles b).*1) ->
  1 <= limit <= 5000 ->
  exists cs, list_recent t (Batch.source b) (Batch.symbol b) (Batch.interval b) limit = Ok cs /\
    Forall2 (≡) cs (drop (length (Batch.candles b) - Z.to_nat limit) (Batch.candles b)).
Proof.
  intros Hb Hwf Hin Honly Hl.
  assert (exists rs, Forall2 (fun c r => lookup_row t (candle_row c).1 = Some r /\ r ≡ _record_from_candle c)
    (Batch.candles b) rs) as [rs Hrs] by (by apply Forall2_choose).
  assert (Forall2 (fun c r => lookup_row t (candle_row c).1 = Some r) (Batch.candles b) rs) as Hrs1
    by (eapply Forall2_impl; [exact Hrs|naive_solver]).
  pose proof (rows_of_batch t b rs Hb Hrs1 Honly) as Hrows. destruct Hb as [_ [Hsym Hse] _ _].
  unfold list_recent. rewrite Hsym, Hse, Hrows. cbn [raise_if]. bind_ok.
  rewrite (proj2 (orb_false_iff _ _)) by (split; apply Z.ltb_ge; lia). cbn [raise_if]. bind_ok.
  rewrite reverse_take_reverse.
  assert (exists cs, Forall2 (fun kr c' => _candle_from_record kr.2 = Ok c')
    (zip (candle_row <$> Batch.candles b).*1 rs) cs /\ Forall2 (≡) cs (Batch.candles b)) as (cs & Hcs & Heq).
  { clear -Hrs Hwf. induction Hrs as [|c r l rs [_ Hr] _ IH]; [by exists []; split; constructor|].
    apply Forall_cons in Hwf as [Hc Hwf]. destruct (IH Hwf) as (cs & H1 & H2).
    destruct (_candle_from_equiv r c Hc Hr) as (c' & Hc' & _ & He). exists (c' :: cs). by split; constructor. }
  assert (length (zip (candle_row <$> Batch.candles b).*1 rs) = length (Batch.candles b)) as Hlen.
  { rewrite (Forall2_length _ _ _ Hcs). by eapply Forall2_length. }
  exists (drop (length (Batch.candles b) - Z.to_nat limit) cs). rewrite Hlen. split.
  - apply mapM_Ok. by apply Forall2_drop.
  - by apply Forall2_drop.
Qed.
End facts.

(** ** A concrete batch *)

Lemma sample_batch_wf : batch_wf sample_batch.
Proof.
  assert (exists fa, AwareDT (Aware (minutes 5) 0) = AwareDT fa /\ sample_batch =
    Batch.MkBatch CandleSource.BYBIT CandleRole.STRUCTURE_DATA (norm_lower "linear")
      (norm_upper "BTCUSDT") CandleInterval.M5 fa [sample_candle] /\ batch_wf sample_batch)
    as (fa & _ & _ & Hwf); [|exact Hwf].
  apply new_CandleBatch_Ok. vm_compute. reflexivity.
Qed.

Lemma sample_batch_candles : Forall candle_wf (Batch.candles sample_batch).
Proof.
  constructor; [|constructor].
  apply (new_OhlcvCandle_wf CandleSource.BYBIT CandleRole.STRUCTURE_DATA "linear" "BTCUSDT" CandleInterval.M5
    (AwareDT (Aware 0 0)) (AwareDT (Aware (minutes 5) 0)) (Finite (dint 10)) (Finite (dint 12))
    (Finite (dint 9)) (Finite (dint 11)) (Finite (dint 100)) (Finite (dint 1000))). vm_compute. reflexivity.
Qed.
