(* ===== verification/StructureRepository.v ===== *)
(** * The structure repository: [structure/htf_repository.py]

    Support zones and structure events under their identifiers.  Decimals are compared
    with a tolerance, because the columns have a scale. *)

From stdpp Require Import list strings gmap sorting.
From Stdlib Require Import QArith Qabs Lqa.
From S2P Require Import Prelude PyList PyStr PyDecimal DecimalFacts PyParse PyTime IsoTime PyFloat PyValue Candles.
From S2P Require Import Serialization HtfModels Repository.
Open Scope Z_scope.

(** ** Rows *)

Module SupportZoneRecord.
Record t : Type := Mk {
  zone_id : string;
  source : string;
  symbol : string;
  interval : string;
  zone_low : dec;
  zone_high : dec;
  state : string;
  created_at_evidence : datetime;
  confirmed_at : datetime;
  last_test_at : datetime;
  touch_count : Z;
  rejection_count : Z;
  strength_score : dec;
  evidence_open_times : list string;
  reasons : list string }.
End SupportZoneRecord.

Module StructureEventRecord.
Record t : Type := Mk {
  event_id : string;
  zone_id : string;
  source : string;
  symbol : string;
  interval : string;
  state : string;
  observed_at : datetime;
  candle_open_time : datetime;
  close_price : dec;
  zone_low : dec;
  zone_high : dec;
  distance_bps : dec;
  body_fraction : dec;
  volume_ratio : option dec;
  invalidates_event_id : option string;
  reasons : list string }.
End StructureEventRecord.

Record StructureUpsertResult : Type := MkStructureUpsertResult {
  zones_inserted : Z;
  zones_updated : Z;
  zones_unchanged : Z;
  events_inserted : Z;
  events_updated : Z;
  events_unchanged : Z }.

Definition _aware_utc : datetime -> aware := aware_utc.

(** ** Comparison *)

(** [Decimal(str(value))] of an attribute, when it is a finite decimal. *)
Definition decimal_of_column (c : column) : option dec :=
  match c with
  | CDecimal d => Some d
  | CInt z => Some (dint z)
  | CText s => match decimal_of_str s with Ok (Finite d) => Some d | _ => None end
  | CNull | CTime _ | CTexts _ => None
  end.

(** [abs(left - right) <= max(abs(right) * Decimal("1e-15"), Decimal("1e-18"))] *)
Definition within_tolerance (lhs rhs : dec) : bool :=
  (dabs (dsub lhs rhs) <=? py_max2 (dmul (dabs rhs) (Dec 1 (-15))) (Dec 1 (-18)))%dec.

Definition _decimal_equal (current expected : column) : bool :=
  match decimal_of_column current, decimal_of_column expected with
  | Some lhs, Some rhs => within_tolerance lhs rhs
  | _, _ => false
  end.

(** The attributes hold no dictionary; the lists hold texts. *)
Definition _equal (current expected : column) : bool :=
  match current, expected with
  | CTime a, CTime b => aware_eqb (_aware_utc a) (_aware_utc b)
  | CDecimal _, _ | _, CDecimal _ => _decimal_equal current expected
  | _, _ => column_eqb current expected
  end.

(** ** Zones *)

(** [_zone_values], as the columns of a row in the order of the dictionary. *)
Definition _zone_values (r : SupportZoneRecord.t) : list column :=
  [CText (SupportZoneRecord.source r);
   CText (SupportZoneRecord.symbol r);
   CText (SupportZoneRecord.interval r);
   CDecimal (SupportZoneRecord.zone_low r);
   CDecimal (SupportZoneRecord.zone_high r);
   CText (SupportZoneRecord.state r);
   CTime (SupportZoneRecord.created_at_evidence r);
   CTime (SupportZoneRecord.confirmed_at r);
   CTime (SupportZoneRecord.last_test_at r);
   CInt (SupportZoneRecord.touch_count r);
   CInt (SupportZoneRecord.rejection_count r);
   CDecimal (SupportZoneRecord.strength_score r);
   CTexts (SupportZoneRecord.evidence_open_times r);
   CTexts (SupportZoneRecord.reasons r)].

Definition _zone_record (z : SupportZone.t) : SupportZoneRecord.t :=
  SupportZoneRecord.Mk (SupportZone.zone_id z) (CandleSource.value (SupportZone.source z)) (SupportZone.symbol z)
    (CandleInterval.value (SupportZone.interval z)) (SupportZone.low z) (SupportZone.high z)
    (SupportZoneState.value (SupportZone.state z)) (AwareDT (SupportZone.created_at z))
    (AwareDT (SupportZone.confirmed_at z)) (AwareDT (SupportZone.last_test_at z)) (SupportZone.touch_count z)
    (SupportZone.rejection_count z) (SupportZone.strength_score z)
    (isoformat <$> SupportZone.evidence_open_times z) (SupportZone.reasons z).

(** [setattr] of every value: all the columns but the identifier, which is the same. *)
Definition set_zone (existing values : SupportZoneRecord.t) : SupportZoneRecord.t := values.

Definition SupportZoneState_of (s : string) : res SupportZoneState.t :=
  enum_of "SupportZoneState" SupportZoneState.members SupportZoneState.value s.
Definition StructureEventState_of (s : string) : res StructureEventState.t :=
  enum_of "StructureEventState" StructureEventState.members StructureEventState.value s.

Definition _zone_from_record `{FromIso} (r : SupportZoneRecord.t) : res SupportZone.t :=
  source ← CandleSource_of (SupportZoneRecord.source r);
  interval ← CandleInterval_of (SupportZoneRecord.interval r);
  evidence ← mapM fromisoformat (SupportZoneRecord.evidence_open_times r);
  state ← SupportZoneState_of (SupportZoneRecord.state r);
  SupportZone.new (SupportZoneRecord.zone_id r) source (SupportZoneRecord.symbol r) interval
    (Finite (SupportZoneRecord.zone_low r)) (Finite (SupportZoneRecord.zone_high r))
    (AwareDT (_aware_utc (SupportZoneRecord.created_at_evidence r)))
    (AwareDT (_aware_utc (SupportZoneRecord.confirmed_at r)))
    (AwareDT (_aware_utc (SupportZoneRecord.last_test_at r))) (SupportZoneRecord.touch_count r)
    (SupportZoneRecord.rejection_count r) (Finite (SupportZoneRecord.strength_score r)) evidence state
    (SupportZoneRecord.reasons r).

(** ** Events *)

Definition _event_values (r : StructureEventRecord.t) : list column :=
  [CText (StructureEventRecord.zone_id r);
   CText (StructureEventRecord.source r);
   CText (StructureEventRecord.symbol r);
   CText (StructureEventRecord.interval r);
   CText (StructureEventRecord.state r);
   CTime (StructureEventRecord.observed_at r);
   CTime (StructureEventRecord.candle_open_time r);
   CDecimal (StructureEventRecord.close_price r);
   CDecimal (StructureEventRecord.zone_low r);
   CDecimal (StructureEventRecord.zone_high r);
   CDecimal (StructureEventRecord.distance_bps r);
   CDecimal (StructureEventRecord.body_fraction r);
   opt_column CDecimal (StructureEventRecord.volume_ratio r);
   opt_column CText (StructureEventRecord.invalidates_event_id r);
   CTexts (StructureEventRecord.reasons r)].

Definition _event_record (e : StructureEvent.t) : StructureEventRecord.t :=
  StructureEventRecord.Mk (StructureEvent.event_id e) (StructureEvent.zone_id e)
    (CandleSource.value (StructureEvent.source e)) (StructureEvent.symbol e)
    (CandleInterval.value (StructureEvent.interval e)) (StructureEventState.value (StructureEvent.state e))
    (AwareDT (StructureEvent.observed_at e)) (AwareDT (StructureEvent.candle_open_time e))
    (StructureEvent.close_price e) (StructureEvent.zone_low e) (StructureEvent.zone_high e)
    (StructureEvent.distance_bps e) (StructureEvent.body_fraction e) (StructureEvent.volume_ratio e)
    (StructureEvent.invalidates_event_id e) (StructureEvent.reasons e).

Definition set_event (existing values : StructureEventRecord.t) : StructureEventRecord.t := values.

Definition _event_from_record (r : StructureEventRecord.t) : res StructureEvent.t :=
  source ← CandleSource_of (StructureEventRecord.source r);
  interval ← CandleInterval_of (StructureEventRecord.interval r);
  state ← StructureEventState_of (StructureEventRecord.state r);
  StructureEvent.new (StructureEventRecord.event_id r) (StructureEventRecord.zone_id r) source
    (StructureEventRecord.symbol r) interval state
    (AwareDT (_aware_utc (StructureEventRecord.observed_at r)))
    (AwareDT (_aware_utc (StructureEventRecord.candle_open_time r)))
    (Finite (StructureEventRecord.close_price r)) (Finite (StructureEventRecord.zone_low r))
    (Finite (StructureEventRecord.zone_high r)) (Finite (StructureEventRecord.distance_bps r))
    (Finite (StructureEventRecord.body_fraction r)) (Finite <$> StructureEventRecord.volume_ratio r)
    (StructureEventRecord.invalidates_event_id r) (StructureEventRecord.reasons r).

(** ** The repository *)

Section repository.
Context `{FromIso}.
Context `{!Table string SupportZoneRecord.t} `{!Table string StructureEventRecord.t}.
Notation zone_table := (table string SupportZoneRecord.t).
Notation event_table := (table string StructureEventRecord.t).

Definition zone_row (z : SupportZone.t) : string * SupportZoneRecord.t := (SupportZone.zone_id z, _zone_record z).
Definition event_row (e : StructureEvent.t) : string * StructureEventRecord.t :=
  (StructureEvent.event_id e, _event_record e).

Definition equal_columns (a b : column) : res bool := mret (_equal a b).

Definition upsert_zones : zone_table -> Counters -> list (string * SupportZoneRecord.t) -> res (zone_table * Counters) :=
  upsert_rows _zone_values equal_columns set_zone.
Definition upsert_events :
    event_table -> Counters -> list (string * StructureEventRecord.t) -> res (event_table * Counters) :=
  upsert_rows _event_values equal_columns set_event.

(** Zones first, then events. *)
Definition upsert_analysis (db : zone_table * event_table) (analysis : HtfStructureAnalysis.t) :
    res ((zone_table * event_table) * StructureUpsertResult) :=
  '(zones, z) ← upsert_zones db.1 no_upserts (zone_row <$> HtfStructureAnalysis.zones analysis);
  '(events, e) ← upsert_events db.2 no_upserts (event_row <$> HtfStructureAnalysis.events analysis);
  mret ((zones, events),
        MkStructureUpsertResult (n_inserted z) (n_updated z) (n_unchanged z)
          (n_inserted e) (n_updated e) (n_unchanged e)).

(** The order of [latest_event] and of [latest_zone]. *)
Definition event_order (kr : string * StructureEventRecord.t) : Z * string :=
  (utc (_aware_utc (StructureEventRecord.observed_at kr.2)), StructureEventRecord.event_id kr.2).
Definition zone_order (kr : string * SupportZoneRecord.t) : Z * dec :=
  (utc (_aware_utc (SupportZoneRecord.confirmed_at kr.2)), SupportZoneRecord.strength_score kr.2).

Definition event_of_series (source symbol interval : string) (r : StructureEventRecord.t) : bool :=
  bool_decide (StructureEventRecord.source r = source) && bool_decide (StructureEventRecord.symbol r = symbol) &&
  bool_decide (StructureEventRecord.interval r = interval).
Definition zone_of_series (source symbol interval : string) (r : SupportZoneRecord.t) : bool :=
  bool_decide (SupportZoneRecord.source r = source) && bool_decide (SupportZoneRecord.symbol r = symbol) &&
  bool_decide (SupportZoneRecord.interval r = interval).

(** [None if record is None else read(record)] *)
Definition read_first {A B} (read : A -> res B) (l : list (string * A)) : res (option B) :=
  match l with [] => mret None | kr :: _ => Some <$> read kr.2 end.

Definition latest_event (t : event_table) (source : CandleSource.t) (symbol : string)
    (interval : CandleInterval.t) : res (option StructureEvent.t) :=
  let normalized_symbol := norm_upper symbol in
  raise_if (str_empty normalized_symbol) "symbol is required" ;;
  raise_if (negb (is_htf interval)) "latest structure event requires Daily or 4H" ;;
  read_first _event_from_record
    (py_sorted_rev event_order (filter (fun kr =>
      event_of_series (CandleSource.value source) normalized_symbol (CandleInterval.value interval) kr.2 = true)
      (rows t))).

Definition latest_zone (t : zone_table) (source : CandleSource.t) (symbol : string)
    (interval : CandleInterval.t) : res (option SupportZone.t) :=
  let normalized_symbol := norm_upper symbol in
  raise_if (str_empty normalized_symbol) "symbol is required" ;;
  read_first _zone_from_record
    (py_sorted_rev zone_order (filter (fun kr =>
      zone_of_series (CandleSource.value source) normalized_symbol (CandleInterval.value interval) kr.2 = true)
      (rows t))).
End repository.

(** ** Facts: comparison *)

(** Decimals of one value are within the tolerance. *)
Lemma within_tolerance_equiv (a b : dec) : a ≡ b -> within_tolerance a b = true.
Proof.
  unfold equiv, dec_equiv. intros Hab. unfold within_tolerance. apply dle_val.
  assert (dval (dsub a b) == 0)%Q as Hz.
  { rewrite <- d0_val. eapply rounded_exact; [apply dsub_rounded|apply d0_fits|]. rewrite d0_val, Hab. ring. }
  assert (dval (dabs (dsub a b)) == 0)%Q as ->.
  { rewrite <- d0_val. eapply rounded_exact; [apply dabs_rounded|apply d0_fits|]. by rewrite d0_val, Hz. }
  destruct (py_le_max2 (dmul (dabs b) (Dec 1 (-15))) (Dec 1 (-18))) as [_ Hm]. rewrite dle_val in Hm.
  eapply Qle_trans; [|exact Hm]. discriminate.
Qed.

(** Columns of one value: the offset of a time and the exponent of a decimal do not count. *)
Inductive column_equiv : Equiv column :=
| ce_null : column_equiv CNull CNull
| ce_text s : column_equiv (CText s) (CText s)
| ce_int z : column_equiv (CInt z) (CInt z)
| ce_decimal c d : c ≡ d -> column_equiv (CDecimal c) (CDecimal d)
| ce_time x y : utc (aware_utc x) = utc (aware_utc y) -> column_equiv (CTime x) (CTime y)
| ce_texts l : column_equiv (CTexts l) (CTexts l).
#[export] Existing Instance column_equiv.

Lemma _equal_equiv a b : a ≡ b -> _equal a b = true.
Proof.
  intros [|s|z|c d Hcd|x y Hxy|l]; simpl; try done; try (by apply bool_decide_eq_true_2).
  - apply Z.eqb_refl.
  - by apply within_tolerance_equiv.
  - by apply Z.eqb_eq.
Qed.

Lemma same_row_columns {R} (columns : R -> list column) r r' :
  Forall2 (≡) (columns r) (columns r') -> same_row columns (fun a b => mret (_equal a b)) r r'.
Proof.
  unfold same_row. induction 1 as [|a b l k Hab _ IH]; [done|]. simpl. by rewrite (_equal_equiv a b Hab).
Qed.

(** ** Facts: reading back *)

(** The zone as it is read: its times are shown in UTC. *)
Definition utc_zone (z : SupportZone.t) : SupportZone.t :=
  SupportZone.Mk (SupportZone.zone_id z) (SupportZone.source z) (SupportZone.symbol z) (SupportZone.interval z)
    (SupportZone.low z) (SupportZone.high z) (Aware (utc (SupportZone.created_at z)) 0)
    (Aware (utc (SupportZone.confirmed_at z)) 0) (Aware (utc (SupportZone.last_test_at z)) 0)
    (SupportZone.touch_count z) (SupportZone.rejection_count z) (SupportZone.strength_score z)
    (SupportZone.evidence_open_times z) (SupportZone.state z) (SupportZone.reasons z).

Lemma SupportZoneState_of_value s : SupportZoneState_of (SupportZoneState.value s) = Ok s.
Proof. by destruct s. Qed.
Lemma StructureEventState_of_value s : StructureEventState_of (StructureEventState.value s) = Ok s.
Proof. by destruct s. Qed.

Lemma new_zone_reasons zid src sym itv lo hi ca co lt tc rc st ev s rs z :
  SupportZone.new zid src sym itv lo hi ca co lt tc rc st ev s rs = Ok z -> SupportZone.reasons z = rs.
Proof. unfold SupportZone.new. intros H. res_inv. by subst. Qed.

Lemma new_zone_of_wf z : zone_wf z ->
  SupportZone.new (SupportZone.zone_id z) (SupportZone.source z) (SupportZone.symbol z) (SupportZone.interval z)
    (Finite (SupportZone.low z)) (Finite (SupportZone.high z)) (AwareDT (SupportZone.created_at z))
    (AwareDT (SupportZone.confirmed_at z)) (AwareDT (SupportZone.last_test_at z)) (SupportZone.touch_count z)
    (SupportZone.rejection_count z) (Finite (SupportZone.strength_score z))
    (AwareDT <$> SupportZone.evidence_open_times z) (SupportZone.state z) (SupportZone.reasons z) = Ok z.
Proof.
  intros [Hid Hclean [Hs He] Hi Hlo Hr [Ht1 Ht2] [Hc Hc'] [Hst Hst'] [Hl Hss]].
  destruct (new_SupportZone_total (SupportZone.zone_id z) (SupportZone.source z) (SupportZone.symbol z)
    (SupportZone.interval z) (SupportZone.low z) (SupportZone.high z) (SupportZone.created_at z)
    (SupportZone.confirmed_at z) (SupportZone.last_test_at z) (SupportZone.touch_count z)
    (SupportZone.rejection_count z) (SupportZone.strength_score z) (SupportZone.evidence_open_times z)
    (SupportZone.state z) (SupportZone.reasons z)) as [z' Hz']; rewrite ?Hclean, ?Hs; try done.
  rewrite Hz'. f_equal. pose proof (new_zone_reasons _ _ _ _ _ _ _ _ _ _ _ _ _ _ _ _ Hz') as Hrs.
  apply new_SupportZone_Ok in Hz' as (_ & H1 & H2 & H3 & [= H4] & [= H5] & [= H6] & [= H7] & [= H8] & H9 & H10 & [= H11] & H12 & H13 & H14).
  apply (inj (fmap AwareDT)) in H12.
  destruct z, z'; simpl in *; subst. by rewrite Hs, Hclean.
Qed.

(** A stored zone is read back, evidence offsets included. *)
Lemma _zone_from_to `{FromIso} z :
  zone_wf z -> Forall representable (SupportZone.evidence_open_times z) ->
  _zone_from_record (_zone_record z) = Ok (utc_zone z).
Proof.
  intros Hwf Hev. unfold _zone_from_record, _zone_record.
  cbn [SupportZoneRecord.source SupportZoneRecord.interval SupportZoneRecord.evidence_open_times
    SupportZoneRecord.state].
  rewrite CandleSource_of_value, CandleInterval_of_value. bind_ok.
  assert (mapM fromisoformat (isoformat <$> SupportZone.evidence_open_times z) =
    Ok (AwareDT <$> SupportZone.evidence_open_times z)) as ->.
  { apply mapM_Ok, Forall2_fmap_2, Forall_Forall2_diag. eapply Forall_impl; [exact Hev|].
    intros a Ha. by apply fromisoformat_isoformat. }
  bind_ok. rewrite SupportZoneState_of_value. bind_ok. apply (new_zone_of_wf (utc_zone z)).
  by destruct Hwf; constructor.
Qed.

(** The event as it is read. *)
Definition utc_event (e : StructureEvent.t) : StructureEvent.t :=
  StructureEvent.Mk (StructureEvent.event_id e) (StructureEvent.zone_id e) (StructureEvent.source e)
    (StructureEvent.symbol e) (StructureEvent.interval e) (StructureEvent.state e)
    (Aware (utc (StructureEvent.observed_at e)) 0) (Aware (utc (StructureEvent.candle_open_time e)) 0)
    (StructureEvent.close_price e) (StructureEvent.zone_low e) (StructureEvent.zone_high e)
    (StructureEvent.distance_bps e) (StructureEvent.body_fraction e) (StructureEvent.volume_ratio e)
    (StructureEvent.invalidates_event_id e) (StructureEvent.reasons e).

Lemma htf_decimal_pass v name minimum maximum :
  (forall m, minimum = Some m -> (m <=? v)%dec = true) -> (forall m, maximum = Some m -> (v <=? m)%dec = true) ->
  _decimal (Finite v) name minimum maximum = Ok v.
Proof. intros. by apply htf_decimal_Ok. Qed.

(** The identifiers of an event are stripped ([event_wf] only says they are not empty). *)
Definition event_clean (e : StructureEvent.t) : Prop :=
  str_strip (StructureEvent.event_id e) = StructureEvent.event_id e /\
  str_strip (StructureEvent.zone_id e) = StructureEvent.zone_id e.

Lemma new_event_of_wf e : event_wf e -> event_clean e ->
  StructureEvent.new (StructureEvent.event_id e) (StructureEvent.zone_id e) (StructureEvent.source e)
    (StructureEvent.symbol e) (StructureEvent.interval e) (StructureEvent.state e)
    (AwareDT (StructureEvent.observed_at e)) (AwareDT (StructureEvent.candle_open_time e))
    (Finite (StructureEvent.close_price e)) (Finite (StructureEvent.zone_low e))
    (Finite (StructureEvent.zone_high e)) (Finite (StructureEvent.distance_bps e))
    (Finite (StructureEvent.body_fraction e)) (Finite <$> StructureEvent.volume_ratio e)
    (StructureEvent.invalidates_event_id e) (StructureEvent.reasons e) = Ok e.
Proof.
  intros [[Hi1 Hi2] [Hs He] Hitv Ht Hc [Hz1 Hz2] Hd [Hb1 Hb2] Hv] [Hc1 Hc2].
  unfold StructureEvent.new. rewrite Hc1, Hc2, Hs, Hi1, Hi2, He. cbn [orb raise_if]. bind_ok.
  rewrite (proj2 (_htf_interval_Ok (StructureEvent.interval e) _)) by done. bind_ok.
  unfold _aware, require_aware. bind_ok.
  rewrite guard_pass by (time_to_Z; lia).
  rewrite !htf_decimal_pass by (intros m [= <-]; first [done|dec_order]).
  bind_ok. rewrite guard_pass by dec_order.
  assert (match Finite <$> StructureEvent.volume_ratio e with
          | None => mret None
          | Some v => Some <$> _decimal v "volume_ratio" (Some d0) None
          end = Ok (StructureEvent.volume_ratio e)) as ->.
  { destruct (StructureEvent.volume_ratio e) as [v|]; [|done]. cbn [fmap option_fmap option_map].
    rewrite htf_decimal_pass; [done|intros m [= <-]; by apply Hv|done]. }
  bind_ok. by destruct e.
Qed.

Lemma _event_from_to e :
  event_wf e -> event_clean e -> _event_from_record (_event_record e) = Ok (utc_event e).
Proof.
  intros Hwf Hc. unfold _event_from_record, _event_record.
  cbn [StructureEventRecord.source StructureEventRecord.interval StructureEventRecord.state].
  rewrite CandleSource_of_value, CandleInterval_of_value, StructureEventState_of_value. bind_ok.
  apply (new_event_of_wf (utc_event e)); [|done]. by destruct Hwf; constructor.
Qed.

(** ** Facts: rows and records of one value *)

(** Zones and events that are equal but for the exponents of their numbers. *)
#[export] Instance zone_equiv : Equiv SupportZone.t := fun z z' =>
  z = SupportZone.Mk (SupportZone.zone_id z') (SupportZone.source z') (SupportZone.symbol z') (SupportZone.interval z')
    (SupportZone.low z) (SupportZone.high z) (SupportZone.created_at z') (SupportZone.confirmed_at z')
    (SupportZone.last_test_at z') (SupportZone.touch_count z') (SupportZone.rejection_count z')
    (SupportZone.strength_score z) (SupportZone.evidence_open_times z') (SupportZone.state z') (SupportZone.reasons z') /\
  SupportZone.low z ≡ SupportZone.low z' /\ SupportZone.high z ≡ SupportZone.high z' /\
  SupportZone.strength_score z ≡ SupportZone.strength_score z'.

#[export] Instance event_equiv : Equiv StructureEvent.t := fun e e' =>
  e = StructureEvent.Mk (StructureEvent.event_id e') (StructureEvent.zone_id e') (StructureEvent.source e')
    (StructureEvent.symbol e') (StructureEvent.interval e') (StructureEvent.state e') (StructureEvent.observed_at e')
    (StructureEvent.candle_open_time e') (StructureEvent.close_price e) (StructureEvent.zone_low e)
    (StructureEvent.zone_high e) (StructureEvent.distance_bps e) (StructureEvent.body_fraction e)
    (StructureEvent.volume_ratio e) (StructureEvent.invalidates_event_id e') (StructureEvent.reasons e') /\
  StructureEvent.close_price e ≡ StructureEvent.close_price e' /\ StructureEvent.zone_low e ≡ StructureEvent.zone_low e' /\
  StructureEvent.zone_high e ≡ StructureEvent.zone_high e' /\ StructureEvent.distance_bps e ≡ StructureEvent.distance_bps e' /\
  StructureEvent.body_fraction e ≡ StructureEvent.body_fraction e' /\
  option_Forall2 (≡) (StructureEvent.volume_ratio e) (StructureEvent.volume_ratio e').

(** Rows under one identifier whose columns hold the same values. *)
#[export] Instance zone_row_equiv : Equiv SupportZoneRecord.t := fun r r' =>
  SupportZoneRecord.zone_id r = SupportZoneRecord.zone_id r' /\ Forall2 (≡) (_zone_values r) (_zone_values r').
#[export] Instance event_row_equiv : Equiv StructureEventRecord.t := fun r r' =>
  StructureEventRecord.event_id r = StructureEventRecord.event_id r' /\ Forall2 (≡) (_event_values r) (_event_values r').

Lemma zone_wf_equiv (z z' : SupportZone.t) : z ≡ z' -> zone_wf z' -> zone_wf z.
Proof.
  intros (E & Hl & Hh & Hs) [Hid Hclean Hsym Hi Hlo Hr Ht Hc Hst Hev]. rewrite E.
  constructor; cbn [SupportZone.zone_id SupportZone.symbol SupportZone.interval SupportZone.low SupportZone.high
    SupportZone.created_at SupportZone.confirmed_at SupportZone.last_test_at SupportZone.touch_count
    SupportZone.rejection_count SupportZone.strength_score SupportZone.evidence_open_times]; rewrite ?Hl, ?Hh, ?Hs; done.
Qed.

Lemma event_wf_equiv (e e' : StructureEvent.t) : e ≡ e' -> event_wf e' -> event_wf e.
Proof.
  intros (E & Hc & Hl & Hh & Hd & Hb & Hv) [Hids Hsym Hi Ht Hcl Hz Hdi Hbo Hvo]. rewrite E.
  constructor; cbn [StructureEvent.event_id StructureEvent.zone_id StructureEvent.symbol StructureEvent.interval
    StructureEvent.observed_at StructureEvent.candle_open_time StructureEvent.close_price StructureEvent.zone_low
    StructureEvent.zone_high StructureEvent.distance_bps StructureEvent.body_fraction StructureEvent.volume_ratio];
    rewrite ?Hc, ?Hl, ?Hh, ?Hd, ?Hb; try done.
  intros v Ev. rewrite Ev in Hv. inversion Hv as [? v' Hvv E1 E2|]; subst. rewrite Hvv. by apply Hvo.
Qed.

(** The columns of rows of one value, one by one. *)
Lemma text_equiv s t : CText s ≡ CText t -> s = t.
Proof. by inversion 1. Qed.
Lemma int_equiv y z : CInt y ≡ CInt z -> y = z.
Proof. by inversion 1. Qed.
Lemma decimal_equiv c d : CDecimal c ≡ CDecimal d -> c ≡ d.
Proof. by inversion 1. Qed.
Lemma time_equiv x y : CTime x ≡ CTime y -> utc (aware_utc x) = utc (aware_utc y).
Proof. by inversion 1. Qed.
Lemma texts_equiv l k : CTexts l ≡ CTexts k -> l = k.
Proof. by inversion 1. Qed.
Lemma opt_decimal_equiv c d : opt_column CDecimal c ≡ opt_column CDecimal d -> option_Forall2 (≡) c d.
Proof. destruct c, d; inversion 1; by constructor. Qed.
Lemma opt_text_equiv c d : opt_column CText c ≡ opt_column CText d -> c = d.
Proof. destruct c, d; inversion 1; by subst. Qed.

Ltac column_equivs H :=
  repeat (apply Forall2_cons in H as [? H]); clear H;
  repeat match goal with
  | H : CText _ ≡ CText _ |- _ => apply text_equiv in H
  | H : CInt _ ≡ CInt _ |- _ => apply int_equiv in H
  | H : CDecimal _ ≡ CDecimal _ |- _ => apply decimal_equiv in H
  | H : CTime _ ≡ CTime _ |- _ => apply time_equiv in H
  | H : CTexts _ ≡ CTexts _ |- _ => apply texts_equiv in H
  | H : opt_column CDecimal _ ≡ opt_column CDecimal _ |- _ => apply opt_decimal_equiv in H
  | H : opt_column CText _ ≡ opt_column CText _ |- _ => apply opt_text_equiv in H
  end.

Lemma aware_utc_in_utc t a : utc (aware_utc t) = utc a -> aware_utc t = Aware (utc a) 0.
Proof. destruct t; simpl; by intros ->. Qed.

(** A row of the value of a valid zone is read as that zone, its times in UTC. *)
Lemma _zone_from_equiv `{FromIso} r z :
  zone_wf z -> Forall representable (SupportZone.evidence_open_times z) -> r ≡ _zone_record z ->
  exists z', _zone_from_record r = Ok z' /\ z' ≡ utc_zone z.
Proof.
  intros Hwf Hev [Hid Hr]. unfold _zone_values, _zone_record in Hr.
  cbn [SupportZoneRecord.source SupportZoneRecord.symbol SupportZoneRecord.interval SupportZoneRecord.zone_low
    SupportZoneRecord.zone_high SupportZoneRecord.state SupportZoneRecord.created_at_evidence
    SupportZoneRecord.confirmed_at SupportZoneRecord.last_test_at SupportZoneRecord.touch_count
    SupportZoneRecord.rejection_count SupportZoneRecord.strength_score SupportZoneRecord.evidence_open_times
    SupportZoneRecord.reasons _zone_record SupportZoneRecord.zone_id] in *. column_equivs Hr.
  set (z' := SupportZone.Mk (SupportZone.zone_id z) (SupportZone.source z) (SupportZone.symbol z) (SupportZone.interval z)
    (SupportZoneRecord.zone_low r) (SupportZoneRecord.zone_high r) (Aware (utc (SupportZone.created_at z)) 0)
    (Aware (utc (SupportZone.confirmed_at z)) 0) (Aware (utc (SupportZone.last_test_at z)) 0)
    (SupportZone.touch_count z) (SupportZone.rejection_count z) (SupportZoneRecord.strength_score r)
    (SupportZone.evidence_open_times z) (SupportZone.state z) (SupportZone.reasons z)).
  assert (z' ≡ utc_zone z) as He by (by split_and!).
  assert (zone_wf (utc_zone z)) as Hwu by (by destruct Hwf; constructor).
  exists z'. split; [|exact He]. apply (zone_wf_equiv _ _ He) in Hwu.
  assert (mapM fromisoformat (isoformat <$> SupportZone.evidence_open_times z) =
    Ok (AwareDT <$> SupportZone.evidence_open_times z)) as Hiso.
  { apply mapM_Ok, Forall2_fmap_2, Forall_Forall2_diag. eapply Forall_impl; [exact Hev|].
    intros a Ha. by apply fromisoformat_isoformat. }
  unfold _zone_from_record, _aware_utc.
  repeat match goal with
  | E : utc (aware_utc _) = utc (aware_utc (AwareDT _)) |- _ => apply aware_utc_in_utc in E; cbn [aware_utc utc] in E; rewrite E
  | E : ?f r = _ |- _ => rewrite E
  end.
  rewrite CandleSource_of_value, CandleInterval_of_value, Hiso, SupportZoneState_of_value. bind_ok.
  exact (new_zone_of_wf z' Hwu).
Qed.

(** And a row of the value of a valid event as that event. *)
Lemma _event_from_equiv r e :
  event_wf e -> event_clean e -> r ≡ _event_record e ->
  exists e', _event_from_record r = Ok e' /\ e' ≡ utc_event e.
Proof.
  intros Hwf Hc [Hid Hr]. unfold _event_values, _event_record in Hr.
  cbn [StructureEventRecord.event_id StructureEventRecord.zone_id StructureEventRecord.source StructureEventRecord.symbol
    StructureEventRecord.interval StructureEventRecord.state StructureEventRecord.observed_at
    StructureEventRecord.candle_open_time StructureEventRecord.close_price StructureEventRecord.zone_low
    StructureEventRecord.zone_high StructureEventRecord.distance_bps StructureEventRecord.body_fraction
    StructureEventRecord.volume_ratio StructureEventRecord.invalidates_event_id StructureEventRecord.reasons
    _event_record] in *. column_equivs Hr.
  set (e' := StructureEvent.Mk (StructureEvent.event_id e) (StructureEvent.zone_id e) (StructureEvent.source e)
    (StructureEvent.symbol e) (StructureEvent.interval e) (StructureEvent.state e)
    (Aware (utc (StructureEvent.observed_at e)) 0) (Aware (utc (StructureEvent.candle_open_time e)) 0)
    (StructureEventRecord.close_price r) (StructureEventRecord.zone_low r) (StructureEventRecord.zone_high r)
    (StructureEventRecord.distance_bps r) (StructureEventRecord.body_fraction r) (StructureEventRecord.volume_ratio r)
    (StructureEvent.invalidates_event_id e) (StructureEvent.reasons e)).
  assert (e' ≡ utc_event e) as He by (by split_and!).
  assert (event_wf (utc_event e)) as Hwu by (by destruct Hwf; constructor).
  exists e'. split; [|exact He]. apply (event_wf_equiv _ _ He) in Hwu.
  unfold _event_from_record, _aware_utc.
  repeat match goal with
  | E : utc (aware_utc _) = utc (aware_utc (AwareDT _)) |- _ => apply aware_utc_in_utc in E; cbn [aware_utc utc] in E; rewrite E
  | E : ?f r = _ |- _ => rewrite E
  end.
  rewrite CandleSource_of_value, CandleInterval_of_value, StructureEventState_of_value. bind_ok.
  exact (new_event_of_wf e' Hwu Hc).
Qed.

(** ** Facts: the repository *)

Section facts.
Context `{FromIso}.
Context `{!Table string SupportZoneRecord.t} `{!Table string StructureEventRecord.t}.
Notation database := (table string SupportZoneRecord.t * table string StructureEventRecord.t)%type.

(** What an upsert leaves in a table, and its counters. *)
Record upserted {R} `{!Table string R} (columns : R -> list column) (t t' : table string R) (l : list (string * R))
    (i u n : Z) : Prop := {
  up_inserted : i = count_where (fun kr => bool_decide (lookup_row t kr.1 = None)) l;
  up_total : i + u + n = Z.of_nat (length l);
  up_written : forall k r, (k, r) ∈ l ->
    exists r', lookup_row t' k = Some r' /\ same_row columns equal_columns r' r;
  up_kept : forall k, k ∉ l.*1 -> lookup_row t' k = lookup_row t k }.

Lemma upsert_rows_ok {R} `{!Table string R} (columns : R -> list column) overwrite (t : table string R) l :
  (forall old new, columns (overwrite old new) = columns new) ->
  Forall (fun kr => kept columns equal_columns kr.2) l -> NoDup l.*1 ->
  exists t' c, upsert_rows columns equal_columns overwrite t no_upserts l = Ok (t', c) /\
    upserted columns t t' l (n_inserted c) (n_updated c) (n_unchanged c) /\
    upsert_rows columns equal_columns overwrite t' no_upserts l = Ok (t', MkCounters 0 0 (Z.of_nat (length l))).
Proof.
  intros Hover Hst Hnd.
  destruct (upsert_rows_total columns equal_columns overwrite t no_upserts l) as [[t' c] Hu]; [by eexists|].
  destruct (upsert_rows_exact _ _ _ Hover _ _ _ _ _ Hst Hnd Hu) as ((os & Hos & ->) & Hout & Hin & Hagain).
  eexists _, _. split; [exact Hu|]. split; [|by rewrite Hagain]. constructor; try done.
  - by rewrite (counters_inserted _ _ t _ _ _ Hos).
  - pose proof (counters_total os no_upserts) as Htot. cbn zeta in Htot. rewrite Htot. simpl.
    apply Forall2_length in Hos. by rewrite Hos.
Qed.

(** Zones and events of an analysis whose identifiers are distinct, and whose values the
    columns keep. *)
Lemma upsert_analysis_kept (db : database) a :
  Forall (fun z => kept _zone_values equal_columns (_zone_record z)) (HtfStructureAnalysis.zones a) ->
  Forall (fun e => kept _event_values equal_columns (_event_record e)) (HtfStructureAnalysis.events a) ->
  NoDup (zone_row <$> HtfStructureAnalysis.zones a).*1 -> NoDup (event_row <$> HtfStructureAnalysis.events a).*1 ->
  exists db' r, upsert_analysis db a = Ok (db', r) /\
    upserted _zone_values db.1 db'.1 (zone_row <$> HtfStructureAnalysis.zones a)
      (zones_inserted r) (zones_updated r) (zones_unchanged r) /\
    upserted _event_values db.2 db'.2 (event_row <$> HtfStructureAnalysis.events a)
      (events_inserted r) (events_updated r) (events_unchanged r) /\
    upsert_analysis db' a =
      Ok (db', MkStructureUpsertResult 0 0 (Z.of_nat (length (HtfStructureAnalysis.zones a)))
                 0 0 (Z.of_nat (length (HtfStructureAnalysis.events a)))).
Proof.
  intros Kz Ke Hz He. apply (Forall_fmap zone_row (fun kr => kept _zone_values equal_columns kr.2)) in Kz.
  apply (Forall_fmap event_row (fun kr => kept _event_values equal_columns kr.2)) in Ke.
  destruct (upsert_rows_ok _zone_values set_zone db.1 (zone_row <$> HtfStructureAnalysis.zones a) (fun _ _ => eq_refl) Kz Hz)
    as (zones & cz & Hz1 & Hz2 & Hz3).
  destruct (upsert_rows_ok _event_values set_event db.2 (event_row <$> HtfStructureAnalysis.events a) (fun _ _ => eq_refl) Ke He)
    as (events & ce & He1 & He2 & He3).
  rewrite length_fmap in Hz3. rewrite length_fmap in He3.
  unfold upsert_analysis, upsert_zones, upsert_events. rewrite Hz1. bind_ok. rewrite He1. bind_ok.
  eexists _, _. split; [done|]. split; [done|]. split; [done|]. simpl. rewrite Hz3. bind_ok. by rewrite He3.
Qed.

(** A query ordered by an instant, latest first, picks a row that no other selected row is
    later than. *)
Lemma first_of_query {R K} `{!Table string R, PyOrdLaws K} (key : string * R -> Z * K) (p : R -> bool)
    (t : table string R) k r :
  head (py_sorted_rev key (filter (fun kr => p kr.2 = true) (rows t))) = Some (k, r) ->
  lookup_row t k = Some r /\ p r = true /\
  forall k' r', lookup_row t k' = Some r' -> p r' = true -> (key (k', r')).1 <= (key (k, r)).1.
Proof.
  set (l := filter _ _). intros Hh. pose proof (py_sorted_rev_perm key l) as Hp.
  pose proof (py_sorted_rev_sorted key l) as Hs.
  destruct (py_sorted_rev key l) as [|kr rest]; [done|]. injection Hh as ->.
  assert (forall k' r', (k', r') ∈ l <-> lookup_row t k' = Some r' /\ p r' = true) as Hl.
  { intros k' r'. unfold l. rewrite list_elem_of_filter, rows_lookup. naive_solver. }
  destruct (proj1 (Hl k r)) as [Hlk Hpr]; [rewrite <- Hp; by left|]. split; [done|]. split; [done|].
  intros k' r' Hk' Hp'. assert ((k', r') ∈ l) as Hin by (by apply Hl).
  rewrite <- Hp in Hin. apply elem_of_cons in Hin as [[= -> ->]|Hin]; [reflexivity|].
  apply StronglySorted_inv in Hs as [_ Hs]. rewrite Forall_forall in Hs. specialize (Hs _ Hin).
  apply py_le_fst in Hs. unfold py_le, py_cmp, py_ord_Z in Hs.
  destruct (Z.compare_spec (key (k', r')).1 (key (k, r)).1); [lia|lia|done].
Qed.

(** The row that the query picks, when every other selected row comes after it. *)
Lemma first_of_query_is {R K} `{!Table string R, PyOrdLaws K} (key : string * R -> K) (p : R -> bool)
    (t : table string R) k r :
  lookup_row t k = Some r -> p r = true ->
  (forall k' r', lookup_row t k' = Some r' -> p r' = true -> (k', r') = (k, r) \/ py_lt (key (k', r')) (key (k, r)) = true) ->
  head (py_sorted_rev key (filter (fun kr => p kr.2 = true) (rows t))) = Some (k, r).
Proof.
  set (l := filter _ _). intros Hl Hp Hlt. pose proof (py_sorted_rev_perm key l) as Hperm.
  pose proof (py_sorted_rev_sorted key l) as Hs.
  assert ((k, r) ∈ py_sorted_rev key l) as Hin.
  { rewrite Hperm. apply list_elem_of_filter. split; [done|by apply rows_lookup]. }
  destruct (py_sorted_rev key l) as [|[k0 r0] rest]; [by apply elem_of_nil in Hin|]. simpl. f_equal.
  assert ((k0, r0) ∈ l) as Hr0 by (rewrite <- Hperm; by left).
  apply list_elem_of_filter in Hr0 as [Hp0 Hr0]. apply rows_lookup in Hr0.
  destruct (Hlt k0 r0 Hr0 Hp0) as [->|Hc]; [done|].
  apply elem_of_cons in Hin as [->|Hin]; [done|].
  apply StronglySorted_inv in Hs as [_ Hs]. rewrite Forall_forall in Hs. specialize (Hs _ Hin). unfold key_ge in Hs.
  by rewrite py_lt_not_le, Hs in Hc.
Qed.

Lemma read_first_Some {A B} (read : A -> res B) (l : list (string * A)) b :
  read_first read l = Ok (Some b) -> exists k r, head l = Some (k, r) /\ read r = Ok b.
Proof. destruct l as [|[k r] l]; [done|]. simpl. intros Hr. res_inv. simplify_eq. by exists k, r. Qed.

Lemma read_first_None {A B} (read : A -> res B) l : read_first read l = Ok None <-> l = [].
Proof. destruct l as [|kr l]; [done|]. simpl. split; [|done]. intros Hr. by res_inv. Qed.

Lemma latest_event_Ok (t : table string StructureEventRecord.t) source symbol interval e :
  latest_event t source symbol interval = Ok (Some e) ->
  exists k r, lookup_row t k = Some r /\
    event_of_series (CandleSource.value source) (norm_upper symbol) (CandleInterval.value interval) r = true /\
    _event_from_record r = Ok e /\
    forall k' r', lookup_row t k' = Some r' ->
      event_of_series (CandleSource.value source) (norm_upper symbol) (CandleInterval.value interval) r' = true ->
      utc (aware_utc (StructureEventRecord.observed_at r')) <= utc (aware_utc (StructureEventRecord.observed_at r)).
Proof.
  unfold latest_event. intros He. guards. apply read_first_Some in He as (k & r & Hh & Hr).
  apply (first_of_query event_order) in Hh as (Hl & Hs & Hmax). by exists k, r.
Qed.
End facts.
