(* ===== verification/Consensus.v ===== *)
(** * Cross-exchange consensus: [execution/consensus.py]

    Compares the LBank mid price with the median of the fresh benchmark prices and
    decides whether execution may be confirmed. *)

From stdpp Require Import list strings gmap.
From Stdlib Require Import Sorted QArith Qabs Lqa.
From S2P Require Import Prelude PyList PyStr PyDecimal DecimalFacts DecimalContext PyTime PyFloat.
From S2P Require Import LBank Benchmarks.
Open Scope Z_scope.

Module ConsensusStatus.
Inductive t : Type := OK | WARNING | EXECUTION_PENDING | DATA_DEGRADED | AVOID.
#[global] Instance eq_dec : EqDecision t.
Proof. solve_decision. Defined.
Definition value (s : t) : string :=
  match s with
  | OK => "OK" | WARNING => "WARNING" | EXECUTION_PENDING => "EXECUTION_PENDING"
  | DATA_DEGRADED => "DATA_DEGRADED" | AVOID => "AVOID"
  end.
End ConsensusStatus.

Record ConsensusRules : Type := MkConsensusRules {
  minimum_fresh_sources : Z;
  warning_deviation_pct : dec;
  degraded_deviation_pct : dec;
  avoid_deviation_pct : dec;
  max_benchmark_dispersion_pct : dec;
  benchmark_health : BenchmarkHealthRules;
  lbank_execution : LBankExecutionRules }.

Definition new_ConsensusRules (minimum : Z) (warning degraded avoid dispersion : dec)
    (health : BenchmarkHealthRules) (execution : LBankExecutionRules) : res ConsensusRules :=
  raise_if (minimum <? 1) "minimum_fresh_sources must be positive" ;;
  raise_if (negb ((d0 <? warning) && (warning <? degraded) && (degraded <? avoid)))%dec
    "deviation thresholds must be positive and increasing" ;;
  raise_if (dispersion <=? d0)%dec "max_benchmark_dispersion_pct must be positive" ;;
  mret (MkConsensusRules minimum warning degraded avoid dispersion health execution).

(** [ConsensusRules()] *)
Definition default_consensus_rules : ConsensusRules :=
  MkConsensusRules 2 (Dec 20 (-2)) (Dec 50 (-2)) (Dec 100 (-2)) (Dec 100 (-2))
    default_health_rules default_lbank_rules.

Record ConsensusSourceResult : Type := MkSourceResult {
  source : BenchmarkSource.t;
  exchange_symbol : string;
  expected_symbol : option string;
  health_state : option BenchmarkHealthState.t;
  price : dec;
  included : bool;
  deviation_from_median_pct : option dec;
  source_reasons : list string }.

Record CrossExchangeConsensusReport : Type := MkReport {
  canonical_symbol : string;
  lbank_symbol : string;
  lbank_price : dec;
  median_benchmark_price : option dec;
  lbank_deviation_pct : option dec;
  benchmark_dispersion_pct : option dec;
  status : ConsensusStatus.t;
  usable_sources : Z;
  source_results : list ConsensusSourceResult;
  reasons : list string }.

Definition allows_execution_confirmation (r : CrossExchangeConsensusReport) : bool :=
  bool_decide (status r ∈ [ConsensusStatus.OK; ConsensusStatus.WARNING]).

Definition _deviation_pct (value reference : dec) : res dec :=
  raise_if (reference <=? d0)%dec "reference price must be positive" ;;
  difference ← ctx_sub value reference;
  gap ← ctx_abs difference;
  ratio ← ctx_div gap reference;
  ctx_mul ratio (dint 100).

Definition _blocked_source_results (snapshots : list BenchmarkSnapshot.t)
    (mapping : CrossExchangeSymbolMap.t) (why : string) : list ConsensusSourceResult :=
  (fun s => MkSourceResult (BenchmarkSnapshot.source s) (BenchmarkSnapshot.symbol s)
              (CrossExchangeSymbolMap.expected_symbol mapping (BenchmarkSnapshot.source s))
              None (BenchmarkSnapshot.last_price s) false None [why]) <$> snapshots.

(** [statistics.median] *)
Definition median (l : list dec) : res dec :=
  let data := py_sorted (fun x : dec => x) l in
  let n := length data in
  if (n =? 0)%nat then Err (Exn "StatisticsError" "no median for empty data")
  else if Nat.odd n then py_index data (n / 2)
  else
    a ← py_index data (n / 2 - 1);
    b ← py_index data (n / 2);
    total ← ctx_add a b;
    ctx_div total (dint 2).

(** What the loop carries. *)
Record scan : Type := Scan {
  preliminary : list ConsensusSourceResult;
  used_prices : list dec;
  seen_sources : gset BenchmarkSource.t }.

(** The body of the loop over the benchmark snapshots. *)
Definition scan_snapshot (symbol_map : CrossExchangeSymbolMap.t) (now : datetime)
    (rules : BenchmarkHealthRules) (st : scan) (snapshot : BenchmarkSnapshot.t) : res scan :=
  let src := BenchmarkSnapshot.source snapshot in
  let expected := CrossExchangeSymbolMap.expected_symbol symbol_map src in
  let duplicate := bool_decide (src ∈ seen_sources st) in
  let mapping_reasons := match expected with
    | None => ["SOURCE_UNMAPPED"]
    | Some e => reason (negb (bool_decide (BenchmarkSnapshot.symbol snapshot = e))) "SYMBOL_MISMATCH"
    end in
  let reasons := reason duplicate "DUPLICATE_SOURCE" ++ mapping_reasons in
  checked ← (match reasons with
             | [] =>
                 health ← evaluate_benchmark_health snapshot now (Some rules);
                 mret (Some (hstate health), Benchmarks.is_usable health,
                       if Benchmarks.is_usable health then [] else hreasons health)
             | _ => mret (None, false, reasons)
             end);
  let '(health_state, included, reasons) := checked in
  let result := MkSourceResult src (BenchmarkSnapshot.symbol snapshot) expected health_state
                  (BenchmarkSnapshot.last_price snapshot) included None reasons in
  mret (Scan (preliminary st ++ [result])
          (if included : bool then used_prices st ++ [BenchmarkSnapshot.last_price snapshot]
           else used_prices st)
          ({[src]} ∪ seen_sources st)).

Fixpoint scan_all (symbol_map : CrossExchangeSymbolMap.t) (now : datetime)
    (rules : BenchmarkHealthRules) (st : scan) (snapshots : list BenchmarkSnapshot.t) : res scan :=
  match snapshots with
  | [] => mret st
  | s :: snapshots' =>
      st' ← scan_snapshot symbol_map now rules st s;
      scan_all symbol_map now rules st' snapshots'
  end.

(** [replace(result, deviation_from_median_pct=...)] *)
Definition with_deviation (median_price : dec) (r : ConsensusSourceResult)
    : res ConsensusSourceResult :=
  deviation ← (if included r then Some <$> _deviation_pct (price r) median_price else mret None);
  mret (MkSourceResult (source r) (exchange_symbol r) (expected_symbol r) (health_state r)
          (price r) (included r) deviation (source_reasons r)).

(** Median, LBank deviation, dispersion and the completed source results. *)
Definition statistics (lbank_price : dec) (st : scan)
    : res (option dec * option dec * option dec * list ConsensusSourceResult) :=
  match used_prices st with
  | [] => mret (None, None, None, preliminary st)
  | used =>
      median_price ← median used;
      lbank_deviation ← _deviation_pct lbank_price median_price;
      high ← py_max used;
      low ← py_min used;
      range ← ctx_sub high low;
      ratio ← ctx_div range median_price;
      dispersion ← ctx_mul ratio (dint 100);
      results ← mapM (with_deviation median_price) (preliminary st);
      mret (Some median_price, Some lbank_deviation, Some dispersion, results)
  end.

(** The final grading of the deviation. *)
Definition grade (rules : ConsensusRules) (lbank_deviation : dec)
    : ConsensusStatus.t * list string :=
  if (lbank_deviation >=? avoid_deviation_pct rules)%dec
  then (ConsensusStatus.AVOID, ["LBANK_DEVIATION_AVOID"])
  else if (lbank_deviation >=? degraded_deviation_pct rules)%dec
  then (ConsensusStatus.DATA_DEGRADED, ["LBANK_DEVIATION_DEGRADED"])
  else if (lbank_deviation >=? warning_deviation_pct rules)%dec
  then (ConsensusStatus.WARNING, ["LBANK_DEVIATION_WARNING"])
  else (ConsensusStatus.OK, []).

(** Status and reasons once the sources are scanned. *)
Definition decide_status (rules : ConsensusRules) (validation : LBankExecutionValidation)
    (usable : Z) (lbank_deviation dispersion : option dec) : res (ConsensusStatus.t * list string) :=
  match LBank.status validation with
  | LBankExecutionStatus.EXECUTION_PENDING =>
      mret (ConsensusStatus.EXECUTION_PENDING, LBank.reasons validation)
  | LBankExecutionStatus.DATA_DEGRADED =>
      mret (ConsensusStatus.DATA_DEGRADED, LBank.reasons validation)
  | LBankExecutionStatus.OK =>
      if usable <? minimum_fresh_sources rules then
        mret (ConsensusStatus.DATA_DEGRADED, ["INSUFFICIENT_FRESH_BENCHMARK_SOURCES"])
      else if match dispersion with
              | Some d => (d >? max_benchmark_dispersion_pct rules)%dec
              | None => false
              end then
        mret (ConsensusStatus.DATA_DEGRADED, ["BENCHMARK_DISPERSION_TOO_HIGH"])
      else match lbank_deviation with
           | None => Err (ValueError "median price is required after source validation")
           | Some d => mret (grade rules d)
           end
  end.

Definition build_cross_exchange_consensus (lbank_snapshot : Snapshot.t)
    (benchmark_snapshots : list BenchmarkSnapshot.t) (symbol_map : CrossExchangeSymbolMap.t)
    (now : datetime) (rules : option ConsensusRules) : res CrossExchangeConsensusReport :=
  let active_rules := default default_consensus_rules rules in
  require_aware now "now must be timezone-aware" ;;
  lbank_price ← Snapshot.executable_mid_price lbank_snapshot;
  let blocked why :=
    MkReport (CrossExchangeSymbolMap.canonical_symbol symbol_map) (Snapshot.symbol lbank_snapshot)
      lbank_price None None None ConsensusStatus.DATA_DEGRADED 0
      (_blocked_source_results benchmark_snapshots symbol_map why) [why] in
  if negb (CrossExchangeSymbolMap.reliable symbol_map) then mret (blocked "SYMBOL_MAPPING_UNRELIABLE")
  else if negb (bool_decide (Snapshot.symbol lbank_snapshot =
                             CrossExchangeSymbolMap.lbank_symbol symbol_map))
  then mret (blocked "LBANK_SYMBOL_MISMATCH")
  else
    validation ← validate_lbank_execution lbank_snapshot now (Some (lbank_execution active_rules));
    st ← scan_all symbol_map now (benchmark_health active_rules) (Scan [] [] ∅) benchmark_snapshots;
    stats ← statistics lbank_price st;
    let '(median_price, lbank_deviation, dispersion, results) := stats in
    let usable := Z.of_nat (length (used_prices st)) in
    verdict ← decide_status active_rules validation usable lbank_deviation dispersion;
    let '(status, reasons) := verdict in
    mret (MkReport (CrossExchangeSymbolMap.canonical_symbol symbol_map)
            (Snapshot.symbol lbank_snapshot) lbank_price median_price lbank_deviation dispersion
            status usable results reasons).

(** ** Facts *)

Record consensus_rules_wf (r : ConsensusRules) : Prop := {
  cr_minimum : 1 <= minimum_fresh_sources r;
  cr_deviation : (d0 <? warning_deviation_pct r)%dec = true /\
    (warning_deviation_pct r <? degraded_deviation_pct r)%dec = true /\
    (degraded_deviation_pct r <? avoid_deviation_pct r)%dec = true;
  cr_dispersion : (d0 <? max_benchmark_dispersion_pct r)%dec = true }.

Lemma new_ConsensusRules_Ok m w d a x h e r :
  new_ConsensusRules m w d a x h e = Ok r -> consensus_rules_wf r.
Proof. intros H. unfold new_ConsensusRules in H. guards. subst. constructor; simpl; auto. dec_order. Qed.

Lemma default_consensus_rules_wf : consensus_rules_wf default_consensus_rules.
Proof. by constructor. Qed.

(** ** What the numbers of a report mean *)

(** [m] is the middle of the prices in order, or the mean of the two in the middle. *)
Definition is_median (prices : list dec) (m : dec) : Prop :=
  exists l, l ≡ₚ prices /\ StronglySorted (fun x y => (x <=? y)%dec = true) l /\
    if Nat.odd (length l) then l !! (length l / 2)%nat = Some m
    else exists a b total, l !! (length l / 2 - 1)%nat = Some a /\ l !! (length l / 2)%nat = Some b /\
           ctx_add a b = Ok total /\ ctx_div total (dint 2) = Ok m.

(** [|value - reference| / reference * 100] of a positive reference *)
Definition is_deviation (value reference d : dec) : Prop :=
  (d0 <? reference)%dec = true /\
  exists difference gap ratio, ctx_sub value reference = Ok difference /\ ctx_abs difference = Ok gap /\
    ctx_div gap reference = Ok ratio /\ ctx_mul ratio (dint 100) = Ok d.

(** [(max(prices) - min(prices)) / m * 100] *)
Definition is_dispersion (prices : list dec) (m x : dec) : Prop :=
  exists high low range ratio, high ∈ prices /\ low ∈ prices /\
    Forall (fun p => (low <=? p)%dec = true /\ (p <=? high)%dec = true) prices /\
    ctx_sub high low = Ok range /\ ctx_div range m = Ok ratio /\ ctx_mul ratio (dint 100) = Ok x.

Lemma median_meaning l m : median l = Ok m -> is_median l m.
Proof.
  unfold median. intros H. exists (py_sorted (fun x : dec => x) l).
  split; [apply py_sorted_perm|]. split; [apply py_sorted_sorted|].
  destruct (_ =? 0)%nat; [done|]. destruct (Nat.odd _); [by apply py_index_Ok|].
  apply bind_Ok in H as (a & Ha & H). apply bind_Ok in H as (b & Hb & H). apply bind_Ok in H as (t & Ht & H).
  exists a, b, t. split_and!; try done; by apply py_index_Ok.
Qed.

Lemma deviation_meaning value reference d : _deviation_pct value reference = Ok d -> is_deviation value reference d.
Proof.
  unfold _deviation_pct. intros H. guards. split; [dec_order|]. by eexists _, _, _.
Qed.

(** *** The snapshots that count *)

(** The first snapshot of each exchange. *)
Fixpoint first_of_each (l : list BenchmarkSnapshot.t) : list BenchmarkSnapshot.t :=
  match l with
  | [] => []
  | s :: l' => s :: filter (fun x => BenchmarkSnapshot.source x <> BenchmarkSnapshot.source s) (first_of_each l')
  end.

Section scanning.
Context (symbol_map : CrossExchangeSymbolMap.t) (now : aware) (rules : BenchmarkHealthRules).

(** A snapshot that may be counted: mapped, under the expected symbol, healthy. *)
Definition countable (s : BenchmarkSnapshot.t) : bool :=
  bool_decide (CrossExchangeSymbolMap.expected_symbol symbol_map (BenchmarkSnapshot.source s) =
    Some (BenchmarkSnapshot.symbol s)) &&
  match evaluate_benchmark_health s (AwareDT now) (Some rules) with
  | Ok h => Benchmarks.is_usable h
  | Err _ => false
  end.

(** The snapshots used: of each exchange the first, if it may be counted. *)
Definition eligible (l : list BenchmarkSnapshot.t) : list BenchmarkSnapshot.t :=
  filter (fun s => countable s = true) (first_of_each l).

Lemma health_ok s : exists h, evaluate_benchmark_health s (AwareDT now) (Some rules) = Ok h.
Proof. unfold evaluate_benchmark_health, require_aware. bind_ok. by eexists. Qed.

Lemma scan_snapshot_exact st s :
  exists result, scan_snapshot symbol_map (AwareDT now) rules st s =
    Ok (Scan (preliminary st ++ [result])
         (used_prices st ++
          (if bool_decide (BenchmarkSnapshot.source s ∉ seen_sources st) && countable s
           then [BenchmarkSnapshot.last_price s] else []))
         ({[BenchmarkSnapshot.source s]} ∪ seen_sources st)).
Proof.
  unfold scan_snapshot, countable. destruct (health_ok s) as [h ->].
  set (src := BenchmarkSnapshot.source s). set (expected := CrossExchangeSymbolMap.expected_symbol symbol_map src).
  destruct (decide (src ∈ seen_sources st)) as [Hin|Hin].
  { rewrite (bool_decide_eq_true_2 (src ∈ _)), (bool_decide_eq_false_2 (src ∉ _)) by naive_solver.
    simpl. rewrite app_nil_r. by eexists. }
  rewrite (bool_decide_eq_false_2 (src ∈ _)), (bool_decide_eq_true_2 (src ∉ _)) by naive_solver.
  destruct expected as [e|]; simpl.
  2:{ rewrite app_nil_r. by eexists. }
  destruct (decide (BenchmarkSnapshot.symbol s = e)) as [->|Hne].
  - rewrite !bool_decide_eq_true_2 by done. simpl. destruct (Benchmarks.is_usable h); simpl; rewrite ?app_nil_r; by eexists.
  - rewrite (bool_decide_eq_false_2 (_ = e)), (bool_decide_eq_false_2 (Some e = _)) by congruence.
    simpl. rewrite app_nil_r. by eexists.
Qed.

(** Dropping the sources already seen commutes with taking the first of each. *)
Lemma eligible_step (seen : gset BenchmarkSource.t) s l :
  filter (fun x => countable x = true)
    (filter (fun x => BenchmarkSnapshot.source x ∉ seen) (first_of_each (s :: l))) =
  (if bool_decide (BenchmarkSnapshot.source s ∉ seen) && countable s then [s] else []) ++
  filter (fun x => countable x = true)
    (filter (fun x => BenchmarkSnapshot.source x ∉ {[BenchmarkSnapshot.source s]} ∪ seen) (first_of_each l)).
Proof.
  simpl first_of_each. rewrite filter_cons.
  assert (filter (fun x => BenchmarkSnapshot.source x ∉ seen)
      (filter (fun x => BenchmarkSnapshot.source x <> BenchmarkSnapshot.source s) (first_of_each l)) =
    filter (fun x => BenchmarkSnapshot.source x ∉ {[BenchmarkSnapshot.source s]} ∪ seen) (first_of_each l)) as E.
  { rewrite list_filter_filter. apply list_filter_iff. intros x. set_solver. }
  case_decide as Hs.
  - rewrite bool_decide_eq_true_2 by done. rewrite filter_cons, E. simpl.
    destruct (countable s); by rewrite ?decide_True, ?decide_False by done.
  - rewrite bool_decide_eq_false_2 by naive_solver. by rewrite E.
Qed.

Lemma scan_all_exact l st :
  exists st', scan_all symbol_map (AwareDT now) rules st l = Ok st' /\
    used_prices st' = used_prices st ++
      (BenchmarkSnapshot.last_price <$> filter (fun x => countable x = true)
         (filter (fun x => BenchmarkSnapshot.source x ∉ seen_sources st) (first_of_each l))).
Proof.
  revert st; induction l as [|s l IH]; intros st.
  { exists st. simpl. by rewrite app_nil_r. }
  cbn [scan_all]. destruct (scan_snapshot_exact st s) as [result ->]. bind_ok.
  match goal with |- context [scan_all _ _ _ ?st1 _] => destruct (IH st1) as (st' & -> & Hu) end.
  exists st'. split; [done|]. rewrite Hu. cbn [used_prices seen_sources].
  rewrite eligible_step, fmap_app, <- app_assoc. do 2 f_equal. by destruct (_ && _).
Qed.

(** The prices the loop collects are those of the eligible snapshots. *)
Lemma scan_start l :
  exists st, scan_all symbol_map (AwareDT now) rules (Scan [] [] ∅) l = Ok st /\
    used_prices st = BenchmarkSnapshot.last_price <$> eligible l.
Proof.
  destruct (scan_all_exact l (Scan [] [] ∅)) as (st & E & Hu). exists st. split; [done|]. rewrite Hu.
  unfold eligible. rewrite list_filter_filter. simpl app. f_equal. apply list_filter_iff. set_solver.
Qed.
End scanning.

Lemma first_of_each_NoDup l : NoDup (BenchmarkSnapshot.source <$> first_of_each l).
Proof.
  induction l as [|s l IH]; simpl; [constructor|]. apply NoDup_cons. split.
  - intros (x & E & Hx)%list_elem_of_fmap. apply list_elem_of_filter in Hx as [Hx _]. congruence.
  - eapply sublist_NoDup; [exact IH|]. apply fmap_sublist. apply sublist_filter.
Qed.

Lemma mapM_ok {A B} (f : A -> res B) l :
  (forall x, x ∈ l -> exists y, f x = Ok y) -> exists k, mapM f l = Ok k.
Proof.
  induction l as [|x l IH]; intros H; simpl; [by eexists|].
  destruct (H x ltac:(set_solver)) as [y ->]. destruct IH as [k ->]; [set_solver|]. by eexists.
Qed.

(** What the statistics are, when they are computed. *)
Lemma statistics_meaning mid st m d x results :
  statistics mid st = Ok (m, d, x, results) ->
  match used_prices st with
  | [] => m = None /\ d = None /\ x = None
  | prices => exists m' d' x', m = Some m' /\ d = Some d' /\ x = Some x' /\
      is_median prices m' /\ is_deviation mid m' d' /\ is_dispersion prices m' x'
  end.
Proof.
  unfold statistics. destruct (used_prices st) as [|p l]; [by intros [= <- <- <- _]|].
  set (prices := p :: l). intros H.
  apply bind_Ok in H as (m' & Hm & H). apply bind_Ok in H as (d' & Hd & H).
  apply bind_Ok in H as (high & Hh & H). apply bind_Ok in H as (low & Hl & H).
  apply bind_Ok in H as (range & Hr & H). apply bind_Ok in H as (ratio & Hq & H).
  apply bind_Ok in H as (x' & Hx & H). apply bind_Ok in H as (k & _ & H). injection H as <- <- <- _.
  exists m', d', x'. split_and!; try done; [by apply median_meaning|by apply deviation_meaning|].
  apply py_max_Ok in Hh as [Hh1 Hh2]. apply py_min_Ok in Hl as [Hl1 Hl2].
  exists high, low, range, ratio. split_and!; try done.
  apply Forall_forall. intros y Hy. split; [by apply Hl2|by apply Hh2].
Qed.

(** A verdict allows execution exactly when it went through every gate. *)
Lemma decide_status_allows rules v usable d x s rs :
  consensus_rules_wf rules -> decide_status rules v usable d x = Ok (s, rs) ->
  s ∈ [ConsensusStatus.OK; ConsensusStatus.WARNING] <->
  LBank.status v = LBankExecutionStatus.OK /\ minimum_fresh_sources rules <= usable /\
  (exists dev, d = Some dev /\ (dev <? degraded_deviation_pct rules)%dec = true) /\
  (forall disp, x = Some disp -> (disp <=? max_benchmark_dispersion_pct rules)%dec = true).
Proof.
  intros [_ (_ & _ & Hda) _]. unfold decide_status.
  destruct (LBank.status v) eqn:Hv; [|intros H; injection H as <- <-; split; [set_solver|by intros [? _]]..].
  destruct (Z.ltb_spec usable (minimum_fresh_sources rules)).
  { intros H0; injection H0 as <- <-; split; [set_solver|intros (_ & ? & _); lia]. }
  destruct (match x with Some _ => _ | None => _ end) eqn:Hx.
  { intros H0; injection H0 as <- <-; split; [set_solver|]. intros (_ & _ & _ & Hd). destruct x as [disp|]; [|done].
    specialize (Hd disp eq_refl). rewrite py_le_not_lt, Hx in Hd. done. }
  destruct d as [dev|]; [|done]. unfold grade, mret, res_ret. intros E.
  assert ((dev <? degraded_deviation_pct rules)%dec = negb (degraded_deviation_pct rules <=? dev)%dec) as Hneg
    by apply py_lt_not_le.
  assert (forall disp, x = Some disp -> (disp <=? max_benchmark_dispersion_pct rules)%dec = true) as Hdisp
    by (intros disp ->; by rewrite py_le_not_lt, Hx).
  destruct (avoid_deviation_pct rules <=? dev)%dec eqn:Ha.
  { injection E as <- <-. split; [set_solver|]. intros (_ & _ & (? & [= <-] & Hlt) & _). dec_order. }
  destruct (degraded_deviation_pct rules <=? dev)%dec eqn:Hd.
  { injection E as <- <-. split; [set_solver|]. intros (_ & _ & Hex & _). destruct Hex as (dev' & E' & Hlt). injection E' as <-.
    rewrite Hneg in Hlt. done. }
  split; [intros _; by eauto 10|]. intros _.
  destruct (warning_deviation_pct rules <=? dev)%dec; injection E as <- _; set_solver.
Qed.

(** ** Property *)

(** C2: execution is confirmed exactly when every gate holds: the mapping is reliable and
    names the LBank symbol, the LBank snapshot validates as executable, at least
    [minimum_fresh_sources] benchmark snapshots count, which are, of each exchange, the
    first one if it is mapped under its expected symbol and healthy; the mean of the best
    bid and ask of LBank deviates from the median of their prices by less than the degraded
    threshold; and the spread of these prices, relative to the median, is within the bound.
    The median, the deviation and the dispersion of the report are those numbers. *)
Theorem consensus_allows_safely snapshot benchmarks symbol_map now rules r :
  consensus_rules_wf rules ->
  build_cross_exchange_consensus snapshot benchmarks symbol_map (AwareDT now) (Some rules) = Ok r ->
  let used := eligible symbol_map now (benchmark_health rules) benchmarks in
  let prices := BenchmarkSnapshot.last_price <$> used in
  let book := Snapshot.order_book snapshot in
  NoDup (BenchmarkSnapshot.source <$> used) /\
  (allows_execution_confirmation r = true <->
    CrossExchangeSymbolMap.reliable symbol_map = true /\
    Snapshot.symbol snapshot = CrossExchangeSymbolMap.lbank_symbol symbol_map /\
    (exists v, validate_lbank_execution snapshot (AwareDT now) (Some (lbank_execution rules)) = Ok v /\
               is_executable v = true) /\
    minimum_fresh_sources rules <= Z.of_nat (length used) /\
    exists total mid m dev disp,
      ctx_add (BookLevel.price (OrderBook.best_bid book)) (BookLevel.price (OrderBook.best_ask book)) = Ok total /\
      ctx_div total (dint 2) = Ok mid /\
      median_benchmark_price r = Some m /\ is_median prices m /\
      lbank_deviation_pct r = Some dev /\ is_deviation mid m dev /\
      benchmark_dispersion_pct r = Some disp /\ is_dispersion prices m disp /\
      (dev <? degraded_deviation_pct rules)%dec = true /\
      (disp <=? max_benchmark_dispersion_pct rules)%dec = true).
Proof.
  intros Hr H used prices book.
  split; [eapply sublist_NoDup; [apply (first_of_each_NoDup benchmarks)|apply fmap_sublist, sublist_filter]|].
  unfold build_cross_exchange_consensus, require_aware in H.
  change (default default_consensus_rules (Some rules)) with rules in H. rewrite Ok_bind in H.
  apply bind_Ok in H as (mid & Hmid & H). unfold allows_execution_confirmation. rewrite bool_decide_eq_true.
  destruct (CrossExchangeSymbolMap.reliable symbol_map) eqn:Hrel; cbn [negb] in H.
  2:{ injection H as <-. split; [simpl; set_solver|by intros [? _]]. }
  case_bool_decide as Hsym; cbn [negb] in H.
  2:{ injection H as <-. split; [simpl; set_solver|by intros (_ & ? & _)]. }
  apply bind_Ok in H as (v & Hv & H).
  destruct (scan_start symbol_map now (benchmark_health rules) benchmarks) as (st & Hst & Hu).
  rewrite Hst, Ok_bind in H. apply bind_Ok in H as ([[[m d] x] results] & Hstat & H).
  apply bind_Ok in H as ([s rs] & Hdec & H). injection H as <-. cbn [status median_benchmark_price
    lbank_deviation_pct benchmark_dispersion_pct].
  apply statistics_meaning in Hstat. fold used prices in Hu. rewrite Hu in Hstat, Hdec.
  apply (decide_status_allows _ _ _ _ _ _ _ Hr) in Hdec. rewrite Hdec. unfold prices in *. rewrite length_fmap.
  unfold Snapshot.executable_mid_price in Hmid. apply bind_Ok in Hmid as (total & Ht & Hmid).
  split.
  - intros (Hok & Hmin & (dev & -> & Hlt) & Hdisp). split_and!; try done.
    { exists v. split; [done|]. by apply bool_decide_eq_true. }
    destruct (BenchmarkSnapshot.last_price <$> used) as [|p l] eqn:Ep; [by destruct Hstat as (_ & ? & _)|].
    destruct Hstat as (m' & d' & x' & -> & [= <-] & -> & Hm & Hd & Hx).
    exists total, mid, m', dev, x'. split_and!; try done. by apply Hdisp.
  - intros (_ & _ & (v' & Hv' & Hex) & Hmin & (t & mid' & m' & dev & disp & _ & _ & _ & _ & -> & _ & -> & _ & Hlt & Hle)).
    assert (v' = v) as -> by congruence. apply bool_decide_eq_true in Hex. split_and!; [done|done|by eauto|by intros ? [= <-]].
Qed.

Definition sample_benchmark (src : BenchmarkSource.t) (last : dec) : BenchmarkSnapshot.t :=
  BenchmarkSnapshot.Mk src BenchmarkRole.BENCHMARK_ONLY "BTCUSDT" (Aware 0 0) 100 (Some (Aware 0 0))
    last None None None None (dint 999) (dint 1000) (dint 1) (Dec 1001 (-2)) (dint 5000) (dint 5000).

Definition sample_benchmarks : list BenchmarkSnapshot.t :=
  [sample_benchmark BenchmarkSource.MEXC (dint 999); sample_benchmark BenchmarkSource.GATE (dint 1001);
   sample_benchmark BenchmarkSource.MEXC (dint 2000)].

Definition sample_map : CrossExchangeSymbolMap.t :=
  CrossExchangeSymbolMap.Mk "BTC" "BTCUSDT"
    {[ BenchmarkSource.MEXC := "BTCUSDT"; BenchmarkSource.GATE := "BTCUSDT" ]} true.

Lemma consensus_allows_safely_witness :
  exists r, build_cross_exchange_consensus sample_snapshot sample_benchmarks sample_map
              (AwareDT (Aware 0 0)) (Some default_consensus_rules) = Ok r /\
    allows_execution_confirmation r = true /\ median_benchmark_price r = Some (dint 1000) /\
    2 <= Z.of_nat (length (eligible sample_map (Aware 0 0) default_health_rules sample_benchmarks)).
Proof.
  eexists. split; [vm_compute; reflexivity|]. split; [vm_compute; reflexivity|]. split; [reflexivity|].
  refine (proj1 (proj2 (proj2 (proj2 (proj1 (proj2 (consensus_allows_safely sample_snapshot sample_benchmarks
    sample_map (Aware 0 0) default_consensus_rules _ default_consensus_rules_wf _)) _))))); vm_compute; reflexivity.
Defined.
