(* ===== verification/Workflow.v ===== *)
(** * Watch to flow: [core/numbers.py], [structure/models.py], [structure/analyzer.py],
    [setups/models.py], [setups/classifier.py], [flow/]

    The short path from a price and a reference range to the decision that a
    candidate may be planned: a snapshot (NEUTRAL, WEAK, ALERT), a label (IGNORE,
    WATCH, REVIEW), a flow status (WAIT, READY, INCOMPLETE).

    Values that the code declares as [float] are floats here, so the conversion in
    [finite_float] is the identity and only its finiteness test can fail. *)

From Stdlib Require Import QArith Lqa.
From stdpp Require Import list strings gmap.
From S2P Require Import Prelude PyList PyStr PyDecimal PyTime PyFloat FloatFacts.
Open Scope Z_scope.

(** ** [core/numbers.py] *)

Definition finite_float (value : float) (name : string) : res float :=
  raise_if (negb (is_finite_float value)) (name +:+ " must be finite") ;;
  mret value.

Definition positive_finite_float (value : float) (name : string) : res float :=
  parsed ← finite_float value name;
  raise_if (parsed <=? fzero)%flt (name +:+ " must be positive") ;;
  mret parsed.

(** ** [structure/models.py] *)

Module StructureState.
Inductive t : Type := NEUTRAL | WEAK | ALERT.
#[global] Instance eq_dec : EqDecision t.
Proof. solve_decision. Defined.
Definition value (s : t) : string :=
  match s with NEUTRAL => "NEUTRAL" | WEAK => "WEAK" | ALERT => "ALERT" end.
End StructureState.

Module StructureInput.
Record t : Type := Mk {
  symbol : string;
  current_value : float;
  reference_low : float;
  reference_high : float }.
Definition new (symbol : string) (current_value reference_low reference_high : float) : res t :=
  let normalized_symbol := str_strip symbol in
  raise_if (str_empty normalized_symbol) "symbol is required" ;;
  current_value ← positive_finite_float current_value "current_value";
  reference_low ← positive_finite_float reference_low "reference_low";
  reference_high ← positive_finite_float reference_high "reference_high";
  raise_if (reference_low >=? reference_high)%flt "reference_low must be below reference_high" ;;
  mret (Mk normalized_symbol current_value reference_low reference_high).
End StructureInput.

Module StructureSnapshot.
Record t : Type := Mk {
  symbol : string;
  state : StructureState.t;
  current_value : float;
  reference_low : float;
  reference_high : float;
  reasons : list string }.
Definition new (symbol : string) (state : StructureState.t)
    (current_value reference_low reference_high : float) (reasons : list string) : res t :=
  let normalized_symbol := str_strip symbol in
  raise_if (str_empty normalized_symbol) "symbol is required" ;;
  current_value ← positive_finite_float current_value "current_value";
  reference_low ← positive_finite_float reference_low "reference_low";
  reference_high ← positive_finite_float reference_high "reference_high";
  raise_if (reference_low >=? reference_high)%flt "reference_low must be below reference_high" ;;
  mret (Mk normalized_symbol state current_value reference_low reference_high reasons).
Definition needs_review (s : t) : bool :=
  bool_decide (state s ∈ [StructureState.WEAK; StructureState.ALERT]).
End StructureSnapshot.

(** ** [structure/analyzer.py] *)

Definition midpoint (item : StructureInput.t) : res float :=
  fdiv (fadd (StructureInput.reference_low item) (StructureInput.reference_high item)) (Fl 2 0).

Definition analyze_structure (item : StructureInput.t) : res StructureSnapshot.t :=
  let low := StructureInput.reference_low item in
  let high := StructureInput.reference_high item in
  let current := StructureInput.current_value item in
  raise_if (low >=? high)%flt "invalid reference range" ;;
  mid ← midpoint item;
  let '(state, reason) :=
    if (current <? low)%flt then (StructureState.ALERT, "outside reference range")
    else if (current <? mid)%flt then (StructureState.WEAK, "below midpoint")
    else (StructureState.NEUTRAL, "inside expected range") in
  StructureSnapshot.new (StructureInput.symbol item) state current low high [reason].

(** ** [setups/models.py] and [setups/classifier.py] *)

Module SetupLabel.
Inductive t : Type := IGNORE | WATCH | REVIEW.
#[global] Instance eq_dec : EqDecision t.
Proof. solve_decision. Defined.
Definition value (s : t) : string :=
  match s with
  | IGNORE => "IGNORE" | WATCH => "WATCH" | REVIEW => "REVIEW"
  end.
Definition members : list t := [IGNORE; WATCH; REVIEW].
End SetupLabel.

Module SetupCandidate.
Record t : Type := Mk {
  symbol : string;
  label : SetupLabel.t;
  source_state : string;
  data : gmap string float;
  reasons : list string }.
Definition is_actionable (c : t) : bool := bool_decide (label c = SetupLabel.REVIEW).
End SetupCandidate.

Definition classify_snapshot (snapshot : StructureSnapshot.t) : SetupCandidate.t :=
  let '(label, reason) :=
    if decide (StructureSnapshot.state snapshot = StructureState.ALERT)
    then (SetupLabel.REVIEW, "alert snapshot")
    else if decide (StructureSnapshot.state snapshot = StructureState.WEAK)
    then (SetupLabel.WATCH, "weak snapshot")
    else (SetupLabel.IGNORE, "neutral snapshot") in
  SetupCandidate.Mk (StructureSnapshot.symbol snapshot) label
    (StructureState.value (StructureSnapshot.state snapshot))
    (<["current_value" := StructureSnapshot.current_value snapshot]>
     (<["reference_low" := StructureSnapshot.reference_low snapshot]>
      (<["reference_high" := StructureSnapshot.reference_high snapshot]> ∅)))
    (StructureSnapshot.reasons snapshot ++ [reason]).

(** ** [flow/models.py] and [flow/runner.py] *)

Module FlowStatus.
Inductive t : Type := READY | WAIT | INCOMPLETE.
#[global] Instance eq_dec : EqDecision t.
Proof. solve_decision. Defined.
Definition value (s : t) : string :=
  match s with READY => "READY" | WAIT => "WAIT" | INCOMPLETE => "INCOMPLETE" end.
Definition members : list t := [READY; WAIT; INCOMPLETE].
End FlowStatus.

Module FlowResult.
Record t : Type := Mk { symbol : string; status : FlowStatus.t; reasons : list string }.
Definition is_ready (f : t) : bool := bool_decide (status f = FlowStatus.READY).
End FlowResult.

Definition REQUIRED_KEYS : list string := ["current_value"; "reference_low"; "reference_high"].

Definition run_flow (candidate : SetupCandidate.t) : FlowResult.t :=
  let missing :=
    filter (fun key => SetupCandidate.data candidate !! key = None) REQUIRED_KEYS in
  let symbol := SetupCandidate.symbol candidate in
  if negb (bool_decide (missing = [])) then
    FlowResult.Mk symbol FlowStatus.INCOMPLETE ("missing data" :: missing)
  else if negb (SetupCandidate.is_actionable candidate) then
    FlowResult.Mk symbol FlowStatus.WAIT ["waiting"]
  else FlowResult.Mk symbol FlowStatus.READY ["ready"].

(** ** Facts *)

Lemma positive_finite_float_Ok v name x :
  positive_finite_float v name = Ok x <->
  x = v /\ is_finite_float v = true /\ (v <=? fzero)%flt = false.
Proof.
  unfold positive_finite_float, finite_float. split.
  - intros H. guards. by subst.
  - intros (-> & Hf & Hp). res_ok ltac:(rewrite ?Hf; done). done.
Qed.

Lemma fzero_of_lt x y : (x <? y)%flt = true -> (y <=? x)%flt = false.
Proof.
  unfold fltb, fleb. destruct x as [m e|[]|], y as [m' e'|[]|]; try done.
  rewrite !fcmp_val. set (a := fval (Fl m e)). set (b := fval (Fl m' e')).
  destruct (Qcompare_spec a b), (Qcompare_spec b a); try done; lra.
Qed.

(** What an accepted input satisfies; the constructor's own image. *)
Definition input_ok (i : StructureInput.t) : Prop :=
  StructureInput.new (StructureInput.symbol i) (StructureInput.current_value i)
    (StructureInput.reference_low i) (StructureInput.reference_high i) = Ok i.

Lemma StructureInput_new_ok s c l h i :
  StructureInput.new s c l h = Ok i ->
  input_ok i /\ stripped (StructureInput.symbol i) /\ StructureInput.symbol i <> EmptyString /\
  (StructureInput.reference_low i >=? StructureInput.reference_high i)%flt = false.
Proof.
  unfold input_ok, StructureInput.new. intros H. res_inv. subst i. simpl.
  rewrite str_strip_idemp. split; [|split; [apply str_strip_stripped|split; [by apply str_empty_false|done]]].
  repeat match goal with
  | H : positive_finite_float ?v _ = Ok ?x |- _ =>
      assert_fails (constr_eq v x);
      let E := fresh in assert (x = v) as E by (by apply positive_finite_float_Ok in H as [? _]);
      rewrite E in *; clear E
  end.
  res_ok ltac:(done).
  repeat match goal with H : positive_finite_float _ _ = Ok _ |- _ => rewrite H; clear H; bind_ok end.
  res_ok ltac:(done). done.
Qed.

(** An accepted input is its arguments, the symbol stripped. *)
Lemma StructureInput_new_fields s c l h i :
  StructureInput.new s c l h = Ok i -> i = StructureInput.Mk (str_strip s) c l h.
Proof.
  unfold StructureInput.new. intros H. res_inv. subst i.
  repeat match goal with
  | H : positive_finite_float _ _ = Ok _ |- _ => apply positive_finite_float_Ok in H as (-> & _)
  end. done.
Qed.

(** The analysis of an accepted input never fails. *)
Lemma analyze_structure_ok i :
  input_ok i ->
  exists snap, analyze_structure i = Ok snap /\
    StructureSnapshot.symbol snap = StructureInput.symbol i /\
    exists mid, midpoint i = Ok mid /\
    StructureSnapshot.state snap =
      if (StructureInput.current_value i <? StructureInput.reference_low i)%flt
      then StructureState.ALERT
      else if (StructureInput.current_value i <? mid)%flt then StructureState.WEAK
      else StructureState.NEUTRAL.
Proof.
  intros Hi. unfold input_ok, StructureInput.new in Hi. res_inv.
  assert (exists mid, midpoint i = Ok mid) as [mid Hmid] by (unfold midpoint, fdiv; simpl; eauto).
  destruct i as [s c l h]. simpl in *. injection Hi as Hs -> -> ->.
  rewrite Hs in *.
  unfold analyze_structure. rewrite Hmid. cbn [StructureInput.reference_low
    StructureInput.reference_high StructureInput.current_value StructureInput.symbol].
  rewrite guard_pass by done. bind_ok.
  assert (forall st r, StructureSnapshot.new s st c l h r = Ok (StructureSnapshot.Mk s st c l h r)) as Hn.
  { intros st r. unfold StructureSnapshot.new. rewrite Hs. res_ok ltac:(done).
    repeat match goal with H : positive_finite_float _ _ = Ok _ |- _ => rewrite H; clear H; bind_ok end.
    res_ok ltac:(done). done. }
  repeat case_match; rewrite Hn; eexists; (split; [reflexivity|]); simpl; (split; [done|]); exists mid;
    (split; [done|]); repeat match goal with H : ?b = _ |- context [?b] => rewrite H end; congruence.
Qed.

Lemma classify_data_complete snap key :
  key ∈ REQUIRED_KEYS -> SetupCandidate.data (classify_snapshot snap) !! key <> None.
Proof.
  unfold classify_snapshot. intros Hk.
  destruct snap as [? [] ? ? ? ?]; simpl; unfold REQUIRED_KEYS in Hk; set_unfold in Hk;
    destruct Hk as [-> | [-> | [-> | []]]]; simplify_map_eq; done.
Qed.

Lemma run_flow_classified snap :
  run_flow (classify_snapshot snap) =
  if decide (StructureSnapshot.state snap = StructureState.ALERT)
  then FlowResult.Mk (StructureSnapshot.symbol snap) FlowStatus.READY ["ready"]
  else FlowResult.Mk (StructureSnapshot.symbol snap) FlowStatus.WAIT ["waiting"].
Proof.
  destruct snap as [? [] ? ? ? ?]; reflexivity.
Qed.

(** ** Properties *)

(** For every price and reference range the program accepts, the chain from the
    structure input to the flow never fails; the flow is READY exactly when the price
    is below the reference low, and WAIT otherwise.  INCOMPLETE, the answer to a
    candidate without its required keys, never comes out of it; and a price below the
    midpoint but inside the range asks for review without being actionable. *)
Theorem flow_ready_iff_below_low s c l h i :
  StructureInput.new s c l h = Ok i ->
  exists snap, analyze_structure i = Ok snap /\
    let candidate := classify_snapshot snap in
    let flow := run_flow candidate in
    StructureSnapshot.symbol snap = str_strip s /\
    FlowResult.symbol flow = str_strip s /\
    FlowResult.is_ready flow = (c <? l)%flt /\
    SetupCandidate.is_actionable candidate = (c <? l)%flt /\
    FlowResult.status flow <> FlowStatus.INCOMPLETE /\
    (exists mid, midpoint i = Ok mid /\
      StructureSnapshot.needs_review snap = (c <? l)%flt || (c <? mid)%flt).
Proof.
  intros H. pose proof (StructureInput_new_fields _ _ _ _ _ H) as Hi.
  apply StructureInput_new_ok in H as (Hok & _).
  destruct (analyze_structure_ok i Hok) as (snap & E & Hs & mid & Hm & Hst).
  exists snap. split; [done|]. cbv zeta. rewrite run_flow_classified. subst i. simpl in Hs, Hst.
  unfold FlowResult.is_ready, SetupCandidate.is_actionable, StructureSnapshot.needs_review.
  destruct snap as [sy st c' l' h' rs]. simpl in Hs, Hst. subst sy st.
  repeat split; try (exists mid; split; [done|]);
    destruct (c <? l)%flt, (c <? mid)%flt; done.
Qed.

Lemma flow_ready_iff_below_low_witness :
  exists i snap, StructureInput.new " BTC " (Fl 9 0) (Fl 10 0) (Fl 20 0) = Ok i /\
    analyze_structure i = Ok snap /\
    FlowResult.is_ready (run_flow (classify_snapshot snap)) = true.
Proof.
  destruct (StructureInput.new " BTC " (Fl 9 0) (Fl 10 0) (Fl 20 0)) as [i|e] eqn:E;
    [|vm_compute in E; discriminate E].
  destruct (flow_ready_iff_below_low _ _ _ _ _ E) as (snap & Ha & _ & _ & Hr & _).
  exists i, snap. repeat split; [exact Ha|]. rewrite Hr. reflexivity.
Defined.
