(* ===== verification/Planning.v ===== *)
(** * Plans and their life cycle: [planning/], [lifecycle/], [strategy/review.py]

    [build_plan] turns a ready flow and a request into a short plan (an objective
    below the entry, a boundary above it); a life cycle then tracks the plan from
    creation to expiry or closure.  The life cycle is a step relation over its
    records. *)

From Stdlib Require Import QArith Lqa.
From stdpp Require Import list strings relations.
From S2P Require Import Prelude PyList PyStr PyDecimal PyTime PyFloat FloatFacts Workflow.
Open Scope Z_scope.

(** ** [planning/models.py] *)

Module PlanStatus.
Inductive t : Type := HOLD | READY.
#[global] Instance eq_dec : EqDecision t.
Proof. solve_decision. Defined.
Definition value (s : t) : string :=
  match s with
  | HOLD => "HOLD" | READY => "READY"
  end.
Definition members : list t := [HOLD; READY].
End PlanStatus.

(** [finite_float(value, name=name) if value is not None else None] *)
Definition optional_float (value : option float) (name : string) : res (option float) :=
  match value with
  | None => mret None
  | Some v => Some <$> finite_float v name
  end.

Module PlanDraft.
Record t : Type := Mk {
  symbol : string;
  status : PlanStatus.t;
  entry_value : option float;
  boundary_value : option float;
  objective_value : option float;
  multiplier : Z;
  ratio : float;
  notes : list string }.
Definition new (symbol : string) (status : PlanStatus.t)
    (entry boundary objective : option float) (multiplier : Z) (ratio : float)
    (notes : list string) : res t :=
  let normalized_symbol := str_strip symbol in
  raise_if (str_empty normalized_symbol) "symbol is required" ;;
  raise_if ((multiplier <? 1) || (multiplier >? 5)) "multiplier must be between 1 and 5" ;;
  ratio ← finite_float ratio "ratio";
  entry ← optional_float entry "entry_value";
  boundary ← optional_float boundary "boundary_value";
  objective ← optional_float objective "objective_value";
  mret (Mk normalized_symbol status entry boundary objective multiplier ratio notes).
(** [PlanDraft(symbol=.., status=HOLD, notes=..)] with the class's defaults *)
Definition held (symbol : string) (notes : list string) : res t :=
  new symbol PlanStatus.HOLD None None None 1 (Fl 2 0) notes.
End PlanDraft.

Module PlanRequest.
Record t : Type := Mk {
  symbol : string;
  entry_value : float;
  boundary_value : float;
  multiplier : Z;
  ratio : float }.
Definition new (symbol : string) (entry boundary : float) (multiplier : Z) (ratio : float) : res t :=
  let normalized_symbol := str_strip symbol in
  raise_if (str_empty normalized_symbol) "symbol is required" ;;
  entry ← finite_float entry "entry_value";
  boundary ← finite_float boundary "boundary_value";
  ratio ← finite_float ratio "ratio";
  mret (Mk normalized_symbol entry boundary multiplier ratio).
End PlanRequest.

(** ** [planning/service.py] *)

(** [entry - ((boundary - entry) * ratio)] *)
Definition objective_of (entry boundary ratio : float) : float :=
  let distance := fsub boundary entry in
  fsub entry (fmul distance ratio).

Definition build_plan (flow : FlowResult.t) (request : PlanRequest.t) : res PlanDraft.t :=
  let entry := PlanRequest.entry_value request in
  let boundary := PlanRequest.boundary_value request in
  let ratio := PlanRequest.ratio request in
  let multiplier := PlanRequest.multiplier request in
  if negb (FlowResult.is_ready flow) then
    PlanDraft.held (PlanRequest.symbol request) ["flow is not ready"]
  else
    let symbol := str_strip (PlanRequest.symbol request) in
    raise_if (str_empty symbol) "symbol is required" ;;
    raise_if ((entry <=? fzero)%flt || (boundary <=? fzero)%flt) "plan values must be positive" ;;
    raise_if (boundary <=? entry)%flt "boundary must be above entry" ;;
    raise_if (ratio <=? fzero)%flt "ratio must be positive" ;;
    raise_if ((multiplier <? 1) || (multiplier >? 5)) "multiplier must be between 1 and 5" ;;
    let objective := objective_of entry boundary ratio in
    raise_if (objective <=? fzero)%flt "objective must remain positive" ;;
    PlanDraft.new symbol PlanStatus.READY (Some entry) (Some boundary) (Some objective)
      multiplier ratio ["plan created"].

(** ** [strategy/review.py] *)

Record CandidateReview : Type := MkCandidateReview {
  review_symbol : string;
  structure_ok : bool;
  validation_ok : bool;
  freshness_ok : bool;
  review_notes : list string }.

Definition classify_candidate (review : CandidateReview) : string :=
  if structure_ok review && validation_ok review && freshness_ok review then "READY"
  else if structure_ok review then "REVIEW"
  else "WATCH".

(** ** [lifecycle/models.py] *)

Module LifecycleState.
Inductive t : Type := PENDING | ACTIVE | EXPIRED | CLOSED.
#[global] Instance eq_dec : EqDecision t.
Proof. solve_decision. Defined.
Definition value (s : t) : string :=
  match s with
  | PENDING => "PENDING" | ACTIVE => "ACTIVE" | EXPIRED => "EXPIRED" | CLOSED => "CLOSED"
  end.
Definition members : list t := [PENDING; ACTIVE; EXPIRED; CLOSED].
End LifecycleState.

Module LifecycleRecord.
Record t : Type := Mk {
  symbol : string;
  state : LifecycleState.t;
  created_at : aware;
  updated_at : aware;
  expires_at : aware;
  closed_at : option aware;
  notes : list string }.
Definition is_terminal (r : t) : bool :=
  bool_decide (state r ∈ [LifecycleState.EXPIRED; LifecycleState.CLOSED]).
(** [replace(record, state=.., updated_at=.., notes=record.notes + (note,))] *)
Definition moved (r : t) (state : LifecycleState.t) (updated_at : aware)
    (closed_at : option aware) (note : string) : t :=
  Mk (symbol r) state (created_at r) updated_at (expires_at r) closed_at (notes r ++ [note]).
End LifecycleRecord.
Import LifecycleRecord (is_terminal, moved).

(** ** [lifecycle/service.py] *)

Definition _require_forward_time (record : LifecycleRecord.t) (now : datetime) : res aware :=
  now ← require_aware now "now must be timezone-aware";
  raise_if (py_lt now (LifecycleRecord.updated_at record)) "time cannot move backwards" ;;
  mret now.

Definition create_lifecycle (plan : PlanDraft.t) (now : datetime) (ttl_minutes : Z) :
    res LifecycleRecord.t :=
  now ← require_aware now "now must be timezone-aware";
  raise_if (ttl_minutes <=? 0) "ttl_minutes must be positive" ;;
  let state := if decide (PlanDraft.status plan = PlanStatus.READY)
               then LifecycleState.ACTIVE else LifecycleState.PENDING in
  let note := if decide (state = LifecycleState.ACTIVE)
              then "ready plan activated" else "held plan pending" in
  ttl ← delta_of_us (minutes ttl_minutes);
  expires_at ← date_add now ttl;
  mret (LifecycleRecord.Mk (PlanDraft.symbol plan) state now now expires_at None [note]).

Definition advance_lifecycle (record : LifecycleRecord.t) (now : datetime) :
    res LifecycleRecord.t :=
  now ← _require_forward_time record now;
  if is_terminal record then mret record
  else if py_lt now (LifecycleRecord.expires_at record) then mret record
  else mret (moved record LifecycleState.EXPIRED now (LifecycleRecord.closed_at record) "expired").

Definition activate_lifecycle (record : LifecycleRecord.t) (now : datetime) :
    res LifecycleRecord.t :=
  t ← _require_forward_time record now;
  if is_terminal record || bool_decide (LifecycleRecord.state record = LifecycleState.ACTIVE)
  then mret record
  else if py_le (LifecycleRecord.expires_at record) t then advance_lifecycle record now
  else mret (moved record LifecycleState.ACTIVE t (LifecycleRecord.closed_at record) "activated").

Definition close_lifecycle (record : LifecycleRecord.t) (now : datetime) (note : string) :
    res LifecycleRecord.t :=
  now ← _require_forward_time record now;
  if is_terminal record then mret record
  else
    let normalized_note := if str_empty (str_strip note) then "closed" else str_strip note in
    mret (moved record LifecycleState.CLOSED now (Some now) normalized_note).

(** ** The life cycle as a transition system *)

(** One successful call of an operation. *)
Inductive lifecycle_step (r : LifecycleRecord.t) : LifecycleRecord.t -> Prop :=
| step_advance now r' : advance_lifecycle r now = Ok r' -> lifecycle_step r r'
| step_activate now r' : activate_lifecycle r now = Ok r' -> lifecycle_step r r'
| step_close now note r' : close_lifecycle r now note = Ok r' -> lifecycle_step r r'.

(** The transitions the operations can make, without the operations: nothing, or a
    move at a time that is not earlier than the last one. *)
Inductive lifecycle_move (r : LifecycleRecord.t) : LifecycleRecord.t -> Prop :=
| move_none : lifecycle_move r r
| move_expire t note :
    is_terminal r = false ->
    utc (LifecycleRecord.updated_at r) <= utc t ->
    utc (LifecycleRecord.expires_at r) <= utc t ->
    lifecycle_move r (moved r LifecycleState.EXPIRED t (LifecycleRecord.closed_at r) note)
| move_activate t note :
    LifecycleRecord.state r = LifecycleState.PENDING ->
    utc (LifecycleRecord.updated_at r) <= utc t < utc (LifecycleRecord.expires_at r) ->
    lifecycle_move r (moved r LifecycleState.ACTIVE t (LifecycleRecord.closed_at r) note)
| move_close t note :
    is_terminal r = false ->
    utc (LifecycleRecord.updated_at r) <= utc t ->
    lifecycle_move r (moved r LifecycleState.CLOSED t (Some t) note).

Lemma forward_time_Ok r now t :
  _require_forward_time r now = Ok t ->
  require_aware now "now must be timezone-aware" = Ok t /\
  utc (LifecycleRecord.updated_at r) <= utc t.
Proof.
  unfold _require_forward_time. intros H. res_inv. subst. split; [done|].
  by apply aware_lt_false.
Qed.

Lemma advance_move r now r' : advance_lifecycle r now = Ok r' -> lifecycle_move r r'.
Proof.
  unfold advance_lifecycle. intros H. res_inv.
  match goal with F : _require_forward_time _ _ = Ok _ |- _ => apply forward_time_Ok in F as [_ Ht] end.
  destruct (is_terminal r) eqn:Et; [res_inv; subst; constructor|].
  destruct (py_lt _ _) eqn:El; res_inv; subst; [constructor|].
  apply aware_lt_false in El. by constructor.
Qed.

Lemma is_terminal_false r :
  is_terminal r = false <->
  LifecycleRecord.state r = LifecycleState.PENDING \/ LifecycleRecord.state r = LifecycleState.ACTIVE.
Proof. unfold is_terminal. destruct (LifecycleRecord.state r); split; naive_solver. Qed.

Lemma step_move r r' : lifecycle_step r r' -> lifecycle_move r r'.
Proof.
  intros [now r1 H | now r1 H | now note r1 H]; [by eapply advance_move| |].
  - unfold activate_lifecycle in H. res_inv.
    destruct (is_terminal r || _) eqn:Et; [res_inv; subst; constructor|].
    destruct (py_le _ _) eqn:El; [by eapply advance_move|]. res_inv. subst.
    match goal with F : _require_forward_time _ _ = Ok _ |- _ => apply forward_time_Ok in F as [_ Ht] end.
    apply aware_le_false in El. guards. constructor; [|lia].
    match goal with T : is_terminal r = false |- _ => apply is_terminal_false in T; naive_solver end.
  - unfold close_lifecycle in H. res_inv.
    match goal with F : _require_forward_time _ _ = Ok _ |- _ => apply forward_time_Ok in F as [_ Ht] end.
    destruct (is_terminal r) eqn:Et; res_inv; subst; [constructor|by constructor].
Qed.

(** What every record of the package satisfies. *)
Record lifecycle_ok (r : LifecycleRecord.t) : Prop := {
  lc_created : utc (LifecycleRecord.created_at r) <= utc (LifecycleRecord.updated_at r);
  lc_expires : utc (LifecycleRecord.created_at r) < utc (LifecycleRecord.expires_at r);
  lc_live : is_terminal r = false ->
    utc (LifecycleRecord.updated_at r) < utc (LifecycleRecord.expires_at r);
  lc_expired : LifecycleRecord.state r = LifecycleState.EXPIRED ->
    utc (LifecycleRecord.expires_at r) <= utc (LifecycleRecord.updated_at r);
  lc_closed : LifecycleRecord.closed_at r =
    if decide (LifecycleRecord.state r = LifecycleState.CLOSED)
    then Some (LifecycleRecord.updated_at r) else None }.

(** When a life cycle expires: [ttl] minutes from now, if that is a date. *)
Definition expiry (now : aware) (ttl_minutes : Z) : res aware :=
  ttl ← delta_of_us (minutes ttl_minutes); date_add now ttl.

Lemma expiry_Ok now ttl t : expiry now ttl = Ok t -> t = time_add now (minutes ttl).
Proof. unfold expiry. intros (v & ->%delta_of_us_Ok & [-> _]%date_add_Ok)%bind_Ok. done. Qed.

(** Creating a life cycle with a positive time to live fails only when that is no date. *)
Lemma create_lifecycle_Ok plan now ttl r :
  create_lifecycle plan (AwareDT now) ttl = Ok r -> expiry now ttl = Ok (LifecycleRecord.expires_at r).
Proof.
  unfold create_lifecycle, require_aware, expiry. rewrite Ok_bind. intros H. guards. subst r. simpl.
  match goal with H : delta_of_us _ = Ok _ |- _ => rewrite H end. done.
Qed.

Lemma create_lifecycle_total plan now ttl t :
  0 < ttl -> expiry now ttl = Ok t -> exists r, create_lifecycle plan (AwareDT now) ttl = Ok r.
Proof.
  intros Ht (v & Hv & Hd)%bind_Ok. unfold create_lifecycle, require_aware. rewrite Ok_bind.
  rewrite guard_pass by lia. bind_ok. rewrite Hv. bind_ok. rewrite Hd. by eexists.
Qed.

Lemma create_lifecycle_Err plan now ttl e :
  0 < ttl -> create_lifecycle plan (AwareDT now) ttl = Err e -> expiry now ttl = Err e.
Proof.
  intros Ht. unfold create_lifecycle, require_aware, expiry. rewrite Ok_bind, guard_pass by lia. bind_ok.
  destruct (delta_of_us _) as [v|]; [|by intros [= ->]]. bind_ok. destruct (date_add _ _); [discriminate|by intros [= ->]].
Qed.

Lemma create_lifecycle_ok plan now ttl r : create_lifecycle plan now ttl = Ok r -> lifecycle_ok r.
Proof.
  unfold create_lifecycle. intros H. guards. subst r.
  match goal with H : delta_of_us _ = Ok _ |- _ => apply delta_of_us_Ok in H as -> end.
  match goal with H : date_add _ _ = Ok _ |- _ => apply date_add_Ok in H as [-> _] end.
  assert (0 < minutes ttl) by (unfold minutes, us_per_second; lia).
  repeat case_decide; constructor; simpl; try done; lia.
Qed.

Lemma move_ok r r' : lifecycle_move r r' -> lifecycle_ok r -> lifecycle_ok r'.
Proof.
  intros H [Hc He Hl Hx Hd]. destruct H as [|t note Hn Ht Hle|t note Hs Ht|t note Hn Ht]; [by constructor|..].
  - assert (LifecycleRecord.state r <> LifecycleState.CLOSED) as Hnc
      by (apply is_terminal_false in Hn; by destruct Hn as [-> | ->]).
    rewrite decide_False in Hd by done. constructor; simpl; try done; lia.
  - rewrite decide_False in Hd by (by rewrite Hs). constructor; simpl; try done; lia.
  - constructor; simpl; try done; lia.
Qed.

(** How a record relates to a later one. *)
Record lifecycle_later (r r' : LifecycleRecord.t) : Prop := {
  ll_symbol : LifecycleRecord.symbol r' = LifecycleRecord.symbol r;
  ll_created : LifecycleRecord.created_at r' = LifecycleRecord.created_at r;
  ll_expires : LifecycleRecord.expires_at r' = LifecycleRecord.expires_at r;
  ll_updated : utc (LifecycleRecord.updated_at r) <= utc (LifecycleRecord.updated_at r');
  ll_notes : LifecycleRecord.notes r `prefix_of` LifecycleRecord.notes r';
  ll_terminal : is_terminal r = true -> r' = r;
  ll_active : LifecycleRecord.state r = LifecycleState.ACTIVE ->
    LifecycleRecord.state r' <> LifecycleState.PENDING }.

#[global] Instance lifecycle_later_refl : Reflexive lifecycle_later.
Proof. intros r. constructor; try done; try lia. congruence. Qed.

Lemma move_later r r' : lifecycle_move r r' -> lifecycle_later r r'.
Proof.
  intros [|t note Hn Ht Hle|t note Hs Ht|t note Hn Ht]; [reflexivity|..];
    constructor; simpl; try done; try lia; try (by apply prefix_app_r); try congruence.
  intros Hterm. unfold is_terminal in Hterm. by rewrite Hs in Hterm.
Qed.

#[global] Instance lifecycle_later_trans : Transitive lifecycle_later.
Proof.
  intros r1 r2 r3 [s1 c1 e1 u1 n1 t1 a1] [s2 c2 e2 u2 n2 t2 a2].
  constructor; [congruence..|lia|by etrans| |].
  - intros Ht. rewrite <- (t1 Ht) in Ht |- *. auto.
  - intros Ha. specialize (a1 Ha). unfold is_terminal in t2.
    destruct (LifecycleRecord.state r2) eqn:E2; [done|by apply a2|..]; rewrite t2, E2; done.
Qed.

Lemma steps_later r r' : rtc lifecycle_step r r' -> lifecycle_later r r'.
Proof.
  induction 1 as [|r1 r2 r3 H _ IH]; [reflexivity|]. etrans; [|exact IH].
  by apply move_later, step_move.
Qed.

Lemma steps_ok r r' : rtc lifecycle_step r r' -> lifecycle_ok r -> lifecycle_ok r'.
Proof.
  induction 1 as [|r1 r2 r3 H _ IH]; [done|]. intros Hok. apply IH.
  exact (move_ok _ _ (step_move _ _ H) Hok).
Qed.

(** ** The objective *)

Lemma fval_zero : (fval fzero == 0)%Q.
Proof. reflexivity. Qed.

(** Subtracting and rounding between representable bounds. *)
Lemma fsub_between m e m' e' lo hi :
  ffits lo -> ffits hi ->
  (fval lo <= fval (Fl m e) - fval (Fl m' e') <= fval hi)%Q ->
  (lo <=? fsub (Fl m e) (Fl m' e'))%flt = true /\ (fsub (Fl m e) (Fl m' e') <=? hi)%flt = true.
Proof.
  intros Hlo Hhi [Hl Hh]. destruct (fsub_round m e m' e') as (n & d & Hd & -> & Hn).
  pose proof (injZ_pos d Hd). split; [apply fround_ge|apply fround_le]; try done; rewrite Hn;
    apply Qmult_le_compat_r; lra.
Qed.

Lemma fleb_between_finite lo x hi :
  is_finite_float lo = true -> is_finite_float hi = true ->
  (lo <=? x)%flt = true -> (x <=? hi)%flt = true -> is_finite_float x = true.
Proof. destruct lo, hi, x as [| [] |]; done. Qed.

Section objective.
Context (entry boundary ratio : float).
Context (He : ffits entry) (Hb : ffits boundary) (Hr : is_finite_float ratio = true).
Context (Hpos : (entry <=? fzero)%flt = false) (Habove : (boundary <=? entry)%flt = false).
Context (Hratio : (ratio <=? fzero)%flt = false).

Lemma distance_bounds :
  (fzero <=? fsub boundary entry)%flt = true /\ (fsub boundary entry <=? boundary)%flt = true.
Proof.
  destruct entry as [m e| |], boundary as [m' e'| |]; try done.
  apply fleb_val_false in Hpos, Habove. rewrite fval_zero in Hpos.
  apply fsub_between; [split; simpl; lia|done|]. rewrite fval_zero. lra.
Qed.

(** The rounded objective never exceeds the entry, and is a number. *)
Lemma objective_le_entry :
  (objective_of entry boundary ratio <=? entry)%flt = true.
Proof.
  destruct distance_bounds as [Hlo Hhi].
  assert (is_finite_float (fsub boundary entry) = true) as Hf.
  { apply (fleb_between_finite fzero _ boundary); try done. by apply ffits_finite. }
  unfold objective_of. cbv zeta.
  destruct (fsub boundary entry) as [dm de| |]; [|done..]. destruct ratio as [rm re| |]; [|done..].
  destruct entry as [em ee| |]; [|done..].
  apply fleb_val in Hlo. apply fleb_val_false in Hratio. rewrite fval_zero in Hlo, Hratio.
  destruct (fmul_round dm de rm re) as (n & d & Hd & -> & Hn).
  pose proof (injZ_pos d Hd) as Hdq.
  assert (0 <= inject_Z n)%Q as Hn0.
  { rewrite Hn. apply Qmult_le_0_compat; [apply Qmult_le_0_compat|]; lra. }
  assert ((fzero <=? fround n d)%flt = true) as Hp.
  { apply fround_ge; [done|split; simpl; lia|]. rewrite fval_zero. lra. }
  destruct (fround n d) as [pm pe|[]|]; [|done..].
  destruct (fsub_round em ee pm pe) as (n' & d' & Hd' & -> & Hn').
  pose proof (injZ_pos d' Hd'). apply fleb_val in Hp. rewrite fval_zero in Hp.
  apply fround_le; [done..|]. rewrite Hn'. apply Qmult_le_compat_r; lra.
Qed.
End objective.

(** The numbers [build_plan] accepts. *)
Definition plannable (entry boundary : float) (multiplier : Z) (ratio : float) : bool :=
  (fzero <? entry)%flt && (entry <? boundary)%flt && (fzero <? ratio)%flt &&
  (1 <=? multiplier) && (multiplier <=? 5) && (fzero <? objective_of entry boundary ratio)%flt.

Lemma finite_lt_le x y :
  is_finite_float x = true -> is_finite_float y = true -> (x <? y)%flt = negb (y <=? x)%flt.
Proof. intros; apply fltb_not_fleb; by destruct x, y. Qed.

Lemma PlanRequest_new_Ok s e b m r request :
  PlanRequest.new s e b m r = Ok request ->
  request = PlanRequest.Mk (str_strip s) e b m r /\ str_empty (str_strip s) = false /\
  is_finite_float e = true /\ is_finite_float b = true /\ is_finite_float r = true.
Proof. unfold PlanRequest.new, finite_float. intros H. guards. by subst. Qed.

Lemma PlanDraft_new_READY s e b o m r notes :
  str_empty (str_strip s) = false -> (m <? 1) || (m >? 5) = false ->
  is_finite_float r = true -> is_finite_float e = true -> is_finite_float b = true ->
  is_finite_float o = true ->
  PlanDraft.new s PlanStatus.READY (Some e) (Some b) (Some o) m r notes =
  Ok (PlanDraft.Mk (str_strip s) PlanStatus.READY (Some e) (Some b) (Some o) m r notes).
Proof.
  intros Hs Hm Hr He Hb Ho. unfold PlanDraft.new, optional_float, finite_float.
  rewrite Hr, He, Hb, Ho, Hs, Hm. reflexivity.
Qed.

Lemma held_Ok s notes :
  str_empty (str_strip s) = false ->
  PlanDraft.held s notes =
  Ok (PlanDraft.Mk (str_strip s) PlanStatus.HOLD None None None 1 (Fl 2 0) notes).
Proof. intros Hs. unfold PlanDraft.held, PlanDraft.new. rewrite Hs. reflexivity. Qed.

Section build.
Context (s : string) (e b : float) (m : Z) (r : float) (request : PlanRequest.t).
Context (Hreq : PlanRequest.new s e b m r = Ok request) (He : ffits e) (Hb : ffits b).

Lemma objective_finite :
  (e <=? fzero)%flt = false -> (b <=? e)%flt = false -> (r <=? fzero)%flt = false ->
  (objective_of e b r <=? fzero)%flt = false ->
  is_finite_float (objective_of e b r) = true /\ (objective_of e b r <=? e)%flt = true.
Proof.
  intros H1 H2 H3 H4. apply PlanRequest_new_Ok in Hreq as (_ & _ & _ & _ & Hr).
  pose proof (objective_le_entry e b r He Hb Hr H1 H2 H3) as Hle. split; [|done].
  destruct e as [em ee| |]; [|done..].
  destruct (objective_of _ b r) as [| [] |]; done.
Qed.

Lemma build_plan_ready flow :
  FlowResult.is_ready flow = true ->
  if plannable e b m r then
    build_plan flow request =
    Ok (PlanDraft.Mk (str_strip s) PlanStatus.READY (Some e) (Some b)
          (Some (objective_of e b r)) m r ["plan created"])
  else exists msg, build_plan flow request = Err (ValueError msg).
Proof.
  intros Hf. pose proof objective_finite as Hof.
  apply PlanRequest_new_Ok in Hreq as (-> & Hs & Hfe & Hfb & Hfr).
  unfold build_plan. rewrite Hf. cbn [negb PlanRequest.symbol PlanRequest.entry_value
    PlanRequest.boundary_value PlanRequest.ratio PlanRequest.multiplier]. cbv zeta.
  rewrite str_strip_idemp, guard_pass by done. unfold plannable.
  rewrite (finite_lt_le fzero e), (finite_lt_le fzero r), (finite_lt_le e b) by done.
  destruct (e <=? fzero)%flt eqn:E1; [by eexists|].
  assert ((b <=? fzero)%flt = true -> (b <=? e)%flt = true) as E2'.
  { destruct e as [em ee| |], b as [bm be| |]; try done. apply fleb_val_false in E1.
    change fzero with (Fl 0 0). rewrite !fleb_val. lra. }
  destruct (b <=? e)%flt eqn:E2.
  { destruct (b <=? fzero)%flt; by eexists. }
  destruct (b <=? fzero)%flt; [by specialize (E2' eq_refl)|]. cbn [orb raise_if]. bind_ok.
  destruct (r <=? fzero)%flt eqn:E3; [by eexists|]. cbn [raise_if]. bind_ok.
  assert (((m <? 1) || (m >? 5)) = negb ((1 <=? m) && (m <=? 5))) as Em by lia.
  destruct ((m <? 1) || (m >? 5)) eqn:E4.
  { assert ((1 <=? m) && (m <=? 5) = false) as Em' by lia. cbn [andb negb].
    rewrite Em'. by eexists. }
  assert ((1 <=? m) = true) as Em1 by lia. assert ((m <=? 5) = true) as Em2 by lia.
  rewrite Em1, Em2. cbn [andb negb raise_if]. bind_ok.
  destruct (objective_of e b r <=? fzero)%flt eqn:E5.
  - destruct (fzero <? objective_of e b r)%flt eqn:E6; [|by eexists].
    apply fzero_of_lt in E6. congruence.
  - destruct (Hof eq_refl eq_refl eq_refl eq_refl) as [Hfo _]. rewrite finite_lt_le, E5 by done.
    cbn [negb raise_if]. bind_ok.
    rewrite PlanDraft_new_READY by (try done; by rewrite str_strip_idemp). by rewrite str_strip_idemp.
Qed.
End build.

(** ** Properties *)

(** C16: [build_plan] never fails on a flow that is not ready: it holds, with no
    prices.  On a ready flow it never holds: it returns the READY plan exactly when
    entry, boundary, ratio, multiplier and the (rounded) objective are in range, and
    otherwise raises a [ValueError].  A READY plan satisfies
    0 < objective <= entry < boundary with finite prices, whatever the rounding. *)
Theorem build_plan_exact s e b m r request flow :
  PlanRequest.new s e b m r = Ok request -> ffits e -> ffits b ->
  (FlowResult.is_ready flow = false ->
    build_plan flow request =
    Ok (PlanDraft.Mk (str_strip s) PlanStatus.HOLD None None None 1 (Fl 2 0)
          ["flow is not ready"])) /\
  (FlowResult.is_ready flow = true -> plannable e b m r = true ->
    build_plan flow request =
    Ok (PlanDraft.Mk (str_strip s) PlanStatus.READY (Some e) (Some b)
          (Some (objective_of e b r)) m r ["plan created"]) /\
    (fzero <? objective_of e b r)%flt = true /\ (objective_of e b r <=? e)%flt = true /\
    (e <? b)%flt = true /\ is_finite_float (objective_of e b r) = true) /\
  (FlowResult.is_ready flow = true -> plannable e b m r = false ->
    exists msg, build_plan flow request = Err (ValueError msg)).
Proof.
  intros Hreq He Hb. split; [|split].
  - intros Hf. apply PlanRequest_new_Ok in Hreq as (-> & Hs & _).
    unfold build_plan. rewrite Hf. cbn [negb PlanRequest.symbol].
    rewrite held_Ok by (by rewrite str_strip_idemp). by rewrite str_strip_idemp.
  - intros Hf Hp. pose proof (build_plan_ready s e b m r request Hreq He Hb flow Hf) as H.
    rewrite Hp in H. split; [exact H|]. unfold plannable in Hp.
    repeat match type of Hp with _ && _ = true => apply andb_true_iff in Hp as [Hp ?] end.
    destruct (objective_finite s e b m r request Hreq He Hb) as [Ho Hle]; [by apply fzero_of_lt..|].
    auto.
  - intros Hf Hp. pose proof (build_plan_ready s e b m r request Hreq He Hb flow Hf) as H.
    by rewrite Hp in H.
Qed.

Lemma build_plan_exact_witness :
  exists request plan,
    PlanRequest.new " BTC " (Fl 100 0) (Fl 110 0) 3 (Fl 2 0) = Ok request /\
    build_plan (FlowResult.Mk "BTC" FlowStatus.READY ["ready"]) request = Ok plan /\
    PlanDraft.status plan = PlanStatus.READY /\
    feqb (objective_of (Fl 100 0) (Fl 110 0) (Fl 2 0)) (Fl 80 0) = true.
Proof.
  destruct (PlanRequest.new " BTC " (Fl 100 0) (Fl 110 0) 3 (Fl 2 0)) as [request|] eqn:E;
    [|vm_compute in E; discriminate E].
  destruct (build_plan_exact _ _ _ _ _ _ (FlowResult.Mk "BTC" FlowStatus.READY ["ready"]) E
    ltac:(split; simpl; lia) ltac:(split; simpl; lia)) as (_ & H & _).
  destruct (H eq_refl ltac:(vm_compute; reflexivity)) as [Hp _].
  exists request, (PlanDraft.Mk (str_strip " BTC ") PlanStatus.READY (Some (Fl 100 0)) (Some (Fl 110 0))
    (Some (objective_of (Fl 100 0) (Fl 110 0) (Fl 2 0))) 3 (Fl 2 0) ["plan created"]).
  split; [reflexivity|]. split; [exact Hp|]. split; [reflexivity|vm_compute; reflexivity].
Defined.

(** [build_plan] does not make the objective lie strictly below the entry: with a
    ratio that is small against the entry the rounded objective is the entry itself,
    and the plan, without reward, is READY. *)
Theorem ready_plan_without_reward :
  exists request plan objective,
    PlanRequest.new "BTC" (Fl 1 0) (Fl 2 0) 1 (Fl 1 (-60)) = Ok request /\
    build_plan (FlowResult.Mk "BTC" FlowStatus.READY ["ready"]) request = Ok plan /\
    PlanDraft.status plan = PlanStatus.READY /\
    PlanDraft.objective_value plan = Some objective /\ feqb objective (Fl 1 0) = true.
Proof.
  exists (PlanRequest.Mk "BTC" (Fl 1 0) (Fl 2 0) 1 (Fl 1 (-60))).
  exists (PlanDraft.Mk "BTC" PlanStatus.READY (Some (Fl 1 0)) (Some (Fl 2 0))
    (Some (objective_of (Fl 1 0) (Fl 2 0) (Fl 1 (-60)))) 1 (Fl 1 (-60)) ["plan created"]).
  exists (objective_of (Fl 1 0) (Fl 2 0) (Fl 1 (-60))).
  split; [vm_compute; reflexivity|]. split; [vm_compute; reflexivity|].
  split; [reflexivity|]. split; [reflexivity|vm_compute; reflexivity].
Qed.

(** C38: every record reachable from a created life cycle by any sequence of advance,
    activate and close calls is consistent: it is created before it expires, a live
    record was last moved before its expiry, an EXPIRED one not before it, and
    [closed_at] is set exactly in CLOSED, to the time of the last move. *)
Theorem lifecycle_reachable_ok plan now ttl r r' :
  create_lifecycle plan now ttl = Ok r -> rtc lifecycle_step r r' -> lifecycle_ok r'.
Proof. intros Hc Hs. eapply steps_ok; [done|]. by eapply create_lifecycle_ok. Qed.

(** Along every sequence of calls the symbol, the creation and the expiry time
    never change, the time of the last move never goes back, notes are only appended,
    an active record never becomes pending again, and EXPIRED and CLOSED are final:
    a terminal record is returned unchanged for ever. *)
Theorem lifecycle_monotone r r' :
  rtc lifecycle_step r r' -> lifecycle_later r r'.
Proof. apply steps_later. Qed.

(** What a call does at an instant [t] not before the last move of a live record:
    advance expires it from its expiry time on and leaves it alone before; activate
    leaves an active one alone (an expired one too, until it is advanced), expires a
    pending one from its expiry time on and makes it active before; close closes it,
    before or after its expiry.  An earlier instant is refused by all three. *)
Theorem lifecycle_operations_exact r t note :
  is_terminal r = false ->
  if utc t <? utc (LifecycleRecord.updated_at r) then
    advance_lifecycle r (AwareDT t) = Err (ValueError "time cannot move backwards") /\
    activate_lifecycle r (AwareDT t) = Err (ValueError "time cannot move backwards") /\
    close_lifecycle r (AwareDT t) note = Err (ValueError "time cannot move backwards")
  else
    advance_lifecycle r (AwareDT t) =
      Ok (if utc (LifecycleRecord.expires_at r) <=? utc t
          then moved r LifecycleState.EXPIRED t (LifecycleRecord.closed_at r) "expired" else r) /\
    (LifecycleRecord.state <$> activate_lifecycle r (AwareDT t) =
      Ok (if decide (LifecycleRecord.state r = LifecycleState.ACTIVE) then LifecycleState.ACTIVE
          else if utc (LifecycleRecord.expires_at r) <=? utc t
          then LifecycleState.EXPIRED else LifecycleState.ACTIVE)) /\
    (LifecycleRecord.closed_at <$> close_lifecycle r (AwareDT t) note = Ok (Some t)).
Proof.
  intros Hn. destruct (Z.ltb_spec (utc t) (utc (LifecycleRecord.updated_at r))) as [H|H].
  - apply aware_lt_utc in H. unfold advance_lifecycle, activate_lifecycle, close_lifecycle,
      _require_forward_time. simpl. by rewrite H.
  - apply aware_lt_false in H.
    assert (_require_forward_time r (AwareDT t) = Ok t) as Hf
      by (unfold _require_forward_time; simpl; by rewrite H).
    unfold activate_lifecycle, advance_lifecycle, close_lifecycle. rewrite !Hf. bind_ok.
    rewrite Hn. cbn [orb].
    destruct (Z.leb_spec (utc (LifecycleRecord.expires_at r)) (utc t)) as [Hx|Hx].
    + pose proof Hx as Hx'. apply aware_lt_false in Hx. apply aware_le_utc in Hx'. rewrite Hx, Hx'.
      split; [done|]. split; [|done]. rewrite !bool_decide_decide. case_decide; simpl; congruence.
    + pose proof Hx as Hx'. apply aware_lt_utc in Hx. apply aware_le_false in Hx'. rewrite Hx, Hx'.
      split; [done|]. split; [|done]. rewrite !bool_decide_decide. case_decide; simpl; congruence.
Qed.

Definition sample_plan : PlanDraft.t :=
  PlanDraft.Mk "BTC" PlanStatus.READY (Some (Fl 100 0)) (Some (Fl 110 0)) (Some (Fl 80 0)) 3 (Fl 2 0)
    ["plan created"].

Definition sample_life : LifecycleRecord.t :=
  LifecycleRecord.Mk "BTC" LifecycleState.ACTIVE (Aware 0 0) (Aware 0 0) (Aware (minutes 60) 0)
    None ["ready plan activated"].

Definition sample_expired : LifecycleRecord.t :=
  moved sample_life LifecycleState.EXPIRED (Aware (minutes 61) 0) None "expired".

Lemma sample_steps : rtc lifecycle_step sample_life sample_expired.
Proof.
  eapply rtc_l; [|apply rtc_refl]. apply (step_advance _ (AwareDT (Aware (minutes 61) 0))).
  reflexivity.
Qed.

Lemma lifecycle_reachable_ok_witness :
  create_lifecycle sample_plan (AwareDT (Aware 0 0)) 60 = Ok sample_life /\
  lifecycle_ok sample_expired.
Proof.
  split; [reflexivity|].
  apply (lifecycle_reachable_ok sample_plan (AwareDT (Aware 0 0)) 60 sample_life); [reflexivity|].
  exact sample_steps.
Defined.

Lemma lifecycle_monotone_witness : lifecycle_later sample_life sample_expired.
Proof. apply lifecycle_monotone. exact sample_steps. Defined.

Lemma lifecycle_operations_exact_witness :
  is_terminal sample_life = false /\
  advance_lifecycle sample_life (AwareDT (Aware (minutes 61) 0)) = Ok sample_expired.
Proof.
  split; [reflexivity|].
  exact (proj1 (lifecycle_operations_exact sample_life (Aware (minutes 61) 0) "done" eq_refl)).
Defined.
