(* ===== verification/Signals.v ===== *)
(** * Signal assembly: [signals/models.py], [signals/service.py]

    [assemble_signal] runs eleven gates over a request (discovery context, symbol
    alignment, higher-timeframe damage, structure, setup, flow, LBank execution,
    cross-exchange consensus, entry alignment, planning, life cycle) and stops at the
    first stage that does not pass; the report lists every gate, evaluated or not.

    The function is cut at its stages.  A stage returns [Stop status a] where the code
    returns [_finish(...)] early and [Next a] where it goes on; [Assembly] holds the
    local variables that [_finish] receives. *)

From stdpp Require Import list strings gmap.
From S2P Require Import Prelude PyList PyStr PyDecimal DecimalFacts DecimalContext PyTime PyFloat FloatFacts.
From S2P Require Import LBank Benchmarks Consensus Workflow Planning Discovery.
Open Scope Z_scope.

(** ** [signals/models.py] *)

Module ShortSetupType.
Inductive t : Type := BREAKDOWN_SHORT | FAILED_PULLBACK_SHORT | CONTINUATION_SHORT.
#[global] Instance eq_dec : EqDecision t.
Proof. solve_decision. Defined.
Definition value (s : t) : string :=
  match s with
  | BREAKDOWN_SHORT => "BREAKDOWN_SHORT"
  | FAILED_PULLBACK_SHORT => "FAILED_PULLBACK_SHORT"
  | CONTINUATION_SHORT => "CONTINUATION_SHORT"
  end.
End ShortSetupType.

Module SignalAssemblyStatus.
Inductive t : Type :=
| HYPE_WATCH | WEAKNESS_WATCH | BREAKDOWN_WATCH | EXECUTION_PENDING
| DATA_DEGRADED | AVOID | SHORT_READY.
#[global] Instance eq_dec : EqDecision t.
Proof. solve_decision. Defined.
Definition value (s : t) : string :=
  match s with
  | HYPE_WATCH => "HYPE_WATCH" | WEAKNESS_WATCH => "WEAKNESS_WATCH" | BREAKDOWN_WATCH => "BREAKDOWN_WATCH" | EXECUTION_PENDING => "EXECUTION_PENDING"
  | DATA_DEGRADED => "DATA_DEGRADED" | AVOID => "AVOID" | SHORT_READY => "SHORT_READY"
  end.
End SignalAssemblyStatus.

Module GateState.
Inductive t : Type := PASS | WARN | FAIL | SKIP.
#[global] Instance eq_dec : EqDecision t.
Proof. solve_decision. Defined.
Definition value (s : t) : string :=
  match s with
  | PASS => "PASS" | WARN => "WARN" | FAIL => "FAIL" | SKIP => "SKIP"
  end.
End GateState.

Module HigherTimeframeEvidenceOrigin.
Inductive t : Type := MANUAL | DERIVED.
#[global] Instance eq_dec : EqDecision t.
Proof. solve_decision. Defined.
Definition value (s : t) : string :=
  match s with
  | MANUAL => "MANUAL" | DERIVED => "DERIVED"
  end.
End HigherTimeframeEvidenceOrigin.

(** The gate names of the program are literals, never blank. *)
Module GateDecision.
Record t : Type := Mk { name : string; state : GateState.t; reasons : list string }.
Definition new (name : string) (state : GateState.t) (reasons : list string) : res t :=
  raise_if (str_empty (str_strip name)) "gate name is required" ;;
  mret (Mk name state reasons).
Definition passed (g : t) : bool := bool_decide (state g ∈ [GateState.PASS; GateState.WARN]).
End GateDecision.

(** Truth of an [str | None]. *)
Definition opt_text (s : option string) : bool :=
  match s with Some s => negb (str_empty s) | None => false end.

Module HigherTimeframeStructureEvidence.
Record t : Type := Mk {
  symbol : string;
  market_symbol : string;
  observed_at : aware;
  daily_damaged : bool;
  four_hour_damaged : bool;
  origin : HigherTimeframeEvidenceOrigin.t;
  daily_zone_id : option string;
  daily_event_id : option string;
  four_hour_zone_id : option string;
  four_hour_event_id : option string;
  reasons : list string }.

Definition new (raw_symbol raw_market : string) (observed_at : datetime)
    (daily_damaged four_hour_damaged : bool) (origin : HigherTimeframeEvidenceOrigin.t)
    (daily_zone daily_event four_hour_zone four_hour_event : option string)
    (reasons : list string) : res t :=
  let symbol := str_strip raw_symbol in
  let market_symbol := str_upper (str_strip raw_market) in
  raise_if (str_empty symbol || str_empty market_symbol)
    "higher-timeframe canonical and market symbols are required" ;;
  observed_at ← require_aware observed_at "higher-timeframe observed_at must be timezone-aware";
  raise_if (negb (bool_decide (origin = HigherTimeframeEvidenceOrigin.DERIVED)))
    "production assembly requires derived higher-timeframe evidence" ;;
  raise_if (daily_damaged && negb (opt_text daily_zone && opt_text daily_event))
    "damaged Daily evidence requires zone and event IDs" ;;
  raise_if (four_hour_damaged && negb (opt_text four_hour_zone && opt_text four_hour_event))
    "damaged 4H evidence requires zone and event IDs" ;;
  mret (Mk symbol market_symbol observed_at daily_damaged four_hour_damaged origin
          daily_zone daily_event four_hour_zone four_hour_event reasons).
End HigherTimeframeStructureEvidence.

Module SignalAssemblyRules.
Record t : Type := Mk {
  max_structure_age_minutes : float;
  max_entry_deviation_bps : dec;
  lifecycle_ttl_minutes : Z;
  max_discovery_records : Z;
  consensus : ConsensusRules }.
Definition new (age : float) (deviation : dec) (ttl records : Z) (consensus : ConsensusRules) : res t :=
  raise_if (age <=? fzero)%flt "max_structure_age_minutes must be positive" ;;
  raise_if (deviation <=? d0)%dec "max_entry_deviation_bps must be positive" ;;
  raise_if (ttl <=? 0) "lifecycle_ttl_minutes must be positive" ;;
  raise_if ((records <? 0) || (records >? 500)) "max_discovery_records must be between 0 and 500" ;;
  mret (Mk age deviation ttl records consensus).
(** [SignalAssemblyRules()] *)
Definition defaults : t := Mk (Fl 360 0) (dint 50) 60 50 default_consensus_rules.
End SignalAssemblyRules.

Module SignalAssemblyRequest.
Record t : Type := Mk {
  symbol : string;
  setup_type : ShortSetupType.t;
  higher_timeframe : HigherTimeframeStructureEvidence.t;
  structure_input : StructureInput.t;
  lbank_snapshot : Snapshot.t;
  benchmark_snapshots : list BenchmarkSnapshot.t;
  symbol_map : CrossExchangeSymbolMap.t;
  plan_request : PlanRequest.t;
  discovery_records : list DiscoveryRecord.t }.

Definition new (raw_symbol : string) (setup_type : ShortSetupType.t)
    (higher_timeframe : HigherTimeframeStructureEvidence.t) (structure_input : StructureInput.t)
    (lbank_snapshot : Snapshot.t) (benchmark_snapshots : list BenchmarkSnapshot.t)
    (symbol_map : CrossExchangeSymbolMap.t) (plan_request : PlanRequest.t)
    (discovery_records : list DiscoveryRecord.t) : res t :=
  let normalized_symbol := str_strip raw_symbol in
  raise_if (str_empty normalized_symbol) "assembly symbol is required" ;;
  let expected := CrossExchangeSymbolMap.expected_symbol symbol_map BenchmarkSource.BYBIT in
  raise_if (negb (opt_text expected)) "Bybit structure symbol mapping is required" ;;
  raise_if (negb (bool_decide (Some (HigherTimeframeStructureEvidence.market_symbol higher_timeframe)
                               = expected)))
    "derived structure market symbol does not match symbol map" ;;
  mret (Mk normalized_symbol setup_type higher_timeframe structure_input lbank_snapshot
          benchmark_snapshots symbol_map plan_request discovery_records).
End SignalAssemblyRequest.

Module SignalAssemblyReport.
Record t : Type := Mk {
  symbol : string;
  setup_type : ShortSetupType.t;
  status : SignalAssemblyStatus.t;
  assembled_at : aware;
  discovery_records : list DiscoveryRecord.t;
  higher_timeframe : HigherTimeframeStructureEvidence.t;
  gates : list GateDecision.t;
  reasons : list string;
  plan : PlanDraft.t;
  lifecycle : LifecycleRecord.t;
  structure : option StructureSnapshot.t;
  setup : option SetupCandidate.t;
  flow : option FlowResult.t;
  lbank_validation : option LBankExecutionValidation;
  consensus : option CrossExchangeConsensusReport;
  entry_deviation_bps : option dec }.
(** The checks of [__post_init__]; [assembled_at] is aware by its type. *)
Definition post_init (r : t) : res t :=
  raise_if (str_empty (str_strip (symbol r))) "report symbol is required" ;;
  mret r.
Definition is_short_ready (r : t) : bool :=
  bool_decide (status r = SignalAssemblyStatus.SHORT_READY).
End SignalAssemblyReport.

(** ** [signals/service.py] *)

Definition GATE_ORDER : list string :=
  ["discovery_context"; "symbol_alignment"; "higher_timeframe_structure"; "structure";
   "setup_classification"; "flow"; "lbank_execution"; "cross_exchange_consensus";
   "entry_alignment"; "planning"; "lifecycle"].

(** [f"{type(error).__name__}:{detail}"[:500] if detail else type(error).__name__] *)
Definition _error_reason (error : exn) : string :=
  let detail := str_strip (exn_detail error) in
  if str_empty detail then exn_type error
  else str_take 500 (exn_type error +:+ ":" +:+ detail).

Definition _discovery_gate (request : SignalAssemblyRequest.t) (rules : SignalAssemblyRules.t) :
    GateDecision.t :=
  let records := SignalAssemblyRequest.discovery_records request in
  let count := Z.of_nat (length records) in
  if count >? SignalAssemblyRules.max_discovery_records rules then
    GateDecision.Mk "discovery_context" GateState.FAIL
      ["DISCOVERY_CONTEXT_TOO_LARGE"; "COUNT_" +:+ int_str count]
  else if count =? 0 then
    GateDecision.Mk "discovery_context" GateState.WARN ["DISCOVERY_CONTEXT_EMPTY"]
  else
    let sources := py_sorted (fun s : string => s)
      (remove_dups ((fun r => DiscoverySource.value (DiscoveryRecord.source r)) <$> records)) in
    GateDecision.Mk "discovery_context" GateState.PASS
      (["COUNT_" +:+ int_str count] ++ ((fun s => "SOURCE_" +:+ s) <$> sources)).

(** The [checks] dictionary, in its order. *)
Definition symbol_checks (request : SignalAssemblyRequest.t) : list (string * string) :=
  [("CANONICAL", CrossExchangeSymbolMap.canonical_symbol (SignalAssemblyRequest.symbol_map request));
   ("HIGHER_TIMEFRAME",
     HigherTimeframeStructureEvidence.symbol (SignalAssemblyRequest.higher_timeframe request));
   ("STRUCTURE", StructureInput.symbol (SignalAssemblyRequest.structure_input request));
   ("PLAN", str_strip (PlanRequest.symbol (SignalAssemblyRequest.plan_request request)))].

Definition _symbol_gate (request : SignalAssemblyRequest.t) : GateDecision.t :=
  let expected := SignalAssemblyRequest.symbol request in
  let reasons :=
    (fun c => c.1 +:+ "_SYMBOL_MISMATCH") <$>
      filter (fun c => c.2 <> expected) (symbol_checks request) in
  let reasons := reasons ++
    (if decide (Snapshot.symbol (SignalAssemblyRequest.lbank_snapshot request) =
                CrossExchangeSymbolMap.lbank_symbol (SignalAssemblyRequest.symbol_map request))
     then [] else ["LBANK_SYMBOL_MISMATCH"]) in
  match reasons with
  | [] => GateDecision.Mk "symbol_alignment" GateState.PASS ["SYMBOLS_ALIGNED"]
  | _ => GateDecision.Mk "symbol_alignment" GateState.FAIL reasons
  end.

(** [(now - observed_at).total_seconds() / 60] *)
Definition age_minutes_of (request : SignalAssemblyRequest.t) (now : aware) : res float :=
  fdiv (total_seconds (time_sub now
          (HigherTimeframeStructureEvidence.observed_at
             (SignalAssemblyRequest.higher_timeframe request)))) (Fl 60 0).

Definition _higher_timeframe_gate (request : SignalAssemblyRequest.t) (now : aware)
    (rules : SignalAssemblyRules.t) : res (GateDecision.t * SignalAssemblyStatus.t) :=
  let evidence := SignalAssemblyRequest.higher_timeframe request in
  age_minutes ← age_minutes_of request now;
  let degraded :=
    if (age_minutes <? fopp (int_truediv 1 60))%flt then ["STRUCTURE_EVIDENCE_FROM_FUTURE"]
    else reason (age_minutes >? SignalAssemblyRules.max_structure_age_minutes rules)%flt
           "STRUCTURE_EVIDENCE_STALE" in
  let missing_damage :=
    reason (negb (HigherTimeframeStructureEvidence.daily_damaged evidence))
      "DAILY_STRUCTURE_NOT_DAMAGED" ++
    reason (negb (HigherTimeframeStructureEvidence.four_hour_damaged evidence))
      "FOUR_HOUR_STRUCTURE_NOT_DAMAGED" in
  let own := HigherTimeframeStructureEvidence.reasons evidence in
  let reasons := degraded ++ missing_damage ++ own in
  mret
    match degraded, missing_damage with
    | _ :: _, _ => (GateDecision.Mk "higher_timeframe_structure" GateState.FAIL reasons,
                    SignalAssemblyStatus.DATA_DEGRADED)
    | [], _ :: _ => (GateDecision.Mk "higher_timeframe_structure" GateState.FAIL reasons,
                     SignalAssemblyStatus.BREAKDOWN_WATCH)
    | [], [] => (GateDecision.Mk "higher_timeframe_structure" GateState.PASS
                   (["AGE_MINUTES_" +:+ float_fmt2 age_minutes] ++ own),
                 SignalAssemblyStatus.SHORT_READY)
    end.

(** The entry of a constructed request is finite: the last case does not occur. *)
Definition _entry_deviation_bps (request : SignalAssemblyRequest.t) : res dec :=
  match decimal_of_float (PlanRequest.entry_value (SignalAssemblyRequest.plan_request request)) with
  | Finite entry =>
      reference ← Snapshot.executable_mid_price (SignalAssemblyRequest.lbank_snapshot request);
      raise_if ((entry <=? d0) || (reference <=? d0))%dec
        "entry and LBank reference must be positive" ;;
      difference ← ctx_sub entry reference;
      gap ← ctx_abs difference;
      ratio ← ctx_div gap reference;
      ctx_mul ratio (dint 10000)
  | _ => Err InvalidOperation
  end.

Definition _watch_status (state : StructureState.t) : SignalAssemblyStatus.t :=
  match state with
  | StructureState.NEUTRAL => SignalAssemblyStatus.HYPE_WATCH
  | StructureState.WEAK => SignalAssemblyStatus.WEAKNESS_WATCH
  | StructureState.ALERT => SignalAssemblyStatus.BREAKDOWN_WATCH
  end.

(** [{gate.name: gate for gate in gates}.get(name)]: the last gate of that name. *)
Definition gate_named (gates : list GateDecision.t) (name : string) : option GateDecision.t :=
  first_where (fun g => bool_decide (GateDecision.name g = name)) (reverse gates).

Definition _complete_gates (gates : list GateDecision.t) : list GateDecision.t :=
  (fun name => default (GateDecision.Mk name GateState.SKIP ["NOT_EVALUATED"])
                 (gate_named gates name)) <$> GATE_ORDER.

(** The local variables that [_finish] receives, [None] until computed. *)
Module Assembly.
Record t : Type := Mk {
  gates : list GateDecision.t;
  structure : option StructureSnapshot.t;
  setup : option SetupCandidate.t;
  flow : option FlowResult.t;
  lbank_validation : option LBankExecutionValidation;
  consensus : option CrossExchangeConsensusReport;
  entry_deviation_bps : option dec;
  plan : option PlanDraft.t;
  lifecycle : option LifecycleRecord.t }.
Definition start : t := Mk [] None None None None None None None None.
Definition add_gate (name : string) (state : GateState.t) (reasons : list string) (a : t) : t :=
  let '(Mk g s c f l x d p y) := a in Mk (g ++ [GateDecision.Mk name state reasons]) s c f l x d p y.
Definition with_structure (s : StructureSnapshot.t) (c : SetupCandidate.t) (f : FlowResult.t) (a : t) : t :=
  let '(Mk g _ _ _ l x d p y) := a in Mk g (Some s) (Some c) (Some f) l x d p y.
Definition with_lbank (l : LBankExecutionValidation) (a : t) : t :=
  let '(Mk g s c f _ x d p y) := a in Mk g s c f (Some l) x d p y.
Definition with_consensus (x : CrossExchangeConsensusReport) (a : t) : t :=
  let '(Mk g s c f l _ d p y) := a in Mk g s c f l (Some x) d p y.
Definition with_deviation (d : dec) (a : t) : t :=
  let '(Mk g s c f l x _ p y) := a in Mk g s c f l x (Some d) p y.
Definition with_plan (p : PlanDraft.t) (a : t) : t :=
  let '(Mk g s c f l x d _ y) := a in Mk g s c f l x d (Some p) y.
Definition with_lifecycle (y : LifecycleRecord.t) (a : t) : t :=
  let '(Mk g s c f l x d p _) := a in Mk g s c f l x d p (Some y).
End Assembly.

Definition _finish (request : SignalAssemblyRequest.t) (now : aware) (rules : SignalAssemblyRules.t)
    (status : SignalAssemblyStatus.t) (a : Assembly.t) : res SignalAssemblyReport.t :=
  let completed_gates := _complete_gates (Assembly.gates a) in
  let reasons := g ← completed_gates;
                 (fun r => GateDecision.name g +:+ ":" +:+ r) <$> GateDecision.reasons g in
  active_plan ← (match Assembly.plan a with
                 | Some p => mret p
                 | None => PlanDraft.held (SignalAssemblyRequest.symbol request)
                             (match reasons with [] => ["ASSEMBLY_HELD"] | _ => reasons end)
                 end);
  active_lifecycle ← (match Assembly.lifecycle a with
                      | Some y => mret y
                      | None => create_lifecycle active_plan (AwareDT now)
                                  (SignalAssemblyRules.lifecycle_ttl_minutes rules)
                      end);
  SignalAssemblyReport.post_init
    (SignalAssemblyReport.Mk (SignalAssemblyRequest.symbol request)
       (SignalAssemblyRequest.setup_type request) status now
       (SignalAssemblyRequest.discovery_records request)
       (SignalAssemblyRequest.higher_timeframe request)
       completed_gates reasons active_plan active_lifecycle
       (Assembly.structure a) (Assembly.setup a) (Assembly.flow a) (Assembly.lbank_validation a)
       (Assembly.consensus a) (Assembly.entry_deviation_bps a)).

(** [return _finish(..)] or fall through to the next statement. *)
Inductive progress : Type :=
| Stop (status : SignalAssemblyStatus.t) (a : Assembly.t)
| Next (a : Assembly.t).

Definition and_then (r : res progress) (k : Assembly.t -> res progress) : res progress :=
  p ← r;
  match p with Stop s a => mret (Stop s a) | Next a => k a end.

(** [try: x = r except Exception as error: gates.append(FAIL); return _finish(DATA_DEGRADED)] *)
Definition or_degrade {A} (name : string) (r : res A) (a : Assembly.t) (k : A -> res progress) :
    res progress :=
  match r with
  | Ok x => k x
  | Err error => mret (Stop SignalAssemblyStatus.DATA_DEGRADED
                         (Assembly.add_gate name GateState.FAIL [_error_reason error] a))
  end.

(** [reasons or (fallback,)] *)
Definition reasons_or (reasons : list string) (fallback : string) : list string :=
  match reasons with [] => [fallback] | _ => reasons end.

Section stages.
Context (request : SignalAssemblyRequest.t) (now : aware) (rules : SignalAssemblyRules.t).

Definition context_stage (a : Assembly.t) : res progress :=
  let discovery := _discovery_gate request rules in
  let a := Assembly.add_gate (GateDecision.name discovery) (GateDecision.state discovery)
             (GateDecision.reasons discovery) a in
  if decide (GateDecision.state discovery = GateState.FAIL) then
    mret (Stop SignalAssemblyStatus.DATA_DEGRADED a)
  else
    let symbol := _symbol_gate request in
    let a := Assembly.add_gate (GateDecision.name symbol) (GateDecision.state symbol)
               (GateDecision.reasons symbol) a in
    if negb (GateDecision.passed symbol) then mret (Stop SignalAssemblyStatus.DATA_DEGRADED a)
    else
      htf ← _higher_timeframe_gate request now rules;
      let '(gate, status) := htf in
      let a := Assembly.add_gate (GateDecision.name gate) (GateDecision.state gate)
                 (GateDecision.reasons gate) a in
      mret (if negb (GateDecision.passed gate) then Stop status a else Next a).

Definition structure_stage (a : Assembly.t) : res progress :=
  or_degrade "structure" (analyze_structure (SignalAssemblyRequest.structure_input request)) a
    (fun structure =>
       let alert := bool_decide (StructureSnapshot.state structure = StructureState.ALERT) in
       let a := Assembly.add_gate "structure" (if alert then GateState.PASS else GateState.FAIL)
                  (StructureSnapshot.reasons structure ++
                   ["STATE_" +:+ StructureState.value (StructureSnapshot.state structure)]) a in
       let setup := classify_snapshot structure in
       let a := Assembly.add_gate "setup_classification"
                  (if SetupCandidate.is_actionable setup then GateState.PASS else GateState.FAIL)
                  (SetupCandidate.reasons setup ++
                   ["TYPE_" +:+ ShortSetupType.value (SignalAssemblyRequest.setup_type request)]) a in
       let flow := run_flow setup in
       let a := Assembly.add_gate "flow"
                  (if decide (FlowResult.status flow = FlowStatus.READY)
                   then GateState.PASS else GateState.FAIL)
                  (FlowResult.reasons flow ++
                   ["STATUS_" +:+ FlowStatus.value (FlowResult.status flow)]) a in
       let a := Assembly.with_structure structure setup flow a in
       mret (if negb (FlowResult.is_ready flow)
             then Stop (_watch_status (StructureSnapshot.state structure)) a else Next a)).

Definition lbank_status_value (s : LBankExecutionStatus.t) : string :=
  match s with
  | LBankExecutionStatus.OK => "OK"
  | LBankExecutionStatus.EXECUTION_PENDING => "EXECUTION_PENDING"
  | LBankExecutionStatus.DATA_DEGRADED => "DATA_DEGRADED"
  end.

Definition lbank_stage (a : Assembly.t) : res progress :=
  or_degrade "lbank_execution"
    (validate_lbank_execution (SignalAssemblyRequest.lbank_snapshot request) (AwareDT now)
       (Some (lbank_execution (SignalAssemblyRules.consensus rules)))) a
    (fun v =>
       let ok := bool_decide (LBank.status v = LBankExecutionStatus.OK) in
       let a := Assembly.with_lbank v
                  (Assembly.add_gate "lbank_execution" (if ok then GateState.PASS else GateState.FAIL)
                     (reasons_or (LBank.reasons v)
                        ("STATUS_" +:+ lbank_status_value (LBank.status v))) a) in
       mret (if negb ok then
               Stop (if decide (LBank.status v = LBankExecutionStatus.EXECUTION_PENDING)
                     then SignalAssemblyStatus.EXECUTION_PENDING
                     else SignalAssemblyStatus.DATA_DEGRADED) a
             else Next a)).

(** [status_map.get(consensus.status, DATA_DEGRADED)] *)
Definition consensus_status_map (s : ConsensusStatus.t) : SignalAssemblyStatus.t :=
  match s with
  | ConsensusStatus.EXECUTION_PENDING => SignalAssemblyStatus.EXECUTION_PENDING
  | ConsensusStatus.AVOID => SignalAssemblyStatus.AVOID
  | _ => SignalAssemblyStatus.DATA_DEGRADED
  end.

Definition consensus_stage (a : Assembly.t) : res progress :=
  or_degrade "cross_exchange_consensus"
    (build_cross_exchange_consensus (SignalAssemblyRequest.lbank_snapshot request)
       (SignalAssemblyRequest.benchmark_snapshots request)
       (SignalAssemblyRequest.symbol_map request) (AwareDT now)
       (Some (SignalAssemblyRules.consensus rules))) a
    (fun c =>
       let gate_state := match Consensus.status c with
                         | ConsensusStatus.OK => GateState.PASS
                         | ConsensusStatus.WARNING => GateState.WARN
                         | _ => GateState.FAIL
                         end in
       let a := Assembly.with_consensus c
                  (Assembly.add_gate "cross_exchange_consensus" gate_state
                     (reasons_or (Consensus.reasons c)
                        ("STATUS_" +:+ ConsensusStatus.value (Consensus.status c))) a) in
       mret (if negb (allows_execution_confirmation c)
             then Stop (consensus_status_map (Consensus.status c)) a else Next a)).

(** The deviation is computed outside any [try]: its exception leaves the function. *)
Definition entry_stage (a : Assembly.t) : res progress :=
  deviation ← _entry_deviation_bps request;
  let a := Assembly.with_deviation deviation a in
  let text := "DEVIATION_BPS_" +:+ dec_str deviation in
  mret (if (deviation >? SignalAssemblyRules.max_entry_deviation_bps rules)%dec then
          Stop SignalAssemblyStatus.EXECUTION_PENDING
            (Assembly.add_gate "entry_alignment" GateState.FAIL
               ["ENTRY_TOO_FAR_FROM_LBANK"; text] a)
        else Next (Assembly.add_gate "entry_alignment" GateState.PASS [text] a)).

Definition planning_stage (flow : FlowResult.t) (a : Assembly.t) : res progress :=
  or_degrade "planning" (build_plan flow (SignalAssemblyRequest.plan_request request)) a
    (fun plan =>
       let a := Assembly.with_plan plan a in
       if decide (PlanDraft.status plan = PlanStatus.READY) then
         let a := Assembly.add_gate "planning" GateState.PASS
                    (reasons_or (PlanDraft.notes plan) "PLAN_READY") a in
         lifecycle ← create_lifecycle plan (AwareDT now)
                       (SignalAssemblyRules.lifecycle_ttl_minutes rules);
         mret (Next (Assembly.with_lifecycle lifecycle
                 (Assembly.add_gate "lifecycle" GateState.PASS
                    ["STATE_" +:+ LifecycleState.value (LifecycleRecord.state lifecycle)] a)))
       else
         mret (Stop SignalAssemblyStatus.DATA_DEGRADED
                 (Assembly.add_gate "planning" GateState.FAIL
                    (reasons_or (PlanDraft.notes plan) "PLAN_NOT_READY") a))).

(** The stages in order; [flow] is the local variable the structure stage assigns. *)
Definition stages : res progress :=
  and_then (context_stage Assembly.start) (fun a =>
  and_then (structure_stage a) (fun a =>
  and_then (lbank_stage a) (fun a =>
  and_then (consensus_stage a) (fun a =>
  and_then (entry_stage a) (fun a =>
  match Assembly.flow a with
  | Some flow => planning_stage flow a
  | None => Err (Exn "UnboundLocalError" "flow")
  end))))).
End stages.

Definition assemble_signal (request : SignalAssemblyRequest.t) (now : datetime)
    (rules : option SignalAssemblyRules.t) : res SignalAssemblyReport.t :=
  let active_rules := default SignalAssemblyRules.defaults rules in
  now ← require_aware now "now must be timezone-aware";
  outcome ← stages request now active_rules;
  match outcome with
  | Stop status a => _finish request now active_rules status a
  | Next a => _finish request now active_rules SignalAssemblyStatus.SHORT_READY a
  end.

(** ** The gates of a report *)

Definition skipped (name : string) : GateDecision.t :=
  GateDecision.Mk name GateState.SKIP ["NOT_EVALUATED"].

Definition names (gates : list GateDecision.t) : list string := GateDecision.name <$> gates.

Lemma names_snoc gates name st rs :
  names (gates ++ [GateDecision.Mk name st rs]) = names gates ++ [name].
Proof. unfold names. by rewrite fmap_app. Qed.

Lemma gate_named_None gates name : name ∉ names gates -> gate_named gates name = None.
Proof.
  intros Hn. unfold gate_named. apply first_where_None, Forall_forall. intros g Hg.
  apply bool_decide_eq_false. intros <-. apply Hn, list_elem_of_fmap. exists g.
  split; [done|]. by apply elem_of_reverse.
Qed.

Lemma gate_named_Some gates g : NoDup (names gates) -> g ∈ gates -> gate_named gates (GateDecision.name g) = Some g.
Proof.
  intros Hnd Hg. destruct (gate_named gates (GateDecision.name g)) as [g'|] eqn:E.
  - unfold gate_named in E. apply first_where_Some in E as [Hi Hp].
    apply bool_decide_eq_true in Hp. f_equal. rewrite elem_of_reverse in Hi.
    apply list_elem_of_lookup in Hi as [j Hj]. apply list_elem_of_lookup in Hg as [k Hk].
    assert (j = k) as ->.
    { eapply (NoDup_lookup (names gates)); [done|..];
        unfold names; rewrite list_lookup_fmap; [rewrite Hj|rewrite Hk]; simpl; by rewrite ?Hp. }
    congruence.
  - unfold gate_named in E. rewrite first_where_None, Forall_forall in E.
    specialize (E g ltac:(by apply elem_of_reverse)). by rewrite bool_decide_true in E.
Qed.

Lemma GATE_ORDER_NoDup : NoDup GATE_ORDER.
Proof. apply (bool_decide_unpack _). vm_compute. done. Qed.

(** The evaluated gates, in evaluation order, then the others skipped. *)
Lemma complete_gates_prefix gates n :
  names gates = take n GATE_ORDER ->
  _complete_gates gates = gates ++ (skipped <$> drop n GATE_ORDER).
Proof.
  intros Hn. unfold _complete_gates. pose proof GATE_ORDER_NoDup as Hnd.
  rewrite <- (take_drop n GATE_ORDER) in Hnd |- * at 1. rewrite <- Hn in Hnd |- *.
  apply NoDup_app in Hnd as (Hg & Hdisj & _). rewrite fmap_app. f_equal.
  - unfold names. rewrite <- list_fmap_compose. trans (id <$> gates); [|apply list_fmap_id].
    apply list_fmap_ext. intros i g Hi. simpl. rewrite gate_named_Some; [done|done|].
    by eapply list_elem_of_lookup_2.
  - apply list_fmap_ext. intros i name Hi. simpl. rewrite gate_named_None; [done|].
    intros Hin. apply (Hdisj _ Hin). by eapply list_elem_of_lookup_2.
Qed.

(** ** What stops a request, and what a ready one satisfies *)

Section spec.
Context (request : SignalAssemblyRequest.t) (now : aware) (rules : SignalAssemblyRules.t).

Definition evidence : HigherTimeframeStructureEvidence.t :=
  SignalAssemblyRequest.higher_timeframe request.

Definition symbols_aligned : Prop :=
  let s := SignalAssemblyRequest.symbol request in
  CrossExchangeSymbolMap.canonical_symbol (SignalAssemblyRequest.symbol_map request) = s /\
  HigherTimeframeStructureEvidence.symbol evidence = s /\
  StructureInput.symbol (SignalAssemblyRequest.structure_input request) = s /\
  str_strip (PlanRequest.symbol (SignalAssemblyRequest.plan_request request)) = s /\
  Snapshot.symbol (SignalAssemblyRequest.lbank_snapshot request) =
    CrossExchangeSymbolMap.lbank_symbol (SignalAssemblyRequest.symbol_map request).

(** Evidence not from the future (one second of skew) and not too old. *)
Definition evidence_fresh : Prop :=
  exists age, age_minutes_of request now = Ok age /\
    (age <? fopp (int_truediv 1 60))%flt = false /\
    (age >? SignalAssemblyRules.max_structure_age_minutes rules)%flt = false.

Definition evidence_damaged : Prop :=
  HigherTimeframeStructureEvidence.daily_damaged evidence = true /\
  HigherTimeframeStructureEvidence.four_hour_damaged evidence = true.

Definition lbank_check : res LBankExecutionValidation :=
  validate_lbank_execution (SignalAssemblyRequest.lbank_snapshot request) (AwareDT now)
    (Some (lbank_execution (SignalAssemblyRules.consensus rules))).

Definition consensus_check : res CrossExchangeConsensusReport :=
  build_cross_exchange_consensus (SignalAssemblyRequest.lbank_snapshot request)
    (SignalAssemblyRequest.benchmark_snapshots request)
    (SignalAssemblyRequest.symbol_map request) (AwareDT now)
    (Some (SignalAssemblyRules.consensus rules)).

Definition flow_of (s : StructureSnapshot.t) : FlowResult.t := run_flow (classify_snapshot s).

(** The conditions of the gates, in the order they are evaluated. *)
Definition conditions : list Prop :=
  [Z.of_nat (length (SignalAssemblyRequest.discovery_records request)) <=
     SignalAssemblyRules.max_discovery_records rules;
   symbols_aligned;
   evidence_fresh;
   evidence_damaged;
   exists s, analyze_structure (SignalAssemblyRequest.structure_input request) = Ok s /\
     StructureSnapshot.state s = StructureState.ALERT;
   exists v, lbank_check = Ok v /\ is_executable v = true;
   exists c, consensus_check = Ok c /\ allows_execution_confirmation c = true;
   exists d, _entry_deviation_bps request = Ok d /\
     (d >? SignalAssemblyRules.max_entry_deviation_bps rules)%dec = false;
   exists s p, analyze_structure (SignalAssemblyRequest.structure_input request) = Ok s /\
     build_plan (flow_of s) (SignalAssemblyRequest.plan_request request) = Ok p].

(** The first [k] conditions hold. *)
Definition hold_before (k : nat) : Prop := Forall (fun P : Prop => P) (take k conditions).

(** How condition [k] fails, and the status of the report then. *)
Inductive stop_cause : nat -> SignalAssemblyStatus.t -> Prop :=
| cause_discovery :
    SignalAssemblyRules.max_discovery_records rules <
      Z.of_nat (length (SignalAssemblyRequest.discovery_records request)) ->
    stop_cause 0 SignalAssemblyStatus.DATA_DEGRADED
| cause_symbols : ~ symbols_aligned -> stop_cause 1 SignalAssemblyStatus.DATA_DEGRADED
| cause_age : ~ evidence_fresh -> stop_cause 2 SignalAssemblyStatus.DATA_DEGRADED
| cause_undamaged :
    ~ evidence_damaged -> stop_cause 3 SignalAssemblyStatus.BREAKDOWN_WATCH
| cause_structure e :
    analyze_structure (SignalAssemblyRequest.structure_input request) = Err e ->
    stop_cause 4 SignalAssemblyStatus.DATA_DEGRADED
| cause_neutral s :
    analyze_structure (SignalAssemblyRequest.structure_input request) = Ok s ->
    StructureSnapshot.state s = StructureState.NEUTRAL -> stop_cause 4 SignalAssemblyStatus.HYPE_WATCH
| cause_weak s :
    analyze_structure (SignalAssemblyRequest.structure_input request) = Ok s ->
    StructureSnapshot.state s = StructureState.WEAK -> stop_cause 4 SignalAssemblyStatus.WEAKNESS_WATCH
| cause_lbank_pending v :
    lbank_check = Ok v -> LBank.status v = LBankExecutionStatus.EXECUTION_PENDING ->
    stop_cause 5 SignalAssemblyStatus.EXECUTION_PENDING
| cause_lbank_degraded v :
    lbank_check = Ok v -> LBank.status v = LBankExecutionStatus.DATA_DEGRADED ->
    stop_cause 5 SignalAssemblyStatus.DATA_DEGRADED
| cause_consensus_error e : consensus_check = Err e -> stop_cause 6 SignalAssemblyStatus.DATA_DEGRADED
| cause_consensus c :
    consensus_check = Ok c -> allows_execution_confirmation c = false ->
    stop_cause 6 (consensus_status_map (Consensus.status c))
| cause_entry d :
    _entry_deviation_bps request = Ok d ->
    (d >? SignalAssemblyRules.max_entry_deviation_bps rules)%dec = true ->
    stop_cause 7 SignalAssemblyStatus.EXECUTION_PENDING
| cause_plan s e :
    analyze_structure (SignalAssemblyRequest.structure_input request) = Ok s ->
    build_plan (flow_of s) (SignalAssemblyRequest.plan_request request) = Err e ->
    stop_cause 8 SignalAssemblyStatus.DATA_DEGRADED.

(** Every condition holds. *)
Definition ready_facts : Prop := Forall (fun P : Prop => P) conditions.

(** The status is that of the first condition that fails. *)
Definition stopped_because (st : SignalAssemblyStatus.t) : Prop :=
  exists k, stop_cause k st /\ hold_before k.

Lemma stop_cause_fails k st :
  stop_cause k st -> exists P, conditions !! k = Some P /\ ~ P.
Proof.
  intros H. destruct H; eexists; (split; [reflexivity|]); try done; try lia;
    intros HP; repeat match goal with
      | H : exists _, _ |- _ => destruct H
      | H : _ /\ _ |- _ => destruct H
      end; unfold is_executable in *; guards; congruence.
Qed.

Lemma stop_cause_not_ready st :
  stopped_because st -> st <> SignalAssemblyStatus.SHORT_READY /\ ~ ready_facts.
Proof.
  intros (k & H & _). split.
  - destruct H; try done. by destruct (Consensus.status c).
  - apply stop_cause_fails in H as (P & Hk & HP). unfold ready_facts. rewrite Forall_forall.
    intros Hall. by apply HP, Hall, (list_elem_of_lookup_2 _ k).
Qed.

Lemma hold_before_lookup k j P :
  hold_before k -> (j < k)%nat -> conditions !! j = Some P -> P.
Proof.
  intros Hk Hj HP. unfold hold_before in Hk. rewrite Forall_forall in Hk.
  apply Hk, (list_elem_of_lookup_2 _ j). by rewrite lookup_take_lt.
Qed.

Lemma hold_next k P : hold_before k -> conditions !! k = Some P -> P -> hold_before (S k).
Proof.
  intros Hk Hl HP. unfold hold_before in *. rewrite (take_S_r _ _ P Hl).
  apply Forall_app. split; [done|]. by constructor.
Qed.

(** *** The stages against the specification *)

Definition passed_gates (gates : list GateDecision.t) : Prop :=
  Forall (fun g => GateDecision.passed g = true) gates.

(** After a stage that went on: the first [k] gates are evaluated and pass. *)
Record at_gate (k : nat) (a : Assembly.t) : Prop := {
  ag_names : names (Assembly.gates a) = take k GATE_ORDER;
  ag_passed : passed_gates (Assembly.gates a);
  ag_plan : Assembly.plan a = None;
  ag_lifecycle : Assembly.lifecycle a = None }.

(** After a stage that stopped: some first gates are evaluated, one of them failed. *)
Record stopped_at (n : nat) (a : Assembly.t) : Prop := {
  sp_names : names (Assembly.gates a) = take n GATE_ORDER;
  sp_failed : exists g, g ∈ Assembly.gates a /\ GateDecision.state g = GateState.FAIL;
  sp_plan : Assembly.plan a = None;
  sp_lifecycle : Assembly.lifecycle a = None }.
Definition stopped (a : Assembly.t) : Prop := exists n, stopped_at n a.

Definition stage_spec (k : nat) (facts : Assembly.t -> Prop) (p : progress) : Prop :=
  match p with
  | Stop s a => stopped a /\ stopped_because s
  | Next a => at_gate k a /\ facts a
  end.

Lemma add_gate_next k name st rs a :
  at_gate k a -> GATE_ORDER !! k = Some name -> st ∈ [GateState.PASS; GateState.WARN] ->
  at_gate (S k) (Assembly.add_gate name st rs a).
Proof.
  intros [Hn Hp Hpl Hl] Hk Hs. destruct a as [g s c f l x d p y].
  cbn [Assembly.gates Assembly.plan Assembly.lifecycle Assembly.add_gate] in *.
  constructor; cbn [Assembly.gates Assembly.plan Assembly.lifecycle Assembly.add_gate] in *; try done.
  - rewrite names_snoc, Hn. symmetry. by apply take_S_r.
  - unfold passed_gates in *. rewrite Forall_app. split; [done|]. repeat constructor. simpl.
    by apply bool_decide_eq_true.
Qed.

Lemma add_gate_fail k name rs a :
  at_gate k a -> GATE_ORDER !! k = Some name ->
  stopped_at (S k) (Assembly.add_gate name GateState.FAIL rs a).
Proof.
  intros [Hn Hp Hpl Hl] Hk. destruct a as [g s c f l x d p y].
  cbn [Assembly.gates Assembly.plan Assembly.lifecycle Assembly.add_gate] in *.
  constructor; cbn [Assembly.gates Assembly.plan Assembly.lifecycle Assembly.add_gate] in *; try done.
  - rewrite names_snoc, Hn. symmetry. by apply take_S_r.
  - eexists. rewrite elem_of_app. split; [right; by apply list_elem_of_singleton|done].
Qed.

Lemma add_gate_stopped k name st rs a :
  stopped_at k a -> GATE_ORDER !! k = Some name -> stopped_at (S k) (Assembly.add_gate name st rs a).
Proof.
  intros [Hn (g & Hg & Hf) Hpl Hl] Hk. destruct a as [gs s c f l x d p y].
  cbn [Assembly.gates Assembly.plan Assembly.lifecycle Assembly.add_gate] in *.
  constructor; cbn [Assembly.gates Assembly.plan Assembly.lifecycle Assembly.add_gate] in *; try done.
  - rewrite names_snoc, Hn. symmetry. by apply take_S_r.
  - exists g. rewrite elem_of_app. auto.
Qed.

Lemma add_gate_fail_stopped k name rs a :
  at_gate k a -> GATE_ORDER !! k = Some name -> stopped (Assembly.add_gate name GateState.FAIL rs a).
Proof. intros. eexists. by apply add_gate_fail. Qed.

Lemma or_degrade_spec {A} k name (r : res A) a cont facts p :
  at_gate k a -> GATE_ORDER !! k = Some name ->
  (forall e, r = Err e -> stopped_because SignalAssemblyStatus.DATA_DEGRADED) ->
  (forall x, r = Ok x -> cont x = Ok p -> stage_spec facts.1 facts.2 p) ->
  or_degrade name r a cont = Ok p -> stage_spec facts.1 facts.2 p.
Proof.
  intros Ha Hk He Hx. unfold or_degrade. destruct r as [x|e]; intros H; [by eapply Hx|].
  injection H as <-. split; [by eapply add_gate_fail_stopped|by eapply He].
Qed.

(** (Not [injection], which would unfold the assembly.) *)
Lemma mret_Ok (q p : progress) : mret q = Ok p -> q = p.
Proof. apply Ok_inj. Qed.

Lemma symbol_gate_spec :
  GateDecision.name (_symbol_gate request) = "symbol_alignment" /\
  (GateDecision.state (_symbol_gate request) = GateState.PASS /\ symbols_aligned \/
   GateDecision.state (_symbol_gate request) = GateState.FAIL /\ ~ symbols_aligned).
Proof.
  unfold _symbol_gate.
  set (l1 := filter _ _). set (l2 := if decide _ then _ else _).
  assert (((fun c : string * string => c.1 +:+ "_SYMBOL_MISMATCH") <$> l1) ++ l2 = []
          <-> symbols_aligned) as Hiff.
  { rewrite app_nil. unfold symbols_aligned, evidence.
    assert (l2 = [] <-> Snapshot.symbol (SignalAssemblyRequest.lbank_snapshot request) =
      CrossExchangeSymbolMap.lbank_symbol (SignalAssemblyRequest.symbol_map request)) as ->
      by (unfold l2; case_decide; naive_solver).
    assert (((fun c : string * string => c.1 +:+ "_SYMBOL_MISMATCH") <$> l1) = [] <->
      Forall (fun c => c.2 = SignalAssemblyRequest.symbol request) (symbol_checks request)) as ->.
    { unfold l1. rewrite Forall_forall. split.
      - intros Hnil%fmap_nil_inv c Hc. destruct (decide (c.2 = SignalAssemblyRequest.symbol request)) as [|Hne]; [done|].
        exfalso. exact (filter_nil_not_elem_of _ _ c Hnil Hne Hc).
      - intros Hall. destruct (filter _ _) as [|c l] eqn:E; [done|].
        assert (c ∈ filter (fun c => c.2 <> SignalAssemblyRequest.symbol request)
                  (symbol_checks request)) as Hc by (rewrite E; constructor).
        apply list_elem_of_filter in Hc as [Hne Hin]. by destruct (Hne (Hall _ Hin)). }
    unfold symbol_checks. rewrite !Forall_cons. simpl. pose proof (Forall_nil_2 (fun c : string * string =>
      c.2 = SignalAssemblyRequest.symbol request)). tauto. }
  destruct (((fun c : string * string => c.1 +:+ "_SYMBOL_MISMATCH") <$> l1) ++ l2) as [|x l] eqn:E;
    (split; [done|]); [left|right]; (split; [done|]).
  - by apply Hiff.
  - intros Ha. by apply Hiff in Ha.
Qed.

Lemma htf_gate_spec g s :
  _higher_timeframe_gate request now rules = Ok (g, s) ->
  GateDecision.name g = "higher_timeframe_structure" /\
  (GateDecision.state g = GateState.PASS /\ evidence_fresh /\ evidence_damaged \/
   GateDecision.state g = GateState.FAIL /\
     (stop_cause 2 s \/ evidence_fresh /\ stop_cause 3 s)).
Proof.
  intros H. unfold _higher_timeframe_gate in H. apply bind_Ok in H as (v & Hage & H).
  unfold mret, res_ret in H. cbv beta zeta in H.
  set (degraded := if (v <? _)%flt then _ else _) in H.
  assert (degraded = [] <-> evidence_fresh) as Hdeg.
  { unfold degraded, evidence_fresh, reason. split.
    - destruct (v <? _)%flt eqn:E1; [done|]. destruct (_ <? v)%flt eqn:E2; [done|]. eauto.
    - intros (age & Ha & E1 & E2). assert (age = v) as -> by congruence. by rewrite E1, E2. }
  clearbody degraded. clear Hage.
  set (missing := reason _ _ ++ reason _ _) in H.
  assert (missing = [] <-> evidence_damaged) as Hmiss.
  { unfold missing, reason, evidence_damaged, evidence.
    destruct (HigherTimeframeStructureEvidence.daily_damaged _),
      (HigherTimeframeStructureEvidence.four_hour_damaged _); simpl; intuition discriminate. }
  clearbody missing.
  destruct degraded as [|x l]; [destruct missing as [|y l']|];
    injection H as <- <-; (split; [done|]); [left|right|right]; (split; [done|]).
  - tauto.
  - right. split; [tauto|]. constructor. intros Hd. by apply Hmiss in Hd.
  - left. apply cause_age. intros Hf. by apply Hdeg in Hf.
Qed.

Lemma start_at_gate : at_gate 0 Assembly.start.
Proof. constructor; try done. constructor. Qed.

Lemma discovery_gate_spec :
  GateDecision.name (_discovery_gate request rules) = "discovery_context" /\
  (GateDecision.state (_discovery_gate request rules) ∈ [GateState.PASS; GateState.WARN] /\
     Z.of_nat (length (SignalAssemblyRequest.discovery_records request)) <=
       SignalAssemblyRules.max_discovery_records rules \/
   GateDecision.state (_discovery_gate request rules) = GateState.FAIL /\
     stop_cause 0 SignalAssemblyStatus.DATA_DEGRADED).
Proof.
  unfold _discovery_gate. destruct (_ >? _) eqn:E.
  - split; [done|]. right. split; [done|]. apply cause_discovery. lia.
  - destruct (_ =? 0); (split; [done|]); left; (split; [simpl; set_solver|lia]).
Qed.

Lemma context_stage_spec p :
  context_stage request now rules Assembly.start = Ok p -> stage_spec 3 (fun _ => hold_before 4) p.
Proof.
  pose proof start_at_gate as Ha. unfold context_stage.
  destruct discovery_gate_spec as [Hn Hs]. rewrite Hn.
  destruct Hs as [[Hs Hc]|[Hs Hc]].
  2:{ rewrite Hs. rewrite decide_True by done. intros <-%mret_Ok.
      split; [by eapply add_gate_fail_stopped|]. exists 0%nat. split; [done|constructor]. }
  assert (hold_before 1) as H1 by (eapply hold_next; [constructor|reflexivity|done]).
  rewrite decide_False by (intros E; rewrite E in Hs; set_solver).
  eapply add_gate_next in Ha; [|reflexivity|exact Hs].
  destruct symbol_gate_spec as [Hn' Hs']. rewrite Hn'. unfold GateDecision.passed at 1.
  destruct Hs' as [[Hs' Hal]|[Hs' Hal]].
  2:{ rewrite Hs'. intros <-%mret_Ok.
      split; [by eapply add_gate_fail_stopped|]. exists 1%nat. split; [by apply cause_symbols|done]. }
  assert (hold_before 2) as H2 by (eapply hold_next; [exact H1|reflexivity|done]).
  rewrite Hs'. cbn [negb]. rewrite bool_decide_true by set_solver. cbn [negb].
  eapply (add_gate_next _ "symbol_alignment" GateState.PASS) in Ha; [|reflexivity|set_solver].
  intros ([g s] & Hgate & H)%bind_Ok. apply mret_Ok in H.
  apply htf_gate_spec in Hgate as [Hng Hg].
  unfold GateDecision.passed in H. rewrite Hng in H.
  destruct Hg as [(Hg & Hf & Hd)|(Hg & Hcause)]; rewrite Hg in H; cbn [negb] in H.
  all: rewrite ?bool_decide_true, ?(bool_decide_false (GateState.FAIL ∈ _)) in H by set_solver.
  all: cbn [negb] in H; subst p.
  - split; [eapply add_gate_next; [exact Ha|reflexivity|set_solver]|].
    eapply hold_next; [eapply hold_next; [exact H2|reflexivity|done]|reflexivity|done].
  - split; [eapply add_gate_fail_stopped; [exact Ha|reflexivity]|].
    destruct Hcause as [Hc2|[Hfr Hc3]]; [exists 2%nat; done|exists 3%nat; split; [done|]].
    eapply hold_next; [exact H2|reflexivity|done].
Qed.

Lemma structure_stage_spec a p :
  at_gate 3 a -> hold_before 4 -> structure_stage request a = Ok p ->
  stage_spec 6 (fun a' => hold_before 5 /\ exists s,
    analyze_structure (SignalAssemblyRequest.structure_input request) = Ok s /\
    StructureSnapshot.state s = StructureState.ALERT /\ Assembly.flow a' = Some (flow_of s)) p.
Proof.
  intros Ha Hb. apply (or_degrade_spec 3 _ _ a _ (6%nat, _)); [done|done| |].
  { intros e He. exists 4%nat. split; [by eapply cause_structure|done]. }
  intros s Hs. cbn zeta. intros Hp%mret_Ok. cbn [fst snd].
  pose proof (run_flow_classified s) as Hf.
  destruct (decide (StructureSnapshot.state s = StructureState.ALERT)) as [Hal|Hal].
  - rewrite Hf in Hp. cbn [FlowResult.status FlowResult.is_ready FlowResult.reasons] in Hp.
    rewrite bool_decide_true, decide_True in Hp by done.
    unfold FlowResult.is_ready in Hp. cbn [FlowResult.status] in Hp.
    rewrite bool_decide_true in Hp by done. cbn [negb] in Hp.
    assert (SetupCandidate.is_actionable (classify_snapshot s) = true) as Hact
      by (unfold classify_snapshot; by rewrite Hal).
    rewrite Hact in Hp. subst p. split; [|split; [|exists s; split_and!; [done..|]]].
    + match goal with |- at_gate _ (Assembly.with_structure _ _ _ ?a') =>
        assert (at_gate 6 a') as H6; [|destruct H6; destruct a'; by constructor] end.
      do 3 (eapply add_gate_next; [|reflexivity|set_solver]). done.
    + eapply hold_next; [exact Hb|reflexivity|by exists s].
    + unfold flow_of. rewrite Hf. destruct a. reflexivity.
  - rewrite Hf in Hp. cbn [FlowResult.status FlowResult.reasons] in Hp.
    rewrite (bool_decide_false (_ = StructureState.ALERT)) in Hp by done.
    unfold FlowResult.is_ready in Hp. cbn [FlowResult.status] in Hp.
    rewrite bool_decide_false in Hp by done. cbn [negb] in Hp. subst p. split.
    + exists 6%nat. match goal with |- stopped_at _ (Assembly.with_structure _ _ _ ?a') =>
        assert (stopped_at 6 a') as H6; [|destruct H6; destruct a'; by constructor] end.
      do 2 (eapply add_gate_stopped; [|reflexivity]). by eapply add_gate_fail.
    + exists 4%nat. split; [|done].
      destruct (StructureSnapshot.state s) eqn:Est; [by eapply cause_neutral|by eapply cause_weak|done].
Qed.

(** The [with_..] updates touch neither the gates nor the plan. *)
Lemma with_fields_at k a a' :
  Assembly.gates a' = Assembly.gates a -> Assembly.plan a' = Assembly.plan a ->
  Assembly.lifecycle a' = Assembly.lifecycle a -> at_gate k a -> at_gate k a'.
Proof. intros Hg Hp Hl [? ? ? ?]. constructor; congruence. Qed.

Lemma with_fields_stopped a a' :
  Assembly.gates a' = Assembly.gates a -> Assembly.plan a' = Assembly.plan a ->
  Assembly.lifecycle a' = Assembly.lifecycle a -> stopped a -> stopped a'.
Proof. intros Hg Hp Hl [n [? ? ? ?]]. exists n. constructor; rewrite ?Hg, ?Hp, ?Hl; done. Qed.

Lemma add_gate_flow name st rs a : Assembly.flow (Assembly.add_gate name st rs a) = Assembly.flow a.
Proof. by destruct a. Qed.

Ltac through_fields :=
  match goal with
  | |- at_gate _ (_ (Assembly.add_gate ?n ?st ?rs ?a)) =>
      apply (with_fields_at _ (Assembly.add_gate n st rs a)); [by destruct a..|]
  | |- stopped (_ (Assembly.add_gate ?n ?st ?rs ?a)) =>
      apply (with_fields_stopped (Assembly.add_gate n st rs a)); [by destruct a..|]
  end.

Lemma lbank_stage_spec a p :
  at_gate 6 a -> hold_before 5 -> lbank_stage request now rules a = Ok p ->
  stage_spec 7 (fun a' => hold_before 6 /\ Assembly.flow a' = Assembly.flow a) p.
Proof.
  intros Ha Hb. apply (or_degrade_spec 6 _ _ a _ (7%nat, _)); [done|done|by intros e He|].
  intros v Hv. cbn zeta. intros Hp%mret_Ok. cbn [fst snd].
  destruct (LBank.status v) eqn:Est; cbn [bool_decide negb] in Hp.
  - rewrite bool_decide_true in Hp by done. cbn [negb] in Hp. subst p. split.
    + through_fields. eapply add_gate_next; [done|reflexivity|set_solver].
    + split; [|by destruct a]. eapply hold_next; [exact Hb|reflexivity|]. exists v.
      split; [done|]. unfold is_executable. by apply bool_decide_eq_true.
  - rewrite bool_decide_false, decide_True in Hp by done. cbn [negb] in Hp. subst p. split.
    + through_fields. by eapply add_gate_fail_stopped.
    + exists 5%nat. split; [by eapply cause_lbank_pending|done].
  - rewrite bool_decide_false, decide_False in Hp by done. cbn [negb] in Hp. subst p. split.
    + through_fields. by eapply add_gate_fail_stopped.
    + exists 5%nat. split; [by eapply cause_lbank_degraded|done].
Qed.

Lemma consensus_stage_spec a p :
  at_gate 7 a -> hold_before 6 -> consensus_stage request now rules a = Ok p ->
  stage_spec 8 (fun a' => hold_before 7 /\ Assembly.flow a' = Assembly.flow a) p.
Proof.
  intros Ha Hb. apply (or_degrade_spec 7 _ _ a _ (8%nat, _)); [done|done| |].
  { intros e He. exists 6%nat. split; [by eapply cause_consensus_error|done]. }
  intros c Hc. cbn zeta. intros Hp%mret_Ok. cbn [fst snd].
  destruct (allows_execution_confirmation c) eqn:Hal; cbn [negb] in Hp; subst p; split.
  - through_fields. eapply add_gate_next; [done|reflexivity|].
    unfold allows_execution_confirmation in Hal. destruct (Consensus.status c); set_solver.
  - split; [eapply hold_next; [exact Hb|reflexivity|by exists c]|by destruct a].
  - through_fields. unfold allows_execution_confirmation in Hal.
    destruct (Consensus.status c); try (by eapply add_gate_fail_stopped); by vm_compute in Hal.
  - exists 6%nat. split; [by apply cause_consensus|done].
Qed.

Lemma entry_stage_spec a p :
  at_gate 8 a -> hold_before 7 -> entry_stage request rules a = Ok p ->
  stage_spec 9 (fun a' => hold_before 8 /\ Assembly.flow a' = Assembly.flow a) p.
Proof.
  intros Ha Hb. unfold entry_stage. intros (d & Hd & Hp)%bind_Ok. apply mret_Ok in Hp.
  assert (at_gate 8 (Assembly.with_deviation d a)) as Ha'
    by (apply (with_fields_at 8 a); [by destruct a..|done]).
  destruct (_ >? _)%dec eqn:Hx; subst p; split.
  - by eapply add_gate_fail_stopped.
  - exists 7%nat. split; [by eapply cause_entry|done].
  - eapply add_gate_next; [done|reflexivity|set_solver].
  - split; [eapply hold_next; [exact Hb|reflexivity|by exists d]|by destruct a].
Qed.

(** After the planning stage: all gates pass, with the plan and its life cycle. *)
Record completed (a : Assembly.t) : Prop := {
  cp_names : names (Assembly.gates a) = GATE_ORDER;
  cp_passed : passed_gates (Assembly.gates a);
  cp_plan : exists s p y,
    analyze_structure (SignalAssemblyRequest.structure_input request) = Ok s /\
    build_plan (flow_of s) (SignalAssemblyRequest.plan_request request) = Ok p /\
    PlanDraft.status p = PlanStatus.READY /\
    create_lifecycle p (AwareDT now) (SignalAssemblyRules.lifecycle_ttl_minutes rules) = Ok y /\
    Assembly.plan a = Some p /\ Assembly.lifecycle a = Some y }.

Lemma build_plan_READY flow req p :
  FlowResult.is_ready flow = true -> build_plan flow req = Ok p -> PlanDraft.status p = PlanStatus.READY.
Proof.
  intros Hf H. unfold build_plan in H. rewrite Hf in H. cbn [negb] in H. unfold PlanDraft.new in H.
  guards. by subst p.
Qed.

Lemma planning_stage_spec s a p :
  at_gate 9 a -> hold_before 8 ->
  analyze_structure (SignalAssemblyRequest.structure_input request) = Ok s ->
  FlowResult.is_ready (flow_of s) = true ->
  planning_stage request now rules (flow_of s) a = Ok p ->
  match p with
  | Stop st a' => stopped a' /\ stopped_because st
  | Next a' => completed a'
  end.
Proof.
  intros Ha Hb8 Hs Hf. unfold planning_stage, or_degrade.
  destruct (build_plan (flow_of s) _) as [plan|e] eqn:Hb.
  2:{ intros <-%mret_Ok. split; [by eapply add_gate_fail_stopped|].
      exists 8%nat. split; [by eapply cause_plan|done]. }
  cbn zeta. pose proof (build_plan_READY _ _ _ Hf Hb) as Hr. rewrite decide_True by done.
  intros (y & Hy & <-%mret_Ok)%bind_Ok.
  destruct Ha as [Hn Hp _ _]. destruct a as [g st c f l x d pl lc].
  cbn [Assembly.with_plan Assembly.add_gate Assembly.with_lifecycle Assembly.gates] in *.
  constructor; cbn [Assembly.gates Assembly.plan Assembly.lifecycle].
  - rewrite !names_snoc, Hn. reflexivity.
  - unfold passed_gates in *. rewrite !Forall_app. split; [split; [done|]|]; by repeat constructor.
  - by exists s, plan, y.
Qed.

Lemma flow_of_alert s :
  StructureSnapshot.state s = StructureState.ALERT -> FlowResult.is_ready (flow_of s) = true.
Proof. intros Hal. unfold flow_of. by rewrite run_flow_classified, Hal. Qed.

Lemma stages_spec p :
  stages request now rules = Ok p ->
  match p with
  | Stop st a => stopped a /\ stopped_because st
  | Next a => completed a /\ ready_facts
  end.
Proof.
  unfold stages, and_then. intros (p1 & H1 & H)%bind_Ok. apply context_stage_spec in H1.
  destruct p1 as [? ?|a1]; [by apply mret_Ok in H as <-|]. destruct H1 as [G1 B1].
  apply bind_Ok in H as (p2 & H2 & H). apply structure_stage_spec in H2; [|done..].
  destruct p2 as [? ?|a2]; [by apply mret_Ok in H as <-|].
  destruct H2 as [G2 (B2 & s & Hs & Hal & Hfl2)].
  apply bind_Ok in H as (p3 & H3 & H). apply lbank_stage_spec in H3; [|done..].
  destruct p3 as [? ?|a3]; [by apply mret_Ok in H as <-|]. destruct H3 as [G3 [B3 Hfl3]].
  apply bind_Ok in H as (p4 & H4 & H). apply consensus_stage_spec in H4; [|done..].
  destruct p4 as [? ?|a4]; [by apply mret_Ok in H as <-|]. destruct H4 as [G4 [B4 Hfl4]].
  apply bind_Ok in H as (p5 & H5 & H). apply entry_stage_spec in H5; [|done..].
  destruct p5 as [? ?|a5]; [by apply mret_Ok in H as <-|]. destruct H5 as [G5 [B5 Hfl5]].
  rewrite Hfl5, Hfl4, Hfl3, Hfl2 in H.
  apply (planning_stage_spec s) in H; [|done|done|done|by apply flow_of_alert].
  destruct p as [|a]; [done|]. split; [done|]. destruct H as [_ _ (s' & pl & y & Hs' & Hb & _)].
  apply (hold_next 8 _ B5 eq_refl). by exists s', pl.
Qed.

Lemma finish_Ok st a r :
  _finish request now rules st a = Ok r ->
  SignalAssemblyReport.status r = st /\
  SignalAssemblyReport.gates r = _complete_gates (Assembly.gates a) /\
  SignalAssemblyReport.assembled_at r = now /\
  match Assembly.plan a with
  | Some p => SignalAssemblyReport.plan r = p
  | None => PlanDraft.status (SignalAssemblyReport.plan r) = PlanStatus.HOLD /\
            PlanDraft.entry_value (SignalAssemblyReport.plan r) = None /\
            PlanDraft.objective_value (SignalAssemblyReport.plan r) = None
  end /\
  match Assembly.lifecycle a with
  | Some y => SignalAssemblyReport.lifecycle r = y
  | None => create_lifecycle (SignalAssemblyReport.plan r) (AwareDT now)
              (SignalAssemblyRules.lifecycle_ttl_minutes rules)
            = Ok (SignalAssemblyReport.lifecycle r)
  end.
Proof.
  unfold _finish, SignalAssemblyReport.post_init. cbv zeta.
  intros (p & Hp & (y & Hy & H)%bind_Ok)%bind_Ok. guards. subst r.
  cbn [SignalAssemblyReport.status SignalAssemblyReport.gates SignalAssemblyReport.assembled_at
    SignalAssemblyReport.plan SignalAssemblyReport.lifecycle].
  split; [done|]. split; [done|]. split; [done|]. split.
  - destruct (Assembly.plan a); [guards; by subst|].
    unfold PlanDraft.held, PlanDraft.new in Hp. guards. subst p. simpl in *.
    repeat match goal with H : mret None = Ok _ |- _ => injection H as <- end. done.
  - destruct (Assembly.lifecycle a); [guards; by subst|done].
Qed.

Lemma passed_not_fail g : GateDecision.state g = GateState.FAIL -> GateDecision.passed g = false.
Proof. unfold GateDecision.passed. intros ->. done. Qed.

(** The report as a function of the outcome of the stages. *)
Lemma report_cases r :
  assemble_signal request (AwareDT now) (Some rules) = Ok r ->
  (exists a, completed a /\ ready_facts /\
     _finish request now rules SignalAssemblyStatus.SHORT_READY a = Ok r) \/
  (exists a st, stopped a /\ stopped_because st /\ _finish request now rules st a = Ok r).
Proof.
  unfold assemble_signal, require_aware. rewrite Ok_bind. intros (o & Ho & H)%bind_Ok.
  apply stages_spec in Ho. destruct o as [st a|a]; naive_solver.
Qed.
End spec.

(** ** Failures *)

(** What the constructors of the request and the rules guarantee. *)
Record request_wf (request : SignalAssemblyRequest.t) (rules : SignalAssemblyRules.t) : Prop := {
  rw_symbol : str_empty (str_strip (SignalAssemblyRequest.symbol request)) = false;
  rw_entry : is_finite_float (PlanRequest.entry_value (SignalAssemblyRequest.plan_request request)) = true;
  rw_book : book_wf (Snapshot.order_book (SignalAssemblyRequest.lbank_snapshot request));
  rw_ttl : 0 < SignalAssemblyRules.lifecycle_ttl_minutes rules }.

Lemma decimal_of_float_finite x :
  is_finite_float x = true -> exists d, decimal_of_float x = Finite d.
Proof.
  destruct x as [m e| |]; [|done..]. intros _. unfold decimal_of_float.
  destruct (m =? 0); [by eexists|]. destruct (fratio (Z.abs m) e) as [num den].
  destruct (repr_search _ _ _ _ _ _) as [c ce]. by eexists.
Qed.

Section total.
Context (request : SignalAssemblyRequest.t) (now : aware) (rules : SignalAssemblyRules.t).
Context (Hwf : request_wf request rules).

(** The expiry of the life cycle of the report. *)
Definition report_expiry : res aware := expiry now (SignalAssemblyRules.lifecycle_ttl_minutes rules).

Lemma finish_total st a t : report_expiry = Ok t -> exists r, _finish request now rules st a = Ok r.
Proof.
  intros Hx. destruct Hwf as [Hs _ _ Ht]. unfold _finish, SignalAssemblyReport.post_init. cbv zeta.
  match goal with |- context [match Assembly.plan a with Some p => mret p | None => PlanDraft.held _ ?n end] =>
    assert (exists p, match Assembly.plan a with Some p => mret p
      | None => PlanDraft.held (SignalAssemblyRequest.symbol request) n end = Ok p) as [p ->] end.
  { destruct (Assembly.plan a); [by eexists|]. rewrite held_Ok by done. by eexists. }
  rewrite Ok_bind. destruct (create_lifecycle_total p now _ t Ht Hx) as [y' Hy'].
  assert (exists y, match Assembly.lifecycle a with Some y => mret y
    | None => create_lifecycle p (AwareDT now) (SignalAssemblyRules.lifecycle_ttl_minutes rules) end = Ok y) as [y ->].
  { destruct (Assembly.lifecycle a); [by eexists|]. by exists y'. }
  rewrite Ok_bind. cbn [SignalAssemblyReport.symbol]. rewrite Hs. by eexists.
Qed.

Lemma finish_error st a e : _finish request now rules st a = Err e -> report_expiry = Err e.
Proof.
  intros H. destruct report_expiry as [t|x] eqn:Hx; [destruct (finish_total st a t Hx); congruence|].
  destruct Hwf as [Hs _ _ Ht]. unfold _finish, SignalAssemblyReport.post_init in H. cbv zeta in H.
  apply bind_Err in H as [H|(p & _ & H)].
  { destruct (Assembly.plan a); [done|]. by rewrite held_Ok in H. }
  apply bind_Err in H as [H|(y & _ & H)].
  - destruct (Assembly.lifecycle a); [done|]. apply create_lifecycle_Err in H; [|done].
    unfold report_expiry in Hx. congruence.
  - cbn [SignalAssemblyReport.symbol] in H. by rewrite Hs in H.
Qed.

Lemma or_degrade_total {A} name (x : res A) a k :
  (forall y, exists p, k y = Ok p) -> exists p, or_degrade name x a k = Ok p.
Proof. intros Hk. destruct x as [y|e]; [apply Hk|by eexists]. Qed.

(** What the deviation of the entry can raise, and when it does not. *)
Lemma entry_deviation_Err e :
  _entry_deviation_bps request = Err e ->
  e = ValueError "entry and LBank reference must be positive" \/ arithmetic e.
Proof.
  unfold _entry_deviation_bps. destruct (decimal_of_float_finite _ (rw_entry _ _ Hwf)) as [d ->].
  intros [H|(mid & _ & H)]%bind_Err; [right; by eapply mid_price_Err|].
  apply bind_Err in H as [H|([] & _ & H)]; [left; by destruct (_ || _); [injection H as <-|]|right].
  apply bind_Err in H as [H|(x & _ & H)]; [by apply ctx_sub_Err in H|].
  apply bind_Err in H as [H|(y & _ & H)]; [by apply ctx_abs_Err in H|].
  apply bind_Err in H as [H|(z & _ & H)]; [by apply ctx_div_Err in H|]. by apply ctx_mul_Err in H.
Qed.

Lemma entry_deviation_moderate d :
  decimal_of_float (PlanRequest.entry_value (SignalAssemblyRequest.plan_request request)) = Finite d ->
  moderate d = true -> moderate_best (Snapshot.order_book (SignalAssemblyRequest.lbank_snapshot request)) = true ->
  is_ok (_entry_deviation_bps request) = (d0 <? d)%dec.
Proof.
  intros Hd Hm Hb. unfold _entry_deviation_bps. rewrite Hd.
  destruct (mid_price_ok _ (rw_book _ _ Hwf) Hb) as (mid & -> & Hf & Smid). bind_ok.
  assert ((mid <=? d0)%dec = false) as -> by (rewrite dle_false, d0_val; by eapply size_pos).
  rewrite orb_false_r, py_lt_not_le. destruct (d <=? d0)%dec eqn:Ed; [done|]. cbn [raise_if]. bind_ok.
  rewrite dle_false, d0_val in Ed. pose proof (moderate_size d Hm Ed) as Sd.
  pose proof (size_exponent _ _ _ Hf Smid). unfold moderate in Hm. apply andb_true_iff in Hm as [Hm _]. apply Z.leb_le in Hm.
  destruct (gap_ok (-100129) 100001 d mid (dint 10000)) as (x & y & z & r & -> & Hy & Hz & Hr); try lia.
  - eapply size_weaken; [| |exact Sd]; lia.
  - eapply size_weaken; [| |exact Smid]; lia.
  - apply size_int; lia.
  - bind_ok. rewrite Hy. bind_ok. rewrite Hz. bind_ok. by rewrite Hr.
Qed.

Lemma and_then_Err r k e :
  and_then r k = Err e -> r = Err e \/ exists a, r = Ok (Next a) /\ k a = Err e.
Proof. destruct r as [[st a|a]|e']; [done| |by intros [= ->]; left]. right. by exists a. Qed.

Lemma or_degrade_Err {A} name (x : res A) a k e :
  or_degrade name x a k = Err e -> exists y, x = Ok y /\ k y = Err e.
Proof. destruct x as [y|e']; [|done]. by exists y. Qed.

Lemma context_stage_no_error a e : context_stage request now rules a <> Err e.
Proof.
  unfold context_stage. case_decide; [done|]. destruct (negb _); [done|].
  unfold _higher_timeframe_gate, age_minutes_of, fdiv. change (fis_zero (Fl 60 0)) with false.
  cbv iota. rewrite Ok_bind. unfold mret, res_ret. by destruct (match _ with [] => _ | _ => _ end).
Qed.

(** The exceptions that can leave the stages are that of the entry deviation, after every
    earlier gate, and that of the life cycle of a plan. *)
Lemma stages_error e :
  stages request now rules = Err e ->
  hold_before request now rules 7 /\ _entry_deviation_bps request = Err e \/
  hold_before request now rules 8 /\ report_expiry = Err e.
Proof.
  unfold stages. intros H.
  apply and_then_Err in H as [H|(a1 & H1 & H)]; [by apply context_stage_no_error in H|].
  apply context_stage_spec in H1 as [G1 B1].
  apply and_then_Err in H as [H|(a2 & H2 & H)]; [by apply or_degrade_Err in H as (? & _ & ?)|].
  apply (structure_stage_spec request now rules) in H2 as [G2 (B2 & s & _ & _ & Hfl2)]; [|done..].
  apply and_then_Err in H as [H|(a3 & H3 & H)]; [by apply or_degrade_Err in H as (? & _ & ?)|].
  apply lbank_stage_spec in H3 as [G3 [B3 Hfl3]]; [|done..].
  apply and_then_Err in H as [H|(a4 & H4 & H)]; [by apply or_degrade_Err in H as (? & _ & ?)|].
  apply consensus_stage_spec in H4 as [G4 [B4 Hfl4]]; [|done..].
  apply and_then_Err in H as [H|(a5 & H5 & H)].
  - left. unfold entry_stage in H. apply bind_Err in H as [H|(d & _ & H)]; [done|discriminate H].
  - right. apply (entry_stage_spec request now rules) in H5 as [_ [B5 Hfl5]]; [|done..]. split; [done|].
    rewrite Hfl5, Hfl4, Hfl3, Hfl2 in H. apply or_degrade_Err in H as (plan & _ & H).
    cbv zeta in H. case_decide; [|done]. apply bind_Err in H as [H|(y & _ & H)]; [|done].
    apply create_lifecycle_Err in H; [done|by apply (rw_ttl _ _ Hwf)].
Qed.

(** If every earlier gate passes, the exception of the deviation does leave them. *)
Lemma stages_error_intro e :
  hold_before request now rules 7 -> _entry_deviation_bps request = Err e ->
  stages request now rules = Err e.
Proof.
  intros Hb He. assert (~ hold_before request now rules 8) as H8.
  { intros H. destruct (hold_before_lookup _ _ _ 8 7 _ H ltac:(lia) eq_refl) as (d & Hd & _). congruence. }
  destruct (stages request now rules) as [o|e'] eqn:E.
  2:{ apply stages_error in E as [[_ E]|[H _]]; [congruence|done]. }
  exfalso. apply stages_spec in E. destruct o as [st a|a].
  - destruct E as [_ (k & Hc & Hk)]. destruct (stop_cause_fails _ _ _ _ _ Hc) as (P & HP & Hn).
    destruct (decide (k < 7)%nat) as [Hlt|Hge].
    { apply Hn. by eapply (hold_before_lookup _ _ _ 7 k). }
    destruct Hc; try lia; [congruence|by apply H8].
  - destruct E as [_ Hf]. apply H8. by apply Forall_take.
Qed.

(** A report carries a life cycle, so its expiry is a date. *)
Lemma report_expiry_ok r : assemble_signal request (AwareDT now) (Some rules) = Ok r -> is_ok report_expiry = true.
Proof.
  intros H. apply report_cases in H as [(a & [_ _ (s & p & y & _ & _ & _ & Hy & _)] & _)
    |(a & st & [n [_ _ _ Hl]] & _ & Hf)].
  - apply create_lifecycle_Ok in Hy. unfold report_expiry. by rewrite Hy.
  - apply finish_Ok in Hf as (_ & _ & _ & _ & Hlc). rewrite Hl in Hlc. apply create_lifecycle_Ok in Hlc.
    unfold report_expiry. by rewrite Hlc.
Qed.
End total.

(** The life cycle the assembly creates for a plan. *)
Lemma created_lifecycle p now ttl y :
  create_lifecycle p (AwareDT now) ttl = Ok y ->
  LifecycleRecord.state y = (if decide (PlanDraft.status p = PlanStatus.READY)
    then LifecycleState.ACTIVE else LifecycleState.PENDING) /\
  LifecycleRecord.created_at y = now /\ LifecycleRecord.expires_at y = time_add now (minutes ttl).
Proof.
  intros Hy. pose proof (expiry_Ok _ _ _ (create_lifecycle_Ok _ _ _ _ Hy)) as Hx.
  unfold create_lifecycle, require_aware in Hy. rewrite Ok_bind in Hy. guards. by subst y.
Qed.

(** What a report takes from its request. *)
Lemma finish_request request now rules st a r :
  _finish request now rules st a = Ok r ->
  SignalAssemblyReport.symbol r = SignalAssemblyRequest.symbol request /\
  SignalAssemblyReport.setup_type r = SignalAssemblyRequest.setup_type request /\
  SignalAssemblyReport.discovery_records r = SignalAssemblyRequest.discovery_records request /\
  str_empty (str_strip (SignalAssemblyReport.symbol r)) = false.
Proof.
  unfold _finish, SignalAssemblyReport.post_init. cbv zeta.
  intros (p & _ & (y & _ & H)%bind_Ok)%bind_Ok. guards. by subst r.
Qed.

(** A report is ready exactly when its life cycle is active. *)
Lemma report_lifecycle request now rules r :
  assemble_signal request (AwareDT now) (Some rules) = Ok r ->
  (LifecycleRecord.state (SignalAssemblyReport.lifecycle r) =
    if SignalAssemblyReport.is_short_ready r then LifecycleState.ACTIVE else LifecycleState.PENDING) /\
  LifecycleRecord.expires_at (SignalAssemblyReport.lifecycle r) =
    time_add now (minutes (SignalAssemblyRules.lifecycle_ttl_minutes rules)) /\
  SignalAssemblyReport.symbol r = SignalAssemblyRequest.symbol request /\
  SignalAssemblyReport.setup_type r = SignalAssemblyRequest.setup_type request /\
  SignalAssemblyReport.discovery_records r = SignalAssemblyRequest.discovery_records request /\
  str_empty (str_strip (SignalAssemblyReport.symbol r)) = false.
Proof.
  intros H. unfold SignalAssemblyReport.is_short_ready.
  apply report_cases in H as [(a & [_ _ (s & p & y & _ & _ & Hr & Hy & Hpl & Hl)] & _ & Hf)
    |(a & st & [n [_ _ Hpl Hl]] & Hc & Hf)];
    pose proof (finish_request _ _ _ _ _ _ Hf) as Hreq; apply finish_Ok in Hf as (-> & _ & _ & Hplan & Hlc);
    rewrite Hpl in Hplan; rewrite Hl in Hlc.
  - apply created_lifecycle in Hy as (E1 & _ & E3). rewrite decide_True in E1 by done.
    rewrite bool_decide_true by done. by rewrite Hlc, E1, E3.
  - destruct Hplan as (P1 & _ & _). apply created_lifecycle in Hlc as (E1 & _ & E3). rewrite P1, decide_False in E1 by done.
    apply stop_cause_not_ready in Hc as [Hc _]. by rewrite bool_decide_false, E1, E3.
Qed.

(** ** Properties *)

(** C7: every report lists the eleven gates in order, and is SHORT_READY exactly when
    all of them pass (PASS or WARN).  A SHORT_READY report carries a READY plan and an
    ACTIVE life cycle that expires after the configured time to live; any other report
    carries a HOLD plan without prices and a PENDING life cycle, whatever stopped it. *)
Theorem report_gates_exact request now rules r :
  assemble_signal request (AwareDT now) (Some rules) = Ok r ->
  names (SignalAssemblyReport.gates r) = GATE_ORDER /\
  SignalAssemblyReport.is_short_ready r =
    forallb GateDecision.passed (SignalAssemblyReport.gates r) /\
  let plan := SignalAssemblyReport.plan r in
  let life := SignalAssemblyReport.lifecycle r in
  (if SignalAssemblyReport.is_short_ready r
   then PlanDraft.status plan = PlanStatus.READY /\
        LifecycleRecord.state life = LifecycleState.ACTIVE
   else PlanDraft.status plan = PlanStatus.HOLD /\ PlanDraft.entry_value plan = None /\
        PlanDraft.objective_value plan = None /\
        LifecycleRecord.state life = LifecycleState.PENDING) /\
  LifecycleRecord.created_at life = now /\
  LifecycleRecord.expires_at life =
    time_add now (minutes (SignalAssemblyRules.lifecycle_ttl_minutes rules)).
Proof.
  assert (forall gates n, names gates = take n GATE_ORDER ->
    names (_complete_gates gates) = GATE_ORDER) as Hnames.
  { intros gates n Hn. rewrite (complete_gates_prefix gates n Hn). unfold names in *.
    rewrite fmap_app, Hn, <- list_fmap_compose. rewrite <- (take_drop n GATE_ORDER) at 3.
    f_equal. apply list_fmap_id. }
  intros H. apply report_cases in H as [(a & [Hn Hp (s & p & y & _ & _ & Hr & Hy & Hpl & Hl)] & _ & Hf)
    |(a & st & [n [Hn (g & Hg & Hgf) Hpl Hl]] & Hc & Hf)];
    apply finish_Ok in Hf as (Hst & Hgates & _ & Hplan & Hlc); rewrite Hpl in Hplan; rewrite Hl in Hlc;
    unfold SignalAssemblyReport.is_short_ready; rewrite Hst, Hgates.
  - assert (names (Assembly.gates a) = take 11 GATE_ORDER) as Hn' by done.
    split; [by eapply Hnames|]. rewrite (complete_gates_prefix _ _ Hn'). cbn [drop GATE_ORDER fmap list_fmap].
    rewrite app_nil_r. rewrite bool_decide_true by done. split.
    + symmetry. apply forallb_forall. intros g Hg. unfold passed_gates in Hp. rewrite Forall_forall in Hp.
      apply Hp. by apply list_elem_of_In.
    + apply created_lifecycle in Hy as (E1 & E2 & E3). rewrite Hplan, Hlc. rewrite decide_True in E1 by done. done.
  - apply stop_cause_not_ready in Hc as [Hc _].
    split; [by eapply Hnames|]. rewrite bool_decide_false by done. split.
    + symmetry. apply not_true_iff_false. rewrite forallb_forall. intros Hall.
      specialize (Hall g). rewrite passed_not_fail in Hall by done.
      rewrite (complete_gates_prefix _ _ Hn) in Hall.
      enough (false = true) by done. apply Hall, list_elem_of_In, elem_of_app. by left.
    + destruct Hplan as (P1 & P2 & P3). apply created_lifecycle in Hlc as (E1 & E2 & E3).
      rewrite P1 in E1. rewrite decide_False in E1 by done. done.
Qed.

(** C1: a signal is SHORT_READY exactly when every gate's condition holds of the
    request: bounded discovery context, one symbol throughout, fresh evidence of damage
    on both higher timeframes, a price below the reference range, an executable LBank
    book, a cross-exchange consensus that allows execution, an entry close to the LBank
    mid price, and a plan that [build_plan] accepts.  Otherwise the status of the report
    is that of the first condition, in this order, that fails. *)
Theorem short_ready_iff request now rules r :
  assemble_signal request (AwareDT now) (Some rules) = Ok r ->
  (SignalAssemblyReport.is_short_ready r = true <-> ready_facts request now rules) /\
  (SignalAssemblyReport.is_short_ready r = false ->
   stopped_because request now rules (SignalAssemblyReport.status r)).
Proof.
  intros H. unfold SignalAssemblyReport.is_short_ready.
  apply report_cases in H as [(a & Hc & Hfacts & Hf)|(a & st & Hs & Hc & Hf)];
    apply finish_Ok in Hf as (-> & _).
  - rewrite bool_decide_true by done. done.
  - destruct (stop_cause_not_ready _ _ _ _ Hc) as [Hne Hnf].
    rewrite bool_decide_false by done. done.
Qed.

(** C30: when the assembly of a constructed request produces a report, and what leaves it
    otherwise.  There is a report exactly when the time to live ends inside the calendar and
    it is not the case that every gate before the entry alignment passes and the entry
    deviation cannot be computed.  An exception that leaves the function is that of the
    expiry or that of the deviation; the latter is the [ValueError] of an entry or a mid
    price that is not positive, or one of decimal arithmetic; and for an entry and best
    prices of moderate size it is raised exactly when the entry is not positive. *)
Theorem assemble_signal_total request now rules :
  request_wf request rules ->
  let outcome := assemble_signal request (AwareDT now) (Some rules) in
  let deviation := _entry_deviation_bps request in
  (is_ok outcome = true <->
     is_ok (report_expiry now rules) = true /\
     ~ (hold_before request now rules 7 /\ is_ok deviation = false)) /\
  (forall e, outcome = Err e ->
     report_expiry now rules = Err e \/ hold_before request now rules 7 /\ deviation = Err e) /\
  (forall e, deviation = Err e ->
     e = ValueError "entry and LBank reference must be positive" \/ arithmetic e) /\
  (forall d, decimal_of_float (PlanRequest.entry_value (SignalAssemblyRequest.plan_request request)) = Finite d ->
     moderate d = true ->
     moderate_best (Snapshot.order_book (SignalAssemblyRequest.lbank_snapshot request)) = true ->
     is_ok deviation = (d0 <? d)%dec).
Proof.
  intros Hwf outcome deviation. unfold outcome, deviation.
  split_and!; [|intros e|apply (entry_deviation_Err _ _ Hwf)|apply (entry_deviation_moderate _ _ Hwf)].
  - split.
    + destruct (assemble_signal _ _ _) as [r|] eqn:E; [intros _|done]. split; [by eapply report_expiry_ok|].
      intros [Hb Hd]. destruct (_entry_deviation_bps request) as [|e] eqn:Hdev; [done|].
      unfold assemble_signal, require_aware in E. rewrite Ok_bind in E.
      change (default SignalAssemblyRules.defaults (Some rules)) with rules in E.
      by rewrite (stages_error_intro _ _ _ Hwf _ Hb Hdev) in E.
    + intros [Hx Hn]. destruct (report_expiry now rules) as [t|] eqn:Ex; [|done].
      unfold assemble_signal, require_aware. rewrite Ok_bind.
      change (default SignalAssemblyRules.defaults (Some rules)) with rules.
      destruct (stages request now rules) as [o|e] eqn:E; rewrite ?Ok_bind.
      * destruct o as [st a|a]; [destruct (finish_total _ _ _ Hwf st a t Ex) as [r ->]|
          destruct (finish_total _ _ _ Hwf SignalAssemblyStatus.SHORT_READY a t Ex) as [r ->]]; done.
      * exfalso. apply (stages_error _ _ _ Hwf) in E as [[Hb Hd]|[_ E]]; [|congruence].
        apply Hn. by rewrite Hd.
  - unfold assemble_signal, require_aware. rewrite Ok_bind.
    change (default SignalAssemblyRules.defaults (Some rules)) with rules.
    intros [H|(o & _ & H)]%bind_Err.
    + apply (stages_error _ _ _ Hwf) in H as [H|[_ H]]; auto.
    + left. destruct o; by apply (finish_error _ _ _ Hwf) in H.
Qed.

(** ** A concrete request *)

Definition sample_signal_map : CrossExchangeSymbolMap.t :=
  CrossExchangeSymbolMap.Mk "BTC" "BTCUSDT"
    {[ BenchmarkSource.MEXC := "BTCUSDT"; BenchmarkSource.GATE := "BTCUSDT";
       BenchmarkSource.BYBIT := "BTCUSDT" ]} true.

Definition sample_evidence (four_hour : bool) : HigherTimeframeStructureEvidence.t :=
  HigherTimeframeStructureEvidence.Mk "BTC" "BTCUSDT" (Aware 0 0) true four_hour
    HigherTimeframeEvidenceOrigin.DERIVED (Some "z1") (Some "e1") (Some "z2") (Some "e2") [].

Definition sample_request (four_hour : bool) (entry : float) : SignalAssemblyRequest.t :=
  SignalAssemblyRequest.Mk "BTC" ShortSetupType.BREAKDOWN_SHORT (sample_evidence four_hour)
    (StructureInput.Mk "BTC" (Fl 9 0) (Fl 10 0) (Fl 20 0)) sample_snapshot
    sample_benchmarks sample_signal_map (PlanRequest.Mk "BTC" entry (Fl 1050 0) 2 (Fl 2 0)) [].

Lemma sample_request_constructed :
  SignalAssemblyRequest.new " BTC" ShortSetupType.BREAKDOWN_SHORT (sample_evidence true)
    (StructureInput.Mk "BTC" (Fl 9 0) (Fl 10 0) (Fl 20 0)) sample_snapshot
    sample_benchmarks sample_signal_map (PlanRequest.Mk "BTC" (Fl 1000 0) (Fl 1050 0) 2 (Fl 2 0)) []
  = Ok (sample_request true (Fl 1000 0)).
Proof. vm_compute. reflexivity. Qed.

Lemma sample_ready :
  SignalAssemblyReport.is_short_ready <$>
    assemble_signal (sample_request true (Fl 1000 0)) (AwareDT (Aware 0 0)) (Some SignalAssemblyRules.defaults)
  = Ok true.
Proof. vm_compute. reflexivity. Qed.

Lemma report_gates_exact_witness :
  exists r, assemble_signal (sample_request true (Fl 1000 0)) (AwareDT (Aware 0 0))
      (Some SignalAssemblyRules.defaults) = Ok r /\
    SignalAssemblyReport.is_short_ready r = true /\
    names (SignalAssemblyReport.gates r) = GATE_ORDER.
Proof.
  pose proof sample_ready as H. apply fmap_Ok in H as (r & E & Hr).
  exists r. split; [exact E|]. split; [exact (eq_sym Hr)|].
  refine (proj1 (report_gates_exact (sample_request true (Fl 1000 0)) (Aware 0 0)
    SignalAssemblyRules.defaults r E)).
Defined.

Lemma short_ready_iff_witness :
  exists r, assemble_signal (sample_request true (Fl 1000 0)) (AwareDT (Aware 0 0))
      (Some SignalAssemblyRules.defaults) = Ok r /\
    ready_facts (sample_request true (Fl 1000 0)) (Aware 0 0) SignalAssemblyRules.defaults.
Proof.
  pose proof sample_ready as H. apply fmap_Ok in H as (r & E & Hr).
  exists r. split; [exact E|].
  refine (proj1 (proj1 (short_ready_iff (sample_request true (Fl 1000 0)) (Aware 0 0)
    SignalAssemblyRules.defaults r E)) (eq_sym Hr)).
Defined.

Lemma sample_request_wf entry :
  is_finite_float entry = true -> request_wf (sample_request true entry) SignalAssemblyRules.defaults.
Proof. intros He. constructor; [reflexivity|exact He|constructor; vm_compute; reflexivity|done]. Qed.

(** The sample request with an entry of zero and with a time to live past the year 9999. *)
Lemma assemble_signal_total_witness :
  request_wf (sample_request true (Fl 1000 0)) SignalAssemblyRules.defaults /\
  is_ok (assemble_signal (sample_request true (Fl 1000 0)) (AwareDT (Aware 0 0)) (Some SignalAssemblyRules.defaults)) = true /\
  is_ok (_entry_deviation_bps (sample_request true (Fl 0 0))) = false /\
  is_ok (report_expiry (Aware (days 2932896) 0) SignalAssemblyRules.defaults) = true /\
  is_ok (report_expiry (Aware (days 2932897 - 1) 0) SignalAssemblyRules.defaults) = false.
Proof.
  split; [apply sample_request_wf; reflexivity|]. split; [|split; [|split; vm_compute; reflexivity]].
  - apply (proj1 (assemble_signal_total (sample_request true (Fl 1000 0)) (Aware 0 0) SignalAssemblyRules.defaults
      (sample_request_wf (Fl 1000 0) eq_refl))). split; [vm_compute; reflexivity|].
    intros [_ H]. vm_compute in H. discriminate H.
  - rewrite (proj2 (proj2 (proj2 (assemble_signal_total (sample_request true (Fl 0 0)) (Aware 0 0)
      SignalAssemblyRules.defaults (sample_request_wf (Fl 0 0) eq_refl)))) (Dec 0 (-1))); vm_compute; reflexivity.
Defined.

(** The constructors of a request accept an entry that is not positive; when every gate
    before the entry alignment passes, the assembly then raises, instead of reporting
    DATA_DEGRADED as for every other bad value. *)
Lemma entry_escapes :
  PlanRequest.new "BTC" (Fl 0 0) (Fl 1050 0) 2 (Fl 2 0) =
    Ok (SignalAssemblyRequest.plan_request (sample_request true (Fl 0 0))) /\
  assemble_signal (sample_request true (Fl 0 0)) (AwareDT (Aware 0 0)) (Some SignalAssemblyRules.defaults) =
    Err (ValueError "entry and LBank reference must be positive").
Proof. split; vm_compute; reflexivity. Qed.

(** A time to live that the rules accept and that ends after the year 9999: the expiry of
    the report is computed outside every [try], and its exception leaves the assembly. *)
Example ttl_escapes :
  let rules := SignalAssemblyRules.Mk (Fl 360 0) (dint 50) (10 ^ 10) 50 default_consensus_rules in
  SignalAssemblyRules.new (Fl 360 0) (dint 50) (10 ^ 10) 50 default_consensus_rules = Ok rules /\
  assemble_signal (sample_request true (Fl 1000 0)) (AwareDT (Aware 0 0)) (Some rules) =
    Err (Exn "OverflowError" "date value out of range").
Proof. split; vm_compute; reflexivity. Qed.
