(* ===== verification/Backtest.v ===== *)
(** * Deterministic backtest: [backtest/models.py], [backtest/runner.py], [backtest/metrics.py]

    [run_backtest] replays historical bars against a ready short plan: the first bar
    that touches the boundary or the objective decides, a bar that touches both by the
    intrabar policy.  [build_metrics] summarises results.

    The metrics use [sum], which adds floats with Neumaier's compensation since Python
    3.12 (the version the project requires), [statistics.fmean] (the exact sum rounded
    once, then divided) and [statistics.median]. *)

From Stdlib Require Import QArith Lqa.
From stdpp Require Import list strings.
From S2P Require Import Prelude PyList PyStr PyDecimal PyTime PyFloat FloatFacts Workflow Planning.
Open Scope Z_scope.

(** ** [backtest/models.py] *)

Module BacktestOutcome.
Inductive t : Type := TARGET | STOP | EXPIRED.
#[global] Instance eq_dec : EqDecision t.
Proof. solve_decision. Defined.
End BacktestOutcome.

Module IntrabarPolicy.
Inductive t : Type := CONSERVATIVE | OPTIMISTIC.
#[global] Instance eq_dec : EqDecision t.
Proof. solve_decision. Defined.
End IntrabarPolicy.

Record HistoricalBar : Type := MkBar {
  timestamp : datetime;
  open_value : float;
  high_value : float;
  low_value : float;
  close_value : float }.

Record BacktestCase : Type := MkCase {
  plan : PlanDraft.t;
  bars : list HistoricalBar;
  policy : IntrabarPolicy.t }.

Record BacktestResult : Type := MkResult {
  symbol : string;
  outcome : BacktestOutcome.t;
  exit_at : datetime;
  exit_value : float;
  bars_processed : Z;
  price_return_pct : float;
  leveraged_return_pct : float;
  same_bar_conflict : bool }.

Record BacktestMetrics : Type := MkMetrics {
  total_cases : Z;
  resolved_cases : Z;
  target_count : Z;
  stop_count : Z;
  expired_count : Z;
  conflict_count : Z;
  target_rate : float;
  average_return_pct : float;
  median_return_pct : float;
  profit_factor : option float;
  max_drawdown_pct : float }.

(** ** [backtest/runner.py] *)

Definition _validate_plan (plan : PlanDraft.t) : res (float * float * float) :=
  raise_if (negb (bool_decide (PlanDraft.status plan = PlanStatus.READY)))
    "backtest requires a ready plan" ;;
  raise_if (str_empty (str_strip (PlanDraft.symbol plan))) "plan symbol is required" ;;
  match PlanDraft.entry_value plan, PlanDraft.boundary_value plan, PlanDraft.objective_value plan with
  | Some entry, Some boundary, Some objective =>
      raise_if (negb (is_finite_float entry && is_finite_float boundary && is_finite_float objective))
        "short plan values must be finite" ;;
      raise_if (negb ((fzero <? objective) && (objective <? entry) && (entry <? boundary))%flt)
        "short plan values must satisfy objective < entry < boundary" ;;
      raise_if ((PlanDraft.multiplier plan <? 1) || (PlanDraft.multiplier plan >? 5))
        "plan multiplier must be between 1 and 5" ;;
      mret (entry, boundary, objective)
  | _, _, _ => Err (ValueError "ready plan is missing required values")
  end.

(** One turn of the loop of [_validate_bars]: the checks of a bar. *)
Definition validate_bar (previous_timestamp : option aware) (bar : HistoricalBar) : res aware :=
  ts ← require_aware (timestamp bar) "bar timestamps must be timezone-aware";
  raise_if (match previous_timestamp with Some p => py_le ts p | None => false end)
    "historical bars must be strictly chronological" ;;
  let values := [open_value bar; high_value bar; low_value bar; close_value bar] in
  raise_if (negb (forallb is_finite_float values)) "bar values must be finite" ;;
  raise_if (existsb (fun v => (v <=? fzero)%flt) values) "bar values must be positive" ;;
  raise_if (low_value bar >? fmin2 (open_value bar) (close_value bar))%flt "bar low is inconsistent" ;;
  raise_if (high_value bar <? fmax2 (open_value bar) (close_value bar))%flt "bar high is inconsistent" ;;
  raise_if (low_value bar >? high_value bar)%flt "bar range is inconsistent" ;;
  mret ts.

Fixpoint validate_bars_from (previous_timestamp : option aware) (bars : list HistoricalBar) : res unit :=
  match bars with
  | [] => mret tt
  | bar :: bars' =>
      ts ← validate_bar previous_timestamp bar;
      validate_bars_from (Some ts) bars'
  end.

Definition _validate_bars (bars : list HistoricalBar) : res unit :=
  match bars with
  | [] => Err (ValueError "at least one historical bar is required")
  | _ => validate_bars_from None bars
  end.

(** [((entry - exit_value) / entry) * 100] *)
Definition return_pct (entry exit_value : float) : res float :=
  q ← fdiv (fsub entry exit_value) entry;
  mret (fmul q (Fl 100 0)).

Definition _build_result (plan : PlanDraft.t) (outcome : BacktestOutcome.t) (exit_at : datetime)
    (exit_value : float) (bars_processed : Z) (same_bar_conflict : bool) : res BacktestResult :=
  match PlanDraft.entry_value plan with
  | None => Err (TypeError "float() argument must be a string or a real number, not 'NoneType'")
  | Some entry =>
      price_return_pct ← return_pct entry exit_value;
      mret (MkResult (PlanDraft.symbol plan) outcome exit_at exit_value bars_processed
              price_return_pct (fmul price_return_pct (float_of_Z (PlanDraft.multiplier plan)))
              same_bar_conflict)
  end.

Definition stop_touched (boundary : float) (bar : HistoricalBar) : bool :=
  (high_value bar >=? boundary)%flt.
Definition target_touched (objective : float) (bar : HistoricalBar) : bool :=
  (low_value bar <=? objective)%flt.

(** The exit of a bar, if it has one: outcome, price and conflict. *)
Definition bar_exit (policy : IntrabarPolicy.t) (boundary objective : float) (bar : HistoricalBar) :
    option (BacktestOutcome.t * float * bool) :=
  let stop := stop_touched boundary bar in
  let target := target_touched objective bar in
  if stop && target then
    match policy with
    | IntrabarPolicy.OPTIMISTIC => Some (BacktestOutcome.TARGET, objective, true)
    | IntrabarPolicy.CONSERVATIVE => Some (BacktestOutcome.STOP, boundary, true)
    end
  else if stop then Some (BacktestOutcome.STOP, boundary, false)
  else if target then Some (BacktestOutcome.TARGET, objective, false)
  else None.

(** The loop over [enumerate(case.bars, start=1)], with [index] the next number. *)
Fixpoint replay (case : BacktestCase) (boundary objective : float) (index : Z)
    (bars : list HistoricalBar) : option (res BacktestResult) :=
  match bars with
  | [] => None
  | bar :: bars' =>
      match bar_exit (policy case) boundary objective bar with
      | Some (outcome, exit_value, conflict) =>
          Some (_build_result (plan case) outcome (timestamp bar) exit_value index conflict)
      | None => replay case boundary objective (index + 1) bars'
      end
  end.

Definition run_backtest (case : BacktestCase) : res BacktestResult :=
  values ← _validate_plan (plan case);
  let '(_, boundary, objective) := values in
  _validate_bars (bars case) ;;
  match replay case boundary objective 1 (bars case) with
  | Some r => r
  | None =>
      final_bar ← py_index (bars case) (length (bars case) - 1);
      _build_result (plan case) BacktestOutcome.EXPIRED (timestamp final_bar)
        (close_value final_bar) (Z.of_nat (length (bars case))) false
  end.

(** ** [backtest/metrics.py] *)

(** [sum(values)]: (running sum, compensation) folded, the compensation added at the end. *)
Definition neumaier_step (st : float * float) (x : float) : float * float :=
  let '(total, c) := st in
  let t := fadd total x in
  (t, fadd c (if (fabs total >=? fabs x)%flt then fadd (fsub total t) x else fadd (fsub x t) total)).
Definition py_fsum (values : list float) : float :=
  let '(total, c) := fold_left neumaier_step values (fzero, fzero) in
  if negb (fis_zero c) && is_finite_float c then fadd total c else total.

(** [math.fsum]: the exact sum, rounded once. *)
Definition exact_sum (values : list float) : Z * Z :=
  fold_left (fun s x => let '(n, d) := s in let '(n', d') := float_ratio x in
                        (n * d' + n' * d, d * d')) values (0, 1).
Definition fsum (values : list float) : res float :=
  let special := filter (fun x => is_finite_float x = false) values in
  match special with
  | [] =>
      let '(n, d) := exact_sum values in
      let r := fround n d in
      if is_finite_float r then Ok r else Err (Exn "OverflowError" "intermediate overflow in fsum")
  | _ =>
      let s := fold_left fadd special fzero in
      if existsb (fun x => match x with FNaN => true | _ => false end) special then Ok s
      else match s with
           | FNaN => Err (ValueError "-inf + inf in fsum")
           | _ => Ok s
           end
  end.

(** [fmean(values)] of a non-empty list. *)
Definition fmean (values : list float) : res float :=
  s ← fsum values;
  fdiv s (float_of_Z (Z.of_nat (length values))).

#[export] Instance py_ord_float : PyOrd float := fun a b => default Eq (fcmp a b).

(** [median(values)] of a non-empty list. *)
Definition fmedian (values : list float) : res float :=
  let data := py_sorted (fun x : float => x) values in
  let n := length data in
  if Nat.odd n then py_index data (n / 2)
  else
    a ← py_index data (n / 2 - 1);
    b ← py_index data (n / 2);
    fdiv (fadd a b) (Fl 2 0).

(** One turn of [_max_drawdown]: (equity, peak, maximum). *)
Definition drawdown_step (st : float * float * float) (value : float) : res (float * float * float) :=
  let '(equity, peak, maximum) := st in
  let equity := fadd equity value in
  let peak := fmax2 peak equity in
  if (fzero <? peak)%flt then
    q ← fdiv (fsub peak equity) peak;
    mret (equity, peak, fmax2 maximum (fmul q (Fl 100 0)))
  else mret (equity, peak, maximum).

Fixpoint drawdown_from (st : float * float * float) (returns : list float) : res float :=
  match returns with
  | [] => mret st.2
  | value :: returns' => st' ← drawdown_step st value; drawdown_from st' returns'
  end.
Definition _max_drawdown (returns : list float) : res float :=
  drawdown_from (Fl 100 0, Fl 100 0, fzero) returns.

Definition count_outcome (o : BacktestOutcome.t) (results : list BacktestResult) : Z :=
  count_where (fun r => bool_decide (outcome r = o)) results.

(** [gross_profit / gross_loss if gross_loss > 0 else None] *)
Definition profit_factor_of (returns : list float) : res (option float) :=
  let gross_profit := py_fsum (filter (fun v => (v >? fzero)%flt = true) returns) in
  let gross_loss := fabs (py_fsum (filter (fun v => (v <? fzero)%flt = true) returns)) in
  if (gross_loss >? fzero)%flt then Some <$> fdiv gross_profit gross_loss else mret None.

Definition build_metrics (results : list BacktestResult) : res BacktestMetrics :=
  let targets := count_outcome BacktestOutcome.TARGET results in
  let stops := count_outcome BacktestOutcome.STOP results in
  let resolved := targets + stops in
  let returns := leveraged_return_pct <$> results in
  factor ← profit_factor_of returns;
  average ← (match returns with [] => mret fzero | _ => fmean returns end);
  middle ← (match returns with [] => mret fzero | _ => fmedian returns end);
  drawdown ← _max_drawdown returns;
  mret (MkMetrics (Z.of_nat (length results)) resolved targets stops
          (count_outcome BacktestOutcome.EXPIRED results)
          (count_where same_bar_conflict results)
          (if resolved =? 0 then fzero else fmul (int_truediv targets resolved) (Fl 100 0))
          average middle factor drawdown).

(** ** Facts: the replay *)

Definition touches (boundary objective : float) (bar : HistoricalBar) : bool :=
  stop_touched boundary bar || target_touched objective bar.

Lemma bar_exit_None policy b o bar : bar_exit policy b o bar = None <-> touches b o bar = false.
Proof.
  unfold bar_exit, touches. destruct (stop_touched b bar), (target_touched o bar), policy; done.
Qed.

(** The replay returns the result of the first bar with an exit. *)
Lemma replay_Some case b o index l r :
  replay case b o index l = Some r ->
  exists i bar oc x cf, l !! i = Some bar /\ bar_exit (policy case) b o bar = Some (oc, x, cf) /\
    r = _build_result (plan case) oc (timestamp bar) x (index + Z.of_nat i) cf /\
    forall j bar', (j < i)%nat -> l !! j = Some bar' -> touches b o bar' = false.
Proof.
  revert index; induction l as [|bar l IH]; intros index; simpl; [done|].
  destruct (bar_exit _ _ _ bar) as [[[oc x] cf]|] eqn:E.
  - intros [= <-]. exists 0%nat, bar, oc, x, cf. split_and!; [done|done|f_equal; lia|intros; lia].
  - intros (i & bar' & oc & x & cf & Hi & Hx & -> & Hmin)%IH.
    exists (S i), bar', oc, x, cf. split_and!; [done|done|f_equal; lia|].
    intros [|j] bar'' Hj Hb; simpl in Hb; [|by apply (Hmin j); [lia|]].
    injection Hb as <-. by eapply bar_exit_None.
Qed.

Lemma replay_None case b o index l :
  replay case b o index l = None <-> Forall (fun bar => touches b o bar = false) l.
Proof.
  revert index; induction l as [|bar l IH]; intros index; simpl; [done|]. rewrite Forall_cons.
  destruct (bar_exit _ _ _ bar) as [[[oc x] cf]|] eqn:E.
  - split; [done|]. intros [H _]. apply (bar_exit_None (policy case)) in H. congruence.
  - apply bar_exit_None in E. rewrite IH. tauto.
Qed.

(** ** Facts: validation *)

(** A bar that passes: aware, finite, positive, ordered. *)
Record bar_ok (bar : HistoricalBar) : Prop := {
  br_aware : exists t, timestamp bar = AwareDT t;
  br_finite : Forall (fun v => is_finite_float v = true)
    [open_value bar; high_value bar; low_value bar; close_value bar];
  br_positive : Forall (fun v => (v <=? fzero)%flt = false)
    [open_value bar; high_value bar; low_value bar; close_value bar];
  br_low : (low_value bar >? fmin2 (open_value bar) (close_value bar))%flt = false;
  br_high : (high_value bar <? fmax2 (open_value bar) (close_value bar))%flt = false;
  br_range : (low_value bar >? high_value bar)%flt = false }.

Lemma existsb_Forall {A} (p : A -> bool) l : existsb p l = false <-> Forall (fun x => p x = false) l.
Proof. induction l; simpl; [done|]. rewrite orb_false_iff, Forall_cons. naive_solver. Qed.

Lemma forallb_Forall {A} (p : A -> bool) l : forallb p l = true <-> Forall (fun x => p x = true) l.
Proof. induction l; simpl; [done|]. rewrite andb_true_iff, Forall_cons. naive_solver. Qed.

Lemma validate_bar_Ok prev bar t :
  validate_bar prev bar = Ok t <->
  bar_ok bar /\ timestamp bar = AwareDT t /\
  (forall p, prev = Some p -> utc p < utc t).
Proof.
  unfold validate_bar. split.
  - intros H. apply bind_Ok in H as (ts & Hts & H).
    assert (timestamp bar = AwareDT ts) as Ht by (destruct (timestamp bar); [by injection Hts as ->|done]).
    guards. subst. rewrite existsb_Forall, forallb_Forall in *.
    split; [constructor; eauto|]. split; [done|]. intros p ->. by apply aware_le_false.
  - intros ([_ Hf Hp Hl Hh Hr] & Ht & Hprev). rewrite Ht. cbn [require_aware]. rewrite Ok_bind.
    apply forallb_Forall in Hf. rewrite <- existsb_Forall in Hp.
    rewrite guard_pass; [|destruct prev as [p|]; [by apply aware_le_false, Hprev|done]].
    cbv zeta. rewrite Hf, Hp, Hl, Hh, Hr. done.
Qed.

(** Strictly increasing times, from a first one on. *)
Fixpoint chronological (prev : option aware) (l : list HistoricalBar) : Prop :=
  match l with
  | [] => True
  | bar :: l' => exists t, timestamp bar = AwareDT t /\
      (forall p, prev = Some p -> utc p < utc t) /\ chronological (Some t) l'
  end.

Lemma validate_bars_from_Ok prev l u :
  validate_bars_from prev l = Ok u <-> Forall bar_ok l /\ chronological prev l.
Proof.
  destruct u. revert prev; induction l as [|bar l IH]; intros prev; simpl; [done|].
  rewrite bind_Ok, Forall_cons. setoid_rewrite validate_bar_Ok. setoid_rewrite IH. naive_solver.
Qed.

Lemma _validate_bars_Ok l u :
  _validate_bars l = Ok u <-> l <> [] /\ Forall bar_ok l /\ chronological None l.
Proof.
  unfold _validate_bars. destruct l as [|bar l]; [naive_solver|].
  rewrite validate_bars_from_Ok. naive_solver.
Qed.

Lemma chronological_lt prev l i j b1 b2 t1 t2 :
  chronological prev l -> (i < j)%nat -> l !! i = Some b1 -> l !! j = Some b2 ->
  timestamp b1 = AwareDT t1 -> timestamp b2 = AwareDT t2 -> utc t1 < utc t2.
Proof.
  revert prev i j b1 t1; induction l as [|bar l IH]; intros prev i j b1 t1 Hc Hij Hi Hj H1 H2; [done|].
  destruct Hc as (t & Ht & _ & Hc). destruct j as [|j]; [lia|]. simpl in Hj.
  destruct i as [|i]; simpl in Hi; [|apply (IH (Some t) i j b1 t1); done || lia].
  injection Hi as ->. assert (t1 = t) as -> by congruence.
  destruct l as [|bar' l]; [done|]. destruct Hc as (t' & Ht' & Hlt & Hc). specialize (Hlt t eq_refl).
  destruct j as [|j]; simpl in Hj; [congruence|].
  transitivity (utc t'); [done|]. apply (IH (Some t) 0%nat (S j) bar' t'); try done; [|lia].
  exists t'. split_and!; [done| |done]. intros p [= <-]. done.
Qed.

Lemma _validate_plan_Ok p e b o :
  _validate_plan p = Ok (e, b, o) ->
  PlanDraft.entry_value p = Some e /\ PlanDraft.boundary_value p = Some b /\
  PlanDraft.objective_value p = Some o /\
  is_finite_float e = true /\ is_finite_float b = true /\ is_finite_float o = true /\
  (fzero <? o)%flt = true /\ (o <? e)%flt = true /\ (e <? b)%flt = true /\
  1 <= PlanDraft.multiplier p <= 5.
Proof.
  unfold _validate_plan. intros H.
  destruct (PlanDraft.entry_value p) as [e'|]; [|guards].
  destruct (PlanDraft.boundary_value p) as [b'|]; [|guards].
  destruct (PlanDraft.objective_value p) as [o'|]; [|guards].
  guards. simplify_eq. split_and!; try done; lia.
Qed.

(** ** Facts: the sign of a return *)

Definition fnonneg (x : float) : Prop := (fzero <=? x)%flt = true.
Definition fnonpos (x : float) : Prop := (x <=? fzero)%flt = true.

Lemma fnonneg_Fl m e : fnonneg (Fl m e) <-> 0 <= m.
Proof.
  unfold fnonneg, fzero. rewrite fleb_val. cbn [fval]. pose proof (p2_pos e) as Hp.
  change (inject_Z 0 * p2 0)%Q with 0%Q. rewrite Zle_Qle. change (inject_Z 0) with 0%Q. split; intros H.
  - apply Qnot_lt_le. intros Hm. apply (Qlt_not_le (inject_Z m * p2 e) 0); [|done].
    apply (Qmult_lt_r _ _ (p2 e) Hp) in Hm. lra.
  - apply Qmult_le_0_compat; [done|lra].
Qed.

Lemma fnonpos_opp x : fnonpos x <-> fnonneg (fopp x).
Proof. unfold fnonpos, fnonneg. change fzero with (fopp fzero) at 2. by rewrite fleb_opp. Qed.

Lemma fnonpos_Fl m e : fnonpos (Fl m e) <-> m <= 0.
Proof. rewrite fnonpos_opp. cbn [fopp]. rewrite fnonneg_Fl. lia. Qed.

Lemma fround_nonneg n d : 0 < d -> 0 <= n -> fnonneg (fround n d).
Proof.
  intros Hd Hn. apply fround_ge; [done|split; simpl; lia|]. rewrite fval_zero, Qmult_0_l.
  rewrite Zle_Qle in Hn. exact Hn.
Qed.

Lemma fround_nonpos n d : 0 < d -> n <= 0 -> fnonpos (fround n d).
Proof.
  intros Hd Hn. apply fnonpos_opp. rewrite <- fround_opp by done. apply fround_nonneg; lia.
Qed.

Lemma fratio_pos m e : 0 < (fratio m e).2 /\ Z.sgn (fratio m e).1 = Z.sgn m.
Proof.
  unfold fratio; simpl. split; [apply pow2_pos; lia|].
  rewrite Z.sgn_mul, (Z.sgn_pos (2 ^ _)) by (apply pow2_pos; lia). lia.
Qed.

(** Subtraction, division by a positive number and multiplication by one keep signs. *)
Lemma fsub_sign m e m' e' :
  ((Fl m' e' <=? Fl m e)%flt = true -> fnonneg (fsub (Fl m e) (Fl m' e'))) /\
  ((Fl m e <=? Fl m' e')%flt = true -> fnonpos (fsub (Fl m e) (Fl m' e'))).
Proof.
  destruct (fsub_round m e m' e') as (n & d & Hd & -> & Hn). pose proof (injZ_pos d Hd) as Hdq.
  split; intros H; apply fleb_val in H.
  - apply fround_nonneg; [done|]. rewrite Zle_Qle, Hn. change (inject_Z 0) with 0%Q.
    apply Qmult_le_0_compat; lra.
  - apply fround_nonpos; [done|]. rewrite Zle_Qle, Hn. change (inject_Z 0) with 0%Q.
    assert ((fval (Fl m e) - fval (Fl m' e')) * inject_Z d <= 0 * inject_Z d)%Q
      by (apply Qmult_le_compat_r; lra). lra.
Qed.

Lemma fdiv_sign x m e z :
  0 < m -> fdiv x (Fl m e) = Ok z -> (fnonneg x -> fnonneg z) /\ (fnonpos x -> fnonpos z).
Proof.
  intros Hm. unfold fdiv. destruct (fis_zero (Fl m e)) eqn:Ez; [done|]. intros Hz%Ok_inj.
  destruct x as [n ex|s|]; subst z;
    [|destruct s; simpl; destruct (Z.ltb_spec m 0); split; done || lia|done].
  pose proof (fratio_pos n ex) as [Hd Hs]. pose proof (fratio_pos m e) as [Hd' Hs'].
  destruct (fratio n ex) as [n1 d1], (fratio m e) as [n2 d2]. simpl in *.
  rewrite fnonneg_Fl, fnonpos_Fl. assert (0 < n2) by lia. rewrite Hs', (Z.sgn_pos m) by done.
  split; intros Hn; [apply fround_nonneg|apply fround_nonpos]; nia.
Qed.

Lemma fmul_sign x m e :
  0 < m -> (fnonneg x -> fnonneg (fmul x (Fl m e))) /\ (fnonpos x -> fnonpos (fmul x (Fl m e))).
Proof.
  intros Hm. unfold fmul. destruct x as [n ex|s|]; [| |done].
  - pose proof (fratio_pos n ex) as [Hd Hs]. pose proof (fratio_pos m e) as [Hd' Hs'].
    destruct (fratio n ex) as [n1 d1], (fratio m e) as [n2 d2]. simpl in *.
    rewrite fnonneg_Fl, fnonpos_Fl. assert (0 < n2) by lia.
    split; intros Hn; [apply fround_nonneg|apply fround_nonpos]; nia.
  - destruct m as [|m|m]; [lia| |lia]. destruct s; split; done.
Qed.

Lemma float_of_Z_pos z : 1 <= z <= 5 -> exists m e, float_of_Z z = Fl m e /\ 0 < m.
Proof.
  intros Hz. assert (z ∈ [1; 2; 3; 4; 5]) as Hin.
  { assert (z = 1 \/ z = 2 \/ z = 3 \/ z = 4 \/ z = 5) by lia. set_solver. }
  repeat (apply elem_of_cons in Hin as [->|Hin];
    [do 2 eexists; split; [vm_compute; reflexivity|done]|]). by apply not_elem_of_nil in Hin.
Qed.

Lemma build_result_fields p oc at_ x k cf r e :
  _build_result p oc at_ x k cf = Ok r -> PlanDraft.entry_value p = Some e ->
  outcome r = oc /\ exit_value r = x /\ same_bar_conflict r = cf /\ exit_at r = at_ /\
  bars_processed r = k /\
  leveraged_return_pct r = fmul (price_return_pct r) (float_of_Z (PlanDraft.multiplier p)).
Proof.
  unfold _build_result. intros H He. rewrite He in H. apply bind_Ok in H as (pct & _ & H).
  apply Ok_inj in H as <-. done.
Qed.

(** The returns of an exit at or below, at or above the entry. *)
Lemma build_result_sign p oc at_ x k cf r e :
  _build_result p oc at_ x k cf = Ok r -> PlanDraft.entry_value p = Some e ->
  is_finite_float e = true -> (fzero <? e)%flt = true -> is_finite_float x = true ->
  1 <= PlanDraft.multiplier p <= 5 ->
  ((x <=? e)%flt = true -> fnonneg (price_return_pct r) /\ fnonneg (leveraged_return_pct r)) /\
  ((e <=? x)%flt = true -> fnonpos (price_return_pct r) /\ fnonpos (leveraged_return_pct r)).
Proof.
  unfold _build_result. intros H He Hfe Hpos Hfx Hm. rewrite He in H.
  apply bind_Ok in H as (pct & Hpct & H). apply bind_Ok in Hpct as (q & Hq & Hpct).
  injection Hpct as <-. injection H as <-. cbn [price_return_pct leveraged_return_pct].
  destruct e as [em ee| |]; [|done..]. destruct x as [xm xe| |]; [|done..].
  assert (0 < em) as Hem.
  { destruct (Z.lt_ge_cases 0 em) as [|Hle]; [done|]. apply fzero_of_lt in Hpos.
    apply (fnonpos_Fl em ee) in Hle. unfold fnonpos in Hle. congruence. }
  destruct (float_of_Z_pos _ Hm) as (mm & me & -> & Hmm).
  destruct (fsub_sign em ee xm xe) as [S1 S2].
  destruct (fdiv_sign _ _ _ _ Hem Hq) as [D1 D2].
  destruct (fmul_sign q 100 0) as [M1 M2]; [done|].
  destruct (fmul_sign (fmul q (Fl 100 0)) mm me Hmm) as [L1 L2]. auto 10.
Qed.

(** ** Facts: the metrics *)

Lemma fmax2_nonneg a b : fnonneg a -> fnonneg (fmax2 a b).
Proof.
  intros Ha. unfold fmax2. destruct (a <? b)%flt eqn:E; [|done].
  destruct a as [m e|[]|], b as [m' e'|[]|]; try done.
  apply fnonneg_Fl. apply fnonneg_Fl in Ha. apply fzero_of_lt, fleb_val_false in E.
  cbn [fval] in E. destruct (Z.lt_ge_cases m' 0) as [Hm|]; [|done].
  pose proof (p2_pos e'). pose proof (p2_pos e). rewrite Zle_Qle in Ha. rewrite Zlt_Qlt in Hm.
  change (inject_Z 0) with 0%Q in *.
  assert (0 <= inject_Z m * p2 e)%Q by (apply Qmult_le_0_compat; lra).
  apply (Qmult_lt_r _ _ (p2 e')) in Hm; [|done]. lra.
Qed.

Lemma drawdown_nonneg st returns d :
  fnonneg st.2 -> drawdown_from st returns = Ok d -> fnonneg d.
Proof.
  revert st; induction returns as [|v l IH]; intros [[eq pk] mx] Hmx H; simpl in H.
  - apply Ok_inj in H as <-. done.
  - apply bind_Ok in H as (st' & Hst & H). apply (IH st'); [|done].
    unfold drawdown_step in Hst. cbv zeta in Hst. destruct (fzero <? _)%flt.
    + apply bind_Ok in Hst as (q & _ & Hst). apply Ok_inj in Hst as <-. by apply fmax2_nonneg.
    + apply Ok_inj in Hst as <-. done.
Qed.

Lemma outcome_counts results :
  count_outcome BacktestOutcome.TARGET results + count_outcome BacktestOutcome.STOP results +
  count_outcome BacktestOutcome.EXPIRED results = Z.of_nat (length results).
Proof.
  unfold count_outcome, count_where. induction results as [|r l IH]; [done|].
  simpl. destruct (outcome r); simpl; lia.
Qed.

(** A share of a total, in percent. *)
Lemma rate_bounds t r :
  0 <= t <= r -> 0 < r ->
  fnonneg (fmul (int_truediv t r) (Fl 100 0)) /\
  (fmul (int_truediv t r) (Fl 100 0) <=? Fl 100 0)%flt = true.
Proof.
  intros Ht Hr. unfold int_truediv. rewrite Z.sgn_pos, Z.abs_eq, Z.mul_1_l by lia.
  assert (fnonneg (fround t r)) as Hlo by (apply fround_nonneg; lia).
  assert ((fround t r <=? fone)%flt = true) as Hhi.
  { apply fround_le; [done|split; simpl; lia|]. change (fval fone) with 1%Q. rewrite Qmult_1_l, <- Zle_Qle. lia. }
  split; [by apply fmul_sign|].
  destruct (fround t r) as [m e|[]|]; [|done..].
  unfold fone in Hhi. apply fleb_val in Hhi. destruct (fmul_round m e 100 0) as (n & d & Hd & -> & Hn).
  pose proof (injZ_pos d Hd). apply fround_le; [done|split; simpl; lia|]. rewrite Hn.
  assert (fval (Fl 1 0) == 1)%Q as H1 by reflexivity. assert (fval (Fl 100 0) == 100)%Q as H100 by reflexivity.
  rewrite H1 in Hhi. rewrite H100. apply Qmult_le_compat_r; lra.
Qed.

(** ** Properties *)

(** A backtest runs exactly when the plan and the bars validate (a ready plan with
    0 < objective < entry < boundary; aware, strictly chronological, consistent bars),
    and then always returns a result. *)
Theorem run_backtest_total case :
  (exists r, run_backtest case = Ok r) <->
  (exists e b o, _validate_plan (plan case) = Ok (e, b, o)) /\
  bars case <> [] /\ Forall bar_ok (bars case) /\ chronological None (bars case).
Proof.
  unfold run_backtest. split.
  - intros (r & H). apply bind_Ok in H as ([[e b] o] & Hp & H).
    apply bind_Ok in H as (u & Hb & _). split; [by do 3 eexists|]. by eapply _validate_bars_Ok.
  - intros ((e & b & o & Hp) & Hbars). rewrite Hp, Ok_bind.
    apply (_validate_bars_Ok _ tt) in Hbars as Hv. rewrite Hv, Ok_bind.
    apply _validate_plan_Ok in Hp as (He & _ & _ & Hfe & _ & _ & Ho & Hoe & _).
    assert (forall oc a x k cf, exists r, _build_result (plan case) oc a x k cf = Ok r) as Hbuild.
    { intros oc a x k cf. unfold _build_result, return_pct. rewrite He. unfold fdiv.
      assert (fis_zero e = false) as ->; [|by eexists].
      destruct e as [[|m|m] ee| |]; try done. exfalso.
      destruct o as [om oe|[]|]; [|done..]. apply fzero_of_lt, fleb_val_false in Ho.
      apply fzero_of_lt, fleb_val_false in Hoe. cbn [fval] in Ho, Hoe.
      change (inject_Z 0) with 0%Q in *. lra. }
    destruct (replay _ _ _ _ _) as [r|] eqn:E.
    + apply replay_Some in E as (i & bar & oc & x & cf & _ & _ & -> & _). apply Hbuild.
    + destruct Hbars as [Hne _].
      destruct (lookup_lt_is_Some_2 (bars case) (length (bars case) - 1)) as [bar Hbar];
        [destruct (bars case); [done|simpl; lia]|].
      rewrite (proj2 (py_index_Ok _ _ _) Hbar), Ok_bind. apply Hbuild.
Qed.

(** What a bar does to a short plan with that stop boundary and objective, over the
    exact rational values of its floats. *)
Inductive bar_decides (p : IntrabarPolicy.t) (boundary objective : float) (bar : HistoricalBar) :
    BacktestOutcome.t -> float -> bool -> Prop :=
  | decides_stop :
      (fval boundary <= fval (high_value bar))%Q -> (fval objective < fval (low_value bar))%Q ->
      bar_decides p boundary objective bar BacktestOutcome.STOP boundary false
  | decides_target :
      (fval (high_value bar) < fval boundary)%Q -> (fval (low_value bar) <= fval objective)%Q ->
      bar_decides p boundary objective bar BacktestOutcome.TARGET objective false
  | decides_conservative :
      (fval boundary <= fval (high_value bar))%Q -> (fval (low_value bar) <= fval objective)%Q ->
      p = IntrabarPolicy.CONSERVATIVE ->
      bar_decides p boundary objective bar BacktestOutcome.STOP boundary true
  | decides_optimistic :
      (fval boundary <= fval (high_value bar))%Q -> (fval (low_value bar) <= fval objective)%Q ->
      p = IntrabarPolicy.OPTIMISTIC ->
      bar_decides p boundary objective bar BacktestOutcome.TARGET objective true.

Definition bar_between (boundary objective : float) (bar : HistoricalBar) : Prop :=
  (fval (high_value bar) < fval boundary)%Q /\ (fval objective < fval (low_value bar))%Q.

Lemma finite_leb x y : is_finite_float x = true -> is_finite_float y = true ->
  ((x <=? y)%flt = true <-> (fval x <= fval y)%Q) /\ ((x <=? y)%flt = false <-> (fval y < fval x)%Q).
Proof.
  destruct x as [m e| |], y as [m' e'| |]; try discriminate. intros _ _.
  split; [apply fleb_val|apply fleb_val_false].
Qed.

Lemma finite_ltb x y : is_finite_float x = true -> is_finite_float y = true ->
  ((x <? y)%flt = true <-> (fval x < fval y)%Q).
Proof.
  intros Hx Hy. rewrite finite_lt_le by done. destruct (finite_leb y x Hy Hx) as [_ H].
  rewrite <- H. by destruct (y <=? x)%flt.
Qed.

(** The two tests of the loop are those comparisons on a bar that validates. *)
Lemma touched_val b o bar :
  bar_ok bar -> is_finite_float b = true -> is_finite_float o = true ->
  (stop_touched b bar = true <-> (fval b <= fval (high_value bar))%Q) /\
  (stop_touched b bar = false <-> (fval (high_value bar) < fval b)%Q) /\
  (target_touched o bar = true <-> (fval (low_value bar) <= fval o)%Q) /\
  (target_touched o bar = false <-> (fval o < fval (low_value bar))%Q).
Proof.
  intros [_ Hf _ _ _ _] Hb Ho. rewrite !Forall_cons in Hf. destruct Hf as (_ & Hh & Hl & _).
  destruct (finite_leb b (high_value bar) Hb Hh), (finite_leb (low_value bar) o Hl Ho). tauto.
Qed.

Lemma bar_exit_decides p b o bar oc x cf :
  bar_ok bar -> is_finite_float b = true -> is_finite_float o = true ->
  bar_exit p b o bar = Some (oc, x, cf) -> bar_decides p b o bar oc x cf.
Proof.
  intros Hbar Hb Ho. destruct (touched_val b o bar Hbar Hb Ho) as (S1 & S0 & T1 & T0). unfold bar_exit.
  destruct (stop_touched b bar), (target_touched o bar), p; cbn [andb]; intros H;
    try discriminate H; injection H as <- <- <-; constructor; tauto.
Qed.

Lemma touches_between b o bar :
  bar_ok bar -> is_finite_float b = true -> is_finite_float o = true ->
  touches b o bar = false -> bar_between b o bar.
Proof.
  intros Hbar Hb Ho. destruct (touched_val b o bar Hbar Hb Ho) as (S1 & S0 & T1 & T0).
  unfold touches, bar_between. rewrite orb_false_iff. tauto.
Qed.

(** C31: a backtest that returns ran a plan whose values satisfy 0 < objective < entry <
    boundary, and its first bar whose high is at or above the boundary or whose low is at
    or below the objective decided: TARGET at the objective if it reaches only the
    objective, STOP at the boundary if only the boundary, and if both, STOP under the
    conservative and TARGET under the optimistic policy, flagged as a conflict; every
    earlier bar stays between the two and no later bar counts.  If all bars stay between,
    the case expires at the close of the last bar.  The leveraged return is the price
    return times the multiplier, a target never shows a loss and a stop never a gain. *)
Theorem run_backtest_exact case r :
  run_backtest case = Ok r ->
  exists e b o, PlanDraft.entry_value (plan case) = Some e /\
  PlanDraft.boundary_value (plan case) = Some b /\ PlanDraft.objective_value (plan case) = Some o /\
  (0 < fval o /\ fval o < fval e /\ fval e < fval b)%Q /\
  ((exists i bar, bars case !! i = Some bar /\
      bar_decides (policy case) b o bar (outcome r) (exit_value r) (same_bar_conflict r) /\
      exit_at r = timestamp bar /\ bars_processed r = Z.of_nat i + 1 /\
      forall j bar', (j < i)%nat -> bars case !! j = Some bar' -> bar_between b o bar') \/
   (outcome r = BacktestOutcome.EXPIRED /\ same_bar_conflict r = false /\
    bars_processed r = Z.of_nat (length (bars case)) /\
    (exists bar, last (bars case) = Some bar /\ exit_at r = timestamp bar /\ exit_value r = close_value bar) /\
    Forall (bar_between b o) (bars case))) /\
  leveraged_return_pct r = fmul (price_return_pct r) (float_of_Z (PlanDraft.multiplier (plan case))) /\
  (outcome r = BacktestOutcome.TARGET -> fnonneg (price_return_pct r) /\ fnonneg (leveraged_return_pct r)) /\
  (outcome r = BacktestOutcome.STOP -> fnonpos (price_return_pct r) /\ fnonpos (leveraged_return_pct r)).
Proof.
  unfold run_backtest. intros H. apply bind_Ok in H as ([[e b] o] & Hp & H).
  apply bind_Ok in H as (u & Hbars & H). apply _validate_bars_Ok in Hbars as (_ & Hbars & _).
  exists e, b, o.
  apply _validate_plan_Ok in Hp as (He & Hpb & Hpo & Hfe & Hfb & Hfo & Ho & Hoe & Heb & Hm).
  assert (fval o < fval e /\ fval e < fval b)%Q as Hord by (split; by apply finite_ltb).
  assert (0 < fval o)%Q as Ho0 by (by apply (finite_ltb fzero o)).
  assert ((fzero <? e)%flt = true) as Hepos.
  { apply finite_ltb; [done..|]. change (fval fzero) with 0%Q. lra. }
  assert ((o <=? e)%flt = true /\ (e <=? b)%flt = true) as [Hle1 Hle2].
  { split; apply finite_leb; try done; lra. }
  split; [exact He|]. split; [exact Hpb|]. split; [exact Hpo|]. split; [tauto|].
  destruct (replay _ _ _ _ _) as [res|] eqn:E.
  - apply replay_Some in E as (i & bar & oc & x & cf & Hi & Hx & -> & Hmin).
    apply bar_exit_decides in Hx; [|by eapply Forall_lookup_1|done..].
    destruct (build_result_fields _ _ _ _ _ _ _ _ H He) as (E1 & E2 & E3 & E4 & E5 & E6).
    split; [left|split; [exact E6|]].
    { exists i, bar. rewrite E1, E2, E3. split_and!; try done; [lia|]. intros j bar' Hj Hbar'.
      apply touches_between; [by eapply Forall_lookup_1|done..|by eapply Hmin]. }
    rewrite E1. destruct (build_result_sign _ _ _ _ _ _ _ _ H He Hfe Hepos) as [H1 H2];
      [by destruct Hx|done|].
    split; intros ->; inversion Hx; subst; [by apply H1..|by apply H2|by apply H2].
  - apply replay_None in E. apply bind_Ok in H as (bar & Hbar & H). apply py_index_Ok in Hbar.
    destruct (build_result_fields _ _ _ _ _ _ _ _ H He) as (E1 & E2 & E3 & E4 & E5 & E6).
    split; [right|split; [exact E6|rewrite E1; by split]].
    split_and!; try done.
    + exists bar. split_and!; try done. rewrite last_lookup.
      by replace (pred (length (bars case))) with (length (bars case) - 1)%nat by lia.
    + apply Forall_forall. intros bar' Hin. rewrite Forall_forall in E, Hbars.
      apply touches_between; auto.
Qed.

(** The metrics are consistent: every case is counted under one outcome, the
    resolved cases are targets and stops, the target rate is a percentage (0 without
    resolved cases), the drawdown is never negative, and a profit factor exists exactly
    when the summed losses are not zero. *)
Theorem build_metrics_consistent results m :
  build_metrics results = Ok m ->
  total_cases m = Z.of_nat (length results) /\
  target_count m + stop_count m + expired_count m = total_cases m /\
  resolved_cases m = target_count m + stop_count m /\
  0 <= conflict_count m <= total_cases m /\
  fnonneg (target_rate m) /\ (target_rate m <=? Fl 100 0)%flt = true /\
  fnonneg (max_drawdown_pct m) /\
  (is_Some (profit_factor m) <->
   (fabs (py_fsum (filter (fun v => (v <? fzero)%flt = true) (leveraged_return_pct <$> results)))
      >? fzero)%flt = true).
Proof.
  unfold build_metrics. cbv zeta. intros H.
  apply bind_Ok in H as (factor & Hfactor & H). apply bind_Ok in H as (average & _ & H).
  apply bind_Ok in H as (middle & _ & H). apply bind_Ok in H as (drawdown & Hdd & H).
  apply Ok_inj in H as <-.
  cbn [total_cases target_count stop_count expired_count resolved_cases conflict_count target_rate
    max_drawdown_pct profit_factor].
  pose proof (count_where_nonneg _ results : 0 <= count_outcome BacktestOutcome.TARGET results).
  pose proof (count_where_nonneg _ results : 0 <= count_outcome BacktestOutcome.STOP results).
  split; [done|]. split; [apply outcome_counts|]. split; [done|].
  split; [split; [apply count_where_nonneg|apply count_where_le_length]|].
  set (t := count_outcome BacktestOutcome.TARGET results) in *.
  set (s := count_outcome BacktestOutcome.STOP results) in *.
  split; [|split; [|split]].
  - destruct (Z.eqb_spec (t + s) 0); [done|]. by apply rate_bounds; lia.
  - destruct (Z.eqb_spec (t + s) 0); [done|]. by apply rate_bounds; lia.
  - by eapply drawdown_nonneg; [|exact Hdd].
  - unfold profit_factor_of in Hfactor. destruct (_ >? _)%flt.
    + apply fmap_Ok in Hfactor as (q & _ & ->). split; [done|by eexists].
    + apply Ok_inj in Hfactor as <-. split; [by intros []|done].
Qed.

(** ** A concrete case *)

Definition sample_bar (k h l c : Z) : HistoricalBar :=
  MkBar (AwareDT (Aware (minutes k) 0)) (Fl c 0) (Fl h 0) (Fl l 0) (Fl c 0).

Definition sample_case : BacktestCase :=
  MkCase sample_plan [sample_bar 0 101 99 100; sample_bar 15 112 79 100] IntrabarPolicy.CONSERVATIVE.

Lemma sample_case_runs : outcome <$> run_backtest sample_case = Ok BacktestOutcome.STOP.
Proof. vm_compute. reflexivity. Qed.

Lemma run_backtest_exact_witness :
  exists r, run_backtest sample_case = Ok r /\ outcome r = BacktestOutcome.STOP /\
    fnonpos (leveraged_return_pct r).
Proof.
  pose proof sample_case_runs as H. apply fmap_Ok in H as (r & E & Hr).
  destruct (run_backtest_exact sample_case r E) as (e & b & o & _ & _ & _ & _ & _ & _ & _ & Hstop).
  exists r. split; [exact E|]. split; [exact (eq_sym Hr)|]. exact (proj2 (Hstop (eq_sym Hr))).
Defined.

Lemma build_metrics_consistent_witness :
  exists r m, run_backtest sample_case = Ok r /\ build_metrics [r; r] = Ok m /\
    (target_rate m <=? Fl 100 0)%flt = true /\ total_cases m = 2.
Proof.
  destruct (run_backtest sample_case) as [r|e] eqn:E; [|vm_compute in E; discriminate E].
  destruct (build_metrics [r; r]) as [m|e] eqn:Em.
  2:{ vm_compute in E. apply Ok_inj in E. subst r. vm_compute in Em. discriminate Em. }
  destruct (build_metrics_consistent _ _ Em) as (H1 & _ & _ & _ & _ & H6 & _).
  exists r, m. split; [reflexivity|]. split; [exact Em|]. split; [exact H6|exact H1].
Defined.
