(* ===== verification/Runtime.v ===== *)
(** * The worker runtime: [runtime/models.py] and [runtime/scheduler.py]

    [RuntimeOrchestrator] decides which source jobs are due and runs them.  Its state
    is the next run time of each job and the set of jobs in flight.  [run_due] claims
    the due jobs under a lock, so a claim is one atomic step; the jobs it starts run
    concurrently with each other and with later calls, and each releases its name
    when it ends; [Orchestration] takes the runs apart at their awaits.

    What a job meets outside the package is a parameter ([Env]): the clock, the
    adapter's [load] under [asyncio.wait_for], and the store. *)

From stdpp Require Import list strings gmap relations.
From S2P Require Import Prelude PyList PyStr PyDecimal DecimalFacts PyTime PyFloat FloatFacts PyValue Adapters.
Open Scope Z_scope.

(** ** [runtime/models.py] *)

Module SourceJobKind.
Inductive t : Type := EXECUTION | BENCHMARK | STRUCTURE | DISCOVERY.
#[global] Instance eq_dec : EqDecision t.
Proof. solve_decision. Defined.
Definition value (k : t) : string :=
  match k with
  | EXECUTION => "EXECUTION" | BENCHMARK => "BENCHMARK" | STRUCTURE => "STRUCTURE" | DISCOVERY => "DISCOVERY"
  end.
End SourceJobKind.

Module WorkerRunStatus.
Inductive t : Type := SUCCEEDED | DEGRADED | FAILED | TIMED_OUT | PERSISTENCE_FAILED.
#[global] Instance eq_dec : EqDecision t.
Proof. solve_decision. Defined.
Definition value (s : t) : string :=
  match s with
  | SUCCEEDED => "SUCCEEDED" | DEGRADED => "DEGRADED" | FAILED => "FAILED"
  | TIMED_OUT => "TIMED_OUT" | PERSISTENCE_FAILED => "PERSISTENCE_FAILED"
  end.
End WorkerRunStatus.

Module RuntimeSchedule.
Record t : Type := Mk {
  interval_seconds : float;
  timeout_seconds : float;
  initial_delay_seconds : float }.
#[global] Instance eq_dec : EqDecision t.
Proof. solve_decision. Defined.
Definition new (interval timeout initial_delay : float) : res t :=
  raise_if (interval <=? fzero)%flt "interval_seconds must be positive" ;;
  raise_if (timeout <=? fzero)%flt "timeout_seconds must be positive" ;;
  raise_if (initial_delay <? fzero)%flt "initial_delay_seconds must be non-negative" ;;
  mret (Mk interval timeout initial_delay).
End RuntimeSchedule.

(** The adapter itself is outside: a job knows its name. *)
Module ScheduledSourceJob.
Record t : Type := Mk {
  name : string;
  kind : SourceJobKind.t;
  adapter_name : string;
  schedule : RuntimeSchedule.t }.
#[global] Instance eq_dec : EqDecision t.
Proof. solve_decision. Defined.
Definition new (raw_name : string) (kind : SourceJobKind.t) (adapter_name : string)
    (schedule : RuntimeSchedule.t) : res t :=
  let normalized_name := str_strip raw_name in
  raise_if (str_empty normalized_name) "job name is required" ;;
  raise_if (str_empty (str_strip adapter_name)) "adapter name is required" ;;
  mret (Mk normalized_name kind adapter_name schedule).
End ScheduledSourceJob.
Import ScheduledSourceJob (schedule).

Module WorkerRunOutcome.
Record t : Type := Mk {
  job_name : string;
  kind : SourceJobKind.t;
  status : WorkerRunStatus.t;
  started_at : aware;
  finished_at : aware;
  adapter_state : option AdapterState.t;
  message : string }.
(** The times are aware by their type. *)
Definition new (job_name : string) (kind : SourceJobKind.t) (status : WorkerRunStatus.t)
    (started_at finished_at : aware) (adapter_state : option AdapterState.t) (message : string) : res t :=
  raise_if (str_empty (str_strip job_name)) "job_name is required" ;;
  raise_if (py_lt finished_at started_at) "finished_at must not precede started_at" ;;
  mret (Mk job_name kind status started_at finished_at adapter_state message).
(** [round((finished_at - started_at).total_seconds() * 1000)] *)
Definition duration_ms (o : t) : res Z :=
  py_round (fmul (total_seconds (time_sub (finished_at o) (started_at o))) (float_of_Z 1000)).
Definition completed_without_failure (o : t) : bool :=
  bool_decide (status o ∈ [WorkerRunStatus.SUCCEEDED; WorkerRunStatus.DEGRADED]).
End WorkerRunOutcome.

(** ** The orchestrator's state *)

Record RuntimeOrchestrator : Type := MkOrchestrator {
  _jobs : list ScheduledSourceJob.t;
  _next_run_at : gmap string (option aware);
  _in_flight : gset string }.

Definition new_orchestrator (jobs : list ScheduledSourceJob.t) : res RuntimeOrchestrator :=
  let names := ScheduledSourceJob.name <$> jobs in
  raise_if (negb (bool_decide (NoDup names))) "runtime job names must be unique" ;;
  mret (MkOrchestrator jobs (list_to_map ((fun n => (n, None)) <$> names)) ∅).

Definition next_run_at (o : RuntimeOrchestrator) (job_name : string) : res (option aware) :=
  match _next_run_at o !! job_name with
  | None => Err (KeyError job_name)
  | Some t => Ok t
  end.

Definition set_next_run (o : RuntimeOrchestrator) (name : string) (t : aware) : RuntimeOrchestrator :=
  MkOrchestrator (_jobs o) (<[name := Some t]> (_next_run_at o)) (_in_flight o).
Definition add_in_flight (o : RuntimeOrchestrator) (name : string) : RuntimeOrchestrator :=
  MkOrchestrator (_jobs o) (_next_run_at o) ({[name]} ∪ _in_flight o).
Definition discard_in_flight (o : RuntimeOrchestrator) (name : string) : RuntimeOrchestrator :=
  MkOrchestrator (_jobs o) (_next_run_at o) (_in_flight o ∖ {[name]}).

(** [now + timedelta(seconds=x)] *)
Definition after_seconds (now : aware) (x : float) : res aware := time_add now <$> timedelta_seconds x.

(** One turn of the loop of [run_due]: the state after it and whether the job is due.
    The state is kept when an exception leaves the loop. *)
Definition claim_job (now : aware) (o : RuntimeOrchestrator) (job : ScheduledSourceJob.t) :
    RuntimeOrchestrator * res bool :=
  let name := ScheduledSourceJob.name job in
  let '(o, scheduled) :=
    match next_run_at o name with
    | Err e => (o, Err e)
    | Ok (Some t) => (o, Ok t)
    | Ok None =>
        match after_seconds now (RuntimeSchedule.initial_delay_seconds (schedule job)) with
        | Err e => (o, Err e)
        | Ok t => (set_next_run o name t, Ok t)
        end
    end in
  match scheduled with
  | Err e => (o, Err e)
  | Ok scheduled_at =>
      if py_lt now scheduled_at || bool_decide (name ∈ _in_flight o) then (o, Ok false)
      else
        let o := add_in_flight o name in
        match after_seconds now (RuntimeSchedule.interval_seconds (schedule job)) with
        | Err e => (o, Err e)
        | Ok t => (set_next_run o name t, Ok true)
        end
  end.

Fixpoint claim_jobs (now : aware) (o : RuntimeOrchestrator) (jobs : list ScheduledSourceJob.t) :
    RuntimeOrchestrator * res (list ScheduledSourceJob.t) :=
  match jobs with
  | [] => (o, Ok [])
  | job :: jobs' =>
      match claim_job now o job with
      | (o, Err e) => (o, Err e)
      | (o, Ok due) =>
          let '(o, rest) := claim_jobs now o jobs' in
          (o, (fun l => if due then job :: l else l) <$> rest)
      end
  end.

(** The locked part of [run_due]. *)
Definition claim_due (now : datetime) (o : RuntimeOrchestrator) :
    RuntimeOrchestrator * res (list ScheduledSourceJob.t) :=
  match require_aware now "now must be timezone-aware" with
  | Err e => (o, Err e)
  | Ok now => claim_jobs now o (_jobs o)
  end.

(** ** [_run_job] *)

(** [f"{type(error).__name__}: {detail}"[:500]], or the type alone. *)
Definition _error_message (error : exn) : string :=
  let detail := str_strip (exn_detail error) in
  if str_empty detail then exn_type error
  else str_take 500 (exn_type error +:+ ": " +:+ detail).

Definition _status_for_payload (payload : AdapterPayload.t) : WorkerRunStatus.t :=
  match AdapterHealth.state (AdapterPayload.health payload) with
  | AdapterState.OK => WorkerRunStatus.SUCCEEDED
  | AdapterState.DEGRADED => WorkerRunStatus.DEGRADED
  | AdapterState.DOWN => WorkerRunStatus.FAILED
  end.

(** The outside world of one run: the [n]-th reading of the clock, the result of the
    load under its timeout, and the answers of the store. *)
Record Env : Type := MkEnv {
  clock : nat -> res datetime;
  load : res AdapterPayload.t;
  persist_payload : AdapterPayload.t -> WorkerRunOutcome.t -> res unit;
  persist_failure : WorkerRunOutcome.t -> res unit }.

Section run_job.
Context (env : Env) (job : ScheduledSourceJob.t).

Definition _aware_clock (n : nat) : res aware :=
  value ← clock env n;
  require_aware value "runtime clock must return a timezone-aware datetime".

Definition _clock_not_before (n : nat) (fallback : aware) : res aware :=
  value ← _aware_clock n;
  mret (if py_le fallback value then value else fallback).

Definition _safe_clock_not_before (n : nat) (fallback : aware) : aware :=
  try_except (_clock_not_before n fallback) (fun _ => fallback).

Definition _validate_payload (payload : AdapterPayload.t) : res unit :=
  let expected_name := str_strip (ScheduledSourceJob.adapter_name job) in
  raise_if (negb (bool_decide (str_strip (AdapterPayload.name payload) = expected_name)))
    "adapter payload name mismatch" ;;
  raise_if (negb (bool_decide (str_strip (AdapterHealth.name (AdapterPayload.health payload)) = expected_name)))
    "adapter health name mismatch".

(** The outcome of a failed persistence; [n] is the next clock reading. *)
Definition persistence_failed (n : nat) (outcome : WorkerRunOutcome.t)
    (state : option AdapterState.t) (error : exn) : res WorkerRunOutcome.t :=
  WorkerRunOutcome.new (ScheduledSourceJob.name job) (ScheduledSourceJob.kind job)
    WorkerRunStatus.PERSISTENCE_FAILED (WorkerRunOutcome.started_at outcome)
    (_safe_clock_not_before n (WorkerRunOutcome.finished_at outcome)) state (_error_message error).

Definition _persist_payload (n : nat) (payload : AdapterPayload.t) (outcome : WorkerRunOutcome.t) :
    res WorkerRunOutcome.t :=
  match persist_payload env payload outcome with
  | Ok _ => mret outcome
  | Err error => persistence_failed n outcome (WorkerRunOutcome.adapter_state outcome) error
  end.

Definition _persist_failure (n : nat) (outcome : WorkerRunOutcome.t) : res WorkerRunOutcome.t :=
  match persist_failure env outcome with
  | Ok _ => mret outcome
  | Err error => persistence_failed n outcome (Some AdapterState.DOWN) error
  end.

(** The body of the inner [try] after the first clock reading. *)
Definition load_and_persist (started_at : aware) : res WorkerRunOutcome.t :=
  payload ← load env;
  _validate_payload payload ;;
  let finished_at := _safe_clock_not_before 1 started_at in
  let health := AdapterPayload.health payload in
  outcome ← WorkerRunOutcome.new (ScheduledSourceJob.name job) (ScheduledSourceJob.kind job)
              (_status_for_payload payload) started_at finished_at
              (Some (AdapterHealth.state health)) (AdapterHealth.message health);
  _persist_payload 2 payload outcome.

(** The two [except] clauses; [n] is the next clock reading. *)
Definition handle_failure (n : nat) (started_at : aware) (error : exn) : res WorkerRunOutcome.t :=
  let finished_at := _safe_clock_not_before n started_at in
  outcome ← (if decide (exn_type error = "TimeoutError") then
               WorkerRunOutcome.new (ScheduledSourceJob.name job) (ScheduledSourceJob.kind job)
                 WorkerRunStatus.TIMED_OUT started_at finished_at (Some AdapterState.DOWN)
                 "source load timed out"
             else
               WorkerRunOutcome.new (ScheduledSourceJob.name job) (ScheduledSourceJob.kind job)
                 WorkerRunStatus.FAILED started_at finished_at (Some AdapterState.DOWN)
                 (_error_message error));
  _persist_failure (S n) outcome.

(** The number of clock readings the [try] body makes before [error] leaves it. *)
Definition readings_before_failure : nat :=
  match load env with Ok payload => match _validate_payload payload with Ok _ => 2 | Err _ => 1 end
                    | Err _ => 1 end.

Definition _run_job (scheduled_now : aware) : res WorkerRunOutcome.t :=
  match _clock_not_before 0 scheduled_now with
  | Err error => handle_failure 1 scheduled_now error
  | Ok started_at =>
      match load_and_persist started_at with
      | Ok outcome => Ok outcome
      | Err error => handle_failure readings_before_failure started_at error
      end
  end.
End run_job.

(** ** Facts: a claim *)

(** The microseconds of a number of seconds that is a [timedelta]. *)
Definition seconds (x : float) : Z := match timedelta_seconds x with Ok d => d | Err _ => 0 end.

Lemma after_seconds_Ok now x :
  is_ok (timedelta_seconds x) = true -> after_seconds now x = Ok (time_add now (seconds x)).
Proof. unfold after_seconds, seconds. destruct (timedelta_seconds x); done. Qed.

(** Both delays are [timedelta]s: finite and of fewer than 10^9 days. *)
Definition schedule_ok (job : ScheduledSourceJob.t) : Prop :=
  is_ok (timedelta_seconds (RuntimeSchedule.interval_seconds (schedule job))) = true /\
  is_ok (timedelta_seconds (RuntimeSchedule.initial_delay_seconds (schedule job))) = true.

(** When a job is scheduled, seen at [now]: its first sight counts from [now]. *)
Definition scheduled_for (o : RuntimeOrchestrator) (now : aware) (job : ScheduledSourceJob.t) : aware :=
  match _next_run_at o !! ScheduledSourceJob.name job with
  | Some (Some t) => t
  | _ => time_add now (seconds (RuntimeSchedule.initial_delay_seconds (schedule job)))
  end.

Definition job_due (o : RuntimeOrchestrator) (now : aware) (job : ScheduledSourceJob.t) : bool :=
  (utc (scheduled_for o now job) <=? utc now) &&
  negb (bool_decide (ScheduledSourceJob.name job ∈ _in_flight o)).

Definition next_after (o : RuntimeOrchestrator) (now : aware) (job : ScheduledSourceJob.t) : aware :=
  if job_due o now job
  then time_add now (seconds (RuntimeSchedule.interval_seconds (schedule job)))
  else scheduled_for o now job.

(** The state after one turn of the loop. *)
Definition claimed (o : RuntimeOrchestrator) (now : aware) (job : ScheduledSourceJob.t) : RuntimeOrchestrator :=
  MkOrchestrator (_jobs o)
    (<[ScheduledSourceJob.name job := Some (next_after o now job)]> (_next_run_at o))
    (if job_due o now job then {[ScheduledSourceJob.name job]} ∪ _in_flight o else _in_flight o).

Lemma claim_job_exact now o job :
  schedule_ok job -> is_Some (_next_run_at o !! ScheduledSourceJob.name job) ->
  claim_job now o job = (claimed o now job, Ok (job_due o now job)).
Proof.
  intros [Hi Hd] [t Ht]. unfold claim_job, next_run_at. rewrite Ht.
  rewrite !after_seconds_Ok by done.
  unfold claimed, next_after, job_due, scheduled_for. rewrite Ht.
  destruct t as [t|]; cbn [set_next_run add_in_flight _in_flight _next_run_at _jobs];
    match goal with |- context [py_lt now ?s] =>
      assert (py_lt now s = negb (utc s <=? utc now)) as ->
        by (apply eq_true_iff_eq; rewrite aware_lt_utc, negb_true_iff, Z.leb_gt; done);
      destruct (utc s <=? utc now) end; destruct (bool_decide _); cbn [negb andb orb];
    unfold set_next_run, add_in_flight; cbn [_jobs _next_run_at _in_flight];
    rewrite ?insert_insert_eq; try done; try (destruct o; simpl in *; by rewrite insert_id).
Qed.

(** What the claim leaves unchanged, and what it changes, job by job. *)
Record claim_result (o : RuntimeOrchestrator) (now : aware) (jobs : list ScheduledSourceJob.t)
    (o' : RuntimeOrchestrator) : Prop := {
  cl_jobs : _jobs o' = _jobs o;
  cl_next : forall job, job ∈ jobs ->
    _next_run_at o' !! ScheduledSourceJob.name job = Some (Some (next_after o now job));
  cl_other : forall name, name ∉ ScheduledSourceJob.name <$> jobs ->
    _next_run_at o' !! name = _next_run_at o !! name /\ (name ∈ _in_flight o' <-> name ∈ _in_flight o);
  cl_flight : forall job, job ∈ jobs ->
    (ScheduledSourceJob.name job ∈ _in_flight o' <->
     ScheduledSourceJob.name job ∈ _in_flight o \/ job_due o now job = true) }.

(** A claim of another job is not seen. *)
Lemma claimed_other o now job job' :
  ScheduledSourceJob.name job' <> ScheduledSourceJob.name job ->
  job_due (claimed o now job) now job' = job_due o now job' /\
  next_after (claimed o now job) now job' = next_after o now job'.
Proof.
  intros Hne. assert (scheduled_for (claimed o now job) now job' = scheduled_for o now job') as Hs.
  { unfold scheduled_for, claimed. cbn [_next_run_at]. by rewrite lookup_insert_ne. }
  assert (job_due (claimed o now job) now job' = job_due o now job') as Hd.
  { unfold job_due. rewrite Hs. do 2 f_equal. apply bool_decide_ext. unfold claimed. cbn [_in_flight].
    destruct (job_due o now job); set_solver. }
  split; [done|]. unfold next_after. by rewrite Hd, Hs.
Qed.

Lemma NoDup_fmap_inj_in {A B} (f : A -> B) (l : list A) x y :
  NoDup (f <$> l) -> x ∈ l -> y ∈ l -> f x = f y -> x = y.
Proof.
  intros Hnd Hx Hy E. apply list_elem_of_lookup in Hx as [i Hi], Hy as [j Hj].
  assert (i = j) as ->; [|congruence].
  eapply (NoDup_lookup (f <$> l)); [done|..]; rewrite list_lookup_fmap; [by rewrite Hi|by rewrite Hj; simpl; rewrite E].
Qed.

Lemma filter_ext_in {A} (p q : A -> bool) (l : list A) :
  (forall x, x ∈ l -> p x = q x) -> filter (fun x => p x = true) l = filter (fun x => q x = true) l.
Proof.
  induction l as [|x l IH]; intros H; [done|]. rewrite !filter_cons, (H x), IH by set_solver. done.
Qed.

Lemma claim_jobs_exact now o jobs :
  NoDup (ScheduledSourceJob.name <$> jobs) -> Forall schedule_ok jobs ->
  (forall job, job ∈ jobs -> is_Some (_next_run_at o !! ScheduledSourceJob.name job)) ->
  exists o', claim_jobs now o jobs = (o', Ok (filter (fun job => job_due o now job = true) jobs)) /\
             claim_result o now jobs o'.
Proof.
  revert o. induction jobs as [|job jobs IH]; intros o Hnd Hok Hsome.
  { exists o. split; [done|]. constructor; try done; intros job Hin; by apply not_elem_of_nil in Hin. }
  rewrite fmap_cons, NoDup_cons in Hnd. destruct Hnd as [Hnotin Hnd].
  apply Forall_cons in Hok as [Hj Hok]. cbn [claim_jobs].
  rewrite claim_job_exact by (try done; apply Hsome; set_solver).
  assert (forall job', job' ∈ jobs -> ScheduledSourceJob.name job' <> ScheduledSourceJob.name job) as Hne.
  { intros job' Hin E. apply Hnotin, list_elem_of_fmap. exists job'. by rewrite E. }
  destruct (IH (claimed o now job) Hnd Hok) as (o' & -> & [Cj Cn Co Cf]).
  { intros job' Hin. unfold claimed. cbn [_next_run_at]. rewrite lookup_insert_ne by (by apply not_eq_sym, Hne).
    apply Hsome. set_solver. }
  exists o'. assert (filter (fun j => job_due (claimed o now job) now j = true) jobs =
                     filter (fun j => job_due o now j = true) jobs) as Hfilter.
  { apply filter_ext_in. intros job' Hin. by rewrite (proj1 (claimed_other o now job job' (Hne _ Hin))). }
  split.
  { rewrite Hfilter. cbn [fmap res_fmap]. rewrite filter_cons.
    destruct (job_due o now job); by case_decide. }
  destruct (Co _ Hnotin) as [Cn0 Cf0]. constructor.
  - by rewrite Cj.
  - intros job' [->|Hin]%elem_of_cons.
    + rewrite Cn0. unfold claimed. cbn [_next_run_at]. by rewrite lookup_insert_eq.
    + rewrite Cn by done. by rewrite (proj2 (claimed_other o now job job' (Hne _ Hin))).
  - intros name Hn. rewrite fmap_cons, not_elem_of_cons in Hn. destruct Hn as [Hn1 Hn2].
    destruct (Co _ Hn2) as [-> ->]. unfold claimed. cbn [_next_run_at _in_flight].
    rewrite lookup_insert_ne by done. split; [done|]. destruct (job_due _ _ _); set_solver.
  - intros job' [->|Hin]%elem_of_cons.
    + rewrite Cf0. unfold claimed. cbn [_in_flight]. destruct (job_due _ _ _); set_solver.
    + rewrite Cf by done. rewrite (proj1 (claimed_other o now job job' (Hne _ Hin))).
      pose proof (Hne _ Hin). unfold claimed. cbn [_in_flight]. destruct (job_due o now job); set_solver.
Qed.

(** ** Claims that fail

    A claim only adds to the jobs in flight, and never claims one that is in flight. *)

Lemma claim_job_flight now o job :
  let '(o', r) := claim_job now o job in
  _in_flight o ⊆ _in_flight o' /\ (r = Ok true -> ScheduledSourceJob.name job ∉ _in_flight o).
Proof.
  assert (forall (o1 : RuntimeOrchestrator) name t, _in_flight (set_next_run o1 name t) = _in_flight o1)
    as Hset by done.
  unfold claim_job. destruct (next_run_at o _) as [[t|]|e]; [|destruct (after_seconds now _) as [t|e]|];
    try (by split; [done|]);
    match goal with |- context [py_lt now ?s || ?b] => destruct (py_lt now s); cbn [orb];
      [by split|]; destruct b eqn:Eb; [by split|] end;
    rewrite ?Hset in Eb; guards;
    (destruct (after_seconds now _) as [t'|e']; cbn [_in_flight add_in_flight set_next_run]; split; set_solver).
Qed.

Lemma claim_jobs_flight now o jobs :
  let '(o', r) := claim_jobs now o jobs in
  _in_flight o ⊆ _in_flight o' /\
  (forall due, r = Ok due -> forall job, job ∈ due -> ScheduledSourceJob.name job ∉ _in_flight o).
Proof.
  revert o. induction jobs as [|job jobs IH]; intros o; cbn [claim_jobs].
  { split; [done|]. intros due [= <-] job Hj. by apply not_elem_of_nil in Hj. }
  pose proof (claim_job_flight now o job) as Hj. destruct (claim_job now o job) as [o1 [due|e]];
    destruct Hj as [Hsub Hnew]; [|done].
  specialize (IH o1). destruct (claim_jobs now o1 jobs) as [o2 [l|e]]; destruct IH as [Hsub2 Hl];
    (split; [set_solver|]); [|done].
  intros d [= <-] job' Hin. destruct due; [|by apply (Hl l eq_refl) in Hin; set_solver].
  apply elem_of_cons in Hin as [->|Hin]; [by apply Hnew|]. apply (Hl l eq_refl) in Hin. set_solver.
Qed.

Lemma claim_due_flight t o :
  _in_flight o ⊆ _in_flight (fst (claim_due t o)) /\
  (forall due, snd (claim_due t o) = Ok due ->
   forall job, job ∈ due -> ScheduledSourceJob.name job ∉ _in_flight o).
Proof.
  unfold claim_due. destruct (require_aware t _) as [now|e]; [|done].
  pose proof (claim_jobs_flight now o (_jobs o)) as H. by destruct (claim_jobs now o (_jobs o)).
Qed.

(** A call of [run_due], whether its claim succeeds or raises. *)
Definition claim_call (o o' : RuntimeOrchestrator) : Prop := exists t, o' = fst (claim_due t o).

Lemma claim_calls_flight o o' name :
  rtc claim_call o o' -> name ∈ _in_flight o -> name ∈ _in_flight o'.
Proof.
  induction 1 as [|o o1 o2 [t ->] _ IH]; [done|]. intros H. apply IH. by apply claim_due_flight.
Qed.

Lemma claim_job_fails now o job :
  is_Some (_next_run_at o !! ScheduledSourceJob.name job) ->
  is_ok (timedelta_seconds (RuntimeSchedule.interval_seconds (schedule job))) = false ->
  is_ok (timedelta_seconds (RuntimeSchedule.initial_delay_seconds (schedule job))) = true ->
  job_due o now job = true ->
  exists o' e, claim_job now o job = (o', Err e) /\
    _in_flight o' = {[ScheduledSourceJob.name job]} ∪ _in_flight o.
Proof.
  intros [t Ht] Hi Hd Hdue. unfold claim_job, next_run_at. rewrite Ht, (after_seconds_Ok _ _ Hd).
  assert (exists e, after_seconds now (RuntimeSchedule.interval_seconds (schedule job)) = Err e) as [e ->].
  { unfold after_seconds. destruct (timedelta_seconds _) as [x|e]; [done|by exists e]. }
  unfold job_due, scheduled_for in Hdue. rewrite Ht in Hdue. guards.
  destruct t as [t|]; cbn [set_next_run _in_flight];
    (match goal with |- context [py_lt now ?s] =>
      assert (py_lt now s = false) as -> by (apply not_true_iff_false; rewrite aware_lt_utc; lia) end);
    cbn [orb]; rewrite bool_decide_eq_false_2 by done; by eexists _, e.
Qed.

(** The loop stops at the first job whose interval is not a [timedelta]. *)
Lemma claim_jobs_fails now o before job after :
  NoDup (ScheduledSourceJob.name <$> before ++ job :: after) -> Forall schedule_ok before ->
  (forall j, j ∈ before ++ job :: after -> is_Some (_next_run_at o !! ScheduledSourceJob.name j)) ->
  is_ok (timedelta_seconds (RuntimeSchedule.interval_seconds (schedule job))) = false ->
  is_ok (timedelta_seconds (RuntimeSchedule.initial_delay_seconds (schedule job))) = true ->
  job_due o now job = true ->
  exists o' e, claim_jobs now o (before ++ job :: after) = (o', Err e) /\
    forall j, j ∈ before ++ [job] -> job_due o now j = true -> ScheduledSourceJob.name j ∈ _in_flight o'.
Proof.
  intros Hnd Hs Hsome Hi Hd. revert o Hsome. induction before as [|b before IH]; intros o Hsome Hdue; cbn [app claim_jobs].
  - destruct (claim_job_fails now o job) as (o' & e & -> & Hf); [apply Hsome; set_solver|done..|].
    exists o', e. split; [done|]. intros j [->|[]%not_elem_of_nil]%elem_of_cons _. set_solver.
  - cbn [app] in Hnd. rewrite fmap_cons, NoDup_cons in Hnd. destruct Hnd as [Hnotin Hnd].
    apply Forall_cons in Hs as [Hb Hs].
    rewrite claim_job_exact by (try done; apply Hsome; set_solver).
    assert (forall j, j ∈ before ++ job :: after -> ScheduledSourceJob.name j <> ScheduledSourceJob.name b) as Hne.
    { intros j Hin E. apply Hnotin, list_elem_of_fmap. exists j. by rewrite E. }
    destruct (IH Hnd Hs (claimed o now b)) as (o' & e & E & Hf).
    { intros j Hin. unfold claimed. cbn [_next_run_at]. rewrite lookup_insert_ne by (by apply not_eq_sym, Hne).
      apply Hsome. set_solver. }
    { rewrite (proj1 (claimed_other o now b job (Hne job ltac:(set_solver)))). done. }
    pose proof (claim_jobs_flight now (claimed o now b) (before ++ job :: after)) as Hsub.
    rewrite E in Hsub. rewrite E. exists o', e. split; [done|]. intros j [->|Hin]%elem_of_cons Hj.
    + destruct Hsub as [Hsub _]. apply Hsub. unfold claimed. cbn [_in_flight]. rewrite Hj. set_solver.
    + apply Hf; [done|]. rewrite (proj1 (claimed_other o now b j (Hne j ltac:(set_solver)))). done.
Qed.

(** ** The orchestrator as a transition system *)

Record orchestrator_ok (o : RuntimeOrchestrator) : Prop := {
  ok_names : NoDup (ScheduledSourceJob.name <$> _jobs o);
  ok_schedules : Forall schedule_ok (_jobs o);
  ok_next : forall job, job ∈ _jobs o -> is_Some (_next_run_at o !! ScheduledSourceJob.name job);
  ok_flight : forall name, name ∈ _in_flight o -> name ∈ ScheduledSourceJob.name <$> _jobs o }.

Lemma new_orchestrator_ok jobs o :
  Forall schedule_ok jobs -> new_orchestrator jobs = Ok o -> orchestrator_ok o.
Proof.
  intros Hs H. unfold new_orchestrator in H. guards. subst o. constructor; cbn [_jobs _next_run_at _in_flight].
  - done.
  - done.
  - intros job Hin. exists None. apply elem_of_list_to_map_1.
    + rewrite <- list_fmap_compose. cbn. by rewrite list_fmap_id.
    + apply list_elem_of_fmap. exists (ScheduledSourceJob.name job). split; [done|].
      apply list_elem_of_fmap. by exists job.
  - set_solver.
Qed.

Lemma claim_due_exact o now :
  orchestrator_ok o ->
  exists o', claim_due (AwareDT now) o =
      (o', Ok (filter (fun job => job_due o now job = true) (_jobs o))) /\
    claim_result o now (_jobs o) o' /\ orchestrator_ok o'.
Proof.
  intros [Hnd Hs Hn Hf]. unfold claim_due. cbn [require_aware].
  destruct (claim_jobs_exact now o (_jobs o) Hnd Hs Hn) as (o' & -> & Hr).
  exists o'. split; [done|]. split; [done|]. destruct Hr as [Cj Cn Co Cf].
  constructor; rewrite ?Cj; try done.
  - intros job Hin. rewrite Cn by done. by eexists.
  - intros name Hin. destruct (decide (name ∈ ScheduledSourceJob.name <$> _jobs o)) as [|Hne]; [done|].
    apply Hf. by apply Co.
Qed.

(** A claim by [run_due] at a time, and the end of a job: calls of [run_due] and jobs in
    flight may interleave in any way. *)
Inductive event : Type :=
| EClaim (now : aware) (due : list ScheduledSourceJob.t)
| ERelease (name : string).

#[export] Instance event_eq_dec : EqDecision event.
Proof. solve_decision. Defined.

Inductive sched_step (o : RuntimeOrchestrator) : event -> RuntimeOrchestrator -> Prop :=
| step_claim now o' due : claim_due (AwareDT now) o = (o', Ok due) -> sched_step o (EClaim now due) o'
| step_release name : name ∈ _in_flight o -> sched_step o (ERelease name) (discard_in_flight o name).

Inductive trace : RuntimeOrchestrator -> list event -> RuntimeOrchestrator -> Prop :=
| trace_nil o : trace o [] o
| trace_cons o e o1 l o2 : sched_step o e o1 -> trace o1 l o2 -> trace o (e :: l) o2.

Lemma trace_app o l1 l2 o2 :
  trace o (l1 ++ l2) o2 <-> exists o1, trace o l1 o1 /\ trace o1 l2 o2.
Proof.
  revert o; induction l1 as [|e l1 IH]; intros o; simpl.
  - split; [intros H; exists o; by split; [constructor|]|]. intros (o1 & H1 & H). by inversion H1; subst.
  - split.
    + intros Htr. inversion Htr as [|? ? o3 ? ? Hs Ht]; subst. apply IH in Ht as (o4 & H3 & H4).
      exists o4. split; [by econstructor|done].
    + intros (o1 & H1 & H). inversion H1; subst. econstructor; [done|]. apply IH. by eexists.
Qed.

Definition claims (name : string) (e : event) : Prop :=
  match e with EClaim _ due => name ∈ ScheduledSourceJob.name <$> due | ERelease _ => False end.

Lemma step_ok o e o' : sched_step o e o' -> orchestrator_ok o -> orchestrator_ok o' /\ _jobs o' = _jobs o.
Proof.
  intros H Hok. destruct H as [now o' due H|name Hin].
  - destruct (claim_due_exact o now Hok) as (o1 & E & Hr & Hok1).
    rewrite E in H. injection H as <- _. split; [done|]. by destruct Hr.
  - destruct Hok as [? ? ? Hf]. split; [|done]. constructor; try done. unfold discard_in_flight.
    cbn [_in_flight _jobs]. intros n Hn. apply Hf. set_solver.
Qed.

Lemma trace_ok o l o' : trace o l o' -> orchestrator_ok o -> orchestrator_ok o' /\ _jobs o' = _jobs o.
Proof.
  induction 1 as [|o e o1 l o2 Hs _ IH]; [done|]. intros Hok.
  destruct (step_ok _ _ _ Hs Hok) as [Hok1 <-]. by apply IH.
Qed.

Lemma due_names o now name :
  name ∈ ScheduledSourceJob.name <$> filter (fun job => job_due o now job = true) (_jobs o) <->
  exists job, job ∈ _jobs o /\ ScheduledSourceJob.name job = name /\ job_due o now job = true.
Proof.
  rewrite list_elem_of_fmap. setoid_rewrite list_elem_of_filter. split.
  - intros (job & -> & Hd & Hin). by exists job.
  - intros (job & Hin & <- & Hd). by exists job.
Qed.

(** A step that does not claim a scheduled job keeps its time, and keeps it in flight
    unless it releases it. *)
Lemma step_keeps o e o' job t :
  orchestrator_ok o -> sched_step o e o' -> job ∈ _jobs o ->
  _next_run_at o !! ScheduledSourceJob.name job = Some (Some t) ->
  ~ claims (ScheduledSourceJob.name job) e ->
  _next_run_at o' !! ScheduledSourceJob.name job = Some (Some t) /\
  (ScheduledSourceJob.name job ∈ _in_flight o -> e <> ERelease (ScheduledSourceJob.name job) ->
   ScheduledSourceJob.name job ∈ _in_flight o').
Proof.
  intros Hok H Hin Ht Hnc. destruct H as [now o' due H|name Hname].
  - destruct (claim_due_exact o now Hok) as (o1 & E & [Cj Cn Co Cf] & _).
    rewrite E in H. injection H as <- <-. simpl in Hnc. rewrite due_names in Hnc.
    assert (job_due o now job = false) as Hd.
    { destruct (job_due o now job) eqn:Hd; [|done]. destruct Hnc. by exists job. }
    split.
    + rewrite Cn by done. unfold next_after. rewrite Hd. unfold scheduled_for. by rewrite Ht.
    + intros Hf _. apply Cf; [done|]. by left.
  - split; [done|]. unfold discard_in_flight. cbn [_in_flight]. intros Hf Hne. set_solver.
Qed.

Lemma trace_keeps o l o' job t :
  orchestrator_ok o -> trace o l o' -> job ∈ _jobs o ->
  _next_run_at o !! ScheduledSourceJob.name job = Some (Some t) ->
  Forall (fun e => ~ claims (ScheduledSourceJob.name job) e) l ->
  _next_run_at o' !! ScheduledSourceJob.name job = Some (Some t) /\
  (ScheduledSourceJob.name job ∈ _in_flight o -> ERelease (ScheduledSourceJob.name job) ∉ l ->
   ScheduledSourceJob.name job ∈ _in_flight o').
Proof.
  intros Hok Htr. revert Hok. induction Htr as [|o e o1 l o2 Hs _ IH]; intros Hok Hin Ht Hnc; [done|].
  apply Forall_cons in Hnc as [Hc Hnc]. destruct (step_ok _ _ _ Hs Hok) as [Hok1 Hj].
  destruct (step_keeps _ _ _ _ _ Hok Hs Hin Ht Hc) as [Ht1 Hf1].
  destruct IH as [IH1 IH2]; [done|by rewrite Hj|done|done|]. split; [done|].
  intros Hf Hnr. apply not_elem_of_cons in Hnr as [Hne Hnr]. apply IH2; [|done]. by apply Hf1; [|apply not_eq_sym].
Qed.

(** ** Facts: one run *)

Lemma clock_not_before_le env n fallback t :
  _clock_not_before env n fallback = Ok t -> utc fallback <= utc t.
Proof.
  unfold _clock_not_before. intros (v & _ & H)%bind_Ok. apply Ok_inj in H as <-.
  destruct (py_le fallback v) eqn:E; [by apply aware_le_utc|done].
Qed.

Lemma safe_clock_le env n fallback : utc fallback <= utc (_safe_clock_not_before env n fallback).
Proof.
  unfold _safe_clock_not_before, try_except.
  destruct (_clock_not_before env n fallback) eqn:E; [by eapply clock_not_before_le|done].
Qed.

Lemma new_outcome_Ok name kind st a b state msg :
  str_empty (str_strip name) = false -> utc a <= utc b ->
  WorkerRunOutcome.new name kind st a b state msg = Ok (WorkerRunOutcome.Mk name kind st a b state msg).
Proof. intros Hn Hab. unfold WorkerRunOutcome.new. apply aware_lt_false in Hab. by rewrite Hn, Hab. Qed.

(** A time of the years 1 to 9999, and more. *)
Definition python_time (t : aware) : Prop := - 2 ^ 59 <= utc t <= 2 ^ 59.

(** No run is longer than 2^60 microseconds: Python's times span less. *)
Definition spanned (o : WorkerRunOutcome.t) : Prop :=
  0 <= utc (WorkerRunOutcome.finished_at o) - utc (WorkerRunOutcome.started_at o) <= 2 ^ 60.

Lemma duration_ms_total o : spanned o -> exists ms, WorkerRunOutcome.duration_ms o = Ok ms.
Proof. intros Hs. unfold WorkerRunOutcome.duration_ms, time_sub. by apply milliseconds_total. Qed.

Lemma python_spanned (a b : aware) name kind st state msg :
  python_time a -> python_time b -> utc a <= utc b -> spanned (WorkerRunOutcome.Mk name kind st a b state msg).
Proof. unfold python_time, spanned. simpl. lia. Qed.

Section clocked.
Context (env : Env) (Hclock : forall n t, clock env n = Ok (AwareDT t) -> python_time t).

Lemma clock_python n fallback t :
  python_time fallback -> _clock_not_before env n fallback = Ok t -> python_time t.
Proof.
  intros Hf. unfold _clock_not_before, _aware_clock. intros ([v] & Hv & Ht)%bind_Ok. apply Ok_inj in Ht as <-.
  apply bind_Ok in Hv as (d & Hd & Hv). unfold require_aware in Hv. destruct d as [a|a]; [|done].
  apply Ok_inj in Hv. subst a. apply Hclock in Hd. by destruct (py_le _ _).
Qed.

Lemma safe_clock_python n fallback : python_time fallback -> python_time (_safe_clock_not_before env n fallback).
Proof.
  intros Hf. unfold _safe_clock_not_before, try_except.
  destruct (_clock_not_before env n fallback) as [t|e] eqn:E; [by eapply clock_python|done].
Qed.

(** The times of an outcome. *)
Definition timed (o : WorkerRunOutcome.t) : Prop :=
  python_time (WorkerRunOutcome.started_at o) /\ python_time (WorkerRunOutcome.finished_at o).

Lemma new_timed name kind st a b state msg o :
  WorkerRunOutcome.new name kind st a b state msg = Ok o -> python_time a -> python_time b -> timed o.
Proof. unfold WorkerRunOutcome.new. intros H ??. guards. by subst o. Qed.

Lemma persistence_failed_timed job n o state e o' :
  persistence_failed env job n o state e = Ok o' -> timed o -> timed o'.
Proof. intros H [Ha Hb]. eapply new_timed; [exact H|done|]. by apply safe_clock_python. Qed.

Lemma handle_failure_timed job n s e o : handle_failure env job n s e = Ok o -> python_time s -> timed o.
Proof.
  unfold handle_failure. cbv zeta. intros (o1 & Ho & H)%bind_Ok Hs.
  assert (timed o1) as H1 by (case_decide; (eapply new_timed; [exact Ho|done|by apply safe_clock_python])).
  unfold _persist_failure in H. destruct (persist_failure env o1); [by apply Ok_inj in H as <-|].
  by eapply persistence_failed_timed.
Qed.

Lemma run_job_timed job now o : _run_job env job now = Ok o -> python_time now -> timed o.
Proof.
  unfold _run_job. intros H Hn. destruct (_clock_not_before env 0 now) as [s|e] eqn:E; [|by eapply handle_failure_timed].
  apply clock_python in E; [|done]. destruct (load_and_persist env job s) as [o1|e] eqn:El; [|by eapply handle_failure_timed].
  injection H as <-. unfold load_and_persist in El. apply bind_Ok in El as (p & _ & El). apply bind_Ok in El as (u & _ & El).
  cbv zeta in El. apply bind_Ok in El as (o2 & Ho & El).
  assert (timed o2) as H2 by (eapply new_timed; [exact Ho|done|by apply safe_clock_python]).
  unfold _persist_payload in El. destruct (persist_payload env p o2); [by apply Ok_inj in El as <-|].
  by eapply persistence_failed_timed.
Qed.
End clocked.

(** How a status comes about. *)
Inductive run_cause (env : Env) (job : ScheduledSourceJob.t) : WorkerRunOutcome.t -> Prop :=
| cause_loaded payload u o :
    load env = Ok payload -> _validate_payload job payload = Ok tt ->
    WorkerRunOutcome.status o = _status_for_payload payload ->
    WorkerRunOutcome.adapter_state o = Some (AdapterHealth.state (AdapterPayload.health payload)) ->
    persist_payload env payload o = Ok u -> run_cause env job o
| cause_timeout u o :
    WorkerRunOutcome.status o = WorkerRunStatus.TIMED_OUT ->
    WorkerRunOutcome.adapter_state o = Some AdapterState.DOWN ->
    persist_failure env o = Ok u -> run_cause env job o
| cause_failed u o :
    WorkerRunOutcome.status o = WorkerRunStatus.FAILED ->
    WorkerRunOutcome.adapter_state o = Some AdapterState.DOWN ->
    persist_failure env o = Ok u -> run_cause env job o
| cause_not_persisted o lost e :
    WorkerRunOutcome.status o = WorkerRunStatus.PERSISTENCE_FAILED ->
    (persist_failure env lost = Err e \/ exists payload, persist_payload env payload lost = Err e) ->
    WorkerRunOutcome.message o = _error_message e -> run_cause env job o.

(** What every outcome of a run satisfies. *)
Record outcome_ok (job : ScheduledSourceJob.t) (scheduled_now : aware) (o : WorkerRunOutcome.t) : Prop := {
  oc_name : WorkerRunOutcome.job_name o = ScheduledSourceJob.name job;
  oc_kind : WorkerRunOutcome.kind o = ScheduledSourceJob.kind job;
  oc_started : utc scheduled_now <= utc (WorkerRunOutcome.started_at o);
  oc_finished : utc (WorkerRunOutcome.started_at o) <= utc (WorkerRunOutcome.finished_at o) }.

Section run_facts.
Context (env : Env) (job : ScheduledSourceJob.t) (scheduled_now : aware).
Context (Hname : str_empty (str_strip (ScheduledSourceJob.name job)) = false).

Lemma persistence_failed_Ok n o state e :
  outcome_ok job scheduled_now o ->
  (persist_failure env o = Err e \/ exists payload, persist_payload env payload o = Err e) ->
  exists o', persistence_failed env job n o state e = Ok o' /\
    outcome_ok job scheduled_now o' /\ run_cause env job o'.
Proof.
  intros [Hn Hk Hs Hf] He. unfold persistence_failed.
  pose proof (safe_clock_le env n (WorkerRunOutcome.finished_at o)) as Hle.
  rewrite new_outcome_Ok by (done || lia). eexists. split; [done|].
  split; [constructor; simpl; done || lia|by eapply cause_not_persisted].
Qed.

Lemma handle_failure_Ok n started_at e :
  utc scheduled_now <= utc started_at ->
  exists o, handle_failure env job n started_at e = Ok o /\
    outcome_ok job scheduled_now o /\ run_cause env job o.
Proof.
  intros Hs. unfold handle_failure. cbv zeta.
  pose proof (safe_clock_le env n started_at) as Hle.
  assert (exists st msg, (st = WorkerRunStatus.TIMED_OUT \/ st = WorkerRunStatus.FAILED) /\
    (if decide (exn_type e = "TimeoutError") then
       WorkerRunOutcome.new (ScheduledSourceJob.name job) (ScheduledSourceJob.kind job)
         WorkerRunStatus.TIMED_OUT started_at (_safe_clock_not_before env n started_at)
         (Some AdapterState.DOWN) "source load timed out"
     else
       WorkerRunOutcome.new (ScheduledSourceJob.name job) (ScheduledSourceJob.kind job)
         WorkerRunStatus.FAILED started_at (_safe_clock_not_before env n started_at)
         (Some AdapterState.DOWN) (_error_message e)) =
    Ok (WorkerRunOutcome.Mk (ScheduledSourceJob.name job) (ScheduledSourceJob.kind job) st started_at
          (_safe_clock_not_before env n started_at) (Some AdapterState.DOWN) msg))
    as (st & msg & Hst & ->).
  { case_decide; do 2 eexists; (split; [by (left + right)|by apply new_outcome_Ok]). }
  rewrite Ok_bind. set (o := WorkerRunOutcome.Mk _ _ _ _ _ _ _).
  assert (outcome_ok job scheduled_now o) as Hok by (constructor; simpl; done || lia).
  unfold _persist_failure. destruct (persist_failure env o) as [u|e'] eqn:E.
  - exists o. split; [done|]. split; [done|].
    destruct Hst as [-> | ->]; [by eapply cause_timeout|by eapply cause_failed].
  - apply persistence_failed_Ok; [done|by left].
Qed.

Lemma load_and_persist_Ok started_at o :
  utc scheduled_now <= utc started_at -> load_and_persist env job started_at = Ok o ->
  outcome_ok job scheduled_now o /\ run_cause env job o.
Proof.
  intros Hs. unfold load_and_persist. intros (payload & Hl & H)%bind_Ok.
  apply bind_Ok in H as ([] & Hv & H). cbv zeta in H.
  pose proof (safe_clock_le env 1 started_at) as Hle.
  rewrite new_outcome_Ok, Ok_bind in H by done.
  set (o' := WorkerRunOutcome.Mk _ _ _ _ _ _ _) in H.
  assert (outcome_ok job scheduled_now o') as Hok by (constructor; simpl; done || lia).
  unfold _persist_payload in H. destruct (persist_payload env payload o') as [u|e] eqn:E.
  - apply Ok_inj in H as <-. split; [done|]. by eapply cause_loaded.
  - destruct (persistence_failed_Ok 2 o' (WorkerRunOutcome.adapter_state o') e) as (o1 & E1 & H1);
      [done|right; by exists payload|].
    rewrite E1 in H. apply Ok_inj in H as <-. done.
Qed.

Lemma run_job_Ok :
  exists o, _run_job env job scheduled_now = Ok o /\
    outcome_ok job scheduled_now o /\ run_cause env job o.
Proof.
  unfold _run_job. destruct (_clock_not_before env 0 scheduled_now) as [started_at|e] eqn:E.
  - apply clock_not_before_le in E. destruct (load_and_persist env job started_at) as [o|e] eqn:El.
    + exists o. split; [done|]. by eapply load_and_persist_Ok.
    + by apply handle_failure_Ok.
  - by apply handle_failure_Ok.
Qed.
End run_facts.

(** ** Properties *)

(** A call of [run_due] claims exactly the jobs that are scheduled at or before its
    time and not in flight, in configuration order, whatever the state; each of them is
    in flight afterwards and scheduled one interval later, every other job keeps its
    schedule, and the orchestrator's invariant holds again. *)
Theorem claim_exact o now :
  orchestrator_ok o ->
  exists o', claim_due (AwareDT now) o =
      (o', Ok (filter (fun job => job_due o now job = true) (_jobs o))) /\
    orchestrator_ok o' /\
    (forall job, job ∈ _jobs o -> job_due o now job = true ->
       ScheduledSourceJob.name job ∈ _in_flight o' /\
       next_run_at o' (ScheduledSourceJob.name job) =
         Ok (Some (time_add now (seconds (RuntimeSchedule.interval_seconds (schedule job)))))) /\
    (forall job, job ∈ _jobs o -> job_due o now job = false ->
       (ScheduledSourceJob.name job ∈ _in_flight o' <-> ScheduledSourceJob.name job ∈ _in_flight o) /\
       next_run_at o' (ScheduledSourceJob.name job) = Ok (Some (scheduled_for o now job))).
Proof.
  intros Hok. destruct (claim_due_exact o now Hok) as (o' & E & [Cj Cn Co Cf] & Hok').
  exists o'. split; [done|]. split; [done|]. unfold next_run_at.
  split; intros job Hin Hd; rewrite Cn, Cf by done; unfold next_after; rewrite Hd; [by auto|].
  split; [|done]. naive_solver.
Qed.

(** C9: in every interleaving of [run_due] calls and ending jobs, a job that is claimed
    twice was released in between (two runs of a job never overlap), and the later claim
    comes at least one interval after the earlier one. *)
Theorem claims_are_spaced o o' job t1 d1 l t2 d2 :
  orchestrator_ok o -> job ∈ _jobs o ->
  trace o (EClaim t1 d1 :: l ++ [EClaim t2 d2]) o' ->
  claims (ScheduledSourceJob.name job) (EClaim t1 d1) ->
  claims (ScheduledSourceJob.name job) (EClaim t2 d2) ->
  Forall (fun e => ~ claims (ScheduledSourceJob.name job) e) l ->
  ERelease (ScheduledSourceJob.name job) ∈ l /\
  utc t1 + seconds (RuntimeSchedule.interval_seconds (schedule job)) <= utc t2.
Proof.
  intros Hok Hin Htr Hc1 Hc2 Hl. inversion Htr as [|? ? o1 ? ? Hs Hrest]; subst.
  destruct (step_ok _ _ _ Hs Hok) as [Hok1 Hj1]. apply trace_app in Hrest as (o2 & Hmid & Hlast).
  destruct (trace_ok _ _ _ Hmid Hok1) as [Hok2 Hj2].
  assert (_next_run_at o1 !! ScheduledSourceJob.name job =
            Some (Some (time_add t1 (seconds (RuntimeSchedule.interval_seconds (schedule job))))) /\
          ScheduledSourceJob.name job ∈ _in_flight o1) as [Hn1 Hf1].
  { inversion Hs as [? ? ? H|]; subst. destruct (claim_due_exact o t1 Hok) as (ox & E & [Cj Cn Co Cf] & _).
    rewrite E in H. injection H as -> <-. simpl in Hc1. apply due_names in Hc1 as (job' & Hin' & Hname & Hd).
    rewrite <- Hname, Cn, Cf by done. unfold next_after. rewrite Hd.
    assert (job' = job) as -> by (by eapply (NoDup_fmap_inj_in _ _ _ _ (ok_names _ Hok))). auto. }
  destruct (trace_keeps o1 l o2 job _ Hok1 Hmid ltac:(by rewrite Hj1) Hn1 Hl) as [Hn2 Hf2].
  inversion Hlast as [|? ? o3 ? ? Hs2 _]; subst. inversion Hs2 as [? ? ? H|]; subst.
  destruct (claim_due_exact o2 t2 Hok2) as (ox & E & _ & _). rewrite E in H. injection H as -> <-.
  simpl in Hc2. apply due_names in Hc2 as (job' & Hin' & Hname & Hd).
  assert (job' = job) as -> by (eapply (NoDup_fmap_inj_in _ _ _ _ (ok_names _ Hok2)); [done|by rewrite Hj2, Hj1|done]).
  unfold job_due, scheduled_for in Hd. rewrite Hn2 in Hd. guards. simpl in *. split; [|lia].
  destruct (decide (ERelease (ScheduledSourceJob.name job) ∈ l)) as [|Hne]; [done|]. by apply Hf2 in Hf1.
Qed.

(** Whatever the clock, the adapter and the store do, a run ends with an outcome:
    it is of the job, does not start before the scheduled time nor end before its
    start, and its status has its cause: a loaded payload of the right name that the
    store accepted, a time-out or failure that the store recorded, or a refusal of the
    store, reported as PERSISTENCE_FAILED with its message. *)
Theorem run_job_total env job scheduled_now :
  str_empty (str_strip (ScheduledSourceJob.name job)) = false ->
  exists o, _run_job env job scheduled_now = Ok o /\
    outcome_ok job scheduled_now o /\ run_cause env job o.
Proof. apply run_job_Ok. Qed.

(** A success is never reported for a payload that was not stored: a run that is
    SUCCEEDED or DEGRADED loaded a payload of that health under the adapter's name, and
    the store accepted exactly the outcome that is returned. *)
Theorem success_is_stored env job scheduled_now o :
  _run_job env job scheduled_now = Ok o ->
  str_empty (str_strip (ScheduledSourceJob.name job)) = false ->
  WorkerRunOutcome.completed_without_failure o = true ->
  exists payload u, load env = Ok payload /\ _validate_payload job payload = Ok tt /\
    WorkerRunOutcome.status o = _status_for_payload payload /\
    persist_payload env payload o = Ok u.
Proof.
  intros H Hname Hc. destruct (run_job_Ok env job scheduled_now Hname) as (o' & E & _ & Hcause).
  assert (o' = o) as -> by congruence. apply bool_decide_eq_true in Hc.
  destruct Hcause as [payload u o Hl Hv Hst _ Hp|u o Hst|u o Hst|o lost e Hst];
    [by exists payload, u|rewrite Hst in Hc; set_solver..].
Qed.

(** ** Concrete instances *)

Definition sample_job (name : string) (interval : Z) : ScheduledSourceJob.t :=
  ScheduledSourceJob.Mk name SourceJobKind.BENCHMARK "mexc"
    (RuntimeSchedule.Mk (Fl interval 0) (Fl 10 0) (Fl 0 0)).

Definition sample_jobs : list ScheduledSourceJob.t := [sample_job "fast" 30; sample_job "slow" 60].

Definition sample_orchestrator : RuntimeOrchestrator :=
  MkOrchestrator sample_jobs {[ "fast" := None; "slow" := None ]} ∅.

Lemma sample_orchestrator_ok : orchestrator_ok sample_orchestrator.
Proof.
  apply (new_orchestrator_ok sample_jobs); [by repeat constructor|]. vm_compute. reflexivity.
Qed.

Definition at_second (n : Z) : aware := Aware (n * us_per_second) 0.

Lemma claim_exact_witness :
  exists o', claim_due (AwareDT (at_second 0)) sample_orchestrator = (o', Ok sample_jobs) /\
    orchestrator_ok o'.
Proof.
  destruct (claim_exact sample_orchestrator (at_second 0) sample_orchestrator_ok) as (o' & E & Hok & _).
  exists o'. split; [exact E|exact Hok].
Defined.

Definition sample_after (o : RuntimeOrchestrator) (t : Z) : RuntimeOrchestrator :=
  fst (claim_due (AwareDT (at_second t)) o).

Definition sample_o1 : RuntimeOrchestrator := sample_after sample_orchestrator 0.
Definition sample_o2 : RuntimeOrchestrator := discard_in_flight sample_o1 "fast".

Lemma sample_trace :
  trace sample_orchestrator
    (EClaim (at_second 0) sample_jobs :: [ERelease "fast"] ++
     [EClaim (at_second 31) [sample_job "fast" 30]]) (sample_after sample_o2 31).
Proof.
  apply (trace_cons _ _ sample_o1); [apply step_claim; vm_compute; reflexivity|].
  apply (trace_cons _ _ sample_o2).
  { apply step_release. apply (bool_decide_unpack _). vm_compute. exact I. }
  apply (trace_cons _ _ (sample_after sample_o2 31)); [apply step_claim; vm_compute; reflexivity|constructor].
Qed.

Lemma claims_are_spaced_witness :
  ERelease "fast" ∈ [ERelease "fast"] /\
  utc (at_second 0) + seconds (Fl 30 0) <= utc (at_second 31).
Proof.
  refine (claims_are_spaced sample_orchestrator _ (sample_job "fast" 30) _ _ _ _ _
    sample_orchestrator_ok _ sample_trace _ _ _).
  - apply (bool_decide_unpack _). vm_compute. exact I.
  - unfold claims. apply (bool_decide_unpack _). vm_compute. exact I.
  - unfold claims. apply (bool_decide_unpack _). vm_compute. exact I.
  - constructor; [intros []|constructor].
Defined.

Definition sample_payload : AdapterPayload.t :=
  AdapterPayload.Mk "mexc" [] (AdapterHealth.Mk "mexc" AdapterState.OK (Some 12) "ok").

Definition sample_env (stored : bool) : Env :=
  MkEnv (fun n => Ok (AwareDT (at_second (Z.of_nat n)))) (Ok sample_payload)
    (fun _ _ => if stored then Ok tt else Err (Exn "OperationalError" "database is locked"))
    (fun _ => Ok tt).

Lemma run_job_total_witness :
  exists o, _run_job (sample_env false) (sample_job "fast" 30) (at_second 0) = Ok o /\
    outcome_ok (sample_job "fast" 30) (at_second 0) o.
Proof.
  destruct (run_job_total (sample_env false) (sample_job "fast" 30) (at_second 0) eq_refl)
    as (o & E & Hok & _).
  exists o. split; [exact E|exact Hok].
Defined.

Lemma success_is_stored_witness :
  exists o payload, _run_job (sample_env true) (sample_job "fast" 30) (at_second 0) = Ok o /\
    load (sample_env true) = Ok payload /\ WorkerRunOutcome.status o = _status_for_payload payload.
Proof.
  destruct (_run_job (sample_env true) (sample_job "fast" 30) (at_second 0)) as [o|e] eqn:E;
    [|vm_compute in E; discriminate E].
  assert (WorkerRunOutcome.completed_without_failure o = true) as Hc.
  { vm_compute in E. apply Ok_inj in E. subst o. vm_compute. reflexivity. }
  destruct (success_is_stored _ _ _ _ E eq_refl Hc) as (payload & u & Hl & _ & Hst & _).
  exists o, payload. split; [reflexivity|]. split; [exact Hl|exact Hst].
Defined.

(** C39: a job whose interval is no [timedelta] (an infinity, a NaN, 10^9 days: the
    constructor only asks for a positive number) breaks the orchestrator for good.  The
    first call of [run_due] in which it is due raises inside the claim loop, before any
    job is started, and leaves it and every due job configured before it in flight.
    Since nothing runs that would release them, no later call ever claims them again. *)
Theorem undated_interval_wedges_jobs o now before job after :
  _jobs o = before ++ job :: after -> NoDup (ScheduledSourceJob.name <$> _jobs o) ->
  Forall schedule_ok before ->
  (forall j, j ∈ _jobs o -> is_Some (_next_run_at o !! ScheduledSourceJob.name j)) ->
  is_ok (timedelta_seconds (RuntimeSchedule.interval_seconds (schedule job))) = false ->
  is_ok (timedelta_seconds (RuntimeSchedule.initial_delay_seconds (schedule job))) = true ->
  job_due o now job = true ->
  exists o' e, claim_due (AwareDT now) o = (o', Err e) /\
    forall o'' j, rtc claim_call o' o'' -> j ∈ before ++ [job] -> job_due o now j = true ->
      ScheduledSourceJob.name j ∈ _in_flight o'' /\
      forall t due, snd (claim_due t o'') = Ok due ->
        ScheduledSourceJob.name j ∉ ScheduledSourceJob.name <$> due.
Proof.
  intros Hjobs Hnd Hbefore Hsome Hi Hd Hdue.
  destruct (claim_jobs_fails now o before job after) as (o' & e & E & Hfl); try done.
  { by rewrite <- Hjobs. } { intros j Hj. apply Hsome. by rewrite Hjobs. }
  exists o', e. split; [unfold claim_due; cbn [require_aware]; by rewrite Hjobs|].
  intros o'' j Hrtc Hj Hjd. assert (ScheduledSourceJob.name j ∈ _in_flight o'') as Hin
    by (eapply claim_calls_flight; [done|by apply Hfl]).
  split; [done|]. intros t due Hok Hn. apply list_elem_of_fmap in Hn as (j' & E' & Hj').
  apply (proj2 (claim_due_flight t o'') _ Hok) in Hj'. by rewrite <- E' in Hj'.
Qed.

Definition wedged_job : ScheduledSourceJob.t :=
  ScheduledSourceJob.Mk "fast" SourceJobKind.BENCHMARK "mexc"
    (RuntimeSchedule.Mk (FInf false) (Fl 10 0) (Fl 0 0)).

Definition wedged : RuntimeOrchestrator :=
  MkOrchestrator [sample_job "slow" 60; wedged_job] {[ "slow" := None; "fast" := None ]} ∅.

Lemma undated_interval_wedges_jobs_witness :
  RuntimeSchedule.new (FInf false) (Fl 10 0) (Fl 0 0) = Ok (schedule wedged_job) /\
  exists o' e, claim_due (AwareDT (at_second 0)) wedged = (o', Err e) /\
    forall o'', rtc claim_call o' o'' -> "slow" ∈ _in_flight o''.
Proof.
  split; [reflexivity|].
  destruct (undated_interval_wedges_jobs wedged (at_second 0) [sample_job "slow" 60] wedged_job [])
    as (o' & e & E & H); try reflexivity.
  - apply (bool_decide_unpack _). vm_compute. exact I.
  - repeat constructor.
  - intros j Hj. apply elem_of_cons in Hj as [->|[->|[]%not_elem_of_nil]%elem_of_cons];
      vm_compute; eexists; reflexivity.
  - exists o', e. split; [exact E|]. intros o'' Hr.
    apply (H o'' (sample_job "slow" 60) Hr); [apply elem_of_cons; left; reflexivity|].
    vm_compute. reflexivity.
Defined.
