(* ===== verification/SourceCache.v ===== *)
(** * Source cache and request budget: [adapters/source_cache.py]

    [AsyncTtlCache] keeps a value per key until its time to live has passed;
    [SlidingWindowBudget] grants at most [max_requests] requests in a window.  Every
    method runs under the object's lock, so a call is one step; [now] is the reading of
    the object's clock ([time.monotonic] by default) that the call makes, which the
    theorems assume finite and not decreasing from call to call, as its documentation
    says. *)

From stdpp Require Import list strings gmap.
From S2P Require Import Prelude PyList PyStr PyTime PyFloat FloatFacts.
Open Scope Z_scope.

(** ** The cache *)

Module CacheEntry.
Record t (T : Type) : Type := Mk { value : T; expires_at : float }.
Arguments Mk {T}.
Arguments value {T}.
Arguments expires_at {T}.
End CacheEntry.

Module AsyncTtlCache.
Record t (T : Type) : Type := Mk {
  ttl_seconds : float;
  _items : gmap string (CacheEntry.t T) }.
Arguments Mk {T}.
Arguments ttl_seconds {T}.
Arguments _items {T}.

Section ops.
Context {T : Type}.

Definition new (ttl_seconds : float) : res (t T) :=
  raise_if (ttl_seconds <=? fzero)%flt "ttl_seconds must be positive" ;;
  mret (Mk ttl_seconds ∅).

Definition get (now : float) (key : string) (c : t T) : t T * option T :=
  match _items c !! key with
  | None => (c, None)
  | Some entry =>
      if (CacheEntry.expires_at entry <=? now)%flt
      then (Mk (ttl_seconds c) (delete key (_items c)), None)
      else (c, Some (CacheEntry.value entry))
  end.

Definition set (now : float) (key : string) (value : T) (c : t T) : t T :=
  Mk (ttl_seconds c)
    (<[key := CacheEntry.Mk value (fadd now (ttl_seconds c))]> (_items c)).

Definition clear (c : t T) : t T := Mk (ttl_seconds c) ∅.
End ops.
End AsyncTtlCache.

(** ** The budget *)

Module SlidingWindowBudget.
Record t : Type := Mk {
  max_requests : Z;
  window_seconds : float;
  _requests : list float }.

Definition new (max_requests : Z) (window_seconds : float) : res t :=
  raise_if (max_requests <? 1) "max_requests must be positive" ;;
  raise_if (window_seconds <=? fzero)%flt "window_seconds must be positive" ;;
  mret (Mk max_requests window_seconds []).

(** The [while] loop that pops the front of the deque. *)
Fixpoint popleft_expired (boundary : float) (requests : list float) : list float :=
  match requests with
  | [] => []
  | r :: rest => if (r <=? boundary)%flt then popleft_expired boundary rest else requests
  end.

Definition acquire (now : float) (b : t) : t * res unit :=
  let boundary := fsub now (window_seconds b) in
  let requests := popleft_expired boundary (_requests b) in
  if max_requests b <=? Z.of_nat (length requests) then
    (Mk (max_requests b) (window_seconds b) requests,
     Err (Exn "RequestBudgetExceeded" "source request budget exceeded"))
  else (Mk (max_requests b) (window_seconds b) (requests ++ [now]), Ok tt).
End SlidingWindowBudget.

(** ** Clocks *)

(** Finite readings that do not decrease. *)
Fixpoint clock_from (previous : float) (readings : list float) : Prop :=
  match readings with
  | [] => True
  | t :: rest => is_finite_float t = true /\ (previous <=? t)%flt = true /\ clock_from t rest
  end.

(** ** Facts: the budget *)

Import SlidingWindowBudget.

(** A call of [acquire] per reading; the grants, oldest first. *)
Fixpoint acquire_all (readings : list float) (b : t) : t * list float :=
  match readings with
  | [] => (b, [])
  | now :: rest =>
      let '(b, r) := acquire now b in
      let '(b, granted) := acquire_all rest b in
      (b, if is_ok r then now :: granted else granted)
  end.

(** [g] is less than a window before [now], as the subtraction is rounded. *)
Definition in_window (w now g : float) : bool := negb (g <=? fsub now w)%flt.

(** The deque holds the end of the history of grants; what it dropped had left the
    window at an earlier reading. *)
Record budget_inv (w last : float) (history : list float) (b : t) : Prop := {
  bi_window : window_seconds b = w;
  bi_split : exists gone, history = gone ++ _requests b /\
    Forall (fun g => (g <=? fsub last w)%flt = true) gone;
  bi_bound : Z.of_nat (length (_requests b)) <= max_requests b;
  bi_sorted : forall i j g h, (i <= j)%nat -> _requests b !! i = Some g ->
    _requests b !! j = Some h -> (g <=? h)%flt = true;
  bi_past : Forall (fun g => is_finite_float g = true /\ (g <=? last)%flt = true) (_requests b) }.

Lemma popleft_suffix x l : exists gone, l = gone ++ popleft_expired x l /\
  Forall (fun g => (g <=? x)%flt = true) gone.
Proof.
  induction l as [|r l IH]; [by exists []|]. cbn [popleft_expired].
  destruct (r <=? x)%flt eqn:E; [|by exists []].
  destruct IH as (gone & Hg & Hf). exists (r :: gone). simpl. rewrite <- Hg. split; [done|]. by constructor.
Qed.

(** On a sorted deque the loop keeps exactly what is in the window. *)
Lemma popleft_filter w now l :
  (forall i j g h, (i <= j)%nat -> l !! i = Some g -> l !! j = Some h -> (g <=? h)%flt = true) ->
  popleft_expired (fsub now w) l = filter (fun g => in_window w now g = true) l.
Proof.
  induction l as [|r l IH]; intros Hs; [done|]. cbn [popleft_expired]. rewrite filter_cons.
  assert (in_window w now r = negb (r <=? fsub now w)%flt) as Hr by done.
  destruct (r <=? fsub now w)%flt eqn:E; cbn [negb] in Hr; case_decide; try congruence.
  - apply IH. intros i j g h Hij Hg Hh. by apply (Hs (S i) (S j)); [lia|..].
  - f_equal. symmetry. apply filter_keep, Forall_forall. intros g Hg.
    apply list_elem_of_lookup in Hg as [i Hi]. apply negb_true_iff, not_true_iff_false. intros Hle.
    enough ((r <=? fsub now w)%flt = true) by congruence.
    eapply fleb_trans; [|exact Hle]. by apply (Hs 0%nat (S i)); [lia|..].
Qed.

(** The grants in the window are those the call keeps. *)
Lemma budget_inside w last now history b :
  is_finite_float w = true -> is_finite_float last = true -> is_finite_float now = true ->
  (last <=? now)%flt = true -> budget_inv w last history b ->
  popleft_expired (fsub now w) (_requests b) = filter (fun g => in_window w now g = true) history.
Proof.
  intros Hw Hl Hn Hle [_ (gone & -> & Hgone) _ Hs _]. rewrite (popleft_filter w now) by done.
  rewrite filter_app. rewrite (filter_drop _ gone); [done|]. eapply Forall_impl; [exact Hgone|].
  intros g Hg. simpl. unfold in_window. rewrite negb_true_iff, not_false_iff_true.
  eapply fleb_trans; [exact Hg|]. destruct w as [m e| |]; [|done..]. by apply fsub_mono.
Qed.

Lemma acquire_inv w last now history b b' r :
  is_finite_float w = true -> is_finite_float last = true -> is_finite_float now = true ->
  (last <=? now)%flt = true -> budget_inv w last history b -> acquire now b = (b', r) ->
  let inside := filter (fun g => in_window w now g = true) history in
  is_ok r = (Z.of_nat (length inside) <? max_requests b) /\ max_requests b' = max_requests b /\
  Z.of_nat (length inside) <= max_requests b /\
  budget_inv w now (history ++ if is_ok r then [now] else []) b'.
Proof.
  intros Hw Hl Hn Hle Hinv H inside. pose proof (budget_inside w last now history b Hw Hl Hn Hle Hinv) as E.
  fold inside in E. destruct Hinv as [Ew (gone & Eh & Hgone) Hb Hs Hp].
  destruct (popleft_suffix (fsub now w) (_requests b)) as (gone' & Eg & Hgone').
  unfold acquire in H. rewrite Ew, E in H. rewrite E in Eg.
  assert (Forall (fun g => (g <=? fsub now w)%flt = true) (gone ++ gone')) as Hall.
  { apply Forall_app. split; [|done]. eapply Forall_impl; [exact Hgone|]. intros g Hg. simpl in *.
    eapply fleb_trans; [exact Hg|]. destruct w as [m e| |]; [|done..]. by apply fsub_mono. }
  assert (forall i g, inside !! i = Some g -> _requests b !! (length gone' + i)%nat = Some g) as Hlk.
  { intros i g Hi. rewrite Eg, lookup_app_r by lia. by replace (length gone' + i - length gone')%nat with i by lia. }
  assert (Forall (fun g => is_finite_float g = true /\ (g <=? now)%flt = true) inside) as Hpast.
  { rewrite Eg, Forall_app in Hp. eapply Forall_impl; [exact (proj2 Hp)|]. intros g [Hf Hg].
    split; [done|]. by eapply fleb_trans. }
  assert (Z.of_nat (length inside) <= max_requests b) as Hin.
  { rewrite Eg, length_app in Hb. lia. }
  destruct (Z.leb_spec (max_requests b) (Z.of_nat (length inside))) as [Hm|Hm]; injection H as <- <-;
    cbn [is_ok max_requests _requests].
  - rewrite app_nil_r. split; [symmetry; apply Z.ltb_ge; lia|]. split; [done|]. split; [lia|].
    constructor; cbn [window_seconds _requests max_requests]; try done.
    + exists (gone ++ gone'). by rewrite <- app_assoc, <- Eg.
    + intros i j g h Hij Hg Hh. by apply (Hs (length gone' + i)%nat (length gone' + j)%nat); [lia|apply Hlk..].
  - split; [symmetry; apply Z.ltb_lt; lia|]. split; [done|].
    split; [lia|]. constructor; cbn [window_seconds _requests max_requests]; try done.
    + exists (gone ++ gone'). split; [|done]. rewrite Eh, Eg. by rewrite !app_assoc.
    + rewrite length_app. simpl. lia.
    + intros i j g h Hij Hg Hh. apply lookup_app_Some in Hg as [Hg|[Hig Hg]].
      * apply lookup_app_Some in Hh as [Hh|[_ Hh]].
        { by apply (Hs (length gone' + i)%nat (length gone' + j)%nat); [lia|apply Hlk..]. }
        apply list_lookup_singleton_Some in Hh as [_ <-].
        rewrite Forall_lookup in Hpast. by apply (Hpast i).
      * apply list_lookup_singleton_Some in Hg as [Hi0 <-]. apply lookup_app_Some in Hh as [Hh|[_ Hh]].
        { apply lookup_lt_Some in Hh. lia. }
        apply list_lookup_singleton_Some in Hh as [_ <-]. destruct now as [m e| |]; [|done..]. apply fleb_refl.
    + apply Forall_app. split; [done|]. constructor; [|constructor]. split; [done|].
      destruct now as [m e| |]; [|done..]. apply fleb_refl.
Qed.

(** Time passes. *)
Lemma budget_inv_later w last now history b :
  is_finite_float w = true -> is_finite_float last = true -> is_finite_float now = true ->
  (last <=? now)%flt = true -> budget_inv w last history b -> budget_inv w now history b.
Proof.
  intros Hw Hl Hn Hle [Ew (gone & Eh & Hgone) Hb Hs Hp]. constructor; try done.
  - exists gone. split; [done|]. eapply Forall_impl; [exact Hgone|]. intros g Hg. simpl in *.
    eapply fleb_trans; [exact Hg|]. destruct w as [m e| |]; [|done..]. by apply fsub_mono.
  - eapply Forall_impl; [exact Hp|]. intros g [Hf Hg]. split; [done|]. by eapply fleb_trans.
Qed.

Lemma budget_inv_new max w start :
  0 <= max -> budget_inv w start [] (Mk max w []).
Proof.
  intros Hm. constructor; cbn [window_seconds _requests max_requests]; try done.
  - exists []. split; [done|constructor].
Qed.

Lemma acquire_all_inv w last readings rest history b b' granted :
  is_finite_float w = true -> is_finite_float last = true -> clock_from last (readings ++ rest) ->
  budget_inv w last history b -> acquire_all readings b = (b', granted) ->
  exists last', is_finite_float last' = true /\ clock_from last' rest /\
    max_requests b' = max_requests b /\ budget_inv w last' (history ++ granted) b'.
Proof.
  intros Hw. revert last history b b' granted.
  induction readings as [|now readings IH]; intros last history b b' granted Hl Hc Hinv H.
  { injection H as <- <-. rewrite app_nil_r. by exists last. }
  destruct Hc as (Hn & Hle & Hc). cbn [acquire_all] in H.
  destruct (acquire now b) as [b1 r] eqn:E1. destruct (acquire_all readings b1) as [b2 l] eqn:E2.
  destruct (acquire_inv w last now history b b1 r Hw Hl Hn Hle Hinv E1) as (_ & Hm & _ & Hinv1).
  destruct (IH now _ b1 b2 l Hn Hc Hinv1 E2) as (last' & H1 & H2 & H3 & H4).
  injection H as <- <-. exists last'. split; [done|]. split; [done|]. split; [congruence|].
  rewrite <- app_assoc in H4. by destruct (is_ok r).
Qed.

(** ** Facts: the cache *)

(** What a caller does to the cache. *)
Inductive cache_call (T : Type) : Type :=
| CGet (key : string)
| CSet (key : string) (value : T)
| CClear.
Arguments CGet {T}.
Arguments CSet {T}.
Arguments CClear {T}.

Section cache.
Context {T : Type}.
Implicit Types (c : AsyncTtlCache.t T) (calls : list (float * cache_call T)).

Definition cache_step (c : AsyncTtlCache.t T) (call : float * cache_call T) : AsyncTtlCache.t T :=
  match call.2 with
  | CGet key => fst (AsyncTtlCache.get call.1 key c)
  | CSet key value => AsyncTtlCache.set call.1 key value c
  | CClear => AsyncTtlCache.clear c
  end.

(** The last value set for [key] since the last [clear], and when. *)
Definition last_set (key : string) (calls : list (float * cache_call T)) : option (float * T) :=
  fold_left (fun found call => match call.2 with
                               | CGet _ => found
                               | CSet k v => if decide (k = key) then Some (call.1, v) else found
                               | CClear => None
                               end) calls None.

(** The item of [key] is the last one set, unless that one has expired. *)
Definition cache_inv (ttl last : float) (found : string -> option (float * T))
    (c : AsyncTtlCache.t T) : Prop :=
  AsyncTtlCache.ttl_seconds c = ttl /\
  forall key, match found key with
              | None => AsyncTtlCache._items c !! key = None
              | Some (t, v) =>
                  AsyncTtlCache._items c !! key = Some (CacheEntry.Mk v (fadd t ttl)) \/
                  AsyncTtlCache._items c !! key = None /\ (fadd t ttl <=? last)%flt = true
              end.

Lemma cache_step_inv ttl last now found c call :
  (last <=? now)%flt = true -> cache_inv ttl last found c ->
  cache_inv ttl now (fun key => match call with
                                | CGet _ => found key
                                | CSet k v => if decide (k = key) then Some (now, v) else found key
                                | CClear => None
                                end) (cache_step c (now, call)).
Proof.
  intros Hle [Httl Hi]. split.
  { destruct call as [key| |]; [|done..]. unfold cache_step, AsyncTtlCache.get. cbn [fst snd].
    destruct (AsyncTtlCache._items c !! key) as [e|]; [|exact Httl]. cbn [fst]. destruct (CacheEntry.expires_at e <=? now)%flt; exact Httl. }
  intros key. specialize (Hi key).
  assert (forall t, (fadd t ttl <=? last)%flt = true -> (fadd t ttl <=? now)%flt = true) as Hlater
    by (intros t Ht; by eapply fleb_trans).
  destruct call as [k|k v|]; unfold cache_step; cbn [fst snd]; [| |done].
  - unfold AsyncTtlCache.get. destruct (AsyncTtlCache._items c !! k) as [e|] eqn:Ek; cbn [fst].
    2:{ destruct (found key) as [[t v]|]; [|done]. destruct Hi as [Hi|[Hi Ht]]; [by left|right; eauto]. }
    destruct (CacheEntry.expires_at e <=? now)%flt eqn:Ee; cbn [fst AsyncTtlCache._items].
    2:{ destruct (found key) as [[t v]|]; [|done]. destruct Hi as [Hi|[Hi Ht]]; [by left|right; eauto]. }
    destruct (decide (k = key)) as [->|Hne].
    + rewrite lookup_delete_eq. destruct (found key) as [[t v]|]; [|done].
      destruct Hi as [Hi|[Hi Ht]]; [|congruence]. right. split; [done|].
      assert (e = CacheEntry.Mk v (fadd t ttl)) as -> by congruence. exact Ee.
    + rewrite lookup_delete_ne by done. destruct (found key) as [[t v]|]; [|done].
      destruct Hi as [Hi|[Hi Ht]]; [by left|right; eauto].
  - unfold AsyncTtlCache.set. cbn [AsyncTtlCache._items]. rewrite Httl. case_decide as Hd.
    + subst k. left. by rewrite lookup_insert_eq.
    + rewrite lookup_insert_ne by done. destruct (found key) as [[t v']|]; [|done].
      destruct Hi as [Hi|[Hi Ht]]; [by left|right; eauto].
Qed.

Lemma cache_calls_inv ttl last c calls found now :
  clock_from last ((fst <$> calls) ++ [now]) -> cache_inv ttl last found c ->
  exists last', (last' <=? now)%flt = true /\
    cache_inv ttl last'
      (fun key => fold_left (fun found call => match call.2 with
         | CGet _ => found
         | CSet k v => if decide (k = key) then Some (call.1, v) else found
         | CClear => None
         end) calls (found key)) (fold_left cache_step calls c).
Proof.
  revert last c found. induction calls as [|[t call] calls IH]; intros last c found Hc Hinv.
  { exists last. by destruct Hc as (_ & Hle & _). }
  destruct Hc as (_ & Hle & Hc). cbn [fold_left].
  destruct (IH t _ _ Hc (cache_step_inv ttl last t found c call Hle Hinv)) as (last' & H1 & H2 & H3).
  exists last'. split; [done|]. split; [done|]. intros key. specialize (H3 key). by destruct call.
Qed.
End cache.

(** ** Properties *)

(** Whatever requests came before, a request is granted exactly when fewer than
    [max_requests] grants are less than a window old (the subtraction rounded as the
    float it is), and no window ever holds more grants than that. *)
Theorem budget_window_exact max w start readings now b0 b granted b' r :
  SlidingWindowBudget.new max w = Ok b0 -> is_finite_float w = true ->
  is_finite_float start = true -> clock_from start (readings ++ [now]) ->
  acquire_all readings b0 = (b, granted) -> acquire now b = (b', r) ->
  let inside := filter (fun g => in_window w now g = true) granted in
  is_ok r = (Z.of_nat (length inside) <? max) /\ Z.of_nat (length inside) <= max.
Proof.
  intros Hb Hw Hs Hc Hall Hr. unfold new in Hb. guards. subst b0.
  pose proof (budget_inv_new max w start ltac:(lia)) as Hinv.
  destruct (acquire_all_inv w start readings [now] [] _ b granted Hw Hs Hc Hinv Hall)
    as (last & Hl & (Hn & Hle & _) & Hm & Hinv').
  destruct (acquire_inv w last now granted b b' r Hw Hl Hn Hle Hinv' Hr) as (H1 & _ & H2 & _).
  simpl in Hm. by rewrite Hm in H1, H2.
Qed.

(** A [get] returns the value last set for its key since the last [clear], while
    its time to live lasts, and nothing afterwards, whatever calls came in between. *)
Theorem cache_get_exact {T} ttl start (calls : list (float * cache_call T)) now key c0 :
  AsyncTtlCache.new ttl = Ok c0 -> clock_from start ((fst <$> calls) ++ [now]) ->
  snd (AsyncTtlCache.get now key (fold_left cache_step calls c0)) =
  match last_set key calls with
  | Some (t, v) => if (fadd t ttl <=? now)%flt then None else Some v
  | None => None
  end.
Proof.
  intros Hc0 Hc. unfold AsyncTtlCache.new in Hc0. guards. subst c0.
  destruct (cache_calls_inv ttl start (AsyncTtlCache.Mk ttl ∅) calls (fun _ => None) now Hc)
    as (last & Hle & _ & Hi); [by split|].
  specialize (Hi key). unfold last_set. cbv beta in Hi. unfold AsyncTtlCache.get.
  destruct (fold_left _ calls None) as [[t v]|].
  - destruct Hi as [-> | [-> Ht]]; cbn [CacheEntry.expires_at CacheEntry.value].
    + destruct (fadd t ttl <=? now)%flt; reflexivity.
    + by rewrite (fleb_trans _ _ _ Ht Hle).
  - by rewrite Hi.
Qed.

(** ** Concrete instances *)

Definition at_tenths (n : Z) : float := int_truediv n 10.

Lemma budget_window_exact_witness :
  exists b granted, acquire_all (at_tenths <$> [0; 1; 2; 12]) (Mk 2 (Fl 1 0) []) = (b, granted) /\
    granted = at_tenths <$> [0; 1; 12] /\
    Z.of_nat (length (filter (fun g => in_window (Fl 1 0) (at_tenths 13) g = true) granted)) <= 2.
Proof.
  destruct (acquire_all (at_tenths <$> [0; 1; 2; 12]) (Mk 2 (Fl 1 0) [])) as [b granted] eqn:E.
  destruct (acquire (at_tenths 13) b) as [b' r] eqn:Er.
  exists b, granted. split; [reflexivity|]. split; [vm_compute in E; injection E as _ <-; reflexivity|].
  refine (proj2 (budget_window_exact 2 (Fl 1 0) (Fl 0 0) (at_tenths <$> [0; 1; 2; 12]) (at_tenths 13)
    (Mk 2 (Fl 1 0) []) b granted b' r eq_refl eq_refl eq_refl _ E Er)).
  vm_compute. tauto.
Defined.

Lemma cache_get_exact_witness :
  clock_from (Fl 0 0) [Fl 0 0; Fl 1 0; Fl 2 0; Fl 4 0] /\
  snd (AsyncTtlCache.get (Fl 4 0) "a" (fold_left cache_step
    [(Fl 0 0, CSet "a" 1); (Fl 1 0, CSet "b" 2); (Fl 2 0, CSet "a" 3)] (AsyncTtlCache.Mk (Fl 3 0) ∅)))
  = Some 3.
Proof.
  assert (clock_from (Fl 0 0) [Fl 0 0; Fl 1 0; Fl 2 0; Fl 4 0]) as Hc by (vm_compute; tauto).
  split; [exact Hc|].
  etransitivity; [apply (cache_get_exact (Fl 3 0) (Fl 0 0)
    [(Fl 0 0, CSet "a" 1); (Fl 1 0, CSet "b" 2); (Fl 2 0, CSet "a" 3)] (Fl 4 0) "a"
    (AsyncTtlCache.Mk (Fl 3 0) ∅) eq_refl Hc)|]. vm_compute. reflexivity.
Defined.
