(* ===== verification/ReclaimSource.v ===== *)
(** * From structure to reclaim: [setups/runtime_analysis.py]

    [derive_reclaim_from_structure] picks the latest confirmed break of an analysis, its
    zone and its candle, and hands them to the reclaim engine with the candles of the
    batch the analysis was made of. *)

From stdpp Require Import list strings sorting.
From S2P Require Import Prelude PyList PyStr PyDecimal PyTime Candles HtfModels.
From S2P Require Import SupportZones StructureEvents HtfEngine ReclaimModels ReclaimEngine.
Open Scope Z_scope.

Definition is_confirmed_break (e : StructureEvent.t) : bool :=
  bool_decide (StructureEvent.state e = StructureEventState.CONFIRMED_BREAK).

(** [next((item for item in l if p(item)), None)], [None] raising [msg]. *)
Definition next_or_raise {A} (p : A -> bool) (l : list A) (msg : string) : res A :=
  match first_where p l with Some x => Ok x | None => Err (ValueError msg) end.

Definition derive_reclaim_from_structure (batch : Batch.t) (analysis : HtfStructureAnalysis.t)
    : res (option ReclaimAttempt.t) :=
  if negb (bool_decide (Batch.interval batch = CandleInterval.H4)) then mret None
  else
    raise_if (negb (bool_decide (HtfStructureAnalysis.source analysis = Batch.source batch)) ||
              negb (bool_decide (HtfStructureAnalysis.symbol analysis = Batch.symbol batch)) ||
              negb (bool_decide (HtfStructureAnalysis.interval analysis = Batch.interval batch)))
      "structure analysis does not match candle batch" ;;
    match List.filter is_confirmed_break (HtfStructureAnalysis.events analysis) with
    | [] => mret None
    | first :: rest =>
        let event := py_max_by event_key first rest in
        zone ← next_or_raise (fun z => bool_decide (SupportZone.zone_id z = StructureEvent.zone_id event))
                 (HtfStructureAnalysis.zones analysis) "confirmed break is missing its support zone";
        break_candle ← next_or_raise
                 (fun c => aware_eqb (open_time c) (StructureEvent.candle_open_time event))
                 (Batch.candles batch) "confirmed break is missing its source candle";
        Some <$> analyze_reclaim_attempt zone event break_candle (Batch.candles batch) None
    end.

(** ** Facts *)

(** The candles of a validated 4H batch are a stream the reclaim engine accepts. *)
Lemma validate_stream_ok zone itv l prev src rl cat sym fetched :
  SupportZone.source zone = src -> SupportZone.symbol zone = sym -> itv = CandleInterval.H4 ->
  Forall (candle_matches src rl cat sym itv fetched) l -> StronglySorted opens_before l ->
  (forall p c, prev = Some p -> c ∈ l -> utc p < utc (open_time c)) ->
  forall o, (o = None \/ o = Some itv) -> validate_stream zone prev o l = Ok tt.
Proof.
  intros Hsrc Hsym ->. revert prev. induction l as [|c l IH]; intros prev Hm Hs Hp o Ho; [done|].
  apply Forall_cons in Hm as [(E1 & _ & _ & E2 & E3 & _) Hm]. inversion Hs as [|? ? Hs' Hall]; subst.
  cbn [validate_stream]. res_ok ltac:(idtac; first
    [ rewrite E1, bool_decide_true by done; rewrite E2, bool_decide_true by done; done
    | rewrite E3, bool_decide_true by done; done
    | destruct Ho as [-> | ->]; [done|]; rewrite E3, bool_decide_true by done; done
    | destruct prev as [p|]; [|done]; specialize (Hp p c eq_refl ltac:(by left));
      apply not_true_iff_false; time_to_Z; lia ]).
  apply (IH (Some (open_time c))); try done.
  - intros p c' [= <-] Hc'. rewrite Forall_forall in Hall. by apply Hall.
  - right. destruct Ho as [-> | ->]; simpl; [by rewrite E3|done].
Qed.

(** Every event of an analysis is that of a zone of it and of a candle of the batch. *)
Lemma analysis_event_origin batch srules erules a e :
  analyze_higher_timeframe batch (Some srules) (Some erules) = Ok a ->
  e ∈ HtfStructureAnalysis.events a ->
  exists z c inv, z ∈ HtfStructureAnalysis.zones a /\ zone_wf z /\ c ∈ Batch.candles batch /\
    event_at z c (StructureEvent.state e) inv e.
Proof.
  intros (zones & ebz & pz & es & ev & Hd & Hm & _ & _ & -> & _ & -> & _)%analyze_Ok He.
  apply derive_zones_wf in Hd. apply zone_events_fst in Hm as [<- Hb].
  rewrite py_sorted_perm in He. apply list_elem_of_In, in_concat in He as (l & Hl & He).
  apply list_elem_of_In, list_elem_of_fmap in Hl as ([z l'] & -> & Hin). apply list_elem_of_In in He.
  rewrite Forall_forall in Hb. specialize (Hb _ Hin). simpl in *.
  apply build_refines in Hb as [ph Hrun]. destruct (run_event_at _ _ _ _ _ _ _ _ Hrun He) as (c & inv & Hc & Hat).
  assert (z ∈ ebz.*1) as Hz by (change z with (fst (z, l')); by apply list_elem_of_fmap_2).
  exists z, c, inv. split; [done|]. split; [rewrite Forall_forall in Hd; by apply Hd|]. split; [|done].
  unfold relevant_candles in Hc. apply list_elem_of_In, filter_In in Hc as [Hc _]. by apply list_elem_of_In.
Qed.

(** An analysis carries the batch's source, symbol and interval, and so do its parts. *)
Lemma analysis_matches batch srules erules a :
  batch_wf batch -> analyze_higher_timeframe batch (Some srules) (Some erules) = Ok a ->
  HtfStructureAnalysis.source a = Batch.source batch /\
  HtfStructureAnalysis.symbol a = Batch.symbol batch /\
  HtfStructureAnalysis.interval a = Batch.interval batch /\
  Forall (fun z => SupportZone.source z = Batch.source batch /\ SupportZone.symbol z = Batch.symbol batch /\
                   SupportZone.interval z = Batch.interval batch) (HtfStructureAnalysis.zones a) /\
  Forall (fun e => StructureEvent.source e = Batch.source batch /\ StructureEvent.symbol e = Batch.symbol batch /\
                   StructureEvent.interval e = Batch.interval batch) (HtfStructureAnalysis.events a).
Proof.
  intros Hwf H. destruct (bwf_symbol _ Hwf) as [Hsym _]. unfold analyze_higher_timeframe in H. guards.
  match type of H with context [choose_primary ?l] => destruct (choose_primary l) end. guards.
  unfold HtfStructureAnalysis.new in H. guards. subst a.
  select (_htf_interval _ = Ok _) (fun H => apply _htf_interval_Ok in H as [-> _]).
  cbn [HtfStructureAnalysis.source HtfStructureAnalysis.symbol HtfStructureAnalysis.interval
    HtfStructureAnalysis.zones HtfStructureAnalysis.events]. rewrite Hsym in *.
  split; [done|]. split; [done|]. split; [done|].
  assert (forall A (p : A -> bool) k, existsb p k = false -> Forall (fun x => p x = false) k) as Hex.
  { intros A p k. induction k as [|x k IH]; [constructor|]. simpl. intros [? ?]%orb_false_iff.
    constructor; auto. }
  split; (eapply Forall_impl; [apply Hex; eassumption|]); intros x Hx; simpl in Hx; guards; auto.
Qed.

(** In strictly chronological candles the open time identifies the candle. *)
Lemma opens_unique l c c' :
  StronglySorted opens_before l -> c ∈ l -> c' ∈ l -> utc (open_time c) = utc (open_time c') -> c = c'.
Proof.
  induction 1 as [|x l _ IH Hall]; intros Hc Hc' E; [by apply elem_of_nil in Hc|].
  rewrite Forall_forall in Hall. unfold opens_before in Hall.
  apply elem_of_cons in Hc as [->|Hc]; apply elem_of_cons in Hc' as [->|Hc']; [done| | |by apply IH].
  - specialize (Hall _ Hc'). lia.
  - specialize (Hall _ Hc). lia.
Qed.

(** What the derivation hands to the engine. *)
Lemma derive_picks batch srules erules a :
  batch_wf batch -> analyze_higher_timeframe batch (Some srules) (Some erules) = Ok a ->
  Batch.interval batch = CandleInterval.H4 ->
  match List.filter is_confirmed_break (HtfStructureAnalysis.events a) with
  | [] => derive_reclaim_from_structure batch a = Ok None
  | first :: rest =>
      let e := py_max_by event_key first rest in
      exists z c,
        derive_reclaim_from_structure batch a =
          Some <$> analyze_reclaim_attempt z e c (Batch.candles batch) None /\
        _validate_inputs z e c (Batch.candles batch) = Ok tt /\
        z ∈ HtfStructureAnalysis.zones a /\ e ∈ HtfStructureAnalysis.events a /\ is_confirmed_break e = true /\
        c ∈ Batch.candles batch /\ StructureEvent.zone_id e = SupportZone.zone_id z /\
        StructureEvent.observed_at e = close_time c /\ StructureEvent.candle_open_time e = open_time c
  end.
Proof.
  intros Hwf Ha Hi. destruct (analysis_matches _ _ _ _ Hwf Ha) as (M1 & M2 & M3 & Mz & Me).
  unfold derive_reclaim_from_structure. rewrite bool_decide_true by done. cbn [negb].
  rewrite M1, M2, M3, !bool_decide_true by done. cbn [negb orb raise_if]. rewrite Ok_bind.
  destruct (List.filter is_confirmed_break (HtfStructureAnalysis.events a)) as [|first rest] eqn:Ebr; [done|].
  set (e := py_max_by event_key first rest). cbv zeta.
  pose proof (py_max_by_in event_key first rest) as Hin. fold e in Hin.
  rewrite <- Ebr in Hin. apply list_elem_of_In, filter_In in Hin as [He Hst]. apply list_elem_of_In in He.
  destruct (analysis_event_origin _ _ _ _ _ Ha He) as (z0 & c & inv & Hz0 & Hzwf & Hc & Hat).
  destruct Hat as (_ & _ & Hop & Hobs & _ & Hzid & _).
  rewrite (zwf_clean _ Hzwf) in Hzid. rewrite Forall_forall in Mz. rewrite Forall_forall in Me.
  unfold next_or_raise.
  destruct (first_where _ (HtfStructureAnalysis.zones a)) as [z|] eqn:Ez.
  2:{ apply first_where_None in Ez. rewrite Forall_forall in Ez. specialize (Ez _ Hz0).
      rewrite bool_decide_true in Ez by done. done. }
  apply first_where_Some in Ez as [Hz Hzi%bool_decide_eq_true]. rewrite Ok_bind.
  destruct (first_where _ (Batch.candles batch)) as [c'|] eqn:Ec.
  2:{ apply first_where_None in Ec. rewrite Forall_forall in Ec. specialize (Ec _ Hc).
      rewrite Hop in Ec. by rewrite (proj2 (aware_eqb_utc _ _)) in Ec. }
  apply first_where_Some in Ec as [Hc' Hci]. rewrite Ok_bind. apply aware_eqb_utc in Hci. rewrite Hop in Hci.
  assert (c' = c) as -> by (eapply opens_unique; [exact (bwf_sorted _ Hwf)|done..]).
  exists z, c. split; [done|]. split; [|split_and!; done].
  destruct (Mz _ Hz) as (Z1 & Z2 & Z3), (Me _ He) as (E1 & E2 & E3).
  pose proof (bwf_candles _ Hwf) as Hm. pose proof Hm as Hm'.
  rewrite Forall_forall in Hm'. destruct (Hm' _ Hc) as (C1 & _ & _ & C2 & C3 & _).
  unfold is_confirmed_break in Hst. apply bool_decide_eq_true in Hst. unfold _validate_inputs.
  rewrite Hst, Hzi, E1, E2, E3, Z1, Z2, Z3, C1, C2, C3, Hop, Hobs, !bool_decide_true by done.
  rewrite !(proj2 (aware_eqb_utc _ _)) by done. cbn [negb orb raise_if]. rewrite !Ok_bind.
  eapply (validate_stream_ok z); [exact Z1|exact Z2|exact Hi|exact Hm|exact (bwf_sorted _ Hwf)|done|by left].
Qed.

(** ** Property *)

(** The structure engine feeds the reclaim engine.  For the analysis of a validated
    4H batch the derivation never misses a zone or a candle: without a confirmed break
    there is no attempt; otherwise the attempt is the reclaim engine's, on the latest
    confirmed break, a zone of the analysis with its identifier, the candle it was
    observed on, and the candles of the batch, and these inputs pass every check of the
    engine.  Any other interval gives no attempt. *)
Theorem structure_feeds_reclaim batch srules erules a :
  batch_wf batch -> analyze_higher_timeframe batch (Some srules) (Some erules) = Ok a ->
  let breaks := List.filter is_confirmed_break (HtfStructureAnalysis.events a) in
  (Batch.interval batch <> CandleInterval.H4 -> derive_reclaim_from_structure batch a = Ok None) /\
  (Batch.interval batch = CandleInterval.H4 -> breaks = [] -> derive_reclaim_from_structure batch a = Ok None) /\
  (Batch.interval batch = CandleInterval.H4 -> breaks <> [] ->
   exists z e c,
     derive_reclaim_from_structure batch a =
       Some <$> analyze_reclaim_attempt z e c (Batch.candles batch) None /\
     _validate_inputs z e c (Batch.candles batch) = Ok tt /\
     z ∈ HtfStructureAnalysis.zones a /\ e ∈ breaks /\ c ∈ Batch.candles batch /\
     StructureEvent.zone_id e = SupportZone.zone_id z /\
     StructureEvent.observed_at e = close_time c /\
     Forall (fun e' => utc (StructureEvent.observed_at e') <= utc (StructureEvent.observed_at e)) breaks).
Proof.
  intros Hwf Ha breaks. split; [|split].
  - intros Hi. unfold derive_reclaim_from_structure. by rewrite bool_decide_false.
  - intros Hi Hb. pose proof (derive_picks _ _ _ _ Hwf Ha Hi) as Hd. fold breaks in Hd. by rewrite Hb in Hd.
  - intros Hi Hb. pose proof (derive_picks _ _ _ _ Hwf Ha Hi) as Hd. fold breaks in Hd.
    destruct breaks as [|first rest] eqn:Ebr; [done|].
    destruct Hd as (z & c & Hd & Hv & Hz & He & Hc & Hcc & Hzid & Hobs & _).
    exists z, (py_max_by event_key first rest), c. split_and!; try done; [apply py_max_by_in|].
    apply Forall_forall. intros e' He'. pose proof (py_max_by_ge event_key first rest e' He') as Hge.
    apply py_le_fst in Hge. by apply aware_le_utc in Hge.
Qed.

(** ** A concrete batch *)

(** The 4H candle of the same position as a Daily one. *)
Definition as_h4 (c : OhlcvCandle) : OhlcvCandle :=
  MkCandle (source c) (role c) (category c) (symbol c) CandleInterval.H4
    (Aware (utc (open_time c) / 6) 0) (Aware (utc (close_time c) / 6) 0)
    (open_price c) (high_price c) (low_price c) (close_price c) (volume c) (turnover c).

Definition h4_batch : Batch.t :=
  Batch.MkBatch CandleSource.BYBIT CandleRole.STRUCTURE_DATA "linear" "BTCUSDT" CandleInterval.H4
    (Aware (days 2) 0) (as_h4 <$> two_dips ++ breaking).

Lemma h4_batch_wf : batch_wf h4_batch.
Proof.
  destruct (proj1 (new_CandleBatch_Ok CandleSource.BYBIT CandleRole.STRUCTURE_DATA "linear" "BTCUSDT"
    CandleInterval.H4 (AwareDT (Aware (days 2) 0)) (as_h4 <$> two_dips ++ breaking) h4_batch))
    as (fa & _ & _ & H); [vm_compute; reflexivity|exact H].
Qed.

Lemma structure_feeds_reclaim_witness :
  exists a z e c, analyze_higher_timeframe h4_batch (Some default_zone_rules) (Some default_event_rules) = Ok a /\
    derive_reclaim_from_structure h4_batch a =
      Some <$> analyze_reclaim_attempt z e c (Batch.candles h4_batch) None /\
    StructureEvent.observed_at e = close_time c.
Proof.
  assert ((fun a => length (List.filter is_confirmed_break (HtfStructureAnalysis.events a))) <$>
    analyze_higher_timeframe h4_batch (Some default_zone_rules) (Some default_event_rules) = Ok 1%nat) as H
    by (vm_compute; reflexivity).
  apply fmap_Ok in H as (a & E & Hl). exists a.
  destruct (structure_feeds_reclaim h4_batch default_zone_rules default_event_rules a h4_batch_wf E)
    as (_ & _ & H).
  destruct H as (z & e & c & Hd & _ & _ & _ & _ & _ & Hobs & _).
  - reflexivity.
  - intros Hnil. rewrite Hnil in Hl. discriminate Hl.
  - exists z, e, c. split; [exact E|]. split; [exact Hd|exact Hobs].
Defined.
