(* ===== verification/DiscoveryAdapters.v ===== *)
(** * Discovery adapters: [adapters/discovery_base.py], [dex_screener.py], [coingecko.py]

    An adapter asks its cache first, then its budget, then the network; what it makes of
    the answer is a batch of discovery records, and [load] reports any failure as a
    degraded or missing source.  The cache and the budget are the adapter's state: they keep
    what a failed call did to them. *)

From stdpp Require Import list strings gmap.
From S2P Require Import Prelude PyList PyStr PyDecimal DecimalFacts PyTime PyFloat PyValue Adapters Discovery.
From S2P Require Import Benchmarks MarketParsing SourceCache.
Open Scope Z_scope.

(** What one call of an adapter meets outside: the network, the clock, the readings of the
    monotonic clock by the cache ([get]), the budget and the cache ([set]), and two of
    [perf_counter]. *)
Record Source : Type := MkSource {
  get_json : Request -> res pyval;
  source_clock : res datetime;
  tick_get : float;
  tick_acquire : float;
  tick_set : float;
  perf_started : float;
  perf_finished : float }.

(** [params=None] and an empty dictionary ask for the same. *)
Definition no_params : pydict := [].

(** ** [DiscoveryAdapterBase] *)

Module DiscoveryAdapterBase.
Record t : Type := Mk {
  source_name : string;
  name : string;
  base_url : string;
  cache : AsyncTtlCache.t pyval;
  budget : SlidingWindowBudget.t }.

Definition new (source_name name base_url : string) (ttl_seconds : float) (max_requests_per_minute : Z) : res t :=
  normalized_url ← https_base base_url;
  cache ← AsyncTtlCache.new ttl_seconds;
  budget ← SlidingWindowBudget.new max_requests_per_minute (Fl 60 0);
  mret (Mk source_name name normalized_url cache budget).

Definition _url (self : t) (path : string) : string := base_url self +:+ path.

Definition set_state (self : t) (cache : AsyncTtlCache.t pyval) (budget : SlidingWindowBudget.t) : t :=
  Mk (source_name self) (name self) (base_url self) cache budget.

Definition fetched_at (src : Source) : res aware :=
  value ← source_clock src;
  require_aware value "clock must return a timezone-aware datetime".

(** [request_json]; a cached [null] is not seen. *)
Definition request_json (self : t) (src : Source) (cache_key : string) (request : Request) : t * res (pyval * bool) :=
  let '(cache1, cached) := AsyncTtlCache.get (tick_get src) cache_key (cache self) in
  match cached with
  | Some (VBool _ | VInt _ | VFloat _ | VDecimal _ | VStr _ | VList _ | VDict _) as found =>
      (set_state self cache1 (budget self), Ok (default VNone found, true))
  | Some VNone | None =>
      let '(budget1, granted) := SlidingWindowBudget.acquire (tick_acquire src) (budget self) in
      match granted with
      | Err e => (set_state self cache1 budget1, Err e)
      | Ok _ =>
          match get_json src request with
          | Err e => (set_state self cache1 budget1, Err e)
          | Ok payload =>
              (set_state self (AsyncTtlCache.set (tick_set src) cache_key payload cache1) budget1, Ok (payload, false))
          end
      end
  end.

(** [isinstance(error, (ValueError, RequestBudgetExceeded))] *)
Definition degraded_state (error : exn) : AdapterState.t :=
  if is_ValueError error || bool_decide (exn_type error = "RequestBudgetExceeded")
  then AdapterState.DEGRADED else AdapterState.DOWN.

(** [round((perf_counter() - started) * 1000)] *)
Definition source_latency (src : Source) : res Z :=
  py_round (fmul (fsub (perf_finished src) (perf_started src)) (float_of_Z 1000)).

(** [health], given what [fetch_batch] did. *)
Definition health (self : t) (src : Source) (fetched : res DiscoveryBatch.t) : res AdapterHealth.t :=
  latency ← source_latency src;
  mret match fetched with
       | Err error => AdapterHealth.Mk (name self) (degraded_state error) (Some latency) (exn_type error)
       | Ok _ => AdapterHealth.Mk (name self) AdapterState.OK (Some latency) EmptyString
       end.

Definition opt_str (o : option string) : pyval := match o with None => VNone | Some s => VStr s end.
Definition opt_num_str (o : option pydec) : pyval := match o with None => VNone | Some d => VStr (pydec_str d) end.

(** [t.isoformat()]; a naive time has no offset to show. *)
Definition iso_datetime (t : datetime) : string :=
  match t with
  | AwareDT a => isoformat a
  | NaiveDT wall => let s := isoformat (Aware wall 0) in str_take (String.length s - 6) s
  end.

(** One record of the payload: [asdict], with the texts that [load] puts in. *)
Definition record_item (r : DiscoveryRecord.t) : pydict :=
  [("source", VStr (DiscoverySource.value (DiscoveryRecord.source r)));
   ("role", VStr "DISCOVERY_ONLY");
   ("external_id", VStr (DiscoveryRecord.external_id r));
   ("symbol", opt_str (DiscoveryRecord.symbol r));
   ("name", opt_str (DiscoveryRecord.name r));
   ("chain_id", opt_str (DiscoveryRecord.chain_id r));
   ("token_address", opt_str (DiscoveryRecord.token_address r));
   ("category", opt_str (DiscoveryRecord.category r));
   ("price_usd", opt_num_str (DiscoveryRecord.price_usd r));
   ("liquidity_usd", opt_num_str (DiscoveryRecord.liquidity_usd r));
   ("volume_24h_usd", opt_num_str (DiscoveryRecord.volume_24h_usd r));
   ("market_cap_usd", opt_num_str (DiscoveryRecord.market_cap_usd r));
   ("price_change_24h_pct", opt_num_str (DiscoveryRecord.price_change_24h_pct r));
   ("boost_active", match DiscoveryRecord.boost_active r with None => VNone | Some n => VInt n end);
   ("pair_created_at", match DiscoveryRecord.pair_created_at r with None => VNone | Some t => VStr (iso_datetime t) end);
   ("url", opt_str (DiscoveryRecord.url r));
   ("metadata", VDict (DiscoveryRecord.metadata r))].

(** [load], given what [fetch_batch] did. *)
Definition load (self : t) (fetched : res DiscoveryBatch.t) : AdapterPayload.t :=
  match fetched with
  | Err error =>
      AdapterPayload.Mk (name self)
        [("source", VStr (source_name self));
         ("role", VStr "DISCOVERY_ONLY");
         ("status", VStr "DATA_DEGRADED");
         ("records", VList [])]
        (AdapterHealth.Mk (name self) (degraded_state error) None (exn_type error))
  | Ok batch =>
      AdapterPayload.Mk (name self)
        [("source", VStr (DiscoverySource.value (DiscoveryBatch.source batch)));
         ("role", VStr "DISCOVERY_ONLY");
         ("query", VStr (DiscoveryBatch.query batch));
         ("fetched_at", VStr (isoformat (DiscoveryBatch.fetched_at batch)));
         ("cache_hit", VBool (DiscoveryBatch.cache_hit batch));
         ("status", VStr "OK");
         ("records", VList ((fun r => VDict (record_item r)) <$> DiscoveryBatch.records batch))]
        (AdapterHealth.Mk (name self) AdapterState.OK None EmptyString)
  end.
End DiscoveryAdapterBase.
Import DiscoveryAdapterBase (_url, request_json, fetched_at).

(** Both adapters make a batch of an answer in the same way: the list of raw records, a
    record of each, then the clock. *)
Definition make_batch (src : Source) (source : DiscoverySource.t) (cache_key : string)
    (raw_records : pyval -> res (list pyval)) (record : pydict -> res DiscoveryRecord.t) (answer : pyval * bool) :
    res DiscoveryBatch.t :=
  let '(payload, cache_hit) := answer in
  raw ← raw_records payload;
  records ← mapM (fun raw => item ← require_object raw "record"; record item) raw;
  fetched ← fetched_at src;
  DiscoveryBatch.new source cache_key (AwareDT fetched) records cache_hit.

(** The state after a call is that of its request. *)
Definition fetch_with (self : DiscoveryAdapterBase.t) (src : Source) (cache_key : string) (request : Request)
    (batch_of : pyval * bool -> res DiscoveryBatch.t) : DiscoveryAdapterBase.t * res DiscoveryBatch.t :=
  let '(self, answer) := request_json self src cache_key request in
  (self, answer ≫= batch_of).

(** [v if isinstance(v, str) else None], [v if isinstance(v, dict) else {}] *)
Definition text_or_none (v : pyval) : option string := match v with VStr s => Some s | _ => None end.
Definition dict_or_empty (v : pyval) : pydict := match v with VDict d => d | _ => [] end.

(** ** [dex_screener.py] *)

Module DexScreenerFeed.
Inductive t : Type := BOOSTS | PROFILES | SEARCH | TOKEN_PAIRS.
#[global] Instance eq_dec : EqDecision t.
Proof. solve_decision. Defined.
Definition value (f : t) : string :=
  match f with BOOSTS => "BOOSTS" | PROFILES => "PROFILES" | SEARCH => "SEARCH" | TOKEN_PAIRS => "TOKEN_PAIRS" end.
End DexScreenerFeed.

Module DexScreenerAdapter.
Definition default_base_url : string := "https://api.dexscreener.com".

Record t : Type := Mk {
  base : DiscoveryAdapterBase.t;
  feed : DexScreenerFeed.t;
  query : option string;
  chain_id : option string;
  token_address : option string }.

(** [not text] of an [str | None] *)
Definition blank (o : option string) : bool := match o with None => true | Some s => str_empty s end.
Definition feeds_tokens (f : DexScreenerFeed.t) : bool :=
  bool_decide (f ∈ [DexScreenerFeed.BOOSTS; DexScreenerFeed.PROFILES]).

Definition new (feed : DexScreenerFeed.t) (query chain_id token_address : option string) (base_url : string)
    (ttl_seconds : float) : res t :=
  let query := str_strip <$> query in
  let chain_id := str_strip <$> chain_id in
  let token_address := str_strip <$> token_address in
  raise_if (bool_decide (feed = DexScreenerFeed.SEARCH) && blank query) "query is required for SEARCH" ;;
  raise_if (bool_decide (feed = DexScreenerFeed.TOKEN_PAIRS) && (blank chain_id || blank token_address))
    "chain_id and token_address are required for TOKEN_PAIRS" ;;
  let max_requests := if feeds_tokens feed then 60 else 300 in
  base ← DiscoveryAdapterBase.new (DiscoverySource.value DiscoverySource.DEX_SCREENER) "dex-screener-discovery"
           base_url ttl_seconds max_requests;
  mret (Mk base feed query chain_id token_address).

(** An [str | None] in an f-string. *)
Definition shown (o : option string) : string := default "None" o.

Definition _request (self : t) : string * Request :=
  match feed self with
  | DexScreenerFeed.BOOSTS => ("boosts:latest", MkRequest (_url (base self) "/token-boosts/latest/v1") no_params)
  | DexScreenerFeed.PROFILES => ("profiles:latest", MkRequest (_url (base self) "/token-profiles/latest/v1") no_params)
  | DexScreenerFeed.SEARCH =>
      ("search:" +:+ shown (query self),
       MkRequest (_url (base self) "/latest/dex/search") [("q", DiscoveryAdapterBase.opt_str (query self))])
  | DexScreenerFeed.TOKEN_PAIRS =>
      ("pairs:" +:+ shown (chain_id self) +:+ ":" +:+ shown (token_address self),
       MkRequest (_url (base self) ("/token-pairs/v1/" +:+ shown (chain_id self) +:+ "/" +:+ shown (token_address self)))
         no_params)
  end.

Definition _records_payload (feed : DexScreenerFeed.t) (payload : pyval) : res (list pyval) :=
  if bool_decide (feed = DexScreenerFeed.SEARCH) then
    root ← require_object payload "search";
    require_list (dict_get root "pairs") "search.pairs"
  else match payload with
       | VDict _ => mret [payload]
       | _ => require_list payload (str_lower (DexScreenerFeed.value feed))
       end.

(** [int(amount)] of an [int], booleans included. *)
Definition int_amount (v : pyval) : option Z :=
  match v with VInt z => Some z | VBool b => Some (if b then 1 else 0) | _ => None end.

Definition _token_record (feed : DexScreenerFeed.t) (item : pydict) : res DiscoveryRecord.t :=
  chain_id ← require_text (dict_get item "chainId") "chainId";
  token_address ← require_text (dict_get item "tokenAddress") "tokenAddress";
  let amount := dict_get item "amount" in
  let links := match dict_get item "links" with VList l => VList l | _ => VList [] end in
  DiscoveryRecord.post_init
    (DiscoveryRecord.Mk DiscoverySource.DEX_SCREENER (chain_id +:+ ":" +:+ token_address) None None
       (Some chain_id) (Some token_address) None None None None None None
       (if bool_decide (feed = DexScreenerFeed.BOOSTS) then int_amount amount else None) None
       (text_or_none (dict_get item "url"))
       [("feed", VStr (DexScreenerFeed.value feed));
        ("description", dict_get item "description");
        ("icon", dict_get item "icon");
        ("header", dict_get item "header");
        ("links", links);
        ("amount", amount);
        ("total_amount", dict_get item "totalAmount")]).

(** [boosts.get("active")], which is an integer or nothing. *)
Definition active_boosts (boosts : pydict) : res (option Z) :=
  match dict_get boosts "active" with
  | VNone => mret None
  | VInt z => mret (Some z)
  | _ => Err (ParserError "boosts.active must be an integer")
  end.

(** [parse_decimal(.., optional=True)] as an attribute of a record. *)
Definition optional_decimal (value : pyval) (field : string) (non_negative : bool) : res (option pydec) :=
  (fun parsed : option dec => Finite <$> parsed) <$> parse_decimal value field false non_negative true.

Definition _pair_record (item : pydict) : res DiscoveryRecord.t :=
  pair_address ← require_text (dict_get item "pairAddress") "pairAddress";
  chain_id ← require_text (dict_get item "chainId") "chainId";
  base_token ← require_object (dict_get item "baseToken") "baseToken";
  token_address ← require_text (dict_get base_token "address") "baseToken.address";
  symbol ← require_text (dict_get base_token "symbol") "baseToken.symbol";
  let liquidity := dict_or_empty (dict_get item "liquidity") in
  let volume := dict_or_empty (dict_get item "volume") in
  let change := dict_or_empty (dict_get item "priceChange") in
  boost_active ← active_boosts (dict_or_empty (dict_get item "boosts"));
  price_usd ← optional_decimal (dict_get item "priceUsd") "priceUsd" true;
  liquidity_usd ← optional_decimal (dict_get liquidity "usd") "liquidity.usd" true;
  volume_24h_usd ← optional_decimal (dict_get volume "h24") "volume.h24" true;
  market_cap_usd ← optional_decimal (dict_get item "marketCap") "marketCap" true;
  price_change_24h_pct ← optional_decimal (dict_get change "h24") "priceChange.h24" false;
  pair_created_at ← parse_epoch_ms (dict_get item "pairCreatedAt") "pairCreatedAt" true;
  DiscoveryRecord.post_init
    (DiscoveryRecord.Mk DiscoverySource.DEX_SCREENER pair_address (Some symbol)
       (text_or_none (dict_get base_token "name")) (Some chain_id) (Some token_address) None price_usd liquidity_usd
       volume_24h_usd market_cap_usd price_change_24h_pct boost_active pair_created_at
       (text_or_none (dict_get item "url"))
       [("dex_id", dict_get item "dexId");
        ("quote_token", dict_get item "quoteToken");
        ("labels", dict_get_default item "labels" (VList []))]).

Definition record (feed : DexScreenerFeed.t) (item : pydict) : res DiscoveryRecord.t :=
  if feeds_tokens feed then _token_record feed item else _pair_record item.

Definition fetch_batch (self : t) (src : Source) : t * res DiscoveryBatch.t :=
  let '(cache_key, request) := _request self in
  let '(base', batch) :=
    fetch_with (base self) src cache_key request
      (make_batch src DiscoverySource.DEX_SCREENER cache_key (_records_payload (feed self)) (record (feed self))) in
  (Mk base' (feed self) (query self) (chain_id self) (token_address self), batch).
End DexScreenerAdapter.
Import DexScreenerAdapter (optional_decimal).

(** ** [coingecko.py] *)

Module CoinGeckoFeed.
Inductive t : Type := MARKETS | CATEGORIES | UNIVERSE.
#[global] Instance eq_dec : EqDecision t.
Proof. solve_decision. Defined.
Definition value (f : t) : string :=
  match f with MARKETS => "MARKETS" | CATEGORIES => "CATEGORIES" | UNIVERSE => "UNIVERSE" end.
End CoinGeckoFeed.

Module CoinGeckoDiscoveryAdapter.
Definition default_base_url : string := "https://api.coingecko.com/api/v3".

Record t : Type := Mk {
  base : DiscoveryAdapterBase.t;
  feed : CoinGeckoFeed.t;
  category : option string;
  page : Z;
  per_page : Z;
  order : string;
  vs_currency : string }.

Definition new (feed : CoinGeckoFeed.t) (category : option string) (page per_page : Z) (order vs_currency base_url : string)
    (ttl_seconds : float) (max_requests_per_minute : Z) : res t :=
  raise_if (page <? 1) "page must be positive" ;;
  raise_if ((per_page <? 1) || (250 <? per_page)) "per_page must be between 1 and 250" ;;
  let normalized_currency := norm_lower vs_currency in
  raise_if (str_empty normalized_currency) "vs_currency is required" ;;
  let order := str_strip order in
  raise_if (str_empty order) "order is required" ;;
  base ← DiscoveryAdapterBase.new (DiscoverySource.value DiscoverySource.COINGECKO) "coingecko-discovery" base_url
           ttl_seconds max_requests_per_minute;
  mret (Mk base feed (str_strip <$> category) page per_page order normalized_currency).

(** [self.category or 'all'] *)
Definition category_or_all (self : t) : string :=
  match category self with Some c => if str_empty c then "all" else c | None => "all" end.

Definition _request (self : t) : string * Request :=
  match feed self with
  | CoinGeckoFeed.CATEGORIES => ("categories", MkRequest (_url (base self) "/coins/categories") no_params)
  | CoinGeckoFeed.UNIVERSE =>
      ("universe", MkRequest (_url (base self) "/coins/list") [("include_platform", VStr "false")])
  | CoinGeckoFeed.MARKETS =>
      ("markets:" +:+ vs_currency self +:+ ":" +:+ category_or_all self +:+ ":" +:+ order self +:+ ":" +:+
         int_str (page self) +:+ ":" +:+ int_str (per_page self),
       MkRequest (_url (base self) "/coins/markets")
         ([("vs_currency", VStr (vs_currency self));
           ("order", VStr (order self));
           ("per_page", VInt (per_page self));
           ("page", VInt (page self));
           ("sparkline", VStr "false");
           ("price_change_percentage", VStr "24h")] ++
          match category self with
          | Some c => if str_empty c then [] else [("category", VStr c)]
          | None => []
          end))
  end.

Definition _market_record (self : t) (item : pydict) : res DiscoveryRecord.t :=
  external_id ← require_text (dict_get item "id") "id";
  symbol ← require_text (dict_get item "symbol") "symbol";
  name ← require_text (dict_get item "name") "name";
  price_usd ← optional_decimal (dict_get item "current_price") "current_price" true;
  volume_24h_usd ← optional_decimal (dict_get item "total_volume") "total_volume" true;
  market_cap_usd ← optional_decimal (dict_get item "market_cap") "market_cap" true;
  price_change_24h_pct ← optional_decimal (dict_get item "price_change_percentage_24h") "price_change_percentage_24h" false;
  DiscoveryRecord.post_init
    (DiscoveryRecord.Mk DiscoverySource.COINGECKO external_id (Some (str_upper symbol)) (Some name) None None
       (category self) price_usd None volume_24h_usd market_cap_usd price_change_24h_pct None None None
       ((fun key => (key, dict_get item key)) <$>
        ["market_cap_rank"; "fully_diluted_valuation"; "circulating_supply"; "total_supply"; "max_supply"; "ath"; "atl";
         "last_updated"])).

Definition _category_record (item : pydict) : res DiscoveryRecord.t :=
  external_id ← require_text (dict_get item "id") "id";
  name ← require_text (dict_get item "name") "name";
  market_cap_usd ← optional_decimal (dict_get item "market_cap") "market_cap" true;
  volume_24h_usd ← optional_decimal (dict_get item "volume_24h") "volume_24h" true;
  price_change_24h_pct ← optional_decimal (dict_get item "market_cap_change_24h") "market_cap_change_24h" false;
  DiscoveryRecord.post_init
    (DiscoveryRecord.Mk DiscoverySource.COINGECKO external_id None (Some name) None None (Some name) None None
       volume_24h_usd market_cap_usd price_change_24h_pct None None None
       [("content", dict_get item "content");
        ("top_3_coins", dict_get_default item "top_3_coins" (VList []));
        ("updated_at", dict_get item "updated_at")]).

Definition _universe_record (item : pydict) : res DiscoveryRecord.t :=
  external_id ← require_text (dict_get item "id") "id";
  symbol ← require_text (dict_get item "symbol") "symbol";
  name ← require_text (dict_get item "name") "name";
  DiscoveryRecord.post_init
    (DiscoveryRecord.Mk DiscoverySource.COINGECKO external_id (Some (str_upper symbol)) (Some name) None None None
       None None None None None None None None []).

Definition record (self : t) (item : pydict) : res DiscoveryRecord.t :=
  match feed self with
  | CoinGeckoFeed.MARKETS => _market_record self item
  | CoinGeckoFeed.CATEGORIES => _category_record item
  | CoinGeckoFeed.UNIVERSE => _universe_record item
  end.

Definition fetch_batch (self : t) (src : Source) : t * res DiscoveryBatch.t :=
  let '(cache_key, request) := _request self in
  let '(base', batch) :=
    fetch_with (base self) src cache_key request
      (make_batch src DiscoverySource.COINGECKO cache_key
         (fun payload => require_list payload (str_lower (CoinGeckoFeed.value (feed self)))) (record self)) in
  (Mk base' (feed self) (category self) (page self) (per_page self) (order self) (vs_currency self), batch).
End CoinGeckoDiscoveryAdapter.

(** ** Facts: requests *)

Import DiscoveryAdapterBase.

(** The cache has nothing to offer, so that the call needs the network. *)
Definition missed (self : DiscoveryAdapterBase.t) (src : Source) (key : string) : bool :=
  match snd (AsyncTtlCache.get (tick_get src) key (cache self)) with
  | Some VNone | None => true
  | Some _ => false
  end.
(** The call asks the network. *)
Definition asks (self : DiscoveryAdapterBase.t) (src : Source) (key : string) : bool :=
  missed self src key && is_ok (snd (SlidingWindowBudget.acquire (tick_acquire src) (budget self))).

(** The same world with another network. *)
Definition with_network (src : Source) (network : Request -> res pyval) : Source :=
  MkSource network (source_clock src) (tick_get src) (tick_acquire src) (tick_set src) (perf_started src)
    (perf_finished src).

Lemma request_json_budget self src key request :
  budget (fst (request_json self src key request)) =
  if missed self src key then fst (SlidingWindowBudget.acquire (tick_acquire src) (budget self)) else budget self.
Proof.
  unfold request_json, missed. destruct (AsyncTtlCache.get (tick_get src) key (cache self)) as [c [v|]]; cbn [snd].
  - destruct v; try done; destruct (SlidingWindowBudget.acquire _ _) as [b [[]|e]]; try done; by destruct (get_json src request).
  - destruct (SlidingWindowBudget.acquire _ _) as [b [[]|e]]; try done; by destruct (get_json src request).
Qed.

(** Without a grant, or with a cached answer, the network makes no difference. *)
Lemma request_json_not_asked self src key request network :
  asks self src key = false ->
  request_json self (with_network src network) key request = request_json self src key request.
Proof.
  unfold asks, request_json, missed, with_network. cbn [tick_get tick_acquire tick_set get_json].
  destruct (AsyncTtlCache.get (tick_get src) key (cache self)) as [c [v|]]; cbn [snd].
  - destruct v; try done; destruct (SlidingWindowBudget.acquire _ _) as [b [[]|e]]; done.
  - destruct (SlidingWindowBudget.acquire _ _) as [b [[]|e]]; done.
Qed.

Lemma request_json_refused self src key request :
  missed self src key = true -> asks self src key = false ->
  snd (request_json self src key request) = Err (Exn "RequestBudgetExceeded" "source request budget exceeded").
Proof.
  unfold asks. intros Hm. rewrite Hm. cbn [andb]. unfold missed, request_json in *.
  assert (forall e, snd (SlidingWindowBudget.acquire (tick_acquire src) (budget self)) = Err e ->
    e = Exn "RequestBudgetExceeded" "source request budget exceeded") as He.
  { intros e. unfold SlidingWindowBudget.acquire. cbv zeta. destruct (_ <=? _); [|done]. by intros [= <-]. }
  destruct (AsyncTtlCache.get (tick_get src) key (cache self)) as [c [v|]]; cbn [snd] in *.
  - destruct v; try done; destruct (SlidingWindowBudget.acquire _ _) as [b [[]|e]]; try done; intros _; by rewrite (He e).
  - destruct (SlidingWindowBudget.acquire _ _) as [b [[]|e]]; try done; intros _; by rewrite (He e).
Qed.

(** A call per entry; the times at which the network was asked, oldest first. *)
Fixpoint run_calls (self : DiscoveryAdapterBase.t) (calls : list (Source * string * Request)) :
    DiscoveryAdapterBase.t * list float :=
  match calls with
  | [] => (self, [])
  | (src, key, request) :: calls' =>
      let '(self', asked) := run_calls (fst (request_json self src key request)) calls' in
      (self', (if asks self src key then [tick_acquire src] else []) ++ asked)
  end.

Definition ticks (calls : list (Source * string * Request)) : list float := (fun c => tick_acquire c.1.1) <$> calls.

(** The budget's invariant, for the window of a minute. *)
Definition minute : float := Fl 60 0.

Lemma call_inv last self src key request history :
  is_finite_float last = true -> is_finite_float (tick_acquire src) = true -> (last <=? tick_acquire src)%flt = true ->
  budget_inv minute last history (budget self) ->
  let self' := fst (request_json self src key request) in
  budget_inv minute (tick_acquire src) (history ++ if asks self src key then [tick_acquire src] else []) (budget self') /\
  SlidingWindowBudget.max_requests (budget self') = SlidingWindowBudget.max_requests (budget self).
Proof.
  intros Hl Hn Hle Hinv. cbv zeta. rewrite request_json_budget. unfold asks.
  destruct (missed self src key); cbn [andb].
  - destruct (SlidingWindowBudget.acquire (tick_acquire src) (budget self)) as [b r] eqn:E.
    destruct (acquire_inv minute last (tick_acquire src) history (budget self) b r eq_refl Hl Hn Hle Hinv E)
      as (_ & Hm & _ & Hi). by split.
  - rewrite app_nil_r. split; [|done]. by apply (budget_inv_later minute last).
Qed.

Lemma run_calls_inv last self calls rest history self' asked :
  is_finite_float last = true -> clock_from last (ticks calls ++ rest) ->
  budget_inv minute last history (budget self) -> run_calls self calls = (self', asked) ->
  exists last', is_finite_float last' = true /\ clock_from last' rest /\
    SlidingWindowBudget.max_requests (budget self') = SlidingWindowBudget.max_requests (budget self) /\
    budget_inv minute last' (history ++ asked) (budget self').
Proof.
  revert last self history asked. induction calls as [|[[src key] request] calls IH]; intros last self history asked Hl Hc Hinv Hr.
  { injection Hr as <- <-. rewrite app_nil_r. by exists last. }
  destruct Hc as (Hn & Hle & Hc). cbn [run_calls] in Hr.
  destruct (run_calls (fst (request_json self src key request)) calls) as [self2 asked2] eqn:E. injection Hr as <- <-.
  destruct (call_inv last self src key request history Hl Hn Hle Hinv) as [Hi Hm].
  destruct (IH _ _ _ asked2 Hn Hc Hi E) as (last' & H1 & H2 & H3 & H4).
  exists last'. split; [done|]. split; [done|]. split; [congruence|]. by rewrite <- app_assoc in H4.
Qed.

(** ** Property *)

(** C24: the budget guards the network.  After any calls of an adapter, a call asks the
    network exactly when its cache has no answer and fewer than [max] of the earlier
    questions are less than a minute old, and there are never more of those; a call that
    does not ask is indifferent to the network; one that is refused is reported as
    degraded, not as down. *)
Theorem network_is_budgeted source_name name url ttl max start self0 calls self asked src key request batch_of :
  new source_name name url ttl max = Ok self0 -> is_finite_float start = true ->
  clock_from start (ticks calls ++ [tick_acquire src]) -> run_calls self0 calls = (self, asked) ->
  let recent := filter (fun g => in_window minute (tick_acquire src) g = true) asked in
  let '(self', fetched) := fetch_with self src key request batch_of in
  Z.of_nat (length recent) <= max /\
  asks self src key = missed self src key && (Z.of_nat (length recent) <? max) /\
  (asks self src key = false ->
   forall network, fetch_with self (with_network src network) key request batch_of = (self', fetched)) /\
  (missed self src key = true -> max <= Z.of_nat (length recent) ->
   AdapterPayload.health (load self' fetched) =
     AdapterHealth.Mk (DiscoveryAdapterBase.name self') AdapterState.DEGRADED None "RequestBudgetExceeded").
Proof.
  intros Hnew Hs Hc Hrun. cbv zeta.
  assert (budget self0 = SlidingWindowBudget.Mk max minute [] /\ 1 <= max) as [Hb0 Hmax].
  { unfold new, SlidingWindowBudget.new in Hnew. guards. subst. done. }
  assert (budget_inv minute start [] (budget self0)) as Hinv by (rewrite Hb0; apply budget_inv_new; lia).
  destruct (run_calls_inv start self0 calls [tick_acquire src] [] self asked Hs Hc Hinv Hrun)
    as (last & Hl & (Hn & Hle & _) & Hm & Hi). simpl in Hi. rewrite Hb0 in Hm. cbn [SlidingWindowBudget.max_requests] in Hm.
  destruct (SlidingWindowBudget.acquire (tick_acquire src) (budget self)) as [b r] eqn:Ea.
  destruct (acquire_inv minute last (tick_acquire src) asked (budget self) b r eq_refl Hl Hn Hle Hi Ea) as (Hr & _ & Hle2 & _).
  cbv zeta in Hr, Hle2. rewrite Hm in Hr, Hle2. destruct (fetch_with self src key request batch_of) as [self' fetched] eqn:Ef.
  assert (asks self src key = missed self src key &&
    (Z.of_nat (length (filter (fun g => in_window minute (tick_acquire src) g = true) asked)) <? max)) as Hasks.
  { unfold asks. by rewrite Ea, <- Hr. }
  split_and!; [done|done| |].
  - intros Hask network. unfold fetch_with in *. by rewrite request_json_not_asked.
  - intros Hmiss Hfull. rewrite Hmiss, (proj2 (Z.ltb_ge _ _) Hfull) in Hasks.
    pose proof (request_json_refused self src key request Hmiss Hasks) as Hq. unfold fetch_with in Ef.
    destruct (request_json self src key request) as [s1 r1]. simpl in Hq. subst r1. injection Ef as <- <-. done.
Qed.

(** *** A concrete adapter *)

Definition sample_source (n : Z) : Source :=
  MkSource (fun _ => Ok (VList [])) (Ok (AwareDT (Aware 0 0))) (Fl n 0) (Fl n 0) (Fl n 0) (Fl n 0) (Fl n 0).

Definition sample_calls : list (Source * string * Request) :=
  [(sample_source 1, "categories", MkRequest "u" []); (sample_source 2, "categories", MkRequest "u" [])].

Lemma network_is_budgeted_witness :
  exists self0 self asked,
    new "COINGECKO" "coingecko-discovery" "https://api.coingecko.com/" (Fl 300 0) 1 = Ok self0 /\
    run_calls self0 sample_calls = (self, asked) /\ asked = [Fl 1 0] /\
    asks self (sample_source 30) "universe" = false /\ asks self (sample_source 90) "universe" = true.
Proof.
  destruct (new "COINGECKO" "coingecko-discovery" "https://api.coingecko.com/" (Fl 300 0) 1) as [self0|e] eqn:En;
    [|vm_compute in En; discriminate En].
  destruct (run_calls self0 sample_calls) as [self asked] eqn:Er.
  assert (asked = [Fl 1 0] /\ missed self (sample_source 30) "universe" = true /\
          missed self (sample_source 90) "universe" = true) as (Ha & Hm1 & Hm2).
  { vm_compute in En. apply Ok_inj in En. subst self0. vm_compute in Er. injection Er as <- <-. vm_compute. tauto. }
  pose proof (network_is_budgeted _ _ _ _ 1 (Fl 0 0) self0 sample_calls self asked (sample_source 30) "universe" (MkRequest "u" [])
    (fun _ => Err (ValueError "unused")) En eq_refl ltac:(vm_compute; tauto) Er) as H30.
  pose proof (network_is_budgeted _ _ _ _ 1 (Fl 0 0) self0 sample_calls self asked (sample_source 90) "universe" (MkRequest "u" [])
    (fun _ => Err (ValueError "unused")) En eq_refl ltac:(vm_compute; tauto) Er) as H90.
  destruct (fetch_with self (sample_source 30) _ _ _) as [s1 f1]. destruct (fetch_with self (sample_source 90) _ _ _) as [s2 f2].
  destruct H30 as (_ & H30 & _). destruct H90 as (_ & H90 & _).
  exists self0, self, asked. split; [reflexivity|]. split; [exact Er|]. split; [exact Ha|].
  rewrite H30, H90, Hm1, Hm2, Ha. split; vm_compute; reflexivity.
Defined.
