(* ===== verification/ReclaimRepository.v ===== *)
(** * The reclaim repository: [setups/reclaim_repository.py]

    Reclaim attempts under their identifiers, and the two entry points of
    [setups/runtime_analysis.py] that write them: from a structure analysis just made,
    and from what the structure and candle tables hold when a 15M batch arrives. *)

From stdpp Require Import list strings gmap sorting.
From S2P Require Import Prelude PyList PyStr PyDecimal DecimalFacts PyParse PyTime IsoTime PyFloat PyValue Candles.
From S2P Require Import HtfModels ReclaimModels ReclaimEngine Serialization Repository CandleRepository.
From S2P Require Import StructureRepository ReclaimSource.
Open Scope Z_scope.

(** ** Rows *)

Module ReclaimAttemptRecord.
Record t : Type := Mk {
  attempt_id : string;
  break_event_id : string;
  zone_id : string;
  source : string;
  symbol : string;
  structure_interval : string;
  started_at : datetime;
  observed_at : datetime;
  outcome : string;
  setup_type : string;
  readiness : string;
  zone_low : dec;
  zone_high : dec;
  maximum_price : dec;
  maximum_penetration_bps : dec;
  duration_bars : Z;
  closes_above_zone : Z;
  bars_above_zone : Z;
  bounce_volume_ratio : option dec;
  rejection_candle_open_time : option datetime;
  rejection_low : option dec;
  trigger_candle_open_time : option datetime;
  quality_score : dec;
  reasons : list string;
  warnings : list string }.
End ReclaimAttemptRecord.

Record ReclaimUpsertResult : Type := MkReclaimUpsertResult {
  reclaim_inserted : Z;
  reclaim_updated : Z;
  reclaim_unchanged : Z }.

Definition _utc : datetime -> aware := aware_utc.

(** ** Comparison *)

(** [Decimal(str(value))] of an attribute; that of [None], of a time or of a list is not a
    number. *)
Definition Decimal_of_column (c : column) : res pydec :=
  match c with
  | CDecimal d => Ok (Finite d)
  | CInt z => Ok (Finite (dint z))
  | CText s => decimal_of_str s
  | CNull | CTime _ | CTexts _ => Err ConversionSyntax
  end.

(** [abs(left - right) <= max(abs(right) * Decimal("1e-15"), Decimal("1e-18"))]; a
    comparison with a NaN, and the difference of two infinities, are invalid. *)
Definition same_decimal (lhs rhs : pydec) : res bool :=
  match lhs, rhs with
  | Finite l, Finite r => Ok (within_tolerance l r)
  | Infinity _, Finite _ => Ok false
  | Finite _, Infinity _ => Ok true
  | Infinity a, Infinity b => if xorb a b then Ok true else Err InvalidOperation
  | NaN, _ | _, NaN => Err InvalidOperation
  end.

Definition _same (lhs rhs : column) : res bool :=
  match lhs, rhs with
  | CTime a, CTime b => Ok (aware_eqb (_utc a) (_utc b))
  | CDecimal _, _ | _, CDecimal _ =>
      left_decimal ← Decimal_of_column lhs;
      right_decimal ← Decimal_of_column rhs;
      same_decimal left_decimal right_decimal
  | _, _ => Ok (column_eqb lhs rhs)
  end.

(** ** Rows and attempts *)

(** [_values], as the columns of a row in the order of the dictionary. *)
Definition _values (r : ReclaimAttemptRecord.t) : list column :=
  [CText (ReclaimAttemptRecord.break_event_id r);
   CText (ReclaimAttemptRecord.zone_id r);
   CText (ReclaimAttemptRecord.source r);
   CText (ReclaimAttemptRecord.symbol r);
   CText (ReclaimAttemptRecord.structure_interval r);
   CTime (ReclaimAttemptRecord.started_at r);
   CTime (ReclaimAttemptRecord.observed_at r);
   CText (ReclaimAttemptRecord.outcome r);
   CText (ReclaimAttemptRecord.setup_type r);
   CText (ReclaimAttemptRecord.readiness r);
   CDecimal (ReclaimAttemptRecord.zone_low r);
   CDecimal (ReclaimAttemptRecord.zone_high r);
   CDecimal (ReclaimAttemptRecord.maximum_price r);
   CDecimal (ReclaimAttemptRecord.maximum_penetration_bps r);
   CInt (ReclaimAttemptRecord.duration_bars r);
   CInt (ReclaimAttemptRecord.closes_above_zone r);
   CInt (ReclaimAttemptRecord.bars_above_zone r);
   opt_column CDecimal (ReclaimAttemptRecord.bounce_volume_ratio r);
   opt_column CTime (ReclaimAttemptRecord.rejection_candle_open_time r);
   opt_column CDecimal (ReclaimAttemptRecord.rejection_low r);
   opt_column CTime (ReclaimAttemptRecord.trigger_candle_open_time r);
   CDecimal (ReclaimAttemptRecord.quality_score r);
   CTexts (ReclaimAttemptRecord.reasons r);
   CTexts (ReclaimAttemptRecord.warnings r)].

Definition record_of_attempt (a : ReclaimAttempt.t) : ReclaimAttemptRecord.t :=
  ReclaimAttemptRecord.Mk (ReclaimAttempt.attempt_id a) (ReclaimAttempt.break_event_id a)
    (ReclaimAttempt.zone_id a) (CandleSource.value (ReclaimAttempt.source a)) (ReclaimAttempt.symbol a)
    (CandleInterval.value (ReclaimAttempt.structure_interval a)) (AwareDT (ReclaimAttempt.started_at a))
    (AwareDT (ReclaimAttempt.observed_at a)) (ReclaimOutcome.value (ReclaimAttempt.outcome a))
    (DerivedSetupType.value (ReclaimAttempt.setup_type a)) (SetupReadiness.value (ReclaimAttempt.readiness a))
    (ReclaimAttempt.zone_low a) (ReclaimAttempt.zone_high a) (ReclaimAttempt.maximum_price a)
    (ReclaimAttempt.maximum_penetration_bps a) (ReclaimAttempt.duration_bars a)
    (ReclaimAttempt.closes_above_zone a) (ReclaimAttempt.bars_above_zone a)
    (ReclaimAttempt.bounce_volume_ratio a) (AwareDT <$> ReclaimAttempt.rejection_candle_open_time a)
    (ReclaimAttempt.rejection_low a) (AwareDT <$> ReclaimAttempt.trigger_candle_open_time a)
    (ReclaimAttempt.quality_score a) (ReclaimAttempt.reasons a) (ReclaimAttempt.warnings a).

(** [setattr] of every value: all the columns but the identifier, which is the same. *)
Definition set_attempt (record values : ReclaimAttemptRecord.t) : ReclaimAttemptRecord.t := values.

Definition ReclaimOutcome_of (s : string) : res ReclaimOutcome.t :=
  enum_of "ReclaimOutcome" ReclaimOutcome.members ReclaimOutcome.value s.
Definition DerivedSetupType_of (s : string) : res DerivedSetupType.t :=
  enum_of "DerivedSetupType" DerivedSetupType.members DerivedSetupType.value s.
Definition SetupReadiness_of (s : string) : res SetupReadiness.t :=
  enum_of "SetupReadiness" SetupReadiness.members SetupReadiness.value s.

(** [None if value is None else _utc(value)], as an argument of the constructor. *)
Definition optional_utc (value : option datetime) : option datetime := (fun t => AwareDT (_utc t)) <$> value.

Definition _from_record (r : ReclaimAttemptRecord.t) : res ReclaimAttempt.t :=
  source ← CandleSource_of (ReclaimAttemptRecord.source r);
  structure_interval ← CandleInterval_of (ReclaimAttemptRecord.structure_interval r);
  outcome ← ReclaimOutcome_of (ReclaimAttemptRecord.outcome r);
  setup_type ← DerivedSetupType_of (ReclaimAttemptRecord.setup_type r);
  readiness ← SetupReadiness_of (ReclaimAttemptRecord.readiness r);
  ReclaimAttempt.new (ReclaimAttemptRecord.attempt_id r) (ReclaimAttemptRecord.break_event_id r)
    (ReclaimAttemptRecord.zone_id r) source (ReclaimAttemptRecord.symbol r) structure_interval
    (AwareDT (_utc (ReclaimAttemptRecord.started_at r))) (AwareDT (_utc (ReclaimAttemptRecord.observed_at r)))
    outcome setup_type readiness (Finite (ReclaimAttemptRecord.zone_low r))
    (Finite (ReclaimAttemptRecord.zone_high r)) (Finite (ReclaimAttemptRecord.maximum_price r))
    (Finite (ReclaimAttemptRecord.maximum_penetration_bps r)) (ReclaimAttemptRecord.duration_bars r)
    (ReclaimAttemptRecord.closes_above_zone r) (ReclaimAttemptRecord.bars_above_zone r)
    (Finite <$> ReclaimAttemptRecord.bounce_volume_ratio r)
    (optional_utc (ReclaimAttemptRecord.rejection_candle_open_time r))
    (Finite <$> ReclaimAttemptRecord.rejection_low r)
    (optional_utc (ReclaimAttemptRecord.trigger_candle_open_time r))
    (Finite (ReclaimAttemptRecord.quality_score r)) (ReclaimAttemptRecord.reasons r)
    (ReclaimAttemptRecord.warnings r).

(** ** The repository *)

Section repository.
Context `{!Table string ReclaimAttemptRecord.t}.
Notation attempt_table := (table string ReclaimAttemptRecord.t).

Definition result_of (o : Upsert) : ReclaimUpsertResult :=
  match o with
  | Inserted => MkReclaimUpsertResult 1 0 0
  | Updated => MkReclaimUpsertResult 0 1 0
  | Unchanged => MkReclaimUpsertResult 0 0 1
  end.

Definition upsert (t : attempt_table) (attempt : ReclaimAttempt.t) : res (attempt_table * ReclaimUpsertResult) :=
  '(t, o) ← upsert_row _values _same set_attempt t (ReclaimAttempt.attempt_id attempt) (record_of_attempt attempt);
  mret (t, result_of o).

(** The order of [latest]. *)
Definition attempt_order (kr : string * ReclaimAttemptRecord.t) : Z * dec :=
  (utc (_utc (ReclaimAttemptRecord.observed_at kr.2)), ReclaimAttemptRecord.quality_score kr.2).

Definition attempt_of (source symbol : string) (qualified_only : bool) (r : ReclaimAttemptRecord.t) : bool :=
  bool_decide (ReclaimAttemptRecord.source r = source) && bool_decide (ReclaimAttemptRecord.symbol r = symbol) &&
  (negb qualified_only ||
   bool_decide (ReclaimAttemptRecord.readiness r = SetupReadiness.value SetupReadiness.QUALIFIED)).

Definition latest (t : attempt_table) (source : CandleSource.t) (symbol : string) (qualified_only : bool) :
    res (option ReclaimAttempt.t) :=
  let normalized := norm_upper symbol in
  raise_if (str_empty normalized) "symbol is required" ;;
  read_first _from_record
    (py_sorted_rev attempt_order (filter (fun kr =>
      attempt_of (CandleSource.value source) normalized qualified_only kr.2 = true) (rows t))).
End repository.

(** ** Persisting an attempt: [setups/runtime_analysis.py] *)

Section persist.
Context `{FromIso}.
Context `{!Table CandleKey OhlcvCandleRecord.t} `{!Table string SupportZoneRecord.t}
  `{!Table string StructureEventRecord.t} `{!Table string ReclaimAttemptRecord.t}.

(** What a session sees of the tables these functions use. *)
Record Session : Type := MkSession {
  ohlcv_candles : table CandleKey OhlcvCandleRecord.t;
  support_zones : table string SupportZoneRecord.t;
  structure_events : table string StructureEventRecord.t;
  reclaim_attempts : table string ReclaimAttemptRecord.t }.

Definition with_attempts (s : Session) (t : table string ReclaimAttemptRecord.t) : Session :=
  MkSession (ohlcv_candles s) (support_zones s) (structure_events s) t.

Definition store_attempt (s : Session) (attempt : ReclaimAttempt.t) :
    res (Session * option (ReclaimAttempt.t * ReclaimUpsertResult)) :=
  '(t, result) ← upsert (reclaim_attempts s) attempt;
  mret (with_attempts s t, Some (attempt, result)).

Definition persist_reclaim_from_structure (s : Session) (batch : Batch.t) (analysis : HtfStructureAnalysis.t) :
    res (Session * option (ReclaimAttempt.t * ReclaimUpsertResult)) :=
  attempt ← derive_reclaim_from_structure batch analysis;
  match attempt with
  | None => mret (s, None)
  | Some attempt => store_attempt s attempt
  end.

(** The [where] clause: a confirmed 4H break of the batch's source and symbol. *)
Definition confirmed_h4_break (batch : Batch.t) (r : StructureEventRecord.t) : bool :=
  event_of_series (CandleSource.value (Batch.source batch)) (Batch.symbol batch)
    (CandleInterval.value CandleInterval.H4) r &&
  bool_decide (StructureEventRecord.state r = StructureEventState.value StructureEventState.CONFIRMED_BREAK).

(** The break the batch may confirm. *)
Definition latest_break (s : Session) (batch : Batch.t) : option (string * StructureEventRecord.t) :=
  head (py_sorted_rev event_order
          (filter (fun kr => confirmed_h4_break batch kr.2 = true) (rows (structure_events s)))).

(** What the tables hold for a break: its zone, itself and its candle. *)
Definition break_evidence (s : Session) (batch : Batch.t) (event_record : StructureEventRecord.t) :
    res (SupportZone.t * StructureEvent.t * OhlcvCandle) :=
  match lookup_row (support_zones s) (StructureEventRecord.zone_id event_record) with
  | None => Err (ValueError "confirmed 4H break is missing its support zone")
  | Some zone_record =>
      event ← _event_from_record event_record;
      zone ← _zone_from_record zone_record;
      h4_candles ← list_recent (ohlcv_candles s) (Batch.source batch) (Batch.symbol batch) CandleInterval.H4 500;
      break_candle ← next_or_raise (fun c => aware_eqb (open_time c) (StructureEvent.candle_open_time event))
                       h4_candles "confirmed 4H break is missing its persisted candle";
      mret (zone, event, break_candle)
  end.

Definition persist_reclaim_from_confirmation (s : Session) (batch : Batch.t) :
    res (Session * option (ReclaimAttempt.t * ReclaimUpsertResult)) :=
  if negb (bool_decide (Batch.interval batch = CandleInterval.M15)) then mret (s, None)
  else
    match latest_break s batch with
    | None => mret (s, None)
    | Some (_, event_record) =>
        '(zone, event, break_candle) ← break_evidence s batch event_record;
        attempt ← analyze_reclaim_attempt zone event break_candle (Batch.candles batch) None;
        store_attempt s attempt
    end.
End persist.

(** ** Facts: reading an attempt back *)

(** The attempt passes its own constructor unchanged. *)
Definition remade (a : ReclaimAttempt.t) : Prop :=
  ReclaimAttempt.new (ReclaimAttempt.attempt_id a) (ReclaimAttempt.break_event_id a) (ReclaimAttempt.zone_id a)
    (ReclaimAttempt.source a) (ReclaimAttempt.symbol a) (ReclaimAttempt.structure_interval a)
    (AwareDT (ReclaimAttempt.started_at a)) (AwareDT (ReclaimAttempt.observed_at a)) (ReclaimAttempt.outcome a)
    (ReclaimAttempt.setup_type a) (ReclaimAttempt.readiness a) (Finite (ReclaimAttempt.zone_low a))
    (Finite (ReclaimAttempt.zone_high a)) (Finite (ReclaimAttempt.maximum_price a))
    (Finite (ReclaimAttempt.maximum_penetration_bps a)) (ReclaimAttempt.duration_bars a)
    (ReclaimAttempt.closes_above_zone a) (ReclaimAttempt.bars_above_zone a)
    (Finite <$> ReclaimAttempt.bounce_volume_ratio a) (AwareDT <$> ReclaimAttempt.rejection_candle_open_time a)
    (Finite <$> ReclaimAttempt.rejection_low a) (AwareDT <$> ReclaimAttempt.trigger_candle_open_time a)
    (Finite (ReclaimAttempt.quality_score a)) (ReclaimAttempt.reasons a) (ReclaimAttempt.warnings a) = Ok a.

Lemma optionally_Finite o name minimum v :
  ReclaimAttempt.optionally o (fun v => ReclaimModels._decimal v name (Some minimum) None) = Ok v ->
  o = Finite <$> v.
Proof.
  destruct o as [d|]; simpl; intros Hv; [|by apply Ok_inj in Hv; subst].
  apply fmap_Ok in Hv as (w & Hw & ->). rewrite _decimal_htf in Hw. by apply htf_decimal_Ok in Hw as (-> & _).
Qed.

Lemma optionally_AwareDT o name v :
  ReclaimAttempt.optionally o (fun v => ReclaimModels._aware v name) = Ok v -> o = AwareDT <$> v.
Proof.
  destruct o as [[x|x]|]; simpl; intros Hv; [by apply Ok_inj in Hv; subst|by res_inv|by apply Ok_inj in Hv; subst].
Qed.

(** Every attempt the constructor returns. *)
Lemma new_ReclaimAttempt_remade aid bid zid src sym itv st ob oc ty rd zl zh mp pen d c b vr ro rl tr q rs ws a :
  ReclaimAttempt.new aid bid zid src sym itv st ob oc ty rd zl zh mp pen d c b vr ro rl tr q rs ws = Ok a ->
  remade a.
Proof.
  intros Hn. unfold ReclaimAttempt.new in Hn. res_inv.
  repeat match goal with
  | H : ReclaimModels._decimal ?raw _ _ _ = Ok ?v |- _ =>
      is_var raw; assert (raw = Finite v)
        by (rewrite _decimal_htf in H; by apply htf_decimal_Ok in H as (-> & _)); subst raw
  | H : ReclaimModels._aware ?raw _ = Ok ?v |- _ =>
      is_var raw; assert (raw = AwareDT v) by (by apply htf_aware_Ok in H); subst raw
  | H : ReclaimAttempt.optionally ?o (fun v => ReclaimModels._decimal v _ _ _) = Ok _ |- _ =>
      is_var o; pose proof (optionally_Finite _ _ _ _ H); subst o
  | H : ReclaimAttempt.optionally ?o (fun v => ReclaimModels._aware v _) = Ok _ |- _ =>
      is_var o; pose proof (optionally_AwareDT _ _ _ H); subst o
  end.
  subst a. unfold remade, ReclaimAttempt.new. cbn [
    ReclaimAttempt.attempt_id ReclaimAttempt.break_event_id ReclaimAttempt.zone_id ReclaimAttempt.source
    ReclaimAttempt.symbol ReclaimAttempt.structure_interval ReclaimAttempt.started_at
    ReclaimAttempt.observed_at ReclaimAttempt.outcome ReclaimAttempt.setup_type ReclaimAttempt.readiness
    ReclaimAttempt.zone_low ReclaimAttempt.zone_high ReclaimAttempt.maximum_price
    ReclaimAttempt.maximum_penetration_bps ReclaimAttempt.duration_bars ReclaimAttempt.closes_above_zone
    ReclaimAttempt.bars_above_zone ReclaimAttempt.bounce_volume_ratio
    ReclaimAttempt.rejection_candle_open_time ReclaimAttempt.rejection_low
    ReclaimAttempt.trigger_candle_open_time ReclaimAttempt.quality_score ReclaimAttempt.reasons
    ReclaimAttempt.warnings].
  rewrite !str_strip_idemp, norm_upper_idemp.
  repeat (match goal with H : ?x = _ |- context [?x] => rewrite H end; cbn [raise_if]; bind_ok).
  done.
Qed.

Lemma ReclaimOutcome_of_value s : ReclaimOutcome_of (ReclaimOutcome.value s) = Ok s.
Proof. by destruct s. Qed.
Lemma DerivedSetupType_of_value s : DerivedSetupType_of (DerivedSetupType.value s) = Ok s.
Proof. by destruct s. Qed.
Lemma SetupReadiness_of_value s : SetupReadiness_of (SetupReadiness.value s) = Ok s.
Proof. by destruct s. Qed.

(** The attempt as it is read: its times are shown in UTC. *)
Definition in_utc (t : aware) : aware := Aware (utc t) 0.
Definition utc_attempt (a : ReclaimAttempt.t) : ReclaimAttempt.t :=
  ReclaimAttempt.Mk (ReclaimAttempt.attempt_id a) (ReclaimAttempt.break_event_id a) (ReclaimAttempt.zone_id a)
    (ReclaimAttempt.source a) (ReclaimAttempt.symbol a) (ReclaimAttempt.structure_interval a)
    (in_utc (ReclaimAttempt.started_at a)) (in_utc (ReclaimAttempt.observed_at a)) (ReclaimAttempt.outcome a)
    (ReclaimAttempt.setup_type a) (ReclaimAttempt.readiness a) (ReclaimAttempt.zone_low a)
    (ReclaimAttempt.zone_high a) (ReclaimAttempt.maximum_price a) (ReclaimAttempt.maximum_penetration_bps a)
    (ReclaimAttempt.duration_bars a) (ReclaimAttempt.closes_above_zone a) (ReclaimAttempt.bars_above_zone a)
    (ReclaimAttempt.bounce_volume_ratio a) (in_utc <$> ReclaimAttempt.rejection_candle_open_time a)
    (ReclaimAttempt.rejection_low a) (in_utc <$> ReclaimAttempt.trigger_candle_open_time a)
    (ReclaimAttempt.quality_score a) (ReclaimAttempt.reasons a) (ReclaimAttempt.warnings a).

Lemma optionally_utc o name :
  ReclaimAttempt.optionally (AwareDT <$> (in_utc <$> o)) (fun v => ReclaimModels._aware v name) = Ok (in_utc <$> o).
Proof. by destruct o. Qed.

Lemma check_outcome_utc oc ty rd ro tr :
  ReclaimAttempt.check_outcome oc ty rd (in_utc <$> ro) (in_utc <$> tr) =
  ReclaimAttempt.check_outcome oc ty rd ro tr.
Proof. by destruct ro, tr. Qed.

(** The constructor sees the instants of the times only. *)
Lemma remade_utc a : remade a -> remade (utc_attempt a).
Proof.
  destruct a as [aid bid zid src sym itv st ob oc ty rd zl zh mp pen d c b vr ro rl tr q rs ws].
  unfold remade, utc_attempt, ReclaimAttempt.new. cbn [
    ReclaimAttempt.attempt_id ReclaimAttempt.break_event_id ReclaimAttempt.zone_id ReclaimAttempt.source
    ReclaimAttempt.symbol ReclaimAttempt.structure_interval ReclaimAttempt.started_at
    ReclaimAttempt.observed_at ReclaimAttempt.outcome ReclaimAttempt.setup_type ReclaimAttempt.readiness
    ReclaimAttempt.zone_low ReclaimAttempt.zone_high ReclaimAttempt.maximum_price
    ReclaimAttempt.maximum_penetration_bps ReclaimAttempt.duration_bars ReclaimAttempt.closes_above_zone
    ReclaimAttempt.bars_above_zone ReclaimAttempt.bounce_volume_ratio
    ReclaimAttempt.rejection_candle_open_time ReclaimAttempt.rejection_low
    ReclaimAttempt.trigger_candle_open_time ReclaimAttempt.quality_score ReclaimAttempt.reasons
    ReclaimAttempt.warnings].
  intros Hn. res_inv. simplify_eq.
  repeat match goal with
  | H : ReclaimAttempt.optionally (AwareDT <$> ?o) _ = Ok _ |- _ =>
      pose proof (optionally_AwareDT _ _ _ H) as E; apply (inj (fmap AwareDT)) in E; subst; clear H
  | H : ReclaimModels._aware (AwareDT _) _ = Ok _ |- _ => apply Ok_inj in H; subst
  end.
  repeat match goal with H : str_strip ?x = ?x |- _ => rewrite !H in *; clear H end.
  match goal with H : norm_upper ?x = ?x, G : _ || str_empty (norm_upper _) = false |- _ => rewrite H in G end.
  rewrite !optionally_utc.
  repeat (match goal with H : ?x = _ |- context [?x] => rewrite H end; cbn [raise_if]; bind_ok).
  unfold ReclaimModels._aware, require_aware. bind_ok.
  change (py_lt (in_utc ob) (in_utc st)) with (py_lt ob st). 
  repeat (match goal with H : ?x = _ |- context [?x] => rewrite H end; cbn [raise_if]; bind_ok).
  rewrite check_outcome_utc.
  destruct ro as [ro|], tr as [tr|], rl; try discriminate; cbn [fmap option_fmap option_map];
    try match goal with |- context [py_le (in_utc ?t) (in_utc ?r)] =>
      change (py_le (in_utc t) (in_utc r)) with (py_le t r) end;
    repeat (match goal with H : ?x = _ |- context [?x] => rewrite H end; cbn [raise_if]; bind_ok); try done.
  all: cbn -[ReclaimAttempt.check_outcome py_le]; bind_ok.
  all: repeat (match goal with H : ?x = _ |- context [?x] => rewrite H end; cbn [raise_if]; bind_ok); try done.
Qed.

Lemma _from_record_of_attempt a : remade a -> _from_record (record_of_attempt a) = Ok (utc_attempt a).
Proof.
  intros Ha. unfold _from_record, record_of_attempt.
  cbn [ReclaimAttemptRecord.source ReclaimAttemptRecord.structure_interval ReclaimAttemptRecord.outcome
    ReclaimAttemptRecord.setup_type ReclaimAttemptRecord.readiness].
  rewrite CandleSource_of_value, CandleInterval_of_value, ReclaimOutcome_of_value, DerivedSetupType_of_value,
    SetupReadiness_of_value. bind_ok.
  pose proof (remade_utc a Ha) as Hu. unfold remade in Hu. destruct a as [? ? ? ? ? ? ? ? ? ? ? ? ? ? ? ? ? ? ? ro ? tr ? ? ?].
  by destruct ro, tr.
Qed.

(** ** Facts: comparison *)

Lemma _same_equiv a b : a ≡ b -> _same a b = Ok true.
Proof.
  intros [|s|z|c d Hcd|x y Hxy|l]; simpl; try (by rewrite bool_decide_eq_true_2); try done.
  - by rewrite Z.eqb_refl.
  - bind_ok. unfold same_decimal. by rewrite within_tolerance_equiv.
  - f_equal. by apply Z.eqb_eq.
Qed.

(** An absent number where there was one, or the reverse, is not a difference but an
    error. *)
Lemma _same_none d : _same CNull (CDecimal d) = Err ConversionSyntax /\ _same (CDecimal d) CNull = Err ConversionSyntax.
Proof. done. Qed.


(** Attributes of one kind are compared without an error. *)
Definition comparable (a b : column) : Prop :=
  match a, b with
  | CDecimal _, CDecimal _ => True
  | CDecimal _, _ | _, CDecimal _ => False
  | _, _ => True
  end.

Lemma _same_total a b : comparable a b -> exists same, _same a b = Ok same.
Proof. destruct a, b; simpl; try done; by eexists. Qed.

Lemma any_changed_comparable l k : Forall2 comparable l k -> exists b, any_changed _same l k = Ok b.
Proof.
  induction 1 as [|a b l k Hab _ IH]; [by eexists|]. simpl. destruct (_same_total a b Hab) as [[|] ->]; bind_ok;
    [exact IH|by eexists].
Qed.

(** The numbers that may be absent are absent in both, or in neither. *)
Definition same_presence (r r' : ReclaimAttemptRecord.t) : Prop :=
  (is_Some (ReclaimAttemptRecord.bounce_volume_ratio r) <-> is_Some (ReclaimAttemptRecord.bounce_volume_ratio r')) /\
  (is_Some (ReclaimAttemptRecord.rejection_low r) <-> is_Some (ReclaimAttemptRecord.rejection_low r')).

Lemma _values_comparable r r' : same_presence r r' -> Forall2 comparable (_values r) (_values r').
Proof.
  assert (forall o o' : option dec, (is_Some o <-> is_Some o') ->
    comparable (opt_column CDecimal o) (opt_column CDecimal o')) as Hd.
  { intros [x|] [y|] Hxy; simpl; try done; [|]; [by destruct Hxy as [[? ?] _]; eauto|by destruct Hxy as [_ [? ?]]; eauto]. }
  assert (forall o o' : option datetime, comparable (opt_column CTime o) (opt_column CTime o')) as Ht
    by (by intros [x|] [y|]).
  intros [H1 H2]. unfold _values. repeat constructor; auto.
Qed.

(** ** Facts: the repository *)

Section facts.
Context `{!Table string ReclaimAttemptRecord.t}.

(** An attempt whose values the columns keep, as the repository compares them. *)
Definition attempt_kept (a : ReclaimAttempt.t) : Prop := kept _values _same (record_of_attempt a).

(** What an upsert leaves in the table, and what it reports. *)
Record attempt_stored (t t' : table string ReclaimAttemptRecord.t) (a : ReclaimAttempt.t)
    (result : ReclaimUpsertResult) : Prop := {
  as_kind : exists o, upsert_kind _values _same t (ReclaimAttempt.attempt_id a) (record_of_attempt a) o /\
              result = result_of o;
  as_written : exists r, lookup_row t' (ReclaimAttempt.attempt_id a) = Some r /\
                 same_row _values _same r (record_of_attempt a);
  as_kept : forall k, k <> ReclaimAttempt.attempt_id a -> lookup_row t' k = lookup_row t k;
  as_again : upsert t' a = Ok (t', result_of Unchanged) }.

Lemma upsert_Ok t a t' result : attempt_kept a -> upsert t a = Ok (t', result) -> attempt_stored t t' a result.
Proof.
  intros Hkept Hu. unfold upsert in Hu. apply bind_Ok in Hu as ([t1 o] & Hrow & Hu). apply Ok_inj in Hu. simplify_eq.
  destruct (upsert_row_Ok _values _same set_attempt (fun _ _ => eq_refl) _ _ _ _ _ Hkept Hrow) as (Hk & Ho & Hw & Ha).
  constructor; [by exists o|done|done|]. unfold upsert. rewrite Ha. by bind_ok.
Qed.

Lemma upsert_total t a :
  (forall old, lookup_row t (ReclaimAttempt.attempt_id a) = Some old -> same_presence old (record_of_attempt a)) ->
  exists t' result, upsert t a = Ok (t', result).
Proof.
  intros Hp. unfold upsert, upsert_row. destruct (lookup_row t (ReclaimAttempt.attempt_id a)) as [old|]; [|by bind_ok; eauto].
  destruct (any_changed_comparable _ _ (_values_comparable _ _ (Hp old eq_refl))) as [[|] ->]; bind_ok; eauto.
Qed.

(** The attempt [latest] returns is read from a row of the series that none of the others
    was observed after. *)
Lemma latest_Ok (t : table string ReclaimAttemptRecord.t) src sym qualified a :
  latest t src sym qualified = Ok (Some a) ->
  exists k r, lookup_row t k = Some r /\ attempt_of (CandleSource.value src) (norm_upper sym) qualified r = true /\
    _from_record r = Ok a /\
    forall k' r', lookup_row t k' = Some r' ->
      attempt_of (CandleSource.value src) (norm_upper sym) qualified r' = true ->
      utc (_utc (ReclaimAttemptRecord.observed_at r')) <= utc (_utc (ReclaimAttemptRecord.observed_at r)).
Proof.
  unfold latest. intros He. guards. apply read_first_Some in He as (k & r & Hh & Hr).
  apply (first_of_query attempt_order) in Hh as (Hl & Hs & Hmax). by exists k, r.
Qed.
End facts.

Section persist_facts.
Context `{FromIso}.
Context `{!Table CandleKey OhlcvCandleRecord.t} `{!Table string SupportZoneRecord.t}
  `{!Table string StructureEventRecord.t} `{!Table string ReclaimAttemptRecord.t}.

Lemma latest_break_Some s batch k r :
  latest_break s batch = Some (k, r) ->
  lookup_row (structure_events s) k = Some r /\ confirmed_h4_break batch r = true /\
  forall k' r', lookup_row (structure_events s) k' = Some r' -> confirmed_h4_break batch r' = true ->
    utc (aware_utc (StructureEventRecord.observed_at r')) <= utc (aware_utc (StructureEventRecord.observed_at r)).
Proof. intros Hl. by apply (first_of_query event_order) in Hl as (Hk & Hs & Hmax). Qed.

Lemma latest_break_None s batch :
  latest_break s batch = None <->
  forall k r, lookup_row (structure_events s) k = Some r -> confirmed_h4_break batch r = false.
Proof.
  unfold latest_break. set (l := filter _ _). pose proof (py_sorted_rev_perm event_order l) as Hp. split.
  - intros Hh k r Hk. destruct (py_sorted_rev event_order l) as [|kr rest]; [|done].
    apply Permutation_nil in Hp. destruct (confirmed_h4_break batch r) eqn:E; [|done].
    assert ((k, r) ∈ l) as Hin by (apply list_elem_of_filter; split; [done|by apply rows_lookup]).
    rewrite Hp in Hin. by apply elem_of_nil in Hin.
  - intros Hall. assert (l = []) as ->; [|done]. apply elem_of_nil_inv. intros [k r] Hin.
    apply list_elem_of_filter in Hin as [Hc Hin]. apply rows_lookup in Hin. simpl in Hc.
    by rewrite (Hall _ _ Hin) in Hc.
Qed.

Lemma store_attempt_Ok s a s' out :
  store_attempt s a = Ok (s', out) ->
  exists t result, out = Some (a, result) /\ s' = with_attempts s t /\
    (attempt_kept a -> attempt_stored (reclaim_attempts s) t a result).
Proof.
  unfold store_attempt. intros Hs. apply bind_Ok in Hs as ([t result] & Hu & Hs). apply Ok_inj in Hs. simplify_eq.
  exists t, result. split_and!; [done..|]. intros Hkept. by apply upsert_Ok.
Qed.

(** A batch that is not 15M, or a series without a confirmed 4H break, writes nothing.
    Otherwise the attempt is the engine's on the latest break, its zone and its candle as
    the tables hold them, and only its row is written. *)
Lemma persist_confirmation_Ok s batch s' out :
  persist_reclaim_from_confirmation s batch = Ok (s', out) ->
  match out with
  | None => s' = s /\ (Batch.interval batch = CandleInterval.M15 ->
      forall k r, lookup_row (structure_events s) k = Some r -> confirmed_h4_break batch r = false)
  | Some (a, result) =>
      Batch.interval batch = CandleInterval.M15 /\
      exists k r zone event candle t,
        latest_break s batch = Some (k, r) /\ break_evidence s batch r = Ok (zone, event, candle) /\
        analyze_reclaim_attempt zone event candle (Batch.candles batch) None = Ok a /\
        s' = with_attempts s t /\ (attempt_kept a -> attempt_stored (reclaim_attempts s) t a result)
  end.
Proof.
  unfold persist_reclaim_from_confirmation. intros Hp.
  destruct (bool_decide (Batch.interval batch = CandleInterval.M15)) eqn:Ei; cbn [negb] in Hp.
  2:{ apply Ok_inj in Hp. simplify_eq. apply bool_decide_eq_false in Ei. naive_solver. }
  apply bool_decide_eq_true in Ei. destruct (latest_break s batch) as [[k r]|] eqn:El.
  2:{ apply Ok_inj in Hp. simplify_eq. split; [done|]. intros _. by apply latest_break_None. }
  apply bind_Ok in Hp as ([[zone event] candle] & He & Hp). cbn beta iota in Hp.
  apply bind_Ok in Hp as (a & Ha & Hp). apply store_attempt_Ok in Hp as (t & result & -> & -> & Hst).
  split; [done|]. by exists k, r, zone, event, candle, t.
Qed.
End persist_facts.
