(* ===== verification/Confirmation.v ===== *)
(** * From the 4H tables to a 15M confirmation

    [runtime/store.py] writes the candles and the analysis of a 4H batch;
    [setups/runtime_analysis.py] reads them back when a 15M batch of the symbol arrives.
    [resumes_structure]: the engine is handed a zone, a break and a candle equal to those
    that the analysis itself handed it, with the times shown in UTC.  What the tables keep
    of the rows is a hypothesis about these rows here; [ConfirmationColumns] discharges it
    for the declared columns. *)

From stdpp Require Import list strings gmap sorting.
From S2P Require Import Prelude PyList PyStr PyDecimal DecimalFacts PyTime IsoTime PyValue Candles HtfModels.
From S2P Require Import SupportZones StructureEvents HtfEngine ReclaimModels ReclaimEngine Serialization.
From S2P Require Import Repository CandleRepository StructureRepository ReclaimSource ReclaimRepository.
From S2P Require Import Sha256.
Open Scope Z_scope.

Section confirmation.
Context `{FromIso}.
Context `{!Table CandleKey OhlcvCandleRecord.t} `{!Table string SupportZoneRecord.t}
  `{!Table string StructureEventRecord.t} `{!Table string ReclaimAttemptRecord.t}.
(** The columns of a candle's key lose nothing. *)
Context (keys_kept : forall r : OhlcvCandleRecord.t, record_key (stored r) = record_key r).

(** The rows of a batch and of its analysis are read back with the values written. *)
Record rows_kept (batch : Batch.t) (a : HtfStructureAnalysis.t) : Prop := {
  rk_candles : Forall candle_kept (Batch.candles batch);
  rk_zones : Forall (fun z => stored (_zone_record z) ≡ _zone_record z) (HtfStructureAnalysis.zones a);
  rk_events : Forall (fun e => stored (_event_record e) ≡ _event_record e) (HtfStructureAnalysis.events a) }.

(** The tables hold nothing of the series yet. *)
Record unseen (s : Session) (batch : Batch.t) (a : HtfStructureAnalysis.t) : Prop := {
  un_keyed : keyed (ohlcv_candles s);
  un_candles : forall k r, lookup_row (ohlcv_candles s) k = Some r ->
    in_series (CandleSource.value (Batch.source batch)) (Batch.symbol batch)
      (CandleInterval.value (Batch.interval batch)) (k, r) = false;
  un_zones : forall z, z ∈ HtfStructureAnalysis.zones a ->
    lookup_row (support_zones s) (SupportZone.zone_id z) = None;
  un_events : forall e, e ∈ HtfStructureAnalysis.events a ->
    lookup_row (structure_events s) (StructureEvent.event_id e) = None;
  un_breaks : forall k r, lookup_row (structure_events s) k = Some r -> confirmed_h4_break batch r = false }.

(** The identifiers of an analysis are distinct, and the times in its evidence have an ISO
    form. *)
Record identified (a : HtfStructureAnalysis.t) : Prop := {
  id_zones : NoDup (SupportZone.zone_id <$> HtfStructureAnalysis.zones a);
  id_events : NoDup (StructureEvent.event_id <$> HtfStructureAnalysis.events a);
  id_times : Forall (fun z => Forall representable (SupportZone.evidence_open_times z)) (HtfStructureAnalysis.zones a) }.

(** The tables after the writes of [persist_payload]. *)
Definition structure_written (s : Session) (batch : Batch.t) (a : HtfStructureAnalysis.t) : res Session :=
  '(candles, _) ← upsert_batch (ohlcv_candles s) batch;
  '((zones, events), _) ← upsert_analysis (support_zones s, structure_events s) a;
  mret (MkSession candles zones events (reclaim_attempts s)).

(** *** The tables *)

(** What the tables say once the analysis is written. *)
Record holds (s : Session) (batch : Batch.t) (a : HtfStructureAnalysis.t) : Prop := {
  ho_candles : exists cs, list_recent (ohlcv_candles s) (Batch.source batch) (Batch.symbol batch) CandleInterval.H4 500 = Ok cs /\
    Forall2 (≡) cs (Batch.candles batch);
  ho_zones : forall z, z ∈ HtfStructureAnalysis.zones a ->
    exists r, lookup_row (support_zones s) (SupportZone.zone_id z) = Some r /\ r ≡ _zone_record z;
  ho_events : forall e, e ∈ HtfStructureAnalysis.events a ->
    exists r, lookup_row (structure_events s) (StructureEvent.event_id e) = Some r /\ r ≡ _event_record e;
  ho_breaks : forall k r, lookup_row (structure_events s) k = Some r -> confirmed_h4_break batch r = true ->
    exists e, e ∈ HtfStructureAnalysis.events a /\ is_confirmed_break e = true /\
      k = StructureEvent.event_id e /\ r ≡ _event_record e }.

(** The columns that pick a row of an event. *)
Lemma event_row_picks (r : StructureEventRecord.t) e : r ≡ _event_record e ->
  StructureEventRecord.zone_id r = StructureEvent.zone_id e /\
  StructureEventRecord.state r = StructureEventState.value (StructureEvent.state e) /\
  event_order (StructureEvent.event_id e, r) = event_order (event_row e) /\
  forall m15, confirmed_h4_break m15 r = confirmed_h4_break m15 (_event_record e).
Proof.
  intros [Hid Hr]. unfold _event_values, _event_record in Hr.
  cbn [StructureEventRecord.event_id StructureEventRecord.zone_id StructureEventRecord.source StructureEventRecord.symbol
    StructureEventRecord.interval StructureEventRecord.state StructureEventRecord.observed_at
    StructureEventRecord.candle_open_time StructureEventRecord.close_price StructureEventRecord.zone_low
    StructureEventRecord.zone_high StructureEventRecord.distance_bps StructureEventRecord.body_fraction
    StructureEventRecord.volume_ratio StructureEventRecord.invalidates_event_id StructureEventRecord.reasons
    _event_record] in *. column_equivs Hr.
  split; [done|]. split; [done|]. split.
  - unfold event_order, event_row, _event_record. cbn [fst snd StructureEventRecord.observed_at StructureEventRecord.event_id].
    by f_equal.
  - intros m15. unfold confirmed_h4_break, event_of_series. cbn [_event_record StructureEventRecord.source
      StructureEventRecord.symbol StructureEventRecord.interval StructureEventRecord.state].
    repeat match goal with E : ?f r = _ |- _ => rewrite E; clear E end. done.
Qed.

Lemma structure_written_holds s batch a :
  batch_wf batch -> Forall candle_wf (Batch.candles batch) -> Batch.interval batch = CandleInterval.H4 ->
  (length (Batch.candles batch) <= 500)%nat -> identified a -> unseen s batch a -> rows_kept batch a ->
  exists s', structure_written s batch a = Ok s' /\ holds s' batch a /\ reclaim_attempts s' = reclaim_attempts s.
Proof.
  intros Hb Hwf Hi Hlen [Hdz Hde _] [Hk Hc Hz He Hbr] [Kc Kz Ke]. rewrite Forall_forall in Kz. rewrite Forall_forall in Ke.
  destruct (upsert_batch_ok keys_kept _ _ Hb Kc Hk) as (ct & cres & Hu & _ & _ & _ & Hout & Hin & _).
  assert ((zone_row <$> HtfStructureAnalysis.zones a).*1 = SupportZone.zone_id <$> HtfStructureAnalysis.zones a) as Ez
    by (by rewrite <- list_fmap_compose).
  assert ((event_row <$> HtfStructureAnalysis.events a).*1 = StructureEvent.event_id <$> HtfStructureAnalysis.events a)
    as Ee by (by rewrite <- list_fmap_compose).
  destruct (upsert_rows_fresh _zone_values equal_columns set_zone (support_zones s) no_upserts
    (zone_row <$> HtfStructureAnalysis.zones a)) as (zt & Huz & Hzin & _); [by rewrite Ez| |].
  { rewrite Ez. intros k Hin'. apply list_elem_of_fmap in Hin' as (z & -> & Hz'). by apply Hz. }
  destruct (upsert_rows_fresh _event_values equal_columns set_event (structure_events s) no_upserts
    (event_row <$> HtfStructureAnalysis.events a)) as (et & Hue & Hein & Heout); [by rewrite Ee| |].
  { rewrite Ee. intros k Hin'. apply list_elem_of_fmap in Hin' as (e & -> & He'). by apply He. }
  assert (forall e, e ∈ HtfStructureAnalysis.events a ->
    exists r, lookup_row et (StructureEvent.event_id e) = Some r /\ r ≡ _event_record e) as Hev.
  { intros e He'. eexists. rewrite (Hein (StructureEvent.event_id e) (_event_record e)); [split; [done|by apply Ke]|].
    apply list_elem_of_fmap. by exists e. }
  exists (MkSession ct zt et (reclaim_attempts s)). unfold structure_written, upsert_analysis, upsert_zones, upsert_events.
  rewrite Hu. bind_ok. cbn [fst snd]. rewrite Huz. bind_ok. rewrite Hue. bind_ok. split; [done|]. split; [|done].
  constructor; cbn [ohlcv_candles support_zones structure_events]; [| |exact Hev|].
  - rewrite <- Hi. destruct (list_recent_batch ct batch 500 Hb Hwf Hin) as (cs & Hcs & Heq); [|lia|].
    { intros k r Hkr Hs. destruct (decide (k ∈ (candle_row <$> Batch.candles batch).*1)) as [|Hn]; [done|].
      rewrite (Hout k Hn) in Hkr. rewrite (Hc k r Hkr) in Hs. done. }
    exists cs. split; [done|]. replace (length (Batch.candles batch) - Z.to_nat 500)%nat with 0%nat in Heq by lia. done.
  - intros z Hz'. eexists. rewrite (Hzin (SupportZone.zone_id z) (_zone_record z)); [split; [done|by apply Kz]|].
    apply list_elem_of_fmap. by exists z.
  - intros k r Hkr Hcb. destruct (decide (k ∈ StructureEvent.event_id <$> HtfStructureAnalysis.events a)) as [Hin'|Hn].
    + apply list_elem_of_fmap in Hin' as (e & -> & He'). destruct (Hev e He') as (r' & Hr' & Er).
      assert (r' = r) as -> by congruence. exists e. split; [done|]. split; [|done].
      destruct (event_row_picks r e Er) as (_ & Est & _). unfold confirmed_h4_break in Hcb.
      apply andb_true_iff in Hcb as [_ Hst]. apply bool_decide_eq_true in Hst. rewrite Est in Hst.
      unfold is_confirmed_break. apply bool_decide_eq_true. by destruct (StructureEvent.state e).
    + rewrite <- Ee in Hn. rewrite (Heout k Hn) in Hkr. by rewrite (Hbr k r Hkr) in Hcb.
Qed.

(** *** Reading them *)

(** The order of the query is the order of [max]. *)
Lemma event_order_key x y :
  py_cmp (event_order (event_row x)) (event_order (event_row y)) = py_cmp (event_key x) (event_key y).
Proof. done. Qed.

Lemma confirmed_break_row batch m15 e :
  Batch.interval batch = CandleInterval.H4 -> Batch.source m15 = Batch.source batch ->
  Batch.symbol m15 = Batch.symbol batch ->
  StructureEvent.source e = Batch.source batch -> StructureEvent.symbol e = Batch.symbol batch ->
  StructureEvent.interval e = Batch.interval batch -> is_confirmed_break e = true ->
  confirmed_h4_break m15 (_event_record e) = true.
Proof.
  intros Hi Hs Hy E1 E2 E3 Hst. unfold is_confirmed_break in Hst. apply bool_decide_eq_true in Hst.
  unfold confirmed_h4_break, event_of_series, _event_record. simpl.
  by rewrite Hs, Hy, E1, E2, E3, Hi, Hst, !bool_decide_eq_true_2.
Qed.

(** The latest break of the tables is the one the derivation picks. *)
Lemma latest_break_is s batch m15 a e first rest :
  holds s batch a -> identified a -> Batch.source m15 = Batch.source batch -> Batch.symbol m15 = Batch.symbol batch ->
  List.filter is_confirmed_break (HtfStructureAnalysis.events a) = first :: rest ->
  e = py_max_by event_key first rest -> e ∈ HtfStructureAnalysis.events a ->
  confirmed_h4_break m15 (_event_record e) = true ->
  exists r, latest_break s m15 = Some (StructureEvent.event_id e, r) /\ r ≡ _event_record e.
Proof.
  intros [_ _ He Hbr] [_ Hnd _] Hs Hy Hf Hm Hin Hc. destruct (He e Hin) as (re & Hre & Ere).
  destruct (event_row_picks re e Ere) as (_ & _ & Ho & Hcb). exists re. split; [|done].
  apply (first_of_query_is event_order (confirmed_h4_break m15)); [done|by rewrite Hcb|].
  intros k r Hk Hr. destruct (Hbr k r Hk) as (e' & He' & Hb & -> & Er).
  { unfold confirmed_h4_break in *. by rewrite <- Hs, <- Hy. }
  destruct (event_row_picks r e' Er) as (_ & _ & Ho' & _). rewrite Ho, Ho'.
  destruct (decide (e' = e)) as [->|Hne]; [left; congruence|right].
  assert (e' ∈ first :: rest) as Hx.
  { rewrite <- Hf. apply list_elem_of_In, filter_In. split; [by apply list_elem_of_In|done]. }
  pose proof (py_max_by_ge event_key first rest e' Hx) as Hle. rewrite <- Hm in Hle. unfold key_le in Hle.
  change (py_lt (event_order (event_row e')) (event_order (event_row e)) = true).
  unfold py_lt. rewrite event_order_key. unfold py_le in Hle.
  destruct (py_cmp (event_key e') (event_key e)) eqn:E; [|done..]. exfalso. apply Hne.
  unfold event_key, py_cmp, py_ord_prod in E. cbn [fst snd] in E.
  destruct (py_cmp (StructureEvent.observed_at e') _); try done. apply str_cmp_Eq in E.
  apply list_elem_of_lookup in Hin as [i Hi]. apply list_elem_of_lookup in He' as [j Hj].
  assert (j = i) as ->.
  { eapply (NoDup_lookup _ j i (StructureEvent.event_id e) Hnd); rewrite list_lookup_fmap; [by rewrite Hj, <- E|by rewrite Hi]. }
  congruence.
Qed.

(** The candle that opens at an instant, among candles equal to the batch's. *)
Lemma next_candle cs l c t msg :
  Forall2 (≡) cs l -> StronglySorted opens_before l -> c ∈ l -> utc t = utc (open_time c) ->
  exists c', next_or_raise (fun c => aware_eqb (open_time c) t) cs msg = Ok c' /\ c' ≡ c.
Proof.
  intros Heq Hss Hc Ht. unfold next_or_raise.
  assert (forall x y : OhlcvCandle, x ≡ y -> utc (open_time x) = utc (open_time y)) as Hopen.
  { intros x y [_ Hk _ _ _]. by injection Hk. }
  destruct (first_where _ cs) as [c'|] eqn:Ef.
  - exists c'. split; [done|]. apply first_where_Some in Ef as [Hin Ho%aware_eqb_utc].
    apply list_elem_of_lookup in Hin as [i Hi]. destruct (Forall2_lookup_l _ _ _ _ _ Heq Hi) as (c0 & Hc0 & He0).
    assert (c0 = c) as <-; [|done]. eapply opens_unique; [exact Hss|by eapply list_elem_of_lookup_2|done|].
    rewrite <- (Hopen _ _ He0). congruence.
  - exfalso. apply first_where_None in Ef. apply list_elem_of_lookup in Hc as [i Hi].
    destruct (Forall2_lookup_r _ _ _ _ _ Heq Hi) as (c' & Hc' & He'). rewrite Forall_forall in Ef.
    specialize (Ef c' (list_elem_of_lookup_2 _ _ _ Hc')). cbn beta in Ef.
    by rewrite (proj2 (aware_eqb_utc _ _)) in Ef by (rewrite (Hopen _ _ He'); congruence).
Qed.

Lemma analysis_event_wf batch srules erules a e :
  analyze_higher_timeframe batch (Some srules) (Some erules) = Ok a -> e ∈ HtfStructureAnalysis.events a ->
  event_wf e /\ event_clean e.
Proof.
  intros Ha He. destruct (analysis_event_origin _ _ _ _ _ Ha He) as (z & c & inv & _ & Hz & _ & Hat).
  destruct Hat as (Hwf & _ & _ & _ & _ & Hzid & Hid & _). split; [done|]. unfold event_clean.
  rewrite Hid, Hzid. split; [|apply str_strip_idemp]. unfold _event_id. by apply hash_id_strip.
Qed.

Lemma analysis_zone_wf batch srules erules a z :
  analyze_higher_timeframe batch (Some srules) (Some erules) = Ok a -> z ∈ HtfStructureAnalysis.zones a -> zone_wf z.
Proof.
  intros (zones & _ & _ & _ & _ & Hd & _ & _ & _ & -> & _)%analyze_Ok Hz. apply derive_zones_wf in Hd.
  rewrite Forall_forall in Hd. by apply Hd.
Qed.

(** The evidence of the break the derivation picked, read from the tables. *)
Lemma break_evidence_is s batch m15 srules erules a z e c r :
  batch_wf batch -> analyze_higher_timeframe batch (Some srules) (Some erules) = Ok a -> holds s batch a ->
  identified a -> Batch.source m15 = Batch.source batch -> Batch.symbol m15 = Batch.symbol batch ->
  z ∈ HtfStructureAnalysis.zones a -> e ∈ HtfStructureAnalysis.events a -> c ∈ Batch.candles batch ->
  StructureEvent.zone_id e = SupportZone.zone_id z -> StructureEvent.candle_open_time e = open_time c ->
  r ≡ _event_record e ->
  exists z' e' c', break_evidence s m15 r = Ok (z', e', c') /\ z' ≡ utc_zone z /\ e' ≡ utc_event e /\ c' ≡ c.
Proof.
  intros Hb Ha [(cs & Hcs & Heq) Hzs _ _] [_ _ Ht] Hs Hy Hz He Hc Hid Hop Er.
  destruct (analysis_event_wf _ _ _ _ _ Ha He) as [Hew Hec]. rewrite Forall_forall in Ht.
  destruct (event_row_picks r e Er) as (Hzid & _). destruct (Hzs z Hz) as (rz & Hrz & Ez).
  destruct (_event_from_equiv r e Hew Hec Er) as (e' & He' & Ee).
  destruct (_zone_from_equiv rz z ltac:(by eapply analysis_zone_wf) (Ht z Hz) Ez) as (z' & Hz' & Ezz).
  unfold break_evidence. rewrite Hzid, Hid, Hrz, He', Hz'. bind_ok. rewrite Hs, Hy, Hcs. bind_ok.
  destruct (next_candle cs (Batch.candles batch) c (StructureEvent.candle_open_time e')
    "confirmed 4H break is missing its persisted candle" Heq (bwf_sorted _ Hb) Hc) as (c' & -> & Hcc).
  { destruct Ee as [-> _]. simpl. by rewrite Hop. }
  bind_ok. by exists z', e', c'.
Qed.

Lemma latest_break_absent s batch m15 a :
  holds s batch a -> Batch.source m15 = Batch.source batch -> Batch.symbol m15 = Batch.symbol batch ->
  List.filter is_confirmed_break (HtfStructureAnalysis.events a) = [] -> latest_break s m15 = None.
Proof.
  intros [_ _ _ Hbr] Hs Hy Hf. apply latest_break_None. intros k r Hk.
  destruct (confirmed_h4_break m15 r) eqn:E; [|done]. exfalso.
  destruct (Hbr k r Hk) as (e & He & Hc & _); [unfold confirmed_h4_break in *; by rewrite <- Hs, <- Hy|].
  assert (e ∈ List.filter is_confirmed_break (HtfStructureAnalysis.events a)) as Hin
    by (apply list_elem_of_In, filter_In; split; [by apply list_elem_of_In|done]).
  rewrite Hf in Hin. by apply elem_of_nil in Hin.
Qed.

(** The confirmation resumes the structure analysis. *)
Lemma resumes_structure s batch m15 srules erules a :
  batch_wf batch -> Forall candle_wf (Batch.candles batch) -> Batch.interval batch = CandleInterval.H4 ->
  (length (Batch.candles batch) <= 500)%nat ->
  analyze_higher_timeframe batch (Some srules) (Some erules) = Ok a -> identified a -> unseen s batch a ->
  rows_kept batch a -> Batch.interval m15 = CandleInterval.M15 -> Batch.source m15 = Batch.source batch ->
  Batch.symbol m15 = Batch.symbol batch ->
  exists s', structure_written s batch a = Ok s' /\ reclaim_attempts s' = reclaim_attempts s /\
    match List.filter is_confirmed_break (HtfStructureAnalysis.events a) with
    | [] =>
        derive_reclaim_from_structure batch a = Ok None /\ persist_reclaim_from_confirmation s' m15 = Ok (s', None)
    | _ :: _ =>
        exists z e c z' e' c',
          derive_reclaim_from_structure batch a =
            Some <$> analyze_reclaim_attempt z e c (Batch.candles batch) None /\
          z' ≡ utc_zone z /\ e' ≡ utc_event e /\ c' ≡ c /\
          persist_reclaim_from_confirmation s' m15 =
            (attempt ← analyze_reclaim_attempt z' e' c' (Batch.candles m15) None;
             store_attempt s' attempt)
    end.
Proof.
  intros Hb Hwf Hi Hlen Ha Hid Hun Hkept Hm Hs Hy.
  destruct (structure_written_holds s batch a Hb Hwf Hi Hlen Hid Hun Hkept)
    as (s' & Hw & Hho & Hat).
  exists s'. split; [done|]. split; [done|]. pose proof (derive_picks _ _ _ _ Hb Ha Hi) as Hd.
  unfold persist_reclaim_from_confirmation. rewrite bool_decide_true by done. cbn [negb].
  destruct (List.filter is_confirmed_break (HtfStructureAnalysis.events a)) as [|first rest] eqn:Ef.
  { by rewrite (latest_break_absent s' batch m15 a Hho Hs Hy Ef). }
  cbv zeta in Hd. destruct Hd as (z & c & Hd & _ & Hz & He & Hst & Hc & Hzid & _ & Hop).
  set (e := py_max_by event_key first rest) in *.
  destruct (analysis_matches _ _ _ _ Hb Ha) as (_ & _ & _ & _ & Me). rewrite Forall_forall in Me.
  destruct (Me e He) as (E1 & E2 & E3).
  assert (confirmed_h4_break m15 (_event_record e) = true) as Hrow by (by eapply confirmed_break_row).
  destruct (latest_break_is s' batch m15 a e first rest Hho Hid Hs Hy Ef eq_refl He Hrow) as (r & -> & Er).
  destruct (break_evidence_is s' batch m15 srules erules a z e c r Hb Ha Hho Hid Hs Hy Hz He Hc Hzid Hop Er)
    as (z' & e' & c' & -> & Ez & Ee & Ec).
  exists z, e, c, z', e', c'. bind_ok. by split_and!.
Qed.
End confirmation.

(** ** Deciding the hypotheses *)

(** A decidable condition for [identified]. *)
Definition identifiedb (a : HtfStructureAnalysis.t) : bool :=
  bool_decide (NoDup (SupportZone.zone_id <$> HtfStructureAnalysis.zones a)) &&
  bool_decide (NoDup (StructureEvent.event_id <$> HtfStructureAnalysis.events a)) &&
  forallb (fun z => forallb (fun t => (off t =? 0) && (0 <=? utc t) && (utc t <? us_per_second * 86400 * 20000))
    (SupportZone.evidence_open_times z)) (HtfStructureAnalysis.zones a).

Lemma identifiedb_sound a : identifiedb a = true -> identified a.
Proof.
  unfold identifiedb. intros [[Hz%bool_decide_eq_true He%bool_decide_eq_true]%andb_true_iff Ht]%andb_true_iff.
  constructor; [done..|]. apply Forall_forall. intros z Hin. rewrite forallb_forall in Ht.
  specialize (Ht z (proj1 (list_elem_of_In _ _) Hin)). rewrite forallb_forall in Ht.
  apply Forall_forall. intros t Hin'. specialize (Ht t (proj1 (list_elem_of_In _ _) Hin')). guards.
  apply representable_utc; [done|]. unfold us_per_second in *. lia.
Qed.
