(* ===== verification/Orchestration.v ===== *)
(** * Concurrent runs: the tasks of [RuntimeOrchestrator]

    [run_due] claims the due jobs and gathers one task for each; the tasks of all calls
    run on one event loop.  A task gives way where it awaits: before its first step, at
    the load, and at the store.  Between two awaits its code runs at once, so an
    execution is a sequence of [action]s: a call of [run_due], the next step of a task,
    or the cancellation of a task.  The lock is held only over code that awaits nothing,
    so it is always free when it is asked for and taking it is no step of its own.

    A cancellation is thrown at the await, passes the two [except] clauses (it is no
    [Exception]) and runs the [finally] clause.  A task that is cancelled before its
    first step runs nothing, not even the [finally] clause ([PLost]).

    [envs i] is the world of the [i]-th task: its readings of the clock, what its load
    gives and what the store answers.  Everything is proved for all worlds, so the values
    may depend on the order of the steps in any way. *)

From stdpp Require Import list strings gmap relations.
From S2P Require Import Prelude PyList PyStr PyTime PyFloat PyValue Adapters Runtime.
Import ScheduledSourceJob (schedule).
Open Scope Z_scope.

(** ** Tasks *)

Inductive Phase : Type :=
| PStart
| PLoad (started_at : aware)
| PPersist (started_at : aware) (payload : AdapterPayload.t) (outcome : WorkerRunOutcome.t)
| PFailure (reading : nat) (outcome : WorkerRunOutcome.t)
| PDone (result : res WorkerRunOutcome.t)
| PCancelled
| PLost.

Record Task : Type := MkTask { job : ScheduledSourceJob.t; scheduled_now : aware; phase : Phase }.

Definition active (t : Task) : bool :=
  match phase t with PDone _ | PCancelled | PLost => false | _ => true end.

(** The job's name is in flight on behalf of the task. *)
Definition holds (t : Task) : bool := active t || match phase t with PLost => true | _ => false end.

Section steps.
Context (env : Env) (job : ScheduledSourceJob.t).

(** An [except] clause, up to the await of [persist_failure]. *)
Definition failure_outcome (n : nat) (started_at : aware) (error : exn) : res WorkerRunOutcome.t :=
  let finished_at := _safe_clock_not_before env n started_at in
  if decide (exn_type error = "TimeoutError") then
    WorkerRunOutcome.new (ScheduledSourceJob.name job) (ScheduledSourceJob.kind job)
      WorkerRunStatus.TIMED_OUT started_at finished_at (Some AdapterState.DOWN) "source load timed out"
  else
    WorkerRunOutcome.new (ScheduledSourceJob.name job) (ScheduledSourceJob.kind job)
      WorkerRunStatus.FAILED started_at finished_at (Some AdapterState.DOWN) (_error_message error).

Definition to_failure (n : nat) (started_at : aware) (error : exn) : Phase :=
  match failure_outcome n started_at error with
  | Ok outcome => PFailure (S n) outcome
  | Err e => PDone (Err e)
  end.

(** To the await of the load. *)
Definition start (scheduled_now : aware) : Phase :=
  match _clock_not_before env 0 scheduled_now with
  | Ok started_at => PLoad started_at
  | Err error => to_failure 1 scheduled_now error
  end.

(** From the load to the await of [persist_payload]. *)
Definition loaded_outcome (started_at : aware) : res (AdapterPayload.t * WorkerRunOutcome.t) :=
  payload ← load env;
  _validate_payload job payload ;;
  let finished_at := _safe_clock_not_before env 1 started_at in
  let health := AdapterPayload.health payload in
  outcome ← WorkerRunOutcome.new (ScheduledSourceJob.name job) (ScheduledSourceJob.kind job)
              (_status_for_payload payload) started_at finished_at
              (Some (AdapterHealth.state health)) (AdapterHealth.message health);
  mret (payload, outcome).

Definition loaded (started_at : aware) : Phase :=
  match loaded_outcome started_at with
  | Ok (payload, outcome) => PPersist started_at payload outcome
  | Err error => to_failure (readings_before_failure env job) started_at error
  end.

Definition persisted (started_at : aware) (payload : AdapterPayload.t) (outcome : WorkerRunOutcome.t) : Phase :=
  match _persist_payload env job 2 payload outcome with
  | Ok outcome => PDone (Ok outcome)
  | Err error => to_failure (readings_before_failure env job) started_at error
  end.

(** The step of a task that is not over. *)
Definition next_phase (scheduled_now : aware) (p : Phase) : option Phase :=
  match p with
  | PStart => Some (start scheduled_now)
  | PLoad started_at => Some (loaded started_at)
  | PPersist started_at payload outcome => Some (persisted started_at payload outcome)
  | PFailure n outcome => Some (PDone (_persist_failure env job n outcome))
  | PDone _ | PCancelled | PLost => None
  end.
End steps.

(** ** The event loop *)

Record Config : Type := MkConfig { orch : RuntimeOrchestrator; tasks : list Task }.

Definition initial (o : RuntimeOrchestrator) : Config := MkConfig o [].

Inductive action : Type := RunDue (now : datetime) | Resume (i : nat) | Cancel (i : nat).

Definition new_tasks (now : aware) (due : list ScheduledSourceJob.t) : list Task :=
  (fun j => MkTask j now PStart) <$> due.

(** The [finally] clause runs when a task that has begun is over. *)
Definition end_task (o : RuntimeOrchestrator) (t : Task) : RuntimeOrchestrator :=
  if holds t then o else discard_in_flight o (ScheduledSourceJob.name (job t)).

Definition set_task (c : Config) (i : nat) (t : Task) : Config :=
  MkConfig (end_task (orch c) t) (<[i := t]> (tasks c)).

(** A call of [run_due]: what its claim does, and the tasks it starts. *)
Definition call_run_due (now : datetime) (c : Config) : Config * res (list ScheduledSourceJob.t) :=
  match require_aware now "now must be timezone-aware" with
  | Err e => (c, Err e)
  | Ok t =>
      match claim_due now (orch c) with
      | (o, Err e) => (MkConfig o (tasks c), Err e)
      | (o, Ok due) => (MkConfig o (tasks c ++ new_tasks t due), Ok due)
      end
  end.

Section execution.
Context (envs : nat -> Env).

Definition exec (a : action) (c : Config) : option Config :=
  match a with
  | RunDue now => Some (fst (call_run_due now c))
  | Resume i =>
      t ← tasks c !! i;
      p ← next_phase (envs i) (job t) (scheduled_now t) (phase t);
      mret (set_task c i (MkTask (job t) (scheduled_now t) p))
  | Cancel i =>
      t ← tasks c !! i;
      match phase t with
      | PStart => Some (set_task c i (MkTask (job t) (scheduled_now t) PLost))
      | _ => if active t then Some (set_task c i (MkTask (job t) (scheduled_now t) PCancelled)) else None
      end
  end.

Fixpoint execs (acts : list action) (c : Config) : option Config :=
  match acts with [] => Some c | a :: acts' => c ← exec a c; execs acts' c end.
End execution.

Definition task_outcome (t : Task) : option WorkerRunOutcome.t :=
  match phase t with PDone (Ok o) => Some o | _ => None end.

(** What [gather] returns for the [n] tasks from [first] on: their outcomes in order, once
    all have one. *)
Definition gathered (first n : nat) (c : Config) : option (list WorkerRunOutcome.t) :=
  mapM task_outcome (take n (drop first (tasks c))).

(** ** Facts: a task by itself *)

Definition named_job (job : ScheduledSourceJob.t) : Prop := str_empty (str_strip (ScheduledSourceJob.name job)) = false.

(** What a phase says of the run: the phases are the points where [_run_job] awaits. *)
Definition phase_ok (env : Env) (job : ScheduledSourceJob.t) (now : aware) (p : Phase) : Prop :=
  match p with
  | PStart | PCancelled | PLost => True
  | PLoad s =>
      _run_job env job now =
      match load_and_persist env job s with
      | Ok outcome => Ok outcome
      | Err error => handle_failure env job (readings_before_failure env job) s error
      end
  | PPersist s payload o =>
      _run_job env job now =
      match _persist_payload env job 2 payload o with
      | Ok outcome => Ok outcome
      | Err error => handle_failure env job (readings_before_failure env job) s error
      end
  | PFailure n o => _run_job env job now = _persist_failure env job n o
  | PDone r => _run_job env job now = r
  end.

Section task_facts.
Context (env : Env) (job : ScheduledSourceJob.t) (now : aware).

Lemma handle_failure_outcome n s e :
  handle_failure env job n s e = (o ← failure_outcome env job n s e; _persist_failure env job (S n) o).
Proof. reflexivity. Qed.

Lemma to_failure_ok n s e :
  _run_job env job now = handle_failure env job n s e -> phase_ok env job now (to_failure env job n s e).
Proof.
  rewrite handle_failure_outcome. unfold to_failure. by destruct (failure_outcome env job n s e).
Qed.

Lemma load_and_persist_split s :
  load_and_persist env job s =
  ('(payload, o) ← loaded_outcome env job s; _persist_payload env job 2 payload o).
Proof.
  unfold load_and_persist, loaded_outcome. destruct (load env) as [payload|e]; [|done]. bind_ok.
  destruct (_validate_payload job payload) as [[]|e]; [|done]. bind_ok. cbv zeta.
  by destruct (WorkerRunOutcome.new _ _ _ _ _ _ _).
Qed.

Lemma next_phase_ok p p' :
  phase_ok env job now p -> next_phase env job now p = Some p' -> phase_ok env job now p'.
Proof.
  intros Hp Hn. destruct p as [|s|s payload o|n o|r| |]; simpl in Hn; try done; injection Hn as <-; simpl in Hp.
  - unfold start. destruct (_clock_not_before env 0 now) as [s|e] eqn:E.
    + simpl. unfold _run_job. by rewrite E.
    + apply to_failure_ok. unfold _run_job. by rewrite E.
  - unfold loaded. rewrite load_and_persist_split in Hp. destruct (loaded_outcome env job s) as [[payload o]|e]; [done|].
    by apply to_failure_ok.
  - unfold persisted. destruct (_persist_payload env job 2 payload o) as [o'|e]; [done|]. by apply to_failure_ok.
  - done.
Qed.
End task_facts.

(** The steps a task can still make. *)
Definition steps_left (p : Phase) : nat :=
  match p with PStart => 4 | PLoad _ => 3 | PPersist _ _ _ => 2 | PFailure _ _ => 1 | PDone _ | PCancelled | PLost => 0 end.

Lemma to_failure_left env job n s e : (steps_left (to_failure env job n s e) <= 1)%nat.
Proof. unfold to_failure. destruct (failure_outcome _ _ _ _ _); simpl; lia. Qed.

Lemma next_phase_left env job now p p' :
  next_phase env job now p = Some p' -> (steps_left p' < steps_left p)%nat.
Proof.
  destruct p as [|s|s payload o|n o|r| |]; simpl; try done; intros [= <-].
  - unfold start. destruct (_clock_not_before env 0 now); [simpl; lia|]. eapply Nat.le_lt_trans; [apply to_failure_left|lia].
  - unfold loaded. destruct (loaded_outcome env job s) as [[??]|e]; [simpl; lia|].
    eapply Nat.le_lt_trans; [apply to_failure_left|lia].
  - unfold persisted. destruct (_persist_payload env job 2 payload o); [simpl; lia|].
    eapply Nat.le_lt_trans; [apply to_failure_left|lia].
  - simpl. lia.
Qed.

Lemma next_phase_active env job now p : (0 < steps_left p)%nat <-> is_Some (next_phase env job now p).
Proof. destruct p; simpl; split; (intros [? ?]; discriminate) || (by intros; eexists) || lia || (intros; exfalso; lia). Qed.

Lemma active_left t : active t = true <-> (0 < steps_left (phase t))%nat.
Proof. unfold active. destruct (phase t); simpl; split; done || lia. Qed.

Lemma next_phase_not_lost env job now p p' :
  next_phase env job now p = Some p' -> p' <> PLost /\ p' <> PCancelled /\ p' <> PStart.
Proof.
  assert (forall n s e, to_failure env job n s e <> PLost /\ to_failure env job n s e <> PCancelled /\
                        to_failure env job n s e <> PStart) as Hf.
  { intros n s e. unfold to_failure. by destruct (failure_outcome _ _ _ _ _). }
  destruct p as [|s|s payload o|n o|r| |]; simpl; try done; intros [= <-].
  - unfold start. destruct (_clock_not_before env 0 now); [done|apply Hf].
  - unfold loaded. destruct (loaded_outcome env job s) as [[??]|e]; [done|apply Hf].
  - unfold persisted. destruct (_persist_payload env job 2 payload o); [done|apply Hf].
  - done.
Qed.

(** ** The invariant *)

Section invariant.
Context (envs : nat -> Env).

(** The names in flight are those of the tasks that hold them, each held once. *)
Record sound (c : Config) : Prop := {
  sd_orch : orchestrator_ok (orch c);
  sd_jobs : forall i t, tasks c !! i = Some t -> job t ∈ _jobs (orch c);
  sd_flight : forall name, name ∈ _in_flight (orch c) <->
    exists i t, tasks c !! i = Some t /\ holds t = true /\ ScheduledSourceJob.name (job t) = name;
  sd_distinct : forall i j t u, tasks c !! i = Some t -> tasks c !! j = Some u -> holds t = true -> holds u = true ->
    ScheduledSourceJob.name (job t) = ScheduledSourceJob.name (job u) -> i = j;
  sd_phases : forall i t, tasks c !! i = Some t -> phase_ok (envs i) (job t) (scheduled_now t) (phase t) }.

Lemma initial_sound o : orchestrator_ok o -> _in_flight o = ∅ -> sound (initial o).
Proof.
  intros Ho Hf. constructor; simpl; try done. intros name. rewrite Hf. split; [set_solver|]. by intros (i & t & Hi & _).
Qed.

Lemma set_task_sound c i t p :
  sound c -> tasks c !! i = Some t -> holds t = true -> phase_ok (envs i) (job t) (scheduled_now t) p ->
  sound (set_task c i (MkTask (job t) (scheduled_now t) p)).
Proof.
  intros [Ho Hj Hf Hd Hp] Hi Ht Hph. set (t' := MkTask (job t) (scheduled_now t) p).
  assert (orchestrator_ok (end_task (orch c) t') /\ _jobs (end_task (orch c) t') = _jobs (orch c)) as [Ho' Hj'].
  { unfold end_task. destruct (holds t'); [done|].
    apply (step_ok (orch c) (ERelease (ScheduledSourceJob.name (job t)))); [|done]. constructor. apply Hf. by exists i, t. }
  assert (forall j u, <[i := t']> (tasks c) !! j = Some u -> (j = i /\ u = t') \/ (j <> i /\ tasks c !! j = Some u)) as Hl.
  { intros j u Hu. apply list_lookup_insert_Some in Hu as [(<- & <- & _)|[Hne Hu]]; [by left|right; by split; [apply not_eq_sym|]]. }
  constructor; unfold set_task; cbn [orch tasks].
  - done.
  - intros j u Hu. rewrite Hj'. apply Hl in Hu as [[-> ->]|[_ Hu]]; [by eapply (Hj i t)|by eapply Hj].
  - intros name. unfold end_task. destruct (holds t') eqn:E.
    + rewrite Hf. split; intros (j & u & Hu & Hh & Hn).
      * destruct (decide (j = i)) as [->|Hne].
        -- assert (u = t) as -> by congruence. exists i, t'. split; [|done]. apply list_lookup_insert_eq. by eapply lookup_lt_Some.
        -- exists j, u. by rewrite list_lookup_insert_ne.
      * apply Hl in Hu as [[-> ->]|[_ Hu]]; [by exists i, t|by exists j, u].
    + unfold discard_in_flight. cbn [_in_flight]. rewrite elem_of_difference, elem_of_singleton, Hf. split.
      * intros [(j & u & Hu & Hh & Hn) Hne]. exists j, u. rewrite list_lookup_insert_ne; [done|]. intros ->.
        assert (u = t) as -> by congruence. by rewrite <- Hn in Hne.
      * intros (j & u & Hu & Hh & Hn). apply Hl in Hu as [[-> ->]|[Hne Hu]]; [congruence|]. split; [by exists j, u|].
        intros ->. apply Hne. by apply (Hd j i u t).
  - intros a b u v Hu Hv Hhu Hhv E. apply Hl in Hu, Hv.
    destruct Hu as [[-> ->]|[Ha Hu]], Hv as [[-> ->]|[Hb Hv]]; [done|by apply (Hd i b t v)|by apply (Hd a i u t)|by apply (Hd a b u v)].
  - intros j u Hu. apply Hl in Hu as [[-> ->]|[_ Hu]]; [done|by apply Hp].
Qed.

Lemma new_tasks_lookup c now due i t :
  (tasks c ++ new_tasks now due) !! i = Some t ->
  tasks c !! i = Some t \/
  exists j, due !! (i - length (tasks c))%nat = Some j /\ t = MkTask j now PStart /\ (length (tasks c) <= i)%nat.
Proof.
  intros H. apply lookup_app_Some in H as [H|[Hle H]]; [by left|right].
  apply list_lookup_fmap_Some in H as (j & H & Ht). by exists j.
Qed.

Lemma call_sound c now : sound c -> sound (fst (call_run_due now c)).
Proof.
  intros Hs. destruct Hs as [Ho Hj Hf Hd Hp] eqn:Es. unfold call_run_due. destruct now as [now|now]; cbn [require_aware]; [|done].
  destruct (claim_due_exact (orch c) now Ho) as (o' & -> & [Cj Cn Co Cf] & Ho'). cbn [fst].
  set (due := filter _ _).
  assert (forall j, j ∈ due -> j ∈ _jobs (orch c) /\ job_due (orch c) now j = true) as Hdue.
  { intros j Hin. apply list_elem_of_filter in Hin as [Hdj Hin]. by split. }
  assert (NoDup (ScheduledSourceJob.name <$> due)) as Hnd.
  { eapply sublist_NoDup; [apply (ok_names _ Ho)|]. apply fmap_sublist, sublist_filter. }
  assert (forall j, j ∈ due -> ScheduledSourceJob.name j ∉ _in_flight (orch c)) as Hfree.
  { intros j Hin. apply Hdue in Hin as [_ Hdj]. unfold job_due in Hdj. by guards. }
  constructor; cbn [orch tasks].
  - done.
  - intros i t Ht. rewrite Cj. apply new_tasks_lookup in Ht as [Ht|(j & Hjj & -> & _)]; [by eapply Hj|].
    apply list_elem_of_lookup_2, Hdue in Hjj as [Hjj _]. done.
  - intros name. split.
    + intros Hin. destruct (decide (name ∈ _in_flight (orch c))) as [H|H].
      * apply Hf in H as (i & t & Ht & Hh & Hn). exists i, t. by rewrite lookup_app_l by (by eapply lookup_lt_Some).
      * destruct (decide (name ∈ ScheduledSourceJob.name <$> _jobs (orch c))) as [Hin2|Hne]; [|by apply Co in Hne as [_ Hne]; apply Hne in Hin].
        apply list_elem_of_fmap in Hin2 as (j & -> & Hjj). apply Cf in Hin as [?|Hdj]; [done| |done].
        assert (j ∈ due) as Hjd by (by apply list_elem_of_filter). apply list_elem_of_lookup in Hjd as [i Hi].
        exists (length (tasks c) + i)%nat, (MkTask j now PStart). split; [|done].
        rewrite lookup_app_r by lia. rewrite Nat.add_sub'. unfold new_tasks. by rewrite list_lookup_fmap, Hi.
    + intros (i & t & Ht & Hh & <-). apply new_tasks_lookup in Ht as [Ht|(j & Hjj & -> & _)].
      * pose proof (Hj i t Ht) as Hin. apply Cf; [done|]. left. apply Hf. by exists i, t.
      * apply list_elem_of_lookup_2, Hdue in Hjj as [Hin Hdj]. apply Cf; [done|by right].
  - intros a b t u Ht Hu Hht Hhu E. apply new_tasks_lookup in Ht, Hu.
    destruct Ht as [Ht|(j & Hjj & -> & Ha)], Hu as [Hu|(k & Hk & -> & Hb)]; cbn [job] in E.
    + by apply (Hd a b t u).
    + exfalso. apply list_elem_of_lookup_2, Hfree in Hk. apply Hk, Hf. exists a, t. by rewrite E.
    + exfalso. apply list_elem_of_lookup_2, Hfree in Hjj. apply Hjj, Hf. by exists b, u.
    + assert ((a - length (tasks c))%nat = (b - length (tasks c))%nat); [|lia].
      eapply (NoDup_lookup (ScheduledSourceJob.name <$> due)); [done|..]; rewrite list_lookup_fmap; [by rewrite Hjj|].
      by rewrite Hk; simpl; rewrite E.
  - intros i t Ht. apply new_tasks_lookup in Ht as [Ht|(j & _ & -> & _)]; [by apply Hp|done].
Qed.

Lemma exec_sound a c c' : sound c -> exec envs a c = Some c' -> sound c'.
Proof.
  intros Hs. destruct a as [now|i|i]; simpl.
  - intros [= <-]. by apply call_sound.
  - intros (t & Ht & H)%bind_Some. apply bind_Some in H as (p & Hn & [= <-]).
    apply set_task_sound; [done|done| |].
    + unfold holds. rewrite (proj2 (active_left t)); [done|]. by apply (next_phase_active (envs i) (job t) (scheduled_now t)).
    + eapply next_phase_ok; [|done]. by apply (sd_phases c).
  - intros (t & Ht & H)%bind_Some. unfold active in H.
    destruct (phase t) eqn:E; simplify_eq; (apply set_task_sound; [done|done| |done]); unfold holds, active; by rewrite E.
Qed.

Lemma execs_sound acts c c' : sound c -> execs envs acts c = Some c' -> sound c'.
Proof.
  revert c. induction acts as [|a acts IH]; intros c Hs; simpl; [by intros [= <-]|].
  intros (c1 & H1 & H)%bind_Some. eapply IH; [|done]. by eapply exec_sound.
Qed.
End invariant.

(** ** Claims and releases *)

Section events.
Context (envs : nat -> Env).

(** The events of [Runtime.trace] that an action makes. *)
Definition end_events (t : Task) : list event :=
  if holds t then [] else [ERelease (ScheduledSourceJob.name (job t))].

Definition action_events (a : action) (c : Config) : list event :=
  match a with
  | RunDue (NaiveDT _) => []
  | RunDue (AwareDT now) => match snd (call_run_due (AwareDT now) c) with Ok due => [EClaim now due] | Err _ => [] end
  | Resume i =>
      match tasks c !! i with
      | Some t => match next_phase (envs i) (job t) (scheduled_now t) (phase t) with
                  | Some p => end_events (MkTask (job t) (scheduled_now t) p)
                  | None => []
                  end
      | None => []
      end
  | Cancel i =>
      match tasks c !! i with
      | Some t => match phase t with PStart => [] | _ => end_events (MkTask (job t) (scheduled_now t) PCancelled) end
      | None => []
      end
  end.

Fixpoint events (acts : list action) (c : Config) : list event :=
  match acts with
  | [] => []
  | a :: acts' => action_events a c ++ match exec envs a c with Some c' => events acts' c' | None => [] end
  end.

Lemma end_events_trace c i t t' :
  sound envs c -> tasks c !! i = Some t -> holds t = true -> job t' = job t ->
  trace (orch c) (end_events t') (orch (set_task c i t')).
Proof.
  intros Hs Hi Ht Hj. unfold end_events, set_task, end_task. cbn [orch].
  destruct (holds t'); [constructor|]. econstructor; [|constructor]. constructor.
  apply (sd_flight _ _ Hs). exists i, t. by rewrite Hj.
Qed.

Lemma active_holds t : active t = true -> holds t = true.
Proof. unfold holds. by intros ->. Qed.

Lemma next_phase_holds env t p : next_phase env (job t) (scheduled_now t) (phase t) = Some p -> holds t = true.
Proof. intros H. by apply active_holds, active_left, (next_phase_active env (job t) (scheduled_now t)). Qed.

Lemma exec_trace a c c' :
  sound envs c -> exec envs a c = Some c' -> trace (orch c) (action_events a c) (orch c').
Proof.
  intros Hs. destruct a as [now|i|i]; simpl.
  - intros [= <-]. unfold call_run_due. destruct now as [now|now]; cbn [require_aware]; [|constructor].
    destruct (claim_due_exact (orch c) now (sd_orch _ _ Hs)) as (o' & E & _). rewrite E. cbn [fst snd orch].
    econstructor; [|constructor]. by constructor.
  - intros (t & Ht & H)%bind_Some. apply bind_Some in H as (p & Hn & [= <-]). rewrite Ht, Hn.
    eapply end_events_trace; [done|done|by eapply next_phase_holds|done].
  - intros (t & Ht & H)%bind_Some. rewrite Ht. unfold active in H.
    destruct (phase t) eqn:E; simplify_eq;
      (try (eapply end_events_trace; [done|done|unfold holds, active; by rewrite E|done])); constructor.
Qed.

Lemma execs_trace acts c c' :
  sound envs c -> execs envs acts c = Some c' -> trace (orch c) (events acts c) (orch c').
Proof.
  revert c. induction acts as [|a acts IH]; intros c Hs; simpl; [intros [= <-]; constructor|].
  intros (c1 & H1 & H)%bind_Some. rewrite H1. apply trace_app. exists (orch c1).
  split; [by apply exec_trace|]. apply IH; [by eapply exec_sound|done].
Qed.

(** *** A lost task *)

Lemma exec_keeps_over a c c' i t :
  exec envs a c = Some c' -> tasks c !! i = Some t -> active t = false -> tasks c' !! i = Some t.
Proof.
  intros H Hi Ht. destruct a as [now|j|j]; simpl in H.
  - injection H as <-. unfold call_run_due. destruct (require_aware _ _) as [tm|e]; [|done].
    destruct (claim_due now (orch c)) as [o' [due|e]]; [|done]. cbn [fst tasks].
    by rewrite lookup_app_l by (by eapply lookup_lt_Some).
  - apply bind_Some in H as (u & Hu & H). apply bind_Some in H as (p & Hn & [= <-]). cbn [tasks set_task].
    rewrite list_lookup_insert_ne; [done|]. intros ->. assert (u = t) as -> by congruence.
    assert (active t = true) by (by apply active_left, (next_phase_active (envs i) (job t) (scheduled_now t))). congruence.
  - apply bind_Some in H as (u & Hu & H). destruct (decide (j = i)) as [->|Hne].
    + assert (u = t) as -> by congruence. rewrite Ht in H. unfold active in Ht. by destruct (phase t).
    + by destruct (phase u); simplify_eq; try destruct (active u); simplify_eq; cbn [tasks set_task]; rewrite list_lookup_insert_ne.
Qed.

Lemma execs_keep_over acts c c' i t :
  execs envs acts c = Some c' -> tasks c !! i = Some t -> active t = false -> tasks c' !! i = Some t.
Proof.
  revert c. induction acts as [|a acts IH]; intros c H Hi Ht; simpl in H; [by injection H as <-|].
  apply bind_Some in H as (c1 & H1 & H). apply (IH c1); [done| |done]. by eapply exec_keeps_over.
Qed.
End events.

(** ** Termination of the tasks of a call *)

Section termination.
Context (envs : nat -> Env).

Definition left_at (c : Config) (i : nat) : nat :=
  match tasks c !! i with Some t => steps_left (phase t) | None => 0 end.

(** The steps that are left to the [n] tasks from [first] on. *)
Definition call_left (first n : nat) (c : Config) : nat := sum_list_with (left_at c) (seq first n).

Definition own (first n i : nat) : bool := (first <=? i)%nat && (i <? first + n)%nat.

Definition resumes (first n : nat) (acts : list action) : nat :=
  length (List.filter (fun a => match a with Resume i => own first n i | _ => false end) acts).

Lemma own_seq first n i : own first n i = true <-> i ∈ seq first n.
Proof. unfold own. rewrite andb_true_iff, Nat.leb_le, Nat.ltb_lt, elem_of_seq. done. Qed.

Lemma sum_list_le {A} (f g : A -> nat) l : (forall x, x ∈ l -> f x <= g x)%nat -> (sum_list_with f l <= sum_list_with g l)%nat.
Proof. induction l as [|x l IH]; intros H; simpl; [lia|]. pose proof (H x ltac:(set_solver)). pose proof (IH ltac:(set_solver)). lia. Qed.

Lemma sum_list_lt {A} (f g : A -> nat) l x :
  (forall x, x ∈ l -> f x <= g x)%nat -> x ∈ l -> (f x < g x)%nat -> (sum_list_with f l < sum_list_with g l)%nat.
Proof.
  induction l as [|y l IH]; intros H Hx Hlt; [by apply elem_of_nil in Hx|]. simpl.
  pose proof (H y ltac:(set_solver)). pose proof (sum_list_le f g l ltac:(set_solver)).
  apply elem_of_cons in Hx as [->|Hx]; [lia|]. pose proof (IH ltac:(set_solver) Hx Hlt). lia.
Qed.

(** Only the task of an action moves, and it gets closer to its end. *)
Lemma exec_left a c c' i :
  exec envs a c = Some c' -> (i < length (tasks c))%nat ->
  (left_at c' i <= left_at c i)%nat /\ (a = Resume i -> (left_at c' i < left_at c i)%nat).
Proof.
  intros H Hi. unfold left_at. destruct a as [now|j|j]; simpl in H.
  - injection H as <-. split; [|done]. unfold call_run_due. destruct (require_aware _ _) as [tm|e]; [|done].
    destruct (claim_due now (orch c)) as [o' [due|e]]; [|done]. cbn [fst tasks]. by rewrite lookup_app_l.
  - apply bind_Some in H as (t & Ht & H). apply bind_Some in H as (p & Hn & [= <-]). cbn [set_task tasks].
    apply next_phase_left in Hn. destruct (decide (j = i)) as [->|Hne].
    + rewrite list_lookup_insert_eq by done. rewrite Ht. cbn [phase]. split; [lia|done].
    + rewrite list_lookup_insert_ne by done. split; [done|]. by intros [= ->].
  - apply bind_Some in H as (t & Ht & H). split; [|done].
    assert (exists p, c' = set_task c j (MkTask (job t) (scheduled_now t) p) /\ steps_left p = 0%nat) as (p & -> & Hp)
      by (destruct (phase t); try destruct (active t); simplify_eq; by eexists).
    cbn [set_task tasks]. destruct (decide (j = i)) as [->|Hne].
    + rewrite list_lookup_insert_eq by done. cbn [phase]. lia.
    + by rewrite list_lookup_insert_ne.
Qed.

Lemma exec_length a c c' : exec envs a c = Some c' -> (length (tasks c) <= length (tasks c'))%nat.
Proof.
  intros H. destruct a as [now|j|j]; simpl in H.
  - injection H as <-. unfold call_run_due. destruct (require_aware _ _) as [tm|e]; [|done].
    destruct (claim_due now (orch c)) as [o' [due|e]]; [|done]. cbn [fst tasks]. rewrite length_app. lia.
  - apply bind_Some in H as (t & Ht & H). apply bind_Some in H as (p & Hn & [= <-]). cbn [set_task tasks].
    by rewrite length_insert.
  - apply bind_Some in H as (t & Ht & H).
    destruct (phase t); try destruct (active t); simplify_eq; cbn [set_task tasks]; by rewrite length_insert.
Qed.

Lemma exec_call_left first n a c c' :
  exec envs a c = Some c' -> (first + n <= length (tasks c))%nat ->
  (resumes first n [a] + call_left first n c' <= call_left first n c)%nat.
Proof.
  intros H Hn.
  assert (forall i, i ∈ seq first n -> (left_at c' i <= left_at c i)%nat) as Hle.
  { intros i Hi%elem_of_seq. apply (exec_left _ _ _ i H). lia. }
  unfold resumes. cbn [List.filter]. destruct a as [|i|]; try (by apply sum_list_le).
  destruct (own first n i) eqn:Ha; [|by apply sum_list_le]. simpl. apply own_seq in Ha. apply elem_of_seq in Ha as Hi.
  apply (sum_list_lt _ _ _ i); [done|done|]. apply (exec_left _ _ _ i H); [lia|done].
Qed.

Lemma execs_call_left first n acts c c' :
  execs envs acts c = Some c' -> (first + n <= length (tasks c))%nat ->
  (resumes first n acts + call_left first n c' <= call_left first n c)%nat /\ (first + n <= length (tasks c'))%nat.
Proof.
  revert c. induction acts as [|a acts IH]; intros c H Hn; simpl in H; [injection H as <-; simpl; lia|].
  apply bind_Some in H as (c1 & H1 & H). pose proof (exec_call_left first n a c c1 H1 Hn).
  pose proof (exec_length _ _ _ H1). destruct (IH c1 H ltac:(lia)).
  assert (resumes first n (a :: acts) = resumes first n [a] + resumes first n acts)%nat as ->.
  { unfold resumes. simpl. by destruct (match a with Resume i => own first n i | _ => false end). }
  lia.
Qed.

(** While steps are left, one of the tasks can make one. *)
Lemma call_progress first n c :
  (0 < call_left first n c)%nat -> exists i, own first n i = true /\ is_Some (exec envs (Resume i) c).
Proof.
  unfold call_left. setoid_rewrite own_seq. induction (seq first n) as [|i l IH]; simpl; [lia|].
  intros H. destruct (decide (left_at c i = 0)%nat) as [E|Hne].
  - destruct IH as (j & Hj & Hs); [lia|]. exists j. split; [set_solver|done].
  - exists i. split; [set_solver|]. unfold left_at in Hne. simpl. destruct (tasks c !! i) as [t|]; [|done].
    cbn [mbind option_bind]. destruct (proj1 (next_phase_active (envs i) (job t) (scheduled_now t) (phase t))) as [p Hp]; [lia|].
    rewrite Hp. by eexists.
Qed.

Lemma call_left_0 first n c i : call_left first n c = 0%nat -> own first n i = true -> left_at c i = 0%nat.
Proof.
  unfold call_left. rewrite own_seq. induction (seq first n) as [|j l IH]; simpl; intros H Hi; [by apply elem_of_nil in Hi|].
  apply elem_of_cons in Hi as [->|Hi]; [lia|]. apply IH; [lia|done].
Qed.

(** *** The tasks of one call *)

(** The tasks from [first] on are those of the jobs, and none was cancelled. *)
Definition runs_jobs (first : nat) (now : aware) (due : list ScheduledSourceJob.t) (c : Config) : Prop :=
  forall k j, due !! k = Some j ->
    exists p, tasks c !! (first + k)%nat = Some (MkTask j now p) /\ p <> PCancelled /\ p <> PLost.

Definition cancels_none (first n : nat) (acts : list action) : Prop :=
  Forall (fun a => match a with Cancel i => own first n i = false | _ => True end) acts.

Lemma exec_runs_jobs first now due a c c' :
  exec envs a c = Some c' -> cancels_none first (length due) [a] ->
  runs_jobs first now due c -> runs_jobs first now due c'.
Proof.
  intros H Hc Hr k j Hk. destruct (Hr k j Hk) as (p & Hp & Hnc & Hnl). apply Forall_cons in Hc as [Hc _].
  destruct a as [t|i|i]; simpl in H.
  - injection H as <-. exists p. split; [|done]. unfold call_run_due. destruct (require_aware _ _) as [tm|e]; [|done].
    destruct (claim_due t (orch c)) as [o' [d|e]]; [|done]. cbn [fst tasks]. by rewrite lookup_app_l by (by eapply lookup_lt_Some).
  - apply bind_Some in H as (t & Ht & H). apply bind_Some in H as (p' & Hn & [= <-]). cbn [set_task tasks].
    destruct (decide (i = first + k)%nat) as [->|Hne]; [|exists p; by rewrite list_lookup_insert_ne].
    rewrite list_lookup_insert_eq by (by eapply lookup_lt_Some). assert (t = MkTask j now p) as -> by congruence.
    exists p'. split; [done|]. by apply next_phase_not_lost in Hn as (? & ? & _).
  - apply bind_Some in H as (t & Ht & H).
    assert (i <> first + k)%nat as Hne.
    { intros ->. apply lookup_lt_Some in Hk. unfold own in Hc. apply andb_false_iff in Hc as [?%Nat.leb_gt|?%Nat.ltb_ge]; lia. }
    exists p. destruct (phase t); try destruct (active t); simplify_eq; cbn [set_task tasks]; by rewrite list_lookup_insert_ne.
Qed.

Lemma execs_run_jobs first now due acts c c' :
  execs envs acts c = Some c' -> cancels_none first (length due) acts ->
  runs_jobs first now due c -> runs_jobs first now due c'.
Proof.
  revert c. induction acts as [|a acts IH]; intros c H Hc Hr; simpl in H; [by injection H as <-|].
  apply bind_Some in H as (c1 & H1 & H). apply Forall_cons in Hc as [Ha Hc]. apply (IH c1); [done|done|].
  eapply exec_runs_jobs; [done|by constructor|done].
Qed.

(** What a finished call returns: the outcomes of [_run_job] on its jobs, in order. *)
Definition outcomes_of (first : nat) (now : aware) (due : list ScheduledSourceJob.t) (outs : list WorkerRunOutcome.t) : Prop :=
  length outs = length due /\
  forall k j, due !! k = Some j -> exists o, outs !! k = Some o /\ _run_job (envs (first + k)) j now = Ok o.

Lemma call_finished first now due c :
  sound envs c -> Forall named_job due -> runs_jobs first now due c -> call_left first (length due) c = 0%nat ->
  exists outs, gathered first (length due) c = Some outs /\ outcomes_of first now due outs.
Proof.
  intros Hs Hn Hr H0.
  assert (forall k j, due !! k = Some j -> exists o, tasks c !! (first + k)%nat = Some (MkTask j now (PDone (Ok o))) /\
    _run_job (envs (first + k)) j now = Ok o) as Hdone.
  { intros k j Hk. destruct (Hr k j Hk) as (p & Hp & Hnc & Hnl). apply lookup_lt_Some in Hk as Hlt.
    assert (left_at c (first + k)%nat = 0%nat) as Hz.
    { apply (call_left_0 first (length due)); [done|]. unfold own. apply andb_true_iff. rewrite Nat.leb_le, Nat.ltb_lt. lia. }
    unfold left_at in Hz. rewrite Hp in Hz. cbn [phase] in Hz. pose proof (sd_phases _ _ Hs _ _ Hp) as Hph. simpl in Hph.
    destruct p as [|s|s y o|m o|r| |]; try done. simpl in Hph.
    rewrite Forall_lookup in Hn. specialize (Hn k j Hk). destruct (run_job_Ok (envs (first + k)%nat) j now Hn) as (o & Eo & _).
    exists o. by rewrite Hp, <- Hph, Eo. }
  clear Hr H0. unfold gathered, outcomes_of.
  assert (forall n ds (l : list Task), (forall k j, ds !! k = Some j -> exists o, l !! k = Some (MkTask j now (PDone (Ok o))) /\
      _run_job (envs (n + k)) j now = Ok o) ->
    exists outs, mapM task_outcome (take (length ds) l) = Some outs /\ length outs = length ds /\
      forall k j, ds !! k = Some j -> exists o, outs !! k = Some o /\ _run_job (envs (n + k)) j now = Ok o) as Hall.
  { intros n ds. revert n. induction ds as [|d ds IH]; intros n l Hl; [by exists []|].
    destruct (Hl 0%nat d eq_refl) as (o & Ht & Ho). destruct l as [|t l]; [done|]. injection Ht as ->.
    destruct (IH (S n) l) as (outs & Hm & Hlen & Hk).
    { intros k j Hkj. destruct (Hl (S k) j Hkj) as (o' & H1 & H2). exists o'. by rewrite Nat.add_succ_l, <- Nat.add_succ_r. }
    exists (o :: outs). simpl. rewrite Hm. split; [done|]. split; [simpl; lia|].
    intros [|k] j Hkj; [injection Hkj as <-; by exists o|]. destruct (Hk k j Hkj) as (o' & H1 & H2).
    exists o'. by rewrite Nat.add_succ_r, <- Nat.add_succ_l. }
  apply (Hall first due). intros k j Hk. rewrite lookup_drop. by apply Hdone.
Qed.

(** The call itself: its tasks are new, and have at most four steps each. *)
Lemma call_starts c now c1 due :
  call_run_due (AwareDT now) c = (c1, Ok due) ->
  runs_jobs (length (tasks c)) now due c1 /\ length (tasks c1) = (length (tasks c) + length due)%nat /\
  call_left (length (tasks c)) (length due) c1 = (4 * length due)%nat.
Proof.
  unfold call_run_due. cbn [require_aware]. destruct (claim_due (AwareDT now) (orch c)) as [o' [d|e]]; [|done]. intros [= <- <-].
  cbn [tasks].
  assert (forall k j, d !! k = Some j -> (tasks c ++ new_tasks now d) !! (length (tasks c) + k)%nat = Some (MkTask j now PStart)) as Hk.
  { intros k j Hk. rewrite lookup_app_r by lia. rewrite Nat.add_sub'. unfold new_tasks. by rewrite list_lookup_fmap, Hk. }
  split; [|split].
  - intros k j Hkj. exists PStart. cbn [tasks]. by rewrite (Hk k j Hkj).
  - unfold new_tasks. by rewrite length_app, length_fmap.
  - unfold call_left.
    assert (forall m n, (m + n <= length d)%nat ->
      sum_list_with (left_at (MkConfig o' (tasks c ++ new_tasks now d))) (seq (length (tasks c) + m) n) = (4 * n)%nat) as H.
    { intros m n. revert m. induction n as [|n IH]; intros m Hm; [done|]. cbn [seq sum_list_with].
      destruct (lookup_lt_is_Some_2 d m ltac:(lia)) as [j Hj].
      assert (left_at (MkConfig o' (tasks c ++ new_tasks now d)) (length (tasks c) + m)%nat = 4%nat) as ->
        by (unfold left_at; cbn [tasks]; by rewrite (Hk m j Hj)).
      rewrite <- Nat.add_succ_r, IH by lia. lia. }
    specialize (H 0%nat (length d) ltac:(lia)). by rewrite Nat.add_0_r in H.
Qed.
End termination.

(** ** [run_due] by itself *)

(** A call whose tasks are the only ones: the jobs one after the other. *)
Definition run_due (envs : nat -> Env) (now : datetime) (o : RuntimeOrchestrator) :
    RuntimeOrchestrator * res (list WorkerRunOutcome.t) :=
  match require_aware now "now must be timezone-aware" with
  | Err e => (o, Err e)
  | Ok t =>
      match claim_due now o with
      | (o', Err e) => (o', Err e)
      | (o', Ok due) =>
          (MkOrchestrator (_jobs o') (_next_run_at o') (_in_flight o' ∖ list_to_set (ScheduledSourceJob.name <$> due)),
           mapM id (imap (fun i j => _run_job (envs i) j t) due))
      end
  end.

Definition only_resumes (acts : list action) : Prop :=
  Forall (fun a => match a with Resume _ => True | _ => False end) acts.

Section alone.
Context (envs : nat -> Env).

Lemma resumes_cancel_none first n acts : only_resumes acts -> cancels_none first n acts.
Proof. intros H. eapply Forall_impl; [exact H|]. by intros []. Qed.

(** The tasks of a call can always be brought to their end. *)
Lemma call_can_finish first n c :
  (first + n <= length (tasks c))%nat ->
  exists acts c', only_resumes acts /\ execs envs acts c = Some c' /\ call_left first n c' = 0%nat.
Proof.
  remember (call_left first n c) as k eqn:Ek. revert c Ek.
  induction (lt_wf k) as [k _ IH]. intros c -> Hn.
  destruct (decide (call_left first n c = 0)%nat) as [E|Hne]; [exists [], c; split; [constructor|done]|].
  destruct (call_progress envs first n c ltac:(lia)) as (i & Hi & c1 & H1).
  pose proof (exec_call_left envs first n _ _ _ H1 Hn) as Hlt. unfold resumes in Hlt. simpl in Hlt. rewrite Hi in Hlt. simpl in Hlt.
  pose proof (exec_length envs _ _ _ H1).
  destruct (IH (call_left first n c1) ltac:(lia) c1 eq_refl ltac:(lia)) as (acts & c2 & Hr & H2 & H0).
  exists (Resume i :: acts), c2. split; [by constructor|]. split; [|done]. cbn [execs]. by rewrite H1.
Qed.

(** A step of a task keeps the jobs, the schedule and the number of tasks. *)
Lemma resumes_keep acts c c' :
  only_resumes acts -> execs envs acts c = Some c' ->
  _jobs (orch c') = _jobs (orch c) /\ _next_run_at (orch c') = _next_run_at (orch c) /\ length (tasks c') = length (tasks c).
Proof.
  intros Hr. revert c. induction Hr as [|a acts Ha _ IH]; intros c H; simpl in H; [by injection H as <-|].
  apply bind_Some in H as (c1 & H1 & H). destruct (IH c1 H) as (-> & -> & ->). destruct a as [|i|]; try done. simpl in H1.
  apply bind_Some in H1 as (t & Ht & H1). apply bind_Some in H1 as (p & Hp & [= <-]). unfold set_task, end_task. cbn [orch tasks].
  destruct (holds _); by rewrite length_insert.
Qed.

(** Nothing is in flight when every task is over and none was lost. *)
Lemma none_in_flight c :
  sound envs c -> (forall i t, tasks c !! i = Some t -> holds t = false) -> _in_flight (orch c) = ∅.
Proof.
  intros Hs Ha. apply set_eq. intros name. rewrite (sd_flight _ _ Hs). split; [|set_solver].
  intros (i & t & Hi & Hh & _). by rewrite (Ha i t Hi) in Hh.
Qed.

Lemma orchestrator_eq o o' :
  _jobs o = _jobs o' -> _next_run_at o = _next_run_at o' -> _in_flight o = _in_flight o' -> o = o'.
Proof. destruct o, o'. simpl. congruence. Qed.

Lemma mapM_outcomes first now due outs :
  outcomes_of envs first now due outs -> mapM id (imap (fun i j => _run_job (envs (first + i)%nat) j now) due) = Ok outs.
Proof.
  revert first outs. induction due as [|d due IH]; intros first outs [Hlen Hk]; [by destruct outs|].
  destruct outs as [|o outs]; [done|]. rewrite imap_cons. destruct (Hk 0%nat d eq_refl) as (o' & [= <-] & Ho).
  cbn [mapM]. rewrite Ho. change (id (Ok o)) with (Ok o). rewrite Ok_bind.
  assert (imap ((fun i j => _run_job (envs (first + i)%nat) j now) ∘ S) due = imap (fun i j => _run_job (envs (S first + i)%nat) j now) due) as ->.
  { apply imap_ext. intros i x _. unfold compose. by rewrite Nat.add_succ_r. }
  rewrite (IH (S first) outs); [done|]. split; [simpl in Hlen; lia|]. intros k j Hkj.
  destruct (Hk (S k) j Hkj) as (o' & H1 & H2). exists o'. by rewrite Nat.add_succ_l, <- Nat.add_succ_r.
Qed.
End alone.

(** ** Properties *)

(** C10: every execution of the event loop, with any calls of [run_due], any order of the
    steps of the tasks, any cancellations and any worlds, is a trace of claims and
    releases; a name is in flight exactly while a task holds it, no two tasks hold the
    same name, and a task that ends by itself ends with the result [_run_job] has in its
    world, as if nothing else ran. *)
Theorem executions_refine_trace envs o acts c :
  orchestrator_ok o -> _in_flight o = ∅ -> execs envs acts (initial o) = Some c ->
  trace o (events envs acts (initial o)) (orch c) /\ orchestrator_ok (orch c) /\
  (forall name, name ∈ _in_flight (orch c) <->
     exists i t, tasks c !! i = Some t /\ holds t = true /\ ScheduledSourceJob.name (job t) = name) /\
  (forall i j t u, tasks c !! i = Some t -> tasks c !! j = Some u -> holds t = true -> holds u = true ->
     ScheduledSourceJob.name (job t) = ScheduledSourceJob.name (job u) -> i = j) /\
  (forall i t r, tasks c !! i = Some t -> phase t = PDone r -> _run_job (envs i) (job t) (scheduled_now t) = r).
Proof.
  intros Ho Hf H. pose proof (initial_sound envs o Ho Hf) as Hs. pose proof (execs_sound _ _ _ _ Hs H) as [Ho' Hj Hfl Hd Hp].
  split; [exact (execs_trace envs acts _ _ Hs H)|]. do 3 (split; [done|]).
  intros i t r Hi Hr. specialize (Hp i t Hi). by rewrite Hr in Hp.
Qed.

(** C12: [run_due] terminates.  Whatever runs around it, the tasks it starts make at most
    four steps each; as long as they are not all over one of them can step; and when they
    are, none having been cancelled, [gather] returns the outcomes that [_run_job] has for
    the due jobs, in the order of the jobs. *)
Theorem run_due_terminates envs c now c1 due acts c2 :
  sound envs c -> Forall named_job due -> call_run_due (AwareDT now) c = (c1, Ok due) ->
  execs envs acts c1 = Some c2 ->
  let first := length (tasks c) in
  let n := length due in
  (resumes first n acts + call_left first n c2 <= 4 * n)%nat /\
  ((0 < call_left first n c2)%nat -> exists i, own first n i = true /\ is_Some (exec envs (Resume i) c2)) /\
  (call_left first n c2 = 0%nat -> cancels_none first n acts ->
   exists outs, gathered first n c2 = Some outs /\ outcomes_of envs first now due outs).
Proof.
  intros Hs Hn Hc H first n. destruct (call_starts c now c1 due Hc) as (Hr & Hlen & Hleft).
  assert (sound envs c1) as Hs1. { pose proof (call_sound envs c (AwareDT now) Hs) as Hs1. by rewrite Hc in Hs1. }
  pose proof (execs_call_left envs first n acts c1 c2 H ltac:(subst first n; lia)) as [Hle _].
  split; [subst first n; lia|]. split; [by apply call_progress|]. intros H0 Hcn.
  apply call_finished; [by eapply execs_sound|done| |done]. by eapply execs_run_jobs.
Qed.

(** C20: the concurrent call equals the sequential one.  When nothing is in flight and a
    call of [run_due] runs with no other call and no cancellation, its tasks can be brought
    to their end, and every order of their steps that does so ends with the same
    orchestrator and the same outcomes: those of running the due jobs one after the other. *)
Theorem run_due_sequential envs o now :
  orchestrator_ok o -> _in_flight o = ∅ -> Forall named_job (_jobs o) ->
  exists c1 due, call_run_due (AwareDT now) (initial o) = (c1, Ok due) /\
    (exists acts c2, only_resumes acts /\ execs envs acts c1 = Some c2 /\ call_left 0 (length due) c2 = 0%nat) /\
    forall acts c2, only_resumes acts -> execs envs acts c1 = Some c2 -> call_left 0 (length due) c2 = 0%nat ->
      exists outs, gathered 0 (length due) c2 = Some outs /\ run_due envs (AwareDT now) o = (orch c2, Ok outs) /\
        _in_flight (orch c2) = ∅.
Proof.
  intros Ho Hf Hn. pose proof (initial_sound envs o Ho Hf) as Hs0.
  destruct (claim_due_exact o now Ho) as (o' & E & [Cj Cn Co Cf] & Ho').
  set (due := filter (fun j => job_due o now j = true) (_jobs o)) in *.
  assert (call_run_due (AwareDT now) (initial o) = (MkConfig o' (new_tasks now due), Ok due)) as Hc.
  { unfold call_run_due. cbn [require_aware initial orch tasks]. by rewrite E. }
  eexists _, due. split; [exact Hc|]. destruct (call_starts _ _ _ _ Hc) as (Hr & Hlen & _). cbn [initial tasks length Nat.add] in Hr, Hlen.
  assert (sound envs (MkConfig o' (new_tasks now due))) as Hs.
  { pose proof (call_sound envs (initial o) (AwareDT now) Hs0) as Hs. by rewrite Hc in Hs. }
  split; [apply call_can_finish; cbn [tasks Nat.add]; lia|]. intros acts c2 Hon H H0.
  assert (Forall named_job due) as Hnd by (apply Forall_forall; intros j [_ Hj]%list_elem_of_filter; by eapply Forall_forall in Hn).
  pose proof (execs_sound _ _ _ _ Hs H) as Hs2. pose proof (execs_run_jobs envs 0 now due acts _ _ H (resumes_cancel_none 0 (length due) acts Hon) Hr) as Hr2.
  destruct (call_finished envs 0 now due c2 Hs2 Hnd Hr2 H0) as (outs & Hg & Hout). exists outs. split; [exact Hg|].
  destruct (resumes_keep envs acts _ _ Hon H) as (Kj & Kn & Kl).
  assert (_in_flight (orch c2) = ∅) as Hempty.
  { apply (none_in_flight envs); [done|]. intros i t Hi. apply lookup_lt_Some in Hi as Hlt. rewrite Kl in Hlt; cbn [tasks] in Hlt; rewrite Hlen in Hlt.
    destruct (lookup_lt_is_Some_2 due i Hlt) as [j Hj]. destruct (Hr2 i j Hj) as (p & Hp & _ & Hnl). cbn [Nat.add] in Hp.
    assert (t = MkTask j now p) as -> by congruence.
    assert (own 0 (length due) i = true) as Hown by (unfold own; apply andb_true_iff; rewrite Nat.leb_le, Nat.ltb_lt; lia).
    pose proof (call_left_0 0 (length due) c2 i H0 Hown) as Hz. unfold left_at in Hz. rewrite Hp in Hz. unfold holds, active.
    cbn [phase] in *. by destruct p. }
  split; [|done]. unfold run_due. cbn [require_aware]. rewrite E. pose proof (mapM_outcomes envs 0 now due outs Hout) as Hm. cbn [Nat.add] in Hm. rewrite Hm. f_equal.
  apply orchestrator_eq; cbn [_jobs _next_run_at _in_flight]; [by rewrite Kj|by rewrite Kn|]. rewrite Hempty.
  apply set_eq. intros name. split; [|set_solver]. rewrite elem_of_difference, elem_of_list_to_set. intros [Hin Hne]. exfalso.
  destruct (decide (name ∈ ScheduledSourceJob.name <$> _jobs o)) as [Hin2|Hno].
  - apply list_elem_of_fmap in Hin2 as (j & -> & Hj). apply Cf in Hin as [Hin|Hdj]; [|apply Hne|done].
    + rewrite Hf in Hin. set_solver.
    + apply list_elem_of_fmap. exists j. split; [done|]. by apply list_elem_of_filter.
  - apply Co in Hno as [_ Hno]. apply Hno in Hin. rewrite Hf in Hin. set_solver.
Qed.

(** C40: what a cancellation does to a name.  When all tasks are over and none was cancelled
    before its first step, nothing is in flight: the [finally] clause has released every
    name, that of a cancelled task too.  But a task cancelled before its first step never
    reaches the clause: its name stays in flight whatever happens later, and no later call
    of [run_due] starts the job again. *)
Theorem cancelled_before_start_wedges envs c :
  sound envs c ->
  ((forall i t, tasks c !! i = Some t -> active t = false /\ phase t <> PLost) -> _in_flight (orch c) = ∅) /\
  forall i t, tasks c !! i = Some t -> phase t = PStart ->
    exists c1, exec envs (Cancel i) c = Some c1 /\
      forall acts c2, execs envs acts c1 = Some c2 ->
        ScheduledSourceJob.name (job t) ∈ _in_flight (orch c2) /\
        forall now due, snd (call_run_due now c2) = Ok due ->
          ScheduledSourceJob.name (job t) ∉ ScheduledSourceJob.name <$> due.
Proof.
  intros Hs. split.
  - intros Hall. apply (none_in_flight envs); [done|]. intros i t Hi. destruct (Hall i t Hi) as [Ha Hl]. unfold holds. rewrite Ha.
    by destruct (phase t).
  - intros i t Hi Hp. set (t' := MkTask (job t) (scheduled_now t) PLost).
    assert (exec envs (Cancel i) c = Some (set_task c i t')) as Hc by (simpl; rewrite Hi; simpl; by rewrite Hp).
    exists (set_task c i t'). split; [exact Hc|]. intros acts c2 H.
    assert (tasks c2 !! i = Some t') as Hi2.
    { eapply execs_keep_over; [exact H| |done]. cbn [set_task tasks]. apply list_lookup_insert_eq. by eapply lookup_lt_Some. }
    pose proof (execs_sound _ _ _ _ (exec_sound _ _ _ _ Hs Hc) H) as Hs2.
    assert (ScheduledSourceJob.name (job t) ∈ _in_flight (orch c2)) as Hin by (apply (sd_flight _ _ Hs2); by exists i, t').
    split; [done|]. intros now due Hd Hn. apply list_elem_of_fmap in Hn as (j & E & Hj).
    unfold call_run_due in Hd. destruct (require_aware now _) as [tm|e]; [|done].
    pose proof (claim_due_flight now (orch c2)) as [_ Hfl]. destruct (claim_due now (orch c2)) as [o' [d|e]]; [|done].
    simpl in Hd. injection Hd as ->. apply (Hfl due eq_refl) in Hj. by rewrite <- E in Hj.
Qed.

(** *** Two jobs that run at once *)

Definition sample_envs (i : nat) : Env := sample_env (bool_decide (i = 0)%nat).

Definition start_sample : Config := fst (call_run_due (AwareDT (at_second 0)) (initial sample_orchestrator)).

(** The second job overtakes the first. *)
Definition overtaking : list action :=
  [Resume 1%nat; Resume 0%nat; Resume 1%nat; Resume 1%nat; Resume 0%nat; Resume 0%nat].

Definition config_of (c : option Config) : Config := match c with Some c => c | None => initial sample_orchestrator end.

Lemma initial_sample_sound : sound sample_envs (initial sample_orchestrator).
Proof. apply initial_sound; [exact sample_orchestrator_ok|reflexivity]. Qed.

Lemma executions_refine_trace_witness :
  let acts := RunDue (AwareDT (at_second 0)) :: overtaking in
  exists c, execs sample_envs acts (initial sample_orchestrator) = Some c /\
    trace sample_orchestrator [EClaim (at_second 0) sample_jobs; ERelease "slow"; ERelease "fast"] (orch c).
Proof.
  intros acts. destruct (execs sample_envs acts (initial sample_orchestrator)) as [c|] eqn:E; [|vm_compute in E; discriminate E].
  exists c. split; [reflexivity|].
  destruct (executions_refine_trace sample_envs sample_orchestrator acts c sample_orchestrator_ok eq_refl E) as (H & _).
  assert (events sample_envs acts (initial sample_orchestrator) =
    [EClaim (at_second 0) sample_jobs; ERelease "slow"; ERelease "fast"]) as Ee by (vm_compute; reflexivity).
  rewrite <- Ee. exact H.
Defined.

Lemma run_due_terminates_witness :
  exists c2 outs, execs sample_envs overtaking start_sample = Some c2 /\
    gathered 0 2 c2 = Some outs /\ outcomes_of sample_envs 0 (at_second 0) sample_jobs outs.
Proof.
  destruct (execs sample_envs overtaking start_sample) as [c2|] eqn:E; [|vm_compute in E; discriminate E].
  exists c2. destruct (run_due_terminates sample_envs (initial sample_orchestrator) (at_second 0) start_sample sample_jobs overtaking c2)
    as (_ & _ & H).
  - exact initial_sample_sound.
  - repeat constructor.
  - vm_compute. reflexivity.
  - exact E.
  - destruct H as (outs & Hg & Ho).
    + assert (option_map (call_left 0 2) (Some c2) = Some 0%nat) as H; [|injection H as H; exact H].
      rewrite <- E. vm_compute. reflexivity.
    + repeat constructor.
    + exists outs. split; [reflexivity|]. split; [exact Hg|exact Ho].
Defined.

Lemma run_due_sequential_witness :
  exists c1 due, call_run_due (AwareDT (at_second 0)) (initial sample_orchestrator) = (c1, Ok due) /\
    exists acts c2, only_resumes acts /\ execs sample_envs acts c1 = Some c2.
Proof.
  destruct (run_due_sequential sample_envs sample_orchestrator (at_second 0)) as (c1 & due & E & (acts & c2 & Ho & H & _) & _).
  - exact sample_orchestrator_ok.
  - reflexivity.
  - repeat constructor.
  - exists c1, due. split; [exact E|]. exists acts, c2. split; [exact Ho|exact H].
Defined.

Lemma cancelled_before_start_wedges_witness :
  exists c1, exec sample_envs (Cancel 0) start_sample = Some c1 /\
    forall acts c2, execs sample_envs acts c1 = Some c2 -> "fast" ∈ _in_flight (orch c2).
Proof.
  assert (sound sample_envs start_sample) as Hs by (apply call_sound; exact initial_sample_sound).
  destruct (cancelled_before_start_wedges sample_envs start_sample Hs) as [_ H].
  destruct (H 0%nat (MkTask (sample_job "fast" 30) (at_second 0) PStart)) as (c1 & E & Hc).
  - vm_compute. reflexivity.
  - reflexivity.
  - exists c1. split; [exact E|]. intros acts c2 Ha. apply (Hc acts c2 Ha).
Defined.
