(* ===== verification/RuntimeStore.v ===== *)
(** * What a run leaves in the database

    [runtime/store.py] with [db/repository.py]: the payload of a source job, its health and
    the run itself as domain records; for a 4H or Daily structure payload also the candles,
    the analysis and the reclaim attempt.  [setups/atomic_runtime_store.py] with
    [setups/runtime_m15.py] and [setups/runtime_records.py]: the same for a 15M payload,
    which confirms a stored break.

    One call is one transaction: the functions give the database to commit, or the
    exception that leaves the session, after which the database is as it was
    ([transaction]).  The database itself may refuse a transaction, at any of its
    statements, flushes or its commit (a text wider than its column, a lost connection):
    [answered] is what the store gets then, for refusals that are a parameter, and the
    property is about every such database.  The identifier of a [DomainRecord] (a random
    UUID) and [updated_at] are left out. *)

From stdpp Require Import list strings gmap sorting.
From S2P Require Import Prelude PyList PyStr PyDecimal DecimalFacts PyTime IsoTime PyFloat FloatFacts PyValue.
From S2P Require Import Adapters Candles Serialization HtfModels HtfEngine ReclaimModels Repository.
From S2P Require Import CandleRepository StructureRepository ReclaimSource ReclaimRepository Confirmation Runtime.
Open Scope Z_scope.

(** ** Objects handed to the store *)

(** Besides JSON values there are enumeration members, times, identifiers, dataclasses (with
    their fields in order), tuples, sets (in the order of their iteration) and anything
    else, of which only the name of the type matters. *)
Inductive pyobj : Type :=
| ONone
| OBool (b : bool)
| OInt (z : Z)
| OFloat (x : float)
| ODecimal (d : pydec)
| OStr (s : string)
| OTime (t : datetime)
| OUuid (text : string)
| OEnum (value : pyobj)
| ODataclass (fields : list (string * pyobj))
| ODict (items : list (string * pyobj))
| OList (l : list pyobj)
| OTuple (l : list pyobj)
| OSet (l : list pyobj)
| OOther (type_name : string).

Fixpoint obj_of (v : pyval) : pyobj :=
  match v with
  | VNone => ONone
  | VBool b => OBool b
  | VInt z => OInt z
  | VFloat x => OFloat x
  | VDecimal d => ODecimal d
  | VStr s => OStr s
  | VList l => OList (map obj_of l)
  | VDict d => ODict (map (fun kv => (kv.1, obj_of kv.2)) d)
  end.

(** [asdict] turns the dataclasses inside into dictionaries, which is what [json_safe] does
    with them. *)
Fixpoint json_safe (value : pyobj) : res pyval :=
  match value with
  | ONone => mret VNone
  | OEnum v => json_safe v
  | OStr s => mret (VStr s)
  | OInt z => mret (VInt z)
  | OFloat x => mret (VFloat x)
  | OBool b => mret (VBool b)
  | ODecimal (Finite d) => mret (VStr (dec_str d))
  | ODecimal _ => Err (ValueError "persisted Decimal must be finite")
  | OTime (AwareDT t) => mret (VStr (isoformat t))
  | OTime (NaiveDT _) => Err (ValueError "persisted datetime must be timezone-aware")
  | OUuid text => mret (VStr text)
  | ODataclass items | ODict items => VDict <$> mapM (fun kv => (fun v => (kv.1, v)) <$> json_safe kv.2) items
  | OList l | OTuple l => VList <$> mapM json_safe l
  | OSet l => (fun normalized => VList (py_sorted pv_repr normalized)) <$> mapM json_safe l
  | OOther name => Err (TypeError ("unsupported persistence value: " +:+ name))
  end.

(** [json_safe] of a dictionary. *)
Definition json_safe_dict (items : list (string * pyobj)) : res pydict :=
  mapM (fun kv => (fun v => (kv.1, v)) <$> json_safe kv.2) items.

(** The dataclasses of an analysis. *)
Definition opt_obj {A} (f : A -> pyobj) (o : option A) : pyobj := match o with None => ONone | Some a => f a end.
Definition strs_obj (l : list string) : pyobj := OTuple (OStr <$> l).
Definition dec_obj (d : dec) : pyobj := ODecimal (Finite d).
Definition time_obj (t : aware) : pyobj := OTime (AwareDT t).
Definition enum_obj (value : string) : pyobj := OEnum (OStr value).

Definition zone_obj (z : SupportZone.t) : pyobj :=
  ODataclass
    [("zone_id", OStr (SupportZone.zone_id z));
     ("source", enum_obj (CandleSource.value (SupportZone.source z)));
     ("symbol", OStr (SupportZone.symbol z));
     ("interval", enum_obj (CandleInterval.value (SupportZone.interval z)));
     ("low", dec_obj (SupportZone.low z));
     ("high", dec_obj (SupportZone.high z));
     ("created_at", time_obj (SupportZone.created_at z));
     ("confirmed_at", time_obj (SupportZone.confirmed_at z));
     ("last_test_at", time_obj (SupportZone.last_test_at z));
     ("touch_count", OInt (SupportZone.touch_count z));
     ("rejection_count", OInt (SupportZone.rejection_count z));
     ("strength_score", dec_obj (SupportZone.strength_score z));
     ("evidence_open_times", OTuple (time_obj <$> SupportZone.evidence_open_times z));
     ("state", enum_obj (SupportZoneState.value (SupportZone.state z)));
     ("reasons", strs_obj (SupportZone.reasons z))].

Definition event_obj (e : StructureEvent.t) : pyobj :=
  ODataclass
    [("event_id", OStr (StructureEvent.event_id e));
     ("zone_id", OStr (StructureEvent.zone_id e));
     ("source", enum_obj (CandleSource.value (StructureEvent.source e)));
     ("symbol", OStr (StructureEvent.symbol e));
     ("interval", enum_obj (CandleInterval.value (StructureEvent.interval e)));
     ("state", enum_obj (StructureEventState.value (StructureEvent.state e)));
     ("observed_at", time_obj (StructureEvent.observed_at e));
     ("candle_open_time", time_obj (StructureEvent.candle_open_time e));
     ("close_price", dec_obj (StructureEvent.close_price e));
     ("zone_low", dec_obj (StructureEvent.zone_low e));
     ("zone_high", dec_obj (StructureEvent.zone_high e));
     ("distance_bps", dec_obj (StructureEvent.distance_bps e));
     ("body_fraction", dec_obj (StructureEvent.body_fraction e));
     ("volume_ratio", opt_obj dec_obj (StructureEvent.volume_ratio e));
     ("invalidates_event_id", opt_obj OStr (StructureEvent.invalidates_event_id e));
     ("reasons", strs_obj (StructureEvent.reasons e))].

Definition evidence_obj (e : TimeframeStructureEvidence.t) : pyobj :=
  ODataclass
    [("source", enum_obj (CandleSource.value (TimeframeStructureEvidence.source e)));
     ("symbol", OStr (TimeframeStructureEvidence.symbol e));
     ("interval", enum_obj (CandleInterval.value (TimeframeStructureEvidence.interval e)));
     ("status", enum_obj (TimeframeStructureStatus.value (TimeframeStructureEvidence.status e)));
     ("observed_at", time_obj (TimeframeStructureEvidence.observed_at e));
     ("zone_id", opt_obj OStr (TimeframeStructureEvidence.zone_id e));
     ("event_id", opt_obj OStr (TimeframeStructureEvidence.event_id e));
     ("reasons", strs_obj (TimeframeStructureEvidence.reasons e))].

Definition analysis_obj (a : HtfStructureAnalysis.t) : pyobj :=
  ODataclass
    [("source", enum_obj (CandleSource.value (HtfStructureAnalysis.source a)));
     ("symbol", OStr (HtfStructureAnalysis.symbol a));
     ("interval", enum_obj (CandleInterval.value (HtfStructureAnalysis.interval a)));
     ("observed_at", time_obj (HtfStructureAnalysis.observed_at a));
     ("zones", OTuple (zone_obj <$> HtfStructureAnalysis.zones a));
     ("primary_zone", opt_obj zone_obj (HtfStructureAnalysis.primary_zone a));
     ("events", OTuple (event_obj <$> HtfStructureAnalysis.events a));
     ("evidence", evidence_obj (HtfStructureAnalysis.evidence a))].

Definition attempt_obj (a : ReclaimAttempt.t) : pyobj :=
  ODataclass
    [("attempt_id", OStr (ReclaimAttempt.attempt_id a));
     ("break_event_id", OStr (ReclaimAttempt.break_event_id a));
     ("zone_id", OStr (ReclaimAttempt.zone_id a));
     ("source", enum_obj (CandleSource.value (ReclaimAttempt.source a)));
     ("symbol", OStr (ReclaimAttempt.symbol a));
     ("structure_interval", enum_obj (CandleInterval.value (ReclaimAttempt.structure_interval a)));
     ("started_at", time_obj (ReclaimAttempt.started_at a));
     ("observed_at", time_obj (ReclaimAttempt.observed_at a));
     ("outcome", enum_obj (ReclaimOutcome.value (ReclaimAttempt.outcome a)));
     ("setup_type", enum_obj (DerivedSetupType.value (ReclaimAttempt.setup_type a)));
     ("readiness", enum_obj (SetupReadiness.value (ReclaimAttempt.readiness a)));
     ("zone_low", dec_obj (ReclaimAttempt.zone_low a));
     ("zone_high", dec_obj (ReclaimAttempt.zone_high a));
     ("maximum_price", dec_obj (ReclaimAttempt.maximum_price a));
     ("maximum_penetration_bps", dec_obj (ReclaimAttempt.maximum_penetration_bps a));
     ("duration_bars", OInt (ReclaimAttempt.duration_bars a));
     ("closes_above_zone", OInt (ReclaimAttempt.closes_above_zone a));
     ("bars_above_zone", OInt (ReclaimAttempt.bars_above_zone a));
     ("bounce_volume_ratio", opt_obj dec_obj (ReclaimAttempt.bounce_volume_ratio a));
     ("rejection_candle_open_time", opt_obj time_obj (ReclaimAttempt.rejection_candle_open_time a));
     ("rejection_low", opt_obj dec_obj (ReclaimAttempt.rejection_low a));
     ("trigger_candle_open_time", opt_obj time_obj (ReclaimAttempt.trigger_candle_open_time a));
     ("quality_score", dec_obj (ReclaimAttempt.quality_score a));
     ("reasons", strs_obj (ReclaimAttempt.reasons a));
     ("warnings", strs_obj (ReclaimAttempt.warnings a))].

(** ** [db/repository.py] *)

Module DomainRecord.
Record t : Type := Mk {
  record_type : string;
  symbol : string;
  state : string;
  payload : pydict;
  created_at : aware;
  expires_at : option datetime }.
End DomainRecord.

Module DomainRecordInput.
Record t : Type := Mk {
  record_type : string;
  symbol : string;
  state : string;
  payload : pydict;
  expires_at : option datetime }.
End DomainRecordInput.

Section store.
Context `{FromIso}.
Context `{!Table CandleKey OhlcvCandleRecord.t} `{!Table string SupportZoneRecord.t}
  `{!Table string StructureEventRecord.t} `{!Table string ReclaimAttemptRecord.t}.
(** [utc_now], the default of [created_at], when the table has so many rows. *)
Context (utc_now : nat -> aware).

(** The tables; the domain records in the order of their insertion. *)
Record Database : Type := MkDatabase {
  tables : Session;
  domain_records : list DomainRecord.t }.

Definition with_tables (db : Database) (s : Session) : Database := MkDatabase s (domain_records db).

(** [DomainRecordRepository.add] *)
Definition add (db : Database) (item : DomainRecordInput.t) : res Database :=
  let record_type := str_strip (DomainRecordInput.record_type item) in
  let symbol := str_strip (DomainRecordInput.symbol item) in
  let state := str_strip (DomainRecordInput.state item) in
  raise_if (str_empty record_type || str_empty symbol || str_empty state)
    "record_type, symbol, and state are required" ;;
  mret (MkDatabase (tables db)
          (domain_records db ++
           [DomainRecord.Mk record_type symbol state (DomainRecordInput.payload item)
              (utc_now (length (domain_records db))) (DomainRecordInput.expires_at item)])).

Fixpoint add_all (db : Database) (items : list DomainRecordInput.t) : res Database :=
  match items with
  | [] => mret db
  | item :: items' => db ← add db item; add_all db items'
  end.

(** [DomainRecordRepository.list_by_type], for a table that lists rows of one instant in
    the order of their insertion. *)
Definition list_by_type (db : Database) (record_type : string) (limit : Z) : res (list DomainRecord.t) :=
  let normalized_type := str_strip record_type in
  raise_if (str_empty normalized_type) "record_type is required" ;;
  raise_if ((limit <? 1) || (500 <? limit)) "limit must be between 1 and 500" ;;
  mret (take (Z.to_nat limit)
          (py_sorted_rev DomainRecord.created_at
             (List.filter (fun r => bool_decide (DomainRecord.record_type r = normalized_type)) (domain_records db)))).

(** ** [runtime/store.py] *)

(** [NullRuntimeStore] and [InMemoryRuntimeStore] *)
Definition null_store : res unit := mret tt.

Record InMemoryRuntimeStore : Type := MkMemoryStore {
  payload_runs : list (ScheduledSourceJob.t * AdapterPayload.t * WorkerRunOutcome.t);
  failure_runs : list (ScheduledSourceJob.t * WorkerRunOutcome.t) }.
Definition memory_payload (m : InMemoryRuntimeStore) (job : ScheduledSourceJob.t) (payload : AdapterPayload.t)
    (outcome : WorkerRunOutcome.t) : InMemoryRuntimeStore :=
  MkMemoryStore (payload_runs m ++ [(job, payload, outcome)]) (failure_runs m).
Definition memory_failure (m : InMemoryRuntimeStore) (job : ScheduledSourceJob.t) (outcome : WorkerRunOutcome.t) :
    InMemoryRuntimeStore :=
  MkMemoryStore (payload_runs m) (failure_runs m ++ [(job, outcome)]).

Section job.
Context (job : ScheduledSourceJob.t).

Definition _record_symbol (payload : option AdapterPayload.t) : string :=
  match payload with
  | None => ScheduledSourceJob.name job
  | Some payload =>
      let candidate field :=
        match dict_get (AdapterPayload.data payload) field with
        | VStr raw => if str_empty (str_strip raw) then None else Some (str_strip raw)
        | _ => None
        end in
      match candidate "symbol", candidate "query" with
      | Some s, _ => s
      | None, Some s => s
      | None, None => ScheduledSourceJob.name job
      end
  end.

Definition payload_state (payload : AdapterPayload.t) : AdapterState.t :=
  AdapterHealth.state (AdapterPayload.health payload).

Definition _payload_record_type (payload : AdapterPayload.t) : string :=
  if bool_decide (payload_state payload = AdapterState.OK)
  then str_lower (SourceJobKind.value (ScheduledSourceJob.kind job)) +:+ "_snapshot"
  else "source_diagnostic".

Definition kind_value : pyobj := OStr (SourceJobKind.value (ScheduledSourceJob.kind job)).

Definition source_payload_of (payload : AdapterPayload.t) : list (string * pyobj) :=
  [("job_name", OStr (ScheduledSourceJob.name job));
   ("adapter_name", OStr (AdapterPayload.name payload));
   ("kind", kind_value);
   ("data", obj_of (VDict (AdapterPayload.data payload)))].

Definition health_payload_of (payload : AdapterPayload.t) (outcome : WorkerRunOutcome.t) : list (string * pyobj) :=
  let health := AdapterPayload.health payload in
  [("job_name", OStr (ScheduledSourceJob.name job));
   ("adapter_name", OStr (AdapterHealth.name health));
   ("kind", kind_value);
   ("latency_ms", opt_obj OInt (AdapterHealth.latency_ms health));
   ("message", OStr (AdapterHealth.message health));
   ("observed_at", time_obj (WorkerRunOutcome.finished_at outcome))].

Definition run_payload_of (adapter_name : string) (state : AdapterState.t) (outcome : WorkerRunOutcome.t) :
    res (list (string * pyobj)) :=
  duration_ms ← WorkerRunOutcome.duration_ms outcome;
  mret [("job_name", OStr (ScheduledSourceJob.name job));
        ("adapter_name", OStr adapter_name);
        ("kind", kind_value);
        ("started_at", time_obj (WorkerRunOutcome.started_at outcome));
        ("finished_at", time_obj (WorkerRunOutcome.finished_at outcome));
        ("duration_ms", OInt duration_ms);
        ("adapter_state", OStr (AdapterState.value state));
        ("message", OStr (WorkerRunOutcome.message outcome))].

(** [repository.add(DomainRecordInput(..., payload=json_safe(payload)))] *)
Definition add_record (db : Database) (record_type symbol state : string) (payload : list (string * pyobj)) :
    res Database :=
  payload ← json_safe_dict payload;
  add db (DomainRecordInput.Mk record_type symbol state payload None).

Definition counters_obj (counters : list (string * Z)) : pyobj :=
  ODict ((fun c => (c.1, OInt c.2)) <$> counters).

Definition candle_upsert_obj (r : CandleUpsertResult) : pyobj :=
  counters_obj [("inserted", inserted r); ("updated", updated r); ("unchanged", unchanged r); ("total", total r)].

Definition structure_upsert_obj (r : StructureUpsertResult) : pyobj :=
  counters_obj [("zones_inserted", zones_inserted r); ("zones_updated", zones_updated r);
                ("zones_unchanged", zones_unchanged r); ("events_inserted", events_inserted r);
                ("events_updated", events_updated r); ("events_unchanged", events_unchanged r)].

(** The entries that a stored attempt adds to the source payload. *)
Definition reclaim_entries (reclaim : option (ReclaimAttempt.t * ReclaimUpsertResult)) : list (string * pyobj) :=
  match reclaim with
  | None => []
  | Some (attempt, r) =>
      [("reclaim_analysis", attempt_obj attempt);
       ("reclaim_upsert", counters_obj [("inserted", reclaim_inserted r); ("updated", reclaim_updated r);
                                        ("unchanged", reclaim_unchanged r)])]
  end.

(** The structure branch of [persist_payload]: the tables after it, and what it adds to the
    source payload. *)
Definition persist_structure (s : Session) (payload : AdapterPayload.t) : res (Session * list (string * pyobj)) :=
  batch ← batch_from_payload_data (AdapterPayload.data payload);
  raise_if (bool_decide (Batch.candles batch = [])) "OK structure payload must contain closed candles" ;;
  '(candles, candle_upsert) ← upsert_batch (ohlcv_candles s) batch;
  analysis ← analyze_higher_timeframe batch None None;
  '((zones, events), structure_upsert) ← upsert_analysis (support_zones s, structure_events s) analysis;
  '(s, reclaim) ← persist_reclaim_from_structure
                    (MkSession candles zones events (reclaim_attempts s)) batch analysis;
  mret (s, [("candle_upsert", candle_upsert_obj candle_upsert);
            ("htf_analysis", analysis_obj analysis);
            ("structure_upsert", structure_upsert_obj structure_upsert)] ++ reclaim_entries reclaim).

(** An OK payload of a structure job. *)
Definition ok_structure (payload : AdapterPayload.t) : bool :=
  bool_decide (ScheduledSourceJob.kind job = SourceJobKind.STRUCTURE) &&
  bool_decide (payload_state payload = AdapterState.OK).

Definition store_payload (db : Database) (payload : AdapterPayload.t) (outcome : WorkerRunOutcome.t) : res Database :=
  let symbol := _record_symbol (Some payload) in
  let state := AdapterState.value (payload_state payload) in
  run_payload ← run_payload_of (AdapterPayload.name payload) (payload_state payload) outcome;
  '(s, entries) ← (if ok_structure payload then persist_structure (tables db) payload else mret (tables db, []));
  db ← add_record (with_tables db s) (_payload_record_type payload) symbol state
         (source_payload_of payload ++ entries);
  db ← add_record db "source_health" symbol state (health_payload_of payload outcome);
  add_record db "worker_run" symbol (WorkerRunStatus.value (WorkerRunOutcome.status outcome)) run_payload.

(** [persist_failure]; the health record of a failure has no latency. *)
Definition store_failure (db : Database) (outcome : WorkerRunOutcome.t) : res Database :=
  let symbol := _record_symbol None in
  let health_payload :=
    [("job_name", OStr (ScheduledSourceJob.name job));
     ("adapter_name", OStr (ScheduledSourceJob.adapter_name job));
     ("kind", kind_value);
     ("message", OStr (WorkerRunOutcome.message outcome));
     ("observed_at", time_obj (WorkerRunOutcome.finished_at outcome))] in
  run_payload ← run_payload_of (ScheduledSourceJob.adapter_name job) AdapterState.DOWN outcome;
  db ← add_record db "source_health" symbol (AdapterState.value AdapterState.DOWN) health_payload;
  add_record db "worker_run" symbol (WorkerRunStatus.value (WorkerRunOutcome.status outcome)) run_payload.

(** ** [setups/runtime_m15.py], [setups/runtime_records.py], [setups/atomic_runtime_store.py] *)

Definition persist_m15_confirmation (s : Session) (payload : AdapterPayload.t) :
    res (Session * list (string * pyobj)) :=
  batch ← batch_from_payload_data (AdapterPayload.data payload);
  raise_if (negb (bool_decide (Batch.interval batch = CandleInterval.M15)))
    "15m confirmation handler requires M15 candles" ;;
  raise_if (bool_decide (Batch.candles batch = [])) "OK structure payload must contain closed candles" ;;
  '(candles, candle_result) ← upsert_batch (ohlcv_candles s) batch;
  '(s, reclaim) ← persist_reclaim_from_confirmation
                    (MkSession candles (support_zones s) (structure_events s) (reclaim_attempts s)) batch;
  mret (s, [("job_name", OStr (AdapterPayload.name payload));
            ("adapter_name", OStr (AdapterPayload.name payload));
            ("data", obj_of (VDict (AdapterPayload.data payload)));
            ("candle_upsert", candle_upsert_obj candle_result)] ++ reclaim_entries reclaim).

(** [d[key] = v] *)
Fixpoint obj_set (d : list (string * pyobj)) (key : string) (v : pyobj) : list (string * pyobj) :=
  match d with
  | [] => [(key, v)]
  | (k, w) :: d' => if bool_decide (k = key) then (k, v) :: d' else (k, w) :: obj_set d' key v
  end.

Definition add_runtime_records (db : Database) (payload : AdapterPayload.t) (outcome : WorkerRunOutcome.t)
    (source_payload : list (string * pyobj)) : res Database :=
  let symbol := _record_symbol (Some payload) in
  let state := AdapterState.value (payload_state payload) in
  source ← json_safe_dict source_payload;
  health ← json_safe_dict (health_payload_of payload outcome);
  run_payload ← run_payload_of (AdapterPayload.name payload) (payload_state payload) outcome;
  run ← json_safe_dict run_payload;
  add_all db
    [DomainRecordInput.Mk (_payload_record_type payload) symbol state source None;
     DomainRecordInput.Mk "source_health" symbol state health None;
     DomainRecordInput.Mk "worker_run" symbol (WorkerRunStatus.value (WorkerRunOutcome.status outcome)) run None].

(** [AtomicReclaimRuntimeStore.persist_payload] *)
Definition atomic_store_payload (db : Database) (payload : AdapterPayload.t) (outcome : WorkerRunOutcome.t) :
    res Database :=
  if negb (ok_structure payload) then store_payload db payload outcome
  else
    batch ← batch_from_payload_data (AdapterPayload.data payload);
    if negb (bool_decide (Batch.interval batch = CandleInterval.M15)) then store_payload db payload outcome
    else
      '(s, source_payload) ← persist_m15_confirmation (tables db) payload;
      let source_payload := obj_set source_payload "job_name" (OStr (ScheduledSourceJob.name job)) in
      let source_payload := obj_set source_payload "adapter_name" (OStr (AdapterPayload.name payload)) in
      let source_payload := obj_set source_payload "kind" kind_value in
      add_runtime_records (with_tables db s) payload outcome source_payload.
End job.

(** [async with session_factory() as session]: what leaves with an exception is rolled
    back. *)
Definition transaction (db : Database) (result : res Database) : Database * res unit :=
  match result with Ok db' => (db', Ok tt) | Err e => (db, Err e) end.

(** A database that may refuse what a transaction asks for: [refusal attempt] is the
    exception of the first statement, flush or commit it refuses, which leaves the session
    before anything the code itself would raise later. *)
Definition answered (refusal : res Database -> option exn) (attempt : res Database) : res Database :=
  match refusal attempt with Some e => Err e | None => attempt end.
End store.

(** ** Facts: [json_safe] *)

(** What [json_safe] accepts. *)
Fixpoint json_ready (value : pyobj) : bool :=
  match value with
  | ODecimal d => match d with Finite _ => true | _ => false end
  | OTime t => match t with AwareDT _ => true | NaiveDT _ => false end
  | OEnum v => json_ready v
  | ODataclass items | ODict items => forallb (fun kv => json_ready kv.2) items
  | OList l | OTuple l | OSet l => forallb json_ready l
  | OOther _ => false
  | ONone | OBool _ | OInt _ | OFloat _ | OStr _ | OUuid _ => true
  end.

Lemma is_ok_fmap {A B} (f : A -> B) (r : res A) : is_ok (f <$> r) = is_ok r.
Proof. by destruct r. Qed.

Lemma is_ok_mapM_cons {A B} (f : A -> res B) a l : is_ok (mapM f (a :: l)) = is_ok (f a) && is_ok (mapM f l).
Proof. simpl. destruct (f a); [|done]. bind_ok. by destruct (mapM f l). Qed.

Lemma json_safe_ready o : is_ok (json_safe o) = json_ready o.
Proof.
  revert o. fix IH 1.
  intros [ |b|z|x|d|s|t|s|v|items|items|l|l|l|n]; cbn [json_safe json_ready]; rewrite ?is_ok_fmap;
    [done..|by destruct d|done|by destruct t|done|exact (IH v)| | | | | |done].
  1, 2: revert items; fix IHd 1; intros [|[k a] d]; [done|];
    rewrite is_ok_mapM_cons, is_ok_fmap; simpl; by rewrite (IH a), (IHd d).
  all: revert l; fix IHl 1; intros [|a l]; [done|]; rewrite is_ok_mapM_cons; simpl; by rewrite (IH a), (IHl l).
Qed.

Lemma json_safe_dict_ready items :
  forallb (fun kv => json_ready kv.2) items = true -> exists d, json_safe_dict items = Ok d.
Proof.
  intros Hr. assert (is_ok (json_safe_dict items) = true) as Ho.
  { rewrite <- Hr. unfold json_safe_dict. induction items as [|[k a] items IH]; [done|].
    rewrite is_ok_mapM_cons, is_ok_fmap, json_safe_ready. simpl. f_equal. apply IH. simpl in Hr. by destruct (json_ready a). }
  destruct (json_safe_dict items) as [d|]; [by exists d|done].
Qed.

(** An item of the object is the item of the dictionary under its key. *)
Lemma json_safe_dict_get items d key o v :
  json_safe_dict items = Ok d -> NoDup items.*1 -> (key, o) ∈ items -> json_safe o = Ok v -> dict_get d key = v.
Proof.
  unfold json_safe_dict. intros Hm. apply mapM_Ok in Hm. unfold dict_get. intros Hnd Hin Ho.
  induction Hm as [|[k o'] [k' v'] items d Hkv _ IH]; [by apply elem_of_nil in Hin|].
  apply fmap_Ok in Hkv as (w & Hw & [= -> ->]). simpl in Hnd. apply NoDup_cons in Hnd as [Hn Hnd]. simpl.
  apply elem_of_cons in Hin as [[= <- <-]|Hin].
  - rewrite bool_decide_eq_true_2 by done. simpl in *. congruence.
  - rewrite bool_decide_eq_false_2; [by apply IH|]. intros ->. apply Hn. apply list_elem_of_fmap. by exists (key, o).
Qed.

(** ** Facts: records *)

(** What [ScheduledSourceJob.__post_init__] promises of the name. *)
Definition job_named (job : ScheduledSourceJob.t) : Prop :=
  str_strip (ScheduledSourceJob.name job) = ScheduledSourceJob.name job /\
  str_empty (ScheduledSourceJob.name job) = false.

Section record_facts.
Context `{FromIso}.
Context `{!Table CandleKey OhlcvCandleRecord.t} `{!Table string SupportZoneRecord.t}
  `{!Table string StructureEventRecord.t} `{!Table string ReclaimAttemptRecord.t}.
Context (utc_now : nat -> aware) (job : ScheduledSourceJob.t).
Context (Hjob : job_named job).

Definition appended (db : Database) (l : list DomainRecord.t) : Database :=
  MkDatabase (tables db) (domain_records db ++ l).

Lemma appended_appended db l k : appended (appended db l) k = appended db (l ++ k).
Proof. unfold appended. simpl. by rewrite <- app_assoc. Qed.

(** A record of a type, with its symbol and state, and the texts of a payload. *)
Record record_of (r : DomainRecord.t) (record_type symbol state : string) (items : list (string * pyobj)) : Prop := {
  ro_type : DomainRecord.record_type r = str_strip record_type;
  ro_symbol : DomainRecord.symbol r = str_strip symbol;
  ro_state : DomainRecord.state r = str_strip state;
  ro_payload : json_safe_dict items = Ok (DomainRecord.payload r) }.

Lemma add_record_Ok db ty sym st items db' :
  add_record utc_now db ty sym st items = Ok db' ->
  exists r, db' = appended db [r] /\ record_of r ty sym st items.
Proof.
  unfold add_record, add. intros (d & Hd & Ha)%bind_Ok. guards. subst db'. eexists. split; [reflexivity|]. by constructor.
Qed.

Definition nonblank (s : string) : Prop := str_empty (str_strip s) = false.

Lemma add_record_total db ty sym st items :
  nonblank ty -> nonblank sym -> nonblank st -> forallb (fun kv => json_ready kv.2) items = true ->
  exists r, add_record utc_now db ty sym st items = Ok (appended db [r]) /\ record_of r ty sym st items.
Proof.
  intros H1 H2 H3 Hr. destruct (json_safe_dict_ready items Hr) as [d Hd].
  unfold add_record, add, nonblank in *. rewrite Hd. bind_ok. cbn [DomainRecordInput.record_type DomainRecordInput.symbol
    DomainRecordInput.state]. rewrite H1, H2, H3. cbn [orb raise_if]. bind_ok. eexists. split; [reflexivity|]. by constructor.
Qed.

Lemma nonblank_symbol payload : nonblank (_record_symbol job payload).
Proof.
  destruct Hjob as [Hs Hn]. unfold nonblank, _record_symbol.
  assert (str_empty (str_strip (ScheduledSourceJob.name job)) = false) as Hname by (by rewrite Hs).
  destruct payload as [payload|]; [|done]. cbv zeta.
  destruct (dict_get _ "symbol") as [| | | | |s| |]; try destruct (str_empty (str_strip s)) eqn:Es; try (by rewrite str_strip_idemp);
    destruct (dict_get _ "query") as [| | | | |q| |]; try done; destruct (str_empty (str_strip q)) eqn:Eq; try done;
    by rewrite str_strip_idemp.
Qed.

Lemma nonblank_state (s : AdapterState.t) : nonblank (AdapterState.value s).
Proof. by destruct s. Qed.
Lemma nonblank_status (s : WorkerRunStatus.t) : nonblank (WorkerRunStatus.value s).
Proof. by destruct s. Qed.
Lemma nonblank_type payload : nonblank (_payload_record_type job payload).
Proof. unfold _payload_record_type. case_bool_decide; [|done]. by destruct (ScheduledSourceJob.kind job). Qed.

(** The last two records of a stored run: the health of its source, and the run. *)
Record run_recorded (db db' : Database) (state : AdapterState.t) (o : WorkerRunOutcome.t)
    (before : list DomainRecord.t) : Prop := {
  rr_records : exists health run, db' = appended db (before ++ [health; run]) /\
    DomainRecord.record_type health = "source_health" /\ DomainRecord.state health = AdapterState.value state /\
    DomainRecord.record_type run = "worker_run" /\
    DomainRecord.state run = WorkerRunStatus.value (WorkerRunOutcome.status o) /\
    DomainRecord.symbol run = DomainRecord.symbol health /\
    dict_get (DomainRecord.payload run) "job_name" = VStr (ScheduledSourceJob.name job) /\
    dict_get (DomainRecord.payload run) "message" = VStr (WorkerRunOutcome.message o) }.

Lemma run_recorded_of db state o before sym name health_items run_items health run :
  run_payload_of job name state o = Ok run_items ->
  record_of health "source_health" sym (AdapterState.value state) health_items ->
  record_of run "worker_run" sym (WorkerRunStatus.value (WorkerRunOutcome.status o)) run_items ->
  run_recorded db (appended db (before ++ [health; run])) state o before.
Proof.
  intros Hrun [T1 Y1 S1 _] [T2 Y2 S2 P2]. constructor. exists health, run.
  unfold run_payload_of in Hrun. apply bind_Ok in Hrun as (ms & _ & Hrun). apply Ok_inj in Hrun. subst run_items.
  split_and!; [done|done|rewrite S1; by destruct state|done|rewrite S2; by destruct (WorkerRunOutcome.status o)|congruence| |];
    [apply (json_safe_dict_get _ _ _ (OStr (ScheduledSourceJob.name job)) _ P2)
    |apply (json_safe_dict_get _ _ _ (OStr (WorkerRunOutcome.message o)) _ P2)];
    (done || by apply (bool_decide_unpack _)) || set_solver.
Qed.

Lemma run_payload_total name state o :
  spanned o -> exists items, run_payload_of job name state o = Ok items /\
    forallb (fun kv => json_ready kv.2) items = true.
Proof.
  intros Hs. unfold run_payload_of. destruct (duration_ms_total o Hs) as [ms ->]. bind_ok. by eexists.
Qed.

(** The next insertion of a chain, which succeeds: its record [r] and what it says [Hr]. *)
Ltac add_next r Hr :=
  match goal with |- context [add_record _ ?db ?ty ?sym ?st ?items] =>
    let E := fresh "E" in destruct (add_record_total db ty sym st items) as (r & E & Hr); [| | | |rewrite E; bind_ok]
  end.

(** [persist_failure] never fails. *)
Lemma store_failure_total db o :
  spanned o -> exists db', store_failure utc_now job db o = Ok db' /\ run_recorded db db' AdapterState.DOWN o [].
Proof.
  intros Hs. unfold store_failure. cbv zeta.
  destruct (run_payload_total (ScheduledSourceJob.adapter_name job) AdapterState.DOWN o Hs) as (run & Hr & Hready).
  rewrite Hr. bind_ok. pose proof (nonblank_symbol None) as Hsym.
  add_next h Hho; [done..|]. add_next r Hro; [done|done|apply nonblank_status|done|].
  rewrite appended_appended. eexists. split; [done|].
  apply (run_recorded_of db AdapterState.DOWN o [] _ _ _ run h r Hr Hho Hro).
Qed.

(** A payload that needs no analysis is stored when it can be written as JSON. *)
Lemma store_payload_plain db payload o :
  spanned o -> ok_structure job payload = false -> json_ready (obj_of (VDict (AdapterPayload.data payload))) = true ->
  exists db' r, store_payload utc_now job db payload o = Ok db' /\
    run_recorded db db' (payload_state payload) o [r] /\
    record_of r (_payload_record_type job payload) (_record_symbol job (Some payload))
      (AdapterState.value (payload_state payload)) (source_payload_of job payload).
Proof.
  intros Hs Hp Hj. unfold store_payload. cbv zeta. rewrite Hp.
  destruct (run_payload_total (AdapterPayload.name payload) (payload_state payload) o Hs) as (run & Hr & Hready).
  rewrite Hr. bind_ok. cbn beta iota. pose proof (nonblank_symbol (Some payload)) as Hsym. rewrite app_nil_r.
  add_next r Hro; [apply nonblank_type|done|apply nonblank_state|by unfold source_payload_of; cbn [forallb fst snd]; rewrite Hj|].
  add_next h Hho; [done|done|apply nonblank_state|unfold health_payload_of; simpl; by destruct (AdapterHealth.latency_ms _)|].
  add_next w Hwo; [done|done|apply nonblank_status|done|].
  rewrite !appended_appended. exists (appended db [r; h; w]), r. split; [done|]. split; [|done].
  apply (run_recorded_of db (payload_state payload) o [r] _ _ _ run h w Hr Hho Hwo).
Qed.

(** The structure branch writes the tables that a 15M confirmation reads. *)
Lemma persist_structure_Ok s payload s' entries :
  persist_structure s payload = Ok (s', entries) ->
  exists batch a s1 reclaim,
    batch_from_payload_data (AdapterPayload.data payload) = Ok batch /\ Batch.candles batch <> [] /\
    analyze_higher_timeframe batch None None = Ok a /\ structure_written s batch a = Ok s1 /\
    persist_reclaim_from_structure s1 batch a = Ok (s', reclaim).
Proof.
  unfold persist_structure. intros (batch & Hb & Hs)%bind_Ok. apply bind_Ok in Hs as ([] & Hc & Hs).
  apply raise_if_Ok, bool_decide_eq_false in Hc. apply bind_Ok in Hs as ([ct cu] & Hu & Hs).
  apply bind_Ok in Hs as (a & Ha & Hs). apply bind_Ok in Hs as ([[zt et] su] & Hz & Hs).
  apply bind_Ok in Hs as ([s2 reclaim] & Hr & Hs). apply Ok_inj in Hs. simplify_eq.
  exists batch, a, (MkSession ct zt et (reclaim_attempts s)), reclaim. split_and!; try done.
  unfold structure_written. rewrite Hu. bind_ok. rewrite Hz. by bind_ok.
Qed.

(** What is committed when a payload is stored. *)
Lemma store_payload_Ok db payload o db' :
  store_payload utc_now job db payload o = Ok db' ->
  exists s entries r,
    (if ok_structure job payload then persist_structure (tables db) payload = Ok (s, entries)
     else s = tables db /\ entries = []) /\
    run_recorded (with_tables db s) db' (payload_state payload) o [r] /\
    record_of r (_payload_record_type job payload) (_record_symbol job (Some payload))
      (AdapterState.value (payload_state payload)) (source_payload_of job payload ++ entries).
Proof.
  unfold store_payload. cbv zeta. intros (run & Hr & Hs)%bind_Ok. apply bind_Ok in Hs as ([s entries] & Hp & Hs).
  apply bind_Ok in Hs as (db1 & (r & -> & Hro)%add_record_Ok & Hs).
  apply bind_Ok in Hs as (db2 & (h & -> & Hho)%add_record_Ok & Hs).
  apply add_record_Ok in Hs as (w & -> & Hwo). rewrite !appended_appended. exists s, entries, r. split; [|split; [|done]].
  - destruct (ok_structure job payload); [done|]. apply Ok_inj in Hp. by simplify_eq.
  - apply (run_recorded_of (with_tables db s) (payload_state payload) o [r] _ _ _ run h w Hr Hho Hwo).
Qed.
Lemma add_all_Ok db items db' :
  add_all utc_now db items = Ok db' ->
  exists rs, db' = appended db rs /\
    Forall2 (fun item r => DomainRecord.record_type r = str_strip (DomainRecordInput.record_type item) /\
      DomainRecord.symbol r = str_strip (DomainRecordInput.symbol item) /\
      DomainRecord.state r = str_strip (DomainRecordInput.state item) /\
      DomainRecord.payload r = DomainRecordInput.payload item) items rs.
Proof.
  revert db; induction items as [|item items IH]; intros db Ha; simpl in Ha.
  - apply Ok_inj in Ha as <-. exists []. split; [|constructor]. destruct db. unfold appended. simpl. by rewrite app_nil_r.
  - apply bind_Ok in Ha as (db1 & Hadd & Ha). unfold add in Hadd. guards. subst db1.
    destruct (IH _ Ha) as (rs & -> & Hrs). eexists (_ :: rs). split; [unfold appended; simpl; by rewrite <- app_assoc|].
    constructor; [|exact Hrs]. by split_and!.
Qed.

(** The tables a payload is committed with. *)
Definition payload_tables (db : Database) (payload : AdapterPayload.t) (s : Session) : Prop :=
  if ok_structure job payload then
    exists batch entries, batch_from_payload_data (AdapterPayload.data payload) = Ok batch /\
      if decide (Batch.interval batch = CandleInterval.M15)
      then persist_m15_confirmation (tables db) payload = Ok (s, entries)
      else persist_structure (tables db) payload = Ok (s, entries)
  else s = tables db.

Lemma atomic_store_payload_Ok db payload o db' :
  atomic_store_payload utc_now job db payload o = Ok db' ->
  exists s r, payload_tables db payload s /\ run_recorded (with_tables db s) db' (payload_state payload) o [r] /\
    DomainRecord.record_type r = str_strip (_payload_record_type job payload).
Proof.
  unfold atomic_store_payload, payload_tables. destruct (ok_structure job payload) eqn:Eok; cbn [negb].
  2:{ intros (s & entries & r & Hd & Hr & Hro)%store_payload_Ok. rewrite Eok in Hd. destruct Hd as [-> _].
      exists (tables db), r. split; [done|]. split; [done|]. by destruct Hro. }
  intros (batch & Hb & Ha)%bind_Ok.
  destruct (bool_decide (Batch.interval batch = CandleInterval.M15)) eqn:Ei; cbn [negb] in Ha.
  - apply bool_decide_eq_true in Ei. apply bind_Ok in Ha as ([s source] & Hm & Ha). cbv zeta in Ha. cbn beta iota in Ha.
    unfold add_runtime_records in Ha. cbv zeta in Ha. apply bind_Ok in Ha as (src & _ & Ha).
    apply bind_Ok in Ha as (hd & Hh & Ha). apply bind_Ok in Ha as (run & Hr & Ha). apply bind_Ok in Ha as (rn & Hrn & Ha).
    apply add_all_Ok in Ha as (rs & -> & Hrs).
    inversion Hrs as [|? r ? rs1 (T0 & _) Hrs1]; subst. inversion Hrs1 as [|? h ? rs2 (T1 & Y1 & S1 & P1) Hrs2]; subst.
    inversion Hrs2 as [|? w ? rs3 (T2 & Y2 & S2 & P2) Hrs3]; subst. inversion Hrs3; subst.
    exists s, r. split; [exists batch, source; by rewrite decide_True|]. split; [|exact T0].
    eapply (run_recorded_of (with_tables db s) (payload_state payload) o [r] _ _ _ run h w Hr); constructor; try done; cbn [DomainRecordInput.payload] in *;
      [rewrite P1; exact Hh|rewrite P2; exact Hrn].
  - apply bool_decide_eq_false in Ei. apply store_payload_Ok in Ha as (s & entries & r & Hd & Hr & Hro). rewrite Eok in Hd.
    exists s, r. split; [exists batch, entries; by rewrite decide_False|]. split; [done|]. by destruct Hro.
Qed.
End record_facts.

(** ** The runtime on this store *)

Section run_on_store.
Context `{FromIso}.
Context `{!Table CandleKey OhlcvCandleRecord.t} `{!Table string SupportZoneRecord.t}
  `{!Table string StructureEventRecord.t} `{!Table string ReclaimAttemptRecord.t}.
Context (utc_now : nat -> aware) (job : ScheduledSourceJob.t) (db : Database).
Context (clock : nat -> res datetime) (load : res AdapterPayload.t).

(** The world of a run of the worker, whose store is [AtomicReclaimRuntimeStore] on a
    database that refuses nothing. *)
Definition store_env : Env :=
  MkEnv clock load
    (fun payload outcome => (fun _ => tt) <$> atomic_store_payload utc_now job db payload outcome)
    (fun outcome => (fun _ => tt) <$> store_failure utc_now job db outcome).

(** And on one that may refuse. *)
Context (refusal : res Database -> option exn).
Notation payload_attempt payload o := (atomic_store_payload utc_now job db payload o).
Notation failure_attempt o := (store_failure utc_now job db o).

Definition database_env : Env :=
  MkEnv clock load
    (fun payload outcome => (fun _ => tt) <$> answered refusal (payload_attempt payload outcome))
    (fun outcome => (fun _ => tt) <$> answered refusal (failure_attempt outcome)).

(** *** How a run ends *)

(** The payload names the job's adapter, twice. *)
Definition from_source (payload : AdapterPayload.t) : Prop :=
  str_strip (AdapterPayload.name payload) = str_strip (ScheduledSourceJob.adapter_name job) /\
  str_strip (AdapterHealth.name (AdapterPayload.health payload)) = str_strip (ScheduledSourceJob.adapter_name job).

(** The clock gave an aware time, and the load a payload of the source. *)
Definition load_gave (payload : AdapterPayload.t) : Prop :=
  (exists t, clock 0%nat = Ok (AwareDT t)) /\ load = Ok payload /\ from_source payload.

(** Why there is no such payload. *)
Inductive no_payload (e : exn) : Prop :=
| clock_raised : clock 0%nat = Err e -> no_payload e
| clock_naive t : clock 0%nat = Ok (NaiveDT t) ->
    e = ValueError "runtime clock must return a timezone-aware datetime" -> no_payload e
| load_raised : load = Err e -> no_payload e
| load_misnamed payload : load = Ok payload -> ~ from_source payload ->
    e ∈ [ValueError "adapter payload name mismatch"; ValueError "adapter health name mismatch"] -> no_payload e.

Definition status_of_state (state : AdapterState.t) : WorkerRunStatus.t :=
  match state with
  | AdapterState.OK => WorkerRunStatus.SUCCEEDED
  | AdapterState.DEGRADED => WorkerRunStatus.DEGRADED
  | AdapterState.DOWN => WorkerRunStatus.FAILED
  end.

(** The outcome of a payload, of a failure, and of a transaction that was lost. *)
Definition outcome_of_payload (payload : AdapterPayload.t) (o : WorkerRunOutcome.t) : Prop :=
  WorkerRunOutcome.status o = status_of_state (payload_state payload) /\
  WorkerRunOutcome.message o = AdapterHealth.message (AdapterPayload.health payload).
Definition outcome_of_failure (e : exn) (o : WorkerRunOutcome.t) : Prop :=
  if decide (exn_type e = "TimeoutError")
  then WorkerRunOutcome.status o = WorkerRunStatus.TIMED_OUT /\ WorkerRunOutcome.message o = "source load timed out"
  else WorkerRunOutcome.status o = WorkerRunStatus.FAILED /\ WorkerRunOutcome.message o = _error_message e.
Definition outcome_of_loss (e : exn) (o : WorkerRunOutcome.t) : Prop :=
  WorkerRunOutcome.status o = WorkerRunStatus.PERSISTENCE_FAILED /\ WorkerRunOutcome.message o = _error_message e.

Inductive run_end (o : WorkerRunOutcome.t) : Prop :=
| end_payload payload db' s r :
    load_gave payload -> outcome_of_payload payload o -> refusal (payload_attempt payload o) = None ->
    payload_attempt payload o = Ok db' -> payload_tables job db payload s ->
    run_recorded job (with_tables db s) db' (payload_state payload) o [r] ->
    DomainRecord.record_type r = str_strip (_payload_record_type job payload) -> run_end o
| end_lost payload o1 e :
    load_gave payload -> outcome_of_payload payload o1 -> outcome_of_loss e o ->
    transaction db (answered refusal (payload_attempt payload o1)) = (db, Err e) ->
    refusal (payload_attempt payload o1) = Some e \/
    payload_attempt payload o1 = Err e /\
      (ok_structure job payload = true \/ json_ready (obj_of (VDict (AdapterPayload.data payload))) = false) -> run_end o
| end_failure e db' :
    no_payload e -> outcome_of_failure e o -> refusal (failure_attempt o) = None ->
    failure_attempt o = Ok db' -> run_recorded job db db' AdapterState.DOWN o [] -> run_end o
| end_unrecorded e o1 e' :
    no_payload e -> outcome_of_failure e o1 -> outcome_of_loss e' o ->
    transaction db (answered refusal (failure_attempt o1)) = (db, Err e') ->
    refusal (failure_attempt o1) = Some e' -> run_end o.

Context (Hjob : job_named job).
Context (Hclock : forall n t, clock n = Ok (AwareDT t) -> python_time t).

Lemma job_name_nonblank : str_empty (str_strip (ScheduledSourceJob.name job)) = false.
Proof. destruct Hjob as [-> Hn]. done. Qed.

(** An outcome of times in order, whose transaction was lost, is reported so. *)
Lemma lost_reported n o state e : utc (WorkerRunOutcome.started_at o) <= utc (WorkerRunOutcome.finished_at o) ->
  exists o', persistence_failed database_env job n o state e = Ok o' /\ outcome_of_loss e o'.
Proof.
  intros Ho. unfold persistence_failed. pose proof (safe_clock_le database_env n (WorkerRunOutcome.finished_at o)).
  rewrite new_outcome_Ok by (apply job_name_nonblank || lia). by eexists.
Qed.

(** A failure is recorded, unless the database refuses. *)
Lemma handle_failure_ends n started_at e :
  python_time started_at -> no_payload e -> exists o, handle_failure database_env job n started_at e = Ok o /\ run_end o.
Proof.
  intros Hs He. unfold handle_failure. cbv zeta. pose proof (safe_clock_le database_env n started_at) as Hle.
  pose proof (safe_clock_python database_env Hclock n started_at Hs) as Hf.
  set (finished_at := _safe_clock_not_before database_env n started_at) in *.
  assert (forall o, spanned o -> utc (WorkerRunOutcome.started_at o) <= utc (WorkerRunOutcome.finished_at o) ->
    outcome_of_failure e o -> exists o', _persist_failure database_env job (S n) o = Ok o' /\ run_end o') as Hend.
  { intros o Hspan Ho Hst. unfold _persist_failure, database_env. cbn [Runtime.persist_failure].
    destruct (store_failure_total utc_now job Hjob db o Hspan) as (db' & Hdb & Hr).
    destruct (refusal (failure_attempt o)) as [e'|] eqn:Er; unfold answered; rewrite Er; [|rewrite Hdb; exists o; split; [done|by eapply end_failure]].
    cbn [fmap res_fmap]. destruct (lost_reported (S n) o (Some AdapterState.DOWN) e' Ho) as (o' & Ho' & Hl).
    exists o'. split; [exact Ho'|]. apply (end_unrecorded o' e o e'); try done. unfold answered. by rewrite Er. }
  assert (forall st msg, spanned (WorkerRunOutcome.Mk (ScheduledSourceJob.name job) (ScheduledSourceJob.kind job) st started_at
    finished_at (Some AdapterState.DOWN) msg)) as Hspan by (intros; by apply python_spanned).
  case_decide as Ht; rewrite new_outcome_Ok by (done || apply job_name_nonblank); bind_ok; apply Hend; try done;
    unfold outcome_of_failure; by case_decide.
Qed.

(** Validation accepts the payloads of the source. *)
Lemma validate_payload_Ok payload : _validate_payload job payload = Ok tt <-> from_source payload.
Proof.
  unfold _validate_payload, from_source. cbv zeta. split.
  - intros Hv. guards. done.
  - intros [-> ->]. by rewrite !bool_decide_eq_true_2.
Qed.

Lemma validate_payload_Err payload e : _validate_payload job payload = Err e ->
  ~ from_source payload /\ e ∈ [ValueError "adapter payload name mismatch"; ValueError "adapter health name mismatch"].
Proof.
  intros Hv. split; [by rewrite <- validate_payload_Ok, Hv|]. unfold _validate_payload in Hv. cbv zeta in Hv.
  apply bind_Err in Hv as [[_ ->]%raise_if_Err|(u & _ & [_ ->]%raise_if_Err)]; set_solver.
Qed.

(** A payload of the source is stored, or lost. *)
Lemma load_ends started_at payload :
  python_time started_at -> load_gave payload -> exists o, load_and_persist database_env job started_at = Ok o /\ run_end o.
Proof.
  intros Hs Hl. pose proof Hl as (_ & Hload & Hsrc). unfold load_and_persist. cbn [Runtime.load database_env].
  rewrite Hload. bind_ok. rewrite (proj2 (validate_payload_Ok payload) Hsrc). bind_ok. cbv zeta.
  pose proof (safe_clock_le database_env 1 started_at) as Hle.
  pose proof (safe_clock_python database_env Hclock 1 started_at Hs) as Hf.
  rewrite new_outcome_Ok by (done || apply job_name_nonblank). rewrite Ok_bind.
  set (o1 := WorkerRunOutcome.Mk _ _ _ _ _ _ _).
  assert (spanned o1) as Hspan by (by apply python_spanned). assert (outcome_of_payload payload o1) as Ho1 by done.
  unfold _persist_payload, database_env. cbn [Runtime.persist_payload].
  assert (forall e, answered refusal (payload_attempt payload o1) = Err e ->
    refusal (payload_attempt payload o1) = Some e \/ payload_attempt payload o1 = Err e /\
      (ok_structure job payload = true \/ json_ready (obj_of (VDict (AdapterPayload.data payload))) = false) ->
    exists o, persistence_failed database_env job 2 o1 (WorkerRunOutcome.adapter_state o1) e = Ok o /\ run_end o) as Hlost.
  { intros e He Hwhy. destruct (lost_reported 2 o1 (WorkerRunOutcome.adapter_state o1) e) as (o & Ho & Hlo); [done|].
    exists o. split; [done|]. apply (end_lost o payload o1 e); try done. by rewrite He. }
  destruct (answered refusal (payload_attempt payload o1)) as [db'|e] eqn:Est; cbn [fmap res_fmap].
  - exists o1. split; [done|]. unfold answered in Est. destruct (refusal _) eqn:Er; [done|].
    destruct (atomic_store_payload_Ok utc_now job Hjob db payload o1 db' Est) as (s & r & Hd & Hr & Hty).
    by eapply end_payload.
  - apply Hlost; [done|]. unfold answered in Est. destruct (refusal _) as [e'|] eqn:Er; [left; congruence|right].
    split; [done|]. destruct (ok_structure job payload) eqn:Eok; [by left|right].
    destruct (json_ready (obj_of (VDict (AdapterPayload.data payload)))) eqn:Ej; [|done].
    destruct (store_payload_plain utc_now job Hjob db payload o1 Hspan Eok Ej) as (db' & r & Hdb & _).
    unfold atomic_store_payload in Est. rewrite Eok in Est. cbn [negb] in Est. congruence.
Qed.

(** Before there is a payload, only the clock, the load and the validation raise. *)
Lemma first_clock now :
  match _clock_not_before database_env 0 now with
  | Ok _ => exists t, clock 0%nat = Ok (AwareDT t)
  | Err e => no_payload e
  end.
Proof.
  unfold _clock_not_before, _aware_clock. cbn [Runtime.clock database_env].
  destruct (clock 0%nat) as [[t|t]|e] eqn:Ec; cbn [require_aware mbind res_bind]; [by exists t|by eapply clock_naive|by apply clock_raised].
Qed.

Lemma load_raises started_at e t :
  python_time started_at -> clock 0%nat = Ok (AwareDT t) -> load_and_persist database_env job started_at = Err e -> no_payload e.
Proof.
  intros Hs Hc Hl. destruct load as [payload|e'] eqn:El.
  - destruct (_validate_payload job payload) as [[]|e'] eqn:Ev.
    + destruct (load_ends started_at payload Hs) as (o & Ho & _); [|congruence].
      split; [by exists t|]. split; [done|]. by apply validate_payload_Ok.
    + unfold load_and_persist in Hl. cbn [Runtime.load database_env] in Hl. rewrite El, Ok_bind, Ev in Hl.
      injection Hl as <-. apply validate_payload_Err in Ev as [Hn He]. by eapply load_misnamed.
  - unfold load_and_persist in Hl. cbn [Runtime.load database_env] in Hl. rewrite El in Hl. injection Hl as <-.
    by apply load_raised.
Qed.
End run_on_store.

(** ** Property *)


(** *** A concrete run *)

Definition sample_session : Session :=
  MkSession (∅ : gmap CandleKey OhlcvCandleRecord.t) (∅ : gmap string SupportZoneRecord.t)
    (∅ : gmap string StructureEventRecord.t) (∅ : gmap string ReclaimAttemptRecord.t).

Definition sample_database : Database := MkDatabase sample_session [].

(** A database that refuses a record whose symbol is wider than its column. *)
Definition symbol_refusal (attempt : res Database) : option exn :=
  match attempt with
  | Ok db => if forallb (fun r => (String.length (DomainRecord.symbol r) <=? 100)%nat) (domain_records db) then None
             else Some (Exn "DBAPIError" "value too long for type character varying(100)")
  | Err _ => None
  end.

Definition sample_clock (n : nat) : res datetime :=
  if (n <? 9)%nat then Ok (AwareDT (at_second (Z.of_nat n))) else Err (ValueError "clock stopped").


Example wide_name_is_lost :
  let name := of_chars (replicate 101 (Ascii.ascii_of_nat 120)) in
  WorkerRunOutcome.status <$> _run_job (database_env (fun n => at_second (Z.of_nat n)) (sample_job name 30) sample_database
      sample_clock (Err (Exn "OSError" "down")) symbol_refusal) (sample_job name 30) (at_second 0) =
    Ok WorkerRunStatus.PERSISTENCE_FAILED.
Proof. vm_compute. reflexivity. Qed.
