(* ===== verification/SharedStore.v ===== *)
(** * Runs that share a database: [RuntimeOrchestrator] on [AtomicReclaimRuntimeStore]

    The tasks of [Orchestration] write to one database.  A task awaits its store, and a
    store opens a session, reads and writes in one transaction and commits it: it is one
    step, so that the step of a task in [PPersist] or [PFailure] reads the database as the
    commits before it left it, and commits what the store writes or leaves the database
    when the store raises.  The database refuses nothing here ([every_run_is_recorded] is
    about one that may).  Left out are what it does to transactions that overlap and a cancellation that arrives between a commit and the return of the store:
    a task cancelled at its store has written nothing. *)

From stdpp Require Import list strings gmap.
From S2P Require Import Prelude PyList PyStr PyTime IsoTime PyValue Adapters Candles Repository CandleRepository.
From S2P Require Import StructureRepository ReclaimRepository Runtime Orchestration RuntimeStore.
Open Scope Z_scope.

Section shared.
Context `{FromIso}.
Context `{!Table CandleKey OhlcvCandleRecord.t} `{!Table string SupportZoneRecord.t}
  `{!Table string StructureEventRecord.t} `{!Table string ReclaimAttemptRecord.t}.
Context (utc_now : nat -> aware).
(** The clock of the [i]-th task and what its load gives. *)
Context (clocks : nat -> nat -> res datetime) (loads : nat -> res AdapterPayload.t).

Definition shared_env (db : Database) (job : ScheduledSourceJob.t) (i : nat) : Env :=
  store_env utc_now job db (clocks i) (loads i).

(** The database after the step of a task. *)
Definition commit (db : Database) (t : Task) : Database :=
  match phase t with
  | PPersist _ payload outcome => fst (transaction db (atomic_store_payload utc_now (job t) db payload outcome))
  | PFailure _ outcome => fst (transaction db (store_failure utc_now (job t) db outcome))
  | _ => db
  end.

Definition exec_shared (a : action) (s : Config * Database) : option (Config * Database) :=
  let '(c, db) := s in
  match a with
  | Resume i =>
      t ← tasks c !! i;
      c' ← exec (shared_env db (job t)) a c;
      mret (c', commit db t)
  | RunDue now => mret (fst (call_run_due now c), db)
  | Cancel i =>
      t ← tasks c !! i;
      c' ← exec (shared_env db (job t)) a c;
      mret (c', db)
  end.

Fixpoint execs_shared (acts : list action) (s : Config * Database) : option (Config * Database) :=
  match acts with [] => Some s | a :: acts' => s ← exec_shared a s; execs_shared acts' s end.

(** ** The runs in the database *)

(** The job, the status and the message of a run, as its record shows them. *)
Definition run_key (r : DomainRecord.t) : pyval * string * pyval :=
  (dict_get (DomainRecord.payload r) "job_name", DomainRecord.state r, dict_get (DomainRecord.payload r) "message").

Definition run_keys (rs : list DomainRecord.t) : list (pyval * string * pyval) :=
  run_key <$> List.filter (fun r => bool_decide (DomainRecord.record_type r = "worker_run")) rs.

(** The same of a task that has ended with an outcome the store has accepted. *)
Definition outcome_key (job : ScheduledSourceJob.t) (o : WorkerRunOutcome.t) : pyval * string * pyval :=
  (VStr (ScheduledSourceJob.name job), WorkerRunStatus.value (WorkerRunOutcome.status o), VStr (WorkerRunOutcome.message o)).

Definition done_key (t : Task) : option (pyval * string * pyval) :=
  match phase t with
  | PDone (Ok o) =>
      if bool_decide (WorkerRunOutcome.status o = WorkerRunStatus.PERSISTENCE_FAILED) then None else Some (outcome_key (job t) o)
  | _ => None
  end.

(** ** Facts: one transaction *)

Lemma run_keys_app l k : run_keys (l ++ k) = run_keys l ++ run_keys k.
Proof. unfold run_keys. by rewrite List.filter_app, fmap_app. Qed.

Lemma run_recorded_keys job db db' state o before :
  run_recorded job db db' state o before ->
  Forall (fun r => DomainRecord.record_type r <> "worker_run") before ->
  exists rs, domain_records db' = domain_records db ++ rs /\ run_keys rs = [outcome_key job o].
Proof.
  intros [(hr & run & -> & Ht & _ & Htr & Hs & _ & Hj & Hm)] Hb. exists (before ++ [hr; run]). split; [done|].
  rewrite run_keys_app. assert (run_keys before = []) as ->.
  { unfold run_keys. induction Hb as [|r rs Hr _ IH]; [done|]. simpl. by rewrite bool_decide_eq_false_2. }
  unfold run_keys. simpl. rewrite Ht, Htr. simpl. unfold run_key, outcome_key. by rewrite Hs, Hj, Hm.
Qed.

Lemma payload_type_no_run job payload : str_strip (_payload_record_type job payload) <> "worker_run".
Proof. unfold _payload_record_type. case_bool_decide; [|done]. by destruct (ScheduledSourceJob.kind job). Qed.

Lemma store_failure_Ok job db o db' :
  job_named job -> store_failure utc_now job db o = Ok db' -> run_recorded job db db' AdapterState.DOWN o [].
Proof.
  intros Hj. unfold store_failure. cbv zeta. intros (run & Hr & Hs)%bind_Ok. apply bind_Ok in Hs as (db1 & H1 & H2).
  apply add_record_Ok in H1 as (hr & -> & Hho). apply add_record_Ok in H2 as (r & -> & Hro). rewrite appended_appended.
  by eapply (run_recorded_of job Hj db AdapterState.DOWN o []).
Qed.

(** What a store writes: records that show this run and no other. *)
Definition writes_run (db db' : Database) (keys : list (pyval * string * pyval)) : Prop :=
  exists rs, domain_records db' = domain_records db ++ rs /\ run_keys rs = keys.

Lemma commit_payload job db payload o db' :
  job_named job -> atomic_store_payload utc_now job db payload o = Ok db' -> writes_run db db' [outcome_key job o].
Proof.
  intros Hj (s & r & _ & Hr & Ht)%atomic_store_payload_Ok; [|done].
  apply (run_recorded_keys job (with_tables db s) db' _ o [r] Hr). constructor; [|constructor].
  rewrite Ht. apply payload_type_no_run.
Qed.

Lemma commit_failure job db o db' :
  job_named job -> store_failure utc_now job db o = Ok db' -> writes_run db db' [outcome_key job o].
Proof. intros Hj Hr%store_failure_Ok; [|done]. by apply (run_recorded_keys job db db' _ o [] Hr). Qed.

Lemma writes_nothing db : writes_run db db [].
Proof. exists []. by rewrite app_nil_r. Qed.

(** ** Facts: one step *)

Definition not_lost (o : WorkerRunOutcome.t) : Prop := WorkerRunOutcome.status o <> WorkerRunStatus.PERSISTENCE_FAILED.

(** The outcome that awaits its store is that of a run that ended. *)
Definition pending_ok (p : Phase) : Prop :=
  match p with PPersist _ _ o | PFailure _ o => not_lost o | _ => True end.

Definition phase_key (job : ScheduledSourceJob.t) (p : Phase) : list (pyval * string * pyval) :=
  option_list (done_key (MkTask job (Aware 0 0) p)).

Lemma new_status name kind st a b state msg o :
  WorkerRunOutcome.new name kind st a b state msg = Ok o -> WorkerRunOutcome.status o = st.
Proof. unfold WorkerRunOutcome.new. intros Hn. guards. by subst o. Qed.

Lemma done_stored job o : not_lost o -> phase_key job (PDone (Ok o)) = [outcome_key job o].
Proof. intros Hn. unfold phase_key, done_key. cbn [phase]. by rewrite bool_decide_eq_false_2. Qed.

Lemma done_lost job env n o state e : phase_key job (PDone (persistence_failed env job n o state e)) = [].
Proof.
  unfold phase_key, done_key. cbn [phase]. destruct (persistence_failed env job n o state e) as [o'|e'] eqn:E; [|done].
  apply new_status in E. by rewrite bool_decide_eq_true_2.
Qed.

Lemma to_failure_pending env job n s e :
  pending_ok (to_failure env job n s e) /\ phase_key job (to_failure env job n s e) = [].
Proof.
  unfold to_failure, failure_outcome. cbv zeta. case_decide.
  all: destruct (WorkerRunOutcome.new _ _ _ _ _ _ _) as [o|e'] eqn:E; [|done]; apply new_status in E; simpl;
    unfold not_lost; by rewrite E.
Qed.

(** A step of a task commits the run of the phase it reaches, or nothing when that is no
    end or the store has refused it. *)
Lemma resume_commits db i t p :
  job_named (job t) -> pending_ok (phase t) ->
  next_phase (shared_env db (job t) i) (job t) (scheduled_now t) (phase t) = Some p ->
  pending_ok p /\ writes_run db (commit db t) (phase_key (job t) p).
Proof.
  intros Hj Hp Hn. unfold commit.
  destruct (phase t) as [|s|s payload o|n o|r| |]; simpl in Hn; try done; injection Hn as <-; simpl in Hp.
  - unfold start. destruct (_clock_not_before _ 0 _) as [s|e]; [by split; [|apply writes_nothing]|].
    edestruct to_failure_pending as [H1 ->]. split; [exact H1|apply writes_nothing].
  - unfold loaded. destruct (loaded_outcome _ (job t) s) as [[payload o]|e] eqn:E.
    + split; [|apply writes_nothing]. unfold loaded_outcome in E. apply bind_Ok in E as (p & _ & E). apply bind_Ok in E as ([] & _ & E).
      cbv zeta in E. apply bind_Ok in E as (o' & Ho & E). apply Ok_inj in E. simplify_eq. apply new_status in Ho. simpl. unfold not_lost.
      rewrite Ho. unfold _status_for_payload. by destruct (AdapterHealth.state _).
    + edestruct to_failure_pending as [H1 ->]. split; [exact H1|apply writes_nothing].
  - unfold persisted, _persist_payload. cbn [persist_payload shared_env store_env].
    destruct (atomic_store_payload utc_now (job t) db payload o) as [db'|e] eqn:E; cbn [fmap res_fmap transaction fst].
    + change (mret o) with (Ok o). cbv iota. split; [done|]. rewrite done_stored by done. by eapply commit_payload.
    + destruct (persistence_failed _ _ _ _ _ _) as [o'|e'] eqn:Ep; cbv iota.
      * split; [done|]. rewrite <- Ep, done_lost. apply writes_nothing.
      * edestruct to_failure_pending as [H1 ->]. split; [exact H1|apply writes_nothing].
  - unfold _persist_failure. cbn [persist_failure shared_env store_env].
    destruct (store_failure utc_now (job t) db o) as [db'|e] eqn:E; cbn [fmap res_fmap transaction fst]; (split; [done|]).
    + change (mret o) with (Ok o). rewrite done_stored by done. by eapply commit_failure.
    + rewrite done_lost. apply writes_nothing.
Qed.

(** ** Facts: executions *)

Definition keys_of (ts : list Task) : list (pyval * string * pyval) := ts ≫= fun t => phase_key (job t) (phase t).

Record shared_ok (db0 : Database) (s : Config * Database) : Prop := {
  so_jobs : Forall job_named (_jobs (orch s.1));
  so_tasks : Forall (fun t => job_named (job t) /\ pending_ok (phase t)) (tasks s.1);
  so_runs : exists rs, domain_records s.2 = domain_records db0 ++ rs /\ run_keys rs ≡ₚ keys_of (tasks s.1) }.

(** Replacing a task that has shown nothing. *)
Lemma keys_of_insert ts i t t' :
  ts !! i = Some t -> phase_key (job t) (phase t) = [] ->
  keys_of (<[i := t']> ts) ≡ₚ keys_of ts ++ phase_key (job t') (phase t').
Proof.
  intros Hi Ht. rewrite <- (take_drop_middle ts i t Hi) at 2. rewrite insert_take_drop by (by eapply lookup_lt_Some).
  unfold keys_of. rewrite !bind_app. simpl. rewrite Ht. simpl. by rewrite <- app_assoc, (Permutation_app_comm (phase_key _ _)).
Qed.

Lemma active_no_key t : active t = true -> phase_key (job t) (phase t) = [].
Proof. unfold active, phase_key, done_key. cbn [phase]. by destruct (phase t). Qed.

(** A step of one task, with what it commits. *)
Lemma set_task_shared db0 c db i t p db' :
  shared_ok db0 (c, db) -> tasks c !! i = Some t -> active t = true ->
  pending_ok p -> writes_run db db' (phase_key (job t) p) ->
  shared_ok db0 (set_task c i (MkTask (job t) (scheduled_now t) p), db').
Proof.
  intros [Hj Ht (rs & Hrs & Hk)] Hi Ha Hp (rs' & Hrs' & Hk'). cbn [fst snd] in *. constructor; cbn [fst snd set_task tasks orch].
  - unfold end_task. by destruct (holds _).
  - apply Forall_insert; [done|]. split; [|done]. apply (Forall_lookup_1 _ _ _ _ Ht Hi).
  - exists (rs ++ rs'). split; [by rewrite Hrs', Hrs, app_assoc|].
    rewrite run_keys_app, Hk, Hk', (keys_of_insert _ _ _ _ Hi (active_no_key t Ha)). done.
Qed.

Lemma claim_job_jobs now o j : _jobs (fst (claim_job now o j)) = _jobs o.
Proof.
  unfold claim_job. cbv zeta. destruct (next_run_at o _) as [[tm|]|e]; [| |done].
  2:{ destruct (after_seconds now (RuntimeSchedule.initial_delay_seconds _)) as [tm|e]; [|done].
      destruct (_ || _); [done|]. by destruct (after_seconds _ _). }
  destruct (_ || _); [done|]. by destruct (after_seconds _ _).
Qed.

Lemma claim_jobs_jobs now o jobs :
  _jobs (fst (claim_jobs now o jobs)) = _jobs o /\
  forall due, snd (claim_jobs now o jobs) = Ok due -> due ⊆ jobs.
Proof.
  revert o. induction jobs as [|j jobs IH]; intros o; cbn [claim_jobs]; [split; [done|by intros due [= <-]]|].
  pose proof (claim_job_jobs now o j) as Hj. destruct (claim_job now o j) as [o1 [b|e]]; cbn [fst] in Hj; [|by split].
  specialize (IH o1). destruct (claim_jobs now o1 jobs) as [o2 [l|e]]; cbn [fst snd] in *; destruct IH as [Hk Hl];
    (split; [congruence|intros due Hdue]); [|discriminate Hdue].
  injection Hdue as <-. specialize (Hl l eq_refl). destruct b; set_solver.
Qed.

Lemma call_shared db0 c db now : shared_ok db0 (c, db) -> shared_ok db0 (fst (call_run_due now c), db).
Proof.
  intros Hs. pose proof Hs as [Hj Ht Hr]. cbn [fst snd] in *. unfold call_run_due, claim_due.
  destruct now as [now|now]; cbn [require_aware]; [|done].
  pose proof (claim_jobs_jobs now (orch c) (_jobs (orch c))) as [Hk Hd].
  destruct (claim_jobs now (orch c) (_jobs (orch c))) as [o' [due|e]]; cbn [fst snd] in *.
  2:{ constructor; cbn [fst snd orch tasks]; [by rewrite Hk|done|done]. }
  specialize (Hd due eq_refl). constructor; cbn [fst snd orch tasks]; [by rewrite Hk| |].
  - apply Forall_app. split; [done|]. apply Forall_fmap, Forall_forall. intros j Hin. split; [|done]. cbn [job].
    eapply Forall_forall in Hj; [exact Hj|]. by apply Hd.
  - destruct Hr as (rs & Hrs & Hkeys). exists rs. split; [done|]. rewrite Hkeys. unfold keys_of. rewrite bind_app.
    assert (new_tasks now due ≫= (fun t => phase_key (job t) (phase t)) = []) as ->; [|by rewrite app_nil_r].
    induction due as [|j due IH]; [done|]. apply IH. set_solver.
Qed.

Lemma exec_shared_ok db0 a s s' : shared_ok db0 s -> exec_shared a s = Some s' -> shared_ok db0 s'.
Proof.
  destruct s as [c db]. intros Hs. destruct a as [now|i|i]; unfold exec_shared.
  - intros [= <-]. by apply call_shared.
  - intros (t & Hi & H1)%bind_Some. apply bind_Some in H1 as (c' & Hc & [= <-]). unfold exec in Hc. rewrite Hi in Hc. cbn [mbind option_bind] in Hc.
    apply bind_Some in Hc as (p & Hp & [= <-]). pose proof (so_tasks _ _ Hs) as Ht. cbn [fst] in Ht.
    destruct (Forall_lookup_1 _ _ _ _ Ht Hi) as [Hj Hpend].
    destruct (resume_commits db i t p Hj Hpend Hp) as [Hp' Hw]. apply (set_task_shared db0 c db i t p _ Hs Hi); [|done..].
    apply active_left, (next_phase_active (shared_env db (job t) i) (job t) (scheduled_now t)). by exists p.
  - intros (t & Hi & H1)%bind_Some. apply bind_Some in H1 as (c' & Hc & [= <-]). unfold exec in Hc. rewrite Hi in Hc. cbn [mbind option_bind] in Hc.
    destruct (active t) eqn:Ea; [|by unfold active in Ea; destruct (phase t)].
    destruct (phase t); injection Hc as <-; (apply (set_task_shared db0 c db i t _ _ Hs Hi Ea); [done|apply writes_nothing]).
Qed.

Lemma execs_shared_ok db0 acts s s' : shared_ok db0 s -> execs_shared acts s = Some s' -> shared_ok db0 s'.
Proof.
  revert s. induction acts as [|a acts IH]; intros s Hs; simpl; [by intros [= <-]|].
  intros (s1 & H1 & H2)%bind_Some. eapply IH; [|done]. by eapply exec_shared_ok.
Qed.

Lemma keys_of_omap ts : keys_of ts = omap done_key ts.
Proof.
  induction ts as [|t ts IH]; [done|].
  change (keys_of (t :: ts)) with (option_list (done_key t) ++ keys_of ts). rewrite IH. simpl. by destruct (done_key t).
Qed.
End shared.

(** ** Property *)

(** C11: runs that share a database do not get in each other's way.  Whatever calls of
    [run_due] are made and in whatever order the tasks step, are cancelled, load, fail and
    commit, no record is ever changed or removed, and the runs in the database are those
    the tasks have reported: one [worker_run] record, with the job, the status and the
    message, for each task that ended with an outcome other than PERSISTENCE_FAILED, and
    none for a task that still runs, was cancelled or could not be persisted. *)
Theorem concurrent_runs_are_recorded `{FromIso} `{!Table CandleKey OhlcvCandleRecord.t} `{!Table string SupportZoneRecord.t}
    `{!Table string StructureEventRecord.t} `{!Table string ReclaimAttemptRecord.t} utc_now clocks loads o db0 acts c db :
  Forall job_named (_jobs o) ->
  execs_shared utc_now clocks loads acts (initial o, db0) = Some (c, db) ->
  exists rs, domain_records db = domain_records db0 ++ rs /\ run_keys rs ≡ₚ omap done_key (tasks c).
Proof.
  intros Hj H1. apply (execs_shared_ok utc_now clocks loads db0) in H1 as [_ _ Hr].
  - cbn [fst snd] in Hr. by rewrite keys_of_omap in Hr.
  - constructor; [done|constructor|]. exists []. by rewrite app_nil_r.
Qed.

(** *** Two runs: the load of the first fails, the data of the second are stored *)

Definition sample_loads (i : nat) : res AdapterPayload.t :=
  if (i =? 0)%nat then Err (Exn "OSError" "down") else Ok sample_payload.

Definition sample_run : option (Config * Database) :=
  execs_shared (fun n => at_second (Z.of_nat n)) (fun _ n => Ok (AwareDT (at_second (Z.of_nat n)))) sample_loads
    (RunDue (AwareDT (at_second 0)) :: overtaking) (initial sample_orchestrator, sample_database).

Lemma concurrent_runs_are_recorded_witness :
  exists c db, sample_run = Some (c, db) /\
    run_keys (domain_records db) ≡ₚ [(VStr "fast", "FAILED", VStr "OSError: down"); (VStr "slow", "SUCCEEDED", VStr "ok")].
Proof.
  assert ((omap done_key ∘ tasks ∘ fst) <$> sample_run =
    Some [(VStr "fast", "FAILED", VStr "OSError: down"); (VStr "slow", "SUCCEEDED", VStr "ok")]) as Hk by (vm_compute; reflexivity).
  destruct sample_run as [[c db]|] eqn:E; [|discriminate Hk].
  edestruct concurrent_runs_are_recorded as (rs & Hrs & Hp); [|exact E|]; [repeat constructor|].
  exists c, db. split; [reflexivity|]. injection Hk as Hk. unfold compose in Hk. cbn [fst] in Hk. rewrite Hk in Hp.
  cbn [domain_records sample_database app] in Hrs. rewrite Hrs. exact Hp.
Defined.
