(* ===== verification/Supervision.v ===== *)
(** * The supervisor: [runtime/supervisor.py], [runtime/telemetry.py], [runtime/retention.py]

    A cycle runs the due jobs, counts their outcomes, raises an alert when a job has
    failed so often in a row, logs both, and now and then deletes old records.  The orchestrator's
    [run_due] and the deletion are arguments; what they return is what they returned. *)

From stdpp Require Import list strings gmap.
From S2P Require Import Prelude PyList PyStr PyTime PyFloat PyValue Adapters Runtime RuntimeStore.
Open Scope Z_scope.

(** ** [runtime/telemetry.py] *)

Definition FAILURE_STATUSES : list WorkerRunStatus.t :=
  [WorkerRunStatus.FAILED; WorkerRunStatus.TIMED_OUT; WorkerRunStatus.PERSISTENCE_FAILED].

Module RuntimeAlert.
Record t : Type := Mk {
  job_name : string;
  status : WorkerRunStatus.t;
  consecutive_failures : Z;
  message : string }.
Definition new (job_name : string) (status : WorkerRunStatus.t) (consecutive_failures : Z) (message : string) : res t :=
  raise_if (str_empty (str_strip job_name)) "alert job_name is required" ;;
  raise_if (consecutive_failures <? 1) "consecutive_failures must be positive" ;;
  mret (Mk job_name status consecutive_failures message).
End RuntimeAlert.

(** The keys of the first dictionary are members of a [StrEnum], which hash and compare as
    their values. *)
Record RuntimeMetrics : Type := MkMetrics {
  total_runs : Z;
  status_counts : gmap string Z;
  consecutive_failures : gmap string Z;
  last_status : gmap string WorkerRunStatus.t }.

Definition new_metrics : RuntimeMetrics := MkMetrics 0 ∅ ∅ ∅.

Definition is_failure (o : WorkerRunOutcome.t) : bool := bool_decide (WorkerRunOutcome.status o ∈ FAILURE_STATUSES).

(** [total_runs], [status_counts] and [last_status] count the outcome. *)
Definition count_outcome (m : RuntimeMetrics) (o : WorkerRunOutcome.t) : RuntimeMetrics :=
  let status := WorkerRunStatus.value (WorkerRunOutcome.status o) in
  MkMetrics (total_runs m + 1) (<[status := default 0 (status_counts m !! status) + 1]> (status_counts m))
    (consecutive_failures m)
    (<[WorkerRunOutcome.job_name o := WorkerRunOutcome.status o]> (last_status m)).

Definition set_failures (m : RuntimeMetrics) (job_name : string) (count : Z) : RuntimeMetrics :=
  MkMetrics (total_runs m) (status_counts m) (<[job_name := count]> (consecutive_failures m)) (last_status m).

(** One turn of the loop of [observe]: the metrics are kept when an exception leaves it. *)
Definition observe_one (threshold : Z) (m : RuntimeMetrics) (o : WorkerRunOutcome.t) :
    RuntimeMetrics * res (option RuntimeAlert.t) :=
  let m := count_outcome m o in
  let job_name := WorkerRunOutcome.job_name o in
  if is_failure o then
    let failure_count := default 0 (consecutive_failures m !! job_name) + 1 in
    let m := set_failures m job_name failure_count in
    if failure_count =? threshold then
      (m, Some <$> RuntimeAlert.new job_name (WorkerRunOutcome.status o) failure_count (WorkerRunOutcome.message o))
    else (m, Ok None)
  else (set_failures m job_name 0, Ok None).

Fixpoint observe_all (threshold : Z) (m : RuntimeMetrics) (outcomes : list WorkerRunOutcome.t) :
    RuntimeMetrics * res (list RuntimeAlert.t) :=
  match outcomes with
  | [] => (m, Ok [])
  | o :: outcomes' =>
      match observe_one threshold m o with
      | (m, Err e) => (m, Err e)
      | (m, Ok alert) =>
          let '(m, alerts) := observe_all threshold m outcomes' in
          (m, (fun l => option_list alert ++ l) <$> alerts)
      end
  end.

Definition observe (m : RuntimeMetrics) (outcomes : list WorkerRunOutcome.t) (failure_alert_threshold : Z) :
    RuntimeMetrics * res (list RuntimeAlert.t) :=
  if failure_alert_threshold <? 1 then (m, Err (ValueError "failure_alert_threshold must be positive"))
  else observe_all failure_alert_threshold m outcomes.

Record RuntimeMetricsSnapshot : Type := MkSnapshot {
  observed_at : aware;
  metrics_seen : RuntimeMetrics }.

(** [snapshot]: copies of the dictionaries, the members as their values. *)
Definition snapshot (m : RuntimeMetrics) (now : datetime) : res RuntimeMetricsSnapshot :=
  now ← require_aware now "now must be timezone-aware";
  raise_if (total_runs m <? 0) "total_runs must be non-negative" ;;
  mret (MkSnapshot now m).

(** ** [runtime/retention.py] *)

Definition RUNTIME_RECORD_TYPES : list string :=
  ["execution_snapshot"; "benchmark_snapshot"; "discovery_snapshot"; "source_diagnostic"; "source_health";
   "worker_run"; "worker_metrics"].

Module RetentionPolicy.
Record t : Type := Mk { retention_days : Z; record_types : list string }.

(** [tuple(dict.fromkeys(items))]: the first occurrences. *)
Fixpoint first_occurrences (seen items : list string) : list string :=
  match items with
  | [] => []
  | x :: items' =>
      if bool_decide (x ∈ seen) then first_occurrences seen items' else x :: first_occurrences (x :: seen) items'
  end.

Definition new (retention_days : Z) (record_types : list string) : res t :=
  raise_if (retention_days <? 1) "retention_days must be positive" ;;
  let normalized := first_occurrences [] (List.filter (fun s => negb (str_empty s)) (str_strip <$> record_types)) in
  raise_if (bool_decide (normalized = [])) "record_types must not be empty" ;;
  mret (Mk retention_days normalized).
End RetentionPolicy.

Module RetentionResult.
Record t : Type := Mk { cutoff : aware; deleted_records : Z }.
End RetentionResult.

Definition expired_record (policy : RetentionPolicy.t) (cutoff : aware) (r : DomainRecord.t) : bool :=
  bool_decide (DomainRecord.record_type r ∈ RetentionPolicy.record_types policy) &&
  py_lt (DomainRecord.created_at r) cutoff.

(** [cleanup] of the rows of the table: those that stay, and the result.  The cut-off is
    taken to be a time Python can hold. *)
Definition cleanup (policy : RetentionPolicy.t) (records : list DomainRecord.t) (now : datetime) :
    res (list DomainRecord.t * RetentionResult.t) :=
  now ← require_aware now "now must be timezone-aware";
  retention ← delta_of_us (RetentionPolicy.retention_days policy * 86400 * us_per_second);
  let cutoff := time_add now (- retention) in
  let kept := List.filter (fun r => negb (expired_record policy cutoff r)) records in
  let rowcount := Z.of_nat (length records) - Z.of_nat (length kept) in
  mret (kept, RetentionResult.Mk cutoff (Z.max rowcount 0)).

(** ** [runtime/supervisor.py] *)

Record SupervisorCycle : Type := MkCycle {
  cycle_at : aware;
  outcomes : list WorkerRunOutcome.t;
  alerts : list RuntimeAlert.t;
  metrics : RuntimeMetricsSnapshot;
  retention : option RetentionResult.t }.

Record RuntimeSupervisor : Type := MkSupervisor {
  has_cleaner : bool;
  cleanup_interval_seconds : float;
  failure_alert_threshold : Z;
  sup_metrics : RuntimeMetrics;
  _next_cleanup_at : option aware }.

Definition new_supervisor (has_cleaner : bool) (tick_seconds cleanup_interval_seconds : float)
    (failure_alert_threshold : Z) : res RuntimeSupervisor :=
  raise_if (tick_seconds <=? fzero)%flt "tick_seconds must be positive" ;;
  raise_if (cleanup_interval_seconds <=? fzero)%flt "cleanup_interval_seconds must be positive" ;;
  raise_if (failure_alert_threshold <? 1) "failure_alert_threshold must be positive" ;;
  mret (MkSupervisor has_cleaner cleanup_interval_seconds failure_alert_threshold new_metrics None).

Definition with_metrics (s : RuntimeSupervisor) (m : RuntimeMetrics) : RuntimeSupervisor :=
  MkSupervisor (has_cleaner s) (cleanup_interval_seconds s) (failure_alert_threshold s) m (_next_cleanup_at s).
Definition with_next_cleanup (s : RuntimeSupervisor) (t : aware) : RuntimeSupervisor :=
  MkSupervisor (has_cleaner s) (cleanup_interval_seconds s) (failure_alert_threshold s) (sup_metrics s) (Some t).

Definition _cleanup_due (s : RuntimeSupervisor) (now : aware) : bool :=
  match _next_cleanup_at s with None => true | Some t => py_le t now end.

(** *** The log of a cycle *)

Module LogLevel.
Inductive t : Type := INFO | WARNING | ERROR.
#[global] Instance eq_dec : EqDecision t.
Proof. solve_decision. Defined.
End LogLevel.

Record LogLine : Type := MkLine { level : LogLevel.t; text : string }.

Definition outcome_level (o : WorkerRunOutcome.t) : LogLevel.t :=
  if bool_decide (WorkerRunOutcome.status o ∈
       [WorkerRunStatus.FAILED; WorkerRunStatus.TIMED_OUT; WorkerRunStatus.PERSISTENCE_FAILED]) then LogLevel.ERROR
  else if bool_decide (WorkerRunOutcome.status o = WorkerRunStatus.DEGRADED) then LogLevel.WARNING
  else LogLevel.INFO.

(** The arguments of the call of [log], of which [duration_ms] is computed. *)
Definition outcome_line (o : WorkerRunOutcome.t) : res LogLine :=
  duration_ms ← WorkerRunOutcome.duration_ms o;
  mret (MkLine (outcome_level o)
    ("runtime_job_complete job=" +:+ WorkerRunOutcome.job_name o +:+
     " kind=" +:+ SourceJobKind.value (WorkerRunOutcome.kind o) +:+
     " status=" +:+ WorkerRunStatus.value (WorkerRunOutcome.status o) +:+
     " duration_ms=" +:+ int_str duration_ms +:+ " message=" +:+ WorkerRunOutcome.message o)).

Definition _log_outcomes (outcomes : list WorkerRunOutcome.t) : res (list LogLine) := mapM outcome_line outcomes.

Definition _log_alerts (alerts : list RuntimeAlert.t) : list LogLine :=
  (fun a => MkLine LogLevel.ERROR
     ("runtime_failure_alert job=" +:+ RuntimeAlert.job_name a +:+
      " status=" +:+ WorkerRunStatus.value (RuntimeAlert.status a) +:+
      " consecutive_failures=" +:+ int_str (RuntimeAlert.consecutive_failures a) +:+
      " message=" +:+ RuntimeAlert.message a)) <$> alerts.

(** What a cycle meets outside: the clock, the outcomes of [run_due] and the result of the
    cleaner. *)
Record World : Type := MkWorld {
  sup_clock : res datetime;
  run_due : aware -> res (list WorkerRunOutcome.t);
  clean : aware -> res RetentionResult.t }.

(** The cleanup of a cycle; the state is kept when the [finally] clause raises. *)
Definition cycle_cleanup (s : RuntimeSupervisor) (w : World) (observed_at : aware) :
    RuntimeSupervisor * res (option RetentionResult.t) :=
  if has_cleaner s && _cleanup_due s observed_at then
    let retention := match clean w observed_at with Ok r => Some r | Err _ => None end in
    match after_seconds observed_at (cleanup_interval_seconds s) with
    | Ok t => (with_next_cleanup s t, Ok retention)
    | Err e => (s, Err e)
    end
  else (s, Ok None).

Definition run_cycle (s : RuntimeSupervisor) (w : World) (now : option datetime) : RuntimeSupervisor * res SupervisorCycle :=
  let at_time :=
    match now with
    | Some now => require_aware now "cycle time must be timezone-aware"
    | None => value ← sup_clock w; require_aware value "supervisor clock must return a timezone-aware datetime"
    end in
  match at_time with
  | Err e => (s, Err e)
  | Ok observed_at =>
      match run_due w observed_at with
      | Err e => (s, Err e)
      | Ok outcomes =>
          match observe (sup_metrics s) outcomes (failure_alert_threshold s) with
          | (m, Err e) => (with_metrics s m, Err e)
          | (m, Ok alerts) =>
              match _log_outcomes outcomes with
              | Err e => (with_metrics s m, Err e)
              | Ok _ =>
                  match cycle_cleanup (with_metrics s m) w observed_at with
                  | (s, Err e) => (s, Err e)
                  | (s, Ok retention) =>
                      (s, (fun seen => MkCycle observed_at outcomes alerts seen retention) <$>
                            snapshot (sup_metrics s) (AwareDT observed_at))
                  end
              end
          end
      end
  end.

(** ** Facts: metrics *)

(** The outcomes of a job, latest first, up to its last success. *)
Fixpoint leading {A} (p : A -> bool) (l : list A) : list A :=
  match l with [] => [] | x :: l' => if p x then x :: leading p l' else [] end.
Definition runs_of (name : string) (h : list WorkerRunOutcome.t) : list WorkerRunOutcome.t :=
  List.filter (fun o => bool_decide (WorkerRunOutcome.job_name o = name)) h.
Definition streak (name : string) (h : list WorkerRunOutcome.t) : Z :=
  Z.of_nat (length (leading is_failure (reverse (runs_of name h)))).

Lemma runs_of_snoc name h o :
  runs_of name (h ++ [o]) = runs_of name h ++ (if bool_decide (WorkerRunOutcome.job_name o = name) then [o] else []).
Proof. unfold runs_of. rewrite List.filter_app. simpl. by destruct (bool_decide _). Qed.

Lemma streak_snoc name h o :
  streak name (h ++ [o]) =
  if bool_decide (WorkerRunOutcome.job_name o = name) then if is_failure o then streak name h + 1 else 0
  else streak name h.
Proof.
  unfold streak. rewrite runs_of_snoc. case_bool_decide; [|by rewrite app_nil_r].
  rewrite reverse_snoc. simpl. destruct (is_failure o); simpl; lia.
Qed.

(** The metrics of a history. *)
Record represents (m : RuntimeMetrics) (h : list WorkerRunOutcome.t) : Prop := {
  rp_total : total_runs m = Z.of_nat (length h);
  rp_counts : forall s, default 0 (status_counts m !! WorkerRunStatus.value s) =
    count_where (fun o => bool_decide (WorkerRunOutcome.status o = s)) h;
  rp_failures : forall name, default 0 (consecutive_failures m !! name) = streak name h;
  rp_last : forall name, last_status m !! name = WorkerRunOutcome.status <$> last (runs_of name h) }.

Lemma new_metrics_represent : represents new_metrics [].
Proof. constructor; try done. Qed.

Lemma status_value_inj s s' : WorkerRunStatus.value s = WorkerRunStatus.value s' -> s = s'.
Proof. by destruct s, s'. Qed.

(** The alerts that outcomes raise after a history. *)
Fixpoint alerts_after (threshold : Z) (h outcomes : list WorkerRunOutcome.t) : list RuntimeAlert.t :=
  match outcomes with
  | [] => []
  | o :: outcomes' =>
      (if is_failure o && (streak (WorkerRunOutcome.job_name o) (h ++ [o]) =? threshold)
       then [RuntimeAlert.Mk (WorkerRunOutcome.job_name o) (WorkerRunOutcome.status o) threshold (WorkerRunOutcome.message o)]
       else []) ++ alerts_after threshold (h ++ [o]) outcomes'
  end.

Definition named (o : WorkerRunOutcome.t) : Prop := str_empty (str_strip (WorkerRunOutcome.job_name o)) = false.

Lemma count_outcome_represents m h o :
  represents m h ->
  let m' := count_outcome m o in
  total_runs m' = Z.of_nat (length (h ++ [o])) /\
  (forall s, default 0 (status_counts m' !! WorkerRunStatus.value s) =
    count_where (fun o => bool_decide (WorkerRunOutcome.status o = s)) (h ++ [o])) /\
  (forall name, last_status m' !! name = WorkerRunOutcome.status <$> last (runs_of name (h ++ [o]))).
Proof.
  intros [Ht Hc _ Hl]. cbv zeta. unfold count_outcome. cbn [total_runs status_counts last_status]. split_and!.
  - rewrite length_app, Ht. simpl. lia.
  - intros s. rewrite count_where_snoc. destruct (decide (WorkerRunOutcome.status o = s)) as [<-|Hne].
    + rewrite lookup_insert_eq, Hc, bool_decide_eq_true_2 by done. done.
    + rewrite lookup_insert_ne by (by intros ?%status_value_inj). rewrite Hc, bool_decide_eq_false_2 by done. lia.
  - intros name. rewrite runs_of_snoc. destruct (decide (WorkerRunOutcome.job_name o = name)) as [<-|Hne].
    + by rewrite lookup_insert_eq, bool_decide_eq_true_2, last_snoc.
    + by rewrite lookup_insert_ne, bool_decide_eq_false_2, app_nil_r.
Qed.

Lemma set_failures_represents m h o count :
  represents m h ->
  count = streak (WorkerRunOutcome.job_name o) (h ++ [o]) ->
  represents (set_failures (count_outcome m o) (WorkerRunOutcome.job_name o) count) (h ++ [o]).
Proof.
  intros Hr ->. destruct (count_outcome_represents m h o Hr) as (Ht & Hc & Hl).
  constructor; [exact Ht|exact Hc| |exact Hl]. intros name. unfold set_failures. cbn [consecutive_failures].
  destruct (decide (WorkerRunOutcome.job_name o = name)) as [<-|Hne]; [by rewrite lookup_insert_eq|].
  rewrite lookup_insert_ne by done. rewrite streak_snoc, bool_decide_eq_false_2 by done. apply (rp_failures _ _ Hr).
Qed.

Lemma observe_one_exact threshold m h o :
  1 <= threshold -> named o -> represents m h ->
  exists m' alert, observe_one threshold m o = (m', Ok alert) /\ represents m' (h ++ [o]) /\
    option_list alert =
      (if is_failure o && (streak (WorkerRunOutcome.job_name o) (h ++ [o]) =? threshold)
       then [RuntimeAlert.Mk (WorkerRunOutcome.job_name o) (WorkerRunOutcome.status o) threshold (WorkerRunOutcome.message o)]
       else []).
Proof.
  intros Ht Hn Hr. unfold observe_one. cbv zeta.
  pose proof (streak_snoc (WorkerRunOutcome.job_name o) h o) as Hs. rewrite bool_decide_eq_true_2 in Hs by done.
  change (consecutive_failures (count_outcome m o)) with (consecutive_failures m). rewrite (rp_failures _ _ Hr).
  destruct (is_failure o) eqn:Ef; cbn [andb].
  - rewrite <- Hs. pose proof (set_failures_represents m h o _ Hr eq_refl) as Hrep.
    destruct (Z.eqb_spec (streak (WorkerRunOutcome.job_name o) (h ++ [o])) threshold) as [E|Hne].
    + unfold RuntimeAlert.new. unfold named in Hn. rewrite Hn, E. cbn [raise_if]. bind_ok.
      rewrite guard_pass by (apply Z.ltb_ge; lia). eexists _, _. split; [reflexivity|]. rewrite E in Hrep. by split.
    + eexists _, _. split; [reflexivity|]. by split.
  - eexists _, _. split; [reflexivity|]. split; [|done]. by apply set_failures_represents.
Qed.

Lemma observe_exact threshold m h os :
  1 <= threshold -> Forall named os -> represents m h ->
  exists m', observe m os threshold = (m', Ok (alerts_after threshold h os)) /\ represents m' (h ++ os).
Proof.
  intros Ht Hn Hr. unfold observe. rewrite (proj2 (Z.ltb_ge _ _)) by done.
  revert m h Hr. induction Hn as [|o os Ho _ IH]; intros m h Hr; simpl; [exists m; by rewrite app_nil_r|].
  destruct (observe_one_exact threshold m h o Ht Ho Hr) as (m1 & alert & -> & Hr1 & Ha).
  destruct (IH m1 (h ++ [o]) Hr1) as (m2 & -> & Hr2). exists m2. rewrite <- app_assoc in Hr2. rewrite Ha. by split.
Qed.

(** ** Facts: the log *)

Lemma log_outcomes_total os : Forall spanned os -> exists lines, _log_outcomes os = Ok lines.
Proof.
  unfold _log_outcomes. induction 1 as [|o os Ho _ [lines IH]]; [by eexists|]. cbn [mapM].
  destruct (duration_ms_total o Ho) as [ms E].
  assert (exists l, outcome_line o = Ok l) as [l ->] by (unfold outcome_line; rewrite E; by eexists).
  bind_ok. rewrite IH. by eexists.
Qed.

(** A line for each outcome, an error exactly for the failures the metrics count. *)
Lemma log_outcomes_levels os lines :
  _log_outcomes os = Ok lines -> level <$> lines = outcome_level <$> os /\
  Forall (fun o => outcome_level o = LogLevel.ERROR <-> is_failure o = true) os.
Proof.
  intros H. split.
  - revert lines H. unfold _log_outcomes. induction os as [|o os IH]; intros lines H; [by injection H as <-|].
    cbn [mapM] in H. apply bind_Ok in H as (l & Hl & H). apply bind_Ok in H as (ls & Hls & H). apply Ok_inj in H as <-.
    apply bind_Ok in Hl as (ms & _ & Hl). apply Ok_inj in Hl as <-. rewrite !fmap_cons. cbn [level]. f_equal. by apply IH.
  - apply Forall_true. intros o. unfold outcome_level, is_failure, FAILURE_STATUSES.
    destruct (bool_decide (_ ∈ _)); [done|]. by destruct (bool_decide _).
Qed.

(** ** Facts: retention *)

Lemma first_occurrences_spec seen items :
  NoDup (RetentionPolicy.first_occurrences seen items) /\
  (forall x, x ∈ RetentionPolicy.first_occurrences seen items <-> x ∈ items /\ x ∉ seen).
Proof.
  revert seen; induction items as [|y items IH]; intros seen; simpl; [split; [constructor|set_solver]|].
  destruct (IH seen) as [Hn Hin], (IH (y :: seen)) as [Hn' Hin'].
  case_bool_decide; [split; [done|]; intros x; rewrite Hin; set_solver|].
  split; [constructor; [rewrite Hin'; set_solver|done]|].
  intros x. rewrite elem_of_cons, Hin'. destruct (decide (x = y)); set_solver.
Qed.

(** What [RetentionPolicy.__post_init__] promises. *)
Record policy_wf (p : RetentionPolicy.t) : Prop := {
  pw_days : 1 <= RetentionPolicy.retention_days p;
  pw_types : NoDup (RetentionPolicy.record_types p) /\ RetentionPolicy.record_types p <> [];
  pw_stripped : Forall (fun s => str_strip s = s /\ str_empty s = false) (RetentionPolicy.record_types p) }.

Lemma new_policy_wf days types p : RetentionPolicy.new days types = Ok p -> policy_wf p.
Proof.
  unfold RetentionPolicy.new. intros Hp. guards. subst p.
  match goal with |- context [RetentionPolicy.first_occurrences [] ?l] =>
    destruct (first_occurrences_spec [] l) as [Hn Hin] end.
  constructor; simpl; [done|done|]. apply Forall_forall. intros s Hs. apply Hin in Hs as [Hs _].
  apply list_elem_of_In, filter_In in Hs as [Hs He]. apply list_elem_of_In, list_elem_of_fmap in Hs as (r & -> & _).
  split; [apply str_strip_idemp|]. by apply negb_true_iff in He.
Qed.

(** A cleanup removes exactly the records of the policy's types made before the cut-off,
    keeps the order of the others, and counts what it removed; doing it again removes
    nothing. *)
Lemma cleanup_exact policy records now kept r :
  cleanup policy records (AwareDT now) = Ok (kept, r) ->
  let cutoff := time_add now (- (RetentionPolicy.retention_days policy * 86400 * us_per_second)) in
  RetentionResult.cutoff r = cutoff /\
  kept = List.filter (fun x => negb (expired_record policy cutoff x)) records /\
  RetentionResult.deleted_records r = count_where (expired_record policy cutoff) records /\
  cleanup policy kept (AwareDT now) = Ok (kept, RetentionResult.Mk cutoff 0).
Proof.
  unfold cleanup. cbn [require_aware]. bind_ok. intros (d & Hd & Hc)%bind_Ok. cbv zeta in Hc. apply Ok_inj in Hc.
  assert (d = RetentionPolicy.retention_days policy * 86400 * us_per_second) as ->.
  { unfold delta_of_us in Hd. cbv zeta in Hd. split_match_in Hd; [done|]. split_match_in Hd; [done|]. by apply Ok_inj in Hd. }
  rewrite Hd. bind_ok. cbv zeta. set (cutoff := time_add now _) in *. injection Hc as <- <-. cbn [RetentionResult.cutoff RetentionResult.deleted_records].
  assert (forall l, Z.of_nat (length l) - Z.of_nat (length (List.filter (fun x => negb (expired_record policy cutoff x)) l)) =
    count_where (expired_record policy cutoff) l) as Hcount.
  { intros l. unfold count_where. induction l as [|x l IH]; simpl; [lia|].
    destruct (expired_record policy cutoff x); simpl in *; lia. }
  split_and!; [done|done|rewrite Hcount; pose proof (count_where_nonneg (expired_record policy cutoff) records); lia|].
  assert (forall l, List.filter (fun x => negb (expired_record policy cutoff x))
    (List.filter (fun x => negb (expired_record policy cutoff x)) l) =
    List.filter (fun x => negb (expired_record policy cutoff x)) l) as Hidem.
  { intros l. induction l as [|x l IH]; simpl; [done|].
    destruct (expired_record policy cutoff x) eqn:E; simpl; [done|]. rewrite E. simpl. by rewrite IH. }
  rewrite Hidem, Z.sub_diag. done.
Qed.

(** ** Property *)

(** What holds of a supervisor between cycles, after a history of outcomes. *)
Record supervisor_ok (s : RuntimeSupervisor) (h : list WorkerRunOutcome.t) : Prop := {
  so_threshold : 1 <= failure_alert_threshold s;
  so_interval : is_ok (timedelta_seconds (cleanup_interval_seconds s)) = true;
  so_metrics : represents (sup_metrics s) h }.

Lemma run_cycle_Ok s w now h os :
  supervisor_ok s h -> run_due w now = Ok os -> Forall named os -> Forall spanned os ->
  exists s' c, run_cycle s w (Some (AwareDT now)) = (s', Ok c) /\ supervisor_ok s' (h ++ os) /\
    outcomes c = os /\ alerts c = alerts_after (failure_alert_threshold s) h os /\
    cycle_at c = now /\ represents (metrics_seen (metrics c)) (h ++ os) /\
    if has_cleaner s && _cleanup_due s now
    then _next_cleanup_at s' = Some (time_add now (seconds (cleanup_interval_seconds s))) /\
         retention c = match clean w now with Ok r => Some r | Err _ => None end
    else _next_cleanup_at s' = _next_cleanup_at s /\ retention c = None.
Proof.
  intros [Ht Hi Hm] Hd Hn Hsp. unfold run_cycle. cbn [require_aware]. rewrite Hd.
  destruct (observe_exact _ _ h os Ht Hn Hm) as (m' & Ho & Hr). rewrite Ho.
  destruct (log_outcomes_total os Hsp) as [lines ->]. unfold cycle_cleanup.
  change (has_cleaner (with_metrics s m')) with (has_cleaner s).
  change (_cleanup_due (with_metrics s m') now) with (_cleanup_due s now).
  change (cleanup_interval_seconds (with_metrics s m')) with (cleanup_interval_seconds s).
  rewrite after_seconds_Ok by done.
  assert (snapshot m' (AwareDT now) = Ok (MkSnapshot now m')) as Hs.
  { unfold snapshot. cbn [require_aware]. bind_ok. rewrite (rp_total _ _ Hr). by rewrite guard_pass by (apply Z.ltb_ge; lia). }
  destruct (has_cleaner s && _cleanup_due s now); cbn [sup_metrics with_metrics with_next_cleanup]; rewrite Hs;
    eexists _, _; (split; [reflexivity|]); split_and!; done.
Qed.

(** C19: a cycle of the supervisor, whatever the cleaner does, for outcomes of named jobs
    with times Python can hold (logging computes their durations).  Its metrics are those of
    the whole history of outcomes: the total, the count of each status, the last status
    and the run of failures of each job.  It raises one alert for each outcome that is
    the [failure_alert_threshold]-th failure of its job in a row, and no other.  The cleaner is
    called exactly when there is one and its time has come, its failure only loses the
    result, and the next cleanup is one interval later. *)
Theorem run_cycle_exact s w now h os :
  supervisor_ok s h -> run_due w now = Ok os -> Forall named os -> Forall spanned os ->
  exists s' c, run_cycle s w (Some (AwareDT now)) = (s', Ok c) /\ supervisor_ok s' (h ++ os) /\
    outcomes c = os /\ alerts c = alerts_after (failure_alert_threshold s) h os /\
    cycle_at c = now /\ represents (metrics_seen (metrics c)) (h ++ os) /\
    if has_cleaner s && _cleanup_due s now
    then _next_cleanup_at s' = Some (time_add now (seconds (cleanup_interval_seconds s))) /\
         retention c = match clean w now with Ok r => Some r | Err _ => None end
    else _next_cleanup_at s' = _next_cleanup_at s /\ retention c = None.
Proof. apply run_cycle_Ok. Qed.

(** *** A concrete supervisor *)

Definition failed_at (n : Z) : WorkerRunOutcome.t :=
  WorkerRunOutcome.Mk "fast" SourceJobKind.BENCHMARK WorkerRunStatus.FAILED (at_second n) (at_second n)
    (Some AdapterState.DOWN) "down".

Definition sample_supervisor : RuntimeSupervisor := MkSupervisor true (Fl 3600 0) 2 new_metrics None.

Lemma run_cycle_exact_witness :
  exists s' c, run_cycle sample_supervisor
      (MkWorld (Ok (AwareDT (at_second 0))) (fun _ => Ok [failed_at 0; failed_at 1]) (fun _ => Err (ValueError "locked")))
      (Some (AwareDT (at_second 5))) = (s', Ok c) /\
    alerts c = [RuntimeAlert.Mk "fast" WorkerRunStatus.FAILED 2 "down"] /\
    _next_cleanup_at s' = Some (at_second 3605).
Proof.
  destruct (run_cycle_exact sample_supervisor
    (MkWorld (Ok (AwareDT (at_second 0))) (fun _ => Ok [failed_at 0; failed_at 1]) (fun _ => Err (ValueError "locked")))
    (at_second 5) [] [failed_at 0; failed_at 1]) as (s' & c & Hc & _ & _ & Ha & _ & _ & Hn & _).
  - constructor; [vm_compute; discriminate|reflexivity|apply new_metrics_represent].
  - reflexivity.
  - repeat constructor.
  - repeat constructor; vm_compute; discriminate.
  - exists s', c. split; [exact Hc|]. split; [rewrite Ha; vm_compute; reflexivity|rewrite Hn; vm_compute; reflexivity].
Defined.
