(* ===== verification/SignalProviders.v ===== *)
(** * Derived evidence for signals: [signals/htf_provider.py], [signals/reclaim_provider.py]

    The higher-timeframe evidence of a request is read from the structure tables, its
    setup from the reclaim table; a setup is accepted only when it is qualified and linked
    to the evidence. *)

From stdpp Require Import list strings gmap sorting.
From S2P Require Import Prelude PyList PyStr PyDecimal DecimalFacts PyTime IsoTime PyValue Candles HtfModels.
From S2P Require Import ReclaimModels ReclaimEngine Repository CandleRepository StructureRepository ReclaimSource.
From S2P Require Import ReclaimRepository.
From S2P Require Import PyFloat LBank Benchmarks Consensus Workflow Planning Discovery Confirmation Signals.
Open Scope Z_scope.

Definition _reason (prefix : string) (event : option StructureEvent.t) : string :=
  match event with
  | None => prefix +:+ "_NO_STRUCTURE_EVENT"
  | Some event => prefix +:+ "_EVENT_" +:+ StructureEventState.value (StructureEvent.state event)
  end.

(** [event is not None and event.state == CONFIRMED_BREAK] *)
Definition damaged (event : option StructureEvent.t) : bool :=
  match event with None => false | Some e => is_confirmed_break e end.

(** [event.event_id if damaged else None] *)
Definition damaging_event (event : option StructureEvent.t) : option string :=
  if damaged event then StructureEvent.event_id <$> event else None.

Section providers.
Context `{FromIso}.
Context `{!Table CandleKey OhlcvCandleRecord.t} `{!Table string SupportZoneRecord.t}
  `{!Table string StructureEventRecord.t} `{!Table string ReclaimAttemptRecord.t}.

(** [DerivedHigherTimeframeEvidenceProvider.load] *)
Definition load_evidence (s : Session) (source : CandleSource.t) (canonical_symbol market_symbol : string) :
    res HigherTimeframeStructureEvidence.t :=
  let normalized_canonical := str_strip canonical_symbol in
  let normalized_market := norm_upper market_symbol in
  raise_if (str_empty normalized_canonical || str_empty normalized_market)
    "canonical_symbol and market_symbol are required" ;;
  daily_zone ← latest_zone (support_zones s) source normalized_market CandleInterval.D1;
  four_hour_zone ← latest_zone (support_zones s) source normalized_market CandleInterval.H4;
  match daily_zone, four_hour_zone with
  | Some daily_zone, Some four_hour_zone =>
      daily_event ← latest_event (structure_events s) source normalized_market CandleInterval.D1;
      four_hour_event ← latest_event (structure_events s) source normalized_market CandleInterval.H4;
      let observed_at :=
        py_max_by (fun t => t) (SupportZone.last_test_at daily_zone)
          ([SupportZone.last_test_at four_hour_zone] ++
           option_list (StructureEvent.observed_at <$> daily_event) ++
           option_list (StructureEvent.observed_at <$> four_hour_event)) in
      HigherTimeframeStructureEvidence.new normalized_canonical normalized_market (AwareDT observed_at)
        (damaged daily_event) (damaged four_hour_event) HigherTimeframeEvidenceOrigin.DERIVED
        (Some (SupportZone.zone_id daily_zone)) (damaging_event daily_event)
        (Some (SupportZone.zone_id four_hour_zone)) (damaging_event four_hour_event)
        [_reason "DAILY" daily_event; _reason "FOUR_HOUR" four_hour_event;
         "SOURCE_" +:+ CandleSource.value source]
  | _, _ => Err (ValueError "derived Daily and 4H support evidence is required")
  end.

Record DerivedSetupRequest : Type := MkDerivedSetupRequest {
  request : SignalAssemblyRequest.t;
  setup_evidence : ReclaimAttempt.t }.

(** [DerivedSetupEvidenceProvider.load] *)
Definition load_setup (s : Session) (source : CandleSource.t) (market_symbol : string) : res ReclaimAttempt.t :=
  let normalized := norm_upper market_symbol in
  raise_if (str_empty normalized) "market_symbol is required" ;;
  evidence ← latest (reclaim_attempts s) source normalized false;
  match evidence with
  | None => Err (ValueError "derived reclaim/setup evidence is required")
  | Some evidence => mret evidence
  end.

(** [ShortSetupType(evidence.setup_type.value)] *)
Definition ShortSetupType_of (s : string) : res ShortSetupType.t :=
  enum_of "ShortSetupType"
    [ShortSetupType.BREAKDOWN_SHORT; ShortSetupType.FAILED_PULLBACK_SHORT; ShortSetupType.CONTINUATION_SHORT]
    ShortSetupType.value s.

(** [replace(request, setup_type=setup_type)] *)
Definition replace_setup_type (r : SignalAssemblyRequest.t) (setup_type : ShortSetupType.t) : res SignalAssemblyRequest.t :=
  SignalAssemblyRequest.new (SignalAssemblyRequest.symbol r) setup_type (SignalAssemblyRequest.higher_timeframe r)
    (SignalAssemblyRequest.structure_input r) (SignalAssemblyRequest.lbank_snapshot r)
    (SignalAssemblyRequest.benchmark_snapshots r) (SignalAssemblyRequest.symbol_map r)
    (SignalAssemblyRequest.plan_request r) (SignalAssemblyRequest.discovery_records r).

(** The zone and event of each timeframe. *)
Definition evidence_pairs (e : HigherTimeframeStructureEvidence.t) : list (option string * option string) :=
  [(HigherTimeframeStructureEvidence.daily_zone_id e, HigherTimeframeStructureEvidence.daily_event_id e);
   (HigherTimeframeStructureEvidence.four_hour_zone_id e, HigherTimeframeStructureEvidence.four_hour_event_id e)].

(** [DerivedSetupEvidenceProvider.build_request] *)
Definition build_request (s : Session) (source : CandleSource.t) (r : SignalAssemblyRequest.t) : res DerivedSetupRequest :=
  let higher_timeframe := SignalAssemblyRequest.higher_timeframe r in
  evidence ← load_setup s source (HigherTimeframeStructureEvidence.market_symbol higher_timeframe);
  raise_if (negb (bool_decide (ReclaimAttempt.readiness evidence = SetupReadiness.QUALIFIED)))
    ("setup evidence is not qualified: " +:+ ReclaimOutcome.value (ReclaimAttempt.outcome evidence)) ;;
  raise_if (bool_decide (ReclaimAttempt.setup_type evidence = DerivedSetupType.NONE))
    "qualified setup evidence cannot have type NONE" ;;
  raise_if (negb (bool_decide (ReclaimAttempt.symbol evidence =
                               HigherTimeframeStructureEvidence.market_symbol higher_timeframe)))
    "setup evidence symbol does not match structure evidence" ;;
  raise_if (negb (bool_decide ((Some (ReclaimAttempt.zone_id evidence), Some (ReclaimAttempt.break_event_id evidence))
                               ∈ evidence_pairs higher_timeframe)))
    "setup evidence is not linked to active structure evidence" ;;
  setup_type ← ShortSetupType_of (DerivedSetupType.value (ReclaimAttempt.setup_type evidence));
  derived_request ← replace_setup_type r setup_type;
  mret (MkDerivedSetupRequest derived_request evidence).
End providers.

(** ** Facts *)

Lemma norm_upper_once s : norm_upper (norm_upper s) = norm_upper s.
Proof. apply norm_upper_idemp. Qed.

Lemma damaging_event_Some event id :
  damaging_event event = Some id -> exists e, event = Some e /\ is_confirmed_break e = true /\ StructureEvent.event_id e = id.
Proof.
  unfold damaging_event, damaged. destruct event as [e|]; [|done]. destruct (is_confirmed_break e) eqn:E; [|done].
  intros [= <-]. by exists e.
Qed.

Section facts.
Context `{FromIso}.
Context `{!Table CandleKey OhlcvCandleRecord.t} `{!Table string SupportZoneRecord.t}
  `{!Table string StructureEventRecord.t} `{!Table string ReclaimAttemptRecord.t}.

(** What the evidence says of one timeframe. *)
Definition timeframe_evidence (s : Session) (source : CandleSource.t) (symbol : string) (interval : CandleInterval.t)
    (observed_at : aware) (is_damaged : bool) (zone_id event_id : option string) : Prop :=
  exists z e, latest_zone (support_zones s) source symbol interval = Ok (Some z) /\
    latest_event (structure_events s) source symbol interval = Ok e /\
    is_damaged = damaged e /\ zone_id = Some (SupportZone.zone_id z) /\ event_id = damaging_event e /\
    utc (SupportZone.last_test_at z) <= utc observed_at /\
    (forall x, e = Some x -> utc (StructureEvent.observed_at x) <= utc observed_at).

Lemma load_evidence_Ok s source canonical market ev :
  load_evidence s source canonical market = Ok ev ->
  HigherTimeframeStructureEvidence.symbol ev = str_strip canonical /\
  HigherTimeframeStructureEvidence.market_symbol ev = norm_upper market /\
  timeframe_evidence s source (norm_upper market) CandleInterval.D1 (HigherTimeframeStructureEvidence.observed_at ev)
    (HigherTimeframeStructureEvidence.daily_damaged ev) (HigherTimeframeStructureEvidence.daily_zone_id ev)
    (HigherTimeframeStructureEvidence.daily_event_id ev) /\
  timeframe_evidence s source (norm_upper market) CandleInterval.H4 (HigherTimeframeStructureEvidence.observed_at ev)
    (HigherTimeframeStructureEvidence.four_hour_damaged ev) (HigherTimeframeStructureEvidence.four_hour_zone_id ev)
    (HigherTimeframeStructureEvidence.four_hour_event_id ev).
Proof.
  unfold load_evidence. intros He. apply bind_Ok in He as ([] & _ & He). apply bind_Ok in He as (dz & Hdz & He).
  apply bind_Ok in He as (hz & Hhz & He). destruct dz as [dz|]; [|done]. destruct hz as [hz|]; [|done].
  apply bind_Ok in He as (de & Hde & He). apply bind_Ok in He as (h & Hh & He). cbv zeta in He.
  match type of He with context [py_max_by ?k ?x ?l] => set (t := py_max_by k x l) in *;
    pose proof (fun y => py_max_by_ge k x l y) as Hge end. fold t in Hge.
  assert (forall y, y ∈ SupportZone.last_test_at dz :: [SupportZone.last_test_at hz] ++
    option_list (StructureEvent.observed_at <$> de) ++ option_list (StructureEvent.observed_at <$> h) ->
    utc y <= utc t) as Hmax by (intros y Hy; apply aware_le_utc, Hge, Hy).
  unfold HigherTimeframeStructureEvidence.new in He. cbn [require_aware] in He. guards. subst ev. simpl.
  match goal with H : t = ?v |- _ => subst v end. rewrite str_strip_idemp.
  split; [done|]. split; [apply norm_upper_once|].
  split; [exists dz, de|exists hz, h]; split_and!; try done; try (intros x ->); apply Hmax; clear; simpl;
    rewrite ?elem_of_cons, ?elem_of_app, ?elem_of_cons; auto.
Qed.

Lemma build_request_Ok s source r d :
  build_request s source r = Ok d ->
  let a := setup_evidence d in let ev := SignalAssemblyRequest.higher_timeframe r in
  latest (reclaim_attempts s) source (norm_upper (HigherTimeframeStructureEvidence.market_symbol ev)) false = Ok (Some a) /\
  ReclaimAttempt.readiness a = SetupReadiness.QUALIFIED /\
  ReclaimAttempt.symbol a = HigherTimeframeStructureEvidence.market_symbol ev /\
  (Some (ReclaimAttempt.zone_id a), Some (ReclaimAttempt.break_event_id a)) ∈ evidence_pairs ev /\
  ShortSetupType.value (SignalAssemblyRequest.setup_type (request d)) = DerivedSetupType.value (ReclaimAttempt.setup_type a) /\
  replace_setup_type r (SignalAssemblyRequest.setup_type (request d)) = Ok (request d).
Proof.
  unfold build_request, load_setup. intros Hb. cbv zeta. apply bind_Ok in Hb as (a & Ha & Hb).
  apply bind_Ok in Ha as ([] & _ & Ha). apply bind_Ok in Ha as (o & Ho & Ha). destruct o as [a'|]; [|done].
  apply Ok_inj in Ha as ->. guards. subst d. cbn [request setup_evidence].
  select (ShortSetupType_of _ = Ok _) (fun H => rename H into Hst).
  select (replace_setup_type _ _ = Ok _) (fun H => rename H into Hr).
  split_and!; try done.
  - pose proof Hr as Hr'. unfold replace_setup_type, SignalAssemblyRequest.new in Hr'. guards. subst.
    cbn [SignalAssemblyRequest.setup_type]. destruct (ReclaimAttempt.setup_type a); simpl in Hst; try done;
      by injection Hst as <-.
  - pose proof Hr as Hr'. unfold replace_setup_type, SignalAssemblyRequest.new in Hr'. guards. subst. exact Hr.
Qed.
End facts.

(** ** Property *)

(** C18: a request built from the tables is consistent.  For the evidence the provider
    read, a derived request takes the latest attempt of the symbol, which is qualified and
    gives the setup type; the attempt is linked to a timeframe whose latest event is a
    confirmed break, namely the very break the attempt retests, and whose latest zone is
    the attempt's; that timeframe is the one reported as damaged.  Nothing else of the
    request changes. *)
Theorem derived_setup_is_linked `{FromIso} `{!Table CandleKey OhlcvCandleRecord.t} `{!Table string SupportZoneRecord.t}
    `{!Table string StructureEventRecord.t} `{!Table string ReclaimAttemptRecord.t} s source canonical market r d :
  load_evidence s source canonical market = Ok (SignalAssemblyRequest.higher_timeframe r) ->
  build_request s source r = Ok d ->
  let a := setup_evidence d in let ev := SignalAssemblyRequest.higher_timeframe r in
  latest (reclaim_attempts s) source (norm_upper market) false = Ok (Some a) /\
  ReclaimAttempt.readiness a = SetupReadiness.QUALIFIED /\ ReclaimAttempt.symbol a = norm_upper market /\
  ShortSetupType.value (SignalAssemblyRequest.setup_type (request d)) = DerivedSetupType.value (ReclaimAttempt.setup_type a) /\
  replace_setup_type r (SignalAssemblyRequest.setup_type (request d)) = Ok (request d) /\
  exists interval flag z e,
    (interval = CandleInterval.D1 /\ flag = HigherTimeframeStructureEvidence.daily_damaged ev \/
     interval = CandleInterval.H4 /\ flag = HigherTimeframeStructureEvidence.four_hour_damaged ev) /\ flag = true /\
    latest_zone (support_zones s) source (norm_upper market) interval = Ok (Some z) /\
    SupportZone.zone_id z = ReclaimAttempt.zone_id a /\
    latest_event (structure_events s) source (norm_upper market) interval = Ok (Some e) /\
    is_confirmed_break e = true /\ StructureEvent.event_id e = ReclaimAttempt.break_event_id a.
Proof.
  intros Hl Hb. cbv zeta. destruct (load_evidence_Ok _ _ _ _ _ Hl) as (_ & Hm & Hd & Hh).
  destruct (build_request_Ok _ _ _ _ Hb) as (Ha & Hq & Hs & Hp & Hst & Hr). rewrite Hm in Ha, Hs.
  rewrite norm_upper_once in Ha. split_and!; try done.
  unfold evidence_pairs in Hp. apply elem_of_cons in Hp as [[= Hz He]|[[= Hz He]|Hp%elem_of_nil]%elem_of_cons]; [| |done].
  - destruct Hd as (z & e & Hlz & Hle & Hf & Hzi & Hei & _). rewrite Hzi in Hz. injection Hz as Hz. rewrite Hei in He.
    destruct (damaging_event_Some _ _ (eq_sym He)) as (e' & -> & Hc & Hid).
    exists CandleInterval.D1, true, z, e'. rewrite Hf. split_and!; try done. left. split; [done|]. symmetry. exact Hc.
  - destruct Hh as (z & e & Hlz & Hle & Hf & Hzi & Hei & _). rewrite Hzi in Hz. injection Hz as Hz. rewrite Hei in He.
    destruct (damaging_event_Some _ _ (eq_sym He)) as (e' & -> & Hc & Hid).
    exists CandleInterval.H4, true, z, e'. rewrite Hf. split_and!; try done. right. split; [done|]. symmetry. exact Hc.
Qed.

(** *** Concrete tables *)

(** The sample zone as a 4H one, which no event has touched. *)
Definition sample_h4_zone : SupportZone.t :=
  SupportZone.Mk "zone_h" CandleSource.BYBIT "BTCUSDT" CandleInterval.H4 (SupportZone.low sample_zone)
    (SupportZone.high sample_zone) (SupportZone.created_at sample_zone) (SupportZone.confirmed_at sample_zone)
    (SupportZone.last_test_at sample_zone) 2 2 (dint 60) (SupportZone.evidence_open_times sample_zone)
    SupportZoneState.ACTIVE [].

(** The rejected pullback of the sample break, as the engine judges it. *)
Definition sample_attempts : gmap string ReclaimAttemptRecord.t :=
  match analyze_reclaim_attempt sample_zone sample_event sample_break pullback (Some default_reclaim_rules) with
  | Ok a => <[ReclaimAttempt.attempt_id a := record_of_attempt a]> ∅
  | Err _ => ∅
  end.

Definition sample_tables : Session :=
  MkSession (∅ : gmap CandleKey OhlcvCandleRecord.t)
    ({[ "zone_a" := _zone_record sample_zone; "zone_h" := _zone_record sample_h4_zone ]} : gmap string SupportZoneRecord.t)
    ({[ "event_a" := _event_record sample_event ]} : gmap string StructureEventRecord.t) sample_attempts.

Definition derived_sample (ev : HigherTimeframeStructureEvidence.t) : SignalAssemblyRequest.t :=
  SignalAssemblyRequest.Mk "BTC" ShortSetupType.BREAKDOWN_SHORT ev
    (SignalAssemblyRequest.structure_input (sample_request true (Fl 1000 0)))
    (SignalAssemblyRequest.lbank_snapshot (sample_request true (Fl 1000 0)))
    (SignalAssemblyRequest.benchmark_snapshots (sample_request true (Fl 1000 0))) sample_signal_map
    (SignalAssemblyRequest.plan_request (sample_request true (Fl 1000 0))) [].

Lemma derived_setup_is_linked_witness :
  exists ev d z, load_evidence sample_tables CandleSource.BYBIT "BTC" "btcusdt" = Ok ev /\
    build_request sample_tables CandleSource.BYBIT (derived_sample ev) = Ok d /\
    SignalAssemblyRequest.setup_type (request d) = ShortSetupType.FAILED_PULLBACK_SHORT /\
    SupportZone.zone_id z = ReclaimAttempt.zone_id (setup_evidence d).
Proof.
  destruct (load_evidence sample_tables CandleSource.BYBIT "BTC" "btcusdt") as [ev|e] eqn:El;
    [|vm_compute in El; discriminate El].
  assert ((fun d => SignalAssemblyRequest.setup_type (request d)) <$>
    (ev ← load_evidence sample_tables CandleSource.BYBIT "BTC" "btcusdt";
     build_request sample_tables CandleSource.BYBIT (derived_sample ev)) = Ok ShortSetupType.FAILED_PULLBACK_SHORT) as Hb
    by (vm_compute; reflexivity).
  rewrite El, Ok_bind in Hb. apply fmap_Ok in Hb as (d & Hb & Ht).
  destruct (derived_setup_is_linked sample_tables CandleSource.BYBIT "BTC" "btcusdt" (derived_sample ev) d El Hb)
    as (_ & _ & _ & _ & _ & itv & flag & z & e & _ & _ & _ & Hz & _).
  exists ev, d, z. split; [reflexivity|]. split; [exact Hb|]. split; [symmetry; exact Ht|exact Hz].
Defined.
