(* ===== verification/SignalStore.v ===== *)
(** * Recorded signals: [signals/store.py], [signals/pipeline.py]

    A report of the assembly becomes two domain records in one transaction: the whole
    report, and its life cycle with the gates.  Both expire with the life cycle. *)

From stdpp Require Import list strings gmap.
From S2P Require Import Prelude PyList PyStr PyDecimal PyTime IsoTime PyFloat PyValue Adapters Repository.
From S2P Require Import CandleRepository StructureRepository ReclaimRepository Runtime RuntimeStore LBank.
From S2P Require Import Benchmarks Consensus Workflow Planning Discovery Signals.
Open Scope Z_scope.

(** ** The dataclasses of a report, for [json_safe] *)

Definition pydec_obj (d : pydec) : pyobj := ODecimal d.

(** [DiscoveryRole] has the one member. *)
Definition discovery_obj (r : DiscoveryRecord.t) : pyobj :=
  ODataclass
    [("source", enum_obj (DiscoverySource.value (DiscoveryRecord.source r)));
     ("role", enum_obj "DISCOVERY_ONLY");
     ("external_id", OStr (DiscoveryRecord.external_id r));
     ("symbol", opt_obj OStr (DiscoveryRecord.symbol r));
     ("name", opt_obj OStr (DiscoveryRecord.name r));
     ("chain_id", opt_obj OStr (DiscoveryRecord.chain_id r));
     ("token_address", opt_obj OStr (DiscoveryRecord.token_address r));
     ("category", opt_obj OStr (DiscoveryRecord.category r));
     ("price_usd", opt_obj pydec_obj (DiscoveryRecord.price_usd r));
     ("liquidity_usd", opt_obj pydec_obj (DiscoveryRecord.liquidity_usd r));
     ("volume_24h_usd", opt_obj pydec_obj (DiscoveryRecord.volume_24h_usd r));
     ("market_cap_usd", opt_obj pydec_obj (DiscoveryRecord.market_cap_usd r));
     ("price_change_24h_pct", opt_obj pydec_obj (DiscoveryRecord.price_change_24h_pct r));
     ("boost_active", opt_obj OInt (DiscoveryRecord.boost_active r));
     ("pair_created_at", opt_obj OTime (DiscoveryRecord.pair_created_at r));
     ("url", opt_obj OStr (DiscoveryRecord.url r));
     ("metadata", obj_of (VDict (DiscoveryRecord.metadata r)))].

Definition higher_timeframe_obj (e : HigherTimeframeStructureEvidence.t) : pyobj :=
  ODataclass
    [("symbol", OStr (HigherTimeframeStructureEvidence.symbol e));
     ("market_symbol", OStr (HigherTimeframeStructureEvidence.market_symbol e));
     ("observed_at", time_obj (HigherTimeframeStructureEvidence.observed_at e));
     ("daily_damaged", OBool (HigherTimeframeStructureEvidence.daily_damaged e));
     ("four_hour_damaged", OBool (HigherTimeframeStructureEvidence.four_hour_damaged e));
     ("origin", enum_obj (HigherTimeframeEvidenceOrigin.value (HigherTimeframeStructureEvidence.origin e)));
     ("daily_zone_id", opt_obj OStr (HigherTimeframeStructureEvidence.daily_zone_id e));
     ("daily_event_id", opt_obj OStr (HigherTimeframeStructureEvidence.daily_event_id e));
     ("four_hour_zone_id", opt_obj OStr (HigherTimeframeStructureEvidence.four_hour_zone_id e));
     ("four_hour_event_id", opt_obj OStr (HigherTimeframeStructureEvidence.four_hour_event_id e));
     ("reasons", strs_obj (HigherTimeframeStructureEvidence.reasons e))].

Definition gate_obj (g : GateDecision.t) : pyobj :=
  ODataclass
    [("name", OStr (GateDecision.name g));
     ("state", enum_obj (GateState.value (GateDecision.state g)));
     ("reasons", strs_obj (GateDecision.reasons g))].

Definition plan_obj (p : PlanDraft.t) : pyobj :=
  ODataclass
    [("symbol", OStr (PlanDraft.symbol p));
     ("status", enum_obj (PlanStatus.value (PlanDraft.status p)));
     ("entry_value", opt_obj OFloat (PlanDraft.entry_value p));
     ("boundary_value", opt_obj OFloat (PlanDraft.boundary_value p));
     ("objective_value", opt_obj OFloat (PlanDraft.objective_value p));
     ("multiplier", OInt (PlanDraft.multiplier p));
     ("ratio", OFloat (PlanDraft.ratio p));
     ("notes", strs_obj (PlanDraft.notes p))].

Definition lifecycle_obj (r : LifecycleRecord.t) : pyobj :=
  ODataclass
    [("symbol", OStr (LifecycleRecord.symbol r));
     ("state", enum_obj (LifecycleState.value (LifecycleRecord.state r)));
     ("created_at", time_obj (LifecycleRecord.created_at r));
     ("updated_at", time_obj (LifecycleRecord.updated_at r));
     ("expires_at", time_obj (LifecycleRecord.expires_at r));
     ("closed_at", opt_obj time_obj (LifecycleRecord.closed_at r));
     ("notes", strs_obj (LifecycleRecord.notes r))].

Definition structure_obj (s : StructureSnapshot.t) : pyobj :=
  ODataclass
    [("symbol", OStr (StructureSnapshot.symbol s));
     ("state", enum_obj (StructureState.value (StructureSnapshot.state s)));
     ("current_value", OFloat (StructureSnapshot.current_value s));
     ("reference_low", OFloat (StructureSnapshot.reference_low s));
     ("reference_high", OFloat (StructureSnapshot.reference_high s));
     ("reasons", strs_obj (StructureSnapshot.reasons s))].

(** The entries of [data] in the order of the finite map that models it. *)
Definition setup_obj (c : SetupCandidate.t) : pyobj :=
  ODataclass
    [("symbol", OStr (SetupCandidate.symbol c));
     ("label", enum_obj (SetupLabel.value (SetupCandidate.label c)));
     ("source_state", OStr (SetupCandidate.source_state c));
     ("data", ODict ((fun kv => (kv.1, OFloat kv.2)) <$> map_to_list (SetupCandidate.data c)));
     ("reasons", strs_obj (SetupCandidate.reasons c))].

Definition flow_obj (f : FlowResult.t) : pyobj :=
  ODataclass
    [("symbol", OStr (FlowResult.symbol f));
     ("status", enum_obj (FlowStatus.value (FlowResult.status f)));
     ("reasons", strs_obj (FlowResult.reasons f))].

Definition validation_obj (v : LBankExecutionValidation) : pyobj :=
  ODataclass
    [("symbol", OStr (vsymbol v));
     ("status", enum_obj (LBankExecutionStatus.value (LBank.status v)));
     ("age_seconds", OFloat (age_seconds v));
     ("reasons", strs_obj (LBank.reasons v))].

Definition source_result_obj (r : ConsensusSourceResult) : pyobj :=
  ODataclass
    [("source", enum_obj (BenchmarkSource.value (Consensus.source r)));
     ("exchange_symbol", OStr (exchange_symbol r));
     ("expected_symbol", opt_obj OStr (expected_symbol r));
     ("health_state", opt_obj (fun s => enum_obj (BenchmarkHealthState.value s)) (health_state r));
     ("price", dec_obj (price r));
     ("included", OBool (included r));
     ("deviation_from_median_pct", opt_obj dec_obj (deviation_from_median_pct r));
     ("reasons", strs_obj (source_reasons r))].

Definition consensus_obj (c : CrossExchangeConsensusReport) : pyobj :=
  ODataclass
    [("canonical_symbol", OStr (canonical_symbol c));
     ("lbank_symbol", OStr (lbank_symbol c));
     ("lbank_price", dec_obj (lbank_price c));
     ("median_benchmark_price", opt_obj dec_obj (median_benchmark_price c));
     ("lbank_deviation_pct", opt_obj dec_obj (lbank_deviation_pct c));
     ("benchmark_dispersion_pct", opt_obj dec_obj (benchmark_dispersion_pct c));
     ("status", enum_obj (ConsensusStatus.value (Consensus.status c)));
     ("usable_sources", OInt (usable_sources c));
     ("source_results", OTuple (source_result_obj <$> source_results c));
     ("reasons", strs_obj (Consensus.reasons c))].

(** The fields of the report. *)
Definition report_items (r : SignalAssemblyReport.t) : list (string * pyobj) :=
  [("symbol", OStr (SignalAssemblyReport.symbol r));
   ("setup_type", enum_obj (ShortSetupType.value (SignalAssemblyReport.setup_type r)));
   ("status", enum_obj (SignalAssemblyStatus.value (SignalAssemblyReport.status r)));
   ("assembled_at", time_obj (SignalAssemblyReport.assembled_at r));
   ("discovery_records", OTuple (discovery_obj <$> SignalAssemblyReport.discovery_records r));
   ("higher_timeframe", higher_timeframe_obj (SignalAssemblyReport.higher_timeframe r));
   ("gates", OTuple (gate_obj <$> SignalAssemblyReport.gates r));
   ("reasons", strs_obj (SignalAssemblyReport.reasons r));
   ("plan", plan_obj (SignalAssemblyReport.plan r));
   ("lifecycle", lifecycle_obj (SignalAssemblyReport.lifecycle r));
   ("structure", opt_obj structure_obj (SignalAssemblyReport.structure r));
   ("setup", opt_obj setup_obj (SignalAssemblyReport.setup r));
   ("flow", opt_obj flow_obj (SignalAssemblyReport.flow r));
   ("lbank_validation", opt_obj validation_obj (SignalAssemblyReport.lbank_validation r));
   ("consensus", opt_obj consensus_obj (SignalAssemblyReport.consensus r));
   ("entry_deviation_bps", opt_obj dec_obj (SignalAssemblyReport.entry_deviation_bps r))].

(** ** [signals/store.py] *)

Definition lifecycle_items (r : SignalAssemblyReport.t) : list (string * pyobj) :=
  [("symbol", OStr (SignalAssemblyReport.symbol r));
   ("assembly_status", enum_obj (SignalAssemblyStatus.value (SignalAssemblyReport.status r)));
   ("setup_type", enum_obj (ShortSetupType.value (SignalAssemblyReport.setup_type r)));
   ("assembled_at", time_obj (SignalAssemblyReport.assembled_at r));
   ("lifecycle", lifecycle_obj (SignalAssemblyReport.lifecycle r));
   ("reasons", strs_obj (SignalAssemblyReport.reasons r));
   ("gates", OTuple (gate_obj <$> SignalAssemblyReport.gates r))].

(** [InMemorySignalAssemblyStore] *)
Definition memory_persist (reports : list SignalAssemblyReport.t) (report : SignalAssemblyReport.t) :
    list SignalAssemblyReport.t := reports ++ [report].

Section store.
Context `{!Table CandleKey OhlcvCandleRecord.t} `{!Table string SupportZoneRecord.t}
  `{!Table string StructureEventRecord.t} `{!Table string ReclaimAttemptRecord.t}.
Context (utc_now : nat -> aware).

(** [DomainRecordSignalAssemblyStore.persist]: the database to commit. *)
Definition persist (db : Database) (report : SignalAssemblyReport.t) : res Database :=
  assembly_payload ← json_safe_dict (report_items report);
  lifecycle_payload ← json_safe_dict (lifecycle_items report);
  let lifecycle := SignalAssemblyReport.lifecycle report in
  let expires_at := Some (AwareDT (LifecycleRecord.expires_at lifecycle)) in
  db ← add utc_now db (DomainRecordInput.Mk "signal_assembly" (SignalAssemblyReport.symbol report)
         (SignalAssemblyStatus.value (SignalAssemblyReport.status report)) assembly_payload expires_at);
  add utc_now db (DomainRecordInput.Mk "signal_lifecycle" (SignalAssemblyReport.symbol report)
    (LifecycleState.value (LifecycleRecord.state lifecycle)) lifecycle_payload expires_at).

(** ** [signals/pipeline.py] *)

(** The database after the call, and what the caller gets. *)
Definition assemble_and_persist (db : Database) (request : SignalAssemblyRequest.t) (now : datetime)
    (rules : option SignalAssemblyRules.t) : Database * res SignalAssemblyReport.t :=
  match assemble_signal request now rules with
  | Err e => (db, Err e)
  | Ok report =>
      let '(db, stored) := transaction db (persist db report) in
      (db, stored ;; mret report)
  end.
End store.

(** ** Facts *)

Lemma strs_ready l : json_ready (strs_obj l) = true.
Proof. unfold strs_obj. simpl. by induction l. Qed.

Lemma opt_ready {A} (f : A -> pyobj) o : (forall a, json_ready (f a) = true) -> json_ready (opt_obj f o) = true.
Proof. by destruct o; simpl. Qed.

Lemma list_ready {A} (f : A -> pyobj) l : (forall a, json_ready (f a) = true) -> json_ready (OTuple (f <$> l)) = true.
Proof. intros Hf. simpl. induction l as [|a l IH]; simpl; [done|]. rewrite Hf. exact IH. Qed.

(** What is always readable: one step per field. *)
Ltac ready :=
  repeat first
    [ progress intros | apply strs_ready | apply opt_ready | apply list_ready | reflexivity
    | progress cbn [json_ready forallb snd fst]
    | match goal with |- (_ && _)%bool = true => apply andb_true_intro; split end ].

Lemma higher_timeframe_ready e : json_ready (higher_timeframe_obj e) = true.
Proof. unfold higher_timeframe_obj. ready. Qed.
Lemma gate_ready g : json_ready (gate_obj g) = true.
Proof. unfold gate_obj. ready. Qed.
Lemma plan_ready p : json_ready (plan_obj p) = true.
Proof. unfold plan_obj. ready. Qed.
Lemma lifecycle_ready r : json_ready (lifecycle_obj r) = true.
Proof. unfold lifecycle_obj. ready. Qed.
Lemma structure_ready s : json_ready (structure_obj s) = true.
Proof. unfold structure_obj. ready. Qed.
Lemma setup_ready c : json_ready (setup_obj c) = true.
Proof.
  unfold setup_obj. ready. generalize (map_to_list (SetupCandidate.data c)). intros l. by induction l.
Qed.
Lemma flow_ready f : json_ready (flow_obj f) = true.
Proof. unfold flow_obj. ready. Qed.
Lemma validation_ready v : json_ready (validation_obj v) = true.
Proof. unfold validation_obj. ready. Qed.
Lemma consensus_ready c : json_ready (consensus_obj c) = true.
Proof. unfold consensus_obj, source_result_obj. ready. Qed.

(** The discovery records alone can keep a report out of the database: a constructed
    record may have an infinite price. *)
Definition discovery_ready (records : list DiscoveryRecord.t) : bool :=
  forallb (fun r => json_ready (discovery_obj r)) records.

Lemma report_ready r :
  forallb (fun kv => json_ready kv.2) (report_items r) = discovery_ready (SignalAssemblyReport.discovery_records r).
Proof.
  unfold report_items. cbn [forallb snd].
  rewrite higher_timeframe_ready, plan_ready, lifecycle_ready, strs_ready, (list_ready gate_obj) by apply gate_ready.
  rewrite !opt_ready by first [apply structure_ready|apply setup_ready|apply flow_ready|apply validation_ready
    |apply consensus_ready|done].
  assert (json_ready (OTuple (discovery_obj <$> SignalAssemblyReport.discovery_records r)) =
    discovery_ready (SignalAssemblyReport.discovery_records r)) as ->.
  { unfold discovery_ready. simpl. induction (SignalAssemblyReport.discovery_records r) as [|d l IH]; simpl; [done|]. by f_equal. }
  simpl. by destruct (discovery_ready _).
Qed.

Lemma json_safe_dict_ok items :
  is_ok (json_safe_dict items) = forallb (fun kv => json_ready kv.2) items.
Proof.
  unfold json_safe_dict. induction items as [|[k a] items IH]; [done|].
  by rewrite is_ok_mapM_cons, is_ok_fmap, json_safe_ready, IH.
Qed.

Section store_facts.
Context `{!Table CandleKey OhlcvCandleRecord.t} `{!Table string SupportZoneRecord.t}
  `{!Table string StructureEventRecord.t} `{!Table string ReclaimAttemptRecord.t}.
Context (utc_now : nat -> aware).

(** The two records of a report. *)
Record report_recorded (report : SignalAssemblyReport.t) (assembly lifecycle : DomainRecord.t) : Prop := {
  rc_types : DomainRecord.record_type assembly = "signal_assembly" /\
             DomainRecord.record_type lifecycle = "signal_lifecycle";
  rc_symbols : DomainRecord.symbol assembly = str_strip (SignalAssemblyReport.symbol report) /\
               DomainRecord.symbol lifecycle = DomainRecord.symbol assembly;
  rc_status : DomainRecord.state assembly = SignalAssemblyStatus.value (SignalAssemblyReport.status report);
  rc_life : DomainRecord.state lifecycle =
              LifecycleState.value (LifecycleRecord.state (SignalAssemblyReport.lifecycle report));
  rc_expiry : let expiry := Some (AwareDT (LifecycleRecord.expires_at (SignalAssemblyReport.lifecycle report))) in
              DomainRecord.expires_at assembly = expiry /\ DomainRecord.expires_at lifecycle = expiry;
  rc_assembly : json_safe_dict (report_items report) = Ok (DomainRecord.payload assembly);
  rc_lifecycle : json_safe_dict (lifecycle_items report) = Ok (DomainRecord.payload lifecycle) }.

Lemma lifecycle_items_ready r : forallb (fun kv => json_ready kv.2) (lifecycle_items r) = true.
Proof.
  unfold lifecycle_items. cbn [forallb snd].
  by rewrite lifecycle_ready, strs_ready, (list_ready gate_obj) by apply gate_ready.
Qed.

Lemma persist_exact db report :
  str_empty (str_strip (SignalAssemblyReport.symbol report)) = false ->
  if discovery_ready (SignalAssemblyReport.discovery_records report)
  then exists assembly lifecycle, persist utc_now db report = Ok (appended db [assembly; lifecycle]) /\
         report_recorded report assembly lifecycle
  else exists e, persist utc_now db report = Err e.
Proof.
  intros Hsym. rewrite <- report_ready, <- json_safe_dict_ok. unfold persist.
  destruct (json_safe_dict (report_items report)) as [a|e] eqn:Ea; [|by exists e]. cbn [is_ok]. bind_ok.
  destruct (json_safe_dict_ready _ (lifecycle_items_ready report)) as [l El]. rewrite El. bind_ok. cbv zeta.
  unfold add. cbn [DomainRecordInput.record_type DomainRecordInput.symbol DomainRecordInput.state]. cbv zeta.
  rewrite Hsym. rewrite guard_pass by (by destruct (SignalAssemblyReport.status report)). bind_ok.
  rewrite guard_pass by (by destruct (LifecycleRecord.state _)).
  eexists _, _. split; [unfold appended; simpl; rewrite <- app_assoc; reflexivity|].
  constructor; try done; cbn; [by destruct (SignalAssemblyReport.status report)|by destruct (LifecycleRecord.state _)].
Qed.
End store_facts.

(** ** Property *)

(** C17: what [assemble_and_persist] leaves behind, on every branch.  An exception of the
    assembly, or a discovery record that cannot be written as JSON, leaves the database as
    it was and reaches the caller.  Otherwise exactly two records are committed, the
    report and its life cycle, with the symbol of the request and the expiry of the
    life cycle, [ttl] minutes from now; the second is ACTIVE exactly when the first is
    SHORT_READY, and the payload repeats the status and the setup type. *)
Theorem assembly_is_recorded `{!Table CandleKey OhlcvCandleRecord.t} `{!Table string SupportZoneRecord.t}
    `{!Table string StructureEventRecord.t} `{!Table string ReclaimAttemptRecord.t} utc_now db request now rules :
  match assemble_signal request (AwareDT now) (Some rules) with
  | Err e => assemble_and_persist utc_now db request (AwareDT now) (Some rules) = (db, Err e)
  | Ok report =>
      if discovery_ready (SignalAssemblyRequest.discovery_records request)
      then exists assembly lifecycle,
        assemble_and_persist utc_now db request (AwareDT now) (Some rules) =
          (appended db [assembly; lifecycle], Ok report) /\
        report_recorded report assembly lifecycle /\
        DomainRecord.symbol assembly = str_strip (SignalAssemblyRequest.symbol request) /\
        DomainRecord.expires_at assembly =
          Some (AwareDT (time_add now (minutes (SignalAssemblyRules.lifecycle_ttl_minutes rules)))) /\
        (DomainRecord.state lifecycle = "ACTIVE" <-> DomainRecord.state assembly = "SHORT_READY") /\
        dict_get (DomainRecord.payload assembly) "status" = VStr (DomainRecord.state assembly) /\
        dict_get (DomainRecord.payload assembly) "setup_type" =
          VStr (ShortSetupType.value (SignalAssemblyRequest.setup_type request)) /\
        dict_get (DomainRecord.payload lifecycle) "assembly_status" = VStr (DomainRecord.state assembly)
      else exists e, assemble_and_persist utc_now db request (AwareDT now) (Some rules) = (db, Err e)
  end.
Proof.
  unfold assemble_and_persist. destruct (assemble_signal request (AwareDT now) (Some rules)) as [report|e] eqn:Ea; [|done].
  destruct (report_lifecycle _ _ _ _ Ea) as (Hlife & Hexp & Hsym & Hset & Hrec & Hne).
  pose proof (persist_exact utc_now db report Hne) as Hp. rewrite Hrec in Hp. unfold transaction.
  destruct (discovery_ready _); [|destruct Hp as [e ->]; by exists e].
  destruct Hp as (a & l & -> & Hr). exists a, l. split; [done|]. split; [exact Hr|].
  destruct Hr as [_ [S1 _] St Li [X1 _] Pa Pl]. rewrite S1, X1, Hsym, Hexp, Li, Hlife, St. split_and!; try done.
  - unfold SignalAssemblyReport.is_short_ready. case_bool_decide as Hs; [by rewrite Hs|].
    split; [done|]. by destruct (SignalAssemblyReport.status report).
  - by apply (json_safe_dict_get _ _ _ (enum_obj (SignalAssemblyStatus.value (SignalAssemblyReport.status report))) _ Pa);
      [apply (bool_decide_unpack _)|set_solver|].
  - rewrite <- Hset.
    by apply (json_safe_dict_get _ _ _ (enum_obj (ShortSetupType.value (SignalAssemblyReport.setup_type report))) _ Pa);
      [apply (bool_decide_unpack _)|set_solver|].
  - by apply (json_safe_dict_get _ _ _ (enum_obj (SignalAssemblyStatus.value (SignalAssemblyReport.status report))) _ Pl);
      [apply (bool_decide_unpack _)|set_solver|].
Qed.
