(* ===== verification/Watchlist.v ===== *)
(** * The watchlist: [watchlist/models.py], [watchlist/service.py], and
    [input_from_watchlist] of [structure/analyzer.py]

    An entry is made of a payload that names a symbol and a price, watched when its source
    is usable and paused otherwise; a review moves it on, except when it is paused.  Its
    price, a number or the text of one, is what the structure analysis starts from. *)

From Stdlib Require Import QArith Lqa.
From stdpp Require Import list strings.
From S2P Require Import Prelude PyStr PyDecimal DecimalFacts PyParse PyFloat FloatFacts PyValue Adapters Workflow.
Open Scope Z_scope.

Module WatchStage.
Inductive t : Type := NEW | WATCHING | REVIEWING | PAUSED.
#[global] Instance eq_dec : EqDecision t.
Proof. solve_decision. Defined.
Definition value (s : t) : string :=
  match s with NEW => "NEW" | WATCHING => "WATCHING" | REVIEWING => "REVIEWING" | PAUSED => "PAUSED" end.
Definition members : list t := [NEW; WATCHING; REVIEWING; PAUSED].
End WatchStage.

Module WatchlistEntry.
Record t : Type := Mk {
  symbol : string;
  stage : WatchStage.t;
  source : string;
  data : pydict;
  reasons : list string }.
Definition is_active (e : t) : bool := bool_decide (stage e ∈ [WatchStage.WATCHING; WatchStage.REVIEWING]).
End WatchlistEntry.

Definition REQUIRED_ENTRY_FIELDS : list string := ["symbol"; "price"].

Definition entry_from_payload (payload : AdapterPayload.t) : res WatchlistEntry.t :=
  require_fields (AdapterPayload.data payload) REQUIRED_ENTRY_FIELDS ;;
  let symbol := pv_str (dict_get (AdapterPayload.data payload) "symbol") in
  if negb (AdapterHealth.is_usable (AdapterPayload.health payload)) then
    mret (WatchlistEntry.Mk symbol WatchStage.PAUSED (AdapterPayload.name payload) (AdapterPayload.data payload)
            ["source unavailable"])
  else
    mret (WatchlistEntry.Mk symbol WatchStage.WATCHING (AdapterPayload.name payload) (AdapterPayload.data payload)
            ["accepted"]).

Definition move_to_review (entry : WatchlistEntry.t) (reason : string) : WatchlistEntry.t :=
  if decide (WatchlistEntry.stage entry = WatchStage.PAUSED) then entry
  else WatchlistEntry.Mk (WatchlistEntry.symbol entry) WatchStage.REVIEWING (WatchlistEntry.source entry)
         (WatchlistEntry.data entry) (WatchlistEntry.reasons entry ++ [reason]).

(** [d[key]] *)
Definition dict_subscript (d : pydict) (key : string) : res pyval :=
  if dict_has d key then Ok (dict_get d key) else Err (KeyError key).

Definition input_from_watchlist (entry : WatchlistEntry.t) (reference_low reference_high : float) :
    res StructureInput.t :=
  price ← dict_subscript (WatchlistEntry.data entry) "price";
  current_value ← float_of_pyval price;
  StructureInput.new (WatchlistEntry.symbol entry) current_value reference_low reference_high.

(** ** Facts *)

(** A review never activates a paused entry, and keeps everything but stage and reasons. *)
Lemma move_to_review_active entry reason :
  let moved := move_to_review entry reason in
  WatchlistEntry.symbol moved = WatchlistEntry.symbol entry /\
  WatchlistEntry.source moved = WatchlistEntry.source entry /\
  WatchlistEntry.data moved = WatchlistEntry.data entry /\
  WatchlistEntry.is_active moved = negb (bool_decide (WatchlistEntry.stage entry = WatchStage.PAUSED)).
Proof.
  unfold move_to_review, WatchlistEntry.is_active. case_decide as E; [by rewrite E|].
  split_and!; [done..|]. by rewrite (bool_decide_eq_false_2 (_ = _)).
Qed.

(** An entry needs its two fields; it is active exactly when the source is usable, and then
    one review later too. *)
Lemma entry_from_payload_active payload entry reason :
  entry_from_payload payload = Ok entry ->
  WatchlistEntry.is_active entry = AdapterHealth.is_usable (AdapterPayload.health payload) /\
  WatchlistEntry.is_active (move_to_review entry reason) = WatchlistEntry.is_active entry.
Proof.
  unfold entry_from_payload. intros ([] & _ & He)%bind_Ok. cbv zeta in He.
  destruct (AdapterHealth.is_usable _); apply Ok_inj in He; subst entry; done.
Qed.

(** What an entry keeps of its payload, whose two fields are there. *)
Lemma entry_data payload entry :
  entry_from_payload payload = Ok entry ->
  WatchlistEntry.data entry = AdapterPayload.data payload /\
  WatchlistEntry.symbol entry = pv_str (dict_get (AdapterPayload.data payload) "symbol") /\
  dict_has (WatchlistEntry.data entry) "price" = true.
Proof.
  unfold entry_from_payload. intros ([] & Hf & He)%bind_Ok. cbv zeta in He.
  apply require_fields_Ok in Hf. rewrite Forall_forall in Hf.
  destruct (AdapterHealth.is_usable _); apply Ok_inj in He; subst entry;
    (split; [done|]; split; [done|]; apply Hf; unfold REQUIRED_ENTRY_FIELDS; set_solver).
Qed.

(** The price of an entry is there to be read: only the number and the range can be refused. *)
Lemma input_from_entry payload entry low high :
  entry_from_payload payload = Ok entry ->
  input_from_watchlist entry low high =
    (current_value ← float_of_pyval (dict_get (AdapterPayload.data payload) "price");
     StructureInput.new (pv_str (dict_get (AdapterPayload.data payload) "symbol")) current_value low high).
Proof.
  intros (<- & <- & Hp)%entry_data. unfold input_from_watchlist, dict_subscript. by rewrite Hp.
Qed.

(** A decimal at or above a float rounds to a float at or above it. *)
Lemma float_lit_ge c d :
  ffits c -> (fval c <= dval d)%Q -> (c <=? float_lit (dm d) (de d))%flt = true.
Proof.
  intros Hc Hle. assert (0 < 10 ^ Z.max 0 (- de d)) as Hp by (apply Z.pow_pos_nonneg; lia).
  apply fround_ge; [done..|].
  assert (inject_Z (dm d * 10 ^ Z.max 0 (de d)) == dval d * inject_Z (10 ^ Z.max 0 (- de d)))%Q as ->.
  { unfold dval. rewrite inject_Z_mult, <- !pw_nonneg, <- Qmult_assoc, <- pw_plus by lia.
    by replace (de d + Z.max 0 (- de d)) with (Z.max 0 (de d)) by lia. }
  apply Qmult_le_compat_r; [done|]. change 0%Q with (inject_Z 0). rewrite <- Zle_Qle. lia.
Qed.

(** The alert of an entry never comes of the rounding of its price: the decimal number that
    the payload writes is itself below the reference. *)
Lemma watched_alert_exact payload entry s d low high item :
  entry_from_payload payload = Ok entry ->
  dict_get (AdapterPayload.data payload) "price" = VStr s ->
  Forall (fun a => code a <> 95) (chars (str_strip s)) -> decimal_of_str s = Ok (Finite d) ->
  ffits low -> input_from_watchlist entry low high = Ok item ->
  exists snap, analyze_structure item = Ok snap /\
    StructureSnapshot.symbol snap = str_strip (WatchlistEntry.symbol entry) /\
    (StructureSnapshot.state snap = StructureState.ALERT -> (dval d < fval low)%Q).
Proof.
  intros He Hv Hs Hd Hl Hi.
  assert (StructureInput.new (WatchlistEntry.symbol entry) (float_lit (dm d) (de d)) low high = Ok item) as Hn.
  { rewrite <- Hi, (input_from_entry _ _ _ _ He), Hv, (float_of_decimal_text _ _ Hs Hd).
    by destruct (entry_data _ _ He) as (_ & -> & _). }
  pose proof (StructureInput_new_fields _ _ _ _ _ Hn) as ->.
  apply StructureInput_new_ok in Hn as (Hok & _).
  destruct (analyze_structure_ok _ Hok) as (snap & Ha & Hsym & mid & _ & Hst).
  exists snap. split; [done|]. split; [done|]. simpl in Hst. rewrite Hst.
  intros Halert. destruct (Qlt_le_dec (dval d) (fval low)) as [|Hle]; [done|].
  apply (float_lit_ge _ _ Hl) in Hle.
  destruct (_ <? low)%flt eqn:E; [|by destruct (_ <? mid)%flt].
  apply fzero_of_lt in E. congruence.
Qed.

Example watched_price_example :
  let payload price := AdapterPayload.Mk "unit" [("symbol", VStr "TEST"); ("price", price)]
    (AdapterHealth.Mk "unit" AdapterState.OK None EmptyString) in
  let item price : res StructureInput.t :=
    (entry ← entry_from_payload (payload price); input_from_watchlist entry (Fl 5 0) (Fl 10 0)) in
  (i ← item (VStr "7.5"); mret (StructureInput.current_value i)) = Ok (float_lit 75 (-1)) /\
  is_ok (item (VStr "n/a")) = false /\ is_ok (item VNone) = false /\
  (i ← item (VStr "4.99"); s ← analyze_structure i; mret (StructureSnapshot.state s)) = Ok StructureState.ALERT.
Proof. vm_compute. repeat split. Qed.
