(* ===== verification/WorkerLoop.v ===== *)
(** * The loops of the worker: [RuntimeSupervisor.run], [RuntimeOrchestrator.run_forever]

    Both loops ask whether the stop event is set, do one round, and wait for the event at
    most one tick: whether the wait ends by the event or by [TimeoutError], the loop asks
    again.  [stop n] is what the loop sees when it asks for the [n]-th time, and [world n]
    what its [n]-th round meets: the clock, the worlds of the runs and the cleaner.

    A round of the supervisor awaits [run_due], so no two calls overlap and
    [Orchestration.run_due] is what it does ([run_due_sequential]).  The loops may run
    forever, so they take fuel; the theorems say how much is enough. *)

From stdpp Require Import list strings gmap.
From S2P Require Import Prelude PyList PyStr PyTime PyFloat PyValue Adapters Runtime Orchestration RuntimeStore.
From S2P Require Import Supervision Worker.
Import ScheduledSourceJob (schedule).
Open Scope Z_scope.

(** ** A round *)

Record Round : Type := MkRound {
  round_clock : res datetime;
  round_envs : nat -> Env;
  round_clean : aware -> res RetentionResult.t }.

Record State : Type := MkState { st_orch : RuntimeOrchestrator; st_sup : RuntimeSupervisor }.

(** [await self.run_cycle()]: the orchestrator moves when the clock gives a time. *)
Definition round (r : Round) (s : State) : State * res SupervisorCycle :=
  let due t := Orchestration.run_due (round_envs r) (AwareDT t) (st_orch s) in
  let o := match round_clock r with Ok (AwareDT t) => fst (due t) | _ => st_orch s end in
  let '(sup, c) := run_cycle (st_sup s) (MkWorld (round_clock r) (fun t => snd (due t)) (round_clean r)) None in
  (MkState o sup, c).

Section loops.
Context (stop : nat -> bool) (world : nat -> Round).

(** [while not stop_event.is_set(): ...]: [None] while it runs, else how it ended: the
    state, the cycles and the exception that left it, if any. *)
Fixpoint run (fuel n : nat) (s : State) : option (State * list SupervisorCycle * res unit) :=
  match fuel with
  | O => None
  | S fuel =>
      if stop n then Some (s, [], Ok tt)
      else
        match round (world n) s with
        | (s, Err e) => Some (s, [], Err e)
        | (s, Ok c) => (fun r => (r.1.1, c :: r.1.2, r.2)) <$> run fuel (S n) s
        end
  end.

(** [run_forever] of the orchestrator. *)
Fixpoint forever (fuel n : nat) (o : RuntimeOrchestrator) : option (RuntimeOrchestrator * res unit) :=
  match fuel with
  | O => None
  | S fuel =>
      if stop n then Some (o, Ok tt)
      else
        match (value ← round_clock (world n);
               require_aware value "runtime clock must return a timezone-aware datetime") with
        | Err e => Some (o, Err e)
        | Ok now =>
            match Orchestration.run_due (round_envs (world n)) (AwareDT now) o with
            | (o, Err e) => Some (o, Err e)
            | (o, Ok _) => forever fuel (S n) o
            end
        end
  end.

Definition run_forever (tick_seconds : float) (fuel : nat) (o : RuntimeOrchestrator) :
    option (RuntimeOrchestrator * res unit) :=
  if (tick_seconds <=? fzero)%flt then Some (o, Err (ValueError "tick_seconds must be positive"))
  else forever fuel 0 o.

(** The state after so many rounds. *)
Fixpoint after (k : nat) (s : State) : State :=
  match k with O => s | S k => fst (round (world k) (after k s)) end.

(** The result of a round. *)
Definition cycle_at_round (k : nat) (s : State) : res SupervisorCycle := snd (round (world k) (after k s)).
End loops.

(** ** Facts: a call by itself *)

Definition orchestrator_idle (o : RuntimeOrchestrator) : Prop :=
  orchestrator_ok o /\ _in_flight o = ∅ /\ Forall named_job (_jobs o).

Definition due_jobs (o : RuntimeOrchestrator) (now : aware) : list ScheduledSourceJob.t :=
  filter (fun job => job_due o now job = true) (_jobs o).

(** When nothing is in flight the due jobs are those whose time has come. *)
Lemma idle_due o now job :
  orchestrator_idle o -> job_due o now job = (utc (scheduled_for o now job) <=? utc now).
Proof. intros (_ & Hf & _). unfold job_due. rewrite Hf, bool_decide_eq_false_2 by set_solver. by rewrite andb_true_r. Qed.

Record due_run (envs : nat -> Env) (now : aware) (o o' : RuntimeOrchestrator) (outs : list WorkerRunOutcome.t) : Prop := {
  dr_jobs : _jobs o' = _jobs o;
  dr_next : forall job, job ∈ _jobs o -> _next_run_at o' !! ScheduledSourceJob.name job = Some (Some (next_after o now job));
  dr_outs : Forall2 (fun j out => outcome_ok j now out) (due_jobs o now) outs;
  dr_runs : forall k j, due_jobs o now !! k = Some j -> exists out, outs !! k = Some out /\ _run_job (envs k) j now = Ok out }.

Lemma run_due_idle envs o now :
  orchestrator_idle o ->
  exists o' outs, Orchestration.run_due envs (AwareDT now) o = (o', Ok outs) /\ orchestrator_idle o' /\ due_run envs now o o' outs.
Proof.
  intros (Ho & Hf & Hn). destruct (claim_due_exact o now Ho) as (o1 & E & [Cj Cn Co Cf] & Ho1).
  set (due := filter (fun job => job_due o now job = true) (_jobs o)) in *.
  assert (Forall named_job due) as Hnd by (apply Forall_forall; intros j [_ Hj]%list_elem_of_filter; by eapply Forall_forall in Hn).
  assert (exists outs, outcomes_of envs 0 now due outs /\ Forall2 (fun j out => outcome_ok j now out) due outs) as (outs & Hout & Hok).
  { clear -Hnd. unfold outcomes_of.
    assert (forall n ds, Forall named_job ds -> exists outs, length outs = length ds /\
      (forall k j, ds !! k = Some j -> exists o, outs !! k = Some o /\ _run_job (envs (n + k)%nat) j now = Ok o) /\
      Forall2 (fun j out => outcome_ok j now out) ds outs) as H.
    { intros n ds Hds. revert n. induction Hds as [|d ds Hd _ IH]; intros n; [exists []; by split_and!|].
      destruct (run_job_Ok (envs n) d now Hd) as (out & Eo & Hok & _). destruct (IH (S n)) as (outs & Hl & Hk & Hf2).
      exists (out :: outs). split_and!; [simpl; lia| |by constructor].
      intros [|k] j Hj; [injection Hj as <-; exists out; by rewrite Nat.add_0_r|].
      destruct (Hk k j Hj) as (o' & H1 & H2). exists o'. by rewrite Nat.add_succ_r, <- Nat.add_succ_l. }
    destruct (H 0%nat due Hnd) as (outs & Hl & Hk & Hf2). by exists outs. }
  unfold Orchestration.run_due. cbn [require_aware]. rewrite E.
  pose proof (mapM_outcomes envs 0 now due outs Hout) as Hm. cbn [Nat.add] in Hm. rewrite Hm.
  eexists _, outs. split; [reflexivity|]. destruct Ho1 as [O1 O2 O3 O4]. split; [split; [|split]|].
  - constructor; cbn [_jobs _next_run_at _in_flight]; try done. intros name. rewrite elem_of_difference. intros [Hin _]. by apply O4.
  - cbn [_in_flight]. apply set_eq. intros name. split; [|set_solver]. rewrite elem_of_difference, elem_of_list_to_set.
    intros [Hin Hne]. exfalso. apply O4 in Hin as Hj. rewrite Cj in Hj. apply list_elem_of_fmap in Hj as (j & -> & Hj).
    apply Cf in Hin as [Hin|Hd]; [|apply Hne|done]; [rewrite Hf in Hin; set_solver|].
    apply list_elem_of_fmap. exists j. split; [done|]. by apply list_elem_of_filter.
  - cbn [_jobs]. by rewrite Cj.
  - constructor; cbn [_jobs _next_run_at]; try done. by destruct Hout.
Qed.

(** ** Facts: a round *)

(** What holds between rounds, after a history of outcomes. *)
Record worker_ok (s : State) (h : list WorkerRunOutcome.t) : Prop := {
  wk_orch : orchestrator_idle (st_orch s);
  wk_sup : supervisor_ok (st_sup s) h }.

(** The clocks give times of Python's range; nothing is asked of the loads, the stores and
    the cleaner, and the clocks of the runs may fail. *)
Record round_ok (r : Round) (now : aware) : Prop := {
  rd_clock : round_clock r = Ok (AwareDT now);
  rd_now : python_time now;
  rd_envs : forall i n t, clock (round_envs r i) n = Ok (AwareDT t) -> python_time t }.

Lemma due_run_outcomes envs now o o' outs :
  due_run envs now o o' outs -> Forall named_job (_jobs o) -> python_time now ->
  (forall i n t, clock (envs i) n = Ok (AwareDT t) -> python_time t) ->
  Forall named outs /\ Forall spanned outs.
Proof.
  intros [_ _ Hf2 Hr] Hn Hp Hc. apply Forall_and. apply Forall_lookup. intros k out Hk.
  destruct (Forall2_lookup_r _ _ _ _ _ Hf2 Hk) as (j & Hj & [Hname _ _ Hle]).
  destruct (Hr k j Hj) as (out' & Hk' & Hrun). assert (out' = out) as -> by congruence. split.
  - unfold named. rewrite Hname. apply list_elem_of_lookup_2, list_elem_of_filter in Hj as [_ Hj].
    by eapply Forall_forall in Hn.
  - destruct (run_job_timed (envs k) (Hc k) j now out Hrun Hp) as [Ha Hb]. unfold spanned, python_time in *. lia.
Qed.

Lemma round_Ok r s h now :
  worker_ok s h -> round_ok r now ->
  exists s' c, round r s = (s', Ok c) /\ worker_ok s' (h ++ outcomes c) /\ cycle_at c = now /\
    due_run (round_envs r) now (st_orch s) (st_orch s') (outcomes c) /\
    alerts c = alerts_after (failure_alert_threshold (st_sup s)) h (outcomes c).
Proof.
  intros [Ho Hs] [Hc Hn He]. destruct (run_due_idle (round_envs r) (st_orch s) now Ho) as (o' & outs & E & Ho' & Hd).
  destruct (due_run_outcomes _ _ _ _ _ Hd (proj2 (proj2 Ho)) Hn He) as [Hnames Hspans].
  set (due := fun t => Orchestration.run_due (round_envs r) (AwareDT t) (st_orch s)).
  set (w := MkWorld (round_clock r) (fun t => snd (due t)) (round_clean r)).
  assert (run_due w now = Ok outs) as Hw by (unfold w, due; cbn [run_due]; by rewrite E).
  destruct (run_cycle_Ok (st_sup s) w now h outs Hs Hw Hnames Hspans) as (sup & c & Hcyc & Hsup & Hout & Hal & Hat & _ & _).
  assert (run_cycle (st_sup s) w None = (sup, Ok c)) as Hnone.
  { rewrite <- Hcyc. unfold run_cycle. cbn [require_aware]. assert (sup_clock w = Ok (AwareDT now)) as -> by exact Hc. done. }
  exists (MkState o' sup), c. split; [|rewrite <- Hout in *; by split_and!].
  subst w due. cbv beta in Hnone. unfold round. cbv zeta. by rewrite Hnone, Hc, E.
Qed.

Section facts.
Context (stop : nat -> bool) (world : nat -> Round) (now : nat -> aware).
Context (Hworld : forall n, round_ok (world n) (now n)).
Context (s : State) (h : list WorkerRunOutcome.t) (Hs : worker_ok s h).

(** The history after some rounds. *)
Fixpoint history (k : nat) : list WorkerRunOutcome.t :=
  match k with
  | O => h
  | S k => history k ++ match cycle_at_round world k s with Ok c => outcomes c | Err _ => [] end
  end.

Lemma after_ok k : worker_ok (after world k s) (history k).
Proof.
  induction k as [|k IH]; [done|]. simpl. unfold cycle_at_round.
  destruct (round_Ok (world k) _ _ (now k) IH (Hworld k)) as (s' & c & -> & Hs' & _). done.
Qed.

Lemma round_at k :
  exists c, round (world k) (after world k s) = (after world (S k) s, Ok c) /\ cycle_at_round world k s = Ok c /\
    cycle_at c = now k /\
    due_run (round_envs (world k)) (now k) (st_orch (after world k s)) (st_orch (after world (S k) s)) (outcomes c) /\
    alerts c = alerts_after (failure_alert_threshold (st_sup (after world k s))) (history k) (outcomes c).
Proof.
  destruct (round_Ok (world k) _ _ (now k) (after_ok k) (Hworld k)) as (s' & c & E & _ & Hat & Hd & Ha).
  exists c. cbn [after]. unfold cycle_at_round. rewrite E. by split_and!.
Qed.

(** The loop from its [n]-th question on. *)
Lemma run_stops k n fuel :
  (forall m, (n <= m < n + k)%nat -> stop m = false) -> stop (n + k)%nat = true -> (k < fuel)%nat ->
  exists cs, run stop world fuel n (after world n s) = Some (after world (n + k) s, cs, Ok tt) /\ length cs = k /\
    (forall i c, cs !! i = Some c -> cycle_at_round world (n + i) s = Ok c) /\
    history (n + k) = history n ++ concat (outcomes <$> cs).
Proof.
  revert n fuel. induction k as [|k IH]; intros n [|fuel] Hrun Hstop Hf; try lia; cbn [run].
  - rewrite Nat.add_0_r in *. rewrite Hstop. exists []. split; [done|]. by rewrite app_nil_r.
  - rewrite (Hrun n) by lia. destruct (round_at n) as (c & E & Hc & _). rewrite E.
    destruct (IH (S n) fuel) as (cs & Er & Hl & Hi & Hh); [intros; apply Hrun; lia|by rewrite Nat.add_succ_l, <- Nat.add_succ_r|lia|].
    rewrite Er. cbn [fmap option_fmap option_map fst snd]. exists (c :: cs).
    rewrite Nat.add_succ_r, <- Nat.add_succ_l. split; [done|]. split; [simpl; lia|]. split.
    + intros [|i] c' Hci; [injection Hci as <-; by rewrite Nat.add_0_r|]. rewrite Nat.add_succ_r, <- Nat.add_succ_l. by apply Hi.
    + rewrite Hh. cbn [history]. rewrite Hc. simpl. by rewrite <- app_assoc.
Qed.

Lemma run_goes_on fuel n :
  (forall m, (n <= m < n + fuel)%nat -> stop m = false) -> run stop world fuel n (after world n s) = None.
Proof.
  revert n. induction fuel as [|fuel IH]; intros n Hrun; [done|]. cbn [run]. rewrite (Hrun n) by lia.
  destruct (round_at n) as (c & E & _). rewrite E, IH; [done|]. intros m Hm. apply Hrun. lia.
Qed.

(** *** The schedule of a job *)

Lemma after_jobs k : _jobs (st_orch (after world k s)) = _jobs (st_orch s).
Proof.
  induction k as [|k IH]; [done|]. destruct (round_at k) as (c & _ & _ & _ & [Hj _ _ _] & _). by rewrite Hj.
Qed.

(** A job that is not yet due keeps its time. *)
Lemma scheduled_keeps n m job t :
  job ∈ _jobs (st_orch s) -> (n <= m)%nat ->
  scheduled_for (st_orch (after world n s)) (now n) job = t ->
  (forall k, (n <= k < m)%nat -> utc (now k) < utc t) ->
  scheduled_for (st_orch (after world m s)) (now m) job = t.
Proof.
  intros Hin Hle Ht. induction Hle as [|m Hle IH]; intros Hk; [done|].
  specialize (IH ltac:(intros; apply Hk; lia)). destruct (round_at m) as (c & _ & _ & _ & [_ Hn _ _] & _).
  unfold scheduled_for at 1. rewrite Hn by (by rewrite after_jobs). unfold next_after.
  rewrite idle_due by apply (wk_orch _ _ (after_ok m)). rewrite IH, (proj2 (Z.leb_gt _ _)); [done|]. apply Hk. lia.
Qed.

(** The outcomes of a round are those of the jobs whose time has come. *)
Lemma round_outcomes k c job :
  cycle_at_round world k s = Ok c -> job ∈ _jobs (st_orch s) ->
  if utc (scheduled_for (st_orch (after world k s)) (now k) job) <=? utc (now k)
  then (exists out, out ∈ outcomes c /\ outcome_ok job (now k) out) /\
       next_run_at (st_orch (after world (S k) s)) (ScheduledSourceJob.name job) =
         Ok (Some (time_add (now k) (seconds (RuntimeSchedule.interval_seconds (schedule job)))))
  else Forall (fun out => WorkerRunOutcome.job_name out <> ScheduledSourceJob.name job) (outcomes c).
Proof.
  intros Hc Hin. destruct (round_at k) as (c' & _ & Hc' & _ & [_ Hn Hf2 _] & _). assert (c' = c) as -> by congruence.
  pose proof (wk_orch _ _ (after_ok k)) as Hidle. pose proof (idle_due _ (now k) job Hidle) as Hd. rewrite <- Hd.
  destruct (job_due (st_orch (after world k s)) (now k) job) eqn:E.
  - split.
    + assert (job ∈ due_jobs (st_orch (after world k s)) (now k)) as Hj by (apply list_elem_of_filter; by rewrite after_jobs).
      apply list_elem_of_lookup in Hj as [i Hi]. destruct (Forall2_lookup_l _ _ _ _ _ Hf2 Hi) as (out & Ho & Hok).
      exists out. split; [by eapply list_elem_of_lookup_2|done].
    + unfold next_run_at. rewrite Hn by (by rewrite after_jobs). unfold next_after. by rewrite E.
  - apply Forall_lookup. intros i out Hi. destruct (Forall2_lookup_r _ _ _ _ _ Hf2 Hi) as (j & Hj & [Hname _ _ _]).
    rewrite Hname. apply list_elem_of_lookup_2, list_elem_of_filter in Hj as [Hdj Hj]. intros Eq.
    assert (j = job) as ->; [|congruence]. rewrite after_jobs in Hj.
    destruct Hs as [(Ho & _) _]. by eapply (NoDup_fmap_inj_in _ _ _ _ (ok_names _ Ho)).
Qed.
End facts.

(** [run_forever] ends at the first question that finds the event set, and not before. *)
Lemma run_forever_stops stop world now tick_seconds o k fuel :
  orchestrator_idle o -> (tick_seconds <=? fzero)%flt = false -> (forall n, round_clock (world n) = Ok (AwareDT (now n))) ->
  (forall m, (m < k)%nat -> stop m = false) -> stop k = true ->
  if (k <? fuel)%nat
  then exists o', run_forever stop world tick_seconds fuel o = Some (o', Ok tt) /\ orchestrator_idle o'
  else run_forever stop world tick_seconds fuel o = None.
Proof.
  intros Ho Ht Hw Hrun Hk. unfold run_forever. rewrite Ht.
  assert (forall j n f o, (n + j = k)%nat -> orchestrator_idle o ->
    if (j <? f)%nat then exists o', forever stop world f n o = Some (o', Ok tt) /\ orchestrator_idle o'
    else forever stop world f n o = None) as H.
  { clear o Ho fuel. induction j as [|j IH]; intros n [|f] o Hn Ho; try done; cbn [forever].
    - rewrite Nat.add_0_r in Hn. subst n. rewrite Hk. simpl. by exists o.
    - rewrite (Hrun n) by lia. rewrite Hw. bind_ok. cbn [require_aware].
      destruct (run_due_idle (round_envs (world n)) o (now n) Ho) as (o' & outs & -> & Ho' & _). by apply (IH (S n) f o'); [lia|]. }
  by apply H.
Qed.

(** ** Facts: the worker of accepted settings *)

Lemma job_table_named s : Forall (fun r : job_row => str_empty (str_strip r.1.1.1) = false) (job_table s).
Proof.
  unfold job_table. destruct (Settings.worker_enable_lbank s), (Settings.worker_enable_benchmarks s), (Settings.worker_enable_ohlcv s), (Settings.worker_enable_discovery s);
    repeat constructor.
Qed.

Definition worker_state (w : Worker) : State := MkState (orchestrator w) (supervisor w).

Lemma accepted_worker_ok {Engine} (create : string -> res Engine) raw s w :
  Settings.new raw = Ok s -> run_worker create s = Ok w ->
  worker_ok (worker_state w) [] /\
  forall job, job ∈ _jobs (orchestrator w) -> next_run_at (orchestrator w) (ScheduledSourceJob.name job) = Ok None.
Proof.
  intros [-> Hs]%new_Settings_Ok Hw. destruct (run_worker_engine _ _ _ Hw) as [engine Hdb].
  destruct (registry_built raw Hs) as (jobs & Hb & Hj).
  destruct (decide (job_table raw = [])) as [Ht|Ht].
  { pose proof (proj2 (built_empty _ _ _ Hb) Ht) as He. unfold run_worker in Hw.
    rewrite (new_database_Ok _ _ _ Hdb) in Hw. rewrite Ok_bind in Hw. by rewrite Hj, bool_decide_eq_true_2 in Hw. }
  rewrite bool_decide_eq_false_2 in Hj by (by rewrite (built_empty _ _ _ Hb)).
  destruct (run_worker_parts _ _ _ _ Hdb Hs Hb Hj) as (w' & Hw' & Ha & Ho & _ & Hsup). assert (w' = w) as -> by congruence.
  pose proof Hb as Hb0. destruct Hb as [Hr Hok]. apply Forall_and in Hok as [Hsch _].
  assert (Forall schedule_ok jobs.*2) as Hsch2 by (by apply Forall_fmap).
  pose proof (new_orchestrator_ok _ _ Hsch2 Ho) as Hinv. unfold new_orchestrator in Ho. guards.
  assert (_jobs (orchestrator w) = jobs.*2) as Ej by (by rewrite <- Ho).
  assert (_in_flight (orchestrator w) = ∅) as Ef by (by rewrite <- Ho).
  assert (_next_run_at (orchestrator w) = list_to_map ((fun n => (n, None)) <$> (ScheduledSourceJob.name <$> jobs.*2))) as En by (by rewrite <- Ho).
  split; [constructor; [split; [done|split; [done|]]|done]|].
  - cbn [st_orch worker_state]. rewrite Ej. apply Forall_forall. intros j Hin.
    assert (row_of j ∈ scheduled_row raw <$> job_table raw) as Hrow by (rewrite <- Hr; by apply list_elem_of_fmap_2).
    apply list_elem_of_fmap in Hrow as ([[[name kind] itv] d] & Erow & Hin2). pose proof (job_table_named raw) as Hn.
    rewrite Forall_forall in Hn. specialize (Hn _ Hin2). unfold named_job. unfold row_of, scheduled_row in Erow.
    by injection Erow as ->.
  - intros j Hin. rewrite Ej in Hin. unfold next_run_at. rewrite En.
    rewrite (elem_of_list_to_map_1 _ (ScheduledSourceJob.name j) None); [done| |].
    + rewrite <- list_fmap_compose. cbn. by rewrite list_fmap_id.
    + apply list_elem_of_fmap. exists (ScheduledSourceJob.name j). split; [done|]. by apply list_elem_of_fmap_2.
Qed.

(** ** Properties *)

(** C14: the worker of accepted settings runs until it is told to stop, and stops then.
    Whatever the loads, the stores and the cleaner do (the clock gives times of Python's
    range), no round raises; while the stop event is not set the loop does not end; and
    when it is seen set after [k] rounds the loop ends normally after exactly these [k],
    with no job in flight and with metrics of all their outcomes. *)
Theorem worker_runs_until_stopped {Engine} (create_async_engine : string -> res Engine) raw settings w stop world now :
  Settings.new raw = Ok settings -> run_worker create_async_engine settings = Ok w -> (forall n, round_ok (world n) (now n)) ->
  (forall fuel, (forall m, (m < fuel)%nat -> stop m = false) -> run stop world fuel 0 (worker_state w) = None) /\
  (forall k fuel, (forall m, (m < k)%nat -> stop m = false) -> stop k = true -> (k < fuel)%nat ->
     exists s cs, run stop world fuel 0 (worker_state w) = Some (s, cs, Ok tt) /\ length cs = k /\
       s = after world k (worker_state w) /\ _in_flight (st_orch s) = ∅ /\
       represents (sup_metrics (st_sup s)) (concat (outcomes <$> cs)) /\
       forall i c, cs !! i = Some c -> cycle_at c = now i).
Proof.
  intros Hraw Hw Hr. destruct (accepted_worker_ok _ _ _ _ Hraw Hw) as [Hok _]. split.
  - intros fuel Hstop. apply (run_goes_on stop world now Hr (worker_state w) [] Hok fuel 0). intros m Hm. apply Hstop. lia.
  - intros k fuel Hstop Hk Hf.
    destruct (run_stops stop world now Hr (worker_state w) [] Hok k 0 fuel) as (cs & E & Hl & Hi & Hh); [intros; apply Hstop; lia|done|done|].
    eexists _, cs. split; [exact E|]. split; [done|]. split; [done|]. cbn [Nat.add] in *.
    destruct (after_ok world now Hr (worker_state w) [] Hok k) as [(_ & Hfl & _) [_ _ Hrep]]. rewrite Hh in Hrep.
    split; [done|]. split; [exact Hrep|]. intros i c Hc. specialize (Hi i c Hc). cbn [Nat.add] in Hi.
    destruct (round_at world now Hr (worker_state w) [] Hok i) as (c' & _ & Hc' & Hat & _). congruence.
Qed.

(** C15: no job is forgotten and none runs early.  In the worker of accepted settings, let
    [t] be the time a job is scheduled for as the [n]-th round sees it: its delay after the
    first round, when it has not run, and one interval after its last run when it has.  The
    job has no outcome in a round before [t], and in the first round at or after [t] it
    runs, ends with an outcome, and is scheduled one interval later. *)
Theorem job_runs_when_due {Engine} (create_async_engine : string -> res Engine) raw settings w world now job n m t c :
  Settings.new raw = Ok settings -> run_worker create_async_engine settings = Ok w -> (forall n, round_ok (world n) (now n)) ->
  job ∈ _jobs (orchestrator w) ->
  t = scheduled_for (st_orch (after world n (worker_state w))) (now n) job ->
  (n <= m)%nat -> (forall k, (n <= k < m)%nat -> utc (now k) < utc t) ->
  cycle_at_round world m (worker_state w) = Ok c ->
  (n = 0%nat -> t = time_add (now 0%nat) (seconds (RuntimeSchedule.initial_delay_seconds (schedule job)))) /\
  (utc (now m) < utc t ->
   Forall (fun out => WorkerRunOutcome.job_name out <> ScheduledSourceJob.name job) (outcomes c)) /\
  (utc t <= utc (now m) ->
   (exists out, out ∈ outcomes c /\ outcome_ok job (now m) out) /\
   forall k, scheduled_for (st_orch (after world (S m) (worker_state w))) k job =
     time_add (now m) (seconds (RuntimeSchedule.interval_seconds (schedule job)))).
Proof.
  intros Hraw Hw Hr Hin Ht Hle Hk Hc. destruct (accepted_worker_ok _ _ _ _ Hraw Hw) as [Hok Hnone]. split.
  - intros ->. subst t. unfold scheduled_for. specialize (Hnone job Hin). unfold next_run_at in Hnone. simpl.
    destruct (_next_run_at (orchestrator w) !! _) as [[t|]|]; [|done|]; discriminate.
  - pose proof (scheduled_keeps world now Hr (worker_state w) [] Hok n m job t Hin Hle (eq_sym Ht) Hk) as Hs.
    pose proof (round_outcomes world now Hr (worker_state w) [] Hok m c job Hc Hin) as Hout. rewrite Hs in Hout. split; intros Hcmp.
    + by rewrite (proj2 (Z.leb_gt _ _)) in Hout.
    + rewrite (proj2 (Z.leb_le _ _)) in Hout by done. destruct Hout as [Ho Hn]. split; [done|]. intros k.
      unfold scheduled_for. unfold next_run_at in Hn. destruct (_next_run_at _ !! _) as [[t'|]|]; congruence.
Qed.

(** *** The default worker, whose sources all time out *)

Definition sample_now (n : nat) : aware := at_second (Z.min (Z.of_nat n) 3600).

Definition sample_round (n : nat) : Round :=
  MkRound (Ok (AwareDT (sample_now n)))
    (fun _ => MkEnv (fun _ => Ok (AwareDT (sample_now n))) (Err (Exn "TimeoutError" "")) (fun _ _ => Ok tt) (fun _ => Ok tt))
    (fun _ => Err (Exn "OperationalError" "database is locked")).

Lemma sample_round_ok n : round_ok (sample_round n) (sample_now n).
Proof.
  assert (python_time (sample_now n)) as Hp.
  { unfold python_time, sample_now, at_second, us_per_second. cbn [utc]. lia. }
  constructor; [done|done|]. intros i m t. simpl. by intros [= <-].
Qed.

Definition default_worker : Worker :=
  match run_worker sample_engine Settings.defaults with Ok w => w | Err _ => MkWorker [] sample_orchestrator (RetentionPolicy.Mk 1 []) sample_supervisor end.

Lemma worker_runs_until_stopped_witness :
  exists s cs, run (fun n => 2 <=? Z.of_nat n) sample_round 3 0 (worker_state default_worker) = Some (s, cs, Ok tt) /\
    length cs = 2%nat /\ _in_flight (st_orch s) = ∅.
Proof.
  destruct (worker_runs_until_stopped sample_engine Settings.defaults Settings.defaults default_worker (fun n => 2 <=? Z.of_nat n) sample_round sample_now)
    as [_ H].
  - vm_compute. reflexivity.
  - unfold default_worker. destruct (run_worker sample_engine Settings.defaults) as [w|e] eqn:E; [reflexivity|vm_compute in E; discriminate E].
  - exact sample_round_ok.
  - destruct (H 2%nat 3%nat) as (s & cs & E & Hl & _ & Hf & _).
    + intros [|[|m]] Hm; [reflexivity|reflexivity|exfalso; lia].
    + reflexivity.
    + lia.
    + exists s, cs. split; [exact E|]. split; [exact Hl|exact Hf].
Defined.

Lemma job_runs_when_due_witness :
  exists job c, job ∈ _jobs (orchestrator default_worker) /\
    cycle_at_round sample_round 0 (worker_state default_worker) = Ok c /\
    exists out, out ∈ outcomes c /\ outcome_ok job (sample_now 0) out.
Proof.
  assert (run_worker sample_engine Settings.defaults = Ok default_worker) as Ew.
  { unfold default_worker. destruct (run_worker sample_engine Settings.defaults) as [w|e] eqn:E; [reflexivity|vm_compute in E; discriminate E]. }
  assert (Settings.new Settings.defaults = Ok Settings.defaults) as Es by (vm_compute; reflexivity).
  destruct (accepted_worker_ok _ _ _ _ Es Ew) as [Hok _].
  destruct (round_at sample_round sample_now sample_round_ok (worker_state default_worker) [] Hok 0) as (c & _ & Hc & _).
  destruct (_jobs (orchestrator default_worker)) as [|job jobs] eqn:Ej; [vm_compute in Ej; discriminate Ej|].
  exists job, c. split; [apply list_elem_of_here|]. split; [exact Hc|].
  destruct (job_runs_when_due sample_engine Settings.defaults Settings.defaults default_worker sample_round sample_now job 0 0 _ c
    Es Ew sample_round_ok ltac:(rewrite Ej; apply list_elem_of_here) eq_refl (le_n 0)) as (_ & _ & H).
  - intros k Hk. exfalso. lia.
  - exact Hc.
  - destruct H as [Ho _]; [|exact Ho]. injection Ej as Ej _. rewrite <- Ej. vm_compute. discriminate.
Defined.
