(* ===== verification/Schema.v ===== *)
(** * The database schema: [db/models.py], [db/reclaim_records.py] and the migrations

    The models declare the tables; the migrations build them, one revision after the other
    ([src/migrations/versions]).  Both are data here.  What a DDL statement does to the
    tables and indexes of a database is [effect], and the class [Ddl] says that a database
    executes every statement that has an effect; [schema_ddl] is an instance.  Alembic
    keeps the current revision beside the database and moves along the chain of
    [down_revision]s one revision at a time ([migration_step]).

    The types are those SQLAlchemy is given; how a database stores them is its own. *)

From stdpp Require Import list strings gmap relations.
From S2P Require Import Prelude PyStr.
Open Scope Z_scope.

(** ** Tables *)

Inductive sql_type : Type :=
| Uuid
| String_ (length : Z)
| Numeric (precision scale : Z)
| DateTime_ (timezone : bool)
| Integer
| JSON.
#[export] Instance sql_type_eq_dec : EqDecision sql_type.
Proof. solve_decision. Defined.

Record column_def : Type := Column { column_name : string; column_type : sql_type; nullable : bool }.
#[export] Instance column_def_eq_dec : EqDecision column_def.
Proof. solve_decision. Defined.

(** The columns in order, the primary key, the unique constraints by name. *)
Record table_def : Type := MkTable {
  columns : list column_def;
  primary_key : list string;
  uniques : list (string * list string) }.
#[export] Instance table_def_eq_dec : EqDecision table_def.
Proof. solve_decision. Defined.

(** Index names are unique in a database. *)
Record Schema : Type := MkSchema {
  tables : gmap string table_def;
  indexes : gmap string (string * list string) }.
#[export] Instance schema_eq_dec : EqDecision Schema.
Proof. solve_decision. Defined.

Definition empty_schema : Schema := MkSchema ∅ ∅.

(** ** DDL statements *)

(** The calls of [alembic.op]. *)
Inductive ddl : Type :=
| create_table (name : string) (definition : table_def)
| create_index (name table_name : string) (names : list string)
| drop_index (name table_name : string)
| drop_table (name : string).

Definition has_columns (d : table_def) (names : list string) : bool :=
  forallb (fun n => bool_decide (n ∈ column_name <$> columns d)) names.

Definition well_declared (d : table_def) : bool :=
  bool_decide (NoDup (column_name <$> columns d)) && has_columns d (primary_key d) &&
  forallb (fun u => has_columns d u.2) (uniques d).

(** The schema after a statement, [None] when the database refuses it. *)
Definition effect (s : Schema) (op : ddl) : option Schema :=
  match op with
  | create_table name d =>
      match tables s !! name with
      | Some _ => None
      | None => if well_declared d then Some (MkSchema (<[name := d]> (tables s)) (indexes s)) else None
      end
  | create_index name table_name names =>
      match indexes s !! name, tables s !! table_name with
      | None, Some d =>
          if has_columns d names then Some (MkSchema (tables s) (<[name := (table_name, names)]> (indexes s))) else None
      | _, _ => None
      end
  | drop_index name table_name =>
      match indexes s !! name with
      | Some (t, _) => if bool_decide (t = table_name) then Some (MkSchema (tables s) (delete name (indexes s))) else None
      | None => None
      end
  | drop_table name =>
      match tables s !! name with
      | Some _ => Some (MkSchema (delete name (tables s)) (filter (fun i => i.2.1 <> name) (indexes s)))
      | None => None
      end
  end.

Fixpoint effects (s : Schema) (ops : list ddl) : option Schema :=
  match ops with [] => Some s | op :: ops' => s ← effect s op; effects s ops' end.

(** A database: what it holds besides is its own, [reflect] is what an inspector sees. *)
Class Ddl : Type := {
  database : Type;
  reflect : database -> Schema;
  execute : database -> ddl -> res database;
  execute_effect db op s :
    effect (reflect db) op = Some s -> exists db', execute db op = Ok db' /\ reflect db' = s }.

Definition execute_schema (s : Schema) (op : ddl) : res Schema :=
  match effect s op with Some s' => Ok s' | None => Err (Exn "OperationalError" "statement refused") end.

Lemma execute_schema_effect s op s' :
  effect s op = Some s' -> exists s'', execute_schema s op = Ok s'' /\ s'' = s'.
Proof. intros H. exists s'. unfold execute_schema. by rewrite H. Qed.

#[export] Instance schema_ddl : Ddl := {|
  database := Schema;
  reflect := fun s => s;
  execute := execute_schema;
  execute_effect := execute_schema_effect |}.

(** ** [db/models.py], [db/reclaim_records.py] *)

(** [mapped_column(type, nullable=.., primary_key=..)]; [optional] is the annotation
    [Mapped[X | None]]. *)
Record mapped : Type := mapped_column {
  mapped_name : string;
  mapped_type : sql_type;
  optional : bool;
  mapped_nullable : option bool;
  is_primary_key : bool }.

Inductive table_arg : Type :=
| Index (name : string) (names : list string)
| UniqueConstraint (names : list string) (name : string).

Record Model : Type := MkModel {
  tablename : string;
  table_args : list table_arg;
  mapped_columns : list mapped }.

Module Models.
Definition DomainRecord : Model :=
  MkModel "domain_records"
   [Index "ix_domain_records_type_state" ["record_type"; "state"];
    Index "ix_domain_records_symbol_created" ["symbol"; "created_at"]]
   [mapped_column "id" Uuid false None true;
    mapped_column "record_type" (String_ 50) false (Some false) false;
    mapped_column "symbol" (String_ 100) false (Some false) false;
    mapped_column "state" (String_ 50) false (Some false) false;
    mapped_column "payload" JSON false (Some false) false;
    mapped_column "created_at" (DateTime_ true) false (Some false) false;
    mapped_column "updated_at" (DateTime_ true) false (Some false) false;
    mapped_column "expires_at" (DateTime_ true) true None false].

Definition OhlcvCandleRecord : Model :=
  MkModel "ohlcv_candles"
   [UniqueConstraint ["source"; "symbol"; "interval"; "open_time"] "uq_ohlcv_source_symbol_interval_open";
    Index "ix_ohlcv_symbol_interval_open" ["symbol"; "interval"; "open_time"];
    Index "ix_ohlcv_source_close" ["source"; "close_time"]]
   [mapped_column "id" Uuid false None true;
    mapped_column "source" (String_ 30) false (Some false) false;
    mapped_column "role" (String_ 40) false (Some false) false;
    mapped_column "category" (String_ 20) false (Some false) false;
    mapped_column "symbol" (String_ 100) false (Some false) false;
    mapped_column "interval" (String_ 10) false (Some false) false;
    mapped_column "open_time" (DateTime_ true) false (Some false) false;
    mapped_column "close_time" (DateTime_ true) false (Some false) false;
    mapped_column "open_price" (Numeric 38 18) false (Some false) false;
    mapped_column "high_price" (Numeric 38 18) false (Some false) false;
    mapped_column "low_price" (Numeric 38 18) false (Some false) false;
    mapped_column "close_price" (Numeric 38 18) false (Some false) false;
    mapped_column "volume" (Numeric 38 18) false (Some false) false;
    mapped_column "turnover" (Numeric 38 18) false (Some false) false;
    mapped_column "created_at" (DateTime_ true) false (Some false) false;
    mapped_column "updated_at" (DateTime_ true) false (Some false) false].

Definition SupportZoneRecord : Model :=
  MkModel "support_zones"
   [Index "ix_support_zones_symbol_interval_confirmed" ["symbol"; "interval"; "confirmed_at"];
    Index "ix_support_zones_state_updated" ["state"; "updated_at"]]
   [mapped_column "zone_id" (String_ 64) false None true;
    mapped_column "source" (String_ 30) false (Some false) false;
    mapped_column "symbol" (String_ 100) false (Some false) false;
    mapped_column "interval" (String_ 10) false (Some false) false;
    mapped_column "zone_low" (Numeric 38 18) false (Some false) false;
    mapped_column "zone_high" (Numeric 38 18) false (Some false) false;
    mapped_column "state" (String_ 30) false (Some false) false;
    mapped_column "created_at_evidence" (DateTime_ true) false (Some false) false;
    mapped_column "confirmed_at" (DateTime_ true) false (Some false) false;
    mapped_column "last_test_at" (DateTime_ true) false (Some false) false;
    mapped_column "touch_count" Integer false (Some false) false;
    mapped_column "rejection_count" Integer false (Some false) false;
    mapped_column "strength_score" (Numeric 8 2) false (Some false) false;
    mapped_column "evidence_open_times" JSON false (Some false) false;
    mapped_column "reasons" JSON false (Some false) false;
    mapped_column "created_at" (DateTime_ true) false (Some false) false;
    mapped_column "updated_at" (DateTime_ true) false (Some false) false].

Definition StructureEventRecord : Model :=
  MkModel "structure_events"
   [Index "ix_structure_events_symbol_interval_observed" ["symbol"; "interval"; "observed_at"];
    Index "ix_structure_events_zone_observed" ["zone_id"; "observed_at"];
    Index "ix_structure_events_state_observed" ["state"; "observed_at"]]
   [mapped_column "event_id" (String_ 64) false None true;
    mapped_column "zone_id" (String_ 64) false (Some false) false;
    mapped_column "source" (String_ 30) false (Some false) false;
    mapped_column "symbol" (String_ 100) false (Some false) false;
    mapped_column "interval" (String_ 10) false (Some false) false;
    mapped_column "state" (String_ 30) false (Some false) false;
    mapped_column "observed_at" (DateTime_ true) false (Some false) false;
    mapped_column "candle_open_time" (DateTime_ true) false (Some false) false;
    mapped_column "close_price" (Numeric 38 18) false (Some false) false;
    mapped_column "zone_low" (Numeric 38 18) false (Some false) false;
    mapped_column "zone_high" (Numeric 38 18) false (Some false) false;
    mapped_column "distance_bps" (Numeric 18 4) false (Some false) false;
    mapped_column "body_fraction" (Numeric 10 6) false (Some false) false;
    mapped_column "volume_ratio" (Numeric 18 6) true None false;
    mapped_column "invalidates_event_id" (String_ 64) true None false;
    mapped_column "reasons" JSON false (Some false) false;
    mapped_column "created_at" (DateTime_ true) false (Some false) false;
    mapped_column "updated_at" (DateTime_ true) false (Some false) false].

Definition ReclaimAttemptRecord : Model :=
  MkModel "reclaim_attempts"
   [Index "ix_reclaim_attempts_symbol_observed" ["symbol"; "observed_at"];
    Index "ix_reclaim_attempts_readiness_observed" ["readiness"; "observed_at"];
    Index "ix_reclaim_attempts_break_event_observed" ["break_event_id"; "observed_at"]]
   [mapped_column "attempt_id" (String_ 64) false None true;
    mapped_column "break_event_id" (String_ 64) false (Some false) false;
    mapped_column "zone_id" (String_ 64) false (Some false) false;
    mapped_column "source" (String_ 30) false (Some false) false;
    mapped_column "symbol" (String_ 100) false (Some false) false;
    mapped_column "structure_interval" (String_ 10) false (Some false) false;
    mapped_column "started_at" (DateTime_ true) false (Some false) false;
    mapped_column "observed_at" (DateTime_ true) false (Some false) false;
    mapped_column "outcome" (String_ 30) false (Some false) false;
    mapped_column "setup_type" (String_ 40) false (Some false) false;
    mapped_column "readiness" (String_ 30) false (Some false) false;
    mapped_column "zone_low" (Numeric 38 18) false (Some false) false;
    mapped_column "zone_high" (Numeric 38 18) false (Some false) false;
    mapped_column "maximum_price" (Numeric 38 18) false (Some false) false;
    mapped_column "maximum_penetration_bps" (Numeric 18 4) false (Some false) false;
    mapped_column "duration_bars" Integer false (Some false) false;
    mapped_column "closes_above_zone" Integer false (Some false) false;
    mapped_column "bars_above_zone" Integer false (Some false) false;
    mapped_column "bounce_volume_ratio" (Numeric 18 6) true None false;
    mapped_column "rejection_candle_open_time" (DateTime_ true) true None false;
    mapped_column "rejection_low" (Numeric 38 18) true None false;
    mapped_column "trigger_candle_open_time" (DateTime_ true) true None false;
    mapped_column "quality_score" (Numeric 8 2) false (Some false) false;
    mapped_column "reasons" JSON false (Some false) false;
    mapped_column "warnings" JSON false (Some false) false;
    mapped_column "created_at" (DateTime_ true) false (Some false) false;
    mapped_column "updated_at" (DateTime_ true) false (Some false) false].
End Models.

(** A column is nullable as it says, or as its annotation says; a primary key is not. *)
Definition column_of (m : mapped) : column_def :=
  Column (mapped_name m) (mapped_type m)
    (match mapped_nullable m with Some b => b | None => optional m && negb (is_primary_key m) end).

Definition unique_of (a : table_arg) : option (string * list string) :=
  match a with UniqueConstraint names name => Some (name, names) | Index _ _ => None end.
Definition index_of (a : table_arg) : option (string * list string) :=
  match a with Index name names => Some (name, names) | UniqueConstraint _ _ => None end.

Definition table_of (m : Model) : table_def :=
  MkTable (column_of <$> mapped_columns m)
    (mapped_name <$> List.filter is_primary_key (mapped_columns m)) (omap unique_of (table_args m)).

(** The statements of [Base.metadata.create_all] for some models. *)
Definition create_model (m : Model) : list ddl :=
  create_table (tablename m) (table_of m) ::
  ((fun i => create_index i.1 (tablename m) i.2) <$> omap index_of (table_args m)).
Definition create_all (models : list Model) : list ddl := models ≫= create_model.
Definition declared (models : list Model) : option Schema := effects empty_schema (create_all models).

(** The models [migrations/env.py] imports: [Base.metadata] of [db/models.py] alone. *)
Definition target_metadata : list Model :=
  [Models.DomainRecord; Models.OhlcvCandleRecord; Models.SupportZoneRecord; Models.StructureEventRecord].

(** ** The migrations *)

Definition upgrade_0001 : list ddl :=
  [create_table "domain_records"
     (MkTable
       [Column "id" Uuid false;
        Column "record_type" (String_ 50) false;
        Column "symbol" (String_ 100) false;
        Column "state" (String_ 50) false;
        Column "payload" JSON false;
        Column "created_at" (DateTime_ true) false;
        Column "updated_at" (DateTime_ true) false;
        Column "expires_at" (DateTime_ true) true]
       ["id"] []);
   create_index "ix_domain_records_symbol_created" "domain_records"
     ["symbol"; "created_at"];
   create_index "ix_domain_records_type_state" "domain_records"
     ["record_type"; "state"]].

Definition downgrade_0001 : list ddl :=
  [drop_index "ix_domain_records_type_state" "domain_records";
   drop_index "ix_domain_records_symbol_created" "domain_records";
   drop_table "domain_records"].

Definition upgrade_0002 : list ddl :=
  [create_table "ohlcv_candles"
     (MkTable
       [Column "id" Uuid false;
        Column "source" (String_ 30) false;
        Column "role" (String_ 40) false;
        Column "category" (String_ 20) false;
        Column "symbol" (String_ 100) false;
        Column "interval" (String_ 10) false;
        Column "open_time" (DateTime_ true) false;
        Column "close_time" (DateTime_ true) false;
        Column "open_price" (Numeric 38 18) false;
        Column "high_price" (Numeric 38 18) false;
        Column "low_price" (Numeric 38 18) false;
        Column "close_price" (Numeric 38 18) false;
        Column "volume" (Numeric 38 18) false;
        Column "turnover" (Numeric 38 18) false;
        Column "created_at" (DateTime_ true) false;
        Column "updated_at" (DateTime_ true) false]
       ["id"] [("uq_ohlcv_source_symbol_interval_open", ["source"; "symbol"; "interval"; "open_time"])]);
   create_index "ix_ohlcv_symbol_interval_open" "ohlcv_candles"
     ["symbol"; "interval"; "open_time"];
   create_index "ix_ohlcv_source_close" "ohlcv_candles"
     ["source"; "close_time"]].

Definition downgrade_0002 : list ddl :=
  [drop_index "ix_ohlcv_source_close" "ohlcv_candles";
   drop_index "ix_ohlcv_symbol_interval_open" "ohlcv_candles";
   drop_table "ohlcv_candles"].

Definition upgrade_0003 : list ddl :=
  [create_table "support_zones"
     (MkTable
       [Column "zone_id" (String_ 64) false;
        Column "source" (String_ 30) false;
        Column "symbol" (String_ 100) false;
        Column "interval" (String_ 10) false;
        Column "zone_low" (Numeric 38 18) false;
        Column "zone_high" (Numeric 38 18) false;
        Column "state" (String_ 30) false;
        Column "created_at_evidence" (DateTime_ true) false;
        Column "confirmed_at" (DateTime_ true) false;
        Column "last_test_at" (DateTime_ true) false;
        Column "touch_count" Integer false;
        Column "rejection_count" Integer false;
        Column "strength_score" (Numeric 8 2) false;
        Column "evidence_open_times" JSON false;
        Column "reasons" JSON false;
        Column "created_at" (DateTime_ true) false;
        Column "updated_at" (DateTime_ true) false]
       ["zone_id"] []);
   create_index "ix_support_zones_symbol_interval_confirmed" "support_zones"
     ["symbol"; "interval"; "confirmed_at"];
   create_index "ix_support_zones_state_updated" "support_zones"
     ["state"; "updated_at"];
   create_table "structure_events"
     (MkTable
       [Column "event_id" (String_ 64) false;
        Column "zone_id" (String_ 64) false;
        Column "source" (String_ 30) false;
        Column "symbol" (String_ 100) false;
        Column "interval" (String_ 10) false;
        Column "state" (String_ 30) false;
        Column "observed_at" (DateTime_ true) false;
        Column "candle_open_time" (DateTime_ true) false;
        Column "close_price" (Numeric 38 18) false;
        Column "zone_low" (Numeric 38 18) false;
        Column "zone_high" (Numeric 38 18) false;
        Column "distance_bps" (Numeric 18 4) false;
        Column "body_fraction" (Numeric 10 6) false;
        Column "volume_ratio" (Numeric 18 6) true;
        Column "invalidates_event_id" (String_ 64) true;
        Column "reasons" JSON false;
        Column "created_at" (DateTime_ true) false;
        Column "updated_at" (DateTime_ true) false]
       ["event_id"] []);
   create_index "ix_structure_events_symbol_interval_observed" "structure_events"
     ["symbol"; "interval"; "observed_at"];
   create_index "ix_structure_events_zone_observed" "structure_events"
     ["zone_id"; "observed_at"];
   create_index "ix_structure_events_state_observed" "structure_events"
     ["state"; "observed_at"]].

Definition downgrade_0003 : list ddl :=
  [drop_index "ix_structure_events_state_observed" "structure_events";
   drop_index "ix_structure_events_zone_observed" "structure_events";
   drop_index "ix_structure_events_symbol_interval_observed" "structure_events";
   drop_table "structure_events";
   drop_index "ix_support_zones_state_updated" "support_zones";
   drop_index "ix_support_zones_symbol_interval_confirmed" "support_zones";
   drop_table "support_zones"].

Definition upgrade_0004 : list ddl :=
  [create_table "reclaim_attempts"
     (MkTable
       [Column "attempt_id" (String_ 64) false;
        Column "break_event_id" (String_ 64) false;
        Column "zone_id" (String_ 64) false;
        Column "source" (String_ 30) false;
        Column "symbol" (String_ 100) false;
        Column "structure_interval" (String_ 10) false;
        Column "started_at" (DateTime_ true) false;
        Column "observed_at" (DateTime_ true) false;
        Column "outcome" (String_ 30) false;
        Column "setup_type" (String_ 40) false;
        Column "readiness" (String_ 30) false;
        Column "zone_low" (Numeric 38 18) false;
        Column "zone_high" (Numeric 38 18) false;
        Column "maximum_price" (Numeric 38 18) false;
        Column "maximum_penetration_bps" (Numeric 18 4) false;
        Column "duration_bars" Integer false;
        Column "closes_above_zone" Integer false;
        Column "bars_above_zone" Integer false;
        Column "bounce_volume_ratio" (Numeric 18 6) true;
        Column "rejection_candle_open_time" (DateTime_ true) true;
        Column "rejection_low" (Numeric 38 18) true;
        Column "trigger_candle_open_time" (DateTime_ true) true;
        Column "quality_score" (Numeric 8 2) false;
        Column "reasons" JSON false;
        Column "warnings" JSON false;
        Column "created_at" (DateTime_ true) false;
        Column "updated_at" (DateTime_ true) false]
       ["attempt_id"] []);
   create_index "ix_reclaim_attempts_symbol_observed" "reclaim_attempts"
     ["symbol"; "observed_at"];
   create_index "ix_reclaim_attempts_readiness_observed" "reclaim_attempts"
     ["readiness"; "observed_at"];
   create_index "ix_reclaim_attempts_break_event_observed" "reclaim_attempts"
     ["break_event_id"; "observed_at"]].

Definition downgrade_0004 : list ddl :=
  [drop_index "ix_reclaim_attempts_break_event_observed" "reclaim_attempts";
   drop_index "ix_reclaim_attempts_readiness_observed" "reclaim_attempts";
   drop_index "ix_reclaim_attempts_symbol_observed" "reclaim_attempts";
   drop_table "reclaim_attempts"].

(** A file of [migrations/versions]. *)
Record Revision : Type := MkRevision {
  revision : string;
  down_revision : option string;
  upgrade : list ddl;
  downgrade : list ddl }.

Definition revision_0001 : Revision := MkRevision "20260707_0001" None upgrade_0001 downgrade_0001.
Definition revision_0002 : Revision := MkRevision "20260707_0002" (Some "20260707_0001") upgrade_0002 downgrade_0002.
Definition revision_0003 : Revision := MkRevision "20260707_0003" (Some "20260707_0002") upgrade_0003 downgrade_0003.
Definition revision_0004 : Revision := MkRevision "20260707_0004" (Some "20260707_0003") upgrade_0004 downgrade_0004.

Definition revisions : list Revision := [revision_0001; revision_0002; revision_0003; revision_0004].
Definition head : option string := Some "20260707_0004".

(** The models a database at a revision holds. *)
Definition models_at (version : option string) : list Model :=
  match version with
  | None => []
  | Some v =>
      if bool_decide (v = "20260707_0001") then take 1 target_metadata
      else if bool_decide (v = "20260707_0002") then take 2 target_metadata
      else if bool_decide (v = "20260707_0003") then target_metadata
      else target_metadata ++ [Models.ReclaimAttemptRecord]
  end.

Section migrations.
Context `{Ddl}.

Fixpoint run_ops (db : database) (ops : list ddl) : res database :=
  match ops with [] => mret db | op :: ops' => db ← execute db op; run_ops db ops' end.

(** [alembic upgrade +1] and [alembic downgrade -1]: the current revision and the database. *)
Inductive migration_step : option string * database -> option string * database -> Prop :=
| step_upgrade r db db' :
    r ∈ revisions -> run_ops db (upgrade r) = Ok db' ->
    migration_step (down_revision r, db) (Some (revision r), db')
| step_downgrade r db db' :
    r ∈ revisions -> run_ops db (downgrade r) = Ok db' ->
    migration_step (Some (revision r), db) (down_revision r, db').

(** [alembic upgrade head]: the revisions in the order of the chain. *)
Fixpoint upgrade_all (rs : list Revision) (db : database) : res database :=
  match rs with [] => mret db | r :: rs' => db ← run_ops db (upgrade r); upgrade_all rs' db end.
Definition upgrade_head (db : database) : res database := upgrade_all revisions db.

(** ** Facts *)

Lemma run_ops_effects db ops s :
  effects (reflect db) ops = Some s -> exists db', run_ops db ops = Ok db' /\ reflect db' = s.
Proof.
  revert db; induction ops as [|op ops IH]; intros db; simpl; [intros [= <-]; by exists db|].
  destruct (effect (reflect db) op) as [s1|] eqn:E; [|done]. intros Hs.
  destruct (execute_effect db op s1 E) as (db1 & -> & <-). bind_ok. by apply IH.
Qed.

(** Each revision turns the models of one version into those of the next, and back. *)
Lemma revision_effects r :
  r ∈ revisions ->
  is_Some (declared (models_at (down_revision r))) /\ is_Some (declared (models_at (Some (revision r)))) /\
  (declared (models_at (down_revision r)) ≫= fun s => effects s (upgrade r)) =
    declared (models_at (Some (revision r))) /\
  (declared (models_at (Some (revision r))) ≫= fun s => effects s (downgrade r)) =
    declared (models_at (down_revision r)).
Proof.
  intros Hr. unfold revisions in Hr. rewrite !elem_of_cons, elem_of_nil in Hr.
  destruct Hr as [->|[->|[->|[->|[]]]]]; apply (bool_decide_unpack _); vm_compute; exact I.
Qed.

(** What holds of every database Alembic leaves behind. *)
Definition at_version (v : option string) (db : database) : Prop := declared (models_at v) = Some (reflect db).

Lemma revision_runs r db :
  r ∈ revisions ->
  (at_version (down_revision r) db ->
     exists db', run_ops db (upgrade r) = Ok db' /\ at_version (Some (revision r)) db') /\
  (at_version (Some (revision r)) db ->
     exists db', run_ops db (downgrade r) = Ok db' /\ at_version (down_revision r) db').
Proof.
  intros Hr. destruct (revision_effects r Hr) as ([s1 H1] & [s2 H2] & Hu & Hd). unfold at_version.
  rewrite H1, H2 in *. simpl in *.
  split; intros [= ->];
    [destruct (run_ops_effects db _ _ Hu) as (db' & E & <-)|destruct (run_ops_effects db _ _ Hd) as (db' & E & <-)];
    by exists db'.
Qed.

Lemma migration_step_version v db v' db' :
  migration_step (v, db) (v', db') -> at_version v db -> at_version v' db'.
Proof.
  intros Hs Hv. inversion Hs as [r d d' Hr Hrun|r d d' Hr Hrun]; subst;
    destruct (revision_runs r db Hr) as [Hup Hdown];
    [destruct (Hup Hv) as (d & E & Hd)|destruct (Hdown Hv) as (d & E & Hd)]; congruence.
Qed.
End migrations.

(** ** Property *)

(** C23: the migrations build the tables the models declare, and take them down again.
    From an empty database, whatever sequence of single upgrades and downgrades led to a
    revision, the database has exactly the tables, columns, keys, constraints and indexes
    of the models of that revision, and no further step can fail: the revision above it
    upgrades, its own downgrades, to the declared tables again.  [upgrade head] succeeds
    and gives every model of the program; the metadata [env.py] compares with lacks exactly
    the table of the reclaim attempts. *)
Theorem migrations_build_the_models `{Ddl} db0 :
  reflect db0 = empty_schema ->
  (forall v db, rtc migration_step (None, db0) (v, db) ->
     declared (models_at v) = Some (reflect db) /\
     (forall r, r ∈ revisions -> down_revision r = v ->
        exists db', run_ops db (upgrade r) = Ok db' /\ declared (models_at (Some (revision r))) = Some (reflect db')) /\
     (forall r, r ∈ revisions -> Some (revision r) = v ->
        exists db', run_ops db (downgrade r) = Ok db' /\ declared (models_at (down_revision r)) = Some (reflect db'))) /\
  (exists db, upgrade_head db0 = Ok db /\ rtc migration_step (None, db0) (head, db) /\
     declared (target_metadata ++ [Models.ReclaimAttemptRecord]) = Some (reflect db) /\
     exists s, declared target_metadata = Some s /\
       tables s = delete (tablename Models.ReclaimAttemptRecord) (tables (reflect db)) /\
       tables s <> tables (reflect db)) /\
  NoDup (revision <$> revisions) /\ NoDup (down_revision <$> revisions).
Proof.
  intros H0. assert (at_version None db0) as Hv0 by (unfold at_version; rewrite H0; reflexivity). split_and!.
  - intros v db Hr.
    assert (at_version v db) as Hv.
    { remember (None, db0) as x eqn:Ex. remember (v, db) as y eqn:Ey. assert (at_version x.1 x.2) as Hx by by subst.
      clear Ex. revert v db Ey. induction Hr as [x|x [v1 db1] y Hs _ IH]; intros v db ->; [done|].
      eapply IH; [|done]. destruct x. by eapply migration_step_version. }
    split; [exact Hv|]. split; intros r Hin <-; destruct (revision_runs r db Hin) as [Hup Hdown]; auto.
  - assert (forall r, r ∈ revisions -> forall db, at_version (down_revision r) db ->
      exists db', run_ops db (upgrade r) = Ok db' /\ at_version (Some (revision r)) db' /\
        migration_step (down_revision r, db) (Some (revision r), db')) as Hstep.
    { intros r Hr db Hv. destruct (proj1 (revision_runs r db Hr) Hv) as (db' & E & Hv').
      exists db'. split_and!; [done|done|by apply step_upgrade]. }
    destruct (Hstep revision_0001 ltac:(set_solver) db0 Hv0) as (d1 & E1 & V1 & S1).
    destruct (Hstep revision_0002 ltac:(set_solver) d1 V1) as (d2 & E2 & V2 & S2).
    destruct (Hstep revision_0003 ltac:(set_solver) d2 V2) as (d3 & E3 & V3 & S3).
    destruct (Hstep revision_0004 ltac:(set_solver) d3 V3) as (d4 & E4 & V4 & S4).
    exists d4. split_and!.
    + unfold upgrade_head, revisions. cbn [upgrade_all]. rewrite E1. bind_ok. rewrite E2. bind_ok.
      rewrite E3. bind_ok. rewrite E4. by bind_ok.
    + repeat (eapply rtc_l; [eassumption|]). apply rtc_refl.
    + exact V4.
    + destruct (declared target_metadata) as [s|] eqn:Es; [|vm_compute in Es; discriminate]. exists s.
      unfold at_version in V4. destruct (declared (models_at _)) as [s4|] eqn:E; [|done]. injection V4 as <-.
      assert (bool_decide (tables <$> declared target_metadata =
        (fun x => delete (tablename Models.ReclaimAttemptRecord) (tables x)) <$> declared (models_at head)) = true /\
        bool_decide (tables <$> declared target_metadata = tables <$> declared (models_at head)) = false) as [Ha Hb]
        by (split; vm_compute; reflexivity).
      apply bool_decide_eq_true in Ha. apply bool_decide_eq_false in Hb.
      change (models_at (Some (revision revision_0004))) with (models_at head) in E. rewrite Es, E in Ha, Hb.
      simpl in Ha, Hb. split_and!; [done|by injection Ha|]. intros Heq. apply Hb. by rewrite Heq.
  - apply (bool_decide_unpack _). vm_compute. exact I.
  - apply (bool_decide_unpack _). vm_compute. exact I.
Qed.

Lemma migrations_build_the_models_witness :
  exists db : Schema, upgrade_head (H := schema_ddl) empty_schema = Ok db /\
    size (tables db) = 5%nat /\ size (indexes db) = 12%nat.
Proof.
  destruct (migrations_build_the_models (H := schema_ddl) empty_schema eq_refl) as (_ & (db & E & _) & _).
  exists db. split; [exact E|].
  assert (is_ok (upgrade_head (H := schema_ddl) empty_schema) = true) as _ by (vm_compute; reflexivity).
  assert (match upgrade_head (H := schema_ddl) empty_schema with
          | Ok d => bool_decide (size (tables d) = 5%nat /\ size (indexes d) = 12%nat) | Err _ => false end = true) as Hs
    by (vm_compute; reflexivity).
  rewrite E in Hs. exact (proj1 (bool_decide_eq_true _) Hs).
Defined.
