(* ===== verification/Columns.v ===== *)
(** * Column types: [db/models.py]

    A database converts a value to the type of its column, or refuses it: a text that is
    too long, a number or an integer that is too large, a NULL where none may be.  The
    class [ColumnTypes] states the documented behaviour of the types [Schema] declares;
    [sql_columns] is an instance.  A row [fits_table] when every column keeps its value and
    what comes back compares equal to it, by the comparison of the repository that wrote
    it; a repository that upserts such a row again leaves it unchanged ([fits_kept]).
    [stored_table] is a table that stores rows so. *)

From Stdlib Require Import QArith Qabs Lqa.
From stdpp Require Import list strings gmap.
From S2P Require Import Schema.
From S2P Require Import Prelude PyList PyStr PyDecimal DecimalFacts PyTime Repository StructureRepository.
Open Scope Z_scope.

(** ** Column types *)

Definition text_length (s : string) : Z := Z.of_nat (length (chars s)).

(** The largest number of a type: all its digits are nines. *)
Definition numeric_limit (precision scale : Z) : Q := inject_Z (10 ^ precision - 1) * pw (- scale).

(** [a] is [d] rounded to a scale. *)
Definition rounded_to (scale : Z) (d a : dec) : Prop :=
  de a = - scale /\ (2 * Qabs (dval a - dval d) <= pw (- scale))%Q.

Class ColumnTypes : Type := {
  keep : sql_type -> column -> option column;
  keep_text n s : text_length s <= n -> keep (String_ n) (CText s) = Some (CText s);
  keep_numeric precision scale d :
    0 <= scale <= precision -> (Qabs (dval d) <= numeric_limit precision scale)%Q ->
    exists a, keep (Numeric precision scale) (CDecimal d) = Some (CDecimal a) /\ rounded_to scale d a;
  keep_time t : exists t', keep (DateTime_ true) (CTime (AwareDT t)) = Some (CTime (AwareDT t')) /\ utc t' = utc t;
  keep_integer z : - 2 ^ 31 <= z < 2 ^ 31 -> keep Integer (CInt z) = Some (CInt z);
  keep_texts l : keep JSON (CTexts l) = Some (CTexts l) }.

(** *** An implementation *)

(** [n / d] rounded, ties away from zero. *)
Definition half_away (n d : Z) : Z := Z.sgn n * ((2 * Z.abs n + d) / (2 * d)).

(** The digits of [d] at a scale. *)
Definition to_scale (scale : Z) (d : dec) : Z :=
  if - scale <=? de d then dm d * 10 ^ (de d + scale) else half_away (dm d) (10 ^ (- scale - de d)).

Definition sql_keep (type : sql_type) (v : column) : option column :=
  match type, v with
  | String_ n, CText s => if text_length s <=? n then Some (CText s) else None
  | Numeric precision scale, CDecimal d =>
      if Z.abs (to_scale scale d) <? 10 ^ precision then Some (CDecimal (Dec (to_scale scale d) (- scale))) else None
  | DateTime_ true, CTime (AwareDT t) => Some (CTime (AwareDT (Aware (utc t) 0)))
  | Integer, CInt z => if (- 2 ^ 31 <=? z) && (z <? 2 ^ 31) then Some (CInt z) else None
  | JSON, CTexts l => Some (CTexts l)
  | _, _ => None
  end.

Lemma half_away_half n d : 0 < d -> Z.abs (2 * (d * half_away n d - n)) <= d.
Proof.
  intros Hd. unfold half_away. pose proof (Z.div_mod (2 * Z.abs n + d) (2 * d) ltac:(lia)) as E.
  pose proof (Z.mod_pos_bound (2 * Z.abs n + d) (2 * d) ltac:(lia)) as Hm. set (q := (2 * Z.abs n + d) / (2 * d)) in *.
  destruct (Z.sgn_spec n) as [[Hn ->]|[[<- ->]|[Hn ->]]]; nia.
Qed.

Lemma to_scale_rounded scale d : rounded_to scale d (Dec (to_scale scale d) (- scale)).
Proof.
  split; [done|]. unfold dval at 1. cbn [dm de]. unfold to_scale. pose proof (pw_pos (- scale)) as Hp.
  destruct (Z.leb_spec (- scale) (de d)) as [Hs|Hs].
  - unfold dval. rewrite (pw_split (de d) (- scale)) by done. replace (de d - - scale) with (de d + scale) by lia.
    rewrite inject_Z_mult. assert (inject_Z (dm d) * inject_Z (10 ^ (de d + scale)) * pw (- scale) -
      inject_Z (dm d) * (inject_Z (10 ^ (de d + scale)) * pw (- scale)) == 0)%Q as -> by ring. change (Qabs 0) with 0%Q. lra.
  - set (D := 10 ^ (- scale - de d)). assert (0 < D) as HD by (apply pow10_pos; lia).
    pose proof (half_away_half (dm d) D HD) as Hh. set (q := half_away (dm d) D) in *.
    unfold dval. rewrite (pw_split (- scale) (de d)) by lia. fold D. pose proof (pw_pos (de d)) as Hpd.
    assert (inject_Z q * (inject_Z D * pw (de d)) - inject_Z (dm d) * pw (de d) ==
      inject_Z (D * q - dm d) * pw (de d))%Q as ->.
    { unfold Z.sub. rewrite inject_Z_plus, inject_Z_mult, inject_Z_opp. ring. }
    rewrite Qabs_Qmult, (Qabs_pos (pw (de d))), Qmult_assoc by lra. apply Qmult_le_compat_r; [|lra].
    change (Qabs (inject_Z (D * q - dm d))) with (inject_Z (Z.abs (D * q - dm d))).
    change 2%Q with (inject_Z 2). rewrite <- inject_Z_mult, <- Zle_Qle. lia.
Qed.

Lemma pw_unit s : 0 <= s -> (inject_Z (10 ^ s) * pw (- s) == 1)%Q.
Proof. intros Hs. rewrite <- pw_nonneg, <- pw_plus by done. by replace (s + - s) with 0 by lia. Qed.

(** A number within the limit of a type has no more digits than it at its scale. *)
Lemma to_scale_fits precision scale d :
  0 <= scale <= precision -> (Qabs (dval d) <= numeric_limit precision scale)%Q ->
  Z.abs (to_scale scale d) < 10 ^ precision.
Proof.
  intros Hs Hd. destruct (to_scale_rounded scale d) as [_ Hr]. set (m := to_scale scale d) in *. pose proof (pw_pos (- scale)) as Hp.
  unfold dval at 1 in Hr. cbn [dm de] in Hr. unfold numeric_limit in Hd.
  assert (2 * (Qabs (inject_Z m) * pw (- scale)) <= (2 * inject_Z (10 ^ precision - 1) + 1) * pw (- scale))%Q as H.
  { pose proof (Qabs_triangle (inject_Z m * pw (- scale) - dval d) (dval d)) as Ht.
    assert (inject_Z m * pw (- scale) - dval d + dval d == inject_Z m * pw (- scale))%Q as E by ring. rewrite E in Ht.
    rewrite Qabs_Qmult, (Qabs_pos (pw (- scale))) in Ht by lra. lra. }
  rewrite Qmult_assoc in H. apply Qmult_lt_0_le_reg_r in H; [|done].
  change (Qabs (inject_Z m)) with (inject_Z (Z.abs m)) in H. change 2%Q with (inject_Z 2) in H. change 1%Q with (inject_Z 1) in H.
  rewrite <- !inject_Z_mult, <- inject_Z_plus, <- Zle_Qle in H. lia.
Qed.

Lemma sql_keep_text n s : text_length s <= n -> sql_keep (String_ n) (CText s) = Some (CText s).
Proof. intros Hs. unfold sql_keep. by rewrite (proj2 (Z.leb_le _ _) Hs). Qed.

Lemma sql_keep_numeric precision scale d :
  0 <= scale <= precision -> (Qabs (dval d) <= numeric_limit precision scale)%Q ->
  exists a, sql_keep (Numeric precision scale) (CDecimal d) = Some (CDecimal a) /\ rounded_to scale d a.
Proof.
  intros Hs Hd. eexists. unfold sql_keep. rewrite (proj2 (Z.ltb_lt _ _) (to_scale_fits _ _ _ Hs Hd)).
  split; [done|apply to_scale_rounded].
Qed.

Lemma sql_keep_integer z : - 2 ^ 31 <= z < 2 ^ 31 -> sql_keep Integer (CInt z) = Some (CInt z).
Proof.
  intros [H1 H2]. unfold sql_keep. by rewrite (proj2 (Z.leb_le _ _) H1), (proj2 (Z.ltb_lt _ _) H2).
Qed.

#[export] Instance sql_columns : ColumnTypes := {|
  keep := sql_keep;
  keep_text := sql_keep_text;
  keep_numeric := sql_keep_numeric;
  keep_time t := ex_intro _ (Aware (utc t) 0) (conj eq_refl eq_refl);
  keep_integer := sql_keep_integer;
  keep_texts l := eq_refl |}.

(** ** Rows *)

Section rows.
Context `{ColumnTypes}.

(** A value for a column. *)
Definition keep_cell (c : column_def) (v : column) : option column :=
  match v with
  | CNull => if nullable c then Some CNull else None
  | _ => keep (column_type c) v
  end.

(** The values of an INSERT, by the names of their columns. *)
Definition keep_cells (d : table_def) (cells : list (string * column)) : option (list (string * column)) :=
  mapM (fun nv => c ← list_find (fun c => column_name c = nv.1) (columns d); v ← keep_cell c.2 nv.2; mret (nv.1, v)) cells.

(** [default=uuid4] and [default=utc_now] *)
Definition defaulted : list string := ["id"; "created_at"; "updated_at"].

(** Every column that must have a value has one. *)
Definition complete (d : table_def) (names : list string) : bool :=
  forallb (fun c => nullable c || bool_decide (column_name c ∈ names ++ defaulted)) (columns d).

(** A row fits a table, and comes back equal to what was written, as [same] compares. *)
Definition fits_table (same : column -> column -> bool) (d : table_def) (cells : list (string * column)) : Prop :=
  complete d cells.*1 = true /\
  exists back, keep_cells d cells = Some back /\
    Forall2 (fun b c => b.1 = c.1 /\ same b.2 c.2 = true) back cells.
End rows.

(** ** Facts: cells *)

(** A value that a column keeps. *)
Definition fits_cell `{ColumnTypes} (same : column -> column -> bool) (type : sql_type) (nb : bool) (v : column) : Prop :=
  forall name, exists b, keep_cell (Column name type nb) v = Some b /\ same b v = true.

Lemma within_tolerance_close a b : (Qabs (dval a - dval b) <= pw (-18))%Q -> within_tolerance a b = true.
Proof.
  intros Hab. unfold within_tolerance. apply dle_val.
  destruct (py_le_max2 (dmul (dabs b) (Dec 1 (-15))) (Dec 1 (-18))) as [_ Hm]. rewrite dle_val in Hm.
  eapply Qle_trans; [|exact Hm]. assert (dfits (Dec 1 (-18))) as Hf by done.
  assert (dfits (Dec (-1) (-18))) as Hf' by done.
  assert (dval (Dec 1 (-18)) == pw (-18))%Q as E by (unfold dval; cbn [dm de]; ring).
  assert (dval (Dec (-1) (-18)) == - pw (-18))%Q as E' by (unfold dval; cbn [dm de]; ring).
  apply Qabs_Qle_condition in Hab as [H1 H2].
  apply (rounded_le _ _ _ (dabs_rounded _) Hf). rewrite E. apply Qabs_Qle_condition.
  pose proof (dsub_rounded a b) as Hs. split.
  - rewrite <- E'. apply (rounded_ge _ _ _ Hs Hf'). rewrite E'. exact H1.
  - rewrite <- E. apply (rounded_le _ _ _ Hs Hf). rewrite E. exact H2.
Qed.

(** Rounding to eighteen decimals is within the tolerance; a number that has a column's
    scale comes back as it is. *)
Lemma rounded_price d a : rounded_to 18 d a -> within_tolerance a d = true.
Proof.
  intros [_ Hr]. apply within_tolerance_close. change (- (18)) with (-18) in Hr. pose proof (pw_pos (-18)) as Hp.
  generalize dependent (pw (-18)). intros u Hr Hp. lra.
Qed.

Lemma rounded_exactly scale d a : rounded_to scale d a -> - scale <= de d -> a ≡ d.
Proof.
  intros [He Hr] Hs. unfold equiv, dec_equiv. unfold dval in Hr |- *. rewrite He in *.
  rewrite (pw_split (de d) (- scale)) in * by done. rewrite (Qmult_assoc (inject_Z (dm d))), <- inject_Z_mult in *.
  set (n := dm d * 10 ^ (de d - - scale)) in *. pose proof (pw_pos (- scale)) as Hp.
  assert (inject_Z (dm a) * pw (- scale) - inject_Z n * pw (- scale) == inject_Z (dm a - n) * pw (- scale))%Q as E.
  { unfold Z.sub. rewrite inject_Z_plus, inject_Z_opp. ring. }
  rewrite E, Qabs_Qmult, (Qabs_pos (pw (- scale))) in Hr by lra. rewrite Qmult_assoc in Hr.
  rewrite <- (Qmult_1_l (pw (- scale))) in Hr at 2. apply Qmult_lt_0_le_reg_r in Hr; [|done].
  change (Qabs (inject_Z (dm a - n))) with (inject_Z (Z.abs (dm a - n))) in Hr.
  change 2%Q with (inject_Z 2) in Hr. change 1%Q with (inject_Z 1) in Hr. rewrite <- inject_Z_mult, <- Zle_Qle in Hr.
  by replace (dm a) with n by lia.
Qed.

Section cells.
Context `{ColumnTypes} (same : column -> column -> bool).
Context (same_equiv : forall a b, a ≡ b -> same a b = true).

Lemma fits_equiv type nb v :
  v <> CNull -> (exists b, keep type v = Some b /\ b ≡ v) -> fits_cell same type nb v.
Proof.
  intros Hv (b & Hb & E) name. exists b. split; [by destruct v|by apply same_equiv].
Qed.

Lemma fits_text n nb s : text_length s <= n -> fits_cell same (String_ n) nb (CText s).
Proof. intros Hs. apply fits_equiv; [done|]. eexists. split; [by apply keep_text|constructor]. Qed.

Lemma fits_null type v : v = CNull -> fits_cell same type true v.
Proof. intros -> name. exists CNull. split; [done|]. apply same_equiv. constructor. Qed.

Lemma fits_integer nb z : - 2 ^ 31 <= z < 2 ^ 31 -> fits_cell same Integer nb (CInt z).
Proof. intros Hz. apply fits_equiv; [done|]. eexists. split; [by apply keep_integer|constructor]. Qed.

Lemma fits_time nb t : fits_cell same (DateTime_ true) nb (CTime (AwareDT t)).
Proof.
  apply fits_equiv; [done|]. destruct (keep_time t) as (t' & Ht & E). eexists. split; [exact Ht|by constructor].
Qed.

Lemma fits_texts nb l : fits_cell same JSON nb (CTexts l).
Proof. apply fits_equiv; [done|]. eexists. split; [apply keep_texts|constructor]. Qed.

Lemma nonneg_abs d : (d0 <=? d)%dec = true -> (Qabs (dval d) == dval d)%Q.
Proof. rewrite dle_val, d0_val. apply Qabs_pos. Qed.

(** A number that has the scale of its column. *)
Lemma fits_quantised precision scale nb d :
  0 <= scale <= precision -> - scale <= de d -> (d0 <=? d)%dec = true -> (dval d <= numeric_limit precision scale)%Q ->
  fits_cell same (Numeric precision scale) nb (CDecimal d).
Proof.
  intros Hs Hq H0 Hd. apply fits_equiv; [done|].
  destruct (keep_numeric precision scale d) as (a & Ha & Hr); [done|by rewrite nonneg_abs|].
  exists (CDecimal a). split; [exact Ha|]. constructor. by eapply rounded_exactly.
Qed.

(** The definitions of the columns of a table by name. *)
Definition column_named (d : table_def) (name : string) : option column_def :=
  snd <$> list_find (fun c => column_name c = name) (columns d).

Lemma fits_table_of d cells :
  complete d cells.*1 = true ->
  Forall (fun nv => exists type nb, column_named d nv.1 = Some (Column nv.1 type nb) /\ fits_cell same type nb nv.2) cells ->
  fits_table same d cells.
Proof.
  intros Hc Hf. split; [done|]. clear Hc. induction Hf as [|[n v] cells (type & nb & Hn & Hv) _ (back & Hk & IH)].
  { exists []. split; [done|constructor]. }
  destruct (Hv n) as (b & Hb & He). exists ((n, b) :: back). split; [|by constructor].
  unfold keep_cells in *. cbn [mapM]. cbn [fst snd] in *. unfold column_named in Hn.
  destruct (list_find _ (columns d)) as [[i c]|]; [|done]. injection Hn as ->. cbn [mbind option_bind snd].
  rewrite Hb. cbn [mbind option_bind]. by rewrite Hk.
Qed.

(** What comes back of a row that fits. *)
Lemma keep_cells_cons d nv cells back :
  keep_cells d (nv :: cells) = Some back -> exists b back', back = b :: back' /\ keep_cells d cells = Some back'.
Proof.
  unfold keep_cells. intros H1. apply mapM_Some in H1. inversion H1 as [|? b ? back' _ H2]; subst.
  exists b, back'. split; [done|]. by apply mapM_Some.
Qed.
End cells.

(** A price, compared with the tolerance. *)
Lemma fits_price `{ColumnTypes} nb d :
  (d0 <=? d)%dec = true -> (dval d <= numeric_limit 38 18)%Q -> fits_cell _equal (Numeric 38 18) nb (CDecimal d).
Proof.
  intros H0 Hd name. destruct (keep_numeric 38 18 d) as (a & Ha & Hr); [lia|by rewrite nonneg_abs|].
  exists (CDecimal a). split; [exact Ha|]. by apply rounded_price.
Qed.

(** The greatest number of a type is at least a small integer. *)
Lemma le_limit d (z : Z) precision scale :
  (d <=? dint z)%dec = true -> 0 <= scale -> z * 10 ^ scale <= 10 ^ precision - 1 ->
  (dval d <= numeric_limit precision scale)%Q.
Proof.
  rewrite dle_val, dval_int. intros Hd Hs Hz. eapply Qle_trans; [exact Hd|]. unfold numeric_limit.
  rewrite Zle_Qle, inject_Z_mult in Hz. pose proof (pw_unit scale Hs) as Hu. pose proof (pw_pos (- scale)) as Hp.
  assert (inject_Z z == inject_Z z * inject_Z (10 ^ scale) * pw (- scale))%Q as ->.
  { rewrite <- Qmult_assoc, Hu. ring. }
  apply Qmult_le_compat_r; [exact Hz|]. by apply Qlt_le_weak.
Qed.

Lemma any_changed_same (same : column -> column -> bool) (l k : list column) :
  Forall2 (fun b c => same b c = true) l k -> any_changed (fun a b => mret (same a b)) l k = Ok false.
Proof. induction 1 as [|b c l k Hbc _ IH]; [done|]. simpl. by rewrite Hbc. Qed.

(** One goal for each column: its definition in the table, and that it keeps the value. *)
Ltac each_column := repeat (apply Forall_cons_2); [..|apply Forall_nil_2];
  (eexists _, _; split; [vm_compute; reflexivity|cbn [snd]]).

(** ** Facts: a database that stores rows in those columns *)

(** What is read of a row is what its columns keep of it. *)
Definition stored_as_declared `{ColumnTypes} {K R} `{EqDecision K} `{!Table K R} (d : table_def)
    (cells : R -> list (string * column)) : Prop :=
  forall r back, keep_cells d (cells r) = Some back -> cells (stored r) = back.

Lemma fits_kept `{ColumnTypes} {K R} `{EqDecision K} `{!Table K R} (same : column -> column -> bool) d names
    (values : R -> list column) (ids : list (string * column)) r :
  (forall r, length (values r) = length names) -> stored_as_declared d (fun r => zip names (values r)) ->
  fits_table same d (ids ++ zip names (values r)) -> kept values (fun a b => mret (same a b)) r.
Proof.
  intros Hl Hd [_ (back & Hk & Hs)] r' Hr'. revert back Hk Hs.
  induction ids as [|id ids IH]; intros back Hk Hs.
  2:{ apply keep_cells_cons in Hk as (b & back' & -> & Hk). apply Forall2_cons in Hs as [_ Hs]. by apply (IH back'). }
  simpl in Hk, Hs. rewrite <- Hr' in Hk, Hs. apply (Hd r') in Hk. subst back.
  unfold same_row. apply any_changed_same.
  rewrite <- (snd_zip names (values (stored r'))), <- (snd_zip names (values r')) by (by rewrite Hl).
  apply Forall2_fmap. eapply Forall2_impl; [exact Hs|]. by intros ? ? [_ ?].
Qed.

(** *** Such a database *)

Section stored_table.
Context {K R : Type} `{Countable K} (store : R -> R).

Lemma stored_lookup_write (m : gmap K R) k r k' :
  <[k := store r]> m !! k' = if decide (k' = k) then Some (store r) else m !! k'.
Proof. apply gmap_lookup_write. Qed.

Definition stored_table : Table K R := {|
  table := gmap K R;
  stored := store;
  lookup_row m k := m !! k;
  write_row m k r := <[k := store r]> m;
  rows := map_to_list;
  lookup_write := stored_lookup_write;
  rows_lookup := gmap_rows_lookup;
  rows_keys := NoDup_fst_map_to_list |}.
End stored_table.

(** What [sql_columns] keeps of a value, or the value when it is refused. *)
Definition kept_value (d : table_def) (nv : string * column) : column :=
  default nv.2 (c ← column_named d nv.1; keep_cell c nv.2).

Lemma keep_cells_value d cells back :
  keep_cells d cells = Some back -> back = (fun nv => (nv.1, kept_value d nv)) <$> cells.
Proof.
  revert back. induction cells as [|nv cells IH]; intros back Hk; [by injection Hk as <-|].
  unfold keep_cells in Hk. cbn [mapM] in Hk. apply bind_Some in Hk as (b & Hb & Hk). apply bind_Some in Hk as (l & Hl & [= <-]).
  rewrite (IH l Hl). simpl. f_equal. apply bind_Some in Hb as ([i c] & Hc & Hb). apply bind_Some in Hb as (v & Hv & [= <-]).
  unfold kept_value, column_named. rewrite Hc. simpl in *. by rewrite Hv.
Qed.

Lemma sql_keep_shape t v w :
  sql_keep t v = Some w ->
  match v with
  | CDecimal _ => exists d, w = CDecimal d
  | CTime _ => exists x, w = CTime x
  | _ => w = v
  end.
Proof.
  destruct t as [|n|p s|[|]| |], v as [|x|x|x|[x|x]|x]; simpl; try done; intros Hk;
    repeat match type of Hk with (if ?b then _ else _) = _ => destruct b end; simplify_eq; eauto.
Qed.

Lemma kept_value_shape d name v :
  match v with
  | CDecimal _ => exists x, kept_value d (name, v) = CDecimal x
  | CTime _ => exists x, kept_value d (name, v) = CTime x
  | _ => kept_value d (name, v) = v
  end.
Proof.
  assert (match v with CDecimal _ => exists x, v = CDecimal x | CTime _ => exists x, v = CTime x | _ => v = v end) as Hv
    by (destruct v; eauto).
  unfold kept_value. cbn [fst snd]. destruct (column_named d name) as [c|]; [|exact Hv]. cbn [mbind option_bind].
  destruct (keep_cell c v) as [w|] eqn:Ew; [|exact Hv]. cbn [default]. unfold keep_cell in Ew.
  destruct v; [by destruct (nullable c); simplify_eq|apply sql_keep_shape in Ew..]; exact Ew.
Qed.

Definition kept_decimal (d : table_def) (name : string) (x : dec) : dec :=
  match kept_value d (name, CDecimal x) with CDecimal y => y | _ => x end.
Definition kept_time (d : table_def) (name : string) (x : datetime) : datetime :=
  match kept_value d (name, CTime x) with CTime y => y | _ => x end.

Lemma kept_decimal_eq d name x : kept_value d (name, CDecimal x) = CDecimal (kept_decimal d name x).
Proof. unfold kept_decimal. destruct (kept_value_shape d name (CDecimal x)) as [y ->]. done. Qed.
Lemma kept_time_eq d name x : kept_value d (name, CTime x) = CTime (kept_time d name x).
Proof. unfold kept_time. destruct (kept_value_shape d name (CTime x)) as [y ->]. done. Qed.
