(* ===== verification/StructureColumns.v ===== *)
(** * What the database keeps of an analysis: [structure/htf_repository.py] in the tables of
    [db/models.py]

    The repository compares decimals up to a tolerance because the database rounds them to
    the scale of their columns.  Here the rows of zones and events are shown to fit the
    declared tables, and what comes back to compare equal to what was written, so that
    writing an analysis again changes nothing: a price is rounded to eighteen decimals,
    within the tolerance, and the engines quantise the values of all other numeric columns
    to a scale the column has. *)

From Stdlib Require Import QArith Qabs Lqa.
From stdpp Require Import list strings gmap.
From S2P Require Import Schema.
From S2P Require Import Prelude PyList PyStr PyDecimal DecimalFacts PyTime IsoTime Sha256 Candles.
From S2P Require Import HtfModels SupportZones StructureEvents HtfEngine Repository StructureRepository Columns.
Open Scope Z_scope.

(** ** Rows *)

(** [_zone_values], [_event_values]: the keys of the dictionaries. *)
Definition zone_names : list string :=
  ["source"; "symbol"; "interval"; "zone_low"; "zone_high"; "state"; "created_at_evidence"; "confirmed_at";
   "last_test_at"; "touch_count"; "rejection_count"; "strength_score"; "evidence_open_times"; "reasons"].
Definition event_names : list string :=
  ["zone_id"; "source"; "symbol"; "interval"; "state"; "observed_at"; "candle_open_time"; "close_price"; "zone_low";
   "zone_high"; "distance_bps"; "body_fraction"; "volume_ratio"; "invalidates_event_id"; "reasons"].

Definition zone_columns (r : SupportZoneRecord.t) : list (string * column) := zip zone_names (_zone_values r).
Definition event_columns (r : StructureEventRecord.t) : list (string * column) := zip event_names (_event_values r).

Definition zone_cells (r : SupportZoneRecord.t) : list (string * column) :=
  ("zone_id", CText (SupportZoneRecord.zone_id r)) :: zone_columns r.
Definition event_cells (r : StructureEventRecord.t) : list (string * column) :=
  ("event_id", CText (StructureEventRecord.event_id r)) :: event_columns r.

(** ** Facts: what the engines write *)

Definition short (id : string) : Prop := text_length id <= 64.

Lemma hash_short prefix parts :
  stripped prefix -> prefix <> EmptyString -> text_length prefix <= 40 -> short (str_strip (hash_id prefix parts)).
Proof. intros Hs Hn Hl. rewrite hash_id_strip by done. unfold short, text_length in *. rewrite hash_id_length. lia. Qed.

(** The scales the engine quantises to. *)
Record zone_scaled (z : SupportZone.t) : Prop := {
  zs_wf : zone_wf z;
  zs_id : short (SupportZone.zone_id z);
  zs_strength : de (SupportZone.strength_score z) = -2 }.

Record event_scaled (e : StructureEvent.t) : Prop := {
  es_wf : event_wf e;
  es_ids : short (StructureEvent.event_id e) /\ short (StructureEvent.zone_id e);
  es_invalidates : forall id, StructureEvent.invalidates_event_id e = Some id -> short id;
  es_distance : de (StructureEvent.distance_bps e) = -2;
  es_body : -4 <= de (StructureEvent.body_fraction e);
  es_volume : forall v, StructureEvent.volume_ratio e = Some v -> de v = -4 }.

Lemma quantised_scale a e q : dquantize a e = Ok q -> de q = e.
Proof. unfold dquantize. cbv zeta. destruct (_ <? _); [|done]. by intros [= <-]. Qed.

Lemma zone_id_short src sym itv evidence lo hi at_ : short (str_strip (_zone_id src sym itv evidence lo hi at_)).
Proof. unfold _zone_id. apply hash_short; done. Qed.

Lemma event_id_short id c s : short (str_strip (_event_id id c s)).
Proof. unfold _event_id. apply hash_short; done. Qed.

Lemma strength_scale touches rejections recency s : strength_of touches rejections recency = Ok s -> de s = -2.
Proof. unfold strength_of. apply quantised_scale. Qed.

Lemma derived_zones_scaled candles rules zs :
  derive_support_zones candles rules = Ok zs -> Forall zone_scaled zs.
Proof.
  intros H. eapply Forall_impl; [by eapply derive_zones_made|]. intros z (o & lo & hi & w & Hm).
  unfold make_zone in Hm. guards.
  select (SupportZone.new _ _ _ _ _ _ _ _ _ _ _ _ _ _ _ = _)
    (fun H => apply new_SupportZone_Ok in H as (Hwf&_&_&_&_&_&_&_&_&_&_&Hs&_&_&Hid)).
  select (strength_of _ _ _ = _) (fun H => apply strength_scale in H as Hq).
  injection Hs as Hs. constructor; [exact Hwf|rewrite Hid; apply zone_id_short|by rewrite Hs].
Qed.

Lemma new_StructureEvent_numbers eid zid src sym itv st obs op cl zl zh db bf vr inv rs e :
  StructureEvent.new eid zid src sym itv st obs op cl zl zh db bf vr inv rs = Ok e ->
  Finite (StructureEvent.distance_bps e) = db /\ Finite (StructureEvent.body_fraction e) = bf /\
  Finite <$> StructureEvent.volume_ratio e = vr.
Proof.
  intros H. unfold StructureEvent.new in H. guards.
  repeat match goal with H : _decimal _ _ _ _ = Ok _ |- _ => apply htf_decimal_Ok in H as (? & ? & ?) end. subst.
  split_and!; [done..|]. cbn [StructureEvent.volume_ratio].
  select (match vr with _ => _ end = _) (fun H => rename H into Hv).
  destruct vr as [r|]; [|by apply Ok_inj in Hv as <-].
  apply fmap_Ok in Hv as (x & Hx & ->). by apply htf_decimal_Ok in Hx as (-> & _).
Qed.

Section scales.
Context (zone : SupportZone.t) (Hzone : short (str_strip (SupportZone.zone_id zone))).

Lemma event_made_scaled c s d b v inv rs e :
  -4 <= de b -> (forall x, v = Some x -> de x = -4) -> (forall id, inv = Some id -> short id) ->
  _event zone c s d b v inv rs = Ok e -> event_scaled e.
Proof.
  intros Hb Hv Hi H. unfold _event in H. guards.
  select (dquantize _ _ = _) (fun H => apply quantised_scale in H as Hd).
  select (StructureEvent.new _ _ _ _ _ _ _ _ _ _ _ _ _ _ _ _ = _) (fun H => rename H into Hnew).
  pose proof (new_StructureEvent_numbers _ _ _ _ _ _ _ _ _ _ _ _ _ _ _ _ _ Hnew) as (Ed & Eb & Ev).
  apply new_StructureEvent_Ok in Hnew as (Hwf&_&_&_&_&Hz&Hid&_&_&_&Hinv&_).
  injection Ed as Ed. injection Eb as Eb. assert (StructureEvent.volume_ratio e = v) as Ev'
    by (destruct (StructureEvent.volume_ratio e), v; simpl in Ev; congruence).
  constructor.
  - done.
  - rewrite Hz, Hid. split; [apply event_id_short|exact Hzone].
  - rewrite Hinv. exact Hi.
  - by rewrite Ed.
  - by rewrite Eb.
  - rewrite Ev'. exact Hv.
Qed.

Definition progress_short (p : progress) : Prop := forall i id, confirmed p = Some (i, id) -> short id.

Lemma step_scaled rules relevant i c p o :
  progress_short p -> step zone rules relevant i c p = Ok o ->
  progress_short (next o) /\ forall e, emitted o = Some e -> event_scaled e.
Proof.
  intros Hp H. unfold step in H. apply bind_Ok in H as (b & Hb & H). apply bind_Ok in H as (v & Hv & H).
  assert (-4 <= de b) as Eb.
  { unfold _body_fraction in Hb. cbv zeta in Hb. split_match_in Hb; [apply Ok_inj in Hb as <-; done|].
    apply bind_Ok in Hb as (q & _ & Hb). apply quantised_scale in Hb. lia. }
  assert (forall x, v = Some x -> de x = -4) as Ev.
  { unfold _volume_ratio in Hv. cbv zeta in Hv. intros x ->.
    destruct (py_slice _ _ _) as [|h hs]; [discriminate Hv|]. apply bind_Ok in Hv as (average & _ & Hv).
    destruct (average =? d0)%dec; [discriminate Hv|]. apply bind_Ok in Hv as (current & _ & Hv).
    apply bind_Ok in Hv as (q & _ & Hv). apply fmap_Ok in Hv as (y & Hy & [= ->]). by apply quantised_scale in Hy. }
  destruct (confirmed p) as [[ci cid]|] eqn:Ec.
  - unfold after_break in H. cbv zeta in H. split_match_in H; guards; subst o; simpl; (split; [done|]); [|done].
    intros e [= <-]. eapply event_made_scaled; [exact Eb|exact Ev| |eassumption]. intros id [= <-]. by eapply Hp.
  - unfold before_break in H. cbv zeta in H.
    assert (forall s d rs e, _event zone c s d b v None rs = Ok e -> event_scaled e) as Hev
      by (intros s d rs e; by apply event_made_scaled).
    destruct (close_price c <? SupportZone.low zone)%dec; [|split_match_in H]; [|guards|guards]; [|subst o; simpl..].
    2:{ split; [done|]. intros e [= <-]. by eapply Hev. }
    2: done.
    apply bind_Ok in H as (ratio & _ & H). destruct (_ && _)%dec; [|destruct (negb _)]; guards; subst o; simpl.
    + select (_event _ _ _ _ _ _ _ _ = _) (fun H => apply Hev in H as He). split; [|by intros e [= <-]].
      intros i' id [= <- <-]. apply (es_ids _ He).
    + select (_event _ _ _ _ _ _ _ _ = _) (fun H => apply Hev in H as He). split; [done|by intros e [= <-]].
    + done.
Qed.

Lemma event_loop_scaled rules relevant i rest p es :
  progress_short p -> event_loop zone rules relevant i rest p = Ok es -> Forall event_scaled es.
Proof.
  revert i p es. induction rest as [|c rest IH]; intros i p es Hp H; simpl in H; [by apply Ok_inj in H as <-|].
  apply bind_Ok in H as (o & Ho & H). apply step_scaled in Ho as [Hn He]; [|done].
  assert (Forall event_scaled (option_list (emitted o))) as Hl.
  { destruct (emitted o) as [e|]; [|constructor]. constructor; [by apply He|constructor]. }
  destruct (stop o); [by apply Ok_inj in H as <-|]. apply bind_Ok in H as (more & Hm & H). apply Ok_inj in H as <-.
  apply Forall_app. split; [done|]. by eapply IH.
Qed.
End scales.

Lemma built_events_scaled zone candles rules es :
  zone_scaled zone -> build_structure_events zone candles rules = Ok es -> Forall event_scaled es.
Proof.
  intros [Hwf Hs _] H. unfold build_structure_events in H. guards. eapply event_loop_scaled; [| |eassumption]; [|done].
  by rewrite (zwf_clean _ Hwf).
Qed.

Lemma existsb_false {A} (p : A -> bool) l : existsb p l = false -> Forall (fun x => p x = false) l.
Proof. induction l as [|x l IH]; simpl; [constructor|]. intros [? ?]%orb_false_iff. constructor; auto. Qed.

(** An analysis with the rules it is given or the default ones. *)
Lemma analysis_scaled batch srules erules a :
  analyze_higher_timeframe batch srules erules = Ok a ->
  Forall (fun z => zone_scaled z /\ SupportZone.symbol z = HtfStructureAnalysis.symbol a) (HtfStructureAnalysis.zones a) /\
  Forall (fun e => event_scaled e /\ StructureEvent.symbol e = HtfStructureAnalysis.symbol a) (HtfStructureAnalysis.events a).
Proof.
  intros H. unfold analyze_higher_timeframe in H. apply bind_Ok in H as ([] & _ & H). apply bind_Ok in H as (zones & Hz & H).
  apply bind_Ok in H as (ebz & Hm & H). cbv zeta in H. destruct (choose_primary ebz) as [primary es].
  apply bind_Ok in H as (ev & _ & H). apply derived_zones_scaled in Hz.
  apply zone_events_fst in Hm as [Ez Hb].
  assert (Forall event_scaled (py_sorted event_key (concat ebz.*2))) as He.
  { rewrite py_sorted_perm. apply Forall_concat, Forall_fmap. rewrite <- Ez, Forall_fmap in Hz.
    apply Forall_forall. intros [z l] Hin. rewrite Forall_forall in Hz, Hb.
    by eapply built_events_scaled; [apply (Hz _ Hin)|apply (Hb _ Hin)]. }
  set (events := py_sorted event_key _) in *. unfold HtfStructureAnalysis.new in H. guards. subst a. cbn [HtfStructureAnalysis.zones
    HtfStructureAnalysis.events HtfStructureAnalysis.symbol] in *. split; apply Forall_and; (split; [done|]).
  all: match goal with
    | H : existsb _ ?l = false |- Forall _ ?l => apply existsb_false in H; eapply Forall_impl; [exact H|]
    end; intros x Hx; simpl in Hx; guards; auto.
Qed.

(** ** Facts: the rows of an analysis *)

(** The values that can be too large for a column, everything else is bounded by the
    engines: prices, which are those of the market, the length of the symbol, the number of
    touches, and the ratios of a price to a zone and of a volume to an average. *)
Record moderate (a : HtfStructureAnalysis.t) : Prop := {
  md_symbol : text_length (HtfStructureAnalysis.symbol a) <= 100;
  md_zones : Forall (fun z => (dval (SupportZone.high z) <= numeric_limit 38 18)%Q /\
    SupportZone.touch_count z < 2 ^ 31) (HtfStructureAnalysis.zones a);
  md_events : Forall (fun e => (dval (StructureEvent.close_price e) <= numeric_limit 38 18)%Q /\
    (dval (StructureEvent.zone_high e) <= numeric_limit 38 18)%Q /\
    (dval (StructureEvent.distance_bps e) <= numeric_limit 18 4)%Q /\
    (forall v, StructureEvent.volume_ratio e = Some v -> (dval v <= numeric_limit 18 6)%Q)) (HtfStructureAnalysis.events a) }.

Definition zone_table_def : table_def := table_of Models.SupportZoneRecord.
Definition event_table_def : table_def := table_of Models.StructureEventRecord.

Lemma price_nonneg d : (minimum_price <=? d)%dec = true -> (d0 <=? d)%dec = true.
Proof. rewrite !dle_val, d0_val, minimum_price_val. intros H. eapply Qle_trans; [|exact H]. discriminate. Qed.

Lemma lt_le_val a b (x : Q) : (a <? b)%dec = true -> (dval b <= x)%Q -> (dval a <= x)%Q.
Proof. rewrite dlt_val. intros H1 H2. apply Qlt_le_weak. by eapply Qlt_le_trans. Qed.

Lemma lt_le_nonneg a b : (d0 <=? a)%dec = true -> (a <? b)%dec = true -> (d0 <=? b)%dec = true.
Proof. rewrite !dle_val, dlt_val. intros H1 H2. apply Qlt_le_weak. by eapply Qle_lt_trans. Qed.

(** The rows, for a comparison [same] and the prices it finds kept. *)
Section fits.
Context `{ColumnTypes} (same : column -> column -> bool) (price : dec -> Prop).
Context (same_equiv : forall a b, a ≡ b -> same a b = true).
Context (price_fits : forall nb d, (d0 <=? d)%dec = true -> price d -> fits_cell same (Numeric 38 18) nb (CDecimal d)).

Lemma zone_fits z :
  zone_scaled z -> text_length (SupportZone.symbol z) <= 100 -> price (SupportZone.low z) -> price (SupportZone.high z) ->
  SupportZone.touch_count z < 2 ^ 31 -> fits_table same zone_table_def (zone_cells (_zone_record z)).
Proof.
  intros [[_ _ _ _ Hlow Hrange _ [Ht Hr] [Hs0 Hs1] _] Hid Hq] Hsym Hpl Hph Htouch.
  apply price_nonneg in Hlow. apply fits_table_of; [reflexivity|]. unfold zone_cells, zone_columns, zone_names, _zone_values.
  cbn [zip zip_with _zone_record SupportZoneRecord.zone_id SupportZoneRecord.source SupportZoneRecord.symbol
    SupportZoneRecord.interval SupportZoneRecord.zone_low SupportZoneRecord.zone_high SupportZoneRecord.state
    SupportZoneRecord.created_at_evidence SupportZoneRecord.confirmed_at SupportZoneRecord.last_test_at
    SupportZoneRecord.touch_count SupportZoneRecord.rejection_count SupportZoneRecord.strength_score
    SupportZoneRecord.evidence_open_times SupportZoneRecord.reasons].
  each_column.
  - by apply (fits_text _ same_equiv).
  - apply (fits_text _ same_equiv). by destruct (SupportZone.source z).
  - by apply (fits_text _ same_equiv).
  - apply (fits_text _ same_equiv). by destruct (SupportZone.interval z).
  - by apply price_fits.
  - apply price_fits; [|done]. by apply (lt_le_nonneg (SupportZone.low z)).
  - apply (fits_text _ same_equiv). by destruct (SupportZone.state z).
  - apply (fits_time _ same_equiv).
  - apply (fits_time _ same_equiv).
  - apply (fits_time _ same_equiv).
  - apply (fits_integer _ same_equiv). lia.
  - apply (fits_integer _ same_equiv). lia.
  - apply (fits_quantised _ same_equiv); [lia|lia|done|]. by apply (le_limit _ 100).
  - apply (fits_texts _ same_equiv).
  - apply (fits_texts _ same_equiv).
Qed.

Lemma event_fits e :
  event_scaled e -> text_length (StructureEvent.symbol e) <= 100 ->
  price (StructureEvent.close_price e) -> price (StructureEvent.zone_low e) -> price (StructureEvent.zone_high e) ->
  (dval (StructureEvent.distance_bps e) <= numeric_limit 18 4)%Q ->
  (forall v, StructureEvent.volume_ratio e = Some v -> (dval v <= numeric_limit 18 6)%Q) ->
  fits_table same event_table_def (event_cells (_event_record e)).
Proof.
  intros [[_ _ _ _ Hclose [Hlow Hrange] Hd [Hb0 Hb1] Hv0] [Hid Hzid] Hinv Hdq Hbq Hvq] Hsym Hcl Hzl Hzh Hdist Hvol.
  apply price_nonneg in Hclose. apply price_nonneg in Hlow.
  apply fits_table_of; [reflexivity|]. unfold event_cells, event_columns, event_names, _event_values.
  cbn [zip zip_with _event_record StructureEventRecord.event_id StructureEventRecord.zone_id StructureEventRecord.source
    StructureEventRecord.symbol StructureEventRecord.interval StructureEventRecord.state StructureEventRecord.observed_at
    StructureEventRecord.candle_open_time StructureEventRecord.close_price StructureEventRecord.zone_low
    StructureEventRecord.zone_high StructureEventRecord.distance_bps StructureEventRecord.body_fraction
    StructureEventRecord.volume_ratio StructureEventRecord.invalidates_event_id StructureEventRecord.reasons].
  each_column.
  - by apply (fits_text _ same_equiv).
  - by apply (fits_text _ same_equiv).
  - apply (fits_text _ same_equiv). by destruct (StructureEvent.source e).
  - by apply (fits_text _ same_equiv).
  - apply (fits_text _ same_equiv). by destruct (StructureEvent.interval e).
  - apply (fits_text _ same_equiv). by destruct (StructureEvent.state e).
  - apply (fits_time _ same_equiv).
  - apply (fits_time _ same_equiv).
  - by apply price_fits.
  - by apply price_fits.
  - apply price_fits; [|done]. by apply (lt_le_nonneg (StructureEvent.zone_low e)).
  - apply (fits_quantised _ same_equiv); [lia|lia|done|done].
  - apply (fits_quantised _ same_equiv); [lia|lia|done|]. by apply (le_limit _ 1).
  - destruct (StructureEvent.volume_ratio e) as [v|]; [|by apply (fits_null _ same_equiv)].
    apply (fits_quantised _ same_equiv); [lia|rewrite (Hvq v eq_refl); lia|by apply Hv0|by apply Hvol].
  - destruct (StructureEvent.invalidates_event_id e) as [id|]; [|by apply (fits_null _ same_equiv)]. apply (fits_text _ same_equiv). by apply Hinv.
  - apply (fits_texts _ same_equiv).
Qed.
End fits.

(** ** Facts: a database with these columns *)

Definition stored_zone (r : SupportZoneRecord.t) : SupportZoneRecord.t :=
  let dec := kept_decimal zone_table_def in let time := kept_time zone_table_def in
  SupportZoneRecord.Mk (SupportZoneRecord.zone_id r) (SupportZoneRecord.source r) (SupportZoneRecord.symbol r)
    (SupportZoneRecord.interval r) (dec "zone_low" (SupportZoneRecord.zone_low r)) (dec "zone_high" (SupportZoneRecord.zone_high r))
    (SupportZoneRecord.state r) (time "created_at_evidence" (SupportZoneRecord.created_at_evidence r))
    (time "confirmed_at" (SupportZoneRecord.confirmed_at r)) (time "last_test_at" (SupportZoneRecord.last_test_at r))
    (SupportZoneRecord.touch_count r) (SupportZoneRecord.rejection_count r)
    (dec "strength_score" (SupportZoneRecord.strength_score r)) (SupportZoneRecord.evidence_open_times r)
    (SupportZoneRecord.reasons r).

Definition stored_event (r : StructureEventRecord.t) : StructureEventRecord.t :=
  let dec := kept_decimal event_table_def in let time := kept_time event_table_def in
  StructureEventRecord.Mk (StructureEventRecord.event_id r) (StructureEventRecord.zone_id r) (StructureEventRecord.source r)
    (StructureEventRecord.symbol r) (StructureEventRecord.interval r) (StructureEventRecord.state r)
    (time "observed_at" (StructureEventRecord.observed_at r)) (time "candle_open_time" (StructureEventRecord.candle_open_time r))
    (dec "close_price" (StructureEventRecord.close_price r)) (dec "zone_low" (StructureEventRecord.zone_low r))
    (dec "zone_high" (StructureEventRecord.zone_high r)) (dec "distance_bps" (StructureEventRecord.distance_bps r))
    (dec "body_fraction" (StructureEventRecord.body_fraction r)) (dec "volume_ratio" <$> StructureEventRecord.volume_ratio r)
    (StructureEventRecord.invalidates_event_id r) (StructureEventRecord.reasons r).

Definition sql_zones : Table string SupportZoneRecord.t := stored_table stored_zone.
Definition sql_events : Table string StructureEventRecord.t := stored_table stored_event.

Lemma sql_zones_declared_value r :
  zone_columns (stored_zone r) = (fun nv => (nv.1, kept_value zone_table_def nv)) <$> zone_columns r.
Proof.
  unfold zone_columns, zone_names, _zone_values. cbn [zip zip_with fmap list_fmap fst].
  rewrite !kept_decimal_eq, !kept_time_eq, !(kept_value_shape _ _ (CText _)), !(kept_value_shape _ _ (CInt _)),
    !(kept_value_shape _ _ (CTexts _)). reflexivity.
Qed.

Lemma sql_zones_declared : stored_as_declared (Table0 := sql_zones) zone_table_def zone_columns.
Proof. intros r back ->%keep_cells_value. apply sql_zones_declared_value. Qed.

Lemma sql_events_declared_value r :
  event_columns (stored_event r) = (fun nv => (nv.1, kept_value event_table_def nv)) <$> event_columns r.
Proof.
  unfold event_columns, event_names, _event_values. cbn [zip zip_with fmap list_fmap fst].
  assert (forall x, kept_value event_table_def ("volume_ratio", opt_column CDecimal x) =
    opt_column CDecimal (kept_decimal event_table_def "volume_ratio" <$> x)) as ->
    by (intros [x|]; [apply kept_decimal_eq|apply (kept_value_shape _ _ CNull)]).
  assert (forall x, kept_value event_table_def ("invalidates_event_id", opt_column CText x) = opt_column CText x) as ->
    by (intros [x|]; [apply (kept_value_shape _ _ (CText x))|apply (kept_value_shape _ _ CNull)]).
  rewrite !kept_decimal_eq, !kept_time_eq, !(kept_value_shape _ _ (CText _)), !(kept_value_shape _ _ (CTexts _)). reflexivity.
Qed.

Lemma sql_events_declared : stored_as_declared (Table0 := sql_events) event_table_def event_columns.
Proof. intros r back ->%keep_cells_value. apply sql_events_declared_value. Qed.

(** ** Property *)

(** C22: what the engine finds survives the database.  Every zone and event of an analysis
    fits the row of the declared tables (no text too long, no number or integer too large,
    no missing value), and comes back equal to what was written, when the prices, the
    symbol and the ratios of the market are within the types; the identifiers, the scores,
    the fractions and the scales of all numbers always are.  So in a database with these
    column types, which round prices to eighteen decimals, storing an analysis inserts the
    identifiers that are not there, and storing it again leaves every row unchanged. *)
Theorem analysis_survives_columns `{ColumnTypes} `{FromIso} `{!Table string SupportZoneRecord.t}
    `{!Table string StructureEventRecord.t} batch srules erules a db :
  stored_as_declared zone_table_def zone_columns -> stored_as_declared event_table_def event_columns ->
  analyze_higher_timeframe batch srules erules = Ok a -> moderate a ->
  NoDup (SupportZone.zone_id <$> HtfStructureAnalysis.zones a) -> NoDup (StructureEvent.event_id <$> HtfStructureAnalysis.events a) ->
  Forall (fun z => fits_table _equal zone_table_def (zone_cells (_zone_record z))) (HtfStructureAnalysis.zones a) /\
  Forall (fun e => fits_table _equal event_table_def (event_cells (_event_record e))) (HtfStructureAnalysis.events a) /\
  exists db' r, upsert_analysis db a = Ok (db', r) /\
    zones_inserted r = count_where (fun z => bool_decide (lookup_row db.1 (SupportZone.zone_id z) = None)) (HtfStructureAnalysis.zones a) /\
    events_inserted r = count_where (fun e => bool_decide (lookup_row db.2 (StructureEvent.event_id e) = None)) (HtfStructureAnalysis.events a) /\
    upsert_analysis db' a =
      Ok (db', MkStructureUpsertResult 0 0 (Z.of_nat (length (HtfStructureAnalysis.zones a)))
                 0 0 (Z.of_nat (length (HtfStructureAnalysis.events a)))).
Proof.
  intros Dz De Ha [Hsym Hz He] Nz Ne. apply analysis_scaled in Ha as [Sz Se].
  assert (Forall (fun z => fits_table _equal zone_table_def (zone_cells (_zone_record z))) (HtfStructureAnalysis.zones a)) as Fz.
  { apply Forall_forall. intros z Hin. rewrite Forall_forall in Sz, Hz. destruct (Sz z Hin) as [Hs Hy], (Hz z Hin).
    apply (zone_fits _ (fun d => (dval d <= numeric_limit 38 18)%Q) _equal_equiv fits_price); try done; [by rewrite Hy|].
    by eapply lt_le_val; [apply (zwf_range _ (zs_wf _ Hs))|]. }
  assert (Forall (fun e => fits_table _equal event_table_def (event_cells (_event_record e))) (HtfStructureAnalysis.events a)) as Fe.
  { apply Forall_forall. intros e Hin. rewrite Forall_forall in Se, He. destruct (Se e Hin) as [Hs Hy], (He e Hin) as (?&?&?&?).
    apply (event_fits _ (fun d => (dval d <= numeric_limit 38 18)%Q) _equal_equiv fits_price); try done; [by rewrite Hy|].
    destruct (ewf_zone _ (es_wf _ Hs)) as [_ Hr]. by eapply lt_le_val. }
  split; [done|]. split; [done|].
  destruct (upsert_analysis_kept db a) as (db' & r & Hu & Uz & Ue & Hagain).
  - eapply Forall_impl; [exact Fz|]. intros z Hf.
    by apply (fits_kept _equal zone_table_def zone_names _zone_values [("zone_id", CText (SupportZone.zone_id z))]).
  - eapply Forall_impl; [exact Fe|]. intros e Hf.
    by apply (fits_kept _equal event_table_def event_names _event_values [("event_id", CText (StructureEvent.event_id e))]).
  - by rewrite <- list_fmap_compose.
  - by rewrite <- list_fmap_compose.
  - exists db', r. split; [exact Hu|]. rewrite (up_inserted _ _ _ _ _ _ _ Uz), (up_inserted _ _ _ _ _ _ _ Ue), !count_where_fmap.
    split; [done|]. split; [done|exact Hagain].
Qed.

(** *** The analysis of a concrete batch *)

(** A decidable condition for [moderate]. *)
Definition moderateb (a : HtfStructureAnalysis.t) : bool :=
  (text_length (HtfStructureAnalysis.symbol a) <=? 100) &&
  forallb (fun z => Qle_bool (dval (SupportZone.high z)) (numeric_limit 38 18) && (SupportZone.touch_count z <? 2 ^ 31))
    (HtfStructureAnalysis.zones a) &&
  forallb (fun e => Qle_bool (dval (StructureEvent.close_price e)) (numeric_limit 38 18) &&
    Qle_bool (dval (StructureEvent.zone_high e)) (numeric_limit 38 18) &&
    Qle_bool (dval (StructureEvent.distance_bps e)) (numeric_limit 18 4) &&
    match StructureEvent.volume_ratio e with Some v => Qle_bool (dval v) (numeric_limit 18 6) | None => true end)
    (HtfStructureAnalysis.events a).

Lemma moderateb_sound a : moderateb a = true -> moderate a.
Proof.
  unfold moderateb. intros [[Hs Hz]%andb_true_iff He]%andb_true_iff. rewrite forallb_forall in Hz, He.
  constructor; [lia|..]; apply Forall_forall; intros x Hin; apply list_elem_of_In in Hin.
  - apply Hz in Hin as [Hh Ht]%andb_true_iff. apply Qle_bool_iff in Hh. split; [exact Hh|lia].
  - apply He in Hin as [[[H1 H2]%andb_true_iff H3]%andb_true_iff H4]%andb_true_iff. apply Qle_bool_iff in H1, H2, H3.
    split_and!; [done..|]. intros v Hv. rewrite Hv in H4. by apply Qle_bool_iff.
Qed.

(** The database rounds, and the analysis of [daily_batch] has one zone, whose break is
    confirmed. *)
Definition no_rows : table (Table := sql_zones) string SupportZoneRecord.t * table (Table := sql_events) string StructureEventRecord.t :=
  (∅ : gmap string SupportZoneRecord.t, ∅ : gmap string StructureEventRecord.t).

Lemma analysis_survives_columns_witness :
  exists a db' r, analyze_higher_timeframe daily_batch None None = Ok a /\
    upsert_analysis (Table0 := sql_zones) (Table1 := sql_events) no_rows a = Ok (db', r) /\
    zones_inserted r = 1 /\ events_inserted r = 1 /\
    upsert_analysis (Table0 := sql_zones) (Table1 := sql_events) db' a = Ok (db', MkStructureUpsertResult 0 0 1 0 0 1).
Proof.
  assert ((fun a => (moderateb a, bool_decide (NoDup (SupportZone.zone_id <$> HtfStructureAnalysis.zones a)),
      bool_decide (NoDup (StructureEvent.event_id <$> HtfStructureAnalysis.events a)),
      length (HtfStructureAnalysis.zones a), length (HtfStructureAnalysis.events a))) <$>
    analyze_higher_timeframe daily_batch None None = Ok (true, true, true, 1%nat, 1%nat)) as H by (vm_compute; reflexivity).
  apply fmap_Ok in H as (a & E & H). injection H as Hm Hz He Lz Le. apply eq_sym, moderateb_sound in Hm.
  apply eq_sym, bool_decide_eq_true in Hz, He.
  destruct (analysis_survives_columns (H := sql_columns) (Table0 := sql_zones) (Table1 := sql_events) daily_batch None None a no_rows
    sql_zones_declared sql_events_declared E Hm Hz He) as (_ & _ & db' & r & Hu & Iz & Ie & Hagain).
  rewrite count_where_all in Iz by (apply Forall_true; intros z; apply bool_decide_eq_true_2, lookup_empty).
  rewrite count_where_all in Ie by (apply Forall_true; intros e; apply bool_decide_eq_true_2, lookup_empty).
  rewrite <- Lz in Iz, Hagain. rewrite <- Le in Ie, Hagain.
  exists a, db', r. split; [exact E|]. split; [exact Hu|]. split; [exact Iz|]. split; [exact Ie|exact Hagain].
Defined.
