(* ===== verification/CandleColumns.v ===== *)
(** * What the database keeps of a candle: [candles/repository.py] in the tables of
    [db/models.py]

    The candle repository compares the columns exactly, not up to a tolerance as the
    structure repository does.  A candle whose numbers have at most eighteen decimals fits
    its row and is left unchanged when it is written again; one with a finer number is
    rounded, differs from what is read back, and is written again each time. *)

From Stdlib Require Import QArith Qabs Lqa.
From stdpp Require Import list strings gmap.
From S2P Require Import Schema.
From S2P Require Import Prelude PyList PyStr PyDecimal DecimalFacts PyTime Candles.
From S2P Require Import Repository CandleRepository StructureRepository Columns.
Open Scope Z_scope.

(** ** Rows *)

(** The keys of [_record_values], and the columns [_record_from_candle] adds. *)
Definition candle_names : list string :=
  ["role"; "category"; "close_time"; "open_price"; "high_price"; "low_price"; "close_price"; "volume"; "turnover"].
Definition candle_columns (r : OhlcvCandleRecord.t) : list (string * column) := zip candle_names (_record_values r).
Definition candle_key_cells (r : OhlcvCandleRecord.t) : list (string * column) :=
  [("source", CText (OhlcvCandleRecord.source r)); ("symbol", CText (OhlcvCandleRecord.symbol r));
   ("interval", CText (OhlcvCandleRecord.interval r)); ("open_time", CTime (OhlcvCandleRecord.open_time r))].
Definition candle_cells (r : OhlcvCandleRecord.t) : list (string * column) := candle_key_cells r ++ candle_columns r.

Definition candle_table_def : table_def := table_of Models.OhlcvCandleRecord.

(** ** Facts *)

Lemma persisted_equiv a b : a ≡ b -> _equal_persisted_value a b = true.
Proof.
  intros [|s|z|c d Hcd|x y Hxy|l]; simpl; try done; try (by apply bool_decide_eq_true_2).
  - apply Z.eqb_refl.
  - by apply deqb_equiv.
  - by apply aware_eqb_utc.
Qed.

(** A number the columns keep as it is. *)
Definition fine (d : dec) : Prop := -18 <= de d /\ (dval d <= numeric_limit 38 18)%Q.

Definition fineb (d : dec) : bool := (-18 <=? de d) && Qle_bool (dval d) (numeric_limit 38 18).

Lemma fineb_sound d : fineb d = true -> fine d.
Proof. intros [H1 H2]%andb_true_iff. apply Z.leb_le in H1. apply Qle_bool_iff in H2. by split. Qed.

Record candle_fine (c : OhlcvCandle) : Prop := {
  cf_symbol : text_length (symbol c) <= 100;
  cf_prices : fine (open_price c) /\ fine (high_price c) /\ fine (low_price c) /\ fine (close_price c);
  cf_volumes : fine (volume c) /\ fine (turnover c) }.

Lemma fits_number `{ColumnTypes} d :
  (d0 <=? d)%dec = true -> fine d -> fits_cell _equal_persisted_value (Numeric 38 18) false (CDecimal d).
Proof. intros H0 [Hs Hd]. apply (fits_quantised _ persisted_equiv); [lia|lia|done|done]. Qed.

Lemma positive_nonneg_dec d : (d0 <? d)%dec = true -> (d0 <=? d)%dec = true.
Proof. rewrite dle_val, dlt_val. apply Qlt_le_weak. Qed.

Lemma candle_fits `{ColumnTypes} c :
  candle_wf c -> candle_fine c ->
  fits_table _equal_persisted_value candle_table_def (candle_cells (_record_from_candle c)).
Proof.
  intros [Hcat _ _ (P1 & P2 & P3 & P4) [V1 V2] _ _] [Hsym (F1 & F2 & F3 & F4) [F5 F6]].
  apply positive_nonneg_dec in P1, P2, P3, P4.
  apply fits_table_of; [reflexivity|]. unfold candle_cells, candle_key_cells, candle_columns, candle_names, _record_values.
  cbn [app zip zip_with _record_from_candle OhlcvCandleRecord.source OhlcvCandleRecord.symbol OhlcvCandleRecord.interval
    OhlcvCandleRecord.open_time OhlcvCandleRecord.role OhlcvCandleRecord.category OhlcvCandleRecord.close_time
    OhlcvCandleRecord.open_price OhlcvCandleRecord.high_price OhlcvCandleRecord.low_price OhlcvCandleRecord.close_price
    OhlcvCandleRecord.volume OhlcvCandleRecord.turnover].
  each_column; try (by apply fits_number).
  - apply (fits_text _ persisted_equiv). by destruct (source c).
  - by apply (fits_text _ persisted_equiv).
  - apply (fits_text _ persisted_equiv). by destruct (interval c).
  - apply (fits_time _ persisted_equiv).
  - apply (fits_text _ persisted_equiv). by destruct (role c).
  - apply (fits_text _ persisted_equiv). unfold candle_categories in Hcat. rewrite !elem_of_cons in Hcat.
    destruct Hcat as [->|[->|[->|Hn]]]; [done..|by apply elem_of_nil in Hn].
  - apply (fits_time _ persisted_equiv).
Qed.

(** *** Such a database *)

Definition stored_candle (r : OhlcvCandleRecord.t) : OhlcvCandleRecord.t :=
  let dec := kept_decimal candle_table_def in
  OhlcvCandleRecord.Mk (OhlcvCandleRecord.source r) (OhlcvCandleRecord.role r) (OhlcvCandleRecord.category r)
    (OhlcvCandleRecord.symbol r) (OhlcvCandleRecord.interval r) (kept_time candle_table_def "open_time" (OhlcvCandleRecord.open_time r))
    (kept_time candle_table_def "close_time" (OhlcvCandleRecord.close_time r))
    (dec "open_price" (OhlcvCandleRecord.open_price r)) (dec "high_price" (OhlcvCandleRecord.high_price r))
    (dec "low_price" (OhlcvCandleRecord.low_price r)) (dec "close_price" (OhlcvCandleRecord.close_price r))
    (dec "volume" (OhlcvCandleRecord.volume r)) (dec "turnover" (OhlcvCandleRecord.turnover r)).

Definition sql_candles : Table CandleKey OhlcvCandleRecord.t := stored_table stored_candle.

Lemma sql_candles_declared : stored_as_declared (Table0 := sql_candles) candle_table_def candle_columns.
Proof.
  intros r back ->%keep_cells_value. unfold candle_columns, candle_names, _record_values. cbn [zip zip_with fmap list_fmap fst].
  rewrite !kept_decimal_eq, !kept_time_eq, !(kept_value_shape _ _ (CText _)). reflexivity.
Qed.

(** What the tables of candles rely on: the columns of a row are read as their types keep
    them, and those of its key, texts and an instant, as they were written. *)
Record candle_store `{ColumnTypes} `{!Table CandleKey OhlcvCandleRecord.t} : Prop := {
  cs_declared : stored_as_declared candle_table_def candle_columns;
  cs_keys : forall r : OhlcvCandleRecord.t, record_key (stored r) = record_key r }.

Lemma fine_kept `{ColumnTypes} `{!Table CandleKey OhlcvCandleRecord.t} c :
  stored_as_declared candle_table_def candle_columns -> candle_wf c -> candle_fine c -> candle_kept c.
Proof.
  intros Hd Hwf Hf.
  by apply (fits_kept _equal_persisted_value candle_table_def candle_names _record_values (candle_key_cells (_record_from_candle c))), candle_fits.
Qed.

Lemma fine_batch_kept `{ColumnTypes} `{!Table CandleKey OhlcvCandleRecord.t} (cs : list OhlcvCandle) :
  stored_as_declared candle_table_def candle_columns -> Forall candle_wf cs -> Forall candle_fine cs -> Forall candle_kept cs.
Proof.
  intros Hd Hwf Hf. apply Forall_forall. intros c Hin. rewrite Forall_forall in Hwf, Hf. apply fine_kept; auto.
Qed.

Lemma sql_candle_store : candle_store (H := sql_columns) (Table0 := sql_candles).
Proof.
  constructor; [apply sql_candles_declared|]. intros r. unfold record_key.
  change (stored r) with (stored_candle r). unfold stored_candle. cbn [OhlcvCandleRecord.source
    OhlcvCandleRecord.symbol OhlcvCandleRecord.interval OhlcvCandleRecord.open_time]. do 2 f_equal.
  destruct (OhlcvCandleRecord.open_time r); reflexivity.
Qed.

(** ** Properties *)

(** C21: in a database with the declared columns, take a validated batch of candles that
    their row holds exactly: a symbol of at most a hundred characters and numbers with at
    most eighteen decimals and twenty digits before the point.  Upserting it into a table
    whose rows are under the keys their columns make always succeeds: every candle of the batch ends up in the table with its values, every other
    row is left alone, the candles counted as inserted are those whose key was absent, each
    candle is counted once, and a second upsert of the batch changes nothing and reports
    all candles unchanged.  When the series holds no other candle, [list_recent] reads the
    batch's latest candles back, oldest first, equal to what was written.  (A finer number
    is rounded and written again each time: [fine_volume_is_rewritten].) *)
Theorem upsert_batch_exact `{ColumnTypes} `{!Table CandleKey OhlcvCandleRecord.t} t b :
  candle_store -> batch_wf b -> Forall candle_wf (Batch.candles b) -> Forall candle_fine (Batch.candles b) -> keyed t ->
  Forall (fun c => fits_table _equal_persisted_value candle_table_def (candle_cells (_record_from_candle c))) (Batch.candles b) /\
  exists t' res, upsert_batch t b = Ok (t', res) /\ keyed t' /\
    inserted res = count_where (fun c => bool_decide (lookup_row t (candle_row c).1 = None)) (Batch.candles b) /\
    total res = Z.of_nat (length (Batch.candles b)) /\
    (forall k, k ∉ (candle_row <$> Batch.candles b).*1 -> lookup_row t' k = lookup_row t k) /\
    (forall c, c ∈ Batch.candles b ->
       exists r, lookup_row t' (candle_row c).1 = Some r /\ r ≡ _record_from_candle c) /\
    upsert_batch t' b = Ok (t', MkCandleUpsertResult 0 0 (Z.of_nat (length (Batch.candles b)))) /\
    (forall limit, 1 <= limit <= 5000 ->
       (forall k r, lookup_row t' k = Some r ->
          in_series (CandleSource.value (Batch.source b)) (Batch.symbol b)
            (CandleInterval.value (Batch.interval b)) (k, r) = true ->
          k ∈ (candle_row <$> Batch.candles b).*1) ->
       exists cs, list_recent t' (Batch.source b) (Batch.symbol b) (Batch.interval b) limit = Ok cs /\
         Forall2 (≡) cs (drop (length (Batch.candles b) - Z.to_nat limit) (Batch.candles b))).
Proof.
  intros [Hd Hkeys] Hb Hwf Hf Ht. split.
  { apply Forall_forall. intros c Hin. rewrite Forall_forall in Hwf, Hf. apply candle_fits; auto. }
  destruct (upsert_batch_ok Hkeys t b Hb (fine_batch_kept _ Hd Hwf Hf) Ht) as (t' & res & Hu & Hk & Hi & Htot & Ho & Hin & Ha).
  exists t', res. split_and!; try done. intros limit Hl Honly. by apply list_recent_batch.
Qed.

(** A candle with a volume of nineteen decimals: it is updated each time it is stored,
    though nothing has changed. *)
Definition fine_candle : OhlcvCandle :=
  MkCandle CandleSource.BYBIT CandleRole.STRUCTURE_DATA "linear" "BTCUSDT" CandleInterval.D1
    (Aware 0 0) (Aware (us_per_second * 86400) 0) (dint 10) (dint 11) (dint 9) (dint 10) (Dec 15 (-19)) (dint 0).

Definition fine_batch : Batch.t :=
  Batch.MkBatch CandleSource.BYBIT CandleRole.STRUCTURE_DATA "linear" "BTCUSDT" CandleInterval.D1
    (Aware (us_per_second * 86400) 0) [fine_candle].

Definition no_candles : table (Table := sql_candles) CandleKey OhlcvCandleRecord.t := (∅ : gmap CandleKey OhlcvCandleRecord.t).

(** What storing a batch twice reports. *)
Definition stored_twice (b : Batch.t) : res (CandleUpsertResult * CandleUpsertResult) :=
  '(t1, r1) ← upsert_batch (Table0 := sql_candles) no_candles b;
  '(_, r2) ← upsert_batch (Table0 := sql_candles) t1 b;
  mret (r1, r2).

Theorem fine_volume_is_rewritten :
  candle_wf fine_candle /\
  stored_twice fine_batch = Ok (MkCandleUpsertResult 1 0 0, MkCandleUpsertResult 0 1 0).
Proof.
  split; [|vm_compute; reflexivity].
  apply (new_OhlcvCandle_wf CandleSource.BYBIT CandleRole.STRUCTURE_DATA "linear" "BTCUSDT" CandleInterval.D1
    (AwareDT (Aware 0 0)) (AwareDT (Aware (us_per_second * 86400) 0)) (Finite (dint 10)) (Finite (dint 11))
    (Finite (dint 9)) (Finite (dint 10)) (Finite (Dec 15 (-19))) (Finite (dint 0))). vm_compute. reflexivity.
Qed.

Lemma upsert_batch_exact_witness :
  exists t' res cs, upsert_batch (Table0 := sql_candles) no_candles sample_batch = Ok (t', res) /\ inserted res = 1 /\
    upsert_batch (Table0 := sql_candles) t' sample_batch = Ok (t', MkCandleUpsertResult 0 0 1) /\
    list_recent (Table0 := sql_candles) t' CandleSource.BYBIT " btcusdt" CandleInterval.M5 500 = Ok cs /\ length cs = 1%nat.
Proof.
  assert (Forall candle_fine (Batch.candles sample_batch)) as Hf.
  { constructor; [|constructor]. constructor; [done|split; [|split; [|split]]|split];
      apply fineb_sound; vm_compute; reflexivity. }
  destruct (upsert_batch_exact (H := sql_columns) (Table0 := sql_candles) no_candles sample_batch sql_candle_store
    sample_batch_wf sample_batch_candles Hf) as (_ & t' & res & Hu & _ & Hi & _ & Ho & _ & Ha & Hr); [intros k r; done|].
  exists t', res. destruct (Hr 500) as (cs & Hcs & Heq); [split; discriminate| |].
  - intros k r Hk _. destruct (decide (k ∈ (candle_row <$> Batch.candles sample_batch).*1)) as [|Hn]; [done|].
    apply Ho in Hn. rewrite Hn in Hk. discriminate Hk.
  - exists cs. split; [exact Hu|]. split; [rewrite Hi; reflexivity|]. split; [exact Ha|]. split; [exact Hcs|].
    by apply Forall2_length in Heq.
Defined.
