(* ===== verification/ConfirmationColumns.v ===== *)
(** * The confirmation in the declared columns: [runtime/store.py], [setups/runtime_analysis.py]
    in the tables of [db/models.py]

    The hypotheses of [Confirmation] hold of the declared columns when the numbers of the
    market are ones they hold exactly.  The candles are compared exactly, zones and events
    with a tolerance; what the tables give back is shown equal in value to what was
    written, so the reclaim engine of a 15M batch gets the evidence of the 4H analysis. *)

From Stdlib Require Import QArith.
From stdpp Require Import list strings gmap.
From S2P Require Import Schema.
From S2P Require Import Prelude PyList PyStr PyDecimal DecimalFacts PyTime IsoTime Sha256 Candles HtfModels.
From S2P Require Import SupportZones StructureEvents HtfEngine ReclaimModels ReclaimEngine Repository CandleRepository.
From S2P Require Import StructureRepository ReclaimSource ReclaimRepository Confirmation Columns StructureColumns CandleColumns.
Open Scope Z_scope.

(** ** Facts: rows the columns hold exactly *)

(** The comparison of the candles says that two columns have one value (an integer column
    never meets a numeric one here). *)
Definition comparable (a b : column) : Prop :=
  match a, b with CDecimal _, CInt _ | CInt _, CDecimal _ => False | _, _ => True end.

Lemma persisted_value_equiv a b : comparable a b -> _equal_persisted_value a b = true -> a ≡ b.
Proof.
  intros Hc H. destruct a as [|s|z|d|x|l], b as [|s'|z'|d'|x'|l']; simpl in *; try done;
    try (apply bool_decide_eq_true in H as ->; constructor); try (by destruct x).
  - constructor.
  - apply Z.eqb_eq in H as ->. constructor.
  - apply deqb_equiv in H. by constructor.
  - apply aware_eqb_utc in H. by constructor.
Qed.

Lemma optional_comparable {A} (f : A -> column) (x y : option A) :
  (forall a b, comparable (f a) (f b)) -> (forall a, comparable (f a) CNull /\ comparable CNull (f a)) ->
  comparable (opt_column f x) (opt_column f y).
Proof. intros Hf Hn. destruct x as [x|], y as [y|]; cbn [opt_column]; [apply Hf|apply (Hn x)|apply (Hn y)|exact I]. Qed.

(** Rows with the same names, whose columns compare equal. *)
Lemma cells_equiv (l k : list (string * column)) :
  Forall2 (fun b c => b.1 = c.1 /\ _equal_persisted_value b.2 c.2 = true) l k ->
  Forall2 (fun b c => comparable b.2 c.2) l k -> Forall2 (≡) l.*2 k.*2.
Proof.
  induction 1 as [|b c l k [_ Hbc] _ IH]; intros Hc; [constructor|]. apply Forall2_cons in Hc as [Hc Hl].
  simpl. constructor; [by apply persisted_value_equiv|by apply IH].
Qed.

Section exact.
Context `{ColumnTypes} `{!Table string SupportZoneRecord.t} `{!Table string StructureEventRecord.t}.

Lemma fine_price_fits nb d :
  (d0 <=? d)%dec = true -> fine d -> fits_cell _equal_persisted_value (Numeric 38 18) nb (CDecimal d).
Proof. intros H0 [Hs Hd]. apply (fits_quantised _ persisted_equiv); [lia|lia|done|done]. Qed.

Lemma zone_row_kept z :
  stored_as_declared zone_table_def zone_cells -> zone_scaled z -> text_length (SupportZone.symbol z) <= 100 ->
  fine (SupportZone.low z) -> fine (SupportZone.high z) -> SupportZone.touch_count z < 2 ^ 31 ->
  stored (_zone_record z) ≡ _zone_record z.
Proof.
  intros Hd Hz Hsym Hl Hh Ht.
  destruct (zone_fits _ fine persisted_equiv fine_price_fits z Hz Hsym Hl Hh Ht) as (_ & back & Hb & Hsame).
  apply Hd in Hb. subst back. apply cells_equiv in Hsame; [|by repeat constructor].
  unfold zone_cells in Hsame. cbn [fmap list_fmap fst snd] in Hsame. apply Forall2_cons in Hsame as [Hid Hv].
  split; [by apply text_equiv in Hid|exact Hv].
Qed.

Lemma event_row_kept e :
  stored_as_declared event_table_def event_cells -> event_scaled e -> text_length (StructureEvent.symbol e) <= 100 ->
  fine (StructureEvent.close_price e) -> fine (StructureEvent.zone_low e) -> fine (StructureEvent.zone_high e) ->
  (dval (StructureEvent.distance_bps e) <= numeric_limit 18 4)%Q ->
  (forall v, StructureEvent.volume_ratio e = Some v -> (dval v <= numeric_limit 18 6)%Q) ->
  stored (_event_record e) ≡ _event_record e.
Proof.
  intros Hd He Hsym Hc Hl Hh Hdist Hvol.
  destruct (event_fits _ fine persisted_equiv fine_price_fits e He Hsym Hc Hl Hh Hdist Hvol) as (_ & back & Hb & Hsame).
  apply Hd in Hb. subst back. apply cells_equiv in Hsame.
  2:{ repeat constructor; simpl; by apply optional_comparable. }
  unfold event_cells in Hsame. cbn [fmap list_fmap fst snd] in Hsame. apply Forall2_cons in Hsame as [Hid Hv].
  split; [by apply text_equiv in Hid|exact Hv].
Qed.
End exact.

(** *** The market's numbers *)

(** The prices of zones and events have at most eighteen decimals and twenty digits before
    the point (a zone adds the three of its padding to those of a price), and what can be
    too large for another column is not. *)
Record exact_analysis (a : HtfStructureAnalysis.t) : Prop := {
  ea_moderate : moderate a;
  ea_zones : Forall (fun z => fine (SupportZone.low z) /\ fine (SupportZone.high z)) (HtfStructureAnalysis.zones a);
  ea_events : Forall (fun e => fine (StructureEvent.close_price e) /\ fine (StructureEvent.zone_low e) /\
    fine (StructureEvent.zone_high e)) (HtfStructureAnalysis.events a) }.

(** What the three tables rely on: they are read as their columns keep what was written. *)
Record structure_store `{ColumnTypes} `{!Table CandleKey OhlcvCandleRecord.t} `{!Table string SupportZoneRecord.t}
    `{!Table string StructureEventRecord.t} : Prop := {
  ss_candles : candle_store;
  ss_zones : stored_as_declared zone_table_def zone_cells;
  ss_events : stored_as_declared event_table_def event_cells }.

Lemma exact_rows_kept `{ColumnTypes} `{!Table CandleKey OhlcvCandleRecord.t} `{!Table string SupportZoneRecord.t}
    `{!Table string StructureEventRecord.t} batch srules erules a :
  structure_store -> Forall candle_wf (Batch.candles batch) -> Forall candle_fine (Batch.candles batch) ->
  analyze_higher_timeframe batch srules erules = Ok a -> exact_analysis a -> rows_kept batch a.
Proof.
  intros [[Dc _] Dz De] Hwf Hf Ha [[Hsym Mz Me] Fz Fe]. apply analysis_scaled in Ha as [Sz Se]. constructor.
  - by apply fine_batch_kept.
  - apply Forall_forall. intros z Hin. rewrite Forall_forall in Sz, Mz, Fz.
    destruct (Sz z Hin) as [Hs Hy], (Mz z Hin), (Fz z Hin). apply zone_row_kept; try done. by rewrite Hy.
  - apply Forall_forall. intros e Hin. rewrite Forall_forall in Se, Me, Fe.
    destruct (Se e Hin) as [Hs Hy], (Me e Hin) as (?&?&?&?), (Fe e Hin) as (?&?&?).
    apply event_row_kept; try done. by rewrite Hy.
Qed.

Lemma sql_structure_store :
  structure_store (H := sql_columns) (Table0 := sql_candles) (Table1 := sql_zones) (Table2 := sql_events).
Proof.
  constructor; [apply sql_candle_store|..].
  - intros r back ->%keep_cells_value. unfold zone_cells. cbn [fmap list_fmap fst].
    rewrite (kept_value_shape _ _ (CText _)). f_equal.
    exact (sql_zones_declared_value r).
  - intros r back ->%keep_cells_value. unfold event_cells. cbn [fmap list_fmap fst].
    rewrite (kept_value_shape _ _ (CText _)). f_equal.
    exact (sql_events_declared_value r).
Qed.

(** ** Property *)

(** C4: the confirmation resumes the structure analysis.  In a database with the declared
    columns, take a validated 4H batch of at most 500 candles and its analysis, whose
    numbers the columns hold exactly (at most eighteen decimals and twenty digits before
    the point, a symbol of at most a hundred characters, ratios within their types) and
    whose identifiers are distinct and times have an ISO form, and write them into tables
    that hold nothing of the series.  The writes
    succeed, and a 15M batch of the symbol finds them: without a confirmed break nothing
    is written; otherwise the attempt is the engine's on a zone, a break and a candle equal
    to those the 4H derivation used (times in UTC, numbers of the same value), with the
    15M candles, and is stored. *)
Theorem confirmation_resumes_structure `{ColumnTypes} `{FromIso} `{!Table CandleKey OhlcvCandleRecord.t}
    `{!Table string SupportZoneRecord.t} `{!Table string StructureEventRecord.t} `{!Table string ReclaimAttemptRecord.t}
    s batch m15 srules erules a :
  structure_store -> batch_wf batch -> Forall candle_wf (Batch.candles batch) ->
  Forall candle_fine (Batch.candles batch) -> Batch.interval batch = CandleInterval.H4 ->
  (length (Batch.candles batch) <= 500)%nat ->
  analyze_higher_timeframe batch (Some srules) (Some erules) = Ok a -> exact_analysis a -> identified a ->
  unseen s batch a -> Batch.interval m15 = CandleInterval.M15 -> Batch.source m15 = Batch.source batch ->
  Batch.symbol m15 = Batch.symbol batch ->
  exists s', structure_written s batch a = Ok s' /\ reclaim_attempts s' = reclaim_attempts s /\
    match List.filter is_confirmed_break (HtfStructureAnalysis.events a) with
    | [] =>
        derive_reclaim_from_structure batch a = Ok None /\ persist_reclaim_from_confirmation s' m15 = Ok (s', None)
    | _ :: _ =>
        exists z e c z' e' c',
          derive_reclaim_from_structure batch a =
            Some <$> analyze_reclaim_attempt z e c (Batch.candles batch) None /\
          z' ≡ utc_zone z /\ e' ≡ utc_event e /\ c' ≡ c /\
          persist_reclaim_from_confirmation s' m15 =
            (attempt ← analyze_reclaim_attempt z' e' c' (Batch.candles m15) None;
             store_attempt s' attempt)
    end.
Proof.
  intros Hst Hb Hwf Hf Hi Hlen Ha Hex Hid Hun Hm Hs Hy.
  apply (resumes_structure (cs_keys (ss_candles Hst)) s batch m15 srules erules a); try done.
  by eapply exact_rows_kept.
Qed.

(** *** A concrete session, in a database that rounds *)

Definition empty_session : Session (Table0 := sql_candles) (Table1 := sql_zones) (Table2 := sql_events) :=
  MkSession (Table0 := sql_candles) (Table1 := sql_zones) (Table2 := sql_events)
    (∅ : gmap CandleKey OhlcvCandleRecord.t) (∅ : gmap string SupportZoneRecord.t)
    (∅ : gmap string StructureEventRecord.t) (∅ : gmap string ReclaimAttemptRecord.t).

Definition sample_m15 : Batch.t :=
  Batch.MkBatch CandleSource.BYBIT CandleRole.STRUCTURE_DATA "linear" "BTCUSDT" CandleInterval.M15
    (Aware (days 2) 0) [].


(** A decidable condition for [exact_analysis]. *)
Definition exact_analysisb (a : HtfStructureAnalysis.t) : bool :=
  moderateb a &&
  forallb (fun z => fineb (SupportZone.low z) && fineb (SupportZone.high z)) (HtfStructureAnalysis.zones a) &&
  forallb (fun e => fineb (StructureEvent.close_price e) && fineb (StructureEvent.zone_low e) &&
    fineb (StructureEvent.zone_high e)) (HtfStructureAnalysis.events a).

Lemma exact_analysisb_sound a : exact_analysisb a = true -> exact_analysis a.
Proof.
  unfold exact_analysisb. intros [[Hm Hz]%andb_true_iff He]%andb_true_iff. rewrite forallb_forall in Hz, He.
  constructor; [by apply moderateb_sound|..]; apply Forall_forall; intros x Hin; apply list_elem_of_In in Hin.
  - apply Hz in Hin as [? ?]%andb_true_iff. split; by apply fineb_sound.
  - apply He in Hin as [[? ?]%andb_true_iff ?]%andb_true_iff. split_and!; by apply fineb_sound.
Qed.

Definition candle_fineb (c : OhlcvCandle) : bool :=
  (text_length (symbol c) <=? 100) && fineb (open_price c) && fineb (high_price c) && fineb (low_price c) &&
  fineb (close_price c) && fineb (volume c) && fineb (turnover c).

Lemma candle_fineb_sound l : forallb candle_fineb l = true -> Forall candle_fine l.
Proof.
  rewrite forallb_forall. intros Hl. apply Forall_forall. intros c Hin. apply list_elem_of_In, Hl in Hin.
  unfold candle_fineb in Hin. rewrite !andb_true_iff in Hin. destruct_and! Hin.
  constructor; [lia|split_and!; by apply fineb_sound|split; by apply fineb_sound].
Qed.

Lemma empty_session_unseen batch a : unseen empty_session batch a.
Proof. constructor; try done; intros k r Hk; discriminate Hk. Qed.

Lemma confirmation_resumes_structure_witness :
  exists a s' z e c,
    analyze_higher_timeframe h4_batch (Some default_zone_rules) (Some default_event_rules) = Ok a /\
    structure_written empty_session h4_batch a = Ok s' /\
    persist_reclaim_from_confirmation s' sample_m15 =
      (attempt ← analyze_reclaim_attempt z e c [] None; store_attempt s' attempt).
Proof.
  assert (Forall candle_wf (Batch.candles h4_batch)) as Hc
    by (repeat constructor; eapply new_OhlcvCandle_wf; vm_compute; reflexivity).
  assert (Forall candle_fine (Batch.candles h4_batch)) as Hf by (apply candle_fineb_sound; vm_compute; reflexivity).
  assert ((fun a => (identifiedb a, exact_analysisb a, length (List.filter is_confirmed_break (HtfStructureAnalysis.events a)))) <$>
    analyze_higher_timeframe h4_batch (Some default_zone_rules) (Some default_event_rules) = Ok (true, true, 1%nat)) as Ha
    by (vm_compute; reflexivity).
  apply fmap_Ok in Ha as (a & Ha & Hl). injection Hl as Hid Hex Hl.
  destruct (confirmation_resumes_structure empty_session h4_batch sample_m15 default_zone_rules default_event_rules a
    sql_structure_store h4_batch_wf Hc Hf eq_refl ltac:(vm_compute; lia) Ha (exact_analysisb_sound a (eq_sym Hex))
    (identifiedb_sound a (eq_sym Hid)) (empty_session_unseen h4_batch a) eq_refl eq_refl eq_refl) as (s' & Hw & _ & Hp).
  destruct (List.filter is_confirmed_break (HtfStructureAnalysis.events a)) as [|e0 rest]; [discriminate Hl|].
  destruct Hp as (z & e & c & z' & e' & c' & _ & _ & _ & _ & Hp). exists a, s', z', e', c'.
  split; [exact Ha|]. split; [exact Hw|exact Hp].
Defined.
