(* ===== verification/Notifications.v ===== *)
(** * Notifications: [notifications/models.py], [formatter.py], [delivery.py]

    The text of a plan: its status and, when it is ready, its prices at six significant
    digits.  [DisabledDelivery] is the only delivery there is. *)

From Stdlib Require Import Ascii QArith Qabs Lqa.
From stdpp Require Import list strings.
From S2P Require Import Prelude PyList PyStr PyDecimal DecimalFacts PyParse PyFloat FloatFacts PyFormat.
From S2P Require Import Workflow Planning.
Open Scope Z_scope.

(** ** [notifications/models.py] *)

Module NotificationChannel.
Inductive t : Type := TELEGRAM | DASHBOARD.
#[global] Instance eq_dec : EqDecision t.
Proof. solve_decision. Defined.
Definition value (c : t) : string :=
  match c with TELEGRAM => "TELEGRAM" | DASHBOARD => "DASHBOARD" end.
End NotificationChannel.

Module DeliveryStatus.
Inductive t : Type := ACCEPTED | SKIPPED.
#[global] Instance eq_dec : EqDecision t.
Proof. solve_decision. Defined.
Definition value (s : t) : string :=
  match s with ACCEPTED => "ACCEPTED" | SKIPPED => "SKIPPED" end.
Definition members : list t := [ACCEPTED; SKIPPED].
End DeliveryStatus.

Module NotificationMessage.
Record t : Type := Mk {
  symbol : string;
  channel : NotificationChannel.t;
  title : string;
  body : string;
  metadata : list (string * string) }.
End NotificationMessage.

Module DeliveryReceipt.
Record t : Type := Mk {
  symbol : string;
  channel : NotificationChannel.t;
  status : DeliveryStatus.t;
  detail : string }.
End DeliveryReceipt.

(** ** [notifications/formatter.py] *)

Definition newline : string := String (chr 10) EmptyString.

Definition _format_number (value : float) : string := format_g value.

Definition format_plan_message (plan : PlanDraft.t) (channel : NotificationChannel.t) : res NotificationMessage.t :=
  let title := PlanDraft.symbol plan +:+ " plan update" in
  let status := PlanStatus.value (PlanDraft.status plan) in
  match PlanDraft.status plan with
  | PlanStatus.HOLD =>
      let note := match PlanDraft.notes plan with note :: _ => note | [] => "waiting" end in
      mret (NotificationMessage.Mk (PlanDraft.symbol plan) channel title
              ("Status: HOLD" +:+ newline +:+ "Note: " +:+ note) [("status", status)])
  | PlanStatus.READY =>
      match PlanDraft.entry_value plan, PlanDraft.boundary_value plan, PlanDraft.objective_value plan with
      | Some entry_value, Some boundary_value, Some objective_value =>
          let body := str_join newline
            ["Status: READY";
             "Entry: " +:+ _format_number entry_value;
             "Boundary: " +:+ _format_number boundary_value;
             "Objective: " +:+ _format_number objective_value;
             "Multiplier: " +:+ int_str (PlanDraft.multiplier plan);
             "Ratio: " +:+ _format_number (PlanDraft.ratio plan)] in
          mret (NotificationMessage.Mk (PlanDraft.symbol plan) channel title body
                  [("status", status); ("multiplier", int_str (PlanDraft.multiplier plan));
                   ("ratio", _format_number (PlanDraft.ratio plan))])
      | _, _, _ => Err (ValueError "ready plan is missing required values")
      end
  end.

(** ** [notifications/delivery.py] *)

Definition DisabledDelivery_deliver (message : NotificationMessage.t) : DeliveryReceipt.t :=
  DeliveryReceipt.Mk (NotificationMessage.symbol message) (NotificationMessage.channel message)
    DeliveryStatus.SKIPPED "delivery disabled".

(** ** Facts *)

(** A text that reads back as a decimal close to a float. *)
Definition reads_back (text : string) (x : float) (d : dec) : Prop :=
  decimal_of_str text = Ok (Finite d) /\ (Qabs (dval d - fval x) <= Qabs (fval x) * (5#1000000))%Q.

Lemma format_number_reads_back x :
  is_finite_float x = true ->
  exists d, reads_back (_format_number x) x d /\ (dval d == g_value x)%Q.
Proof.
  destruct x as [m e| |]; [intros _|done..]. destruct (format_g_reads_back m e) as [(d & Hd & Hv) Hc].
  exists d. split; [|done]. split; [exact Hd|]. by rewrite Hv.
Qed.

Lemma g_value_pos m e : 0 < m -> (0 < g_value (Fl m e))%Q.
Proof.
  intros Hm. destruct (format_g_reads_back m e) as [_ Hc].
  assert (0 < fval (Fl m e))%Q as Hp by (unfold fval; apply Qmult_lt_0_compat; [by apply injZ_pos|apply p2_pos]).
  rewrite (Qabs_pos (fval _)) in Hc by lra. apply Qabs_Qle_condition in Hc as [Hc _]. lra.
Qed.

Lemma float_positive x : is_finite_float x = true -> (fzero <? x)%flt = true -> exists m e, x = Fl m e /\ 0 < m.
Proof.
  destruct x as [m e| |]; [intros _|done..]. intros H. exists m, e. split; [done|].
  rewrite fltb_not_fleb in H by done. apply negb_true_iff in H. apply fleb_val_false in H. rewrite fval_zero in H.
  unfold fval in H. destruct (Z.le_gt_cases m 0) as [Hle|]; [exfalso|done].
  assert (inject_Z m * p2 e <= 0 * p2 e)%Q
    by (apply Qmult_le_r; [apply p2_pos|change 0%Q with (inject_Z 0); by rewrite <- Zle_Qle]). lra.
Qed.

(** A message is refused exactly when a READY plan lacks a price; then it is the exception
    of the formatter. *)
Lemma format_plan_message_error plan channel :
  (exists e, format_plan_message plan channel = Err e) <->
  PlanDraft.status plan = PlanStatus.READY /\
  (PlanDraft.entry_value plan = None \/ PlanDraft.boundary_value plan = None \/ PlanDraft.objective_value plan = None).
Proof.
  unfold format_plan_message.
  destruct (PlanDraft.status plan), (PlanDraft.entry_value plan), (PlanDraft.boundary_value plan),
    (PlanDraft.objective_value plan); split; intros H; try (by destruct H as [? H]); try naive_solver;
    try (by eexists).
Qed.

(** ** Property *)

(** C32: a plan that [build_plan] returns can always be announced.  A held plan shows why
    it waits.  A ready one shows entry, boundary, objective, multiplier and ratio, one a
    line; each number read back is within five parts in a million of the plan's, and what
    is read keeps the sides: 0 < objective <= entry <= boundary. *)
Theorem plan_message_reads_back s e b m r request flow plan channel :
  PlanRequest.new s e b m r = Ok request -> ffits e -> ffits b ->
  build_plan flow request = Ok plan ->
  exists message, format_plan_message plan channel = Ok message /\
    NotificationMessage.symbol message = str_strip s /\ NotificationMessage.channel message = channel /\
    NotificationMessage.title message = str_strip s +:+ " plan update" /\
    if FlowResult.is_ready flow then
      let o := objective_of e b r in
      NotificationMessage.body message = str_join newline
        ["Status: READY"; "Entry: " +:+ _format_number e; "Boundary: " +:+ _format_number b;
         "Objective: " +:+ _format_number o; "Multiplier: " +:+ int_str m; "Ratio: " +:+ _format_number r] /\
      exists de db do_ dr,
        reads_back (_format_number e) e de /\ reads_back (_format_number b) b db /\
        reads_back (_format_number o) o do_ /\ reads_back (_format_number r) r dr /\
        (0 < dval do_)%Q /\ (dval do_ <= dval de)%Q /\ (dval de <= dval db)%Q
    else NotificationMessage.body message = "Status: HOLD" +:+ newline +:+ "Note: flow is not ready".
Proof.
  intros Hreq He Hb Hp. destruct (FlowResult.is_ready flow) eqn:Hf.
  - pose proof (build_plan_ready s e b m r request Hreq He Hb flow Hf) as H.
    destruct (plannable e b m r) eqn:Hpl; [|destruct H; congruence].
    assert (plan = PlanDraft.Mk (str_strip s) PlanStatus.READY (Some e) (Some b) (Some (objective_of e b r)) m r ["plan created"])
      as -> by congruence.
    pose proof (PlanRequest_new_Ok _ _ _ _ _ _ Hreq) as (_ & _ & Fe & Fb & Fr).
    unfold plannable in Hpl. rewrite !andb_true_iff in Hpl. destruct_and! Hpl.
    destruct (objective_finite s e b m r request Hreq He Hb) as [Fo Hle]; [by apply fzero_of_lt|by apply fzero_of_lt..|].
    eexists. split; [reflexivity|]. cbv zeta. split_and!; try done.
    destruct (format_number_reads_back e Fe) as (de & Re & Ve), (format_number_reads_back b Fb) as (db & Rb & Vb).
    destruct (format_number_reads_back _ Fo) as (dobj & Ro & Vo), (format_number_reads_back r Fr) as (dr & Rr & _).
    exists de, db, dobj, dr.
    split_and!; try done; rewrite ?Ve, ?Vb, ?Vo.
    + destruct (float_positive _ Fo) as (mo & eo & -> & Hpos); [done|]. by apply g_value_pos.
    + destruct (float_positive _ Fo) as (mo & eo & Eo & Hpos); [done|]. rewrite Eo in *.
      destruct e as [me ee| |]; [|done..]. apply format_g_mono; [done|]. by apply fleb_val.
    + destruct (float_positive _ Fe) as (me & ee & -> & Hpos); [done|].
      destruct b as [mb eb| |]; [|done..]. apply format_g_mono; [done|].
      assert ((Fl me ee <? Fl mb eb)%flt = true) as Hlt by done.
      rewrite fltb_not_fleb in Hlt by done. apply negb_true_iff, fleb_val_false in Hlt. lra.
  - unfold build_plan in Hp. rewrite Hf in Hp. cbn [negb] in Hp.
    apply PlanRequest_new_Ok in Hreq as (-> & Hs & _). cbn [PlanRequest.symbol] in Hp.
    rewrite held_Ok in Hp by (by rewrite str_strip_idemp). apply Ok_inj in Hp. subst plan. rewrite str_strip_idemp.
    eexists. split; [reflexivity|]. done.
Qed.

(** *** A concrete message *)

Lemma plan_message_reads_back_witness :
  exists request plan message,
    PlanRequest.new " BTC " (Fl 100 0) (Fl 110 0) 3 (Fl 2 0) = Ok request /\
    build_plan (FlowResult.Mk "BTC" FlowStatus.READY ["ready"]) request = Ok plan /\
    format_plan_message plan NotificationChannel.TELEGRAM = Ok message /\
    NotificationMessage.title message = "BTC plan update" /\
    NotificationMessage.metadata message = [("status", "READY"); ("multiplier", "3"); ("ratio", "2")].
Proof.
  destruct (PlanRequest.new " BTC " (Fl 100 0) (Fl 110 0) 3 (Fl 2 0)) as [request|] eqn:E; [|vm_compute in E; discriminate E].
  destruct (build_plan (FlowResult.Mk "BTC" FlowStatus.READY ["ready"]) request) as [plan|] eqn:Ep;
    [|vm_compute in E; apply Ok_inj in E; subst request; vm_compute in Ep; discriminate Ep].
  destruct (plan_message_reads_back _ _ _ _ _ _ _ _ NotificationChannel.TELEGRAM E
    ltac:(split; simpl; lia) ltac:(split; simpl; lia) Ep) as (message & Hm & _ & _ & Ht & _).
  exists request, plan, message. split; [reflexivity|]. split; [exact Ep|]. split; [exact Hm|]. split; [exact Ht|].
  vm_compute in E. apply Ok_inj in E. subst request. vm_compute in Ep. apply Ok_inj in Ep. subst plan.
  vm_compute in Hm. apply Ok_inj in Hm. subst message. vm_compute. reflexivity.
Defined.

(** Six digits are not always enough to tell the prices of a plan apart. *)
Lemma close_prices_print_alike :
  exists request plan message,
    PlanRequest.new "BTC" (float_lit 1000002 (-1)) (float_lit 1000004 (-1)) 1 (Fl 1 0) = Ok request /\
    build_plan (FlowResult.Mk "BTC" FlowStatus.READY ["ready"]) request = Ok plan /\
    format_plan_message plan NotificationChannel.TELEGRAM = Ok message /\
    NotificationMessage.body message = str_join newline
      ["Status: READY"; "Entry: 100000"; "Boundary: 100000"; "Objective: 100000"; "Multiplier: 1"; "Ratio: 1"].
Proof. do 3 eexists. repeat (split; [vm_compute; reflexivity|]). vm_compute. reflexivity. Qed.
