(* ===== verification/Overview.v ===== *)
(** * The read-only overview: [overview/]

    Two ways to the same numbers.  [build_overview] counts objects in memory by their
    state; [DatabaseOverviewProvider.summary] counts the stored records by type and state,
    which the database groups ([GROUP BY record_type, state]), and says what it cannot
    place.  Dictionaries are finite maps: the order of their keys is not observed.

    [grouped] is what the code relies on: the rows of the query are the distinct pairs of
    type and state of the records, each once, with their number.  [count_query] computes
    them. *)

From stdpp Require Import list strings gmap.
From S2P Require Import Prelude PyList PyStr PyTime PyFloat PyValue Workflow Planning Watchlist Notifications RuntimeStore.
Open Scope Z_scope.

(** ** [overview/models.py], [overview/data.py] *)

Module OverviewMode.
Inductive t : Type := NO_STORE | IN_MEMORY | DATABASE | DATABASE_UNAVAILABLE.
#[global] Instance eq_dec : EqDecision t.
Proof. solve_decision. Defined.
Definition value (m : t) : string :=
  match m with
  | NO_STORE => "NO_STORE" | IN_MEMORY => "IN_MEMORY" | DATABASE => "DATABASE"
  | DATABASE_UNAVAILABLE => "DATABASE_UNAVAILABLE"
  end.
End OverviewMode.

Module OverviewSummary.
Record t : Type := Mk {
  generated_at : aware;
  mode : OverviewMode.t;
  totals : gmap string Z;
  watchlist : gmap string Z;
  setups : gmap string Z;
  flow : gmap string Z;
  plans : gmap string Z;
  lifecycle : gmap string Z;
  deliveries : gmap string Z;
  notes : list string }.
End OverviewSummary.

Module OverviewData.
Record t : Type := Mk {
  watchlist_entries : list WatchlistEntry.t;
  setup_candidates : list SetupCandidate.t;
  flow_results : list FlowResult.t;
  plan_drafts : list PlanDraft.t;
  lifecycle_records : list LifecycleRecord.t;
  delivery_receipts : list DeliveryReceipt.t;
  mode : OverviewMode.t;
  notes : list string }.
End OverviewData.

(** ** [overview/service.py] *)

(** [{member.value: counter.get(member.value, 0) for member in enum_type}] *)
Definition _counts (members values : list string) : gmap string Z :=
  list_to_map ((fun m => (m, count_where (fun v => bool_decide (v = m)) values)) <$> members).

Definition stage_members : list string := WatchStage.value <$> WatchStage.members.
Definition label_members : list string := SetupLabel.value <$> SetupLabel.members.
Definition flow_members : list string := FlowStatus.value <$> FlowStatus.members.
Definition plan_members : list string := PlanStatus.value <$> PlanStatus.members.
Definition lifecycle_members : list string := LifecycleState.value <$> LifecycleState.members.
Definition delivery_members : list string := DeliveryStatus.value <$> DeliveryStatus.members.

(** The states of the six tuples. *)
Definition stages (d : OverviewData.t) : list string :=
  (fun e => WatchStage.value (WatchlistEntry.stage e)) <$> OverviewData.watchlist_entries d.
Definition labels (d : OverviewData.t) : list string :=
  (fun c => SetupLabel.value (SetupCandidate.label c)) <$> OverviewData.setup_candidates d.
Definition flow_statuses (d : OverviewData.t) : list string :=
  (fun f => FlowStatus.value (FlowResult.status f)) <$> OverviewData.flow_results d.
Definition plan_statuses (d : OverviewData.t) : list string :=
  (fun p => PlanStatus.value (PlanDraft.status p)) <$> OverviewData.plan_drafts d.
Definition lifecycle_states (d : OverviewData.t) : list string :=
  (fun r => LifecycleState.value (LifecycleRecord.state r)) <$> OverviewData.lifecycle_records d.
Definition delivery_statuses (d : OverviewData.t) : list string :=
  (fun r => DeliveryStatus.value (DeliveryReceipt.status r)) <$> OverviewData.delivery_receipts d.

Definition len {A} (l : list A) : Z := Z.of_nat (length l).

Definition build_overview (data : OverviewData.t) (generated_at : datetime) : res OverviewSummary.t :=
  generated_at ← require_aware generated_at "generated_at must be timezone-aware";
  mret (OverviewSummary.Mk generated_at (OverviewData.mode data)
    (list_to_map
      [("watchlist", len (OverviewData.watchlist_entries data)); ("setups", len (OverviewData.setup_candidates data));
       ("flow", len (OverviewData.flow_results data)); ("plans", len (OverviewData.plan_drafts data));
       ("lifecycle", len (OverviewData.lifecycle_records data)); ("deliveries", len (OverviewData.delivery_receipts data))])
    (_counts stage_members (stages data)) (_counts label_members (labels data))
    (_counts flow_members (flow_statuses data)) (_counts plan_members (plan_statuses data))
    (_counts lifecycle_members (lifecycle_states data)) (_counts delivery_members (delivery_statuses data))
    (OverviewData.notes data)).

(** ** [overview/provider.py], [overview/summary_provider.py] *)

Definition EmptyOverviewProvider_load : OverviewData.t :=
  OverviewData.Mk [] [] [] [] [] [] OverviewMode.NO_STORE ["No persistence provider is configured."].
Definition EmptySummaryProvider_summary (generated_at : datetime) : res OverviewSummary.t :=
  build_overview EmptyOverviewProvider_load generated_at.

(** ** [overview/database_provider.py] *)

(** The record type, the section and the states it knows. *)
Definition _RECORD_SECTIONS : list (string * (string * list string)) :=
  [("watchlist", ("watchlist", stage_members));
   ("setup", ("setups", label_members));
   ("flow", ("flow", flow_members));
   ("plan", ("plans", plan_members));
   ("lifecycle", ("lifecycle", lifecycle_members));
   ("delivery", ("deliveries", delivery_members))].

Definition record_section (record_type : string) : option (string * list string) :=
  snd <$> first_where (fun s => bool_decide (s.1 = record_type)) _RECORD_SECTIONS.

Definition _zero_counts (members : list string) : gmap string Z := list_to_map ((fun m => (m, 0)) <$> members).

Definition _empty_sections : gmap string (gmap string Z) :=
  list_to_map ((fun s => (s.2.1, _zero_counts s.2.2)) <$> _RECORD_SECTIONS).

(** [d[key]] *)
Definition dict_item {A} (d : gmap string A) (key : string) : res A :=
  match d !! key with Some a => Ok a | None => Err (KeyError key) end.

(** [a or b] of dictionaries. *)
Definition or_dict {A} `{EqDecision A} (a : option (gmap string A)) (b : gmap string A) : gmap string A :=
  match a with Some d => if bool_decide (d = ∅) then b else d | None => b end.

Definition _summary (generated_at : aware) (mode : OverviewMode.t) (sections : option (gmap string (gmap string Z)))
    (totals : option (gmap string Z)) (notes : list string) : res OverviewSummary.t :=
  let active_sections := or_dict sections _empty_sections in
  let active_totals := or_dict totals ((fun _ => 0) <$> active_sections) in
  watchlist ← dict_item active_sections "watchlist";
  setups ← dict_item active_sections "setups";
  flow ← dict_item active_sections "flow";
  plans ← dict_item active_sections "plans";
  lifecycle ← dict_item active_sections "lifecycle";
  deliveries ← dict_item active_sections "deliveries";
  mret (OverviewSummary.Mk generated_at mode active_totals watchlist setups flow plans lifecycle deliveries notes).

(** A row of the query: type, state and number. *)
Definition row : Type := string * string * Z.

(** The local variables of the loop. *)
Record Tally : Type := MkTally {
  sections : gmap string (gmap string Z);
  totals : gmap string Z;
  ignored_records : Z;
  unknown_states : gmap string Z }.

Definition new_tally : Tally := MkTally _empty_sections ((fun _ => 0) <$> _empty_sections) 0 ∅.

Definition tally_row (t : Tally) (r : row) : res Tally :=
  let '(record_type, state, count) := r in
  match record_section record_type with
  | None => mret (MkTally (sections t) (totals t) (ignored_records t + count) (unknown_states t))
  | Some (section, _) =>
      total ← dict_item (totals t) section;
      states ← dict_item (sections t) section;
      let totals := <[section := total + count]> (totals t) in
      match states !! state with
      | Some n =>
          mret (MkTally (<[section := <[state := n + count]> states]> (sections t)) totals
                  (ignored_records t) (unknown_states t))
      | None =>
          let n := default 0 (states !! "UNKNOWN") in
          mret (MkTally (<[section := <["UNKNOWN" := n + count]> states]> (sections t)) totals (ignored_records t)
                  (<[section := default 0 (unknown_states t !! section) + count]> (unknown_states t)))
      end
  end.

Fixpoint tally_rows (t : Tally) (rows : list row) : res Tally :=
  match rows with [] => mret t | r :: rows' => t ← tally_row t r; tally_rows t rows' end.

Definition tally_notes (t : Tally) : list string :=
  (if bool_decide (map_Forall (fun _ n => n = 0) (totals t)) then ["No dashboard records are stored."] else []) ++
  (if ignored_records t =? 0 then []
   else ["Ignored " +:+ int_str (ignored_records t) +:+ " non-dashboard records."]) ++
  ((fun u => u.1 +:+ " contains " +:+ int_str u.2 +:+ " records with unknown states.") <$>
     py_sorted fst (map_to_list (unknown_states t))).

Section provider.
(** [except SQLAlchemyError] *)
Context (is_sqlalchemy_error : exn -> bool).

(** [rows] is what the query gives. *)
Definition database_summary (rows : res (list row)) (generated_at : datetime) : res OverviewSummary.t :=
  generated_at ← require_aware generated_at "generated_at must be timezone-aware";
  match rows with
  | Err error =>
      if is_sqlalchemy_error error then
        _summary generated_at OverviewMode.DATABASE_UNAVAILABLE None None
          ["Database overview unavailable: " +:+ exn_type error]
      else Err error
  | Ok rows =>
      t ← tally_rows new_tally rows;
      _summary generated_at OverviewMode.DATABASE (Some (sections t)) (Some (totals t)) (tally_notes t)
  end.
End provider.

(** ** The query *)

Definition key_of (r : DomainRecord.t) : string * string := (DomainRecord.record_type r, DomainRecord.state r).

Definition of_key (k : string * string) (r : DomainRecord.t) : bool := bool_decide (key_of r = k).

Record grouped (rows : list row) (records : list DomainRecord.t) : Prop := {
  gr_keys : NoDup rows.*1;
  gr_covers : forall r, r ∈ records -> key_of r ∈ rows.*1;
  gr_counts : forall k c, (k, c) ∈ rows -> c = count_where (of_key k) records /\ 0 < c }.

Definition count_query (records : list DomainRecord.t) : list row :=
  (fun k => (k, count_where (of_key k) records)) <$> py_sorted id (remove_dups (key_of <$> records)).

(** ** Facts: the sections *)

(** A dictionary with an entry for each section. *)
Definition by_section {A} (f : string -> list string -> A) : gmap string A :=
  list_to_map ((fun s => (s.2.1, f s.1 s.2.2)) <$> _RECORD_SECTIONS).

Lemma lookup_first {A B} (key : A -> string) (f : A -> B) (l : list A) i :
  (list_to_map ((fun s => (key s, f s)) <$> l) : gmap string B) !! i =
  f <$> first_where (fun s => bool_decide (key s = i)) l.
Proof.
  induction l as [|s l IH]; [done|]. rewrite fmap_cons. cbn [list_to_map first_where fst snd foldr]. case_bool_decide as E.
  - subst i. by rewrite lookup_insert_eq.
  - by rewrite lookup_insert_ne, IH.
Qed.

Lemma record_section_elem ty sec ms : record_section ty = Some (sec, ms) <-> (ty, (sec, ms)) ∈ _RECORD_SECTIONS.
Proof.
  unfold record_section. split.
  - destruct (first_where _ _) as [[ty' [sec' ms']]|] eqn:E; [|done]. intros [= -> ->].
    apply first_where_Some in E as [Hi Hp]. apply bool_decide_eq_true in Hp. simpl in Hp. by subst ty'.
  - intros H. unfold _RECORD_SECTIONS in H. rewrite !elem_of_cons, elem_of_nil in H.
    by destruct H as [[= -> -> ->]|[[= -> -> ->]|[[= -> -> ->]|[[= -> -> ->]|[[= -> -> ->]|[[= -> -> ->]|[]]]]]]].
Qed.

Lemma lookup_by_section {A} (f : string -> list string -> A) ty sec ms :
  (ty, (sec, ms)) ∈ _RECORD_SECTIONS -> by_section f !! sec = Some (f ty ms).
Proof.
  intros H. unfold by_section. rewrite lookup_first. unfold _RECORD_SECTIONS in H. rewrite !elem_of_cons, elem_of_nil in H.
  by destruct H as [[= -> -> ->]|[[= -> -> ->]|[[= -> -> ->]|[[= -> -> ->]|[[= -> -> ->]|[[= -> -> ->]|[]]]]]]].
Qed.

Lemma by_section_dom {A} (f : string -> list string -> A) i a :
  by_section f !! i = Some a -> exists ty ms, (ty, (i, ms)) ∈ _RECORD_SECTIONS /\ a = f ty ms.
Proof.
  unfold by_section. rewrite lookup_first. destruct (first_where _ _) as [[ty [sec ms]]|] eqn:E; [|done].
  intros [= <-]. apply first_where_Some in E as [Hj Hp]. apply bool_decide_eq_true in Hp. simpl in Hp. subst sec.
  by exists ty, ms.
Qed.

Lemma by_section_ext {A} (f g : string -> list string -> A) :
  (forall ty sec ms, (ty, (sec, ms)) ∈ _RECORD_SECTIONS -> f ty ms = g ty ms) -> by_section f = by_section g.
Proof.
  intros H. unfold by_section. f_equal. apply list_fmap_ext. intros i [ty [sec ms]] Hi. simpl. f_equal.
  apply (H ty sec). by eapply list_elem_of_lookup_2.
Qed.

(** Only the entry of one type changes. *)
Lemma by_section_insert {A} (f g : string -> list string -> A) ty sec ms :
  (ty, (sec, ms)) ∈ _RECORD_SECTIONS -> (forall ty' ms', ty' <> ty -> g ty' ms' = f ty' ms') ->
  <[sec := g ty ms]> (by_section f) = by_section g.
Proof.
  intros Hin Hext. apply map_eq. intros i. destruct (decide (i = sec)) as [->|Hne].
  - by rewrite lookup_insert_eq, (lookup_by_section g ty sec ms).
  - rewrite lookup_insert_ne by done. unfold by_section. rewrite !lookup_first.
    destruct (first_where _ _) as [[ty' [sec' ms']]|] eqn:E; [|done]. simpl. f_equal. symmetry. apply Hext. intros ->.
    apply first_where_Some in E as [Hj Hp]. apply bool_decide_eq_true in Hp. simpl in Hp. subst sec'.
    apply record_section_elem in Hj. apply record_section_elem in Hin. congruence.
Qed.

(** ** Facts: what the loop adds up *)

Section expected.
(** The number of records whose type and state satisfy a predicate. *)
Context (n : (string * string -> bool) -> Z).

Definition of_type (ty : string) (k : string * string) : bool := bool_decide (k.1 = ty).
Definition unknown_of (ty : string) (ms : list string) (k : string * string) : bool :=
  of_type ty k && negb (bool_decide (k.2 ∈ ms)).
Definition ignored (k : string * string) : bool :=
  match record_section k.1 with None => true | Some _ => false end.

Definition total_of (ty : string) (_ : list string) : Z := n (of_type ty).

(** The states of a section, with an entry for the unknown ones when there are any. *)
Definition states_of (ty : string) (ms : list string) : gmap string Z :=
  let u := n (unknown_of ty ms) in
  list_to_map (((fun m => (m, n (fun k => bool_decide (k = (ty, m))))) <$> ms) ++
               if u =? 0 then [] else [("UNKNOWN", u)]).

Definition unknown_by_section : gmap string Z :=
  list_to_map (omap (fun s => let u := n (unknown_of s.1 s.2.2) in if u =? 0 then None else Some (s.2.1, u)) _RECORD_SECTIONS).

Lemma lookup_states_of ty ms st :
  "UNKNOWN" ∉ ms ->
  states_of ty ms !! st =
    if bool_decide (st ∈ ms) then Some (n (fun k => bool_decide (k = (ty, st))))
    else if bool_decide (st = "UNKNOWN") && negb (n (unknown_of ty ms) =? 0) then Some (n (unknown_of ty ms)) else None.
Proof.
  intros Hu. unfold states_of. cbv zeta. generalize (n (unknown_of ty ms)) as u. intros u.
  induction ms as [|m ms IH]; [simpl|rewrite fmap_cons; cbn [app]; rewrite list_to_map_cons].
  - destruct (u =? 0); simpl; [by rewrite andb_false_r|]. case_bool_decide as E.
    + subst. by rewrite lookup_insert_eq.
    + by rewrite lookup_insert_ne.
  - destruct (decide (m = st)) as [->|Hne].
    + rewrite lookup_insert_eq, bool_decide_eq_true_2 by set_solver. done.
    + rewrite lookup_insert_ne, IH by set_solver.
      assert (bool_decide (st ∈ m :: ms) = bool_decide (st ∈ ms)) as -> by (apply bool_decide_ext; set_solver). done.
Qed.

Lemma lookup_unknown_by_section ty sec ms :
  (ty, (sec, ms)) ∈ _RECORD_SECTIONS ->
  unknown_by_section !! sec = if n (unknown_of ty ms) =? 0 then None else Some (n (unknown_of ty ms)).
Proof.
  assert (forall l : list (string * (string * list string)), NoDup ((fun s => s.2.1) <$> l) -> (ty, (sec, ms)) ∈ l ->
    (list_to_map (omap (fun s => let u := n (unknown_of s.1 s.2.2) in if u =? 0 then None else Some (s.2.1, u)) l) : gmap string Z)
      !! sec = if n (unknown_of ty ms) =? 0 then None else Some (n (unknown_of ty ms))) as H.
  { intros l Hnd Hin. induction l as [|[ty' [sec' ms']] l IH]; [by apply elem_of_nil in Hin|].
    rewrite fmap_cons, NoDup_cons in Hnd. destruct Hnd as [Hn Hnd]. apply elem_of_cons in Hin as [[= <- <- <-]|Hin].
    - simpl. destruct (Z.eqb_spec (n (unknown_of ty ms)) 0) as [E|E]; simpl; [|by rewrite lookup_insert_eq].
      apply not_elem_of_list_to_map_1. intros Hk. apply Hn. apply list_elem_of_fmap in Hk as ([k u] & -> & Hk).
      apply list_elem_of_omap in Hk as (s & Hs & Hsome). destruct (_ =? 0); [done|]. injection Hsome as <- _.
      apply list_elem_of_fmap. by exists s.
    - assert (sec' <> sec) as Hne.
      { intros ->. apply Hn, list_elem_of_fmap. by exists (ty, (sec, ms)). }
      simpl. destruct (n (unknown_of ty' ms') =? 0); simpl; [by apply IH|]. rewrite lookup_insert_ne by done. by apply IH. }
  apply H. apply (bool_decide_unpack _). vm_compute. exact I.
Qed.

Lemma unknown_by_section_dom i u :
  unknown_by_section !! i = Some u -> exists ty ms, (ty, (i, ms)) ∈ _RECORD_SECTIONS.
Proof.
  unfold unknown_by_section. intros H%elem_of_list_to_map_2. apply list_elem_of_omap in H as ([ty [sec ms]] & Hin & Hs).
  simpl in Hs. destruct (_ =? 0); [done|]. injection Hs as -> _. by exists ty, ms.
Qed.
End expected.

Lemma section_members_known ty sec ms : (ty, (sec, ms)) ∈ _RECORD_SECTIONS -> "UNKNOWN" ∉ ms.
Proof.
  intros H. unfold _RECORD_SECTIONS in H. rewrite !elem_of_cons, elem_of_nil in H.
  destruct H as [[= -> -> ->]|[[= -> -> ->]|[[= -> -> ->]|[[= -> -> ->]|[[= -> -> ->]|[[= -> -> ->]|[]]]]]]];
    apply (bool_decide_unpack _); vm_compute; exact I.
Qed.

(** The sum over the rows. *)
Definition row_sum (rows : list row) (p : string * string -> bool) : Z :=
  foldr (fun r acc => (if p r.1 then r.2 else 0) + acc) 0 rows.

Lemma row_sum_snoc rows r p : row_sum (rows ++ [r]) p = row_sum rows p + (if p r.1 then r.2 else 0).
Proof. unfold row_sum. induction rows as [|r' rows IH]; simpl; [lia|]. rewrite IH. lia. Qed.

Lemma row_sum_nonneg rows p : Forall (fun r => 0 < r.2) rows -> 0 <= row_sum rows p.
Proof. induction 1 as [|r rows Hr _ IH]; simpl; [lia|]. destruct (p _); simpl in *; lia. Qed.

(** The local variables after some rows. *)
Record tally_ok (t : Tally) (rows : list row) : Prop := {
  tk_sections : sections t = by_section (states_of (row_sum rows));
  tk_totals : totals t = by_section (total_of (row_sum rows));
  tk_ignored : ignored_records t = row_sum rows ignored;
  tk_unknown : Forall (fun r => is_Some (record_section r.1.1) -> r.1.2 <> "UNKNOWN") rows -> unknown_states t = unknown_by_section (row_sum rows) }.

Lemma new_tally_ok : tally_ok new_tally [].
Proof.
  constructor; [| |done|done].
  - apply (by_section_ext (fun _ ms => _zero_counts ms)). intros ty sec ms _. unfold states_of, _zero_counts. simpl.
    by rewrite app_nil_r.
  - unfold new_tally, _empty_sections, by_section. cbn [totals].
    rewrite <- list_to_map_fmap, <- list_fmap_compose. done.
Qed.

Lemma row_sum_snoc_other rows r p : p r.1 = false -> row_sum (rows ++ [r]) p = row_sum rows p.
Proof. intros H. rewrite row_sum_snoc, H. lia. Qed.

Lemma row_sum_snoc_same rows r p : p r.1 = true -> row_sum (rows ++ [r]) p = row_sum rows p + r.2.
Proof. intros H. by rewrite row_sum_snoc, H. Qed.

(** A row of another type changes nothing in a section. *)
Lemma states_of_other rows ty st c ty' ms' :
  ty' <> ty -> states_of (row_sum (rows ++ [(ty, st, c)])) ty' ms' = states_of (row_sum rows) ty' ms'.
Proof.
  intros Hne. unfold states_of, unknown_of, of_type. cbv zeta.
  rewrite (row_sum_snoc_other _ _ (fun k => bool_decide (k.1 = ty') && _)) by (simpl; by rewrite bool_decide_eq_false_2).
  do 2 f_equal. apply list_fmap_ext. intros i m _. f_equal. apply row_sum_snoc_other. simpl.
  apply bool_decide_eq_false_2. intros [= E _]. done.
Qed.

Lemma total_of_other rows ty st c ty' ms' :
  ty' <> ty -> total_of (row_sum (rows ++ [(ty, st, c)])) ty' ms' = total_of (row_sum rows) ty' ms'.
Proof. intros Hne. apply row_sum_snoc_other. unfold of_type. simpl. by rewrite bool_decide_eq_false_2. Qed.

Lemma unknown_sum_snoc rows ty st c ms :
  row_sum (rows ++ [(ty, st, c)]) (unknown_of ty ms) =
  row_sum rows (unknown_of ty ms) + if bool_decide (st ∈ ms) then 0 else c.
Proof.
  rewrite row_sum_snoc. unfold unknown_of, of_type. simpl. rewrite (bool_decide_eq_true_2 (ty = ty)) by done. simpl.
  by destruct (bool_decide (st ∈ ms)).
Qed.

(** How a row of a section moves the section's own entry. *)
Lemma states_of_row rows ty sec ms st c :
  (ty, (sec, ms)) ∈ _RECORD_SECTIONS -> 0 < c -> Forall (fun r => 0 < r.2) rows ->
  let states := states_of (row_sum rows) ty ms in
  states_of (row_sum (rows ++ [(ty, st, c)])) ty ms =
  match states !! st with
  | Some n => <[st := n + c]> states
  | None => <["UNKNOWN" := default 0 (states !! "UNKNOWN") + c]> states
  end.
Proof.
  intros Hin Hc Hpos states. pose proof (section_members_known _ _ _ Hin) as Hu.
  pose proof (row_sum_nonneg rows (unknown_of ty ms) Hpos) as Hnn. pose proof (unknown_sum_snoc rows ty st c ms) as Hsum.
  assert (forall s, states !! s = _) as Hst by (intros s; exact (lookup_states_of (row_sum rows) ty ms s Hu)).
  assert (forall m, row_sum (rows ++ [(ty, st, c)]) (fun k => bool_decide (k = (ty, m))) =
    row_sum rows (fun k => bool_decide (k = (ty, m))) + if bool_decide (st = m) then c else 0) as Hm.
  { intros m. rewrite row_sum_snoc. simpl. f_equal.
    assert (bool_decide ((ty, st) = (ty, m)) = bool_decide (st = m)) as -> by (apply bool_decide_ext; split; congruence). done. }
  apply map_eq. intros s. rewrite lookup_states_of, Hm, Hsum by done. rewrite (Hst st).
  destruct (bool_decide (st ∈ ms)) eqn:Ein.
  - apply bool_decide_eq_true in Ein. rewrite Z.add_0_r. destruct (decide (st = s)) as [->|Hne].
    + rewrite lookup_insert_eq, !bool_decide_eq_true_2 by done. done.
    + rewrite lookup_insert_ne, Hst, (bool_decide_eq_false_2 (st = s)), Z.add_0_r by done. done.
  - apply bool_decide_eq_false in Ein.
    assert ((row_sum rows (unknown_of ty ms) + c =? 0) = false) as E0 by (apply Z.eqb_neq; lia).
    assert (states !! "UNKNOWN" = if row_sum rows (unknown_of ty ms) =? 0 then None else Some (row_sum rows (unknown_of ty ms))) as Hun.
    { rewrite Hst, (bool_decide_eq_false_2 ("UNKNOWN" ∈ ms)) by done. simpl. by destruct (_ =? 0). }
    assert (forall k x, "UNKNOWN" ∉ ms -> x = row_sum rows (unknown_of ty ms) + c -> k = "UNKNOWN" ->
      (if bool_decide (s ∈ ms) then Some (row_sum rows (fun k => bool_decide (k = (ty, s))) + (if bool_decide (st = s) then c else 0))
       else if bool_decide (s = "UNKNOWN") && negb (row_sum rows (unknown_of ty ms) + c =? 0)
            then Some (row_sum rows (unknown_of ty ms) + c) else None) = <[k := x]> states !! s) as Hins.
    { intros k x _ -> ->. rewrite E0. destruct (decide (s = "UNKNOWN")) as [->|Hne].
      - by rewrite lookup_insert_eq, bool_decide_eq_false_2, bool_decide_eq_true_2.
      - rewrite lookup_insert_ne, Hst, (bool_decide_eq_false_2 (s = "UNKNOWN")) by done. simpl.
        case_bool_decide; [|done]. rewrite (bool_decide_eq_false_2 (st = s)), Z.add_0_r by (by intros ->). done. }
    destruct (bool_decide (st = "UNKNOWN") && _) eqn:E; apply Hins; try done.
    + by apply andb_true_iff in E as [E%bool_decide_eq_true _].
    + rewrite Hun. by destruct (Z.eqb_spec (row_sum rows (unknown_of ty ms)) 0) as [->|].
Qed.

Lemma unknown_by_section_insert rows ty sec ms st c :
  (ty, (sec, ms)) ∈ _RECORD_SECTIONS -> st ∉ ms -> 0 < c -> Forall (fun r => 0 < r.2) rows ->
  unknown_by_section (row_sum (rows ++ [(ty, st, c)])) =
  <[sec := default 0 (unknown_by_section (row_sum rows) !! sec) + c]> (unknown_by_section (row_sum rows)).
Proof.
  intros Hin Hst Hc Hpos. apply map_eq. intros i. pose proof (row_sum_nonneg rows (unknown_of ty ms) Hpos) as Hnn.
  destruct (decide (i = sec)) as [->|Hne].
  - rewrite lookup_insert_eq, !(lookup_unknown_by_section _ ty sec ms), unknown_sum_snoc, bool_decide_eq_false_2 by done.
    rewrite (proj2 (Z.eqb_neq _ 0)) by lia. by destruct (Z.eqb_spec (row_sum rows (unknown_of ty ms)) 0) as [->|].
  - rewrite lookup_insert_ne by done.
    assert (forall ty' ms', (ty', (i, ms')) ∈ _RECORD_SECTIONS ->
      unknown_by_section (row_sum (rows ++ [(ty, st, c)])) !! i = unknown_by_section (row_sum rows) !! i) as H.
    { intros ty' ms' Hin'. rewrite !(lookup_unknown_by_section _ ty' i ms') by done. rewrite row_sum_snoc_other; [done|].
      unfold unknown_of, of_type. simpl. rewrite bool_decide_eq_false_2; [done|]. intros <-.
      apply record_section_elem in Hin, Hin'. congruence. }
    destruct (unknown_by_section (row_sum (rows ++ [(ty, st, c)])) !! i) as [u|] eqn:E.
    + destruct (unknown_by_section_dom _ _ _ E) as (ty' & ms' & Hin'). pose proof (H ty' ms' Hin'). congruence.
    + destruct (unknown_by_section (row_sum rows) !! i) as [u|] eqn:E'; [|done].
      destruct (unknown_by_section_dom _ _ _ E') as (ty' & ms' & Hin'). pose proof (H ty' ms' Hin'). congruence.
Qed.

Lemma unknown_by_section_same rows r :
  (forall ty sec ms, (ty, (sec, ms)) ∈ _RECORD_SECTIONS -> unknown_of ty ms r.1 = false) ->
  unknown_by_section (row_sum (rows ++ [r])) = unknown_by_section (row_sum rows).
Proof.
  intros H. unfold unknown_by_section. f_equal. apply list_omap_ext.
  assert (Forall (fun s => (s.1, s.2) ∈ _RECORD_SECTIONS) _RECORD_SECTIONS) as Hall by (apply Forall_forall; by intros []).
  induction Hall as [|[ty [sec ms]] l Hin _ IH]; constructor; [|exact IH].
  simpl. by rewrite (row_sum_snoc_other rows r (unknown_of ty ms)) by (by eapply H).
Qed.

Lemma tally_row_ok t rows r :
  tally_ok t rows -> 0 < r.2 -> Forall (fun r => 0 < r.2) rows ->
  exists t', tally_row t r = Ok t' /\ tally_ok t' (rows ++ [r]).
Proof.
  intros [Hs Ht Hi Hu] Hc Hpos. destruct r as [[ty st] c]. simpl in Hc. unfold tally_row.
  destruct (record_section ty) as [[sec ms]|] eqn:E.
  - apply record_section_elem in E as Hin. rewrite Hs, Ht. unfold dict_item.
    rewrite !(lookup_by_section _ ty sec ms) by done. bind_ok. cbv zeta.
    pose proof (states_of_row rows ty sec ms st c Hin Hc Hpos) as Hrow. cbv zeta in Hrow.
    assert (<[sec := total_of (row_sum rows) ty ms + c]> (by_section (total_of (row_sum rows))) =
      by_section (total_of (row_sum (rows ++ [(ty, st, c)])))) as Htot.
    { rewrite <- (by_section_insert (total_of (row_sum rows)) (total_of (row_sum (rows ++ [(ty, st, c)]))) ty sec ms Hin)
        by (intros ty' ms' Hne; by apply total_of_other).
      f_equal. symmetry. apply row_sum_snoc_same. unfold of_type. by apply bool_decide_eq_true_2. }
    assert (forall v, states_of (row_sum (rows ++ [(ty, st, c)])) ty ms = v ->
      <[sec := v]> (by_section (states_of (row_sum rows))) = by_section (states_of (row_sum (rows ++ [(ty, st, c)])))) as Hsec.
    { intros v <-. apply by_section_insert; [done|]. intros. by apply states_of_other. }
    assert (row_sum (rows ++ [(ty, st, c)]) ignored = row_sum rows ignored) as Hig
      by (apply row_sum_snoc_other; unfold ignored; simpl; by rewrite E).
    pose proof (lookup_states_of (row_sum rows) ty ms st (section_members_known _ _ _ Hin)) as Hl.
    revert Hrow Hl. destruct (states_of (row_sum rows) ty ms !! st) as [n|]; intros Hrow Hl; eexists; (split; [reflexivity|]); constructor;
      cbn [sections totals ignored_records unknown_states]; try (by apply Hsec); try done; try congruence.
    + intros [Hr Hx]%Forall_app. rewrite Forall_singleton in Hx. specialize (Hx ltac:(by eexists)). simpl in Hx. rewrite Hu by done. symmetry.
      apply unknown_by_section_same. intros ty' sec' ms' Hin'. unfold unknown_of, of_type. simpl.
      destruct (decide (ty = ty')) as [<-|Hne]; [|by rewrite bool_decide_eq_false_2].
      apply record_section_elem in Hin'. assert (ms' = ms) as -> by congruence. rewrite bool_decide_eq_true_2 by done. simpl.
      destruct (bool_decide (st ∈ ms)) eqn:Em; [done|]. rewrite (bool_decide_eq_false_2 (st = "UNKNOWN")) in Hl by done. done.
    + intros [Hr Hx]%Forall_app. rewrite Hu by done. symmetry. apply (unknown_by_section_insert rows ty sec ms); try done.
      intros Hm. by rewrite bool_decide_eq_true_2 in Hl.
  - eexists. split; [reflexivity|].
    assert (forall ty' sec ms, (ty', (sec, ms)) ∈ _RECORD_SECTIONS -> ty' <> ty) as Hne.
    { intros ty' sec ms Hin ->. apply record_section_elem in Hin. congruence. }
    constructor; cbn [sections totals ignored_records unknown_states].
    + rewrite Hs. apply by_section_ext. intros ty' sec ms Hin. symmetry. apply states_of_other. by eapply Hne.
    + rewrite Ht. apply by_section_ext. intros ty' sec ms Hin. symmetry. apply total_of_other. by eapply Hne.
    + rewrite row_sum_snoc_same, Hi; [done|]. unfold ignored. simpl. by rewrite E.
    + intros [Hr _]%Forall_app. rewrite Hu by done. symmetry. apply unknown_by_section_same.
      intros ty' sec ms Hin. unfold unknown_of, of_type. simpl. rewrite bool_decide_eq_false_2; [done|].
      intros <-. by eapply Hne.
Qed.

Lemma tally_rows_ok rows :
  Forall (fun r => 0 < r.2) rows -> exists t, tally_rows new_tally rows = Ok t /\ tally_ok t rows.
Proof.
  intros Hpos.
  assert (forall t before, tally_ok t before -> Forall (fun r => 0 < r.2) before ->
    exists t', tally_rows t rows = Ok t' /\ tally_ok t' (before ++ rows)) as H.
  { induction Hpos as [|r rows Hr _ IH]; intros t before Ht Hb; [exists t; by rewrite app_nil_r|]. simpl.
    destruct (tally_row_ok t before r Ht Hr Hb) as (t1 & -> & H1). bind_ok.
    destruct (IH t1 (before ++ [r]) H1) as (t2 & E & H2); [apply Forall_app; by split; [|constructor]|].
    exists t2. rewrite <- app_assoc in H2. by split. }
  apply (H new_tally [] new_tally_ok). constructor.
Qed.

(** ** Facts: the rows and the records *)

(** The sum over the groups is the number of the records. *)
Lemma grouped_sum rows records p :
  grouped rows records -> row_sum rows p = count_where (fun r => p (key_of r)) records.
Proof.
  intros [Hnd Hcov Hcount].
  assert (forall (ks : list (string * string)) rs, NoDup ks -> (forall r, r ∈ rs -> key_of r ∈ ks) ->
    foldr (fun k acc => (if p k then count_where (of_key k) rs else 0) + acc) 0 ks = count_where (fun r => p (key_of r)) rs) as Hsum.
  { clear. intros ks rs Hnd. induction rs as [|r rs IH]; intros Hcov.
    - unfold count_where. simpl. induction ks as [|k ks IHk]; [done|]. apply NoDup_cons in Hnd as [_ Hnd]. simpl in *.
      rewrite IHk by (done || intros; by apply elem_of_nil in H). by destruct (p k).
    - assert (forall l : list (string * string), NoDup l ->
        foldr (fun k acc => (if p k then count_where (of_key k) (r :: rs) else 0) + acc) 0 l =
        foldr (fun k acc => (if p k then count_where (of_key k) rs else 0) + acc) 0 l +
        if bool_decide (key_of r ∈ l) && p (key_of r) then 1 else 0) as Hl.
      { induction l as [|k l IHl]; intros Hl; [done|]. apply NoDup_cons in Hl as [Hn Hl]. simpl. rewrite IHl by done.
        unfold count_where, of_key. simpl. destruct (decide (key_of r = k)) as [<-|Hne].
        - rewrite (bool_decide_eq_true_2 (key_of r = key_of r)) by done.
          rewrite (bool_decide_eq_false_2 (key_of r ∈ l)), (bool_decide_eq_true_2 (key_of r ∈ key_of r :: l)) by set_solver.
          simpl. destruct (p (key_of r)); lia.
        - rewrite (bool_decide_eq_false_2 (key_of r = k)) by done.
          assert (bool_decide (key_of r ∈ k :: l) = bool_decide (key_of r ∈ l)) as -> by (apply bool_decide_ext; set_solver). lia. }
      rewrite Hl, IH by (done || intros; apply Hcov; set_solver).
      rewrite bool_decide_eq_true_2 by (apply Hcov; set_solver). unfold count_where. simpl. destruct (p (key_of r)); simpl; lia. }
  rewrite <- (Hsum rows.*1 records Hnd Hcov). unfold row_sum. clear Hsum Hnd Hcov.
  induction rows as [|[k c] rows IH]; [done|]. simpl. rewrite IH by (intros; apply Hcount; set_solver).
  destruct (Hcount k c ltac:(set_solver)) as [-> _]. done.
Qed.

Lemma grouped_positive rows records : grouped rows records -> Forall (fun r => 0 < r.2) rows.
Proof. intros [_ _ H]. apply Forall_forall. intros [k c] Hin. by apply H in Hin as [_ ?]. Qed.

Lemma count_query_grouped records : grouped (count_query records) records.
Proof.
  assert ((count_query records).*1 = py_sorted id (remove_dups (key_of <$> records))) as Ek.
  { unfold count_query. rewrite <- list_fmap_compose. apply list_fmap_id. }
  constructor; rewrite ?Ek.
  - rewrite py_sorted_perm. apply NoDup_remove_dups.
  - intros r Hr. rewrite py_sorted_perm, elem_of_remove_dups. apply list_elem_of_fmap. by exists r.
  - unfold count_query. intros k c (k' & [= -> ->] & Hk)%list_elem_of_fmap. split; [done|].
    rewrite py_sorted_perm, elem_of_remove_dups in Hk. apply list_elem_of_fmap in Hk as (r & -> & Hr). unfold count_where.
    assert (r ∈ List.filter (of_key (key_of r)) records) as Hin.
    { apply list_elem_of_In, filter_In. split; [by apply list_elem_of_In|]. by apply bool_decide_eq_true_2. }
    destruct (List.filter _ _); [by apply elem_of_nil in Hin|]. simpl. lia.
Qed.

(** ** Facts: the summary *)

(** How many records have a type and state that satisfy a predicate. *)
Definition record_number (records : list DomainRecord.t) (p : string * string -> bool) : Z :=
  count_where (fun r => p (key_of r)) records.

Lemma states_of_ext n n' ty ms : (forall p, n p = n' p) -> states_of n ty ms = states_of n' ty ms.
Proof.
  intros H. unfold states_of. cbv zeta. rewrite H. do 2 f_equal. apply list_fmap_ext. intros i m _. by rewrite H.
Qed.

Lemma unknown_by_section_ext n n' : (forall p, n p = n' p) -> unknown_by_section n = unknown_by_section n'.
Proof.
  intros H. unfold unknown_by_section. f_equal. apply list_omap_ext. induction _RECORD_SECTIONS as [|s l IH]; constructor; [|done].
  simpl. by rewrite H.
Qed.

Definition expected_notes (records : list DomainRecord.t) : list string :=
  let n := record_number records in
  (if forallb (fun s => n (of_type s.1) =? 0) _RECORD_SECTIONS then ["No dashboard records are stored."] else []) ++
  (if n ignored =? 0 then [] else ["Ignored " +:+ int_str (n ignored) +:+ " non-dashboard records."]) ++
  ((fun u => u.1 +:+ " contains " +:+ int_str u.2 +:+ " records with unknown states.") <$>
     py_sorted fst (map_to_list (unknown_by_section n))).

(** No record of a dashboard type calls its own state unknown. *)
Definition states_named (records : list DomainRecord.t) : Prop :=
  Forall (fun r => is_Some (record_section (DomainRecord.record_type r)) -> DomainRecord.state r <> "UNKNOWN") records.

Lemma totals_zero n :
  bool_decide (map_Forall (fun _ z => z = 0) (by_section (total_of n))) = forallb (fun s => n (of_type s.1) =? 0) _RECORD_SECTIONS.
Proof.
  apply eq_true_iff_eq. rewrite bool_decide_eq_true, forallb_forall. split.
  - intros H [ty [sec ms]] Hin%list_elem_of_In. apply Z.eqb_eq. by apply (H sec), (lookup_by_section (total_of n) ty sec ms).
  - intros H sec z Hz. apply by_section_dom in Hz as (ty & ms & Hin & ->). apply list_elem_of_In, H in Hin. by apply Z.eqb_eq in Hin.
Qed.

(** The section of a summary under a name. *)
Definition summary_section (s : OverviewSummary.t) (name : string) : option (gmap string Z) :=
  list_to_map (M := gmap string (gmap string Z))
    [("watchlist", OverviewSummary.watchlist s); ("setups", OverviewSummary.setups s); ("flow", OverviewSummary.flow s);
     ("plans", OverviewSummary.plans s); ("lifecycle", OverviewSummary.lifecycle s);
     ("deliveries", OverviewSummary.deliveries s)] !! name.

Lemma database_summary_Ok is_error rows records t :
  grouped rows records ->
  exists s, database_summary is_error (Ok rows) (AwareDT t) = Ok s /\
    OverviewSummary.generated_at s = t /\ OverviewSummary.mode s = OverviewMode.DATABASE /\
    OverviewSummary.totals s = by_section (total_of (record_number records)) /\
    (forall ty sec ms, (ty, (sec, ms)) ∈ _RECORD_SECTIONS ->
       summary_section s sec = Some (states_of (record_number records) ty ms)) /\
    (states_named records -> OverviewSummary.notes s = expected_notes records).
Proof.
  intros Hg. assert (forall p, row_sum rows p = record_number records p) as Hn by (intros p; by apply grouped_sum).
  destruct (tally_rows_ok rows (grouped_positive _ _ Hg)) as (tl & Htl & [Hs Ht Hi Hu]).
  assert (by_section (states_of (row_sum rows)) = by_section (states_of (record_number records))) as Es
    by (apply by_section_ext; intros; by apply states_of_ext).
  assert (by_section (total_of (row_sum rows)) = by_section (total_of (record_number records))) as Et
    by (apply by_section_ext; intros; apply Hn).
  rewrite Es in Hs. rewrite Et in Ht. unfold database_summary. cbn [require_aware]. bind_ok. rewrite Htl. bind_ok.
  unfold _summary. rewrite Hs, Ht. cbv zeta. unfold or_dict.
  rewrite !bool_decide_eq_false_2 by (intros E; apply (f_equal (lookup "flow")) in E; discriminate E).
  unfold dict_item.
  rewrite (lookup_by_section _ "watchlist" "watchlist" stage_members), (lookup_by_section _ "setup" "setups" label_members),
    (lookup_by_section _ "flow" "flow" flow_members), (lookup_by_section _ "plan" "plans" plan_members),
    (lookup_by_section _ "lifecycle" "lifecycle" lifecycle_members),
    (lookup_by_section _ "delivery" "deliveries" delivery_members) by (apply record_section_elem; reflexivity).
  bind_ok. eexists. split; [reflexivity|]. split; [done|]. split; [done|]. split; [done|]. split.
  - intros ty sec ms Hin. unfold _RECORD_SECTIONS in Hin. rewrite !elem_of_cons, elem_of_nil in Hin.
    by destruct Hin as [[= -> -> ->]|[[= -> -> ->]|[[= -> -> ->]|[[= -> -> ->]|[[= -> -> ->]|[[= -> -> ->]|[]]]]]]].
  - intros Hk. cbn [OverviewSummary.notes]. unfold tally_notes, expected_notes. cbv zeta.
    rewrite Ht, totals_zero, Hi, Hn, Hu, (unknown_by_section_ext _ _ Hn); [done|].
    destruct Hg as [_ _ Hc]. apply Forall_forall. intros [[ty st] c] Hr Hsome Hst. simpl in *. subst st.
    apply Hc in Hr as [-> Hpos]. unfold count_where in Hpos.
    destruct (List.filter (of_key (ty, "UNKNOWN")) records) as [|r l] eqn:E; [simpl in Hpos; lia|].
    assert (r ∈ List.filter (of_key (ty, "UNKNOWN")) records) as Hin by (rewrite E; apply list_elem_of_here).
    apply list_elem_of_In, filter_In in Hin as [Hin Hkey]. apply list_elem_of_In in Hin.
    unfold of_key, key_of in Hkey. apply bool_decide_eq_true in Hkey. injection Hkey as <- Hst.
    unfold states_named in Hk. rewrite Forall_forall in Hk. by apply (Hk r).
Qed.

(** *** Objects and their records *)

(** The records of a type have the states [values], in any order. *)
Definition stored_states (records : list DomainRecord.t) (ty : string) (values : list string) : Prop :=
  (DomainRecord.state <$> List.filter (fun r => bool_decide (DomainRecord.record_type r = ty)) records) ≡ₚ values.

Record overview_stored (d : OverviewData.t) (records : list DomainRecord.t) : Prop := {
  os_watchlist : stored_states records "watchlist" (stages d);
  os_setups : stored_states records "setup" (labels d);
  os_flow : stored_states records "flow" (flow_statuses d);
  os_plans : stored_states records "plan" (plan_statuses d);
  os_lifecycle : stored_states records "lifecycle" (lifecycle_states d);
  os_deliveries : stored_states records "delivery" (delivery_statuses d) }.

Lemma count_of_type records ty p :
  count_where (fun r => bool_decide (DomainRecord.record_type r = ty) && p (DomainRecord.state r)) records =
  count_where p (DomainRecord.state <$> List.filter (fun r => bool_decide (DomainRecord.record_type r = ty)) records).
Proof.
  rewrite count_where_fmap. unfold count_where. f_equal.
  induction records as [|r records IH]; [done|]. simpl. destruct (bool_decide _); simpl; [|done].
  destruct (p _); simpl; by rewrite IH.
Qed.

(** A section of stored objects is the count of the objects. *)
Lemma stored_counts records ty ms values :
  stored_states records ty values -> "UNKNOWN" ∉ ms -> Forall (fun v => v ∈ ms) values ->
  states_of (record_number records) ty ms = _counts ms values /\
  total_of (record_number records) ty ms = len values /\ record_number records (unknown_of ty ms) = 0.
Proof.
  intros Hst Hu Hv. unfold stored_states in Hst.
  assert (forall p, record_number records (fun k => bool_decide (k.1 = ty) && p k.2) = count_where p values) as Hc.
  { intros p. unfold record_number, key_of. simpl. rewrite count_of_type. by apply count_where_perm. }
  assert (record_number records (unknown_of ty ms) = 0) as H0.
  { transitivity (count_where (fun s => negb (bool_decide (s ∈ ms))) values); [by rewrite <- Hc|]. apply count_where_none.
    eapply Forall_impl; [exact Hv|]. intros v Hin. by rewrite bool_decide_eq_true_2. }
  split_and!; [|unfold total_of|done].
  - unfold states_of, _counts. cbv zeta. rewrite H0, app_nil_r. f_equal. apply list_fmap_ext. intros i m _. f_equal.
    rewrite <- (Hc (fun v => bool_decide (v = m))). unfold record_number. apply count_where_ext. intros r.
    destruct (key_of r) as [a b]. simpl. rewrite <- bool_decide_and. apply bool_decide_ext. split; [by intros [= -> ->]|by intros [-> ->]].
  - unfold len. rewrite <- (count_where_all (fun _ => true) values) by (by apply Forall_true). rewrite <- (Hc (fun _ => true)).
    unfold record_number. apply count_where_ext. intros r. unfold of_type. by rewrite andb_true_r.
Qed.

(** A member of the enumeration is one of its values. *)
Lemma member_states {A} (value : A -> string) (members : list A) (l : list A) :
  (forall a, a ∈ members) -> Forall (fun v => v ∈ value <$> members) (value <$> l).
Proof. intros H. apply Forall_fmap, Forall_true. intros a. by apply list_elem_of_fmap_2. Qed.

(** A section of one tuple of objects. *)
Lemma stored_section {A B} (value : A -> string) (members : list A) (state : B -> A) (l : list B) records ty sec :
  (ty, (sec, value <$> members)) ∈ _RECORD_SECTIONS -> (forall a, a ∈ members) ->
  stored_states records ty ((fun x => value (state x)) <$> l) ->
  states_of (record_number records) ty (value <$> members) = _counts (value <$> members) ((fun x => value (state x)) <$> l) /\
  total_of (record_number records) ty (value <$> members) = len l /\
  record_number records (unknown_of ty (value <$> members)) = 0.
Proof.
  intros Hin Hm Hst. unfold len. rewrite <- (length_fmap (fun x => value (state x)) l). apply stored_counts; [done| |].
  - by eapply section_members_known.
  - apply Forall_fmap, Forall_true. intros x. apply list_elem_of_fmap. by exists (state x).
Qed.

(** The two summaries have the same totals and the same six sections. *)
Definition same_counts (a b : OverviewSummary.t) : Prop :=
  OverviewSummary.totals a = OverviewSummary.totals b /\
  forall ty sec ms, (ty, (sec, ms)) ∈ _RECORD_SECTIONS -> summary_section a sec = summary_section b sec.

Ltac in_sections := apply record_section_elem; reflexivity.
Ltac all_members := intros []; apply (bool_decide_unpack _); vm_compute; exact I.

Lemma stored_overview_counts d records t s b :
  overview_stored d records -> build_overview d (AwareDT t) = Ok b ->
  OverviewSummary.totals s = by_section (total_of (record_number records)) ->
  (forall ty sec ms, (ty, (sec, ms)) ∈ _RECORD_SECTIONS ->
     summary_section s sec = Some (states_of (record_number records) ty ms)) ->
  same_counts s b /\ forall ty sec ms, (ty, (sec, ms)) ∈ _RECORD_SECTIONS -> record_number records (unknown_of ty ms) = 0.
Proof.
  intros [Hw Hs Hf Hp Hl Hd] [= <-] Ht Hsec.
  destruct (stored_section WatchStage.value WatchStage.members _ _ records "watchlist" "watchlist" ltac:(in_sections) ltac:(all_members) Hw) as (Ew & Tw & Uw).
  destruct (stored_section SetupLabel.value SetupLabel.members _ _ records "setup" "setups" ltac:(in_sections) ltac:(all_members) Hs) as (Es & Ts & Us).
  destruct (stored_section FlowStatus.value FlowStatus.members _ _ records "flow" "flow" ltac:(in_sections) ltac:(all_members) Hf) as (Ef & Tf & Uf).
  destruct (stored_section PlanStatus.value PlanStatus.members _ _ records "plan" "plans" ltac:(in_sections) ltac:(all_members) Hp) as (Ep & Tp & Up).
  destruct (stored_section LifecycleState.value LifecycleState.members _ _ records "lifecycle" "lifecycle" ltac:(in_sections) ltac:(all_members) Hl) as (El & Tl & Ul).
  destruct (stored_section DeliveryStatus.value DeliveryStatus.members _ _ records "delivery" "deliveries" ltac:(in_sections) ltac:(all_members) Hd) as (Ed & Td & Ud).
  split; [split|].
  - rewrite Ht. cbn [OverviewSummary.totals]. unfold by_section, _RECORD_SECTIONS. rewrite !fmap_cons. cbn [fst snd].
    unfold stage_members, label_members, flow_members, plan_members, lifecycle_members, delivery_members.
    by rewrite Tw, Ts, Tf, Tp, Tl, Td.
  - intros ty sec ms Hin. rewrite (Hsec ty sec ms Hin). unfold _RECORD_SECTIONS in Hin. rewrite !elem_of_cons, elem_of_nil in Hin.
    destruct Hin as [[= -> -> ->]|[[= -> -> ->]|[[= -> -> ->]|[[= -> -> ->]|[[= -> -> ->]|[[= -> -> ->]|[]]]]]]];
      [exact (f_equal Some Ew)|exact (f_equal Some Es)|exact (f_equal Some Ef)|exact (f_equal Some Ep)|exact (f_equal Some El)|exact (f_equal Some Ed)].
  - intros ty sec ms Hin. unfold _RECORD_SECTIONS in Hin. rewrite !elem_of_cons, elem_of_nil in Hin.
    by destruct Hin as [[= -> -> ->]|[[= -> -> ->]|[[= -> -> ->]|[[= -> -> ->]|[[= -> -> ->]|[[= -> -> ->]|[]]]]]]].
Qed.

Lemma no_unknown_sections n :
  (forall ty sec ms, (ty, (sec, ms)) ∈ _RECORD_SECTIONS -> n (unknown_of ty ms) = 0) -> unknown_by_section n = ∅.
Proof.
  intros H. apply map_empty. intros i. destruct (unknown_by_section n !! i) as [u|] eqn:E; [|done].
  destruct (unknown_by_section_dom _ _ _ E) as (ty & ms & Hin).
  by rewrite (lookup_unknown_by_section n ty i ms Hin), (H ty i ms Hin) in E.
Qed.

Lemma record_number_zero records p r : record_number records p = 0 -> r ∈ records -> p (key_of r) = false.
Proof.
  unfold record_number, count_where. intros H Hin. destruct (p (key_of r)) eqn:E; [|done].
  assert (r ∈ List.filter (fun r => p (key_of r)) records) as Hf
    by (apply list_elem_of_In, filter_In; split; [by apply list_elem_of_In|done]).
  destruct (List.filter _ _); [by apply elem_of_nil in Hf|simpl in H; lia].
Qed.

Lemma no_unknown_named records :
  (forall ty sec ms, (ty, (sec, ms)) ∈ _RECORD_SECTIONS -> record_number records (unknown_of ty ms) = 0) ->
  states_named records.
Proof.
  intros H. apply Forall_forall. intros r Hr [[sec ms] Hsec] Hst. apply record_section_elem in Hsec.
  pose proof (record_number_zero _ _ _ (H _ _ _ Hsec) Hr) as Hz. unfold unknown_of, of_type, key_of in Hz. simpl in Hz.
  rewrite bool_decide_eq_true_2, Hst, bool_decide_eq_false_2 in Hz by (done || by eapply section_members_known). done.
Qed.

(** A record is of the type of one section, or of none. *)
Lemma one_section k :
  foldr (fun s acc => (if of_type s.1 k then 1 else 0) + acc) 0 _RECORD_SECTIONS + (if ignored k then 1 else 0) = 1.
Proof.
  unfold ignored, record_section, of_type, _RECORD_SECTIONS. cbn [foldr first_where fst snd]. destruct k as [ty st]. cbn [fst].
  destruct (decide ("watchlist" = ty)) as [<-|?]; [reflexivity|]. destruct (decide ("setup" = ty)) as [<-|?]; [reflexivity|].
  destruct (decide ("flow" = ty)) as [<-|?]; [reflexivity|]. destruct (decide ("plan" = ty)) as [<-|?]; [reflexivity|].
  destruct (decide ("lifecycle" = ty)) as [<-|?]; [reflexivity|]. destruct (decide ("delivery" = ty)) as [<-|?]; [reflexivity|].
  by rewrite !bool_decide_eq_false_2 by congruence.
Qed.

Lemma sections_partition records :
  foldr (fun s acc => record_number records (of_type s.1) + acc) 0 _RECORD_SECTIONS + record_number records ignored = len records.
Proof.
  unfold len. induction records as [|r records IH]; [reflexivity|]. pose proof (one_section (key_of r)) as H1.
  rewrite length_cons. revert H1 IH. unfold record_number. rewrite (count_where_cons _ r records).
  assert (forall ss : list (string * (string * list string)),
    foldr (fun s acc => count_where (fun r => of_type s.1 (key_of r)) (r :: records) + acc) 0 ss =
    foldr (fun s acc => (if of_type s.1 (key_of r) then 1 else 0) + acc) 0 ss +
    foldr (fun s acc => count_where (fun r => of_type s.1 (key_of r)) records + acc) 0 ss) as ->.
  { induction ss as [|s ss IH]; [done|]. cbn [foldr]. rewrite IH, count_where_cons. lia. }
  lia.
Qed.

(** ** The properties *)

(** For the rows of the query the summary of the stored records is exact.  It has
    the mode DATABASE; the total of a section is the number of the records of its type,
    whatever their state; a state the section knows has the number of its records, the
    records of the type in any other state are under UNKNOWN (which is there only when
    there are some), and no other state is listed; and the totals and the records that
    have no section add up to all the records.  Where no record calls its own state
    UNKNOWN, the notes say that nothing is stored, how many records were ignored, and how
    many are under UNKNOWN in which section, each exactly when there is something to say. *)
Theorem overview_summary_exact is_error rows records t :
  grouped rows records ->
  exists s, database_summary is_error (Ok rows) (AwareDT t) = Ok s /\
    OverviewSummary.generated_at s = t /\ OverviewSummary.mode s = OverviewMode.DATABASE /\
    (forall ty sec ms, (ty, (sec, ms)) ∈ _RECORD_SECTIONS ->
       let others := record_number records (unknown_of ty ms) in
       OverviewSummary.totals s !! sec = Some (record_number records (of_type ty)) /\
       exists states, summary_section s sec = Some states /\
         forall st, states !! st =
           if bool_decide (st ∈ ms) then Some (record_number records (fun k => bool_decide (k = (ty, st))))
           else if bool_decide (st = "UNKNOWN") && negb (others =? 0) then Some others else None) /\
    foldr (fun s acc => record_number records (of_type s.1) + acc) 0 _RECORD_SECTIONS + record_number records ignored =
      len records /\
    (states_named records -> OverviewSummary.notes s = expected_notes records).
Proof.
  intros Hg. destruct (database_summary_Ok is_error rows records t Hg) as (s & E & Ht & Hm & Htot & Hsec & Hn).
  exists s. do 3 (split; [done|]). split; [|split; [|done]].
  - intros ty sec ms Hin. cbv zeta. split; [by rewrite Htot, (lookup_by_section _ ty sec ms)|].
    eexists. split; [by apply Hsec|]. intros st. apply lookup_states_of. by eapply section_members_known.
  - clear. apply sections_partition.
Qed.

(** C27: the two overviews agree.  Where the records of the six types are those of the
    objects of [data] (one record for an object, with its state, in any order, among any
    records of other types), the summary of the records has the totals and the six
    sections that [build_overview] counts in memory, and its notes say only that nothing
    is stored or how many records of other types there are. *)
Theorem overviews_agree is_error rows records data t :
  grouped rows records -> overview_stored data records ->
  exists s b, database_summary is_error (Ok rows) (AwareDT t) = Ok s /\ build_overview data (AwareDT t) = Ok b /\
    OverviewSummary.mode s = OverviewMode.DATABASE /\ OverviewSummary.mode b = OverviewData.mode data /\
    same_counts s b /\
    OverviewSummary.notes s =
      (if forallb (fun s => record_number records (of_type s.1) =? 0) _RECORD_SECTIONS
       then ["No dashboard records are stored."] else []) ++
      (if record_number records ignored =? 0 then []
       else ["Ignored " +:+ int_str (record_number records ignored) +:+ " non-dashboard records."]).
Proof.
  intros Hg Hst. destruct (database_summary_Ok is_error rows records t Hg) as (s & E & _ & Hm & Htot & Hsec & Hn).
  exists s. eexists. split; [done|]. split; [reflexivity|]. split; [done|]. split; [done|].
  destruct (stored_overview_counts data records t s _ Hst eq_refl Htot Hsec) as [Hsame Hu]. split; [exact Hsame|].
  rewrite Hn by (by apply no_unknown_named). unfold expected_notes. cbv zeta.
  by rewrite (no_unknown_sections _ Hu), map_to_list_empty, app_nil_r.
Qed.

(** A database that cannot be reached: zeros everywhere and the name of the error. *)
Lemma database_summary_unavailable is_error e t :
  is_error e = true ->
  exists s, database_summary is_error (Err e) (AwareDT t) = Ok s /\
    OverviewSummary.generated_at s = t /\ OverviewSummary.mode s = OverviewMode.DATABASE_UNAVAILABLE /\
    OverviewSummary.totals s = by_section (fun _ _ => 0) /\
    (forall ty sec ms, (ty, (sec, ms)) ∈ _RECORD_SECTIONS -> summary_section s sec = Some (_zero_counts ms)) /\
    OverviewSummary.notes s = ["Database overview unavailable: " +:+ exn_type e].
Proof.
  intros He. unfold database_summary. cbn [require_aware]. bind_ok. rewrite He. unfold _summary, or_dict. cbv zeta.
  change _empty_sections with (by_section (fun _ ms => _zero_counts ms)). unfold dict_item.
  rewrite (lookup_by_section _ "watchlist" "watchlist" stage_members), (lookup_by_section _ "setup" "setups" label_members),
    (lookup_by_section _ "flow" "flow" flow_members), (lookup_by_section _ "plan" "plans" plan_members),
    (lookup_by_section _ "lifecycle" "lifecycle" lifecycle_members),
    (lookup_by_section _ "delivery" "deliveries" delivery_members) by in_sections.
  bind_ok. eexists. split; [reflexivity|]. do 2 (split; [done|]). split; [|split; [|done]].
  - cbn [OverviewSummary.totals]. unfold by_section. by rewrite <- list_to_map_fmap.
  - intros ty sec ms Hin. unfold _RECORD_SECTIONS in Hin. rewrite !elem_of_cons, elem_of_nil in Hin.
    by destruct Hin as [[= -> -> ->]|[[= -> -> ->]|[[= -> -> ->]|[[= -> -> ->]|[[= -> -> ->]|[[= -> -> ->]|[]]]]]]].
Qed.

Lemma database_summary_naive is_error rows t :
  database_summary is_error rows (NaiveDT t) = Err (ValueError "generated_at must be timezone-aware").
Proof. reflexivity. Qed.

(** *** Examples *)

Definition sample_record (at_ : aware) (record_type state : string) : DomainRecord.t :=
  DomainRecord.Mk record_type "BTC/USDT" state [] at_ None.

Definition sample_records (at_ : aware) : list DomainRecord.t :=
  (fun k => sample_record at_ k.1 k.2) <$>
    [("watchlist", "NEW"); ("watchlist", "NEW"); ("candle", "OK"); ("flow", "READY"); ("flow", "ODD")].

Definition sample_data (at_ : aware) : OverviewData.t :=
  OverviewData.Mk [] [] [] [] [] [DeliveryReceipt.Mk "BTC/USDT" NotificationChannel.TELEGRAM DeliveryStatus.SKIPPED "disabled"]
    OverviewMode.IN_MEMORY [].

Lemma overview_summary_exact_witness :
  let records := sample_records (Aware 0 0) in
  exists s, database_summary (fun _ => false) (Ok (count_query records)) (AwareDT (Aware 0 0)) = Ok s /\
    OverviewSummary.totals s !! "flow" = Some 2 /\
    OverviewSummary.notes s = ["Ignored 1 non-dashboard records."; "flow contains 1 records with unknown states."].
Proof.
  intros records. destruct (overview_summary_exact (fun _ => false) _ records (Aware 0 0) (count_query_grouped records))
    as (s & E & _ & _ & Hsec & _ & Hn).
  exists s. split; [exact E|]. split.
  - destruct (Hsec "flow" "flow" flow_members ltac:(in_sections)) as [Ht _]. rewrite Ht. vm_compute. reflexivity.
  - rewrite Hn; [vm_compute; reflexivity|]. unfold states_named, records, sample_records. rewrite Forall_fmap.
    repeat constructor; simpl; discriminate.
Defined.

Lemma overviews_agree_witness :
  let records := [sample_record (Aware 0 0) "delivery" "SKIPPED"; sample_record (Aware 0 0) "candle" "OK"] in
  exists s b, database_summary (fun _ => false) (Ok (count_query records)) (AwareDT (Aware 0 0)) = Ok s /\
    build_overview (sample_data (Aware 0 0)) (AwareDT (Aware 0 0)) = Ok b /\ same_counts s b.
Proof.
  intros records.
  destruct (overviews_agree (fun _ => false) _ records (sample_data (Aware 0 0)) (Aware 0 0) (count_query_grouped records))
    as (s & b & Es & Eb & _ & _ & Hsame & _).
  - by constructor; vm_compute.
  - by exists s, b.
Defined.

(** A record whose own state is [UNKNOWN] is counted under UNKNOWN, and missing from the
    note: two records, one reported. *)
Lemma unknown_state_undercounted :
  match database_summary (fun _ => false)
          (Ok (count_query [sample_record (Aware 0 0) "flow" "ODD"; sample_record (Aware 0 0) "flow" "UNKNOWN"]))
          (AwareDT (Aware 0 0)) with
  | Ok s => OverviewSummary.flow s !! "UNKNOWN" = Some 2 /\
            OverviewSummary.notes s = ["flow contains 1 records with unknown states."]
  | Err _ => False
  end.
Proof. by vm_compute. Qed.
