(* ===== verification/Ops.v ===== *)
(** * Operations: [ops/models.py], [ops/audit.py], [ops/backup.py], [ops/health.py]

    Audit events and their records, backup manifests, and the health of the database and of
    Redis.  Outside are pydantic's dumps, the file system ([FileSystem], which the manifest
    only reads) and the probes, whose result under the time limit is given. *)

From Stdlib Require Import Ascii.
From stdpp Require Import list strings gmap.
From S2P Require Import Prelude PyList PyStr PyTime IsoTime PyFloat PyValue Sha256 Candles Repository CandleRepository.
From S2P Require Import StructureRepository ReclaimRepository RuntimeStore Supervision Overview.
Open Scope Z_scope.

(** ** [ops/models.py] *)

Module AuditOutcome.
Inductive t : Type := SUCCESS | FAILURE | SKIPPED.
#[global] Instance eq_dec : EqDecision t.
Proof. solve_decision. Defined.
Definition value (o : t) : string :=
  match o with SUCCESS => "SUCCESS" | FAILURE => "FAILURE" | SKIPPED => "SKIPPED" end.
End AuditOutcome.

Module OperationalState.
Inductive t : Type := OK | DEGRADED | DOWN.
#[global] Instance eq_dec : EqDecision t.
Proof. solve_decision. Defined.
Definition value (s : t) : string :=
  match s with OK => "OK" | DEGRADED => "DEGRADED" | DOWN => "DOWN" end.
End OperationalState.

Module AuditEvent.
Record t : Type := Mk {
  occurred_at : aware;
  action : string;
  entity_type : string;
  entity_id : string;
  outcome : AuditOutcome.t;
  actor : string;
  details : pydict }.
End AuditEvent.

Module BackupArtifact.
Record t : Type := Mk { name : string; size_bytes : Z; sha256 : string }.
End BackupArtifact.

Module BackupManifest.
Record t : Type := Mk { created_at : aware; total_bytes : Z; artifacts : list BackupArtifact.t }.
End BackupManifest.

Module DependencyCheck.
Record t : Type := Mk {
  name : string;
  state : OperationalState.t;
  latency_ms : float;
  detail : string }.
End DependencyCheck.

Module OperationalHealth.
Record t : Type := Mk {
  checked_at : aware;
  state : OperationalState.t;
  checks : list DependencyCheck.t }.
End OperationalHealth.

(** ** [ops/audit.py] *)

Definition create_audit_event (occurred_at : datetime) (action entity_type entity_id : string)
    (outcome : AuditOutcome.t) (actor : string) (details : option pydict) : res AuditEvent.t :=
  occurred_at ← require_aware occurred_at "occurred_at must be timezone-aware";
  let action := str_strip action in
  let entity_type := str_strip entity_type in
  let entity_id := str_strip entity_id in
  let actor := str_strip actor in
  raise_if (existsb str_empty [action; entity_type; entity_id; actor]) "audit identifiers are required" ;;
  mret (AuditEvent.Mk occurred_at action entity_type entity_id outcome actor (default [] details)).

Section audit.
(** [event.model_dump(mode="json")] *)
Context (model_dump : AuditEvent.t -> pydict).

Definition to_domain_record (event : AuditEvent.t) : DomainRecordInput.t :=
  DomainRecordInput.Mk "audit" (AuditEvent.entity_id event) (AuditOutcome.value (AuditEvent.outcome event))
    (model_dump event) None.
End audit.

(** ** [ops/backup.py] *)

(** A resolved path: its components. *)
Definition Path : Type := list string.
Definition path_name (p : Path) : string := default "" (last p).
Definition path_parent (p : Path) : Path := take (length p - 1) p.
Definition with_name (p : Path) (name : string) : Path := path_parent p ++ [name].

(** The characters before and after the last dot. *)
Fixpoint last_dot (l : list ascii) : option (list ascii * list ascii) :=
  match l with
  | [] => None
  | c :: l' =>
      match last_dot l' with
      | Some (before, after) => Some (c :: before, after)
      | None => if bool_decide (c = "."%char) then Some ([], l') else None
      end
  end.

(** [path.suffix] and [path.with_suffix(suffix)]: a name that starts or ends with its only
    dot has no suffix. *)
Definition path_suffix (name : string) : string :=
  match last_dot (chars name) with
  | Some (c :: before, d :: after) => of_chars ("."%char :: d :: after)
  | _ => ""
  end.

Definition name_with_suffix (name suffix : string) : string :=
  match last_dot (chars name) with
  | Some (c :: before, d :: after) => of_chars (c :: before) +:+ suffix
  | _ => name +:+ suffix
  end.

Definition with_suffix (p : Path) (suffix : string) : res Path :=
  raise_if (str_empty (path_name p)) "path has an empty name" ;;
  mret (with_name p (name_with_suffix (path_name p) suffix)).

(** Files and directories; the bytes of a file are the characters of a string. *)
Record FileSystem : Type := MkFs { files : gmap Path string; dirs : gset Path }.

Definition is_file (fs : FileSystem) (p : Path) : bool := bool_decide (is_Some (files fs !! p)).
Definition content (fs : FileSystem) (p : Path) : string := default "" (files fs !! p).
Definition st_size (fs : FileSystem) (p : Path) : Z := Z.of_nat (length (chars (content fs p))).

(** [for chunk in iter(lambda: stream.read(n), b"")]: [digest] is what was hashed so far,
    [stream] what is left to read; [None] while it runs. *)
Fixpoint hash_chunks (n fuel : nat) (digest stream : list ascii) : option string :=
  match fuel with
  | O => None
  | S fuel =>
      match take n stream with
      | [] => Some (hexdigest (of_chars digest))
      | chunk => hash_chunks n fuel (digest ++ chunk) (drop n stream)
      end
  end.

Definition chunk_size : Z := 1024 * 1024.

Definition _file_sha256 (fuel : nat) (fs : FileSystem) (p : Path) : option string :=
  hash_chunks (Z.to_nat chunk_size) fuel [] (chars (content fs p)).

(** The reads of a file: a whole chunk each, a last one, and the empty one. *)
Definition reads (fs : FileSystem) (p : Path) : nat := Z.to_nat (st_size fs p / chunk_size + 2).

Section manifest.
Context (resolve : string -> Path) (fs : FileSystem).

Definition artifact (p : Path) : res BackupArtifact.t :=
  raise_if (negb (is_file fs p)) ("backup artifact is not a file: " +:+ path_name p) ;;
  match _file_sha256 (reads fs p) fs p with
  | Some sha => mret (BackupArtifact.Mk (path_name p) (st_size fs p) sha)
  | None => Err (Exn "RuntimeError" "out of fuel")
  end.

Definition build_backup_manifest (paths : list string) (created_at : datetime) : res BackupManifest.t :=
  created_at ← require_aware created_at "created_at must be timezone-aware";
  let resolved_paths := resolve <$> paths in
  raise_if (bool_decide (resolved_paths = [])) "at least one backup artifact is required" ;;
  raise_if (negb (bool_decide (NoDup resolved_paths))) "backup artifacts must be unique" ;;
  artifacts ← mapM artifact (py_sorted path_name resolved_paths);
  mret (BackupManifest.Mk created_at (foldr Z.add 0 (BackupArtifact.size_bytes <$> artifacts)) artifacts).
End manifest.

(** The steps of [write_backup_manifest] on the files: [write_text] empties the temporary
    file and writes it byte by byte, so that a crash may leave any part of it. *)
Inductive FileOp : Type :=
| MakeDirs (d : Path)
| Truncate (p : Path)
| Append (p : Path) (c : ascii)
| Rename (p q : Path).

Definition apply_op (fs : FileSystem) (op : FileOp) : FileSystem :=
  match op with
  | MakeDirs d => MkFs (files fs) (list_to_set ((fun n => take n d) <$> seq 0 (S (length d))) ∪ dirs fs)
  | Truncate p => MkFs (<[p := ""]> (files fs)) (dirs fs)
  | Append p c => MkFs (<[p := content fs p +:+ String c ""]> (files fs)) (dirs fs)
  | Rename p q =>
      match files fs !! p with
      | Some s => MkFs (<[q := s]> (delete p (files fs))) (dirs fs)
      | None => fs
      end
  end.

Definition apply_ops (fs : FileSystem) (ops : list FileOp) : FileSystem := fold_left apply_op ops fs.

Section write.
(** [manifest.model_dump_json(indent=2)] *)
Context (dump_json : BackupManifest.t -> string).

Definition write_ops (manifest : BackupManifest.t) (destination temporary : Path) : list FileOp :=
  Truncate temporary :: (Append temporary <$> chars (dump_json manifest)) ++ [Rename temporary destination].

Definition write_backup_manifest (fs : FileSystem) (manifest : BackupManifest.t) (destination : Path) :
    FileSystem * res Path :=
  let fs := apply_op fs (MakeDirs (path_parent destination)) in
  match with_suffix destination (path_suffix (path_name destination) +:+ ".tmp") with
  | Err e => (fs, Err e)
  | Ok temporary => (apply_ops fs (write_ops manifest destination temporary), Ok destination)
  end.
End write.

(** ** [ops/health.py] *)

(** A probe as a call meets it: what it raises under its time limit, if anything
    ([TimeoutError] when the limit is reached), and the two readings of [perf_counter]. *)
Record Probe : Type := MkProbe { probed : res unit; probe_started : float; probe_finished : float }.

Section health.
(** [except TimeoutError]: the built-in one, and no other error of that name. *)
Context (is_timeout_error : exn -> bool).

Definition run_probe (name : string) (probe : Probe) (timeout_seconds : float) : res DependencyCheck.t :=
  let normalized_name := str_strip name in
  raise_if (str_empty normalized_name) "probe name is required" ;;
  raise_if (timeout_seconds <=? fzero)%flt "timeout_seconds must be positive" ;;
  let '(state, detail) :=
    match probed probe with
    | Ok _ => (OperationalState.OK, "")
    | Err error =>
        (OperationalState.DOWN, if is_timeout_error error then "timeout" else exn_type error)
    end in
  mret (DependencyCheck.Mk normalized_name state
          (fmul (fsub (probe_finished probe) (probe_started probe)) (float_of_Z 1000)) detail).

Definition is_state (s : OperationalState.t) (c : DependencyCheck.t) : bool := bool_decide (DependencyCheck.state c = s).

Definition aggregate_state (checks : list DependencyCheck.t) : OperationalState.t :=
  match checks with
  | [] => OperationalState.DEGRADED
  | _ =>
      if forallb (is_state OperationalState.OK) checks then OperationalState.OK
      else if forallb (is_state OperationalState.DOWN) checks then OperationalState.DOWN
      else OperationalState.DEGRADED
  end.

(** The probes are gathered.  Only the two checks of the arguments raise, before any
    probe is awaited, so the first one in order is what [gather] raises. *)
Definition collect_health (probes : list (string * Probe)) (checked_at : datetime) (timeout_seconds : float) :
    res OperationalHealth.t :=
  checked_at ← require_aware checked_at "checked_at must be timezone-aware";
  checks ← mapM (fun p => run_probe p.1 p.2 timeout_seconds) probes;
  mret (OperationalHealth.Mk checked_at (aggregate_state checks) checks).

(** A client that is opened, asked and closed: what each step raises. *)
Record Client : Type := MkClient { opening : res unit; asking : res unit; closing : res unit }.

Inductive client_call : Type := Opened | Asked | Closed.

(** [try: ask finally: close] after opening: the calls made, and what is raised (an
    exception of the [finally] clause replaces that of the body). *)
Definition ask_and_close (c : Client) : list client_call * res unit :=
  match opening c with
  | Err e => ([Opened], Err e)
  | Ok _ => ([Opened; Asked; Closed], match closing c with Err e => Err e | Ok _ => asking c end)
  end.

(** [Database(url)], [SELECT 1], [dispose()] and [Redis.from_url(url)], [ping()], [aclose()]. *)
Definition probe_database (c : Client) : list client_call * res unit := ask_and_close c.
Definition probe_redis (c : Client) : list client_call * res unit := ask_and_close c.

(** The clients, and the readings of [perf_counter] around each probe. *)
Definition collect_default_health (database redis : Client) (clocks : (float * float) * (float * float))
    (checked_at : datetime) (timeout_seconds : float) : res OperationalHealth.t :=
  collect_health
    [("database", MkProbe (snd (probe_database database)) clocks.1.1 clocks.1.2);
     ("redis", MkProbe (snd (probe_redis redis)) clocks.2.1 clocks.2.2)] checked_at timeout_seconds.
End health.

(** ** Facts: suffixes *)

Lemma last_dot_split l before after : last_dot l = Some (before, after) -> l = before ++ "."%char :: after.
Proof.
  revert before. induction l as [|c l IH]; intros before; simpl; [done|].
  destruct (last_dot l) as [[b a]|]; [intros [= <- <-]; simpl; f_equal; by apply IH|].
  case_bool_decide as E; [|done]. intros [= <- <-]. by subst c.
Qed.

(** The temporary name is the name with [.tmp] after it, whatever its suffix. *)
Lemma temporary_name name : name_with_suffix name (path_suffix name +:+ ".tmp") = name +:+ ".tmp".
Proof.
  unfold name_with_suffix, path_suffix. destruct (last_dot (chars name)) as [[[|c before] [|d after]]|] eqn:E; try done.
  apply last_dot_split in E. rewrite <- (of_chars_chars name), E.
  assert (forall s t, of_chars s +:+ (of_chars t +:+ ".tmp") = of_chars (s ++ t) +:+ ".tmp") as Happ.
  { intros s t. induction s as [|x s IH]; [done|]. exact (f_equal (String x) IH). }
  by rewrite (Happ (c :: before) ("."%char :: d :: after)).
Qed.

Lemma string_app_length s t : String.length (s +:+ t) = (String.length s + String.length t)%nat.
Proof. induction s as [|c s IH]; simpl; [done|]. by f_equal. Qed.

Lemma with_suffix_tmp p :
  str_empty (path_name p) = false ->
  with_suffix p (path_suffix (path_name p) +:+ ".tmp") = Ok (with_name p (path_name p +:+ ".tmp")) /\
  with_name p (path_name p +:+ ".tmp") <> p.
Proof.
  intros Hn. unfold with_suffix. rewrite guard_pass by done. rewrite temporary_name. split; [done|]. intros E.
  assert (path_name (with_name p (path_name p +:+ ".tmp")) = path_name p +:+ ".tmp") as Hw
    by (unfold path_name at 1, with_name; by rewrite last_snoc).
  rewrite E in Hw. apply (f_equal String.length) in Hw. rewrite string_app_length in Hw. simpl in Hw. lia.
Qed.

(** ** Facts: hashing *)

Lemma hash_chunks_enough n fuel digest stream :
  (0 < n)%nat -> (length stream < n * (fuel - 1))%nat \/ (stream = [] /\ (1 <= fuel)%nat) ->
  hash_chunks n fuel digest stream = Some (hexdigest (of_chars (digest ++ stream))).
Proof.
  intros Hn. revert digest stream. induction fuel as [|fuel IH]; intros digest stream Hf; [lia|]. simpl.
  destruct stream as [|c stream]; [by rewrite take_nil, app_nil_r|]. destruct Hf as [Hf|[? _]]; [|done].
  destruct n as [|n]; [lia|]. cbn [take drop]. rewrite IH.
  - rewrite <- app_assoc. simpl. by rewrite take_drop.
  - rewrite length_cons, Nat.sub_succ, Nat.sub_0_r in Hf.
    destruct (decide (length stream <= n)%nat) as [Hle|Hgt].
    + right. split; [by apply drop_ge|]. destruct fuel; [rewrite Nat.mul_0_r in Hf|]; lia.
    + left. rewrite length_drop. destruct fuel as [|fuel]; [rewrite Nat.mul_0_r in Hf; lia|].
      rewrite Nat.sub_succ, Nat.sub_0_r. rewrite Nat.mul_succ_r in Hf. lia.
Qed.

(** Every file is read to its end, and the digest is that of the whole content. *)
Lemma file_sha256_total fs p fuel :
  (reads fs p <= fuel)%nat -> _file_sha256 fuel fs p = Some (hexdigest (content fs p)).
Proof.
  intros Hf. unfold _file_sha256, reads, st_size in *. set (l := chars (content fs p)) in *.
  rewrite hash_chunks_enough; [subst l; by rewrite app_nil_l, of_chars_chars|unfold chunk_size; lia|left].
  apply Nat2Z.inj_lt. rewrite Nat2Z.inj_mul, Z2Nat.id by (unfold chunk_size; lia).
  pose proof (Z.div_mod (Z.of_nat (length l)) chunk_size ltac:(done)) as Hdm.
  pose proof (Z.mod_pos_bound (Z.of_nat (length l)) chunk_size ltac:(done)) as Hmod.
  assert (Z.of_nat (length l) / chunk_size + 1 <= Z.of_nat (fuel - 1)) as Hq.
  { pose proof (Z.div_pos (Z.of_nat (length l)) chunk_size ltac:(lia) ltac:(done)). lia. }
  unfold chunk_size in *. nia.
Qed.

(** ** Facts: manifests *)

Definition artifact_of (fs : FileSystem) (p : Path) : BackupArtifact.t :=
  BackupArtifact.Mk (path_name p) (st_size fs p) (hexdigest (content fs p)).

Lemma artifact_exact fs p :
  artifact fs p =
  if is_file fs p then Ok (artifact_of fs p) else Err (ValueError ("backup artifact is not a file: " +:+ path_name p)).
Proof. unfold artifact. rewrite file_sha256_total by done. by destruct (is_file fs p). Qed.

Lemma artifacts_Ok fs ps :
  Forall (fun p => is_file fs p = true) ps -> mapM (artifact fs) ps = Ok (artifact_of fs <$> ps).
Proof.
  induction 1 as [|p ps Hp _ IH]; [done|]. cbn [mapM]. rewrite artifact_exact, Hp. bind_ok. rewrite IH. done.
Qed.

(** The first path that is no file is reported. *)
Lemma artifacts_Err fs ps p :
  first_where (fun p => negb (is_file fs p)) ps = Some p ->
  mapM (artifact fs) ps = Err (ValueError ("backup artifact is not a file: " +:+ path_name p)).
Proof.
  induction ps as [|q ps IH]; [done|]. cbn [mapM first_where]. rewrite artifact_exact.
  destruct (is_file fs q); cbn [negb]; [|by intros [= ->]]. intros H. bind_ok. by rewrite IH.
Qed.

Lemma sum_perm (l k : list Z) : l ≡ₚ k -> foldr Z.add 0 l = foldr Z.add 0 k.
Proof. induction 1; simpl; lia. Qed.

(** ** Facts: writing *)

Lemma content_insert fs p s ds : content (MkFs (<[p := s]> (files fs)) ds) p = s.
Proof. unfold content. cbn [files]. by rewrite lookup_insert_eq. Qed.

(** Writing the temporary file leaves every other file as it was. *)
Lemma appends_other fs p cs q :
  q <> p -> files (apply_ops fs (Append p <$> cs)) !! q = files fs !! q.
Proof.
  intros Hne. revert fs. induction cs as [|c cs IH]; intros fs; [done|]. unfold apply_ops in *. simpl. rewrite IH.
  cbn [files]. by rewrite lookup_insert_ne.
Qed.

Lemma appends_content fs p cs s :
  files fs !! p = Some s -> files (apply_ops fs (Append p <$> cs)) !! p = Some (s +:+ of_chars cs).
Proof.
  revert fs s. induction cs as [|c cs IH]; intros fs s Hs.
  - simpl. rewrite Hs. f_equal. clear. induction s as [|c s IH]; [done|]. exact (f_equal (String c) IH).
  - unfold apply_ops in *. simpl. rewrite (IH _ (s +:+ String c "")).
    + f_equal. clear. induction s as [|x s IH]; [done|]. exact (f_equal (String x) IH).
    + cbn [files]. rewrite lookup_insert_eq. unfold content. by rewrite Hs.
Qed.

(** ** Facts: health *)

(** What the check of a probe says. *)
Definition check_reports (is_timeout_error : exn -> bool) (p : string * Probe) (c : DependencyCheck.t) : Prop :=
  DependencyCheck.name c = str_strip p.1 /\
  match probed p.2 with
  | Ok _ => DependencyCheck.state c = OperationalState.OK /\ DependencyCheck.detail c = ""
  | Err e => DependencyCheck.state c = OperationalState.DOWN /\
      DependencyCheck.detail c = if is_timeout_error e then "timeout" else exn_type e
  end.

Section health_facts.
Context (is_timeout_error : exn -> bool).

Lemma run_probe_reports p timeout_seconds :
  (timeout_seconds <=? fzero)%flt = false -> str_empty (str_strip p.1) = false ->
  exists c, run_probe is_timeout_error p.1 p.2 timeout_seconds = Ok c /\ check_reports is_timeout_error p c.
Proof.
  intros Ht Hp. unfold run_probe, check_reports. cbv zeta. rewrite Hp, Ht. cbn [raise_if]. bind_ok.
  destruct (probed p.2); eexists; (split; [reflexivity|]); done.
Qed.

Lemma probes_report probes timeout_seconds :
  (timeout_seconds <=? fzero)%flt = false -> Forall (fun p => str_empty (str_strip p.1) = false) probes ->
  exists checks, mapM (fun p : string * Probe => run_probe is_timeout_error p.1 p.2 timeout_seconds) probes = Ok checks /\
    Forall2 (check_reports is_timeout_error) probes checks.
Proof.
  intros Ht. induction 1 as [|p probes Hp _ (checks & E & Hc)]; [by exists []|]. cbn [mapM].
  destruct (run_probe_reports p timeout_seconds Ht Hp) as (c & Ec & Hr). rewrite Ec. bind_ok. rewrite E. bind_ok.
  exists (c :: checks). split; [done|by constructor].
Qed.

Lemma aggregate_exact checks s :
  s <> OperationalState.DEGRADED ->
  aggregate_state checks = s <-> checks <> [] /\ Forall (fun c => DependencyCheck.state c = s) checks.
Proof.
  intros Hs.
  assert (forall s l, forallb (is_state s) l = true <-> Forall (fun c => DependencyCheck.state c = s) l) as Hall.
  { intros s' l. rewrite forallb_forall, Forall_forall. setoid_rewrite list_elem_of_In. unfold is_state.
    setoid_rewrite bool_decide_eq_true. done. }
  pose proof (Hall OperationalState.OK checks) as H1. pose proof (Hall OperationalState.DOWN checks) as H2.
  destruct checks as [|c checks]; [simpl; split; [by intros <-|by intros [? _]]|]. unfold aggregate_state.
  destruct (forallb (is_state OperationalState.OK) (c :: checks)) eqn:E1;
    [|destruct (forallb (is_state OperationalState.DOWN) (c :: checks)) eqn:E2].
  - split; [intros <-; split; [done|by apply H1]|]. intros [_ Hd]. inversion Hd as [|?? Hd1]; subst.
    simpl in E1. apply andb_true_iff in E1 as [E1 _]. by apply bool_decide_eq_true in E1.
  - split; [intros <-; split; [done|by apply H2]|]. intros [_ Hd]. destruct s; [apply H1 in Hd; congruence|done|done].
  - split; [by intros <-|]. intros [_ Hd]. destruct s; [apply H1 in Hd; congruence|done|apply H2 in Hd; congruence].
Qed.

Lemma reports_states probes checks (s : bool) :
  Forall2 (check_reports is_timeout_error) probes checks ->
  Forall (fun p => is_ok (probed p.2) = s) probes <->
  Forall (fun c => DependencyCheck.state c = if s then OperationalState.OK else OperationalState.DOWN) checks.
Proof.
  induction 1 as [|p c probes checks [_ Hpc] _ IH]; [by split|]. rewrite !Forall_cons, IH.
  destruct (probed p.2), s; simpl; destruct Hpc as [-> _]; split; intros []; by split.
Qed.
End health_facts.

(** ** Properties *)

(** A backup manifest is exact.  It is built exactly when there is a path, the
    resolved paths are distinct and all are files; otherwise the first thing that is wrong
    raises, and nothing is described.  Its artifacts are the files in the order of their
    names, each with its size and the SHA-256 of its whole content, whatever its length
    (the chunked reading ends after [reads] reads and hashes every byte once), and its
    total is the sum of the sizes. *)
Theorem backup_manifest_exact resolve fs paths t :
  let ps := resolve <$> paths in
  let sorted := py_sorted path_name ps in
  match build_backup_manifest resolve fs paths (AwareDT t) with
  | Ok m =>
      ps <> [] /\ NoDup ps /\ Forall (fun p => is_file fs p = true) ps /\
      BackupManifest.created_at m = t /\ sorted ≡ₚ ps /\
      BackupManifest.artifacts m =
        (fun p => BackupArtifact.Mk (path_name p) (st_size fs p) (hexdigest (content fs p))) <$> sorted /\
      BackupManifest.total_bytes m = foldr Z.add 0 (st_size fs <$> ps)
  | Err e =>
      (ps = [] /\ e = ValueError "at least one backup artifact is required") \/
      (ps <> [] /\ ~ NoDup ps /\ e = ValueError "backup artifacts must be unique") \/
      (exists p, first_where (fun p => negb (is_file fs p)) sorted = Some p /\
         e = ValueError ("backup artifact is not a file: " +:+ path_name p))
  end.
Proof.
  cbv zeta. unfold build_backup_manifest. cbn [require_aware]. bind_ok. cbv zeta. set (ps := resolve <$> paths).
  destruct (decide (ps = [])) as [E|Hne]; [rewrite (bool_decide_eq_true_2 (ps = [])) by done; left; by split|].
  rewrite (bool_decide_eq_false_2 (ps = [])) by done. cbn [raise_if]. bind_ok.
  destruct (decide (NoDup ps)) as [Hnd|Hnd]; [rewrite bool_decide_eq_true_2 by done|rewrite bool_decide_eq_false_2 by done; right; left; by split_and!].
  cbn [negb raise_if]. bind_ok. pose proof (py_sorted_perm path_name ps) as Hperm.
  destruct (first_where (fun p => negb (is_file fs p)) (py_sorted path_name ps)) as [p|] eqn:E.
  - rewrite (artifacts_Err _ _ p E). right. right. by exists p.
  - apply first_where_None in E.
    assert (Forall (fun p => is_file fs p = true) (py_sorted path_name ps)) as Hf
      by (eapply Forall_impl; [exact E|]; intros p Hp; cbn beta in Hp |- *; by destruct (is_file fs p)).
    rewrite artifacts_Ok by done. bind_ok. cbn [BackupManifest.created_at BackupManifest.artifacts BackupManifest.total_bytes].
    split_and!; try done; [by rewrite <- Hperm|].
    apply sum_perm. rewrite <- list_fmap_compose. unfold compose. simpl. by apply fmap_Permutation.
Qed.

(** C28: writing a manifest is atomic.  However far the steps get (a crash may leave any
    prefix of them done, any part of the text written), the destination holds what it held
    before or the whole new manifest, and no file but it and the temporary one is touched.
    When all are done it holds the manifest, and the temporary file is gone. *)
Theorem manifest_write_atomic dump_json fs manifest destination :
  str_empty (path_name destination) = false ->
  exists temporary,
    with_suffix destination (path_suffix (path_name destination) +:+ ".tmp") = Ok temporary /\ temporary <> destination /\
    let start := apply_op fs (MakeDirs (path_parent destination)) in
    let ops := write_ops dump_json manifest destination temporary in
    (forall k, let now := apply_ops start (take k ops) in
       (files now !! destination = files fs !! destination \/ files now !! destination = Some (dump_json manifest)) /\
       forall p, p <> destination -> p <> temporary -> files now !! p = files fs !! p) /\
    exists fs', write_backup_manifest dump_json fs manifest destination = (fs', Ok destination) /\
      files fs' = <[destination := dump_json manifest]> (delete temporary (files fs)).
Proof.
  intros Hn. destruct (with_suffix_tmp destination Hn) as [Hs Hne]. eexists. split; [exact Hs|]. split; [exact Hne|].
  set (tmp := with_name destination (path_name destination +:+ ".tmp")) in *. cbv zeta.
  set (start := apply_op fs (MakeDirs (path_parent destination))). set (json := dump_json manifest).
  assert (forall cs q, q <> tmp -> files (apply_ops start (Truncate tmp :: (Append tmp <$> cs))) !! q = files fs !! q) as Hother.
  { intros cs q Hq. change (apply_ops start (Truncate tmp :: (Append tmp <$> cs))) with
      (apply_ops (apply_op start (Truncate tmp)) (Append tmp <$> cs)). rewrite appends_other by done. cbn [apply_op files].
    by rewrite lookup_insert_ne. }
  assert (files (apply_ops start (write_ops dump_json manifest destination tmp)) =
    <[destination := json]> (delete tmp (files fs))) as Hall.
  { unfold write_ops. fold json. rewrite app_comm_cons. unfold apply_ops. rewrite fold_left_app.
    change (fold_left apply_op (Truncate tmp :: (Append tmp <$> chars json)) start) with
      (apply_ops start (Truncate tmp :: (Append tmp <$> chars json))). cbn [fold_left apply_op].
    assert (files (apply_ops start (Truncate tmp :: (Append tmp <$> chars json))) !! tmp = Some json) as ->.
    { change (apply_ops start (Truncate tmp :: (Append tmp <$> chars json))) with
        (apply_ops (apply_op start (Truncate tmp)) (Append tmp <$> chars json)).
      rewrite (appends_content _ _ _ "") by (cbn [apply_op files]; by rewrite lookup_insert_eq). by rewrite of_chars_chars. }
    cbn [files]. f_equal. apply map_eq. intros q. destruct (decide (q = tmp)) as [->|Hq]; [by rewrite !lookup_delete_eq|].
    rewrite !lookup_delete_ne by congruence. by apply Hother. }
  split.
  - intros k. destruct (decide (k <= S (length (chars json)))%nat) as [Hk|Hk].
    + assert (forall q, q <> tmp -> files (apply_ops start (take k (write_ops dump_json manifest destination tmp))) !! q = files fs !! q) as H.
      { intros q Hq. unfold write_ops. fold json. destruct k as [|k]; [done|]. cbn [take].
        rewrite take_app_le by (rewrite length_fmap; lia). rewrite <- fmap_take. by apply Hother. }
      split; [left; by apply H|]. intros p _ Hp. by apply H.
    + rewrite take_ge by (unfold write_ops; fold json; simpl; rewrite length_app, length_fmap; simpl; lia). rewrite Hall. split.
      * right. by rewrite lookup_insert_eq.
      * intros p Hp Hp'. by rewrite lookup_insert_ne, lookup_delete_ne.
  - eexists. split; [|exact Hall]. unfold write_backup_manifest. cbv zeta. by rewrite Hs.
Qed.

(** The health of the dependencies is reported exactly and a failing dependency never
    raises: for an aware time, a positive limit and named probes there is a report with one
    check for each probe, in order, under its stripped name; a check is OK with no detail
    when its probe passed, and DOWN with the word timeout or the type of the error when it
    did not; the whole is OK when there are checks and all are OK, DOWN when all are DOWN,
    and DEGRADED otherwise, also when there is no probe. *)
Theorem health_exact is_timeout_error probes t timeout_seconds :
  (timeout_seconds <=? fzero)%flt = false -> Forall (fun p => str_empty (str_strip p.1) = false) probes ->
  exists h, collect_health is_timeout_error probes (AwareDT t) timeout_seconds = Ok h /\
    OperationalHealth.checked_at h = t /\ Forall2 (check_reports is_timeout_error) probes (OperationalHealth.checks h) /\
    (OperationalHealth.state h = OperationalState.OK <->
       probes <> [] /\ Forall (fun p => is_ok (probed p.2) = true) probes) /\
    (OperationalHealth.state h = OperationalState.DOWN <->
       probes <> [] /\ Forall (fun p => is_ok (probed p.2) = false) probes).
Proof.
  intros Ht Hn. destruct (probes_report is_timeout_error probes timeout_seconds Ht Hn) as (checks & E & Hc).
  exists (OperationalHealth.Mk t (aggregate_state checks) checks). unfold collect_health. cbn [require_aware]. bind_ok. rewrite E.
  split; [done|]. split; [done|]. split; [exact Hc|]. cbn [OperationalHealth.state].
  rewrite (reports_states _ _ _ true Hc), (reports_states _ _ _ false Hc), !aggregate_exact by done.
  assert (probes <> [] <-> checks <> []) as -> by (inversion Hc; split; intros ?; done). done.
Qed.

(** A dependency that was opened is always closed, and the report survives anything a
    client raises. *)
Lemma probe_closes c : opening c = Ok tt -> fst (probe_database c) = [Opened; Asked; Closed] /\ fst (probe_redis c) = [Opened; Asked; Closed].
Proof. intros H. unfold probe_database, probe_redis, ask_and_close. by rewrite H. Qed.

(** Bad arguments raise before any probe is asked. *)
Lemma collect_health_naive is_timeout_error probes t timeout_seconds :
  collect_health is_timeout_error probes (NaiveDT t) timeout_seconds = Err (ValueError "checked_at must be timezone-aware").
Proof. reflexivity. Qed.

(** The report of the default dependencies never fails. *)
Lemma default_health_total is_timeout_error database redis clocks t timeout_seconds :
  (timeout_seconds <=? fzero)%flt = false ->
  exists h, collect_default_health is_timeout_error database redis clocks (AwareDT t) timeout_seconds = Ok h /\
    OperationalHealth.checked_at h = t /\ DependencyCheck.name <$> OperationalHealth.checks h = ["database"; "redis"].
Proof.
  intros Ht. unfold collect_default_health, collect_health. cbn [require_aware]. bind_ok.
  match goal with |- context [mapM _ ?ps] => destruct (probes_report is_timeout_error ps timeout_seconds Ht) as (checks & -> & Hc) end.
  - repeat constructor.
  - bind_ok. eexists. split; [reflexivity|]. split; [done|]. cbn [OperationalHealth.checks].
    inversion Hc as [|? c1 ? cs [N1 _] Hc1]; subst. inversion Hc1 as [|? c2 ? cs2 [N2 _] Hc2]; subst. inversion Hc2; subst.
    rewrite !fmap_cons, N1, N2. done.
Qed.


(** The audit trail.  An event is made exactly of an aware time and four names that
    are not blank, which are stripped.  Its record is accepted by the repository as the
    newest one, of type audit under the entity and the outcome; the overview counts it in
    no section; and no cleanup of the worker, at any time, removes it. *)
Theorem audit_trail_kept `{FromIso} `{!Table CandleKey OhlcvCandleRecord.t} `{!Table string SupportZoneRecord.t}
    `{!Table string StructureEventRecord.t} `{!Table string ReclaimAttemptRecord.t} utc_now model_dump
    at_time action entity_type entity_id outcome actor details db :
  match create_audit_event at_time action entity_type entity_id outcome actor details with
  | Err e =>
      (exists t, at_time = NaiveDT t) \/ Exists (fun s => str_empty (str_strip s) = true) [action; entity_type; entity_id; actor]
  | Ok event =>
      at_time = AwareDT (AuditEvent.occurred_at event) /\
      exists r, add utc_now db (to_domain_record model_dump event) = Ok (MkDatabase (tables db) (domain_records db ++ [r])) /\
        DomainRecord.record_type r = "audit" /\ DomainRecord.symbol r = str_strip entity_id /\
        DomainRecord.state r = AuditOutcome.value outcome /\ DomainRecord.payload r = model_dump event /\
        record_section (DomainRecord.record_type r) = None /\
        forall days policy now kept result,
          RetentionPolicy.new days RUNTIME_RECORD_TYPES = Ok policy ->
          cleanup policy (domain_records db ++ [r]) now = Ok (kept, result) -> r ∈ kept
  end.
Proof.
  unfold create_audit_event. destruct at_time as [t|t]; cbn [require_aware]; [|left; by exists t]. bind_ok. cbv zeta.
  destruct (existsb str_empty _) eqn:Eb; cbn [raise_if].
  - right. apply existsb_exists in Eb as (s & Hin & Hs). apply list_elem_of_In in Hin. apply Exists_exists.
    change [str_strip action; str_strip entity_type; str_strip entity_id; str_strip actor] with
      (str_strip <$> [action; entity_type; entity_id; actor]) in Hin.
    apply list_elem_of_fmap in Hin as (s' & -> & Hin). by exists s'.
  - bind_ok. cbn [existsb] in Eb. rewrite !orb_false_iff in Eb. destruct Eb as (_ & _ & He & _ & _). split; [done|].
    unfold add, to_domain_record. cbn [DomainRecordInput.record_type DomainRecordInput.symbol DomainRecordInput.state
      DomainRecordInput.payload AuditEvent.entity_id AuditEvent.outcome].
    rewrite str_strip_idemp, He. assert (str_empty (str_strip (AuditOutcome.value outcome)) = false) as -> by (by destruct outcome).
    cbn [str_empty orb raise_if]. eexists. split; [reflexivity|]. cbn [DomainRecord.record_type DomainRecord.symbol DomainRecord.state DomainRecord.payload].
    split_and!; [done|done|by destruct outcome|done|done|].
    intros days policy now kept result Hp Hc. destruct now as [now|now]; [|done].
    apply cleanup_exact in Hc as (_ & -> & _). apply list_elem_of_In, filter_In. split; [apply list_elem_of_In; set_solver|].
    unfold RetentionPolicy.new in Hp. guards. subst policy. unfold expired_record. cbn [RetentionPolicy.record_types DomainRecord.record_type].
    rewrite bool_decide_eq_false_2; [done|]. apply (bool_decide_unpack _). vm_compute. exact I.
Qed.

(** *** Examples *)

Definition sample_fs : FileSystem :=
  MkFs {[ ["srv"; "b.sql"] := "select 2"; ["srv"; "a.sql"] := "select 1"; ["srv"; "manifest.json"] := "old" ]} ∅.

Definition sample_manifest : BackupManifest.t := BackupManifest.Mk (Aware 0 0) 0 [].

Lemma manifest_write_atomic_witness :
  let dump m := "new" in
  let '(fs', r) := write_backup_manifest dump sample_fs sample_manifest ["srv"; "manifest.json"] in
  r = Ok ["srv"; "manifest.json"] /\ files fs' !! ["srv"; "manifest.json"] = Some "new" /\
  files fs' !! ["srv"; "manifest.json.tmp"] = None.
Proof.
  intros dump.
  destruct (manifest_write_atomic dump sample_fs sample_manifest ["srv"; "manifest.json"] eq_refl)
    as (tmp & Ht & Hne & _ & fs' & E & Hf).
  rewrite E. split; [reflexivity|]. rewrite Hf. vm_compute in Ht. injection Ht as <-. split; vm_compute; reflexivity.
Defined.

Lemma health_exact_witness :
  exists h, collect_health (fun e => bool_decide (exn_type e = "TimeoutError")) [("db", MkProbe (Ok tt) (Fl 0 0) (Fl 1 0)); (" redis ", MkProbe (Err (Exn "TimeoutError" "")) (Fl 0 0) (Fl 1 0))]
      (AwareDT (Aware 0 0)) (Fl 2 0) = Ok h /\
    OperationalHealth.state h = OperationalState.DEGRADED /\
    DependencyCheck.detail <$> OperationalHealth.checks h = [""; "timeout"].
Proof.
  match goal with |- exists h, collect_health ?f ?ps _ _ = _ /\ _ =>
    destruct (health_exact f ps (Aware 0 0) (Fl 2 0)) as (h & E & _ & _ & Hok & Hdown) end.
  - reflexivity.
  - repeat constructor.
  - exists h. split; [exact E|]. vm_compute in E. injection E as <-. split; reflexivity.
Defined.
