(* ===== verification/Api.v ===== *)
(** * The API: [core/enums.py], [api/], [overview/runtime.py], [main.py]

    Three GET routes under [/api/v1].  FastAPI is outside: an application is the list of
    its routes, of which [FastAPI(...)] brings some of its own (the parameter
    [framework_routes]; by default [/openapi.json], [/docs], [/docs/oauth2-redirect] and
    [/redoc]), and a request is answered by the handler of the first route with its method
    and path.  What the framework answers where there is none (404, 405, a redirect of a
    trailing slash) is its own.  A request meets the current time, the answer of the query
    of the overview and the clients of the probes. *)

From stdpp Require Import list strings gmap.
From S2P Require Import Prelude PyList PyStr PyTime IsoTime PyFloat PyValue Worker Overview Ops RuntimeStore.
Open Scope Z_scope.

(** ** [core/enums.py] *)

Module HealthState.
Inductive t : Type := OK | DEGRADED | CRITICAL | DOWN | MAINTENANCE.
#[global] Instance eq_dec : EqDecision t.
Proof. solve_decision. Defined.
Definition value (s : t) : string :=
  match s with
  | OK => "OK" | DEGRADED => "DEGRADED" | CRITICAL => "CRITICAL" | DOWN => "DOWN" | MAINTENANCE => "MAINTENANCE"
  end.
End HealthState.

Module WorkflowStage.
Inductive t : Type :=
| WATCH | REVIEW | VALIDATION_PENDING | READY | SENT | CANCELLED | EXPIRED | INVALIDATED | DATA_DEGRADED | NO_ACTION.
#[global] Instance eq_dec : EqDecision t.
Proof. solve_decision. Defined.
Definition value (s : t) : string :=
  match s with
  | WATCH => "WATCH" | REVIEW => "REVIEW" | VALIDATION_PENDING => "VALIDATION_PENDING" | READY => "READY"
  | SENT => "SENT" | CANCELLED => "CANCELLED" | EXPIRED => "EXPIRED" | INVALIDATED => "INVALIDATED"
  | DATA_DEGRADED => "DATA_DEGRADED" | NO_ACTION => "NO_ACTION"
  end.
End WorkflowStage.

(** ** The handlers *)

Section api.
Context (settings : Settings.t) (is_sqlalchemy_error is_timeout_error : exn -> bool).

(** What a request meets. *)
Record Request : Type := MkReq {
  now : aware;
  overview_rows : res (list row);
  database_client : Client;
  redis_client : Client;
  probe_clocks : (float * float) * (float * float) }.

(** [api/routes_health.py] *)
Definition health (r : Request) : pydict :=
  [("status", VStr (HealthState.value HealthState.OK)); ("app", VStr (Settings.app_name settings));
   ("environment", VStr (Settings.app_env settings));
   ("live_actions_enabled", VBool (Settings.enable_live_actions settings));
   ("timestamp", VStr (isoformat (now r)))].

(** [api/routes_dashboard.py], with the provider of [overview/runtime.py] *)
Definition get_overview_provider (r : Request) : datetime -> res OverviewSummary.t :=
  database_summary is_sqlalchemy_error (overview_rows r).
Definition dashboard_summary (r : Request) : res OverviewSummary.t := get_overview_provider r (AwareDT (now r)).

(** [api/routes_operations.py] *)
Definition get_operational_health (r : Request) : res OperationalHealth.t :=
  collect_default_health is_timeout_error (database_client r) (redis_client r) (probe_clocks r) (AwareDT (now r)) (Fl 2 0).
Definition operational_health (status : OperationalHealth.t) : OperationalHealth.t := status.

(** ** [main.py] *)

Inductive Body : Type :=
| BHealth (d : pydict)
| BSummary (s : OverviewSummary.t)
| BOperations (h : OperationalHealth.t)
| BFramework (content : string).

Record Route : Type := MkRoute { method : string; path : string; handler : Request -> res Body }.

Definition health_router : list Route := [MkRoute "GET" "/health" (fun r => mret (BHealth (health r)))].
Definition dashboard_router : list Route :=
  [MkRoute "GET" "/dashboard/summary" (fun r => BSummary <$> dashboard_summary r)].
Definition operations_router : list Route :=
  [MkRoute "GET" "/health/operations"
     (fun r => status ← get_operational_health r; mret (BOperations (operational_health status)))].

Record App : Type := MkApp { title : string; version : string; routes : list Route }.

Definition include_router (app : App) (router : list Route) (prefix : string) : App :=
  MkApp (title app) (version app)
    (routes app ++ ((fun r => MkRoute (method r) (prefix +:+ path r) (handler r)) <$> router)).

(** The routes [FastAPI(...)] registers when it is made. *)
Context (framework_routes : list Route).

Definition FastAPI (title version : string) : App := MkApp title version framework_routes.

Definition create_app : App :=
  let app := FastAPI (Settings.app_name settings) "0.1.0" in
  let app := include_router app health_router "/api/v1" in
  let app := include_router app dashboard_router "/api/v1" in
  include_router app operations_router "/api/v1".

(** [lifespan]: the database of the overview is disposed of however serving ends; an
    exception of the [finally] clause replaces that of the body. *)
Definition lifespan (serving close_overview_database : res unit) : res unit :=
  match close_overview_database with Err e => Err e | Ok _ => serving end.

Definition respond (app : App) (m p : string) (r : Request) : option (res Body) :=
  (fun route => handler route r) <$>
    first_where (fun route => bool_decide (method route = m) && bool_decide (path route = p)) (routes app).
End api.

(** The module [app.main], whose import of [overview/runtime.py] opens the database. *)
Definition main_app {Engine} (create_async_engine : string -> res Engine) settings is_error is_timeout
    (framework_routes : list Route) : res App :=
  database ← new_database create_async_engine (Settings.database_url settings);
  mret (create_app settings is_error is_timeout framework_routes).

Definition own_paths : list string := ["/api/v1/health"; "/api/v1/dashboard/summary"; "/api/v1/health/operations"].

Section facts.
Context (settings : Settings.t) (is_error is_timeout : exn -> bool) (framework : list Route).
Let app := create_app settings is_error is_timeout framework.

Lemma create_app_routes :
  routes app = framework ++
  [MkRoute "GET" "/api/v1/health" (fun r => mret (BHealth (health settings r)));
   MkRoute "GET" "/api/v1/dashboard/summary" (fun r => BSummary <$> dashboard_summary is_error r);
   MkRoute "GET" "/api/v1/health/operations"
     (fun r => status ← get_operational_health is_timeout r; mret (BOperations (operational_health status)))].
Proof. unfold app, create_app, include_router, FastAPI. cbn [routes]. by rewrite <- !app_assoc. Qed.

Lemma first_where_app {A} (f : A -> bool) l k :
  first_where f (l ++ k) = match first_where f l with Some x => Some x | None => first_where f k end.
Proof. induction l as [|x l IH]; [done|]. simpl. by destruct (f x). Qed.

(** A path of none of the three routes is the framework's. *)
Lemma respond_other m p r : p ∉ own_paths ->
  respond app m p r = respond (MkApp (title app) (version app) framework) m p r.
Proof.
  intros Hp. unfold respond. rewrite create_app_routes, first_where_app. cbn [routes].
  destruct (first_where _ framework); [done|]. cbn [first_where method path].
  unfold own_paths in Hp. rewrite !not_elem_of_cons in Hp. destruct Hp as (H1 & H2 & H3 & _).
  assert (forall x, x <> p -> bool_decide (x = p) = false) as Hne by (intros; by apply bool_decide_eq_false_2).
  by rewrite !Hne, !andb_false_r by congruence.
Qed.

Context (Hframework : Forall (fun route => method route ∈ ["GET"; "HEAD"] /\ path route ∉ own_paths) framework).

Lemma framework_silent m p : p ∈ own_paths ->
  first_where (fun route => bool_decide (method route = m) && bool_decide (path route = p)) framework = None.
Proof.
  intros Hp. destruct (first_where _ framework) as [route|] eqn:E; [|done]. exfalso.
  apply first_where_Some in E as [Hin Hb]. apply andb_true_iff in Hb as [_ Hb]. apply bool_decide_eq_true in Hb as <-.
  rewrite Forall_forall in Hframework. by apply Hframework in Hin as [_ []].
Qed.

(** The three paths, by their own routes. *)
Lemma respond_own m p r : p ∈ own_paths ->
  respond app m p r = if decide (m = "GET") then
    Some (if decide (p = "/api/v1/health") then mret (BHealth (health settings r))
          else if decide (p = "/api/v1/dashboard/summary") then BSummary <$> dashboard_summary is_error r
          else status ← get_operational_health is_timeout r; mret (BOperations (operational_health status)))
  else None.
Proof.
  intros Hp. unfold respond. rewrite create_app_routes, first_where_app, (framework_silent m p Hp).
  cbn [first_where method path]. destruct (decide (m = "GET")) as [->|Hm].
  - rewrite (bool_decide_eq_true_2 ("GET" = "GET")) by done. cbn [andb].
    unfold own_paths in Hp. rewrite !elem_of_cons, elem_of_nil in Hp. by destruct Hp as [->|[->|[->|[]]]].
  - by rewrite (bool_decide_eq_false_2 ("GET" = m)) by (intros <-; by apply Hm).
Qed.

Lemma respond_health r : respond app "GET" "/api/v1/health" r = Some (Ok (BHealth (health settings r))).
Proof. rewrite respond_own by set_solver. reflexivity. Qed.
Lemma respond_summary r :
  respond app "GET" "/api/v1/dashboard/summary" r = Some (BSummary <$> dashboard_summary is_error r).
Proof. rewrite respond_own by set_solver. reflexivity. Qed.
Lemma respond_operations r :
  respond app "GET" "/api/v1/health/operations" r =
    Some (status ← get_operational_health is_timeout r; mret (BOperations (operational_health status))).
Proof. rewrite respond_own by set_solver. reflexivity. Qed.

Lemma respond_reads m p r answer : respond app m p r = Some answer -> m ∈ ["GET"; "HEAD"].
Proof.
  destruct (decide (p ∈ own_paths)) as [Hp|Hp].
  - rewrite respond_own by done. case_decide as Hm; [|done]. subst. intros _. set_solver.
  - rewrite respond_other by done. unfold respond. cbn [routes].
    destruct (first_where _ framework) as [route|] eqn:E; [|done]. intros _.
    apply first_where_Some in E as [Hin Hb]. apply andb_true_iff in Hb as [Hb _]. apply bool_decide_eq_true in Hb as <-.
    rewrite Forall_forall in Hframework. by apply Hframework in Hin as [? _].
Qed.
End facts.

(** ** Property *)


(** *** A request while the database refuses connections, with FastAPI's documentation pages *)

Definition documentation_pages : list Route :=
  p ← ["/openapi.json"; "/docs"; "/docs/oauth2-redirect"; "/redoc"]; m ← ["GET"; "HEAD"];
  [MkRoute m p (fun _ => Ok (BFramework p))].

